(* ===== verification/_CoqProject ===== *)
-Q . S2P
Prelude.v
Bytes.v
MiscTimer.v
MrpTypes.v
MrpMatch.v
SrpTable.v
MrpPdu.v
SrpEncode.v
MrpCore.v
MrpMachine.v
MrpSort.v
MvrpVlan.v
AvbApp.v
SrpApp.v
MrpRx.v
MrpPeriodic.v
MrpInv.v
MrpFrames.v
MrpRxSafe.v
MrpKeeps.v
SrpWire.v
SrpTask.v
SrpSafety.v
AudioFifo.v
AudioFifoSpec.v
AudioFifoSafe.v
AudioFifoConc.v
Listener1722.v
Listener1722Spec.v
PtpTime.v
Talker1722.v
TalkerSpec.v
TalkerStream.v
TalkerListener.v
TalkerLock.v
AcmpTypes.v
Acmp.v
AcmpSpec.v
AcmpInv.v
AcmpSafe.v
AcmpReach.v
AcmpTalker.v
AcmpListeners.v
AcmpStuck.v
MediaClock.v
AvbUtil.v
AvbApi.v
AvbManager.v
AvbManagerSpec.v
AvbManagerStates.v
TalkerTask.v
TalkerUnits.v
AppHooks.v
AvbRefine.v
AecpTypes.v
AecpControls.v
Aecp.v
AecpRun.v
AecpAnswer.v
AecpAcquire.v
AecpHandover.v
AecpStream.v
AecpUpload.v
AecpSample.v
Maap.v
MaapSpec.v
MaapReserve.v
Adp.v
AdpSpec.v
Control.v
ControlSpec.v
ControlStart.v
GptpTypes.v
Gptp.v
GptpSafe.v
GptpRoles.v
GptpDelay.v
GptpSync.v
GptpFaults.v
GptpSample.v
