(* ===== verification/Prelude.v ===== *)
(** * Verification of lib_tsn

    lib_tsn is XMOS's Ethernet AVB/TSN library in C and xC: a device that is
    talker and listener of audio streams on a network with reserved bandwidth.
    This development models the parts that carry its logic, below
    [lib_tsn/src/], and proves what they promise.

    ** The program

    - Stream reservation, [srp/]: the Multiple Registration Protocol (MRP) with its
      applications MSRP (streams) and MVRP (VLANs).  One task ([avb_srp.xc]) serves,
      one at a time, Ethernet packets, a periodic tick, and requests of the AVB
      manager.  Its state is static: the array [attrs] of attribute records, each
      with two state machines and a leave timer, threaded on a sorted list; the
      reservations [stream_table] they refer to; the VLAN table; the packet under
      construction.
    - Connection management, [1722_1/avb_1722_1_acmp.c] and [..._periodic.xc]: the
      controller, talker and listener state machines of ACMP.  A packet moves a
      waiting machine to a state for its message; the machine's periodic function
      does the work, answers, and goes back to waiting.  A connection, once made,
      configures a stream.
    - Enumeration and control, [1722_1/avb_1722_1_aecp.c], [..._controls.xc],
      [..._efu.xc]: controllers read descriptors, set formats, rates and controls,
      acquire the device for themselves, and upload firmware.  Each command has one
      handler, which works on the packet in place; what it has become is the answer.
      A command for an acquired device makes it ask the owner whether it is still
      there; its periodic function counts the time the owner has.
    - Discovery, [1722_1/avb_1722_1_adp.xc]: the device advertises itself again and again,
      says so when it departs, and keeps a database of the entities it hears of.
    - Address allocation, [1722/maap/]: the device picks a range of multicast addresses
      at random, probes for it, and defends it once it is reserved; of two devices in
      conflict one gives way.  An address that is reserved sets off the rest: the source
      gets it as its destination, the talker's part of connection management starts,
      and the device advertises itself.
    - The control task, [1722_1/avb_1722_1.xc] with the dispatcher of [avb/avb.xc]: it
      hands packets to these four and calls their periodic functions in turn; they share
      a transmit buffer and act on each other and on the AVB manager through hooks.
    - Streams, [1722/]: the talker packs frames of samples into packets; the listener
      locks to a stream and sorts the samples of its packets into FIFOs, one for each
      channel ([audio_buffering/]), which another thread empties.
    - Time, [ptp/gptp.xc] and [ptp/gptp_server.xc]: the gPTP protocol (802.1AS).  A
      device measures the delay to its neighbour, elects the best clock from the
      announcements it hears, and as a slave takes its time and rate from the Sync and
      Follow_Up messages of its master.  One server; packets, link changes, a timer.
    - The AVB manager, [avb/avb.xc], between them: it keeps the records of sources,
      sinks and media clocks.  Applications and connection management change their
      settings and states through its interface ([api/avb.h]); a change of state
      makes it command the talkers and listeners and register streams with SRP.

    ** The files

    Foundations:
    - Prelude: machine integers; the state monad [M] with undefined behaviour
      ([None]: a null or stray pointer, an index out of an array, a trap, or fuel
      used up); its weakest preconditions [wp] and frame rules [keeps].
    - Bytes ([avb_1722_common.c], [nettypes.h], [avb_1722_1_common.c]): conversions
      between byte orders.
    - MiscTimer ([misc_timer.xc]): timeout timers over a wrapping 32-bit clock.

    Stream reservation:
    - MrpTypes ([avb_mrp_types.h], [avb_mrp.h], static data of [avb_mrp.c],
      [avb_srp.c], [avb_mvrp.c]): the records and the state [world].
    - MrpMatch ([avb_mrp.c]): allocation of attributes and the searches.
    - SrpTable ([avb_srp.c]): the reservation table, bandwidth, clean-up.
    - MrpPdu ([avb_mrp.c]): the packet under construction, packed events.
    - SrpEncode ([avb_srp.c], [avb_mvrp.c]): first values, merging, orders.
    - MrpCore ([avb_mrp.c]): [doTx], [mrp_update_state], MAD primitives,
      [mrp_init], [sort_attrs], events for all attributes.
    - MvrpVlan ([avb_mvrp.c]), AvbApp ([avb.xc], [avb.h]), SrpApp
      ([avb_srp.c]): VLANs, the AVB manager, indications and requests.
    - MrpRx ([avb_mrp.c]): reception.  MrpPeriodic ([avb_mrp.c]): the tick.
    - SrpTask ([avb_srp.xc]): the task, its inputs, the relation [task_step] and
      the [reachable] states.
    - MrpMachine, MrpSort, SrpWire: the theorems on state machines, the sorted list,
      and the format of talkers' first values; those on VLANs are in MvrpVlan.
    - MrpInv, MrpFrames, MrpRxSafe, MrpKeeps: the invariant, over the attributes that
      have begun ([Begun]: their leave timers are set up), the judgement [ensures] that
      carries it, and its proof for each operation.
    - SrpSafety: what holds in all reachable states, and a sample run.

    Streams:
    - AudioFifo ([audio_output_fifo.c], [.h]): the ring buffer of a channel and its
      operations.  AudioFifoSpec: they implement a bounded queue.  AudioFifoSafe: its
      reachable states.  AudioFifoConc: the accesses of the two threads to
      the shared ring, [push_access] and [pull_access], and their interleavings [conc_step].
    - Listener1722 ([avb_1722_listener_support_audio.c], [avb_1722_listener.xc]): the
      handler of packets over the state [listener], stream and FIFOs;
      Listener1722Spec its theorems.
    - PtpTime ([gptp.xc]): local time and the low 32 and 64 bits of PTP time.
    - Talker1722 ([avb_1722_talker_support_audio.c], [avb_1722_talker.xc]): packet
      headers, the packetiser, the configuration of a stream.  TalkerSpec: one call
      of it; TalkerStream: a configured stream, a run of frames;
      TalkerListener, TalkerLock: talker and listener together.
    - TalkerTask ([avb_1722_talker.xc], [audio_buffering.h]): the task of a talker unit,
      its streams by number in the state [talker_task], commands, the double buffer of
      frames ([talker_serve], [talker_run]); its invariant [task_ok].  TalkerUnits: what
      a unit sends with one stream and with two, VLANs, and the manager's commands as
      the unit sees them ([command_of]).

    Connection management:
    - AcmpTypes ([avb_1722_1_acmp.h], [avb_1722_1_acmp_pdu.h]): the records, the state
      [acmp] (its static variables, the transmit buffer, and what it sent), packets.
    - Acmp ([avb_1722_1_acmp.c], [avb_1722_1_acmp_periodic.xc]): the operations, the
      periodic functions, the inputs [acmp_input] and their effect [acmp_do].
    - AcmpSpec: packets are read as they were written.  AcmpInv: types of the state,
      [acmp_ok], and the judgement [runs].  AcmpSafe, AcmpReach: every operation keeps
      them; the reachable states.  AcmpTalker: the talker's answers.  AcmpListeners:
      the table of listeners as a set.  AcmpStuck: a way to stop the listener.

    Enumeration and control:
    - AecpTypes ([avb_1722_1_aecp_pdu.h], [api/avb_1722_1_aecp_aem.h],
      [aem_descriptor_types.h], [aem_descriptor_structs.h],
      [api/avb_1722_1_callbacks.h]): the state [aecp] - acquisition, upload, the
      received packet, the transmit buffer, the device - and the accesses to packets.
    - AecpControls ([avb_1722_1_aecp_controls.xc]): the handlers of settings, over any
      [avb_interface] and any [control_callbacks] of the application.
    - Aecp ([avb_1722_1_aecp.c], [avb_1722_1_aecp_efu.xc]): descriptors, acquisition,
      operations, uploads over any [flash_library], dispatch, the periodic function.
      The descriptor tables, which a script generates, are the class [AecpConfig].
    - AecpRun: what the handlers leave alone, and responses as functions of the packet.  AecpAnswer: every command has its answer.  AecpAcquire: who owns
      the device.  AecpHandover: a silent owner is replaced.  AecpStream: formats of
      streams.  AecpUpload: firmware images, over the laws [FlashLaws] of the flash
      memory.  AecpSample: a device, controllers, and packets.

    Address allocation and discovery:
    - Maap ([avb_1722_maap.xc], [avb_1722_maap_protocol.h]): the state [maap], requests,
      the periodic function, conflicts.  MaapSpec: conflicts are common addresses; two
      devices in conflict.  MaapReserve: runs of the periodic function; addresses of
      the pool; witnesses.
    - Adp ([avb_1722_1_adp.xc], [avb_1722_1_adp_pdu.h]): the state [adp], the database,
      packets, the two periodic functions.  AdpSpec: the database as a finite map, and
      two devices that discover each other.

    The control task:
    - Control ([avb_1722_1.xc], [avb.xc], the default hooks of
      [avb_1722_1_app_hooks.xc] and [avb_1722_maap_app_hooks.xc]): the components in one
      state [control], over any [avb_interface]; each is lifted to it ([on_acmp],
      [on_adp], [on_aecp], [on_maap]), its outputs interpreted by the hooks.
    - ControlSpec: packets reach their component and no other.  ControlStart: from the
      link to a device that has addresses and advertises itself; a sample device with one
      source, for the witnesses.

    The AVB manager:
    - AvbApi ([api/avb.h]): the interface, the class [avb_interface] of its operations
      on records, the settings as extensions of it, the laws [AvbInterfaceLaws].
    - AvbManager ([avb.xc]): the manager's state, registration of talkers and
      listeners, the changes of state, the instance of the interface.  The answers of
      SRP are the class [SrpAnswers].
    - AvbManagerSpec: the instance of the laws; the reachable states.
      AvbManagerStates: what enabling a source does, and the command that sets the
      sampling rate ([avb_1722_1_aecp.c]).
    - AppHooks ([avb_1722_1_app_hooks.xc]): the default
      hooks of connection management, over any [avb_interface].
    - AvbRefine: AvbApp, the manager as SRP sees it, is a view of AvbManager.

    Time:
    - GptpTypes ([gptp.h], [gptp_internal.h], [gptp_pdu.h], [gptp_config.h]): timestamps
      and their arithmetic, the layout of messages, the state [gptp] with its clock
      [ptp_clock] and its ports [port_vars].
    - Gptp ([gptp.xc], [gptp_server.xc]): the operations; the inputs [gptp_input] and the
      server's reaction [gptp_serve].  What a call reads from the clock, and when frames
      leave, is [gptp_env].
    - GptpSafe: the invariant [gptp_ok], the judgement [served], the reachable states.
      GptpRoles: messages are read as they were written; the order of clocks, the
      election.  GptpDelay: the measurement of a delay.  GptpSync: rate and time of a
      slave.  GptpFaults: a port without a master; paths on a device with two ports.
      GptpSample: two devices on a link, for the witnesses.

    Further parts:
    - MediaClock ([media_clock_support.c]): the recovery of the media clock from the
      timestamps of a stream, over the array of clocks, and a step of it.
    - AvbUtil ([avb_util.c]): numbers as text, over the memory the pointers point
      into, and what they write and read.

    ** How code becomes definitions

    A C function is a computation in [M] over the state of its component; its guards
    and early returns are written out in order.  Pointers to records of an array are
    indices, pointers into packets are offsets.  Integers are in [Z] and wrapped
    where the code truncates them.  Loops over arrays are [forM] or [forM_until];
    other loops have fuel ([loopM]): one round for each attribute and one for the end
    ([list_fuel]), one for each byte of the packet ([rx_fuel], [msg_fuel]), each round
    advancing by two bytes at least; the loops of the FIFO that step a pointer round
    the ring get enough rounds for the distance; [avb_itoa] has a round for each bit;
    the loop of an upload takes a page in two rounds and has 64 ([aa_fuel]); waiting
    for the flash memory has the rounds the environment grants ([flash_polls]).  Theorems that a computation is
    [Some] show that the fuel is enough.  A search that changes nothing until it
    finds an element is [list_find].  Preprocessor conditionals on the number of
    ports are tests on [MRP_NUM_PORTS]; the theorems hold for every configuration
    unless they say [MRP_NUM_PORTS = 1].  Sizes and the identity of the device are the
    fields of the classes [Config], [FifoConfig], [AcmpConfig], [AecpConfig],
    [MaapConfig], [AdpConfig], [ControlConfig], [GptpConfig] and [TalkerConfig].  Plain [char] is
    unsigned and the machine little-endian, as on the xcore.  An uninitialised local
    is the field [stack_junk] of the environment.  Hooks of the application, and
    frames handed to the Ethernet task, are events of an output list; what the
    application answers, and the clock, are arguments ([acmp_env]).

    ** What the theorems show

    - Safety: from every reachable state of a one-port device any control packet that
      ends 33 bytes before its buffer is served to the end ([SrpSafety], [MrpRxSafe]); the listener's handler serves any
      packet whose words lie in the buffer, FIFOs any operation ([Listener1722Spec],
      [AudioFifoSafe]); connection management serves any input ([AcmpReach]).
    - Invariants of all reachable states of the reservation stack, with any number of
      ports: the leave timers of attributes that have begun, one entry per stream, the
      list, pointers ([SrpSafety]).
    - The MRP state machines implement their tables ([MrpMachine]); an attribute that
      leaves is withdrawn when its timer has run out ([SrpTask]).
    - The list is sorted by permutation only ([MrpSort]); searches find the first
      match ([MrpMatch]); the table and the bandwidth are kept exactly ([SrpTable]).
    - FIFOs are queues ([AudioFifoSpec]), also under interleaving, unless the clock
      recovery adjusts them, and the interleaved accesses are those of the code
      ([AudioFifoConc]).
    - Talker and listener: samples arrive in their channel and in order
      ([TalkerListener]); a listener locks to a talker and its timestamps name the
      right sample ([TalkerLock]); packets account for all samples, and their rate is
      bounded from below ([TalkerStream]).
    - The talker's task: it serves all commands the manager gives, whatever is asked of
      the manager; one active stream is sent as the packetiser makes it ([TalkerUnits]).
    - Connection management: the state stays well typed ([AcmpReach]), packets round
      trip ([AcmpSpec]), every command to a talker that waits has one answer with
      the right status ([AcmpTalker]), the listeners of a stream are a bounded set
      ([AcmpListeners]).
    - Enumeration and control: acquisition follows the abstract rule, packets of others
      do not take it away ([AecpAcquire]), a silent owner without persistence is asked and
      replaced in bounded time ([AecpHandover]); commands have exactly one answer, unknown ones are refused
      ([AecpAnswer]); formats read back as they were set ([AecpStream]); an image is
      stored byte for byte ([AecpUpload]).
    - Address allocation: the test for conflicts, the defence, the device that gives way
      ([MaapSpec]); an undisturbed request reserves its range in bounded time, and when a
      range lies in the pool ([MaapReserve]).
    - Discovery: the database is a finite map of bounded size, and an entity that
      advertises itself or departs is known or forgotten ([AdpSpec]).
    - The control task: a frame is handled to the end by one component and leaves the
      others alone ([ControlSpec]); a device starts up by itself ([ControlStart]).
    - The AVB manager: only enabled sources transmit ([AvbManagerSpec]); what enabling
      a source sends to talkers and SRP ([AvbManagerStates]); what connecting a
      listener does to a sink ([AppHooks]); settings that must be refused are
      ([AvbApi]), over any manager with the laws of the interface; SRP's view of it
      is refined by it ([AvbRefine]).
    - The signed results of a step of the clock recovery do not overflow, and its
      correction is known up to ten units of the last place ([MediaClock]); numbers are written as they should
      ([AvbUtil]).
    - Time: any input is served, capable ports are near ([GptpSafe]); two devices measure
      the delay between them ([GptpDelay]); the best master algorithm is a comparison of
      numbers and elects one master ([GptpRoles]); a slave has its master's time
      and, up to the second order, its rate ([GptpSync]).
    - What does not hold is stated, too: the second of two streams is damaged, and
      the VLAN of one stream may be another's ([TalkerUnits]); a port that has lost
      its master announces itself but sends no time, and the path of announcements
      overruns ([GptpFaults]); [AcmpStuck]; [short_acquire_overruns] ([AecpAcquire]),
      [stale_challenge_wins] ([AecpSample]), [talker_packets_at_least],
      [avb_atoi_reads_backwards], the examples [packet_reads_past_end] and
      [listener_reads_past_end].

    ** Not modelled

    [debug_printf]; registration of MAC filters; the xC interface mechanism (an
    interface call is a direct call, as in the single-task configuration); the loop
    of the listener's task around the operations above, with its counters and
    commands; the audio task, whose frames are steps of the talker's runs; fast
    connect, which is off by default; the volume control of the FIFOs, which is off
    by default; the volumes of the AVB manager and its debug counters of listeners,
    and its registration of media; the task of the media clock server, which drives
    ports.  The serial number from OTP memory and the connection to the flash when
    the control task starts, and its variant that serves stream reservation in the
    same loop.  The client side of gPTP's channel protocol and its test clock.
    Total correctness of the transmit path of MRP is not claimed: the size check of
    [send] allows a message that does not fit. *)
From stdpp Require Import base list list_numbers numbers option strings.
From Stdlib Require Import ZArith Lia.

#[local] Open Scope Z_scope.

(** * Machine integers

    A C integer of width [w] is a [Z]; every place where the code truncates or
    reinterprets it applies one of the functions below. *)

Definition wrap (w x : Z) : Z := x mod 2 ^ w.
Definition u8 (x : Z) : Z := wrap 8 x.
Definition u16 (x : Z) : Z := wrap 16 x.
Definition u32 (x : Z) : Z := wrap 32 x.
Definition u64 (x : Z) : Z := wrap 64 x.

(** Two's complement reading of the low [w] bits. *)
Definition signed (w x : Z) : Z :=
  let y := wrap w x in if y <? 2 ^ (w - 1) then y else y - 2 ^ w.
Definition s16 (x : Z) : Z := signed 16 x.
Definition s32 (x : Z) : Z := signed 32 x.
Definition s64 (x : Z) : Z := signed 64 x.

Definition byte_ok (x : Z) : Prop := 0 <= x < 256.

(** [bool] as the C [int] a comparison or a flag yields. *)
Definition c_int (b : bool) : Z := if b then 1 else 0.
Definition truthy (x : Z) : bool := negb (x =? 0).

Lemma wrap_range w x : 0 <= w -> 0 <= wrap w x < 2 ^ w.
Proof. intros. apply Z.mod_pos_bound. lia. Qed.

Lemma wrap_small w x : 0 <= x < 2 ^ w -> wrap w x = x.
Proof. intros. by apply Z.mod_small. Qed.

Lemma u8_small x : 0 <= x < 256 -> u8 x = x.
Proof. apply (wrap_small 8). Qed.
Lemma u16_small x : 0 <= x < 65536 -> u16 x = x.
Proof. apply (wrap_small 16). Qed.
Lemma u32_small x : 0 <= x < 4294967296 -> u32 x = x.
Proof. apply (wrap_small 32). Qed.
Lemma u64_small x : 0 <= x < 18446744073709551616 -> u64 x = x.
Proof. apply (wrap_small 64). Qed.

Lemma u8_range x : 0 <= u8 x < 256.
Proof. apply (wrap_range 8). lia. Qed.
Lemma u16_range x : 0 <= u16 x < 65536.
Proof. apply (wrap_range 16). lia. Qed.
Lemma u32_range x : 0 <= u32 x < 4294967296.
Proof. apply (wrap_range 32). lia. Qed.

Lemma signed_small w x : 0 < w -> - 2 ^ (w - 1) <= x < 2 ^ (w - 1) -> signed w x = x.
Proof.
  intros Hw Hx. unfold signed, wrap.
  assert (2 ^ w = 2 * 2 ^ (w - 1)) as E by (rewrite <- Z.pow_succ_r by lia; f_equal; lia).
  destruct (decide (0 <= x)).
  - rewrite Z.mod_small by lia. destruct (Z.ltb_spec x (2 ^ (w - 1))); lia.
  - replace (x mod 2 ^ w) with (x + 2 ^ w).
    + destruct (Z.ltb_spec (x + 2 ^ w) (2 ^ (w - 1))); lia.
    + symmetry. rewrite <- (Z.mod_small (x + 2 ^ w) (2 ^ w)) by lia.
      rewrite <- (Z_mod_plus_full x 1 (2 ^ w)). f_equal. lia.
Qed.

Lemma s16_small x : -32768 <= x < 32768 -> s16 x = x.
Proof. apply (signed_small 16). lia. Qed.
Lemma s32_small x : -2147483648 <= x < 2147483648 -> s32 x = x.
Proof. apply (signed_small 32). lia. Qed.
Lemma s64_small x : - 2 ^ 63 <= x < 2 ^ 63 -> s64 x = x.
Proof. apply (signed_small 64). lia. Qed.

Lemma signed_range w x : 0 < w -> - 2 ^ (w - 1) <= signed w x < 2 ^ (w - 1).
Proof.
  intros Hw. unfold signed. pose proof (wrap_range w x ltac:(lia)).
  assert (2 ^ w = 2 * 2 ^ (w - 1)) by (rewrite <- Z.pow_succ_r by lia; f_equal; lia).
  destruct (Z.ltb_spec (wrap w x) (2 ^ (w - 1))); lia.
Qed.

(** The difference of two signed readings of a counter. *)
Lemma s32_diff a b : s32 (s32 a - s32 b) = s32 (a - b).
Proof.
  unfold s32, signed, wrap. change (2 ^ (32 - 1)) with 2147483648. change (2 ^ 32) with 4294967296.
  assert (forall x, exists k, (if x mod 4294967296 <? 2147483648 then x mod 4294967296
    else x mod 4294967296 - 4294967296) = x + k * 4294967296) as H.
  { intros x. pose proof (Z.div_mod x 4294967296 ltac:(lia)).
    destruct (_ <? _); [exists (- (x / 4294967296)) | exists (- (x / 4294967296) - 1)]; lia. }
  destruct (H a) as [k ->], (H b) as [l ->].
  replace (a + k * 4294967296 - (b + l * 4294967296)) with (a - b + (k - l) * 4294967296) by lia.
  by rewrite Z_mod_plus_full.
Qed.

(** Splits a list [l] whose length is a numeral, given [H : length l = n]. *)
Ltac destruct_len l H :=
  lazymatch type of H with
  | length _ = O => apply nil_length_inv in H; subst l
  | length _ = S _ =>
      let x := fresh "x" in
      destruct l as [|x l]; [discriminate H|]; apply (f_equal Nat.pred) in H; cbn in H;
      destruct_len l H
  end.

Lemma list_alter_insert_eq {A} (f : A -> A) (l : list A) i x :
  l !! i = Some x -> alter f i l = <[i := f x]> l.
Proof.
  intros H. apply list_eq. intros j. destruct (decide (j = i)) as [->|Hne].
  - rewrite list_lookup_alter_eq, H, list_lookup_insert_eq; [done|]. by eapply lookup_lt_Some.
  - by rewrite list_lookup_alter_ne, list_lookup_insert_ne by done.
Qed.

(** * A state monad with undefined behaviour

    [M S A] is a computation over the static data [S] of a C module.  [None]
    stands for an execution the C code gives no meaning to or ends in a trap:
    a dereferenced null pointer, an access outside an array, a call of
    [__builtin_trap], or a loop that has used up its fuel.  A theorem that a
    computation is not [None] is therefore a memory-safety and termination
    statement. *)

Definition M (S A : Type) : Type := S -> option (A * S).

#[global] Instance M_ret {S} : MRet (M S) := fun A a s => Some (a, s).
#[global] Instance M_bind {S} : MBind (M S) := fun A B k m s =>
  match m s with Some (a, s') => k a s' | None => None end.

Definition trap {S A} : M S A := fun _ => None.
Definition gets {S A} (f : S -> A) : M S A := fun s => Some (f s, s).
Definition modify {S} (f : S -> S) : M S unit := fun s => Some (tt, f s).
(** Reads a location that may not exist. *)
Definition load {S A} (f : S -> option A) : M S A := fun s =>
  match f s with Some a => Some (a, s) | None => None end.
(** Updates a location that may not exist. *)
Definition store {S} (f : S -> option S) : M S unit := fun s =>
  match f s with Some s' => Some (tt, s') | None => None end.
Definition skip {S} : M S unit := mret tt.
Definition whenM {S} (b : bool) (m : M S unit) : M S unit := if b then m else skip.

(** [for (x in l) f(x);] *)
Fixpoint forM {S A} (l : list A) (f : A -> M S unit) : M S unit :=
  match l with
  | [] => skip
  | x :: l' => f x ≫= fun _ => forM l' f
  end.

(** A [for] loop whose body may leave the loop ([break] or [return]) with a value. *)
Fixpoint forM_until {S A B} (l : list A) (f : A -> M S (option B)) : M S (option B) :=
  match l with
  | [] => mret None
  | x :: l' => f x ≫= fun r =>
      match r with Some b => mret (Some b) | None => forM_until l' f end
  end.

(** A loop with fuel: [body] returns [inl] to go round again, [inr] to leave. *)
Fixpoint loopM {S A B} (fuel : nat) (body : A -> M S (A + B)) (a : A) : M S B :=
  match fuel with
  | O => trap
  | S fuel' => body a ≫= fun r =>
      match r with inl a' => loopM fuel' body a' | inr b => mret b end
  end.

(** * Program logic

    [wp tot m Q s]: run from [s], [m] ends with a result and a state that satisfy
    [Q].  In the total mode ([tot = true]) it also runs to completion without
    undefined behaviour; in the partial mode ([tot = false]) that is not claimed. *)

Definition wp {S A} (tot : bool) (m : M S A) (Q : A -> S -> Prop) (s : S) : Prop :=
  match m s with Some (a, s') => Q a s' | None => tot = false end.

Section WP.
Context {S : Type} (tot : bool).
Implicit Types s : S.

Lemma wp_ret {A} (a : A) (Q : A -> S -> Prop) s : Q a s -> wp tot (mret a) Q s.
Proof. done. Qed.

Lemma wp_bind {A B} (m : M S A) (k : A -> M S B) Q s :
  wp tot m (fun a s' => wp tot (k a) Q s') s -> wp tot (m ≫= k) Q s.
Proof. unfold wp, mbind, M_bind. by destruct (m s) as [[]|]. Qed.

Lemma wp_mono {A} (m : M S A) (Q Q' : A -> S -> Prop) s :
  wp tot m Q s -> (forall a s', Q a s' -> Q' a s') -> wp tot m Q' s.
Proof. unfold wp. destruct (m s) as [[]|]; eauto. Qed.

Lemma wp_bind_assoc {A B C} (m : M S A) (k : A -> M S B) (k' : B -> M S C) Q Q' s :
  wp tot (m ≫= k) Q s -> (forall b s', Q b s' -> wp tot (k' b) Q' s') ->
  wp tot (m ≫= fun a => k a ≫= k') Q' s.
Proof.
  unfold wp, mbind, M_bind. destruct (m s) as [[a s1]|]; [|done].
  destruct (k a s1) as [[b s2]|]; [|done]. intros HQ Hk. exact (Hk b s2 HQ).
Qed.

Lemma wp_gets {A} (f : S -> A) (Q : A -> S -> Prop) s : Q (f s) s -> wp tot (gets f) Q s.
Proof. done. Qed.

Lemma wp_modify (f : S -> S) (Q : unit -> S -> Prop) s : Q tt (f s) -> wp tot (modify f) Q s.
Proof. done. Qed.

Lemma wp_load {A} (f : S -> option A) a (Q : A -> S -> Prop) s :
  f s = Some a -> Q a s -> wp tot (load f) Q s.
Proof. unfold wp, load. by intros ->. Qed.

Lemma wp_store (f : S -> option S) s' (Q : unit -> S -> Prop) s :
  f s = Some s' -> Q tt s' -> wp tot (store f) Q s.
Proof. unfold wp, store. by intros ->. Qed.

Lemma wp_skip (Q : unit -> S -> Prop) s : Q tt s -> wp tot skip Q s.
Proof. done. Qed.

Lemma wp_when (b : bool) m (Q : unit -> S -> Prop) s :
  (b = true -> wp tot m Q s) -> (b = false -> Q tt s) -> wp tot (whenM b m) Q s.
Proof. destruct b; cbn; intros H1 H2; [by apply H1 | by apply H2]. Qed.

(** The rule of [for] loops over a fixed list, with an invariant indexed by
    the elements still to come. *)
Lemma wp_forM {A} (l : list A) (f : A -> M S unit) (I : list A -> S -> Prop) s :
  I l s ->
  (forall x l' s', I (x :: l') s' -> wp tot (f x) (fun _ => I l') s') ->
  wp tot (forM l f) (fun _ => I []) s.
Proof.
  revert s. induction l as [|x l IH]; intros s HI Hf; cbn.
  - by apply wp_skip.
  - apply wp_bind. eapply wp_mono; [by apply Hf|]. intros ? s' HI'. by apply IH.
Qed.

(** A loop with fuel: an invariant indexed by a bound on the rounds still to
    go, which every round decreases. *)
Lemma wp_loopM {A B} (body : A -> M S (A + B)) (I : nat -> A -> S -> Prop) (Q : B -> S -> Prop) :
  (forall n a s, I n a s ->
    wp tot (body a) (fun r s' => match r with
      | inl a' => exists m, (m < n)%nat /\ I m a' s'
      | inr b => Q b s' end) s) ->
  forall fuel n a s, I n a s -> (n < fuel)%nat -> wp tot (loopM fuel body a) Q s.
Proof.
  intros Hbody fuel. induction fuel as [|fuel IH]; intros n a s HI Hn; [lia|]. cbn [loopM].
  apply wp_bind. eapply wp_mono; [by eapply Hbody|]. intros [a'|b] s'.
  - intros (m & Hm & HI'). eapply IH; [exact HI'|lia].
  - by intros HQ; apply wp_ret.
Qed.

Lemma wp_intro {A} (m : M S A) (Q : A -> S -> Prop) s a s' :
  m s = Some (a, s') -> Q a s' -> wp tot m Q s.
Proof. unfold wp. by intros ->. Qed.

Lemma wp_elim {A} (m : M S A) Q s :
  tot = true -> wp tot m Q s -> exists a s', m s = Some (a, s') /\ Q a s'.
Proof. unfold wp. intros ->. destruct (m s) as [[a s']|]; [eauto|done]. Qed.
End WP.

(** A search that changes nothing until it finds an element is [list_find]. *)
Lemma forM_until_find {S A B} (P : A -> Prop) `{!forall x, Decision (P x)} (l : list A)
    (f : A -> M S (option B)) (r : A -> B) (g : A -> S -> S) s :
  (forall x, x ∈ l -> f x s = if decide (P x) then Some (Some (r x), g x s) else Some (None, s)) ->
  forM_until l f s =
    match list_find P l with
    | Some (_, x) => Some (Some (r x), g x s)
    | None => Some (None, s)
    end.
Proof.
  induction l as [|x l IH]; intros Hf; [done|]. cbn [forM_until].
  unfold mbind at 1, M_bind at 1. rewrite Hf by constructor. cbn [list_find].
  destruct (decide (P x)); [done|]. rewrite IH by (intros; apply Hf; by constructor).
  destruct (list_find P l) as [[]|]; done.
Qed.

Lemma M_bind_run {S A B} (m : M S A) (k : A -> M S B) s a s' :
  m s = Some (a, s') -> (m ≫= k) s = k a s'.
Proof. intros E. unfold mbind, M_bind. by rewrite E. Qed.

Lemma forM_fmap {S A B} (g : A -> B) l (f : B -> M S unit) s : forM (g <$> l) f s = forM l (fun x => f (g x)) s.
Proof.
  revert s. induction l as [|x l IH]; intros s; [done|]. cbn [forM fmap list_fmap].
  unfold mbind, M_bind. destruct (f (g x) s) as [[]|]; [apply IH|done].
Qed.

Lemma forM_app {St A} (l1 l2 : list A) (f : A -> M St unit) (s : St) :
  forM (l1 ++ l2) f s = (_ ← forM l1 f; forM l2 f) s.
Proof.
  revert s. induction l1 as [|x l1 IH]; intros s; [done|]. cbn [forM app].
  unfold mbind, M_bind in *. destruct (f x s) as [[]|]; [apply IH|done].
Qed.

(** Inversion of a successful run of a bind. *)
Lemma M_bind_Some {S A B} (m : M S A) (k : A -> M S B) s r :
  (m ≫= k) s = Some r <-> exists a s', m s = Some (a, s') /\ k a s' = Some r.
Proof.
  unfold mbind, M_bind. destruct (m s) as [[a s']|].
  - split; [by eauto|]. intros (a' & s'' & H & ?). by simplify_eq.
  - split; [done|]. by intros (? & ? & ? & ?).
Qed.

(** ** Frame relations

    [keeps R m]: whenever [m] runs to completion, the initial and final states
    are related by the preorder [R].  The rules below are the database
    [keeps], by which frame properties of straight-line code are automatic. *)
Definition keeps {S A} (R : S -> S -> Prop) (m : M S A) : Prop :=
  forall s a s', m s = Some (a, s') -> R s s'.

Section Keeps.
Context {S : Type} (R : S -> S -> Prop) `{!PreOrder R}.

Lemma keeps_ret {A} (a : A) : keeps R (mret a).
Proof. intros s a' s' H. cbv in H. simplify_eq. reflexivity. Qed.
Lemma keeps_skip : keeps R skip.
Proof. apply keeps_ret. Qed.
Lemma keeps_trap {A} : keeps R (@trap S A).
Proof. done. Qed.
Lemma keeps_gets {A} (f : S -> A) : keeps R (gets f).
Proof. intros s a' s' H. cbv in H. simplify_eq. reflexivity. Qed.
Lemma keeps_load {A} (f : S -> option A) : keeps R (load f).
Proof.
  intros s a s' H. unfold load in H. destruct (f s); simplify_eq. reflexivity.
Qed.
Lemma keeps_modify f : (forall s, R s (f s)) -> keeps R (modify f).
Proof. intros H s a s' Hs. unfold modify in Hs. simplify_eq. apply H. Qed.
Lemma keeps_store f : (forall s s', f s = Some s' -> R s s') -> keeps R (store f).
Proof.
  intros H s a s' Hs. unfold store in Hs. destruct (f s) eqn:E; simplify_eq. by apply H.
Qed.
Lemma keeps_bind {A B} (m : M S A) (k : A -> M S B) :
  keeps R m -> (forall a, keeps R (k a)) -> keeps R (m ≫= k).
Proof.
  intros H1 H2 s b s'' (a & s' & E1 & E2)%M_bind_Some.
  etrans; [by eapply H1 | by eapply H2].
Qed.
Lemma keeps_when b m : keeps R m -> keeps R (whenM b m).
Proof. destruct b; cbn; [done | intros; apply keeps_skip]. Qed.
Lemma keeps_if {A} (b : bool) (m1 m2 : M S A) :
  keeps R m1 -> keeps R m2 -> keeps R (if b then m1 else m2).
Proof. by destruct b. Qed.
Lemma keeps_option {A B} (o : option B) (m1 : B -> M S A) (m2 : M S A) :
  (forall b, keeps R (m1 b)) -> keeps R m2 ->
  keeps R (match o with Some b => m1 b | None => m2 end).
Proof. by destruct o. Qed.
Lemma keeps_forM {A} (l : list A) (f : A -> M S unit) :
  (forall x, keeps R (f x)) -> keeps R (forM l f).
Proof.
  intros Hf. induction l; cbn; [apply keeps_skip | by apply keeps_bind].
Qed.
Lemma keeps_forM_until {A B} (l : list A) (f : A -> M S (option B)) :
  (forall x, keeps R (f x)) -> keeps R (forM_until l f).
Proof.
  intros Hf. induction l; cbn; [apply keeps_ret|].
  apply keeps_bind; [done|]. intros []; [apply keeps_ret | done].
Qed.
Lemma keeps_loopM {A B} n (f : A -> M S (A + B)) a :
  (forall x, keeps R (f x)) -> keeps R (loopM n f a).
Proof.
  intros Hf. revert a. induction n; intros a; cbn; [done|].
  apply keeps_bind; [done|]. intros []; [done | apply keeps_ret].
Qed.
End Keeps.

Create HintDb keeps.
#[export] Hint Resolve keeps_ret keeps_skip keeps_trap keeps_gets keeps_load
  keeps_when keeps_if keeps_option keeps_forM keeps_forM_until keeps_loopM : keeps.
#[export] Hint Extern 1 (PreOrder _) => typeclasses eauto : keeps.

(** Walks through a computation, proving [keeps] goals by the rules above and
    the lemmas of the database; stops at the primitive updates it cannot do. *)
Ltac keeps_step :=
  match goal with
  | |- keeps _ (_ ≫= _) => apply keeps_bind; [.. | intros ?]
  | |- keeps _ (if ?b then _ else _) => destruct b
  | |- keeps _ (match ?x with _ => _ end) => destruct x
  | |- keeps _ _ => solve [eauto with keeps]
  | |- keeps _ (whenM _ _) => apply keeps_when
  | |- keeps _ (forM _ _) => apply keeps_forM; [.. | intros ?]
  | |- keeps _ (forM_until _ _) => apply keeps_forM_until; [.. | intros ?]
  | |- keeps _ (loopM _ _ _) => apply keeps_loopM; [.. | intros ?]
  | |- PreOrder _ => apply _
  | |- keeps _ ?m => match m with context [match ?x with _ => _ end] => destruct x end
  end.
Ltac keeps_auto := repeat keeps_step.

(** A computation that leaves the state as it is. *)
Abbreviation reads := (keeps eq).

#[export] Instance eq_preorder {A} : PreOrder (@eq A) := _.
