(* ===== verification/Bytes.v ===== *)
(** Byte order and bit fields: [lib_tsn/src/1722/avb_1722_common.c], [.h], the
    conversions of [lib_tsn/src/util/nettypes.h], the little-endian view of
    integers in memory that the sources obtain with [memcpy] and [byterev], and
    the 1722.1 header accessors of [lib_tsn/src/1722_1/avb_1722_1_protocol.h]. *)
From S2P Require Import Prelude.
From stdpp Require Import base list list_numbers numbers.
From Stdlib Require Import ZArith Lia.
#[local] Open Scope Z_scope.

(** The type of IEEE 1722 frames ([avb_1722_common.h]). *)
Definition AVB_1722_ETHERTYPE : Z := 0x22f0.

(** * Conversions of [avb_1722_common.c] *)

(** [x] is the two-byte array the C function receives. *)
Definition ntoh_16 (x0 x1 : Z) : Z := s16 (Z.lor (Z.shiftl x0 8) x1).

Definition ntoh_32 (x0 x1 x2 x3 : Z) : Z :=
  s32 (Z.lor (Z.lor (Z.lor (Z.shiftl x0 24) (Z.shiftl x1 16)) (Z.shiftl x2 8)) x3).

(** The bytes stored in [x[0]], [x[1]]. *)
Definition hton_16 (v : Z) : list Z :=
  let v := u16 v in [u8 (Z.land (Z.shiftr v 8) 0xFF); u8 (Z.land v 0xFF)].

Definition hton_32 (v : Z) : list Z :=
  let v := u32 v in [u8 (Z.shiftr v 24); u8 (Z.shiftr v 16); u8 (Z.shiftr v 8); u8 v].

(** [g[7-i] = c[i]] and [g[i] = c[7-i]] for [i] from 0 to 7. *)
Definition get_64 (c : list Z) : list Z := (fun i => c !!! (7 - i)%nat) <$> seq 0 8.
Definition set_64 (c : list Z) : list Z := (fun i => c !!! (7 - i)%nat) <$> seq 0 8.

(** * Conversions of [nettypes.h] *)

Definition hton16 (x : Z) : list Z := [u8 (Z.shiftr (u16 x) 8); u8 (Z.land (u16 x) 0xff)].
Definition ntoh16 (x0 x1 : Z) : Z := u16 (Z.lor (Z.shiftl x0 8) x1).
Definition ntoh32 (x0 x1 x2 x3 : Z) : Z :=
  u32 (Z.lor (Z.lor (Z.lor (Z.shiftl x0 24) (Z.shiftl x1 16)) (Z.shiftl x2 8)) x3).
Definition hton32 (x : Z) : list Z :=
  let x := u32 x in
  [ Z.land (Z.shiftr x 24) 0xff; Z.land (Z.shiftr x 16) 0xff;
    Z.land (Z.shiftr x 8) 0xff; Z.land (Z.shiftr x 0) 0xff ].
(** [ret = (ret << 8) + x.data[i]], in a signed 64-bit accumulator. *)
Definition ntoh64 (x : list Z) : Z :=
  foldl (fun ret b => s64 (Z.shiftl ret 8 + b)) 0 x.
(** [ret.data[i] = x.data[9-i]] *)
Definition hton80 (x : list Z) : list Z := (fun i => x !!! (9 - i)%nat) <$> seq 0 10.

(** * Integers in little-endian memory (xcore)

    [byterev] is the 32-bit byte reversal of the XC library; the sources copy
    its result into byte arrays with [memcpy]. *)
Definition byterev (x : Z) : Z :=
  let x := u32 x in
  Z.lor (Z.lor (Z.shiftl (Z.land x 0xff) 24) (Z.shiftl (Z.land (Z.shiftr x 8) 0xff) 16))
        (Z.lor (Z.shiftl (Z.land (Z.shiftr x 16) 0xff) 8) (Z.shiftr x 24)).

(** The first [n] bytes of the object representation of [x]. *)
Definition le_bytes (n : nat) (x : Z) : list Z :=
  (fun i => Z.land (Z.shiftr x (8 * Z.of_nat i)) 0xff) <$> seq 0 n.

(** [x = (x << 8) + b], over the bytes of an array, in an unsigned 64-bit
    accumulator that starts at [x0] (which some callers leave uninitialised). *)
Definition be_accum (x0 : Z) (bs : list Z) : Z :=
  foldl (fun x b => u64 (Z.shiftl x 8 + b)) x0 bs.

(** * [avb_1722_1_common.c] *)

(** A [guid_t] is a union of a 64-bit integer [l] and its bytes [c]; the model
    keeps [l]. *)
Definition guid_c (l : Z) : list Z := le_bytes 8 l.
Definition guid_of_c (c : list Z) : Z := foldr (fun b x => b + 256 * x) 0 c.

Definition compare_guid (a : list Z) (b : Z) : bool :=
  forallb (fun i => a !!! i =? guid_c b !!! (7 - i)%nat) (seq 0 8).

(** * 1722.1 header bit fields *)

(** [*(p) = ( *(p) & (~(((1<<(hi-lo+1))-1)<<lo))) | ((val) << lo)] on a byte. *)
Definition SET_BITS (p lo hi val : Z) : Z :=
  u8 (Z.lor (Z.land p (Z.lnot (Z.shiftl (Z.shiftl 1 (hi - lo + 1) - 1) lo)))
            (Z.shiftl val lo)).

(** * Lemmas *)

Definition byte_okb (b : Z) : bool := (0 <=? b) && (b <? 256).

Lemma bytes_okb l : forallb byte_okb l = true -> Forall byte_ok l.
Proof.
  induction l as [|b l IH]; [by constructor|]. cbn. rewrite andb_true_iff. intros [Hb Hl].
  constructor; [|by apply IH]. unfold byte_okb in Hb.
  apply andb_true_iff in Hb as [H1%Z.leb_le H2%Z.ltb_lt]. by split.
Qed.

Lemma lor_shiftl_add a b n :
  0 <= n -> 0 <= b < 2 ^ n -> Z.lor (Z.shiftl a n) b = a * 2 ^ n + b.
Proof.
  intros Hn Hb. rewrite <- Z.shiftl_mul_pow2 by done.
  assert (Z.land (Z.shiftl a n) b = 0) as E.
  { destruct (decide (b = 0)) as [->|]; [apply Z.land_0_r|].
    apply Z.bits_inj'. intros k Hk. rewrite Z.land_spec, Z.bits_0.
    destruct (Z.ltb_spec k n).
    - by rewrite Z.shiftl_spec_low.
    - rewrite (Z.bits_above_log2 b k); [apply andb_false_r | lia |].
      apply Z.log2_lt_pow2; [lia|].
      eapply Z.lt_le_trans; [apply Hb|]. apply Z.pow_le_mono_r; lia. }
  pose proof (Z.add_lor_land (Z.shiftl a n) b). lia.
Qed.

Lemma land_255 x : Z.land x 255 = x mod 256.
Proof. apply (Z.land_ones x 8). lia. Qed.

Lemma shiftr_div a n : 0 <= n -> Z.shiftr a n = a / 2 ^ n.
Proof. apply Z.shiftr_div_pow2. Qed.

(** A byte that is written to counts modulo 256. *)
Lemma SET_BITS_wrap p lo hi v : SET_BITS p lo hi v = SET_BITS (u8 p) lo hi v.
Proof.
  unfold SET_BITS. set (m := Z.lnot _). set (w := Z.shiftl v lo). unfold u8, wrap.
  change (2 ^ 8) with 256. rewrite <- !land_255, !Z.land_lor_distr_l. f_equal.
  by rewrite <- !Z.land_assoc, (Z.land_comm m), Z.land_assoc, (Z.land_assoc 255), Z.land_diag, !Z.land_assoc.
Qed.

Lemma hton_16_eq v : hton_16 v = [u16 v / 256; v mod 256].
Proof.
  unfold hton_16. rewrite !land_255, shiftr_div by lia.
  pose proof (u16_range v). change (2 ^ 8) with 256.
  rewrite (Z.mod_small (u16 v / 256)) by (split; [apply Z.div_pos; lia|]; apply Z.div_lt_upper_bound; lia).
  rewrite !u8_small.
  - do 2 f_equal. unfold u16, wrap. change (2 ^ 16) with (256 * 256).
    rewrite Z.rem_mul_r by lia. rewrite Z.mul_comm, Z_mod_plus_full. apply Z.mod_mod. lia.
  - apply Z.mod_pos_bound. lia.
  - split; [apply Z.div_pos; lia|]. apply Z.div_lt_upper_bound; lia.
Qed.

Lemma hton_16_length v : length (hton_16 v) = 2%nat.
Proof. done. Qed.

Lemma be16_value x0 x1 : byte_ok x1 -> Z.lor (Z.shiftl x0 8) x1 = x0 * 256 + x1.
Proof. intros H. rewrite lor_shiftl_add; unfold byte_ok in *; lia. Qed.

Lemma be32_value x0 x1 x2 x3 :
  byte_ok x1 -> byte_ok x2 -> byte_ok x3 ->
  Z.lor (Z.lor (Z.lor (Z.shiftl x0 24) (Z.shiftl x1 16)) (Z.shiftl x2 8)) x3 =
  x0 * 2 ^ 24 + x1 * 2 ^ 16 + x2 * 2 ^ 8 + x3.
Proof.
  unfold byte_ok. intros H1 H2 H3. rewrite <- !Z.lor_assoc. rewrite (lor_shiftl_add x2) by lia.
  rewrite (lor_shiftl_add x1) by lia. rewrite lor_shiftl_add by lia. lia.
Qed.

(** The round trip of 16-bit fields, for the [unsigned short] readings the
    sources take of [ntoh_16]'s result. *)
Lemma ntoh_hton_16 v :
  0 <= v < 65536 -> exists x0 x1, hton_16 v = [x0; x1] /\ byte_ok x0 /\ byte_ok x1 /\
  u16 (ntoh_16 x0 x1) = v /\ x0 * 256 + x1 = v.
Proof.
  intros Hv. rewrite hton_16_eq, u16_small by done.
  assert (byte_ok (v mod 256)) by (apply Z.mod_pos_bound; lia).
  assert (v / 256 * 256 + v mod 256 = v) as E by (rewrite (Z.div_mod v 256) at 3; lia).
  assert (byte_ok (v / 256)).
  { split; [apply Z.div_pos; lia|]. apply Z.div_lt_upper_bound; lia. }
  eexists _, _. split_and!; [reflexivity|done|done| |done].
  unfold ntoh_16. rewrite be16_value, E by done. unfold s16, signed, u16.
  rewrite (wrap_small 16 v) by done. destruct (v <? 2 ^ (16 - 1)).
  - by rewrite wrap_small.
  - unfold wrap. rewrite <- (Z_mod_plus_full _ 1). change (2 ^ 16) with 65536.
    replace (v - 65536 + 1 * 65536) with v by lia. by rewrite Z.mod_small.
Qed.

Lemma u32_s32 x : u32 (s32 x) = u32 x.
Proof.
  unfold u32, s32, signed, wrap. destruct (_ <? _); [by rewrite Zmod_mod|].
  rewrite Zminus_mod, Z_mod_same_full, Z.sub_0_r, !Zmod_mod. done.
Qed.

(** The round trip of 32-bit fields. *)
Lemma ntoh_hton_32 v :
  exists x0 x1 x2 x3, hton_32 v = [x0; x1; x2; x3] /\ u32 (ntoh_32 x0 x1 x2 x3) = u32 v.
Proof.
  unfold hton_32, ntoh_32. eexists _, _, _, _. split; [reflexivity|].
  rewrite u32_s32, be32_value by apply u8_range. pose proof (u32_range v) as Hv.
  set (w := u32 v) in *. unfold u8. rewrite !shiftr_div by lia. unfold wrap.
  etrans; [|apply (u32_small w); lia]. f_equal. clearbody w. clear v.
  change (2 ^ 24) with 16777216. change (2 ^ 16) with 65536. change (2 ^ 8) with 256.
  Z.to_euclidean_division_equations. lia.
Qed.

Lemma set_64_rev c : length c = 8%nat -> set_64 c = reverse c.
Proof.
  intros Hc. destruct_len c Hc. reflexivity.
Qed.

Lemma set_64_length c : length (set_64 c) = 8%nat.
Proof. done. Qed.

Lemma get_set_64 c : length c = 8%nat -> get_64 (set_64 c) = c.
Proof.
  intros Hc. destruct_len c Hc. reflexivity.
Qed.

Lemma le_bytes_length n x : length (le_bytes n x) = n.
Proof. unfold le_bytes. by rewrite length_fmap, length_seq. Qed.

Lemma le_bytes_ok n x : Forall byte_ok (le_bytes n x).
Proof.
  unfold le_bytes. apply Forall_fmap, Forall_true. intros i. cbn. rewrite land_255.
  apply Z.mod_pos_bound. lia.
Qed.

Lemma le_bytes_succ n x : le_bytes (S n) x = x mod 256 :: le_bytes n (x / 256).
Proof.
  unfold le_bytes. rewrite <- cons_seq, <- fmap_S_seq. cbn. f_equal.
  - by rewrite land_255.
  - rewrite <- list_fmap_compose. apply list_fmap_ext. intros i j _. cbn.
    rewrite !land_255, !shiftr_div by lia. f_equal.
    change 256 with (2 ^ 8). rewrite Z.div_div, <- Z.pow_add_r by lia. do 2 f_equal. lia.
Qed.

Lemma guid_of_le_bytes n x : 0 <= x < 256 ^ Z.of_nat n -> guid_of_c (le_bytes n x) = x.
Proof.
  revert x. induction n as [|n IH]; intros x Hx.
  - change (256 ^ Z.of_nat 0) with 1 in Hx. cbn. lia.
  - rewrite le_bytes_succ. cbn. rewrite IH.
    + rewrite (Z.div_mod x 256) at 3 by lia. lia.
    + replace (Z.of_nat (S n)) with (Z.of_nat n + 1) in Hx by lia.
      rewrite Z.pow_add_r in Hx by lia. split; [apply Z.div_pos; lia|].
      apply Z.div_lt_upper_bound; lia.
Qed.

Lemma guid_of_guid_c l : 0 <= l < 2 ^ 64 -> guid_of_c (guid_c l) = l.
Proof. intros. by apply guid_of_le_bytes. Qed.

Lemma guid_c_inj l l' : 0 <= l < 2 ^ 64 -> 0 <= l' < 2 ^ 64 -> guid_c l = guid_c l' -> l = l'.
Proof. intros H H' E. rewrite <- (guid_of_guid_c l), <- (guid_of_guid_c l') by done. by f_equal. Qed.

Lemma compare_guid_iff a b :
  length a = 8%nat -> compare_guid a b = true <-> a = reverse (guid_c b).
Proof.
  intros Ha. unfold compare_guid.
  assert (length (guid_c b) = 8%nat) as Hb by apply le_bytes_length.
  generalize dependent (guid_c b). intros c Hc.
  destruct_len a Ha. destruct_len c Hc.
  cbn. unfold lookup_total. cbn.
  rewrite !andb_true_iff, !Z.eqb_eq. split.
  - intros (-> & -> & -> & -> & -> & -> & -> & -> & _). done.
  - intros [=]; subst. by split_and!.
Qed.

(** Accumulating eight bytes forgets what the accumulator held before. *)
Lemma u64_shift_absorb x b : u64 (Z.shiftl (u64 x) 8 + b) = u64 (Z.shiftl x 8 + b).
Proof.
  unfold u64, wrap. rewrite !Z.shiftl_mul_pow2 by lia.
  rewrite Z.add_mod, Z.mul_mod_idemp_l, <- Z.add_mod by lia. done.
Qed.

Lemma be_accum_value x0 bs :
  bs <> [] ->
  be_accum x0 bs = u64 (x0 * 256 ^ Z.of_nat (length bs) + foldl (fun x b => x * 256 + b) 0 bs).
Proof.
  intros Hne. unfold be_accum.
  assert (forall bs x y, foldl (fun x b => x * 256 + b) (x * 256 ^ 0 + y) bs =
     x * 256 ^ Z.of_nat (length bs) + foldl (fun x b => x * 256 + b) y bs) as Hlin.
  { clear. intros bs. induction bs as [|b bs IH]; intros x y; [done|]. cbn [foldl length].
    replace ((x * 256 ^ 0 + y) * 256 + b) with ((x * 256) * 256 ^ 0 + (y * 256 + b)) by lia.
    rewrite IH. f_equal. rewrite Nat2Z.inj_succ, Z.pow_succ_r by lia. lia. }
  assert (forall bs x y, u64 x = u64 y ->
    u64 (foldl (fun x b => u64 (Z.shiftl x 8 + b)) x bs) =
    u64 (foldl (fun x b => x * 256 + b) y bs)) as Hmod.
  { clear. intros bs. induction bs as [|b bs IH]; intros x y Hxy; [done|]. cbn. apply IH.
    replace (u64 (u64 (Z.shiftl x 8 + b))) with (u64 (Z.shiftl x 8 + b))
      by (unfold u64, wrap; by rewrite Z.mod_mod by lia).
    rewrite <- u64_shift_absorb, Hxy, u64_shift_absorb. by rewrite Z.shiftl_mul_pow2 by lia. }
  specialize (Hmod bs x0 x0 eq_refl). specialize (Hlin bs x0 0).
  rewrite Z.add_0_r in Hlin. change (256 ^ 0) with 1 in Hlin. rewrite Z.mul_1_r in Hlin.
  rewrite Hlin in Hmod. rewrite <- Hmod.
  destruct (exists_last Hne) as (l & b & ->). rewrite foldl_app. cbn.
  unfold u64, wrap. by rewrite Z.mod_mod by lia.
Qed.

Lemma be_accum_forgets x0 x1 bs :
  length bs = 8%nat -> be_accum x0 bs = be_accum x1 bs.
Proof.
  intros Hl. rewrite !be_accum_value by (by destruct bs). rewrite Hl.
  unfold u64, wrap. change (256 ^ Z.of_nat 8) with (2 ^ 64).
  rewrite (Z.add_comm (x0 * _)), (Z.add_comm (x1 * _)), !Z_mod_plus_full. done.
Qed.

(** ** Byte reversal *)

Lemma byterev_value x :
  byterev x = (x mod 256) * 2 ^ 24 + (x / 2 ^ 8) mod 256 * 2 ^ 16 +
              (x / 2 ^ 16) mod 256 * 2 ^ 8 + (x / 2 ^ 24) mod 256.
Proof.
  unfold byterev. rewrite !(land_255 : forall a, Z.land a 0xff = _), !shiftr_div by lia.
  unfold u32, wrap.
  set (b0 := x mod 256). set (b1 := (x / 2 ^ 8) mod 256).
  set (b2 := (x / 2 ^ 16) mod 256). set (b3 := (x / 2 ^ 24) mod 256).
  assert ((x mod 2 ^ 32) mod 256 = b0) as -> by (unfold b0; Z.to_euclidean_division_equations; lia).
  assert ((x mod 2 ^ 32 / 2 ^ 8) mod 256 = b1) as ->
    by (unfold b1; Z.to_euclidean_division_equations; lia).
  assert ((x mod 2 ^ 32 / 2 ^ 16) mod 256 = b2) as ->
    by (unfold b2; Z.to_euclidean_division_equations; lia).
  assert (x mod 2 ^ 32 / 2 ^ 24 = b3) as ->
    by (unfold b3; Z.to_euclidean_division_equations; lia).
  assert (0 <= b0 < 256 /\ 0 <= b1 < 256 /\ 0 <= b2 < 256 /\ 0 <= b3 < 256)
    by (unfold b0, b1, b2, b3; Z.to_euclidean_division_equations; lia).
  rewrite (lor_shiftl_add b2 b3 8) by lia.
  replace (Z.lor (Z.shiftl b0 24) (Z.shiftl b1 16)) with (Z.shiftl (b0 * 256 + b1) 16).
  - rewrite lor_shiftl_add by lia. lia.
  - rewrite (lor_shiftl_add b0 _ 24) by (rewrite ?Z.shiftl_mul_pow2; lia).
    rewrite !Z.shiftl_mul_pow2; lia.
Qed.

(** Equality of explicit lists of integers. *)
Ltac list_lia :=
  repeat match goal with
  | |- _ :: _ = _ :: _ => f_equal
  | |- [] = [] => reflexivity
  | |- @eq Z _ _ => Z.to_euclidean_division_equations; lia
  end.

(** Copied to memory, a reversed word is the word in network byte order. *)
Lemma le_bytes_byterev x :
  le_bytes 4 (byterev x) =
  [(x / 2 ^ 24) mod 256; (x / 2 ^ 16) mod 256; (x / 2 ^ 8) mod 256; x mod 256].
Proof.
  rewrite byterev_value, !le_bytes_succ.
  generalize (Z.mod_pos_bound x 256 eq_refl), (Z.mod_pos_bound (x / 2 ^ 8) 256 eq_refl),
    (Z.mod_pos_bound (x / 2 ^ 16) 256 eq_refl), (Z.mod_pos_bound (x / 2 ^ 24) 256 eq_refl).
  generalize (x mod 256), ((x / 2 ^ 8) mod 256), ((x / 2 ^ 16) mod 256), ((x / 2 ^ 24) mod 256).
  intros b0 b1 b2 b3 H0 H1 H2 H3. replace (le_bytes 0 _) with (@nil Z) by done.
  list_lia.
Qed.

Lemma le_bytes_byterev_high x :
  le_bytes 2 (Z.shiftr (byterev x) 16) = [(x / 2 ^ 8) mod 256; x mod 256].
Proof.
  rewrite byterev_value, shiftr_div, !le_bytes_succ by lia.
  generalize (Z.mod_pos_bound x 256 eq_refl), (Z.mod_pos_bound (x / 2 ^ 8) 256 eq_refl),
    (Z.mod_pos_bound (x / 2 ^ 16) 256 eq_refl), (Z.mod_pos_bound (x / 2 ^ 24) 256 eq_refl).
  generalize (x mod 256), ((x / 2 ^ 8) mod 256), ((x / 2 ^ 16) mod 256), ((x / 2 ^ 24) mod 256).
  intros b0 b1 b2 b3 H0 H1 H2 H3. replace (le_bytes 0 _) with (@nil Z) by done.
  list_lia.
Qed.

(** The number a sequence of bytes denotes in network byte order, and back. *)
Definition be_value (bs : list Z) : Z := foldl (fun x b => x * 256 + b) 0 bs.
Definition be_bytes (n : nat) (x : Z) : list Z := reverse (le_bytes n x).

Lemma be_accum_0 bs : bs <> [] -> be_accum 0 bs = u64 (be_value bs).
Proof. intros. by rewrite be_accum_value. Qed.

Lemma be_value_range bs :
  Forall byte_ok bs -> 0 <= be_value bs < 256 ^ Z.of_nat (length bs).
Proof.
  intros H. unfold be_value. induction bs as [|b bs IH] using rev_ind; [cbn; lia|].
  rewrite Forall_app, Forall_singleton in H. destruct H as [H Hb].
  rewrite foldl_app, length_app. cbn.
  specialize (IH H). unfold byte_ok in Hb.
  replace (Z.of_nat (length bs + 1)) with (Z.of_nat (length bs) + 1) by lia.
  rewrite Z.pow_add_r, Z.pow_1_r by lia. lia.
Qed.

Lemma be_value_reverse l : be_value (reverse l) = guid_of_c l.
Proof.
  unfold be_value, guid_of_c. induction l as [|b l IH]; [done|].
  rewrite reverse_cons, foldl_app. cbn. rewrite IH. lia.
Qed.

Lemma be_value_bytes n x : 0 <= x < 256 ^ Z.of_nat n -> be_value (be_bytes n x) = x.
Proof. intros. unfold be_bytes. rewrite be_value_reverse. by apply guid_of_le_bytes. Qed.

Lemma be_bytes_length n x : length (be_bytes n x) = n.
Proof. unfold be_bytes. by rewrite length_reverse, le_bytes_length. Qed.

Lemma be_bytes_ok n x : Forall byte_ok (be_bytes n x).
Proof. unfold be_bytes. apply Forall_reverse, le_bytes_ok. Qed.

Lemma be_value_inj bs bs' :
  Forall byte_ok bs -> Forall byte_ok bs' -> length bs = length bs' ->
  be_value bs = be_value bs' -> bs = bs'.
Proof.
  unfold be_value. revert bs'.
  induction bs as [|b bs IH] using rev_ind; intros bs' H H' Hl He.
  - symmetry. by apply nil_length_inv.
  - destruct bs' as [|b' bs' _] using rev_ind; [rewrite length_app in Hl; cbn in Hl; lia|].
    rewrite Forall_app, Forall_singleton in H, H'. destruct H as [H Hb], H' as [H' Hb'].
    unfold byte_ok in Hb, Hb'. rewrite !length_app in Hl. cbn in Hl.
    rewrite !foldl_app in He. cbn in He.
    assert (b = b') as -> by (Z.to_euclidean_division_equations; lia).
    f_equal. apply IH; [done|done|lia|lia].
Qed.
