(* ===== verification/MiscTimer.v ===== *)
(** The timeout timers of [lib_tsn/src/util/misc_timer.h] and [misc_timer.xc].

    [now] is the value [get_local_time()] reads from the 100 MHz hardware
    timer, a free-running 32-bit counter. *)
From S2P Require Import Prelude.
From stdpp Require Import base list numbers.
From Stdlib Require Import ZArith Lia.
#[local] Open Scope Z_scope.

(** The reference clock of the xcore, from the platform header [xs1.h]. *)
Definition XS1_TIMER_KHZ : Z := 100000.
Definition TICKS_PER_CENTISECOND : Z := XS1_TIMER_KHZ * 10.

Record avb_timer : Type := MkTimer {
  timeout : Z;             (* unsigned int *)
  period : Z;              (* unsigned int *)
  active : Z;              (* int *)
  timeout_multiplier : Z;  (* int *)
}.

#[global] Instance avb_timer_eq_dec : EqDecision avb_timer.
Proof. solve_decision. Defined.

(** The value of a timer in static storage. *)
Definition zero_timer : avb_timer := MkTimer 0 0 0 0.

(** [((int)((B) - (A)) < 0)] *)
Definition timeafter (A B : Z) : bool := s32 (B - A) <? 0.

Definition init_avb_timer (mult : Z) (tmr : avb_timer) : avb_timer :=
  MkTimer (timeout tmr) (period tmr) 0 mult.

Definition start_avb_timer (now period_cs : Z) (tmr : avb_timer) : avb_timer :=
  MkTimer (u32 (now + u32 (period_cs * TICKS_PER_CENTISECOND)))
          (u32 (period_cs * TICKS_PER_CENTISECOND))
          (timeout_multiplier tmr) (timeout_multiplier tmr).

Definition avb_timer_expired (now : Z) (tmr : avb_timer) : bool * avb_timer :=
  if active tmr =? 0 then (false, tmr)
  else
    let tmr :=
      if timeafter now (timeout tmr)
      then MkTimer (u32 (now + period tmr)) (period tmr) (active tmr - 1)
                   (timeout_multiplier tmr)
      else tmr in
    (active tmr =? 0, tmr).

Definition stop_avb_timer (tmr : avb_timer) : avb_timer :=
  MkTimer (timeout tmr) (period tmr) 0 (timeout_multiplier tmr).

(** A run of polls at the absolute times [ts] (ticks that do not wrap; the
    hardware counter shows [u32 t]), with the number of times it fired. *)
Fixpoint poll (ts : list Z) (tmr : avb_timer) : list Z * avb_timer :=
  match ts with
  | [] => ([], tmr)
  | t :: ts' =>
      let '(fired, tmr') := avb_timer_expired (u32 t) tmr in
      let '(l, tmr'') := poll ts' tmr' in
      ((if fired then t :: l else l), tmr'')
  end.

(** * Lemmas *)

Lemma timeafter_false T now :
  0 <= T - now < 2 ^ 31 -> timeafter (u32 now) (u32 T) = false.
Proof.
  intros H. unfold timeafter, s32, signed, u32, wrap.
  replace ((T mod 2 ^ 32 - now mod 2 ^ 32) mod 2 ^ 32) with (T - now).
  - change (2 ^ (32 - 1)) with (2 ^ 31). destruct (Z.ltb_spec (T - now) (2 ^ 31)); lia.
  - rewrite <- Zminus_mod. symmetry. apply Z.mod_small. lia.
Qed.

Lemma timeafter_true T now :
  0 < now - T <= 2 ^ 31 -> timeafter (u32 now) (u32 T) = true.
Proof.
  intros H. unfold timeafter, s32, signed, u32, wrap. rewrite <- Zminus_mod.
  replace ((T - now) mod 2 ^ 32) with (T - now + 2 ^ 32).
  - change (2 ^ (32 - 1)) with (2 ^ 31).
    destruct (Z.ltb_spec (T - now + 2 ^ 32) (2 ^ 31)); lia.
  - rewrite <- (Z_mod_plus_full (T - now) 1). symmetry. apply Z.mod_small. lia.
Qed.

Lemma avb_timer_expired_clears now tmr tmr' :
  avb_timer_expired now tmr = (true, tmr') -> active tmr <> 0 /\ active tmr' = 0.
Proof.
  unfold avb_timer_expired. destruct (Z.eqb_spec (active tmr) 0); [done|].
  intros [= E <-]. apply Z.eqb_eq in E. done.
Qed.

(** Time [T] is the deadline the (running) timer compares against, [t] the
    last time it was polled; [active] periods are still to count, and the
    deadline lies between the earliest and the latest instant at which the
    periods counted so far can have ended when polls are at most [G] apart. *)
Definition deadline (t0 P G m T t : Z) (tmr : avb_timer) : Prop :=
  timeout tmr = u32 T /\ period tmr = P /\ t <= T <= t + P /\
  t0 + (m - active tmr + 1) * P <= T <= t0 + (m - active tmr) * (P + G) + P.

(** Successive poll times, from [t] on, never more than [G] apart. *)
Fixpoint polled_within (G t : Z) (ts : list Z) : Prop :=
  match ts with
  | [] => True
  | t1 :: ts' => t <= t1 <= t + G /\ polled_within G t1 ts'
  end.

(** Polls at even distances. *)
Lemma polled_steps G t0 n k :
  0 <= G -> polled_within G (t0 + G * Z.of_nat k) ((fun i => t0 + G * Z.of_nat i) <$> seq (S k) n).
Proof. intros HG. revert k. induction n as [|n IH]; intros k; [done|]. cbn. split; [nia|]. apply (IH (S k)). Qed.

Lemma poll_stopped ts tmr : active tmr = 0 -> poll ts tmr = ([], tmr).
Proof.
  intros E. induction ts as [|t ts IH]; [done|]. cbn.
  unfold avb_timer_expired. rewrite E. cbn. by rewrite IH.
Qed.

Section Run.
Context (t0 P G m : Z) (HP : 0 <= P) (HG : 0 <= G) (HPG : P + G < 2 ^ 31).

(** One poll of a running timer: it stays before its deadline, counts one
    period, or fires. *)
Lemma avb_timer_expired_step T t t1 tmr :
  deadline t0 P G m T t tmr -> 0 < active tmr -> t <= t1 <= t + G ->
  (t1 <= T /\ avb_timer_expired (u32 t1) tmr = (false, tmr) /\
   deadline t0 P G m T t1 tmr) \/
  (exists tmr', avb_timer_expired (u32 t1) tmr = (active tmr =? 1, tmr') /\
   active tmr' = active tmr - 1 /\ T < t1 <= T + G /\
   deadline t0 P G m (t1 + P) t1 tmr').
Proof.
  intros (Ht & Hp & Hw & HT) Ha Ht1. unfold avb_timer_expired, deadline.
  rewrite (proj2 (Z.eqb_neq (active tmr) 0)) by lia. rewrite Ht.
  destruct (Z.le_gt_cases t1 T).
  - left. rewrite timeafter_false by lia.
    rewrite (proj2 (Z.eqb_neq (active tmr) 0)) by lia. split_and!; try done; lia.
  - right. rewrite timeafter_true by lia.
    exists (MkTimer (u32 (u32 t1 + period tmr)) (period tmr) (active tmr - 1)
      (timeout_multiplier tmr)). cbn. split_and!; [|reflexivity|..].
    + f_equal. apply eq_true_iff_eq. rewrite !Z.eqb_eq. lia.
    + lia.
    + lia.
    + rewrite Hp. unfold u32, wrap. by rewrite ?Z.add_mod_idemp_l by lia.
    + done.
    + lia.
    + lia.
    + nia.
    + nia.
Qed.

Lemma poll_window ts : forall tmr T t,
  deadline t0 P G m T t tmr -> 0 < active tmr <= m -> polled_within G t ts ->
  (exists t1, (poll ts tmr).1 = [t1] /\ t0 + m * P < t1 <= t0 + m * (P + G)) \/
  ((poll ts tmr).1 = [] /\ Forall (fun t1 => t1 <= t0 + m * (P + G)) ts).
Proof.
  induction ts as [|t1 ts IH]; intros tmr T t Hd Ha Hts; [by right|].
  destruct Hts as [Ht1 Hts]. cbn [poll].
  destruct (avb_timer_expired_step T t t1 tmr Hd) as
    [(Hle & -> & Hd1)|(tmr' & -> & Ha' & Hlt & Hd1)]; [lia|done|..].
  - specialize (IH tmr T t1 Hd1 Ha Hts). destruct (poll ts tmr) as [l tmr''].
    destruct IH as [?|[? ?]]; [by left|right]. split; [done|]. constructor; [|done].
    destruct Hd as (_ & _ & _ & _ & HT). nia.
  - destruct Hd as (_ & _ & _ & HT1 & HT2). destruct (Z.eqb_spec (active tmr) 1) as [E|E].
    + rewrite poll_stopped by lia. left. exists t1. split; [done|]. rewrite E in *. lia.
    + specialize (IH tmr' _ t1 Hd1 ltac:(lia) Hts). destruct (poll ts tmr') as [l tmr''].
      destruct IH as [?|[? ?]]; [by left|right]. split; [done|].
      constructor; [|done]. nia.
Qed.
End Run.

(** A timer initialised with multiplier [m] and started at tick [t0] with a
    period of [period_cs] centiseconds, then polled from [t0] on at times never
    more than [G] ticks apart, fires at most once, not before [m] whole periods
    have elapsed and not later than [m * (P + G)] ticks after the start, through
    wrap-arounds of the 32-bit hardware counter. *)
Theorem avb_timer_fires_in_window (t0 period_cs G m : Z) (ts : list Z) (tmr : avb_timer) :
  let P := period_cs * TICKS_PER_CENTISECOND in
  0 <= period_cs -> 0 <= G -> P + G < 2 ^ 31 -> 0 < m -> polled_within G t0 ts ->
  let fired := (poll ts (start_avb_timer (u32 t0) period_cs (init_avb_timer m tmr))).1 in
  (exists t, fired = [t] /\ t0 + m * P < t <= t0 + m * (P + G)) \/
  (fired = [] /\ Forall (fun t => t <= t0 + m * (P + G)) ts).
Proof.
  intros P Hcs HG HPG Hm Hts fired.
  assert (0 <= P < 2 ^ 31) by (unfold P, TICKS_PER_CENTISECOND, XS1_TIMER_KHZ in *; lia).
  apply (poll_window t0 P G m) with (T := t0 + P) (t := t0); try done; try lia.
  unfold deadline, start_avb_timer. cbn. fold P. unfold u32, wrap.
  rewrite (Z.mod_small P) by lia. rewrite Z.add_mod_idemp_l by lia. split_and!; try done; lia.
Qed.

Lemma avb_timer_fires_in_window_witness :
  polled_within 500000 4294000000 [4294500000; 4295000000; 4295500000; 4296000000] /\
  ((exists t, (poll [4294500000; 4295000000; 4295500000; 4296000000]
      (start_avb_timer (u32 4294000000) 1 (init_avb_timer 1 zero_timer))).1 = [t] /\
     4295000000 < t <= 4295500000) \/
   ((poll [4294500000; 4295000000; 4295500000; 4296000000]
      (start_avb_timer (u32 4294000000) 1 (init_avb_timer 1 zero_timer))).1 = [] /\
     Forall (fun t => t <= 4295500000) [4294500000; 4295000000; 4295500000; 4296000000])).
Proof.
  assert (polled_within 500000 4294000000 [4294500000; 4295000000; 4295500000; 4296000000])
    as H by (cbn; lia).
  split; [exact H|].
  exact (avb_timer_fires_in_window 4294000000 1 500000 1 _ zero_timer
    ltac:(lia) ltac:(lia) ltac:(vm_compute; reflexivity) ltac:(lia) H).
Defined.
