(* ===== verification/MrpTypes.v ===== *)
(** The data of the MRP/MSRP/MVRP stack ([lib_tsn/src/srp/]): the enumerations of
    [avb_mrp_types.h], the attribute, reservation and VLAN records, the static
    variables of [avb_mrp.c], [avb_srp.c] and [avb_mvrp.c], the environment the
    stack talks to, and the access to all of them through the state monad.

    Pointers are modelled by what they can point to: a pointer to an attribute
    is an index into the array [attrs], [attribute_info] is an [info_ptr], and
    pointers into [send_buf] and into the received packet are byte offsets. *)
From S2P Require Import Prelude Bytes MiscTimer.
From stdpp Require Import base list numbers.
From Stdlib Require Import ZArith Lia.
#[local] Open Scope Z_scope.

(** * Configuration

    [NUM_ETHERNET_MASTER_PORTS], [AVB_NUM_SOURCES], [AVB_NUM_SINKS] and
    [AVB_MAX_NUM_VLAN] are preprocessor constants of the application; the
    preprocessor conditionals on the number of ports become tests on
    [MRP_NUM_PORTS]. *)
Class Config : Type := {
  MRP_NUM_PORTS : nat;
  AVB_NUM_SOURCES : nat;
  AVB_NUM_SINKS : nat;
  AVB_MAX_NUM_VLAN : nat;
}.

(** The defaults of [default_avb_conf.h], [ethernet_conf.h] and [avb_mvrp.h]. *)
Definition default_config : Config :=
  {| MRP_NUM_PORTS := 1; AVB_NUM_SOURCES := 1; AVB_NUM_SINKS := 1; AVB_MAX_NUM_VLAN := 2 |}.

(** The dual-port (daisy-chained) variant of the same configuration. *)
Definition dual_port_config : Config :=
  {| MRP_NUM_PORTS := 2; AVB_NUM_SOURCES := 1; AVB_NUM_SINKS := 1; AVB_MAX_NUM_VLAN := 2 |}.

Section Sizes.
  Context {cfg : Config}.

Definition MRP_MAX_ATTRS : nat :=
  if (MRP_NUM_PORTS =? 1)%nat
  then (3 * AVB_NUM_SOURCES + 3 * AVB_NUM_SINKS + 1 + AVB_MAX_NUM_VLAN)%nat
  else (12 * 4 + 4)%nat.

Definition AVB_STREAM_TABLE_ENTRIES : nat :=
  if (MRP_NUM_PORTS =? 1)%nat
  then (AVB_NUM_SOURCES + AVB_NUM_SINKS + 4)%nat
  else (8 + AVB_NUM_SOURCES + AVB_NUM_SINKS + 4)%nat.
End Sizes.

Definition MRP_SEND_BUFFER_SIZE : Z := 500.

(** * Enumerations of [avb_mrp_types.h] *)

Inductive mrp_applicant_state : Type :=
| MRP_UNUSED | MRP_DISABLED
| MRP_VO | MRP_VP | MRP_VN | MRP_AN | MRP_AA | MRP_QA | MRP_LA
| MRP_AO | MRP_QO | MRP_AP | MRP_QP | MRP_LO.

Inductive mrp_registrar_state : Type := MRP_IN | MRP_LV | MRP_MT.

Inductive mrp_event : Type :=
| MRP_EVENT_BEGIN | MRP_EVENT_NEW | MRP_EVENT_FLUSH | MRP_EVENT_JOIN | MRP_EVENT_LV
| MRP_EVENT_RECEIVE_NEW | MRP_EVENT_RECEIVE_JOININ | MRP_EVENT_RECEIVE_IN
| MRP_EVENT_RECEIVE_JOINMT | MRP_EVENT_RECEIVE_MT | MRP_EVENT_RECEIVE_LEAVE
| MRP_EVENT_RECEIVE_LEAVE_ALL | MRP_EVENT_REDECLARE | MRP_EVENT_PERIODIC | MRP_EVENT_TX
| MRP_EVENT_TX_LEAVE_ALL | MRP_EVENT_TX_LEAVE_ALL_FULL | MRP_EVENT_LEAVETIMER
| MRP_EVENT_DUMMY.

Inductive mrp_attribute_type : Type :=
| MSRP_TALKER_ADVERTISE | MSRP_TALKER_FAILED | MSRP_LISTENER | MSRP_DOMAIN_VECTOR
| MMRP_MAC_VECTOR | MVRP_VID_VECTOR.

(** The number the C enumeration gives the attribute type. *)
Definition attr_type_num (t : mrp_attribute_type) : Z :=
  match t with
  | MSRP_TALKER_ADVERTISE => 0 | MSRP_TALKER_FAILED => 1 | MSRP_LISTENER => 2
  | MSRP_DOMAIN_VECTOR => 3 | MMRP_MAC_VECTOR => 4 | MVRP_VID_VECTOR => 5
  end.

Definition MRP_ATTRIBUTE_EVENT_NEW : Z := 0.
Definition MRP_ATTRIBUTE_EVENT_JOININ : Z := 1.
Definition MRP_ATTRIBUTE_EVENT_IN : Z := 2.
Definition MRP_ATTRIBUTE_EVENT_JOINMT : Z := 3.
Definition MRP_ATTRIBUTE_EVENT_MT : Z := 4.
Definition MRP_ATTRIBUTE_EVENT_LV : Z := 5.

Definition AVB_SRP_FOUR_PACKED_EVENT_IGNORE : Z := 0.
Definition AVB_SRP_FOUR_PACKED_EVENT_ASKING_FAILED : Z := 1.
Definition AVB_SRP_FOUR_PACKED_EVENT_READY : Z := 2.
Definition AVB_SRP_FOUR_PACKED_EVENT_READY_FAILED : Z := 3.

Definition PENDING_JOIN_NEW : Z := 0x01.
Definition PENDING_JOIN : Z := 0x02.
Definition PENDING_LEAVE : Z := 0x04.

(** The states of a source and of a sink in [lib_tsn/api/avb.h]. *)
Inductive avb_source_state_t : Type :=
| AVB_SOURCE_STATE_DISABLED | AVB_SOURCE_STATE_POTENTIAL | AVB_SOURCE_STATE_ENABLED.
Inductive avb_sink_state_t : Type :=
| AVB_SINK_STATE_DISABLED | AVB_SINK_STATE_POTENTIAL | AVB_SINK_STATE_ENABLED.

#[global] Instance mrp_applicant_state_eq_dec : EqDecision mrp_applicant_state.
Proof. solve_decision. Defined.
#[global] Instance mrp_registrar_state_eq_dec : EqDecision mrp_registrar_state.
Proof. solve_decision. Defined.
#[global] Instance mrp_event_eq_dec : EqDecision mrp_event.
Proof. solve_decision. Defined.
#[global] Instance mrp_attribute_type_eq_dec : EqDecision mrp_attribute_type.
Proof. solve_decision. Defined.
#[global] Instance avb_source_state_t_eq_dec : EqDecision avb_source_state_t.
Proof. solve_decision. Defined.
#[global] Instance avb_sink_state_t_eq_dec : EqDecision avb_sink_state_t.
Proof. solve_decision. Defined.

(** What [void *attribute_info] points to: nothing, an entry of [stream_table]
    (read through any of the structure types that begin with a reservation), or
    the [vlan] field of an MVRP entry. *)
Inductive info_ptr : Type :=
| InfoNull
| InfoStream (i : nat)
| InfoVlan (i : nat).

#[global] Instance info_ptr_eq_dec : EqDecision info_ptr.
Proof. solve_decision. Defined.

(** * Records *)

Record mrp_attribute_state : Type := MkAttr {
  port_num : Z;  (* unsigned int *)
  attribute_type : mrp_attribute_type;
  applicant_state : mrp_applicant_state;
  remove_after_next_tx : bool;
  registrar_state : mrp_registrar_state;
  leaveTimer : avb_timer;
  pending_indications : Z;  (* short, a set of PENDING_ bits *)
  four_vector_parameter : Z;  (* short *)
  next : option nat;  (* the following element of the sorted list *)
  here : bool;
  propagated : bool;
  attribute_info : info_ptr;
}.

Record avb_srp_info_t : Type := MkSrpInfo {
  stream_id0 : Z;  (* unsigned *)
  stream_id1 : Z;  (* unsigned *)
  dest_mac_addr : list Z;  (* unsigned char[6] *)
  vlan_id : Z;  (* short *)
  tspec_max_frame_size : Z;  (* short *)
  tspec_max_interval : Z;  (* short *)
  tspec : Z;  (* unsigned char *)
  accumulated_latency : Z;  (* unsigned *)
  failure_bridge_id : list Z;  (* unsigned char[8] *)
  failure_code : Z;  (* unsigned char *)
}.

Record avb_stream_entry : Type := MkStream {
  reservation : avb_srp_info_t;
  listener_present : bool;
  talker_present : bool;
  bw_reserved : list bool;  (* one per port *)
  reservation_failed : bool;
}.

Record mvrp_entry : Type := MkEntry {
  e_active : bool;
  e_attr : option nat;
  vlan : Z;  (* int *)
}.

(** The fields of the AVB manager's [sources] and [sinks] the stack looks at. *)
Record avb_source_info_t : Type := MkSource {
  src_stream_id0 : Z;
  src_stream_id1 : Z;
  src_state : avb_source_state_t;
  src_vlan : Z;
}.

Record avb_sink_info_t : Type := MkSink {
  snk_stream_id0 : Z;
  snk_stream_id1 : Z;
  snk_state : avb_sink_state_t;
  snk_vlan : Z;
}.

(** What the stack does to the outside: Ethernet frames handed to the MAC,
    settings sent to the talker task, and changes asked of the AVB manager. *)
Inductive event : Type :=
| TxFrame (frame : list Z) (ifnum : Z)
| SetSourcePort (source_num : nat) (port : Z)
| SetSourceState (source_num : nat) (state : avb_source_state_t)
| SetSourceVlan (source_num : nat) (vlan : Z)
| SetSinkVlan (sink_num : nat) (vlan : Z).

(** Static variables of [avb_mrp.c]. *)
Record mrp_vars : Type := MkMrp {
  attrs : list mrp_attribute_state;
  first_attr : option nat;
  send_buf : list Z;  (* char[MRP_SEND_BUFFER_SIZE] *)
  send_ptr : Z;  (* offset into send_buf *)
  current_etype : Z;
  periodic_timer : list avb_timer;
  joinTimer : list avb_timer;
  msrp_leaveall_timer : list avb_timer;
  mvrp_leaveall_timer : list avb_timer;
  msrp_leaveall_active : list bool;
  mvrp_leaveall_active : list bool;
}.

(** Static variables of [avb_srp.c]. *)
Record srp_vars : Type := MkSrp {
  stream_table : list avb_stream_entry;
  port_bandwidth : list Z;  (* unsigned int[] *)
  domain_attr : list (option nat);
  srp_domain_boundary_port : list bool;
  current_vlan_id_from_domain : Z;  (* unsigned int *)
}.

(** The hardware timer, the packet being parsed, the AVB manager and the outputs. *)
Record env_vars : Type := MkEnv {
  clock : nat -> Z;  (* the successive values of the hardware timer *)
  clock_reads : nat;  (* how often it has been read *)
  rx_buf : list Z;  (* the received packet, from its MRP header on *)
  stack_junk : Z;  (* what an uninitialised 64-bit local holds *)
  sources : list avb_source_info_t;
  sinks : list avb_sink_info_t;
  trace : list event;  (* outputs, oldest first *)
}.

Record world : Type := MkWorld {
  mrp : mrp_vars;
  srp : srp_vars;
  mvrp : list mvrp_entry;
  env : env_vars;
}.

(** Field updates. *)
Definition upd_port_num (g : Z -> Z) (r : mrp_attribute_state) : mrp_attribute_state :=
  MkAttr (g (port_num r)) (attribute_type r) (applicant_state r) (remove_after_next_tx
    r) (registrar_state r) (leaveTimer r) (pending_indications r) (four_vector_parameter
    r) (next r) (here r) (propagated r) (attribute_info r).
Definition upd_attribute_type (g : mrp_attribute_type -> mrp_attribute_type) (r : mrp_attribute_state) : mrp_attribute_state :=
  MkAttr (port_num r) (g (attribute_type r)) (applicant_state r) (remove_after_next_tx
    r) (registrar_state r) (leaveTimer r) (pending_indications r) (four_vector_parameter
    r) (next r) (here r) (propagated r) (attribute_info r).
Definition upd_applicant_state (g : mrp_applicant_state -> mrp_applicant_state) (r : mrp_attribute_state) : mrp_attribute_state :=
  MkAttr (port_num r) (attribute_type r) (g (applicant_state r)) (remove_after_next_tx
    r) (registrar_state r) (leaveTimer r) (pending_indications r) (four_vector_parameter
    r) (next r) (here r) (propagated r) (attribute_info r).
Definition upd_remove_after_next_tx (g : bool -> bool) (r : mrp_attribute_state) : mrp_attribute_state :=
  MkAttr (port_num r) (attribute_type r) (applicant_state r) (g (remove_after_next_tx
    r)) (registrar_state r) (leaveTimer r) (pending_indications r)
    (four_vector_parameter r) (next r) (here r) (propagated r) (attribute_info r).
Definition upd_registrar_state (g : mrp_registrar_state -> mrp_registrar_state) (r : mrp_attribute_state) : mrp_attribute_state :=
  MkAttr (port_num r) (attribute_type r) (applicant_state r) (remove_after_next_tx r) (g
    (registrar_state r)) (leaveTimer r) (pending_indications r) (four_vector_parameter
    r) (next r) (here r) (propagated r) (attribute_info r).
Definition upd_leaveTimer (g : avb_timer -> avb_timer) (r : mrp_attribute_state) : mrp_attribute_state :=
  MkAttr (port_num r) (attribute_type r) (applicant_state r) (remove_after_next_tx r)
    (registrar_state r) (g (leaveTimer r)) (pending_indications r)
    (four_vector_parameter r) (next r) (here r) (propagated r) (attribute_info r).
Definition upd_pending_indications (g : Z -> Z) (r : mrp_attribute_state) : mrp_attribute_state :=
  MkAttr (port_num r) (attribute_type r) (applicant_state r) (remove_after_next_tx r)
    (registrar_state r) (leaveTimer r) (g (pending_indications r))
    (four_vector_parameter r) (next r) (here r) (propagated r) (attribute_info r).
Definition upd_four_vector_parameter (g : Z -> Z) (r : mrp_attribute_state) : mrp_attribute_state :=
  MkAttr (port_num r) (attribute_type r) (applicant_state r) (remove_after_next_tx r)
    (registrar_state r) (leaveTimer r) (pending_indications r) (g (four_vector_parameter
    r)) (next r) (here r) (propagated r) (attribute_info r).
Definition upd_next (g : option nat -> option nat) (r : mrp_attribute_state) : mrp_attribute_state :=
  MkAttr (port_num r) (attribute_type r) (applicant_state r) (remove_after_next_tx r)
    (registrar_state r) (leaveTimer r) (pending_indications r) (four_vector_parameter r)
    (g (next r)) (here r) (propagated r) (attribute_info r).
Definition upd_here (g : bool -> bool) (r : mrp_attribute_state) : mrp_attribute_state :=
  MkAttr (port_num r) (attribute_type r) (applicant_state r) (remove_after_next_tx r)
    (registrar_state r) (leaveTimer r) (pending_indications r) (four_vector_parameter r)
    (next r) (g (here r)) (propagated r) (attribute_info r).
Definition upd_propagated (g : bool -> bool) (r : mrp_attribute_state) : mrp_attribute_state :=
  MkAttr (port_num r) (attribute_type r) (applicant_state r) (remove_after_next_tx r)
    (registrar_state r) (leaveTimer r) (pending_indications r) (four_vector_parameter r)
    (next r) (here r) (g (propagated r)) (attribute_info r).
Definition upd_attribute_info (g : info_ptr -> info_ptr) (r : mrp_attribute_state) : mrp_attribute_state :=
  MkAttr (port_num r) (attribute_type r) (applicant_state r) (remove_after_next_tx r)
    (registrar_state r) (leaveTimer r) (pending_indications r) (four_vector_parameter r)
    (next r) (here r) (propagated r) (g (attribute_info r)).
Definition upd_stream_id0 (g : Z -> Z) (r : avb_srp_info_t) : avb_srp_info_t :=
  MkSrpInfo (g (stream_id0 r)) (stream_id1 r) (dest_mac_addr r) (vlan_id r)
    (tspec_max_frame_size r) (tspec_max_interval r) (tspec r) (accumulated_latency r)
    (failure_bridge_id r) (failure_code r).
Definition upd_stream_id1 (g : Z -> Z) (r : avb_srp_info_t) : avb_srp_info_t :=
  MkSrpInfo (stream_id0 r) (g (stream_id1 r)) (dest_mac_addr r) (vlan_id r)
    (tspec_max_frame_size r) (tspec_max_interval r) (tspec r) (accumulated_latency r)
    (failure_bridge_id r) (failure_code r).
Definition upd_dest_mac_addr (g : list Z -> list Z) (r : avb_srp_info_t) : avb_srp_info_t :=
  MkSrpInfo (stream_id0 r) (stream_id1 r) (g (dest_mac_addr r)) (vlan_id r)
    (tspec_max_frame_size r) (tspec_max_interval r) (tspec r) (accumulated_latency r)
    (failure_bridge_id r) (failure_code r).
Definition upd_vlan_id (g : Z -> Z) (r : avb_srp_info_t) : avb_srp_info_t :=
  MkSrpInfo (stream_id0 r) (stream_id1 r) (dest_mac_addr r) (g (vlan_id r))
    (tspec_max_frame_size r) (tspec_max_interval r) (tspec r) (accumulated_latency r)
    (failure_bridge_id r) (failure_code r).
Definition upd_tspec_max_frame_size (g : Z -> Z) (r : avb_srp_info_t) : avb_srp_info_t :=
  MkSrpInfo (stream_id0 r) (stream_id1 r) (dest_mac_addr r) (vlan_id r) (g
    (tspec_max_frame_size r)) (tspec_max_interval r) (tspec r) (accumulated_latency r)
    (failure_bridge_id r) (failure_code r).
Definition upd_tspec_max_interval (g : Z -> Z) (r : avb_srp_info_t) : avb_srp_info_t :=
  MkSrpInfo (stream_id0 r) (stream_id1 r) (dest_mac_addr r) (vlan_id r)
    (tspec_max_frame_size r) (g (tspec_max_interval r)) (tspec r) (accumulated_latency
    r) (failure_bridge_id r) (failure_code r).
Definition upd_tspec (g : Z -> Z) (r : avb_srp_info_t) : avb_srp_info_t :=
  MkSrpInfo (stream_id0 r) (stream_id1 r) (dest_mac_addr r) (vlan_id r)
    (tspec_max_frame_size r) (tspec_max_interval r) (g (tspec r)) (accumulated_latency
    r) (failure_bridge_id r) (failure_code r).
Definition upd_accumulated_latency (g : Z -> Z) (r : avb_srp_info_t) : avb_srp_info_t :=
  MkSrpInfo (stream_id0 r) (stream_id1 r) (dest_mac_addr r) (vlan_id r)
    (tspec_max_frame_size r) (tspec_max_interval r) (tspec r) (g (accumulated_latency
    r)) (failure_bridge_id r) (failure_code r).
Definition upd_failure_bridge_id (g : list Z -> list Z) (r : avb_srp_info_t) : avb_srp_info_t :=
  MkSrpInfo (stream_id0 r) (stream_id1 r) (dest_mac_addr r) (vlan_id r)
    (tspec_max_frame_size r) (tspec_max_interval r) (tspec r) (accumulated_latency r) (g
    (failure_bridge_id r)) (failure_code r).
Definition upd_failure_code (g : Z -> Z) (r : avb_srp_info_t) : avb_srp_info_t :=
  MkSrpInfo (stream_id0 r) (stream_id1 r) (dest_mac_addr r) (vlan_id r)
    (tspec_max_frame_size r) (tspec_max_interval r) (tspec r) (accumulated_latency r)
    (failure_bridge_id r) (g (failure_code r)).
Definition upd_reservation (g : avb_srp_info_t -> avb_srp_info_t) (r : avb_stream_entry) : avb_stream_entry :=
  MkStream (g (reservation r)) (listener_present r) (talker_present r) (bw_reserved r)
    (reservation_failed r).
Definition upd_listener_present (g : bool -> bool) (r : avb_stream_entry) : avb_stream_entry :=
  MkStream (reservation r) (g (listener_present r)) (talker_present r) (bw_reserved r)
    (reservation_failed r).
Definition upd_talker_present (g : bool -> bool) (r : avb_stream_entry) : avb_stream_entry :=
  MkStream (reservation r) (listener_present r) (g (talker_present r)) (bw_reserved r)
    (reservation_failed r).
Definition upd_bw_reserved (g : list bool -> list bool) (r : avb_stream_entry) : avb_stream_entry :=
  MkStream (reservation r) (listener_present r) (talker_present r) (g (bw_reserved r))
    (reservation_failed r).
Definition upd_reservation_failed (g : bool -> bool) (r : avb_stream_entry) : avb_stream_entry :=
  MkStream (reservation r) (listener_present r) (talker_present r) (bw_reserved r) (g
    (reservation_failed r)).
Definition upd_e_active (g : bool -> bool) (r : mvrp_entry) : mvrp_entry :=
  MkEntry (g (e_active r)) (e_attr r) (vlan r).
Definition upd_e_attr (g : option nat -> option nat) (r : mvrp_entry) : mvrp_entry :=
  MkEntry (e_active r) (g (e_attr r)) (vlan r).
Definition upd_vlan (g : Z -> Z) (r : mvrp_entry) : mvrp_entry :=
  MkEntry (e_active r) (e_attr r) (g (vlan r)).
Definition upd_src_stream_id0 (g : Z -> Z) (r : avb_source_info_t) : avb_source_info_t :=
  MkSource (g (src_stream_id0 r)) (src_stream_id1 r) (src_state r) (src_vlan r).
Definition upd_src_stream_id1 (g : Z -> Z) (r : avb_source_info_t) : avb_source_info_t :=
  MkSource (src_stream_id0 r) (g (src_stream_id1 r)) (src_state r) (src_vlan r).
Definition upd_src_state (g : avb_source_state_t -> avb_source_state_t) (r : avb_source_info_t) : avb_source_info_t :=
  MkSource (src_stream_id0 r) (src_stream_id1 r) (g (src_state r)) (src_vlan r).
Definition upd_src_vlan (g : Z -> Z) (r : avb_source_info_t) : avb_source_info_t :=
  MkSource (src_stream_id0 r) (src_stream_id1 r) (src_state r) (g (src_vlan r)).
Definition upd_snk_stream_id0 (g : Z -> Z) (r : avb_sink_info_t) : avb_sink_info_t :=
  MkSink (g (snk_stream_id0 r)) (snk_stream_id1 r) (snk_state r) (snk_vlan r).
Definition upd_snk_stream_id1 (g : Z -> Z) (r : avb_sink_info_t) : avb_sink_info_t :=
  MkSink (snk_stream_id0 r) (g (snk_stream_id1 r)) (snk_state r) (snk_vlan r).
Definition upd_snk_state (g : avb_sink_state_t -> avb_sink_state_t) (r : avb_sink_info_t) : avb_sink_info_t :=
  MkSink (snk_stream_id0 r) (snk_stream_id1 r) (g (snk_state r)) (snk_vlan r).
Definition upd_snk_vlan (g : Z -> Z) (r : avb_sink_info_t) : avb_sink_info_t :=
  MkSink (snk_stream_id0 r) (snk_stream_id1 r) (snk_state r) (g (snk_vlan r)).
Definition upd_attrs (g : list mrp_attribute_state -> list mrp_attribute_state) (r : mrp_vars) : mrp_vars :=
  MkMrp (g (attrs r)) (first_attr r) (send_buf r) (send_ptr r) (current_etype r)
    (periodic_timer r) (joinTimer r) (msrp_leaveall_timer r) (mvrp_leaveall_timer r)
    (msrp_leaveall_active r) (mvrp_leaveall_active r).
Definition upd_first_attr (g : option nat -> option nat) (r : mrp_vars) : mrp_vars :=
  MkMrp (attrs r) (g (first_attr r)) (send_buf r) (send_ptr r) (current_etype r)
    (periodic_timer r) (joinTimer r) (msrp_leaveall_timer r) (mvrp_leaveall_timer r)
    (msrp_leaveall_active r) (mvrp_leaveall_active r).
Definition upd_send_buf (g : list Z -> list Z) (r : mrp_vars) : mrp_vars :=
  MkMrp (attrs r) (first_attr r) (g (send_buf r)) (send_ptr r) (current_etype r)
    (periodic_timer r) (joinTimer r) (msrp_leaveall_timer r) (mvrp_leaveall_timer r)
    (msrp_leaveall_active r) (mvrp_leaveall_active r).
Definition upd_send_ptr (g : Z -> Z) (r : mrp_vars) : mrp_vars :=
  MkMrp (attrs r) (first_attr r) (send_buf r) (g (send_ptr r)) (current_etype r)
    (periodic_timer r) (joinTimer r) (msrp_leaveall_timer r) (mvrp_leaveall_timer r)
    (msrp_leaveall_active r) (mvrp_leaveall_active r).
Definition upd_current_etype (g : Z -> Z) (r : mrp_vars) : mrp_vars :=
  MkMrp (attrs r) (first_attr r) (send_buf r) (send_ptr r) (g (current_etype r))
    (periodic_timer r) (joinTimer r) (msrp_leaveall_timer r) (mvrp_leaveall_timer r)
    (msrp_leaveall_active r) (mvrp_leaveall_active r).
Definition upd_periodic_timer (g : list avb_timer -> list avb_timer) (r : mrp_vars) : mrp_vars :=
  MkMrp (attrs r) (first_attr r) (send_buf r) (send_ptr r) (current_etype r) (g
    (periodic_timer r)) (joinTimer r) (msrp_leaveall_timer r) (mvrp_leaveall_timer r)
    (msrp_leaveall_active r) (mvrp_leaveall_active r).
Definition upd_joinTimer (g : list avb_timer -> list avb_timer) (r : mrp_vars) : mrp_vars :=
  MkMrp (attrs r) (first_attr r) (send_buf r) (send_ptr r) (current_etype r)
    (periodic_timer r) (g (joinTimer r)) (msrp_leaveall_timer r) (mvrp_leaveall_timer r)
    (msrp_leaveall_active r) (mvrp_leaveall_active r).
Definition upd_msrp_leaveall_timer (g : list avb_timer -> list avb_timer) (r : mrp_vars) : mrp_vars :=
  MkMrp (attrs r) (first_attr r) (send_buf r) (send_ptr r) (current_etype r)
    (periodic_timer r) (joinTimer r) (g (msrp_leaveall_timer r)) (mvrp_leaveall_timer r)
    (msrp_leaveall_active r) (mvrp_leaveall_active r).
Definition upd_mvrp_leaveall_timer (g : list avb_timer -> list avb_timer) (r : mrp_vars) : mrp_vars :=
  MkMrp (attrs r) (first_attr r) (send_buf r) (send_ptr r) (current_etype r)
    (periodic_timer r) (joinTimer r) (msrp_leaveall_timer r) (g (mvrp_leaveall_timer r))
    (msrp_leaveall_active r) (mvrp_leaveall_active r).
Definition upd_msrp_leaveall_active (g : list bool -> list bool) (r : mrp_vars) : mrp_vars :=
  MkMrp (attrs r) (first_attr r) (send_buf r) (send_ptr r) (current_etype r)
    (periodic_timer r) (joinTimer r) (msrp_leaveall_timer r) (mvrp_leaveall_timer r) (g
    (msrp_leaveall_active r)) (mvrp_leaveall_active r).
Definition upd_mvrp_leaveall_active (g : list bool -> list bool) (r : mrp_vars) : mrp_vars :=
  MkMrp (attrs r) (first_attr r) (send_buf r) (send_ptr r) (current_etype r)
    (periodic_timer r) (joinTimer r) (msrp_leaveall_timer r) (mvrp_leaveall_timer r)
    (msrp_leaveall_active r) (g (mvrp_leaveall_active r)).
Definition upd_stream_table (g : list avb_stream_entry -> list avb_stream_entry) (r : srp_vars) : srp_vars :=
  MkSrp (g (stream_table r)) (port_bandwidth r) (domain_attr r)
    (srp_domain_boundary_port r) (current_vlan_id_from_domain r).
Definition upd_port_bandwidth (g : list Z -> list Z) (r : srp_vars) : srp_vars :=
  MkSrp (stream_table r) (g (port_bandwidth r)) (domain_attr r)
    (srp_domain_boundary_port r) (current_vlan_id_from_domain r).
Definition upd_domain_attr (g : list (option nat) -> list (option nat)) (r : srp_vars) : srp_vars :=
  MkSrp (stream_table r) (port_bandwidth r) (g (domain_attr r))
    (srp_domain_boundary_port r) (current_vlan_id_from_domain r).
Definition upd_srp_domain_boundary_port (g : list bool -> list bool) (r : srp_vars) : srp_vars :=
  MkSrp (stream_table r) (port_bandwidth r) (domain_attr r) (g (srp_domain_boundary_port
    r)) (current_vlan_id_from_domain r).
Definition upd_current_vlan_id_from_domain (g : Z -> Z) (r : srp_vars) : srp_vars :=
  MkSrp (stream_table r) (port_bandwidth r) (domain_attr r) (srp_domain_boundary_port r)
    (g (current_vlan_id_from_domain r)).
Definition upd_clock (g : (nat -> Z) -> (nat -> Z)) (r : env_vars) : env_vars :=
  MkEnv (g (clock r)) (clock_reads r) (rx_buf r) (stack_junk r) (sources r) (sinks r)
    (trace r).
Definition upd_clock_reads (g : nat -> nat) (r : env_vars) : env_vars :=
  MkEnv (clock r) (g (clock_reads r)) (rx_buf r) (stack_junk r) (sources r) (sinks r)
    (trace r).
Definition upd_rx_buf (g : list Z -> list Z) (r : env_vars) : env_vars :=
  MkEnv (clock r) (clock_reads r) (g (rx_buf r)) (stack_junk r) (sources r) (sinks r)
    (trace r).
Definition upd_stack_junk (g : Z -> Z) (r : env_vars) : env_vars :=
  MkEnv (clock r) (clock_reads r) (rx_buf r) (g (stack_junk r)) (sources r) (sinks r)
    (trace r).
Definition upd_sources (g : list avb_source_info_t -> list avb_source_info_t) (r : env_vars) : env_vars :=
  MkEnv (clock r) (clock_reads r) (rx_buf r) (stack_junk r) (g (sources r)) (sinks r)
    (trace r).
Definition upd_sinks (g : list avb_sink_info_t -> list avb_sink_info_t) (r : env_vars) : env_vars :=
  MkEnv (clock r) (clock_reads r) (rx_buf r) (stack_junk r) (sources r) (g (sinks r))
    (trace r).
Definition upd_trace (g : list event -> list event) (r : env_vars) : env_vars :=
  MkEnv (clock r) (clock_reads r) (rx_buf r) (stack_junk r) (sources r) (sinks r) (g
    (trace r)).
Definition upd_mrp (g : mrp_vars -> mrp_vars) (r : world) : world :=
  MkWorld (g (mrp r)) (srp r) (mvrp r) (env r).
Definition upd_srp (g : srp_vars -> srp_vars) (r : world) : world :=
  MkWorld (mrp r) (g (srp r)) (mvrp r) (env r).
Definition upd_mvrp (g : list mvrp_entry -> list mvrp_entry) (r : world) : world :=
  MkWorld (mrp r) (srp r) (g (mvrp r)) (env r).
Definition upd_env (g : env_vars -> env_vars) (r : world) : world :=
  MkWorld (mrp r) (srp r) (mvrp r) (g (env r)).

Abbreviation SM := (M world).

(** * Access to the state *)

(** [get_local_time()] *)
Definition get_local_time : SM Z := fun w =>
  Some (u32 (clock (env w) (clock_reads (env w))),
        upd_env (upd_clock_reads S) w).

Definition emit (e : event) : SM unit := modify (upd_env (upd_trace (fun l => l ++ [e]))).

(** Reading and writing through a [mrp_attribute_state *]. *)
Definition get_st (p : nat) : SM mrp_attribute_state := load (fun w => attrs (mrp w) !! p).
Definition upd_st (p : nat) (f : mrp_attribute_state -> mrp_attribute_state) : SM unit :=
  store (fun w => match attrs (mrp w) !! p with
                  | Some a => Some (upd_mrp (upd_attrs (<[p := f a]>)) w)
                  | None => None
                  end).

(** [*p] for a pointer that may be null. *)
Definition deref {A} (p : option A) : SM A := match p with Some a => mret a | None => trap end.

(** Reading and writing [stream_table[i]]. *)
Definition get_stream (i : nat) : SM avb_stream_entry := load (fun w => stream_table (srp w) !! i).
Definition upd_stream (i : nat) (f : avb_stream_entry -> avb_stream_entry) : SM unit :=
  store (fun w => match stream_table (srp w) !! i with
                  | Some e => Some (upd_srp (upd_stream_table (<[i := f e]>)) w)
                  | None => None
                  end).

(** [attribute_info] used as a pointer to a stream entry. *)
Definition stream_of (p : info_ptr) : SM nat :=
  match p with InfoStream i => mret i | _ => trap end.
Definition deref_stream (p : info_ptr) : SM avb_stream_entry := stream_of p ≫= get_stream.

(** The entry [stream_table[entry]] for a C [int] index. *)
Definition stream_index (entry : Z) : SM nat :=
  if 0 <=? entry then mret (Z.to_nat entry) else trap.

(** An element of an array indexed by port. *)
Definition port_get {A} (f : world -> list A) (port : Z) : SM A :=
  load (fun w => if 0 <=? port then f w !! Z.to_nat port else None).
Definition port_set {A} (f : world -> list A) (g : (list A -> list A) -> world -> world)
    (port : Z) (x : A) : SM unit :=
  store (fun w => if (0 <=? port) && (Z.to_nat port <? length (f w))%nat
                  then Some (g (<[Z.to_nat port := x]>) w) else None).

Definition bw_reserved_get (entry : nat) (port : Z) : SM bool :=
  s ← get_stream entry;
  if 0 <=? port then deref (bw_reserved s !! Z.to_nat port) else trap.
Definition bw_reserved_set (entry : nat) (port : Z) (x : bool) : SM unit :=
  s ← get_stream entry;
  if (0 <=? port) && (Z.to_nat port <? length (bw_reserved s))%nat
  then upd_stream entry (upd_bw_reserved (<[Z.to_nat port := x]>)) else trap.

(** ** Bytes of [send_buf] and of the received packet *)

Definition byte_at (l : list Z) (off : Z) : option Z :=
  if 0 <=? off then l !! Z.to_nat off else None.
Definition byte_set (off v : Z) (l : list Z) : option (list Z) :=
  if (0 <=? off) && (off <? Z.of_nat (length l)) then Some (<[Z.to_nat off := u8 v]> l) else None.

Definition rd (off : Z) : SM Z := load (fun w => byte_at (send_buf (mrp w)) off).
Definition wr (off v : Z) : SM unit :=
  store (fun w => match byte_set off v (send_buf (mrp w)) with
                  | Some b => Some (upd_mrp (upd_send_buf (fun _ => b)) w)
                  | None => None
                  end).
Definition rx (off : Z) : SM Z := load (fun w => byte_at (rx_buf (env w)) off).
Definition rx_wr (off v : Z) : SM unit :=
  store (fun w => match byte_set off v (rx_buf (env w)) with
                  | Some b => Some (upd_env (upd_rx_buf (fun _ => b)) w)
                  | None => None
                  end).

(** [n] bytes from [off] on. *)
Fixpoint rx_bytes (n : nat) (off : Z) : SM (list Z) :=
  match n with
  | O => mret []
  | S n' => b ← rx off; l ← rx_bytes n' (off + 1); mret (b :: l)
  end.
Fixpoint rd_bytes (n : nat) (off : Z) : SM (list Z) :=
  match n with
  | O => mret []
  | S n' => b ← rd off; l ← rd_bytes n' (off + 1); mret (b :: l)
  end.
(** Stores consecutive bytes: [memcpy] from a constant, and the array copies
    the sources write as loops. *)
Fixpoint wr_bytes (off : Z) (l : list Z) : SM unit :=
  match l with
  | [] => skip
  | b :: l' => _ ← wr off b; wr_bytes (off + 1) l'
  end.
Definition memset (off v : Z) (n : nat) : SM unit := wr_bytes off (replicate n v).
Definition memmove (dst src : Z) (n : nat) : SM unit :=
  l ← rd_bytes n src; wr_bytes dst l.

Definition get_send_ptr : SM Z := gets (fun w => send_ptr (mrp w)).
Definition set_send_ptr (p : Z) : SM unit := modify (upd_mrp (upd_send_ptr (fun _ => p))).

(** ** Timers held in the state *)

Definition start_timer (get : world -> list avb_timer)
    (upd : (list avb_timer -> list avb_timer) -> world -> world) (i : Z) (period_cs : Z) : SM unit :=
  t ← port_get get i;
  now ← get_local_time;
  port_set get upd i (start_avb_timer now period_cs t).
Definition init_timer (get : world -> list avb_timer)
    (upd : (list avb_timer -> list avb_timer) -> world -> world) (i : Z) (mult : Z) : SM unit :=
  t ← port_get get i;
  port_set get upd i (init_avb_timer mult t).
Definition timer_expired (get : world -> list avb_timer)
    (upd : (list avb_timer -> list avb_timer) -> world -> world) (i : Z) : SM bool :=
  t ← port_get get i;
  now ← get_local_time;
  let '(fired, t') := avb_timer_expired now t in
  _ ← port_set get upd i t';
  mret fired.

(** * Initial data *)

Definition zero_attr : mrp_attribute_state :=
  MkAttr 0 MSRP_TALKER_ADVERTISE MRP_UNUSED false MRP_IN zero_timer 0 0 None false false InfoNull.
Definition zero_srp_info : avb_srp_info_t :=
  MkSrpInfo 0 0 (replicate 6 0) 0 0 0 0 0 (replicate 8 0) 0.
Definition zero_stream `{Config} : avb_stream_entry :=
  MkStream zero_srp_info false false (replicate MRP_NUM_PORTS false) false.

(** Static storage before [main]: all zero, but for the initialisers of
    [first_attr] and [send_ptr]. *)
Definition static_world `{Config} (e : env_vars) : world :=
  MkWorld
    (MkMrp (replicate MRP_MAX_ATTRS zero_attr) (Some 0%nat)
       (replicate (Z.to_nat MRP_SEND_BUFFER_SIZE) 0) (14 + 1) 0
       (replicate MRP_NUM_PORTS zero_timer) (replicate MRP_NUM_PORTS zero_timer)
       (replicate MRP_NUM_PORTS zero_timer) (replicate MRP_NUM_PORTS zero_timer)
       (replicate MRP_NUM_PORTS false) (replicate MRP_NUM_PORTS false))
    (MkSrp (replicate AVB_STREAM_TABLE_ENTRIES zero_stream) (replicate MRP_NUM_PORTS 0)
       (replicate MRP_NUM_PORTS None) (replicate MRP_NUM_PORTS false) 0)
    (replicate (AVB_MAX_NUM_VLAN * MRP_NUM_PORTS) (MkEntry false None 0))
    e.
