(* ===== verification/MrpMatch.v ===== *)
(** The searches over the attribute array of [lib_tsn/src/srp/avb_mrp.c]: the
    allocation and initialisation of attributes and the four functions that
    match attributes by stream identifier. *)
From S2P Require Import Prelude MiscTimer MrpTypes.
From stdpp Require Import base list numbers.
From Stdlib Require Import ZArith Lia.
#[local] Open Scope Z_scope.

Section Match.
  Context `{cfg : Config}.

(** [for (int j=0;j<MRP_MAX_ATTRS;j++)] *)
Definition attr_indices : list nat := seq 0 MRP_MAX_ATTRS.

Definition mrp_get_attr : SM (option nat) :=
  forM_until attr_indices (fun i =>
    st ← get_st i;
    if decide (applicant_state st = MRP_UNUSED) then
      _ ← upd_st i (upd_applicant_state (fun _ => MRP_DISABLED));
      mret (Some i)
    else mret None).

(** The [memset] at the head of the function has its size and value arguments
    swapped: it clears no byte. *)
Definition mrp_attribute_init (st : option nat) (t : mrp_attribute_type) (port_num' : Z)
    (here' : bool) (info : info_ptr) : SM unit :=
  p ← deref st;
  _ ← upd_st p (upd_attribute_type (fun _ => t));
  _ ← upd_st p (upd_attribute_info (fun _ => info));
  _ ← upd_st p (upd_port_num (fun _ => port_num'));
  _ ← upd_st p (upd_propagated (fun _ => false));
  upd_st p (upd_here (fun _ => here')).

Definition mrp_is_observer (st : mrp_attribute_state) : bool :=
  match applicant_state st with
  | MRP_VO | MRP_AO | MRP_QO => true
  | _ => false
  end.

Definition is_unused (st : mrp_attribute_state) : bool :=
  bool_decide (applicant_state st = MRP_UNUSED).
Definition is_disabled (st : mrp_attribute_state) : bool :=
  bool_decide (applicant_state st = MRP_DISABLED).
Definition same_type (s t : mrp_attribute_type) : bool := bool_decide (s = t).

(** The stream identifier an attribute refers to, through the reservation its
    [attribute_info] points to; [None] where that pointer is null. *)
Definition info_stream_id (p : info_ptr) : SM (option (Z * Z)) :=
  if decide (p = InfoNull) then mret None
  else
    s ← deref_stream p;
    mret (Some (stream_id0 (reservation s), stream_id1 (reservation s))).

Definition same_id (a b : option (Z * Z)) : bool :=
  match a, b with
  | Some (a0, a1), Some (b0, b1) => (a0 =? b0) && (a1 =? b1)
  | _, _ => false
  end.

Definition mrp_match_type_non_prop_attribute (attr_type : mrp_attribute_type)
    (stream_id : Z * Z) (port : Z) : SM (option nat) :=
  forM_until attr_indices (fun j =>
    st ← get_st j;
    if is_unused st || is_disabled st then mret None
    else if same_type attr_type (attribute_type st) && negb (propagated st) &&
            ((port =? -1) || (port_num st =? u32 port)) then
      id ← info_stream_id (attribute_info st);
      mret (if same_id id (Some stream_id) then Some j else None)
    else mret None).

(** [(opposite_port && a->port_num != b->port_num) ||
     (!opposite_port && a->port_num == b->port_num)] *)
Definition port_side (opposite_port : bool) (a b : mrp_attribute_state) : bool :=
  (opposite_port && negb (port_num a =? port_num b)) ||
  (negb opposite_port && (port_num a =? port_num b)).

Definition is_talker (t : mrp_attribute_type) : bool :=
  same_type t MSRP_TALKER_ADVERTISE || same_type t MSRP_TALKER_FAILED.

(** Both reservations exist and are of the same stream. *)
Definition same_stream (a b : mrp_attribute_state) : SM bool :=
  if decide (attribute_info a = InfoNull \/ attribute_info b = InfoNull) then mret false
  else
    x ← info_stream_id (attribute_info a);
    y ← info_stream_id (attribute_info b);
    mret (same_id x y).

Definition mrp_match_attr_by_stream_and_type (p : nat) (opposite_port match_disabled : bool)
    : SM (option nat) :=
  forM_until attr_indices (fun j =>
    attr ← get_st p;
    st ← get_st j;
    if is_unused st || (negb match_disabled && is_disabled st) then mret None
    else if port_side opposite_port attr st &&
            (same_type (attribute_type attr) (attribute_type st) ||
             (same_type (attribute_type attr) MSRP_TALKER_ADVERTISE &&
              same_type (attribute_type st) MSRP_TALKER_FAILED) ||
             (same_type (attribute_type attr) MSRP_TALKER_FAILED &&
              same_type (attribute_type st) MSRP_TALKER_ADVERTISE)) then
      b ← same_stream attr st;
      mret (if (b : bool) then Some j else None)
    else mret None).

(** The counter [matches] is the state of the loop. *)
Definition mrp_match_multiple_attrs_by_stream_and_type (p : nat) (opposite_port : bool) : SM bool :=
  let fix go (js : list nat) (matches : Z) : SM bool :=
    match js with
    | [] => mret false
    | j :: js' =>
        attr ← get_st p;
        st ← get_st j;
        if is_unused st || is_disabled st then go js' matches
        else if same_type (attribute_type attr) (attribute_type st) &&
                port_side opposite_port attr st then
          b ← same_stream attr st;
          if (b : bool) then
            if matches + 1 =? 2 then mret true else go js' (matches + 1)
          else go js' matches
        else go js' matches
    end
  in go attr_indices 0.

Definition mrp_match_attribute_pair_by_stream_id (p : nat) (opposite_port match_disabled : bool)
    : SM (option nat) :=
  forM_until attr_indices (fun j =>
    attr ← get_st p;
    st ← get_st j;
    if is_unused st || (negb match_disabled && is_disabled st) then mret None
    else if port_side opposite_port attr st &&
            ((is_talker (attribute_type attr) && same_type (attribute_type st) MSRP_LISTENER) ||
             (same_type (attribute_type attr) MSRP_LISTENER && is_talker (attribute_type st))) then
      b ← same_stream attr st;
      mret (if (b : bool) then Some j else None)
    else mret None).
(** * What the searches find

    [least P n r]: [r] is the least index below [n] with [P], if there is one. *)
Definition least (P : nat -> Prop) (n : nat) (r : option nat) : Prop :=
  match r with
  | Some j => (j < n)%nat /\ P j /\ forall k, (k < j)%nat -> ~ P k
  | None => forall k, (k < n)%nat -> ~ P k
  end.

Lemma least_find (P : nat -> Prop) `{!forall x, Decision (P x)} n :
  least P n (snd <$> list_find P (seq 0 n)).
Proof.
  destruct (list_find P (seq 0 n)) as [[i x]|] eqn:E; cbn.
  - apply list_find_Some in E as (Hx & HP & Hfirst).
    apply lookup_seq in Hx as [-> Hi]. cbn in *. split_and!; [lia|done|].
    intros k Hk. apply (Hfirst k k); [|done]. apply lookup_seq. cbn. lia.
  - apply list_find_None in E. intros k Hk. apply (Forall_lookup_1 _ _ k k E).
    apply lookup_seq. lia.
Qed.

Lemma get_st_run p w st : attrs (mrp w) !! p = Some st -> get_st p w = Some (st, w).
Proof. unfold get_st, load. by intros ->. Qed.

(** The array has its size, and the pointers in it are valid. *)
Definition valid_info (n_streams n_entries : nat) (st : mrp_attribute_state) : Prop :=
  match attribute_type st, attribute_info st with
  | (MSRP_TALKER_ADVERTISE | MSRP_TALKER_FAILED | MSRP_LISTENER), InfoStream i => (i < n_streams)%nat
  | (MSRP_TALKER_ADVERTISE | MSRP_TALKER_FAILED | MSRP_LISTENER), InfoVlan _ => False
  | MVRP_VID_VECTOR, InfoVlan i => (i < n_entries)%nat
  | MVRP_VID_VECTOR, _ => False
  | _, _ => True
  end.

Definition attrs_valid (w : world) : Prop :=
  length (attrs (mrp w)) = MRP_MAX_ATTRS /\
  Forall (valid_info (length (stream_table (srp w))) (length (mvrp w))) (attrs (mrp w)).

(** The stream identifier of an attribute's reservation, in a state. *)
Definition stream_id_in (w : world) (st : mrp_attribute_state) : option (Z * Z) :=
  match attribute_info st with
  | InfoStream i => (fun e => (stream_id0 (reservation e), stream_id1 (reservation e))) <$>
                    stream_table (srp w) !! i
  | _ => None
  end.

Definition is_stream_type (t : mrp_attribute_type) : Prop :=
  t = MSRP_TALKER_ADVERTISE \/ t = MSRP_TALKER_FAILED \/ t = MSRP_LISTENER.

Lemma info_stream_id_run w st :
  valid_info (length (stream_table (srp w))) (length (mvrp w)) st ->
  is_stream_type (attribute_type st) ->
  info_stream_id (attribute_info st) w = Some (stream_id_in w st, w).
Proof.
  unfold valid_info, info_stream_id, stream_id_in. intros Hv Ht.
  assert (match attribute_info st with
          | InfoNull => True | InfoStream i => (i < length (stream_table (srp w)))%nat
          | InfoVlan _ => False end) as Hi.
  { destruct (attribute_type st); destruct Ht as [Ht|[Ht|Ht]]; try discriminate Ht;
      by destruct (attribute_info st). }
  destruct (attribute_info st) as [|i|]; [done| |done]. cbn.
  apply lookup_lt_is_Some_2 in Hi as [e He].
  unfold mbind, M_bind, get_stream, load. rewrite decide_False by done. cbn. by rewrite !He.
Qed.

Lemma attrs_valid_lookup w j st :
  attrs_valid w -> attrs (mrp w) !! j = Some st ->
  valid_info (length (stream_table (srp w))) (length (mvrp w)) st.
Proof. intros [_ H] Hj. by eapply Forall_lookup_1. Qed.

Lemma attrs_valid_is_Some w j :
  attrs_valid w -> (j < MRP_MAX_ATTRS)%nat -> exists st, attrs (mrp w) !! j = Some st.
Proof. intros [H _] Hj. apply lookup_lt_is_Some_2. lia. Qed.

Lemma same_id_true a b : same_id a b = true <-> a = b /\ a <> None.
Proof.
  destruct a as [[]|], b as [[]|]; cbn; rewrite ?andb_true_iff, ?Z.eqb_eq; naive_solver.
Qed.

Lemma same_type_true s t : same_type s t = true <-> s = t.
Proof. apply bool_decide_eq_true. Qed.
Lemma is_talker_true t :
  is_talker t = true <-> t = MSRP_TALKER_ADVERTISE \/ t = MSRP_TALKER_FAILED.
Proof. unfold is_talker. by rewrite orb_true_iff, !same_type_true. Qed.
Lemma is_unused_true st : is_unused st = true <-> applicant_state st = MRP_UNUSED.
Proof. apply bool_decide_eq_true. Qed.
Lemma is_disabled_true st : is_disabled st = true <-> applicant_state st = MRP_DISABLED.
Proof. apply bool_decide_eq_true. Qed.

(** The relations between an attribute [a] and a candidate [b] that the matching
    functions look for. *)
Definition ports_related (opposite_port : bool) (a b : mrp_attribute_state) : Prop :=
  if opposite_port then port_num a <> port_num b else port_num a = port_num b.

Definition eligible (match_disabled : bool) (b : mrp_attribute_state) : Prop :=
  applicant_state b <> MRP_UNUSED /\
  (match_disabled = false -> applicant_state b <> MRP_DISABLED).

(** One declares, the other listens. *)
Definition talker_and_listener (s t : mrp_attribute_type) : Prop :=
  (is_talker s = true /\ t = MSRP_LISTENER) \/ (s = MSRP_LISTENER /\ is_talker t = true).

(** The same declaration, Advertise and Failed being two forms of one. *)
Definition same_declaration (s t : mrp_attribute_type) : Prop :=
  s = t \/ (is_talker s = true /\ is_talker t = true).

Definition refers_to_stream_of (w : world) (a b : mrp_attribute_state) : Prop :=
  exists id, stream_id_in w a = Some id /\ stream_id_in w b = Some id.

(** Attribute [j] is what a search relative to attribute [p] is looking for. *)
Definition wanted (types : mrp_attribute_type -> mrp_attribute_type -> Prop)
    (opposite_port match_disabled : bool) (w : world) (p j : nat) : Prop :=
  exists a b, attrs (mrp w) !! p = Some a /\ attrs (mrp w) !! j = Some b /\
    eligible match_disabled b /\ ports_related opposite_port a b /\
    types (attribute_type a) (attribute_type b) /\ refers_to_stream_of w a b.

Lemma port_side_true o a b : port_side o a b = true <-> ports_related o a b.
Proof.
  unfold port_side, ports_related. destruct o; cbn; rewrite ?orb_false_r.
  - by rewrite negb_true_iff, Z.eqb_neq.
  - apply Z.eqb_eq.
Qed.

Lemma eligible_test d b :
  is_unused b || (negb d && is_disabled b) = false <-> eligible d b.
Proof.
  unfold eligible. rewrite orb_false_iff, andb_false_iff, negb_false_iff.
  rewrite <- !not_true_iff_false, is_unused_true, is_disabled_true. destruct d; naive_solver.
Qed.

Lemma same_stream_run w a b :
  valid_info (length (stream_table (srp w))) (length (mvrp w)) a ->
  valid_info (length (stream_table (srp w))) (length (mvrp w)) b ->
  is_stream_type (attribute_type a) -> is_stream_type (attribute_type b) ->
  exists r, same_stream a b w = Some (r, w) /\ (r = true <-> refers_to_stream_of w a b).
Proof.
  intros Ha Hb Hta Htb. unfold same_stream, refers_to_stream_of.
  destruct (decide (attribute_info a = InfoNull \/ attribute_info b = InfoNull)) as [Hn|_].
  - exists false. split; [done|]. split; [done|]. unfold stream_id_in.
    destruct Hn as [-> | ->]; naive_solver.
  - unfold mbind, M_bind. rewrite !info_stream_id_run by done. cbn.
    eexists. split; [reflexivity|]. rewrite same_id_true.
    destruct (stream_id_in w a), (stream_id_in w b); naive_solver.
Qed.

Section Searches.
Context (w : world) (Hw : attrs_valid w) (p : nat) (a : mrp_attribute_state).
Context (Hp : attrs (mrp w) !! p = Some a) (Ha : is_stream_type (attribute_type a)).
Context (o d : bool) (types : mrp_attribute_type -> mrp_attribute_type -> Prop).
Context (test : mrp_attribute_type -> mrp_attribute_type -> bool).
Context (Htest : forall t, test (attribute_type a) t = true <-> types (attribute_type a) t).
Context (Hstream : forall t, types (attribute_type a) t -> is_stream_type t).

(** The body that the searches relative to an attribute share. *)
Lemma search_body j :
  (j < MRP_MAX_ATTRS)%nat ->
  exists dec : bool,
    (attr ← get_st p; st ← get_st j;
     if is_unused st || (negb d && is_disabled st) then mret None
     else if port_side o attr st && test (attribute_type attr) (attribute_type st) then
       b ← same_stream attr st; mret (if (b : bool) then Some j else None)
     else mret None) w = Some (if dec then Some j else None, w) /\
    (dec = true <-> wanted types o d w p j).
Proof.
  intros Hj. destruct (attrs_valid_is_Some w j Hw Hj) as [b Hb].
  unfold mbind, M_bind. rewrite !(get_st_run p w a), (get_st_run j w b) by done.
  assert (wanted types o d w p j <-> eligible d b /\ ports_related o a b /\
    types (attribute_type a) (attribute_type b) /\ refers_to_stream_of w a b) as Hwant.
  { unfold wanted. naive_solver. }
  destruct (is_unused b || (negb d && is_disabled b)) eqn:E1.
  { exists false. split; [done|]. rewrite Hwant, <- eligible_test. naive_solver. }
  apply eligible_test in E1.
  destruct (port_side o a b) eqn:E2; cbn [andb].
  2:{ exists false. split; [done|]. rewrite Hwant, <- port_side_true. naive_solver. }
  apply port_side_true in E2.
  destruct (test (attribute_type a) (attribute_type b)) eqn:E3.
  2:{ exists false. split; [done|]. rewrite Hwant, <- Htest. naive_solver. }
  apply Htest in E3.
  destruct (same_stream_run w a b) as (r & Hr & Hiff); eauto using attrs_valid_lookup.
  rewrite Hr. exists r. split; [by destruct r|]. rewrite Hwant. naive_solver.
Qed.

(** So the search finds the first attribute that is wanted. *)
Lemma search_least (f : nat -> SM (option nat)) :
  (forall j, f j =
    (attr ← get_st p; st ← get_st j;
     if is_unused st || (negb d && is_disabled st) then mret None
     else if port_side o attr st && test (attribute_type attr) (attribute_type st) then
       b ← same_stream attr st; mret (if (b : bool) then Some j else None)
     else mret None)) ->
  exists r, forM_until attr_indices f w = Some (r, w) /\
    least (wanted types o d w p) MRP_MAX_ATTRS r.
Proof.
  intros Hf. set (Q := fun j => f j w = Some (Some j, w)).
  assert (forall j, (j < MRP_MAX_ATTRS)%nat ->
    exists dec : bool, f j w = Some (if dec then Some j else None, w) /\
      (dec = true <-> wanted types o d w p j)) as Hb.
  { intros j Hj. rewrite Hf. by apply search_body. }
  assert (forall x, Decision (Q x)) as Hdec.
  { intros x. unfold Q. destruct (f x w) as [[[y|] w']|] eqn:E; [|right..]; try congruence.
    destruct (decide (x < MRP_MAX_ATTRS)%nat) as [Hx|Hx].
    - destruct (decide (y = x)) as [->|]; [|right; congruence]. left.
      destruct (Hb x Hx) as (dec & E' & _). destruct dec; congruence.
    - right. intros E'. rewrite Hf in E. unfold mbind, M_bind in E.
      rewrite (get_st_run p w a) in E by done. unfold get_st, load in E.
      rewrite lookup_ge_None_2 in E; [done|]. destruct Hw as [-> _]. lia. }
  exists (snd <$> list_find Q attr_indices). split.
  - rewrite (forM_until_find Q _ _ id (fun _ => id)).
    + by destruct (list_find Q attr_indices) as [[]|].
    + intros x Hx%elem_of_seq. destruct (Hb x) as (dec & E & _); [lia|].
      destruct dec; destruct (decide (Q x)) as [H|H]; unfold Q in H; rewrite ?E in *;
        cbn in *; congruence.
  - pose proof (least_find Q MRP_MAX_ATTRS) as Hl.
    assert (forall k, (k < MRP_MAX_ATTRS)%nat -> Q k <-> wanted types o d w p k) as HQ.
    { intros k Hk. destruct (Hb k Hk) as (dec & E & Hiff). unfold Q. rewrite E, <- Hiff.
      destruct dec; naive_solver congruence. }
    unfold attr_indices. destruct (snd <$> _) as [k|]; cbn in *.
    + destruct Hl as (Hk & HQk & Hlt). split_and!; [done|by apply HQ|].
      intros k' Hk'. rewrite <- HQ by lia. by apply Hlt.
    + intros k Hk. rewrite <- HQ by done. by apply Hl.
Qed.
End Searches.

(** allocation takes the first unused attribute and marks it disabled, and
    fails exactly when there is none. *)
Theorem mrp_get_attr_spec w :
  length (attrs (mrp w)) = MRP_MAX_ATTRS ->
  match mrp_get_attr w with
  | Some (Some i, w') =>
      least (fun j => applicant_state <$> attrs (mrp w) !! j = Some MRP_UNUSED) MRP_MAX_ATTRS (Some i) /\
      w' = upd_mrp (upd_attrs (alter (upd_applicant_state (fun _ => MRP_DISABLED)) i)) w
  | Some (None, w') =>
      w' = w /\ Forall (fun st => applicant_state st <> MRP_UNUSED) (attrs (mrp w))
  | None => False
  end.
Proof.
  intros Hlen.
  set (P := fun j => applicant_state <$> attrs (mrp w) !! j = Some MRP_UNUSED).
  unfold mrp_get_attr, attr_indices.
  rewrite (forM_until_find P _ _ id (fun i => upd_mrp (upd_attrs
    (alter (upd_applicant_state (fun _ => MRP_DISABLED)) i)))).
  - pose proof (least_find P MRP_MAX_ATTRS) as Hl.
    destruct (list_find P (seq 0 MRP_MAX_ATTRS)) as [[i x]|]; cbn in *; [done|].
    split; [done|]. apply Forall_lookup_2. intros k st Hk E. apply (Hl k).
    + rewrite <- Hlen. by apply lookup_lt_is_Some_1.
    + unfold P. by rewrite Hk, <- E.
  - intros i Hi%elem_of_seq. unfold mbind, M_bind.
    destruct (lookup_lt_is_Some_2 (attrs (mrp w)) i) as [st Hst]; [lia|].
    rewrite (get_st_run i w st) by done. subst P. cbn. rewrite Hst. cbn.
    destruct (decide (applicant_state st = MRP_UNUSED)) as [E|E];
      destruct (decide (Some _ = Some MRP_UNUSED)); try congruence; [|done].
    unfold upd_st, store. rewrite Hst. cbn. unfold upd_mrp, upd_attrs.
    by erewrite list_alter_insert_eq by done.
Qed.
(** A search for the partner of an attribute returns the first attribute
    that is active (or, if asked, disabled), is on the required side, declares
    what the other listens to or the reverse, and has a reservation of the same
    stream; it changes nothing. *)
Theorem mrp_match_attribute_pair_spec w p a (opposite_port match_disabled : bool) :
  attrs_valid w -> attrs (mrp w) !! p = Some a -> is_stream_type (attribute_type a) ->
  exists r, mrp_match_attribute_pair_by_stream_id p opposite_port match_disabled w = Some (r, w) /\
    least (wanted talker_and_listener opposite_port match_disabled w p) MRP_MAX_ATTRS r.
Proof.
  intros Hw Hp Ha.
  apply (search_least w Hw p a Hp Ha opposite_port match_disabled talker_and_listener
    (fun s t => (is_talker s && same_type t MSRP_LISTENER) || (same_type s MSRP_LISTENER && is_talker t))).
  - intros t. unfold talker_and_listener. by rewrite orb_true_iff, !andb_true_iff, !same_type_true.
  - unfold talker_and_listener, is_stream_type. intros t. rewrite !is_talker_true. naive_solver.
  - done.
Qed.

(** the search for another attribute of the same declaration, a Talker
    Advertise and a Talker Failed of one stream being the same declaration. *)
Theorem mrp_match_attr_by_stream_and_type_spec w p a (opposite_port match_disabled : bool) :
  attrs_valid w -> attrs (mrp w) !! p = Some a -> is_stream_type (attribute_type a) ->
  exists r, mrp_match_attr_by_stream_and_type p opposite_port match_disabled w = Some (r, w) /\
    least (wanted same_declaration opposite_port match_disabled w p) MRP_MAX_ATTRS r.
Proof.
  intros Hw Hp Ha.
  apply (search_least w Hw p a Hp Ha opposite_port match_disabled same_declaration
    (fun s t => same_type s t ||
      (same_type s MSRP_TALKER_ADVERTISE && same_type t MSRP_TALKER_FAILED) ||
      (same_type s MSRP_TALKER_FAILED && same_type t MSRP_TALKER_ADVERTISE))).
  - intros t. unfold same_declaration.
    rewrite !orb_true_iff, !andb_true_iff, !same_type_true, !is_talker_true.
    destruct (attribute_type a), t; naive_solver.
  - unfold same_declaration, is_stream_type. intros t. rewrite !is_talker_true.
    destruct Ha as [E|[E|E]]; rewrite E; naive_solver.
  - done.
Qed.
End Match.

(** * Reads *)

Lemma reads_get_st p : reads (get_st p).
Proof. apply keeps_load, _. Qed.
Lemma reads_get_stream i : reads (get_stream i).
Proof. apply keeps_load, _. Qed.
Lemma reads_stream_of p : reads (stream_of p).
Proof. unfold stream_of. keeps_auto. Qed.
Lemma reads_deref {A} (o : option A) : reads (deref o).
Proof. unfold deref. keeps_auto. Qed.
#[export] Hint Resolve reads_get_st reads_get_stream reads_stream_of reads_deref : keeps.

Lemma reads_deref_stream p : reads (deref_stream p).
Proof. unfold deref_stream. keeps_auto. Qed.
#[export] Hint Resolve reads_deref_stream : keeps.

(** * A concrete state

    The default configuration: a device that declares its stream [(1, 2)]
    (attribute 0, with its reservation in entry 5) and has heard a listener of
    it (attribute 1); attribute 2 is the domain, 3 and 4 the VLANs. *)
Definition sample_stream : avb_stream_entry :=
  MkStream (MkSrpInfo 1 2 [0x91; 0xe0; 0xf0; 0; 0; 7] 2 56 1 0x70 150000 (replicate 8 0) 0)
    true true [true] false.

Definition sample_attr (t : mrp_attribute_type) (a : mrp_applicant_state) (r : mrp_registrar_state)
    (h : bool) (next' : option nat) (info : info_ptr) : mrp_attribute_state :=
  MkAttr 0 t a false r (MkTimer 0 0 0 1) 0 0 next' h false info.

Definition sample_env : env_vars :=
  MkEnv (fun n => 1000 * Z.of_nat n) 0 [] 0
    [MkSource 1 2 AVB_SOURCE_STATE_POTENTIAL 2] [MkSink 0 0 AVB_SINK_STATE_DISABLED 0] [].

Definition sample_world : world :=
  let w := @static_world default_config sample_env in
  let chain i := if (i =? 8)%nat then None else Some (S i) in
  upd_mrp (fun m => upd_msrp_leaveall_timer (fun _ => [MkTimer 0 0 1 100])
     (upd_mvrp_leaveall_timer (fun _ => [MkTimer 0 0 1 100])
     (upd_joinTimer (fun _ => [MkTimer 0 0 1 1])
     (upd_periodic_timer (fun _ => [MkTimer 0 0 1 10])
     (upd_attrs (fun _ =>
       [ sample_attr MSRP_TALKER_ADVERTISE MRP_QA MRP_MT true (chain 0%nat) (InfoStream 5);
         sample_attr MSRP_LISTENER MRP_VO MRP_IN false (chain 1%nat) (InfoStream 5);
         sample_attr MSRP_DOMAIN_VECTOR MRP_AA MRP_IN true (chain 2%nat) InfoNull;
         sample_attr MVRP_VID_VECTOR MRP_AA MRP_MT true (chain 3%nat) (InfoVlan 0);
         sample_attr MVRP_VID_VECTOR MRP_DISABLED MRP_IN true (chain 4%nat) (InfoVlan 1) ]
       ++ map (fun i => upd_next (fun _ => chain i) zero_attr) (seq 5 4)) m)))))
   (upd_srp (fun s => upd_stream_table (<[5%nat := sample_stream]>)
     (upd_port_bandwidth (fun _ => [6336000]) (upd_domain_attr (fun _ => [Some 2%nat])
       (upd_current_vlan_id_from_domain (fun _ => 2) s))))
   (upd_mvrp (fun _ => [MkEntry true (Some 3%nat) 2; MkEntry false (Some 4%nat) 0]) w)).

#[local] Existing Instance default_config.

Lemma sample_attrs_valid : @attrs_valid default_config sample_world.
Proof.
  split; [reflexivity|].
  repeat (apply Forall_cons_2; [first [exact I | apply Nat.ltb_lt; reflexivity]|]).
  apply Forall_nil_2.
Defined.

Lemma mrp_get_attr_spec_witness :
  length (attrs (mrp sample_world)) = @MRP_MAX_ATTRS default_config /\
  match @mrp_get_attr default_config sample_world with
  | Some (Some i, w') =>
      least (fun j => applicant_state <$> attrs (mrp sample_world) !! j = Some MRP_UNUSED) 9 (Some i) /\
      w' = upd_mrp (upd_attrs (alter (upd_applicant_state (fun _ => MRP_DISABLED)) i)) sample_world
  | _ => False
  end.
Proof.
  split; [reflexivity|].
  exact (@mrp_get_attr_spec default_config sample_world eq_refl).
Defined.

Lemma mrp_match_attribute_pair_spec_witness :
  attrs_valid sample_world /\
  exists r, mrp_match_attribute_pair_by_stream_id 0 false false sample_world = Some (r, sample_world) /\
    least (wanted talker_and_listener false false sample_world 0) MRP_MAX_ATTRS r.
Proof.
  split; [exact sample_attrs_valid|].
  refine (@mrp_match_attribute_pair_spec default_config sample_world 0 _ false false
    sample_attrs_valid eq_refl _).
  left. reflexivity.
Defined.

Lemma mrp_match_attr_by_stream_and_type_spec_witness :
  attrs_valid sample_world /\
  exists r, mrp_match_attr_by_stream_and_type 0 false true sample_world = Some (r, sample_world) /\
    least (wanted same_declaration false true sample_world 0) MRP_MAX_ATTRS r.
Proof.
  split; [exact sample_attrs_valid|].
  refine (@mrp_match_attr_by_stream_and_type_spec default_config sample_world 0 _ false true
    sample_attrs_valid eq_refl _).
  left. reflexivity.
Defined.
