(* ===== verification/SrpTable.v ===== *)
(** The stream reservation table of [lib_tsn/src/srp/avb_srp.c], the bandwidth
    account of the ports, and the removal of attributes
    ([srp_cleanup_reservation_entry], which the macro
    [mrp_change_applicant_state] of [avb_mrp.h] calls). *)
From S2P Require Import Prelude MiscTimer MrpTypes MrpMatch.
From stdpp Require Import base list numbers.
From Stdlib Require Import ZArith Lia.
#[local] Open Scope Z_scope.

Definition AVB1722_PACKET_RATE : Z := 8000.
Definition AVB_DEFAULT_VLAN : Z := 2.

Definition srp_calculate_stream_bandwidth (max_frame_size extra_byte : Z) : Z :=
  let interframe_gap := 12 in
  let preamble_sfd := 8 in
  let eth_header_and_tag := 18 in
  let crc := 4 in
  let total_frame_size :=
    interframe_gap + preamble_sfd + eth_header_and_tag + max_frame_size + crc + extra_byte in
  s32 (s32 (total_frame_size * 8) * AVB1722_PACKET_RATE).

(** [port_bandwidth[port] += x] *)
Definition port_bandwidth_add (port x : Z) : SM unit :=
  b ← port_get (fun w => port_bandwidth (srp w)) port;
  port_set (fun w => port_bandwidth (srp w)) (fun f => upd_srp (upd_port_bandwidth f)) port (u32 (b + x)).

Definition srp_increase_port_bandwidth (max_frame_size extra_byte port : Z) : SM unit :=
  let stream_bandwidth_bps := srp_calculate_stream_bandwidth max_frame_size extra_byte in
  port_bandwidth_add port stream_bandwidth_bps.

Definition srp_decrease_port_bandwidth (max_frame_size extra_byte port : Z) : SM unit :=
  let stream_bandwidth_bps := srp_calculate_stream_bandwidth max_frame_size extra_byte in
  port_bandwidth_add port (- stream_bandwidth_bps).

(** The stream identifier of an entry. *)
Definition entry_id (e : avb_stream_entry) : Z * Z :=
  (stream_id0 (reservation e), stream_id1 (reservation e)).
Definition has_id (id : Z * Z) (e : avb_stream_entry) : bool :=
  (id.1 =? stream_id0 (reservation e)) && (id.2 =? stream_id1 (reservation e)).

(** The index of the entry [*stream] is made to point to, where there is one;
    the function returns whether there is. *)
Definition avb_srp_match_listener_to_talker_stream_id (stream_id : Z * Z) (is_listener : bool)
    : SM (option nat) :=
  gets (fun w => fst <$> list_find (fun e =>
    ((is_listener && talker_present e) || (negb is_listener && listener_present e)) &&
    has_id stream_id e) (stream_table (srp w))).

(** The loop from index [i] on, over the rest [l] of the table. *)
Fixpoint match_entry (stream_id : Z * Z) (l : list avb_stream_entry) (i empty_index : Z) : Z :=
  match l with
  | [] => empty_index
  | e :: l' =>
      if has_id stream_id e then i
      else match_entry stream_id l' (i + 1) (if has_id (0, 0) e then i else empty_index)
  end.

Definition srp_match_reservation_entry_by_id (stream_id : Z * Z) : SM Z :=
  gets (fun w => match_entry stream_id (stream_table (srp w)) 0 (-1)).

Definition set_stream_id (id : Z * Z) : avb_srp_info_t -> avb_srp_info_t :=
  fun r => upd_stream_id0 (fun _ => id.1) (upd_stream_id1 (fun _ => id.2) r).

Definition srp_add_reservation_entry_stream_id_only (stream_id : Z * Z) : SM (option nat) :=
  entry ← srp_match_reservation_entry_by_id stream_id;
  if 0 <=? entry then
    i ← stream_index entry;
    e ← get_stream i;
    _ ← whenM (negb (talker_present e)) (upd_stream i (upd_reservation (fun _ => zero_srp_info)));
    _ ← upd_stream i (upd_reservation (set_stream_id stream_id));
    _ ← upd_stream i (upd_listener_present (fun _ => true));
    mret (Some i)
  else mret None.

(** [memcpy] of the fields before [failure_bridge_id]. *)
Definition copy_minus_failure_info (from to : avb_srp_info_t) : avb_srp_info_t :=
  MkSrpInfo (stream_id0 from) (stream_id1 from) (dest_mac_addr from) (vlan_id from)
    (tspec_max_frame_size from) (tspec_max_interval from) (tspec from)
    (accumulated_latency from) (failure_bridge_id to) (failure_code to).

Definition srp_add_reservation_entry (r : avb_srp_info_t) : SM (option nat) :=
  entry ← srp_match_reservation_entry_by_id (stream_id0 r, stream_id1 r);
  if 0 <=? entry then
    i ← stream_index entry;
    _ ← upd_stream i (upd_reservation (copy_minus_failure_info r));
    _ ← upd_stream i (upd_talker_present (fun _ => true));
    mret (Some i)
  else mret None.

(** [DEBUG_1722_ROUTER] is 0: the functions of [avb_1722_router.c] do nothing. *)
Definition avb_1722_enable_stream_forwarding (stream_id : Z * Z) : SM unit := skip.
Definition avb_1722_disable_stream_forwarding (stream_id : Z * Z) : SM unit := skip.
Definition avb_1722_remove_stream_from_table (stream_id : Z * Z) : SM unit := skip.

Section Cleanup.
  Context `{cfg : Config}.

Definition srp_remove_reservation_entry (stream_id : Z * Z) : SM unit :=
  entry ← srp_match_reservation_entry_by_id stream_id;
  if 0 <=? entry then
    i ← stream_index entry;
    upd_stream i (fun _ => zero_stream)
  else trap.

Definition srp_cleanup_reservation_entry (event : mrp_event) (p : nat) : SM bool :=
  st ← get_st p;
  _ ← whenM (if (MRP_NUM_PORTS =? 2)%nat
             then same_type (attribute_type st) MSRP_LISTENER || negb (here st)
             else negb (here st) && negb (same_type (attribute_type st) MSRP_DOMAIN_VECTOR))
        (upd_st p (upd_applicant_state (fun _ => MRP_UNUSED)));
  _ ← whenM (is_talker (attribute_type st) || same_type (attribute_type st) MSRP_LISTENER)
       (matched1 ← mrp_match_attribute_pair_by_stream_id p true true;
        matched2 ← mrp_match_attribute_pair_by_stream_id p false true;
        matched3 ← mrp_match_attr_by_stream_and_type p true true;
        matched4 ← mrp_match_attr_by_stream_and_type p false true;
        match matched1, matched2, matched3, matched4 with
        | None, None, None, None =>
            s ← deref_stream (attribute_info st);
            let stream_id := (stream_id0 (reservation s), stream_id1 (reservation s)) in
            _ ← avb_1722_remove_stream_from_table stream_id;
            srp_remove_reservation_entry stream_id
        | _, _, _, _ => skip
        end);
  st ← get_st p;
  mret (is_unused st).

(** The macro [mrp_change_applicant_state]. *)
Definition mrp_change_applicant_state (p : nat) (event : mrp_event) (new : mrp_applicant_state)
    : SM unit :=
  match new with
  | MRP_UNUSED => _ ← srp_cleanup_reservation_entry event p; skip
  | _ => upd_st p (upd_applicant_state (fun _ => new))
  end.
End Cleanup.

(** * Bandwidth *)

Lemma srp_bandwidth_exact m x :
  -32768 <= m < 32768 -> 0 <= x <= 1 ->
  srp_calculate_stream_bandwidth m x = (42 + m + x) * 64000.
Proof.
  intros Hm Hx. unfold srp_calculate_stream_bandwidth, AVB1722_PACKET_RATE.
  rewrite (s32_small (_ * 8)), s32_small by lia. lia.
Qed.

(** The state with another account for the port. *)
Definition set_bandwidth (port v : Z) (w : world) : world :=
  upd_srp (upd_port_bandwidth (<[Z.to_nat port := v]>)) w.

Lemma port_bandwidth_add_run w port b x :
  0 <= port -> port_bandwidth (srp w) !! Z.to_nat port = Some b ->
  port_bandwidth_add port x w = Some (tt, set_bandwidth port (u32 (b + x)) w).
Proof.
  intros Hp Hb. unfold port_bandwidth_add, port_get, port_set, mbind, M_bind, load, store.
  rewrite (proj2 (Z.leb_le 0 port)), Hb by done.
  rewrite (proj2 (Nat.ltb_lt _ _)) by (by eapply lookup_lt_Some). done.
Qed.

(** The bandwidth of a stream whose frame size is any [short] is computed
    without overflow (64 kbit/s for each byte of the frame on the wire), and
    releasing a reservation takes back exactly what reserving it added. *)
Theorem srp_port_bandwidth_balanced w port b m x :
  -32768 <= m < 32768 -> 0 <= x <= 1 ->
  0 <= port -> port_bandwidth (srp w) !! Z.to_nat port = Some b -> 0 <= b < 2 ^ 32 ->
  srp_increase_port_bandwidth m x port w =
    Some (tt, set_bandwidth port (u32 (b + (42 + m + x) * 8 * 8000)) w) /\
  (_ ← srp_increase_port_bandwidth m x port; srp_decrease_port_bandwidth m x port) w = Some (tt, w).
Proof.
  intros Hm Hx Hp Hb Hr. unfold srp_increase_port_bandwidth, srp_decrease_port_bandwidth.
  rewrite srp_bandwidth_exact by done.
  replace ((42 + m + x) * 8 * 8000) with ((42 + m + x) * 64000) by lia.
  set (s := (42 + m + x) * 64000). split; [by apply port_bandwidth_add_run|].
  unfold mbind, M_bind. rewrite (port_bandwidth_add_run w port b s) by done.
  erewrite port_bandwidth_add_run; [|done|].
  2:{ unfold set_bandwidth. cbn. apply list_lookup_insert_eq. by eapply lookup_lt_Some. }
  do 2 f_equal. unfold set_bandwidth, upd_srp, upd_port_bandwidth. cbn.
  rewrite list_insert_insert_eq, list_insert_id.
  - destruct w as [? [] ? ?]. done.
  - rewrite Hb. f_equal. unfold u32, wrap. rewrite Z.add_mod_idemp_l by lia.
    rewrite Z.mod_small; lia.
Qed.

Lemma srp_port_bandwidth_balanced_witness :
  port_bandwidth (srp sample_world) !! 0%nat = Some 6336000 /\
  (_ ← srp_increase_port_bandwidth 56 1 0; srp_decrease_port_bandwidth 56 1 0) sample_world
    = Some (tt, sample_world).
Proof.
  split; [reflexivity|].
  exact (proj2 (srp_port_bandwidth_balanced sample_world 0 6336000 56 1
    ltac:(lia) ltac:(lia) ltac:(lia) eq_refl ltac:(lia))).
Defined.

(** * The reservation table *)

Lemma has_id_true id e : has_id id e = true <-> entry_id e = id.
Proof. unfold has_id, entry_id. rewrite andb_true_iff, !Z.eqb_eq. destruct id; cbn. naive_solver. Qed.

(** What [srp_match_reservation_entry_by_id] returns: the first entry of the
    stream, or else the last free entry, or else -1. *)
Lemma match_entry_spec id l : forall i0 e0, let r := match_entry id l i0 e0 in
  (exists k e, r = i0 + Z.of_nat k /\ l !! k = Some e /\ entry_id e = id /\
     forall j e', (j < k)%nat -> l !! j = Some e' -> entry_id e' <> id) \/
  ((forall j e', l !! j = Some e' -> entry_id e' <> id) /\
   ((exists k e, r = i0 + Z.of_nat k /\ l !! k = Some e /\ entry_id e = (0, 0) /\
       forall j e', (k < j)%nat -> l !! j = Some e' -> entry_id e' <> (0, 0)) \/
    (r = e0 /\ forall j e', l !! j = Some e' -> entry_id e' <> (0, 0)))).
Proof.
  induction l as [|e l IH]; intros i0 e0; cbn.
  { right. split; [naive_solver|]. right. naive_solver. }
  destruct (has_id id e) eqn:E.
  { left. exists 0%nat, e. apply has_id_true in E. split_and!; [lia|done|done|lia]. }
  assert (entry_id e <> id) as Hne by (rewrite <- has_id_true; congruence).
  destruct (IH (i0 + 1) (if has_id (0, 0) e then i0 else e0))
    as [(k & e' & -> & Hk & Hid & Hlt)|[Hno Hr]].
  { left. exists (S k), e'. split_and!; [lia|done|done|]. intros [|j] e'' Hj He; cbn in He.
    - by simplify_eq.
    - apply (Hlt j); [lia|done]. }
  right. split; [intros [|j] e'' He; cbn in He; [by simplify_eq|by eapply Hno]|].
  destruct Hr as [(k & e' & -> & Hk & Hid & Hgt)|[-> Hno0]].
  { left. exists (S k), e'. split_and!; [lia|done|done|]. intros [|j] e'' Hj He; [lia|].
    apply (Hgt j); [lia|done]. }
  destruct (has_id (0, 0) e) eqn:E0.
  - left. exists 0%nat, e. apply has_id_true in E0. split_and!; [lia|done|done|].
    intros [|j] e'' Hj He; [lia|]. by eapply Hno0.
  - right. split; [done|]. intros [|j] e'' He; cbn in He; [|by eapply Hno0].
    simplify_eq. rewrite <- has_id_true. congruence.
Qed.

(** No stream has two entries. *)
Definition unique_streams (l : list avb_stream_entry) : Prop :=
  forall i j e f, l !! i = Some e -> l !! j = Some f -> entry_id e = entry_id f ->
    entry_id e <> (0, 0) -> i = j.

(** An entry for [id] may be put where the search for [id] leads. *)
Lemma unique_insert id l k e :
  match_entry id l 0 (-1) = Z.of_nat k -> unique_streams l -> entry_id e = id ->
  (k < length l)%nat /\ unique_streams (<[k := e]> l).
Proof.
  intros Hm Hu He.
  destruct (match_entry_spec id l 0 (-1)) as [(k' & e' & Er & Hk & Hid & _)|[Hno Hr]].
  - rewrite Hm in Er. assert (k' = k) as -> by lia.
    split; [by eapply lookup_lt_Some|].
    intros i j a b Ha Hb Hab Hnz.
    apply list_lookup_insert_Some in Ha, Hb.
    destruct Ha as [(-> & <- & _)|[? Ha]], Hb as [(-> & <- & _)|[? Hb]]; [done|..].
    + apply (Hu i j e' b); [done|done|congruence|congruence].
    + apply (Hu i j a e'); [done|done|congruence|congruence].
    + by apply (Hu i j a b).
  - destruct Hr as [(k' & e' & Er & Hk & _)|[Er _]]; [|lia].
    rewrite Hm in Er. assert (k' = k) as -> by lia.
    split; [by eapply lookup_lt_Some|].
    intros i j a b Ha Hb Hab Hnz.
    apply list_lookup_insert_Some in Ha, Hb.
    destruct Ha as [(-> & <- & _)|[? Ha]], Hb as [(-> & <- & _)|[? Hb]]; [done|..].
    + exfalso. apply (Hno _ _ Hb). congruence.
    + exfalso. apply (Hno _ _ Ha). congruence.
    + by apply (Hu i j a b).
Qed.

(** Entries may change without changing their streams, or be cleared. *)
Lemma unique_update l k e e' :
  unique_streams l -> l !! k = Some e -> entry_id e' = entry_id e \/ entry_id e' = (0, 0) ->
  unique_streams (<[k := e']> l).
Proof.
  intros Hu Hk He i j a b Ha Hb Hab Hnz.
  apply list_lookup_insert_Some in Ha, Hb.
  destruct Ha as [(-> & <- & _)|[? Ha]], Hb as [(-> & <- & _)|[? Hb]]; [done|..].
  - destruct He as [He|He]; [|congruence]. apply (Hu i j e b); congruence.
  - destruct He as [He|He]; [|congruence]. apply (Hu i j a e); congruence.
  - by apply (Hu i j a b).
Qed.

Lemma get_stream_run i w e : stream_table (srp w) !! i = Some e -> get_stream i w = Some (e, w).
Proof. unfold get_stream, load. by intros ->. Qed.

Lemma upd_stream_run i f w e :
  stream_table (srp w) !! i = Some e ->
  upd_stream i f w = Some (tt, upd_srp (upd_stream_table (<[i := f e]>)) w).
Proof. unfold upd_stream, store. by intros ->. Qed.

Lemma upd_stream_twice i e e' w :
  upd_srp (upd_stream_table (<[i := e']>)) (upd_srp (upd_stream_table (<[i := e]>)) w) =
  upd_srp (upd_stream_table (<[i := e']>)) w.
Proof. unfold upd_srp, upd_stream_table. cbn. by rewrite list_insert_insert_eq. Qed.

Lemma lookup_upd_stream i e w :
  (i < length (stream_table (srp w)))%nat ->
  stream_table (srp (upd_srp (upd_stream_table (<[i := e]>)) w)) !! i = Some e.
Proof. apply list_lookup_insert_eq. Qed.

Lemma match_entry_unique l k e id :
  unique_streams l -> l !! k = Some e -> entry_id e = id -> id <> (0, 0) ->
  match_entry id l 0 (-1) = Z.of_nat k.
Proof.
  intros Hu Hk He Hnz. destruct (match_entry_spec id l 0 (-1)) as [(k' & e' & -> & Hk' & Hid & _)|[Hno _]].
  - rewrite Z.add_0_l. f_equal. apply (Hu k' k e' e); congruence.
  - exfalso. by apply (Hno k e).
Qed.

Lemma match_entry_range id l :
  match_entry id l 0 (-1) = -1 \/
  exists k e, match_entry id l 0 (-1) = Z.of_nat k /\ l !! k = Some e /\
    (entry_id e = id \/ entry_id e = (0, 0)).
Proof.
  destruct (match_entry_spec id l 0 (-1)) as [(k & e & -> & Hk & Hid & _)|[_ [(k & e & -> & Hk & Hid & _)|[-> _]]]];
    [right|right|by left]; exists k, e; rewrite Z.add_0_l; auto.
Qed.

(** The table holds neither the stream nor a free entry. *)
Definition table_full (id : Z * Z) (l : list avb_stream_entry) : Prop :=
  Forall (fun e => entry_id e <> id /\ entry_id e <> (0, 0)) l.

Lemma match_entry_none id l : match_entry id l 0 (-1) = -1 -> table_full id l.
Proof.
  intros H. destruct (match_entry_spec id l 0 (-1)) as [(k & e & E & _)|[Hno [(k & e & E & _)|[_ H0]]]];
    [lia..|]. apply Forall_lookup_2. naive_solver.
Qed.

(** What adding a reservation leaves: [e'] in entry [i], every other entry as it
    was, each stream still at most once, and the new one found by its identifier. *)
Definition added (id : Z * Z) (i : nat) (e e' : avb_stream_entry) (w w' : world) : Prop :=
  stream_table (srp w) !! i = Some e /\ (entry_id e = id \/ entry_id e = (0, 0)) /\
  w' = upd_srp (upd_stream_table (<[i := e']>)) w /\ entry_id e' = id /\
  unique_streams (stream_table (srp w')) /\
  (id <> (0, 0) -> srp_match_reservation_entry_by_id id w' = Some (Z.of_nat i, w')).

Lemma added_intro id i e e' w :
  unique_streams (stream_table (srp w)) ->
  match_entry id (stream_table (srp w)) 0 (-1) = Z.of_nat i -> stream_table (srp w) !! i = Some e ->
  entry_id e = id \/ entry_id e = (0, 0) -> entry_id e' = id ->
  added id i e e' w (upd_srp (upd_stream_table (<[i := e']>)) w).
Proof.
  intros Hu Hm Hi He He'. destruct (unique_insert id _ i e' Hm Hu He') as [Hlt Hu'].
  split_and!; try done. intros Hnz. unfold srp_match_reservation_entry_by_id, gets. cbn.
  rewrite (match_entry_unique _ i e'); [done|done| |done|done]. by apply list_lookup_insert_eq.
Qed.

Lemma srp_add_reservation_entry_run w r :
  unique_streams (stream_table (srp w)) ->
  match srp_add_reservation_entry r w with
  | Some (Some i, w') => exists e,
      added (stream_id0 r, stream_id1 r) i e
        (upd_talker_present (fun _ => true) (upd_reservation (copy_minus_failure_info r) e)) w w'
  | Some (None, w') => w' = w /\ table_full (stream_id0 r, stream_id1 r) (stream_table (srp w))
  | None => False
  end.
Proof.
  intros Hu. unfold srp_add_reservation_entry, srp_match_reservation_entry_by_id, mbind, M_bind, gets.
  destruct (match_entry_range (stream_id0 r, stream_id1 r) (stream_table (srp w)))
    as [E|(k & e & E & Hk & Hid)]; rewrite E.
  - cbn. split; [done|]. by apply match_entry_none.
  - unfold stream_index. rewrite (proj2 (Z.leb_le 0 _)) by lia.
    unfold mret at 1, M_ret at 1. rewrite Nat2Z.id.
    rewrite (upd_stream_run _ _ _ e) by done.
    erewrite upd_stream_run by (apply lookup_upd_stream; by eapply lookup_lt_Some).
    exists e. rewrite upd_stream_twice. by apply (added_intro _ k e).
Qed.

(** Registering a talker's reservation puts it, but for its failure
    information, into the entry of its stream or into a free one and marks the
    talker present; nothing else changes, no stream has two entries, and it
    fails only if the table is full. *)
Theorem srp_add_reservation_entry_spec w r :
  unique_streams (stream_table (srp w)) ->
  match srp_add_reservation_entry r w with
  | Some (Some i, w') => exists e,
      added (stream_id0 r, stream_id1 r) i e
        (upd_talker_present (fun _ => true) (upd_reservation (copy_minus_failure_info r) e)) w w'
  | Some (None, w') => w' = w /\ table_full (stream_id0 r, stream_id1 r) (stream_table (srp w))
  | None => False
  end.
Proof. apply srp_add_reservation_entry_run. Qed.

Lemma srp_add_reservation_entry_spec_witness :
  unique_streams (stream_table (srp sample_world)) /\
  match srp_add_reservation_entry (set_stream_id (7, 8) zero_srp_info) sample_world with
  | Some (Some i, w') => exists e, added (7, 8) i e
      (upd_talker_present (fun _ => true) (upd_reservation
         (copy_minus_failure_info (set_stream_id (7, 8) zero_srp_info)) e)) sample_world w'
  | Some (None, w') => w' = sample_world /\ table_full (7, 8) (stream_table (srp sample_world))
  | None => False
  end.
Proof.
  assert (unique_streams (stream_table (srp sample_world))) as H.
  { intros i j e f Hi Hj He Hnz.
    do 6 (destruct i as [|i]; [cbn in Hi; injection Hi as <-;
      first [by destruct Hnz | do 6 (destruct j as [|j]; [cbn in Hj; injection Hj as <-;
        first [reflexivity | discriminate He]|]); discriminate Hj]|]). discriminate Hi. }
  split; [exact H|]. exact (srp_add_reservation_entry_spec sample_world (set_stream_id (7, 8) zero_srp_info) H).
Defined.

Lemma srp_add_reservation_entry_stream_id_only_run w id :
  unique_streams (stream_table (srp w)) ->
  match srp_add_reservation_entry_stream_id_only id w with
  | Some (Some i, w') => exists e,
      added id i e (upd_listener_present (fun _ => true) (upd_reservation (set_stream_id id)
        (if talker_present e then e else upd_reservation (fun _ => zero_srp_info) e))) w w'
  | Some (None, w') => w' = w /\ table_full id (stream_table (srp w))
  | None => False
  end.
Proof.
  intros Hu.
  unfold srp_add_reservation_entry_stream_id_only, srp_match_reservation_entry_by_id, mbind, M_bind, gets.
  destruct (match_entry_range id (stream_table (srp w))) as [E|(k & e & E & Hk & Hid)]; rewrite E.
  - cbn. split; [done|]. by apply match_entry_none.
  - unfold stream_index. rewrite (proj2 (Z.leb_le 0 _)) by lia.
    unfold mret at 1, M_ret at 1. rewrite Nat2Z.id, (get_stream_run _ _ e) by done.
    assert (k < length (stream_table (srp w)))%nat as Hlt by (by eapply lookup_lt_Some).
    destruct (talker_present e) eqn:Et; cbn [negb whenM];
      [unfold skip, mret at 1, M_ret at 1|];
      repeat (erewrite upd_stream_run by
        first [done | apply lookup_upd_stream; cbn; by rewrite ?length_insert]);
      rewrite ?upd_stream_twice; cbn; exists e; rewrite Et; apply (added_intro id k e); try done;
      by destruct id.
Qed.

(** the same for the reservation of a stream known only by its identifier:
    the entry keeps what a present talker has put there, and is cleared
    otherwise. *)
Theorem srp_add_reservation_entry_stream_id_only_spec w id :
  unique_streams (stream_table (srp w)) ->
  match srp_add_reservation_entry_stream_id_only id w with
  | Some (Some i, w') => exists e,
      added id i e (upd_listener_present (fun _ => true) (upd_reservation (set_stream_id id)
        (if talker_present e then e else upd_reservation (fun _ => zero_srp_info) e))) w w'
  | Some (None, w') => w' = w /\ table_full id (stream_table (srp w))
  | None => False
  end.
Proof. apply srp_add_reservation_entry_stream_id_only_run. Qed.

Lemma srp_add_reservation_entry_stream_id_only_spec_witness :
  unique_streams [sample_stream; @zero_stream default_config] /\
  let w := upd_srp (upd_stream_table (fun _ => [sample_stream; @zero_stream default_config])) sample_world in
  match srp_add_reservation_entry_stream_id_only (7, 8) w with
  | Some (Some i, w') => exists e, added (7, 8) i e
      (upd_listener_present (fun _ => true) (upd_reservation (set_stream_id (7, 8))
        (if talker_present e then e else upd_reservation (fun _ => zero_srp_info) e))) w w'
  | Some (None, w') => w' = w /\ table_full (7, 8) (stream_table (srp w))
  | None => False
  end.
Proof.
  assert (unique_streams [sample_stream; @zero_stream default_config]) as H.
  { intros [|[|i]] [|[|j]] e f Hi Hj He Hnz; cbn in Hi, Hj; simplify_eq; try done. }
  split; [exact H|].
  exact (srp_add_reservation_entry_stream_id_only_spec
    (upd_srp (upd_stream_table (fun _ => [sample_stream; @zero_stream default_config])) sample_world)
    (7, 8) H).
Defined.
