(* ===== verification/MrpPdu.v ===== *)
(** Building MRP packets in [send_buf]: the parts of [lib_tsn/src/srp/avb_mrp.c]
    that know the packet format of [avb_mrp_pdu.h].  Offsets 0 to 13 of the
    buffer hold the Ethernet header, offset 14 the MRP header; a message has a
    header of 4 bytes, a vector attribute a header of 2, and both lists end with
    two zero bytes. *)
From S2P Require Import Prelude Bytes MiscTimer MrpTypes.
From stdpp Require Import base list list_numbers numbers.
From Stdlib Require Import ZArith Lia.
#[local] Open Scope Z_scope.

Definition AVB_SRP_ETHERTYPE : Z := 0x22ea.
Definition AVB_MVRP_ETHERTYPE : Z := 0x88f5.
Definition mvrp_dest_mac : list Z := [0x01; 0x80; 0xc2; 0x00; 0x00; 0x21].
Definition srp_dest_mac : list Z := [0x01; 0x80; 0xc2; 0x00; 0x00; 0xe].

Definition AVB_SRP_ATTRIBUTE_TYPE_TALKER_ADVERTISE : Z := 1.
Definition AVB_SRP_ATTRIBUTE_TYPE_TALKER_FAILED : Z := 2.
Definition AVB_SRP_ATTRIBUTE_TYPE_LISTENER : Z := 3.
Definition AVB_SRP_ATTRIBUTE_TYPE_DOMAIN : Z := 4.
Definition AVB_MMRP_MAC_VECTOR_ATTRIBUTE_TYPE : Z := 2.
Definition AVB_MVRP_VID_VECTOR_ATTRIBUTE_TYPE : Z := 1.

(** [FIRST_VALUE_LENGTHS]: the sizes of the structures of the pdu headers. *)
Definition first_value_lengths (t : mrp_attribute_type) : Z :=
  match t with
  | MSRP_TALKER_ADVERTISE => 25
  | MSRP_TALKER_FAILED => 34
  | MSRP_LISTENER => 8
  | MSRP_DOMAIN_VECTOR => 4
  | MMRP_MAC_VECTOR => 6
  | MVRP_VID_VECTOR => 2
  end.

(** [sizeof] of the headers and footers. *)
Definition sizeof_mrp_ethernet_hdr : Z := 14.
Definition sizeof_mrp_header : Z := 1.
Definition sizeof_mrp_msg_header : Z := 4.
Definition sizeof_mrp_vector_header : Z := 2.
Definition sizeof_mrp_footer : Z := 2.
Definition sizeof_mrp_msg_footer : Z := 2.

(** Where the first message of the packet under construction goes. *)
Definition first_msg : Z := sizeof_mrp_ethernet_hdr + sizeof_mrp_header.

Definition MAX_MRP_MSG_SIZE : Z :=
  sizeof_mrp_msg_header + first_value_lengths MSRP_TALKER_ADVERTISE + 1 + sizeof_mrp_msg_footer.

Definition configure_send_buffer (addr : list Z) (etype : Z) : SM unit :=
  let etype := s16 etype in
  _ ← wr_bytes 0 addr;
  _ ← wr 12 (Z.shiftr etype 8);
  _ ← wr 13 (Z.land etype 0xff);
  modify (upd_mrp (upd_current_etype (fun _ => etype))).

(** The length field of the message at [hdr] in [send_buf]. *)
Definition attribute_list_length (hdr : Z) : SM Z :=
  a ← rd (hdr + 2);
  b ← rd (hdr + 3);
  mret (Z.shiftl a 8 + b).

(** [msg < end && (msg[0] != 0 || msg[1] != 0)] *)
Definition more_messages (msg end' : Z) : SM bool :=
  if msg <? end' then
    a ← rd msg;
    if negb (a =? 0) then mret true
    else b ← rd (msg + 1); mret (negb (b =? 0))
  else mret false.

(** Every round of the loops over the messages of the buffer advances by at
    least two bytes. *)
Definition msg_fuel : nat := Z.to_nat MRP_SEND_BUFFER_SIZE.

Definition strip_attribute_list_length_fields : SM unit :=
  etype ← gets (fun w => current_etype (mrp w));
  if negb (etype =? AVB_SRP_ETHERTYPE) then
    end' ← get_send_ptr;
    end' ← loopM msg_fuel (fun '(msg, end') =>
      more ← more_messages msg end';
      if (more : bool) then
        len ← attribute_list_length msg;
        let next := msg + sizeof_mrp_msg_header + len in
        _ ← forM (seqZ (msg + 2) (end' - 2 - (msg + 2))) (fun c => b ← rd (c + 2); wr c b);
        mret (inl (next - 2, end' - 2))
      else mret (inr end')) (first_msg, end');
    set_send_ptr end'
  else skip.

Definition force_send (ifnum : Z) : SM unit :=
  ptr ← get_send_ptr;
  _ ← strip_attribute_list_length_fields;
  _ ← whenM (negb (ptr =? first_msg))
       (let end' := if ptr + 4 <? 64 then 64 else ptr + 4 in
        _ ← forM (seqZ ptr (end' - ptr)) (fun p => wr p 0);
        frame ← rd_bytes (Z.to_nat end') 0;
        emit (TxFrame frame ifnum));
  set_send_ptr first_msg.

Definition send (ifnum : Z) : SM unit :=
  p ← get_send_ptr;
  if MRP_SEND_BUFFER_SIZE <? p + MAX_MRP_MSG_SIZE + sizeof_mrp_footer
  then force_send ifnum else skip.

Definition makeTxEvent (e : mrp_event) (st : mrp_attribute_state) (leave_all : bool) : Z :=
  let firstEvent := 0 in
  match applicant_state st with
  | MRP_VP | MRP_AA | MRP_AP | MRP_QA | MRP_QP =>
      if leave_all && bool_decide (applicant_state st = MRP_VP) then
        match registrar_state st with
        | MRP_IN => MRP_ATTRIBUTE_EVENT_IN
        | _ => MRP_ATTRIBUTE_EVENT_MT
        end
      else if leave_all || negb (bool_decide (applicant_state st = MRP_QP)) then
        match registrar_state st with
        | MRP_IN => MRP_ATTRIBUTE_EVENT_JOININ
        | _ => MRP_ATTRIBUTE_EVENT_JOINMT
        end
      else firstEvent
  | MRP_VN | MRP_AN => MRP_ATTRIBUTE_EVENT_NEW
  | MRP_LA => MRP_ATTRIBUTE_EVENT_LV
  | MRP_LO =>
      match registrar_state st with
      | MRP_IN => MRP_ATTRIBUTE_EVENT_IN
      | _ => MRP_ATTRIBUTE_EVENT_MT
      end
  | _ => firstEvent
  end.

(** [None] is the result -1. *)
Definition decode_attr_type (etype atype : Z) : option mrp_attribute_type :=
  if etype =? AVB_SRP_ETHERTYPE then
    if atype =? AVB_SRP_ATTRIBUTE_TYPE_TALKER_ADVERTISE then Some MSRP_TALKER_ADVERTISE
    else if atype =? AVB_SRP_ATTRIBUTE_TYPE_TALKER_FAILED then Some MSRP_TALKER_FAILED
    else if atype =? AVB_SRP_ATTRIBUTE_TYPE_LISTENER then Some MSRP_LISTENER
    else if atype =? AVB_SRP_ATTRIBUTE_TYPE_DOMAIN then Some MSRP_DOMAIN_VECTOR
    else None
  else if etype =? AVB_MVRP_ETHERTYPE then
    if atype =? AVB_MVRP_VID_VECTOR_ATTRIBUTE_TYPE then Some MVRP_VID_VECTOR else None
  else None.

Definition encode_attr_type (attr : mrp_attribute_type) : Z :=
  match attr with
  | MSRP_TALKER_ADVERTISE => AVB_SRP_ATTRIBUTE_TYPE_TALKER_ADVERTISE
  | MSRP_TALKER_FAILED => AVB_SRP_ATTRIBUTE_TYPE_TALKER_FAILED
  | MSRP_LISTENER => AVB_SRP_ATTRIBUTE_TYPE_LISTENER
  | MSRP_DOMAIN_VECTOR => AVB_SRP_ATTRIBUTE_TYPE_DOMAIN
  | MMRP_MAC_VECTOR => AVB_MMRP_MAC_VECTOR_ATTRIBUTE_TYPE
  | MVRP_VID_VECTOR => AVB_MVRP_VID_VECTOR_ATTRIBUTE_TYPE
  end.

Definition has_fourpacked_events (attr : option mrp_attribute_type) : bool :=
  bool_decide (attr = Some MSRP_LISTENER).

(** [for (int j=0;j<k;j++) x = f(x);] *)
Definition repeat_z (k : Z) (f : Z -> Z) (x : Z) : Z := Nat.iter (Z.to_nat k) f x.

Definition encode_three_packed (event i vector : Z) : Z :=
  vector + repeat_z (2 - i) (fun event => event * 6) event.

Definition encode_four_packed (event i vector : Z) : Z :=
  vector + repeat_z (3 - i) (fun event => event * 4) event.

Definition decode_threepacked (vector i : Z) : Z :=
  Z.rem (repeat_z (2 - i) (fun vector => Z.quot vector 6) vector) 6.

Definition decode_fourpacked (vector i : Z) : Z :=
  Z.rem (repeat_z (3 - i) (fun vector => Z.quot vector 4) vector) 4.

(** [hton_16(hdr->AttributeListLength, len)] *)
Definition set_attribute_list_length (hdr len : Z) : SM unit := wr_bytes (hdr + 2) (hton_16 len).

(** What the two functions below share: a byte is inserted at [vector] for a
    new group of values, the length field is adjusted, and the end mark of the
    attribute list is written again. *)
Definition open_vector_byte (buf vector attr_list_length : Z) : SM unit :=
  p ← get_send_ptr;
  _ ← whenM (0 <? p - vector) (memmove (vector + 1) vector (Z.to_nat (p - vector)));
  _ ← set_send_ptr (p + 1);
  _ ← wr vector 0;
  let attr_list_length := attr_list_length + 1 in
  _ ← set_attribute_list_length buf attr_list_length;
  let endmark := buf + sizeof_mrp_msg_header + attr_list_length - 2 in
  _ ← wr endmark 0;
  wr (endmark + 1) 0.

Definition mrp_encode_three_packed_event (buf event : Z) (attr : mrp_attribute_type) : SM unit :=
  num_values ← rd (buf + sizeof_mrp_msg_header + 1);
  let first_value_length := first_value_lengths attr in
  let vector := buf + sizeof_mrp_msg_header + sizeof_mrp_vector_header + first_value_length
                + num_values / 3 in
  let shift_required := num_values mod 3 =? 0 in
  attr_list_length ← attribute_list_length buf;
  _ ← whenM shift_required (open_vector_byte buf vector attr_list_length);
  v ← rd vector;
  wr vector (encode_three_packed event (num_values mod 3) v).

Definition mrp_encode_four_packed_event (buf event : Z) (attr : mrp_attribute_type) : SM unit :=
  num_values ← rd (buf + sizeof_mrp_msg_header + 1);
  let first_value_length := first_value_lengths attr in
  let vector := buf + sizeof_mrp_msg_header + sizeof_mrp_vector_header + first_value_length
                + (num_values + 3) / 3 + num_values / 4 in
  let shift_required := num_values mod 4 =? 0 in
  attr_list_length ← attribute_list_length buf;
  _ ← whenM shift_required (open_vector_byte buf vector attr_list_length);
  v ← rd vector;
  wr vector (encode_four_packed event (num_values mod 4) v).

Definition create_empty_msg (attr : mrp_attribute_type) (leave_all : Z) : SM unit :=
  hdr ← get_send_ptr;
  let hdr_length := sizeof_mrp_msg_header in
  let vector_length := 0 in
  let first_value_length := first_value_lengths attr in
  let attr_list_length :=
    first_value_length + sizeof_mrp_vector_header + vector_length + sizeof_mrp_footer in
  let msg_length := hdr_length + attr_list_length in
  _ ← memset hdr 0 (Z.to_nat msg_length);
  _ ← wr hdr (encode_attr_type attr);
  _ ← wr (hdr + 1) first_value_length;
  _ ← set_attribute_list_length hdr attr_list_length;
  _ ← wr (hdr + sizeof_mrp_msg_header) (Z.shiftl leave_all 5);
  _ ← wr (hdr + sizeof_mrp_msg_header + 1) 0;
  set_send_ptr (hdr + msg_length).

(** * Packed events *)

(** Evaluates the closed trip counts and powers of the packing functions. *)
Ltac pack_norm :=
  unfold decode_threepacked, decode_fourpacked, encode_three_packed, encode_four_packed, repeat_z;
  repeat match goal with
  | |- context [Z.to_nat ?k] => let n := eval vm_compute in (Z.to_nat k) in change (Z.to_nat k) with n
  | |- context [?b ^ ?k] => let n := eval vm_compute in (b ^ k) in change (b ^ k) with n
  end; cbn [Nat.iter nat_rect].

Lemma decode_threepacked_eq v i :
  0 <= v -> 0 <= i <= 2 -> decode_threepacked v i = (v / 6 ^ (2 - i)) mod 6.
Proof.
  intros Hv Hi. assert (i = 0 \/ i = 1 \/ i = 2) as [->|[->| ->]] by lia; pack_norm;
    Z.to_euclidean_division_equations; lia.
Qed.

Lemma decode_fourpacked_eq v i :
  0 <= v -> 0 <= i <= 3 -> decode_fourpacked v i = (v / 4 ^ (3 - i)) mod 4.
Proof.
  intros Hv Hi. assert (i = 0 \/ i = 1 \/ i = 2 \/ i = 3) as [->|[->|[->| ->]]] by lia; pack_norm;
    Z.to_euclidean_division_equations; lia.
Qed.

Lemma encode_three_packed_eq e i v :
  0 <= i <= 2 -> encode_three_packed e i v = v + e * 6 ^ (2 - i).
Proof.
  intros Hi. assert (i = 0 \/ i = 1 \/ i = 2) as [->|[->| ->]] by lia; pack_norm; lia.
Qed.

Lemma encode_four_packed_eq e i v :
  0 <= i <= 3 -> encode_four_packed e i v = v + e * 4 ^ (3 - i).
Proof.
  intros Hi. assert (i = 0 \/ i = 1 \/ i = 2 \/ i = 3) as [->|[->|[->| ->]]] by lia; pack_norm; lia.
Qed.

(** A vector byte built value by value, as the message encoders do. *)
Definition pack3 (es : list Z) : Z :=
  (foldl (fun '(i, v) e => (i + 1, encode_three_packed e i v)) (0, 0) es).2.
Definition pack4 (es : list Z) : Z :=
  (foldl (fun '(i, v) e => (i + 1, encode_four_packed e i v)) (0, 0) es).2.

(** Up to three events packed into a byte one after the other decode to
    themselves, and the byte is never in the range (above 0xD7) that the receiver
    rejects; conversely each byte the receiver accepts is the packing of the
    three events it decodes to. *)
Theorem three_packed_roundtrip (es : list Z) (v : Z) :
  Forall (fun e => 0 <= e < 6) es -> (length es <= 3)%nat -> 0 <= v <= 0xD7 ->
  0 <= pack3 es <= 0xD7 /\
  (forall (i : nat) e, es !! i = Some e -> decode_threepacked (pack3 es) (Z.of_nat i) = e) /\
  pack3 [decode_threepacked v 0; decode_threepacked v 1; decode_threepacked v 2] = v.
Proof.
  intros Hes Hlen Hv.
  assert (0 <= pack3 es <= 0xD7 /\
    forall (i : nat) e, es !! i = Some e -> (pack3 es / 6 ^ (2 - Z.of_nat i)) mod 6 = e /\
      0 <= Z.of_nat i <= 2) as [Hb Hd].
  { destruct es as [|a [|b [|c [|]]]]; cbn in Hlen; try lia;
      repeat match goal with H : Forall _ (_ :: _) |- _ => inv H end;
      unfold pack3; cbn [foldl snd];
      rewrite ?encode_three_packed_eq by lia; (split; [cbn; lia|]);
      intros [|[|[|i]]] e He; cbn in He; simplify_eq;
      (split; [|lia]); cbn; Z.to_euclidean_division_equations; lia. }
  split_and!; [lia|lia|..].
  - intros i e Hi. destruct (Hd i e Hi). by rewrite decode_threepacked_eq by lia.
  - unfold pack3. cbn [foldl snd].
    rewrite !encode_three_packed_eq, !decode_threepacked_eq by lia. pack_norm.
    Z.to_euclidean_division_equations; lia.
Qed.

Lemma three_packed_roundtrip_witness :
  Forall (fun e => 0 <= e < 6) [5; 0; 3] /\
  decode_threepacked (pack3 [5; 0; 3]) 0 = 5 /\ decode_threepacked (pack3 [5; 0; 3]) 2 = 3 /\
  pack3 [decode_threepacked 200 0; decode_threepacked 200 1; decode_threepacked 200 2] = 200.
Proof.
  assert (Forall (fun e => 0 <= e < 6) [5; 0; 3]) as H
    by (repeat (apply Forall_cons_2; [lia|]); apply Forall_nil_2).
  destruct (three_packed_roundtrip [5; 0; 3] 200 H ltac:(cbn; lia) ltac:(lia)) as (_ & Hd & Hv).
  exact (conj H (conj (Hd 0%nat 5 eq_refl) (conj (Hd 2%nat 3 eq_refl) Hv))).
Defined.

(** up to four four-packed parameters packed into a byte decode to
    themselves, and each byte is the packing of the four parameters it decodes
    to. *)
Theorem four_packed_roundtrip (es : list Z) (v : Z) :
  Forall (fun e => 0 <= e < 4) es -> (length es <= 4)%nat -> byte_ok v ->
  byte_ok (pack4 es) /\
  (forall (i : nat) e, es !! i = Some e -> decode_fourpacked (pack4 es) (Z.of_nat i) = e) /\
  pack4 [decode_fourpacked v 0; decode_fourpacked v 1; decode_fourpacked v 2; decode_fourpacked v 3]
  = v.
Proof.
  unfold byte_ok. intros Hes Hlen Hv.
  assert (0 <= pack4 es < 256 /\
    forall (i : nat) e, es !! i = Some e -> (pack4 es / 4 ^ (3 - Z.of_nat i)) mod 4 = e /\
      0 <= Z.of_nat i <= 3) as [Hb Hd].
  { destruct es as [|a [|b [|c [|d [|]]]]]; cbn in Hlen; try lia;
      repeat match goal with H : Forall _ (_ :: _) |- _ => inv H end;
      unfold pack4; cbn [foldl snd];
      rewrite ?encode_four_packed_eq by lia; (split; [cbn; lia|]);
      intros [|[|[|[|i]]]] e He; cbn in He; simplify_eq;
      (split; [|lia]); cbn; Z.to_euclidean_division_equations; lia. }
  split_and!; [lia|lia|..].
  - intros i e Hi. destruct (Hd i e Hi). by rewrite decode_fourpacked_eq by lia.
  - unfold pack4. cbn [foldl snd].
    rewrite !encode_four_packed_eq, !decode_fourpacked_eq by lia. pack_norm.
    Z.to_euclidean_division_equations; lia.
Qed.

Lemma four_packed_roundtrip_witness :
  Forall (fun e => 0 <= e < 4) [2; 0; 3; 1] /\
  decode_fourpacked (pack4 [2; 0; 3; 1]) 0 = 2 /\ decode_fourpacked (pack4 [2; 0; 3; 1]) 3 = 1 /\
  pack4 [decode_fourpacked 77 0; decode_fourpacked 77 1; decode_fourpacked 77 2;
         decode_fourpacked 77 3] = 77.
Proof.
  assert (Forall (fun e => 0 <= e < 4) [2; 0; 3; 1]) as H
    by (repeat (apply Forall_cons_2; [lia|]); apply Forall_nil_2).
  destruct (four_packed_roundtrip [2; 0; 3; 1] 77 H ltac:(cbn; lia) ltac:(unfold byte_ok; lia))
    as (_ & Hd & Hv).
  exact (conj H (conj (Hd 0%nat 2 eq_refl) (conj (Hd 3%nat 1 eq_refl) Hv))).
Defined.
