(* ===== verification/SrpEncode.v ===== *)
(** What the applications of MRP write into the messages of a packet under
    construction: [avb_srp_encode_message] and the functions it calls
    ([lib_tsn/src/srp/avb_srp.c]), and [avb_mvrp_merge_message]
    ([lib_tsn/src/srp/avb_mvrp.c]).  Each returns whether it has put the
    attribute into the message. *)
From S2P Require Import Prelude Bytes MiscTimer MrpTypes MrpMatch MrpPdu.
From stdpp Require Import base list numbers.
From Stdlib Require Import ZArith Lia.
#[local] Open Scope Z_scope.

Definition AVB_SRP_TSPEC_PRIORITY_DEFAULT : Z := 3.
Definition AVB_SRP_SRCLASS_DEFAULT : Z := 6.

(** Offsets of the fields of [srp_talker_failed_first_value] (of which
    [srp_talker_first_value] and [srp_listener_first_value] are prefixes) and of
    [srp_domain_first_value]. *)
Definition off_StreamId : Z := 0.
Definition off_DestMacAddr : Z := 8.
Definition off_VlanID : Z := 14.
Definition off_TSpecMaxFrameSize : Z := 16.
Definition off_TSpecMaxIntervalFrames : Z := 18.
Definition off_TSpec : Z := 20.
Definition off_AccumulatedLatency : Z := 21.
Definition off_FailureBridgeId : Z := 25.
Definition off_FailureCode : Z := 33.
Definition off_SRclassID : Z := 0.
Definition off_SRclassPriority : Z := 1.
Definition off_SRclassVID : Z := 2.

(** The first value of the message at [buf] in [send_buf]. *)
Definition first_value_of (buf : Z) : Z := buf + sizeof_mrp_msg_header + sizeof_mrp_vector_header.
Definition NumberOfValuesLow (buf : Z) : Z := buf + sizeof_mrp_msg_header + 1.

(** [(x << 32) + y] in [unsigned long long]. *)
Definition id64 (r : avb_srp_info_t) : Z := u64 (u64 (Z.shiftl (stream_id0 r) 32) + stream_id1 r).

Definition rd_ntoh_16 (off : Z) : SM Z := a ← rd off; b ← rd (off + 1); mret (ntoh_16 a b).

Definition check_listener_firstvalue_merge (buf : Z) (sink_info : info_ptr) : SM bool :=
  num_values ← rd (NumberOfValuesLow buf);
  s ← deref_stream sink_info;
  let my_stream_id := id64 (reservation s) in
  bs ← rd_bytes 8 (first_value_of buf + off_StreamId);
  let stream_id := u64 (be_accum 0 bs + num_values) in
  mret (my_stream_id =? stream_id).

(** [streamid = byterev(id); memcpy(&StreamId[...], &streamid, 4)] for both halves. *)
Definition put_stream_id (first_value : Z) (r : avb_srp_info_t) : SM unit :=
  _ ← wr_bytes (first_value + off_StreamId) (le_bytes 4 (byterev (stream_id0 r)));
  wr_bytes (first_value + off_StreamId + 4) (le_bytes 4 (byterev (stream_id1 r))).

Definition encode_listener_message (buf : Z) (p : nat) (vector : Z) : SM bool :=
  ty ← rd buf;
  if negb (ty =? AVB_SRP_ATTRIBUTE_TYPE_LISTENER) then mret false
  else
    st ← get_st p;
    num_values ← rd (NumberOfValuesLow buf);
    merge ← (if num_values =? 0 then mret true
             else check_listener_firstvalue_merge buf (attribute_info st));
    _ ← whenM merge
      (s ← deref_stream (attribute_info st);
       _ ← whenM (num_values =? 0) (put_stream_id (first_value_of buf) (reservation s));
       _ ← mrp_encode_three_packed_event buf vector (attribute_type st);
       boundary ← (if talker_present s
                   then port_get (fun w => srp_domain_boundary_port (srp w)) (port_num st)
                   else mret true);
       _ ← (if talker_present s && negb boundary && negb (reservation_failed s)
            then mrp_encode_four_packed_event buf AVB_SRP_FOUR_PACKED_EVENT_READY (attribute_type st)
            else mrp_encode_four_packed_event buf AVB_SRP_FOUR_PACKED_EVENT_ASKING_FAILED
                   (attribute_type st));
       wr (NumberOfValuesLow buf) (num_values + 1));
    mret merge.

Definition check_domain_firstvalue_merge (buf : Z) : bool := false.

Definition encode_domain_message (buf : Z) (p : nat) (vector : Z) : SM bool :=
  ty ← rd buf;
  if negb (ty =? AVB_SRP_ATTRIBUTE_TYPE_DOMAIN) then mret false
  else
    st ← get_st p;
    num_values ← rd (NumberOfValuesLow buf);
    let merge := if num_values =? 0 then true else check_domain_firstvalue_merge buf in
    _ ← whenM merge
      (let first_value := first_value_of buf in
       vid ← gets (fun w => current_vlan_id_from_domain (srp w));
       _ ← wr (first_value + off_SRclassID) AVB_SRP_SRCLASS_DEFAULT;
       _ ← wr (first_value + off_SRclassPriority) AVB_SRP_TSPEC_PRIORITY_DEFAULT;
       _ ← wr (first_value + off_SRclassVID) (Z.land (Z.shiftr vid 8) 0xff);
       _ ← wr (first_value + off_SRclassVID + 1) (Z.land vid 0xff);
       _ ← mrp_encode_three_packed_event buf vector (attribute_type st);
       wr (NumberOfValuesLow buf) (num_values + 1));
    mret merge.

Definition check_talker_firstvalue_merge (buf : Z) (source_info : info_ptr) : SM bool :=
  num_values ← rd (NumberOfValuesLow buf);
  s ← deref_stream source_info;
  let r := reservation s in
  let first_value := first_value_of buf in
  da ← rd_bytes 6 (first_value + off_DestMacAddr);
  let my_dest_addr := be_accum 0 (dest_mac_addr r) in
  let dest_addr := u64 (be_accum 0 da + num_values) in
  if negb (dest_addr =? my_dest_addr) then mret false
  else
    bs ← rd_bytes 8 (first_value + off_StreamId);
    let stream_id := u64 (be_accum 0 bs + num_values) in
    if negb (id64 r =? stream_id) then mret false
    else
      vlan ← rd_ntoh_16 (first_value + off_VlanID);
      if negb (vlan =? vlan_id r) then mret false
      else
        framesize ← rd_ntoh_16 (first_value + off_TSpecMaxFrameSize);
        mret (framesize =? tspec_max_frame_size r).

(** The first value written by [encode_talker_message] when the message is empty. *)
Definition put_talker_first_value (first_value : Z) (failed : bool) (r : avb_srp_info_t) : SM unit :=
  _ ← wr_bytes (first_value + off_DestMacAddr) (dest_mac_addr r);
  _ ← put_stream_id first_value r;
  vid ← gets (fun w => current_vlan_id_from_domain (srp w));
  _ ← wr_bytes (first_value + off_VlanID)
        (hton_16 (if negb (vlan_id r =? 0) then vlan_id r else vid));
  _ ← wr (first_value + off_TSpec) (tspec r);
  _ ← wr_bytes (first_value + off_TSpecMaxFrameSize) (hton_16 (tspec_max_frame_size r));
  _ ← wr_bytes (first_value + off_TSpecMaxIntervalFrames) (hton_16 (tspec_max_interval r));
  _ ← wr_bytes (first_value + off_AccumulatedLatency) (hton_32 (accumulated_latency r));
  whenM failed
    (_ ← wr (first_value + off_FailureCode) (failure_code r);
     wr_bytes (first_value + off_FailureBridgeId) (failure_bridge_id r)).

Definition encode_talker_message (buf : Z) (p : nat) (vector : Z) : SM bool :=
  st ← get_st p;
  ty ← rd buf;
  if same_type (attribute_type st) MSRP_TALKER_ADVERTISE &&
     negb (ty =? AVB_SRP_ATTRIBUTE_TYPE_TALKER_ADVERTISE) then mret false
  else if same_type (attribute_type st) MSRP_TALKER_FAILED &&
     negb (ty =? AVB_SRP_ATTRIBUTE_TYPE_TALKER_FAILED) then mret false
  else
    num_values ← rd (NumberOfValuesLow buf);
    merge ← (if num_values =? 0 then mret true
             else check_talker_firstvalue_merge buf (attribute_info st));
    _ ← whenM merge
      (_ ← whenM (num_values =? 0)
         (s ← deref_stream (attribute_info st);
          put_talker_first_value (first_value_of buf)
            (same_type (attribute_type st) MSRP_TALKER_FAILED) (reservation s));
       _ ← mrp_encode_three_packed_event buf vector (attribute_type st);
       wr (NumberOfValuesLow buf) (num_values + 1));
    mret merge.

Definition avb_srp_encode_message (buf : Z) (p : nat) (vector : Z) : SM bool :=
  st ← get_st p;
  match attribute_type st with
  | MSRP_TALKER_ADVERTISE | MSRP_TALKER_FAILED => encode_talker_message buf p vector
  | MSRP_LISTENER => encode_listener_message buf p vector
  | MSRP_DOMAIN_VECTOR => encode_domain_message buf p vector
  | _ => mret false
  end.

(** The [vlan] field [attribute_info] points to. *)
Definition deref_vlan (info : info_ptr) : SM Z :=
  match info with
  | InfoVlan i => e ← load (fun w => mvrp w !! i); mret (vlan e)
  | _ => trap
  end.

Definition avb_mvrp_merge_message (buf : Z) (p : nat) (vector : Z) : SM bool :=
  ty ← rd buf;
  if negb (ty =? AVB_MVRP_VID_VECTOR_ATTRIBUTE_TYPE) then mret false
  else
    num_values ← rd (NumberOfValuesLow buf);
    let merge := num_values =? 0 in
    _ ← whenM merge
      (st ← get_st p;
       let first_value := first_value_of buf in
       v ← deref_vlan (attribute_info st);
       _ ← wr first_value (Z.land (Z.shiftr v 8) 0xff);
       _ ← wr (first_value + 1) (Z.land v 0xff);
       _ ← mrp_encode_three_packed_event buf vector (attribute_type st);
       wr (NumberOfValuesLow buf) (num_values + 1));
    mret merge.

(** * Ordering of attributes of one type *)

(** Both arguments point to stream entries, which
    [avb_srp_compare_talker_attributes] reads as [avb_stream_info_t]: its
    [local_id] is its byte at offset 5, behind an [int] and a [char], where the
    entry has the second byte of [stream_id[1]]. *)
Definition local_id_of (e : avb_stream_entry) : Z :=
  Z.land (Z.shiftr (stream_id1 (reservation e)) 8) 0xff.

Definition avb_srp_compare_talker_attributes (a b : info_ptr) : SM bool :=
  x ← deref_stream a;
  y ← deref_stream b;
  mret (local_id_of x <? local_id_of y).

Definition avb_srp_compare_listener_attributes (a b : info_ptr) : SM bool :=
  x ← deref_stream a;
  y ← deref_stream b;
  let sA0 := stream_id0 (reservation x) in let sA1 := stream_id1 (reservation x) in
  let sB0 := stream_id0 (reservation y) in let sB1 := stream_id1 (reservation y) in
  mret (if sA0 <? sB0 then true else if sB0 <? sA0 then false else
        if sA1 <? sB1 then true else if sB1 <? sA1 then false else false).
