(* ===== verification/MrpCore.v ===== *)
(** The MRP state machines of [lib_tsn/src/srp/avb_mrp.c]: transmission of an
    attribute, the registrar and applicant machines of [mrp_update_state], the
    MAD primitives, initialisation, the sorted attribute list, and the events
    given to all attributes of a port. *)
From S2P Require Import Prelude Bytes MiscTimer MrpTypes MrpMatch SrpTable MrpPdu SrpEncode.
From stdpp Require Import base list list_numbers numbers.
From Stdlib Require Import ZArith Lia.
#[local] Open Scope Z_scope.

Definition MRP_JOINTIMER_PERIOD_CENTISECONDS : Z := 20.
Definition MRP_LEAVETIMER_PERIOD_CENTISECONDS : Z := 80.
Definition MRP_LEAVEALL_TIMER_PERIOD_CENTISECONDS : Z := 1000.
Definition MRP_LEAVEALL_TIMER_MULTIPLIER : Z := 100.
Definition MRP_PERIODIC_TIMER_PERIOD_CENTISECONDS : Z := 100.
Definition MRP_PERIODIC_TIMER_MULTIPLIER : Z := 10.

Section Core.
  Context `{cfg : Config}.

(** * Transmission of one attribute *)

Definition encode_msg (msg : Z) (p : nat) (vector : Z) : SM bool :=
  st ← get_st p;
  match attribute_type st with
  | MSRP_TALKER_ADVERTISE | MSRP_TALKER_FAILED | MSRP_LISTENER | MSRP_DOMAIN_VECTOR =>
      avb_srp_encode_message msg p vector
  | MVRP_VID_VECTOR => avb_mvrp_merge_message msg p vector
  | _ => mret false
  end.

(** The loop of [doTx]: offers the attribute to the messages of the packet, from
    [msg] to [end'], until one takes it; gives where it stopped. *)
Definition try_merge (p : nat) (vector end' : Z) : SM (bool * Z) :=
  loopM msg_fuel (fun '(merged, msg) =>
    more ← (if (merged : bool) then mret false else more_messages msg end');
    if (more : bool) then
      merged ← encode_msg msg p vector;
      len ← attribute_list_length msg;
      mret (inl (merged, msg + sizeof_mrp_msg_header + len))
    else mret (inr (merged, msg))) (false, first_msg).

Definition doTx (p : nat) (vector port : Z) : SM unit :=
  end' ← get_send_ptr;
  '(merged, msg) ← try_merge p vector end';
  st ← get_st p;
  let port_to_transmit := port_num st in
  _ ← whenM (negb merged && (port =? port_to_transmit))
       (_ ← create_empty_msg (attribute_type st) 0;
        _ ← encode_msg msg p vector;
        skip);
  _ ← send port_to_transmit;
  st ← get_st p;
  whenM (remove_after_next_tx st)
    (_ ← mrp_change_applicant_state p MRP_EVENT_DUMMY MRP_UNUSED;
     upd_st p (upd_remove_after_next_tx (fun _ => false))).

(** * The registrar and applicant state machines *)

(** [mrp_change_registrar_state] *)
Definition set_registrar (p : nat) (new : mrp_registrar_state) : SM unit :=
  upd_st p (upd_registrar_state (fun _ => new)).

Definition pend (p : nat) (bit : Z) : SM unit :=
  upd_st p (upd_pending_indications (fun x => Z.lor x bit)).

Definition start_leaveTimer (p : nat) (period_cs : Z) : SM unit :=
  now ← get_local_time;
  upd_st p (upd_leaveTimer (start_avb_timer now period_cs)).

Definition leaveall_period : Z :=
  MRP_LEAVEALL_TIMER_PERIOD_CENTISECONDS / MRP_LEAVEALL_TIMER_MULTIPLIER.

Definition start_mvrp_leaveall (port : Z) : SM unit :=
  start_timer (fun w => mvrp_leaveall_timer (mrp w))
    (fun f => upd_mrp (upd_mvrp_leaveall_timer f)) port leaveall_period.
Definition start_msrp_leaveall (port : Z) : SM unit :=
  start_timer (fun w => msrp_leaveall_timer (mrp w))
    (fun f => upd_mrp (upd_msrp_leaveall_timer f)) port leaveall_period.
Definition set_mvrp_leaveall_active (port : Z) (x : bool) : SM unit :=
  port_set (fun w => mvrp_leaveall_active (mrp w)) (fun f => upd_mrp (upd_mvrp_leaveall_active f)) port x.
Definition set_msrp_leaveall_active (port : Z) (x : bool) : SM unit :=
  port_set (fun w => msrp_leaveall_active (mrp w)) (fun f => upd_mrp (upd_msrp_leaveall_active f)) port x.

(** The first [switch] of [mrp_update_state]. *)
Definition update_registrar (e : mrp_event) (p : nat) (four_packed_event port : Z) : SM unit :=
  st ← get_st p;
  match e with
  | MRP_EVENT_BEGIN => set_registrar p MRP_MT
  | MRP_EVENT_RECEIVE_NEW =>
      _ ← whenM (bool_decide (registrar_state st = MRP_LV)) (upd_st p (upd_leaveTimer stop_avb_timer));
      _ ← set_registrar p MRP_IN;
      _ ← pend p PENDING_JOIN_NEW;
      upd_st p (upd_four_vector_parameter (fun _ => four_packed_event))
  | MRP_EVENT_RECEIVE_JOININ | MRP_EVENT_RECEIVE_JOINMT =>
      _ ← whenM (bool_decide (registrar_state st = MRP_LV)) (upd_st p (upd_leaveTimer stop_avb_timer));
      _ ← whenM (bool_decide (registrar_state st = MRP_MT) ||
                 ((four_vector_parameter st =? AVB_SRP_FOUR_PACKED_EVENT_ASKING_FAILED) &&
                  (four_packed_event =? AVB_SRP_FOUR_PACKED_EVENT_READY)))
           (_ ← pend p PENDING_JOIN;
            upd_st p (upd_four_vector_parameter (fun _ => four_packed_event)));
      set_registrar p MRP_IN
  | MRP_EVENT_RECEIVE_LEAVE | MRP_EVENT_RECEIVE_LEAVE_ALL
  | MRP_EVENT_TX_LEAVE_ALL | MRP_EVENT_REDECLARE =>
      _ ← whenM (bool_decide (e = MRP_EVENT_RECEIVE_LEAVE_ALL))
           (if same_type (attribute_type st) MVRP_VID_VECTOR
            then _ ← start_mvrp_leaveall port; set_mvrp_leaveall_active port false
            else _ ← start_msrp_leaveall port; set_msrp_leaveall_active port false);
      whenM (bool_decide (registrar_state st = MRP_IN))
        (_ ← start_leaveTimer p MRP_LEAVETIMER_PERIOD_CENTISECONDS;
         set_registrar p MRP_LV)
  | MRP_EVENT_LEAVETIMER | MRP_EVENT_FLUSH =>
      _ ← whenM (bool_decide (registrar_state st = MRP_LV))
           (_ ← pend p PENDING_LEAVE;
            upd_st p (upd_four_vector_parameter (fun _ => four_packed_event)));
      set_registrar p MRP_MT
  | _ => skip
  end.

(** A [switch (st->applicant_state)] whose cases change the state or do nothing. *)
Definition switch_applicant (p : nat) (e : mrp_event)
    (cases : mrp_applicant_state -> option mrp_applicant_state) : SM unit :=
  st ← get_st p;
  match cases (applicant_state st) with
  | Some new => mrp_change_applicant_state p e new
  | None => skip
  end.

Definition cases_join (a : mrp_applicant_state) : option mrp_applicant_state :=
  match a with
  | MRP_VO | MRP_LO => Some MRP_VP
  | MRP_LA => Some MRP_AA
  | MRP_AO => Some MRP_AP
  | MRP_QO => Some MRP_QP
  | _ => None
  end.
Definition cases_lv (a : mrp_applicant_state) : option mrp_applicant_state :=
  match a with
  | MRP_QP => Some MRP_QO
  | MRP_AP => Some MRP_AO
  | MRP_VP => Some MRP_VO
  | MRP_VN | MRP_AN | MRP_AA | MRP_QA => Some MRP_LA
  | _ => None
  end.
Definition cases_rjoinin (a : mrp_applicant_state) : option mrp_applicant_state :=
  match a with
  | MRP_AA => Some MRP_QA
  | MRP_AO => Some MRP_QO
  | MRP_AP => Some MRP_QP
  | _ => None
  end.
Definition cases_rin (a : mrp_applicant_state) : option mrp_applicant_state :=
  match a with MRP_AA => Some MRP_QA | _ => None end.
Definition cases_rmt (a : mrp_applicant_state) : option mrp_applicant_state :=
  match a with
  | MRP_QA => Some MRP_AA
  | MRP_QO => Some MRP_AO
  | MRP_QP => Some MRP_AP
  | MRP_LO => Some MRP_VO
  | _ => None
  end.
Definition cases_rlv (a : mrp_applicant_state) : option mrp_applicant_state :=
  match a with
  | MRP_VO | MRP_AO | MRP_QO => Some MRP_LO
  | MRP_AN => Some MRP_VN
  | MRP_AA | MRP_QA | MRP_AP | MRP_QP => Some MRP_VP
  | _ => None
  end.
Definition cases_periodic (a : mrp_applicant_state) : option mrp_applicant_state :=
  match a with
  | MRP_QA => Some MRP_AA
  | MRP_QP => Some MRP_AP
  | _ => None
  end.
(** The case [MRP_AN] falls through when the registrar is [MRP_IN]. *)
Definition cases_tx (r : mrp_registrar_state) (a : mrp_applicant_state) : option mrp_applicant_state :=
  match a with
  | MRP_VP => Some MRP_AA
  | MRP_VN => Some MRP_AN
  | MRP_AN => Some (if decide (r = MRP_IN) then MRP_QA else MRP_AA)
  | MRP_AA | MRP_AP => Some MRP_QA
  | MRP_LA | MRP_LO => Some MRP_VO
  | _ => None
  end.
Definition cases_txla (a : mrp_applicant_state) : option mrp_applicant_state :=
  match a with
  | MRP_VO | MRP_LA | MRP_AO | MRP_QO => Some MRP_LO
  | MRP_VN => Some MRP_AN
  | MRP_AN | MRP_AA | MRP_AP | MRP_QP => Some MRP_QA
  | _ => None
  end.

(** The states from which the event [MRP_EVENT_TX], and the event
    [MRP_EVENT_TX_LEAVE_ALL], transmit the attribute. *)
Definition sends_tx (a : mrp_applicant_state) : bool :=
  match a with
  | MRP_VP | MRP_VN | MRP_AN | MRP_AA | MRP_LA | MRP_AP | MRP_LO => true
  | _ => false
  end.
Definition sends_txla (a : mrp_applicant_state) : bool :=
  match a with
  | MRP_VP | MRP_VN | MRP_AN | MRP_AA | MRP_LA | MRP_QA | MRP_AP | MRP_QP => true
  | _ => false
  end.

(** The second [switch] of [mrp_update_state].  The cases of the received
    JoinIn and In events fall through to the cases that follow them. *)
Definition update_applicant (e : mrp_event) (p : nat) (port : Z) : SM unit :=
  match e with
  | MRP_EVENT_BEGIN => mrp_change_applicant_state p e MRP_VO
  | MRP_EVENT_NEW => mrp_change_applicant_state p e MRP_VN
  | MRP_EVENT_JOIN => switch_applicant p e cases_join
  | MRP_EVENT_LV => switch_applicant p e cases_lv
  | MRP_EVENT_RECEIVE_JOININ =>
      _ ← switch_applicant p e cases_rjoinin;
      _ ← switch_applicant p e cases_rin;
      switch_applicant p e cases_rmt
  | MRP_EVENT_RECEIVE_IN =>
      _ ← switch_applicant p e cases_rin;
      switch_applicant p e cases_rmt
  | MRP_EVENT_RECEIVE_JOINMT | MRP_EVENT_RECEIVE_MT => switch_applicant p e cases_rmt
  | MRP_EVENT_RECEIVE_LEAVE | MRP_EVENT_RECEIVE_LEAVE_ALL | MRP_EVENT_REDECLARE =>
      switch_applicant p e cases_rlv
  | MRP_EVENT_PERIODIC => switch_applicant p e cases_periodic
  | MRP_EVENT_TX =>
      st ← get_st p;
      _ ← whenM (sends_tx (applicant_state st)) (doTx p (makeTxEvent e st false) port);
      st ← get_st p;
      switch_applicant p e (cases_tx (registrar_state st))
  | MRP_EVENT_TX_LEAVE_ALL =>
      st ← get_st p;
      _ ← whenM (sends_txla (applicant_state st)) (doTx p (makeTxEvent e st true) port);
      switch_applicant p e cases_txla
  | _ => skip
  end.

Definition mrp_update_state (e : mrp_event) (p : nat) (four_packed_event port : Z) : SM unit :=
  _ ← update_registrar e p four_packed_event port;
  update_applicant e p port.

(** * MAD primitives *)

Definition mrp_mad_begin (p : nat) : SM unit :=
  _ ← upd_st p (upd_leaveTimer (init_avb_timer 1));
  st ← get_st p;
  mrp_update_state MRP_EVENT_BEGIN p 0 (port_num st).

Definition mrp_mad_join (p : nat) (new : bool) : SM unit :=
  _ ← upd_st p (upd_remove_after_next_tx (fun _ => false));
  st ← get_st p;
  if new then mrp_update_state MRP_EVENT_NEW p 0 (port_num st)
  else mrp_update_state MRP_EVENT_JOIN p 0 (port_num st).

Definition mrp_mad_leave (p : nat) : SM unit :=
  st ← get_st p;
  mrp_update_state MRP_EVENT_LV p 0 (port_num st).

(** * Initialisation *)

(** [for (int i=0; i < MRP_NUM_PORTS; i++)] *)
Definition ports : list Z := seqZ 0 (Z.of_nat MRP_NUM_PORTS).

Definition mrp_init (macaddr : list Z) : SM unit :=
  _ ← forM (seq 0 6) (fun i => m ← deref (macaddr !! i); wr (6 + Z.of_nat i) m);
  _ ← forM attr_indices (fun i =>
    _ ← upd_st i (upd_applicant_state (fun _ => MRP_UNUSED));
    upd_st i (upd_next (fun _ => if (i =? MRP_MAX_ATTRS - 1)%nat then None else Some (S i))));
  _ ← modify (upd_mrp (upd_first_attr (fun _ => Some 0%nat)));
  forM ports (fun i =>
    let periodic := fun w => periodic_timer (mrp w) in
    let join := fun w => joinTimer (mrp w) in
    let msrp_la := fun w => msrp_leaveall_timer (mrp w) in
    let mvrp_la := fun w => mvrp_leaveall_timer (mrp w) in
    _ ← init_timer periodic (fun f => upd_mrp (upd_periodic_timer f)) i MRP_PERIODIC_TIMER_MULTIPLIER;
    _ ← start_timer periodic (fun f => upd_mrp (upd_periodic_timer f)) i
          (MRP_PERIODIC_TIMER_PERIOD_CENTISECONDS / MRP_PERIODIC_TIMER_MULTIPLIER);
    _ ← init_timer join (fun f => upd_mrp (upd_joinTimer f)) i 1;
    _ ← start_timer join (fun f => upd_mrp (upd_joinTimer f)) i MRP_JOINTIMER_PERIOD_CENTISECONDS;
    _ ← init_timer msrp_la (fun f => upd_mrp (upd_msrp_leaveall_timer f)) i MRP_LEAVEALL_TIMER_MULTIPLIER;
    _ ← start_msrp_leaveall i;
    _ ← init_timer mvrp_la (fun f => upd_mrp (upd_mvrp_leaveall_timer f)) i MRP_LEAVEALL_TIMER_MULTIPLIER;
    _ ← start_mvrp_leaveall i;
    _ ← set_msrp_leaveall_active i false;
    set_mvrp_leaveall_active i false).

(** * The sorted list of attributes *)

(** [a < b] on pointers into [attrs] compares the indices. *)
Definition compare_attr (a b : nat) : SM bool :=
  x ← get_st a;
  y ← get_st b;
  if is_unused x then (if is_unused y then mret (a <? b)%nat else mret false)
  else if is_unused y then mret true
  else if is_disabled x then (if is_disabled y then mret (a <? b)%nat else mret false)
  else if is_disabled y then mret true
  else if negb (same_type (attribute_type x) (attribute_type y)) then
    mret (attr_type_num (attribute_type x) <? attr_type_num (attribute_type y))
  else
    match attribute_type x with
    | MSRP_TALKER_ADVERTISE => avb_srp_compare_talker_attributes (attribute_info x) (attribute_info y)
    | MSRP_LISTENER => avb_srp_compare_listener_attributes (attribute_info x) (attribute_info y)
    | _ => mret (a <? b)%nat
    end.

Definition set_next (p : nat) (n : option nat) : SM unit := upd_st p (upd_next (fun _ => n)).
Definition get_first : SM (option nat) := gets (fun w => first_attr (mrp w)).
Definition set_first (p : option nat) : SM unit := modify (upd_mrp (upd_first_attr (fun _ => p))).

(** The loops over the list have at most one round for each attribute, and one
    to find the end. *)
Definition list_fuel : nat := S MRP_MAX_ATTRS.

(** The first loop of [sort_attrs]: takes out the elements that are not before
    their successors, and gives the list of those ([to_insert]). *)
Definition sort_take_out : SM (option nat) :=
  first ← get_first;
  loopM list_fuel (fun '(attr, prev, to_insert) =>
    match attr with
    | None => mret (inr to_insert)
    | Some a =>
        st ← get_st a;
        let next' := next st in
        match next' with
        | None => mret (inl (next', prev, to_insert))
        | Some n =>
            c ← compare_attr a n;
            if negb c then
              _ ← match prev with
                  | Some pr => set_next pr (Some n)
                  | None => set_first (Some n)
                  end;
              _ ← set_next a to_insert;
              mret (inl (next', prev, Some a))
            else mret (inl (next', Some a, to_insert))
        end
    end) (first, None, None).

(** The inner loop of the second: puts [attr] behind the first element after
    which it fits, or at the end. *)
Definition sort_insert_from (attr : nat) (ins : option nat) : SM unit :=
  loopM list_fuel (fun ins : option nat =>
    match ins with
    | None => mret (inr tt)
    | Some i =>
        st ← get_st i;
        let ins_next := next st in
        here' ← match ins_next with
                | None => mret true
                | Some n => b ← compare_attr i attr; if (b : bool) then compare_attr attr n else mret false
                end;
        if (here' : bool) then
          _ ← set_next attr ins_next;
          _ ← set_next i (Some attr);
          mret (inl None)
        else mret (inl ins_next)
    end) ins.

Definition sort_attrs : SM unit :=
  to_insert ← sort_take_out;
  loopM list_fuel (fun attr : option nat =>
    match attr with
    | None => mret (inr tt)
    | Some a =>
        st ← get_st a;
        let next' := next st in
        ins ← get_first;
        i ← deref ins;
        c ← compare_attr a i;
        _ ← (if (c : bool) then _ ← set_next a ins; set_first (Some a)
             else sort_insert_from a ins);
        mret (inl next')
    end) to_insert.

(** * Events for all attributes of a port *)

(** [while (attr != NULL) { body(attr); attr = attr->next; }] *)
Definition for_attr_list (body : nat -> SM unit) : SM unit :=
  first ← get_first;
  loopM list_fuel (fun attr : option nat =>
    match attr with
    | None => mret (inr tt)
    | Some a =>
        _ ← body a;
        st ← get_st a;
        mret (inl (next st))
    end) first.

Definition global_event (e : mrp_event) (port : Z) : SM unit :=
  for_attr_list (fun a =>
    st ← get_st a;
    whenM (negb (is_disabled st) && negb (is_unused st) && (port_num st =? port) &&
           (negb (bool_decide (e = MRP_EVENT_PERIODIC)) ||
            same_type (attribute_type st) MVRP_VID_VECTOR))
      (mrp_update_state e a 0 port)).

(** [atype] is [None] for the number -1, which is no attribute's type. *)
Definition attribute_type_event (atype : option mrp_attribute_type) (e : mrp_event) (port : Z)
    : SM unit :=
  for_attr_list (fun a =>
    st ← get_st a;
    whenM (negb (is_disabled st) && negb (is_unused st) &&
           bool_decide (Some (attribute_type st) = atype) && (port_num st =? port))
      (mrp_update_state e a 0 port)).

Definition msrp_types_event (e : mrp_event) (port : Z) : SM unit :=
  _ ← attribute_type_event (Some MSRP_TALKER_ADVERTISE) e port;
  _ ← attribute_type_event (Some MSRP_TALKER_FAILED) e port;
  _ ← attribute_type_event (Some MSRP_LISTENER) e port;
  attribute_type_event (Some MSRP_DOMAIN_VECTOR) e port.
End Core.
