(* ===== verification/MrpMachine.v ===== *)
(** The MRP state machines as tables, and the proof that [mrp_update_state]
    implements them: the applicant table with the fall-through of the received
    JoinIn and In events multiplied out, the registrar table, and the effect of
    one event on the whole attribute record. *)
From S2P Require Import Prelude Bytes MiscTimer MrpTypes MrpMatch SrpTable MrpPdu SrpEncode.
From S2P Require Import MrpCore.
From stdpp Require Import base list list_numbers numbers.
From Stdlib Require Import ZArith Lia.
#[local] Open Scope Z_scope.

(** The applicant's next state, for every event that does not transmit. *)
Definition applicant_next (e : mrp_event) (a : mrp_applicant_state) : mrp_applicant_state :=
  match e, a with
  | MRP_EVENT_BEGIN, _ => MRP_VO
  | MRP_EVENT_NEW, _ => MRP_VN
  | MRP_EVENT_JOIN, (MRP_VO | MRP_LO) => MRP_VP
  | MRP_EVENT_JOIN, MRP_LA => MRP_AA
  | MRP_EVENT_JOIN, MRP_AO => MRP_AP
  | MRP_EVENT_JOIN, MRP_QO => MRP_QP
  | MRP_EVENT_LV, MRP_QP => MRP_QO
  | MRP_EVENT_LV, MRP_AP => MRP_AO
  | MRP_EVENT_LV, MRP_VP => MRP_VO
  | MRP_EVENT_LV, (MRP_VN | MRP_AN | MRP_AA | MRP_QA) => MRP_LA
  | (MRP_EVENT_RECEIVE_JOININ | MRP_EVENT_RECEIVE_IN), (MRP_AA | MRP_QA) => MRP_AA
  | (MRP_EVENT_RECEIVE_JOININ | MRP_EVENT_RECEIVE_IN), MRP_QO => MRP_AO
  | (MRP_EVENT_RECEIVE_JOININ | MRP_EVENT_RECEIVE_IN), MRP_QP => MRP_AP
  | (MRP_EVENT_RECEIVE_JOININ | MRP_EVENT_RECEIVE_IN), MRP_LO => MRP_VO
  | (MRP_EVENT_RECEIVE_JOINMT | MRP_EVENT_RECEIVE_MT), MRP_QA => MRP_AA
  | (MRP_EVENT_RECEIVE_JOINMT | MRP_EVENT_RECEIVE_MT), MRP_QO => MRP_AO
  | (MRP_EVENT_RECEIVE_JOINMT | MRP_EVENT_RECEIVE_MT), MRP_QP => MRP_AP
  | (MRP_EVENT_RECEIVE_JOINMT | MRP_EVENT_RECEIVE_MT), MRP_LO => MRP_VO
  | (MRP_EVENT_RECEIVE_LEAVE | MRP_EVENT_RECEIVE_LEAVE_ALL | MRP_EVENT_REDECLARE),
    (MRP_VO | MRP_AO | MRP_QO) => MRP_LO
  | (MRP_EVENT_RECEIVE_LEAVE | MRP_EVENT_RECEIVE_LEAVE_ALL | MRP_EVENT_REDECLARE), MRP_AN => MRP_VN
  | (MRP_EVENT_RECEIVE_LEAVE | MRP_EVENT_RECEIVE_LEAVE_ALL | MRP_EVENT_REDECLARE),
    (MRP_AA | MRP_QA | MRP_AP | MRP_QP) => MRP_VP
  | MRP_EVENT_PERIODIC, MRP_QA => MRP_AA
  | MRP_EVENT_PERIODIC, MRP_QP => MRP_AP
  | _, _ => a
  end.

(** The registrar's next state. *)
Definition registrar_next (e : mrp_event) (r : mrp_registrar_state) : mrp_registrar_state :=
  match e, r with
  | (MRP_EVENT_BEGIN | MRP_EVENT_LEAVETIMER | MRP_EVENT_FLUSH), _ => MRP_MT
  | (MRP_EVENT_RECEIVE_NEW | MRP_EVENT_RECEIVE_JOININ | MRP_EVENT_RECEIVE_JOINMT), _ => MRP_IN
  | (MRP_EVENT_RECEIVE_LEAVE | MRP_EVENT_RECEIVE_LEAVE_ALL | MRP_EVENT_TX_LEAVE_ALL
    | MRP_EVENT_REDECLARE), MRP_IN => MRP_LV
  | _, _ => r
  end.

(** The leave timer starts on the way into [MRP_LV], at [now], and stops on the
    way back to [MRP_IN]. *)
Definition leaveTimer_next (e : mrp_event) (now : Z) (st : mrp_attribute_state) : avb_timer :=
  match registrar_state st, registrar_next e (registrar_state st) with
  | MRP_IN, MRP_LV => start_avb_timer now MRP_LEAVETIMER_PERIOD_CENTISECONDS (leaveTimer st)
  | MRP_LV, MRP_IN => stop_avb_timer (leaveTimer st)
  | _, _ => leaveTimer st
  end.

(** The indication an event leaves for the application: a new join, a join (of
    an attribute that was not registered, or whose listener has become ready),
    or a leave. *)
Definition indication (e : mrp_event) (four : Z) (st : mrp_attribute_state) : option Z :=
  match e, registrar_state st with
  | MRP_EVENT_RECEIVE_NEW, _ => Some PENDING_JOIN_NEW
  | (MRP_EVENT_RECEIVE_JOININ | MRP_EVENT_RECEIVE_JOINMT), MRP_MT => Some PENDING_JOIN
  | (MRP_EVENT_RECEIVE_JOININ | MRP_EVENT_RECEIVE_JOINMT), _ =>
      if (four_vector_parameter st =? AVB_SRP_FOUR_PACKED_EVENT_ASKING_FAILED) &&
         (four =? AVB_SRP_FOUR_PACKED_EVENT_READY) then Some PENDING_JOIN else None
  | (MRP_EVENT_LEAVETIMER | MRP_EVENT_FLUSH), MRP_LV => Some PENDING_LEAVE
  | _, _ => None
  end.

(** The effect of an event on an attribute. *)
Definition attr_step (e : mrp_event) (four now : Z) (st : mrp_attribute_state) : mrp_attribute_state :=
  MkAttr (port_num st) (attribute_type st) (applicant_next e (applicant_state st))
    (remove_after_next_tx st) (registrar_next e (registrar_state st)) (leaveTimer_next e now st)
    (match indication e four st with
     | Some b => Z.lor (pending_indications st) b
     | None => pending_indications st
     end)
    (match indication e four st with Some _ => four | None => four_vector_parameter st end)
    (next st) (here st) (propagated st) (attribute_info st).

(** The state with another attribute record at [p]. *)
Definition set_attr (p : nat) (st : mrp_attribute_state) (w : world) : world :=
  upd_mrp (upd_attrs (<[p := st]>)) w.

(** [w'] differs from [w] at most in the attributes, the leave-all timers and
    flags, and the readings taken from the clock. *)
Definition machine_frame (w w' : world) : Prop :=
  w' = MkWorld
    (MkMrp (attrs (mrp w')) (first_attr (mrp w)) (send_buf (mrp w)) (send_ptr (mrp w))
       (current_etype (mrp w)) (periodic_timer (mrp w)) (joinTimer (mrp w))
       (msrp_leaveall_timer (mrp w')) (mvrp_leaveall_timer (mrp w'))
       (msrp_leaveall_active (mrp w')) (mvrp_leaveall_active (mrp w')))
    (srp w) (mvrp w) (upd_clock_reads (fun _ => clock_reads (env w')) (env w)) /\
  length (msrp_leaveall_timer (mrp w')) = length (msrp_leaveall_timer (mrp w)) /\
  length (mvrp_leaveall_timer (mrp w')) = length (mvrp_leaveall_timer (mrp w)) /\
  length (msrp_leaveall_active (mrp w')) = length (msrp_leaveall_active (mrp w)) /\
  length (mvrp_leaveall_active (mrp w')) = length (mvrp_leaveall_active (mrp w)).

(** The arrays indexed by port have an element for [port]. *)
Definition leaveall_port (port : Z) (w : world) : Prop :=
  0 <= port /\
  port < Z.of_nat (length (msrp_leaveall_timer (mrp w))) /\
  port < Z.of_nat (length (mvrp_leaveall_timer (mrp w))) /\
  port < Z.of_nat (length (msrp_leaveall_active (mrp w))) /\
  port < Z.of_nat (length (mvrp_leaveall_active (mrp w))).

(** * Lemmas *)

#[global] Instance machine_frame_preorder : PreOrder machine_frame.
Proof.
  split.
  - intros [[] ? ? []]. by split_and!.
  - intros w1 w2 w3 (E1 & ? & ? & ? & ?) (E2 & ? & ? & ? & ?). split_and!; try congruence.
    rewrite E2 at 1. rewrite E1. reflexivity.
Qed.

Lemma upd_st_run p f w st :
  attrs (mrp w) !! p = Some st -> upd_st p f w = Some (tt, set_attr p (f st) w).
Proof. unfold upd_st, store. by intros ->. Qed.

Lemma set_attr_twice p st st' w : set_attr p st' (set_attr p st w) = set_attr p st' w.
Proof. unfold set_attr, upd_mrp, upd_attrs. cbn. by rewrite list_insert_insert_eq. Qed.

Lemma set_attr_same p st w : attrs (mrp w) !! p = Some st -> set_attr p st w = w.
Proof.
  intros H. unfold set_attr, upd_mrp, upd_attrs. rewrite list_insert_id by done.
  by destruct w as [[] ? ? ?].
Qed.

Lemma lookup_set_attr p st st' w :
  attrs (mrp w) !! p = Some st -> attrs (mrp (set_attr p st' w)) !! p = Some st'.
Proof. intros H. apply list_lookup_insert_eq. by eapply lookup_lt_Some. Qed.

Lemma set_attr_frame p st w : machine_frame w (set_attr p st w).
Proof. destruct w as [[] ? ? []]. by split_and!. Qed.

Lemma start_timer_run get upd port cs w :
  0 <= port < Z.of_nat (length (get w)) ->
  (forall w', get (upd_env (upd_clock_reads S) w') = get w') ->
  exists now t, start_timer get upd port cs w =
    Some (tt, upd (<[Z.to_nat port := start_avb_timer now cs t]>) (upd_env (upd_clock_reads S) w)).
Proof.
  intros Hp Hget. destruct (lookup_lt_is_Some_2 (get w) (Z.to_nat port)) as [t Ht]; [lia|].
  unfold start_timer, port_get, port_set, get_local_time, mbind, M_bind, load, store.
  rewrite (proj2 (Z.leb_le 0 port)), Ht, Hget by lia.
  rewrite (proj2 (Nat.ltb_lt _ _)) by lia. do 2 eexists. reflexivity.
Qed.

Lemma port_set_run {A} (f : world -> list A) g port x w :
  0 <= port < Z.of_nat (length (f w)) ->
  port_set f g port x w = Some (tt, g (<[Z.to_nat port := x]>) w).
Proof.
  intros Hp. unfold port_set, store. rewrite (proj2 (Z.leb_le 0 port)) by lia.
  by rewrite (proj2 (Nat.ltb_lt _ _)) by lia.
Qed.

Lemma restart_leaveall_run port w (m : bool) :
  leaveall_port port w ->
  exists w', (if m then _ ← start_mvrp_leaveall port; set_mvrp_leaveall_active port false
              else _ ← start_msrp_leaveall port; set_msrp_leaveall_active port false) w = Some (tt, w') /\
    machine_frame w w' /\ attrs (mrp w') = attrs (mrp w).
Proof.
  intros (? & ? & ? & ? & ?). destruct m; unfold mbind, M_bind.
  - destruct (start_timer_run (fun w => mvrp_leaveall_timer (mrp w))
      (fun f => upd_mrp (upd_mvrp_leaveall_timer f)) port leaveall_period w) as (now & t & E); [lia|done|].
    unfold start_mvrp_leaveall. rewrite E. unfold set_mvrp_leaveall_active.
    rewrite port_set_run by (cbn; lia). eexists. split; [reflexivity|]. split; [|done].
    split_and!; cbn; rewrite ?length_insert; done.
  - destruct (start_timer_run (fun w => msrp_leaveall_timer (mrp w))
      (fun f => upd_mrp (upd_msrp_leaveall_timer f)) port leaveall_period w) as (now & t & E); [lia|done|].
    unfold start_msrp_leaveall. rewrite E. unfold set_msrp_leaveall_active.
    rewrite port_set_run by (cbn; lia). eexists. split; [reflexivity|]. split; [|done].
    split_and!; cbn; rewrite ?length_insert; done.
Qed.

(** Runs straight-line updates of one attribute. *)
Ltac run_attr :=
  repeat first
    [ progress cbn [whenM mret M_ret skip]
    | erewrite upd_st_run by first [eassumption | eapply lookup_set_attr; eassumption]
    | progress rewrite ?set_attr_twice ].

Section Machine.
  Context `{cfg : Config}.

Definition registrar_step (e : mrp_event) (four now : Z) (st : mrp_attribute_state)
    : mrp_attribute_state :=
  upd_applicant_state (fun _ => applicant_state st) (attr_step e four now st).

(** A computation acts on attribute [p] of [w] as the registrar does for [e]. *)
Definition registers (m : SM unit) (e : mrp_event) (p : nat) (four : Z) (st : mrp_attribute_state)
    (w : world) : Prop :=
  exists now w', m w = Some (tt, w') /\ machine_frame w w' /\
    attrs (mrp w') = <[p := registrar_step e four now st]> (attrs (mrp w)).

Lemma registers_intro m e p four st w now w1 :
  machine_frame w w1 -> attrs (mrp w1) = attrs (mrp w) ->
  m w = Some (tt, set_attr p (registrar_step e four now st) w1) -> registers m e p four st w.
Proof.
  intros Hf Ha E. exists now, (set_attr p (registrar_step e four now st) w1).
  split; [done|]. split; [etrans; [exact Hf | apply set_attr_frame]|]. cbn. by rewrite Ha.
Qed.

Lemma registers_skip m e p four st w :
  attrs (mrp w) !! p = Some st -> registrar_step e four 0 st = st -> m w = Some (tt, w) ->
  registers m e p four st w.
Proof.
  intros Hp E Hm. eapply (registers_intro _ _ _ _ _ _ 0 w); [reflexivity|done|].
  by rewrite E, set_attr_same.
Qed.

Lemma start_leaveTimer_run p cs w st :
  attrs (mrp w) !! p = Some st ->
  exists now, start_leaveTimer p cs w =
    Some (tt, set_attr p (upd_leaveTimer (start_avb_timer now cs) st)
                (upd_env (upd_clock_reads S) w)).
Proof.
  intros Hp. unfold start_leaveTimer, get_local_time, mbind, M_bind.
  eexists. by erewrite upd_st_run by exact Hp.
Qed.

Lemma upd_clock_frame w : machine_frame w (upd_env (upd_clock_reads S) w).
Proof. destruct w as [[] ? ? []]. by split_and!. Qed.

(** The events that make a registered attribute start to leave. *)
Lemma leave_registers e p four st w w1 :
  (e = MRP_EVENT_RECEIVE_LEAVE \/ e = MRP_EVENT_RECEIVE_LEAVE_ALL \/
   e = MRP_EVENT_TX_LEAVE_ALL \/ e = MRP_EVENT_REDECLARE) ->
  attrs (mrp w) !! p = Some st -> machine_frame w w1 -> attrs (mrp w1) = attrs (mrp w) ->
  registers (fun _ => (whenM (bool_decide (registrar_state st = MRP_IN))
    (_ ← start_leaveTimer p MRP_LEAVETIMER_PERIOD_CENTISECONDS; set_registrar p MRP_LV)) w1)
    e p four st w.
Proof.
  intros He Hp Hf Ha.
  assert (attrs (mrp w1) !! p = Some st) as Hp1 by congruence.
  destruct (decide (registrar_state st = MRP_IN)) as [Er|Er].
  - destruct (start_leaveTimer_run p MRP_LEAVETIMER_PERIOD_CENTISECONDS w1 st Hp1) as [now E].
    eapply (registers_intro _ _ _ _ _ _ now (upd_env (upd_clock_reads S) w1)).
    + etrans; [exact Hf | apply upd_clock_frame].
    + done.
    + rewrite bool_decide_true by done. unfold whenM, mbind, M_bind. rewrite E.
      unfold set_registrar. run_attr. do 3 f_equal.
      destruct st; cbn in *; subst. unfold registrar_step, attr_step, leaveTimer_next, indication.
      cbn. by destruct He as [->|[->|[->| ->]]].
  - eapply (registers_intro _ _ _ _ _ _ 0 w1); [done..|].
    rewrite bool_decide_false, set_attr_same by (done ||
      (rewrite Hp1; f_equal; destruct st; unfold registrar_step, attr_step, leaveTimer_next, indication;
       cbn in *; destruct He as [->|[->|[->| ->]]]; by destruct registrar_state)).
    done.
Qed.

(** The other events. *)
Lemma simple_registers e p four port st w :
  ~ (e = MRP_EVENT_RECEIVE_LEAVE \/ e = MRP_EVENT_RECEIVE_LEAVE_ALL \/
     e = MRP_EVENT_TX_LEAVE_ALL \/ e = MRP_EVENT_REDECLARE) ->
  attrs (mrp w) !! p = Some st -> registers (update_registrar e p four port) e p four st w.
Proof.
  intros He Hp. unfold update_registrar.
  destruct e; try (destruct He; tauto);
    try (apply registers_skip; [done|by destruct st as [? ? ? ? []]|];
         unfold mbind, M_bind; rewrite (get_st_run p w st Hp); done).
  all: apply (registers_intro _ _ _ _ _ _ 0 w); [reflexivity|done|].
  all: unfold mbind, M_bind; rewrite (get_st_run p w st Hp); unfold set_registrar, pend.
  all: destruct st as [pn ty ap rem reg lt pi fv nx he pr inf].
  all: unfold registrar_step, attr_step, leaveTimer_next, indication; cbn in *.
  all: destruct reg;
    repeat first [rewrite bool_decide_true by done | rewrite bool_decide_false by done]; cbn [orb];
    try destruct (_ && _); by run_attr.
Qed.

(** The registrar part of [mrp_update_state] as the update of one record. *)
Lemma update_registrar_run e p four port w st :
  attrs (mrp w) !! p = Some st -> (e = MRP_EVENT_RECEIVE_LEAVE_ALL -> leaveall_port port w) ->
  registers (update_registrar e p four port) e p four st w.
Proof.
  intros Hp Hport.
  destruct (decide (e = MRP_EVENT_RECEIVE_LEAVE \/ e = MRP_EVENT_RECEIVE_LEAVE_ALL \/
    e = MRP_EVENT_TX_LEAVE_ALL \/ e = MRP_EVENT_REDECLARE)) as [He|He];
    [|by apply simple_registers].
  assert (exists w1, update_registrar e p four port w =
      (whenM (bool_decide (registrar_state st = MRP_IN))
        (_ ← start_leaveTimer p MRP_LEAVETIMER_PERIOD_CENTISECONDS; set_registrar p MRP_LV)) w1 /\
      machine_frame w w1 /\ attrs (mrp w1) = attrs (mrp w)) as (w1 & E & Hf & Ha).
  { unfold update_registrar. unfold mbind at 1, M_bind at 1. rewrite (get_st_run p w st Hp).
    destruct (decide (e = MRP_EVENT_RECEIVE_LEAVE_ALL)) as [->|Hla].
    - destruct (restart_leaveall_run port w (same_type (attribute_type st) MVRP_VID_VECTOR))
        as (w1 & E & Hf & Ha); [by apply Hport|].
      exists w1. split; [|done]. unfold mbind at 1, M_bind at 1.
      rewrite bool_decide_true by done. unfold whenM at 1. by rewrite E.
    - exists w. split; [|done]. by destruct He as [->|[->|[->| ->]]]. }
  destruct (leave_registers e p four st w w1 He Hp Hf Ha) as (now & w' & E' & ? & ?).
  exists now, w'. by rewrite E.
Qed.

(** * The applicant *)

(** The events on which the attribute is transmitted. *)
Definition transmits (e : mrp_event) : Prop := e = MRP_EVENT_TX \/ e = MRP_EVENT_TX_LEAVE_ALL.

Lemma switch_applicant_run p e cases w st :
  attrs (mrp w) !! p = Some st -> (forall a, cases a <> Some MRP_UNUSED) ->
  switch_applicant p e cases w =
    Some (tt, set_attr p (upd_applicant_state (fun a => default a (cases a)) st) w).
Proof.
  intros Hp Hc. unfold switch_applicant, mbind, M_bind. rewrite (get_st_run p w st Hp).
  destruct (cases (applicant_state st)) as [new|] eqn:E.
  - assert (new <> MRP_UNUSED) by (intros ->; by apply (Hc (applicant_state st))).
    unfold mrp_change_applicant_state. destruct new; try done;
      (erewrite upd_st_run by exact Hp); unfold upd_applicant_state; by rewrite E.
  - cbn. rewrite set_attr_same; [done|]. rewrite Hp. unfold upd_applicant_state. rewrite E.
    by destruct st.
Qed.

Lemma update_applicant_run e p port w st :
  attrs (mrp w) !! p = Some st -> ~ transmits e ->
  update_applicant e p port w = Some (tt, set_attr p (upd_applicant_state (applicant_next e) st) w).
Proof.
  intros Hp He. unfold transmits in He.
  destruct st as [pn ty ap rem reg lt pi fv nx he pr inf].
  destruct e; try tauto; unfold update_applicant, mrp_change_applicant_state, mbind, M_bind;
    rewrite ?set_attr_same by (rewrite Hp; by destruct ap);
    try done; try (by erewrite upd_st_run by exact Hp);
    repeat (erewrite switch_applicant_run by
      first [exact Hp | eapply lookup_set_attr; exact Hp | by intros []]; rewrite ?set_attr_twice);
    by destruct ap.
Qed.

Lemma mrp_update_state_run e p four port w st :
  attrs (mrp w) !! p = Some st -> ~ transmits e ->
  (e = MRP_EVENT_RECEIVE_LEAVE_ALL -> leaveall_port port w) ->
  exists now w', mrp_update_state e p four port w = Some (tt, w') /\ machine_frame w w' /\
    attrs (mrp w') = <[p := attr_step e four now st]> (attrs (mrp w)).
Proof.
  intros Hp He Hport.
  destruct (update_registrar_run e p four port w st Hp Hport) as (now & w1 & E & Hf & Ha).
  assert (attrs (mrp w1) !! p = Some (registrar_step e four now st)) as Hp1.
  { rewrite Ha. apply list_lookup_insert_eq. by eapply lookup_lt_Some. }
  unfold mrp_update_state, mbind, M_bind. rewrite E.
  rewrite (update_applicant_run _ _ _ _ _ Hp1 He).
  exists now. eexists. split; [reflexivity|].
  split; [etrans; [exact Hf | apply set_attr_frame]|].
  cbn. by rewrite Ha, list_insert_insert_eq.
Qed.

(** C2: for every event that does not transmit, [mrp_update_state] runs to
    completion and changes the attribute as the applicant and registrar tables,
    the leave timer rule and the indication rule say; all other attributes, the
    send buffer, the reservations, the VLAN entries and the other timers stay as
    they were. *)
Theorem mrp_update_state_refines e p four port w st :
  attrs (mrp w) !! p = Some st -> ~ transmits e ->
  (e = MRP_EVENT_RECEIVE_LEAVE_ALL -> leaveall_port port w) ->
  exists now w', mrp_update_state e p four port w = Some (tt, w') /\ machine_frame w w' /\
    attrs (mrp w') = <[p := attr_step e four now st]> (attrs (mrp w)).
Proof. apply mrp_update_state_run. Qed.
End Machine.

Lemma mrp_update_state_refines_witness :
  (exists st, attrs (mrp sample_world) !! 1%nat = Some st /\ registrar_state st = MRP_IN) /\
  exists now w', @mrp_update_state default_config MRP_EVENT_RECEIVE_LEAVE_ALL 1 0 0 sample_world
      = Some (tt, w') /\ machine_frame sample_world w' /\
    (exists st', attrs (mrp w') !! 1%nat = Some st' /\ registrar_state st' = MRP_LV /\
       timeout (leaveTimer st') = u32 (now + 80000000)).
Proof.
  split; [eexists; split; reflexivity|].
  assert (leaveall_port 0 sample_world) as Hport by (unfold leaveall_port; cbn; lia).
  assert (~ transmits MRP_EVENT_RECEIVE_LEAVE_ALL) as Hnt by (intros [E|E]; discriminate E).
  destruct (@mrp_update_state_refines default_config MRP_EVENT_RECEIVE_LEAVE_ALL 1 0 0
    sample_world _ eq_refl Hnt (fun _ => Hport)) as (now & w' & E & Hf & Ha).
  exists now, w'. split; [exact E|]. split; [exact Hf|]. rewrite Ha.
  eexists. split; [reflexivity|]. split; reflexivity.
Defined.
