(* ===== verification/MrpSort.v ===== *)
(** The sorting of the attribute list: [sort_attrs] works in place on the linked
    list through the [next] pointers; here it is shown to terminate without
    touching anything but the links, and to leave a list of the same attributes. *)
From S2P Require Import Prelude Bytes MiscTimer MrpTypes MrpMatch SrpTable MrpPdu SrpEncode.
From S2P Require Import MrpCore MrpMachine.
From Stdlib Require Import ZArith Lia.
From stdpp Require Import base list list_numbers numbers.
#[local] Open Scope Z_scope.

(** * Linked lists in the attribute array *)

(** The pointers from [p] lead through the attributes [l] to [q]. *)
Fixpoint seg (w : world) (p : option nat) (l : list nat) (q : option nat) : Prop :=
  match l with
  | [] => p = q
  | x :: l' => p = Some x /\ exists st, attrs (mrp w) !! x = Some st /\ seg w (next st) l' q
  end.

(** The list from [p] is [l]. *)
Definition chain (w : world) (p : option nat) (l : list nat) : Prop := seg w p l None.

(** The attribute list of the state is [l], without repetition. *)
Definition linked (w : world) (l : list nat) : Prop := chain w (first_attr (mrp w)) l /\ NoDup l.

Lemma seg_app w p l1 l2 q : seg w p (l1 ++ l2) q <-> exists r, seg w p l1 r /\ seg w r l2 q.
Proof.
  revert p. induction l1 as [|x l1 IH]; intros p; cbn.
  - naive_solver.
  - setoid_rewrite IH. naive_solver.
Qed.

Lemma seg_set_attr w p l q x st : x ∉ l -> seg w p l q -> seg (set_attr x st w) p l q.
Proof.
  revert p. induction l as [|y l IH]; intros p Hx; cbn; [done|].
  rewrite not_elem_of_cons in Hx. destruct Hx as [Hne Hx].
  intros (-> & st' & Hy & Hl). split; [done|]. exists st'. split; [|by apply IH].
  cbn. by rewrite list_lookup_insert_ne.
Qed.

Lemma seg_set_first w p l q f : seg w p l q -> seg (upd_mrp (upd_first_attr f) w) p l q.
Proof.
  revert p. induction l as [|y l IH]; intros p; cbn; [done|]. naive_solver.
Qed.

(** A list depends on the attributes and the head only. *)
Lemma seg_ext w w' p l q : attrs (mrp w') = attrs (mrp w) -> seg w p l q -> seg w' p l q.
Proof.
  intros Ha. revert p. induction l as [|y l IH]; intros p; cbn; [done|]. rewrite Ha. naive_solver.
Qed.

Lemma linked_ext w w' l :
  attrs (mrp w') = attrs (mrp w) -> first_attr (mrp w') = first_attr (mrp w) ->
  linked w l -> linked w' l.
Proof. intros Ha Hf [Hc Hnd]. split; [|done]. rewrite Hf. by eapply seg_ext. Qed.

Lemma seg_valid w p l q x : seg w p l q -> x ∈ l -> exists st, attrs (mrp w) !! x = Some st.
Proof.
  revert p. induction l as [|y l IH]; intros p Hs Hx; [by apply not_elem_of_nil in Hx|].
  destruct Hs as (_ & st & Hy & Hl). apply elem_of_cons in Hx as [->|Hx]; eauto.
Qed.

(** * What the sort may change *)

(** [w'] is [w] with other links. *)
Definition relinked (w w' : world) : Prop :=
  (forall x, upd_next (fun _ => None) <$> attrs (mrp w') !! x =
             upd_next (fun _ => None) <$> attrs (mrp w) !! x) /\
  w' = upd_mrp (fun m => upd_attrs (fun _ => attrs (mrp w'))
                  (upd_first_attr (fun _ => first_attr (mrp w')) m)) w.

#[global] Instance relinked_preorder : PreOrder relinked.
Proof.
  split.
  - intros [[] ? ? ?]. by split.
  - intros w1 w2 w3 [A1 E1] [A2 E2]. split; [intros x; by rewrite A2|].
    rewrite E2 at 1. rewrite E1. reflexivity.
Qed.

Lemma relinked_set_next w x st n :
  attrs (mrp w) !! x = Some st -> relinked w (set_attr x (upd_next (fun _ => n) st) w).
Proof.
  intros Hx. split; [|by destruct w as [[] ? ? ?]]. intros y. cbn.
  destruct (decide (y = x)) as [->|].
  - rewrite list_lookup_insert_eq by (by eapply lookup_lt_Some). by rewrite Hx.
  - by rewrite list_lookup_insert_ne.
Qed.

Lemma relinked_set_first w p : relinked w (upd_mrp (upd_first_attr (fun _ => p)) w).
Proof. by destruct w as [[] ? ? ?]. Qed.

Section Sort.
  Context `{cfg : Config}.

Lemma set_next_run w x st n :
  attrs (mrp w) !! x = Some st ->
  set_next x n w = Some (tt, set_attr x (upd_next (fun _ => n) st) w).
Proof. intros Hx. unfold set_next. by erewrite upd_st_run. Qed.

Lemma relinked_lookup w w' x st :
  relinked w w' -> attrs (mrp w) !! x = Some st ->
  exists n, attrs (mrp w') !! x = Some (upd_next (fun _ => n) st).
Proof.
  intros [H _] Hx. specialize (H x). rewrite Hx in H.
  destruct (attrs (mrp w') !! x) as [st'|]; [|done]. apply (inj Some) in H.
  exists (next st'). f_equal. destruct st, st'. cbn in *. by simplify_eq.
Qed.

Lemma relinked_streams w w' : relinked w w' -> stream_table (srp w') = stream_table (srp w).
Proof. intros [_ ->]. done. Qed.

Lemma deref_stream_frame w w' info :
  stream_table (srp w') = stream_table (srp w) ->
  deref_stream info w' =
    match deref_stream info w with Some (e, _) => Some (e, w') | None => None end.
Proof.
  intros H. unfold deref_stream, stream_of, get_stream, load, mbind, M_bind.
  destruct info as [|i|i]; [done| |done]. cbn. rewrite H. by destruct (_ !! i).
Qed.

(** The comparison of two records does not depend on the rest of the state but
    for the reservation table. *)
Definition compare_records (a b : nat) (x y : mrp_attribute_state) : SM bool :=
  if is_unused x then (if is_unused y then mret (a <? b)%nat else mret false)
  else if is_unused y then mret true
  else if is_disabled x then (if is_disabled y then mret (a <? b)%nat else mret false)
  else if is_disabled y then mret true
  else if negb (same_type (attribute_type x) (attribute_type y)) then
    mret (attr_type_num (attribute_type x) <? attr_type_num (attribute_type y))
  else
    match attribute_type x with
    | MSRP_TALKER_ADVERTISE => avb_srp_compare_talker_attributes (attribute_info x) (attribute_info y)
    | MSRP_LISTENER => avb_srp_compare_listener_attributes (attribute_info x) (attribute_info y)
    | _ => mret (a <? b)%nat
    end.

Lemma compare_records_frame a b x y w w' :
  stream_table (srp w') = stream_table (srp w) ->
  compare_records a b x y w' =
    match compare_records a b x y w with Some (r, _) => Some (r, w') | None => None end.
Proof.
  intros Hs. unfold compare_records.
  repeat match goal with |- context [if ?b then _ else _] => destruct b; try done end.
  destruct (attribute_type x); try done;
    unfold avb_srp_compare_talker_attributes, avb_srp_compare_listener_attributes, mbind, M_bind;
    rewrite !(deref_stream_frame w w') by done;
    destruct (deref_stream (attribute_info x) w) as [[e1 w1]|] eqn:E1; try done;
    assert (w1 = w) as -> by (revert E1; unfold deref_stream, stream_of, get_stream, load, mbind, M_bind;
      destruct (attribute_info x) as [|i|]; cbn; try done; destruct (_ !! i); by intros [=]);
    rewrite ?(deref_stream_frame w w') by done;
    by destruct (deref_stream (attribute_info y) w) as [[]|].
Qed.

(** [compare_attr] does not look at the links. *)
Lemma compare_attr_relinked w w' a b r :
  relinked w w' -> compare_attr a b w = Some (r, w) -> compare_attr a b w' = Some (r, w').
Proof.
  intros Hr. pose proof (relinked_streams _ _ Hr) as Hs.
  unfold compare_attr, mbind, M_bind, get_st, load.
  destruct (attrs (mrp w) !! a) as [x|] eqn:Ea; [|done].
  destruct (attrs (mrp w) !! b) as [y|] eqn:Eb; [|done].
  destruct (relinked_lookup _ _ _ _ Hr Ea) as (n & ->).
  destruct (relinked_lookup _ _ _ _ Hr Eb) as (m & ->).
  change (compare_records a b x y w = Some (r, w) -> compare_records a b x y w' = Some (r, w')).
  intros E. by rewrite (compare_records_frame a b x y w w' Hs), E.
Qed.

(** All the attributes of the list can be compared. *)
Definition comparable (w : world) (l : list nat) : Prop :=
  forall a b, a ∈ l -> b ∈ l -> exists r, compare_attr a b w = Some (r, w).

Lemma reads_compare_attr a b : reads (compare_attr a b).
Proof.
  unfold compare_attr, avb_srp_compare_talker_attributes, avb_srp_compare_listener_attributes.
  keeps_auto.
Qed.

Section Loops.
Context (tot : bool) (w0 : world) (L : list nat) (Hc : tot = true -> comparable w0 L).

Lemma compare_any w a b Q :
  relinked w0 w -> a ∈ L -> b ∈ L -> (forall r, Q r w) -> wp tot (compare_attr a b) Q w.
Proof.
  intros Hr Ha Hb HQ. unfold wp. destruct (compare_attr a b w) as [[r w']|] eqn:E.
  - by rewrite <- (reads_compare_attr a b w r w' E).
  - destruct tot; [|done]. destruct (Hc eq_refl a b Ha Hb) as [r Er].
    by rewrite (compare_attr_relinked w0 w a b r Hr Er) in E.
Qed.

(** Where the first loop is: the elements [K] passed and kept, those still to
    visit ([R], from [attr]) and those taken out ([T]). *)
Definition taking_out (K R T : list nat) (s : option nat * option nat * option nat) (w : world) : Prop :=
  let '(attr, prev, to_insert) := s in
  relinked w0 w /\ K ++ R ++ T ≡ₚ L /\ NoDup (K ++ R ++ T) /\
  seg w (first_attr (mrp w)) K attr /\ chain w attr R /\ chain w to_insert T /\
  (R <> [] -> prev = list.last K) /\ (L <> [] -> K ++ R <> []).

(** The list without its element [a] behind [prev]. *)
Lemma unlink_run w K a n R st prev :
  seg w (first_attr (mrp w)) K (Some a) -> prev = list.last K -> NoDup (K ++ a :: R) ->
  attrs (mrp w) !! a = Some st -> chain w (Some n) R ->
  exists w', (match prev with Some pr => set_next pr (Some n) | None => set_first (Some n) end) w
      = Some (tt, w') /\ relinked w w' /\ attrs (mrp w') !! a = Some st /\
    seg w' (first_attr (mrp w')) K (Some n) /\ chain w' (Some n) R /\
    (forall p T, (forall x, x ∈ T -> x ∉ K) -> chain w p T -> chain w' p T).
Proof.
  intros HK -> Hnd Ha HR. destruct K as [|pr K _] using rev_ind.
  - cbn. unfold set_first, modify. eexists. split; [reflexivity|].
    split; [apply relinked_set_first|]. split_and!; [done|done|by apply seg_set_first|].
    intros p T _. apply seg_set_first.
  - rewrite list.last_snoc. apply seg_app in HK as (q & HK & (-> & spr & Hpr & Hq)).
    rewrite (set_next_run w pr spr) by done. eexists. split; [reflexivity|].
    split; [by apply relinked_set_next|].
    rewrite <- app_assoc in Hnd. apply list.NoDup_app in Hnd as (HndK & HK1 & Hnd). cbn in Hnd.
    apply list.NoDup_cons in Hnd as [Hpr1 Hnd].
    assert (pr ∉ K) by (intros Hin; by apply (HK1 pr Hin), list_elem_of_here).
    split_and!.
    + cbn. rewrite list_lookup_insert_ne; [done|]. intros ->. apply Hpr1. apply list_elem_of_here.
    + apply seg_app. exists (Some pr). split; [by apply seg_set_attr|]. cbn. split; [done|].
      eexists. split; [eapply lookup_set_attr, Hpr|done].
    + apply seg_set_attr; [|done]. intros Hin. apply Hpr1. by apply list_elem_of_further.
    + intros p T HT Hp. apply seg_set_attr; [|done]. intros Hin. apply (HT pr Hin).
      apply elem_of_app. right. apply list_elem_of_here.
Qed.

(** After it: what was kept, and what is to be inserted again. *)
Definition taken_out (K T : list nat) (to_insert : option nat) (w : world) : Prop :=
  relinked w0 w /\ K ++ T ≡ₚ L /\ NoDup (K ++ T) /\ chain w (first_attr (mrp w)) K /\
  chain w to_insert T /\ (L <> [] -> K <> []).

Lemma taking_out_last K a T prev ins w st :
  taking_out K [a] T (Some a, prev, ins) w -> attrs (mrp w) !! a = Some st ->
  next st = None -> taking_out (K ++ [a]) [] T (None, prev, ins) w.
Proof.
  intros (Hr & Hp & Hnd & HK & HR & HT & Hl & Hne) Ha Hn. unfold taking_out.
  rewrite <- !app_assoc in *. split_and!; try done.
  apply seg_app. exists (Some a). split; [done|]. cbn. eauto.
Qed.

Lemma taking_out_keep K a n R T prev ins w st :
  taking_out K (a :: n :: R) T (Some a, prev, ins) w -> attrs (mrp w) !! a = Some st ->
  next st = Some n -> taking_out (K ++ [a]) (n :: R) T (Some n, Some a, ins) w.
Proof.
  intros (Hr & Hp & Hnd & HK & (_ & st' & Ha' & HR) & HT & Hl & Hne) Ha Hn. simplify_eq.
  unfold taking_out. rewrite <- !app_assoc. split_and!; try done.
  - apply seg_app. exists (Some a). split; [done|]. cbn. eauto.
  - rewrite Hn in HR. exact HR.
  - intros _. by rewrite list.last_snoc.
Qed.

Lemma taking_out_remove K a n R T prev ins w st :
  taking_out K (a :: n :: R) T (Some a, prev, ins) w -> attrs (mrp w) !! a = Some st ->
  next st = Some n ->
  wp tot (_ ← match prev with Some pr => set_next pr (Some n) | None => set_first (Some n) end;
      set_next a ins)
    (fun _ => taking_out K (n :: R) (a :: T) (Some n, prev, Some a)) w.
Proof.
  intros (Hr & Hp & Hnd & HK & (_ & st' & Ha' & HR) & HT & Hl & Hne) Ha Hn.
  assert (st' = st) as -> by congruence.
  rewrite Hn in HR. pose proof Hnd as Hnd0. cbn in Hnd.
  apply list.NoDup_app in Hnd as (HndK & HKR & Hnd).
  apply list.NoDup_cons in Hnd as [HaRT Hnd]. change (a ∉ (n :: R) ++ T) in HaRT.
  assert (a ∉ K) as HaK by (intros Hin; by apply (HKR a Hin), list_elem_of_here).
  destruct (unlink_run w K a n (n :: R) st prev HK (Hl ltac:(done)))
    as (w1 & E & Hr1 & Ha1 & HK1 & HR1 & HT1); [|done|done|].
  { rewrite app_assoc in Hnd0. by apply list.NoDup_app in Hnd0 as (? & _ & _). }
  unfold wp, mbind, M_bind. rewrite E, (set_next_run w1 a st ins Ha1). unfold taking_out.
  split_and!.
  - etrans; [exact Hr|]. etrans; [exact Hr1|]. by apply relinked_set_next.
  - rewrite <- Hp. solve_Permutation.
  - assert (K ++ (n :: R) ++ a :: T ≡ₚ K ++ (a :: n :: R) ++ T) as -> by solve_Permutation. done.
  - by apply seg_set_attr.
  - apply seg_set_attr; [|done]. intros Hin. apply HaRT. apply elem_of_app. by left.
  - cbn. split; [done|]. eexists. split; [eapply lookup_set_attr, Ha1|]. cbn.
    apply seg_set_attr; [intros Hin; apply HaRT, elem_of_app; by right|].
    apply HT1; [|done]. intros x Hx HxK. apply (HKR x HxK). apply list_elem_of_further, list_elem_of_further.
    apply elem_of_app. by right.
  - intros _. apply Hl. done.
  - intros _ E'. by destruct K.
Qed.

Lemma sort_take_out_spec w :
  relinked w0 w -> linked w L -> (length L <= MRP_MAX_ATTRS)%nat ->
  wp tot sort_take_out (fun ins w' => exists K T, taken_out K T ins w') w.
Proof.
  intros Hr [HL Hnd] Hlen. unfold sort_take_out. apply wp_bind, wp_gets.
  eapply (wp_loopM _ _ (fun n s w' => exists K R T, n = length R /\ taking_out K R T s w')).
  - clear w Hr HL. intros n [[attr prev] ins] w (K & R & T & -> & Ht).
    pose proof Ht as (Hr & Hp & Hnd' & HK & HR & HT & Hl & Hne).
    destruct R as [|a R]; [rewrite HR|destruct HR as (-> & st & Ha & HR)].
    { apply wp_ret. exists K, T. cbn in *. unfold taken_out. split_and!; try done.
      - by rewrite HR in HK.
      - intros HL E. apply (Hne HL). by rewrite E. }
    apply wp_bind. eapply wp_load; [exact Ha|]. cbn zeta.
    destruct R as [|m R]; [|destruct HR as (Hm & HR); rewrite Hm].
    { assert (next st = None) as Hn by exact HR. rewrite Hn. apply wp_ret. exists 0%nat. split; [cbn; lia|]. exists (K ++ [a]), [], T. split; [done|].
      by eapply taking_out_last. }
    apply wp_bind, (compare_any w a m); [done|..].
    { rewrite <- Hp. apply elem_of_app. right. apply list_elem_of_here. }
    { rewrite <- Hp. apply elem_of_app. right. apply list_elem_of_further, list_elem_of_here. }
    intros r. destruct r; cbn [negb].
    + apply wp_ret. exists (S (length R)). split; [cbn; lia|]. exists (K ++ [a]), (m :: R), T.
      split; [done|]. by eapply taking_out_keep.
    + eapply wp_bind_assoc; [exact (taking_out_remove _ _ _ _ _ _ _ _ _ Ht Ha Hm)|].
      intros [] w2 Ht2. apply wp_ret. exists (S (length R)). split; [cbn; lia|].
      by exists K, (m :: R), (a :: T).
  - exists [], L, []. split; [done|]. unfold taking_out. rewrite app_nil_r. cbn.
    split_and!; done.
  - unfold list_fuel. lia.
Qed.

(** ** Inserting again

    [a] is to be put into the list [K]; the list [T] from [q] waits. *)
Definition inserting (K : list nat) (a : nat) (T : list nat) (q : option nat) (w : world) : Prop :=
  relinked w0 w /\ chain w (first_attr (mrp w)) K /\ chain w q T /\ NoDup (a :: K ++ T) /\
  (a :: K ++ T) ⊆ L /\ exists st, attrs (mrp w) !! a = Some st.

Definition inserted (K : list nat) (a : nat) (T : list nat) (q : option nat) (w : world) : Prop :=
  exists K', K' ≡ₚ a :: K /\ relinked w0 w /\ chain w (first_attr (mrp w)) K' /\ chain w q T.

Lemma insert_after_run K1 i R a T q w sti :
  inserting (K1 ++ i :: R) a T q w -> attrs (mrp w) !! i = Some sti ->
  wp tot (_ ← set_next a (next sti); set_next i (Some a))
    (fun _ => inserted (K1 ++ i :: R) a T q) w.
Proof.
  intros (Hr & HK & HT & Hnd & _ & sta & Ha) Hi.
  apply list.NoDup_cons in Hnd as [HaK Hnd]. rewrite <- app_assoc in Hnd, HaK.
  apply list.NoDup_app in Hnd as (HndK & HK1 & Hnd). cbn in Hnd.
  apply list.NoDup_cons in Hnd as [HiR Hnd].
  assert (a <> i) as Hai by (intros ->; apply HaK, elem_of_app; right; apply list_elem_of_here).
  assert (i ∉ K1) as HiK1 by (intros Hin; by apply (HK1 i Hin), list_elem_of_here).
  rewrite elem_of_app in HaK. rewrite elem_of_app in HiR.
  apply seg_app in HK as (p & HK & (-> & sti' & Hi' & HR)).
  assert (sti' = sti) as -> by congruence.
  assert (a ∉ R) by (intros Hin; apply HaK; right; apply elem_of_app; left; by apply list_elem_of_further).
  assert (a ∉ T) by (intros Hin; apply HaK; right; apply elem_of_app; by right).
  unfold wp, mbind, M_bind. rewrite (set_next_run w a sta) by done.
  erewrite set_next_run by (cbn; rewrite list_lookup_insert_ne; [exact Hi|done]).
  exists (K1 ++ i :: a :: R). split_and!.
  - solve_Permutation.
  - etrans; [exact Hr|]. etrans; [by apply (relinked_set_next w a sta (next sti))|].
    apply relinked_set_next. cbn. by rewrite list_lookup_insert_ne.
  - apply seg_app. exists (Some i). split.
    + apply seg_set_attr, seg_set_attr; [done| |done]. naive_solver.
    + cbn. split; [done|]. eexists. split.
      { apply list_lookup_insert_eq. rewrite length_insert. by eapply lookup_lt_Some. }
      cbn. split; [done|]. eexists. split.
      { rewrite list_lookup_insert_ne by done. apply list_lookup_insert_eq. by eapply lookup_lt_Some. }
      cbn. apply seg_set_attr, seg_set_attr; [naive_solver|done|done].
  - apply seg_set_attr, seg_set_attr; [naive_solver|done|done].
Qed.

Lemma sort_insert_from_spec K a T q w :
  inserting K a T q w -> K <> [] -> (length K <= MRP_MAX_ATTRS)%nat ->
  wp tot (sort_insert_from a (first_attr (mrp w))) (fun _ => inserted K a T q) w.
Proof.
  intros HI HKne Hlen. unfold sort_insert_from.
  eapply (wp_loopM _ _ (fun n ins w' =>
    (exists K1 R, K = K1 ++ R /\ R <> [] /\ n = length R /\ inserting K a T q w' /\
       seg w' (first_attr (mrp w')) K1 ins /\ chain w' ins R) \/
    (n = O /\ ins = None /\ inserted K a T q w'))).
  - clear w HI. intros n ins w [(K1 & R & -> & Hne & -> & HI & HK1 & HR)|(-> & -> & Hdone)];
      [|by apply wp_ret].
    destruct R as [|i R]; [done|]. destruct HR as (-> & sti & Hi & HR).
    pose proof HI as (Hr & _ & _ & _ & HL & _).
    apply wp_bind. eapply wp_load; [exact Hi|]. cbn zeta.
    apply wp_bind. eapply (wp_mono _ _ (fun b w' => w' = w /\ (b = false -> R <> []))).
    { destruct R as [|j R]; [|destruct HR as [-> HR]].
      { assert (next sti = None) as -> by exact HR. by apply wp_ret. }
      assert (a ∈ L /\ i ∈ L /\ j ∈ L) as (HaL & HiL & HjL).
      { split_and!; apply HL; [constructor|..]; apply list_elem_of_further, elem_of_app; left;
          apply elem_of_app; right; repeat constructor. }
      apply wp_bind, compare_any; [done..|]. intros []; [|by apply wp_ret].
      by apply compare_any. }
    intros b w' [-> Hb]. destruct b.
    + eapply wp_bind_assoc; [by eapply insert_after_run|].
      intros [] w' Hins. apply wp_ret. exists O. split; [cbn; lia|]. by right.
    + apply wp_ret. exists (length R). split; [cbn; lia|]. left. exists (K1 ++ [i]), R.
      rewrite <- app_assoc. split_and!; try done; [by apply Hb|].
      apply seg_app. exists (Some i). split; [done|]. cbn. eauto.
  - left. exists [], K. split_and!; try done. by destruct HI as (_ & ? & _).
  - unfold list_fuel. lia.
Qed.

(** One round of the second loop of [sort_attrs], followed by [k]. *)
Lemma insert_one_spec {B} K a T q w (k : SM B) Q :
  inserting K a T q w -> K <> [] -> (length K <= MRP_MAX_ATTRS)%nat ->
  (forall w', inserted K a T q w' -> wp tot k Q w') ->
  wp tot (ins ← get_first; i ← deref ins; c ← compare_attr a i;
      _ ← (if (c : bool) then _ ← set_next a ins; set_first (Some a) else sort_insert_from a ins); k)
    Q w.
Proof.
  intros HI HKne Hlen Hk. pose proof HI as (Hr & HK & HT & Hnd & HL & sta & Ha).
  destruct K as [|i K]; [done|]. pose proof HK as (Hf & _).
  apply wp_bind, wp_gets. rewrite Hf. apply wp_bind, wp_ret, wp_bind.
  apply compare_any; [done|..].
  { apply HL. constructor. }
  { apply HL. apply list_elem_of_further. constructor. }
  intros r. apply wp_bind.
  eapply (wp_mono _ _ (fun _ => inserted (i :: K) a T q)); [|intros _; exact Hk]. destruct r.
  - apply list.NoDup_cons in Hnd as [HaK _]. rewrite elem_of_app in HaK.
    unfold wp, mbind, M_bind. rewrite (set_next_run w a sta) by done. cbn.
    exists (a :: i :: K). split_and!; [done|..].
    + etrans; [exact Hr|]. etrans; [by apply relinked_set_next|apply relinked_set_first].
    + split; [done|]. eexists. split.
      { apply list_lookup_insert_eq. by eapply lookup_lt_Some. }
      apply (seg_set_first _ (Some i) (i :: K) None), seg_set_attr; [naive_solver|].
      by rewrite Hf in HK.
    + apply seg_set_first, seg_set_attr; [|done]. naive_solver.
  - rewrite <- Hf. by apply sort_insert_from_spec.
Qed.

Lemma sort_insert_all_spec ins w K T :
  taken_out K T ins w -> (length L <= MRP_MAX_ATTRS)%nat -> L <> [] ->
  wp tot (loopM list_fuel (fun attr : option nat =>
    match attr with
    | None => mret (inr tt)
    | Some a =>
        st ← get_st a;
        let next' := next st in
        ins ← get_first;
        i ← deref ins;
        c ← compare_attr a i;
        _ ← (if (c : bool) then _ ← set_next a ins; set_first (Some a)
             else sort_insert_from a ins);
        mret (inl next')
    end) ins) (fun _ w' => exists L', taken_out L' [] None w') w.
Proof.
  intros Ht Hlen HLne.
  eapply (wp_loopM _ _ (fun n ins w => exists K T, n = length T /\ taken_out K T ins w)).
  - clear - Hc Hlen HLne. intros n ins w (K & T & -> & Hr & Hp & Hnd & HK & HT & Hne).
    destruct T as [|a T].
    { rewrite HT. apply wp_ret. by exists K. }
    destruct HT as (-> & st & Ha & HT). apply wp_bind. eapply wp_load; [exact Ha|]. cbn zeta.
    assert (a :: K ++ T ≡ₚ L) as Hp' by (rewrite <- Hp; solve_Permutation).
    eapply (insert_one_spec K a T (next st)).
    + split_and!; try done; [|by rewrite Hp'|by exists st].
      by rewrite (Permutation_middle K T a).
    + by apply Hne.
    + rewrite <- Hlen, <- Hp', length_cons, length_app. lia.
    + intros w' (K' & HK' & Hr' & HKc & HTc). apply wp_ret. exists (length T). split; [cbn; lia|].
      exists K', T. split; [done|]. split_and!; try done.
      * by rewrite HK'.
      * rewrite HK'. cbn. by rewrite (Permutation_middle K T a).
      * intros _ ->. by apply Permutation_nil_l, eq_sym in HK'.
  - by exists K, T.
  - destruct Ht as (_ & Hp & _). unfold list_fuel. rewrite <- Hp, length_app in Hlen. lia.
Qed.

Lemma sort_attrs_wp :
  linked w0 L -> L <> [] -> (length L <= MRP_MAX_ATTRS)%nat ->
  wp tot sort_attrs (fun _ w' => exists L', linked w' L' /\ L' ≡ₚ L /\ relinked w0 w') w0.
Proof.
  intros HL Hne Hlen. unfold sort_attrs. apply wp_bind.
  eapply wp_mono; [by apply sort_take_out_spec|].
  intros ins w' (K & T & Ht). eapply wp_mono; [by eapply sort_insert_all_spec|].
  intros _ w2 (L' & Hr & Hp & Hnd & HK & _). rewrite app_nil_r in Hp, Hnd. by exists L'.
Qed.
End Loops.

(** Sorting terminates within the fuel, for every attribute list whose
    elements can be compared; it leaves a list of the same attributes, without
    repetition, and changes nothing but the links. *)
Theorem sort_attrs_permutes w L :
  linked w L -> L <> [] -> (length L <= MRP_MAX_ATTRS)%nat -> comparable w L ->
  exists w' L', sort_attrs w = Some (tt, w') /\ linked w' L' /\ L' ≡ₚ L /\ relinked w w'.
Proof.
  intros HL Hne Hlen Hc.
  pose proof (sort_attrs_wp true w L (fun _ => Hc) HL Hne Hlen) as Hw.
  apply wp_elim in Hw as ([] & w' & E & L' & ?); [|done]. by exists w', L'.
Qed.
End Sort.

(** The list of the sample state, and its comparisons. *)
Lemma sample_linked : linked sample_world [0; 1; 2; 3; 4; 5; 6; 7; 8]%nat.
Proof.
  split.
  - repeat (split; [reflexivity|eexists; split; [reflexivity|]]). reflexivity.
  - apply (bool_decide_unpack _). vm_compute. exact I.
Defined.

Lemma sort_attrs_permutes_witness :
  linked sample_world [0; 1; 2; 3; 4; 5; 6; 7; 8]%nat /\
  exists w' L', @sort_attrs default_config sample_world = Some (tt, w') /\ linked w' L' /\
    L' ≡ₚ [0; 1; 2; 3; 4; 5; 6; 7; 8]%nat /\ relinked sample_world w'.
Proof.
  split; [exact sample_linked|].
  refine (@sort_attrs_permutes default_config sample_world _ sample_linked _ _ _).
  - discriminate.
  - vm_compute. lia.
  - intros a b Ha Hb.
    repeat (apply elem_of_cons in Ha as [->|Ha]; [
      repeat (apply elem_of_cons in Hb as [->|Hb]; [eexists; vm_compute; reflexivity|]);
      by apply not_elem_of_nil in Hb|]).
    by apply not_elem_of_nil in Ha.
Defined.
