(* ===== verification/MvrpVlan.v ===== *)
(** VLAN registration, MVRP ([lib_tsn/src/srp/avb_mvrp.c]): the VLAN table, joining and leaving,
    the matching of received VLAN vectors; and that the table counts the users of each VLAN. *)
From S2P Require Import Prelude Bytes MiscTimer MrpTypes MrpMatch SrpTable MrpPdu SrpEncode MrpCore MrpMachine.
From Stdlib Require Import ZArith Lia.
From stdpp Require Import base list list_numbers numbers.
#[local] Open Scope Z_scope.

Section Vlan.
  Context `{cfg : Config}.

Definition num_entries : nat := AVB_MAX_NUM_VLAN * MRP_NUM_PORTS.

Definition get_entry (i : nat) : SM mvrp_entry := load (fun w => mvrp w !! i).
Definition upd_entry (i : nat) (f : mvrp_entry -> mvrp_entry) : SM unit :=
  store (fun w => match mvrp w !! i with
                  | Some e => Some (upd_mvrp (<[i := f e]>) w)
                  | None => None
                  end).

Definition avb_mvrp_init : SM unit :=
  forM (seq 0 MRP_NUM_PORTS) (fun j =>
    forM (seq 0 AVB_MAX_NUM_VLAN) (fun i =>
      let idx := (j * AVB_MAX_NUM_VLAN + i)%nat in
      _ ← upd_entry idx (upd_e_active (fun _ => false));
      a ← mrp_get_attr;
      _ ← upd_entry idx (upd_e_attr (fun _ => a));
      mrp_attribute_init a MVRP_VID_VECTOR (Z.of_nat j) true (InfoVlan idx))).

(** [entries[i].attr->port_num == port_num]; the conjunct of each condition
    that reads through the pointer is evaluated only if the others hold. *)
Definition entry_port_is (e : mvrp_entry) (port : Z) : SM bool :=
  a ← deref (e_attr e);
  st ← get_st a;
  mret (port_num st =? u32 port).

(** The first search of [avb_join_vlan] keeps the last index that matches. *)
Fixpoint find_vlan (is_match : mvrp_entry -> SM bool) (l : list nat) (found : option nat)
    : SM (option nat) :=
  match l with
  | [] => mret found
  | i :: l' =>
      e ← get_entry i;
      b ← is_match e;
      find_vlan is_match l' (if (b : bool) then Some i else found)
  end.

(** The other two stop at the first. *)
Definition first_entry (is_match : mvrp_entry -> SM bool) : SM (option nat) :=
  forM_until (seq 0 num_entries) (fun i =>
    e ← get_entry i;
    b ← is_match e;
    mret (if (b : bool) then Some i else None)).

(** The three searches of [avb_join_vlan]. *)
Definition vlan_entry_to_join (v port : Z) : SM (option nat) :=
  found ← find_vlan (fun e =>
      if e_active e && (vlan e =? v) then entry_port_is e port else mret false)
    (seq 0 num_entries) None;
  found ← match found with
          | Some i => mret (Some i)
          | None => first_entry (fun e =>
              if negb (e_active e) then entry_port_is e port else mret false)
          end;
  match found with
  | Some i => mret (Some i)
  | None => first_entry (fun e =>
      if e_active e then
        a ← deref (e_attr e);
        st ← get_st a;
        if mrp_is_observer st then entry_port_is e port else mret false
      else mret false)
  end.

Definition avb_join_vlan (v port : Z) : SM bool :=
  found ← vlan_entry_to_join v port;
  match found with
  | Some i =>
      _ ← upd_entry i (upd_e_active (fun _ => true));
      _ ← upd_entry i (upd_vlan (fun _ => v));
      e ← get_entry i;
      a ← deref (e_attr e);
      _ ← mrp_mad_begin a;
      _ ← mrp_mad_join a true;
      mret true
  | None => mret false
  end.

Definition avb_leave_vlan (v : Z) : SM unit :=
  found ← find_vlan (fun e => mret (e_active e && (vlan e =? v)))
    (seq 0 num_entries) None;
  match found with
  | Some i =>
      e ← get_entry i;
      a ← deref (e_attr e);
      _ ← mrp_mad_leave a;
      upd_entry i (upd_e_active (fun _ => false))
  | None => skip
  end.

(** [fv] is the offset of the first value in the received packet. *)
Definition avb_mvrp_match_vid_vector (p : nat) (fv i : Z) : SM bool :=
  st ← get_st p;
  a ← rx fv;
  b ← rx (fv + 1);
  let v := Z.shiftl a 8 + b + i in
  my_vlan ← deref_vlan (attribute_info st);
  mret (v =? my_vlan).

Definition avb_mvrp_vid_vector_join_ind (p : nat) (new : bool) : SM unit := skip.
Definition avb_mvrp_vid_vector_leave_ind (p : nat) : SM unit := skip.
End Vlan.

Section VlanSpec.
  Context `{cfg : Config}.

(** The table has its size, and its entries have attributes, as [avb_mvrp_init]
    leaves them. *)
Definition vlans_valid (w : world) : Prop :=
  length (mvrp w) = num_entries /\
  forall i e, mvrp w !! i = Some e -> exists a st, e_attr e = Some a /\ attrs (mrp w) !! a = Some st.

(** Entry [i] belongs to [port], and [P] holds of it and its attribute. *)
Definition port_entry (w : world) (port : Z) (P : mvrp_entry -> mrp_attribute_state -> Prop) (i : nat)
    : Prop :=
  exists e a st, mvrp w !! i = Some e /\ e_attr e = Some a /\ attrs (mrp w) !! a = Some st /\
    port_num st = u32 port /\ P e st.

Definition declares (v : Z) (e : mvrp_entry) (st : mrp_attribute_state) : Prop :=
  e_active e = true /\ vlan e = v.
Definition is_free (e : mvrp_entry) (st : mrp_attribute_state) : Prop := e_active e = false.
Definition only_watches (e : mvrp_entry) (st : mrp_attribute_state) : Prop :=
  e_active e = true /\ mrp_is_observer st = true.

(** An attribute that has just been declared: its applicant has a new declaration
    to send, its registrar is empty, its leave timer counts one period. *)
Definition declared_anew (st : mrp_attribute_state) : mrp_attribute_state :=
  MkAttr (port_num st) (attribute_type st) MRP_VN false MRP_MT (init_avb_timer 1 (leaveTimer st))
    (pending_indications st) (four_vector_parameter st) (next st) (here st) (propagated st)
    (attribute_info st).

(** * The searches *)

(** [f] decides [P] on every entry, and changes nothing. *)
Definition decides (f : mvrp_entry -> SM bool) (P : nat -> Prop) (w : world) : Prop :=
  forall i e, mvrp w !! i = Some e -> exists b, f e w = Some (b, w) /\ (b = true <-> P i).

Lemma get_entry_run i w e : mvrp w !! i = Some e -> get_entry i w = Some (e, w).
Proof. intros H. unfold get_entry, load. by rewrite H. Qed.

Lemma find_vlan_run f P w :
  decides f P w -> forall l found, (forall i, i ∈ l -> (i < length (mvrp w))%nat) ->
  exists r, find_vlan f l found w = Some (r, w) /\
    match r with
    | Some i => (i ∈ l /\ P i) \/ found = Some i
    | None => found = None /\ forall i, i ∈ l -> ~ P i
    end.
Proof.
  intros Hf. induction l as [|i l IH]; intros found Hl; cbn [find_vlan].
  - exists found. split; [done|]. destruct found; [by right|]. split; [done|]. intros i []%not_elem_of_nil.
  - destruct (lookup_lt_is_Some_2 (mvrp w) i) as [e He]; [apply Hl; left|].
    erewrite M_bind_run by exact (get_entry_run _ _ _ He).
    destruct (Hf i e He) as (b & E & Hb). erewrite M_bind_run by exact E.
    destruct (IH (if b then Some i else found)) as (r & Er & Hr); [intros j Hj; apply Hl; by right|].
    exists r. split; [exact Er|]. destruct r as [j|].
    + destruct Hr as [[Hj HP]|Hr]; [left; split; [by right|done]|].
      destruct b; [|by right]. injection Hr as <-. left. split; [left|by apply Hb].
    + destruct Hr as [Hr Hn]. destruct b; [done|]. split; [done|].
      intros j [->|Hj]%elem_of_cons; [|by apply Hn]. by rewrite <- Hb.
Qed.

Lemma first_entry_run f P w :
  decides f P w -> length (mvrp w) = num_entries ->
  exists r, first_entry f w = Some (r, w) /\
    match r with
    | Some i => (i < num_entries)%nat /\ P i
    | None => forall i, (i < num_entries)%nat -> ~ P i
    end.
Proof.
  intros Hf Hlen. unfold first_entry.
  assert (forall l, (forall i, i ∈ l -> (i < num_entries)%nat) ->
    exists r, forM_until l (fun i => e ← get_entry i; b ← f e; mret (if (b : bool) then Some i else None)) w
        = Some (r, w) /\
      match r with Some i => i ∈ l /\ P i | None => forall i, i ∈ l -> ~ P i end) as Hloop.
  { induction l as [|i l IH]; intros Hl; cbn [forM_until].
    { exists None. split; [done|]. intros i []%not_elem_of_nil. }
    destruct (lookup_lt_is_Some_2 (mvrp w) i) as [e He]; [rewrite Hlen; apply Hl; left|].
    destruct (Hf i e He) as (b & E & Hb).
    erewrite M_bind_run.
    2: { erewrite M_bind_run by exact (get_entry_run _ _ _ He).
         erewrite M_bind_run by exact E. reflexivity. }
    destruct b.
    - exists (Some i). split; [done|]. split; [left|by apply Hb].
    - destruct IH as (r & Er & Hr); [intros j Hj; apply Hl; by right|].
      exists r. split; [exact Er|]. destruct r as [j|].
      + destruct Hr. split; [by right|done].
      + intros j [->|Hj]%elem_of_cons; [by rewrite <- Hb|by apply Hr]. }
  destruct (Hloop (seq 0 num_entries)) as (r & Er & Hr); [intros i; rewrite elem_of_seq; lia|].
  exists r. split; [exact Er|]. destruct r as [i|].
  - destruct Hr as [Hi HP]. apply elem_of_seq in Hi. split; [lia|done].
  - intros i Hi. apply Hr, elem_of_seq. lia.
Qed.

Lemma entry_port_run w port e a st :
  e_attr e = Some a -> attrs (mrp w) !! a = Some st ->
  entry_port_is e port w = Some (port_num st =? u32 port, w).
Proof.
  intros Ha Hst. unfold entry_port_is. rewrite Ha. erewrite M_bind_run by reflexivity.
  by erewrite M_bind_run by exact (get_st_run _ _ _ Hst).
Qed.

(** A test of the entry that guards the test of its port. *)
Lemma guarded_decides (t : mvrp_entry -> mrp_attribute_state -> bool) P f w port :
  vlans_valid w -> (forall e st, t e st = true <-> P e st) ->
  (forall e a st, e_attr e = Some a -> attrs (mrp w) !! a = Some st ->
     f e w = Some (t e st && (port_num st =? u32 port), w)) ->
  decides f (port_entry w port P) w.
Proof.
  intros [_ Hv] Ht Hf i e He. destruct (Hv i e He) as (a & st & Ha & Hst).
  exists (t e st && (port_num st =? u32 port)). split; [by eapply Hf|].
  rewrite andb_true_iff, Z.eqb_eq, Ht. unfold port_entry. naive_solver.
Qed.

Lemma port_entry_lt w port P i : vlans_valid w -> port_entry w port P i -> (i < num_entries)%nat.
Proof. intros [<- _] (e & a & st & He & _). by eapply lookup_lt_Some. Qed.

Lemma decides_declares w v port :
  vlans_valid w ->
  decides (fun e => if e_active e && (vlan e =? v) then entry_port_is e port else mret false)
    (port_entry w port (declares v)) w.
Proof.
  intros Hv. apply (guarded_decides (fun e _ => e_active e && (vlan e =? v))); [done| |].
  - intros e st. unfold declares. by rewrite andb_true_iff, Z.eqb_eq.
  - intros e a st Ha Hst. cbv beta. destruct (e_active e && (vlan e =? v)); [|done]. exact (entry_port_run _ _ _ _ _ Ha Hst).
Qed.

Lemma decides_free w port :
  vlans_valid w ->
  decides (fun e => if negb (e_active e) then entry_port_is e port else mret false)
    (port_entry w port is_free) w.
Proof.
  intros Hv. apply (guarded_decides (fun e _ => negb (e_active e))); [done| |].
  - intros e st. apply negb_true_iff.
  - intros e a st Ha Hst. cbv beta. destruct (e_active e); [done|]. exact (entry_port_run _ _ _ _ _ Ha Hst).
Qed.

Lemma decides_watches w port :
  vlans_valid w ->
  decides (fun e => if e_active e then
                a ← deref (e_attr e);
                st ← get_st a;
                if mrp_is_observer st then entry_port_is e port else mret false
              else mret false)
    (port_entry w port only_watches) w.
Proof.
  intros Hv. apply (guarded_decides (fun e st => e_active e && mrp_is_observer st)); [done| |].
  - intros e st. apply andb_true_iff.
  - intros e a st Ha Hst. cbv beta. destruct (e_active e); [|done]. rewrite Ha at 1.
    erewrite M_bind_run by reflexivity. erewrite M_bind_run by exact (get_st_run _ _ _ Hst).
    cbn [andb]. destruct (mrp_is_observer st); [|done]. exact (entry_port_run _ _ _ _ _ Ha Hst).
Qed.

(** * The declaration *)

Lemma upd_entry_run i f w e :
  mvrp w !! i = Some e -> upd_entry i f w = Some (tt, upd_mvrp (<[i := f e]>) w).
Proof. intros H. unfold upd_entry, store. by rewrite H. Qed.

Lemma declare_run a w st :
  attrs (mrp w) !! a = Some st ->
  exists w', (_ ← mrp_mad_begin a; mrp_mad_join a true) w = Some (tt, w') /\ machine_frame w w' /\
    attrs (mrp w') = <[a := declared_anew st]> (attrs (mrp w)).
Proof.
  intros Hst. set (st0 := upd_leaveTimer (init_avb_timer 1) st).
  assert (attrs (mrp (set_attr a st0 w)) !! a = Some st0) as H0 by (by eapply lookup_set_attr).
  destruct (mrp_update_state_run MRP_EVENT_BEGIN a 0 (port_num st0) (set_attr a st0 w) st0)
    as (n1 & w1 & E1 & F1 & A1); [done|by intros [?|?]|done|].
  set (st1 := attr_step MRP_EVENT_BEGIN 0 n1 st0) in A1.
  assert (attrs (mrp w1) !! a = Some st1) as H1.
  { rewrite A1. apply list_lookup_insert_eq. by eapply lookup_lt_Some. }
  set (st2 := upd_remove_after_next_tx (fun _ => false) st1).
  assert (attrs (mrp (set_attr a st2 w1)) !! a = Some st2) as H2 by (by eapply lookup_set_attr).
  destruct (mrp_update_state_run MRP_EVENT_NEW a 0 (port_num st2) (set_attr a st2 w1) st2)
    as (n2 & w2 & E2 & F2 & A2); [done|by intros [?|?]|done|].
  exists w2. split; [|split].
  - erewrite M_bind_run.
    2: { unfold mrp_mad_begin. erewrite M_bind_run by exact (upd_st_run _ _ _ _ Hst).
         erewrite M_bind_run by exact (get_st_run _ _ _ H0). exact E1. }
    unfold mrp_mad_join. erewrite M_bind_run by exact (upd_st_run _ _ _ _ H1).
    by erewrite M_bind_run by exact (get_st_run _ _ _ H2).
  - etrans; [apply set_attr_frame|]. etrans; [exact F1|]. etrans; [apply set_attr_frame|exact F2].
  - rewrite A2. cbn. rewrite A1. cbn. rewrite !list_insert_insert_eq. f_equal.
    unfold st2, st1, st0, attr_step, leaveTimer_next, indication, declared_anew. cbn. by destruct (registrar_state st).
Qed.

(** The entry that [avb_join_vlan] takes: one that declares the VLAN already; if
    there is none, a free one; if there is none, one whose attribute only listens. *)
Definition to_join (w : world) (v port : Z) (i : nat) : Prop :=
  port_entry w port (declares v) i \/
  (forall k, ~ port_entry w port (declares v) k) /\
  (port_entry w port is_free i \/
   (forall k, ~ port_entry w port is_free k) /\ port_entry w port only_watches i).

Lemma join_search_run w v port :
  vlans_valid w ->
  exists r, vlan_entry_to_join v port w = Some (r, w) /\
    match r with Some i => to_join w v port i | None => forall i, ~ to_join w v port i end.
Proof.
  intros Hv. pose proof (proj1 Hv) as Hlen. unfold vlan_entry_to_join.
  destruct (find_vlan_run _ _ w (decides_declares w v port Hv) (seq 0 num_entries) None)
    as (r1 & E1 & H1); [intros i; rewrite elem_of_seq; lia|].
  destruct (first_entry_run _ _ w (decides_free w port Hv) Hlen) as (r2 & E2 & H2).
  destruct (first_entry_run _ _ w (decides_watches w port Hv) Hlen) as (r3 & E3 & H3).
  assert (forall P i, port_entry w port P i -> (i < num_entries)%nat) as Hlt
    by (intros P i; by apply port_entry_lt).
  erewrite M_bind_run by exact E1. destruct r1 as [i|].
  { exists (Some i). split; [done|]. left. by destruct H1 as [[_ ?]|?]. }
  assert (forall k, ~ port_entry w port (declares v) k) as Hno.
  { intros k Hk. destruct H1 as [_ H1]. apply (H1 k); [|done].
    apply elem_of_seq. apply Hlt in Hk. lia. }
  erewrite M_bind_run by exact E2. destruct r2 as [i|].
  { exists (Some i). split; [done|]. right. destruct H2. eauto. }
  assert (forall k, ~ port_entry w port is_free k) as Hfull by (intros k Hk; apply (H2 k); eauto).
  exists r3. split; [exact E3|]. destruct r3 as [i|].
  - right. destruct H3. eauto.
  - intros i [Hi|[_ [Hi|[_ Hi]]]]; [by apply (Hno i)|by apply (Hfull i)|apply (H3 i); eauto].
Qed.

(** [avb_join_vlan] takes the entry of the port that declares the VLAN
    already, or else a free one, or else one whose attribute only listens; the
    entry then carries the VLAN, its attribute is declared anew, every other entry
    and attribute stays as it was, and the result is true. Only if the port has no
    such entry is the result false, and then nothing has changed. In particular
    a VLAN the device declares is never displaced. *)
Theorem avb_join_vlan_spec v port w :
  vlans_valid w ->
  exists r w', avb_join_vlan v port w = Some (r, w') /\
    if r then
      exists i e a st, to_join w v port i /\ mvrp w !! i = Some e /\ e_attr e = Some a /\
        attrs (mrp w) !! a = Some st /\
        machine_frame (upd_mvrp (<[i := MkEntry true (Some a) v]>) w) w' /\
        attrs (mrp w') = <[a := declared_anew st]> (attrs (mrp w))
    else w' = w /\ forall i, ~ to_join w v port i.
Proof.
  intros Hv. destruct (join_search_run w v port Hv) as (r & E & Hr).
  destruct r as [i|].
  2: { exists false, w. split; [|done]. unfold avb_join_vlan.
       by erewrite M_bind_run by exact E. }
  assert (exists e a st, mvrp w !! i = Some e /\ e_attr e = Some a /\
    attrs (mrp w) !! a = Some st) as (e & a & st & He & Ha & Hst).
  { destruct Hr as [Hi|[_ [Hi|[_ Hi]]]]; destruct Hi as (e & a & st & ? & ? & ? & _); by exists e, a, st. }
  set (w1 := upd_mvrp (<[i := MkEntry true (Some a) v]>) w).
  destruct (declare_run a w1 st Hst) as (w' & E' & Hf & Hat).
  exists true, w'. split; [|by exists i, e, a, st].
  unfold avb_join_vlan. erewrite M_bind_run by exact E. cbv beta iota.
  erewrite M_bind_run by exact (upd_entry_run _ _ _ _ He).
  assert (i < length (mvrp w))%nat as Hlt by (by eapply lookup_lt_Some).
  rewrite (M_bind_run _ _ _ tt w1).
  2: { erewrite upd_entry_run by (cbn; by apply list_lookup_insert_eq).
       unfold w1, upd_mvrp. cbn. by rewrite list_insert_insert_eq, <- Ha. }
  erewrite M_bind_run by (apply get_entry_run; cbn; by apply list_lookup_insert_eq).
  erewrite M_bind_run by reflexivity.
  apply M_bind_Some in E' as ([] & w2 & E1 & E2).
  erewrite M_bind_run by exact E1. by erewrite M_bind_run by exact E2.
Qed.

(** An attribute whose declaration is withdrawn: only the applicant moves. *)
Definition withdraw (st : mrp_attribute_state) : mrp_attribute_state :=
  upd_applicant_state (applicant_next MRP_EVENT_LV) st.

Lemma mrp_mad_leave_run a w st :
  attrs (mrp w) !! a = Some st ->
  exists w', mrp_mad_leave a w = Some (tt, w') /\ machine_frame w w' /\
    attrs (mrp w') = <[a := withdraw st]> (attrs (mrp w)).
Proof.
  intros Hst.
  destruct (mrp_update_state_run MRP_EVENT_LV a 0 (port_num st) w st)
    as (n & w' & E & Hf & Ha); [done|by intros [?|?]|done|].
  exists w'. split; [|split; [exact Hf|]].
  - unfold mrp_mad_leave. by erewrite M_bind_run by exact (get_st_run _ _ _ Hst).
  - rewrite Ha. f_equal. unfold attr_step, leaveTimer_next, indication, withdraw. cbn.
    by destruct st as [? ? ? ? [] ? ? ? ? ? ? ?].
Qed.

(** [avb_leave_vlan] withdraws one entry that declares the VLAN - its
    attribute gets the leave request, and the entry becomes free - and changes
    nothing if there is none. (One entry, whatever its port: on a device with two
    ports the declaration on the other port stays.) *)
Theorem avb_leave_vlan_spec v w :
  vlans_valid w ->
  exists w', avb_leave_vlan v w = Some (tt, w') /\
    ((exists i e a st, mvrp w !! i = Some e /\ declares v e st /\ e_attr e = Some a /\
        attrs (mrp w) !! a = Some st /\ attrs (mrp w') = <[a := withdraw st]> (attrs (mrp w)) /\
        machine_frame (upd_mvrp (<[i := upd_e_active (fun _ => false) e]>) w) w') \/
     (w' = w /\ forall i e st, mvrp w !! i = Some e -> ~ declares v e st)).
Proof.
  intros [Hlen Hv].
  set (P := fun i => exists e, mvrp w !! i = Some e /\ e_active e && (vlan e =? v) = true).
  assert (decides (fun e => mret (e_active e && (vlan e =? v))) P w) as Hd.
  { intros i e He. eexists. split; [reflexivity|]. unfold P. naive_solver. }
  destruct (find_vlan_run _ P w Hd (seq 0 num_entries) None)
    as (r & E & Hr); [intros i; rewrite elem_of_seq; lia|].
  unfold avb_leave_vlan. erewrite M_bind_run by exact E. cbv beta. destruct r as [i|].
  - destruct Hr as [[_ (e & He & Ht)]|Hr]; [|done].
    apply andb_true_iff in Ht as [Hact Hvl%Z.eqb_eq].
    destruct (Hv i e He) as (a & st & Ha & Hst).
    destruct (mrp_mad_leave_run a w st Hst) as (w1 & E1 & Hf & Hat).
    erewrite M_bind_run by exact (get_entry_run _ _ _ He). rewrite Ha.
    erewrite M_bind_run by reflexivity. erewrite M_bind_run by exact E1.
    assert (mvrp w1 !! i = Some e) as He1 by (destruct Hf as [-> _]; done).
    eexists. split; [exact (upd_entry_run _ _ _ _ He1)|]. left.
    exists i, e, a, st. split_and!; try done. destruct Hf as (Hf & ? & ? & ? & ?).
    split_and!; try done. rewrite Hf. unfold upd_mvrp. cbn. f_equal.
  - eexists. split; [reflexivity|]. right. split; [done|]. intros i e st He [Hact Hvl].
    destruct Hr as [_ Hr]. apply (Hr i).
    + apply elem_of_seq. apply lookup_lt_Some in He. lia.
    + exists e. split; [done|]. by rewrite Hact, Hvl, Z.eqb_refl.
Qed.
End VlanSpec.

#[local] Existing Instance default_config.

Lemma sample_vlans_valid : vlans_valid sample_world.
Proof.
  split; [reflexivity|]. intros [|[|i]] e He; [| |discriminate He]; injection He as <-.
  - exists 3%nat. eexists. by split.
  - exists 4%nat. eexists. by split.
Qed.

(** VLAN 7 gets the free entry 1. *)
Lemma avb_join_vlan_spec_witness :
  vlans_valid sample_world /\
  exists w', avb_join_vlan 7 0 sample_world = Some (true, w') /\
    map vlan (mvrp w') = [2; 7].
Proof.
  split; [exact sample_vlans_valid|].
  destruct (@avb_join_vlan_spec default_config 7 0 sample_world sample_vlans_valid) as (r & w' & E & H).
  assert (fst <$> avb_join_vlan 7 0 sample_world = Some true) as Hr by (vm_compute; reflexivity).
  rewrite E in Hr. cbn in Hr. injection Hr as ->.
  exists w'. split; [exact E|].
  assert (map vlan ∘ mvrp <$> (snd <$> avb_join_vlan 7 0 sample_world) = Some [2; 7]) as Hv
    by (vm_compute; reflexivity).
  rewrite E in Hv. by injection Hv.
Defined.

Lemma avb_leave_vlan_spec_witness :
  vlans_valid sample_world /\
  exists w', avb_leave_vlan 2 sample_world = Some (tt, w') /\ w' <> sample_world.
Proof.
  split; [exact sample_vlans_valid|].
  destruct (@avb_leave_vlan_spec default_config 2 sample_world sample_vlans_valid)
    as (w' & E & [(i & e & a & st & He & [Hact _] & _ & _ & _ & Hf)|[-> H]]).
  - exists w'. split; [exact E|]. intros ->. destruct Hf as [Hf _].
    apply (f_equal (fun w => e_active <$> mvrp w !! i)) in Hf. cbn in Hf.
    rewrite list_lookup_insert_eq in Hf by (by eapply lookup_lt_Some).
    pose proof He as He'. cbn in He'. rewrite He' in Hf. cbn in Hf. rewrite Hact in Hf. discriminate Hf.
  - exfalso. by apply (H 0%nat (MkEntry true (Some 3%nat) 2) zero_attr).
Defined.
