(* ===== verification/AvbApp.v ===== *)
(** What the SRP stack asks of the AVB manager: the queries and settings of
    [lib_tsn/src/avb/avb.xc] and of the client interface in [lib_tsn/api/avb.h]
    that [avb_srp.c] calls. *)
From S2P Require Import Prelude MrpTypes.
From stdpp Require Import base list numbers.
From Stdlib Require Import ZArith Lia.
#[local] Open Scope Z_scope.

Section App.
  Context `{cfg : Config}.

(** [None] is the result [-1u]. *)
Definition avb_get_source_stream_index_from_stream_id (stream_id : Z * Z) : SM (option nat) :=
  forM_until (seq 0 AVB_NUM_SOURCES) (fun i =>
    s ← load (fun w => sources (env w) !! i);
    mret (if (stream_id.1 =? src_stream_id0 s) && (stream_id.2 =? src_stream_id1 s)
          then Some i else None)).

Definition avb_get_sink_stream_index_from_stream_id (stream_id : Z * Z) : SM (option nat) :=
  forM_until (seq 0 AVB_NUM_SINKS) (fun i =>
    s ← load (fun w => sinks (env w) !! i);
    mret (if (stream_id.1 =? snk_stream_id0 s) && (stream_id.2 =? snk_stream_id1 s)
          then Some i else None)).

(** No pointer the stack keeps in [attribute_info] is the address of a sink. *)
Definition avb_get_sink_stream_index_from_pointer (p : info_ptr) : SM (option nat) :=
  match p with
  | InfoNull | InfoStream _ | InfoVlan _ => mret None
  end.

Definition set_avb_source_port (source_num : nat) (srcport : Z) : SM unit :=
  if (source_num <? AVB_NUM_SOURCES)%nat then emit (SetSourcePort source_num srcport) else skip.

Definition get_source (i : nat) : SM avb_source_info_t := load (fun w => sources (env w) !! i).
Definition upd_source (i : nat) (f : avb_source_info_t -> avb_source_info_t) : SM unit :=
  store (fun w => match sources (env w) !! i with
                  | Some s => Some (upd_env (upd_sources (<[i := f s]>)) w)
                  | None => None
                  end).
Definition get_sink (i : nat) : SM avb_sink_info_t := load (fun w => sinks (env w) !! i).
Definition upd_sink (i : nat) (f : avb_sink_info_t -> avb_sink_info_t) : SM unit :=
  store (fun w => match sinks (env w) !! i with
                  | Some s => Some (upd_env (upd_sinks (<[i := f s]>)) w)
                  | None => None
                  end).

(** The indices the stack passes are below [AVB_NUM_SOURCES], so the functions
    do not take their error return. *)
Definition avb_get_source_state (source_num : nat) : SM avb_source_state_t :=
  s ← get_source source_num; mret (src_state s).

Definition avb_set_source_state (source_num : nat) (state : avb_source_state_t) : SM unit :=
  _ ← upd_source source_num (upd_src_state (fun _ => state));
  emit (SetSourceState source_num state).

Definition avb_get_source_vlan (source_num : nat) : SM Z :=
  s ← get_source source_num; mret (src_vlan s).

Definition avb_set_source_vlan (source_num : nat) (v : Z) : SM unit :=
  _ ← upd_source source_num (upd_src_vlan (fun _ => s16 v));
  emit (SetSourceVlan source_num v).

Definition avb_get_sink_vlan (sink_num : nat) : SM Z :=
  s ← get_sink sink_num; mret (snk_vlan s).

(** The VLAN of a sink is only set while it is disabled. *)
Definition avb_set_sink_vlan (sink_num : nat) (v : Z) : SM unit :=
  s ← get_sink sink_num;
  if decide (snk_state s = AVB_SINK_STATE_DISABLED) then
    _ ← upd_sink sink_num (upd_snk_vlan (fun _ => s16 v));
    emit (SetSinkVlan sink_num v)
  else skip.
End App.
