(* ===== verification/SrpApp.v ===== *)
(** The MSRP application of [lib_tsn/src/srp/avb_srp.c]: the registration
    requests of the AVB manager, the indications of the MRP state machines, the
    matching of received attributes, and the propagation of attributes between
    the ports of a two-port device. *)
From S2P Require Import Prelude Bytes MiscTimer MrpTypes MrpMatch SrpTable MrpPdu SrpEncode MrpCore MvrpVlan AvbApp.
From stdpp Require Import base list list_numbers numbers.
From Stdlib Require Import ZArith Lia.
#[local] Open Scope Z_scope.

Section Srp.
  Context `{cfg : Config}.

Definition two_ports : bool := (MRP_NUM_PORTS =? 2)%nat.
Definition one_port : bool := (MRP_NUM_PORTS =? 1)%nat.

(** [!port_num] *)
Definition other_port (port : Z) : Z := if port =? 0 then 1 else 0.

Definition set_domain_attr (i : Z) (a : option nat) : SM unit :=
  port_set (fun w => domain_attr (srp w)) (fun f => upd_srp (upd_domain_attr f)) i a.
Definition set_boundary (i : Z) (x : bool) : SM unit :=
  port_set (fun w => srp_domain_boundary_port (srp w))
    (fun f => upd_srp (upd_srp_domain_boundary_port f)) i x.
Definition get_domain_vlan : SM Z := gets (fun w => current_vlan_id_from_domain (srp w)).
Definition set_domain_vlan (v : Z) : SM unit :=
  modify (upd_srp (upd_current_vlan_id_from_domain (fun _ => v))).

Definition srp_domain_init : SM unit :=
  _ ← forM ports (fun i =>
    a ← mrp_get_attr;
    _ ← set_domain_attr i a;
    _ ← mrp_attribute_init a MSRP_DOMAIN_VECTOR i true InfoNull;
    set_boundary i true);
  set_domain_vlan AVB_DEFAULT_VLAN.

Definition srp_domain_join : SM unit :=
  forM ports (fun i =>
    a ← port_get (fun w => domain_attr (srp w)) i;
    p ← deref a;
    _ ← mrp_mad_begin p;
    mrp_mad_join p true).

(** * Propagation between ports *)

Definition create_propagated_attribute_and_join (attr : nat) (new : bool) : SM unit :=
  st ← mrp_get_attr;
  a ← get_st attr;
  let stream_data := attribute_info a in
  _ ← mrp_attribute_init st (attribute_type a) (other_port (port_num a)) false stream_data;
  p ← deref st;
  _ ← mrp_mad_begin p;
  _ ← mrp_mad_join p new;
  upd_st p (upd_propagated (fun _ => true)).

(** [stream_table[entry].bw_reserved[port]] for a C [int] index [entry]. *)
Definition get_bw (entry port : Z) : SM bool := i ← stream_index entry; bw_reserved_get i port.
Definition set_bw (entry port : Z) (x : bool) : SM unit :=
  i ← stream_index entry; bw_reserved_set i port x.

(** The reservation an attribute refers to, and its stream identifier. *)
Definition reservation_of (p : nat) : SM avb_srp_info_t :=
  a ← get_st p; s ← deref_stream (attribute_info a); mret (reservation s).
Definition id_of (r : avb_srp_info_t) : Z * Z := (stream_id0 r, stream_id1 r).

Definition avb_srp_map_join (attr : nat) (new listener : bool) : SM unit :=
  matched_talker_listener ← mrp_match_attribute_pair_by_stream_id attr true false;
  matched_stream_id_opposite_port ← mrp_match_attr_by_stream_and_type attr true false;
  mtl ← match matched_talker_listener with
        | Some m => st ← get_st m; mret (Some st)
        | None => mret None
        end;
  _ ← match matched_stream_id_opposite_port, listener with
      | None, false => create_propagated_attribute_and_join attr new
      | None, true =>
          match mtl with
          | Some st => whenM (negb (propagated st) && negb (here st))
                         (create_propagated_attribute_and_join attr new)
          | None => skip
          end
      | Some _, _ => skip
      end;
  mtl ← match matched_talker_listener with
        | Some m => st ← get_st m; mret (Some st)
        | None => mret None
        end;
  _ ← match mtl with
      | Some st =>
          whenM (listener && negb (propagated st) && negb (here st))
            (info ← reservation_of attr;
             a ← get_st attr;
             entry ← srp_match_reservation_entry_by_id (id_of info);
             b ← get_bw entry (port_num a);
             _ ← whenM (negb b)
                  (_ ← set_bw entry (port_num a) true;
                   _ ← srp_increase_port_bandwidth (tspec_max_frame_size info) 1 (port_num a);
                   avb_1722_enable_stream_forwarding (id_of info));
             match matched_stream_id_opposite_port with
             | Some m => _ ← mrp_mad_join m true; upd_st m (upd_propagated (fun _ => true))
             | None => skip
             end)
      | None => skip
      end;
  match listener, matched_stream_id_opposite_port with
  | false, Some m => _ ← mrp_mad_join m true; upd_st m (upd_propagated (fun _ => true))
  | _, _ => skip
  end.

Definition map_leave_listener (attr : nat) (matched_talker_listener
    matched_stream_id_opposite_port : option nat) : SM unit :=
  info ← reservation_of attr;
  entry ← srp_match_reservation_entry_by_id (id_of info);
  match matched_stream_id_opposite_port, matched_talker_listener with
  | Some m, Some t =>
      talker ← get_st t;
      whenM (negb (here talker))
        (a ← get_st attr;
         b ← get_bw entry (port_num a);
         whenM b
           (_ ← srp_decrease_port_bandwidth (tspec_max_frame_size info) 1 (port_num a);
            _ ← avb_1722_disable_stream_forwarding (id_of info);
            _ ← set_bw entry (port_num a) false;
            opp ← get_st m;
            _ ← whenM (propagated opp && negb (here opp)) (mrp_mad_leave m);
            mrp_change_applicant_state attr MRP_EVENT_DUMMY MRP_UNUSED))
  | _, _ => skip
  end.

Definition map_leave_talker (attr : nat) (matched_talker_listener
    matched_stream_id_opposite_port : option nat) : SM unit :=
  info ← reservation_of attr;
  entry ← srp_match_reservation_entry_by_id (id_of info);
  _ ← match matched_talker_listener with
      | Some l =>
          listener ← get_st l;
          b ← get_bw entry (port_num listener);
          whenM b
            (_ ← srp_decrease_port_bandwidth (tspec_max_frame_size info) 1 (port_num listener);
             _ ← avb_1722_disable_stream_forwarding (id_of info);
             set_bw entry (port_num listener) false)
      | None => skip
      end;
  _ ← match matched_stream_id_opposite_port with
      | Some m => mrp_mad_leave m
      | None => skip
      end;
  matched_listener_this_port ← mrp_match_attribute_pair_by_stream_id attr false false;
  match matched_listener_this_port with
  | Some l => mrp_mad_leave l
  | None => skip
  end.

Definition avb_srp_map_leave (attr : nat) : SM unit :=
  matched_talker_listener ← mrp_match_attribute_pair_by_stream_id attr true false;
  matched_stream_id_opposite_port ← mrp_match_attr_by_stream_and_type attr true false;
  a ← get_st attr;
  if same_type (attribute_type a) MSRP_LISTENER then
    map_leave_listener attr matched_talker_listener matched_stream_id_opposite_port
  else if is_talker (attribute_type a) then
    map_leave_talker attr matched_talker_listener matched_stream_id_opposite_port
  else skip.

(** * Matching of received first values

    [fv] is the offset of the first value in the received packet, [i] the
    position of the value in the vector. *)

Definition rx_ntoh_16 (off : Z) : SM Z := a ← rx off; b ← rx (off + 1); mret (ntoh_16 a b).
Definition rx_ntoh_32 (off : Z) : SM Z :=
  a ← rx off; b ← rx (off + 1); c ← rx (off + 2); d ← rx (off + 3); mret (ntoh_32 a b c d).

(** The destination address the sources compute from the packet's in an
    accumulator [x] that starts uninitialised ([x0]): the value plus [i], taken
    apart again with [byterev] and [memcpy]. *)
Definition dest_mac_of (x0 : Z) (bs : list Z) (i : Z) : list Z :=
  let x := u64 (be_accum x0 bs + i) in
  le_bytes 2 (Z.shiftr (byterev (Z.shiftr x 32)) 16) ++ le_bytes 4 (byterev x).

(** The fields of a talker's first value. *)
Definition rx_talker_fields (fv i : Z) (r : avb_srp_info_t) : SM avb_srp_info_t :=
  x0 ← gets (fun w => stack_junk (env w));
  v ← rx_ntoh_16 (fv + off_VlanID);
  bs ← rx_bytes 6 (fv + off_DestMacAddr);
  size ← rx_ntoh_16 (fv + off_TSpecMaxFrameSize);
  interval ← rx_ntoh_16 (fv + off_TSpecMaxIntervalFrames);
  ts ← rx (fv + off_TSpec);
  lat ← rx_ntoh_32 (fv + off_AccumulatedLatency);
  mret (MkSrpInfo (stream_id0 r) (stream_id1 r) (dest_mac_of x0 bs i) v size interval ts (u32 lat)
          (failure_bridge_id r) (failure_code r)).

(** The stream identifier of the [i]th value, in an accumulator from [x0]. *)
Definition rx_stream_id (x0 fv i : Z) : SM Z :=
  bs ← rx_bytes 8 (fv + off_StreamId);
  mret (u64 (be_accum x0 bs + i)).

(** What [avb_srp_match_talker_advertise] does, on a device with one port, for
    the stream of the attribute [p] that refers to the entry [e]; it gives
    [false] where the function returns 0 early. *)
Definition talker_advertise_one_port (p e : nat) (fv i : Z) (failed : bool)
    (sr_class_priority : Z) : SM bool :=
  if negb (sr_class_priority =? AVB_SRP_TSPEC_PRIORITY_DEFAULT) then
    _ ← upd_stream e (upd_reservation_failed (fun _ => true));
    mret false
  else
    _ ← (if failed then
           _ ← upd_st p (upd_attribute_type (fun _ => MSRP_TALKER_FAILED));
           _ ← upd_stream e (upd_reservation_failed (fun _ => true));
           bridge ← rx_bytes 8 (fv + off_FailureBridgeId);
           _ ← upd_stream e (upd_reservation (upd_failure_bridge_id (fun _ => bridge)));
           code ← rx (fv + off_FailureCode);
           upd_stream e (upd_reservation (upd_failure_code (fun _ => code)))
         else
           _ ← upd_st p (upd_attribute_type (fun _ => MSRP_TALKER_ADVERTISE));
           s ← get_stream e;
           _ ← whenM (reservation_failed s)
                (_ ← upd_stream e (upd_reservation (upd_failure_bridge_id (fun _ => replicate 8 0)));
                 rx_wr (fv + off_FailureCode) 0);
           upd_stream e (upd_reservation_failed (fun _ => false)));
    s ← get_stream e;
    _ ← whenM (negb (talker_present s))
         (r ← rx_talker_fields fv i (reservation s);
          _ ← upd_stream e (upd_reservation (fun _ => r));
          _ ← srp_add_reservation_entry r;
          skip);
    mret true.

Definition avb_srp_match_talker_advertise (p : nat) (fv i : Z) (leave_all failed : bool) : SM bool :=
  st ← get_st p;
  if decide (attribute_info st = InfoNull) then mret false
  else
    e ← stream_of (attribute_info st);
    s ← get_stream e;
    let my_stream_id := id64 (reservation s) in
    stream_id ← rx_stream_id 0 fv i;
    ts ← rx (fv + off_TSpec);
    let sr_class_priority := Z.land (Z.shiftr ts 5) 7 in
    ok ← (if one_port && (negb leave_all && (my_stream_id =? stream_id))
          then talker_advertise_one_port p e fv i failed sr_class_priority
          else mret true);
    mret (ok && (my_stream_id =? stream_id)).

Definition avb_srp_match_listener (p : nat) (fv i four_packed_event : Z) : SM bool :=
  st ← get_st p;
  if decide (attribute_info st = InfoNull) then mret false
  else if four_packed_event =? AVB_SRP_FOUR_PACKED_EVENT_IGNORE then mret false
  else
    s ← deref_stream (attribute_info st);
    stream_id ← rx_stream_id 0 fv i;
    mret (id64 (reservation s) =? stream_id).

Definition avb_srp_match_domain (p : nat) (fv i : Z) : SM bool :=
  a ← rx (fv + off_SRclassID);
  b ← rx (fv + off_SRclassPriority);
  let sr_class_id := u8 (a + i) in
  let sr_class_priority := u8 (b + i) in
  v ← rx_ntoh_16 (fv + off_SRclassVID);
  let sr_class_vid := u16 v in
  if (sr_class_id =? AVB_SRP_SRCLASS_DEFAULT) &&
     (sr_class_priority =? AVB_SRP_TSPEC_PRIORITY_DEFAULT) then
    cur ← get_domain_vlan;
    _ ← whenM (negb (cur =? sr_class_vid)) (set_domain_vlan sr_class_vid);
    mret true
  else mret false.

(** * Indications *)

Definition avb_srp_listener_join_ind (attr : nat) (new : bool) (four_packed_event : Z) : SM unit :=
  info ← reservation_of attr;
  stream ← avb_get_source_stream_index_from_stream_id (id_of info);
  _ ← whenM two_ports (avb_srp_map_join attr new true);
  match stream with
  | None => skip
  | Some stream =>
      state ← avb_get_source_state stream;
      info ← reservation_of attr;
      entry ← srp_match_reservation_entry_by_id (id_of info);
      a ← get_st attr;
      other ← (if two_ports then mrp_match_attr_by_stream_and_type attr true false else mret None);
      enable_stream ←
        match other with
        | Some _ =>
            b ← get_bw entry (other_port (port_num a));
            b' ← (if (b : bool) then get_bw entry (port_num a) else mret true);
            if (b' : bool) then mret false
            else
              _ ← srp_increase_port_bandwidth (tspec_max_frame_size info) 0 (port_num a);
              _ ← set_avb_source_port stream (-1);
              _ ← set_bw entry (port_num a) true;
              mret true
        | None =>
            m ← mrp_match_type_non_prop_attribute MSRP_TALKER_ADVERTISE (id_of info) (port_num a);
            match m with
            | Some _ =>
                b ← get_bw entry (port_num a);
                _ ← (if (b : bool) then set_avb_source_port stream (port_num a)
                     else
                       _ ← srp_increase_port_bandwidth (tspec_max_frame_size info) 0 (port_num a);
                       _ ← set_avb_source_port stream (port_num a);
                       set_bw entry (port_num a) true);
                mret true
            | None => mret false
            end
        end;
      whenM (enable_stream && bool_decide (state = AVB_SOURCE_STATE_POTENTIAL) &&
             ((four_packed_event =? AVB_SRP_FOUR_PACKED_EVENT_READY) ||
              (four_packed_event =? AVB_SRP_FOUR_PACKED_EVENT_READY_FAILED)))
        (avb_set_source_state stream AVB_SOURCE_STATE_ENABLED)
  end.

Definition avb_srp_listener_leave_ind (attr : nat) (four_packed_event : Z) : SM unit :=
  info ← reservation_of attr;
  stream ← avb_get_source_stream_index_from_stream_id (id_of info);
  matched_listener_opposite_port ← mrp_match_attr_by_stream_and_type attr true false;
  entry ← srp_match_reservation_entry_by_id (id_of info);
  _ ← whenM two_ports (avb_srp_map_leave attr);
  match stream with
  | None => skip
  | Some stream =>
      info ← reservation_of attr;
      a ← get_st attr;
      b ← get_bw entry (port_num a);
      _ ← whenM b
           (_ ← srp_decrease_port_bandwidth (tspec_max_frame_size info) 0 (port_num a);
            _ ← match matched_listener_opposite_port with
                | Some _ => set_avb_source_port stream (other_port (port_num a))
                | None => skip
                end;
            set_bw entry (port_num a) false);
      state ← avb_get_source_state stream;
      whenM (bool_decide (state = AVB_SOURCE_STATE_ENABLED) &&
             negb (bool_decide (is_Some matched_listener_opposite_port)))
        (_ ← avb_set_source_state stream AVB_SOURCE_STATE_POTENTIAL;
         b ← get_bw entry (port_num a);
         whenM b
           (_ ← srp_decrease_port_bandwidth (tspec_max_frame_size info) 0 (port_num a);
            set_bw entry (port_num a) false))
  end.

Definition avb_srp_domain_join_ind (attr : nat) (new : bool) : SM unit :=
  a ← get_st attr;
  _ ← set_boundary (port_num a) false;
  _ ← forM (seq 0 AVB_NUM_SOURCES) (fun i =>
    current_set_vlan ← avb_get_source_vlan i;
    whenM (current_set_vlan =? 0) (v ← get_domain_vlan; avb_set_source_vlan i v));
  forM (seq 0 AVB_NUM_SINKS) (fun i =>
    current_set_vlan ← avb_get_sink_vlan i;
    whenM (current_set_vlan =? 0) (v ← get_domain_vlan; avb_set_sink_vlan i v)).

Definition avb_srp_domain_leave_ind (attr : nat) : SM unit :=
  a ← get_st attr; set_boundary (port_num a) true.

Definition avb_srp_talker_join_ind (attr : nat) (new : bool) : SM unit :=
  if two_ports then
    info ← reservation_of attr;
    stream ← avb_get_sink_stream_index_from_stream_id (id_of info);
    matched_listener_this_port ← mrp_match_attribute_pair_by_stream_id attr false true;
    _ ← match stream, matched_listener_this_port with
        | Some _, Some l =>
            st ← get_st l;
            whenM (here st)
              (opposite ← mrp_match_attribute_pair_by_stream_id attr true true;
               _ ← match opposite with
                   | Some o => mrp_change_applicant_state o MRP_EVENT_DUMMY MRP_UNUSED
                   | None => skip
                   end;
               _ ← mrp_mad_begin l;
               mrp_mad_join l true)
        | _, _ => skip
        end;
    avb_srp_map_join attr new false
  else skip.

Definition avb_srp_talker_leave_ind (attr : nat) : SM unit :=
  a ← get_st attr;
  if two_ports then
    stream ← avb_get_sink_stream_index_from_pointer (attribute_info a);
    match stream with
    | Some _ => skip
    | None => avb_srp_map_leave attr
    end
  else
    i ← stream_of (attribute_info a);
    upd_stream i (upd_talker_present (fun _ => false)).
End Srp.

Section Requests.
  Context `{cfg : Config}.

(** [m1 = match(ADVERTISE); if (!m1) m1 = match(FAILED)] *)
Definition match_talker (stream_id : Z * Z) (port : Z) : SM (option nat) :=
  m ← mrp_match_type_non_prop_attribute MSRP_TALKER_ADVERTISE stream_id port;
  match m with
  | Some t => mret (Some t)
  | None => mrp_match_type_non_prop_attribute MSRP_TALKER_FAILED stream_id port
  end.

Definition avb_srp_leave_talker_attrs (stream_id : Z * Z) : SM unit :=
  forM ports (fun i =>
    matched_talker ← match_talker stream_id i;
    _ ← match matched_talker with Some t => mrp_mad_leave t | None => skip end;
    whenM one_port
      (matched_listener ← mrp_match_type_non_prop_attribute MSRP_LISTENER stream_id 0;
       match matched_listener with
       | Some l => _ ← upd_st l (upd_here (fun _ => false)); mrp_mad_leave l
       | None => skip
       end)).

Definition avb_srp_create_and_join_talker_advertise_attrs (r : avb_srp_info_t) : SM Z :=
  stream_ptr ← srp_add_reservation_entry r;
  _ ← match stream_ptr with
      | None => skip
      | Some e =>
          forM ports (fun i =>
            matched_talker ← match_talker (id_of r) i;
            _ ← whenM (vlan_id r =? 0)
                 (v ← get_domain_vlan;
                  upd_stream e (upd_reservation (upd_vlan_id (fun _ => s16 v))));
            s ← get_stream e;
            _ ← avb_join_vlan (vlan_id (reservation s)) i;
            _ ← match matched_talker with
                | None =>
                    talker_attr ← mrp_get_attr;
                    match talker_attr with
                    | Some t =>
                        _ ← mrp_attribute_init (Some t) MSRP_TALKER_ADVERTISE i true (InfoStream e);
                        _ ← mrp_mad_begin t;
                        mrp_mad_join t true
                    | None => skip
                    end
                | Some t => mrp_mad_join t true
                end;
            whenM one_port
              (matched_listener ← mrp_match_type_non_prop_attribute MSRP_LISTENER (id_of r) i;
               match matched_listener with
               | None =>
                   listener_attr ← mrp_get_attr;
                   match listener_attr with
                   | Some l =>
                       _ ← mrp_attribute_init (Some l) MSRP_LISTENER i false (InfoStream e);
                       mrp_mad_begin l
                   | None => skip
                   end
               | Some _ => skip
               end))
      end;
  e ← deref stream_ptr;
  s ← get_stream e;
  mret (vlan_id (reservation s)).

Definition avb_srp_leave_listener_attrs (stream_id : Z * Z) : SM unit :=
  if two_ports then
    matched_talker ← match_talker stream_id (-1);
    match matched_talker with
    | None => skip
    | Some t =>
        matched_listener_opposite_port ← mrp_match_attribute_pair_by_stream_id t true false;
        matched_listener_this_port ← mrp_match_attribute_pair_by_stream_id t false false;
        match matched_listener_opposite_port, matched_listener_this_port with
        | Some _, Some l => upd_st l (upd_here (fun _ => false))
        | None, Some l => _ ← upd_st l (upd_here (fun _ => false)); mrp_mad_leave l
        | _, None => skip
        end
    end
  else
    matched_listener ← mrp_match_type_non_prop_attribute MSRP_LISTENER stream_id 0;
    matched_talker ← match_talker stream_id 0;
    _ ← match matched_listener with
        | Some l => _ ← upd_st l (upd_here (fun _ => false)); mrp_mad_leave l
        | None => skip
        end;
    match matched_talker with
    | Some t =>
        _ ← upd_st t (upd_here (fun _ => false));
        upd_st t (upd_remove_after_next_tx (fun _ => true))
    | None => skip
    end.

(** The case that a Talker Advertise has been registered. *)
Definition join_listener_matched (t : nat) (vid_to_join : Z) : SM unit :=
  same ← mrp_match_attribute_pair_by_stream_id t false false;
  same ← match same with
         | Some l => mret (Some l)
         | None =>
             l ← mrp_get_attr;
             match l with
             | None => mret None
             | Some l =>
                 ta ← get_st t;
                 _ ← avb_join_vlan vid_to_join (port_num ta);
                 ta ← get_st t;
                 _ ← mrp_attribute_init (Some l) MSRP_LISTENER (port_num ta) true (attribute_info ta);
                 _ ← mrp_mad_begin l;
                 mret (Some l)
             end
         end;
  match same with
  | None => skip
  | Some l =>
      la ← get_st l;
      _ ← avb_join_vlan vid_to_join (port_num la);
      _ ← whenM two_ports (upd_st l (upd_here (fun _ => true)));
      mrp_mad_join l true
  end.

(** The case that neither a Talker Advertise nor a Talker Failed has been. *)
Definition join_listener_early (stream_id : Z * Z) (vid_to_join : Z) : SM unit :=
  stream_ptr ← srp_add_reservation_entry_stream_id_only stream_id;
  match stream_ptr with
  | None => skip
  | Some e =>
      forM ports (fun i =>
        matched_listener ← mrp_match_type_non_prop_attribute MSRP_LISTENER stream_id i;
        _ ← avb_join_vlan vid_to_join i;
        _ ← match matched_listener with
            | None =>
                listener_attr ← mrp_get_attr;
                match listener_attr with
                | Some l =>
                    _ ← mrp_attribute_init (Some l) MSRP_LISTENER i true (InfoStream e);
                    whenM one_port (_ ← mrp_mad_begin l; mrp_mad_join l true)
                | None => skip
                end
            | Some l => whenM one_port (mrp_mad_join l true)
            end;
        whenM one_port
          (talker_attr ← mrp_get_attr;
           match talker_attr with
           | Some t =>
               _ ← mrp_attribute_init (Some t) MSRP_TALKER_ADVERTISE i false (InfoStream e);
               mrp_mad_begin t
           | None => skip
           end))
  end.

Definition avb_srp_join_listener_attrs (stream_id : Z * Z) (vlan_id' : Z) : SM Z :=
  matched_talker_advertise ← mrp_match_type_non_prop_attribute MSRP_TALKER_ADVERTISE stream_id (-1);
  matched_talker_failed ← mrp_match_type_non_prop_attribute MSRP_TALKER_FAILED stream_id (-1);
  dv ← get_domain_vlan;
  let vid_to_join := if vlan_id' =? 0 then s16 dv else vlan_id' in
  _ ← match matched_talker_advertise, matched_talker_failed with
      | Some t, _ => join_listener_matched t vid_to_join
      | None, None => join_listener_early stream_id vid_to_join
      | None, Some _ => skip
      end;
  mret vid_to_join.

(** The accumulators of the stream identifier and of the destination address,
    and the fields of [reservation] that no case sets, start uninitialised. *)
Definition avb_srp_process_new_attribute_from_packet (mrp_attribute_type : mrp_attribute_type)
    (fv num port : Z) : SM (option nat) :=
  x0 ← gets (fun w => stack_junk (env w));
  streamId ← rx_stream_id x0 fv num;
  let pdu_streamId := (Z.shiftr streamId 32, u32 streamId) in
  stream_ptr ←
    match mrp_attribute_type with
    | MSRP_TALKER_ADVERTISE | MSRP_TALKER_FAILED =>
        r ← rx_talker_fields fv num (set_stream_id pdu_streamId zero_srp_info);
        srp_add_reservation_entry r
    | MSRP_LISTENER => srp_add_reservation_entry_stream_id_only pdu_streamId
    | _ => mret None
    end;
  match stream_ptr with
  | Some e =>
      st ← mrp_get_attr;
      _ ← mrp_attribute_init st mrp_attribute_type port false (InfoStream e);
      mret st
  | None => mret None
  end.
End Requests.
