(* ===== verification/MrpRx.v ===== *)
(** Reception of MRP packets: [avb_mrp_process_packet] and what it calls
    ([lib_tsn/src/srp/avb_mrp.c]).  Offsets are into [rx_buf], which starts with
    the MRP header of the packet. *)
From S2P Require Import Prelude Bytes MiscTimer MrpTypes MrpMatch SrpTable MrpPdu SrpEncode.
From S2P Require Import MrpCore MvrpVlan AvbApp SrpApp.
From stdpp Require Import base list list_numbers numbers.
From Stdlib Require Import ZArith Lia.
#[local] Open Scope Z_scope.

Section Rx.
  Context `{cfg : Config}.

Definition mrp_in (three_packed_event four_packed_event : Z) (p : nat) (port : Z) : SM unit :=
  if three_packed_event =? MRP_ATTRIBUTE_EVENT_NEW then
    mrp_update_state MRP_EVENT_RECEIVE_NEW p four_packed_event port
  else if three_packed_event =? MRP_ATTRIBUTE_EVENT_JOININ then
    mrp_update_state MRP_EVENT_RECEIVE_JOININ p four_packed_event port
  else if three_packed_event =? MRP_ATTRIBUTE_EVENT_IN then
    mrp_update_state MRP_EVENT_RECEIVE_IN p four_packed_event port
  else if three_packed_event =? MRP_ATTRIBUTE_EVENT_JOINMT then
    mrp_update_state MRP_EVENT_RECEIVE_JOINMT p four_packed_event port
  else if three_packed_event =? MRP_ATTRIBUTE_EVENT_MT then
    mrp_update_state MRP_EVENT_RECEIVE_MT p four_packed_event port
  else if three_packed_event =? MRP_ATTRIBUTE_EVENT_LV then
    mrp_update_state MRP_EVENT_RECEIVE_LEAVE p four_packed_event port
  else skip.

(** The comparison [attribute_type <= MSRP_TALKER_FAILED] selects the two
    talker types. *)
Definition match_attribute_of_same_type (attr_type : option mrp_attribute_type) (p : nat)
    (msg i three_packed_event four_packed_event port : Z) (leave_all : bool) : SM bool :=
  st ← get_st p;
  if is_unused st || is_disabled st then mret false
  else if negb (port_num st =? port) then mret false
  else
    match attr_type with
    | None => mret false
    | Some t =>
        if negb (is_talker (attribute_type st) && is_talker t) &&
           negb (same_type (attribute_type st) t)
        then mret false
        else
          match t with
          | MSRP_TALKER_ADVERTISE => avb_srp_match_talker_advertise p msg i leave_all false
          | MSRP_TALKER_FAILED => avb_srp_match_talker_advertise p msg i leave_all true
          | MSRP_LISTENER => avb_srp_match_listener p msg i four_packed_event
          | MSRP_DOMAIN_VECTOR => avb_srp_match_domain p msg i
          | MVRP_VID_VECTOR => avb_mvrp_match_vid_vector p msg i
          | _ => mret false
          end
    end.

(** The length field of the message header at [hdr] of the received packet. *)
Definition rx_attribute_list_length (hdr : Z) : SM Z :=
  a ← rx (hdr + 2);
  b ← rx (hdr + 3);
  mret (Z.shiftl a 8 + b).

(** [msg < end && (msg[0]!=0 || msg[1]!=0)] *)
Definition rx_more (msg end' : Z) : SM bool :=
  if msg <? end' then
    a ← rx msg;
    if negb (a =? 0) then mret true
    else b ← rx (msg + 1); mret (negb (b =? 0))
  else mret false.

(** The loop over the attributes for one value of a vector; whether any matched. *)
Fixpoint offer_value (js : list nat) (attr_type : option mrp_attribute_type)
    (first_value i three_packed_event four_packed_event port : Z) (leave_all matched : bool)
    : SM bool :=
  match js with
  | [] => mret matched
  | j :: js' =>
      m ← match_attribute_of_same_type attr_type j first_value i three_packed_event
            four_packed_event port leave_all;
      _ ← whenM m (mrp_in three_packed_event four_packed_event j port);
      offer_value js' attr_type first_value i three_packed_event four_packed_event port leave_all
        (matched || m)
  end.

(** A new attribute for a value no attribute of a two-port device matched. *)
Definition propagate_value (attr_type : option mrp_attribute_type)
    (first_value i three_packed_event four_packed_event port : Z) : SM unit :=
  match attr_type with
  | Some ((MSRP_TALKER_ADVERTISE | MSRP_LISTENER) as t) =>
      whenM (negb (three_packed_event =? MRP_ATTRIBUTE_EVENT_MT))
        (st ← avb_srp_process_new_attribute_from_packet t first_value i port;
         match st with
         | Some p => _ ← mrp_mad_begin p; mrp_in three_packed_event four_packed_event p port
         | None => skip
         end)
  | _ => skip
  end.

(** The loop over the values of a vector, from [i] on ([n] to go). *)
Fixpoint process_values (n : nat) (attr_type : option mrp_attribute_type)
    (first_value first_value_len threepacked_len i port : Z) (leave_all : bool) : SM unit :=
  match n with
  | O => skip
  | S n' =>
      vector ← rx (first_value + first_value_len + i / 3);
      if 0xD7 <? vector then skip
      else
        let three_packed_event := decode_threepacked vector (i mod 3) in
        four_packed_event ←
          (if has_fourpacked_events attr_type then
             v ← rx (first_value + first_value_len + threepacked_len + i / 4);
             mret (decode_fourpacked v (i mod 4))
           else mret 0);
        matched_attribute ←
          offer_value attr_indices attr_type first_value i three_packed_event four_packed_event
            port leave_all false;
        _ ← whenM (two_ports && (negb matched_attribute && negb leave_all))
             (propagate_value attr_type first_value i three_packed_event four_packed_event port);
        process_values n' attr_type first_value first_value_len threepacked_len (i + 1) port leave_all
  end.

(** The two nested loops advance by at least two bytes in each round. *)
Definition rx_fuel (end' : Z) : nat := S (Z.to_nat end').

(** The loop over the vectors of the message whose header is at [hdr]: gives the
    position after them, or [None] where the function returns. *)
Definition process_vectors (etype hdr first_value_len end' port : Z)
    (attr_type : option mrp_attribute_type) (msg : Z) : SM (option Z) :=
  loopM (rx_fuel end') (fun msg =>
    more ← rx_more msg end';
    if (more : bool) then
      h ← rx msg;
      l ← rx (msg + 1);
      let first_value := msg + sizeof_mrp_vector_header in
      let numvalues := Z.shiftl (Z.land h 0x1f) 8 + l in
      let leave_all := Z.shiftr (Z.land h 0xe0) 5 =? 1 in
      let threepacked_len := (numvalues + 2) / 3 in
      let fourpacked_len := if has_fourpacked_events attr_type then (numvalues + 3) / 4 else 0 in
      let len := sizeof_mrp_vector_header + first_value_len + threepacked_len + fourpacked_len in
      overlong ← (if etype =? AVB_SRP_ETHERTYPE then
                    all ← rx_attribute_list_length hdr;
                    mret (all <? len + sizeof_mrp_msg_footer)
                  else mret false);
      if overlong || (end' <? msg + len) then mret (inr None)
      else
        _ ← whenM leave_all (attribute_type_event attr_type MRP_EVENT_RECEIVE_LEAVE_ALL port);
        _ ← process_values (Z.to_nat numvalues) attr_type first_value first_value_len
              threepacked_len 0 port leave_all;
        mret (inl (msg + len))
    else mret (inr (Some msg))) msg.

Definition avb_mrp_process_packet (etype len port : Z) : SM unit :=
  let end' := len in
  protocol_version ← rx 0;
  loopM (rx_fuel end') (fun msg =>
    more ← rx_more msg end';
    if (more : bool) then
      let hdr := msg in
      first_value_len ← rx (hdr + 1);
      atype ← rx hdr;
      let attr_type := decode_attr_type etype atype in
      if (protocol_version =? 0) &&
         match attr_type with
         | None => true
         | Some t => negb (first_value_lengths t =? first_value_len)
         end
      then mret (inr tt)
      else
        let msg := msg + sizeof_mrp_msg_header in
        let msg := if negb (etype =? AVB_SRP_ETHERTYPE) then msg - 2 else msg in
        r ← process_vectors etype hdr first_value_len end' port attr_type msg;
        match r with
        | Some msg => mret (inl (msg + 2))
        | None => mret (inr tt)
        end
    else mret (inr tt)) sizeof_mrp_header.
End Rx.
