(* ===== verification/MrpPeriodic.v ===== *)
(** The periodic processing of [lib_tsn/src/srp/avb_mrp.c]: timers, packet
    transmission, and the delivery of pending indications. *)
From S2P Require Import Prelude Bytes MiscTimer MrpTypes MrpMatch SrpTable MrpPdu SrpEncode.
From S2P Require Import MrpCore MvrpVlan AvbApp SrpApp.
From stdpp Require Import base list list_numbers numbers.
From Stdlib Require Import ZArith Lia.
#[local] Open Scope Z_scope.

Section Periodic.
  Context `{cfg : Config}.

Definition send_join_indication (p : nat) (new : bool) (four_packed_event : Z) : SM unit :=
  st ← get_st p;
  match attribute_type st with
  | MSRP_TALKER_ADVERTISE => avb_srp_talker_join_ind p new
  | MSRP_TALKER_FAILED => skip
  | MSRP_LISTENER => avb_srp_listener_join_ind p new four_packed_event
  | MSRP_DOMAIN_VECTOR => avb_srp_domain_join_ind p new
  | MVRP_VID_VECTOR => avb_mvrp_vid_vector_join_ind p new
  | MMRP_MAC_VECTOR => skip
  end.

Definition send_leave_indication (p : nat) (four_packed_event : Z) : SM unit :=
  st ← get_st p;
  match attribute_type st with
  | MSRP_TALKER_ADVERTISE => avb_srp_talker_leave_ind p
  | MSRP_TALKER_FAILED => skip
  | MSRP_LISTENER => avb_srp_listener_leave_ind p four_packed_event
  | MSRP_DOMAIN_VECTOR => avb_srp_domain_leave_ind p
  | MVRP_VID_VECTOR => avb_mvrp_vid_vector_leave_ind p
  | MMRP_MAC_VECTOR => skip
  end.

(** The part of the loop body that looks at the timers of port [i] other than
    the join timer. *)
Definition periodic_timers (i : Z) : SM unit :=
  fired ← timer_expired (fun w => periodic_timer (mrp w)) (fun f => upd_mrp (upd_periodic_timer f)) i;
  _ ← whenM fired
       (_ ← global_event MRP_EVENT_PERIODIC i;
        start_timer (fun w => periodic_timer (mrp w)) (fun f => upd_mrp (upd_periodic_timer f)) i
          (MRP_PERIODIC_TIMER_PERIOD_CENTISECONDS / MRP_PERIODIC_TIMER_MULTIPLIER));
  fired ← timer_expired (fun w => msrp_leaveall_timer (mrp w))
            (fun f => upd_mrp (upd_msrp_leaveall_timer f)) i;
  _ ← whenM fired
       (_ ← msrp_types_event MRP_EVENT_RECEIVE_LEAVE_ALL i;
        _ ← set_msrp_leaveall_active i true;
        start_msrp_leaveall i);
  fired ← timer_expired (fun w => mvrp_leaveall_timer (mrp w))
            (fun f => upd_mrp (upd_mvrp_leaveall_timer f)) i;
  whenM fired
    (_ ← attribute_type_event (Some MVRP_VID_VECTOR) MRP_EVENT_RECEIVE_LEAVE_ALL i;
     _ ← set_mvrp_leaveall_active i true;
     start_mvrp_leaveall i).

(** What happens when the join timer of port [i] has expired. *)
Definition transmit_all (i : Z) : SM unit :=
  _ ← start_timer (fun w => joinTimer (mrp w)) (fun f => upd_mrp (upd_joinTimer f)) i
        MRP_JOINTIMER_PERIOD_CENTISECONDS;
  _ ← sort_attrs;
  la ← port_get (fun w => mvrp_leaveall_active (mrp w)) i;
  let tx_event := if (la : bool) then MRP_EVENT_TX_LEAVE_ALL else MRP_EVENT_TX in
  _ ← configure_send_buffer mvrp_dest_mac AVB_MVRP_ETHERTYPE;
  _ ← whenM la
       (_ ← create_empty_msg MVRP_VID_VECTOR 1; _ ← send i;
        set_mvrp_leaveall_active i false);
  _ ← attribute_type_event (Some MVRP_VID_VECTOR) tx_event i;
  _ ← force_send i;
  la ← port_get (fun w => msrp_leaveall_active (mrp w)) i;
  let tx_event := if (la : bool) then MRP_EVENT_TX_LEAVE_ALL else MRP_EVENT_TX in
  _ ← configure_send_buffer srp_dest_mac AVB_SRP_ETHERTYPE;
  _ ← whenM la
       (_ ← create_empty_msg MSRP_TALKER_ADVERTISE 1; _ ← send i;
        _ ← create_empty_msg MSRP_TALKER_FAILED 1; _ ← send i;
        _ ← create_empty_msg MSRP_LISTENER 1; _ ← send i;
        _ ← create_empty_msg MSRP_DOMAIN_VECTOR 1; _ ← send i;
        set_msrp_leaveall_active i false);
  _ ← msrp_types_event tx_event i;
  force_send i.

Definition pending (bits bit : Z) : bool := negb (Z.land bits bit =? 0).

(** Delivery of the pending indications of attribute [j]. *)
Definition deliver_indications (j : nat) : SM unit :=
  st ← get_st j;
  whenM (negb (pending_indications st =? 0))
    (_ ← whenM (pending (pending_indications st) PENDING_JOIN_NEW)
          (send_join_indication j true (four_vector_parameter st));
     st ← get_st j;
     _ ← whenM (pending (pending_indications st) PENDING_JOIN)
          (send_join_indication j false (four_vector_parameter st));
     st ← get_st j;
     _ ← whenM (pending (pending_indications st) PENDING_LEAVE)
          (send_leave_indication j (four_vector_parameter st));
     upd_st j (upd_pending_indications (fun _ => 0))).

(** The change between Talker Advertise and Talker Failed at the boundary of the
    SRP domain.  [hdr->src_addr[i]] for [i] from 2 to 7 are the bytes 8 to 13 of
    [send_buf]. *)
Definition domain_boundary_talker (j : nat) (i : Z) : SM unit :=
  st ← get_st j;
  boundary ← port_get (fun w => srp_domain_boundary_port (srp w)) i;
  if same_type (attribute_type st) MSRP_TALKER_ADVERTISE && boundary then
    _ ← upd_st j (upd_attribute_type (fun _ => MSRP_TALKER_FAILED));
    _ ← (if decide (attribute_info st = InfoNull) then skip
         else
           e ← stream_of (attribute_info st);
           _ ← upd_stream e (upd_talker_present (fun _ => false));
           _ ← upd_stream e (upd_reservation (upd_failure_code (fun _ => 8)));
           addr ← rd_bytes 6 8;
           upd_stream e (upd_reservation (upd_failure_bridge_id (fun _ => 0 :: 0 :: addr))));
    whenM (here st) (mrp_mad_join j true)
  else if same_type (attribute_type st) MSRP_TALKER_FAILED && negb boundary &&
          negb (bool_decide (attribute_info st = InfoNull)) then
    e ← stream_of (attribute_info st);
    s ← get_stream e;
    whenM (failure_code (reservation s) =? 8)
      (_ ← upd_st j (upd_attribute_type (fun _ => MSRP_TALKER_ADVERTISE));
       _ ← upd_stream e (upd_talker_present (fun _ => true));
       whenM (here st) (mrp_mad_join j true))
  else skip.

Definition leaveTimer_expired (j : nat) : SM bool :=
  st ← get_st j;
  now ← get_local_time;
  let '(fired, t) := avb_timer_expired now (leaveTimer st) in
  _ ← upd_st j (upd_leaveTimer (fun _ => t));
  mret fired.

(** The body of the loop over the attributes. *)
Definition periodic_attr (i : Z) (j : nat) : SM unit :=
  st ← get_st j;
  if is_unused st then skip
  else if negb (port_num st =? i) then skip
  else
    _ ← deliver_indications j;
    _ ← domain_boundary_talker j i;
    fired ← leaveTimer_expired j;
    whenM fired (mrp_update_state MRP_EVENT_LEAVETIMER j 0 i).

Definition mrp_periodic : SM unit :=
  forM ports (fun i =>
    _ ← periodic_timers i;
    fired ← timer_expired (fun w => joinTimer (mrp w)) (fun f => upd_mrp (upd_joinTimer f)) i;
    _ ← whenM fired (transmit_all i);
    forM attr_indices (periodic_attr i)).
End Periodic.
