(* ===== verification/MrpInv.v ===== *)
(** The invariant of the SRP stack and a program logic that carries it.

    [Inv] says that the arrays have their sizes, that every pointer stored in
    an attribute is valid for its type, that the leave timer of an attribute runs
    exactly while its registrar is leaving, and that no stream has two entries
    in the reservation table.  [ensures m P]: run from a state with [Inv], [m]
    leaves a state with [Inv] and a result with [P].  The logic has two modes: in
    the total one, [m] also runs to completion without undefined behaviour; in
    the partial one that is not claimed.

    The state machines and the functions that search, allocate and initialise attributes
    keep the invariant. *)
From S2P Require Import Prelude Bytes MiscTimer MrpTypes MrpMatch SrpTable MrpPdu SrpEncode MrpCore MrpMachine MrpSort MvrpVlan AvbApp.
From Stdlib Require Import ZArith Lia.
From stdpp Require Import base list list_numbers numbers.
#[local] Open Scope Z_scope.

(** The leave timer of an attribute that has never been started has the
    multiplier 0 of static storage. *)
Definition leaveTimer_ok (st : mrp_attribute_state) : Prop :=
  (timeout_multiplier (leaveTimer st) = 0 \/ timeout_multiplier (leaveTimer st) = 1) /\
  active (leaveTimer st) =
    match registrar_state st with MRP_LV => timeout_multiplier (leaveTimer st) | _ => 0 end.

(** Attributes that are known to have begun ([mrp_mad_begin]): their timers have a period to
    count. What keeps the invariant whatever these are never takes the period away. *)
Class Begun : Type := has_begun : nat -> Prop.

Section Inv.
  Context `{cfg : Config} `{bg : Begun}.
  (** The mode; what is known of the attribute list; the size of the buffer that
      holds the received packet. *)
  Context (tot : bool) (L : list nat -> Prop) (RX : nat).

Definition attr_ok (st : mrp_attribute_state) : Prop :=
  valid_info AVB_STREAM_TABLE_ENTRIES num_entries st /\ leaveTimer_ok st.

(** The lengths of the arrays. *)
Definition sizes (w : world) : list nat :=
  [ length (attrs (mrp w)); length (stream_table (srp w)); length (mvrp w); length (rx_buf (env w));
    length (periodic_timer (mrp w)); length (joinTimer (mrp w));
    length (msrp_leaveall_timer (mrp w)); length (mvrp_leaveall_timer (mrp w));
    length (msrp_leaveall_active (mrp w)); length (mvrp_leaveall_active (mrp w)) ].

Record Inv (w : world) : Prop := {
  inv_sizes : sizes w = [ MRP_MAX_ATTRS; AVB_STREAM_TABLE_ENTRIES; num_entries; RX;
    MRP_NUM_PORTS; MRP_NUM_PORTS; MRP_NUM_PORTS; MRP_NUM_PORTS; MRP_NUM_PORTS; MRP_NUM_PORTS ];
  inv_attrs : Forall attr_ok (attrs (mrp w));
  inv_unique : unique_streams (stream_table (srp w));
  inv_rx : Forall byte_ok (rx_buf (env w));
  inv_linked : exists l, L l /\ linked w l;
  inv_begun : forall j st, has_begun j -> attrs (mrp w) !! j = Some st -> timeout_multiplier (leaveTimer st) = 1;
}.

Definition ensures {A} (m : SM A) (P : A -> Prop) : Prop :=
  forall w, Inv w ->
    match m w with
    | Some (a, w') => Inv w' /\ P a
    | None => tot = false
    end.

(** * Rules *)

Lemma ens_conseq {A} (m : SM A) (P Q : A -> Prop) :
  ensures m P -> (forall a, P a -> Q a) -> ensures m Q.
Proof. intros H HPQ w Hw. specialize (H w Hw). destruct (m w) as [[]|]; naive_solver. Qed.

Lemma ens_ret {A} (a : A) (P : A -> Prop) : P a -> ensures (mret a) P.
Proof. intros H w Hw. by split. Qed.

Lemma ens_bind {A B} (m : SM A) (k : A -> SM B) P Q :
  ensures m P -> (forall a, P a -> ensures (k a) Q) -> ensures (m ≫= k) Q.
Proof.
  intros Hm Hk w Hw. unfold mbind, M_bind. specialize (Hm w Hw).
  destruct (m w) as [[a w']|]; [|done]. destruct Hm as [Hw' Ha]. by apply Hk.
Qed.

Lemma ens_trap {A} (P : A -> Prop) : tot = false -> ensures trap P.
Proof. intros H w Hw. done. Qed.

Lemma ens_skip : ensures skip (fun _ => True).
Proof. by apply ens_ret. Qed.

Lemma ens_gets {A} (f : world -> A) (P : A -> Prop) :
  (forall w, Inv w -> P (f w)) -> ensures (gets f) P.
Proof. intros H w Hw. split; [done|by apply H]. Qed.

Lemma ens_load {A} (f : world -> option A) (P : A -> Prop) :
  (forall w, Inv w -> match f w with Some a => P a | None => tot = false end) -> ensures (load f) P.
Proof. intros H w Hw. unfold load. specialize (H w Hw). by destruct (f w). Qed.

Lemma ens_modify f : (forall w, Inv w -> Inv (f w)) -> ensures (modify f) (fun _ => True).
Proof. intros H w Hw. split; [by apply H|done]. Qed.

Lemma ens_store f :
  (forall w, Inv w -> match f w with Some w' => Inv w' | None => tot = false end) ->
  ensures (store f) (fun _ => True).
Proof. intros H w Hw. unfold store. specialize (H w Hw). by destruct (f w). Qed.

Lemma ens_when (b : bool) m :
  (b = true -> ensures m (fun _ => True)) -> ensures (whenM b m) (fun _ => True).
Proof. intros H. destruct b; [by apply H|apply ens_skip]. Qed.

Lemma ens_forM {A} (l : list A) (f : A -> SM unit) :
  (forall x, x ∈ l -> ensures (f x) (fun _ => True)) -> ensures (forM l f) (fun _ => True).
Proof.
  induction l as [|x l IH]; intros H; cbn; [apply ens_skip|].
  eapply ens_bind; [apply H; by constructor|]. intros _ _. apply IH. intros. apply H. by constructor.
Qed.

Lemma ens_forM_until {A B} (l : list A) (f : A -> SM (option B)) (P : B -> Prop) :
  (forall x, x ∈ l -> ensures (f x) (fun r => forall b, r = Some b -> P b)) ->
  ensures (forM_until l f) (fun r => forall b, r = Some b -> P b).
Proof.
  induction l as [|x l IH]; intros H; cbn; [by apply ens_ret|].
  eapply ens_bind; [apply H; by constructor|]. intros [b|] Hb.
  - apply ens_ret. intros ? [= <-]. by apply Hb.
  - apply IH. intros. apply H. by constructor.
Qed.

(** A loop: in the total mode, with a bound [n] on the rounds to go in its
    invariant, which each round decreases. *)
Lemma ens_loopM {A B} (body : A -> SM (A + B)) (J : nat -> A -> Prop) (P : B -> Prop) :
  (forall n a, J n a -> ensures (body a) (fun r =>
     match r with
     | inl a' => exists m, (tot = true -> m < n)%nat /\ J m a'
     | inr b => P b
     end)) ->
  forall fuel n a, J n a -> (tot = true -> n < fuel)%nat -> ensures (loopM fuel body a) P.
Proof.
  intros Hb fuel. induction fuel as [|fuel IH]; intros n a HJ Hn; cbn.
  - apply ens_trap. destruct tot; [lia|done].
  - eapply ens_bind; [by apply Hb|]. intros [a'|b] H; [|by apply ens_ret].
    destruct H as (m & Hm & HJ'). eapply IH; [exact HJ'|]. intros Ht. specialize (Hm Ht).
    specialize (Hn Ht). lia.
Qed.

(** ** Attributes *)

Lemma inv_length w : Inv w -> length (attrs (mrp w)) = MRP_MAX_ATTRS.
Proof. intros [Hs _ _ _ _ _]. by injection Hs. Qed.

Lemma ens_get_st p : (tot = true -> p < MRP_MAX_ATTRS)%nat -> ensures (get_st p) attr_ok.
Proof.
  intros Hp. apply ens_load. intros w Hw. destruct (attrs (mrp w) !! p) as [st|] eqn:E.
  - destruct Hw. by eapply Forall_lookup_1.
  - destruct tot; [|done]. apply lookup_ge_None in E. rewrite inv_length in E by done. lia.
Qed.

Lemma linked_set_attr w l p st st' :
  attrs (mrp w) !! p = Some st -> next st' = next st -> linked w l -> linked (set_attr p st' w) l.
Proof.
  intros Hp Hn [Hc Hnd]. split; [|done]. cbn. clear Hnd. revert Hc. unfold chain.
  generalize (first_attr (mrp w)). induction l as [|x l IH]; intros q; cbn; [done|].
  intros (-> & stx & Hx & Hl). split; [done|].
  destruct (decide (x = p)) as [->|].
  - exists st'. split; [apply list_lookup_insert_eq; by eapply lookup_lt_Some|].
    rewrite Hn. assert (stx = st) as -> by congruence. by apply IH.
  - exists stx. split; [by rewrite list_lookup_insert_ne|]. by apply IH.
Qed.

Lemma Inv_set_attr w p st st' :
  Inv w -> attrs (mrp w) !! p = Some st -> attr_ok st' -> next st' = next st ->
  (timeout_multiplier (leaveTimer st) = 1 -> timeout_multiplier (leaveTimer st') = 1) ->
  Inv (set_attr p st' w).
Proof.
  intros [Hs Ha Hu Hr Hl Hb] Hp Hok Hn Hm. split; cbn; try done.
  - unfold sizes in *. cbn. by rewrite length_insert.
  - by apply Forall_insert.
  - destruct Hl as (l & HL & Hl). exists l. split; [done|]. by eapply linked_set_attr.
  - intros j stj Hj E. destruct (decide (j = p)) as [->|Hne].
    + rewrite list_lookup_insert_eq in E by (by eapply lookup_lt_Some). injection E as <-. by apply Hm, (Hb p).
    + rewrite list_lookup_insert_ne in E by done. by apply (Hb j).
Qed.

Lemma ens_upd_st p f :
  (tot = true -> p < MRP_MAX_ATTRS)%nat ->
  (forall st, attr_ok st -> attr_ok (f st) /\ next (f st) = next st /\
     timeout_multiplier (leaveTimer (f st)) = timeout_multiplier (leaveTimer st)) ->
  ensures (upd_st p f) (fun _ => True).
Proof.
  intros Hp Hf. apply ens_store. intros w Hw. destruct (attrs (mrp w) !! p) as [st|] eqn:E.
  - assert (attr_ok st) as Hst by (destruct Hw; by eapply Forall_lookup_1).
    destruct (Hf st Hst) as (? & ? & Hm). eapply Inv_set_attr; try done. by rewrite Hm.
  - destruct tot; [|done]. apply lookup_ge_None in E. rewrite inv_length in E by done. lia.
Qed.

(** An update of fields that neither [attr_ok] nor the list depends on. *)
Definition neutral (f : mrp_attribute_state -> mrp_attribute_state) : Prop :=
  forall st, attribute_type (f st) = attribute_type st /\ attribute_info (f st) = attribute_info st /\
    registrar_state (f st) = registrar_state st /\ leaveTimer (f st) = leaveTimer st /\
    next (f st) = next st.

Lemma attr_ok_ext st st' :
  attribute_type st' = attribute_type st -> attribute_info st' = attribute_info st ->
  registrar_state st' = registrar_state st -> leaveTimer st' = leaveTimer st ->
  attr_ok st -> attr_ok st'.
Proof. unfold attr_ok, valid_info, leaveTimer_ok. by intros -> -> -> ->. Qed.

Lemma ens_upd_st_neutral p f :
  (tot = true -> p < MRP_MAX_ATTRS)%nat -> neutral f -> ensures (upd_st p f) (fun _ => True).
Proof.
  intros Hp Hf. apply ens_upd_st; [done|]. intros st Hst.
  destruct (Hf st) as (? & ? & ? & ? & ?). split_and!; [by eapply attr_ok_ext|done|congruence].
Qed.

(** ** The parts of the state the invariant does not depend on *)

(** [w'] agrees with [w] on what [Inv] looks at. *)
Definition inv_view (w w' : world) : Prop :=
  attrs (mrp w') = attrs (mrp w) /\ first_attr (mrp w') = first_attr (mrp w) /\
  stream_table (srp w') = stream_table (srp w) /\ rx_buf (env w') = rx_buf (env w) /\
  sizes w' = sizes w.

Lemma Inv_view w w' : inv_view w w' -> Inv w -> Inv w'.
Proof.
  intros (Ha & Hf & Ht & Hr & Hs) [Is Ia Iu Ir Il Ib].
  split; rewrite ?Hs, ?Ha, ?Ht, ?Hr; try done.
  destruct Il as (l & HL & Il). exists l. split; [done|]. by apply (linked_ext w).
Qed.

Lemma ens_modify_view f : (forall w, inv_view w (f w)) -> ensures (modify f) (fun _ => True).
Proof. intros H. apply ens_modify. intros w. apply Inv_view, H. Qed.

Lemma ens_get_local_time : ensures get_local_time (fun _ => True).
Proof. intros w Hw. split; [|done]. by eapply Inv_view; [|exact Hw]. Qed.

Lemma ens_emit e : ensures (emit e) (fun _ => True).
Proof. by apply ens_modify_view. Qed.

Lemma ens_port_set {A} (f : world -> list A) g port x :
  (tot = true -> forall w, Inv w -> 0 <= port < Z.of_nat (length (f w))) ->
  (forall l w, length l = length (f w) -> inv_view w (g (fun _ => l) w)) ->
  (forall h w, g h w = g (fun _ => h (f w)) w) ->
  ensures (port_set f g port x) (fun _ => True).
Proof.
  intros Hp Hv Hg. apply ens_store. intros w Hw. specialize (fun H => Hp H w Hw).
  destruct (0 <=? port) eqn:E1; cbn [andb].
  - destruct (Z.to_nat port <? length (f w))%nat eqn:E2.
    + eapply Inv_view; [|exact Hw]. rewrite Hg. apply Hv. by rewrite length_insert.
    + destruct tot; [|done]. apply Nat.ltb_ge in E2. lia.
  - destruct tot; [|done]. apply Z.leb_gt in E1. lia.
Qed.

Lemma ens_port_get {A} (f : world -> list A) port :
  (tot = true -> forall w, Inv w -> 0 <= port < Z.of_nat (length (f w))) ->
  ensures (port_get f port) (fun _ => True).
Proof.
  intros Hp. apply ens_load. intros w Hw. specialize (fun H => Hp H w Hw).
  destruct (0 <=? port) eqn:E1.
  - destruct (f w !! Z.to_nat port) eqn:E2; [done|]. destruct tot; [|done].
    apply lookup_ge_None in E2. lia.
  - destruct tot; [|done]. apply Z.leb_gt in E1. lia.
Qed.

(** ** Reservations *)

Lemma inv_table_length w : Inv w -> length (stream_table (srp w)) = AVB_STREAM_TABLE_ENTRIES.
Proof. intros [Hs _ _ _ _ _]. by injection Hs. Qed.

Lemma ens_get_stream i :
  (tot = true -> i < AVB_STREAM_TABLE_ENTRIES)%nat -> ensures (get_stream i) (fun _ => True).
Proof.
  intros Hi. apply ens_load. intros w Hw. destruct (stream_table (srp w) !! i) eqn:E; [done|].
  destruct tot; [|done]. apply lookup_ge_None in E. rewrite inv_table_length in E by done. lia.
Qed.

Lemma Inv_set_stream w i e :
  Inv w -> unique_streams (<[i := e]> (stream_table (srp w))) ->
  Inv (upd_srp (upd_stream_table (<[i := e]>)) w).
Proof.
  intros [Is Ia Iu Ir Il Ib] Hu. split; cbn; try done.
  - unfold sizes in *. cbn. by rewrite length_insert.
  - destruct Il as (l & HL & Il). exists l. split; [done|]. by apply (linked_ext w).
Qed.

Lemma ens_upd_stream i f :
  (tot = true -> i < AVB_STREAM_TABLE_ENTRIES)%nat ->
  (forall e, entry_id (f e) = entry_id e \/ entry_id (f e) = (0, 0)) ->
  ensures (upd_stream i f) (fun _ => True).
Proof.
  intros Hi Hf. apply ens_store. intros w Hw. destruct (stream_table (srp w) !! i) as [e|] eqn:E.
  - apply Inv_set_stream; [done|]. eapply unique_update; [by destruct Hw|exact E|apply Hf].
  - destruct tot; [|done]. apply lookup_ge_None in E. rewrite inv_table_length in E by done. lia.
Qed.

(** The valid results of the functions that return a pointer to an entry. *)
Definition entry_ptr (r : option nat) : Prop :=
  forall i, r = Some i -> (i < AVB_STREAM_TABLE_ENTRIES)%nat.

Lemma added_Inv id i e e' w w' :
  Inv w -> added id i e e' w w' -> Inv w' /\ (i < AVB_STREAM_TABLE_ENTRIES)%nat.
Proof.
  intros Hw (Hi & _ & -> & _ & Hu & _). split; [by apply Inv_set_stream|].
  rewrite <- (inv_table_length w) by done. by eapply lookup_lt_Some.
Qed.

Lemma ens_srp_add_reservation_entry r : ensures (srp_add_reservation_entry r) entry_ptr.
Proof.
  intros w Hw. pose proof (srp_add_reservation_entry_run w r (inv_unique _ Hw)) as H.
  destruct (srp_add_reservation_entry r w) as [[[i|] w']|]; [|by destruct H as [-> _]|done].
  destruct H as (e & Hadd). destruct (added_Inv _ _ _ _ _ _ Hw Hadd) as [? ?].
  split; [done|]. by intros ? [= <-].
Qed.

Lemma ens_srp_add_reservation_entry_stream_id_only id :
  ensures (srp_add_reservation_entry_stream_id_only id) entry_ptr.
Proof.
  intros w Hw.
  pose proof (srp_add_reservation_entry_stream_id_only_run w id (inv_unique _ Hw)) as H.
  destruct (srp_add_reservation_entry_stream_id_only id w) as [[[i|] w']|];
    [|by destruct H as [-> _]|done].
  destruct H as (e & Hadd). destruct (added_Inv _ _ _ _ _ _ Hw Hadd) as [? ?].
  split; [done|]. by intros ? [= <-].
Qed.

(** ** The received packet *)

Lemma inv_rx_length w : Inv w -> length (rx_buf (env w)) = RX.
Proof. intros [Hs _ _ _ _ _]. by injection Hs. Qed.

Lemma ens_rx off : (tot = true -> 0 <= off < Z.of_nat RX) -> ensures (rx off) byte_ok.
Proof.
  intros Ho. apply ens_load. intros w Hw. unfold byte_at.
  destruct (0 <=? off) eqn:E; [|destruct tot; [apply Z.leb_gt in E; lia|done]].
  destruct (rx_buf (env w) !! Z.to_nat off) eqn:E2.
  - destruct Hw. by eapply Forall_lookup_1.
  - destruct tot; [|done]. apply lookup_ge_None in E2. rewrite inv_rx_length in E2 by done. lia.
Qed.

Lemma ens_rx_wr off v :
  (tot = true -> 0 <= off < Z.of_nat RX) -> ensures (rx_wr off v) (fun _ => True).
Proof.
  intros Ho. apply ens_store. intros w Hw. unfold byte_set.
  destruct ((0 <=? off) && (off <? Z.of_nat (length (rx_buf (env w))))) eqn:E.
  - destruct Hw as [Is Ia Iu Ir Il Ib]. split; cbn; try done.
    + unfold sizes in *. cbn. by rewrite length_insert.
    + apply Forall_insert; [done|]. apply u8_range.
    + destruct Il as (l & HL & Il). exists l. split; [done|]. by apply (linked_ext w).
  - destruct tot; [|done]. rewrite inv_rx_length in E by done.
    apply andb_false_iff in E. rewrite Z.leb_gt, Z.ltb_ge in E. lia.
Qed.

Lemma ens_rx_bytes n off :
  (tot = true -> 0 <= off /\ off + Z.of_nat n <= Z.of_nat RX) -> ensures (rx_bytes n off) (fun _ => True).
Proof.
  revert off. induction n as [|n IH]; intros off Ho; cbn; [by apply ens_ret|].
  eapply ens_bind; [apply ens_rx; intros Ht; specialize (Ho Ht); lia|]. intros b _.
  eapply ens_bind; [apply IH; intros Ht; specialize (Ho Ht); lia|]. intros bs _. by apply ens_ret.
Qed.
End Inv.

Create HintDb ens.

(** One step through a computation; [ens_auto] goes on until a primitive or a
    side condition needs help. *)
Ltac ens_leaf := solve [eauto 4 with ens | eapply ens_conseq; [eauto 4 with ens | done]].
Ltac ens_step :=
  lazymatch goal with
  | |- ensures _ _ _ (mret _) _ => apply ens_ret
  | |- ensures _ _ _ (_ ≫= _) _ => eapply ens_bind; [| intros ? ?]
  | |- ensures _ _ _ (if ?b then _ else _) _ => destruct b eqn:?
  | |- ensures _ _ _ (match ?x with _ => _ end) _ => destruct x eqn:?
  | |- ensures _ _ _ (whenM _ _) _ => apply ens_when; intros ?
  | |- ensures _ _ _ (forM _ _) _ => apply ens_forM; intros ? ?
  end.
Ltac ens_auto := repeat first [ens_leaf | ens_step | done].

#[export] Hint Resolve ens_skip ens_get_local_time ens_emit ens_trap ens_srp_add_reservation_entry
  ens_srp_add_reservation_entry_stream_id_only : ens.

Section Safe.
  Context `{cfg : Config} `{bg : Begun} (tot : bool) (L : list nat -> Prop) (RX : nat).
  #[local] Abbreviation Inv := (Inv L RX).
  #[local] Abbreviation ensures := (ensures tot L RX).

(** A pointer to an attribute that may be null. *)
Definition attr_ptr (r : option nat) : Prop := forall i, r = Some i -> (i < MRP_MAX_ATTRS)%nat.

Lemma attr_indices_lt j : j ∈ attr_indices -> (j < MRP_MAX_ATTRS)%nat.
Proof. intros H%elem_of_seq. lia. Qed.

Lemma attr_ok_rest st f :
  neutral f -> attr_ok st -> attr_ok (f st).
Proof. intros Hf. destruct (Hf st) as (? & ? & ? & ? & ?). by apply attr_ok_ext. Qed.

Lemma ens_deref {A} (o : option A) (P : A -> Prop) :
  (tot = true -> o <> None) -> (forall a, o = Some a -> P a) -> ensures (deref o) P.
Proof.
  intros Hn HP. destruct o; cbn; [apply ens_ret; by apply HP|]. apply ens_trap.
  destruct tot; [by destruct Hn|done].
Qed.

(** * Events that do not transmit *)

(** The events given to attributes one by one, outside [mrp_mad_begin] and the
    expiry of the leave timer. *)
Definition plain_event (e : mrp_event) : Prop :=
  ~ transmits e /\ e <> MRP_EVENT_BEGIN /\ e <> MRP_EVENT_LEAVETIMER /\ e <> MRP_EVENT_FLUSH.

(** No event changes the period. *)
Lemma attr_step_multiplier e four now st :
  timeout_multiplier (leaveTimer (attr_step e four now st)) = timeout_multiplier (leaveTimer st).
Proof. cbn. unfold leaveTimer_next. by destruct (registrar_state st), e. Qed.

Lemma leaveTimer_ok_step e four now st :
  plain_event e \/ e = MRP_EVENT_TX_LEAVE_ALL ->
  leaveTimer_ok st -> leaveTimer_ok (attr_step e four now st).
Proof.
  unfold plain_event, leaveTimer_ok. intros He [Hm Ha]. cbn. unfold leaveTimer_next.
  destruct (registrar_state st), e; cbn in *; try done; try naive_solver; by destruct Hm; auto.
Qed.

Lemma machine_frame_Inv w w' p st' :
  machine_frame w w' -> attrs (mrp w') = <[p := st']> (attrs (mrp w)) ->
  Inv (set_attr p st' w) -> Inv w'.
Proof.
  intros (E & H1 & H2 & H3 & H4) Ha. apply Inv_view. split_and!.
  - cbn. done.
  - rewrite E. done.
  - rewrite E. done.
  - rewrite E. done.
  - unfold sizes. cbn. rewrite H1, H2, H3, H4. rewrite Ha. rewrite E. done.
Qed.

Lemma Inv_leaveall_port port w :
  0 <= port < Z.of_nat MRP_NUM_PORTS -> Inv w -> leaveall_port port w.
Proof. intros Hp [Hs _ _ _ _ _]. injection Hs. unfold leaveall_port. lia. Qed.

Lemma ens_mrp_update_state e p four port :
  plain_event e -> (tot = true -> p < MRP_MAX_ATTRS)%nat ->
  (e = MRP_EVENT_RECEIVE_LEAVE_ALL -> 0 <= port < Z.of_nat MRP_NUM_PORTS) ->
  ensures (mrp_update_state e p four port) (fun _ => True).
Proof.
  intros He Hp Hport w Hw. destruct (attrs (mrp w) !! p) as [st|] eqn:E.
  - assert (attr_ok st) as [Hi Ht] by (destruct Hw; by eapply Forall_lookup_1).
    destruct (mrp_update_state_run e p four port w st E) as (now & w' & -> & Hf & Ha).
    { apply He. }
    { intros Ee. apply Inv_leaveall_port; auto. }
    split; [|done]. eapply machine_frame_Inv; [exact Hf|exact Ha|].
    apply (Inv_set_attr _ _ _ _ st); [done|done| |done|].
    { split; [done|]. apply leaveTimer_ok_step; auto. }
    by rewrite attr_step_multiplier.
  - unfold mrp_update_state, update_registrar, mbind, M_bind, get_st, load. rewrite E.
    destruct tot; [|done]. apply lookup_ge_None in E. rewrite (inv_length _ _ w Hw) in E. lia.
Qed.

(** [mrp_mad_begin] initialises the timer and then resets the registrar. *)
Lemma ens_mrp_mad_begin p :
  (tot = true -> p < MRP_MAX_ATTRS)%nat -> ensures (mrp_mad_begin p) (fun _ => True).
Proof.
  intros Hp w Hw. unfold mrp_mad_begin, mbind at 1, M_bind at 1.
  destruct (attrs (mrp w) !! p) as [st|] eqn:E.
  - assert (attr_ok st) as [Hi Ht] by (destruct Hw; by eapply Forall_lookup_1).
    rewrite (upd_st_run _ _ _ st E). set (st1 := upd_leaveTimer _ st). set (w1 := set_attr p st1 w).
    assert (attrs (mrp w1) !! p = Some st1) as E1 by by eapply lookup_set_attr.
    unfold mbind, M_bind. rewrite (get_st_run p w1 st1) by done.
    destruct (mrp_update_state_run MRP_EVENT_BEGIN p 0 (port_num st1) w1 st1 E1)
      as (now & w' & -> & Hf & Ha); [by intros [E'|E']; discriminate E'|by intros E'; discriminate E'|].
    split; [|done]. eapply machine_frame_Inv; [exact Hf|exact Ha|]. subst w1. rewrite set_attr_twice.
    apply (Inv_set_attr _ _ _ _ st); [done|done| |done|].
    { split; [done|]. subst st1. unfold leaveTimer_ok. cbn. unfold leaveTimer_next. cbn.
      destruct (registrar_state st); cbn; auto. }
    intros _. subst st1. by rewrite attr_step_multiplier.
  - unfold upd_st, store. rewrite E.
    destruct tot; [|done]. apply lookup_ge_None in E. rewrite (inv_length _ _ w Hw) in E. lia.
Qed.

(** [mrp_attribute_init] sets a type and an information pointer that go together. *)
Lemma ens_mrp_attribute_init o t port h info :
  (tot = true -> o <> None) -> (tot = true -> attr_ptr o) ->
  (forall st, attribute_type st = t -> attribute_info st = info ->
     valid_info AVB_STREAM_TABLE_ENTRIES num_entries st) ->
  ensures (mrp_attribute_init o t port h info) (fun _ => True).
Proof.
  intros Hn Hp Hv. unfold mrp_attribute_init.
  eapply ens_bind; [apply (ens_deref o (fun p => o = Some p)); [done|done]|]. intros p ->.
  intros w Hw. unfold mbind, M_bind. destruct (attrs (mrp w) !! p) as [st|] eqn:E.
  - repeat (erewrite upd_st_run by first [exact E | eapply lookup_set_attr; exact E];
            rewrite ?set_attr_twice).
    split; [|done]. apply (Inv_set_attr _ _ _ _ st); [done|done| |done|done].
    assert (attr_ok st) as [_ Ht] by (destruct Hw; by eapply Forall_lookup_1).
    split; [by apply Hv|done].
  - unfold upd_st, store. rewrite E. destruct tot; [|done].
    apply lookup_ge_None in E. rewrite (inv_length _ _ w Hw) in E.
    specialize (Hp eq_refl p eq_refl). lia.
Qed.

Lemma ens_mrp_get_attr : ensures mrp_get_attr attr_ptr.
Proof.
  apply ens_forM_until. intros i Hi%attr_indices_lt.
  eapply ens_bind; [apply ens_get_st; done|]. intros st _. destruct (decide _).
  - eapply ens_bind; [by apply ens_upd_st_neutral; [done|by intros []]|]. intros _ _.
    apply ens_ret. by intros ? [= <-].
  - by apply ens_ret.
Qed.

(** * The list of attributes *)

(** In the total mode the list is known. *)
Context (HL : tot = true -> exists l, L = eq l).

Lemma linked_next w l pre a suf st :
  linked w l -> l = pre ++ a :: suf -> attrs (mrp w) !! a = Some st -> next st = head suf.
Proof.
  intros [Hc _] -> Ha. apply seg_app in Hc as (r & _ & (_ & st' & Ha' & Hs)).
  assert (st' = st) as -> by congruence. destruct suf; [exact Hs|]. by destruct Hs.
Qed.

Lemma linked_bounds w l :
  Inv w -> linked w l -> Forall (fun a => a < MRP_MAX_ATTRS)%nat l /\ (length l <= MRP_MAX_ATTRS)%nat.
Proof.
  intros Hw [Hc Hnd]. assert (forall a, a ∈ l -> (a < MRP_MAX_ATTRS)%nat) as Hlt.
  { intros a Ha. destruct (seg_valid _ _ _ _ _ Hc Ha) as [st Hst].
    rewrite <- (inv_length _ _ w Hw). by eapply lookup_lt_Some. }
  split; [by apply list.Forall_forall|].
  rewrite <- (length_seq MRP_MAX_ATTRS 0). apply submseteq_length, NoDup_submseteq; [done|].
  intros a Ha. apply elem_of_seq. specialize (Hlt a Ha). lia.
Qed.

Lemma ens_for_attr_list body :
  (forall a, (tot = true -> a < MRP_MAX_ATTRS)%nat -> ensures (body a) (fun _ => True)) ->
  ensures (for_attr_list body) (fun _ => True).
Proof.
  intros Hb. unfold for_attr_list. destruct (Bool.bool_dec tot true) as [Ht|Ht%not_true_is_false].
  - destruct (HL Ht) as [l EL].
    assert (forall w, Inv w -> linked w l) as Hlw.
    { intros w Hw. destruct (inv_linked _ _ _ Hw) as (l' & Hl' & ?). rewrite EL in Hl'. by subst l'. }
    eapply ens_bind; [apply (ens_gets _ _ _ _ (fun p => p = head l /\
      Forall (fun a => a < MRP_MAX_ATTRS)%nat l /\ (length l <= MRP_MAX_ATTRS)%nat))|].
    { intros w Hw. split; [|by eapply linked_bounds; eauto].
      destruct (Hlw w Hw) as [Hc _]. cbn. destruct l; [exact Hc|]. by destruct Hc. }
    intros p (-> & Hlt & Hlen).
    eapply (ens_loopM _ _ _ _ (fun n p => exists pre suf, l = pre ++ suf /\
      n = length suf /\ p = head suf)); [|exists [], l; by split_and!|unfold list_fuel; lia].
    intros n p (pre & suf & El & -> & ->). destruct suf as [|a suf]; [by apply ens_ret|]. cbn [head].
    assert (a < MRP_MAX_ATTRS)%nat as Ha.
    { rewrite El in Hlt. apply Forall_app in Hlt as [_ Hlt]. by inv Hlt. }
    eapply ens_bind; [by apply Hb|]. intros _ _.
    eapply (ens_bind _ _ _ _ _ (fun st => next st = head suf)).
    + apply ens_load. intros w Hw. destruct (attrs (mrp w) !! a) as [st|] eqn:Ea.
      * exact (linked_next w l pre a suf st (Hlw w Hw) El Ea).
      * apply lookup_ge_None in Ea. rewrite (inv_length _ _ w Hw) in Ea. lia.
    + intros st ->. apply ens_ret. exists (length suf). split; [cbn; lia|].
      exists (pre ++ [a]), suf. by rewrite <- app_assoc.
  - eapply ens_bind; [apply (ens_gets _ _ _ _ (fun _ => True)); done|]. intros p _.
    eapply (ens_loopM _ _ _ _ (fun _ _ => True)) with (n := 0%nat); [|done|by rewrite Ht].
    intros n [a|] _; [|by apply ens_ret]. eapply ens_bind; [apply Hb; by rewrite Ht|]. intros _ _.
    eapply ens_bind; [apply ens_get_st; by rewrite Ht|]. intros st _.
    apply ens_ret. exists 0%nat. by rewrite Ht.
Qed.
End Safe.
