(* ===== verification/MrpFrames.v ===== *)
(** Reads of the state and the rules of [ensures] for code that acts on what it
    has just read: while only reads happen, the value read is still there.

    What leaves the attributes, the list of attributes, the reservation table
    and the received packet as they are: the construction of packets, the
    timers, and the conversation with the AVB manager. *)
From S2P Require Import Prelude Bytes MiscTimer MrpTypes MrpMatch SrpTable MrpPdu SrpEncode MrpCore MrpMachine MrpSort MvrpVlan AvbApp SrpApp MrpInv.
From Stdlib Require Import ZArith Lia.
From stdpp Require Import base list list_numbers numbers.
#[local] Open Scope Z_scope.

Section Reads.
  Context `{cfg : Config}.

Lemma reads_rx off : reads (rx off).
Proof. apply keeps_load, _. Qed.
Lemma reads_rd off : reads (rd off).
Proof. apply keeps_load, _. Qed.
Lemma reads_port_get {A} (f : world -> list A) port : reads (port_get f port).
Proof. apply keeps_load, _. Qed.
Lemma reads_rx_bytes n off : reads (rx_bytes n off).
Proof.
  revert off. induction n as [|n IH]; intros off; cbn; [apply keeps_ret, _|].
  apply keeps_bind; [apply _|apply reads_rx|]. intros b.
  apply keeps_bind; [apply _|apply IH|]. intros. apply keeps_ret, _.
Qed.
Lemma reads_rd_bytes n off : reads (rd_bytes n off).
Proof.
  revert off. induction n as [|n IH]; intros off; cbn; [apply keeps_ret, _|].
  apply keeps_bind; [apply _|apply reads_rd|]. intros b.
  apply keeps_bind; [apply _|apply IH|]. intros. apply keeps_ret, _.
Qed.
Hint Resolve reads_rx reads_rd reads_port_get reads_rx_bytes reads_rd_bytes : keeps.

Lemma reads_rx_ntoh_16 off : reads (rx_ntoh_16 off).
Proof. unfold rx_ntoh_16. keeps_auto. Qed.
Lemma reads_rx_ntoh_32 off : reads (rx_ntoh_32 off).
Proof. unfold rx_ntoh_32. keeps_auto. Qed.
Hint Resolve reads_rx_ntoh_16 reads_rx_ntoh_32 : keeps.

Lemma reads_rx_talker_fields fv i r : reads (rx_talker_fields fv i r).
Proof. unfold rx_talker_fields. keeps_auto. Qed.
Lemma reads_rx_stream_id x0 fv i : reads (rx_stream_id x0 fv i).
Proof. unfold rx_stream_id. keeps_auto. Qed.
Lemma reads_info_stream_id p : reads (info_stream_id p).
Proof. unfold info_stream_id. keeps_auto. Qed.
Hint Resolve reads_info_stream_id : keeps.
Lemma reads_same_stream a b : reads (same_stream a b).
Proof. unfold same_stream. keeps_auto. Qed.
Hint Resolve reads_same_stream : keeps.

(** The searches over the attributes. *)
Lemma reads_match_type_non_prop t id port : reads (mrp_match_type_non_prop_attribute t id port).
Proof. unfold mrp_match_type_non_prop_attribute. keeps_auto. Qed.
Lemma reads_match_attr_by_stream_and_type p o d : reads (mrp_match_attr_by_stream_and_type p o d).
Proof. unfold mrp_match_attr_by_stream_and_type. keeps_auto. Qed.
Lemma reads_match_attribute_pair p o d : reads (mrp_match_attribute_pair_by_stream_id p o d).
Proof. unfold mrp_match_attribute_pair_by_stream_id. keeps_auto. Qed.
Lemma reads_srp_match_reservation_entry_by_id id : reads (srp_match_reservation_entry_by_id id).
Proof. apply keeps_gets, _. Qed.
Lemma reads_stream_index entry : reads (stream_index entry).
Proof. unfold stream_index. keeps_auto. Qed.
Hint Resolve reads_stream_index : keeps.
Lemma reads_get_bw entry port : reads (get_bw entry port).
Proof. unfold get_bw, bw_reserved_get. keeps_auto. Qed.
Lemma reads_reservation_of p : reads (reservation_of p).
Proof. unfold reservation_of. keeps_auto. Qed.
End Reads.

#[export] Hint Resolve reads_rx reads_rd reads_port_get reads_rx_bytes reads_rd_bytes reads_rx_ntoh_16 reads_rx_ntoh_32
  reads_rx_talker_fields reads_rx_stream_id reads_info_stream_id reads_same_stream
  reads_match_type_non_prop reads_match_attr_by_stream_and_type reads_match_attribute_pair
  reads_srp_match_reservation_entry_by_id reads_stream_index reads_get_bw reads_reservation_of : keeps.

Section EnsuresIn.
  Context `{cfg : Config} `{bg : Begun} (tot : bool) (L : list nat -> Prop) (RX : nat).
  #[local] Abbreviation Inv := (Inv L RX).
  #[local] Abbreviation ensures := (ensures tot L RX).

(** [ensures], from the states with [Phi]. *)
Definition ensures_in {A} (Phi : world -> Prop) (m : SM A) (P : A -> Prop) : Prop :=
  forall w, Inv w -> Phi w ->
    match m w with
    | Some (a, w') => Inv w' /\ P a
    | None => tot = false
    end.

Lemma ens_in_weaken {A} Phi (m : SM A) P : ensures m P -> ensures_in Phi m P.
Proof. intros H w Hw _. by apply H. Qed.

Lemma ens_in_read {A B} Phi (m : SM A) (k : A -> SM B) P Q :
  reads m -> ensures m P -> (forall a, P a -> ensures_in Phi (k a) Q) ->
  ensures_in Phi (m ≫= k) Q.
Proof.
  intros Hr Hm Hk w Hw HPhi. unfold mbind, M_bind. specialize (Hm w Hw). specialize (Hr w).
  destruct (m w) as [[a w']|]; [|done]. rewrite (Hr a w' eq_refl) in *.
  destruct Hm as [Hw' Ha]. by apply Hk.
Qed.

Lemma ens_in_write {A B} Phi (m : SM A) (k : A -> SM B) P Q :
  ensures_in Phi m P -> (forall a, P a -> ensures (k a) Q) -> ensures_in Phi (m ≫= k) Q.
Proof.
  intros Hm Hk w Hw HPhi. unfold mbind, M_bind. specialize (Hm w Hw HPhi).
  destruct (m w) as [[a w']|]; [|done]. destruct Hm as [Hw' Ha]. by apply Hk.
Qed.

(** Code that acts on an attribute it has read. *)
Definition at_attr (p : nat) (st : mrp_attribute_state) (w : world) : Prop :=
  attrs (mrp w) !! p = Some st.
Definition at_stream (i : nat) (e : avb_stream_entry) (w : world) : Prop :=
  stream_table (srp w) !! i = Some e.

Lemma ens_get_st_in {B} p (k : mrp_attribute_state -> SM B) Q :
  (tot = true -> p < MRP_MAX_ATTRS)%nat ->
  (forall st, attr_ok st -> ensures_in (at_attr p st) (k st) Q) -> ensures (get_st p ≫= k) Q.
Proof.
  intros Hp Hk w Hw. pose proof (ens_get_st tot L RX p Hp w Hw) as H.
  unfold mbind, M_bind. destruct (get_st p w) as [[st w']|] eqn:E; [|done].
  rewrite <- (reads_get_st p w st w' E) in *. destruct H as [_ Hst]. apply Hk; [done|done|].
  unfold get_st, load in E. unfold at_attr. destruct (attrs (mrp w) !! p); congruence.
Qed.

Lemma ens_in_get_st {B} p st (k : mrp_attribute_state -> SM B) Q :
  ensures_in (at_attr p st) (k st) Q -> ensures_in (at_attr p st) (get_st p ≫= k) Q.
Proof.
  intros Hk w Hw Hp. unfold mbind, M_bind. rewrite (get_st_run p w st Hp). by apply Hk.
Qed.

Lemma ens_get_stream_in {B} i (k : avb_stream_entry -> SM B) Q :
  (tot = true -> i < AVB_STREAM_TABLE_ENTRIES)%nat ->
  (forall e, ensures_in (at_stream i e) (k e) Q) -> ensures (get_stream i ≫= k) Q.
Proof.
  intros Hp Hk w Hw. pose proof (ens_get_stream tot L RX i Hp w Hw) as H.
  unfold mbind, M_bind. destruct (get_stream i w) as [[e w']|] eqn:E; [|done].
  rewrite <- (reads_get_stream i w e w' E) in *. apply Hk; [done|].
  unfold get_stream, load in E. unfold at_stream. destruct (stream_table (srp w) !! i); congruence.
Qed.

Lemma ens_in_upd_st p st f :
  attr_ok (f st) -> next (f st) = next st -> leaveTimer (f st) = leaveTimer st ->
  ensures_in (at_attr p st) (upd_st p f) (fun _ => True).
Proof.
  intros Hok Hn Ht w Hw Hp. rewrite (upd_st_run _ _ _ st Hp).
  split; [|done]. eapply Inv_set_attr; try done. by rewrite Ht.
Qed.

Lemma ens_in_upd_stream i e f :
  entry_id (f e) = entry_id e \/ entry_id (f e) = (0, 0) ->
  ensures_in (at_stream i e) (upd_stream i f) (fun _ => True).
Proof.
  intros He w Hw Hi. rewrite (upd_stream_run _ _ _ e Hi). split; [|done].
  apply Inv_set_stream; [done|]. eapply unique_update; [by destruct Hw|exact Hi|done].
Qed.

Lemma ens_stream_of info :
  (tot = true -> exists e, info = InfoStream e) -> ensures (stream_of info) (fun e => info = InfoStream e).
Proof.
  intros Hi. destruct info; cbn; try (by apply ens_ret);
    (apply ens_trap; destruct tot; [|done]; by destruct (Hi eq_refl)).
Qed.
End EnsuresIn.

#[export] Instance inv_view_preorder : PreOrder inv_view.
Proof.
  split; [by intros w; split_and!|].
  intros w1 w2 w3 (A1 & A2 & A3 & A4 & A5) (B1 & B2 & B3 & B4 & B5). split_and!; by etrans.
Qed.

Abbreviation frames := (keeps inv_view).

Lemma reads_frames {A} (m : SM A) : reads m -> frames m.
Proof. intros H w a w' E. by rewrite (H w a w' E). Qed.

#[export] Hint Extern 5 (keeps inv_view _) => apply reads_frames; solve [eauto 3 with keeps] : keeps.

Lemma frames_modify f : (forall w, inv_view w (f w)) -> frames (modify f).
Proof. intros H. by apply keeps_modify. Qed.

(** ** Primitives *)

Lemma frames_get_local_time : frames get_local_time.
Proof. intros w a w' [= <- <-]. by split_and!. Qed.
Lemma frames_emit e : frames (emit e).
Proof. by apply frames_modify. Qed.
Lemma frames_wr off v : frames (wr off v).
Proof. apply keeps_store. intros w w'. destruct (byte_set _ _ _); [|done]. by intros [= <-]. Qed.
Lemma frames_set_send_ptr p : frames (set_send_ptr p).
Proof. by apply frames_modify. Qed.

Lemma frames_port_set {A} (f : world -> list A) g port x :
  (forall w l, length l = length (f w) -> inv_view w (g (fun _ => l) w)) ->
  (forall h w, g h w = g (fun _ => h (f w)) w) -> frames (port_set f g port x).
Proof.
  intros Hv Hg. apply keeps_store. intros w w'. destruct (_ && _); [|done].
  intros [= <-]. rewrite Hg. apply Hv. by rewrite length_insert.
Qed.

(** A timer array of the state that the invariant knows the size of only. *)
Definition timer_array (get : world -> list avb_timer)
    (upd : (list avb_timer -> list avb_timer) -> world -> world) : Prop :=
  (forall w l, length l = length (get w) -> inv_view w (upd (fun _ => l) w)) /\
  (forall h w, upd h w = upd (fun _ => h (get w)) w).

Ltac view_update :=
  split; [intros [[] ? ? ?] l Hl; split_and!; cbn in *; try done; unfold sizes; cbn; by rewrite Hl
         |done].

Lemma periodic_timer_array :
  timer_array (fun w => periodic_timer (mrp w)) (fun f => upd_mrp (upd_periodic_timer f)).
Proof. view_update. Qed.
Lemma joinTimer_array : timer_array (fun w => joinTimer (mrp w)) (fun f => upd_mrp (upd_joinTimer f)).
Proof. view_update. Qed.
Lemma msrp_leaveall_timer_array :
  timer_array (fun w => msrp_leaveall_timer (mrp w)) (fun f => upd_mrp (upd_msrp_leaveall_timer f)).
Proof. view_update. Qed.
Lemma mvrp_leaveall_timer_array :
  timer_array (fun w => mvrp_leaveall_timer (mrp w)) (fun f => upd_mrp (upd_mvrp_leaveall_timer f)).
Proof. view_update. Qed.

#[export] Hint Resolve frames_get_local_time frames_emit frames_wr frames_set_send_ptr
  periodic_timer_array joinTimer_array msrp_leaveall_timer_array mvrp_leaveall_timer_array : keeps.

Lemma frames_timer_set get upd i t : timer_array get upd -> frames (port_set get upd i t).
Proof. intros [Hv Hg]. by apply frames_port_set. Qed.
#[export] Hint Resolve frames_timer_set : keeps.

Lemma frames_start_timer get upd i cs : timer_array get upd -> frames (start_timer get upd i cs).
Proof. intros H. unfold start_timer. keeps_auto. Qed.
Lemma frames_init_timer get upd i m : timer_array get upd -> frames (init_timer get upd i m).
Proof. intros H. unfold init_timer. keeps_auto. Qed.
Lemma frames_timer_expired get upd i : timer_array get upd -> frames (timer_expired get upd i).
Proof. intros H. unfold timer_expired. keeps_auto. Qed.
Lemma frames_set_msrp_leaveall_active i x : frames (set_msrp_leaveall_active i x).
Proof.
  apply frames_port_set; [|done]. intros [[] ? ? ?] l Hl. split_and!; cbn in *; try done.
  unfold sizes. cbn. by rewrite Hl.
Qed.
Lemma frames_set_mvrp_leaveall_active i x : frames (set_mvrp_leaveall_active i x).
Proof.
  apply frames_port_set; [|done]. intros [[] ? ? ?] l Hl. split_and!; cbn in *; try done.
  unfold sizes. cbn. by rewrite Hl.
Qed.
Lemma frames_set_domain_attr i a : frames (set_domain_attr i a).
Proof. by apply frames_port_set. Qed.
Lemma frames_set_boundary i x : frames (set_boundary i x).
Proof. by apply frames_port_set. Qed.
Lemma frames_set_domain_vlan v : frames (set_domain_vlan v).
Proof. by apply frames_modify. Qed.
#[export] Hint Resolve frames_start_timer frames_init_timer frames_timer_expired
  frames_set_msrp_leaveall_active frames_set_mvrp_leaveall_active frames_set_domain_attr
  frames_set_boundary frames_set_domain_vlan : keeps.

Lemma frames_start_mvrp_leaveall i : frames (start_mvrp_leaveall i).
Proof. unfold start_mvrp_leaveall. eauto with keeps. Qed.
Lemma frames_start_msrp_leaveall i : frames (start_msrp_leaveall i).
Proof. unfold start_msrp_leaveall. eauto with keeps. Qed.
#[export] Hint Resolve frames_start_mvrp_leaveall frames_start_msrp_leaveall : keeps.

(** ** The packet under construction *)

Lemma frames_wr_bytes l : forall off, frames (wr_bytes off l).
Proof. induction l as [|b l IH]; intros off; cbn; keeps_auto. Qed.
#[export] Hint Resolve frames_wr_bytes : keeps.
Lemma frames_memset off v n : frames (memset off v n).
Proof. unfold memset. keeps_auto. Qed.
Lemma frames_memmove d s n : frames (memmove d s n).
Proof. unfold memmove. keeps_auto. Qed.
#[export] Hint Resolve frames_memset frames_memmove : keeps.
Lemma frames_configure_send_buffer a e : frames (configure_send_buffer a e).
Proof. unfold configure_send_buffer. keeps_auto. by apply frames_modify. Qed.
Lemma reads_attribute_list_length h : reads (attribute_list_length h).
Proof. unfold attribute_list_length. keeps_auto. Qed.
Lemma reads_more_messages m e : reads (more_messages m e).
Proof. unfold more_messages. keeps_auto. Qed.
#[export] Hint Resolve frames_configure_send_buffer reads_attribute_list_length reads_more_messages : keeps.

Lemma frames_strip : frames strip_attribute_list_length_fields.
Proof. unfold strip_attribute_list_length_fields, get_send_ptr. keeps_auto. Qed.
#[export] Hint Resolve frames_strip : keeps.
Lemma frames_force_send i : frames (force_send i).
Proof. unfold force_send, get_send_ptr. keeps_auto. Qed.
#[export] Hint Resolve frames_force_send : keeps.
Lemma frames_send i : frames (send i).
Proof. unfold send, get_send_ptr. keeps_auto. Qed.
Lemma frames_create_empty_msg t la : frames (create_empty_msg t la).
Proof. unfold create_empty_msg, get_send_ptr, set_attribute_list_length. keeps_auto. Qed.
Lemma frames_open_vector_byte b v l : frames (open_vector_byte b v l).
Proof. unfold open_vector_byte, get_send_ptr, set_attribute_list_length. keeps_auto. Qed.
#[export] Hint Resolve frames_send frames_create_empty_msg frames_open_vector_byte : keeps.
Lemma frames_encode_three b e t : frames (mrp_encode_three_packed_event b e t).
Proof. unfold mrp_encode_three_packed_event. keeps_auto. Qed.
Lemma frames_encode_four b e t : frames (mrp_encode_four_packed_event b e t).
Proof. unfold mrp_encode_four_packed_event. keeps_auto. Qed.
#[export] Hint Resolve frames_encode_three frames_encode_four : keeps.

Lemma reads_rd_ntoh_16 off : reads (rd_ntoh_16 off).
Proof. unfold rd_ntoh_16. keeps_auto. Qed.
#[export] Hint Resolve reads_rd_ntoh_16 : keeps.
Lemma reads_check_listener b i : reads (check_listener_firstvalue_merge b i).
Proof. unfold check_listener_firstvalue_merge. keeps_auto. Qed.
Lemma reads_check_talker b i : reads (check_talker_firstvalue_merge b i).
Proof. unfold check_talker_firstvalue_merge. keeps_auto. Qed.
Lemma frames_put_stream_id fv r : frames (put_stream_id fv r).
Proof. unfold put_stream_id. keeps_auto. Qed.
#[export] Hint Resolve reads_check_listener reads_check_talker frames_put_stream_id : keeps.
Lemma frames_encode_listener b p v : frames (encode_listener_message b p v).
Proof. unfold encode_listener_message. keeps_auto. Qed.
Lemma frames_encode_domain b p v : frames (encode_domain_message b p v).
Proof. unfold encode_domain_message. keeps_auto. Qed.
Lemma frames_put_talker fv f r : frames (put_talker_first_value fv f r).
Proof. unfold put_talker_first_value. keeps_auto. Qed.
#[export] Hint Resolve frames_encode_listener frames_encode_domain frames_put_talker : keeps.
Lemma frames_encode_talker b p v : frames (encode_talker_message b p v).
Proof. unfold encode_talker_message. keeps_auto. Qed.
#[export] Hint Resolve frames_encode_talker : keeps.
Lemma reads_deref_vlan i : reads (deref_vlan i).
Proof. unfold deref_vlan. keeps_auto. Qed.
#[export] Hint Resolve reads_deref_vlan : keeps.
Lemma frames_merge_vlan b p v : frames (avb_mvrp_merge_message b p v).
Proof. unfold avb_mvrp_merge_message. keeps_auto. Qed.
#[export] Hint Resolve frames_merge_vlan : keeps.

Section Frames.
  Context `{cfg : Config}.

Lemma frames_encode_msg b p v : frames (encode_msg b p v).
Proof. unfold encode_msg, avb_srp_encode_message. keeps_auto. Qed.
Hint Resolve frames_encode_msg : keeps.
Lemma frames_try_merge p v e : frames (try_merge p v e).
Proof. unfold try_merge. keeps_auto. Qed.

(** ** The AVB manager *)

Lemma frames_upd_source i f : frames (upd_source i f).
Proof.
  apply keeps_store. intros w w'. destruct (_ !! _); [|done]. intros [= <-]. by split_and!.
Qed.
Lemma frames_upd_sink i f : frames (upd_sink i f).
Proof.
  apply keeps_store. intros w w'. destruct (_ !! _); [|done]. intros [= <-]. by split_and!.
Qed.
Hint Resolve frames_upd_source frames_upd_sink : keeps.
Lemma reads_source_index id : reads (avb_get_source_stream_index_from_stream_id id).
Proof. unfold avb_get_source_stream_index_from_stream_id. keeps_auto. Qed.
Lemma reads_sink_index id : reads (avb_get_sink_stream_index_from_stream_id id).
Proof. unfold avb_get_sink_stream_index_from_stream_id. keeps_auto. Qed.
Lemma reads_sink_pointer p : reads (avb_get_sink_stream_index_from_pointer p).
Proof. unfold avb_get_sink_stream_index_from_pointer. keeps_auto. Qed.
Lemma frames_set_avb_source_port i p : frames (set_avb_source_port i p).
Proof. unfold set_avb_source_port. keeps_auto. Qed.
Lemma reads_get_source_state i : reads (avb_get_source_state i).
Proof. unfold avb_get_source_state, get_source. keeps_auto. Qed.
Lemma frames_set_source_state i s : frames (avb_set_source_state i s).
Proof. unfold avb_set_source_state. keeps_auto. Qed.
Lemma reads_get_source_vlan i : reads (avb_get_source_vlan i).
Proof. unfold avb_get_source_vlan, get_source. keeps_auto. Qed.
Lemma frames_set_source_vlan i v : frames (avb_set_source_vlan i v).
Proof. unfold avb_set_source_vlan. keeps_auto. Qed.
Lemma reads_get_sink_vlan i : reads (avb_get_sink_vlan i).
Proof. unfold avb_get_sink_vlan, get_sink. keeps_auto. Qed.
Lemma frames_set_sink_vlan i v : frames (avb_set_sink_vlan i v).
Proof. unfold avb_set_sink_vlan, get_sink. keeps_auto. Qed.

(** ** Bandwidth *)

Lemma frames_port_bandwidth_add port x : frames (port_bandwidth_add port x).
Proof. unfold port_bandwidth_add. keeps_auto. by apply frames_port_set. Qed.
Hint Resolve frames_port_bandwidth_add : keeps.
Lemma frames_increase m x port : frames (srp_increase_port_bandwidth m x port).
Proof. unfold srp_increase_port_bandwidth. keeps_auto. Qed.
Lemma frames_decrease m x port : frames (srp_decrease_port_bandwidth m x port).
Proof. unfold srp_decrease_port_bandwidth. keeps_auto. Qed.
End Frames.

#[export] Hint Resolve frames_encode_msg frames_try_merge frames_upd_source frames_upd_sink
  reads_source_index reads_sink_index reads_sink_pointer frames_set_avb_source_port
  reads_get_source_state frames_set_source_state reads_get_source_vlan frames_set_source_vlan
  reads_get_sink_vlan frames_set_sink_vlan frames_increase frames_decrease : keeps.
