(* ===== verification/MrpRxSafe.v ===== *)
(** The reception of MRP packets on a device with one port terminates without
    undefined behaviour on every packet, and keeps the invariant. *)
From S2P Require Import Prelude Bytes MiscTimer MrpTypes MrpMatch SrpTable MrpPdu SrpEncode.
From S2P Require Import MrpCore MrpMachine MrpSort MvrpVlan AvbApp SrpApp MrpRx.
From S2P Require Import MrpInv MrpFrames.
From Stdlib Require Import ZArith Lia.
From stdpp Require Import base list list_numbers numbers.
#[local] Open Scope Z_scope.

Section RxSafe.
  Context `{cfg : Config} `{bg : Begun} (tot : bool) (L : list nat -> Prop) (RX : nat).
  #[local] Abbreviation ensures := (ensures tot L RX).
  #[local] Abbreviation ensures_in := (ensures_in tot L RX).

(** The received packet has [n] bytes from [off] on. *)
Definition rx_room (off n : Z) : Prop := tot = true -> 0 <= off /\ off + n <= Z.of_nat RX.

Lemma ens_rx_at off n j : rx_room off n -> 0 <= j < n -> ensures (rx (off + j)) byte_ok.
Proof. intros H Hj. apply ens_rx. intros Ht. specialize (H Ht). lia. Qed.

Lemma ens_rx_0 off n : rx_room off n -> 0 < n -> ensures (rx off) byte_ok.
Proof. intros H Hj. apply ens_rx. intros Ht. specialize (H Ht). lia. Qed.

Lemma ens_rx_bytes_at k off n j :
  rx_room off n -> 0 <= j -> j + Z.of_nat k <= n -> ensures (rx_bytes k (off + j)) (fun _ => True).
Proof. intros H Hj Hk. apply ens_rx_bytes. intros Ht. specialize (H Ht). lia. Qed.

Lemma ens_rx_ntoh_16 off n j :
  rx_room off n -> 0 <= j -> j + 2 <= n -> ensures (rx_ntoh_16 (off + j)) (fun _ => True).
Proof.
  intros H Hj Hn. unfold rx_ntoh_16. rewrite <- Z.add_assoc.
  repeat (eapply ens_bind; [eapply ens_rx_at; [exact H|lia]|]; intros ? _). by apply ens_ret.
Qed.

Lemma ens_rx_ntoh_32 off n j :
  rx_room off n -> 0 <= j -> j + 4 <= n -> ensures (rx_ntoh_32 (off + j)) (fun _ => True).
Proof.
  intros H Hj Hn. unfold rx_ntoh_32. rewrite <- !Z.add_assoc.
  repeat (eapply ens_bind; [eapply ens_rx_at; [exact H|lia]|]; intros ? _). by apply ens_ret.
Qed.

(** A first value that may be of a Talker Failed attribute. *)
Definition fv_room (fv : Z) : Prop := rx_room fv 34.

Ltac rx_step := eapply ens_bind;
  [ first [ eapply ens_rx_at; [eassumption|vm_compute; intuition congruence]
          | eapply ens_rx_bytes_at; [eassumption|vm_compute; congruence..]
          | eapply ens_rx_ntoh_16; [eassumption|vm_compute; congruence..]
          | eapply ens_rx_ntoh_32; [eassumption|vm_compute; congruence..] ]
  | intros ? _ ].

Lemma ens_rx_stream_id x0 fv i : fv_room fv -> ensures (rx_stream_id x0 fv i) (fun _ => True).
Proof. intros H. unfold rx_stream_id. rx_step. by apply ens_ret. Qed.

Lemma ens_rx_talker_fields fv i r :
  fv_room fv -> ensures (rx_talker_fields fv i r)
    (fun r' => (stream_id0 r', stream_id1 r') = (stream_id0 r, stream_id1 r)).
Proof.
  intros H. unfold rx_talker_fields.
  eapply ens_bind; [by apply (ens_gets _ _ _ _ (fun _ => True))|]. intros x0 _.
  repeat rx_step. by apply ens_ret.
Qed.

(** * The matching functions *)

Definition stream_ok (e : nat) : Prop := (e < AVB_STREAM_TABLE_ENTRIES)%nat.

Lemma ens_upd_entry_field e f :
  (tot = true -> stream_ok e) -> (forall s, entry_id (f s) = entry_id s) ->
  ensures (upd_stream e f) (fun _ => True).
Proof. intros He Hf. apply ens_upd_stream; [done|]. intros. by left. Qed.

(** The tail of [talker_advertise_one_port]: the reservation is filled in from
    the packet. *)
Lemma ens_fill_reservation e fv i :
  fv_room fv -> (tot = true -> stream_ok e) ->
  ensures (s ← get_stream e;
           _ ← whenM (negb (talker_present s))
                (r ← rx_talker_fields fv i (reservation s);
                 _ ← upd_stream e (upd_reservation (fun _ => r));
                 _ ← srp_add_reservation_entry r;
                 skip);
           mret true) (fun _ => True).
Proof.
  intros Hfv He. apply ens_get_stream_in; [done|]. intros s.
  apply (ens_in_write _ _ _ _ _ _ (fun _ => True)); [|intros; by apply ens_ret].
  destruct (negb (talker_present s)); cbn [whenM]; [|apply ens_in_weaken, ens_skip].
  eapply ens_in_read; [apply reads_rx_talker_fields|by apply ens_rx_talker_fields|].
  intros r Hr. apply (ens_in_write _ _ _ _ _ _ (fun _ => True)).
  - apply ens_in_upd_stream. left. exact Hr.
  - intros _ _. eapply ens_bind; [apply ens_srp_add_reservation_entry|]. intros ? _. apply ens_skip.
Qed.

Lemma ens_talker_advertise_one_port p st e fv i failed prio :
  fv_room fv -> attr_ok st -> is_talker (attribute_type st) = true ->
  attribute_info st = InfoStream e ->
  ensures_in (at_attr p st) (talker_advertise_one_port p e fv i failed prio) (fun _ => True).
Proof.
  intros Hfv [Hi Ht] Hty He.
  assert (stream_ok e) as Hok.
  { unfold valid_info in Hi. rewrite He in Hi. apply is_talker_true in Hty as [E|E]; by rewrite E in Hi. }
  assert (forall t, is_talker t = true -> attr_ok (upd_attribute_type (fun _ => t) st)) as Hset.
  { intros t Et. split; [|done]. unfold valid_info. cbn. rewrite He.
    by apply is_talker_true in Et as [->| ->]. }
  unfold talker_advertise_one_port. destruct (negb _).
  { apply ens_in_weaken. eapply ens_bind; [by apply ens_upd_entry_field|]. intros. by apply ens_ret. }
  apply (ens_in_write _ _ _ _ _ _ (fun _ => True)); [|intros; by apply ens_fill_reservation].
  destruct failed; (apply (ens_in_write _ _ _ _ _ _ (fun _ => True));
    [apply ens_in_upd_st; [by apply Hset|done|done]|intros _ _]).
  - eapply ens_bind; [by apply ens_upd_entry_field|]. intros _ _. rx_step.
    eapply ens_bind; [by apply ens_upd_entry_field|]. intros _ _. rx_step.
    by apply ens_upd_entry_field.
  - eapply ens_bind; [apply ens_get_stream; done|]. intros s _.
    eapply ens_bind; [|intros _ _; by apply ens_upd_entry_field].
    apply ens_when. intros _. eapply ens_bind; [by apply ens_upd_entry_field|]. intros _ _.
    apply ens_rx_wr. intros Hx. specialize (Hfv Hx). unfold off_FailureCode. lia.
Qed.

(** What [attribute_info] is in an attribute of a stream type. *)
Lemma stream_type_info st :
  attr_ok st -> is_stream_type (attribute_type st) -> attribute_info st <> InfoNull ->
  exists e, attribute_info st = InfoStream e /\ stream_ok e.
Proof.
  intros [Hi _] Hty Hn. unfold valid_info in Hi. unfold is_stream_type in Hty.
  destruct (attribute_type st), (attribute_info st); try done; try (by destruct Hty as [|[|]]); eauto.
Qed.

Lemma ens_avb_srp_match_talker_advertise p st fv i la failed :
  fv_room fv -> attr_ok st -> is_talker (attribute_type st) = true ->
  ensures_in (at_attr p st) (avb_srp_match_talker_advertise p fv i la failed) (fun _ => True).
Proof.
  intros Hfv Hst Hty. unfold avb_srp_match_talker_advertise. apply ens_in_get_st.
  destruct (decide _) as [|Hn]; [by apply ens_in_weaken, ens_ret|].
  destruct (stream_type_info st Hst) as (e & He & Hok); [|done|].
  { apply is_talker_true in Hty. unfold is_stream_type. tauto. }
  eapply ens_in_read; [apply reads_stream_of|apply ens_stream_of; eauto|]. intros e' He'.
  assert (e' = e) as -> by congruence.
  eapply ens_in_read; [apply reads_get_stream|by apply ens_get_stream|]. intros s _.
  eapply ens_in_read; [apply reads_rx_stream_id|by apply ens_rx_stream_id|]. intros id _.
  eapply ens_in_read; [apply reads_rx|eapply ens_rx_at; [exact Hfv|by vm_compute]|]. intros ts _.
  eapply ens_in_write; [|intros ok _; by apply ens_ret].
  destruct (one_port && _).
  - by apply ens_talker_advertise_one_port.
  - by apply ens_in_weaken, ens_ret.
Qed.

Lemma ens_avb_srp_match_listener p st fv i four :
  fv_room fv -> attr_ok st -> attribute_type st = MSRP_LISTENER ->
  ensures_in (at_attr p st) (avb_srp_match_listener p fv i four) (fun _ => True).
Proof.
  intros Hfv Hst Hty. unfold avb_srp_match_listener. apply ens_in_get_st, ens_in_weaken.
  destruct (decide _) as [|Hn]; [by apply ens_ret|]. destruct (four =? _); [by apply ens_ret|].
  destruct (stream_type_info st Hst) as (e & He & Hok); [unfold is_stream_type; tauto|done|].
  rewrite He. unfold deref_stream. cbn [stream_of].
  eapply ens_bind; [eapply ens_bind; [by apply (ens_ret _ _ _ e (fun x => x = e))|]|].
  - intros ? ->. by apply ens_get_stream.
  - intros s _. eapply ens_bind; [by apply ens_rx_stream_id|]. intros ? _. by apply ens_ret.
Qed.

Lemma ens_avb_srp_match_domain p fv i :
  fv_room fv -> ensures (avb_srp_match_domain p fv i) (fun _ => True).
Proof.
  intros Hfv. unfold avb_srp_match_domain. repeat rx_step. destruct (_ && _); [|by apply ens_ret].
  eapply ens_bind; [by apply (ens_gets _ _ _ _ (fun _ => True))|]. intros cur _.
  eapply ens_bind; [|intros; by apply ens_ret].
  apply ens_when. intros _. by apply ens_modify_view.
Qed.

Lemma ens_avb_mvrp_match_vid_vector p st fv i :
  fv_room fv -> attr_ok st -> attribute_type st = MVRP_VID_VECTOR ->
  ensures_in (at_attr p st) (avb_mvrp_match_vid_vector p fv i) (fun _ => True).
Proof.
  intros Hfv [Hi _] Hty. unfold avb_mvrp_match_vid_vector. apply ens_in_get_st, ens_in_weaken.
  eapply ens_bind; [eapply ens_rx_0; [exact Hfv|done]|]. intros a _. rx_step.
  apply (ens_bind _ _ _ _ _ (fun _ => True)); [|intros; by apply ens_ret].
  unfold valid_info in Hi. rewrite Hty in Hi. destruct (attribute_info st) as [| |e]; [done..|].
  cbn [deref_vlan]. apply (ens_bind _ _ _ _ _ (fun _ => True)); [|intros; by apply ens_ret].
  apply ens_load. intros w Hw. destruct (mvrp w !! e) eqn:E; [done|].
  apply lookup_ge_None in E. destruct Hw as [Hs _ _ _ _ _]. injection Hs as _ _ Hs. lia.
Qed.

(** * One value of a vector *)

Lemma attr_lt p : (p < MRP_MAX_ATTRS -> tot = true -> p < MRP_MAX_ATTRS)%nat.
Proof. done. Qed.

Lemma ens_match_attribute_of_same_type t p fv i three four port la :
  (p < MRP_MAX_ATTRS)%nat -> fv_room fv ->
  ensures (match_attribute_of_same_type t p fv i three four port la) (fun _ => True).
Proof.
  intros Hp Hfv. unfold match_attribute_of_same_type. apply ens_get_st_in; [done|]. intros st Hst.
  destruct (_ || _); [by apply ens_in_weaken, ens_ret|].
  destruct (negb _); [by apply ens_in_weaken, ens_ret|].
  destruct t as [t|]; [|by apply ens_in_weaken, ens_ret].
  destruct (_ && negb (same_type _ _)) eqn:Ety; [by apply ens_in_weaken, ens_ret|].
  assert (is_talker (attribute_type st) = true /\ is_talker t = true \/ attribute_type st = t) as Hty.
  { apply andb_false_iff in Ety as [E|E]; apply negb_false_iff in E.
    - left. by apply andb_true_iff in E.
    - right. by apply same_type_true. }
  destruct t; try (by apply ens_in_weaken, ens_ret).
  - apply ens_avb_srp_match_talker_advertise; [done..|]. by destruct Hty as [[]| ->].
  - apply ens_avb_srp_match_talker_advertise; [done..|]. by destruct Hty as [[]| ->].
  - apply ens_avb_srp_match_listener; [done..|]. by destruct Hty as [[]|].
  - by apply ens_in_weaken, ens_avb_srp_match_domain.
  - apply ens_avb_mvrp_match_vid_vector; [done..|]. by destruct Hty as [[]|].
Qed.

Context (HL : tot = true -> exists l, L = eq l).
Context (port : Z) (Hport : 0 <= port < Z.of_nat MRP_NUM_PORTS).

Lemma ens_mrp_in three four p :
  (tot = true -> p < MRP_MAX_ATTRS)%nat -> ensures (mrp_in three four p port) (fun _ => True).
Proof.
  intros Hp. unfold mrp_in.
  repeat (destruct (three =? _); [apply ens_mrp_update_state; [|done..];
    unfold plain_event, transmits; intuition discriminate|]). apply ens_skip.
Qed.

Lemma ens_offer_value js t fv i three four la matched :
  Forall (fun p => p < MRP_MAX_ATTRS)%nat js -> fv_room fv ->
  ensures (offer_value js t fv i three four port la matched) (fun _ => True).
Proof.
  intros Hjs Hfv. revert matched. induction Hjs as [|j js Hj Hjs IH]; intros matched; cbn [offer_value].
  - by apply ens_ret.
  - eapply ens_bind; [by apply ens_match_attribute_of_same_type|]. intros m _.
    eapply ens_bind; [apply ens_when; intros _; by apply ens_mrp_in|]. intros _ _. apply IH.
Qed.

Lemma ens_attribute_type_event t e :
  plain_event e -> ensures (attribute_type_event t e port) (fun _ => True).
Proof.
  intros He. apply ens_for_attr_list; [done|]. intros a Ha.
  eapply ens_bind; [by apply ens_get_st|]. intros st _.
  apply ens_when. intros _. by apply ens_mrp_update_state.
Qed.

(** * The loops over values, vectors and messages *)

Context (Hprop : two_ports = true -> forall t fv i three four,
  ensures (propagate_value t fv i three four port) (fun _ => True)).
Context (len : Z) (Hslack : tot = true -> 0 <= len /\ len + 33 <= Z.of_nat RX).

Lemma div_lt i n k : 0 <= i < n -> 0 < k -> 0 <= i / k < (n + (k - 1)) / k.
Proof.
  intros Hi Hk. split; [apply Z.div_pos; lia|].
  apply Z.lt_le_trans with (i / k + 1); [lia|].
  replace (i / k + 1) with ((i + 1 * k) / k) by (rewrite Z.div_add; lia).
  apply Z.div_le_mono; lia.
Qed.

Definition fourpacked_len (t : option mrp_attribute_type) (num : Z) : Z :=
  if has_fourpacked_events t then (num + 3) / 4 else 0.

(** The vector at [fv] with [num] values lies within the packet. *)
Definition vector_room (t : option mrp_attribute_type) (fv fvl num : Z) : Prop :=
  tot = true -> 0 <= fv /\ 0 <= fvl /\ fv + fvl + (num + 2) / 3 + fourpacked_len t num <= len.

Lemma vector_room_at t fv fvl num i :
  vector_room t fv fvl num -> (tot = true -> 0 <= i < num) ->
  (tot = true -> 0 <= fv + fvl + i / 3 < Z.of_nat RX) /\
  (has_fourpacked_events t = true -> tot = true ->
     0 <= fv + fvl + (num + 2) / 3 + i / 4 < Z.of_nat RX) /\ fv_room fv.
Proof.
  unfold fv_room, rx_room. intros Hv Hi.
  assert (tot = true -> 0 <= i / 3 < (num + 2) / 3 /\ 0 <= i / 4 < (num + 3) / 4) as Hd.
  { intros Ht. specialize (Hi Ht). split.
    - replace (num + 2) with (num + (3 - 1)) by lia. by apply div_lt.
    - replace (num + 3) with (num + (4 - 1)) by lia. by apply div_lt. }
  split_and!; [intros Ht|intros Hf Ht|intros Ht];
    specialize (Hv Ht); specialize (Hd Ht); specialize (Hslack Ht); unfold fourpacked_len in Hv.
  - destruct (has_fourpacked_events t); lia.
  - rewrite Hf in Hv. lia.
  - destruct (has_fourpacked_events t); lia.
Qed.

Lemma ens_process_values n t fv fvl num i la :
  vector_room t fv fvl num -> (tot = true -> 0 <= i /\ i + Z.of_nat n = num) ->
  ensures (process_values n t fv fvl ((num + 2) / 3) i port la) (fun _ => True).
Proof.
  intros Hv. revert i. induction n as [|n IH]; intros i Hi; cbn [process_values]; [apply ens_skip|].
  destruct (vector_room_at t fv fvl num i) as (H3 & H4 & Hfv); [done|intros Ht; specialize (Hi Ht); lia|].
  eapply ens_bind; [by apply ens_rx|]. intros v _. destruct (0xD7 <? v); [apply ens_skip|].
  apply (ens_bind _ _ _ _ _ (fun _ => True)).
  { destruct (has_fourpacked_events t); [|by apply ens_ret].
    eapply ens_bind; [apply ens_rx; by apply H4|]. intros ? _. by apply ens_ret. }
  intros four _. apply (ens_bind _ _ _ _ _ (fun _ => True)).
  { apply ens_offer_value; [|done]. apply list.Forall_forall. intros. by apply attr_indices_lt. }
  intros m _. apply (ens_bind _ _ _ _ _ (fun _ => True)).
  { apply ens_when. intros Htp. apply andb_true_iff in Htp as [Htp _]. by apply Hprop. }
  intros _ _. apply IH. intros Ht. specialize (Hi Ht). lia.
Qed.

Lemma ens_rx_more msg : (tot = true -> 0 <= msg) ->
  ensures (rx_more msg len) (fun b => b = true -> msg < len).
Proof.
  intros Hm. unfold rx_more. destruct (msg <? len) eqn:E; [|by apply ens_ret].
  apply Z.ltb_lt in E.
  eapply ens_bind; [apply ens_rx; intros Ht; specialize (Hslack Ht); specialize (Hm Ht); lia|].
  intros a _. destruct (negb _); [by apply ens_ret|].
  eapply ens_bind; [apply ens_rx; intros Ht; specialize (Hslack Ht); specialize (Hm Ht); lia|].
  intros b _. by apply ens_ret.
Qed.

Lemma num_values_nonneg h l : byte_ok h -> byte_ok l -> 0 <= Z.shiftl (Z.land h 0x1f) 8 + l.
Proof.
  intros Hh Hl. apply Z.add_nonneg_nonneg; [|apply Hl].
  apply Z.shiftl_nonneg, Z.land_nonneg. by right.
Qed.

Lemma ens_rx_attribute_list_length hdr :
  (tot = true -> 0 <= hdr < len) -> ensures (rx_attribute_list_length hdr) (fun _ => True).
Proof.
  intros Hh. unfold rx_attribute_list_length.
  do 2 (eapply ens_bind; [apply ens_rx; intros Ht; specialize (Hslack Ht); specialize (Hh Ht); lia|];
        intros ? _). by apply ens_ret.
Qed.

(** The vectors of a message are read from [start] on. *)
Lemma ens_process_vectors etype hdr fvl t start :
  (tot = true -> 0 <= hdr < len) -> (tot = true -> 0 <= fvl) -> (tot = true -> 0 <= start) ->
  ensures (process_vectors etype hdr fvl len port t start)
    (fun r => forall msg, r = Some msg -> tot = true -> start <= msg).
Proof.
  intros Hh Hfvl Hs. unfold process_vectors.
  apply (ens_loopM _ _ _ _ (fun n msg => tot = true -> start <= msg /\ n = Z.to_nat (len - msg)))
    with (n := Z.to_nat (len - start)).
  2: { done. }
  2: { intros Ht. specialize (Hs Ht). unfold rx_fuel. lia. }
  intros n msg HJ. eapply ens_bind.
  { apply ens_rx_more. intros Ht. specialize (HJ Ht). specialize (Hs Ht). lia. }
  intros more Hmore. destruct more; [|apply ens_ret; intros ? [= <-] Ht; by apply HJ].
  specialize (Hmore eq_refl).
  do 2 (eapply ens_bind; [apply ens_rx; intros Ht; specialize (Hslack Ht); specialize (HJ Ht);
                          specialize (Hs Ht); lia|]; intros ? ?).
  set (num := Z.shiftl _ 8 + _). assert (0 <= num) as Hnum by by apply num_values_nonneg.
  pose proof (Z.div_pos (num + 2) 3 ltac:(lia) ltac:(lia)) as H3.
  pose proof (Z.div_pos (num + 3) 4 ltac:(lia) ltac:(lia)) as H4.
  fold (fourpacked_len t num).
  assert (0 <= fourpacked_len t num) as H4'
    by (unfold fourpacked_len; destruct (has_fourpacked_events t); lia).
  apply (ens_bind _ _ _ _ _ (fun _ => True)).
  { destruct (etype =? _); [|by apply ens_ret].
    eapply ens_bind; [by apply ens_rx_attribute_list_length|]. intros ? _. by apply ens_ret. }
  intros overlong _. destruct (overlong || _) eqn:Eo; [by apply ens_ret|].
  apply orb_false_iff in Eo as [_ Eo]. apply Z.ltb_ge in Eo. unfold sizeof_mrp_vector_header in *.
  eapply ens_bind; [apply ens_when; intros _; apply ens_attribute_type_event|].
  { unfold plain_event, transmits. intuition discriminate. }
  intros _ _. eapply ens_bind; [apply ens_process_values|].
  - intros Ht. specialize (HJ Ht). specialize (Hs Ht). specialize (Hfvl Ht). lia.
  - intros Ht. lia.
  - intros _ _. apply ens_ret. exists (Z.to_nat (len - (msg + (2 + fvl + (num + 2) / 3 + fourpacked_len t num)))).
    split; intros Ht; specialize (HJ Ht); specialize (Hfvl Ht); specialize (Hs Ht); lia.
Qed.

Lemma ens_avb_mrp_process_packet etype :
  ensures (avb_mrp_process_packet etype len port) (fun _ => True).
Proof.
  unfold avb_mrp_process_packet.
  eapply ens_bind; [apply ens_rx; intros Ht; specialize (Hslack Ht); lia|]. intros v _.
  apply (ens_loopM _ _ _ _ (fun n msg => tot = true -> 0 <= msg /\ n = Z.to_nat (len - msg)))
    with (n := Z.to_nat (len - sizeof_mrp_header)).
  2: { done. }
  2: { intros Ht. unfold rx_fuel, sizeof_mrp_header. lia. }
  intros n msg HJ. eapply ens_bind.
  { apply ens_rx_more. intros Ht. specialize (HJ Ht). lia. }
  intros more Hmore. destruct more; [|by apply ens_ret]. specialize (Hmore eq_refl).
  do 2 (eapply ens_bind; [apply ens_rx; intros Ht; specialize (Hslack Ht); specialize (HJ Ht); lia|];
        intros ? ?).
  destruct (_ && _); [by apply ens_ret|]. eapply ens_bind.
  - apply ens_process_vectors; intros Ht; specialize (HJ Ht); unfold byte_ok, sizeof_mrp_msg_header in *;
      [lia|lia|destruct (negb _); lia].
  - intros [msg'|] Hm; [|by apply ens_ret]. apply ens_ret.
    exists (Z.to_nat (len - (msg' + 2))). specialize (Hm msg' eq_refl).
    split; intros Ht; specialize (HJ Ht); specialize (Hm Ht); unfold sizeof_mrp_msg_header in *;
      destruct (negb (etype =? AVB_SRP_ETHERTYPE)); lia.
Qed.
End RxSafe.

(** C40: on a device with one port, any received MRP packet — malformed ones
    included — is processed to the end without undefined behaviour (no null or
    stray pointer, no index out of an array, no endless loop), provided the
    buffer it lies in extends 33 bytes behind it; processing keeps the invariant
    of the stack (with the set of attributes that have begun), and neither adds to nor
    reorders the list of attributes. *)
Theorem avb_mrp_process_packet_safe `{cfg : Config} `{bg : Begun} etype len port l w :
  MRP_NUM_PORTS = 1%nat -> port = 0 -> 0 <= len ->
  len + 33 <= Z.of_nat (length (rx_buf (env w))) ->
  Inv (eq l) (length (rx_buf (env w))) w ->
  exists w', avb_mrp_process_packet etype len port w = Some (tt, w') /\
    Inv (eq l) (length (rx_buf (env w))) w'.
Proof.
  intros H1 -> Hlen Hslack Hw.
  pose proof (ens_avb_mrp_process_packet true (eq l) (length (rx_buf (env w)))) as H.
  specialize (H (fun _ => ex_intro _ l eq_refl) 0 ltac:(lia)).
  assert (two_ports = false) as H2 by (unfold two_ports; by rewrite H1).
  specialize (H (fun E => ltac:(congruence)) len (fun _ => conj Hlen Hslack) etype w Hw).
  destruct (avb_mrp_process_packet etype len 0 w) as [[[] w']|]; [|discriminate H].
  exists w'. by destruct H.
Qed.

#[local] Existing Instance default_config.

(** A packet with one message: a Listener Ready that leaves stream (1, 2). *)
Definition sample_packet : list Z :=
  [0; 3; 8; 0; 14; 0; 1; 0; 0; 0; 1; 0; 0; 0; 2; 180; 128; 0; 0; 0; 0] ++ replicate 33 0.

Definition receiving_world : world := upd_env (upd_rx_buf (fun _ => sample_packet)) sample_world.

Definition sample_begun : Begun := fun j => j = 1%nat.

Lemma receiving_Inv : @Inv default_config sample_begun (eq [0; 1; 2; 3; 4; 5; 6; 7; 8]%nat) 54 receiving_world.
Proof.
  split.
  - reflexivity.
  - assert (forall st, valid_info 6 2 st -> leaveTimer_ok st -> attr_ok st) as Hok by done.
    repeat (apply Forall_cons_2; [apply Hok; [first [exact I | apply Nat.ltb_lt; reflexivity]|
      split; [first [by left|by right]|reflexivity]]|]).
    apply Forall_nil_2.
  - intros i j e f Hi Hj He Hn.
    assert (forall k g, stream_table (srp receiving_world) !! k = Some g -> entry_id g <> (0, 0) ->
      k = 5%nat) as H5.
    { intros k g Hk Hg. do 6 (destruct k as [|k]; [try done; by injection Hk as <-|]). discriminate Hk. }
    rewrite (H5 i e Hi Hn). symmetry. apply (H5 j f Hj). by rewrite <- He.
  - repeat (apply Forall_cons_2; [by split|]). apply Forall_nil_2.
  - eexists. split; [reflexivity|exact sample_linked].
  - intros j st -> [= <-]. reflexivity.
Defined.

Lemma avb_mrp_process_packet_safe_witness :
  length (rx_buf (env receiving_world)) = 54%nat /\
  exists w', avb_mrp_process_packet AVB_SRP_ETHERTYPE 21 0 receiving_world = Some (tt, w') /\
    @Inv default_config sample_begun (eq [0; 1; 2; 3; 4; 5; 6; 7; 8]%nat) 54 w' /\
    registrar_state <$> attrs (mrp w') !! 1%nat = Some MRP_LV.
Proof.
  split; [reflexivity|].
  destruct (@avb_mrp_process_packet_safe default_config sample_begun AVB_SRP_ETHERTYPE 21 0 [0; 1; 2; 3; 4; 5; 6; 7; 8]%nat
    receiving_world eq_refl eq_refl ltac:(lia) ltac:(vm_compute; congruence) receiving_Inv)
    as (w' & E & Hw).
  exists w'. split; [exact E|]. split; [exact Hw|].
  assert ((fun r => registrar_state <$> attrs (mrp (snd r)) !! 1%nat) <$>
    avb_mrp_process_packet AVB_SRP_ETHERTYPE 21 0 receiving_world = Some (Some MRP_LV)) as Hr
    by (vm_compute; reflexivity).
  rewrite E in Hr. by injection Hr.
Defined.

(** The room behind the packet is needed: with another protocol version than 0
    the length of the first value is not checked against the attribute's type,
    and the stream identifier of this 9-byte packet is read from behind its end. *)
Example packet_reads_past_end :
  avb_mrp_process_packet AVB_SRP_ETHERTYPE 9 0
    (upd_env (upd_rx_buf (fun _ => [1; 3; 0; 0; 6; 0; 1; 36; 64])) sample_world) = None.
Proof. vm_compute. reflexivity. Qed.
