(* ===== verification/MrpKeeps.v ===== *)
(** Every operation of the stack keeps the invariant of MrpInv, on devices with
    any number of ports. *)
From S2P Require Import Prelude Bytes MiscTimer MrpTypes MrpMatch SrpTable MrpPdu SrpEncode.
From S2P Require Import MrpCore MrpMachine MrpSort MvrpVlan AvbApp SrpApp MrpRx.
From S2P Require Import MrpPeriodic MrpInv MrpFrames MrpRxSafe.
From Stdlib Require Import ZArith Lia.
From stdpp Require Import base list list_numbers numbers.
#[local] Open Scope Z_scope.

Section Keeps.
  Context `{cfg : Config}.

(** The sorted list has every attribute once. *)
Definition all_listed (l : list nat) : Prop := l ≡ₚ attr_indices.

(** A step keeps the invariant, whatever the length of the received packet. *)
Definition inv_step (w w' : world) : Prop :=
  forall (bg : Begun) RX, Inv all_listed RX w -> Inv all_listed RX w'.

#[export] Instance inv_step_preorder : PreOrder inv_step.
Proof. split; unfold inv_step; [by intros w|]. intros w1 w2 w3; auto. Qed.

Lemma ens_inv_step {A} (m : SM A) P :
  (forall (bg : Begun) RX, ensures false all_listed RX m P) -> keeps inv_step m.
Proof. intros H w a w' E bg RX Hw. specialize (H bg RX w Hw). rewrite E in H. apply H. Qed.

Lemma inv_step_ens `{bg : Begun} {A} (m : SM A) RX :
  keeps inv_step m -> ensures false all_listed RX m (fun _ => True).
Proof. intros H w Hw. destruct (m w) as [[a w']|] eqn:E; [|done]. split; [|done]. by eapply H. Qed.

Lemma frames_inv_step {A} (m : SM A) : frames m -> keeps inv_step m.
Proof. intros H w a w' E bg RX. apply Inv_view. exact (H w a w' E). Qed.
End Keeps.

#[export] Hint Extern 6 (keeps inv_step _) => apply frames_inv_step; solve [eauto 4 with keeps] : keeps.

Section Ops.
  Context `{cfg : Config}.

Lemma inv_upd_st p f : neutral f -> keeps inv_step (upd_st p f).
Proof. intros Hf. eapply ens_inv_step. intros bg RX. by apply ens_upd_st_neutral. Qed.

Lemma inv_upd_stream i f :
  (forall e, entry_id (f e) = entry_id e \/ entry_id (f e) = (0, 0)) -> keeps inv_step (upd_stream i f).
Proof. intros Hf. eapply ens_inv_step. intros bg RX. by apply ens_upd_stream. Qed.

Ltac inv_auto :=
  repeat first
    [ keeps_step
    | apply inv_upd_st; by intros []
    | apply inv_upd_stream; intros []; first [by left | by right] ].

(** ** Changes of applicant states *)

Lemma inv_srp_remove_reservation_entry id : keeps inv_step (srp_remove_reservation_entry id).
Proof. unfold srp_remove_reservation_entry. inv_auto. Qed.
Hint Resolve inv_srp_remove_reservation_entry : keeps.

Lemma inv_srp_cleanup e p : keeps inv_step (srp_cleanup_reservation_entry e p).
Proof.
  unfold srp_cleanup_reservation_entry, avb_1722_remove_stream_from_table. inv_auto.
Qed.
Hint Resolve inv_srp_cleanup : keeps.

Lemma inv_mrp_change_applicant_state p e new : keeps inv_step (mrp_change_applicant_state p e new).
Proof. unfold mrp_change_applicant_state. inv_auto. Qed.
Hint Resolve inv_mrp_change_applicant_state : keeps.

Lemma inv_doTx p v port : keeps inv_step (doTx p v port).
Proof. unfold doTx, get_send_ptr. inv_auto. Qed.
Hint Resolve inv_doTx : keeps.

Lemma inv_update_applicant e p port : keeps inv_step (update_applicant e p port).
Proof. unfold update_applicant, switch_applicant. inv_auto. Qed.
Hint Resolve inv_update_applicant : keeps.

(** ** Events *)

(** The events that do not end the registrar's state [MRP_LV] by themselves. *)
Definition timer_safe (e : mrp_event) : Prop :=
  e <> MRP_EVENT_BEGIN /\ e <> MRP_EVENT_LEAVETIMER /\ e <> MRP_EVENT_FLUSH.

Lemma leaveTimer_ok_registrar e four now st :
  timer_safe e -> leaveTimer_ok st -> leaveTimer_ok (registrar_step e four now st).
Proof.
  unfold timer_safe, leaveTimer_ok. intros He [Hm Ha]. cbn. unfold leaveTimer_next.
  destruct (registrar_state st), e; cbn in *; try done; try naive_solver; by destruct Hm; auto.
Qed.

(** The length of an array does not matter where an access outside it stops
    the execution: the registrar's part of an event, from any state. *)
Lemma inv_update_registrar e p four port :
  timer_safe e -> (e = MRP_EVENT_RECEIVE_LEAVE_ALL -> 0 <= port < Z.of_nat MRP_NUM_PORTS) ->
  keeps inv_step (update_registrar e p four port).
Proof.
  intros He Hport w [] w' E bg RX Hw. destruct (attrs (mrp w) !! p) as [st|] eqn:Ep.
  - assert (attr_ok st) as [Hi Ht] by (destruct Hw; by eapply Forall_lookup_1).
    destruct (update_registrar_run e p four port w st Ep) as (now & w1 & E1 & Hf & Ha).
    { intros Ee. eapply Inv_leaveall_port; eauto. }
    rewrite E in E1. injection E1 as <-.
    eapply machine_frame_Inv; [exact Hf|exact Ha|].
    apply (Inv_set_attr _ _ _ _ st); [done|done| |done|].
    { split; [done|]. by apply leaveTimer_ok_registrar. }
    cbn. unfold leaveTimer_next. by destruct (registrar_state st), e.
  - unfold update_registrar, mbind, M_bind, get_st, load in E. by rewrite Ep in E.
Qed.

Lemma inv_mrp_update_state e p four port :
  timer_safe e -> (e = MRP_EVENT_RECEIVE_LEAVE_ALL -> 0 <= port < Z.of_nat MRP_NUM_PORTS) ->
  keeps inv_step (mrp_update_state e p four port).
Proof.
  intros He Hport. unfold mrp_update_state.
  apply keeps_bind; [apply _|by apply inv_update_registrar|intros; apply inv_update_applicant].
Qed.

Lemma inv_mrp_mad_begin p : keeps inv_step (mrp_mad_begin p).
Proof. eapply ens_inv_step. intros bg RX. by apply ens_mrp_mad_begin. Qed.
Lemma inv_mrp_get_attr : keeps inv_step mrp_get_attr.
Proof. eapply ens_inv_step. intros bg RX. apply ens_mrp_get_attr. Qed.
Lemma inv_srp_add_reservation_entry r : keeps inv_step (srp_add_reservation_entry r).
Proof. eapply ens_inv_step. intros bg RX. apply ens_srp_add_reservation_entry. Qed.
Lemma inv_srp_add_stream_id_only id : keeps inv_step (srp_add_reservation_entry_stream_id_only id).
Proof. eapply ens_inv_step. intros bg RX. apply ens_srp_add_reservation_entry_stream_id_only. Qed.

Ltac event := apply inv_mrp_update_state; [by split_and!|done].

Lemma inv_mrp_mad_join p new : keeps inv_step (mrp_mad_join p new).
Proof. unfold mrp_mad_join. inv_auto; event. Qed.
Lemma inv_mrp_mad_leave p : keeps inv_step (mrp_mad_leave p).
Proof. unfold mrp_mad_leave. inv_auto; event. Qed.
Hint Resolve inv_mrp_mad_begin inv_mrp_get_attr inv_srp_add_reservation_entry
  inv_srp_add_stream_id_only inv_mrp_mad_join inv_mrp_mad_leave : keeps.

Lemma keeps_bind_ens {A B} (m : SM A) (k : A -> SM B) P :
  (forall (bg : Begun) RX, ensures false all_listed RX m P) -> (forall a, P a -> keeps inv_step (k a)) ->
  keeps inv_step (m ≫= k).
Proof.
  intros Hm Hk w b w' (a & w1 & E1 & E2)%M_bind_Some bg RX Hw.
  specialize (Hm _ _ w Hw). rewrite E1 in Hm. destruct Hm as [Hw1 Ha]. by eapply Hk.
Qed.

(** An information pointer that goes with a type. *)
Definition info_fits (t : mrp_attribute_type) (info : info_ptr) : Prop :=
  forall st, attribute_type st = t -> attribute_info st = info ->
    valid_info AVB_STREAM_TABLE_ENTRIES num_entries st.

Lemma inv_mrp_attribute_init o t port h info :
  info_fits t info -> keeps inv_step (mrp_attribute_init o t port h info).
Proof. intros H. eapply ens_inv_step. intros bg RX. by apply ens_mrp_attribute_init. Qed.

Lemma stream_fits t e :
  is_stream_type t -> (e < AVB_STREAM_TABLE_ENTRIES)%nat -> info_fits t (InfoStream e).
Proof.
  unfold is_stream_type. intros Ht He st Et Ei. unfold valid_info. rewrite Et, Ei. destruct t; try done;
    by destruct Ht as [|[|]].
Qed.

Lemma own_info_fits st : attr_ok st -> info_fits (attribute_type st) (attribute_info st).
Proof. intros [H _] st' Et Ei. unfold valid_info in *. by rewrite Et, Ei. Qed.

(** * VLANs *)

Lemma inv_upd_entry i f : keeps inv_step (upd_entry i f).
Proof.
  apply frames_inv_step, keeps_store. intros w w'. destruct (mvrp w !! i); [|done].
  intros [= <-]. split_and!; try done. unfold sizes. cbn. by rewrite length_insert.
Qed.
Hint Resolve inv_upd_entry : keeps.

Lemma reads_get_entry i : reads (get_entry i).
Proof. apply keeps_load, _. Qed.
Hint Resolve reads_get_entry : keeps.

Lemma reads_entry_port_is e port : reads (entry_port_is e port).
Proof. unfold entry_port_is. keeps_auto. Qed.
Hint Resolve reads_entry_port_is : keeps.

Lemma reads_find_vlan f l : (forall e, reads (f e)) -> forall r, reads (find_vlan f l r).
Proof. intros Hf. induction l as [|i l IH]; intros r; cbn; keeps_auto; apply IH || apply Hf. Qed.

Lemma reads_first_entry f : (forall e, reads (f e)) -> reads (first_entry f).
Proof. intros Hf. unfold first_entry. keeps_auto; apply Hf. Qed.
Lemma reads_vlan_entry_to_join v port : reads (vlan_entry_to_join v port).
Proof.
  unfold vlan_entry_to_join.
  apply keeps_bind; [apply _|apply reads_find_vlan; intros e; keeps_auto|intros found].
  apply keeps_bind; [apply _| |intros [i|]].
  - destruct found; [keeps_auto|]. apply reads_first_entry. intros e. keeps_auto.
  - keeps_auto.
  - apply reads_first_entry. intros e. keeps_auto.
Qed.

Lemma avb_mvrp_init_inv : keeps inv_step avb_mvrp_init.
Proof.
  unfold avb_mvrp_init. eapply ens_inv_step. intros bg RX.
  apply ens_forM. intros j Hj. apply ens_forM. intros i Hi.
  apply elem_of_seq in Hj, Hi. cbn zeta.
  assert (j * AVB_MAX_NUM_VLAN + i < num_entries)%nat as Hidx by (unfold num_entries; nia).
  assert (forall f, ensures false all_listed RX (upd_entry (j * AVB_MAX_NUM_VLAN + i) f) (fun _ => True)) as Hu.
  { intros f. apply ens_store. intros w Hw. destruct (mvrp w !! _); [|done].
    eapply Inv_view; [|exact Hw]. split_and!; try done. unfold sizes. cbn. by rewrite length_insert. }
  eapply ens_bind; [apply Hu|]. intros _ _. eapply ens_bind; [apply ens_mrp_get_attr|]. intros a _.
  eapply ens_bind; [apply Hu|]. intros _ _. apply ens_mrp_attribute_init; [done..|].
  intros st Et Ei. unfold valid_info. by rewrite Et, Ei.
Qed.

Lemma inv_avb_join_vlan v port : keeps inv_step (avb_join_vlan v port).
Proof.
  unfold avb_join_vlan. apply keeps_bind; [apply _| |intros found].
  { apply frames_inv_step, reads_frames, reads_vlan_entry_to_join. }
  inv_auto.
Qed.
Hint Resolve inv_avb_join_vlan : keeps.

Lemma inv_avb_leave_vlan v : keeps inv_step (avb_leave_vlan v).
Proof.
  unfold avb_leave_vlan. apply keeps_bind; [apply _| |intros found].
  { apply frames_inv_step, reads_frames, reads_find_vlan. intros e. keeps_auto. }
  inv_auto.
Qed.

(** * The SRP application *)

Lemma inv_srp_domain_init : keeps inv_step srp_domain_init.
Proof.
  unfold srp_domain_init. inv_auto. apply inv_mrp_attribute_init.
  intros st Et _. unfold valid_info. by rewrite Et.
Qed.

Lemma inv_srp_domain_join : keeps inv_step srp_domain_join.
Proof. unfold srp_domain_join. inv_auto. Qed.

Lemma inv_create_propagated p new : keeps inv_step (create_propagated_attribute_and_join p new).
Proof.
  unfold create_propagated_attribute_and_join. apply keeps_bind; [apply _|apply inv_mrp_get_attr|].
  intros o. apply (keeps_bind_ens _ _ attr_ok); [intros; by apply ens_get_st|].
  intros st Hst. inv_auto. by apply inv_mrp_attribute_init, own_info_fits.
Qed.
Hint Resolve inv_create_propagated : keeps.

Lemma inv_set_bw entry port x : keeps inv_step (set_bw entry port x).
Proof. unfold set_bw, bw_reserved_set. inv_auto. Qed.
Hint Resolve inv_set_bw : keeps.

Lemma inv_avb_srp_map_join p new l : keeps inv_step (avb_srp_map_join p new l).
Proof. unfold avb_srp_map_join, avb_1722_enable_stream_forwarding. inv_auto. Qed.
Lemma inv_map_leave_listener p a b : keeps inv_step (map_leave_listener p a b).
Proof. unfold map_leave_listener, avb_1722_disable_stream_forwarding. inv_auto. Qed.
Lemma inv_map_leave_talker p a b : keeps inv_step (map_leave_talker p a b).
Proof. unfold map_leave_talker, avb_1722_disable_stream_forwarding. inv_auto. Qed.
Hint Resolve inv_avb_srp_map_join inv_map_leave_listener inv_map_leave_talker : keeps.
Lemma inv_avb_srp_map_leave p : keeps inv_step (avb_srp_map_leave p).
Proof. unfold avb_srp_map_leave. inv_auto. Qed.
Hint Resolve inv_avb_srp_map_leave : keeps.

Lemma inv_listener_join_ind p new four : keeps inv_step (avb_srp_listener_join_ind p new four).
Proof. unfold avb_srp_listener_join_ind. inv_auto. Qed.
Lemma inv_listener_leave_ind p four : keeps inv_step (avb_srp_listener_leave_ind p four).
Proof. unfold avb_srp_listener_leave_ind. inv_auto. Qed.
Lemma inv_domain_join_ind p new : keeps inv_step (avb_srp_domain_join_ind p new).
Proof. unfold avb_srp_domain_join_ind, get_domain_vlan. inv_auto. Qed.
Lemma inv_domain_leave_ind p : keeps inv_step (avb_srp_domain_leave_ind p).
Proof. unfold avb_srp_domain_leave_ind. inv_auto. Qed.
Lemma inv_talker_join_ind p new : keeps inv_step (avb_srp_talker_join_ind p new).
Proof. unfold avb_srp_talker_join_ind. inv_auto. Qed.
Lemma inv_talker_leave_ind p : keeps inv_step (avb_srp_talker_leave_ind p).
Proof. unfold avb_srp_talker_leave_ind. inv_auto. Qed.
Hint Resolve inv_listener_join_ind inv_listener_leave_ind inv_domain_join_ind inv_domain_leave_ind
  inv_talker_join_ind inv_talker_leave_ind : keeps.

(** * Requests *)

Lemma inv_join_propagate p t port h info :
  info_fits t info -> keeps inv_step (_ ← mrp_attribute_init (Some p) t port h info; mrp_mad_begin p).
Proof. intros H. apply keeps_bind; [apply _|by apply inv_mrp_attribute_init|]. intros. inv_auto. Qed.

Lemma reads_match_talker id port : reads (match_talker id port).
Proof. unfold match_talker. keeps_auto. Qed.
Hint Resolve reads_match_talker : keeps.

Lemma inv_leave_talker_attrs id : keeps inv_step (avb_srp_leave_talker_attrs id).
Proof. unfold avb_srp_leave_talker_attrs. inv_auto. Qed.

Lemma inv_leave_listener_attrs id : keeps inv_step (avb_srp_leave_listener_attrs id).
Proof. unfold avb_srp_leave_listener_attrs. inv_auto. Qed.

Ltac init_stream := apply inv_mrp_attribute_init, stream_fits; [unfold is_stream_type; tauto|done].

Lemma inv_create_and_join_talker r : keeps inv_step (avb_srp_create_and_join_talker_advertise_attrs r).
Proof.
  unfold avb_srp_create_and_join_talker_advertise_attrs, get_domain_vlan.
  apply (keeps_bind_ens _ _ entry_ptr); [intros; apply ens_srp_add_reservation_entry|].
  intros [e|] He; [specialize (He e eq_refl)|inv_auto].
  inv_auto; init_stream.
Qed.

Lemma inv_join_listener_early id v : keeps inv_step (join_listener_early id v).
Proof.
  unfold join_listener_early.
  apply (keeps_bind_ens _ _ entry_ptr); [intros; apply ens_srp_add_reservation_entry_stream_id_only|].
  intros [e|] He; [specialize (He e eq_refl)|inv_auto].
  inv_auto; init_stream.
Qed.
Hint Resolve inv_join_listener_early : keeps.

(** ** Joining a stream whose talker is known

    The talker's attribute keeps its type while a VLAN is joined. *)
Definition typed_as (t : nat) (ty : mrp_attribute_type) (w : world) : Prop :=
  exists st, attrs (mrp w) !! t = Some st /\ attribute_type st = ty.

(** No attribute changes its type. *)
Definition types_kept (w w' : world) : Prop :=
  forall t ty, typed_as t ty w -> typed_as t ty w'.

#[export] Instance types_kept_preorder : PreOrder types_kept.
Proof. split; unfold types_kept; eauto. Qed.

Lemma frames_types_kept {A} (m : SM A) : frames m -> keeps types_kept m.
Proof.
  intros H w a w' E t ty. destruct (H w a w' E) as [Ha _]. unfold typed_as. by rewrite Ha.
Qed.

Lemma types_upd_st p f :
  (forall st, attribute_type (f st) = attribute_type st) -> keeps types_kept (upd_st p f).
Proof.
  intros Hf. apply keeps_store. intros w w'. destruct (attrs (mrp w) !! p) as [sp|] eqn:Ep; [|done].
  intros [= <-] t ty (st & Et & Ety). unfold typed_as. cbn.
  destruct (decide (t = p)) as [->|].
  - exists (f sp). rewrite list_lookup_insert_eq by (by eapply lookup_lt_Some).
    split; [done|]. rewrite Hf. congruence.
  - exists st. by rewrite list_lookup_insert_ne.
Qed.

Lemma types_upd_stream i f : keeps types_kept (upd_stream i f).
Proof.
  apply keeps_store. intros w w'. destruct (_ !! _); [|done]. intros [= <-] t ty H. exact H.
Qed.
Lemma types_upd_entry i f : keeps types_kept (upd_entry i f).
Proof.
  apply keeps_store. intros w w'. destruct (_ !! _); [|done]. intros [= <-] t ty H. exact H.
Qed.
Hint Resolve types_upd_stream types_upd_entry : keeps.
Hint Extern 6 (keeps types_kept _) => apply frames_types_kept; solve [eauto 4 with keeps] : keeps.

Ltac types_auto := repeat first [keeps_step | apply types_upd_st; by intros []].

Lemma types_srp_cleanup e p : keeps types_kept (srp_cleanup_reservation_entry e p).
Proof.
  unfold srp_cleanup_reservation_entry, avb_1722_remove_stream_from_table,
    srp_remove_reservation_entry. types_auto.
Qed.
Hint Resolve types_srp_cleanup : keeps.
Lemma types_change_applicant p e new : keeps types_kept (mrp_change_applicant_state p e new).
Proof. unfold mrp_change_applicant_state. types_auto. Qed.
Hint Resolve types_change_applicant : keeps.
Lemma types_doTx p v port : keeps types_kept (doTx p v port).
Proof. unfold doTx, get_send_ptr. types_auto. Qed.
Hint Resolve types_doTx : keeps.
Lemma types_mrp_update_state e p four port : keeps types_kept (mrp_update_state e p four port).
Proof.
  unfold mrp_update_state, update_registrar, update_applicant, switch_applicant, set_registrar, pend,
    start_leaveTimer. types_auto.
Qed.
Hint Resolve types_mrp_update_state : keeps.
Lemma types_mrp_mad_begin p : keeps types_kept (mrp_mad_begin p).
Proof. unfold mrp_mad_begin. types_auto. Qed.
Lemma types_mrp_mad_join p new : keeps types_kept (mrp_mad_join p new).
Proof. unfold mrp_mad_join. types_auto. Qed.
Lemma types_mrp_get_attr : keeps types_kept mrp_get_attr.
Proof. unfold mrp_get_attr. types_auto. Qed.
Hint Resolve types_mrp_mad_begin types_mrp_mad_join types_mrp_get_attr : keeps.
Lemma types_avb_join_vlan v port : keeps types_kept (avb_join_vlan v port).
Proof.
  unfold avb_join_vlan. apply keeps_bind; [apply _| |intros found].
  { apply frames_types_kept, reads_frames, reads_vlan_entry_to_join. }
  types_auto.
Qed.
Hint Resolve types_avb_join_vlan : keeps.

(** [m], run where attribute [t] has the type [ty], keeps the invariant. *)
Definition inv_from (t : nat) (ty : mrp_attribute_type) {A} (m : SM A) : Prop :=
  forall w a w', typed_as t ty w -> m w = Some (a, w') -> inv_step w w'.

Lemma inv_from_keeps {A} t ty (m : SM A) : keeps inv_step m -> inv_from t ty m.
Proof. intros H w a w' _. apply H. Qed.

Lemma inv_from_bind {A B} t ty (m : SM A) (k : A -> SM B) :
  keeps inv_step m -> keeps types_kept m -> (forall a, inv_from t ty (k a)) -> inv_from t ty (m ≫= k).
Proof.
  intros Hi Ht Hk w b w' Hty (a & w1 & E1 & E2)%M_bind_Some.
  etrans; [exact (Hi _ _ _ E1)|]. exact (Hk a w1 b w' (Ht _ _ _ E1 t ty Hty) E2).
Qed.

Lemma inv_from_get_st {B} t ty (k : mrp_attribute_state -> SM B) :
  (forall st, attribute_type st = ty -> attr_ok st -> inv_from t ty (k st)) ->
  inv_from t ty (get_st t ≫= k).
Proof.
  intros Hk w b w' (st & Hst & Hty) E bg RX Hw. unfold mbind, M_bind in E.
  rewrite (get_st_run t w st Hst) in E.
  apply (Hk st Hty) with w b; [|by exists st|done|done].
  destruct Hw. by eapply Forall_lookup_1.
Qed.

Lemma inv_from_last {A B} t ty (m : SM A) (k : A -> SM B) :
  inv_from t ty m -> (forall a, keeps inv_step (k a)) -> inv_from t ty (m ≫= k).
Proof.
  intros Hm Hk w b w' Hty (a & w1 & E1 & E2)%M_bind_Some.
  etrans; [exact (Hm w a w1 Hty E1)|exact (Hk a w1 b w' E2)].
Qed.

Lemma inv_join_listener_matched t v : inv_from t MSRP_TALKER_ADVERTISE (join_listener_matched t v).
Proof.
  unfold join_listener_matched.
  apply inv_from_bind; [inv_auto|types_auto|]. intros same.
  apply inv_from_last; [|intros o; inv_auto].
  destruct same as [l|]; [apply inv_from_keeps; inv_auto|].
  apply inv_from_bind; [inv_auto|types_auto|]. intros [l|]; [|apply inv_from_keeps; inv_auto].
  apply inv_from_bind; [inv_auto|types_auto|]. intros ta.
  apply inv_from_bind; [inv_auto|types_auto|]. intros _.
  apply inv_from_get_st. intros st Hty Hst. apply inv_from_keeps. inv_auto.
  apply inv_mrp_attribute_init. intros st' Et Ei. destruct Hst as [Hi _].
  unfold valid_info in *. rewrite Hty in Hi. by rewrite Et, Ei.
Qed.

Lemma match_type_non_prop_typed ty id port w j w' :
  mrp_match_type_non_prop_attribute ty id port w = Some (Some j, w') -> typed_as j ty w'.
Proof.
  intros E. pose proof (reads_match_type_non_prop ty id port w _ _ E) as <-.
  revert E. unfold mrp_match_type_non_prop_attribute. induction attr_indices as [|i l IH]; [done|].
  cbn [forM_until]. intros (r & w1 & E1 & E2)%M_bind_Some.
  apply M_bind_Some in E1 as (st & w2 & Est & E1).
  pose proof (reads_get_st i w st w2 Est) as <-.
  assert (attrs (mrp w) !! i = Some st) as Hi.
  { unfold get_st, load in Est. destruct (attrs (mrp w) !! i); [by injection Est as ->|done]. }
  assert (w1 = w /\ (forall k, r = Some k -> k = i /\ attribute_type st = ty)) as [-> Hr].
  { destruct (_ || _); [by injection E1 as <- <-|].
    destruct (same_type _ _ && _ && _) eqn:Et; [|by injection E1 as <- <-].
    apply M_bind_Some in E1 as (id' & w3 & E3 & E4).
    pose proof (reads_info_stream_id _ w _ _ E3) as <-. injection E4 as <- <-. split; [done|].
    rewrite <- andb_assoc in Et. apply andb_true_iff in Et as [Et _]. apply same_type_true in Et.
    destruct (same_id _ _); [|done]. by intros k [= <-]. }
  destruct r as [k|]; [|by apply IH].
  injection E2 as <-. destruct (Hr k eq_refl) as [-> Ht]. by exists st.
Qed.

Lemma inv_join_listener_attrs id v : keeps inv_step (avb_srp_join_listener_attrs id v).
Proof.
  intros w a w' (o & w1 & E1 & E)%M_bind_Some.
  pose proof (reads_match_type_non_prop _ _ _ w _ _ E1) as <-.
  apply M_bind_Some in E as (o' & w2 & E2 & E).
  pose proof (reads_match_type_non_prop _ _ _ w _ _ E2) as <-.
  apply M_bind_Some in E as (dv & w3 & [= <- <-] & E). cbn zeta in E.
  apply M_bind_Some in E as ([] & w4 & E4 & [= <- <-]). revert E4.
  destruct o as [t|].
  - intros E4. refine (inv_join_listener_matched t _ w tt w4 _ E4).
    by eapply match_type_non_prop_typed.
  - destruct o'; [by intros [= <-]|]. intros E4. exact (inv_join_listener_early _ _ _ _ _ E4).
Qed.

(** ** Attributes made from packets *)

Lemma inv_process_new_attribute t fv num port :
  is_stream_type t -> keeps inv_step (avb_srp_process_new_attribute_from_packet t fv num port).
Proof.
  intros Ht. unfold avb_srp_process_new_attribute_from_packet.
  apply keeps_bind; [apply _|keeps_auto|]. intros x0.
  apply keeps_bind; [apply _|keeps_auto|]. intros id.
  apply (keeps_bind_ens _ _ entry_ptr).
  { intros bg RX. destruct t; try (apply ens_ret; by intros ?);
      [| |apply ens_srp_add_reservation_entry_stream_id_only].
    all: eapply ens_bind; [|intros r _; apply ens_srp_add_reservation_entry].
    all: by apply ens_rx_talker_fields. }
  intros [e|] He; [specialize (He e eq_refl)|inv_auto].
  inv_auto. by apply inv_mrp_attribute_init, stream_fits.
Qed.
End Ops.

#[export] Hint Resolve inv_mrp_change_applicant_state inv_mrp_mad_begin inv_mrp_get_attr
  inv_mrp_mad_join inv_mrp_mad_leave inv_avb_join_vlan inv_avb_leave_vlan avb_mvrp_init_inv
  inv_srp_domain_init inv_srp_domain_join inv_listener_join_ind inv_listener_leave_ind
  inv_domain_join_ind inv_domain_leave_ind inv_talker_join_ind inv_talker_leave_ind
  inv_leave_talker_attrs inv_leave_listener_attrs inv_create_and_join_talker
  inv_join_listener_attrs : keeps.
