(* ===== verification/SrpWire.v ===== *)
(** The wire: the format of talkers' first values - what [encode_talker_message]
    puts into a message, and what the receiving side reads back - and the frames
    that leave the device. *)
From S2P Require Import Prelude Bytes MiscTimer MrpTypes MrpMatch SrpTable MrpPdu SrpEncode.
From S2P Require Import MrpCore MvrpVlan AvbApp SrpApp.
From Stdlib Require Import ZArith Lia.
From stdpp Require Import base list list_numbers numbers.
#[local] Open Scope Z_scope.

(** The first value of IEEE 802.1Q, 35.2.2.8: the stream identifier, the data frame
    parameters, the TSpec, the priority and rank, the latency, and the failure
    information of a Talker Failed attribute; numbers in network byte order. *)
Definition talker_first_value (failed : bool) (vid : Z) (r : avb_srp_info_t) : list Z :=
  be_bytes 4 (stream_id0 r) ++ be_bytes 4 (stream_id1 r) ++ dest_mac_addr r ++
  be_bytes 2 vid ++ be_bytes 2 (tspec_max_frame_size r) ++ be_bytes 2 (tspec_max_interval r) ++
  [tspec r] ++ be_bytes 4 (accumulated_latency r) ++
  (if failed then failure_bridge_id r ++ [failure_code r] else []).

(** The fields have the sizes of their C types. *)
Record srp_info_ok (r : avb_srp_info_t) : Prop := {
  ok_id0 : 0 <= stream_id0 r < 2 ^ 32;
  ok_id1 : 0 <= stream_id1 r < 2 ^ 32;
  ok_mac : length (dest_mac_addr r) = 6%nat;
  ok_mac_bytes : Forall byte_ok (dest_mac_addr r);
  ok_vlan : - 2 ^ 15 <= vlan_id r < 2 ^ 15;
  ok_size : - 2 ^ 15 <= tspec_max_frame_size r < 2 ^ 15;
  ok_interval : - 2 ^ 15 <= tspec_max_interval r < 2 ^ 15;
  ok_tspec : byte_ok (tspec r);
  ok_latency : 0 <= accumulated_latency r < 2 ^ 32;
  ok_bridge : length (failure_bridge_id r) = 8%nat;
  ok_bridge_bytes : Forall byte_ok (failure_bridge_id r);
  ok_code : byte_ok (failure_code r);
}.

(** The VLAN a talker is declared with: its own, or the domain's. *)
Definition declared_vlan (w : world) (r : avb_srp_info_t) : Z :=
  if negb (vlan_id r =? 0) then vlan_id r else current_vlan_id_from_domain (srp w).

Definition set_send_buf (b : list Z) (w : world) : world := upd_mrp (upd_send_buf (fun _ => b)) w.

(** * Writing *)

(** A write inside the part [mid] of the buffer, which begins at offset [off]. *)
Lemma wr_mid pre mid suf w off k v :
  send_buf (mrp w) = pre ++ mid ++ suf -> off = Z.of_nat (length pre) ->
  (k < length mid)%nat -> byte_ok v ->
  wr (off + Z.of_nat k) v w = Some (tt, set_send_buf (pre ++ <[k := v]> mid ++ suf) w).
Proof.
  intros Hb -> Hk Hv. unfold wr, store, byte_set. rewrite Hb, !length_app.
  rewrite (proj2 (Z.leb_le 0 _)), (proj2 (Z.ltb_lt _ _)) by lia. cbn [andb].
  replace (Z.to_nat (Z.of_nat (length pre) + Z.of_nat k)) with (length pre + k)%nat by lia.
  rewrite insert_app_r, insert_app_l, u8_small by done. done.
Qed.

Lemma wr_bytes_mid l : forall pre mid suf w off k,
  send_buf (mrp w) = pre ++ mid ++ suf -> off = Z.of_nat (length pre) ->
  (k + length l <= length mid)%nat -> Forall byte_ok l ->
  wr_bytes (off + Z.of_nat k) l w = Some (tt, set_send_buf (pre ++ list_inserts k l mid ++ suf) w).
Proof.
  induction l as [|v l IH]; intros pre mid suf w off k Hb Ho Hk Hl; cbn [wr_bytes list_inserts].
  - rewrite <- Hb. by destruct w as [[] ? ? ?].
  - apply list.Forall_cons in Hl as [Hv Hl]. cbn in Hk.
    erewrite M_bind_run by (eapply wr_mid; [exact Hb|done|lia|done]).
    replace (off + Z.of_nat k + 1) with (off + Z.of_nat (S k)) by lia.
    rewrite (IH pre (<[k:=v]> mid) suf) by (rewrite ?length_insert; done || lia).
    unfold set_send_buf. cbn. by rewrite list_insert_inserts_lt by lia.
Qed.

(** ** The layout *)

Lemma be_bytes_2 v : be_bytes 2 v = [(v / 256) mod 256; v mod 256].
Proof. unfold be_bytes. by rewrite !le_bytes_succ. Qed.

Lemma be_bytes_4 v :
  be_bytes 4 v = [(v / 2 ^ 24) mod 256; (v / 2 ^ 16) mod 256; (v / 2 ^ 8) mod 256; v mod 256].
Proof.
  unfold be_bytes. rewrite !le_bytes_succ, !Z.div_div by lia. done.
Qed.

Lemma hton_16_be v : hton_16 v = be_bytes 2 v.
Proof.
  rewrite hton_16_eq, be_bytes_2. unfold u16, wrap. list_lia.
Qed.

Lemma hton_32_be v : hton_32 v = be_bytes 4 v.
Proof.
  unfold hton_32, u8, u32, wrap. rewrite be_bytes_4, !shiftr_div by lia. list_lia.
Qed.

Lemma byterev_be v : le_bytes 4 (byterev v) = be_bytes 4 v.
Proof. by rewrite le_bytes_byterev, be_bytes_4. Qed.

(** [wr_bytes_mid] where the new contents of [mid] are given. *)
Lemma wr_bytes_to l pre mid mid' suf w off k o :
  send_buf (mrp w) = pre ++ mid ++ suf -> off = Z.of_nat (length pre) -> o = off + Z.of_nat k ->
  (k + length l <= length mid)%nat -> Forall byte_ok l -> list_inserts k l mid = mid' ->
  wr_bytes o l w = Some (tt, set_send_buf (pre ++ mid' ++ suf) w).
Proof. intros Hb Ho -> Hk Hl <-. by apply wr_bytes_mid. Qed.

Lemma wr_to v pre mid mid' suf w off k o :
  send_buf (mrp w) = pre ++ mid ++ suf -> off = Z.of_nat (length pre) -> o = off + Z.of_nat k ->
  (k < length mid)%nat -> byte_ok v -> <[k := v]> mid = mid' ->
  wr o v w = Some (tt, set_send_buf (pre ++ mid' ++ suf) w).
Proof. intros Hb Ho -> Hk Hl <-. by apply wr_mid. Qed.

(** A block of bytes as the list of its bytes. *)
Ltac name_bytes l :=
  let b := fresh "b" in let Hl := fresh "Hl" in let Hok := fresh "Hok" in
  remember l as b eqn:Hl;
  assert (Forall byte_ok b) as Hok by (subst b; apply be_bytes_ok);
  apply (f_equal length) in Hl; rewrite be_bytes_length in Hl;
  destruct_len b Hl.

(** The write at [k] bytes into the block that begins at [off]. *)
Ltac wr_run k :=
  first [ eapply (wr_bytes_to _ _ _ _ _ _ _ k) | eapply (wr_to _ _ _ _ _ _ _ k) ];
  [ first [eassumption | reflexivity] | eassumption | lia | cbn; lia | assumption | reflexivity ].
Ltac wr_step k := erewrite M_bind_run by (wr_run k).

Lemma put_talker_first_value_run (failed : bool) r pre mid suf w off :
  srp_info_ok r -> send_buf (mrp w) = pre ++ mid ++ suf -> off = Z.of_nat (length pre) ->
  length mid = (if failed then 34 else 25)%nat ->
  put_talker_first_value off failed r w =
    Some (tt, set_send_buf (pre ++ talker_first_value failed (declared_vlan w r) r ++ suf) w).
Proof.
  intros Hr Hb Ho Hm. unfold put_talker_first_value, put_stream_id, off_StreamId, off_DestMacAddr, off_VlanID,
    off_TSpec, off_TSpecMaxFrameSize, off_TSpecMaxIntervalFrames, off_AccumulatedLatency,
    off_FailureCode, off_FailureBridgeId, talker_first_value.
  rewrite !byterev_be, hton_32_be. destruct Hr as [_ _ Hmac Hmacb _ _ _ Hts _ Hbr Hbrb Hcode].
  name_bytes (be_bytes 4 (stream_id0 r)). name_bytes (be_bytes 4 (stream_id1 r)).
  name_bytes (be_bytes 4 (accumulated_latency r)).
  remember (dest_mac_addr r) as mac. destruct_len mac Hmac.
  remember (failure_bridge_id r) as br. destruct_len br Hbr.
  destruct failed; destruct_len mid Hm;
    (wr_step 8%nat; erewrite M_bind_run by (wr_step 0%nat; wr_run 4%nat);
     erewrite M_bind_run by reflexivity; change (if negb _ then _ else _) with (declared_vlan w r);
     rewrite !hton_16_be; name_bytes (be_bytes 2 (declared_vlan w r));
     name_bytes (be_bytes 2 (tspec_max_frame_size r)); name_bytes (be_bytes 2 (tspec_max_interval r));
     wr_step 14%nat; wr_step 20%nat; wr_step 16%nat; wr_step 18%nat; wr_step 21%nat; cbn [whenM]).
  - wr_step 33%nat. erewrite (wr_bytes_to _ _ _ _ _ _ _ 25) by first [reflexivity|eassumption|lia|cbn; lia].
    reflexivity.
  - reflexivity.
Qed.

(** * Reading *)

(** The bytes [l] lie at offset [fv] of the received packet. *)
Definition received (fv : Z) (l : list Z) (w : world) : Prop :=
  forall k b, l !! k = Some b -> byte_at (rx_buf (env w)) (fv + Z.of_nat k) = Some b.

Lemma rx_received fv l w k o b :
  received fv l w -> o = fv + Z.of_nat k -> l !! k = Some b -> rx o w = Some (b, w).
Proof. intros H -> Hk. unfold rx, load. by rewrite (H k b Hk). Qed.

Lemma rx_bytes_received fv l w : received fv l w ->
  forall n k o, o = fv + Z.of_nat k -> (k + n <= length l)%nat ->
  rx_bytes n o w = Some (take n (drop k l), w).
Proof.
  intros H. induction n as [|n IH]; intros k o Ho Hk; cbn [rx_bytes]; [done|].
  destruct (lookup_lt_is_Some_2 l k) as [b Hb]; [lia|].
  erewrite M_bind_run by (eapply rx_received; [exact H|exact Ho|exact Hb]).
  erewrite M_bind_run by (apply (IH (S k)); lia).
  by rewrite (drop_S l b k Hb).
Qed.

Lemma ntoh_16_be v : - 2 ^ 15 <= v < 2 ^ 15 -> ntoh_16 ((v / 256) mod 256) (v mod 256) = v.
Proof.
  intros Hv. unfold ntoh_16. rewrite be16_value by (apply Z.mod_pos_bound; lia).
  rewrite <- (s16_small v) at 3 by done. unfold s16, signed, wrap.
  replace (((v / 256) mod 256 * 256 + v mod 256) mod 2 ^ 16) with (v mod 2 ^ 16); [done|].
  Z.to_euclidean_division_equations. lia.
Qed.

Lemma ntoh_32_be v :
  0 <= v < 2 ^ 32 ->
  u32 (ntoh_32 ((v / 2 ^ 24) mod 256) ((v / 2 ^ 16) mod 256) ((v / 2 ^ 8) mod 256) (v mod 256)) = v.
Proof.
  intros Hv. unfold ntoh_32. rewrite <- !Z.lor_assoc.
  assert (forall x, 0 <= x mod 256 < 256) as Hb by (intros; apply Z.mod_pos_bound; lia).
  pose proof (Hb v). pose proof (Hb (v / 2 ^ 8)). pose proof (Hb (v / 2 ^ 16)). pose proof (Hb (v / 2 ^ 24)).
  rewrite (lor_shiftl_add ((v / 2 ^ 8) mod 256)) by lia.
  rewrite (lor_shiftl_add ((v / 2 ^ 16) mod 256)) by lia.
  rewrite (lor_shiftl_add ((v / 2 ^ 24) mod 256)) by lia.
  replace (_ + _) with v by (Z.to_euclidean_division_equations; lia).
  unfold s32, signed, u32. rewrite (wrap_small 32 v) by done.
  destruct (v <? 2 ^ (32 - 1)); unfold wrap; [by apply Z.mod_small|].
  rewrite <- (Z_mod_plus_full _ 1). replace (v - 2 ^ 32 + 1 * 2 ^ 32) with v by lia. by apply Z.mod_small.
Qed.

Lemma le_bytes_0 x : le_bytes 0 x = [].
Proof. done. Qed.

Lemma dest_mac_of_value x0 bs i :
  length bs = 6%nat -> dest_mac_of x0 bs i = be_bytes 6 (be_value bs + i).
Proof.
  intros Hl. unfold dest_mac_of. rewrite be_accum_value by (by destruct bs). fold (be_value bs).
  rewrite Hl, (shiftr_div _ 32) by lia. generalize (be_value bs). intros v.
  change (256 ^ Z.of_nat 6) with (2 ^ 48). unfold u64, wrap. rewrite Z.add_mod_idemp_l by lia.
  rewrite le_bytes_byterev, le_bytes_byterev_high. unfold be_bytes. rewrite !le_bytes_succ.
  rewrite !le_bytes_0. cbn. rewrite <- (Z.add_assoc (x0 * 2 ^ 48)). generalize (v + i). intros. list_lia.
Qed.

Lemma rx_ntoh_16_received fv l w k o v :
  received fv l w -> o = fv + Z.of_nat k -> l !! k = Some ((v / 256) mod 256) ->
  l !! S k = Some (v mod 256) -> - 2 ^ 15 <= v < 2 ^ 15 -> rx_ntoh_16 o w = Some (v, w).
Proof.
  intros H Ho H0 H1 Hv. unfold rx_ntoh_16.
  erewrite M_bind_run by (eapply rx_received; [exact H|exact Ho|exact H0]).
  erewrite M_bind_run by (eapply (rx_received _ _ _ (S k)); [exact H|lia|exact H1]).
  by rewrite ntoh_16_be.
Qed.

Lemma rx_ntoh_32_received fv l w k o a b c d :
  received fv l w -> o = fv + Z.of_nat k -> l !! k = Some a -> l !! S k = Some b ->
  l !! S (S k) = Some c -> l !! S (S (S k)) = Some d -> rx_ntoh_32 o w = Some (ntoh_32 a b c d, w).
Proof.
  intros H Ho H0 H1 H2 H3. unfold rx_ntoh_32.
  erewrite M_bind_run by (eapply rx_received; [exact H|exact Ho|exact H0]).
  erewrite M_bind_run by (eapply (rx_received _ _ _ (S k)); [exact H|lia|exact H1]).
  erewrite M_bind_run by (eapply (rx_received _ _ _ (S (S k))); [exact H|lia|exact H2]).
  erewrite M_bind_run by (eapply (rx_received _ _ _ (S (S (S k)))); [exact H|lia|exact H3]).
  done.
Qed.

Lemma be_value_id a b :
  0 <= a < 2 ^ 32 -> 0 <= b < 2 ^ 32 -> be_value (be_bytes 4 a ++ be_bytes 4 b) = a * 2 ^ 32 + b.
Proof.
  intros Ha Hb. rewrite !be_bytes_4. unfold be_value. cbn [app foldl].
  Z.to_euclidean_division_equations. lia.
Qed.

(** What is read from a first value that [put_talker_first_value] has laid out. *)
Lemma rx_talker_fields_run fv failed vid r w i r0 :
  srp_info_ok r -> - 2 ^ 15 <= vid < 2 ^ 15 ->
  received fv (take 25 (talker_first_value failed vid r)) w ->
  rx_talker_fields fv i r0 w =
    Some (MkSrpInfo (stream_id0 r0) (stream_id1 r0)
            (be_bytes 6 (be_value (dest_mac_addr r) + i)) vid (tspec_max_frame_size r)
            (tspec_max_interval r) (tspec r) (accumulated_latency r)
            (failure_bridge_id r0) (failure_code r0), w) /\
  (forall x0, rx_stream_id x0 fv i w =
    Some (u64 (stream_id0 r * 2 ^ 32 + stream_id1 r + i), w)).
Proof.
  intros [H0 H1 Hmac _ _ Hsz Hitv _ Hlat _ _ _] Hvid.
  remember (dest_mac_addr r) as mac eqn:Emac.
  assert (take 25 (talker_first_value failed vid r) =
    be_bytes 4 (stream_id0 r) ++ be_bytes 4 (stream_id1 r) ++ mac ++ be_bytes 2 vid ++
    be_bytes 2 (tspec_max_frame_size r) ++ be_bytes 2 (tspec_max_interval r) ++
    [tspec r] ++ be_bytes 4 (accumulated_latency r)) as ->.
  { unfold talker_first_value. rewrite <- Emac, !be_bytes_4, !be_bytes_2.
    clear Emac. destruct_len mac Hmac. by destruct failed. }
  pose proof (be_value_id _ _ H0 H1) as Hid. revert Hid.
  rewrite !be_bytes_4, !be_bytes_2. clear Emac. pose proof Hmac as Hmac'. destruct_len mac Hmac'.
  cbn [app]. intros Hid Hrec.
  split.
  - unfold rx_talker_fields, off_VlanID, off_DestMacAddr, off_TSpecMaxFrameSize,
      off_TSpecMaxIntervalFrames, off_TSpec, off_AccumulatedLatency.
    erewrite M_bind_run by reflexivity.
    erewrite M_bind_run by (eapply (rx_ntoh_16_received _ _ _ 14); [exact Hrec|done|done|done|exact Hvid]).
    erewrite M_bind_run by (eapply (rx_bytes_received _ _ _ Hrec 6 8); [done|cbn; lia]).
    erewrite M_bind_run by (eapply (rx_ntoh_16_received _ _ _ 16); [exact Hrec|done|done|done|exact Hsz]).
    erewrite M_bind_run by (eapply (rx_ntoh_16_received _ _ _ 18); [exact Hrec|done|done|done|exact Hitv]).
    erewrite M_bind_run by (eapply (rx_received _ _ _ 20); [exact Hrec|done|done]).
    erewrite M_bind_run by (eapply (rx_ntoh_32_received _ _ _ 21); [exact Hrec|done..]).
    cbn [take drop]. by rewrite dest_mac_of_value, ntoh_32_be.
  - intros y. unfold rx_stream_id, off_StreamId.
    erewrite M_bind_run by (eapply (rx_bytes_received _ _ _ Hrec 8 0); [done|cbn; lia]).
    cbn [take drop]. rewrite (be_accum_forgets y 0) by done. rewrite be_accum_0 by done.
    rewrite Hid. unfold u64, wrap. by rewrite Z.add_mod_idemp_l.
Qed.

(** What one device declares, another reads. The sender lays out the
    reservation of a talker in a message; wherever in a packet those bytes arrive,
    the receiver reads the same destination address, VLAN, TSpec and latency from
    them, and the same stream identifier - both advanced by [i] for the [i]th
    value of a vector - whatever its uninitialised accumulators held. *)
Theorem talker_first_value_roundtrip (failed : bool) r off w :
  srp_info_ok r -> vlan_id r <> 0 ->
  0 <= off -> off + (if failed then 34 else 25) <= Z.of_nat (length (send_buf (mrp w))) ->
  exists w', put_talker_first_value off failed r w = Some (tt, w') /\
    forall w2 fv i r0,
      (forall k, 0 <= k < 25 ->
         byte_at (rx_buf (env w2)) (fv + k) = byte_at (send_buf (mrp w')) (off + k)) ->
      rx_talker_fields fv i r0 w2 =
        Some (MkSrpInfo (stream_id0 r0) (stream_id1 r0)
                (be_bytes 6 (be_value (dest_mac_addr r) + i)) (vlan_id r) (tspec_max_frame_size r)
                (tspec_max_interval r) (tspec r) (accumulated_latency r)
                (failure_bridge_id r0) (failure_code r0), w2) /\
      forall x0, rx_stream_id x0 fv i w2 =
        Some (u64 (stream_id0 r * 2 ^ 32 + stream_id1 r + i), w2).
Proof.
  intros Hr Hv Ho Hroom. set (n := (if failed then 34 else 25)%nat).
  assert (Z.of_nat n = if failed then 34 else 25) as Hn by (by destruct failed).
  set (buf := send_buf (mrp w)) in *. set (pre := take (Z.to_nat off) buf).
  set (mid := take n (drop (Z.to_nat off) buf)). set (suf := drop n (drop (Z.to_nat off) buf)).
  assert (send_buf (mrp w) = pre ++ mid ++ suf) as Hb by (subst pre mid suf; by rewrite !take_drop).
  assert (length pre = Z.to_nat off) as Hpre by (subst pre; rewrite length_take; lia).
  eexists. split.
  { apply (put_talker_first_value_run failed r pre mid suf w off Hr Hb); [lia|].
    subst mid. rewrite length_take, length_drop. fold n. lia. }
  intros w2 fv i r0 Hbytes.
  change (send_buf (mrp (set_send_buf ?b _))) with b in Hbytes.
  assert (declared_vlan w r = vlan_id r) as Hd.
  { unfold declared_vlan. by rewrite (proj2 (Z.eqb_neq _ _)). }
  rewrite Hd in Hbytes. pose proof (ok_vlan _ Hr).
  eapply (rx_talker_fields_run fv failed (vlan_id r)); [exact Hr|done|].
  intros k b Hk. pose proof (lookup_lt_Some _ _ _ Hk) as Hlt. rewrite length_take in Hlt.
  rewrite Hbytes by lia. unfold byte_at. rewrite (proj2 (Z.leb_le _ _)) by lia.
  apply lookup_take_Some in Hk as [Hk _].
  rewrite lookup_app_r by lia. replace (Z.to_nat (off + Z.of_nat k) - length pre)%nat with k by lia.
  rewrite lookup_app_l; [done|]. by eapply lookup_lt_Some.
Qed.

(** The reservation of the sample stream, with a VLAN. *)
Definition sample_reservation : avb_srp_info_t :=
  MkSrpInfo 0x00229701 0x02030001 [0x91; 0xe0; 0xf0; 0; 0xfe; 0x10] 2 224 1 0x70 125000
    (replicate 8 0) 0.

Lemma talker_first_value_roundtrip_witness :
  srp_info_ok sample_reservation /\
  exists w', put_talker_first_value 14 false sample_reservation sample_world = Some (tt, w').
Proof.
  assert (srp_info_ok sample_reservation) as H.
  { split; try (cbn; lia); try done; unfold byte_ok; cbn; try lia;
      repeat (constructor; [cbn; lia|]); constructor. }
  split; [exact H|].
  destruct (talker_first_value_roundtrip false sample_reservation 14 sample_world H)
    as (w' & E & _); [done|done|by vm_compute|].
  by exists w'.
Defined.

(** * Frames *)

Lemma wr_zeros n : forall pre mid suf w p,
  send_buf (mrp w) = pre ++ mid ++ suf -> p = Z.of_nat (length pre) -> length mid = n ->
  forM (seqZ p (Z.of_nat n)) (fun p => wr p 0) w =
    Some (tt, set_send_buf (pre ++ replicate n 0 ++ suf) w).
Proof.
  induction n as [|n IH]; intros pre mid suf w p Hb Hp Hn.
  - destruct mid; [|done]. cbn in *. rewrite <- Hb. by destruct w as [[] ? ? ?].
  - destruct mid as [|b mid]; [done|]. rewrite seqZ_cons by lia. cbn [forM].
    erewrite M_bind_run by (replace p with (p + Z.of_nat 0) by lia;
      eapply (wr_mid pre (b :: mid) suf); [exact Hb|exact Hp|cbn; lia|done]).
    replace (Z.pred (Z.of_nat (S n))) with (Z.of_nat n) by lia.
    rewrite (IH (pre ++ [0]) mid suf); [|by cbn; rewrite <- app_assoc|rewrite length_app; cbn; lia|by injection Hn].
    unfold set_send_buf. cbn. by rewrite <- app_assoc.
Qed.

Lemma rd_bytes_run n : forall off w,
  0 <= off -> off + Z.of_nat n <= Z.of_nat (length (send_buf (mrp w))) ->
  rd_bytes n off w = Some (take n (drop (Z.to_nat off) (send_buf (mrp w))), w).
Proof.
  induction n as [|n IH]; intros off w Ho Hn; cbn [rd_bytes]; [done|].
  destruct (lookup_lt_is_Some_2 (send_buf (mrp w)) (Z.to_nat off)) as [b Hb]; [lia|].
  erewrite M_bind_run.
  2: { unfold rd, load, byte_at. rewrite (proj2 (Z.leb_le _ _)), Hb by lia. done. }
  erewrite M_bind_run by (apply IH; lia). rewrite (drop_S _ _ _ Hb).
  by replace (Z.to_nat (off + 1)) with (S (Z.to_nat off)) by lia.
Qed.

(** The frame made of the [ptr] bytes under construction: at least four zero
    bytes, the end marks of the last attribute list and of the message list, and
    at least the length of the shortest Ethernet frame. *)
Definition frame_length (ptr : Z) : Z := Z.max 64 (ptr + 4).
Definition msrp_frame (ptr : Z) (buf : list Z) : list Z :=
  take (Z.to_nat ptr) buf ++ replicate (Z.to_nat (frame_length ptr - ptr)) 0.

(** [force_send] of an MSRP packet transmits the bytes under construction,
    closed by the end marks and padded with zeros to at least 64 bytes, once and
    on the given port - nothing when the packet holds no message - and starts a
    new packet. *)
Theorem force_send_msrp ifnum w :
  current_etype (mrp w) = AVB_SRP_ETHERTYPE -> first_msg <= send_ptr (mrp w) ->
  frame_length (send_ptr (mrp w)) <= Z.of_nat (length (send_buf (mrp w))) ->
  let ptr := send_ptr (mrp w) in
  exists buf, force_send ifnum w = Some (tt,
    upd_env (upd_trace (fun l => l ++ if ptr =? first_msg then []
                                      else [TxFrame (msrp_frame ptr (send_buf (mrp w))) ifnum]))
      (upd_mrp (upd_send_ptr (fun _ => first_msg)) (set_send_buf buf w))) /\
    length buf = length (send_buf (mrp w)).
Proof.
  unfold first_msg, sizeof_mrp_ethernet_hdr, sizeof_mrp_header, frame_length. cbn zeta.
  intros He Hp Hroom. set (ptr := send_ptr (mrp w)) in *. set (buf := send_buf (mrp w)) in *.
  unfold force_send. erewrite M_bind_run by reflexivity. fold ptr.
  erewrite M_bind_run.
  2: { unfold strip_attribute_list_length_fields. erewrite M_bind_run by reflexivity.
       rewrite He. reflexivity. }
  unfold first_msg, sizeof_mrp_ethernet_hdr, sizeof_mrp_header.
  destruct (Z.eqb_spec ptr (14 + 1)) as [E|E]; cbn [negb whenM].
  - exists buf. split; [|done]. erewrite M_bind_run by reflexivity. unfold set_send_ptr, modify.
    destruct w as [[] ? ? []]. unfold upd_env, upd_trace. cbn. by rewrite app_nil_r.
  - assert ((if ptr + 4 <? 64 then 64 else ptr + 4) = Z.max 64 (ptr + 4)) as -> .
    { destruct (Z.ltb_spec (ptr + 4) 64); lia. }
    set (end' := Z.max 64 (ptr + 4)) in *. set (n := Z.to_nat (end' - ptr)).
    set (pre := take (Z.to_nat ptr) buf). set (rest := drop (Z.to_nat ptr) buf).
    assert (length pre = Z.to_nat ptr) as Hpre by (subst pre; rewrite length_take; lia).
    assert (length rest = (length buf - Z.to_nat ptr)%nat) as Hrest by apply length_drop.
    assert (length (pre ++ replicate n 0 ++ drop n rest) = length buf) as Hlen.
    { rewrite !length_app, length_replicate, length_drop. lia. }
    exists (pre ++ replicate n 0 ++ drop n rest). split; [|exact Hlen].
    rewrite (M_bind_run _ _ w tt (upd_env (upd_trace (fun l => l ++ [TxFrame (msrp_frame ptr buf) ifnum]))
      (set_send_buf (pre ++ replicate n 0 ++ drop n rest) w))); [reflexivity|].
    replace (end' - ptr) with (Z.of_nat n) by lia.
    erewrite M_bind_run by (apply (wr_zeros n pre (take n rest) (drop n rest));
      [rewrite take_drop; symmetry; apply take_drop|lia|rewrite length_take; lia]).
    erewrite M_bind_run by (apply rd_bytes_run; [lia|];
      change (send_buf (mrp (set_send_buf ?b _))) with b; rewrite Hlen; lia).
    change (send_buf (mrp (set_send_buf ?b _))) with b. rewrite drop_0, app_assoc.
    rewrite take_app_length'; [|rewrite length_app, length_replicate; lia].
    rewrite <- app_assoc. done.
Qed.

(** An MSRP packet with 40 bytes under construction. *)
Definition sample_sending : world :=
  upd_mrp (upd_send_ptr (fun _ => 40)) (upd_mrp (upd_current_etype (fun _ => AVB_SRP_ETHERTYPE))
    (upd_mrp (upd_send_buf (fun _ => map Z.of_nat (seq 1 250) ++ replicate 250 0)) sample_world)).

Lemma force_send_msrp_witness :
  first_msg <= send_ptr (mrp sample_sending) /\
  exists w', force_send 0 sample_sending = Some (tt, w') /\
    trace (env w') = [TxFrame (map Z.of_nat (seq 1 40) ++ replicate 24 0) 0].
Proof.
  assert (first_msg <= send_ptr (mrp sample_sending)) as Hp by (vm_compute; discriminate).
  split; [exact Hp|].
  destruct (force_send_msrp 0 sample_sending eq_refl Hp) as (b & E & _); [vm_compute; discriminate|].
  eexists. split; [exact E|]. vm_compute. reflexivity.
Defined.
