(* ===== verification/SrpTask.v ===== *)
(** The task that runs the SRP stack ([lib_tsn/src/srp/avb_srp.xc]): its
    initialisation, the Ethernet packets, ticks and requests it serves, the
    states it reaches, and what holds in all of them. *)
From S2P Require Import Prelude Bytes MiscTimer MrpTypes MrpMatch SrpTable MrpPdu SrpEncode.
From S2P Require Import MrpCore MrpMachine MrpSort MvrpVlan AvbApp SrpApp MrpRx.
From S2P Require Import MrpPeriodic MrpInv MrpFrames MrpRxSafe MrpKeeps.
From Stdlib Require Import ZArith Lia.
From stdpp Require Import base list list_numbers numbers relations.
#[local] Open Scope Z_scope.

Definition MAX_AVB_CONTROL_PACKET_SIZE : Z := 1518.

Section Task.
  Context `{cfg : Config}.

(** [unsigned int buf[(MAX_AVB_CONTROL_PACKET_SIZE+3)>>2]], in bytes. *)
Definition control_buffer_size : Z := Z.shiftr (MAX_AVB_CONTROL_PACKET_SIZE + 3) 2 * 4.

(** The destination address of the frame is that of the protocol. *)
Definition dest_is (buf mac : list Z) : bool := bool_decide (take 6 buf = mac).

(** The case [ETH_DATA] of [avb_process_srp_control_packet]. *)
Definition avb_process_srp_control_packet (buf : list Z) (nbytes port_num : Z) : SM unit :=
  b12 ← deref (buf !! 12%nat);
  b13 ← deref (buf !! 13%nat);
  let has_qtag := b13 =? 0x18 in
  let eth_hdr_size := if has_qtag then 18 else 14 in
  etype ← (if has_qtag then
             b16 ← deref (buf !! 16%nat);
             b17 ← deref (buf !! 17%nat);
             mret (Z.shiftl b16 8 + b17)
           else mret (Z.shiftl b12 8 + b13));
  let len := nbytes - eth_hdr_size in
  if negb (etype =? AVB_SRP_ETHERTYPE) && negb (etype =? AVB_MVRP_ETHERTYPE) then skip
  else if (etype =? AVB_SRP_ETHERTYPE) && negb (dest_is buf srp_dest_mac) then skip
  else if (etype =? AVB_MVRP_ETHERTYPE) && negb (dest_is buf mvrp_dest_mac) then skip
  else
    _ ← modify (upd_env (upd_rx_buf (fun _ => drop (Z.to_nat eth_hdr_size) buf)));
    avb_mrp_process_packet etype len port_num.

(** What the [select] of the task, and the direct calls of the AVB manager,
    serve. *)
Inductive input : Type :=
| LinkStatus (up : bool)
| ControlPacket (buf : list Z) (nbytes src_ifnum : Z)
| Tick
| RegisterStream (stream_info : avb_srp_info_t)
| DeregisterStream (stream_id : Z * Z)
| RegisterAttach (stream_id : Z * Z) (vlan_id : Z)
| DeregisterAttach (stream_id : Z * Z)
| LeaveVlan (vlan_id : Z).

Definition serve (i : input) : SM unit :=
  match i with
  | LinkStatus up => whenM up srp_domain_join
  | ControlPacket buf nbytes src_ifnum => avb_process_srp_control_packet buf nbytes src_ifnum
  | Tick => mrp_periodic
  | RegisterStream r => _ ← avb_srp_create_and_join_talker_advertise_attrs r; skip
  | DeregisterStream id => avb_srp_leave_talker_attrs id
  | RegisterAttach id v => _ ← avb_srp_join_listener_attrs id v; skip
  | DeregisterAttach id => avb_srp_leave_listener_attrs id
  | LeaveVlan v => avb_leave_vlan v
  end.

(** The initialisation at the head of the task. *)
Definition task_init (mac_addr : list Z) : SM unit :=
  _ ← mrp_init mac_addr;
  _ ← srp_domain_init;
  avb_mvrp_init.

(** Packets are bytes, and come from one of the ports. *)
Definition valid_input (i : input) : Prop :=
  match i with
  | ControlPacket buf _ src_ifnum => Forall byte_ok buf /\ 0 <= src_ifnum < Z.of_nat MRP_NUM_PORTS
  | _ => True
  end.

(** A step: an input is served to the end, or the environment (the clock, the
    AVB manager's tables, what a stack frame happens to hold) changes. *)
Inductive task_step (w : world) : world -> Prop :=
| step_serve i w' : valid_input i -> serve i w = Some (tt, w') -> task_step w w'
| step_env e : rx_buf e = rx_buf (env w) -> task_step w (upd_env (fun _ => e) w).

Definition reachable (w : world) : Prop :=
  exists mac_addr e w0, rx_buf e = [] /\ task_init mac_addr (static_world e) = Some (tt, w0) /\
    rtc task_step w0 w.

(** The invariant of MrpInv in a state of the task. *)
Definition srp_inv `{bg : Begun} (w : world) : Prop := Inv all_listed (length (rx_buf (env w))) w.

Lemma srp_inv_any `{bg : Begun} RX w : Inv all_listed RX w -> srp_inv w.
Proof. intros H. unfold srp_inv. by rewrite (inv_rx_length _ _ w H). Qed.

Lemma inv_step_srp `{bg : Begun} w w' : inv_step w w' -> srp_inv w -> srp_inv w'.
Proof. intros H Hw. eapply srp_inv_any. by apply H. Qed.

(** At first no attribute has begun. *)
Definition none_begun : Begun := fun _ => False.

(** * Initialisation *)

(** The attributes after the loop of [mrp_init] has passed [k] of them. *)
Definition init_attr (i : nat) : mrp_attribute_state :=
  upd_next (fun _ => if (i =? MRP_MAX_ATTRS - 1)%nat then None else Some (S i)) zero_attr.
Definition init_attrs (k : nat) : list mrp_attribute_state :=
  map init_attr (seq 0 k) ++ replicate (MRP_MAX_ATTRS - k) zero_attr.

Lemma max_attrs_sub k :
  (k < MRP_MAX_ATTRS)%nat -> (MRP_MAX_ATTRS - k)%nat = S (MRP_MAX_ATTRS - S k).
Proof. generalize MRP_MAX_ATTRS. lia. Qed.

Lemma length_init_attrs k : (k <= MRP_MAX_ATTRS)%nat -> length (init_attrs k) = MRP_MAX_ATTRS.
Proof. intros H. unfold init_attrs. rewrite length_app, length_map, length_seq, length_replicate. by rewrite Nat.add_comm, Nat.sub_add. Qed.

Lemma init_attrs_next k :
  (k < MRP_MAX_ATTRS)%nat -> <[k := init_attr k]> (init_attrs k) = init_attrs (S k).
Proof.
  intros Hk. unfold init_attrs. rewrite seq_S, map_app. cbn [map].
  rewrite (max_attrs_sub k Hk). cbn [replicate].
  rewrite insert_app_r_alt by (rewrite length_map, length_seq; lia).
  rewrite length_map, length_seq, Nat.sub_diag. cbn. by rewrite <- app_assoc.
Qed.

Lemma init_attrs_lookup k : (k < MRP_MAX_ATTRS)%nat -> init_attrs k !! k = Some zero_attr.
Proof.
  intros Hk. unfold init_attrs. rewrite lookup_app_r by (rewrite length_map, length_seq; lia).
  rewrite length_map, length_seq, Nat.sub_diag, (max_attrs_sub k Hk). done.
Qed.

Lemma max_attrs_pos : (0 < MRP_MAX_ATTRS)%nat.
Proof. unfold MRP_MAX_ATTRS. destruct (_ =? _)%nat; lia. Qed.

(** The loop over the attributes leaves them in the order of their indices. *)
Lemma mrp_init_attrs_run w :
  attrs (mrp w) = replicate MRP_MAX_ATTRS zero_attr ->
  forM attr_indices (fun i =>
    _ ← upd_st i (upd_applicant_state (fun _ => MRP_UNUSED));
    upd_st i (upd_next (fun _ => if (i =? MRP_MAX_ATTRS - 1)%nat then None else Some (S i)))) w =
  Some (tt, upd_mrp (upd_attrs (fun _ => init_attrs MRP_MAX_ATTRS)) w).
Proof.
  intros Hw. change attr_indices with (seq 0 MRP_MAX_ATTRS).
  assert (forall n k w, (k + n = MRP_MAX_ATTRS)%nat -> attrs (mrp w) = init_attrs k ->
    forM (seq k n) (fun i =>
      _ ← upd_st i (upd_applicant_state (fun _ => MRP_UNUSED));
      upd_st i (upd_next (fun _ => if (i =? MRP_MAX_ATTRS - 1)%nat then None else Some (S i)))) w =
    Some (tt, upd_mrp (upd_attrs (fun _ => init_attrs MRP_MAX_ATTRS)) w)) as Hloop.
  - clear w Hw. induction n as [|n IH]; intros k w Hk Hw; cbn [seq forM].
    + assert (k = MRP_MAX_ATTRS) as -> by lia. cbn. rewrite <- Hw. by destruct w as [[] ? ? ?].
    + assert (k < MRP_MAX_ATTRS)%nat as Hlt by lia. pose proof (init_attrs_lookup k Hlt) as H0.
      rewrite <- Hw in H0. erewrite M_bind_run.
      2: { erewrite M_bind_run by exact (upd_st_run _ _ _ _ H0).
           erewrite upd_st_run by (by eapply lookup_set_attr). rewrite set_attr_twice. reflexivity. }
      rewrite (IH (S k)); [|lia|].
      * done.
      * etrans; [|exact (init_attrs_next k Hlt)]. by rewrite <- Hw.
  - apply (Hloop MRP_MAX_ATTRS 0%nat); [done|]. rewrite Hw. unfold init_attrs. cbn.
    by rewrite Nat.sub_0_r.
Qed.


(** Those links make the list of all attributes in the order of their indices. *)
Lemma init_attr_lookup i : (i < MRP_MAX_ATTRS)%nat -> init_attrs MRP_MAX_ATTRS !! i = Some (init_attr i).
Proof.
  intros Hi. unfold init_attrs. rewrite lookup_app_l by (by rewrite length_map, length_seq).
  rewrite list_lookup_fmap, lookup_seq_lt by done. done.
Qed.

Lemma init_chain w :
  attrs (mrp w) = init_attrs MRP_MAX_ATTRS -> chain w (Some 0%nat) attr_indices.
Proof.
  intros Ha. change attr_indices with (seq 0 MRP_MAX_ATTRS).
  assert (forall n k, (k + S n = MRP_MAX_ATTRS)%nat -> chain w (Some k) (seq k (S n))) as Hloop.
  { induction n as [|n IH]; intros k Hk; (split; [done|]; exists (init_attr k); split;
      [rewrite Ha; apply init_attr_lookup; lia|]); cbn [next init_attr upd_next].
    - destruct (Nat.eqb_spec k (MRP_MAX_ATTRS - 1)); [done|lia].
    - destruct (Nat.eqb_spec k (MRP_MAX_ATTRS - 1)); [lia|]. apply IH. lia. }
  pose proof max_attrs_pos as Hpos. destruct MRP_MAX_ATTRS as [|n] eqn:E; [lia|]. by apply Hloop.
Qed.

(** What the invariant sees of static storage: zero. *)
Definition zero_view (w : world) : Prop :=
  attrs (mrp w) = replicate MRP_MAX_ATTRS zero_attr /\
  stream_table (srp w) = replicate AVB_STREAM_TABLE_ENTRIES zero_stream /\
  Forall byte_ok (rx_buf (env w)) /\
  sizes w = [ MRP_MAX_ATTRS; AVB_STREAM_TABLE_ENTRIES; num_entries; length (rx_buf (env w));
    MRP_NUM_PORTS; MRP_NUM_PORTS; MRP_NUM_PORTS; MRP_NUM_PORTS; MRP_NUM_PORTS; MRP_NUM_PORTS ].

Lemma static_zero_view e : Forall byte_ok (rx_buf e) -> zero_view (static_world e).
Proof.
  intros He. split_and!; try done. unfold sizes, static_world. cbn. by rewrite !length_replicate.
Qed.

Lemma zero_view_frames w w' : inv_view w w' -> zero_view w -> zero_view w'.
Proof.
  intros (H1 & H2 & H3 & H4 & H5) (Z1 & Z2 & Z3 & Z4). unfold zero_view. by rewrite H1, H3, H4, H5.
Qed.

Lemma mrp_init_list_inv w :
  zero_view w ->
  srp_inv (bg := none_begun) (upd_mrp (upd_first_attr (fun _ => Some 0%nat))
             (upd_mrp (upd_attrs (fun _ => init_attrs MRP_MAX_ATTRS)) w)).
Proof.
  intros (Z1 & Z2 & Z3 & Z4). split; cbn.
  - etrans; [|exact Z4]. unfold sizes. cbn.
    by rewrite Z1, length_replicate, length_init_attrs.
  - unfold init_attrs. rewrite Nat.sub_diag, app_nil_r. apply Forall_fmap, list.Forall_forall.
    intros i _. split; [done|]. split; [by left|done].
  - rewrite Z2. intros i j a b Ha _ _ Hnz. apply lookup_replicate in Ha as [-> _]. done.
  - done.
  - exists attr_indices. split; [unfold all_listed; reflexivity|]. split; [by apply init_chain|]. apply NoDup_seq.
  - by intros j st [].
Qed.

Lemma mrp_init_inv mac w w' : zero_view w -> mrp_init mac w = Some (tt, w') -> srp_inv (bg := none_begun) w'.
Proof.
  intros Hz. unfold mrp_init. intros ([] & w1 & E1 & E)%M_bind_Some.
  assert (zero_view w1) as Hz1.
  { eapply zero_view_frames; [|exact Hz]. revert E1. apply keeps_forM; [apply _|].
    intros i. keeps_auto. }
  apply M_bind_Some in E as ([] & w2 & E2 & E).
  rewrite (mrp_init_attrs_run w1 (proj1 Hz1)) in E2. injection E2 as <-.
  apply M_bind_Some in E as ([] & w3 & E3 & E). injection E3 as <-.
  cbn zeta in E. match type of E with ?m _ = _ => assert (keeps inv_step m) as H end.
  { apply keeps_forM; [apply _|]. intros i. keeps_auto. }
  exact (inv_step_srp _ _ (H _ _ _ E) (mrp_init_list_inv w1 Hz1)).
Qed.

Lemma task_init_inv mac e w :
  rx_buf e = [] -> task_init mac (static_world e) = Some (tt, w) -> srp_inv (bg := none_begun) w.
Proof.
  intros He ([] & w1 & E1 & E)%M_bind_Some.
  apply M_bind_Some in E as ([] & w2 & E2 & E3).
  apply (inv_step_srp w2); [exact (avb_mvrp_init_inv _ _ _ E3)|].
  apply (inv_step_srp w1); [exact (inv_srp_domain_init _ _ _ E2)|].
  apply (mrp_init_inv mac (static_world e)); [|done]. apply static_zero_view. by rewrite He.
Qed.

(** * Packets *)

Lemma inv_mrp_in three four p port :
  0 <= port < Z.of_nat MRP_NUM_PORTS -> keeps inv_step (mrp_in three four p port).
Proof. intros Hp. eapply ens_inv_step. intros bg RX. by apply ens_mrp_in. Qed.
Hint Resolve inv_mrp_in : keeps.

Lemma inv_propagate_value t fv i three four port :
  0 <= port < Z.of_nat MRP_NUM_PORTS -> keeps inv_step (propagate_value t fv i three four port).
Proof.
  intros Hp. unfold propagate_value. destruct t as [t|]; [|keeps_auto].
  destruct t; keeps_auto; apply inv_process_new_attribute; unfold is_stream_type; tauto.
Qed.

Lemma inv_avb_mrp_process_packet etype len port :
  0 <= port < Z.of_nat MRP_NUM_PORTS -> keeps inv_step (avb_mrp_process_packet etype len port).
Proof.
  intros Hp. eapply ens_inv_step. intros bg RX. apply ens_avb_mrp_process_packet; [done|done| |done].
  intros _ t fv i three four. apply inv_step_ens. by apply inv_propagate_value.
Qed.

Lemma srp_inv_rx `{bg : Begun} w bs : Forall byte_ok bs -> srp_inv w -> srp_inv (upd_env (upd_rx_buf (fun _ => bs)) w).
Proof.
  intros Hb [Is Ia Iu Ir (l & Hl & Il) Ib]. split; cbn; try done.
  - unfold sizes in *. cbn. by injection Is as -> -> -> -> -> -> -> -> ->.
  - exists l. split; [done|]. by apply (linked_ext w).
Qed.

Lemma control_packet_inv `{bg : Begun} buf nbytes port w w' :
  Forall byte_ok buf -> 0 <= port < Z.of_nat MRP_NUM_PORTS -> srp_inv w ->
  avb_process_srp_control_packet buf nbytes port w = Some (tt, w') -> srp_inv w'.
Proof.
  intros Hb Hp Hw (b12 & w1 & E1 & E)%M_bind_Some.
  pose proof (reads_deref _ w _ _ E1) as <-.
  apply M_bind_Some in E as (b13 & w1 & E2 & E).
  pose proof (reads_deref _ w _ _ E2) as <-. cbn zeta in E.
  apply M_bind_Some in E as (etype & w1 & E3 & E).
  assert (w = w1) as <-.
  { revert E3. match goal with |- ?m w = _ -> _ => assert (reads m) as H by keeps_auto end. apply H. }
  destruct (_ && _); [by injection E as <-|]. destruct (_ && _); [by injection E as <-|].
  destruct (_ && _); [by injection E as <-|].
  apply M_bind_Some in E as ([] & w2 & [= <-] & E).
  eapply inv_step_srp; [exact (inv_avb_mrp_process_packet _ _ _ Hp _ _ _ E)|].
  apply srp_inv_rx; [|done]. by apply Forall_drop.
Qed.

(** * The periodic processing *)

Lemma inv_attribute_type_event t e port :
  timer_safe e -> 0 <= port < Z.of_nat MRP_NUM_PORTS ->
  keeps inv_step (attribute_type_event t e port).
Proof.
  intros He Hp. unfold attribute_type_event, for_attr_list, get_first. keeps_auto.
  by apply inv_mrp_update_state.
Qed.

Lemma inv_global_event e port :
  timer_safe e -> 0 <= port < Z.of_nat MRP_NUM_PORTS -> keeps inv_step (global_event e port).
Proof.
  intros He Hp. unfold global_event, for_attr_list, get_first. keeps_auto.
  by apply inv_mrp_update_state.
Qed.

Lemma inv_msrp_types_event e port :
  timer_safe e -> 0 <= port < Z.of_nat MRP_NUM_PORTS -> keeps inv_step (msrp_types_event e port).
Proof. intros He Hp. unfold msrp_types_event. keeps_auto; by apply inv_attribute_type_event. Qed.

Lemma relinked_inv `{bg : Begun} RX w w' l :
  relinked w w' -> linked w' l -> all_listed l -> Inv all_listed RX w -> Inv all_listed RX w'.
Proof.
  intros [Ha E] Hl Hall [Is Ia Iu Ir Il Ib].
  assert (upd_next (fun _ => None) <$> attrs (mrp w') = upd_next (fun _ => None) <$> attrs (mrp w)) as Hmap.
  { apply list_eq. intros x. rewrite !list_lookup_fmap. apply Ha. }
  assert (length (attrs (mrp w')) = length (attrs (mrp w))) as Hlen.
  { apply (f_equal length) in Hmap. by rewrite !length_fmap in Hmap. }
  split.
  - etrans; [|exact Is]. rewrite E. unfold sizes. cbn. by rewrite Hlen.
  - apply list.Forall_lookup. intros x st Hx. specialize (Ha x). rewrite Hx in Ha.
    destruct (attrs (mrp w) !! x) as [st0|] eqn:Ex; [|done]. cbn in Ha. injection Ha as Ha.
    assert (attr_ok st0) as Hok by (by eapply Forall_lookup_1).
    destruct st, st0. cbn in *. simplify_eq. done.
  - by rewrite E.
  - by rewrite E.
  - by exists l.
  - intros x st Hx Est. specialize (Ha x). rewrite Est in Ha.
    destruct (attrs (mrp w) !! x) as [st0|] eqn:Ex; [|done]. cbn in Ha. injection Ha as Ha.
    rewrite <- (Ib x st0 Hx Ex). by destruct st, st0; cbn in *; simplify_eq.
Qed.

Lemma inv_sort_attrs : keeps inv_step sort_attrs.
Proof.
  intros w [] w' E bg RX Hw. destruct (inv_linked _ _ _ Hw) as (l & Hall & Hl).
  pose proof (sort_attrs_wp false w l) as H. unfold wp in H. rewrite E in H.
  destruct H as (l' & Hl' & Hp & Hr); [done|done| | |].
  - intros ->. apply Permutation_nil_l in Hall. pose proof max_attrs_pos.
    change attr_indices with (seq 0 MRP_MAX_ATTRS) in Hall. destruct MRP_MAX_ATTRS; [lia|discriminate Hall].
  - by apply (linked_bounds all_listed RX w l).
  - eapply relinked_inv; [exact Hr|exact Hl'| |exact Hw]. unfold all_listed. by rewrite Hp.
Qed.
Hint Resolve inv_sort_attrs : keeps.

Lemma ports_in_range i : i ∈ ports -> 0 <= i < Z.of_nat MRP_NUM_PORTS.
Proof. intros H%elem_of_seqZ. lia. Qed.

Lemma inv_periodic_timers i :
  0 <= i < Z.of_nat MRP_NUM_PORTS -> keeps inv_step (periodic_timers i).
Proof.
  intros Hi. unfold periodic_timers. keeps_auto;
    first [by apply inv_global_event | by apply inv_msrp_types_event | by apply inv_attribute_type_event].
Qed.

Lemma inv_transmit_all i : 0 <= i < Z.of_nat MRP_NUM_PORTS -> keeps inv_step (transmit_all i).
Proof.
  intros Hi. unfold transmit_all. keeps_auto;
    first [apply inv_msrp_types_event | apply inv_attribute_type_event]; try done; by destruct a1.
Qed.

Lemma inv_deliver_indications j : keeps inv_step (deliver_indications j).
Proof.
  unfold deliver_indications, send_join_indication, send_leave_indication,
    avb_mvrp_vid_vector_join_ind, avb_mvrp_vid_vector_leave_ind.
  keeps_auto. eapply ens_inv_step. intros bg RX. apply ens_upd_st_neutral; [done|]. by intros [].
Qed.
Hint Resolve inv_deliver_indications : keeps.

Lemma inv_domain_boundary_talker j i : keeps inv_step (domain_boundary_talker j i).
Proof.
  unfold domain_boundary_talker. eapply ens_inv_step. intros bg RX.
  apply ens_get_st_in; [done|]. intros st Hst.
  eapply ens_in_read; [keeps_auto|by apply ens_port_get|]. intros boundary _.
  assert (forall e f, (forall s, entry_id (f s) = entry_id s) -> keeps inv_step (upd_stream e f)) as Hs.
  { intros e f Hf. apply inv_upd_stream. intros s. by left. }
  assert (forall ty, is_talker (attribute_type st) = true -> is_talker ty = true ->
    attr_ok (upd_attribute_type (fun _ => ty) st)) as Hty.
  { intros ty H1 H2. destruct Hst as [Hi Ht]. split; [|done]. unfold valid_info in *. cbn.
    apply is_talker_true in H1 as [E|E]; rewrite E in Hi;
      by apply is_talker_true in H2 as [->| ->]. }
  destruct (same_type _ _ && boundary) eqn:E1.
  - apply andb_true_iff in E1 as [E1 _]. apply same_type_true in E1.
    eapply ens_in_write; [apply ens_in_upd_st; [apply Hty; by rewrite ?E1|done|done]|]. intros _ _.
    apply inv_step_ens. keeps_auto; by apply Hs.
  - destruct (same_type _ _ && _ && _) eqn:E2; [|apply ens_in_weaken, ens_skip].
    rewrite <- andb_assoc in E2. apply andb_true_iff in E2 as [E2 _]. apply same_type_true in E2.
    eapply ens_in_read; [keeps_auto|by apply ens_stream_of|]. intros e _.
    eapply ens_in_read; [keeps_auto|by apply ens_get_stream|]. intros s _.
    destruct (failure_code _ =? 8); cbn [whenM]; [|apply ens_in_weaken, ens_skip].
    eapply ens_in_write; [apply ens_in_upd_st; [apply Hty; by rewrite ?E2|done|done]|]. intros _ _.
    apply inv_step_ens. keeps_auto; by apply Hs.
Qed.
Hint Resolve inv_domain_boundary_talker : keeps.

(** A leave timer that expires belongs to a registrar that is leaving. *)
Lemma leaveTimer_expired_ok now st fired t :
  leaveTimer_ok st -> avb_timer_expired now (leaveTimer st) = (fired, t) ->
  timeout_multiplier t = timeout_multiplier (leaveTimer st) /\
  if fired then registrar_state st = MRP_LV /\ active t = 0 else active t = active (leaveTimer st).
Proof.
  intros [Hm Ha]. unfold avb_timer_expired. destruct (active (leaveTimer st) =? 0) eqn:E0.
  { by intros [= <- <-]. }
  apply Z.eqb_neq in E0. assert (registrar_state st = MRP_LV) as Hr by (by destruct (registrar_state st)).
  rewrite Hr in Ha. assert (active (leaveTimer st) = 1) as Ha1 by lia.
  destruct (timeafter _ _); cbn; rewrite Ha1; intros [= <- <-]; by rewrite ?Ha1.
Qed.

Lemma inv_leave_expiry i j :
  keeps inv_step (fired ← leaveTimer_expired j; whenM fired (mrp_update_state MRP_EVENT_LEAVETIMER j 0 i)).
Proof.
  intros w [] w' E bg RX Hw. destruct (attrs (mrp w) !! j) as [st|] eqn:Ej.
  2: { unfold leaveTimer_expired, mbind, M_bind, get_st, load in E. by rewrite Ej in E. }
  assert (attr_ok st) as [Hi Ht] by (destruct Hw; by eapply Forall_lookup_1).
  apply M_bind_Some in E as (fired & w1 & E1 & E). unfold leaveTimer_expired in E1.
  erewrite M_bind_run in E1 by exact (get_st_run j w st Ej).
  erewrite M_bind_run in E1 by reflexivity.
  destruct (avb_timer_expired _ _) as [f t] eqn:Et in E1.
  destruct (leaveTimer_expired_ok _ _ _ _ Ht Et) as [Hm Hf].
  set (w0 := upd_env (upd_clock_reads S) w) in E1.
  assert (attrs (mrp w0) !! j = Some st) as Ej0 by done.
  assert (Inv all_listed RX w0) as Hw0 by (by eapply Inv_view; [|exact Hw]).
  erewrite M_bind_run in E1 by exact (upd_st_run _ _ _ _ Ej0). injection E1 as <- <-.
  destruct f; cbn [whenM] in E.
  - destruct Hf as [Hr Ha]. set (st1 := upd_leaveTimer (fun _ => t) st) in E.
    destruct (mrp_update_state_run MRP_EVENT_LEAVETIMER j 0 i (set_attr j st1 w0) st1)
      as (now & w2 & E2 & Hfr & Hat); [by eapply lookup_set_attr|by intros [?|?]|done|].
    rewrite E in E2. injection E2 as <-. eapply machine_frame_Inv; [exact Hfr|exact Hat|].
    rewrite set_attr_twice. apply (Inv_set_attr _ _ _ _ st); [done|done| |done|].
    { split; [done|]. unfold leaveTimer_ok. cbn. unfold leaveTimer_next. cbn. rewrite Hr. cbn.
      rewrite Hm. destruct Ht as [? _]. by split. }
    rewrite attr_step_multiplier. cbn. by rewrite Hm.
  - injection E as <-. apply (Inv_set_attr _ _ _ _ st); [done|done| |done|].
    { split; [done|]. unfold leaveTimer_ok in *. cbn. by rewrite Hm, Hf. }
    cbn. by rewrite Hm.
Qed.
Hint Resolve inv_leave_expiry : keeps.

Lemma inv_periodic_attr i j : keeps inv_step (periodic_attr i j).
Proof.
  unfold periodic_attr. apply keeps_bind; [apply _|keeps_auto|]. intros st.
  destruct (is_unused st); [keeps_auto|]. destruct (negb _); [keeps_auto|].
  apply keeps_bind; [apply _|apply inv_deliver_indications|]. intros _.
  apply keeps_bind; [apply _|apply inv_domain_boundary_talker|]. intros _.
  apply inv_leave_expiry.
Qed.
Hint Resolve inv_periodic_attr : keeps.

Lemma inv_mrp_periodic : keeps inv_step mrp_periodic.
Proof.
  unfold mrp_periodic.
  assert (forall i, i ∈ ports -> keeps inv_step (
    _ ← periodic_timers i;
    fired ← timer_expired (fun w => joinTimer (mrp w)) (fun f => upd_mrp (upd_joinTimer f)) i;
    _ ← whenM fired (transmit_all i);
    forM attr_indices (periodic_attr i))) as Hi.
  { intros i Hi%ports_in_range. apply keeps_bind; [apply _|by apply inv_periodic_timers|]. intros _.
    keeps_auto. by apply inv_transmit_all. }
  revert Hi. generalize ports. induction l as [|i l IH]; intros Hi; cbn [forM]; [keeps_auto|].
  apply keeps_bind; [apply _|apply Hi; by constructor|]. intros _. apply IH. intros. apply Hi. by constructor.
Qed.

(** * Reachable states *)

Lemma serve_inv `{bg : Begun} i w w' : valid_input i -> srp_inv w -> serve i w = Some (tt, w') -> srp_inv w'.
Proof.
  intros Hv Hw E. destruct i as [up|buf n port| |r|id|id v|id|v]; cbn in Hv, E.
  2: { destruct Hv. by eapply control_packet_inv. }
  all: match type of E with ?m _ = _ => assert (keeps inv_step m) as H
         by (pose proof inv_mrp_periodic; keeps_auto) end.
  all: exact (inv_step_srp _ _ (H _ _ _ E) Hw).
Qed.

Lemma srp_inv_env `{bg : Begun} w e : rx_buf e = rx_buf (env w) -> srp_inv w -> srp_inv (upd_env (fun _ => e) w).
Proof.
  intros He Hw. unfold srp_inv. cbn. rewrite He. eapply Inv_view; [|exact Hw].
  split_and!; try done. unfold sizes. cbn. by rewrite He.
Qed.

Lemma task_step_inv `{bg : Begun} w w' : task_step w w' -> srp_inv w -> srp_inv w'.
Proof. intros [i ? Hv E|e He] Hw; [by eapply serve_inv|by apply srp_inv_env]. Qed.

Lemma reachable_inv w : reachable w -> srp_inv (bg := none_begun) w.
Proof.
  intros (mac & e & w0 & He & E0 & Hrun). pose proof (task_init_inv mac e w0 He E0) as Hw0.
  clear He E0. induction Hrun as [w|w w1 w2 Hstep _ IH]; [done|].
  apply IH. by eapply task_step_inv.
Qed.

(** Any control packet is served to the end on a device with one port: the
    attribute list is whole, so the invariant with the list fixed applies. *)
Lemma control_packet_run `{bg : Begun} buf nbytes w :
  MRP_NUM_PORTS = 1%nat -> srp_inv w -> Forall byte_ok buf ->
  (18 <= length buf)%nat -> 18 <= nbytes -> nbytes + 33 <= Z.of_nat (length buf) ->
  exists w', avb_process_srp_control_packet buf nbytes 0 w = Some (tt, w') /\ srp_inv w'.
Proof.
  intros H1 Hw Hb Hlen Hn Hroom.
  assert (forall k, (k < 18)%nat -> exists b, buf !! k = Some b) as Hat.
  { intros k Hk. apply lookup_lt_is_Some_2. lia. }
  destruct (Hat 12%nat) as [b12 E12]; [lia|]. destruct (Hat 13%nat) as [b13 E13]; [lia|].
  destruct (Hat 16%nat) as [b16 E16]; [lia|]. destruct (Hat 17%nat) as [b17 E17]; [lia|].
  assert (exists w', avb_process_srp_control_packet buf nbytes 0 w = Some (tt, w')) as [w' E].
  2: { exists w'. split; [exact E|]. eapply control_packet_inv; [exact Hb| |exact Hw|exact E]. lia. }
  unfold avb_process_srp_control_packet. rewrite E12, E13, E16, E17.
  assert (forall (h : bool) etype, exists w', (
    if negb (etype =? AVB_SRP_ETHERTYPE) && negb (etype =? AVB_MVRP_ETHERTYPE) then skip
    else if (etype =? AVB_SRP_ETHERTYPE) && negb (dest_is buf srp_dest_mac) then skip
    else if (etype =? AVB_MVRP_ETHERTYPE) && negb (dest_is buf mvrp_dest_mac) then skip
    else
      _ ← modify (upd_env (upd_rx_buf (fun _ => drop (Z.to_nat (if h then 18 else 14)) buf)));
      avb_mrp_process_packet etype (nbytes - (if h then 18 else 14)) 0) w = Some (tt, w')) as Hrest.
  { intros h etype. do 3 (destruct (_ && _); [by eexists|]).
    set (bs := drop _ buf). set (w1 := upd_env (upd_rx_buf (fun _ => bs)) w).
    assert (srp_inv w1) as Hw1 by (apply srp_inv_rx; [by apply Forall_drop|done]).
    destruct (inv_linked _ _ _ Hw1) as (l & _ & Hl).
    pose proof (ens_avb_mrp_process_packet true (eq l) (length bs)) as H.
    specialize (H (fun _ => ex_intro _ l eq_refl) 0 ltac:(lia)).
    assert (two_ports = false) as H2 by (unfold two_ports; by rewrite H1).
    specialize (H (fun E => ltac:(congruence)) (nbytes - (if h then 18 else 14))).
    assert (0 <= nbytes - (if h then 18 else 14) /\
      nbytes - (if h then 18 else 14) + 33 <= Z.of_nat (length bs)) as Hs.
    { subst bs. rewrite length_drop. destruct h; lia. }
    specialize (H (fun _ => Hs) etype w1).
    erewrite M_bind_run by reflexivity. fold w1.
    destruct (avb_mrp_process_packet _ _ _ w1) as [[[] w']|]; [by eexists|].
    discriminate H. destruct Hw1. split; try done. by exists l. }
  do 2 (erewrite M_bind_run by reflexivity). cbn zeta. destruct (b13 =? 0x18).
  - exact (Hrest true (Z.shiftl b16 8 + b17)).
  - exact (Hrest false (Z.shiftl b12 8 + b13)).
Qed.
End Task.
