(* ===== verification/SrpSafety.v ===== *)
(** What holds in every state the SRP task can reach. *)
From S2P Require Import Prelude Bytes MiscTimer MrpTypes MrpMatch SrpTable MrpPdu SrpEncode.
From S2P Require Import MrpCore MrpMachine MrpSort MvrpVlan AvbApp SrpApp MrpRx.
From S2P Require Import MrpPeriodic MrpInv MrpFrames MrpRxSafe MrpKeeps SrpTask.
From Stdlib Require Import ZArith Lia.
From stdpp Require Import base list list_numbers numbers relations.
#[local] Open Scope Z_scope.

Section Safety.
  Context `{cfg : Config}.

(** C1: whatever happened before, a device with one port serves every control
    packet to the end - malformed ones included - without undefined behaviour:
    no null or stray pointer is followed, no array is indexed outside its
    bounds, and no loop runs on. (The receive buffer of the task has 1520 bytes;
    the packet may use all but 33 of them.) *)
Theorem reachable_packet_safe buf nbytes w :
  MRP_NUM_PORTS = 1%nat -> reachable w ->
  Forall byte_ok buf -> Z.of_nat (length buf) = control_buffer_size ->
  18 <= nbytes <= control_buffer_size - 33 ->
  exists w', serve (ControlPacket buf nbytes 0) w = Some (tt, w') /\ reachable w'.
Proof.
  intros H1 Hw Hb Hlen Hn. unfold control_buffer_size in *. cbn in Hlen, Hn.
  destruct (control_packet_run (bg := none_begun) buf nbytes w) as (w' & E & _); try done; [by apply reachable_inv|lia..|].
  exists w'. split; [exact E|]. destruct Hw as (mac & e & w0 & He & E0 & Hrun).
  exists mac, e, w0. split_and!; try done. eapply rtc_r; [exact Hrun|].
  eapply (step_serve _ (ControlPacket buf nbytes 0)); [|exact E]. split; [done|]. rewrite H1. lia.
Qed.

(** A leave timer that has been given its period: it has one to count exactly while the
    attribute is leaving. *)
Definition timed (st : mrp_attribute_state) : Prop :=
  timeout_multiplier (leaveTimer st) = 1 /\
  active (leaveTimer st) = match registrar_state st with MRP_LV => 1 | _ => 0 end.

(** Attribute [j] has such a timer whatever the task does from [w] on. *)
Definition stays_timed (j : nat) (w : world) : Prop :=
  forall w', rtc task_step w w' -> exists st, attrs (mrp w') !! j = Some st /\ timed st.

Lemma attr_timed st : attr_ok st -> timeout_multiplier (leaveTimer st) = 1 -> timed st.
Proof. intros [_ [_ Ha]] Hm. split; [done|]. rewrite Ha. by destruct (registrar_state st). Qed.

Lemma begun_stays_timed j w :
  (j < MRP_MAX_ATTRS)%nat -> srp_inv (bg := eq j) w -> stays_timed j w.
Proof.
  intros Hj Hw w' Hrun. assert (srp_inv (bg := eq j) w') as Hw'.
  { induction Hrun as [w|w w1 w2 Hs _ IH]; [done|]. apply IH. by eapply task_step_inv. }
  destruct (lookup_lt_is_Some_2 (attrs (mrp w')) j) as [st Hst]; [by erewrite inv_length|].
  exists st. split; [done|]. apply attr_timed.
  - destruct Hw'. by eapply Forall_lookup_1.
  - by apply (inv_begun _ _ _ Hw' j).
Qed.

Lemma srp_inv_begun j w st :
  srp_inv (bg := none_begun) w -> attrs (mrp w) !! j = Some st -> timeout_multiplier (leaveTimer st) = 1 ->
  srp_inv (bg := eq j) w.
Proof. intros [Is Ia Iu Ir Il _] Hj Hm. split; try done. intros ? ? <- E. congruence. Qed.

Lemma mad_begin_timed w j :
  reachable w -> (j < MRP_MAX_ATTRS)%nat ->
  exists w' st, mrp_mad_begin j w = Some (tt, w') /\ attrs (mrp w') !! j = Some st /\
    timed st /\ registrar_state st = MRP_MT /\ srp_inv (bg := none_begun) w'.
Proof.
  intros Hw Hj. pose proof (reachable_inv w Hw) as Hi.
  destruct (lookup_lt_is_Some_2 (attrs (mrp w)) j) as [st0 Hst0]; [by erewrite inv_length|].
  set (st1 := upd_leaveTimer (init_avb_timer 1) st0). set (w1 := set_attr j st1 w).
  assert (attrs (mrp w1) !! j = Some st1) as H1 by (by eapply lookup_set_attr).
  destruct (mrp_update_state_run MRP_EVENT_BEGIN j 0 (port_num st1) w1 st1 H1) as (now & w' & E & _ & Ha);
    [by intros [|]|done|].
  assert (mrp_mad_begin j w = Some (tt, w')) as Eb.
  { unfold mrp_mad_begin. erewrite M_bind_run by exact (upd_st_run _ _ _ _ Hst0). fold st1 w1.
    by erewrite M_bind_run by exact (get_st_run _ _ _ H1). }
  exists w', (attr_step MRP_EVENT_BEGIN 0 now st1). split_and!; [done| | | |].
  - rewrite Ha. apply list_lookup_insert_eq. by eapply lookup_lt_Some.
  - split; [by rewrite attr_step_multiplier|]. cbn. unfold leaveTimer_next. cbn.
    by destruct (registrar_state st0).
  - done.
  - eapply inv_step_srp; [exact (inv_mrp_mad_begin j w tt w' Eb)|done].
Qed.

(** C3: in every reachable state the leave timer of an attribute that has begun runs, with one
    period to count, exactly while its registrar is leaving. [mrp_mad_begin] gives the attribute
    a stopped timer with a period of one, and whatever the task does from then on, it stays
    true that the timer runs exactly while the registrar is in [MRP_LV]; the timer of an attribute
    that has not begun, zero as static storage is, never runs. *)
Theorem reachable_leave_timer w j st :
  reachable w -> attrs (mrp w) !! j = Some st ->
  (timed st \/ timeout_multiplier (leaveTimer st) = 0 /\ active (leaveTimer st) = 0) /\
  (timed st -> stays_timed j w) /\
  (exists w' st', mrp_mad_begin j w = Some (tt, w') /\ attrs (mrp w') !! j = Some st' /\
     timed st' /\ registrar_state st' = MRP_MT /\ stays_timed j w').
Proof.
  intros Hw Hj. pose proof (reachable_inv w Hw) as Hi.
  assert (attr_ok st) as Hok by (destruct Hi; by eapply Forall_lookup_1).
  assert (j < MRP_MAX_ATTRS)%nat as Hlt by (erewrite <- inv_length by exact Hi; by eapply lookup_lt_Some).
  split_and!.
  - pose proof Hok as [_ [[Hm|Hm] Ha]]; [right|left; by apply attr_timed].
    split; [done|]. rewrite Ha, Hm. by destruct (registrar_state st).
  - intros [Hm _]. apply begun_stays_timed; [done|]. by eapply srp_inv_begun.
  - destruct (mad_begin_timed w j Hw Hlt) as (w' & st' & E & Hj' & Ht & Hr & Hi').
    exists w', st'. split_and!; try done. apply begun_stays_timed; [done|].
    eapply srp_inv_begun; [done|done|apply Ht].
Qed.

(** C4: in every reachable state a stream has at most one entry in the
    reservation table. *)
Theorem reachable_unique_streams w i j e f :
  reachable w -> stream_table (srp w) !! i = Some e -> stream_table (srp w) !! j = Some f ->
  entry_id e = entry_id f -> entry_id e <> (0, 0) -> i = j.
Proof. intros Hw. pose proof (reachable_inv w Hw) as Hi. by apply (inv_unique _ _ _ Hi). Qed.

(** C5: in every reachable state the sorted list has each of the attributes once:
    following [next] from [first_attr] visits all of them and ends. *)
Theorem reachable_list_complete w :
  reachable w -> exists l, chain w (first_attr (mrp w)) l /\ l ≡ₚ seq 0 MRP_MAX_ATTRS.
Proof.
  intros Hw. pose proof (reachable_inv w Hw) as Hi.
  destruct (inv_linked _ _ _ Hi) as (l & Hl & Hc & _). by exists l.
Qed.

(** In every reachable state the pointers kept in attributes are valid: a
    talker's or listener's information points to an entry of the reservation
    table (or is null), a VLAN attribute's to an entry of the VLAN table. *)
Theorem reachable_pointers_valid w j st :
  reachable w -> attrs (mrp w) !! j = Some st ->
  match attribute_type st with
  | MSRP_TALKER_ADVERTISE | MSRP_TALKER_FAILED | MSRP_LISTENER =>
      attribute_info st = InfoNull \/
      exists i e, attribute_info st = InfoStream i /\ stream_table (srp w) !! i = Some e
  | MVRP_VID_VECTOR => exists i e, attribute_info st = InfoVlan i /\ mvrp w !! i = Some e
  | _ => True
  end.
Proof.
  intros Hw Hj. pose proof (reachable_inv w Hw) as Hi.
  assert (attr_ok st) as [Hv _] by (destruct Hi; by eapply Forall_lookup_1).
  assert (length (stream_table (srp w)) = AVB_STREAM_TABLE_ENTRIES) as Hs
    by (by eapply inv_table_length).
  assert (length (mvrp w) = num_entries) as Hm.
  { destruct Hi as [Is _ _ _ _ _]. by injection Is. }
  unfold valid_info in Hv. rewrite <- Hs, <- Hm in Hv.
  destruct (attribute_type st), (attribute_info st) as [|i|i]; try done; try (by left); try right;
    apply lookup_lt_is_Some_2 in Hv as [e He]; by exists i, e.
Qed.
(** An attribute that has left: its registration is gone, and the application is
    to be told. *)
Definition withdrawn (now : Z) (st : mrp_attribute_state) : mrp_attribute_state :=
  MkAttr (port_num st) (attribute_type st) (applicant_state st) (remove_after_next_tx st) MRP_MT
    (MkTimer (u32 (now + period (leaveTimer st))) (period (leaveTimer st)) 0
       (timeout_multiplier (leaveTimer st)))
    (Z.lor (pending_indications st) PENDING_LEAVE) 0
    (next st) (here st) (propagated st) (attribute_info st).

(** In every reachable state, the look at a leave timer that is running
    withdraws the attribute if the period has passed - the registrar is empty, the
    timer stopped and a leave indication pending - and otherwise changes nothing.
    No other attribute, and no part of the state outside the attributes and the
    leave-all timers, is touched. *)
Theorem reachable_leave_expires w j st i :
  reachable w -> attrs (mrp w) !! j = Some st -> active (leaveTimer st) <> 0 ->
  let now := u32 (clock (env w) (clock_reads (env w))) in
  exists w', (fired ← leaveTimer_expired j;
              whenM fired (mrp_update_state MRP_EVENT_LEAVETIMER j 0 i)) w = Some (tt, w') /\
    machine_frame w w' /\
    attrs (mrp w') =
      <[j := if timeafter now (timeout (leaveTimer st)) then withdrawn now st else st]> (attrs (mrp w)).
Proof.
  intros Hw Hj Hact now.
  assert (attr_ok st) as [_ [Hm Ha]].
  { pose proof (reachable_inv w Hw) as Hi. destruct Hi. by eapply Forall_lookup_1. }
  assert (registrar_state st = MRP_LV) as Hr by (by destruct (registrar_state st)).
  rewrite Hr in Ha. assert (active (leaveTimer st) = 1) as Ha1 by lia.
  set (w0 := upd_env (upd_clock_reads S) w).
  assert (attrs (mrp w0) !! j = Some st) as Hj0 by done.
  assert (forall f t, avb_timer_expired now (leaveTimer st) = (f, t) ->
    leaveTimer_expired j w = Some (f, set_attr j (upd_leaveTimer (fun _ => t) st) w0)) as Hread.
  { intros f t E. unfold leaveTimer_expired. erewrite M_bind_run by exact (get_st_run j w st Hj).
    erewrite M_bind_run by reflexivity. fold now. rewrite E.
    by erewrite M_bind_run by exact (upd_st_run _ _ _ _ Hj0). }
  unfold avb_timer_expired in Hread. rewrite Ha1 in Hread. cbn [Z.eqb] in Hread.
  destruct (timeafter now (timeout (leaveTimer st))).
  - erewrite M_bind_run by (by apply Hread). cbn [whenM].
    set (st1 := upd_leaveTimer _ st).
    destruct (mrp_update_state_run MRP_EVENT_LEAVETIMER j 0 i (set_attr j st1 w0) st1)
      as (now' & w' & E & Hf & Hat); [by eapply lookup_set_attr|by intros [?|?]|done|].
    exists w'. split; [exact E|]. split.
    + etrans; [apply upd_clock_frame|]. etrans; [apply set_attr_frame|exact Hf].
    + rewrite Hat. cbn. rewrite list_insert_insert_eq. do 2 f_equal.
      unfold attr_step, leaveTimer_next, indication, withdrawn. cbn. by rewrite Hr.
  - rewrite Ha1 in Hread. erewrite M_bind_run by (by apply Hread).
    eexists. split; [reflexivity|]. split.
    + etrans; [apply upd_clock_frame|apply set_attr_frame].
    + cbn. do 2 f_equal. by destruct st.
Qed.
End Safety.

(** * A run of the task

    The default configuration: the link comes up, the bridge declares the SRP
    domain, the application registers its stream (1, 2), a listener of it is
    ready, and then leaves. *)
Section Run.
  Context `{cfg : Config}.

Fixpoint serve_all (l : list input) : SM unit :=
  match l with
  | [] => skip
  | i :: l' => _ ← serve i; serve_all l'
  end.

Definition run (mac_addr : list Z) (l : list input) : SM unit :=
  _ ← task_init mac_addr; serve_all l.

Lemma serve_all_steps l w w' :
  Forall valid_input l -> serve_all l w = Some (tt, w') -> rtc task_step w w'.
Proof.
  intros Hl. revert w. induction Hl as [|i l Hi _ IH]; intros w; cbn [serve_all].
  - intros [= <-]. reflexivity.
  - intros ([] & w1 & E1 & E2)%M_bind_Some. eapply rtc_l; [by eapply step_serve|by apply IH].
Qed.

Lemma run_reachable mac e l w :
  rx_buf e = [] -> Forall valid_input l -> run mac l (static_world e) = Some (tt, w) -> reachable w.
Proof.
  intros He Hl ([] & w0 & E0 & E)%M_bind_Some. exists mac, e, w0. split_and!; try done.
  by eapply serve_all_steps.
Qed.

Lemma reachable_clock f w : reachable w -> reachable (upd_env (upd_clock f) w).
Proof.
  intros (mac & e & w0 & He & E & Hrun). exists mac, e, w0. split_and!; [done..|].
  eapply rtc_r; [exact Hrun|]. exact (step_env w (upd_clock f (env w)) eq_refl).
Qed.
End Run.

#[local] Existing Instance default_config.

Definition sample_mac : list Z := [0; 0x22; 0x97; 1; 2; 3].

(** An MSRP frame in the receive buffer. *)
Definition frame (payload : list Z) : list Z :=
  srp_dest_mac ++ sample_mac ++ [0x22; 0xea] ++ payload ++ replicate (1520 - 14 - length payload) 0.
Definition domain_payload : list Z := [0; 4; 4; 0; 9; 0; 1; 6; 3; 0; 2; 36; 0; 0; 0; 0].
Definition listener_payload (three four : Z) : list Z :=
  [0; 3; 8; 0; 14; 0; 1; 0; 0; 0; 1; 0; 0; 0; 2; three * 36; four * 64; 0; 0; 0; 0].

Definition sample_inputs : list input :=
  [ LinkStatus true;
    ControlPacket (frame domain_payload) 30 0;
    Tick;
    RegisterStream (reservation sample_stream);
    ControlPacket (frame (listener_payload MRP_ATTRIBUTE_EVENT_JOINMT
                            AVB_SRP_FOUR_PACKED_EVENT_READY)) 35 0;
    Tick;
    ControlPacket (frame (listener_payload MRP_ATTRIBUTE_EVENT_LV
                            AVB_SRP_FOUR_PACKED_EVENT_READY)) 35 0 ].

Definition after (n : nat) : world :=
  match run sample_mac (take n sample_inputs) (static_world sample_env) with
  | Some (_, w) => w
  | None => static_world sample_env
  end.

Lemma sample_valid : Forall valid_input sample_inputs.
Proof.
  repeat (apply Forall_cons_2; [first [exact I | split; [apply bytes_okb; vm_compute; reflexivity|by split]]|]).
  apply Forall_nil_2.
Qed.

Lemma after_reachable n :
  (n <= 7)%nat -> reachable (after n).
Proof.
  intros Hn. eapply (run_reachable sample_mac sample_env (take n sample_inputs)); [done| |].
  - apply Forall_take, sample_valid.
  - assert (is_Some (run sample_mac (take n sample_inputs) (static_world sample_env))) as [[[] w] E].
    { apply (bool_decide_unpack _). do 8 (destruct n as [|n]; [vm_compute; exact I|]). lia. }
    unfold after. by rewrite E.
Qed.

(** The run as a whole: the source is enabled when its listener is ready. *)
Example sample_run_enables_source :
  trace (env (after 6)) =
    [SetSinkVlan 0 2; SetSourcePort 0 0; SetSourceState 0 AVB_SOURCE_STATE_ENABLED] /\
  port_bandwidth (srp (after 6)) = [6272000].
Proof. split; vm_compute; reflexivity. Qed.

(** A frame of the right kind with 500 bytes of rubbish. *)
Definition rubbish : list Z := frame (0 :: replicate 499 0xb5).

Lemma reachable_packet_safe_witness :
  Forall byte_ok rubbish /\ Z.of_nat (length rubbish) = control_buffer_size /\
  exists w', serve (ControlPacket rubbish 514 0) (after 4) = Some (tt, w') /\ reachable w'.
Proof.
  assert (Forall byte_ok rubbish) as Hb by (apply bytes_okb; vm_compute; reflexivity).
  assert (Z.of_nat (length rubbish) = control_buffer_size) as Hl by (vm_compute; reflexivity).
  split; [exact Hb|]. split; [exact Hl|].
  apply (@reachable_packet_safe default_config rubbish 514 (after 4) eq_refl); [|exact Hb|exact Hl|].
  - apply after_reachable. lia.
  - split; vm_compute; congruence.
Defined.

Lemma reachable_leave_timer_witness :
  exists st, attrs (mrp (after 7)) !! 4%nat = Some st /\ registrar_state st = MRP_LV /\
    active (leaveTimer st) = 1 /\ stays_timed 4 (after 7).
Proof.
  eexists. split; [vm_compute; reflexivity|]. split; [reflexivity|]. split; [reflexivity|].
  refine (proj1 (proj2 (@reachable_leave_timer default_config (after 7) 4%nat _ _ _)) _);
    [apply after_reachable; lia|vm_compute; reflexivity|split; reflexivity].
Defined.

Lemma reachable_unique_streams_witness :
  exists i e, stream_table (srp (after 4)) !! i = Some e /\ entry_id e = (1, 2) /\
    forall j f, stream_table (srp (after 4)) !! j = Some f -> entry_id f = (1, 2) -> i = j.
Proof.
  exists 5%nat. eexists. split; [vm_compute; reflexivity|]. split; [reflexivity|].
  intros j f Hj Hf.
  refine (@reachable_unique_streams default_config (after 4) 5%nat j _ f _ _ Hj _ _).
  - apply after_reachable. lia.
  - vm_compute. reflexivity.
  - symmetry. exact Hf.
  - discriminate.
Defined.

Lemma reachable_list_complete_witness :
  exists l, chain (after 6) (first_attr (mrp (after 6))) l /\ l ≡ₚ [0; 1; 2; 3; 4; 5; 6; 7; 8]%nat.
Proof.
  apply (@reachable_list_complete default_config (after 6)). apply after_reachable. lia.
Defined.

Lemma reachable_pointers_valid_witness :
  exists st, attrs (mrp (after 4)) !! 3%nat = Some st /\
    attribute_type st = MSRP_TALKER_ADVERTISE /\
    (attribute_info st = InfoNull \/
     exists i e, attribute_info st = InfoStream i /\ stream_table (srp (after 4)) !! i = Some e).
Proof.
  assert (exists st, attrs (mrp (after 4)) !! 3%nat = Some st /\
    attribute_type st = MSRP_TALKER_ADVERTISE) as (st & Hst & Hty)
    by (eexists; split; vm_compute; reflexivity).
  exists st. split; [exact Hst|]. split; [exact Hty|].
  assert (reachable (after 4)) as Hr by (apply after_reachable; lia).
  pose proof (@reachable_pointers_valid default_config (after 4) 3%nat st Hr Hst) as H.
  rewrite Hty in H. exact H.
Defined.

(** A second after the listener's leave, long after its leave timer has run out. *)
Definition late : world := upd_env (upd_clock (fun _ n => 100000000 + 1000 * Z.of_nat n)) (after 7).

Lemma late_reachable : reachable late.
Proof. apply reachable_clock, after_reachable. lia. Qed.

Lemma reachable_leave_expires_witness :
  exists st, attrs (mrp late) !! 4%nat = Some st /\ registrar_state st = MRP_LV /\
    active (leaveTimer st) <> 0 /\
  exists w', (fired ← leaveTimer_expired 4;
              whenM fired (mrp_update_state MRP_EVENT_LEAVETIMER 4 0 0)) late = Some (tt, w') /\
    (registrar_state <$> attrs (mrp w') !! 4%nat) = Some MRP_MT.
Proof.
  eexists. split; [vm_compute; reflexivity|]. split; [reflexivity|]. split; [discriminate|].
  edestruct (@reachable_leave_expires default_config late 4%nat) as (w' & E & _ & Ha);
    [apply late_reachable|vm_compute; reflexivity|discriminate|].
  exists w'. split; [exact E|]. rewrite Ha. vm_compute. reflexivity.
Defined.
