(* ===== verification/AudioFifo.v ===== *)
(** The output FIFOs between the 1722 listener and the audio hardware
    ([lib_tsn/src/audio_buffering/audio_output_fifo.c] and [.h]): a ring of words
    with its read and write pointers, the timestamps the clock recovery works
    with, and the states that lock it to a stream.

    Pointers into [fifo] are offsets from [START_OF_FIFO]; [END_OF_FIFO] is the
    offset [AUDIO_OUTPUT_FIFO_WORD_SIZE].  The volume control, which the default
    configuration leaves out, is not modelled. *)
From S2P Require Import Prelude Bytes.
From Stdlib Require Import ZArith Lia.
From stdpp Require Import base list list_numbers numbers.
#[local] Open Scope Z_scope.

(** The size of a FIFO in words, and whether the samples come in the format SAF
    ([AVB_1722_FORMAT_SAF]) and not in that of IEC 61883-6. *)
Class FifoConfig : Type := {
  AUDIO_OUTPUT_FIFO_WORD_SIZE : Z;
  AVB_1722_FORMAT_SAF : bool;
  word_size_pos : 1 < AUDIO_OUTPUT_FIFO_WORD_SIZE;
}.

(** [AVB_MAX_AUDIO_SAMPLE_RATE/450] at 48 kHz. *)
Definition default_fifo_config : FifoConfig :=
  {| AUDIO_OUTPUT_FIFO_WORD_SIZE := 106; AVB_1722_FORMAT_SAF := false; word_size_pos := eq_refl |}.

Inductive ofifo_state_t : Type := DISABLED | ZEROING | LOCKING | LOCKED.

#[global] Instance ofifo_state_eq_dec : EqDecision ofifo_state_t.
Proof. solve_decision. Defined.

Record ofifo_t : Type := MkFifo {
  zero_flag : bool;  (* output zeros instead of the contents *)
  dptr : Z;  (* the read pointer *)
  wrptr : Z;  (* the write pointer *)
  marker : option Z;  (* the sample the timestamps apply to *)
  local_ts : Z;  (* int *)
  ptp_ts : Z;  (* int *)
  sample_count : Z;  (* unsigned int *)
  zero_marker : option Z;
  state : ofifo_state_t;
  last_notification_time : Z;  (* int *)
  media_clock : Z;  (* int *)
  pending_init_notification : bool;
  volume : Z;  (* int *)
  fifo : list Z;  (* unsigned int[AUDIO_OUTPUT_FIFO_WORD_SIZE] *)
}.

Definition upd_zero_flag (g : bool -> bool) (s : ofifo_t) : ofifo_t :=
  MkFifo (g (zero_flag s)) (dptr s) (wrptr s) (marker s) (local_ts s) (ptp_ts s) (sample_count
    s) (zero_marker s) (state s) (last_notification_time s) (media_clock s)
    (pending_init_notification s) (volume s) (fifo s).
Definition upd_dptr (g : Z -> Z) (s : ofifo_t) : ofifo_t :=
  MkFifo (zero_flag s) (g (dptr s)) (wrptr s) (marker s) (local_ts s) (ptp_ts s) (sample_count
    s) (zero_marker s) (state s) (last_notification_time s) (media_clock s)
    (pending_init_notification s) (volume s) (fifo s).
Definition upd_wrptr (g : Z -> Z) (s : ofifo_t) : ofifo_t :=
  MkFifo (zero_flag s) (dptr s) (g (wrptr s)) (marker s) (local_ts s) (ptp_ts s) (sample_count
    s) (zero_marker s) (state s) (last_notification_time s) (media_clock s)
    (pending_init_notification s) (volume s) (fifo s).
Definition upd_marker (g : option Z -> option Z) (s : ofifo_t) : ofifo_t :=
  MkFifo (zero_flag s) (dptr s) (wrptr s) (g (marker s)) (local_ts s) (ptp_ts s) (sample_count
    s) (zero_marker s) (state s) (last_notification_time s) (media_clock s)
    (pending_init_notification s) (volume s) (fifo s).
Definition upd_local_ts (g : Z -> Z) (s : ofifo_t) : ofifo_t :=
  MkFifo (zero_flag s) (dptr s) (wrptr s) (marker s) (g (local_ts s)) (ptp_ts s) (sample_count
    s) (zero_marker s) (state s) (last_notification_time s) (media_clock s)
    (pending_init_notification s) (volume s) (fifo s).
Definition upd_ptp_ts (g : Z -> Z) (s : ofifo_t) : ofifo_t :=
  MkFifo (zero_flag s) (dptr s) (wrptr s) (marker s) (local_ts s) (g (ptp_ts s)) (sample_count
    s) (zero_marker s) (state s) (last_notification_time s) (media_clock s)
    (pending_init_notification s) (volume s) (fifo s).
Definition upd_sample_count (g : Z -> Z) (s : ofifo_t) : ofifo_t :=
  MkFifo (zero_flag s) (dptr s) (wrptr s) (marker s) (local_ts s) (ptp_ts s) (g (sample_count
    s)) (zero_marker s) (state s) (last_notification_time s) (media_clock s)
    (pending_init_notification s) (volume s) (fifo s).
Definition upd_zero_marker (g : option Z -> option Z) (s : ofifo_t) : ofifo_t :=
  MkFifo (zero_flag s) (dptr s) (wrptr s) (marker s) (local_ts s) (ptp_ts s) (sample_count s)
    (g (zero_marker s)) (state s) (last_notification_time s) (media_clock s)
    (pending_init_notification s) (volume s) (fifo s).
Definition upd_state (g : ofifo_state_t -> ofifo_state_t) (s : ofifo_t) : ofifo_t :=
  MkFifo (zero_flag s) (dptr s) (wrptr s) (marker s) (local_ts s) (ptp_ts s) (sample_count s)
    (zero_marker s) (g (state s)) (last_notification_time s) (media_clock s)
    (pending_init_notification s) (volume s) (fifo s).
Definition upd_last_notification_time (g : Z -> Z) (s : ofifo_t) : ofifo_t :=
  MkFifo (zero_flag s) (dptr s) (wrptr s) (marker s) (local_ts s) (ptp_ts s) (sample_count s)
    (zero_marker s) (state s) (g (last_notification_time s)) (media_clock s)
    (pending_init_notification s) (volume s) (fifo s).
Definition upd_media_clock (g : Z -> Z) (s : ofifo_t) : ofifo_t :=
  MkFifo (zero_flag s) (dptr s) (wrptr s) (marker s) (local_ts s) (ptp_ts s) (sample_count s)
    (zero_marker s) (state s) (last_notification_time s) (g (media_clock s))
    (pending_init_notification s) (volume s) (fifo s).
Definition upd_pending_init_notification (g : bool -> bool) (s : ofifo_t) : ofifo_t :=
  MkFifo (zero_flag s) (dptr s) (wrptr s) (marker s) (local_ts s) (ptp_ts s) (sample_count s)
    (zero_marker s) (state s) (last_notification_time s) (media_clock s) (g
    (pending_init_notification s)) (volume s) (fifo s).
Definition upd_volume (g : Z -> Z) (s : ofifo_t) : ofifo_t :=
  MkFifo (zero_flag s) (dptr s) (wrptr s) (marker s) (local_ts s) (ptp_ts s) (sample_count s)
    (zero_marker s) (state s) (last_notification_time s) (media_clock s)
    (pending_init_notification s) (g (volume s)) (fifo s).
Definition upd_fifo (g : list Z -> list Z) (s : ofifo_t) : ofifo_t :=
  MkFifo (zero_flag s) (dptr s) (wrptr s) (marker s) (local_ts s) (ptp_ts s) (sample_count s)
    (zero_marker s) (state s) (last_notification_time s) (media_clock s)
    (pending_init_notification s) (volume s) (g (fifo s)).

(** What goes to the clock recovery over [buf_ctl]. A FIFO is named by its
    index where the sources pass its address. *)
Inductive buf_ctl_msg : Type :=
| BufNewStream (index : nat)
| BufGotInfo (index : nat)
| BufInfo (locked : bool) (ptp_ts' local_ts' rdptr' wrptr' : Z)
| BufNewStreamInfo (media_clock' : Z)
| BufAck.

(** The commands that come back; [BUF_CTL_ADJUST_FILL] is followed by a number. *)
Inductive buf_ctl_cmd : Type :=
| BUF_CTL_REQUEST_INFO
| BUF_CTL_REQUEST_NEW_STREAM_INFO
| BUF_CTL_ADJUST_FILL (adjust : Z)
| BUF_CTL_RESET
| BUF_CTL_ACK
| BUF_CTL_OTHER (cmd : Z).

Definition MAX_VOLUME : Z := 0x40000000.
Definition NOTIFICATION_PERIOD : Z := 250.

Definition get_fifo : M ofifo_t ofifo_t := gets id.

(** A 32-bit word of little-endian memory. *)
Definition word_le (buf : list Z) (off : Z) : option Z :=
  if 0 <=? off then
    match take 4 (drop (Z.to_nat off) buf) with
    | [a; b; c; d] => Some (a + b * 2 ^ 8 + c * 2 ^ 16 + d * 2 ^ 24)
    | _ => None
    end
  else None.

Section Fifo.
  Context `{cfg : FifoConfig}.

(** The read and the write through a pointer into [fifo]. *)
Definition fifo_read (p : Z) (s : ofifo_t) : option Z :=
  if 0 <=? p then fifo s !! Z.to_nat p else None.
Definition fifo_write (p v : Z) (s : ofifo_t) : option ofifo_t :=
  if (0 <=? p) && (p <? Z.of_nat (length (fifo s)))
  then Some (upd_fifo (<[Z.to_nat p := v]>) s) else None.

(** [x+1], or the start if that is the end. *)
Definition next_ptr (p : Z) : Z :=
  if p + 1 =? AUDIO_OUTPUT_FIFO_WORD_SIZE then 0 else p + 1.

Definition audio_output_fifo_init : M ofifo_t unit :=
  _ ← modify (upd_state (fun _ => DISABLED));
  _ ← modify (upd_dptr (fun _ => 0));
  _ ← modify (upd_wrptr (fun _ => 0));
  _ ← modify (upd_media_clock (fun _ => -1));
  _ ← modify (upd_pending_init_notification (fun _ => false));
  _ ← modify (upd_last_notification_time (fun _ => 0));
  modify (upd_volume (fun _ => MAX_VOLUME)).

Definition disable_audio_output_fifo : M ofifo_t unit :=
  _ ← modify (upd_state (fun _ => DISABLED));
  modify (upd_zero_flag (fun _ => true)).

Definition enable_audio_output_fifo (media_clock' : Z) : M ofifo_t unit :=
  _ ← modify (upd_state (fun _ => ZEROING));
  _ ← modify (upd_dptr (fun _ => 0));
  _ ← modify (upd_wrptr (fun _ => 0));
  _ ← modify (upd_marker (fun _ => None));
  _ ← modify (upd_local_ts (fun _ => 0));
  _ ← modify (upd_ptp_ts (fun _ => 0));
  _ ← modify (upd_zero_marker (fun _ => Some (AUDIO_OUTPUT_FIFO_WORD_SIZE - 1)));
  _ ← modify (upd_zero_flag (fun _ => true));
  _ ← store (fifo_write (AUDIO_OUTPUT_FIFO_WORD_SIZE - 1) 1);
  _ ← modify (upd_sample_count (fun _ => 0));
  _ ← modify (upd_media_clock (fun _ => media_clock'));
  modify (upd_pending_init_notification (fun _ => true)).

(** Zero means "none", so a timestamp of zero is recorded as one. *)
Definition nonzero_ts (ts : Z) : Z := if ts =? 0 then 1 else ts.

Definition audio_output_fifo_set_ptp_timestamp (ptp_ts' sample_number : Z) : M ofifo_t unit :=
  s ← get_fifo;
  match marker s with
  | Some _ => skip
  | None =>
      let new_marker := wrptr s + sample_number in
      let new_marker := if AUDIO_OUTPUT_FIFO_WORD_SIZE <=? new_marker
                        then new_marker - AUDIO_OUTPUT_FIFO_WORD_SIZE else new_marker in
      _ ← modify (upd_ptp_ts (fun _ => s32 (nonzero_ts ptp_ts')));
      _ ← modify (upd_local_ts (fun _ => 0));
      modify (upd_marker (fun _ => Some new_marker))
  end.

Definition audio_output_fifo_pull_sample (timestamp : Z) : M ofifo_t Z :=
  s ← get_fifo;
  let d := dptr s in
  if d =? wrptr s then mret 0
  else
    sample ← load (fifo_read d);
    _ ← whenM (bool_decide (marker s = Some d) && (local_ts s =? 0))
         (modify (upd_local_ts (fun _ => s32 (nonzero_ts timestamp))));
    _ ← modify (upd_dptr (fun _ => next_ptr d));
    mret (if zero_flag s then 0 else sample).

(** [while (p >= END) p -= size;] with [p] up to [bound] words beyond. *)
Definition wrap_down (p : Z) : M ofifo_t Z :=
  loopM (S (Z.to_nat p)) (fun p =>
    mret (if AUDIO_OUTPUT_FIFO_WORD_SIZE <=? p then inl (p - AUDIO_OUTPUT_FIFO_WORD_SIZE) else inr p)) p.
(** [while (p < START) p += size;] *)
Definition wrap_up (p : Z) : M ofifo_t Z :=
  loopM (S (Z.to_nat (- p))) (fun p =>
    mret (if p <? 0 then inl (p + AUDIO_OUTPUT_FIFO_WORD_SIZE) else inr p)) p.

(** The result has the flag [*notified_buf_ctl] and the messages sent. *)
Definition audio_output_fifo_maintain (index : nat) (notified : bool)
    : M ofifo_t (bool * list buf_ctl_msg) :=
  s ← get_fifo;
  let new_stream := pending_init_notification s && negb notified in
  _ ← whenM new_stream (modify (upd_pending_init_notification (fun _ => false)));
  let notified := notified || new_stream in
  let msgs := if new_stream then [BufNewStream index] else [] in
  match state s with
  | DISABLED => mret (notified, msgs)
  | ZEROING =>
      z ← load zero_marker;
      v ← load (fifo_read z);
      _ ← whenM (v =? 0)
           (let buf_len := AUDIO_OUTPUT_FIFO_WORD_SIZE in
            new_wrptr ← wrap_down (dptr s + Z.shiftr buf_len 1);
            _ ← modify (upd_wrptr (fun _ => new_wrptr));
            _ ← modify (upd_state (fun _ => LOCKING));
            _ ← modify (upd_local_ts (fun _ => 0));
            _ ← modify (upd_ptp_ts (fun _ => 0));
            _ ← modify (upd_marker (fun _ => None));
            modify (upd_zero_flag (fun _ => true)));
      mret (notified, msgs)
  | LOCKING | LOCKED =>
      let time_since_last_notification :=
        u32 (s32 (sample_count s) - last_notification_time s) in
      if negb (ptp_ts s =? 0) && negb (local_ts s =? 0) && negb notified &&
         ((last_notification_time s =? 0) || (NOTIFICATION_PERIOD <? time_since_last_notification))
      then
        _ ← modify (upd_last_notification_time (fun _ => s32 (sample_count s)));
        mret (true, msgs ++ [BufGotInfo index])
      else mret (notified, msgs)
  end.

(** The word stored for the word [w] of the packet. *)
Definition convert_sample (vol w : Z) : Z :=
  let sample := s32 (byterev w) in
  let sample := if AVB_1722_FORMAT_SAF then sample else s32 (Z.shiftl sample 8) in
  u32 (s32 (sample * vol)).

(** One round of the loop of [audio_output_fifo_strided_push]: [i] counts to [n],
    [ptr] walks through [buf], [w] is the local write pointer, [count] the number
    of samples. *)
Definition push_sample (buf : list Z) (stride n vol : Z) (st : Z * Z * Z * Z)
    : M ofifo_t ((Z * Z * Z * Z) + (Z * Z)) :=
  let '(i, ptr, w, count) := st in
  if i <? n then
    word ← load (fun _ => word_le buf ptr);
    let new_wrptr := next_ptr w in
    s ← get_fifo;
    if negb (new_wrptr =? dptr s) then
      _ ← store (fifo_write w (convert_sample vol word));
      mret (inl (i + stride, ptr + 4 * stride, new_wrptr, count + 1))
    else mret (inl (i + stride, ptr + 4 * stride, w, count + 1))
  else mret (inr (w, count)).

(** The samples are the words at [sample_ptr], [sample_ptr + 4*stride], ... of
    [buf]; the shared write pointer moves at the end. *)
Definition audio_output_fifo_strided_push (buf : list Z) (sample_ptr stride n : Z) : M ofifo_t unit :=
  s ← get_fifo;
  let vol := if decide (state s = ZEROING) then 0 else 1 in
  '(w, count) ← loopM (S (Z.to_nat n)) (push_sample buf stride n vol) (0, sample_ptr, wrptr s, 0);
  _ ← modify (upd_wrptr (fun _ => w));
  modify (upd_sample_count (fun c => u32 (c + count))).

(** The result has the new [*buf_ctl_notified] and the messages sent. *)
Definition audio_output_fifo_handle_buf_ctl (cmd : buf_ctl_cmd) (notified : bool)
    : M ofifo_t (bool * list buf_ctl_msg) :=
  let forget_timestamps :=
    _ ← modify (upd_ptp_ts (fun _ => 0));
    _ ← modify (upd_local_ts (fun _ => 0));
    modify (upd_marker (fun _ => None)) in
  s ← get_fifo;
  match cmd with
  | BUF_CTL_REQUEST_INFO =>
      _ ← forget_timestamps;
      mret (notified, [BufInfo (bool_decide (state s = LOCKED)) (u32 (ptp_ts s)) (u32 (local_ts s))
                         (dptr s) (wrptr s)])
  | BUF_CTL_REQUEST_NEW_STREAM_INFO =>
      mret (false, [BufNewStreamInfo (media_clock s); BufAck])
  | BUF_CTL_ADJUST_FILL adjust =>
      p ← wrap_up (wrptr s - adjust);
      new_wrptr ← wrap_down p;
      _ ← modify (upd_wrptr (fun _ => new_wrptr));
      _ ← modify (upd_state (fun _ => LOCKED));
      _ ← modify (upd_zero_flag (fun _ => false));
      _ ← forget_timestamps;
      mret (false, [BufAck])
  | BUF_CTL_RESET =>
      _ ← modify (upd_state (fun _ => ZEROING));
      let z := if wrptr s =? 0 then AUDIO_OUTPUT_FIFO_WORD_SIZE - 1 else wrptr s - 1 in
      _ ← modify (upd_zero_marker (fun _ => Some z));
      _ ← modify (upd_zero_flag (fun _ => true));
      _ ← store (fifo_write z 1);
      mret (false, [BufAck])
  | BUF_CTL_ACK => mret (false, [BufAck])
  | BUF_CTL_OTHER _ => mret (notified, [])
  end.

Definition audio_output_fifo_set_volume (volume' : Z) : M ofifo_t unit :=
  modify (upd_volume (fun _ => volume')).
End Fifo.

(** * The ring *)

Section Ring.
  Context `{cfg : FifoConfig}.
Abbreviation W := AUDIO_OUTPUT_FIFO_WORD_SIZE.

Definition in_ring (p : Z) : Prop := 0 <= p < W.

(** The [n] words from [p] on, around the end. *)
Definition ring (l : list Z) (p : Z) (n : nat) : list Z :=
  (fun k => l !!! Z.to_nat ((p + Z.of_nat k) mod W)) <$> seq 0 n.

(** How many words lie between two pointers. *)
Definition distance (from to : Z) : nat := Z.to_nat ((to - from) mod W).

Lemma W_pos : 0 < W.
Proof. pose proof word_size_pos. lia. Qed.

Lemma mod_in_ring p : in_ring (p mod W).
Proof. apply Z.mod_pos_bound, W_pos. Qed.

Lemma next_ptr_mod p : in_ring p -> next_ptr p = (p + 1) mod W.
Proof.
  unfold in_ring, next_ptr. intros H. destruct (Z.eqb_spec (p + 1) W) as [->|E].
  - symmetry. apply Z.mod_same. lia.
  - symmetry. apply Z.mod_small. lia.
Qed.

Lemma next_ptr_in_ring p : in_ring p -> in_ring (next_ptr p).
Proof. intros H. rewrite next_ptr_mod by done. apply mod_in_ring. Qed.

Lemma mod_diff_W a b : in_ring a -> in_ring b -> (a - b) mod W = if a <? b then a - b + W else a - b.
Proof.
  unfold in_ring. intros Ha Hb. destruct (Z.ltb_spec a b).
  - rewrite <- (Z_mod_plus_full _ 1), Z.mod_small; lia.
  - apply Z.mod_small. lia.
Qed.

Lemma distance_lt from to : Z.of_nat (distance from to) < W.
Proof. unfold distance. pose proof (Z.mod_pos_bound (to - from) W W_pos). lia. Qed.

Lemma distance_next_to from to :
  in_ring from -> in_ring to -> next_ptr to <> from -> distance from (next_ptr to) = S (distance from to).
Proof.
  intros Hf Ht. pose proof (next_ptr_in_ring to Ht) as Hn. unfold distance. rewrite !mod_diff_W by done.
  revert Hn. unfold next_ptr, in_ring in *. destruct (Z.eqb_spec (to + 1) W); intros Hn Hne;
    repeat match goal with |- context [?a <? ?b] => destruct (Z.ltb_spec a b) end; lia.
Qed.

Lemma distance_full from to :
  in_ring from -> in_ring to -> next_ptr to = from -> Z.of_nat (distance from to) = W - 1.
Proof.
  intros Hf Ht. unfold distance. rewrite mod_diff_W by done. unfold next_ptr, in_ring in *.
  destruct (Z.eqb_spec (to + 1) W); intros Hne; destruct (Z.ltb_spec to from); lia.
Qed.

Lemma distance_next_from from to :
  in_ring from -> in_ring to -> from <> to -> distance from to = S (distance (next_ptr from) to).
Proof.
  intros Hf Ht Hne. pose proof (next_ptr_in_ring from Hf) as Hn. unfold distance.
  rewrite !mod_diff_W by done. revert Hn. unfold next_ptr, in_ring in *.
  destruct (Z.eqb_spec (from + 1) W); intros Hn;
    repeat match goal with |- context [?a <? ?b] => destruct (Z.ltb_spec a b) end; lia.
Qed.

Lemma distance_0 p : distance p p = 0%nat.
Proof. unfold distance. by rewrite Z.sub_diag, Z.mod_0_l by (pose proof W_pos; lia). Qed.

Lemma distance_0_inv from to : in_ring from -> in_ring to -> distance from to = 0%nat -> from = to.
Proof.
  intros Hf Ht. unfold distance. rewrite mod_diff_W by done. unfold in_ring in *.
  destruct (Z.ltb_spec to from); lia.
Qed.

Lemma distance_at from to : in_ring from -> in_ring to -> (from + Z.of_nat (distance from to)) mod W = to.
Proof.
  intros Hf Ht. unfold distance. pose proof (Z.mod_pos_bound (to - from) W W_pos).
  rewrite Z2Nat.id by lia. rewrite Zplus_mod_idemp_r. replace (from + (to - from)) with to by lia.
  by apply Z.mod_small.
Qed.

Lemma length_ring l p n : length (ring l p n) = n.
Proof. unfold ring. by rewrite length_fmap, length_seq. Qed.

Lemma ring_lookup l p n k :
  (k < n)%nat -> ring l p n !! k = Some (l !!! Z.to_nat ((p + Z.of_nat k) mod W)).
Proof. intros H. unfold ring. rewrite list_lookup_fmap, lookup_seq_lt by done. done. Qed.

Lemma ring_snoc l p n :
  ring l p (S n) = ring l p n ++ [l !!! Z.to_nat ((p + Z.of_nat n) mod W)].
Proof. unfold ring. by rewrite seq_S, fmap_app. Qed.

Lemma ring_cons l p n :
  in_ring p -> ring l p (S n) = l !!! Z.to_nat p :: ring l (next_ptr p) n.
Proof.
  intros H. unfold ring. cbn [seq fmap list_fmap]. f_equal.
  - rewrite Z.add_0_r, Z.mod_small by exact H. done.
  - rewrite <- fmap_S_seq, <- list_fmap_compose. apply list_fmap_ext. intros _ k _. cbn.
    rewrite next_ptr_mod, Zplus_mod_idemp_l by done. do 3 f_equal. lia.
Qed.

(** Another word than those of the slice may be written. *)
Lemma ring_insert l p n (q : nat) v :
  (forall k, (k < n)%nat -> (p + Z.of_nat k) mod W <> Z.of_nat q) -> ring (<[q := v]> l) p n = ring l p n.
Proof.
  intros H. unfold ring. apply list_fmap_ext. intros j k Hk.
  apply list_elem_of_lookup_2, elem_of_seq in Hk.
  rewrite list_lookup_total_insert_ne; [done|]. intros E. apply (H k); [lia|].
  pose proof (mod_in_ring (p + Z.of_nat k)) as [? _]. lia.
Qed.

(** In particular the word at the write pointer, which is not in the slice. *)
Lemma ring_insert_end l from to v :
  in_ring from -> in_ring to ->
  ring (<[Z.to_nat to := v]> l) from (distance from to) = ring l from (distance from to).
Proof.
  intros Hf Ht. apply ring_insert. intros k Hk E. unfold distance in Hk.
  rewrite mod_diff_W in Hk by done. unfold in_ring in *. rewrite Z2Nat.id in E by lia.
  destruct (Z.lt_ge_cases (from + Z.of_nat k) W) as [Hlt|Hge].
  - rewrite Z.mod_small in E by lia. destruct (Z.ltb_spec to from); lia.
  - rewrite <- (Z_mod_plus_full _ (-1)), Z.mod_small in E by (destruct (Z.ltb_spec to from); lia).
    destruct (Z.ltb_spec to from); lia.
Qed.

(** A word is appended at the write pointer. *)
Lemma ring_push l from to v :
  in_ring from -> in_ring to -> next_ptr to <> from -> Z.of_nat (length l) = W ->
  ring (<[Z.to_nat to := v]> l) from (distance from (next_ptr to)) =
    ring l from (distance from to) ++ [v].
Proof.
  intros Hf Ht Hne Hl. rewrite distance_next_to, ring_snoc, ring_insert_end, distance_at by done.
  rewrite list_lookup_total_insert_eq; [done|]. unfold in_ring in *. lia.
Qed.
End Ring.
