(* ===== verification/AudioFifoSpec.v ===== *)
(** What the operations of an output FIFO do to the samples in it. *)
From S2P Require Import Prelude Bytes AudioFifo.
From Stdlib Require Import ZArith Lia.
From stdpp Require Import base list list_numbers numbers.
#[local] Open Scope Z_scope.

Section Spec.
  Context `{cfg : FifoConfig}.
Abbreviation W := AUDIO_OUTPUT_FIFO_WORD_SIZE.

(** The array has its size, and the pointers point into it. *)
Record fifo_ok (s : ofifo_t) : Prop := {
  ok_length : Z.of_nat (length (fifo s)) = W;
  ok_dptr : in_ring (dptr s);
  ok_wrptr : in_ring (wrptr s);
}.

(** The samples in the FIFO, the next to be played first. *)
Definition contents (s : ofifo_t) : list Z :=
  ring (fifo s) (dptr s) (distance (dptr s) (wrptr s)).

Definition capacity : nat := Z.to_nat (W - 1).

Lemma contents_capacity s : (length (contents s) <= capacity)%nat.
Proof.
  unfold contents, capacity. rewrite length_ring. pose proof (distance_lt (dptr s) (wrptr s)). lia.
Qed.

Lemma fifo_read_run p s :
  fifo_ok s -> in_ring p -> fifo_read p s = Some (fifo s !!! Z.to_nat p).
Proof.
  intros [Hl _ _] Hp. unfold fifo_read, in_ring in *. rewrite (proj2 (Z.leb_le _ _)) by lia.
  destruct (lookup_lt_is_Some_2 (fifo s) (Z.to_nat p)) as [x Hx]; [lia|].
  by rewrite Hx, (list_lookup_total_correct _ _ _ Hx).
Qed.

Lemma fifo_write_run p v s :
  Z.of_nat (length (fifo s)) = W -> in_ring p ->
  fifo_write p v s = Some (upd_fifo (<[Z.to_nat p := v]>) s).
Proof.
  intros Hl Hp. unfold fifo_write, in_ring in *. rewrite Hl.
  by rewrite (proj2 (Z.leb_le _ _)), (proj2 (Z.ltb_lt _ _)) by lia.
Qed.

(** The state after a sample has been played at time [t]. *)
Definition played (t : Z) (s : ofifo_t) : ofifo_t :=
  upd_dptr (fun _ => next_ptr (dptr s))
    (if bool_decide (marker s = Some (dptr s)) && (local_ts s =? 0)
     then upd_local_ts (fun _ => s32 (nonzero_ts t)) s else s).

Lemma pull_sample_run t s :
  fifo_ok s ->
  audio_output_fifo_pull_sample t s =
    if dptr s =? wrptr s then Some (0, s)
    else Some (if zero_flag s then 0 else fifo s !!! Z.to_nat (dptr s), played t s).
Proof.
  intros Hs. unfold audio_output_fifo_pull_sample. erewrite M_bind_run by reflexivity. unfold id.
  destruct (dptr s =? wrptr s); [done|].
  erewrite M_bind_run by (unfold load; rewrite fifo_read_run by (done || by destruct Hs); reflexivity).
  unfold played. destruct (_ && _); reflexivity.
Qed.

Lemma fifo_ok_played t s : fifo_ok s -> fifo_ok (played t s).
Proof. intros [? ? ?]. unfold played. destruct (_ && _); split; cbn; try done; by apply next_ptr_in_ring. Qed.

(** [audio_output_fifo_pull_sample] takes the oldest sample - silence if the
    FIFO outputs zeros - and gives 0, changing nothing, when there is none. If
    the sample is the marked one and no time has been noted, the time of its
    playing is noted; nothing else changes. *)
Theorem audio_output_fifo_pull_sample_spec timestamp s :
  fifo_ok s ->
  match contents s with
  | [] => audio_output_fifo_pull_sample timestamp s = Some (0, s)
  | x :: rest => exists s',
      audio_output_fifo_pull_sample timestamp s = Some (if zero_flag s then 0 else x, s') /\
      fifo_ok s' /\ contents s' = rest /\
      s' = upd_dptr (fun _ => dptr s')
             (if bool_decide (marker s = Some (dptr s)) && (local_ts s =? 0)
              then upd_local_ts (fun _ => s32 (nonzero_ts timestamp)) s else s)
  end.
Proof.
  intros Hs. pose proof Hs as [Hl Hd Hw]. rewrite pull_sample_run by done. unfold contents.
  destruct (Z.eqb_spec (dptr s) (wrptr s)) as [E|E].
  - by rewrite <- E, distance_0.
  - rewrite distance_next_from, ring_cons by done. exists (played timestamp s).
    split; [done|]. split; [by apply fifo_ok_played|]. unfold played. by destruct (_ && _).
Qed.

(** The words a strided push reads. *)
Definition strided_words (buf : list Z) (sample_ptr stride n : Z) : option (list Z) :=
  mapM (fun k => word_le buf (sample_ptr + 4 * stride * k)) (seqZ 0 ((n + stride - 1) / stride)).

Lemma take_app_take {A} n (l k : list A) : take n (take n l ++ k) = take n (l ++ k).
Proof.
  destruct (Nat.le_gt_cases (length l) n).
  - by rewrite (take_ge l) by done.
  - rewrite take_app_le by (rewrite length_take; lia). rewrite take_app_le by lia.
    by rewrite take_take, Nat.min_id.
Qed.

(** One sample is appended, or dropped if the FIFO is full. *)
Lemma push_step s w v :
  Z.of_nat (length (fifo s)) = W -> in_ring (dptr s) -> in_ring w ->
  let full := next_ptr w =? dptr s in
  let w' := if full then w else next_ptr w in
  let l' := if full then fifo s else <[Z.to_nat w := v]> (fifo s) in
  ring l' (dptr s) (distance (dptr s) w') =
    take capacity (ring (fifo s) (dptr s) (distance (dptr s) w) ++ [v]).
Proof.
  intros Hl Hd Hw. cbn zeta. destruct (Z.eqb_spec (next_ptr w) (dptr s)) as [E|E].
  - pose proof (distance_full _ _ Hd Hw E). unfold capacity.
    rewrite take_app_le by (rewrite length_ring; lia). by rewrite take_ge by (rewrite length_ring; lia).
  - rewrite ring_push by done. rewrite take_ge; [done|]. unfold capacity.
    rewrite length_app, length_ring. cbn. pose proof (distance_lt (dptr s) (next_ptr w)).
    rewrite distance_next_to in H by done. lia.
Qed.

(** A property of the write pointer and the words that every write of a sample
    preserves. *)
Definition written_by (vol : Z) (P : Z -> list Z -> Prop) : Prop :=
  forall w l x, in_ring w -> Z.of_nat (length l) = W -> P w l ->
    P (next_ptr w) (<[Z.to_nat w := convert_sample vol x]> l).

Lemma push_loop buf stride n vol ws : 0 < stride -> forall fuel i ptr w c s,
  (length ws < fuel)%nat -> fifo_ok s -> in_ring w ->
  (forall k x, ws !! k = Some x ->
     i + stride * Z.of_nat k < n /\ word_le buf (ptr + 4 * stride * Z.of_nat k) = Some x) ->
  n <= i + stride * Z.of_nat (length ws) ->
  exists w' l',
    loopM fuel (push_sample buf stride n vol) (i, ptr, w, c) s =
      Some ((w', c + Z.of_nat (length ws)), upd_fifo (fun _ => l') s) /\
    Z.of_nat (length l') = W /\ in_ring w' /\
    ring l' (dptr s) (distance (dptr s) w') =
      take capacity (ring (fifo s) (dptr s) (distance (dptr s) w) ++ (convert_sample vol <$> ws)) /\
    forall P, written_by vol P -> P w (fifo s) -> P w' l'.
Proof.
  intros Hstride. induction ws as [|x ws IH]; intros [|fuel] i ptr w c s Hf Hs Hw Hk Hn; try (cbn in Hf; lia);
    pose proof Hs as [Hl Hd _]; cbn [loopM].
  - exists w, (fifo s). cbn in Hn. split_and!; [|done..| |done].
    + rewrite (M_bind_run _ _ s (inr (w, c)) s) by (unfold push_sample; by rewrite (proj2 (Z.ltb_ge _ _)) by lia).
      cbn [length]. rewrite Z.add_0_r. by destruct s.
    + cbn. rewrite app_nil_r, take_ge; [done|]. rewrite length_ring. unfold capacity.
      pose proof (distance_lt (dptr s) w). lia.
  - destruct (Hk 0%nat x eq_refl) as [Hi Hword]. rewrite Z.mul_0_r, Z.add_0_r in Hi, Hword.
    set (full := next_ptr w =? dptr s).
    set (w1 := if full then w else next_ptr w).
    set (l1 := if full then fifo s else <[Z.to_nat w := convert_sample vol x]> (fifo s)).
    pose proof (push_step s w (convert_sample vol x) Hl Hd Hw) as Hring. cbn zeta in Hring.
    fold full w1 l1 in Hring.
    assert (push_sample buf stride n vol (i, ptr, w, c) s =
      Some (inl (i + stride, ptr + 4 * stride, w1, c + 1), upd_fifo (fun _ => l1) s)) as E.
    { unfold push_sample. rewrite (proj2 (Z.ltb_lt _ _)) by done.
      erewrite M_bind_run by (unfold load; by rewrite Hword).
      erewrite M_bind_run by reflexivity. cbv zeta. unfold id. subst w1 l1. fold full.
      destruct full; cbn [negb].
      - unfold mret, M_ret. do 2 f_equal. by destruct s.
      - erewrite M_bind_run by (unfold store; by rewrite fifo_write_run by done). done. }
    erewrite M_bind_run by exact E. cbv beta iota.
    assert (in_ring w1) as Hw1 by (subst w1; destruct full; [done|by apply next_ptr_in_ring]).
    assert (Z.of_nat (length l1) = W) as Hl1 by (subst l1; destruct full; by rewrite ?length_insert).
    destruct (IH fuel (i + stride) (ptr + 4 * stride) w1 (c + 1) (upd_fifo (fun _ => l1) s))
      as (w2 & l2 & E2 & Hl2 & Hw2 & Hr2 & HP2).
    + cbn in Hf. lia.
    + destruct Hs. by split.
    + done.
    + intros k y Hy. destruct (Hk (S k) y Hy) as [H1 H2]. split; [lia|].
      rewrite <- H2. f_equal. lia.
    + cbn in Hn. lia.
    + exists w2, l2. split_and!; [|done..| |].
      * rewrite E2. do 3 f_equal. cbn [length]. lia.
      * cbn [dptr fifo upd_fifo] in Hr2. rewrite Hr2, Hring, take_app_take. cbn [fmap list_fmap].
        by rewrite <- app_assoc.
      * intros P HP H0. apply (HP2 P HP). cbn. subst w1 l1. destruct full; [done|]. by apply HP.
Qed.

Lemma strided_push_run buf sample_ptr stride n ws s :
  fifo_ok s -> 0 < stride -> strided_words buf sample_ptr stride n = Some ws ->
  let vol := if decide (state s = ZEROING) then 0 else 1 in
  exists w' l', let s' := upd_sample_count (fun c => u32 (c + Z.of_nat (length ws)))
                            (upd_wrptr (fun _ => w') (upd_fifo (fun _ => l') s)) in
    audio_output_fifo_strided_push buf sample_ptr stride n s = Some (tt, s') /\ fifo_ok s' /\
    contents s' = take capacity (contents s ++ (convert_sample vol <$> ws)) /\
    forall P, written_by vol P -> P (wrptr s) (fifo s) -> P (wrptr s') (fifo s').
Proof.
  intros Hs Hstride Hws vol. apply mapM_Some_1 in Hws.
  pose proof (list.Forall2_length _ _ _ Hws) as Hlen. rewrite length_seqZ in Hlen.
  set (m := (n + stride - 1) / stride) in *.
  assert (n <= stride * Z.of_nat (length ws)) as Hn.
  { assert (n <= stride * m) by (subst m; Z.to_euclidean_division_equations; nia). lia. }
  assert (forall k x, ws !! k = Some x -> 0 + stride * Z.of_nat k < n /\
    word_le buf (sample_ptr + 4 * stride * Z.of_nat k) = Some x) as Hk.
  { intros k x Hx. destruct (list.Forall2_lookup_r _ _ _ _ _ Hws Hx) as (j & Hj & Hword).
    apply lookup_seqZ in Hj as [-> Hj]. split; [|exact Hword].
    subst m. Z.to_euclidean_division_equations. nia. }
  destruct (push_loop buf stride n vol ws Hstride (S (Z.to_nat n)) 0 sample_ptr (wrptr s) 0 s)
    as (w' & l' & E & Hl & Hw & Hr & HP); [|done|by destruct Hs|exact Hk|lia|].
  { destruct (decide (length ws = 0%nat)) as [->|Hne]; [lia|].
    destruct (lookup_lt_is_Some_2 ws (length ws - 1)) as [y Hy]; [lia|].
    destruct (Hk _ _ Hy). nia. }
  exists w', l'. split; [|split; [|split]].
  - unfold audio_output_fifo_strided_push. erewrite M_bind_run by reflexivity. unfold id. fold vol.
    by erewrite M_bind_run by exact E.
  - destruct Hs. by split.
  - exact Hr.
  - exact HP.
Qed.

(** [audio_output_fifo_strided_push] appends every [stride]th word of the
    packet, converted, to the samples in the FIFO - silence while the FIFO is
    being cleared; what no longer fits is dropped, and what was in the FIFO is not
    disturbed. All words count as samples. *)
Theorem audio_output_fifo_strided_push_spec buf sample_ptr stride n ws s :
  fifo_ok s -> 0 < stride -> strided_words buf sample_ptr stride n = Some ws ->
  let vol := if decide (state s = ZEROING) then 0 else 1 in
  exists w' l', let s' := upd_sample_count (fun c => u32 (c + Z.of_nat (length ws)))
                            (upd_wrptr (fun _ => w') (upd_fifo (fun _ => l') s)) in
    audio_output_fifo_strided_push buf sample_ptr stride n s = Some (tt, s') /\ fifo_ok s' /\
    contents s' = take capacity (contents s ++ (convert_sample vol <$> ws)).
Proof.
  intros Hs Hstride Hws vol.
  destruct (strided_push_run _ _ _ _ _ _ Hs Hstride Hws) as (w' & l' & E & Hok & Hc & _).
  by exists w', l'.
Qed.

(** * Moving the write pointer *)

Lemma wrap_down_loop fuel p (s : ofifo_t) :
  0 <= p -> (Z.to_nat p < fuel)%nat ->
  loopM fuel (fun p => mret (if W <=? p then inl (p - W) else inr p)) p s = Some (p mod W, s).
Proof.
  pose proof W_pos. revert p. induction fuel as [|fuel IH]; intros p Hp Hf; [lia|]. cbn [loopM].
  erewrite M_bind_run by reflexivity. destruct (Z.leb_spec W p).
  - rewrite IH by lia. do 2 f_equal. rewrite <- (Z_mod_plus_full (p - W) 1). f_equal. lia.
  - by rewrite Z.mod_small.
Qed.

Lemma wrap_down_run p s : 0 <= p -> wrap_down p s = Some (p mod W, s).
Proof. intros Hp. apply wrap_down_loop; lia. Qed.

Lemma wrap_up_loop fuel p (s : ofifo_t) :
  (Z.to_nat (- p) < fuel)%nat ->
  loopM fuel (fun p => mret (if p <? 0 then inl (p + W) else inr p)) p s =
    Some (if p <? 0 then p mod W else p, s).
Proof.
  pose proof W_pos. revert p. induction fuel as [|fuel IH]; intros p Hf; [lia|]. cbn [loopM].
  erewrite M_bind_run by reflexivity. destruct (Z.ltb_spec p 0); [|done].
  rewrite IH by lia. do 2 f_equal. replace (p mod W) with ((p + W) mod W).
  - destruct (Z.ltb_spec (p + W) 0); [done|]. symmetry. apply Z.mod_small. lia.
  - rewrite <- (Z_mod_plus_full p 1). f_equal. lia.
Qed.

(** The two loops together: any displacement of a pointer is taken around the ring. *)
Lemma wrap_run p s : (q ← wrap_up p; wrap_down q) s = Some (p mod W, s).
Proof.
  pose proof W_pos. unfold wrap_up. erewrite M_bind_run by (apply wrap_up_loop; lia).
  pose proof (mod_in_ring p) as [? ?]. destruct (Z.ltb_spec p 0).
  - rewrite wrap_down_run by done. by rewrite Z.mod_mod by lia.
  - by apply wrap_down_run.
Qed.

Lemma distance_mod d w a :
  Z.of_nat (distance d ((w + a) mod W)) = (Z.of_nat (distance d w) + a) mod W.
Proof.
  pose proof W_pos. unfold distance. rewrite !Z2Nat.id by (apply Z.mod_pos_bound; lia).
  rewrite Zminus_mod_idemp_l, Zplus_mod_idemp_l. f_equal. lia.
Qed.

Lemma adjust_fill_run adjust notified s :
  fifo_ok s ->
  exists s', audio_output_fifo_handle_buf_ctl (BUF_CTL_ADJUST_FILL adjust) notified s =
      Some ((false, [BufAck]), s') /\
    fifo_ok s' /\ state s' = LOCKED /\ zero_flag s' = false /\ marker s' = None /\
    ptp_ts s' = 0 /\ local_ts s' = 0 /\ fifo s' = fifo s /\ dptr s' = dptr s /\
    Z.of_nat (length (contents s')) = (Z.of_nat (length (contents s)) - adjust) mod W.
Proof.
  intros Hs. set (w := (wrptr s - adjust) mod W).
  exists (MkFifo false (dptr s) w None 0 0 (sample_count s) (zero_marker s) LOCKED
    (last_notification_time s) (media_clock s) (pending_init_notification s) (volume s) (fifo s)).
  split_and!; try done.
  - unfold audio_output_fifo_handle_buf_ctl. erewrite M_bind_run by reflexivity. unfold id.
    pose proof (wrap_run (wrptr s - adjust) s) as E.
    apply M_bind_Some in E as (p & s1 & E1 & E2).
    erewrite M_bind_run by exact E1. erewrite M_bind_run by exact E2. reflexivity.
  - destruct Hs. split; [done..|]. apply mod_in_ring.
  - unfold contents. cbn. rewrite !length_ring. subst w.
    replace (wrptr s - adjust) with (wrptr s + - adjust) by lia. rewrite distance_mod. f_equal.
Qed.

(** The fill adjustment of the clock recovery terminates for every number,
    negative or larger than the FIFO; it moves the write pointer so that the fill
    level is [adjust] less, modulo the size, and the FIFO is locked: it plays what
    it holds, and no timestamp is pending. *)
Theorem adjust_fill_spec adjust notified s :
  fifo_ok s ->
  exists s', audio_output_fifo_handle_buf_ctl (BUF_CTL_ADJUST_FILL adjust) notified s =
      Some ((false, [BufAck]), s') /\
    fifo_ok s' /\ state s' = LOCKED /\ zero_flag s' = false /\ marker s' = None /\
    ptp_ts s' = 0 /\ local_ts s' = 0 /\ fifo s' = fifo s /\ dptr s' = dptr s /\
    Z.of_nat (length (contents s')) = (Z.of_nat (length (contents s)) - adjust) mod W.
Proof. apply adjust_fill_run. Qed.

(** * The marked sample *)

(** Samples pulled one after the other, at the given times. *)
Fixpoint pull_samples (times : list Z) : M ofifo_t (list Z) :=
  match times with
  | [] => mret []
  | t :: times' => x ← audio_output_fifo_pull_sample t; xs ← pull_samples times'; mret (x :: xs)
  end.

Lemma pull_not_marked t s :
  fifo_ok s -> dptr s <> wrptr s -> marker s <> Some (dptr s) ->
  audio_output_fifo_pull_sample t s =
    Some (if zero_flag s then 0 else fifo s !!! Z.to_nat (dptr s), upd_dptr (fun _ => next_ptr (dptr s)) s).
Proof.
  intros Hs Hne Hm. rewrite pull_sample_run, (proj2 (Z.eqb_neq _ _)) by done.
  unfold played. by rewrite bool_decide_false by done.
Qed.

Lemma fifo_ok_pull s : fifo_ok s -> fifo_ok (upd_dptr (fun _ => next_ptr (dptr s)) s).
Proof. intros [? ? ?]. split; [done|by apply next_ptr_in_ring|done]. Qed.

(** While the marked sample is not reached, pulling takes the samples in order and
    moves nothing but the read pointer. *)
Lemma pull_samples_run times : forall s,
  fifo_ok s -> (length times <= length (contents s))%nat ->
  (forall k, (k < length times)%nat -> marker s <> Some ((dptr s + Z.of_nat k) mod W)) ->
  pull_samples times s =
    Some ((if zero_flag s then const 0 else id) <$> take (length times) (contents s),
          upd_dptr (fun _ => (dptr s + Z.of_nat (length times)) mod W) s).
Proof.
  induction times as [|t times IH]; intros s Hs Hl Hm; pose proof Hs as [Hlen Hd Hw]; cbn [pull_samples].
  - cbn. rewrite Z.add_0_r, Z.mod_small by exact Hd. by destruct s.
  - assert (dptr s <> wrptr s) as Hne.
    { intros E. revert Hl. unfold contents. rewrite E, distance_0. cbn. lia. }
    assert (contents s = fifo s !!! Z.to_nat (dptr s) ::
      contents (upd_dptr (fun _ => next_ptr (dptr s)) s)) as Hc.
    { unfold contents. by rewrite distance_next_from, ring_cons by done. }
    erewrite M_bind_run.
    2: { apply pull_not_marked; [done..|]. intros E. apply (Hm 0%nat); [cbn; lia|].
         by rewrite Z.add_0_r, Z.mod_small by exact Hd. }
    erewrite M_bind_run.
    2: { apply IH; [by apply fifo_ok_pull|rewrite Hc in Hl; cbn in *; lia|].
         intros k Hk. cbn. rewrite next_ptr_mod, Zplus_mod_idemp_l by done.
         replace (dptr s + 1 + Z.of_nat k) with (dptr s + Z.of_nat (S k)) by lia. apply Hm. cbn. lia. }
    rewrite Hc. unfold mret, M_ret. do 2 f_equal.
    + by destruct (zero_flag s) eqn:E; cbn; rewrite E.
    + unfold upd_dptr. cbn. f_equal. rewrite next_ptr_mod, Zplus_mod_idemp_l by done. f_equal. lia.
Qed.

(** The samples keep their places while the FIFO is not full. *)
Lemma contents_lookup s k :
  (k < length (contents s))%nat ->
  contents s !! k = Some (fifo s !!! Z.to_nat ((dptr s + Z.of_nat k) mod W)).
Proof. unfold contents. rewrite length_ring. intros H. by apply ring_lookup. Qed.

Lemma set_ptp_timestamp_run ts k s :
  marker s = None -> in_ring (wrptr s) -> 0 <= k < W ->
  audio_output_fifo_set_ptp_timestamp ts k s =
    Some (tt, upd_marker (fun _ => Some ((wrptr s + k) mod W))
                (upd_local_ts (fun _ => 0) (upd_ptp_ts (fun _ => s32 (nonzero_ts ts)) s))).
Proof.
  intros Hm Hw Hk. unfold audio_output_fifo_set_ptp_timestamp. erewrite M_bind_run by reflexivity.
  unfold id. rewrite Hm. replace (if W <=? wrptr s + k then wrptr s + k - W else wrptr s + k)
    with ((wrptr s + k) mod W); [done|].
  unfold in_ring in *. destruct (Z.leb_spec W (wrptr s + k)).
  - rewrite <- (Z_mod_plus_full _ (-1)), Z.mod_small; lia.
  - apply Z.mod_small. lia.
Qed.

(** A presentation time reaches its sample. If the listener gives the
    timestamp of the [k]th sample of a packet, and the packet's samples fit into
    the FIFO, then the time that is noted for it is that of the playing of exactly
    this sample: after the samples that were in the FIFO and the [k] before it -
    whenever they are played - no time is noted, and the next one played is the
    sample, whose time is noted. *)
Theorem marked_sample_timestamp ts (k : nat) buf sample_ptr stride n ws x times t s s1 s2 :
  fifo_ok s -> marker s = None -> 0 < stride ->
  strided_words buf sample_ptr stride n = Some ws -> ws !! k = Some x ->
  (length (contents s) + length ws <= capacity)%nat ->
  audio_output_fifo_set_ptp_timestamp ts (Z.of_nat k) s = Some (tt, s1) ->
  audio_output_fifo_strided_push buf sample_ptr stride n s1 = Some (tt, s2) ->
  length times = (length (contents s) + k)%nat ->
  exists ys s3 s4, pull_samples times s2 = Some (ys, s3) /\ local_ts s3 = 0 /\
    audio_output_fifo_pull_sample t s3 =
      Some (if zero_flag s then 0
            else convert_sample (if decide (state s = ZEROING) then 0 else 1) x, s4) /\
    local_ts s4 = s32 (nonzero_ts t) /\ ptp_ts s4 = s32 (nonzero_ts ts).
Proof.
  intros Hs Hm Hstride Hws Hx Hroom E1 E2 Ht.
  pose proof (lookup_lt_Some _ _ _ Hx) as Hk. pose proof W_pos. unfold capacity in Hroom.
  pose proof Hs as [Hlen Hd Hw].
  rewrite set_ptp_timestamp_run in E1 by (done || lia). injection E1 as <-.
  match type of E2 with _ ?s1 = _ => set (s1' := s1) in * end.
  assert (fifo_ok s1') as Hs1 by (by destruct Hs).
  destruct (strided_push_run _ _ _ _ _ s1' Hs1 Hstride Hws) as (w' & l' & E & Hok & Hc & _).
  rewrite E in E2. injection E2 as <-.
  match type of Hok with fifo_ok ?s2 => set (s2' := s2) in * end.
  change (contents s1') with (contents s) in Hc. rewrite take_ge in Hc
    by (rewrite length_app, length_fmap; unfold capacity; lia).
  assert (length (contents s2') = length (contents s) + length ws)%nat as Hl2
    by (by rewrite Hc, length_app, length_fmap).
  set (m := (length (contents s) + k)%nat) in *.
  assert ((wrptr s + Z.of_nat k) mod W = (dptr s + Z.of_nat m) mod W) as Hmk.
  { subst m. unfold contents. rewrite length_ring, Nat2Z.inj_add, Z.add_assoc.
    rewrite <- (Zplus_mod_idemp_l (dptr s + _)). by rewrite distance_at. }
  assert (forall j, (j < m)%nat -> (dptr s + Z.of_nat j) mod W <> (dptr s + Z.of_nat m) mod W) as Hdiff.
  { intros j Hj E'. apply (f_equal (fun z => (z - dptr s) mod W)) in E'.
    rewrite !Zminus_mod_idemp_l in E'.
    replace (dptr s + Z.of_nat j - dptr s) with (Z.of_nat j) in E' by lia.
    replace (dptr s + Z.of_nat m - dptr s) with (Z.of_nat m) in E' by lia.
    rewrite !Z.mod_small in E' by lia. lia. }
  pose proof (pull_samples_run times s2' Hok) as Epull. rewrite Ht in Epull.
  eexists _, _. eexists. split; [apply Epull; [lia|]|split; [reflexivity|]].
  { intros j Hj. change (marker s2') with (Some ((wrptr s + Z.of_nat k) mod W)).
    change (dptr s2') with (dptr s). rewrite Hmk. intros [= E']. by apply (Hdiff j). }
  set (s3 := upd_dptr _ s2').
  assert (dptr s3 <> wrptr s3) as Hne.
  { subst s3. cbn [dptr wrptr upd_dptr]. change (dptr s2') with (dptr s). intros E'.
    pose proof (distance_mod (dptr s) (dptr s) (Z.of_nat m)) as Hdist. rewrite E', distance_0 in Hdist.
    change (wrptr (upd_dptr _ s2')) with (wrptr s2') in Hdist.
    replace (distance (dptr s) (wrptr s2')) with (length (contents s2')) in Hdist by apply length_ring.
    rewrite Z.mod_small in Hdist by lia. lia. }
  assert (fifo_ok s3) as Hs3 by (destruct Hok; split; [done|apply mod_in_ring|done]).
  split.
  - rewrite pull_sample_run, (proj2 (Z.eqb_neq _ _)) by done. unfold played.
    rewrite bool_decide_true by (subst s3; cbn; by rewrite Hmk).
    cbn [andb]. change (local_ts s3 =? 0) with true. cbv iota. do 2 f_equal. change (zero_flag s3) with (zero_flag s).
    destruct (zero_flag s); [done|].
    assert (contents s2' !! m = Some (fifo s2' !!! Z.to_nat ((dptr s2' + Z.of_nat m) mod W))) as Hlook
      by (apply contents_lookup; lia).
    rewrite Hc, lookup_app_r in Hlook by lia.
    replace (m - length (contents s))%nat with k in Hlook by lia.
    rewrite list_lookup_fmap, Hx in Hlook. injection Hlook as Hlook. symmetry. exact Hlook.
  - split; reflexivity.
Qed.
End Spec.

(** * A concrete FIFO

    Three samples around the end of the ring, and a packet of four words for two
    channels. *)
#[local] Existing Instance default_fifo_config.

Definition sample_fifo : ofifo_t :=
  MkFifo false 104 1 None 0 0 1000 (Some 105) LOCKED 0 0 false MAX_VOLUME
    ([30] ++ replicate 103 0 ++ [10; 20]).

Definition sample_words : list Z :=
  [0x40; 0; 0; 1; 0x40; 0; 0; 2; 0x40; 0; 0; 3; 0x40; 0; 0; 4].

Lemma sample_fifo_ok : fifo_ok sample_fifo.
Proof. split; [reflexivity|split; cbn; lia|split; cbn; lia]. Qed.

Lemma audio_output_fifo_pull_sample_spec_witness :
  contents sample_fifo = [10; 20; 30] /\
  exists s', audio_output_fifo_pull_sample 77 sample_fifo = Some (10, s') /\ contents s' = [20; 30].
Proof.
  split; [vm_compute; reflexivity|].
  destruct (audio_output_fifo_pull_sample_spec 77 sample_fifo sample_fifo_ok) as (s' & E & _ & H & _).
  exists s'. split; [exact E|exact H].
Defined.

(** The second channel: the words 2 and 4, with the label byte dropped. *)
Lemma audio_output_fifo_strided_push_spec_witness :
  strided_words sample_words 4 2 4 = Some [0x02000040; 0x04000040] /\
  exists s', audio_output_fifo_strided_push sample_words 4 2 4 sample_fifo = Some (tt, s') /\
    contents s' = [10; 20; 30; 0x200; 0x400].
Proof.
  assert (strided_words sample_words 4 2 4 = Some [0x02000040; 0x04000040]) as Hws
    by (vm_compute; reflexivity).
  split; [exact Hws|].
  destruct (audio_output_fifo_strided_push_spec sample_words 4 2 4 _ sample_fifo sample_fifo_ok
    ltac:(lia) Hws) as (w' & l' & E & _ & H).
  eexists. split; [exact E|exact H].
Defined.

Lemma adjust_fill_spec_witness :
  exists s', audio_output_fifo_handle_buf_ctl (BUF_CTL_ADJUST_FILL (-1000)) true sample_fifo =
      Some ((false, [BufAck]), s') /\ Z.of_nat (length (contents s')) = 1003 mod 106.
Proof.
  destruct (adjust_fill_spec (-1000) true sample_fifo sample_fifo_ok)
    as (s' & E & _ & _ & _ & _ & _ & _ & _ & _ & H).
  exists s'. split; [exact E|exact H].
Defined.

(** The timestamp 5000 of sample 1 of the packet is met by the playing time 99. *)
Lemma marked_sample_timestamp_witness :
  exists s1 s2 ys s3 s4,
    audio_output_fifo_set_ptp_timestamp 5000 1 sample_fifo = Some (tt, s1) /\
    audio_output_fifo_strided_push sample_words 0 2 4 s1 = Some (tt, s2) /\
    pull_samples [91; 93; 95; 97] s2 = Some (ys, s3) /\ local_ts s3 = 0 /\
    audio_output_fifo_pull_sample 99 s3 = Some (0x300, s4) /\ local_ts s4 = 99 /\ ptp_ts s4 = 5000.
Proof.
  assert (is_Some (audio_output_fifo_set_ptp_timestamp 5000 1 sample_fifo)) as [[[] s1] E1]
    by (eexists; vm_compute; reflexivity).
  assert (is_Some (audio_output_fifo_strided_push sample_words 0 2 4 s1)) as [[[] s2] E2].
  { assert (s1 = upd_marker (fun _ => Some 2) (upd_ptp_ts (fun _ => 5000) sample_fifo)) as ->.
    { vm_compute in E1. injection E1 as <-. vm_compute. reflexivity. }
    eexists. vm_compute. reflexivity. }
  destruct (marked_sample_timestamp 5000 1 sample_words 0 2 4 [0x01000040; 0x03000040] 0x03000040
    [91; 93; 95; 97] 99 sample_fifo s1 s2 sample_fifo_ok) as (ys & s3 & s4 & H1 & H2 & H3 & H4 & H5);
    try reflexivity; [vm_compute; lia|exact E1|exact E2|].
  exists s1, s2, ys, s3, s4. split_and!; assumption.
Defined.
