(* ===== verification/AudioFifoSafe.v ===== *)
(** The states an output FIFO can reach under the operations of the listener, the
    audio thread and the clock recovery, and what holds in all of them. *)
From S2P Require Import Prelude Bytes AudioFifo AudioFifoSpec.
From Stdlib Require Import ZArith Lia.
From stdpp Require Import base list list_numbers numbers relations.
#[local] Open Scope Z_scope.

Section Safe.
  Context `{cfg : FifoConfig}.
Abbreviation W := AUDIO_OUTPUT_FIFO_WORD_SIZE.

Inductive fifo_op : Type :=
| OpDisable
| OpEnable (media_clock' : Z)
| OpTimestamp (ptp_ts' sample_number : Z)
| OpPull (timestamp : Z)
| OpMaintain (index : nat) (notified : bool)
| OpPush (buf : list Z) (sample_ptr stride n : Z)
| OpBufCtl (cmd : buf_ctl_cmd) (notified : bool)
| OpVolume (volume' : Z).

Definition serve_fifo (op : fifo_op) : M ofifo_t unit :=
  match op with
  | OpDisable => disable_audio_output_fifo
  | OpEnable mc => enable_audio_output_fifo mc
  | OpTimestamp ts n => audio_output_fifo_set_ptp_timestamp ts n
  | OpPull t => _ ← audio_output_fifo_pull_sample t; skip
  | OpMaintain index notified => _ ← audio_output_fifo_maintain index notified; skip
  | OpPush buf ptr stride n => audio_output_fifo_strided_push buf ptr stride n
  | OpBufCtl cmd notified => _ ← audio_output_fifo_handle_buf_ctl cmd notified; skip
  | OpVolume v => audio_output_fifo_set_volume v
  end.

(** The words a push reads are there. *)
Definition op_valid (op : fifo_op) : Prop :=
  match op with
  | OpPush buf ptr stride n => 0 < stride /\ is_Some (strided_words buf ptr stride n)
  | _ => True
  end.

Definition fifo_step (s s' : ofifo_t) : Prop :=
  exists op, op_valid op /\ serve_fifo op s = Some (tt, s').

(** From an array of unknown contents, through [audio_output_fifo_init]. *)
Definition fifo_reachable (s : ofifo_t) : Prop :=
  exists s0 s1, Z.of_nat (length (fifo s0)) = W /\ audio_output_fifo_init s0 = Some (tt, s1) /\
    rtc fifo_step s1 s.

(** * The invariant *)

Definition silent (l : list Z) : Prop := Forall (fun v => v = 0) l.

(** While a FIFO is being cleared, the words from the marked one [z] to the write
    pointer [w] are clear, until [z] itself is overwritten. *)
Definition clearing (z w : Z) (l : list Z) : Prop :=
  silent l \/ (l !!! Z.to_nat z <> 0 /\ silent (ring l (next_ptr z) (distance (next_ptr z) w))).

Definition fifo_inv (s : ofifo_t) : Prop :=
  fifo_ok s /\
  (state s = ZEROING -> exists z, zero_marker s = Some z /\ in_ring z /\ clearing z (wrptr s) (fifo s)).

Lemma convert_silence w : convert_sample 0 w = 0.
Proof. unfold convert_sample. by rewrite Z.mul_0_r. Qed.

Lemma next_ptr_inj a b : in_ring a -> in_ring b -> next_ptr a = next_ptr b -> a = b.
Proof.
  unfold in_ring, next_ptr. intros Ha Hb.
  destruct (Z.eqb_spec (a + 1) W), (Z.eqb_spec (b + 1) W); lia.
Qed.

Lemma ring_covers l z :
  in_ring z -> Z.of_nat (length l) = W -> l !!! Z.to_nat z = 0 ->
  silent (ring l (next_ptr z) (distance (next_ptr z) z)) -> silent l.
Proof.
  intros Hz Hl H0 Hs. pose proof (next_ptr_in_ring z Hz) as Hn. apply Forall_lookup_2. intros i v Hi.
  pose proof (lookup_lt_Some _ _ _ Hi) as Hlt. apply list_lookup_total_correct in Hi.
  assert (in_ring (Z.of_nat i)) as Hir by (unfold in_ring; lia).
  destruct (decide (Z.of_nat i = z)) as [<-|Hne]; [rewrite <- Hi, Nat2Z.id in *; done|].
  pose proof (distance_full (next_ptr z) z Hn Hz eq_refl) as Hfull.
  pose proof (distance_at _ _ Hn Hir) as Hat.
  pose proof (distance_lt (next_ptr z) (Z.of_nat i)) as Hd.
  destruct (decide (distance (next_ptr z) (Z.of_nat i) = distance (next_ptr z) z)) as [E|E].
  { rewrite E, distance_at in Hat by done. by subst z. }
  pose proof (ring_lookup l (next_ptr z) (distance (next_ptr z) z)
    (distance (next_ptr z) (Z.of_nat i)) ltac:(lia)) as Hlook.
  rewrite Hat, Nat2Z.id, Hi in Hlook. exact (Forall_lookup_1 _ _ _ _ Hs Hlook).
Qed.

Lemma clearing_written z : in_ring z -> written_by 0 (clearing z).
Proof.
  intros Hz w l x Hw Hl. rewrite convert_silence. intros [H|[Hnz H]].
  { left. by apply Forall_insert. }
  destruct (decide (w = z)) as [->|Hne].
  - left. apply (ring_covers _ z); [done|by rewrite length_insert|..].
    + apply list_lookup_total_insert_eq. unfold in_ring in Hz. lia.
    + by rewrite ring_insert_end by (done || by apply next_ptr_in_ring).
  - right. split.
    + rewrite list_lookup_total_insert_ne; [done|]. unfold in_ring in *. lia.
    + rewrite ring_push; [|by apply next_ptr_in_ring|done| |done].
      * apply Forall_app. split; [done|by constructor].
      * intros E. by apply Hne, next_ptr_inj.
Qed.

(** A clear begins with the write pointer behind the marked word. *)
Lemma clearing_begins z l :
  in_ring z -> Z.of_nat (length l) = W -> clearing z (next_ptr z) (<[Z.to_nat z := 1]> l).
Proof.
  intros Hz Hl. right. rewrite distance_0. split; [|by constructor].
  rewrite list_lookup_total_insert_eq; [done|]. unfold in_ring in Hz. lia.
Qed.

Lemma last_in_ring : in_ring (W - 1).
Proof. pose proof W_pos. unfold in_ring. lia. Qed.

Lemma next_last : next_ptr (W - 1) = 0.
Proof. unfold next_ptr. by rewrite (proj2 (Z.eqb_eq _ _)) by lia. Qed.

Lemma zero_in_ring : in_ring 0.
Proof. pose proof W_pos. unfold in_ring. lia. Qed.

(** * Every operation runs, and keeps the invariant *)

Definition runs_inv {A} (m : M ofifo_t A) (s : ofifo_t) : Prop :=
  exists a s', m s = Some (a, s') /\ fifo_inv s'.

Lemma runs_inv_unit m (s : ofifo_t) : runs_inv m s -> exists s', m s = Some (tt, s') /\ fifo_inv s'.
Proof. intros ([] & s' & H). by exists s'. Qed.

Lemma runs_inv_skip {A} (m : M ofifo_t A) s : runs_inv m s -> runs_inv (_ ← m; skip) s.
Proof. intros (a & s' & E & H). exists tt, s'. split; [by erewrite M_bind_run by exact E|done]. Qed.

(** Fields the invariant does not look at. *)
Lemma fifo_inv_ext s s' :
  fifo s' = fifo s -> dptr s' = dptr s -> wrptr s' = wrptr s -> state s' = state s ->
  zero_marker s' = zero_marker s -> fifo_inv s -> fifo_inv s'.
Proof.
  intros E1 E2 E3 E4 E5 [[? ? ?] H]. split; [split; by rewrite ?E1, ?E2, ?E3|].
  by rewrite E1, E3, E4, E5.
Qed.

Lemma fifo_inv_not_clearing s : fifo_ok s -> state s <> ZEROING -> fifo_inv s.
Proof. by split. Qed.

Lemma init_inv s0 s1 :
  Z.of_nat (length (fifo s0)) = W -> audio_output_fifo_init s0 = Some (tt, s1) -> fifo_inv s1.
Proof.
  intros Hl [= <-]. apply fifo_inv_not_clearing; [|done]. split; [done|apply zero_in_ring..].
Qed.

Lemma enable_run mc s :
  fifo_ok s ->
  exists s', enable_audio_output_fifo mc s = Some (tt, s') /\ fifo_inv s' /\ state s' = ZEROING /\
    contents s' = [].
Proof.
  intros [Hl Hd Hw].
  exists (MkFifo true 0 0 None 0 0 0 (Some (W - 1)) ZEROING (last_notification_time s) mc true
    (volume s) (<[Z.to_nat (W - 1) := 1]> (fifo s))).
  split; [|split; [|split; [done|unfold contents; cbn; by rewrite distance_0]]].
  - unfold enable_audio_output_fifo. do 8 (erewrite M_bind_run by reflexivity).
    erewrite M_bind_run; [|unfold store; by rewrite fifo_write_run by (done || apply last_in_ring)].
    reflexivity.
  - split; [split; [cbn; by rewrite length_insert|apply zero_in_ring..]|].
    intros _. exists (W - 1). split; [done|]. split; [apply last_in_ring|]. cbn.
    pose proof (clearing_begins (W - 1) (fifo s) last_in_ring Hl) as H. by rewrite next_last in H.
Qed.

Lemma enable_inv mc s : fifo_ok s -> runs_inv (enable_audio_output_fifo mc) s.
Proof. intros Hs. destruct (enable_run mc s Hs) as (s' & E & H & _). by exists tt, s'. Qed.

Lemma pull_inv t s : fifo_inv s -> runs_inv (audio_output_fifo_pull_sample t) s.
Proof.
  intros [Hs Hz]. unfold runs_inv. rewrite pull_sample_run by done.
  destruct (dptr s =? wrptr s); [by exists 0, s|]. eexists _, _. split; [done|].
  split; [by apply fifo_ok_played|]. unfold played. by destruct (_ && _).
Qed.

Lemma timestamp_inv ts n s : fifo_inv s -> runs_inv (audio_output_fifo_set_ptp_timestamp ts n) s.
Proof.
  intros Hs. unfold runs_inv, audio_output_fifo_set_ptp_timestamp.
  erewrite M_bind_run by reflexivity. unfold id.
  destruct (marker s); eexists _, _; (split; [reflexivity|]); [done|].
  by apply (fifo_inv_ext s).
Qed.

Lemma push_inv buf ptr stride n s :
  0 < stride -> is_Some (strided_words buf ptr stride n) -> fifo_inv s ->
  runs_inv (audio_output_fifo_strided_push buf ptr stride n) s.
Proof.
  intros Hst [ws Hws] [Hs Hz].
  destruct (strided_push_run _ _ _ _ _ s Hs Hst Hws) as (w' & l' & E & Hok & _ & HP).
  eexists _, _. split; [exact E|]. split; [exact Hok|]. intros Hst'. cbn in Hst'.
  destruct (Hz Hst') as (z & Hzm & Hzr & Hcl). exists z. split; [done|]. split; [done|].
  rewrite Hst', decide_True in HP by done. apply HP; [by apply clearing_written|done].
Qed.

(** What [audio_output_fifo_maintain] does to a FIFO that is being cleared. *)
Definition half_full (s : ofifo_t) : ofifo_t :=
  MkFifo true (dptr s) ((dptr s + W / 2) mod W) None 0 0 (sample_count s) (zero_marker s) LOCKING
    (last_notification_time s) (media_clock s) (pending_init_notification s) (volume s) (fifo s).

Lemma maintain_zeroing_run index notified s z :
  fifo_ok s -> state s = ZEROING -> zero_marker s = Some z -> in_ring z ->
  let s1 := if pending_init_notification s && negb notified
            then upd_pending_init_notification (fun _ => false) s else s in
  exists r, audio_output_fifo_maintain index notified s =
    Some (r, if fifo s !!! Z.to_nat z =? 0 then half_full s1 else s1).
Proof.
  intros Hs Hz Hm Hr s1. eexists. unfold audio_output_fifo_maintain.
  erewrite M_bind_run by reflexivity. unfold id. cbv zeta.
  rewrite (M_bind_run _ _ s tt s1) by (subst s1; by destruct (_ && _)). rewrite Hz.
  assert (fifo s1 = fifo s /\ zero_marker s1 = zero_marker s /\ dptr s1 = dptr s /\ fifo_ok s1)
    as (E1 & E2 & E3 & Hs1) by (subst s1; destruct Hs; destruct (_ && _); split_and!; by try split).
  erewrite M_bind_run by (unfold load; rewrite E2, Hm; reflexivity).
  erewrite M_bind_run by (unfold load; rewrite fifo_read_run by done; reflexivity). rewrite E1.
  destruct (_ =? 0); [|reflexivity]. cbn [whenM].
  erewrite M_bind_run; [reflexivity|].
  erewrite M_bind_run by (apply wrap_down_run; destruct Hs as [_ [? _] _]; rewrite Z.shiftr_div_pow2 by lia;
    pose proof W_pos; pose proof (Z.div_pos W (2 ^ 1)); lia).
  rewrite <- E3, Z.shiftr_div_pow2 by lia. reflexivity.
Qed.

Lemma half_full_ok s : fifo_ok s -> fifo_ok (half_full s).
Proof. intros [? ? ?]. split; [done|done|apply mod_in_ring]. Qed.

Lemma maintain_inv index notified s :
  fifo_inv s -> runs_inv (audio_output_fifo_maintain index notified) s.
Proof.
  intros Hs. destruct (decide (state s = ZEROING)) as [Hz|Hz].
  - pose proof Hs as [Hok Hcl]. destruct (Hcl Hz) as (z & Hm & Hr & _).
    destruct (maintain_zeroing_run index notified s z Hok Hz Hm Hr) as [r E].
    eexists _, _. split; [exact E|]. set (s1 := if _ && _ then _ else s).
    assert (fifo_inv s1) as Hs1 by (subst s1; destruct (_ && _); [by apply (fifo_inv_ext s)|done]).
    destruct (_ =? 0); [|done]. apply fifo_inv_not_clearing; [|done]. by apply half_full_ok, Hs1.
  - unfold runs_inv, audio_output_fifo_maintain. erewrite M_bind_run by reflexivity. unfold id. cbv zeta.
    destruct (state s) eqn:Est; try done; destruct (_ && negb notified);
      try destruct (negb (ptp_ts s =? 0) && _ && _ && _);
      eexists _, _; (split; [reflexivity|]); try exact Hs; by apply (fifo_inv_ext s).
Qed.

Lemma buf_ctl_inv cmd notified s :
  fifo_inv s -> runs_inv (audio_output_fifo_handle_buf_ctl cmd notified) s.
Proof.
  intros Hs. pose proof Hs as [Hok _]. destruct cmd as [| |adjust| | |c];
    try (eexists _, _; split; [reflexivity|]; by first [exact Hs|apply (fifo_inv_ext s)]).
  - destruct (adjust_fill_run adjust notified s Hok) as (s' & E & Hok' & Hst & _).
    eexists _, _. split; [exact E|]. apply fifo_inv_not_clearing; [done|]. by rewrite Hst.
  - set (z := if wrptr s =? 0 then W - 1 else wrptr s - 1).
    assert (in_ring z /\ next_ptr z = wrptr s) as [Hz Hn].
    { destruct Hok as [_ _ [? ?]]. subst z. destruct (Z.eqb_spec (wrptr s) 0) as [->|].
      - split; [apply last_in_ring|apply next_last].
      - split; [unfold in_ring; lia|]. unfold next_ptr. rewrite (proj2 (Z.eqb_neq _ _)) by lia. lia. }
    eexists _, _. split.
    + unfold audio_output_fifo_handle_buf_ctl. do 4 (erewrite M_bind_run by reflexivity). unfold id. fold z.
      erewrite M_bind_run; [reflexivity|]. unfold store. destruct Hok. by rewrite fifo_write_run.
    + destruct Hok as [Hl Hd Hw]. split; [split; cbn; [by rewrite length_insert|done..]|].
      intros _. exists z. split; [done|]. split; [done|]. cbn. rewrite <- Hn. by apply clearing_begins.
Qed.

Lemma serve_fifo_inv op s : op_valid op -> fifo_inv s -> runs_inv (serve_fifo op) s.
Proof.
  intros Hop Hs. destruct op; cbn [serve_fifo].
  - eexists _, _. split; [reflexivity|]. destruct Hs as [[? ? ?] _]. by apply fifo_inv_not_clearing.
  - by apply enable_inv, Hs.
  - by apply timestamp_inv.
  - by apply runs_inv_skip, pull_inv.
  - by apply runs_inv_skip, maintain_inv.
  - destruct Hop. by apply push_inv.
  - by apply runs_inv_skip, buf_ctl_inv.
  - eexists _, _. split; [reflexivity|]. by apply (fifo_inv_ext s).
Qed.

Lemma reachable_fifo_inv s : fifo_reachable s -> fifo_inv s.
Proof.
  intros (s0 & s1 & Hl & E & Hrun). pose proof (init_inv _ _ Hl E) as H1. clear s0 Hl E.
  induction Hrun as [|s s' s'' (op & Hop & Est) _ IH]; [done|]. apply IH.
  destruct (serve_fifo_inv op s Hop H1) as ([] & s2 & E2 & H2). rewrite Est in E2. by injection E2 as <-.
Qed.

(** Whatever the listener, the audio thread and the clock recovery have done
    to a FIFO since its initialisation, every further operation runs to the end
    and stays inside the ring - pushes that are longer than the FIFO, timestamps
    and fill adjustments of any size, resets at any time - provided a push has a
    positive stride and its words can be read. *)
Theorem fifo_operations_safe op s :
  fifo_reachable s -> op_valid op ->
  exists s', serve_fifo op s = Some (tt, s') /\ fifo_reachable s' /\ fifo_ok s'.
Proof.
  intros Hs Hop. destruct (serve_fifo_inv op s Hop (reachable_fifo_inv s Hs)) as ([] & s' & E & Hok & _).
  exists s'. split; [exact E|]. split; [|exact Hok]. destruct Hs as (s0 & s1 & Hl & E1 & Hrun).
  exists s0, s1. split; [done|]. split; [done|]. eapply rtc_r; [exact Hrun|]. by exists op.
Qed.

(** A FIFO that is being cleared - because its stream starts, or the clock
    recovery has reset it - begins to lock only when all its words are zero, and
    then with silence in half of it; until that the maintenance leaves it as it is,
    but for the notification of a new stream. *)
Theorem locking_begins_with_silence index notified s :
  fifo_reachable s -> state s = ZEROING ->
  exists r s', audio_output_fifo_maintain index notified s = Some (r, s') /\ fifo s' = fifo s /\
    ((state s' = LOCKING /\ silent (fifo s) /\ contents s' = replicate (Z.to_nat (W / 2)) 0 /\
        zero_flag s' = true) \/
     (state s' = ZEROING /\ ~ silent (fifo s) /\ contents s' = contents s)).
Proof.
  intros Hs Hz. destruct (reachable_fifo_inv s Hs) as [Hok Hcl].
  destruct (Hcl Hz) as (z & Hm & Hr & Hclear). pose proof Hok as [Hl Hd Hw].
  destruct (maintain_zeroing_run index notified s z Hok Hz Hm Hr) as [r E].
  eexists _, _. split; [exact E|]. set (s1 := if _ && _ then _ else s).
  assert (fifo s1 = fifo s /\ dptr s1 = dptr s /\ wrptr s1 = wrptr s /\ state s1 = state s)
    as (E1 & E2 & E3 & E4) by (subst s1; by destruct (_ && _)).
  destruct (Z.eqb_spec (fifo s !!! Z.to_nat z) 0) as [H0|H0].
  - split; [exact E1|]. left. assert (silent (fifo s)) as Hsil by (by destruct Hclear as [?|[? _]]).
    split_and!; try done. unfold contents. cbn. rewrite E1, E2. pose proof W_pos.
    assert (distance (dptr s) ((dptr s + W / 2) mod W) = Z.to_nat (W / 2)) as ->.
    { pose proof (distance_mod (dptr s) (dptr s) (W / 2)) as Hdm. rewrite distance_0 in Hdm. change (Z.of_nat 0) with 0 in Hdm. rewrite Z.add_0_l in Hdm.
      assert (0 <= W / 2 < W) by (split; [apply Z.div_pos; lia|apply Z.div_lt; lia]).
      rewrite (Z.mod_small (W / 2)) in Hdm by lia. lia. }
    apply list_eq_same_length with (n := Z.to_nat (W / 2));
      [by rewrite length_replicate|by rewrite length_ring|].
    intros i x y Hi Hx Hy. rewrite ring_lookup in Hx by done. apply lookup_replicate in Hy as [-> _].
    injection Hx as <-. destruct (lookup_lt_is_Some_2 (fifo s) (Z.to_nat ((dptr s + Z.of_nat i) mod W))) as [v Hv].
    { pose proof (mod_in_ring (dptr s + Z.of_nat i)) as [? ?]. lia. }
    rewrite (list_lookup_total_correct _ _ _ Hv). exact (Forall_lookup_1 _ _ _ _ Hsil Hv).
  - split; [exact E1|]. right. split; [by rewrite E4|]. split.
    + intros Hsil. apply H0. destruct (lookup_lt_is_Some_2 (fifo s) (Z.to_nat z)) as [v Hv].
      { unfold in_ring in Hr. lia. }
      rewrite (list_lookup_total_correct _ _ _ Hv). exact (Forall_lookup_1 _ _ _ _ Hsil Hv).
    + unfold contents. by rewrite E1, E2, E3.
Qed.
End Safe.

(** * A run

    A stream starts; 80 samples arrive, 50 are played, 80 more arrive. *)
Section Run.
  Context `{cfg : FifoConfig}.

Fixpoint serve_ops (ops : list fifo_op) : M ofifo_t unit :=
  match ops with
  | [] => skip
  | op :: ops' => _ ← serve_fifo op; serve_ops ops'
  end.

Lemma serve_ops_reachable ops s0 s1 s :
  Z.of_nat (length (fifo s0)) = AUDIO_OUTPUT_FIFO_WORD_SIZE ->
  audio_output_fifo_init s0 = Some (tt, s1) -> Forall op_valid ops ->
  serve_ops ops s1 = Some (tt, s) -> fifo_reachable s.
Proof.
  intros Hl E1 Hops E. exists s0, s1. split; [done|]. split; [done|]. clear s0 Hl E1.
  revert s1 E. induction Hops as [|op ops Hop _ IH]; intros s1; cbn [serve_ops].
  - intros [= <-]. reflexivity.
  - intros ([] & s2 & E1 & E2)%M_bind_Some. eapply rtc_l; [by exists op|by apply IH].
Qed.
End Run.

#[local] Existing Instance default_fifo_config.

Definition blank_fifo : ofifo_t :=
  MkFifo false 0 0 None 0 0 0 None DISABLED 0 (-1) false MAX_VOLUME (replicate 106 7).

Definition some_words : list Z := replicate 320 1.

Definition sample_ops : list fifo_op :=
  [OpEnable 0; OpPush some_words 0 1 80] ++ replicate 50 (OpPull 5) ++ [OpPush some_words 0 1 80].

Definition after_ops : ofifo_t :=
  match serve_ops sample_ops blank_fifo with Some (_, s) => s | None => blank_fifo end.

Lemma sample_ops_valid : Forall op_valid sample_ops.
Proof.
  assert (op_valid (OpPush some_words 0 1 80)) as H by (split; [lia|eexists; vm_compute; reflexivity]).
  unfold sample_ops. apply Forall_app_2; [by repeat constructor|].
  apply Forall_app_2; [apply Forall_replicate; exact I|]. by repeat constructor.
Qed.

Lemma after_ops_reachable : fifo_reachable after_ops.
Proof.
  eapply (serve_ops_reachable sample_ops blank_fifo blank_fifo);
    [reflexivity|reflexivity|exact sample_ops_valid|vm_compute; reflexivity].
Qed.

(** A reset in the middle of all this. *)
Lemma fifo_operations_safe_witness :
  exists s', serve_fifo (OpBufCtl BUF_CTL_RESET true) after_ops = Some (tt, s') /\ fifo_ok s'.
Proof.
  destruct (fifo_operations_safe (OpBufCtl BUF_CTL_RESET true) after_ops after_ops_reachable I)
    as (s' & E & _ & H).
  exists s'. split; [exact E|exact H].
Defined.

(** The FIFO has come round, and begins to lock with 53 samples of silence. *)
Lemma locking_begins_with_silence_witness :
  state after_ops = ZEROING /\
  exists r s', audio_output_fifo_maintain 3 false after_ops = Some (r, s') /\
    contents s' = replicate 53 0.
Proof.
  assert (state after_ops = ZEROING) as Hz by (vm_compute; reflexivity).
  split; [exact Hz|].
  destruct (locking_begins_with_silence 3 false after_ops after_ops_reachable Hz)
    as (r & s' & E & _ & [(_ & _ & H & _)|(H & _)]).
  - exists r, s'. split; [exact E|exact H].
  - exfalso. assert (state ∘ snd <$> audio_output_fifo_maintain 3 false after_ops = Some LOCKING) as HL
      by (vm_compute; reflexivity).
    rewrite E in HL. cbn in HL. congruence.
Defined.
