(* ===== verification/AudioFifoConc.v ===== *)
(** The listener and the audio thread share an output FIFO without a lock. The
    push of one and the pull of the other, as the accesses to the shared state
    that their code makes, in every interleaving. *)
From S2P Require Import Prelude Bytes AudioFifo AudioFifoSpec AudioFifoSafe.
From Stdlib Require Import ZArith Lia.
From stdpp Require Import base list list_numbers numbers relations.
#[local] Open Scope Z_scope.

Section Conc.
  Context `{cfg : FifoConfig}.
Abbreviation W := AUDIO_OUTPUT_FIFO_WORD_SIZE.

(** Where the listener's thread is: outside of a push; at the head of the loop
    with the words still to come, its local write pointer and the number of
    samples so far; or about to store a sample, having found room for it. *)
Inductive producer : Type :=
| PIdle
| PLoop (vol : Z) (words : list Z) (w count : Z)
| PStore (vol x : Z) (words : list Z) (w count : Z).

(** Where the audio thread is: outside of a pull; having found that the FIFO is
    not empty; having read the sample; having dealt with the marker. *)
Inductive consumer : Type :=
| CIdle
| CLoad (t d : Z)
| CMark (t d x : Z)
| CAdvance (d x : Z).

(** [accepted] are the samples stored so far; [pulls] what each pull that has ended has
    taken out - nothing, if it found the FIFO empty - and [output] what it returned. *)
Record threads : Type := MkThreads {
  shared : ofifo_t;
  prod : producer;
  cons : consumer;
  accepted : list Z;
  pulls : list (option Z);
  output : list Z;
}.

(** The samples taken out. *)
Definition taken (st : threads) : list Z := omap id (pulls st).

(** The other operations of the listener's thread that may come between pushes
    while samples flow. *)
Definition between_pushes (op : fifo_op) (s : ofifo_t) : Prop :=
  match op with
  | OpTimestamp _ _ | OpVolume _ => True
  | OpMaintain _ _ => state s <> ZEROING
  | OpBufCtl (BUF_CTL_REQUEST_INFO | BUF_CTL_REQUEST_NEW_STREAM_INFO | BUF_CTL_ACK) _ => True
  | _ => False
  end.

(** The accesses of [audio_output_fifo_strided_push] to what is shared: it reads the words
    [ws], writes through its own pointer, and sets the shared one at the end. *)
Inductive push_access : threads -> threads -> Prop :=
| p_start s c A T O ws :
    push_access (MkThreads s PIdle c A T O)
      (MkThreads s (PLoop (if decide (state s = ZEROING) then 0 else 1) ws (wrptr s) 0) c A T O)
| p_room s c A T O vol x ws w n :
    next_ptr w <> dptr s ->
    push_access (MkThreads s (PLoop vol (x :: ws) w n) c A T O)
      (MkThreads s (PStore vol x ws w n) c A T O)
| p_full s c A T O vol x ws w n :
    next_ptr w = dptr s ->
    push_access (MkThreads s (PLoop vol (x :: ws) w n) c A T O)
      (MkThreads s (PLoop vol ws w (n + 1)) c A T O)
| p_store s s' c A T O vol x ws w n :
    fifo_write w (convert_sample vol x) s = Some s' ->
    push_access (MkThreads s (PStore vol x ws w n) c A T O)
      (MkThreads s' (PLoop vol ws (next_ptr w) (n + 1)) c (A ++ [convert_sample vol x]) T O)
| p_publish s c A T O vol w n :
    push_access (MkThreads s (PLoop vol [] w n) c A T O)
      (MkThreads (upd_sample_count (fun k => u32 (k + n)) (upd_wrptr (fun _ => w) s)) PIdle c A T O).

(** The accesses of [audio_output_fifo_pull_sample]. *)
Inductive pull_access : threads -> threads -> Prop :=
| c_empty s p A T O :
    dptr s = wrptr s ->
    pull_access (MkThreads s p CIdle A T O) (MkThreads s p CIdle A (T ++ [None]) (O ++ [0]))
| c_start s p A T O t :
    dptr s <> wrptr s ->
    pull_access (MkThreads s p CIdle A T O) (MkThreads s p (CLoad t (dptr s)) A T O)
| c_load s p A T O t d x :
    fifo_read d s = Some x ->
    pull_access (MkThreads s p (CLoad t d) A T O) (MkThreads s p (CMark t d x) A T O)
| c_mark s p A T O t d x :
    pull_access (MkThreads s p (CMark t d x) A T O)
      (MkThreads (if bool_decide (marker s = Some d) && (local_ts s =? 0)
                  then upd_local_ts (fun _ => s32 (nonzero_ts t)) s else s)
         p (CAdvance d x) A T O)
| c_advance s p A T O d x :
    pull_access (MkThreads s p (CAdvance d x) A T O)
      (MkThreads (upd_dptr (fun _ => next_ptr d) s) p CIdle A (T ++ [Some x])
         (O ++ [if zero_flag s then 0 else x])).

Inductive conc_step : threads -> threads -> Prop :=
| by_push st st' : push_access st st' -> conc_step st st'
| by_pull st st' : pull_access st st' -> conc_step st st'
| p_between s s' c A T O op :
    between_pushes op s -> serve_fifo op s = Some (tt, s') ->
    conc_step (MkThreads s PIdle c A T O) (MkThreads s' PIdle c A T O).

(** Both threads outside of their operations, nothing recorded yet. *)
Definition at_rest (s : ofifo_t) : threads := MkThreads s PIdle CIdle [] [] [].

(** * The threads alone are the sequential code *)

Lemma producer_rounds buf stride n vol c T O : forall fuel ptr i w cnt s w' n' s' A,
  loopM fuel (push_sample buf stride n vol) (i, ptr, w, cnt) s = Some ((w', n'), s') ->
  exists ws A', rtc conc_step (MkThreads s (PLoop vol ws w cnt) c A T O)
    (MkThreads s' (PLoop vol [] w' n') c A' T O).
Proof.
  induction fuel as [|fuel IH]; intros ptr i w cnt s w' n' s' A E; cbn [loopM] in E; [done|].
  apply M_bind_Some in E as (r & s1 & E1 & E2). unfold push_sample in E1.
  destruct (i <? n).
  - apply M_bind_Some in E1 as (x & s2 & Ex & E1).
    unfold load in Ex. destruct (word_le buf ptr) as [x'|]; [|done]. injection Ex as <- <-.
    apply M_bind_Some in E1 as (s3 & s4 & [= <- <-] & E1). unfold id in E1.
    destruct (Z.eqb_spec (next_ptr w) (dptr s)) as [Hfull|Hroom]; cbn [negb] in E1.
    + injection E1 as <- <-. destruct (IH _ _ _ _ _ _ _ _ A E2) as (ws & A' & Hrun).
      exists (x' :: ws), A'. eapply rtc_l; [by apply by_push, p_full|exact Hrun].
    + apply M_bind_Some in E1 as ([] & s2 & Est & E1). injection E1 as <- <-.
      unfold store in Est. destruct (fifo_write _ _ s) as [s2'|] eqn:Ew; [|done]. injection Est as ->.
      destruct (IH _ _ _ _ _ _ _ _ (A ++ [convert_sample vol x']) E2) as (ws & A' & Hrun).
      exists (x' :: ws), A'. eapply rtc_l; [by apply by_push, p_room|].
      eapply rtc_l; [by apply by_push, p_store|exact Hrun].
  - injection E1 as <- <-. injection E2 as <- <- <-. exists [], A. reflexivity.
Qed.

Lemma producer_alone buf sample_ptr stride n s s' c A T O :
  audio_output_fifo_strided_push buf sample_ptr stride n s = Some (tt, s') ->
  exists A', rtc conc_step (MkThreads s PIdle c A T O) (MkThreads s' PIdle c A' T O).
Proof.
  intros (s1 & s2 & [= <- <-] & E)%M_bind_Some. cbv zeta in E.
  apply M_bind_Some in E as ([w cnt] & s1 & E1 & E2). injection E2 as <-.
  destruct (producer_rounds _ _ _ _ c T O _ _ _ _ _ _ _ _ _ A E1) as (ws & A' & Hrun).
  exists A'. eapply rtc_l; [apply by_push, (p_start _ _ _ _ _ ws)|]. eapply rtc_r; [exact Hrun|apply by_push, p_publish].
Qed.

Lemma consumer_alone t s x s' p A T O :
  audio_output_fifo_pull_sample t s = Some (x, s') ->
  exists T', rtc conc_step (MkThreads s p CIdle A T O) (MkThreads s' p CIdle A T' (O ++ [x])).
Proof.
  intros (s1 & s2 & [= <- <-] & E)%M_bind_Some. unfold id in E. cbv zeta in E.
  destruct (Z.eqb_spec (dptr s) (wrptr s)) as [Hempty|Hne].
  - injection E as <- <-. exists (T ++ [None]). by apply rtc_once, by_pull, c_empty.
  - apply M_bind_Some in E as (y & s1 & E1 & E2). unfold load in E1.
    destruct (fifo_read (dptr s) s) as [y'|] eqn:Ey; [|done]. injection E1 as <- <-.
    exists (T ++ [Some y']). eapply rtc_l; [by apply by_pull, (c_start _ _ _ _ _ t)|].
    eapply rtc_l; [by apply by_pull, c_load|]. eapply rtc_l; [apply by_pull, c_mark|]. apply rtc_once, by_pull.
    revert E2. destruct (_ && _); intros [= <- <-];
      [exact (c_advance (upd_local_ts _ s) p A T O (dptr s) y')|apply c_advance].
Qed.

(** * The invariant *)

(** The write pointer of the producer: local during a push. *)
Definition local_wrptr (p : producer) (s : ofifo_t) : Z :=
  match p with PIdle => wrptr s | PLoop _ _ w _ | PStore _ _ _ w _ => w end.

Record conc_inv (c0 : list Z) (st : threads) : Prop := {
  ci_ok : fifo_ok (shared st);
  ci_local : in_ring (local_wrptr (prod st) (shared st));
  ci_published : (distance (dptr (shared st)) (wrptr (shared st)) <=
                  distance (dptr (shared st)) (local_wrptr (prod st) (shared st)))%nat;
  ci_fifo : c0 ++ accepted st = taken st ++
    ring (fifo (shared st)) (dptr (shared st))
      (distance (dptr (shared st)) (local_wrptr (prod st) (shared st)));
  ci_room : match prod st with PStore _ _ _ w _ => next_ptr w <> dptr (shared st) | _ => True end;
  ci_cons : match cons st with
            | CIdle => True
            | CLoad _ d => d = dptr (shared st) /\ d <> wrptr (shared st)
            | CMark _ d x | CAdvance d x =>
                d = dptr (shared st) /\ d <> wrptr (shared st) /\ x = fifo (shared st) !!! Z.to_nat d
            end;
}.

(** What the audio thread is about to take is not the word the listener writes. *)
Lemma taken_not_written c0 s p c A T O :
  conc_inv c0 (MkThreads s p c A T O) -> dptr s <> wrptr s -> dptr s <> local_wrptr p s.
Proof.
  intros [[_ Hd Hw] Hl Hp _ _ _] Hne E. cbn in *. rewrite <- E, distance_0 in Hp.
  apply Hne, distance_0_inv; [done..|]. lia.
Qed.

(** The fields that the order of the samples depends on. *)
Definition same_ring (s s' : ofifo_t) : Prop :=
  fifo s' = fifo s /\ dptr s' = dptr s /\ wrptr s' = wrptr s /\ zero_flag s' = zero_flag s.

Lemma conc_inv_same_ring c0 s s' p c A T O O' :
  same_ring s s' ->
  conc_inv c0 (MkThreads s p c A T O) -> conc_inv c0 (MkThreads s' p c A T O').
Proof.
  intros (E1 & E2 & E3 & _) [[? ? ?] ? ? ? ? ?]. cbn in *.
  assert (local_wrptr p s' = local_wrptr p s) as E4 by (destruct p; cbn; congruence).
  split; cbn; rewrite ?E1, ?E2, ?E3, ?E4; try done. split; by rewrite ?E1, ?E2, ?E3.
Qed.

Lemma between_pushes_same_ring op s s' :
  between_pushes op s -> serve_fifo op s = Some (tt, s') -> same_ring s s'.
Proof.
  destruct op as [| |ts n| |index notified| |cmd notified|v]; try done; cbn [serve_fifo].
  - intros _. unfold audio_output_fifo_set_ptp_timestamp. intros (s1 & s2 & [= <- <-] & E)%M_bind_Some.
    unfold id in E. destruct (marker s); by injection E as <-.
  - intros Hst (r & s1 & E & [= <-])%M_bind_Some. unfold audio_output_fifo_maintain in E.
    apply M_bind_Some in E as (s2 & s3 & [= <- <-] & E). unfold id in E. cbv zeta in E.
    apply M_bind_Some in E as ([] & s2 & E1 & E).
    assert (same_ring s s2) as (? & ? & ? & ?) by (revert E1; destruct (_ && _); by intros [= <-]).
    cbn in Hst. destruct (state s); [|done|..]; [by injection E as <- <-|..];
      (destruct (_ && _ && _ && _); injection E as <- <-; done).
  - intros Hb (r & s1 & E & [= <-])%M_bind_Some. destruct cmd; try done; by injection E as <- <-.
  - by intros _ [= <-].
Qed.

Lemma conc_inv_step c0 st st' : conc_step st st' -> conc_inv c0 st -> conc_inv c0 st'.
Proof.
  intros Hstep Hinv. pose proof Hinv as [[Hlen Hd Hw] Hl Hp Hf Hr Hc].
  destruct Hstep as [st st' Hstep|st st' Hstep|s s' c A T O op H1 H2];
    [destruct Hstep|destruct Hstep|]; cbn in *.
  - (* p_start *) split; cbn; try done; by split.
  - (* p_room *) split; cbn; try done; by split.
  - (* p_full *) split; cbn; try done; by split.
  - (* p_store *)
    rewrite fifo_write_run in H by done. injection H as <-.
    split; cbn; [split; cbn; [by rewrite length_insert|done..]| | | |done|].
    + by apply next_ptr_in_ring.
    + rewrite distance_next_to by done. lia.
    + rewrite ring_push by done. by rewrite !app_assoc, Hf.
    + destruct c as [|t d|t d y|d y]; [done..| |];
        destruct Hc as (-> & Hne & ->); split_and!; try done; symmetry;
        apply list_lookup_total_insert_ne; pose proof (taken_not_written c0 _ _ _ _ _ _ Hinv Hne);
        cbn in *; unfold in_ring in *; lia.
  - (* p_publish *)
    assert (forall d, d = dptr s -> d <> wrptr s -> d <> w) as Hnw
      by (intros d -> Hne; exact (taken_not_written c0 _ _ _ _ _ _ Hinv Hne)).
    split; cbn; [by split|done|lia|done|done|].
    destruct c as [|t d|t d y|d y]; [done|..]; naive_solver.
  - (* c_empty *) split; try done. cbn. unfold taken in *. cbn in *. by rewrite omap_app, app_nil_r.
  - (* c_start *) by split.
  - (* c_load *)
    destruct Hc as [-> Hne]. rewrite fifo_read_run in H by (done || by split). injection H as <-.
    by split.
  - (* c_mark *)
    destruct Hc as (-> & Hne & ->).
    assert (conc_inv c0 (MkThreads s p (CAdvance (dptr s) (fifo s !!! Z.to_nat (dptr s))) A T O)) as H
      by (by split).
    eapply (conc_inv_same_ring c0 s); [|exact H]. by destruct (_ && _).
  - (* c_advance *)
    destruct Hc as (-> & Hne & ->). pose proof (taken_not_written c0 _ _ _ _ _ _ Hinv Hne) as Hnl.
    cbn in Hnl. pose proof (next_ptr_in_ring _ Hd) as Hdn.
    assert (local_wrptr p (upd_dptr (fun _ => next_ptr (dptr s)) s) = local_wrptr p s) as El by (by destruct p).
    rewrite (distance_next_from _ _ Hd Hw Hne), (distance_next_from _ _ Hd Hl Hnl) in Hp.
    split; cbn; rewrite ?El; [by split|done|lia| | |done].
    + rewrite Hf, (distance_next_from _ _ Hd Hl Hnl), ring_cons by done.
      unfold taken. cbn [pulls]. rewrite omap_app. cbn [omap list_omap id]. by rewrite <- app_assoc.
    + destruct p as [| |vol x ws w n]; [done..|]. cbn in *. intros E. apply Hnl. symmetry. by apply next_ptr_inj.
  - (* p_between *) eapply (conc_inv_same_ring c0 s s'); [by eapply between_pushes_same_ring|exact Hinv].
Qed.

Lemma at_rest_inv s : fifo_ok s -> conc_inv (contents s) (at_rest s).
Proof.
  intros [? ? ?]. split; cbn; try done. by rewrite app_nil_r.
Qed.

Lemma conc_reachable_inv s st :
  fifo_ok s -> rtc conc_step (at_rest s) st -> conc_inv (contents s) st.
Proof.
  intros Hs Hrun. pose proof (at_rest_inv s Hs) as H. revert H.
  induction Hrun as [|st1 st2 st3 H1 _ IH]; [done|]. intros Hi. apply IH. by eapply conc_inv_step.
Qed.

(** What the pulls return: what they take, and zero where the FIFO is empty; only zeros if it
    is silenced. *)
Lemma conc_output s st :
  rtc conc_step (at_rest s) st ->
  zero_flag (shared st) = zero_flag s /\
  output st = if zero_flag s then replicate (length (pulls st)) 0 else default 0 <$> pulls st.
Proof.
  intros Hrun.
  assert (zero_flag (shared (at_rest s)) = zero_flag s /\
    output (at_rest s) = if zero_flag s then replicate (length (pulls (at_rest s))) 0
                         else default 0 <$> pulls (at_rest s)) as H by (split; [done|]; cbn; by destruct (zero_flag s)).
  revert H. induction Hrun as [|st1 st2 st3 H1 _ IH]; [done|]. intros [Hzf Ho]. apply IH. clear IH.
  destruct H1 as [st1 st2 []|st1 st2 []|s1 s2 c A T O op Hb Hs]; cbn in *; try done.
  - unfold fifo_write in *. destruct (_ && _); by simplify_eq.
  - split; [done|]. rewrite Ho, length_app, fmap_app, Nat.add_1_r, replicate_S_end. by destruct (zero_flag s).
  - by destruct (_ && _).
  - split; [done|]. rewrite Ho, Hzf, length_app, fmap_app, Nat.add_1_r, replicate_S_end. by destruct (zero_flag s).
  - by apply between_pushes_same_ring in Hs as (? & ? & ? & ->).
Qed.

(** C37: the lock-free FIFO is first in, first out. However the accesses of the
    listener's pushes and of the audio thread's pulls interleave, with the listener's other
    operations between pushes, as long as the clock recovery neither adjusts nor resets the FIFO:
    the samples that the pulls take out are those that were in the FIFO and those the pushes
    have stored, in this order, none lost, repeated or torn; between pushes, what
    has not been taken out yet is exactly the contents of the FIFO. A pull returns the sample it
    takes out, and zero if it finds the FIFO empty (only zeros come from a FIFO that is silenced).
    These accesses are those of the code: in every state that is reached, the code of a pull,
    run by itself, is such a sequence of accesses and returns what it adds to the output; so is the
    code of a push, and it leaves the samples of the packet behind those in the FIFO, as
    many as fit. *)
Theorem fifo_order s st :
  fifo_ok s -> rtc conc_step (at_rest s) st ->
  (taken st `prefix_of` (contents s ++ accepted st)) /\
  (prod st = PIdle -> contents s ++ accepted st = taken st ++ contents (shared st)) /\
  output st = (if zero_flag s then replicate (length (pulls st)) 0 else default 0 <$> pulls st) /\
  (cons st = CIdle -> forall t, exists x s' T',
     audio_output_fifo_pull_sample t (shared st) = Some (x, s') /\
     rtc conc_step st (MkThreads s' (prod st) CIdle (accepted st) T' (output st ++ [x]))) /\
  (prod st = PIdle -> forall buf sample_ptr stride n ws,
     0 < stride -> strided_words buf sample_ptr stride n = Some ws ->
     let vol := if decide (state (shared st) = ZEROING) then 0 else 1 in
     exists s' A', audio_output_fifo_strided_push buf sample_ptr stride n (shared st) = Some (tt, s') /\
       rtc conc_step st (MkThreads s' PIdle (cons st) A' (pulls st) (output st)) /\
       contents s' = take capacity (contents (shared st) ++ (convert_sample vol <$> ws))).
Proof.
  intros Hs Hrun. pose proof (conc_reachable_inv s st Hs Hrun) as [Hok _ _ Hf _ _].
  pose proof (conc_output s st Hrun) as [_ Ho]. destruct st as [sh p c A T O]. cbn in *. split_and!.
  - eexists. exact Hf.
  - intros ->. exact Hf.
  - exact Ho.
  - intros -> t. pose proof (audio_output_fifo_pull_sample_spec t sh Hok) as E.
    assert (exists x s', audio_output_fifo_pull_sample t sh = Some (x, s')) as (x & s' & E')
      by (destruct (contents sh); [by eexists _, _|destruct E as (s' & E & _); by eexists _, _]).
    destruct (consumer_alone t sh x s' p A T O E') as (T' & H). by exists x, s', T'.
  - intros -> buf ptr stride n ws Hst Hws.
    destruct (audio_output_fifo_strided_push_spec buf ptr stride n ws sh Hok Hst Hws) as (w' & l' & E & _ & Hc).
    destruct (producer_alone buf ptr stride n sh _ c A T O E) as (A' & H). by eexists _, A'.
Qed.
End Conc.

(** * An interleaving

    A push of two samples; the audio thread takes the oldest sample while the
    first of them is being stored. *)
#[local] Existing Instance default_fifo_config.

Definition interleaved : threads :=
  MkThreads (upd_sample_count (fun k => u32 (k + 2)) (upd_wrptr (fun _ => 3)
      (upd_dptr (fun _ => 105) (upd_fifo (fun _ => <[2%nat := 0x400]> (<[1%nat := 0x200]> (fifo sample_fifo)))
        sample_fifo))))
    PIdle CIdle [0x200; 0x400] [Some 10] [10].

Lemma interleaved_run : rtc conc_step (at_rest sample_fifo) interleaved.
Proof.
  eapply rtc_l; [apply by_push, (p_start _ _ _ _ _ [0x02000040; 0x04000040])|].
  eapply rtc_l; [apply by_push, p_room; discriminate|].
  eapply rtc_l; [apply by_pull, (c_start _ _ _ _ _ 5); discriminate|].
  eapply rtc_l; [apply by_push, p_store; vm_compute; reflexivity|].
  eapply rtc_l; [apply by_pull, c_load; vm_compute; reflexivity|].
  eapply rtc_l; [apply by_push, p_room; vm_compute; discriminate|].
  eapply rtc_l; [apply by_pull, c_mark|].
  eapply rtc_l; [apply by_pull, c_advance|].
  eapply rtc_l; [apply by_push, p_store; vm_compute; reflexivity|].
  eapply rtc_l; [apply by_push, p_publish|]. vm_compute. apply rtc_refl.
Qed.

Lemma fifo_order_witness :
  contents sample_fifo = [10; 20; 30] /\
  [10; 20; 30] ++ [0x200; 0x400] = [10] ++ contents (shared interleaved) /\
  output interleaved = [10] /\
  exists x s' T', audio_output_fifo_pull_sample 7 (shared interleaved) = Some (x, s') /\
    rtc conc_step interleaved (MkThreads s' PIdle CIdle [0x200; 0x400] T' [10; x]).
Proof.
  assert (contents sample_fifo = [10; 20; 30]) as Hc by (vm_compute; reflexivity).
  split; [exact Hc|].
  destruct (fifo_order sample_fifo interleaved sample_fifo_ok interleaved_run) as (_ & H & Ho & Hp & _).
  split; [rewrite <- Hc; exact (H eq_refl)|]. split; [exact Ho|]. exact (Hp eq_refl 7).
Defined.
