(* ===== verification/Listener1722.v ===== *)
(** The 1722 listener: [lib_tsn/src/1722/avb_1722_listener_support_audio.c], which
    unpacks the samples of an IEC 61883-6 stream into the output FIFOs of its
    channels, and the configuration of its streams in [avb_1722_listener.xc].

    The stream is that of the packet; a mapping names the FIFO of a channel by its
    index, negative for none.  Recording of errors ([AVB_1722_RECORD_ERRORS], off)
    only prints. The field [last_sequence] is never touched. *)
From S2P Require Import Prelude Bytes AudioFifo AudioFifoSpec AudioFifoSafe.
From Stdlib Require Import ZArith Lia.
From stdpp Require Import base list list_numbers numbers.
#[local] Open Scope Z_scope.

Definition AVB_MAX_CHANNELS_PER_LISTENER_STREAM : nat := 8.
Definition AVB_TP_HDR_SIZE : Z := 24.
Definition AVB_CIP_HDR_SIZE : Z := 8.
Definition AVBTP_CD_DATA : Z := 0.

Record avb_1722_stream_info_t : Type := MkStreamInfo {
  si_active : bool;  (* short *)
  si_state : Z;  (* short *)
  chan_lock : Z;  (* packets seen while locking *)
  rate : Z;  (* int *)
  prev_num_samples : Z;  (* int *)
  num_channels_in_payload : Z;  (* int *)
  num_channels : Z;  (* int *)
  dbc : Z;  (* int *)
  chan_map : list Z;  (* audio_output_fifo_t[AVB_MAX_CHANNELS_PER_LISTENER_STREAM] *)
}.

Definition upd_si_active (g : bool -> bool) (s : avb_1722_stream_info_t) : avb_1722_stream_info_t :=
  MkStreamInfo (g (si_active s)) (si_state s) (chan_lock s) (rate s) (prev_num_samples s)
    (num_channels_in_payload s) (num_channels s) (dbc s) (chan_map s).
Definition upd_si_state (g : Z -> Z) (s : avb_1722_stream_info_t) : avb_1722_stream_info_t :=
  MkStreamInfo (si_active s) (g (si_state s)) (chan_lock s) (rate s) (prev_num_samples s)
    (num_channels_in_payload s) (num_channels s) (dbc s) (chan_map s).
Definition upd_chan_lock (g : Z -> Z) (s : avb_1722_stream_info_t) : avb_1722_stream_info_t :=
  MkStreamInfo (si_active s) (si_state s) (g (chan_lock s)) (rate s) (prev_num_samples s)
    (num_channels_in_payload s) (num_channels s) (dbc s) (chan_map s).
Definition upd_rate (g : Z -> Z) (s : avb_1722_stream_info_t) : avb_1722_stream_info_t :=
  MkStreamInfo (si_active s) (si_state s) (chan_lock s) (g (rate s)) (prev_num_samples s)
    (num_channels_in_payload s) (num_channels s) (dbc s) (chan_map s).
Definition upd_prev_num_samples (g : Z -> Z) (s : avb_1722_stream_info_t) : avb_1722_stream_info_t :=
  MkStreamInfo (si_active s) (si_state s) (chan_lock s) (rate s) (g (prev_num_samples s))
    (num_channels_in_payload s) (num_channels s) (dbc s) (chan_map s).
Definition upd_num_channels_in_payload (g : Z -> Z) (s : avb_1722_stream_info_t) : avb_1722_stream_info_t :=
  MkStreamInfo (si_active s) (si_state s) (chan_lock s) (rate s) (prev_num_samples s) (g
    (num_channels_in_payload s)) (num_channels s) (dbc s) (chan_map s).
Definition upd_num_channels (g : Z -> Z) (s : avb_1722_stream_info_t) : avb_1722_stream_info_t :=
  MkStreamInfo (si_active s) (si_state s) (chan_lock s) (rate s) (prev_num_samples s)
    (num_channels_in_payload s) (g (num_channels s)) (dbc s) (chan_map s).
Definition upd_dbc (g : Z -> Z) (s : avb_1722_stream_info_t) : avb_1722_stream_info_t :=
  MkStreamInfo (si_active s) (si_state s) (chan_lock s) (rate s) (prev_num_samples s)
    (num_channels_in_payload s) (num_channels s) (g (dbc s)) (chan_map s).
Definition upd_chan_map (g : list Z -> list Z) (s : avb_1722_stream_info_t) : avb_1722_stream_info_t :=
  MkStreamInfo (si_active s) (si_state s) (chan_lock s) (rate s) (prev_num_samples s)
    (num_channels_in_payload s) (num_channels s) (dbc s) (g (chan_map s)).

Record listener : Type := MkListener {
  stream : avb_1722_stream_info_t;
  fifos : list ofifo_t;  (* the buffers behind [buffer_handle_t] *)
  notified_buf_ctl : bool;
  buf_ctl_out : list buf_ctl_msg;  (* sent to the clock recovery, oldest first *)
}.

Definition upd_stream (g : avb_1722_stream_info_t -> avb_1722_stream_info_t) (s : listener) : listener :=
  MkListener (g (stream s)) (fifos s) (notified_buf_ctl s) (buf_ctl_out s).
Definition upd_fifos (g : list ofifo_t -> list ofifo_t) (s : listener) : listener :=
  MkListener (stream s) (g (fifos s)) (notified_buf_ctl s) (buf_ctl_out s).
Definition upd_notified_buf_ctl (g : bool -> bool) (s : listener) : listener :=
  MkListener (stream s) (fifos s) (g (notified_buf_ctl s)) (buf_ctl_out s).
Definition upd_buf_ctl_out (g : list buf_ctl_msg -> list buf_ctl_msg) (s : listener) : listener :=
  MkListener (stream s) (fifos s) (notified_buf_ctl s) (g (buf_ctl_out s)).

(** [AVB_DataHeader_t] and, behind it, [AVB_AVB1722_CIP_Header_t]: the offsets of
    the fields that are read. *)
Definition off_subtype : Z := 0.
Definition off_version_flags : Z := 1.
Definition off_avb_timestamp : Z := 12.
Definition off_packet_data_length : Z := 20.
Definition off_DBC : Z := AVB_TP_HDR_SIZE + 3.

Definition AVBTP_CD (subtype : Z) : Z := Z.shiftr subtype 7.
Definition AVBTP_SV (version_flags : Z) : Z := Z.shiftr version_flags 7.
Definition AVBTP_VERSION (version_flags : Z) : Z := Z.land (Z.shiftr version_flags 4) 7.
Definition AVBTP_TV (version_flags : Z) : Z := Z.land version_flags 1.

(** The rate of a stream from its samples per packet, at 8000 packets a second. *)
Definition rate_of_samples (n : Z) : Z :=
  match n with
  | 1 => 8000 | 2 => 16000 | 4 => 32000 | 5 => 44100 | 6 => 48000
  | 11 => 88200 | 12 => 96000 | 24 => 192000
  | _ => 0
  end.

Definition syt_interval (rate' : Z) : option Z :=
  if rate' =? 8000 then Some 1
  else if rate' =? 16000 then Some 2
  else if (rate' =? 32000) || (rate' =? 44100) || (rate' =? 48000) then Some 8
  else if (rate' =? 88200) || (rate' =? 96000) then Some 16
  else if (rate' =? 176400) || (rate' =? 192000) then Some 32
  else None.

(** The sample of a packet that its timestamp belongs to. *)
Definition timestamp_sample (syt dbc_value : Z) : Z :=
  Z.land (u32 (syt - Z.land dbc_value (syt - 1))) (syt - 1).

Section Listener.
  Context `{cfg : FifoConfig}.

Definition get_stream_info : M listener avb_1722_stream_info_t := gets stream.
Definition on_stream (f : avb_1722_stream_info_t -> avb_1722_stream_info_t) : M listener unit :=
  modify (upd_stream f).

(** An operation on [p_buffer[i]]. *)
Definition on_fifo {A} (i : Z) (m : M ofifo_t A) : M listener A := fun l =>
  if 0 <=? i then
    match fifos l !! Z.to_nat i with
    | Some s => match m s with
                | Some (a, s') => Some (a, upd_fifos (<[Z.to_nat i := s']>) l)
                | None => None
                end
    | None => None
    end
  else None.

(** [Buf[off]] *)
Definition rd_pkt (buf : list Z) (off : Z) : M listener Z :=
  load (fun _ => if 0 <=? off then buf !! Z.to_nat off else None).
Definition map_at (i : nat) : M listener Z := load (fun l => chan_map (stream l) !! i).

(** The part of [avb_1722_listener_process_packet] for a stream that is not locked
    yet ([chan_lock < 16]). *)
Definition lock_channels (dbc_diff prev n : Z) (s : avb_1722_stream_info_t)
    : option avb_1722_stream_info_t :=
  if (prev =? 0) || (dbc_diff =? 0) then Some s
  else
    let channels := Z.quot prev dbc_diff in
    let s := if (num_channels_in_payload s =? 0) || negb (num_channels_in_payload s =? channels)
             then upd_num_channels_in_payload (fun _ => channels)
                    (upd_chan_lock (fun _ => 0) (upd_rate (fun _ => 0) s))
             else s in
    let s := upd_chan_lock (fun c => c + 1) (upd_rate (fun r => s32 (r + n)) s) in
    if chan_lock s =? 16 then
      if num_channels_in_payload s =? 0 then None
      else Some (upd_rate (fun r =>
                   rate_of_samples (Z.quot (Z.quot r (num_channels_in_payload s)) 16)) s)
    else Some s.

Definition process_timestamp (buf : list Z) (hdr dbc_value nch : Z) : M listener bool :=
  s ← get_stream_info;
  match syt_interval (rate s) with
  | None => mret false
  | Some syt =>
      let sample_num := timestamp_sample syt dbc_value in
      _ ← forM (seq 0 (Z.to_nat nch)) (fun i =>
        m ← map_at i;
        whenM (0 <=? m)
          (a ← rd_pkt buf (hdr + off_avb_timestamp);
           b ← rd_pkt buf (hdr + off_avb_timestamp + 1);
           c ← rd_pkt buf (hdr + off_avb_timestamp + 2);
           d ← rd_pkt buf (hdr + off_avb_timestamp + 3);
           on_fifo m (audio_output_fifo_set_ptp_timestamp (u32 (ntoh_32 a b c d)) sample_num)));
      mret true
  end.

Definition maintain_fifos (nch : Z) : M listener unit :=
  forM (seq 0 (Z.to_nat nch)) (fun i =>
    m ← map_at i;
    whenM (0 <=? m)
      (l ← gets id;
       '(notified, msgs) ← on_fifo m (audio_output_fifo_maintain (Z.to_nat m) (notified_buf_ctl l));
       _ ← modify (upd_notified_buf_ctl (fun _ => notified));
       modify (upd_buf_ctl_out (fun out => out ++ msgs)))).

Definition push_channels (buf : list Z) (sample_ptr stride n nch : Z) : M listener unit :=
  forM (seq 0 (Z.to_nat nch)) (fun i =>
    m ← map_at i;
    whenM (0 <=? m)
      (on_fifo m (audio_output_fifo_strided_push buf (sample_ptr + 4 * Z.of_nat i) stride n))).

(** The result is the [int] that is returned. *)
Definition avb_1722_listener_process_packet (buf : list Z) (numBytes : Z) : M listener Z :=
  b12 ← rd_pkt buf 12;
  let hdr := if b12 =? 0x81 then 18 else 14 in
  s ← get_stream_info;
  let nch := num_channels s in
  if numBytes <=? hdr + AVB_TP_HDR_SIZE + AVB_CIP_HDR_SIZE then mret 0
  else
    flags ← rd_pkt buf (hdr + off_version_flags);
    if negb (AVBTP_VERSION flags =? 0) then mret 0
    else
      subtype ← rd_pkt buf (hdr + off_subtype);
      if negb (AVBTP_CD subtype =? AVBTP_CD_DATA) then mret 0
      else if AVBTP_SV flags =? 0 then mret 0
      else
        dbc_value ← rd_pkt buf (hdr + off_DBC);
        let dbc_diff := dbc_value - dbc s in
        _ ← on_stream (upd_dbc (fun _ => dbc_value));
        let dbc_diff := if dbc_diff <? 0 then dbc_diff + 0x100 else dbc_diff in
        len0 ← rd_pkt buf (hdr + off_packet_data_length);
        len1 ← rd_pkt buf (hdr + (off_packet_data_length + 1));
        let pktDataLength := Z.lor (Z.shiftl len0 8) len1 in
        let n := Z.shiftr (pktDataLength - 8) 2 in
        let prev := prev_num_samples s in
        _ ← on_stream (upd_prev_num_samples (fun _ => n));
        if chan_lock s <? 16 then
          _ ← store (fun l => (fun s => upd_stream (fun _ => s) l) <$> lock_channels dbc_diff prev n (stream l));
          mret 0
        else
          go ← (if AVBTP_TV flags =? 1 then process_timestamp buf hdr dbc_value nch else mret true);
          if negb go then mret 0
          else
            _ ← maintain_fifos nch;
            s ← get_stream_info;
            let stride := num_channels_in_payload s in
            _ ← push_channels buf (hdr + AVB_TP_HDR_SIZE + AVB_CIP_HDR_SIZE) stride n
                  (if nch <? stride then nch else stride);
            mret 1.

(** [configure_stream] with the numbers it receives, and [disable_stream]. *)
Definition configure_stream (media_clock' rate' : Z) (new_map : list Z) : M listener unit :=
  _ ← on_stream (upd_rate (fun _ => rate'));
  _ ← on_stream (upd_num_channels (fun _ => Z.of_nat (length new_map)));
  _ ← forM (seq 0 (length new_map)) (fun i =>
    m ← load (fun _ => new_map !! i);
    _ ← store (fun l => if decide (i < length (chan_map (stream l)))%nat
                        then Some (upd_stream (upd_chan_map (<[i := m]>)) l) else None);
    whenM (0 <=? m) (on_fifo m (enable_audio_output_fifo media_clock')));
  _ ← on_stream (upd_si_active (fun _ => true));
  _ ← on_stream (upd_si_state (fun _ => 0));
  _ ← on_stream (upd_num_channels_in_payload (fun _ => 0));
  _ ← on_stream (upd_chan_lock (fun _ => 0));
  _ ← on_stream (upd_prev_num_samples (fun _ => 0));
  on_stream (upd_dbc (fun _ => -1)).

Definition disable_stream : M listener unit :=
  s ← get_stream_info;
  _ ← forM (seq 0 (Z.to_nat (num_channels s))) (fun i =>
    m ← map_at i;
    whenM (0 <=? m) (on_fifo m disable_audio_output_fifo));
  _ ← on_stream (upd_si_active (fun _ => false));
  on_stream (upd_si_state (fun _ => 0)).

(** [adjust_stream] with the command for the channel map; the volume command does
    nothing without the volume control. The sources receive the new entries into
    an array of [AVB_MAX_CHANNELS_PER_LISTENER_STREAM]. *)
Definition adjust_stream (new_map : list Z) : M listener unit :=
  s ← get_stream_info;
  forM (seq 0 (Z.to_nat (num_channels s))) (fun i =>
    m ← load (fun _ => if decide (i < AVB_MAX_CHANNELS_PER_LISTENER_STREAM)%nat then new_map !! i else None);
    old ← map_at i;
    whenM (negb (m =? old)) (on_stream (upd_chan_map (<[i := m]>)))).
End Listener.
