(* ===== verification/Listener1722Spec.v ===== *)
(** What the 1722 listener does with the packets of a stream: it locks to its
    channels, spreads the samples over their FIFOs, and runs without undefined
    behaviour as long as a packet's length field is true. *)
From S2P Require Import Prelude Bytes AudioFifo AudioFifoSpec AudioFifoSafe Listener1722.
From Stdlib Require Import ZArith Lia.
From stdpp Require Import base list list_numbers numbers.
#[local] Open Scope Z_scope.

Section Spec.
  Context `{cfg : FifoConfig}.

(** * The fields of a packet *)

(** What the listener reads from the headers of a packet. *)
Record packet_fields : Type := MkFields {
  f_hdr : Z;  (* the size of the Ethernet header *)
  f_version : Z;
  f_cd : Z;
  f_sv : Z;
  f_tv : Z;
  f_dbc : Z;
  f_quadlets : Z;  (* num_samples_in_payload *)
}.

Definition header_size (buf : list Z) : Z := if buf !!! 12%nat =? 0x81 then 18 else 14.

Definition fields_of (buf : list Z) : packet_fields :=
  let hdr := header_size buf in
  let at_ off := buf !!! Z.to_nat (hdr + off) in
  MkFields hdr (AVBTP_VERSION (at_ off_version_flags)) (AVBTP_CD (at_ off_subtype))
    (AVBTP_SV (at_ off_version_flags)) (AVBTP_TV (at_ off_version_flags)) (at_ off_DBC)
    (Z.shiftr (Z.lor (Z.shiftl (at_ off_packet_data_length) 8) (at_ (off_packet_data_length + 1)) - 8) 2).

(** A data packet with a stream identifier, of at least one byte of payload. *)
Definition acceptable (buf : list Z) (numBytes : Z) : bool :=
  let f := fields_of buf in
  negb (numBytes <=? f_hdr f + AVB_TP_HDR_SIZE + AVB_CIP_HDR_SIZE) && (f_version f =? 0) &&
  (f_cd f =? AVBTP_CD_DATA) && negb (f_sv f =? 0).

(** The distance between the counters of two packets. *)
Definition dbc_distance (dbc' dbc0 : Z) : Z :=
  let d := dbc' - dbc0 in if d <? 0 then d + 0x100 else d.

(** The bookkeeping every acceptable packet causes. *)
Definition note_packet (buf : list Z) (s : avb_1722_stream_info_t) : avb_1722_stream_info_t :=
  upd_prev_num_samples (fun _ => f_quadlets (fields_of buf)) (upd_dbc (fun _ => f_dbc (fields_of buf)) s).

(** The part of the handler for a stream that is locked. *)
Definition play_packet (buf : list Z) : M listener Z :=
  let f := fields_of buf in
  s ← get_stream_info;
  let nch := num_channels s in
  go ← (if f_tv f =? 1 then process_timestamp buf (f_hdr f) (f_dbc f) nch else mret true);
  if negb go then mret 0
  else
    _ ← maintain_fifos nch;
    s ← get_stream_info;
    let stride := num_channels_in_payload s in
    _ ← push_channels buf (f_hdr f + AVB_TP_HDR_SIZE + AVB_CIP_HDR_SIZE) stride (f_quadlets f)
          (if nch <? stride then nch else stride);
    mret 1.

Lemma rd_pkt_run buf off l :
  0 <= off < Z.of_nat (length buf) -> rd_pkt buf off l = Some (buf !!! Z.to_nat off, l).
Proof.
  intros H. unfold rd_pkt, load. rewrite (proj2 (Z.leb_le _ _)) by lia.
  destruct (lookup_lt_is_Some_2 buf (Z.to_nat off)) as [x Hx]; [lia|].
  by rewrite Hx, (list_lookup_total_correct _ _ _ Hx).
Qed.

Lemma header_size_cases buf : header_size buf = 14 \/ header_size buf = 18.
Proof. unfold header_size. destruct (_ =? _); auto. Qed.

(** The handler by cases on the packet and the lock. *)
Lemma process_packet_run buf numBytes l :
  13 <= Z.of_nat (length buf) -> numBytes <= Z.of_nat (length buf) ->
  avb_1722_listener_process_packet buf numBytes l =
    if negb (acceptable buf numBytes) then Some (0, l)
    else
      let s := stream l in
      let l' := upd_stream (note_packet buf) l in
      if chan_lock s <? 16 then
        match lock_channels (dbc_distance (f_dbc (fields_of buf)) (dbc s)) (prev_num_samples s)
                (f_quadlets (fields_of buf)) (note_packet buf s) with
        | Some s' => Some (0, upd_stream (fun _ => s') l')
        | None => None
        end
      else play_packet buf l'.
Proof.
  intros H13 Hn. pose proof (header_size_cases buf) as Hh.
  unfold avb_1722_listener_process_packet, acceptable.
  erewrite M_bind_run by (apply rd_pkt_run; lia).
  change (if _ =? 0x81 then 18 else 14) with (header_size buf).
  erewrite M_bind_run by reflexivity. cbv zeta. change (f_hdr (fields_of buf)) with (header_size buf).
  unfold AVB_TP_HDR_SIZE, AVB_CIP_HDR_SIZE.
  destruct (Z.leb_spec numBytes (header_size buf + 24 + 8)) as [|Hlen]; cbn [negb andb]; [done|].
  unfold off_version_flags, off_subtype.
  erewrite M_bind_run by (apply rd_pkt_run; lia).
  change (AVBTP_VERSION (buf !!! Z.to_nat (header_size buf + 1))) with (f_version (fields_of buf)).
  destruct (f_version (fields_of buf) =? 0); cbn [negb andb]; [|done].
  erewrite M_bind_run by (apply rd_pkt_run; lia).
  change (AVBTP_CD (buf !!! Z.to_nat (header_size buf + 0))) with (f_cd (fields_of buf)).
  destruct (f_cd (fields_of buf) =? AVBTP_CD_DATA); cbn [negb andb]; [|done].
  change (AVBTP_SV (buf !!! Z.to_nat (header_size buf + 1))) with (f_sv (fields_of buf)).
  destruct (f_sv (fields_of buf) =? 0); cbn [negb andb]; [done|].
  unfold off_DBC, AVB_TP_HDR_SIZE, off_packet_data_length.
  erewrite M_bind_run by (apply rd_pkt_run; lia). erewrite M_bind_run by reflexivity.
  erewrite M_bind_run by (apply rd_pkt_run; lia). erewrite M_bind_run by (apply rd_pkt_run; lia).
  erewrite M_bind_run by reflexivity. cbv zeta.
  destruct (chan_lock (stream l) <? 16); [|reflexivity].
  match goal with |- _ = match ?o with _ => _ end => destruct o as [s'|] eqn:E end;
    unfold store, mbind, M_bind;
    lazymatch type of E with ?x = _ =>
      lazymatch goal with |- context [lock_channels ?a ?b ?c ?d] => change (lock_channels a b c d) with x end
    end; by rewrite E.
Qed.

(** * Locking to the channels of a stream *)

(** The state of a stream after [configure_stream] but for the mapping. *)
Definition unlocked (s : avb_1722_stream_info_t) : Prop :=
  chan_lock s = 0 /\ num_channels_in_payload s = 0 /\ prev_num_samples s = 0 /\ dbc s = -1.

(** [k] packets on the way: [c] channels, [d] samples a packet. *)
Definition locking (c d d0 : Z) (k : nat) (s : avb_1722_stream_info_t) : Prop :=
  dbc s = (d0 + d * Z.of_nat k) mod 256 /\ prev_num_samples s = c * d /\
  match k with
  | O => chan_lock s = 0 /\ num_channels_in_payload s = 0
  | _ => chan_lock s = Z.of_nat k /\ num_channels_in_payload s = c /\
         rate s = if (k <? 16)%nat then Z.of_nat k * (c * d) else rate_of_samples d
  end.

Lemma dbc_distance_next a d :
  0 < d < 256 -> dbc_distance ((a + d) mod 256) (a mod 256) = d.
Proof.
  intros Hd. unfold dbc_distance. pose proof (Z.mod_pos_bound a 256 ltac:(lia)).
  rewrite <- (Zplus_mod_idemp_l a d). destruct (Z.lt_ge_cases (a mod 256 + d) 256).
  - rewrite (Z.mod_small (_ + d)) by lia. destruct (Z.ltb_spec (a mod 256 + d - a mod 256) 0); lia.
  - rewrite <- (Z_mod_plus_full (_ + d) (-1)), (Z.mod_small (_ + d + _)) by lia.
    destruct (Z.ltb_spec (a mod 256 + d + -1 * 256 - a mod 256) 0); lia.
Qed.

Lemma lock_step c d d0 k s buf :
  0 < c -> 0 < d < 256 -> c * d < 2 ^ 26 -> (k < 16)%nat -> locking c d d0 k s ->
  f_dbc (fields_of buf) = (d0 + d * Z.of_nat (S k)) mod 256 -> f_quadlets (fields_of buf) = c * d ->
  exists s', lock_channels (dbc_distance (f_dbc (fields_of buf)) (dbc s)) (prev_num_samples s)
      (f_quadlets (fields_of buf)) (note_packet buf s) = Some s' /\ locking c d d0 (S k) s' /\
    num_channels s' = num_channels s /\ chan_map s' = chan_map s.
Proof.
  intros Hc Hd Hcd Hk (E1 & E2 & E3) Hf Hq. rewrite Hf, Hq, E1, E2.
  replace (d0 + d * Z.of_nat (S k)) with (d0 + d * Z.of_nat k + d) by lia.
  rewrite dbc_distance_next by done. unfold lock_channels.
  rewrite (proj2 (Z.eqb_neq (c * d) 0)), (proj2 (Z.eqb_neq d 0)) by nia. cbn [orb].
  replace (Z.quot (c * d) d) with c by (symmetry; apply Z.quot_mul; lia).
  assert (forall r, 0 <= r <= Z.of_nat k * (c * d) -> s32 (r + c * d) = r + c * d) as Hs32.
  { intros r Hr. apply s32_small. nia. }
  set (s1 := if _ || _ then _ else _).
  assert (chan_lock s1 = Z.of_nat k /\ rate s1 = Z.of_nat k * (c * d) /\ num_channels_in_payload s1 = c /\
    dbc s1 = f_dbc (fields_of buf) /\ prev_num_samples s1 = f_quadlets (fields_of buf) /\
    num_channels s1 = num_channels s /\ chan_map s1 = chan_map s) as (H1 & H2 & H3 & H4 & H5 & H6 & H7).
  { subst s1. cbn [num_channels_in_payload note_packet upd_prev_num_samples upd_dbc].
    destruct k as [|k]; destruct E3 as [Ek Ep].
    - rewrite Ep. cbn. done.
    - destruct Ep as [Ep Er]. rewrite Ep, Z.eqb_refl, (proj2 (Z.eqb_neq c 0)) by lia. cbn [orb negb].
      rewrite (proj2 (Nat.ltb_lt _ _) Hk) in Er. cbn. by rewrite Ek, Er, Ep. }
  cbn [chan_lock upd_chan_lock upd_rate num_channels_in_payload]. rewrite H1, H3.
  rewrite (proj2 (Z.eqb_neq c 0)) by lia.
  assert (forall s2, dbc s2 = dbc s1 -> prev_num_samples s2 = prev_num_samples s1 ->
    chan_lock s2 = Z.of_nat (S k) -> num_channels_in_payload s2 = c ->
    rate s2 = (if (S k <? 16)%nat then Z.of_nat (S k) * (c * d) else rate_of_samples d) ->
    locking c d d0 (S k) s2) as Hlock.
  { intros s2 F1 F2 G1 G2 G3. unfold locking. rewrite F1, F2, H4, H5, Hf, Hq. done. }
  assert (s32 (rate s1 + c * d) = Z.of_nat (S k) * (c * d)) as Hr by (rewrite H2, Hs32 by nia; lia).
  destruct (Z.eqb_spec (Z.of_nat k + 1) 16) as [E|E].
  - eexists. split; [reflexivity|]. split; [|done]. apply Hlock; try done; cbn [chan_lock rate upd_rate upd_chan_lock num_channels_in_payload];
      rewrite ?H1; [lia|].
    rewrite (proj2 (Nat.ltb_ge _ _)) by lia. rewrite Hr. f_equal.
    replace (Z.of_nat (S k) * (c * d)) with (16 * d * c) by lia.
    rewrite Z.quot_mul by lia. rewrite Z.mul_comm. apply Z.quot_mul. lia.
  - eexists. split; [reflexivity|]. split; [|done]. apply Hlock; try done; cbn [chan_lock rate upd_rate upd_chan_lock num_channels_in_payload];
      rewrite ?H1; [lia|].
    rewrite (proj2 (Nat.ltb_lt _ _)) by lia. exact Hr.
Qed.

(** The packets of a stream of [c] channels with [d] samples each, from the
    counter [d0] on. *)
Fixpoint stream_packets (c d d0 : Z) (pkts : list (list Z * Z)) : Prop :=
  match pkts with
  | [] => True
  | (buf, len) :: pkts' =>
      13 <= Z.of_nat (length buf) /\ len <= Z.of_nat (length buf) /\ acceptable buf len = true /\
      f_dbc (fields_of buf) = d0 mod 256 /\ f_quadlets (fields_of buf) = c * d /\
      stream_packets c d (d0 + d) pkts'
  end.

Fixpoint listen (pkts : list (list Z * Z)) : M listener (list Z) :=
  match pkts with
  | [] => mret []
  | (buf, len) :: pkts' =>
      r ← avb_1722_listener_process_packet buf len; rs ← listen pkts'; mret (r :: rs)
  end.

Lemma listen_locking c d d0 : 0 < c -> 0 < d < 256 -> c * d < 2 ^ 26 -> forall pkts k l,
  (k + length pkts = 16)%nat -> locking c d d0 k (stream l) ->
  stream_packets c d (d0 + d * Z.of_nat (S k)) pkts ->
  exists s', listen pkts l = Some (replicate (length pkts) 0, upd_stream (fun _ => s') l) /\
    locking c d d0 16 s' /\ num_channels s' = num_channels (stream l) /\ chan_map s' = chan_map (stream l).
Proof.
  intros Hc Hd Hcd. induction pkts as [|[buf len] pkts IH]; intros k l Hk Hl Hp; cbn [listen].
  - exists (stream l). cbn in Hk. assert (k = 16)%nat as -> by lia.
    split; [|done]. destruct l. reflexivity.
  - destruct Hp as (H1 & H2 & Ha & Hf & Hq & Hp). cbn in Hk.
    destruct (lock_step c d d0 k (stream l) buf) as (s1 & E1 & Hl1 & Hn1 & Hm1); try done; [lia|].
    assert (chan_lock (stream l) = Z.of_nat k) as Hck by (destruct k; by destruct Hl as (_ & _ & ? & ?)).
    erewrite M_bind_run.
    2: { rewrite process_packet_run, Ha by done. cbn [negb]. cbv zeta.
         rewrite Hck, (proj2 (Z.ltb_lt _ _)) by lia. by rewrite E1. }
    destruct (IH (S k) (upd_stream (fun _ => s1) l)) as (s2 & E2 & Hl2 & Hn2 & Hm2); [lia|done| |].
    { by replace (d0 + d * Z.of_nat (S (S k))) with (d0 + d * Z.of_nat (S k) + d) by lia. }
    exists s2. split; [|split; [done|split; [by rewrite Hn2|by rewrite Hm2]]].
    change (upd_stream (fun _ => s1) (upd_stream (note_packet buf) l)) with (upd_stream (fun _ => s1) l).
    by erewrite M_bind_run by exact E2.
Qed.

Lemma listener_locks_run c d d0 pkts l :
  0 < c -> 0 < d < 256 -> c * d < 2 ^ 26 -> unlocked (stream l) ->
  length pkts = 17%nat -> stream_packets c d d0 pkts ->
  exists s', listen pkts l = Some (replicate 17 0, upd_stream (fun _ => s') l) /\
    chan_lock s' = 16 /\ num_channels_in_payload s' = c /\ rate s' = rate_of_samples d /\
    num_channels s' = num_channels (stream l) /\ chan_map s' = chan_map (stream l).
Proof.
  intros Hc Hd Hcd (U1 & U2 & U3 & U4) Hlen Hp. destruct pkts as [|[buf len] pkts]; [done|].
  destruct Hp as (H1 & H2 & Ha & Hf & Hq & Hp). cbn [listen].
  set (l1 := upd_stream (note_packet buf) l).
  assert (locking c d d0 0 (stream l1)) as Hl1.
  { unfold locking. rewrite Z.mul_0_r, Z.add_0_r. split_and!; [exact Hf|exact Hq|exact U1|exact U2]. }
  erewrite M_bind_run.
  2: { rewrite process_packet_run, Ha by done. cbn [negb]. cbv zeta.
       rewrite U1. cbn [Z.ltb Z.compare]. rewrite U3. unfold lock_channels. rewrite Z.eqb_refl.
       cbn [orb]. reflexivity. }
  change (upd_stream (fun _ => note_packet buf (stream l)) (upd_stream (note_packet buf) l)) with l1.
  destruct (listen_locking c d d0 Hc Hd Hcd pkts 0 l1) as (s' & E & (_ & _ & L1 & L2 & L3) & Hn & Hm);
    [cbn in Hlen; lia|done|by replace (d0 + d * Z.of_nat 1) with (d0 + d) by lia|].
  exists s'. split; [|done]. erewrite M_bind_run by exact E.
  cbn in Hlen. injection Hlen as ->. done.
Qed.

(** a stream locks to its channels with its 17th packet. When the packets of a
    stream of [c] channels arrive in order, [d] samples of each channel in every
    packet, the first 17 of them are consumed without a sound - the result is 0 -
    and then the listener knows the number of channels in a packet and the sample
    rate that belongs to [d]. *)
Theorem listener_locks c d d0 pkts l :
  0 < c -> 0 < d < 256 -> c * d < 2 ^ 26 -> unlocked (stream l) ->
  length pkts = 17%nat -> stream_packets c d d0 pkts ->
  exists s', listen pkts l = Some (replicate 17 0, upd_stream (fun _ => s') l) /\
    chan_lock s' = 16 /\ num_channels_in_payload s' = c /\ rate s' = rate_of_samples d /\
    num_channels s' = num_channels (stream l) /\ chan_map s' = chan_map (stream l).
Proof. apply listener_locks_run. Qed.

(** * The invariant *)

(** The FIFOs are in order, the mapping has its size and names FIFOs that exist,
    and a locked stream has a number of channels. *)
Record listener_inv (l : listener) : Prop := {
  li_fifos : Forall fifo_inv (fifos l);
  li_map : length (chan_map (stream l)) = AVB_MAX_CHANNELS_PER_LISTENER_STREAM;
  li_nch : 0 <= num_channels (stream l) <= Z.of_nat AVB_MAX_CHANNELS_PER_LISTENER_STREAM;
  li_range : Forall (fun m => m < Z.of_nat (length (fifos l))) (chan_map (stream l));
  li_lock : 16 <= chan_lock (stream l) -> num_channels_in_payload (stream l) <> 0;
}.

(** The number of channels is never divided by when it is zero. *)
Lemma lock_channels_total dbc_diff prev n s :
  chan_lock s < 16 ->
  exists s', lock_channels dbc_diff prev n s = Some s' /\ num_channels s' = num_channels s /\
    chan_map s' = chan_map s /\ (16 <= chan_lock s' -> num_channels_in_payload s' <> 0).
Proof.
  intros Hl. unfold lock_channels. destruct (_ || _); [exists s; split_and!; (done || lia)|].
  set (c := Z.quot prev dbc_diff).
  destruct (Z.eqb_spec (num_channels_in_payload s) 0) as [E0|E0];
    [|destruct (Z.eqb_spec (num_channels_in_payload s) c) as [Ec|Ec]];
    cbn [orb negb chan_lock num_channels_in_payload upd_chan_lock upd_rate upd_num_channels_in_payload];
    try (eexists; split; [reflexivity|]; split_and!; cbn; (done || lia)).
  destruct (Z.eqb_spec (chan_lock s + 1) 16) as [E|E].
  - rewrite (proj2 (Z.eqb_neq _ _) E0). eexists. split; [reflexivity|]. by split_and!.
  - eexists. split; [reflexivity|]. split_and!; [done..|]. cbn. lia.
Qed.

(** What a FIFO that plays keeps under the operations other than push and pull. *)
Definition calm (s s' : ofifo_t) : Prop :=
  state s <> ZEROING -> contents s' = contents s /\ state s' = state s.

#[global] Instance calm_preorder : PreOrder calm.
Proof.
  split; [done|]. intros s1 s2 s3 H1 H2 Hs. destruct (H1 Hs) as [E1 E2].
  destruct H2 as [E3 E4]; [congruence|]. split; congruence.
Qed.

Record settled (l l' : listener) : Prop := {
  se_stream : stream l' = stream l;
  se_inv : listener_inv l';
  se_calm : Forall2 calm (fifos l) (fifos l');
}.

Lemma settled_refl l : listener_inv l -> settled l l.
Proof. intros H. split; [done|done|]. by apply Forall_Forall2_diag, Forall_true. Qed.

(** An operation that keeps the invariant of a FIFO, and keeps it calm. *)
Definition calm_op {A} (m : M ofifo_t A) : Prop :=
  forall s, fifo_inv s -> exists a s', m s = Some (a, s') /\ fifo_inv s' /\ calm s s'.

Lemma on_fifo_settled {A} (op : M ofifo_t A) m l0 l :
  calm_op op -> settled l0 l -> 0 <= m < Z.of_nat (length (fifos l)) ->
  exists a l', on_fifo m op l = Some (a, l') /\ settled l0 l'.
Proof.
  intros Hop [Es [If Im In Ir Il] Ec] Hm.
  destruct (lookup_lt_is_Some_2 (fifos l) (Z.to_nat m)) as [s Hs]; [lia|].
  destruct (Hop s (Forall_lookup_1 _ _ _ _ If Hs)) as (a & s' & E & Hi & Hc).
  exists a, (upd_fifos (<[Z.to_nat m := s']>) l). split.
  - unfold on_fifo. by rewrite (proj2 (Z.leb_le _ _)), Hs, E by lia.
  - split; [exact Es|split; cbn; rewrite ?length_insert; try done; by apply Forall_insert|].
    cbn. rewrite <- (list_insert_id (fifos l0) (Z.to_nat m) (default s (fifos l0 !! Z.to_nat m))).
    + destruct (list.Forall2_lookup_r _ _ _ _ _ Ec Hs) as (s0 & Hs0 & Hcalm). rewrite Hs0. cbn.
      apply Forall2_insert; [done|]. by etrans.
    + destruct (list.Forall2_lookup_r _ _ _ _ _ Ec Hs) as (s0 & Hs0 & Hcalm). by rewrite Hs0.
Qed.

Lemma calm_set_timestamp ts n : calm_op (audio_output_fifo_set_ptp_timestamp ts n).
Proof.
  intros s Hs. destruct (timestamp_inv ts n s Hs) as (a & s' & E & Hi). exists a, s'.
  split; [done|]. split; [done|]. intros _. unfold audio_output_fifo_set_ptp_timestamp in E.
  apply M_bind_Some in E as (s1 & s2 & [= <- <-] & E). unfold id in E.
  destruct (marker s); by injection E as _ <-.
Qed.

Lemma calm_maintain index notified : calm_op (audio_output_fifo_maintain index notified).
Proof.
  intros s Hs. destruct (maintain_inv index notified s Hs) as (a & s' & E & Hi). exists a, s'.
  split; [done|]. split; [done|]. intros Hst. unfold audio_output_fifo_maintain in E.
  apply M_bind_Some in E as (s2 & s3 & [= <- <-] & E). unfold id in E. cbv zeta in E.
  apply M_bind_Some in E as ([] & s2 & E1 & E).
  assert (contents s2 = contents s /\ state s2 = state s) as [G1 G2]
    by (revert E1; destruct (_ && _); by intros [= <-]).
  destruct (state s); [|done|..]; [by injection E as _ <-|..];
    (destruct (_ && _ && _ && _); injection E as _ <-; done).
Qed.

(** The loops over the channels of the mapping. *)
Lemma settled_forM (f : nat -> M listener unit) nch l :
  listener_inv l -> nch <= Z.of_nat AVB_MAX_CHANNELS_PER_LISTENER_STREAM ->
  (forall i l', settled l l' -> (i < AVB_MAX_CHANNELS_PER_LISTENER_STREAM)%nat ->
     exists l'', f i l' = Some (tt, l'') /\ settled l l'') ->
  exists l', forM (seq 0 (Z.to_nat nch)) f l = Some (tt, l') /\ settled l l'.
Proof.
  intros Hl Hn Hf.
  assert (forall idx l1, settled l l1 -> Forall (fun i => i < AVB_MAX_CHANNELS_PER_LISTENER_STREAM)%nat idx ->
    exists l', forM idx f l1 = Some (tt, l') /\ settled l l') as Hloop.
  { induction idx as [|i idx IH]; intros l1 H1 His; cbn [forM]; [by exists l1|].
    apply list.Forall_cons in His as [Hi His]. destruct (Hf i l1 H1 Hi) as (l2 & E2 & H2).
    destruct (IH l2 H2 His) as (l3 & E3 & H3). exists l3. split; [|done].
    by erewrite M_bind_run by exact E2. }
  apply Hloop; [by apply settled_refl|]. apply list.Forall_forall. intros i Hi%elem_of_seq. lia.
Qed.

Lemma map_at_run i l m : chan_map (stream l) !! i = Some m -> map_at i l = Some (m, l).
Proof. intros H. unfold map_at, load. by rewrite H. Qed.

Lemma map_at_settled l l' i :
  listener_inv l -> settled l l' -> (i < AVB_MAX_CHANNELS_PER_LISTENER_STREAM)%nat ->
  exists m, map_at i l' = Some (m, l') /\ m < Z.of_nat (length (fifos l')).
Proof.
  intros Hl [Es Hi _] Hlt. destruct (lookup_lt_is_Some_2 (chan_map (stream l')) i) as [m Hm].
  { by rewrite (li_map _ Hi). }
  exists m. split; [by apply map_at_run|]. exact (Forall_lookup_1 _ _ _ _ (li_range _ Hi) Hm).
Qed.

Lemma process_timestamp_run buf hdr dbc_value nch l :
  listener_inv l -> nch <= Z.of_nat AVB_MAX_CHANNELS_PER_LISTENER_STREAM ->
  0 <= hdr -> hdr + 16 <= Z.of_nat (length buf) ->
  exists go l', process_timestamp buf hdr dbc_value nch l = Some (go, l') /\ settled l l' /\
    go = bool_decide (is_Some (syt_interval (rate (stream l)))).
Proof.
  intros Hl Hn H0 Hroom. unfold process_timestamp. erewrite M_bind_run by reflexivity.
  destruct (syt_interval (rate (stream l))) as [syt|].
  2: { eexists _, _. split; [reflexivity|]. split; [by apply settled_refl|done]. }
  match goal with |- context [forM _ ?f] => destruct (settled_forM f nch l Hl Hn) as (l' & E & H) end.
  { intros i l' Hs Hi. destruct (map_at_settled l l' i Hl Hs Hi) as (m & Em & Hm).
    erewrite M_bind_run by exact Em. destruct (Z.leb_spec 0 m); cbn [whenM]; [|by exists l'].
    unfold off_avb_timestamp.
    do 4 (erewrite M_bind_run by (apply rd_pkt_run; lia)).
    match goal with |- context [on_fifo m ?op] =>
      destruct (on_fifo_settled op m l l' (calm_set_timestamp _ _) Hs) as ([] & l'' & E & H''); [lia|] end.
    exists l''. by split. }
  exists true, l'. erewrite M_bind_run by exact E. by split_and!.
Qed.

Lemma settled_notify l l' b msgs :
  settled l l' ->
  settled l (upd_buf_ctl_out (fun out => out ++ msgs) (upd_notified_buf_ctl (fun _ => b) l')).
Proof. intros [Es [? ? ? ? ?] Ec]. split; [done| |done]. by split. Qed.

Lemma maintain_fifos_run nch l :
  listener_inv l -> nch <= Z.of_nat AVB_MAX_CHANNELS_PER_LISTENER_STREAM ->
  exists l', maintain_fifos nch l = Some (tt, l') /\ settled l l'.
Proof.
  intros Hl Hn. apply settled_forM; [done|done|]. intros i l' Hs Hi.
  destruct (map_at_settled l l' i Hl Hs Hi) as (m & Em & Hm).
  erewrite M_bind_run by exact Em. destruct (Z.leb_spec 0 m); cbn [whenM]; [|by exists l'].
  erewrite M_bind_run by reflexivity. unfold id.
  destruct (on_fifo_settled _ m l l' (calm_maintain (Z.to_nat m) (notified_buf_ctl l')) Hs)
    as ([b msgs] & l'' & E & H''); [lia|].
  erewrite M_bind_run by exact E. eexists. split; [reflexivity|]. by apply settled_notify.
Qed.

(** * The samples *)

Lemma word_le_run buf off :
  0 <= off -> off + 4 <= Z.of_nat (length buf) -> is_Some (word_le buf off).
Proof.
  intros H0 H4. unfold word_le. rewrite (proj2 (Z.leb_le _ _)) by done.
  assert (length (take 4 (drop (Z.to_nat off) buf)) = 4%nat) as Hl by (rewrite length_take, length_drop; lia).
  remember (take 4 _) as q eqn:Eq. clear Eq. destruct_len q Hl. by eexists.
Qed.

Lemma strided_words_run buf ptr stride n :
  0 < stride -> 0 <= ptr -> ptr + 4 * n <= Z.of_nat (length buf) ->
  is_Some (strided_words buf ptr stride n).
Proof.
  intros Hs H0 Hn. unfold strided_words. apply mapM_is_Some_2, list.Forall_forall.
  intros k [Hk1 Hk2]%elem_of_seqZ. apply word_le_run; [nia|].
  assert (stride * k < n); [|lia].
  revert Hk2. Z.to_euclidean_division_equations. nia.
Qed.

(** [s'] is [s] after [ws] have arrived. *)
Definition received (ws : list Z) (s s' : ofifo_t) : Prop :=
  contents s' =
    take capacity (contents s ++ (convert_sample (if decide (state s = ZEROING) then 0 else 1) <$> ws)).

(** The FIFO of a channel gets that channel's words; a FIFO of no channel is left
    alone. *)
Lemma push_channels_run buf ptr stride n k : forall a l,
  listener_inv l -> 0 < stride -> 0 <= ptr ->
  (a + k <= AVB_MAX_CHANNELS_PER_LISTENER_STREAM)%nat ->
  ptr + 4 * (Z.of_nat (a + k) + n) <= Z.of_nat (length buf) ->
  exists l', forM (seq a k) (fun i =>
      m ← map_at i;
      whenM (0 <=? m)
        (on_fifo m (audio_output_fifo_strided_push buf (ptr + 4 * Z.of_nat i) stride n))) l = Some (tt, l') /\
    listener_inv l' /\ stream l' = stream l /\
    forall j s, fifos l !! j = Some s -> exists s', fifos l' !! j = Some s' /\
      (forall i, (a <= i < a + k)%nat -> chan_map (stream l) !! i = Some (Z.of_nat j) ->
         (forall i', (a <= i' < a + k)%nat -> chan_map (stream l) !! i' = Some (Z.of_nat j) -> i' = i) ->
         exists ws, strided_words buf (ptr + 4 * Z.of_nat i) stride n = Some ws /\ received ws s s') /\
      ((forall i, (a <= i < a + k)%nat -> chan_map (stream l) !! i <> Some (Z.of_nat j)) -> s' = s).
Proof.
  induction k as [|k IH]; intros a l Hl Hst Hptr Hak Hroom; cbn [seq forM].
  { exists l. split; [done|]. split; [done|]. split; [done|]. intros j s Hs. exists s.
    split; [done|]. split; [intros i Hi; lia|done]. }
  pose proof Hl as [If Im In Ir Il].
  destruct (lookup_lt_is_Some_2 (chan_map (stream l)) a) as [m Hm]; [rewrite Im; lia|].
  pose proof (Forall_lookup_1 _ _ _ _ Ir Hm) as Hmr. cbn in Hmr.
  destruct (Z.leb_spec 0 m) as [Hm0|Hm0].
  - destruct (lookup_lt_is_Some_2 (fifos l) (Z.to_nat m)) as [s0 Hs0]; [lia|].
    destruct (strided_words_run buf (ptr + 4 * Z.of_nat a) stride n) as [ws Hws]; [done|lia|lia|].
    pose proof (Forall_lookup_1 _ _ _ _ If Hs0) as Hinv0.
    destruct (push_inv buf (ptr + 4 * Z.of_nat a) stride n s0 Hst (mk_is_Some _ _ Hws) Hinv0)
      as ([] & s1 & E1 & Hinv1).
    destruct (strided_push_run _ _ _ _ _ s0 (proj1 Hinv0) Hst Hws) as (w' & l' & E1' & _ & Hc & _).
    rewrite E1 in E1'. injection E1' as E1'. rewrite <- E1' in Hc. clear E1' w' l'.
    set (l1 := upd_fifos (<[Z.to_nat m := s1]>) l).
    assert (listener_inv l1) as Hl1.
    { split; cbn; rewrite ?length_insert; try done. by apply Forall_insert. }
    destruct (IH (S a) l1 Hl1 Hst Hptr) as (l2 & E2 & Hl2 & Es2 & Hrest); [lia..|].
    exists l2. split.
    { erewrite M_bind_run; [exact E2|]. erewrite M_bind_run by (by apply map_at_run).
      rewrite (proj2 (Z.leb_le _ _)) by lia. cbn [whenM]. unfold on_fifo.
      rewrite (proj2 (Z.leb_le _ _)), Hs0, E1 by lia. done. }
    split; [done|]. split; [done|]. intros j s Hs.
    destruct (decide (j = Z.to_nat m)) as [->|Hj].
    + rewrite Hs0 in Hs. injection Hs as <-.
      destruct (Hrest (Z.to_nat m) s1) as (s2 & Hs2 & _ & Hsame).
      { cbn. apply list_lookup_insert_eq. lia. }
      exists s2. split; [done|]. split.
      * intros i Hi Him Honly. assert (a = i) as <- by (apply Honly; [lia|]; by rewrite Z2Nat.id by lia).
        exists ws. split; [done|]. rewrite Hsame; [exact Hc|].
        intros i' Hi' E'. assert (i' = a) by (apply Honly; [lia|exact E']). lia.
      * intros Hnone. exfalso. apply (Hnone a); [lia|]. by rewrite Z2Nat.id by lia.
    + destruct (Hrest j s) as (s2 & Hs2 & Hone & Hsame).
      { cbn. by rewrite list_lookup_insert_ne. }
      exists s2. split; [done|]. split.
      * intros i Hi Him Honly. assert (i <> a) by (intros ->; rewrite Hm in Him; injection Him as ->; lia).
        apply Hone; [lia|exact Him|]. intros i' Hi'. apply Honly. lia.
      * intros Hnone. apply Hsame. intros i Hi. apply Hnone. lia.
  - destruct (IH (S a) l Hl Hst Hptr) as (l2 & E2 & Hl2 & Es2 & Hrest); [lia..|].
    exists l2. split.
    { erewrite M_bind_run; [exact E2|]. erewrite M_bind_run by (by apply map_at_run).
      by rewrite (proj2 (Z.leb_gt _ _)) by lia. }
    split; [done|]. split; [done|]. intros j s Hs.
    destruct (Hrest j s Hs) as (s2 & Hs2 & Hone & Hsame).
    exists s2. split; [done|]. split.
    + intros i Hi Him Honly. assert (i <> a) by (intros ->; rewrite Hm in Him; injection Him as ->; lia).
      apply Hone; [lia|exact Him|]. intros i' Hi'. apply Honly. lia.
    + intros Hnone. apply Hsame. intros i Hi. apply Hnone. lia.
Qed.

(** The payload that the length field announces is there. *)
Definition payload_fits (buf : list Z) : Prop :=
  let f := fields_of buf in
  f_hdr f + AVB_TP_HDR_SIZE + AVB_CIP_HDR_SIZE +
    4 * (Z.of_nat AVB_MAX_CHANNELS_PER_LISTENER_STREAM + f_quadlets f) <= Z.of_nat (length buf).

Definition channels_played (s : avb_1722_stream_info_t) : Z :=
  Z.min (num_channels s) (num_channels_in_payload s).

Lemma play_packet_run buf l :
  listener_inv l -> f_hdr (fields_of buf) + 32 <= Z.of_nat (length buf) -> payload_fits buf ->
  exists r l', play_packet buf l = Some (r, l') /\ listener_inv l' /\ stream l' = stream l /\
    (r = 0 \/ r = 1 /\ forall j i s, fifos l !! j = Some s -> state s <> ZEROING ->
      (i < Z.to_nat (channels_played (stream l)))%nat -> chan_map (stream l) !! i = Some (Z.of_nat j) ->
      (forall i', chan_map (stream l) !! i' = Some (Z.of_nat j) -> i' = i) ->
      exists ws s', strided_words buf (f_hdr (fields_of buf) + 32 + 4 * Z.of_nat i)
          (num_channels_in_payload (stream l)) (f_quadlets (fields_of buf)) = Some ws /\
        fifos l' !! j = Some s' /\ contents s' = take capacity (contents s ++ (convert_sample 1 <$> ws))) /\
    (f_tv (fields_of buf) <> 1 \/ is_Some (syt_interval (rate (stream l))) -> r = 1).
Proof.
  intros Hl H32 Hfit. pose proof (header_size_cases buf) as Hh. pose proof Hl as [_ Im In _ _].
  unfold play_packet. erewrite M_bind_run by reflexivity. cbv zeta.
  set (f := fields_of buf) in *. change (header_size buf) with (f_hdr f) in Hh.
  assert (exists go l1, (if f_tv f =? 1 then process_timestamp buf (f_hdr f) (f_dbc f)
      (num_channels (stream l)) else mret true) l = Some (go, l1) /\ settled l l1 /\
      (f_tv f <> 1 \/ is_Some (syt_interval (rate (stream l))) -> go = true)) as (go & l1 & E1 & H1 & Hgo).
  { destruct (Z.eqb_spec (f_tv f) 1) as [Etv|Etv].
    - destruct (process_timestamp_run buf (f_hdr f) (f_dbc f) (num_channels (stream l)) l)
        as (go & l1 & E1 & H1 & Hgo); [done|lia|lia|lia|].
      exists go, l1. split; [done|]. split; [done|]. intros [?|Hsome]; [done|].
      rewrite Hgo. by apply bool_decide_true.
    - exists true, l. split; [done|]. split; [by apply settled_refl|done]. }
  erewrite M_bind_run by exact E1. destruct go; cbn [negb].
  2: { exists 0, l1. destruct H1 as [Es1 Hi1 _]. split_and!; try done; [by left|].
       intros H. by specialize (Hgo H). }
  destruct H1 as [Es1 Hi1 Ec1].
  destruct (maintain_fifos_run (num_channels (stream l)) l1 Hi1) as (l2 & E2 & [Es2 Hi2 Ec2]); [lia|].
  erewrite M_bind_run by exact E2. erewrite M_bind_run by reflexivity.
  assert (stream l2 = stream l) as Es by congruence. rewrite Es.
  set (stride := num_channels_in_payload (stream l)) in *.
  set (nch := num_channels (stream l)) in *.
  replace (if nch <? stride then nch else stride) with (channels_played (stream l))
    by (unfold channels_played; fold nch stride; destruct (Z.ltb_spec nch stride); lia).
  unfold AVB_TP_HDR_SIZE, AVB_CIP_HDR_SIZE. replace (f_hdr f + 24 + 8) with (f_hdr f + 32) by lia.
  destruct (Z.le_gt_cases (channels_played (stream l)) 0) as [Hle|Hgt].
  - exists 1, l2. split.
    { unfold push_channels. replace (Z.to_nat (channels_played (stream l))) with 0%nat by lia. reflexivity. }
    split_and!; try done. right. split; [done|]. intros j i s _ _ Hi. lia.
  - assert (0 < stride) as Hst by (unfold channels_played in Hgt; lia).
    unfold payload_fits in Hfit. fold f in Hfit. unfold AVB_TP_HDR_SIZE, AVB_CIP_HDR_SIZE in Hfit.
    destruct (push_channels_run buf (f_hdr f + 32) stride (f_quadlets f)
      (Z.to_nat (channels_played (stream l))) 0 l2 Hi2 Hst) as (l3 & E3 & Hi3 & Es3 & Hch);
      [lia|unfold channels_played; lia|unfold channels_played; lia|].
    exists 1, l3. split; [by erewrite M_bind_run by exact E3|]. split; [done|]. split; [congruence|].
    split; [|done]. right. split; [done|]. intros j i s Hs Hz Hi Hm Honly.
    destruct (list.Forall2_lookup_l _ _ _ _ _ Ec1 Hs) as (s1 & Hs1 & Hc1).
    destruct (Hc1 Hz) as [Ec1' Ez1].
    destruct (list.Forall2_lookup_l _ _ _ _ _ Ec2 Hs1) as (s2 & Hs2 & Hc2).
    destruct Hc2 as [Ec2' Ez2]; [congruence|].
    destruct (Hch j s2 Hs2) as (s3 & Hs3 & Hone & _). rewrite Es in Hone.
    destruct (Hone i) as (ws & Hws & Hrec); [lia|done|by intros; apply Honly|].
    exists ws, s3. split; [done|]. split; [done|]. unfold received in Hrec.
    rewrite Ez2, Ez1, decide_False in Hrec by done. by rewrite Hrec, Ec2', Ec1'.
Qed.

Lemma note_packet_inv buf l : listener_inv l -> listener_inv (upd_stream (note_packet buf) l).
Proof. intros [? ? ? ? ?]. by split. Qed.

(** The handler of 1722 packets runs to the end on every packet, malformed
    ones included, and keeps its FIFOs and its mapping in order, provided the words
    that the packet's length field announces lie in the buffer (with room for the
    channels of one more sample). No state of the lock divides by zero, no channel
    of the mapping is pushed with a stride that is not positive. *)
Theorem listener_packet_safe buf numBytes l :
  listener_inv l -> 13 <= Z.of_nat (length buf) -> numBytes <= Z.of_nat (length buf) ->
  payload_fits buf ->
  exists r l', avb_1722_listener_process_packet buf numBytes l = Some (r, l') /\ listener_inv l'.
Proof.
  intros Hl H13 Hn Hfit. rewrite process_packet_run by done.
  destruct (acceptable buf numBytes) eqn:Ha; cbn [negb]; [|by exists 0, l]. cbv zeta.
  assert (f_hdr (fields_of buf) + 32 <= Z.of_nat (length buf)) as H32.
  { unfold acceptable, AVB_TP_HDR_SIZE, AVB_CIP_HDR_SIZE in Ha.
    rewrite !andb_true_iff, negb_true_iff, Z.leb_gt in Ha. lia. }
  destruct (Z.ltb_spec (chan_lock (stream l)) 16) as [Hlk|Hlk].
  - destruct (lock_channels_total
      (dbc_distance (f_dbc (fields_of buf)) (dbc (stream l))) (prev_num_samples (stream l))
      (f_quadlets (fields_of buf)) (note_packet buf (stream l)) Hlk) as (s' & E & H1 & H2 & H3).
    rewrite E. eexists _, _. split; [reflexivity|]. destruct Hl as [? ? ? ? _].
    split; cbn; [done|by rewrite H2|by rewrite H1|by rewrite H2|done].
  - destruct (play_packet_run buf (upd_stream (note_packet buf) l)) as (r & l' & E & Hi & _);
      [by apply note_packet_inv|done|done|].
    by exists r, l'.
Qed.

Lemma deinterleave_run buf numBytes l i j s :
  listener_inv l -> 13 <= Z.of_nat (length buf) -> numBytes <= Z.of_nat (length buf) ->
  payload_fits buf -> acceptable buf numBytes = true -> 16 <= chan_lock (stream l) ->
  f_tv (fields_of buf) <> 1 \/ is_Some (syt_interval (rate (stream l))) ->
  Z.of_nat i < channels_played (stream l) -> chan_map (stream l) !! i = Some (Z.of_nat j) ->
  (forall i', chan_map (stream l) !! i' = Some (Z.of_nat j) -> i' = i) ->
  fifos l !! j = Some s -> state s <> ZEROING ->
  exists l' s' ws, avb_1722_listener_process_packet buf numBytes l = Some (1, l') /\
    strided_words buf (f_hdr (fields_of buf) + 32 + 4 * Z.of_nat i)
      (num_channels_in_payload (stream l)) (f_quadlets (fields_of buf)) = Some ws /\
    fifos l' !! j = Some s' /\ contents s' = take capacity (contents s ++ (convert_sample 1 <$> ws)).
Proof.
  intros Hl H13 Hn Hfit Ha Hlk Htv Hi Hm Honly Hs Hz. rewrite process_packet_run, Ha by done. cbn [negb].
  cbv zeta. rewrite (proj2 (Z.ltb_ge _ _)) by lia.
  assert (f_hdr (fields_of buf) + 32 <= Z.of_nat (length buf)) as H32.
  { unfold acceptable, AVB_TP_HDR_SIZE, AVB_CIP_HDR_SIZE in Ha.
    rewrite !andb_true_iff, negb_true_iff, Z.leb_gt in Ha. lia. }
  destruct (play_packet_run buf (upd_stream (note_packet buf) l)) as (r & l' & E & _ & _ & Hr & Hr1);
    [by apply note_packet_inv|done|done|].
  specialize (Hr1 Htv). subst r. destruct Hr as [Hr|[_ Hr]]; [done|].
  destruct (Hr j i s Hs Hz) as (ws & s' & Hws & Hs' & Hc); [|exact Hm|exact Honly|].
  { change (channels_played (stream (upd_stream (note_packet buf) l))) with (channels_played (stream l)). lia. }
  exists l', s', ws. by split_and!.
Qed.

(** A locked stream is taken apart into its channels. When an acceptable
    packet arrives whose timestamp, if it has one, belongs to a known rate, the
    result is 1, and the FIFO of each mapped channel - if it is that of no other,
    and is not being cleared - gets exactly the words of that channel, every
    [num_channels_in_payload]th of the payload, behind the samples it holds. *)
Theorem listener_deinterleaves buf numBytes l i j s :
  listener_inv l -> 13 <= Z.of_nat (length buf) -> numBytes <= Z.of_nat (length buf) ->
  payload_fits buf -> acceptable buf numBytes = true -> 16 <= chan_lock (stream l) ->
  f_tv (fields_of buf) <> 1 \/ is_Some (syt_interval (rate (stream l))) ->
  Z.of_nat i < channels_played (stream l) -> chan_map (stream l) !! i = Some (Z.of_nat j) ->
  (forall i', chan_map (stream l) !! i' = Some (Z.of_nat j) -> i' = i) ->
  fifos l !! j = Some s -> state s <> ZEROING ->
  exists l' s' ws, avb_1722_listener_process_packet buf numBytes l = Some (1, l') /\
    strided_words buf (f_hdr (fields_of buf) + 32 + 4 * Z.of_nat i)
      (num_channels_in_payload (stream l)) (f_quadlets (fields_of buf)) = Some ws /\
    fifos l' !! j = Some s' /\ contents s' = take capacity (contents s ++ (convert_sample 1 <$> ws)).
Proof. apply deinterleave_run. Qed.

(** * Configuration *)

(** The mapping of the first [k] channels is the new one, and their FIFOs are
    being cleared for the new stream. *)
Lemma configure_channels_run mc new_map k : forall a l,
  (a + k = length new_map)%nat -> (length new_map <= length (chan_map (stream l)))%nat ->
  Forall (fun m => m < Z.of_nat (length (fifos l))) new_map -> Forall fifo_inv (fifos l) ->
  exists l', forM (seq a k) (fun i =>
      m ← load (fun _ => new_map !! i);
      _ ← store (fun l => if decide (i < length (chan_map (stream l)))%nat
                          then Some (upd_stream (upd_chan_map (<[i := m]>)) l) else None);
      whenM (0 <=? m) (on_fifo m (enable_audio_output_fifo mc))) l = Some (tt, l') /\
    Forall fifo_inv (fifos l') /\ length (fifos l') = length (fifos l) /\
    stream l' = upd_chan_map (fun old => take a old ++ drop a new_map ++ drop (length new_map) old) (stream l) /\
    forall j s, fifos l !! j = Some s -> exists s', fifos l' !! j = Some s' /\
      (Z.of_nat j ∈ drop a new_map -> state s' = ZEROING /\ contents s' = []) /\
      (Z.of_nat j ∉ drop a new_map -> s' = s).
Proof.
  induction k as [|k IH]; intros a l Hak Hlen Hr Hf; cbn [seq forM].
  { exists l. split; [done|]. split; [done|]. split; [done|]. rewrite (drop_ge new_map) by lia. split.
    - replace (length new_map) with a by lia. cbn. destruct l as [[] ? ? ?]. cbn in *. unfold upd_chan_map.
      cbn. by rewrite take_drop.
    - intros j s Hs. exists s. split; [done|]. split; [by intros []%not_elem_of_nil|done]. }
  destruct (lookup_lt_is_Some_2 new_map a) as [m Hm]; [lia|].
  pose proof (Forall_lookup_1 _ _ _ _ Hr Hm) as Hmr. cbn in Hmr.
  set (l1 := upd_stream (upd_chan_map (<[a := m]>)) l).
  assert (exists l2, whenM (0 <=? m) (on_fifo m (enable_audio_output_fifo mc)) l1 = Some (tt, l2) /\
    Forall fifo_inv (fifos l2) /\ length (fifos l2) = length (fifos l) /\ stream l2 = stream l1 /\
    forall j s, fifos l !! j = Some s -> exists s', fifos l2 !! j = Some s' /\
      (Z.of_nat j = m -> state s' = ZEROING /\ contents s' = []) /\ (Z.of_nat j <> m -> s' = s))
    as (l2 & E2 & Hf2 & Hl2 & Es2 & Hj2).
  { destruct (Z.leb_spec 0 m) as [Hm0|Hm0]; cbn [whenM].
    - destruct (lookup_lt_is_Some_2 (fifos l) (Z.to_nat m)) as [s0 Hs0]; [lia|].
      pose proof (Forall_lookup_1 _ _ _ _ Hf Hs0) as [Hok _].
      destruct (enable_run mc s0 Hok) as (s1 & E1 & Hi1 & Hz1 & Hc1).
      exists (upd_fifos (<[Z.to_nat m := s1]>) l1). split; [|split; [|split; [|split]]].
      + unfold on_fifo. rewrite (proj2 (Z.leb_le _ _)) by lia. change (fifos l1) with (fifos l).
        by rewrite Hs0, E1.
      + by apply Forall_insert.
      + apply length_insert.
      + done.
      + intros j s Hs. destruct (decide (j = Z.to_nat m)) as [->|Hne].
        * exists s1. split; [apply list_lookup_insert_eq; change (fifos l1) with (fifos l); lia|].
          split; [done|lia].
        * exists s. split; [cbn; by rewrite list_lookup_insert_ne|]. split; [lia|done].
    - exists l1. split_and!; try done. intros j s Hs. exists s. split; [done|]. split; [lia|done]. }
  destruct (IH (S a) l2) as (l3 & E3 & Hf3 & Hl3 & Es3 & Hj3); [lia| | |done|].
  { rewrite Es2. cbn. by rewrite length_insert. }
  { by rewrite Hl2. }
  exists l3. split; [|split; [|split; [|split]]].
  - erewrite M_bind_run; [exact E3|]. erewrite M_bind_run by (unfold load; by rewrite Hm).
    erewrite M_bind_run; [exact E2|]. unfold store. by rewrite decide_True by lia.
  - done.
  - congruence.
  - rewrite Es3, Es2. cbn. unfold upd_chan_map. cbn. f_equal.
    rewrite (drop_S new_map m a Hm). rewrite (take_S_r _ _ m) by (apply list_lookup_insert_eq; lia).
    rewrite take_insert_ge by lia. rewrite drop_insert_lt by lia. by rewrite <- app_assoc.
  - intros j s Hs. destruct (Hj2 j s Hs) as (s2 & Hs2 & Hin2 & Hout2).
    destruct (Hj3 j s2 Hs2) as (s3 & Hs3 & Hin3 & Hout3). exists s3. split; [done|].
    rewrite (drop_S new_map m a Hm).
    destruct (decide (Z.of_nat j ∈ drop (S a) new_map)) as [Hin|Hout]; (split; [|rewrite not_elem_of_cons]).
    + intros _. by apply Hin3.
    + by intros [].
    + intros [E|?]%elem_of_cons; [|done]. rewrite Hout3 by done. by apply Hin2.
    + intros [Hne _]. rewrite Hout3 by done. by apply Hout2.
Qed.

(** The configuration of a stream leaves the listener ready for its packets:
    the mapping is the given one, every FIFO named in it is empty and about to be
    cleared, all others are untouched, and the lock starts over. *)
Theorem configure_stream_ready mc rate' new_map l :
  Forall fifo_inv (fifos l) -> length (chan_map (stream l)) = AVB_MAX_CHANNELS_PER_LISTENER_STREAM ->
  Forall (fun m => m < Z.of_nat (length (fifos l))) (chan_map (stream l)) ->
  (length new_map <= AVB_MAX_CHANNELS_PER_LISTENER_STREAM)%nat ->
  Forall (fun m => m < Z.of_nat (length (fifos l))) new_map ->
  exists l', configure_stream mc rate' new_map l = Some (tt, l') /\ listener_inv l' /\
    unlocked (stream l') /\ si_active (stream l') = true /\
    num_channels (stream l') = Z.of_nat (length new_map) /\
    take (length new_map) (chan_map (stream l')) = new_map /\
    forall j s, fifos l !! j = Some s -> exists s', fifos l' !! j = Some s' /\
      (Z.of_nat j ∈ new_map -> state s' = ZEROING /\ contents s' = []) /\ (Z.of_nat j ∉ new_map -> s' = s).
Proof.
  intros Hf H8 Hold Hlen Hnew. set (n := length new_map) in *.
  set (l1 := upd_stream (upd_num_channels (fun _ => Z.of_nat n)) (upd_stream (upd_rate (fun _ => rate')) l)).
  destruct (configure_channels_run mc new_map n 0 l1) as (l2 & E2 & Hf2 & Hl2 & Es2 & Hj2);
    [done|cbn; lia|done|done|].
  change (fifos l1) with (fifos l) in *. rewrite drop_0 in Hj2.
  change (stream l2 = upd_chan_map (fun old => new_map ++ drop n old) (stream l1)) in Es2.
  exists (upd_stream (fun s => upd_dbc (fun _ => -1) (upd_prev_num_samples (fun _ => 0)
    (upd_chan_lock (fun _ => 0) (upd_num_channels_in_payload (fun _ => 0)
      (upd_si_state (fun _ => 0) (upd_si_active (fun _ => true) s)))))) l2).
  split.
  { unfold configure_stream. do 2 (erewrite M_bind_run by reflexivity). fold n l1.
    erewrite M_bind_run by exact E2. reflexivity. }
  split; [|split; [done|]].
  - split; cbn; rewrite ?Es2; cbn; [done| | |  |lia].
    + rewrite length_app, length_drop, H8. fold n. lia.
    + lia.
    + rewrite Hl2. apply Forall_app. split; [done|]. by apply Forall_drop.
  - cbn. rewrite Es2. cbn. split_and!; try done. by rewrite (take_app_length' new_map _ n).
Qed.
End Spec.

(** * A sample run *)

#[local] Existing Instance default_fifo_config.

(** A packet of two channels with six samples each, its counter at [6 * k]; the
    buffer has the 126 bytes that [payload_fits] asks for. *)
Definition sample_packet (k : nat) : list Z :=
  replicate 12 0 ++ [0x22; 0xf0] ++
  [0; 0x80; Z.of_nat k; 0] ++ replicate 16 9 ++ [0; 56; 0; 0] ++
  [0; 2; 0; (6 * Z.of_nat k) mod 256; 0; 0; 0; 0] ++ (Z.of_nat <$> seq 1 80).

Definition sample_packets : list (list Z * Z) := (fun k => (sample_packet k, 94)) <$> seq 0 17.

Definition opened_fifo : ofifo_t :=
  match audio_output_fifo_init blank_fifo with Some (_, s) => s | None => blank_fifo end.

Definition sample_listener : listener :=
  MkListener (MkStreamInfo false 0 0 0 0 0 0 0 (replicate 8 (-1))) [opened_fifo; opened_fifo] false [].

Definition run_listener (m : M listener unit) (l : listener) : listener :=
  match m l with Some (_, l') => l' | None => l end.

Definition configured_listener : listener := run_listener (configure_stream 0 48000 [0; 1]) sample_listener.

(** The second FIFO has been played from until it locks. *)
Definition locking_fifo : ofifo_t :=
  match audio_output_fifo_maintain 1 false after_ops with Some (_, s) => s | None => after_ops end.

Definition locked_listener : listener :=
  upd_fifos (<[1%nat := locking_fifo]>)
    (run_listener (_ ← listen sample_packets; skip) configured_listener).

Lemma opened_fifo_inv : fifo_inv opened_fifo.
Proof. by apply (init_inv blank_fifo). Qed.

Lemma locking_fifo_inv : fifo_inv locking_fifo.
Proof.
  destruct (maintain_inv 1 false after_ops (reachable_fifo_inv _ after_ops_reachable)) as (a & s & E & H).
  unfold locking_fifo. by rewrite E.
Qed.

Lemma sample_packets_stream : stream_packets 2 6 0 sample_packets.
Proof. vm_compute. repeat split; discriminate. Qed.

Lemma configure_stream_ready_witness :
  let l' := configured_listener in
  configure_stream 0 48000 [0; 1] sample_listener = Some (tt, l') /\ listener_inv l' /\ unlocked (stream l').
Proof.
  destruct (configure_stream_ready 0 48000 [0; 1] sample_listener) as (l' & E & Hi & Hu & _).
  - constructor; [exact opened_fifo_inv|constructor; [exact opened_fifo_inv|constructor]].
  - reflexivity.
  - apply Forall_replicate. cbn. lia.
  - cbn. unfold AVB_MAX_CHANNELS_PER_LISTENER_STREAM. lia.
  - repeat constructor.
  - assert (configured_listener = l') as -> by (unfold configured_listener, run_listener; by rewrite E).
    split; [exact E|]. split; [exact Hi|exact Hu].
Defined.

(** The packets lock the configured stream to two channels at 48 kHz. *)
Lemma listener_locks_witness :
  exists s', listen sample_packets configured_listener =
      Some (replicate 17 0, upd_stream (fun _ => s') configured_listener) /\
    chan_lock s' = 16 /\ num_channels_in_payload s' = 2 /\ rate s' = 48000.
Proof.
  destruct (listener_locks 2 6 0 sample_packets configured_listener) as (s' & E & H1 & H2 & H3 & _).
  - lia.
  - lia.
  - lia.
  - repeat split; vm_compute; reflexivity.
  - reflexivity.
  - exact sample_packets_stream.
  - exists s'. split; [exact E|]. split; [exact H1|]. split; [exact H2|exact H3].
Defined.

Definition enabled_fifo : ofifo_t :=
  match enable_audio_output_fifo 0 opened_fifo with Some (_, s) => s | None => opened_fifo end.

Lemma locked_listener_inv : listener_inv locked_listener.
Proof.
  assert (fifos locked_listener = [enabled_fifo; locking_fifo]) as E by (vm_compute; reflexivity).
  assert (fifo_inv enabled_fifo) as H0.
  { destruct (enable_run 0 opened_fifo) as (s' & E1 & H & _); [apply opened_fifo_inv|].
    unfold enabled_fifo. by rewrite E1. }
  split.
  - rewrite E. constructor; [exact H0|constructor; [exact locking_fifo_inv|constructor]].
  - vm_compute. reflexivity.
  - vm_compute. split; discriminate.
  - rewrite E. assert (chan_map (stream locked_listener) = [0; 1; -1; -1; -1; -1; -1; -1]) as ->
      by (vm_compute; reflexivity). repeat constructor.
  - intros _. vm_compute. discriminate.
Qed.

Lemma listener_packet_safe_witness :
  exists r l', avb_1722_listener_process_packet (sample_packet 17) 94 locked_listener = Some (r, l') /\
    listener_inv l'.
Proof.
  apply (listener_packet_safe (sample_packet 17) 94 locked_listener locked_listener_inv);
    vm_compute; discriminate.
Defined.

(** The second channel: its six words, one of every two. *)
Lemma listener_deinterleaves_witness :
  exists l' s', avb_1722_listener_process_packet (sample_packet 17) 94 locked_listener = Some (1, l') /\
    fifos l' !! 1%nat = Some s' /\
    contents s' = replicate 53 0 ++
      (convert_sample 1 <$> [0x08070605; 0x100f0e0d; 0x18171615; 0x201f1e1d; 0x28272625; 0x302f2e2d]).
Proof.
  destruct (listener_deinterleaves (sample_packet 17) 94 locked_listener 1 1 locking_fifo)
    as (l' & s' & ws & E & Hws & Hs & Hc).
  - exact locked_listener_inv.
  - vm_compute. discriminate.
  - vm_compute. discriminate.
  - vm_compute. discriminate.
  - vm_compute. reflexivity.
  - vm_compute. discriminate.
  - left. vm_compute. discriminate.
  - vm_compute. reflexivity.
  - vm_compute. reflexivity.
  - assert (chan_map (stream locked_listener) = [0; 1; -1; -1; -1; -1; -1; -1]) as ->
      by (vm_compute; reflexivity).
    intros i'. do 8 (destruct i' as [|i']; [cbn; first [done|lia]|]). done.
  - vm_compute. reflexivity.
  - vm_compute. discriminate.
  - exists l', s'. split; [exact E|]. split; [exact Hs|].
    vm_compute in Hws. injection Hws as <-. rewrite Hc. vm_compute. reflexivity.
Defined.

(** A packet that announces more words than it has makes the listener read behind
    the buffer. *)
Example listener_reads_past_end :
  avb_1722_listener_process_packet (<[34%nat := 255]> (sample_packet 17)) 94 locked_listener = None.
Proof. vm_compute. reflexivity. Qed.
