(* ===== verification/PtpTime.v ===== *)
(** Conversions between local time and PTP time: [lib_tsn/src/ptp/gptp.xc].

    Local time counts the 100 MHz reference clock in 32 bits, PTP time nanoseconds.
    Arithmetic on [int] and [long long] wraps, as on the xcore. *)
From S2P Require Import Prelude.
From Stdlib Require Import ZArith Lia.
From stdpp Require Import base.
#[local] Open Scope Z_scope.

Record ptp_time_info_mod64 : Type := MkTimeInfo {
  info_local_ts : Z;  (* unsigned int *)
  ptp_ts_hi : Z;  (* unsigned int *)
  ptp_ts_lo : Z;  (* unsigned int *)
  ptp_adjust : Z;  (* int *)
  inv_ptp_adjust : Z;  (* int *)
}.

Definition PTP_ADJUST_PREC : Z := 30.

(** [x + ((x * adjust) >> PTP_ADJUST_PREC)] in a [long long]. *)
Definition adjusted (x adjust : Z) : Z := s64 (x + Z.shiftr (s64 (x * adjust)) PTP_ADJUST_PREC).

Definition local_timestamp_to_ptp_mod32 (local_ts : Z) (info : ptp_time_info_mod64) : Z :=
  let local_diff := s32 (s32 local_ts - s32 (info_local_ts info)) in
  let local_diff := s64 (local_diff * 10) in
  let local_diff := adjusted local_diff (ptp_adjust info) in
  u32 (ptp_ts_lo info + s32 local_diff).

Definition local_timestamp_to_ptp_mod64 (local_ts : Z) (info : ptp_time_info_mod64) : Z * Z :=
  let local_diff := s32 (s32 local_ts - s32 (info_local_ts info)) in
  let ptp_mod64 := u64 (Z.shiftl (ptp_ts_hi info) 32 + ptp_ts_lo info) in
  let local_diff := s64 (local_diff * 10) in
  let local_diff := adjusted local_diff (ptp_adjust info) in
  let ptp_mod64 := u64 (ptp_mod64 + local_diff) in
  (Z.shiftr ptp_mod64 32, u32 ptp_mod64).

(** [/] rounds towards zero. *)
Definition ptp_mod32_timestamp_to_local (ts : Z) (info : ptp_time_info_mod64) : Z :=
  let ptp_diff := s32 (s32 ts - s32 (ptp_ts_lo info)) in
  let local_diff := Z.quot (adjusted ptp_diff (inv_ptp_adjust info)) 10 in
  u32 (info_local_ts info + local_diff).
