(* ===== verification/Talker1722.v ===== *)
(** The 1722 talker: [lib_tsn/src/1722/avb_1722_talker_support_audio.c] and
    [avb_1722_talker_support.c], which pack audio frames into the packets of a
    stream, and the configuration of its streams in [avb_1722_talker.xc].

    A [talker_unit] is one stream with its transmit buffer; the sample type is a
    global variable of the C file.  The buffer starts with two unused bytes that
    align the samples to words. *)
From S2P Require Import Prelude Bytes PtpTime Listener1722.
From Stdlib Require Import ZArith Lia.
From stdpp Require Import base list list_numbers numbers.
#[local] Open Scope Z_scope.

Definition AVB_ETHERNET_HDR_SIZE : Z := 18.
Definition MAC_ADRS_BYTE_COUNT : nat := 6.
Definition AVB_MAX_CHANNELS_PER_TALKER_STREAM : nat := 8.
Definition AVB1722_PACKET_RATE : Z := 8000.
Definition AVB_TPID : Z := 0x8100.
Definition AVB_DEFAULT_PCP : Z := 3.
Definition AVB_DEFAULT_CFI : Z := 0.
Definition MBLA_24BIT : Z := 0x40000000.
Definition MBLA_20BIT : Z := 0x41000000.
Definition MBLA_16BIT : Z := 0x42000000.
Definition AVB1722_DEFAULT_TAG : Z := 1.
Definition AVB1722_DEFAULT_CHANNEL : Z := 31.
Definition AVB1722_DEFAULT_TCODE : Z := 0xA.
Definition AVB1722_DEFAULT_SY : Z := 0.
Definition AVB1722_DEFAULT_EOH1 : Z := 0.
Definition AVB1722_DEFAULT_SID : Z := 63.
Definition AVB1722_DEFAULT_FN : Z := 0.
Definition AVB1722_DEFAULT_QPC : Z := 0.
Definition AVB1722_DEFAULT_SPH : Z := 0.
Definition AVB1722_DEFAULT_DBC : Z := 0.
Definition AVB1722_DEFAULT_EOH2 : Z := 2.
Definition AVB1722_DEFAULT_FMT : Z := 0x10.
Definition AVB1722_DEFAULT_FDF : Z := 2.
Definition AVB1722_DEFAULT_SYT : Z := 0xFFFF.

Record audio_frame_t : Type := MkFrame {
  frame_timestamp : Z;  (* uint32_t *)
  frame_samples : list Z;  (* uint32_t[AVB_NUM_MEDIA_INPUTS] *)
}.

Record avb1722_Talker_StreamConfig_t : Type := MkTalkerStream {
  talker_active : Z;  (* 0 disabled, 1 enabled, 2 streaming *)
  destMACAdrs : list Z;  (* unsigned char[6] *)
  srcMACAdrs : list Z;  (* unsigned char[6] *)
  streamId0 : Z;  (* unsigned int streamId[2] *)
  streamId1 : Z;
  talker_num_channels : Z;  (* unsigned int *)
  talker_map : list Z;  (* unsigned int[AVB_MAX_CHANNELS_PER_TALKER_STREAM] *)
  fifo_mask : Z;  (* unsigned int *)
  sampleType : Z;  (* unsigned int *)
  current_samples_in_packet : Z;  (* unsigned int *)
  timestamp_valid : Z;  (* unsigned int *)
  timestamp : Z;  (* unsigned int *)
  dbc_at_start_of_last_packet : Z;  (* int *)
  ts_interval : Z;  (* unsigned int *)
  samples_per_packet_base : Z;  (* unsigned int *)
  samples_per_packet_fractional : Z;  (* unsigned int *)
  rem_acc : Z;  (* unsigned int rem *)
  initial : Z;  (* unsigned int *)
  presentation_delay : Z;  (* unsigned *)
  last_transmit_time : Z;  (* int *)
  txport : Z;  (* int *)
  sequence_number : Z;  (* char *)
}.

Definition upd_talker_active (g : Z -> Z) (s : avb1722_Talker_StreamConfig_t) : avb1722_Talker_StreamConfig_t :=
  MkTalkerStream (g (talker_active s)) (destMACAdrs s) (srcMACAdrs s) (streamId0 s) (streamId1
    s) (talker_num_channels s) (talker_map s) (fifo_mask s) (sampleType s)
    (current_samples_in_packet s) (timestamp_valid s) (timestamp s) (dbc_at_start_of_last_packet
    s) (ts_interval s) (samples_per_packet_base s) (samples_per_packet_fractional s) (rem_acc s)
    (initial s) (presentation_delay s) (last_transmit_time s) (txport s) (sequence_number s).
Definition upd_destMACAdrs (g : list Z -> list Z) (s : avb1722_Talker_StreamConfig_t) : avb1722_Talker_StreamConfig_t :=
  MkTalkerStream (talker_active s) (g (destMACAdrs s)) (srcMACAdrs s) (streamId0 s) (streamId1
    s) (talker_num_channels s) (talker_map s) (fifo_mask s) (sampleType s)
    (current_samples_in_packet s) (timestamp_valid s) (timestamp s) (dbc_at_start_of_last_packet
    s) (ts_interval s) (samples_per_packet_base s) (samples_per_packet_fractional s) (rem_acc s)
    (initial s) (presentation_delay s) (last_transmit_time s) (txport s) (sequence_number s).
Definition upd_srcMACAdrs (g : list Z -> list Z) (s : avb1722_Talker_StreamConfig_t) : avb1722_Talker_StreamConfig_t :=
  MkTalkerStream (talker_active s) (destMACAdrs s) (g (srcMACAdrs s)) (streamId0 s) (streamId1
    s) (talker_num_channels s) (talker_map s) (fifo_mask s) (sampleType s)
    (current_samples_in_packet s) (timestamp_valid s) (timestamp s) (dbc_at_start_of_last_packet
    s) (ts_interval s) (samples_per_packet_base s) (samples_per_packet_fractional s) (rem_acc s)
    (initial s) (presentation_delay s) (last_transmit_time s) (txport s) (sequence_number s).
Definition upd_streamId0 (g : Z -> Z) (s : avb1722_Talker_StreamConfig_t) : avb1722_Talker_StreamConfig_t :=
  MkTalkerStream (talker_active s) (destMACAdrs s) (srcMACAdrs s) (g (streamId0 s)) (streamId1
    s) (talker_num_channels s) (talker_map s) (fifo_mask s) (sampleType s)
    (current_samples_in_packet s) (timestamp_valid s) (timestamp s) (dbc_at_start_of_last_packet
    s) (ts_interval s) (samples_per_packet_base s) (samples_per_packet_fractional s) (rem_acc s)
    (initial s) (presentation_delay s) (last_transmit_time s) (txport s) (sequence_number s).
Definition upd_streamId1 (g : Z -> Z) (s : avb1722_Talker_StreamConfig_t) : avb1722_Talker_StreamConfig_t :=
  MkTalkerStream (talker_active s) (destMACAdrs s) (srcMACAdrs s) (streamId0 s) (g (streamId1
    s)) (talker_num_channels s) (talker_map s) (fifo_mask s) (sampleType s)
    (current_samples_in_packet s) (timestamp_valid s) (timestamp s) (dbc_at_start_of_last_packet
    s) (ts_interval s) (samples_per_packet_base s) (samples_per_packet_fractional s) (rem_acc s)
    (initial s) (presentation_delay s) (last_transmit_time s) (txport s) (sequence_number s).
Definition upd_talker_num_channels (g : Z -> Z) (s : avb1722_Talker_StreamConfig_t) : avb1722_Talker_StreamConfig_t :=
  MkTalkerStream (talker_active s) (destMACAdrs s) (srcMACAdrs s) (streamId0 s) (streamId1 s)
    (g (talker_num_channels s)) (talker_map s) (fifo_mask s) (sampleType s)
    (current_samples_in_packet s) (timestamp_valid s) (timestamp s) (dbc_at_start_of_last_packet
    s) (ts_interval s) (samples_per_packet_base s) (samples_per_packet_fractional s) (rem_acc s)
    (initial s) (presentation_delay s) (last_transmit_time s) (txport s) (sequence_number s).
Definition upd_talker_map (g : list Z -> list Z) (s : avb1722_Talker_StreamConfig_t) : avb1722_Talker_StreamConfig_t :=
  MkTalkerStream (talker_active s) (destMACAdrs s) (srcMACAdrs s) (streamId0 s) (streamId1 s)
    (talker_num_channels s) (g (talker_map s)) (fifo_mask s) (sampleType s)
    (current_samples_in_packet s) (timestamp_valid s) (timestamp s) (dbc_at_start_of_last_packet
    s) (ts_interval s) (samples_per_packet_base s) (samples_per_packet_fractional s) (rem_acc s)
    (initial s) (presentation_delay s) (last_transmit_time s) (txport s) (sequence_number s).
Definition upd_fifo_mask (g : Z -> Z) (s : avb1722_Talker_StreamConfig_t) : avb1722_Talker_StreamConfig_t :=
  MkTalkerStream (talker_active s) (destMACAdrs s) (srcMACAdrs s) (streamId0 s) (streamId1 s)
    (talker_num_channels s) (talker_map s) (g (fifo_mask s)) (sampleType s)
    (current_samples_in_packet s) (timestamp_valid s) (timestamp s) (dbc_at_start_of_last_packet
    s) (ts_interval s) (samples_per_packet_base s) (samples_per_packet_fractional s) (rem_acc s)
    (initial s) (presentation_delay s) (last_transmit_time s) (txport s) (sequence_number s).
Definition upd_sampleType (g : Z -> Z) (s : avb1722_Talker_StreamConfig_t) : avb1722_Talker_StreamConfig_t :=
  MkTalkerStream (talker_active s) (destMACAdrs s) (srcMACAdrs s) (streamId0 s) (streamId1 s)
    (talker_num_channels s) (talker_map s) (fifo_mask s) (g (sampleType s))
    (current_samples_in_packet s) (timestamp_valid s) (timestamp s) (dbc_at_start_of_last_packet
    s) (ts_interval s) (samples_per_packet_base s) (samples_per_packet_fractional s) (rem_acc s)
    (initial s) (presentation_delay s) (last_transmit_time s) (txport s) (sequence_number s).
Definition upd_current_samples_in_packet (g : Z -> Z) (s : avb1722_Talker_StreamConfig_t) : avb1722_Talker_StreamConfig_t :=
  MkTalkerStream (talker_active s) (destMACAdrs s) (srcMACAdrs s) (streamId0 s) (streamId1 s)
    (talker_num_channels s) (talker_map s) (fifo_mask s) (sampleType s) (g
    (current_samples_in_packet s)) (timestamp_valid s) (timestamp s) (dbc_at_start_of_last_packet
    s) (ts_interval s) (samples_per_packet_base s) (samples_per_packet_fractional s) (rem_acc s)
    (initial s) (presentation_delay s) (last_transmit_time s) (txport s) (sequence_number s).
Definition upd_timestamp_valid (g : Z -> Z) (s : avb1722_Talker_StreamConfig_t) : avb1722_Talker_StreamConfig_t :=
  MkTalkerStream (talker_active s) (destMACAdrs s) (srcMACAdrs s) (streamId0 s) (streamId1 s)
    (talker_num_channels s) (talker_map s) (fifo_mask s) (sampleType s)
    (current_samples_in_packet s) (g (timestamp_valid s)) (timestamp s)
    (dbc_at_start_of_last_packet s) (ts_interval s) (samples_per_packet_base s)
    (samples_per_packet_fractional s) (rem_acc s) (initial s) (presentation_delay s)
    (last_transmit_time s) (txport s) (sequence_number s).
Definition upd_timestamp (g : Z -> Z) (s : avb1722_Talker_StreamConfig_t) : avb1722_Talker_StreamConfig_t :=
  MkTalkerStream (talker_active s) (destMACAdrs s) (srcMACAdrs s) (streamId0 s) (streamId1 s)
    (talker_num_channels s) (talker_map s) (fifo_mask s) (sampleType s)
    (current_samples_in_packet s) (timestamp_valid s) (g (timestamp s))
    (dbc_at_start_of_last_packet s) (ts_interval s) (samples_per_packet_base s)
    (samples_per_packet_fractional s) (rem_acc s) (initial s) (presentation_delay s)
    (last_transmit_time s) (txport s) (sequence_number s).
Definition upd_dbc_at_start_of_last_packet (g : Z -> Z) (s : avb1722_Talker_StreamConfig_t) : avb1722_Talker_StreamConfig_t :=
  MkTalkerStream (talker_active s) (destMACAdrs s) (srcMACAdrs s) (streamId0 s) (streamId1 s)
    (talker_num_channels s) (talker_map s) (fifo_mask s) (sampleType s)
    (current_samples_in_packet s) (timestamp_valid s) (timestamp s) (g
    (dbc_at_start_of_last_packet s)) (ts_interval s) (samples_per_packet_base s)
    (samples_per_packet_fractional s) (rem_acc s) (initial s) (presentation_delay s)
    (last_transmit_time s) (txport s) (sequence_number s).
Definition upd_ts_interval (g : Z -> Z) (s : avb1722_Talker_StreamConfig_t) : avb1722_Talker_StreamConfig_t :=
  MkTalkerStream (talker_active s) (destMACAdrs s) (srcMACAdrs s) (streamId0 s) (streamId1 s)
    (talker_num_channels s) (talker_map s) (fifo_mask s) (sampleType s)
    (current_samples_in_packet s) (timestamp_valid s) (timestamp s) (dbc_at_start_of_last_packet
    s) (g (ts_interval s)) (samples_per_packet_base s) (samples_per_packet_fractional s) (rem_acc
    s) (initial s) (presentation_delay s) (last_transmit_time s) (txport s) (sequence_number s).
Definition upd_samples_per_packet_base (g : Z -> Z) (s : avb1722_Talker_StreamConfig_t) : avb1722_Talker_StreamConfig_t :=
  MkTalkerStream (talker_active s) (destMACAdrs s) (srcMACAdrs s) (streamId0 s) (streamId1 s)
    (talker_num_channels s) (talker_map s) (fifo_mask s) (sampleType s)
    (current_samples_in_packet s) (timestamp_valid s) (timestamp s) (dbc_at_start_of_last_packet
    s) (ts_interval s) (g (samples_per_packet_base s)) (samples_per_packet_fractional s) (rem_acc
    s) (initial s) (presentation_delay s) (last_transmit_time s) (txport s) (sequence_number s).
Definition upd_samples_per_packet_fractional (g : Z -> Z) (s : avb1722_Talker_StreamConfig_t) : avb1722_Talker_StreamConfig_t :=
  MkTalkerStream (talker_active s) (destMACAdrs s) (srcMACAdrs s) (streamId0 s) (streamId1 s)
    (talker_num_channels s) (talker_map s) (fifo_mask s) (sampleType s)
    (current_samples_in_packet s) (timestamp_valid s) (timestamp s) (dbc_at_start_of_last_packet
    s) (ts_interval s) (samples_per_packet_base s) (g (samples_per_packet_fractional s)) (rem_acc
    s) (initial s) (presentation_delay s) (last_transmit_time s) (txport s) (sequence_number s).
Definition upd_rem_acc (g : Z -> Z) (s : avb1722_Talker_StreamConfig_t) : avb1722_Talker_StreamConfig_t :=
  MkTalkerStream (talker_active s) (destMACAdrs s) (srcMACAdrs s) (streamId0 s) (streamId1 s)
    (talker_num_channels s) (talker_map s) (fifo_mask s) (sampleType s)
    (current_samples_in_packet s) (timestamp_valid s) (timestamp s) (dbc_at_start_of_last_packet
    s) (ts_interval s) (samples_per_packet_base s) (samples_per_packet_fractional s) (g (rem_acc
    s)) (initial s) (presentation_delay s) (last_transmit_time s) (txport s) (sequence_number s).
Definition upd_initial (g : Z -> Z) (s : avb1722_Talker_StreamConfig_t) : avb1722_Talker_StreamConfig_t :=
  MkTalkerStream (talker_active s) (destMACAdrs s) (srcMACAdrs s) (streamId0 s) (streamId1 s)
    (talker_num_channels s) (talker_map s) (fifo_mask s) (sampleType s)
    (current_samples_in_packet s) (timestamp_valid s) (timestamp s) (dbc_at_start_of_last_packet
    s) (ts_interval s) (samples_per_packet_base s) (samples_per_packet_fractional s) (rem_acc s)
    (g (initial s)) (presentation_delay s) (last_transmit_time s) (txport s) (sequence_number s).
Definition upd_presentation_delay (g : Z -> Z) (s : avb1722_Talker_StreamConfig_t) : avb1722_Talker_StreamConfig_t :=
  MkTalkerStream (talker_active s) (destMACAdrs s) (srcMACAdrs s) (streamId0 s) (streamId1 s)
    (talker_num_channels s) (talker_map s) (fifo_mask s) (sampleType s)
    (current_samples_in_packet s) (timestamp_valid s) (timestamp s) (dbc_at_start_of_last_packet
    s) (ts_interval s) (samples_per_packet_base s) (samples_per_packet_fractional s) (rem_acc s)
    (initial s) (g (presentation_delay s)) (last_transmit_time s) (txport s) (sequence_number s).
Definition upd_txport (g : Z -> Z) (s : avb1722_Talker_StreamConfig_t) : avb1722_Talker_StreamConfig_t :=
  MkTalkerStream (talker_active s) (destMACAdrs s) (srcMACAdrs s) (streamId0 s) (streamId1 s)
    (talker_num_channels s) (talker_map s) (fifo_mask s) (sampleType s)
    (current_samples_in_packet s) (timestamp_valid s) (timestamp s) (dbc_at_start_of_last_packet
    s) (ts_interval s) (samples_per_packet_base s) (samples_per_packet_fractional s) (rem_acc s)
    (initial s) (presentation_delay s) (last_transmit_time s) (g (txport s)) (sequence_number s).
Definition upd_sequence_number (g : Z -> Z) (s : avb1722_Talker_StreamConfig_t) : avb1722_Talker_StreamConfig_t :=
  MkTalkerStream (talker_active s) (destMACAdrs s) (srcMACAdrs s) (streamId0 s) (streamId1 s)
    (talker_num_channels s) (talker_map s) (fifo_mask s) (sampleType s)
    (current_samples_in_packet s) (timestamp_valid s) (timestamp s) (dbc_at_start_of_last_packet
    s) (ts_interval s) (samples_per_packet_base s) (samples_per_packet_fractional s) (rem_acc s)
    (initial s) (presentation_delay s) (last_transmit_time s) (txport s) (g (sequence_number s)).

Record talker_unit : Type := MkTalker {
  config : avb1722_Talker_StreamConfig_t;
  tx_buf : list Z;  (* unsigned char[] *)
  AVB1722_audioSampleType : Z;  (* unsigned int *)
}.

Definition upd_config (g : avb1722_Talker_StreamConfig_t -> avb1722_Talker_StreamConfig_t) (s : talker_unit) : talker_unit :=
  MkTalker (g (config s)) (tx_buf s) (AVB1722_audioSampleType s).
Definition upd_tx_buf (g : list Z -> list Z) (s : talker_unit) : talker_unit :=
  MkTalker (config s) (g (tx_buf s)) (AVB1722_audioSampleType s).
Definition upd_AVB1722_audioSampleType (g : Z -> Z) (s : talker_unit) : talker_unit :=
  MkTalker (config s) (tx_buf s) (g (AVB1722_audioSampleType s)).

Definition on_config (g : avb1722_Talker_StreamConfig_t -> avb1722_Talker_StreamConfig_t)
    : M talker_unit unit := modify (upd_config g).

(** Bytes written to the transmit buffer from an index on, and [|=] on a byte. *)
Definition put (off : Z) (bs : list Z) : M talker_unit unit := store (fun t =>
  if (0 <=? off) && (off + Z.of_nat (length bs) <=? Z.of_nat (length (tx_buf t)))
  then Some (upd_tx_buf (list_inserts (Z.to_nat off) bs) t) else None).
Definition get_byte (off : Z) : M talker_unit Z := load (fun t =>
  if 0 <=? off then tx_buf t !! Z.to_nat off else None).
Definition or_byte (off v : Z) : M talker_unit unit := b ← get_byte off; put off [u8 (Z.lor b v)].

(** [Buf = &Buf0[2]], and the headers in it. *)
Definition Buf : Z := 2.
Definition pEtherHdr : Z := Buf.
Definition pAVBHdr : Z := Buf + AVB_ETHERNET_HDR_SIZE.
Definition pAVB1722Hdr : Z := Buf + AVB_ETHERNET_HDR_SIZE + AVB_TP_HDR_SIZE.
Definition samples_start : Z := Buf + AVB_ETHERNET_HDR_SIZE + AVB_TP_HDR_SIZE + AVB_CIP_HDR_SIZE.

(** The offsets of the fields of [AVB_Frame_t], [AVB_DataHeader_t] and
    [AVB_AVB1722_CIP_Header_t] that only the talker uses. *)
Definition off_SA : Z := 6.
Definition off_TPID : Z := 12.
Definition off_flagVID : Z := 14.
Definition off_etype : Z := 16.
Definition off_sequence_number : Z := 2.
Definition off_stream_id : Z := 4.
Definition off_protocol_specific : Z := 22.

Definition AVB1722_CIP_HeaderGen (dbc' : Z) : M talker_unit unit := put (pAVB1722Hdr + 3) [u8 dbc'].

(** [SET_AVBTP_TV] *)
Definition set_tv (a : Z) : M talker_unit unit :=
  b ← get_byte (pAVBHdr + off_version_flags);
  put (pAVBHdr + off_version_flags) [u8 (Z.lor (Z.land b (Z.lnot 1)) (Z.land a 1))].

Definition AVB1722_AVBTP_HeaderGen (valid_ts : bool) (avbtp_ts pkt_data_length seq stream_id0 : Z)
    : M talker_unit unit :=
  _ ← put (pAVBHdr + off_packet_data_length)
        [u8 (Z.shiftr pkt_data_length 8); u8 (Z.land pkt_data_length 0xFF)];
  _ ← (if valid_ts
       then _ ← set_tv 1; put (pAVBHdr + off_avb_timestamp) (hton_32 avbtp_ts)
       else _ ← set_tv 0; put (pAVBHdr + off_avb_timestamp) (hton_32 0));
  _ ← put (pAVBHdr + (off_stream_id + 4)) (hton_32 stream_id0);
  put (pAVBHdr + off_sequence_number) [u8 (Z.land seq 0xff)].

(** [SET_AVBTP_VID] *)
Definition set_vid (a : Z) : M talker_unit unit :=
  _ ← or_byte (pEtherHdr + off_flagVID) (Z.land (Z.shiftr a 8) 0xF);
  put (pEtherHdr + (off_flagVID + 1)) [u8 (Z.land a 0xFF)].

Definition data_block_size (c : avb1722_Talker_StreamConfig_t) : Z * Z :=
  if sampleType c =? MBLA_20BIT then (MBLA_20BIT, talker_num_channels c)
  else if sampleType c =? MBLA_16BIT then (MBLA_16BIT, talker_num_channels c / 2)
  else (MBLA_24BIT, talker_num_channels c).

Definition AVB1722_Talker_bufInit (vlanid : Z) : M talker_unit unit :=
  c ← gets config;
  let '(sample_type, dbs) := data_block_size c in
  _ ← modify (upd_AVB1722_audioSampleType (fun _ => sample_type));
  _ ← put Buf (replicate (Z.to_nat (AVB_ETHERNET_HDR_SIZE + AVB_TP_HDR_SIZE + AVB_CIP_HDR_SIZE)) 0);
  _ ← forM (seq 0 MAC_ADRS_BYTE_COUNT) (fun i =>
    d ← load (fun _ => destMACAdrs c !! i);
    _ ← put (pEtherHdr + Z.of_nat i) [d];
    s ← load (fun _ => srcMACAdrs c !! i);
    put (pEtherHdr + off_SA + Z.of_nat i) [s]);
  _ ← put (pEtherHdr + off_TPID) [u8 (Z.shiftr AVB_TPID 8); Z.land AVB_TPID 0xFF];
  _ ← or_byte (pEtherHdr + off_flagVID) (Z.shiftl AVB_DEFAULT_PCP 5);
  _ ← or_byte (pEtherHdr + off_flagVID) (Z.shiftl (Z.land AVB_DEFAULT_CFI 1) 4);
  _ ← set_vid vlanid;
  _ ← put (pEtherHdr + off_etype) [u8 (Z.shiftr AVB_1722_ETHERTYPE 8); Z.land AVB_1722_ETHERTYPE 0xFF];
  _ ← or_byte (pAVBHdr + off_version_flags) (Z.shiftl (Z.land 1 1) 7);
  _ ← put (pAVBHdr + (off_stream_id + 4)) (hton_32 (streamId0 c));
  _ ← put (pAVBHdr + off_stream_id) (hton_32 (streamId1 c));
  _ ← or_byte (pAVBHdr + off_protocol_specific) (Z.shiftl (Z.land AVB1722_DEFAULT_TAG 3) 6);
  _ ← or_byte (pAVBHdr + off_protocol_specific) (Z.land AVB1722_DEFAULT_CHANNEL 0x3F);
  _ ← or_byte (pAVBHdr + (off_protocol_specific + 1)) (Z.shiftl (Z.land AVB1722_DEFAULT_TCODE 0xF) 4);
  _ ← or_byte (pAVBHdr + (off_protocol_specific + 1)) (Z.land AVB1722_DEFAULT_SY 0xF);
  _ ← or_byte pAVB1722Hdr (Z.shiftl (Z.land AVB1722_DEFAULT_EOH1 3) 6);
  _ ← or_byte pAVB1722Hdr (Z.land AVB1722_DEFAULT_SID 0x3F);
  _ ← put (pAVB1722Hdr + 1) [u8 dbs];
  _ ← or_byte (pAVB1722Hdr + 2) (Z.shiftl (Z.land AVB1722_DEFAULT_FN 3) 6);
  _ ← or_byte (pAVB1722Hdr + 2) (Z.shiftl (Z.land AVB1722_DEFAULT_QPC 7) 3);
  _ ← or_byte (pAVB1722Hdr + 2) (Z.shiftl (Z.land AVB1722_DEFAULT_SPH 1) 2);
  _ ← put (pAVB1722Hdr + 3) [AVB1722_DEFAULT_DBC];
  _ ← or_byte (pAVB1722Hdr + 4) (Z.shiftl (Z.land AVB1722_DEFAULT_EOH2 3) 6);
  _ ← or_byte (pAVB1722Hdr + 4) (Z.land AVB1722_DEFAULT_FMT 0x3F);
  _ ← put (pAVB1722Hdr + 5) [AVB1722_DEFAULT_FDF];
  put (pAVB1722Hdr + 6) [u8 (Z.shiftr AVB1722_DEFAULT_SYT 8); Z.land AVB1722_DEFAULT_SYT 0xFF].

(** The samples of the packet under construction, which has one more when the
    fraction has run over. *)
Definition has_extra_sample (c : avb1722_Talker_StreamConfig_t) : bool :=
  negb (Z.land (rem_acc c) 0xffff0000 =? 0).
Definition samples_per_channel (c : avb1722_Talker_StreamConfig_t) : Z :=
  if has_extra_sample c then samples_per_packet_base c + 1 else samples_per_packet_base c.

Definition packed_sample (sample_type x : Z) : Z := byterev (Z.lor (Z.shiftr x 8) sample_type).

(** The samples of one frame, at word [dest] of the packet on. *)
Definition put_frame (dest : Z) (frame : audio_frame_t) : M talker_unit unit :=
  c ← gets config;
  forM (seq 0 (Z.to_nat (talker_num_channels c))) (fun i =>
    m ← load (fun _ => if decide (i < AVB_MAX_CHANNELS_PER_TALKER_STREAM)%nat then talker_map c !! i else None);
    x ← load (fun _ => frame_samples frame !! Z.to_nat m);
    sample_type ← gets AVB1722_audioSampleType;
    put (dest + 4 * Z.of_nat i) (le_bytes 4 (packed_sample sample_type x))).

(** The result is the size of a packet that is complete, or zero. *)
Definition avb1722_create_packet (timeInfo : ptp_time_info_mod64) (frame : audio_frame_t)
    : M talker_unit Z :=
  c ← gets config;
  let presentation_time := timestamp c in
  let ts_valid := timestamp_valid c in
  let nch := talker_num_channels c in
  let current := current_samples_in_packet c in
  let dest := samples_start + 4 * (current * nch) in
  let spc := samples_per_channel c in
  let dbc' := dbc_at_start_of_last_packet c in
  _ ← put_frame dest frame;
  let this_dbc := u32 (dbc' + current) in
  let ts_this_dbc := Z.land this_dbc (u32 (ts_interval c - 1)) =? 0 in
  let ts_valid := if ts_this_dbc then 1 else ts_valid in
  let presentation_time := if ts_this_dbc then frame_timestamp frame else presentation_time in
  let current := current + 1 in
  if current =? spc then
    _ ← on_config (upd_rem_acc (fun r => u32 (r + samples_per_packet_fractional c)));
    _ ← whenM (samples_per_packet_base c <? spc) (on_config (upd_rem_acc (fun r => Z.land r 0xffff)));
    let total_samples_in_packet := spc * nch in
    let pkt_data_length := AVB_CIP_HDR_SIZE + Z.shiftl total_samples_in_packet 2 in
    _ ← AVB1722_CIP_HeaderGen (Z.land dbc' 0xFF);
    _ ← on_config (upd_dbc_at_start_of_last_packet (fun _ => s32 (dbc' + spc)));
    let ptp_ts' := if negb (ts_valid =? 0)
                   then u32 (local_timestamp_to_ptp_mod32 presentation_time timeInfo + presentation_delay c)
                   else 0 in
    _ ← AVB1722_AVBTP_HeaderGen (negb (ts_valid =? 0)) ptp_ts' pkt_data_length (sequence_number c) (streamId0 c);
    _ ← on_config (upd_sequence_number (fun n => u8 (n + 1)));
    _ ← on_config (upd_current_samples_in_packet (fun _ => 0));
    _ ← on_config (upd_timestamp_valid (fun _ => 0));
    mret (AVB_ETHERNET_HDR_SIZE + AVB_TP_HDR_SIZE + pkt_data_length)
  else
    _ ← on_config (upd_timestamp_valid (fun _ => ts_valid));
    _ ← on_config (upd_timestamp (fun _ => presentation_time));
    _ ← on_config (upd_current_samples_in_packet (fun _ => current));
    mret 0.

Definition avb1722_set_buffer_vlan (vlan' : Z) : M talker_unit unit :=
  b ← get_byte (pEtherHdr + off_flagVID);
  _ ← put (pEtherHdr + off_flagVID) [Z.land b 0xF0];
  _ ← put (pEtherHdr + (off_flagVID + 1)) [0];
  set_vid vlan'.

(** The numbers that [configure_stream] of the talker receives. *)
Record talker_settings : Type := MkSettings {
  set_sampleType : Z;
  set_destMACAdrs : list Z;
  set_streamIdExt : Z;
  set_fifo_mask : Z;
  set_map : list Z;  (* one for each channel *)
  set_rate : Z;
  set_presentation_delay : Z;
}.

(** The samples per packet in 16.16 fixed point. *)
Definition samples_per_packet (rate' : Z) : Z :=
  u32 (Z.shiftl (rate' / 100) 16) / (AVB1722_PACKET_RATE / 100).

(** [configure_stream]; [None] is the trap of an unknown rate. *)
Definition configure_talker_stream (set : talker_settings) (mac_addr : list Z)
    (s : avb1722_Talker_StreamConfig_t) : option avb1722_Talker_StreamConfig_t :=
  match mac_addr, syt_interval (set_rate set) with
  | [m0; m1; m2; m3; m4; m5], Some interval =>
      if decide (length (set_destMACAdrs set) = MAC_ADRS_BYTE_COUNT /\
                 length (set_map set) <= AVB_MAX_CHANNELS_PER_TALKER_STREAM)%nat then
        let tmp := samples_per_packet (set_rate set) in
        Some {|
          talker_active := 1;
          destMACAdrs := u8 <$> set_destMACAdrs set;
          srcMACAdrs := mac_addr;
          streamId0 := Z.lor (Z.lor (Z.shiftl m4 24) (Z.shiftl m5 16)) (set_streamIdExt set);
          streamId1 := u32 (ntoh_32 m0 m1 m2 m3);
          talker_num_channels := Z.of_nat (length (set_map set));
          talker_map := list_inserts 0 (set_map set) (talker_map s);
          fifo_mask := set_fifo_mask set;
          sampleType := set_sampleType set;
          current_samples_in_packet := 0;
          timestamp_valid := 0;
          timestamp := timestamp s;
          dbc_at_start_of_last_packet := 0;
          ts_interval := interval;
          samples_per_packet_base := Z.shiftr tmp 16;
          samples_per_packet_fractional := Z.land tmp 0xffff;
          rem_acc := 0;
          initial := 1;
          presentation_delay := set_presentation_delay set;
          last_transmit_time := last_transmit_time s;
          txport := 0;
          sequence_number := 0 |}
      else None
  | _, _ => None
  end.

Definition start_stream (s : avb1722_Talker_StreamConfig_t) : avb1722_Talker_StreamConfig_t :=
  upd_talker_active (fun _ => 2) (upd_initial (fun _ => 1) (upd_sequence_number (fun _ => 0) s)).
Definition stop_stream (s : avb1722_Talker_StreamConfig_t) : avb1722_Talker_StreamConfig_t :=
  upd_talker_active (fun _ => 1) s.
Definition disable_talker_stream (s : avb1722_Talker_StreamConfig_t) : avb1722_Talker_StreamConfig_t :=
  upd_talker_active (fun _ => 0) (upd_streamId0 (fun _ => 0) (upd_streamId1 (fun _ => 0) s)).
