(* ===== verification/TalkerSpec.v ===== *)
(** What the 1722 talker sends: the packets of a stream carry its frames, one
    block of samples for each frame, and what a listener reads from them is what
    went in. *)
From S2P Require Import Prelude Bytes PtpTime AudioFifo AudioFifoSpec AudioFifoSafe Listener1722 Listener1722Spec Talker1722.
From Stdlib Require Import ZArith Lia.
From stdpp Require Import base list list_numbers numbers.
#[local] Open Scope Z_scope.

(** * The transmit buffer *)

Lemma put_run off bs t :
  0 <= off -> off + Z.of_nat (length bs) <= Z.of_nat (length (tx_buf t)) ->
  put off bs t = Some (tt, upd_tx_buf (list_inserts (Z.to_nat off) bs) t).
Proof.
  intros H1 H2. unfold put, store. by rewrite (proj2 (Z.leb_le _ _)), (proj2 (Z.leb_le _ _)).
Qed.

Lemma get_byte_run off t b :
  0 <= off -> tx_buf t !! Z.to_nat off = Some b -> get_byte off t = Some (b, t).
Proof. intros H E. unfold get_byte, load. by rewrite (proj2 (Z.leb_le _ _)), E. Qed.

(** Outside [n] bytes from [off] on, nothing has changed. *)
Definition agree_outside (off n : Z) (b b' : list Z) : Prop :=
  length b' = length b /\ forall j : nat, ~ (off <= Z.of_nat j < off + n) -> b' !! j = b !! j.

Lemma agree_refl off n b : agree_outside off n b b.
Proof. by split. Qed.

Lemma agree_trans off n b1 b2 b3 :
  agree_outside off n b1 b2 -> agree_outside off n b2 b3 -> agree_outside off n b1 b3.
Proof. intros [L1 H1] [L2 H2]. split; [congruence|]. intros j Hj. by rewrite H2, H1. Qed.

Lemma agree_wider off n off' n' b b' :
  off' <= off -> off + n <= off' + n' -> agree_outside off n b b' -> agree_outside off' n' b b'.
Proof. intros H1 H2 [L H]. split; [done|]. intros j Hj. apply H. lia. Qed.

Lemma agree_take off n k b b' : agree_outside off n b b' -> Z.of_nat k <= off -> take k b' = take k b.
Proof.
  intros [L H] Hk. apply list_eq. intros j. destruct (decide (j < k)%nat).
  - rewrite !lookup_take_lt by done. apply H. lia.
  - by rewrite !lookup_take_ge by lia.
Qed.

Lemma agree_put off bs b :
  0 <= off -> agree_outside off (Z.of_nat (length bs)) b (list_inserts (Z.to_nat off) bs b).
Proof.
  intros H0. split; [apply length_inserts|]. intros j Hj.
  destruct (decide (j < Z.to_nat off)%nat); [apply list_lookup_inserts_lt; lia|].
  apply list_lookup_inserts_ge. lia.
Qed.

(** Words of the buffer. *)
Lemma word_le_ext b b' off off' :
  0 <= off -> 0 <= off' ->
  (forall k, (k < 4)%nat -> b' !! (Z.to_nat off' + k)%nat = b !! (Z.to_nat off + k)%nat) ->
  word_le b' off' = word_le b off.
Proof.
  intros H0 H0' H. unfold word_le. rewrite !(proj2 (Z.leb_le 0 _)) by done.
  assert (take 4 (drop (Z.to_nat off') b') = take 4 (drop (Z.to_nat off) b)) as ->; [|done].
  apply list_eq. intros k. destruct (decide (k < 4)%nat).
  - rewrite !lookup_take_lt, !lookup_drop by done. by apply H.
  - by rewrite !lookup_take_ge by lia.
Qed.

Lemma word_le_outside off n b b' o :
  agree_outside off n b b' -> 0 <= o -> o + 4 <= off \/ off + n <= o -> word_le b' o = word_le b o.
Proof. intros [_ H] Ho Hout. apply word_le_ext; [done|done|]. intros k Hk. apply H. lia. Qed.

Lemma word_le_put off b x :
  0 <= off -> off + 4 <= Z.of_nat (length b) -> 0 <= x < 2 ^ 32 ->
  word_le (list_inserts (Z.to_nat off) (le_bytes 4 x) b) off = Some x.
Proof.
  intros H0 H4 Hx. unfold word_le. rewrite (proj2 (Z.leb_le _ _)) by done.
  assert (take 4 (drop (Z.to_nat off) (list_inserts (Z.to_nat off) (le_bytes 4 x) b)) = le_bytes 4 x) as ->.
  { apply list_eq. intros k. destruct (decide (k < 4)%nat).
    - rewrite lookup_take_lt, lookup_drop by done.
      rewrite list_lookup_inserts by (rewrite ?le_bytes_length; lia). f_equal. lia.
    - rewrite lookup_take_ge, lookup_ge_None_2 by (rewrite ?le_bytes_length; lia). done. }
  pose proof (guid_of_le_bytes 4 x ltac:(lia)) as E. rewrite !le_bytes_succ in E |- *.
  change (le_bytes 0 _) with (@nil Z) in *. unfold guid_of_c in E. cbn [foldr] in E. f_equal.
  etrans; [|exact E]. ring.
Qed.

(** * One frame *)

Lemma packed_sample_range ty x : 0 <= packed_sample ty x < 2 ^ 32.
Proof.
  unfold packed_sample. rewrite byterev_value.
  generalize (Z.lor (Z.shiftr x 8) ty). intros y.
  generalize (Z.mod_pos_bound y 256 eq_refl), (Z.mod_pos_bound (y / 2 ^ 8) 256 eq_refl),
    (Z.mod_pos_bound (y / 2 ^ 16) 256 eq_refl), (Z.mod_pos_bound (y / 2 ^ 24) 256 eq_refl). lia.
Qed.

(** The sample of the stream's channel [i] in a frame. *)
Definition channel_sample (c : avb1722_Talker_StreamConfig_t) (frame : audio_frame_t) (i : nat) : Z :=
  frame_samples frame !!! Z.to_nat (talker_map c !!! i).

(** The mapping names inputs that a frame has. *)
Definition map_ok (c : avb1722_Talker_StreamConfig_t) (inputs : nat) : Prop :=
  length (talker_map c) = AVB_MAX_CHANNELS_PER_TALKER_STREAM /\
  0 <= talker_num_channels c <= Z.of_nat AVB_MAX_CHANNELS_PER_TALKER_STREAM /\
  forall i, (Z.of_nat i < talker_num_channels c) -> 0 <= talker_map c !!! i < Z.of_nat inputs.

Lemma put_frame_run dest frame t :
  map_ok (config t) (length (frame_samples frame)) ->
  0 <= dest -> dest + 4 * talker_num_channels (config t) <= Z.of_nat (length (tx_buf t)) ->
  exists b', put_frame dest frame t = Some (tt, upd_tx_buf (fun _ => b') t) /\
    agree_outside dest (4 * talker_num_channels (config t)) (tx_buf t) b' /\
    forall i, Z.of_nat i < talker_num_channels (config t) ->
      word_le b' (dest + 4 * Z.of_nat i) =
        Some (packed_sample (AVB1722_audioSampleType t) (channel_sample (config t) frame i)).
Proof.
  intros (Hml & Hn & Hm) H0 Hroom. unfold put_frame. erewrite M_bind_run by reflexivity.
  set (c := config t) in *. set (n := talker_num_channels c) in *.
  set (body := fun i : nat => _).
  assert (forall k a b, (a + k <= Z.to_nat n)%nat -> length b = length (tx_buf t) ->
    exists b', forM (seq a k) body (upd_tx_buf (fun _ => b) t) = Some (tt, upd_tx_buf (fun _ => b') t) /\
      agree_outside (dest + 4 * Z.of_nat a) (4 * Z.of_nat k) b b' /\
      forall i, (a <= i < a + k)%nat -> word_le b' (dest + 4 * Z.of_nat i) =
        Some (packed_sample (AVB1722_audioSampleType t) (channel_sample c frame i))) as Hloop.
  { induction k as [|k IH]; intros a b Hak Hb; cbn [seq forM].
    { exists b. split; [done|]. split; [apply agree_refl|]. intros i Hi. lia. }
    pose proof (Hm a ltac:(lia)) as Hma.
    destruct (lookup_lt_is_Some_2 (talker_map c) a) as [m Em]; [lia|].
    rewrite (list_lookup_total_correct _ _ _ Em) in Hma.
    destruct (lookup_lt_is_Some_2 (frame_samples frame) (Z.to_nat m)) as [x Ex]; [lia|].
    set (w := packed_sample (AVB1722_audioSampleType t) x).
    set (b1 := list_inserts (Z.to_nat (dest + 4 * Z.of_nat a)) (le_bytes 4 w) b).
    assert (length b1 = length (tx_buf t)) as Hb1 by (unfold b1; by rewrite length_inserts).
    destruct (IH (S a) b1) as (b' & E & [Hl Hag] & Hw); [lia|done|].
    exists b'. split; [|split].
    - erewrite M_bind_run; [exact E|]. unfold body.
      erewrite M_bind_run.
      2: { unfold load. rewrite decide_True by (unfold AVB_MAX_CHANNELS_PER_TALKER_STREAM in *; lia).
           by rewrite Em. }
      erewrite M_bind_run by (unfold load; by rewrite Ex). erewrite M_bind_run by reflexivity.
      cbn [upd_tx_buf AVB1722_audioSampleType]. rewrite put_run; [reflexivity|lia|].
      cbn [tx_buf upd_tx_buf]. rewrite le_bytes_length, Hb. lia.
    - split; [congruence|]. intros j Hj. rewrite Hag by lia. unfold b1.
      apply (agree_put (dest + 4 * Z.of_nat a) (le_bytes 4 w) b); [lia|]. rewrite le_bytes_length. lia.
    - intros i Hi. destruct (decide (i = a)) as [->|Hne]; [|apply Hw; lia].
      rewrite (word_le_outside (dest + 4 * Z.of_nat (S a)) (4 * Z.of_nat k) b1 b') by (by split || lia).
      unfold b1. rewrite word_le_put by (rewrite ?Hb; first [lia|apply packed_sample_range]).
      unfold w, channel_sample. by rewrite (list_lookup_total_correct _ _ _ Em), (list_lookup_total_correct _ _ _ Ex). }
  destruct (Hloop (Z.to_nat n) 0%nat (tx_buf t)) as (b' & E & Hag & Hw); [lia|done|].
  exists b'. split; [|split].
  - destruct t. exact E.
  - apply (agree_wider _ _ dest (4 * n)) in Hag; [done|lia|lia].
  - intros i Hi. apply Hw. lia.
Qed.

(** * The headers *)

(** What no packet of the stream changes: the VLAN tag, the subtype, and a valid
    stream identifier. *)
Definition formatted (b : list Z) : Prop :=
  (52 <= length b)%nat /\ b !! 14%nat = Some 0x81 /\ b !! 20%nat = Some 0 /\
  (b !! 21%nat = Some 0x80 \/ b !! 21%nat = Some 0x81).

(** The fields of a complete packet. *)
Record sealed (tv : bool) (dbc' len ts seq sid : Z) (b : list Z) : Prop := {
  sl_format : formatted b;
  sl_flags : b !! 21%nat = Some (if tv then 0x81 else 0x80);
  sl_seq : b !! 22%nat = Some (u8 (Z.land seq 0xff));
  sl_sid : take 4 (drop 28 b) = hton_32 sid;
  sl_ts : take 4 (drop 32 b) = hton_32 (if tv then ts else 0);
  sl_len0 : b !! 40%nat = Some (u8 (Z.shiftr len 8));
  sl_len1 : b !! 41%nat = Some (u8 (Z.land len 0xFF));
  sl_dbc : b !! 47%nat = Some (u8 dbc');
}.

Ltac at_index :=
  cbn [list_inserts hton_32]; rewrite ?list_lookup_insert_ne by done;
  first [done | rewrite list_lookup_insert_eq; [done | rewrite ?length_insert; lia]].

Lemma put_at off bs (b : list Z) t n :
  Z.to_nat off = n -> 0 <= off -> off + Z.of_nat (length bs) <= Z.of_nat (length b) ->
  put off bs (upd_tx_buf (fun _ => b) t) = Some (tt, upd_tx_buf (fun _ => list_inserts n bs b) t).
Proof. intros <- H0 H. by rewrite put_run. Qed.

Lemma set_tv_run a v (b : list Z) t :
  b !! 21%nat = Some v -> v = 0x80 \/ v = 0x81 ->
  set_tv a (upd_tx_buf (fun _ => b) t) =
    Some (tt, upd_tx_buf (fun _ => <[21%nat := 0x80 + a mod 2]> b) t).
Proof.
  intros Hv Hor. unfold set_tv. pose proof (lookup_lt_Some _ _ _ Hv).
  erewrite M_bind_run by (apply (get_byte_run _ _ v); [done|exact Hv]).
  change (pAVBHdr + off_version_flags) with 21.
  rewrite (put_at 21 _ b t 21) by (first [done | cbn [length]; lia]). cbn [list_inserts]. do 3 f_equal.
  change (Z.land a 1) with (Z.land a (Z.ones 1)). rewrite Z.land_ones by lia. change (2 ^ 1) with 2.
  assert (a mod 2 = 0 \/ a mod 2 = 1) as [-> | ->] by (pose proof (Z.mod_pos_bound a 2 eq_refl); lia);
    by destruct Hor as [-> | ->].
Qed.

Lemma take_4_lookups (b : list Z) n x0 x1 x2 x3 :
  b !! n = Some x0 -> b !! (n + 1)%nat = Some x1 -> b !! (n + 2)%nat = Some x2 -> b !! (n + 3)%nat = Some x3 ->
  take 4 (drop n b) = [x0; x1; x2; x3].
Proof.
  intros H0 H1 H2 H3. apply list_eq. intros k.
  destruct (decide (k < 4)%nat) as [Hk|Hk]; [|by rewrite lookup_take_ge, lookup_ge_None_2 by (cbn; lia)].
  rewrite lookup_take_lt, lookup_drop by done.
  do 4 (destruct k as [|k]; [by rewrite ?Nat.add_0_r|]). lia.
Qed.

Ltac buf_len :=
  cbv [pAVBHdr pAVB1722Hdr pEtherHdr Buf AVB_ETHERNET_HDR_SIZE off_packet_data_length
       off_avb_timestamp off_stream_id off_sequence_number AVB_TP_HDR_SIZE];
  repeat first [rewrite length_insert | rewrite length_inserts];
  lazymatch goal with |- _ + Z.of_nat (length ?bs) <= _ =>
    let n := eval cbv in (length bs) in change (length bs) with n end; cbn; lia.

Lemma header_gen_run tv dbc' ts len seq sid (b : list Z) t :
  formatted b ->
  exists b',
    (_ ← AVB1722_AVBTP_HeaderGen tv ts len seq sid; mret tt)
      (upd_tx_buf (fun _ => list_inserts 47 [u8 dbc'] b) t) = Some (tt, upd_tx_buf (fun _ => b') t) /\
    agree_outside 21 31 b b' /\ sealed tv dbc' len ts seq sid b'.
Proof.
  intros (Hl & H14 & H20 & H21).
  set (v := if tv then 1 else 0).
  set (b' := list_inserts 22 [u8 (Z.land seq 0xff)] (list_inserts 28 (hton_32 sid)
    (list_inserts 32 (hton_32 (if tv then ts else 0)) (<[21%nat := 0x80 + v mod 2]>
    (list_inserts 40 [u8 (Z.shiftr len 8); u8 (Z.land len 0xFF)] (list_inserts 47 [u8 dbc'] b)))))).
  exists b'. split; [|split].
  - assert (exists v, list_inserts 40 [u8 (Z.shiftr len 8); u8 (Z.land len 0xFF)]
        (list_inserts 47 [u8 dbc'] b) !! 21%nat = Some v /\ (v = 0x80 \/ v = 0x81)) as (v0 & Hv & Hor).
    { destruct H21 as [H21|H21]; eexists;
        (split; [cbn [list_inserts]; rewrite !list_lookup_insert_ne by done; exact H21|]); auto. }
    unfold AVB1722_AVBTP_HeaderGen. erewrite M_bind_run; [reflexivity|].
    erewrite M_bind_run by (apply put_at; [reflexivity|done|buf_len]).
    destruct tv; erewrite M_bind_run;
      [|erewrite M_bind_run by (apply (set_tv_run _ v0); [exact Hv|exact Hor]);
        apply put_at; [reflexivity|done|buf_len]
       | |erewrite M_bind_run by (apply (set_tv_run _ v0); [exact Hv|exact Hor]);
        apply put_at; [reflexivity|done|buf_len]];
      (erewrite M_bind_run by (apply put_at; [reflexivity|done|buf_len]);
       apply put_at; [reflexivity|done|buf_len]).
  - split; [unfold b'; by rewrite !length_inserts, length_insert, !length_inserts|].
    intros j Hj. unfold b'. cbn [list_inserts hton_32]. by rewrite !list_lookup_insert_ne by lia.
  - assert (length b' = length b) as Lb by (unfold b'; by rewrite !length_inserts, length_insert, !length_inserts).
    split; [split; [|split; [|split]]|..]; unfold b'.
    + fold b'. by rewrite Lb.
    + cbn [list_inserts hton_32]. by rewrite !list_lookup_insert_ne by done.
    + cbn [list_inserts hton_32]. by rewrite !list_lookup_insert_ne by done.
    + destruct tv; [right|left]; at_index.
    + destruct tv; at_index.
    + at_index.
    + apply take_4_lookups; at_index.
    + apply take_4_lookups; at_index.
    + at_index.
    + at_index.
    + at_index.
Qed.

(** * The invariant of a stream *)

(** The most samples a packet can have. *)
Definition max_samples (c : avb1722_Talker_StreamConfig_t) : Z :=
  if samples_per_packet_fractional c =? 0 then samples_per_packet_base c
  else samples_per_packet_base c + 1.

Record talker_inv (inputs : nat) (t : talker_unit) : Prop := {
  ti_map : map_ok (config t) inputs;
  ti_base : 1 <= samples_per_packet_base (config t);
  ti_frac : 0 <= samples_per_packet_fractional (config t) < 65536;
  ti_rem : 0 <= rem_acc (config t) < 65536 + samples_per_packet_fractional (config t);
  ti_current : 0 <= current_samples_in_packet (config t) < samples_per_channel (config t);
  ti_room : samples_start + 4 * (max_samples (config t) * talker_num_channels (config t)) <=
            Z.of_nat (length (tx_buf t));
  ti_format : formatted (tx_buf t);
}.

Lemma has_extra_iff c : 0 <= rem_acc c < 2 ^ 32 -> has_extra_sample c = (65536 <=? rem_acc c).
Proof.
  intros H. unfold has_extra_sample. set (r := rem_acc c) in *.
  assert (Z.land r 0xffff0000 = 65536 * (r / 65536)) as ->.
  { change 0xffff0000 with (Z.land (Z.ones 32) (Z.lnot (Z.ones 16))).
    rewrite Z.land_assoc, <- Z.ldiff_land, Z.land_ones, (Z.mod_small r), Z.ldiff_ones_r by lia.
    rewrite Z.shiftl_mul_pow2, Z.shiftr_div_pow2 by lia. change (2 ^ 16) with 65536. lia. }
  destruct (Z.leb_spec 65536 r).
  - assert (0 < r / 65536) by (apply Z.div_str_pos; lia). rewrite (proj2 (Z.eqb_neq _ _)) by lia. done.
  - rewrite (Z.div_small r) by lia. done.
Qed.

Lemma samples_le_max inputs t :
  talker_inv inputs t -> samples_per_channel (config t) <= max_samples (config t).
Proof.
  intros [_ _ Hf Hr _ _ _]. unfold samples_per_channel, max_samples.
  rewrite has_extra_iff by lia. destruct (Z.leb_spec 65536 (rem_acc (config t)));
    destruct (Z.eqb_spec (samples_per_packet_fractional (config t)) 0); lia.
Qed.

(** The accumulator after a packet. *)
Definition next_rem (c : avb1722_Talker_StreamConfig_t) : Z :=
  if has_extra_sample c then (rem_acc c + samples_per_packet_fractional c) mod 65536
  else rem_acc c + samples_per_packet_fractional c.

(** The fields that frames do not change. *)
Record same_talker_stream (t t' : talker_unit) : Prop := {
  ss_num_channels : talker_num_channels (config t') = talker_num_channels (config t);
  ss_map : talker_map (config t') = talker_map (config t);
  ss_base : samples_per_packet_base (config t') = samples_per_packet_base (config t);
  ss_frac : samples_per_packet_fractional (config t') = samples_per_packet_fractional (config t);
  ss_interval : ts_interval (config t') = ts_interval (config t);
  ss_sid : streamId0 (config t') = streamId0 (config t);
  ss_delay : presentation_delay (config t') = presentation_delay (config t);
  ss_type : AVB1722_audioSampleType t' = AVB1722_audioSampleType t;
  ss_length : length (tx_buf t') = length (tx_buf t);
  ss_active : talker_active (config t') = talker_active (config t);
  ss_tag : take 20 (tx_buf t') = take 20 (tx_buf t);  (* addresses, VLAN and type *)
}.

#[global] Instance same_talker_stream_preorder : PreOrder same_talker_stream.
Proof.
  split; [by intros t|]. intros t1 t2 t3 [] []. split; congruence.
Qed.

(** Whether a frame is stamped, and the stamp kept for the packet. *)
Definition stamps (c : avb1722_Talker_StreamConfig_t) : bool :=
  Z.land (u32 (dbc_at_start_of_last_packet c + current_samples_in_packet c)) (u32 (ts_interval c - 1)) =? 0.
Definition kept_valid (c : avb1722_Talker_StreamConfig_t) : Z := if stamps c then 1 else timestamp_valid c.
Definition kept_time (c : avb1722_Talker_StreamConfig_t) (frame : audio_frame_t) : Z :=
  if stamps c then frame_timestamp frame else timestamp c.

Definition sent_time info frame (c : avb1722_Talker_StreamConfig_t) : Z :=
  if negb (kept_valid c =? 0)
  then u32 (local_timestamp_to_ptp_mod32 (kept_time c frame) info + presentation_delay c) else 0.

Lemma formatted_outside off n b b' :
  52 <= off -> agree_outside off n b b' -> formatted b -> formatted b'.
Proof.
  intros Ho [L H] (F1 & F2 & F3 & F4). unfold formatted. rewrite L, !H by lia. done.
Qed.

(** The handling of one frame: it goes into its place, and the last frame of a
    packet completes the headers. *)
Lemma create_packet_run inputs info frame t :
  talker_inv inputs t -> length (frame_samples frame) = inputs ->
  let c := config t in
  let spc := samples_per_channel c in
  let start := samples_start + 4 * (current_samples_in_packet c * talker_num_channels c) in
  exists r t', avb1722_create_packet info frame t = Some (r, t') /\ talker_inv inputs t' /\ same_talker_stream t t' /\
    (forall i, Z.of_nat i < talker_num_channels c ->
       word_le (tx_buf t') (start + 4 * Z.of_nat i) =
         Some (packed_sample (AVB1722_audioSampleType t) (channel_sample c frame i))) /\
    (forall o, samples_start <= o -> o + 4 <= start -> word_le (tx_buf t') o = word_le (tx_buf t) o) /\
    if current_samples_in_packet c + 1 =? spc then
      r = 50 + 4 * (spc * talker_num_channels c) /\ current_samples_in_packet (config t') = 0 /\
      rem_acc (config t') = next_rem c /\ timestamp_valid (config t') = 0 /\
      dbc_at_start_of_last_packet (config t') = s32 (dbc_at_start_of_last_packet c + spc) /\
      sealed (negb (kept_valid c =? 0)) (Z.land (dbc_at_start_of_last_packet c) 0xFF)
        (8 + 4 * (spc * talker_num_channels c)) (sent_time info frame c) (sequence_number c) (streamId0 c)
        (tx_buf t')
    else
      r = 0 /\ current_samples_in_packet (config t') = current_samples_in_packet c + 1 /\
      rem_acc (config t') = rem_acc c /\ timestamp_valid (config t') = kept_valid c /\
      timestamp (config t') = kept_time c frame /\
      dbc_at_start_of_last_packet (config t') = dbc_at_start_of_last_packet c.
Proof.
  intros Ht Hin c spc start. pose proof (samples_le_max inputs t Ht) as Hmax.
  destruct Ht as [Hm Hb Hf Hr Hcur Hroom Hfm]. fold c in Hm, Hb, Hf, Hr, Hcur, Hroom, Hmax.
  pose proof Hm as (_ & Hn & _). fold spc in Hcur, Hmax.
  destruct (put_frame_run start frame t) as (b1 & E1 & Hag1 & Hw1);
    [by rewrite Hin|unfold start, samples_start, Buf, AVB_ETHERNET_HDR_SIZE, AVB_TP_HDR_SIZE, AVB_CIP_HDR_SIZE; nia
     |unfold start in *; fold c; nia|].
  fold c in Hag1, Hw1.
  assert (52 <= start) as Hst by (unfold start; change samples_start with 52; nia).
  pose proof (formatted_outside _ _ _ _ Hst Hag1 Hfm) as Hfm1.
  assert (forall o, samples_start <= o -> o + 4 <= start -> word_le b1 o = word_le (tx_buf t) o) as Hold.
  { intros o Ho1 Ho2. change samples_start with 52 in Ho1.
    apply (word_le_outside start (4 * talker_num_channels c)); [done|lia|lia]. }
  unfold avb1722_create_packet. erewrite M_bind_run by reflexivity. cbv zeta. fold c. fold spc. fold start.
  erewrite M_bind_run by exact E1. fold (stamps c). fold (kept_valid c). fold (kept_time c frame).
  destruct (Z.eqb_spec (current_samples_in_packet c + 1) spc) as [E|E].
  - set (t1 := upd_config (upd_rem_acc (fun _ => next_rem c)) (upd_tx_buf (fun _ => b1) t)).
    assert (spc = if has_extra_sample c then samples_per_packet_base c + 1 else samples_per_packet_base c)
      as Espc by done.
    erewrite M_bind_run by reflexivity.
    erewrite (M_bind_run _ _ _ tt t1).
    2: { unfold t1, next_rem. pose proof (has_extra_iff c ltac:(lia)) as Ex. rewrite Espc.
         assert (forall r, u32 (rem_acc c + r) = (rem_acc c + r) mod 2 ^ 32) as Hu by done.
         destruct (has_extra_sample c); cbn [negb].
         - rewrite (proj2 (Z.ltb_lt _ _)) by lia. cbn [whenM]. unfold on_config, modify, upd_config, upd_rem_acc.
           cbn. fold c. change 65535 with (Z.ones 16). rewrite Z.land_ones, u32_small by lia. done.
         - rewrite Z.ltb_irrefl. cbn [whenM]. unfold skip, mret, M_ret, upd_config, upd_rem_acc. cbn. fold c.
           by rewrite u32_small by lia. }
    unfold AVB1722_CIP_HeaderGen.
    set (b2 := list_inserts 47 [u8 (Z.land (dbc_at_start_of_last_packet c) 255)] b1).
    assert (length b1 = length (tx_buf t)) as L1 by apply Hag1.
    erewrite M_bind_run.
    2: { change t1 with (upd_tx_buf (fun _ => b1) t1). apply (put_at _ _ b1 t1 47); [reflexivity|done|].
         rewrite L1. destruct Hfm as [Hl _]. change (pAVB1722Hdr + 3) with 47. cbn [length]. lia. }
    erewrite M_bind_run by reflexivity.
    set (t2 := upd_config (upd_dbc_at_start_of_last_packet (fun _ => s32 (dbc_at_start_of_last_packet c + spc)))
                 (upd_tx_buf (fun _ => b2) t1)).
    destruct (header_gen_run (negb (kept_valid c =? 0)) (Z.land (dbc_at_start_of_last_packet c) 255)
      (sent_time info frame c) (8 + 4 * (spc * talker_num_channels c)) (sequence_number c) (streamId0 c) b1 t2 Hfm1)
      as (b3 & E3 & Hag3 & Hs3).
    replace (AVB_CIP_HDR_SIZE + Z.shiftl (spc * talker_num_channels c) 2)
      with (8 + 4 * (spc * talker_num_channels c))
      by (unfold AVB_CIP_HDR_SIZE; rewrite Z.shiftl_mul_pow2 by lia; change (2 ^ 2) with 4; lia).
    unfold sent_time in E3.
    erewrite M_bind_run.
    2: { apply M_bind_Some in E3 as ([] & s3 & E3 & [= ->]). exact E3. }
    do 3 (erewrite M_bind_run by reflexivity).
    eexists _, _. split; [reflexivity|].
    assert (agree_outside 21 31 b1 b3) as Hag3' by done.
    split; [|split; [|split; [|split]]].
    + split; cbn; fold c; try done.
      * unfold next_rem. destruct (has_extra_sample c) eqn:Ex; rewrite has_extra_iff in Ex by lia.
        -- pose proof (Z.mod_pos_bound (rem_acc c + samples_per_packet_fractional c) 65536 eq_refl). lia.
        -- apply Z.leb_gt in Ex. lia.
      * change (0 <= 0 < samples_per_channel (upd_rem_acc (fun _ => next_rem c) c)).
        unfold samples_per_channel. change (samples_per_packet_base (upd_rem_acc _ c)) with (samples_per_packet_base c).
        match goal with |- context [if ?b then _ else _] => destruct b end; lia.
      * rewrite (proj1 Hag3'), L1. exact Hroom.
      * apply Hs3.
    + split; cbn; try done; [by rewrite (proj1 Hag3')|].
      rewrite (agree_take _ _ 20 _ _ Hag3') by lia. apply (agree_take _ _ 20 _ _ Hag1). lia.
    + intros i Hi. cbn. rewrite (word_le_outside 21 31 b1 b3) by (first [done|clearbody start; lia]). by apply Hw1.
    + intros o Ho1 Ho2. change samples_start with 52 in Ho1. cbn.
      rewrite (word_le_outside 21 31 b1 b3) by (done || lia). apply Hold; done.
    + cbn. split_and!; try done. change (AVB_ETHERNET_HDR_SIZE + AVB_TP_HDR_SIZE) with 42. lia.
  - do 3 (erewrite M_bind_run by reflexivity). eexists _, _. split; [reflexivity|].
    split; [|split; [|split; [|split]]].
    + split; cbn; fold c; try done.
      * unfold samples_per_channel, has_extra_sample. cbn. fold (has_extra_sample c) (samples_per_channel c).
        fold spc. lia.
      * by rewrite (proj1 Hag1).
    + split; cbn; try done; [apply Hag1|]. apply (agree_take _ _ 20 _ _ Hag1). lia.
    + intros i Hi. by apply Hw1.
    + intros o Ho1 Ho2. by apply Hold.
    + cbn. by split_and!.
Qed.
