(* ===== verification/TalkerStream.v ===== *)
(** A stream of the 1722 talker that is configured: its buffer holds the headers of
    its packets, and the invariant of TalkerSpec holds.  The stream it makes of its frames: how
    many samples its packets carry, and where they are in them. *)
From S2P Require Import Prelude Bytes PtpTime Listener1722 Talker1722 TalkerSpec AudioFifo.
From Stdlib Require Import ZArith Lia.
From stdpp Require Import base list list_numbers numbers.
#[local] Open Scope Z_scope.

(** A stream that has just been configured and has sent nothing. *)
Definition just_configured (c : avb1722_Talker_StreamConfig_t) : Prop :=
  current_samples_in_packet c = 0 /\ rem_acc c = 0 /\ dbc_at_start_of_last_packet c = 0.

(** * The buffer *)

Lemma inserts_in_prefix {A} (bs l rest : list A) : forall n,
  (n + length bs <= length l)%nat -> list_inserts n bs (l ++ rest) = list_inserts n bs l ++ rest.
Proof.
  induction bs as [|b bs IH]; intros n Hn; cbn [list_inserts]; [done|]. cbn in Hn.
  rewrite IH by lia. apply insert_app_l. rewrite length_inserts. lia.
Qed.

(** Writes that stay within the first part of the buffer. *)
Lemma put_app off bs l rest t n :
  Z.to_nat off = n -> (0 <=? off) = true -> (n + length bs <=? length l)%nat = true ->
  put off bs (upd_tx_buf (fun _ => l ++ rest) t) = Some (tt, upd_tx_buf (fun _ => list_inserts n bs l ++ rest) t).
Proof.
  intros <- H0%Z.leb_le Hl%Nat.leb_le. rewrite put_run by (cbn; rewrite ?length_app; lia).
  unfold upd_tx_buf. cbn. by rewrite inserts_in_prefix by lia.
Qed.

Lemma or_byte_app off v l rest t n b :
  Z.to_nat off = n -> (0 <=? off) = true -> l !! n = Some b ->
  or_byte off v (upd_tx_buf (fun _ => l ++ rest) t) =
    Some (tt, upd_tx_buf (fun _ => list_inserts n [u8 (Z.lor b v)] l ++ rest) t).
Proof.
  intros Hn H0 Hb. pose proof (lookup_lt_Some _ _ _ Hb). unfold or_byte.
  erewrite M_bind_run.
  - apply put_app; [done|done|]. apply Nat.leb_le. cbn. lia.
  - apply get_byte_run; [by apply Z.leb_le|]. rewrite Hn. cbn. by apply lookup_app_l_Some.
Qed.

Lemma set_vid_app vid l rest t b :
  l !! 16%nat = Some b -> (18 <=? length l)%nat = true ->
  set_vid vid (upd_tx_buf (fun _ => l ++ rest) t) =
    Some (tt, upd_tx_buf (fun _ => list_inserts 17 [u8 (Z.land vid 255)]
      (list_inserts 16 [u8 (Z.lor b (Z.land (Z.shiftr vid 8) 15))] l) ++ rest) t).
Proof.
  intros Hb Hl. unfold set_vid. erewrite M_bind_run by (by apply (or_byte_app _ _ _ _ _ 16)).
  apply put_app; [done|done|]. rewrite length_inserts. done.
Qed.

Ltac buf_step :=
  first [ erewrite M_bind_run by (apply put_app; reflexivity)
        | erewrite M_bind_run by (eapply or_byte_app; reflexivity)
        | erewrite M_bind_run by (eapply set_vid_app; reflexivity) ].

(** The two bytes of the VLAN tag behind [AVB_TPID], with priority 3. *)
Definition tagged (vlanid : Z) (b : list Z) : Prop :=
  b !! 16%nat = Some (u8 (Z.lor 0x60 (Z.land (Z.shiftr vlanid 8) 0xF))) /\ b !! 17%nat = Some (u8 (Z.land vlanid 0xFF)).

Lemma bufInit_run vlanid t :
  (52 <= length (tx_buf t))%nat -> length (destMACAdrs (config t)) = MAC_ADRS_BYTE_COUNT ->
  length (srcMACAdrs (config t)) = MAC_ADRS_BYTE_COUNT ->
  exists b, AVB1722_Talker_bufInit vlanid t =
      Some (tt, upd_AVB1722_audioSampleType (fun _ => (data_block_size (config t)).1) (upd_tx_buf (fun _ => b) t)) /\
    length b = length (tx_buf t) /\ formatted b /\ tagged vlanid b.
Proof.
  intros Hl Hd Hs. unfold AVB1722_Talker_bufInit. erewrite M_bind_run by reflexivity.
  destruct (data_block_size (config t)) as [ty dbs]. cbn [fst].
  erewrite M_bind_run by reflexivity.
  set (t1 := upd_AVB1722_audioSampleType (fun _ => ty) t).
  rewrite <- (take_drop 2 (tx_buf t)) in Hl. rewrite <- (take_drop 50 (drop 2 (tx_buf t))) in Hl.
  assert (length (take 2 (tx_buf t)) = 2%nat) as H2 by (rewrite length_take; rewrite !length_app, ?length_take, ?length_drop in Hl; lia).
  assert (exists l rest, tx_buf t = l ++ rest /\ length l = 52%nat) as (l & rest & Eb & Hl52).
  { exists (take 52 (tx_buf t)), (drop 52 (tx_buf t)). rewrite take_drop. split; [done|].
    rewrite length_take. rewrite !length_app, ?length_take, ?length_drop in Hl. lia. }
  clear Hl H2. 
  assert (t1 = upd_tx_buf (fun _ => l ++ rest) t1) as -> by (unfold t1; destruct t; cbn in *; by subst).
  rewrite Eb. clear Eb.
  destruct_len l Hl52. remember (destMACAdrs (config t)) as d eqn:Ed. remember (srcMACAdrs (config t)) as s eqn:Es.
  unfold MAC_ADRS_BYTE_COUNT in *. destruct_len d Hd. destruct_len s Hs.
  erewrite M_bind_run by (apply put_app; reflexivity).
  erewrite M_bind_run.
  2: { cbn [seq forM]. do 6 (erewrite M_bind_run; [|
         erewrite M_bind_run by reflexivity; erewrite M_bind_run by (apply put_app; reflexivity);
         erewrite M_bind_run by reflexivity; apply put_app; reflexivity]). reflexivity. }
  repeat buf_step.
  match goal with |- context [put _ ?bs (upd_tx_buf (fun _ => ?l ++ rest) _)] =>
    exists (list_inserts 50 bs l ++ rest) end.
  split; [by rewrite (put_app _ _ _ _ _ 50)|]. split; [|split; [split; [|split; [|split]]|split]].
  - rewrite !length_app, !length_inserts. reflexivity.
  - rewrite length_app, !length_inserts. cbn [length]. lia.
  - apply lookup_app_l_Some. reflexivity.
  - apply lookup_app_l_Some. reflexivity.
  - left. apply lookup_app_l_Some. reflexivity.
  - apply lookup_app_l_Some. reflexivity.
  - apply lookup_app_l_Some. reflexivity.
Qed.

(** The rates, and what a packet holds at each. *)
Lemma rates rate' interval :
  syt_interval rate' = Some interval ->
  (rate', interval, samples_per_packet rate') ∈
    [(8000, 1, 0x10000); (16000, 2, 0x20000); (32000, 8, 0x40000); (44100, 8, 0x58333); (48000, 8, 0x60000);
     (88200, 16, 0xb0666); (96000, 16, 0xc0000); (176400, 32, 0x160ccc); (192000, 32, 0x180000)].
Proof.
  unfold syt_interval. intros H.
  repeat match type of H with (if ?b then _ else _) = _ => destruct b eqn:? end; try done;
  injection H as <-; rewrite ?orb_true_iff, ?Z.eqb_eq in *;
  repeat match goal with H : _ \/ _ |- _ => destruct H end; subst; apply list_elem_of_In; vm_compute; tauto.
Qed.

(** Configuring a stream and its buffer establishes the invariant. *)
Lemma configure_talker_run set mac_addr vlanid t interval :
  syt_interval (set_rate set) = Some interval ->
  length mac_addr = MAC_ADRS_BYTE_COUNT -> length (set_destMACAdrs set) = MAC_ADRS_BYTE_COUNT ->
  length (talker_map (config t)) = AVB_MAX_CHANNELS_PER_TALKER_STREAM ->
  (length (set_map set) <= AVB_MAX_CHANNELS_PER_TALKER_STREAM)%nat ->
  (52 <= length (tx_buf t))%nat ->
  exists c b, configure_talker_stream set mac_addr (config t) = Some c /\
    let t1 := upd_config (fun _ => c) t in
    let t' := upd_AVB1722_audioSampleType (fun _ => (data_block_size c).1) (upd_tx_buf (fun _ => b) t1) in
    AVB1722_Talker_bufInit vlanid t1 = Some (tt, t') /\
    just_configured c /\ sequence_number c = 0 /\ timestamp_valid c = 0 /\ ts_interval c = interval /\
    talker_num_channels c = Z.of_nat (length (set_map set)) /\
    (forall i, (i < length (set_map set))%nat -> talker_map c !!! i = set_map set !!! i) /\
    samples_per_packet_base c = Z.shiftr (samples_per_packet (set_rate set)) 16 /\
    samples_per_packet_fractional c = Z.land (samples_per_packet (set_rate set)) 0xffff /\
    length b = length (tx_buf t) /\ tagged vlanid b /\
    forall inputs, Forall (fun m => 0 <= m < Z.of_nat inputs) (set_map set) ->
      samples_start + 4 * (max_samples c * talker_num_channels c) <= Z.of_nat (length (tx_buf t)) ->
      talker_inv inputs t'.
Proof.
  intros Hr Hmac Hd Hml Hml2 Hlen. unfold configure_talker_stream. rewrite Hr.
  pose proof (rates _ _ Hr) as Hrates.
  unfold MAC_ADRS_BYTE_COUNT in Hmac. destruct_len mac_addr Hmac. rewrite decide_True by (by split). set (c := {| talker_active := 1 |}).
  destruct (bufInit_run vlanid (upd_config (fun _ => c) t)) as (b & E & Lb & Hb & Htag);
    [exact Hlen|unfold c; cbn; by rewrite length_fmap|done|].
  exists c, b. split; [done|]. cbv zeta. change (config (upd_config (fun _ => c) t)) with c in E.
  assert (length (talker_map c) = AVB_MAX_CHANNELS_PER_TALKER_STREAM) as Hc8
    by (unfold c; cbn [talker_map]; by rewrite length_inserts).
  assert (forall i, (i < length (set_map set))%nat -> talker_map c !!! i = set_map set !!! i) as Hmap.
  { intros i Hi. unfold c. cbn [talker_map]. destruct (lookup_lt_is_Some_2 _ _ Hi) as [m Hm].
    rewrite (list_lookup_total_correct _ _ _ Hm). apply list_lookup_total_correct.
    rewrite list_lookup_inserts by lia. by rewrite Nat.sub_0_r. }
  assert (1 <= samples_per_packet_base c /\ 0 <= samples_per_packet_fractional c < 65536) as [Hbase Hfrac].
  { unfold c. cbn [samples_per_packet_base samples_per_packet_fractional].
    remember (samples_per_packet (set_rate set)) as tmp eqn:Etmp. clear -Hrates.
    do 9 (apply elem_of_cons in Hrates; destruct Hrates as [Hrates|Hrates];
            [injection Hrates as _ _ ->; split_and!; by vm_compute|]).
    by apply not_elem_of_nil in Hrates. }
  split_and!; try done.
  intros inputs Hin Hroom. split; cbn [config upd_AVB1722_audioSampleType upd_tx_buf upd_config tx_buf].
  - split; [done|]. split; [change (talker_num_channels c) with (Z.of_nat (length (set_map set))); lia|].
    change (talker_num_channels c) with (Z.of_nat (length (set_map set))).
    intros i Hi. rewrite Hmap by lia. destruct (lookup_lt_is_Some_2 (set_map set) i) as [m Hm]; [lia|].
    rewrite (list_lookup_total_correct _ _ _ Hm). exact (Forall_lookup_1 _ _ _ _ Hin Hm).
  - done.
  - done.
  - change (rem_acc c) with 0. lia.
  - change (0 <= 0 < samples_per_packet_base c). lia.
  - rewrite Lb. exact Hroom.
  - exact Hb.
Qed.

(** * A sample stream

    Two channels at a given rate, from the third and the first of four inputs. *)

Definition blank_talker : talker_unit :=
  MkTalker (MkTalkerStream 0 [] [] 0 0 0 (replicate 8 77) 0 0 0 0 0 0 0 0 0 0 0 0 0 0 0) (replicate 248 7) 0.

Definition sample_settings (rate' : Z) : talker_settings :=
  MkSettings MBLA_24BIT [0x91; 0xe0; 0xf0; 0; 0xfe; 1] 0 5 [2; 0] rate' 2000000.

Definition sample_talker (rate' : Z) : talker_unit :=
  match configure_talker_stream (sample_settings rate') [0; 0x22; 0x97; 0; 0; 1] (config blank_talker) with
  | Some c => match AVB1722_Talker_bufInit 2 (upd_config (fun _ => c) blank_talker) with
              | Some (_, t) => t
              | None => blank_talker
              end
  | None => blank_talker
  end.

Lemma sample_talker_inv rate' :
  rate' ∈ [8000; 16000; 32000; 44100; 48000] ->
  talker_inv 4 (sample_talker rate') /\ just_configured (config (sample_talker rate')).
Proof.
  intros Hr. assert (exists interval, syt_interval rate' = Some interval) as [interval Hi].
  { rewrite !elem_of_cons in Hr. destruct Hr as [->|[->|[->|[->|[->|[]%not_elem_of_nil]]]]]; by eexists. }
  destruct (configure_talker_run (sample_settings rate') [0; 0x22; 0x97; 0; 0; 1] 2 blank_talker interval)
    as (c & b & E1 & E2 & Hc & _ & _ & _ & _ & _ & H1 & H2 & _ & _ & Hinv); try done.
  { cbn. unfold AVB_MAX_CHANNELS_PER_TALKER_STREAM. lia. }
  { cbn. lia. }
  unfold sample_talker. rewrite E1, E2. split; [|done].
  apply Hinv.
  - repeat constructor; done.
  - rewrite !elem_of_cons in Hr.
    destruct Hr as [->|[->|[->|[->|[->|[]%not_elem_of_nil]]]]]; injection E1 as <-; by vm_compute.
Qed.

Definition sample_frame (k : nat) : audio_frame_t :=
  MkFrame (1000 * Z.of_nat k) [256 * Z.of_nat k + 5; 1; 0x12345600 + Z.of_nat k; 2].

Definition sample_time : ptp_time_info_mod64 := MkTimeInfo 0 0 500 0 0.

Definition sample_frames (n : nat) : list (ptp_time_info_mod64 * audio_frame_t) :=
  (fun k => (sample_time, sample_frame k)) <$> seq 0 n.

(** A frame, and the time information the talker has when it comes. *)
Abbreviation timed_frame := (ptp_time_info_mod64 * audio_frame_t)%type.

(** The frames one after the other; a complete packet is sent from the buffer
    behind the two alignment bytes, with its size. *)
Fixpoint talk (frames : list timed_frame) : M talker_unit (list (list Z * Z)) :=
  match frames with
  | [] => mret []
  | (info, frame) :: frames' =>
      r ← avb1722_create_packet info frame;
      t ← gets id;
      pkts ← talk frames';
      mret (if r =? 0 then pkts else (drop (Z.to_nat Buf) (tx_buf t), r) :: pkts)
  end.

Definition frames_ok (inputs : nat) (frames : list timed_frame) : Prop :=
  Forall (fun f => length (frame_samples f.2) = inputs) frames.

Lemma s32_add x y : s32 (s32 x + y) = s32 (x + y).
Proof.
  unfold s32, signed, wrap. change (2 ^ 32) with 4294967296. change (2 ^ (32 - 1)) with 2147483648.
  assert ((if x mod 4294967296 <? 2147483648 then x mod 4294967296 else x mod 4294967296 - 4294967296) + y
    = x + y + (- (x / 4294967296) + if x mod 4294967296 <? 2147483648 then 0 else -1) * 4294967296) as ->.
  { pose proof (Z.div_mod x 4294967296 ltac:(lia)). destruct (_ <? _); lia. }
  by rewrite Z_mod_plus_full.
Qed.

(** * Counting samples *)

(** The samples beyond the base in the first [P] packets. *)
Definition extra_samples (frac P : Z) : Z := frac * Z.max 0 (P - 1) / 65536.

(** After [m] frames and [P] packets, [E] of them with an extra sample. *)
Record counted (m P E : Z) (t : talker_unit) : Prop := {
  ct_frames : m = samples_per_packet_base (config t) * P + E + current_samples_in_packet (config t);
  ct_dbc : dbc_at_start_of_last_packet (config t) = s32 (samples_per_packet_base (config t) * P + E);
  ct_packets : 0 <= P;
  ct_half : 2 * E + (if has_extra_sample (config t) then 1 else 0) <= P;
  ct_exact : samples_per_packet_fractional (config t) <= 32768 ->
    rem_acc (config t) = samples_per_packet_fractional (config t) * P - 65536 * E /\
    E = extra_samples (samples_per_packet_fractional (config t)) P;
}.

Lemma configured_counted inputs t : talker_inv inputs t -> just_configured (config t) -> counted 0 0 0 t.
Proof.
  intros Ht (H1 & H2 & H3). split; rewrite ?H1, ?H2, ?H3; [lia|by rewrite Z.mul_0_r|lia| |].
  - rewrite has_extra_iff by (rewrite H2; lia). rewrite H2. cbn. lia.
  - intros _. split; [lia|]. unfold extra_samples. cbn. by rewrite Z.mul_0_r.
Qed.

(** One more frame. *)
Lemma counted_step inputs info frame t m P E :
  talker_inv inputs t -> length (frame_samples frame) = inputs -> counted m P E t ->
  exists r t' P' E', avb1722_create_packet info frame t = Some (r, t') /\ talker_inv inputs t' /\
    same_talker_stream t t' /\ counted (m + 1) P' E' t' /\ P' = (if r =? 0 then P else P + 1) /\
    ((r =? 0) = false -> length (drop (Z.to_nat Buf) (tx_buf t')) = (length (tx_buf t) - 2)%nat).
Proof.
  intros Ht Hin [C1 C2 C3 C4 C5].
  destruct (create_packet_run inputs info frame t Ht Hin) as (r & t' & E1 & Ht' & Hss & _ & _ & Hend).
  exists r, t'. destruct Ht as [Hm Hb Hf Hr Hcur Hroom Hfm]. destruct Hss as [S1 S2 S3 S4 S5 S6 S7 S8 S9 S10 S11].
  set (c := config t) in *. set (spc := samples_per_channel c) in *.
  pose proof (has_extra_iff c ltac:(lia)) as Ex.
  assert (spc = samples_per_packet_base c + if has_extra_sample c then 1 else 0) as Espc
    by (unfold spc, samples_per_channel; destruct (has_extra_sample c); lia).
  pose proof Hm as (_ & Hn & _). fold c in S3, S4.
  assert (0 <= rem_acc (config t') < 2 ^ 32) as Hr' by (destruct Ht'; lia).
  destruct (Z.eqb_spec (current_samples_in_packet c + 1) spc) as [Ec|Ec].
  - destruct Hend as (-> & F1 & F2 & _ & F3 & _).
    assert ((50 + 4 * (spc * talker_num_channels c) =? 0) = false) as Hr0 by (apply Z.eqb_neq; nia).
    rewrite Hr0. exists (P + 1), (E + if has_extra_sample c then 1 else 0).
    split_and!; try done; [|intros _; rewrite length_drop, S9; reflexivity].
    pose proof (has_extra_iff (config t') Hr') as Ex'.
    split; rewrite ?S3, ?S4, ?F1, ?F2, ?F3.
    + lia.
    + rewrite C2, s32_add. f_equal. lia.
    + lia.
    + revert C4. rewrite Ex', F2. unfold next_rem. rewrite Ex.
      destruct (Z.leb_spec 65536 (rem_acc c)) as [Hx|Hx].
      * pose proof (Z.mod_pos_bound (rem_acc c + samples_per_packet_fractional c) 65536 eq_refl).
        rewrite (proj2 (Z.leb_gt _ _)) by lia. lia.
      * match goal with |- context [65536 <=? ?x] => destruct (65536 <=? x) end; lia.
    + intros Hle. destruct (C5 Hle) as [C6 C7]. unfold next_rem, extra_samples in *. rewrite Ex.
      rewrite Z.max_r by lia. replace (P + 1 - 1) with P by lia.
      destruct (Z.leb_spec 65536 (rem_acc c)) as [Hx|Hx].
      * split; [|apply (Z.div_unique _ _ _ (rem_acc c - 65536)); lia].
        replace (rem_acc c + samples_per_packet_fractional c)
          with (rem_acc c + samples_per_packet_fractional c - 65536 + 1 * 65536) by lia.
        rewrite Z_mod_plus_full, Z.mod_small by lia. lia.
      * split; [lia|]. apply (Z.div_unique _ _ _ (rem_acc c)); lia.
  - destruct Hend as (-> & F1 & F2 & _ & _ & F3). cbn [Z.eqb]. exists P, E.
    split_and!; try done. split; rewrite ?S3, ?S4, ?F1, ?F2, ?F3; try done; [lia|].
    rewrite (has_extra_iff (config t')), F2, <- Ex by done. done.
Qed.

Lemma talk_counted inputs frames : forall t m P E,
  talker_inv inputs t -> frames_ok inputs frames -> counted m P E t ->
  exists pkts t' E', talk frames t = Some (pkts, t') /\ talker_inv inputs t' /\ same_talker_stream t t' /\
    counted (m + Z.of_nat (length frames)) (P + Z.of_nat (length pkts)) E' t'.
Proof.
  induction frames as [|[info frame] frames IH]; intros t m P E Ht Hok Hc; cbn [talk].
  - exists [], t, E. cbn. rewrite !Z.add_0_r. by split_and!.
  - apply list.Forall_cons in Hok as [Hin Hok].
    destruct (counted_step inputs info frame t m P E Ht Hin Hc)
      as (r & t1 & P1 & E1 & Er & Ht1 & Hs1 & Hc1 & HP1 & _).
    destruct (IH t1 (m + 1) P1 E1 Ht1 Hok Hc1) as (pkts & t' & E' & Et & Ht' & Hs' & Hc').
    eexists _, t', E'. split; [|split; [done|split; [by etrans|]]].
    + erewrite M_bind_run by exact Er. erewrite M_bind_run by reflexivity.
      erewrite M_bind_run by exact Et. reflexivity.
    + replace (m + Z.of_nat (length ((info, frame) :: frames))) with (m + 1 + Z.of_nat (length frames))
        by (rewrite length_cons; lia).
      replace (P + Z.of_nat (length _)) with (P1 + Z.of_nat (length pkts)); [done|].
      destruct (r =? 0); rewrite ?length_cons; lia.
Qed.

(** C9: a talker takes every frame, without undefined behaviour, and its packets
    account for all of them: with a base of [b] samples per packet and a fraction
    of at most one half, the first [P] packets carry [b * P] samples and the whole
    part of the fractions before the last, and the rest waits in the packet under
    construction. The data block counter counts the samples sent. *)
Theorem talker_sample_count inputs frames t :
  talker_inv inputs t -> just_configured (config t) -> frames_ok inputs frames ->
  samples_per_packet_fractional (config t) <= 32768 ->
  exists pkts t', talk frames t = Some (pkts, t') /\ talker_inv inputs t' /\
    let P := Z.of_nat (length pkts) in
    let sent := samples_per_packet_base (config t) * P +
                extra_samples (samples_per_packet_fractional (config t)) P in
    Z.of_nat (length frames) = sent + current_samples_in_packet (config t') /\
    0 <= current_samples_in_packet (config t') < samples_per_channel (config t') /\
    dbc_at_start_of_last_packet (config t') = s32 sent.
Proof.
  intros Ht Hf Hok Hle.
  destruct (talk_counted inputs frames t 0 0 0 Ht Hok (configured_counted _ _ Ht Hf))
    as (pkts & t' & E' & Et & Ht' & [S1 S2 S3 S4 S5 S6 S7 S8 S9 S10 S11] & [C1 C2 C3 C4 C5]).
  rewrite S4 in C5. destruct (C5 Hle) as [_ ->]. rewrite S3 in C1, C2.
  rewrite !Z.add_0_l in *. exists pkts, t'. split; [done|]. split; [done|]. cbv zeta.
  split; [exact C1|]. split; [apply Ht'|done].
Qed.

(** Whatever the fraction, at most every second packet has a sample more than
    the base. A stream at 44.1 kHz, which needs [5.5125] samples in the average
    packet, therefore fills more packets than the 8000 a second its reservation
    is for: a second of frames makes 8018 or more. *)
Theorem talker_packets_at_least inputs frames t pkts t' :
  talker_inv inputs t -> just_configured (config t) -> frames_ok inputs frames ->
  talk frames t = Some (pkts, t') ->
  2 * Z.of_nat (length frames) <=
    (2 * samples_per_packet_base (config t) + 1) * Z.of_nat (length pkts) +
    2 * samples_per_packet_base (config t) /\
  (samples_per_packet_base (config t) = Z.shiftr (samples_per_packet 44100) 16 ->
   44100 <= Z.of_nat (length frames) -> AVB1722_PACKET_RATE + 18 <= Z.of_nat (length pkts)).
Proof.
  intros Ht Hf Hok Et.
  destruct (talk_counted inputs frames t 0 0 0 Ht Hok (configured_counted _ _ Ht Hf))
    as (pkts' & t1 & E' & Et1 & Ht1 & [S1 S2 S3 S4 S5 S6 S7 S8 S9 S10 S11] & [C1 C2 C3 C4 C5]).
  rewrite Et in Et1. injection Et1 as <- <-. rewrite S3, !Z.add_0_l in *.
  pose proof (ti_current _ _ Ht1) as Hcur. unfold samples_per_channel in Hcur. rewrite S3 in Hcur.
  assert (2 * Z.of_nat (length frames) <=
    (2 * samples_per_packet_base (config t) + 1) * Z.of_nat (length pkts) +
    2 * samples_per_packet_base (config t)) as H
    by (revert Hcur C4; destruct (has_extra_sample (config t')); lia).
  split; [exact H|]. intros Hb Hlen. change (Z.shiftr (samples_per_packet 44100) 16) with 5 in Hb.
  rewrite Hb in H. unfold AVB1722_PACKET_RATE. lia.
Qed.

(** * Sample streams *)

Lemma sample_frames_ok n : frames_ok 4 (sample_frames n).
Proof. apply Forall_fmap, Forall_true. done. Qed.

(** Twenty frames at 48 kHz: three packets, and two samples wait. *)
Lemma talker_sample_count_witness :
  exists pkts t', talk (sample_frames 20) (sample_talker 48000) = Some (pkts, t') /\
    length pkts = 3%nat /\ 20 = 6 * 3 + current_samples_in_packet (config t') /\
    dbc_at_start_of_last_packet (config t') = 18.
Proof.
  destruct (sample_talker_inv 48000) as [Hi Hc]; [by vm_compute; repeat constructor|].
  destruct (talker_sample_count 4 (sample_frames 20) (sample_talker 48000) Hi Hc (sample_frames_ok 20))
    as (pkts & t' & E & _ & H1 & _ & H2); [by vm_compute|].
  assert (length <$> (fst <$> talk (sample_frames 20) (sample_talker 48000)) = Some 3%nat) as Hl
    by (vm_compute; reflexivity).
  rewrite E in Hl. cbn in Hl. injection Hl as Hl. rewrite Hl in H1, H2.
  exists pkts, t'. split; [exact E|]. split; [exact Hl|]. split; [exact H1|exact H2].
Defined.

(** At 44.1 kHz 112 frames fill twenty packets. *)
Lemma talker_packets_at_least_witness :
  exists pkts t', talk (sample_frames 112) (sample_talker 44100) = Some (pkts, t') /\
    2 * 112 <= 11 * Z.of_nat (length pkts) + 10.
Proof.
  destruct (sample_talker_inv 44100) as [Hi Hc]; [by vm_compute; repeat constructor|].
  assert (is_Some (talk (sample_frames 112) (sample_talker 44100))) as [[pkts t'] E]
    by (vm_compute; eexists; reflexivity).
  exists pkts, t'. split; [exact E|].
  destruct (talker_packets_at_least 4 (sample_frames 112) (sample_talker 44100) pkts t' Hi Hc
    (sample_frames_ok 112) E) as [H _].
  exact H.
Defined.
