(* ===== verification/TalkerListener.v ===== *)
(** A talker's packets at a listener: what one packs the other unpacks. *)
From S2P Require Import Prelude Bytes PtpTime AudioFifo AudioFifoSpec AudioFifoSafe Listener1722 Listener1722Spec Talker1722 TalkerSpec TalkerStream.
From Stdlib Require Import ZArith Lia.
From stdpp Require Import base list list_numbers numbers.
#[local] Open Scope Z_scope.

(** * Samples *)

Lemma byterev_involutive y : 0 <= y < 2 ^ 32 -> byterev (byterev y) = y.
Proof.
  intros Hy. pose proof (le_bytes_byterev y) as E. set (z := byterev y) in *.
  rewrite !le_bytes_succ in E. injection E as E0 E1 E2 E3.
  assert (z / 256 / 256 = z / 2 ^ 16) as D2 by (by rewrite Z.div_div by lia).
  rewrite D2, (Z.div_div z (2 ^ 16) 256) in E3 by lia. rewrite D2 in E2.
  rewrite byterev_value. change (2 ^ 16 * 256) with (2 ^ 24) in E3. change (2 ^ 8) with 256 in *.
  rewrite E0, E1, E2, E3. clear -Hy. Z.to_euclidean_division_equations. lia.
Qed.

(** What is left of a sample: the stream carries 24 bits. *)
Definition without_low_byte (x : Z) : Z := Z.shiftl (Z.shiftr x 8) 8.

Lemma convert_packed `{cfg : FifoConfig} x :
  AVB_1722_FORMAT_SAF = false -> 0 <= x < 2 ^ 32 ->
  convert_sample 1 (packed_sample MBLA_24BIT x) = without_low_byte x.
Proof.
  intros Hsaf Hx. unfold convert_sample, packed_sample, without_low_byte. rewrite Hsaf.
  rewrite Z.shiftr_div_pow2 by lia. change (2 ^ 8) with 256. set (h := x / 256).
  assert (0 <= h < 2 ^ 24) as Hh by (unfold h; Z.to_euclidean_division_equations; lia).
  rewrite Z.lor_comm. change MBLA_24BIT with (Z.shiftl 1 30).
  rewrite lor_shiftl_add, byterev_involutive, (s32_small (1 * 2 ^ 30 + h)) by lia.
  rewrite Z.mul_1_r, !Z.shiftl_mul_pow2 by lia. change (2 ^ 8) with 256.
  assert (u32 (s32 (s32 ((1 * 2 ^ 30 + h) * 256))) = u32 ((1 * 2 ^ 30 + h) * 256)) as ->.
    by rewrite !u32_s32.
  unfold u32, wrap. replace ((1 * 2 ^ 30 + h) * 256) with (h * 256 + 64 * 2 ^ 32) by lia.
  rewrite Z_mod_plus_full. apply Z.mod_small. lia.
Qed.

(** * The headers of a packet *)

Lemma at_packet (b pad : list Z) n x : b !! (2 + n)%nat = Some x -> (drop 2 b ++ pad) !!! n = x.
Proof.
  intros H. apply list_lookup_total_correct, lookup_app_l_Some. by rewrite lookup_drop.
Qed.

(** What the listener reads from a complete packet. *)
Lemma fields_of_sealed tv dbc' q ts seq sid b pad :
  sealed tv dbc' (8 + 4 * q) ts seq sid b -> 0 <= q < 2 ^ 13 -> 0 <= dbc' < 256 ->
  fields_of (drop 2 b ++ pad) = MkFields 18 0 0 1 (if tv then 1 else 0) dbc' q.
Proof.
  intros [(Hl & H14 & H20 & _) Hv _ _ _ Hl0 Hl1 Hd] Hq Hdb.
  assert (header_size (drop 2 b ++ pad) = 18) as Hh by (unfold header_size; by rewrite (at_packet _ _ _ _ H14)).
  unfold fields_of. rewrite Hh. cbv zeta.
  change (Z.to_nat (18 + off_version_flags)) with 19%nat. change (Z.to_nat (18 + off_subtype)) with 18%nat.
  change (Z.to_nat (18 + off_DBC)) with 45%nat. change (Z.to_nat (18 + off_packet_data_length)) with 38%nat.
  change (Z.to_nat (18 + (off_packet_data_length + 1))) with 39%nat.
  rewrite (at_packet _ _ 19 _ Hv), (at_packet _ _ 18 _ H20), (at_packet _ _ 45 _ Hd),
    (at_packet _ _ 38 _ Hl0), (at_packet _ _ 39 _ Hl1).
  rewrite u8_small by done.
  assert (Z.shiftr (Z.lor (Z.shiftl (u8 (Z.shiftr (8 + 4 * q) 8)) 8) (u8 (Z.land (8 + 4 * q) 0xFF)) - 8) 2 = q) as ->.
  { rewrite land_255, (u8_small (_ mod _)) by (apply Z.mod_pos_bound; lia).
    rewrite (Z.shiftr_div_pow2 (8 + 4 * q)) by lia.
    rewrite u8_small by (change (2 ^ 8) with 256; Z.to_euclidean_division_equations; lia).
    rewrite lor_shiftl_add by (change (2 ^ 8) with 256; try lia; apply Z.mod_pos_bound; lia).
    change (2 ^ 8) with 256. rewrite Z.shiftr_div_pow2 by lia. change (2 ^ 2) with 4.
    Z.to_euclidean_division_equations. lia. }
  by destruct tv.
Qed.

(** * One packet *)

(** The stamp a packet has after more frames, of which the first is number [cur]
    of the packet: that of the last frame on the interval. *)
Fixpoint stamp (interval dbc' cur : Z) (st : Z * Z) (frames : list timed_frame) : Z * Z :=
  match frames with
  | [] => st
  | f :: frames' =>
      stamp interval dbc' (cur + 1)
        (if Z.land (u32 (dbc' + cur)) (u32 (interval - 1)) =? 0 then (1, frame_timestamp f.2) else st) frames'
  end.

(** The time information when a packet is completed. *)
Definition last_info (frames : list timed_frame) : option ptp_time_info_mod64 := option_map fst (list.last frames).

Definition sent_stamp (c : avb1722_Talker_StreamConfig_t) (frames : list timed_frame) (st : Z * Z) : Z :=
  match last_info frames with
  | Some info =>
      if negb (st.1 =? 0) then u32 (local_timestamp_to_ptp_mod32 st.2 info + presentation_delay c) else 0
  | None => 0
  end.

(** The frames that complete a packet: their words are in the packet that is sent. *)
Lemma talk_packet inputs frames : forall t,
  talker_inv inputs t -> frames_ok inputs frames -> frames <> [] ->
  let c := config t in
  let spc := samples_per_channel c in
  let q := spc * talker_num_channels c in
  current_samples_in_packet c + Z.of_nat (length frames) = spc ->
  let st := stamp (ts_interval c) (dbc_at_start_of_last_packet c) (current_samples_in_packet c)
              (timestamp_valid c, timestamp c) frames in
  exists t', talk frames t = Some ([(drop 2 (tx_buf t'), 50 + 4 * q)], t') /\
    talker_inv inputs t' /\ same_talker_stream t t' /\
    current_samples_in_packet (config t') = 0 /\ rem_acc (config t') = next_rem c /\
    timestamp_valid (config t') = 0 /\
    dbc_at_start_of_last_packet (config t') = s32 (dbc_at_start_of_last_packet c + spc) /\
    (exists seq, sealed (negb (st.1 =? 0)) (Z.land (dbc_at_start_of_last_packet c) 0xFF) (8 + 4 * q)
                   (sent_stamp c frames st) seq (streamId0 c) (tx_buf t')) /\
    (forall o, samples_start <= o ->
       o + 4 <= samples_start + 4 * (current_samples_in_packet c * talker_num_channels c) ->
       word_le (tx_buf t') o = word_le (tx_buf t) o) /\
    forall a i f, frames !! a = Some f -> Z.of_nat i < talker_num_channels c ->
      word_le (tx_buf t')
        (samples_start + 4 * ((current_samples_in_packet c + Z.of_nat a) * talker_num_channels c + Z.of_nat i)) =
      Some (packed_sample (AVB1722_audioSampleType t) (channel_sample c f.2 i)).
Proof.
  induction frames as [|[info frame] frames IH]; [done|]. intros t Ht Hok _ c spc q Hcur st.
  apply list.Forall_cons in Hok as [Hin Hok]. cbn [snd] in Hin. rewrite length_cons in Hcur.
  destruct (create_packet_run inputs info frame t Ht Hin) as (r & t1 & Er & Ht1 & Hs1 & Hw1 & Hold1 & Hend).
  fold c in Hw1, Hold1, Hend. fold spc in Hend.
  pose proof Ht as [Hm Hb Hf Hr Hc Hroom Hfm]. fold c in Hm, Hb, Hf, Hr, Hc, Hroom. fold spc in Hc.
  pose proof Hm as (_ & Hn & _).
  pose proof Hs1 as [S1 S2 S3 S4 S5 S6 S7 S8 S9 S10 S11]. fold c in S1, S2, S3, S4, S5, S6, S7.
  assert (st = stamp (ts_interval c) (dbc_at_start_of_last_packet c) (current_samples_in_packet c + 1)
    (kept_valid c, kept_time c frame) frames) as Est.
  { unfold st, kept_valid, kept_time, stamps. cbn [stamp snd].
    match goal with |- context [Z.land ?a ?b =? 0] => by destruct (Z.land a b =? 0) end. }
  cbn [talk]. destruct (Z.eqb_spec (current_samples_in_packet c + 1) spc) as [E|E].
  - destruct frames; [|rewrite length_cons in Hcur; lia].
    destruct Hend as (-> & F1 & F2 & F3 & F4 & Hseal). exists t1.
    split.
    { erewrite M_bind_run by exact Er. erewrite M_bind_run by reflexivity. cbn [talk].
      erewrite M_bind_run by reflexivity. change (spc * talker_num_channels c) with q.
      rewrite (proj2 (Z.eqb_neq (50 + 4 * q) 0)) by (unfold q; nia). done. }
    split_and!; try done.
    + exists (sequence_number c). rewrite Est. exact Hseal.
    + intros a i f Ha Hi. destruct a as [|a]; [|done]. injection Ha as <-.
      cbn [snd]. rewrite <- (Hw1 i Hi). f_equal. lia.
  - destruct Hend as (-> & F1 & F2 & F3 & F4 & F5).
    assert (frames <> []) as Hne by (intros ->; cbn in Hcur; lia).
    assert (samples_per_channel (config t1) = spc) as Espc
      by (unfold spc, samples_per_channel, has_extra_sample; by rewrite F2, S3).
    specialize (IH t1 Ht1 Hok Hne). cbv zeta in IH. rewrite Espc, F1, F5, S1, S5, F3, F4 in IH.
    destruct IH as (t' & Et & Ht' & Hs' & G1 & G2 & G3 & G4 & (seq & Hseal) & Hold' & Hw'); [lia|].
    exists t'. split.
    { erewrite M_bind_run by exact Er. erewrite M_bind_run by reflexivity.
      erewrite M_bind_run by exact Et. done. }
    split; [done|]. split; [by etrans|]. split; [done|]. split.
    { rewrite G2. unfold next_rem, has_extra_sample. by rewrite F2, S4. }
    split; [done|]. split; [done|]. split; [|split].
    + exists seq. rewrite Est. rewrite S6 in Hseal.
      replace (sent_stamp c ((info, frame) :: frames) _) with
        (sent_stamp (config t1) frames (stamp (ts_interval c) (dbc_at_start_of_last_packet c)
           (current_samples_in_packet c + 1) (kept_valid c, kept_time c frame) frames)); [exact Hseal|].
      unfold sent_stamp, last_info. rewrite S7. destruct frames; [done|]. reflexivity.
    + intros o Ho1 Ho2. rewrite Hold' by nia. by apply Hold1.
    + intros a i f Ha Hi. destruct a as [|a].
      * injection Ha as <-. rewrite Hold' by (change samples_start with 52; nia).
        cbn [snd]. rewrite <- (Hw1 i Hi). f_equal. lia.
      * specialize (Hw' a i f Ha Hi). rewrite S8 in Hw'. unfold channel_sample in Hw' |- *. rewrite S2 in Hw'.
        rewrite <- Hw'. f_equal. lia.
Qed.

(** The words of one channel. *)
Lemma sealed_words (b pad : list Z) n i (g : timed_frame -> Z) frames :
  0 < n -> Z.of_nat i < n ->
  (forall a f, frames !! a = Some f ->
     word_le b (samples_start + 4 * (Z.of_nat a * n + Z.of_nat i)) = Some (g f)) ->
  strided_words (drop 2 b ++ pad) (18 + 32 + 4 * Z.of_nat i) n (Z.of_nat (length frames) * n) =
    Some (g <$> frames).
Proof.
  intros Hn Hi Hw. unfold strided_words. apply mapM_Some_2.
  assert ((Z.of_nat (length frames) * n + n - 1) / n = Z.of_nat (length frames)) as ->.
  { symmetry. apply (Z.div_unique _ _ _ (n - 1)); lia. }
  apply Forall2_same_length_lookup_2; [rewrite length_seqZ, length_fmap; lia|].
  intros a k x Hk Hx. apply list_lookup_fmap_Some in Hx as (f & -> & Hf).
  apply lookup_seqZ in Hk as [-> _].
  rewrite <- (Hw a f Hf). change samples_start with 52.
  assert (forall o, 0 <= o -> is_Some (word_le b (o + 2)) -> word_le (drop 2 b ++ pad) o = word_le b (o + 2)) as Hshift.
  { intros o Ho [y Hy]. apply word_le_ext; [lia|done|]. intros j Hj.
    assert (Z.to_nat o + 6 <= length b)%nat as Hl.
    { revert Hy. unfold word_le. rewrite (proj2 (Z.leb_le _ _)) by lia.
      assert (length (take 4 (drop (Z.to_nat (o + 2)) b)) = Nat.min 4 (length b - Z.to_nat (o + 2))) as Hlen
        by (by rewrite length_take, length_drop).
      remember (take 4 _) as q4 eqn:Eq. clear Eq.
      destruct q4 as [|? [|? [|? [|? ?]]]]; try done. rewrite !length_cons in Hlen. intros _. lia. }
    rewrite lookup_app_l by (rewrite length_drop; lia). rewrite lookup_drop.
    by replace (Z.to_nat (o + 2) + j)%nat with (2 + (Z.to_nat o + j))%nat by lia. }
  replace (52 + 4 * (Z.of_nat a * n + Z.of_nat i)) with (18 + 32 + 4 * Z.of_nat i + 4 * n * (0 + Z.of_nat a) + 2) by lia.
  apply Hshift; [nia|].
  replace (18 + 32 + 4 * Z.of_nat i + 4 * n * (0 + Z.of_nat a) + 2)
    with (samples_start + 4 * (Z.of_nat a * n + Z.of_nat i)) by (change samples_start with 52; lia).
  rewrite (Hw a f Hf). by eexists.
Qed.

(** * The listener at the other end *)

Definition word_ok (x : Z) : Prop := 0 <= x < 2 ^ 32.
Definition samples_ok (frames : list timed_frame) : Prop :=
  Forall (fun f => Forall word_ok (frame_samples f.2)) frames.

Lemma channel_sample_ok inputs c f i :
  map_ok c inputs -> length (frame_samples f) = inputs -> Forall word_ok (frame_samples f) ->
  Z.of_nat i < talker_num_channels c -> word_ok (channel_sample c f i).
Proof.
  intros (_ & _ & Hm) Hin Hok Hi. unfold channel_sample. pose proof (Hm i Hi).
  destruct (lookup_lt_is_Some_2 (frame_samples f) (Z.to_nat (talker_map c !!! i))) as [x Hx]; [lia|].
  rewrite (list_lookup_total_correct _ _ _ Hx). exact (Forall_lookup_1 _ _ _ _ Hok Hx).
Qed.

(** A packet of a stream with channels, as it lies in the listener's buffer: the
    rest [pad] of the buffer has room for the channels of one more sample. *)
Definition room_behind (pad : list Z) : Prop := (32 <= length pad)%nat.

Lemma talk_packet_fields inputs frames t :
  talker_inv inputs t -> frames_ok inputs frames -> current_samples_in_packet (config t) = 0 ->
  Z.of_nat (length frames) = samples_per_channel (config t) ->
  0 < talker_num_channels (config t) ->
  samples_per_channel (config t) * talker_num_channels (config t) < 2 ^ 13 ->
  let c := config t in
  let q := samples_per_channel c * talker_num_channels c in
  let st := stamp (ts_interval c) (dbc_at_start_of_last_packet c) 0 (timestamp_valid c, timestamp c) frames in
  exists t', talk frames t = Some ([(drop 2 (tx_buf t'), 50 + 4 * q)], t') /\
    talker_inv inputs t' /\ same_talker_stream t t' /\ current_samples_in_packet (config t') = 0 /\
    rem_acc (config t') = next_rem c /\ timestamp_valid (config t') = 0 /\
    dbc_at_start_of_last_packet (config t') = s32 (dbc_at_start_of_last_packet c + samples_per_channel c) /\
    (forall pad, room_behind pad ->
      let pkt := drop 2 (tx_buf t') ++ pad in
      fields_of pkt = MkFields 18 0 0 1 (if negb (st.1 =? 0) then 1 else 0)
                        (Z.land (dbc_at_start_of_last_packet c) 0xFF) q /\
      take 4 (drop 30 pkt) = hton_32 (if negb (st.1 =? 0) then sent_stamp c frames st else 0) /\
      13 <= Z.of_nat (length pkt) /\ 50 + 4 * q <= Z.of_nat (length pkt) /\ payload_fits pkt /\
      acceptable pkt (50 + 4 * q) = true) /\
    forall a i f, frames !! a = Some f -> Z.of_nat i < talker_num_channels c ->
      word_le (tx_buf t') (samples_start + 4 * (Z.of_nat a * talker_num_channels c + Z.of_nat i)) =
      Some (packed_sample (AVB1722_audioSampleType t) (channel_sample c f.2 i)).
Proof.
  intros Ht Hok Hcur Hlen Hnch Hq c q st. pose proof (samples_le_max inputs t Ht) as Hmax. fold c in Hmax.
  pose proof (ti_current _ _ Ht) as Hspc. fold c in Hspc, Hcur, Hlen, Hnch, Hq.
  assert (frames <> []) as Hne by (intros ->; cbn in Hlen; lia).
  pose proof (talk_packet inputs frames t Ht Hok Hne) as H. cbv zeta in H. fold c in H. rewrite Hcur in H.
  destruct H as (t' & Et & Ht' & Hs & G1 & G2 & G3 & G4 & (seq & Hseal) & _ & Hw); [lia|].
  fold st in Hseal. fold q in Et, Hseal.
  exists t'. split; [exact Et|]. split; [done|]. split; [done|]. split; [done|]. split; [done|]. split; [done|].
  split; [done|]. split.
  - intros pad Hpad pkt.
    assert (0 <= q < 2 ^ 13) as Hq' by (unfold q; nia).
    assert (0 <= Z.land (dbc_at_start_of_last_packet c) 0xFF < 256) as Hd
      by (rewrite land_255; apply Z.mod_pos_bound; lia).
    pose proof (fields_of_sealed _ _ _ _ _ _ _ pad Hseal Hq' Hd) as Hfields. fold pkt in Hfields.
    assert (52 + 4 * q <= Z.of_nat (length (tx_buf t'))) as Hroom.
    { pose proof (ti_room _ _ Ht) as Hroom. fold c in Hroom. rewrite (ss_length _ _ Hs).
      change samples_start with 52 in Hroom. unfold q. nia. }
    assert (Z.of_nat (length pkt) = Z.of_nat (length (tx_buf t')) - 2 + Z.of_nat (length pad)) as Hpl
      by (unfold pkt; rewrite length_app, length_drop; lia).
    unfold room_behind in Hpad.
    split; [exact Hfields|]. split; [|split; [lia|split; [lia|split]]].
    + rewrite <- (sl_ts _ _ _ _ _ _ _ Hseal). unfold pkt. rewrite drop_app_le by (rewrite length_drop; lia).
      rewrite drop_drop, take_app_le by (rewrite length_drop; lia). done.
    + unfold payload_fits. rewrite Hfields. cbn [f_hdr f_quadlets].
      unfold AVB_TP_HDR_SIZE, AVB_CIP_HDR_SIZE, AVB_MAX_CHANNELS_PER_LISTENER_STREAM. lia.
    + unfold acceptable. rewrite Hfields. cbn [f_hdr f_version f_cd f_sv].
      unfold AVB_TP_HDR_SIZE, AVB_CIP_HDR_SIZE. rewrite (proj2 (Z.leb_gt _ _)); [done|]. unfold q. nia.
  - intros a i f Ha Hi. specialize (Hw a i f Ha Hi). rewrite Z.add_0_l in Hw. exact Hw.
Qed.

Section Listen.
  Context `{cfg : FifoConfig}.
  Hypothesis format_61883_6 : AVB_1722_FORMAT_SAF = false.

(** C6: what goes in at the talker comes out at the listener. The frames of one
    packet, sent and received by a listener that is locked to the number of
    channels, end up in the FIFOs: the FIFO of each of its channels - if it belongs
    to no other, and is not being cleared - gets the samples of that channel, one
    for each frame and in order, without their lowest byte. *)
Theorem talker_listener_roundtrip inputs frames t l pad i j s :
  talker_inv inputs t -> frames_ok inputs frames -> samples_ok frames ->
  current_samples_in_packet (config t) = 0 -> Z.of_nat (length frames) = samples_per_channel (config t) ->
  AVB1722_audioSampleType t = MBLA_24BIT ->
  samples_per_channel (config t) * talker_num_channels (config t) < 2 ^ 13 ->
  listener_inv l -> 16 <= chan_lock (stream l) ->
  num_channels_in_payload (stream l) = talker_num_channels (config t) ->
  is_Some (syt_interval (rate (stream l))) -> room_behind pad ->
  Z.of_nat i < Z.min (num_channels (stream l)) (talker_num_channels (config t)) ->
  chan_map (stream l) !! i = Some (Z.of_nat j) ->
  (forall i', chan_map (stream l) !! i' = Some (Z.of_nat j) -> i' = i) ->
  fifos l !! j = Some s -> state s <> ZEROING ->
  exists pkt len t' l' s', talk frames t = Some ([(pkt, len)], t') /\
    avb_1722_listener_process_packet (pkt ++ pad) len l = Some (1, l') /\
    fifos l' !! j = Some s' /\
    contents s' = take capacity (contents s ++
      ((fun f => without_low_byte (channel_sample (config t) f.2 i)) <$> frames)).
Proof.
  intros Ht Hok Hsam Hcur Hlen Hty Hq Hl Hlk Hnc Hsyt Hpad Hi Hm Honly Hs Hz.
  destruct (talk_packet_fields inputs frames t Ht Hok Hcur Hlen ltac:(lia) Hq)
    as (t' & Et & _ & _ & _ & _ & _ & _ & Hpkt & Hw).
  set (c := config t) in *. set (n := talker_num_channels c) in *.
  destruct (Hpkt pad Hpad) as (Hfields & _ & H13 & Hn & Hfit & Hacc).
  set (pkt := drop 2 (tx_buf t') ++ pad) in *.
  destruct (deinterleave_run pkt (50 + 4 * (samples_per_channel c * n)) l i j s)
    as (l' & s' & ws & El & Hws & Hs' & Hc); try done.
  { by right. }
  { unfold channels_played. rewrite Hnc. exact Hi. }
  exists (drop 2 (tx_buf t')), (50 + 4 * (samples_per_channel c * n)), t', l', s'.
  split; [exact Et|]. split; [exact El|]. split; [exact Hs'|]. rewrite Hc. do 2 f_equal.
  rewrite Hfields, Hnc in Hws. cbn [f_hdr f_quadlets] in Hws. rewrite <- Hlen in Hws. unfold pkt in Hws.
  change (18 + 32) with 50 in Hws.
  pose proof (sealed_words (tx_buf t') pad n i
    (fun f => packed_sample (AVB1722_audioSampleType t) (channel_sample c f.2 i)) frames) as Hsw.
  change (18 + 32) with 50 in Hsw. rewrite Hsw in Hws; [|lia|lia|intros a f Ha; apply Hw; [done|lia]].
  injection Hws as <-. rewrite <- list_fmap_compose. apply list_fmap_ext. intros a f Ha. cbn. rewrite Hty.
  apply convert_packed; [done|].
  exact (channel_sample_ok inputs c f.2 i (ti_map _ _ Ht) (Forall_lookup_1 _ _ _ _ Hok Ha)
           (Forall_lookup_1 _ _ _ _ Hsam Ha) ltac:(lia)).
Qed.
End Listen.

#[local] Existing Instance default_fifo_config.

(** Six frames of two channels at 48 kHz: the first input, which is the second
    channel, at the listener's second FIFO. *)
Lemma talker_listener_roundtrip_witness :
  exists pkt len t' l' s', talk (sample_frames 6) (sample_talker 48000) = Some ([(pkt, len)], t') /\
    avb_1722_listener_process_packet (pkt ++ replicate 32 0) len locked_listener = Some (1, l') /\
    fifos l' !! 1%nat = Some s' /\
    contents s' = replicate 53 0 ++ [0; 256; 512; 768; 1024; 1280].
Proof.
  destruct (sample_talker_inv 48000) as [Hi (Hc & _)]; [by vm_compute; repeat constructor|].
  destruct (@talker_listener_roundtrip default_fifo_config eq_refl 4 (sample_frames 6) (sample_talker 48000)
    locked_listener (replicate 32 0) 1 1 locking_fifo) as (pkt & len & t' & l' & s' & E1 & E2 & E3 & E4).
  - exact Hi.
  - exact (sample_frames_ok 6).
  - repeat (constructor; [repeat (constructor; [split; vm_compute; congruence|]); constructor|]). constructor.
  - exact Hc.
  - vm_compute. reflexivity.
  - vm_compute. reflexivity.
  - vm_compute. reflexivity.
  - exact locked_listener_inv.
  - vm_compute. discriminate.
  - vm_compute. reflexivity.
  - vm_compute. eexists. reflexivity.
  - unfold room_behind. rewrite length_replicate. lia.
  - vm_compute. reflexivity.
  - vm_compute. reflexivity.
  - assert (chan_map (stream locked_listener) = [0; 1; -1; -1; -1; -1; -1; -1]) as ->
      by (vm_compute; reflexivity).
    intros i'. do 8 (destruct i' as [|i']; [cbn; first [done|lia]|]). done.
  - vm_compute. reflexivity.
  - vm_compute. discriminate.
  - exists pkt, len, t', l', s'. split; [exact E1|]. split; [exact E2|]. split; [exact E3|].
    rewrite E4. vm_compute. reflexivity.
Defined.
