(* ===== verification/TalkerLock.v ===== *)
(** A talker's stream at a listener: its timestamps name the samples they belong
    to, and the listener locks to its channels and its rate. *)
From S2P Require Import Prelude Bytes PtpTime AudioFifo AudioFifoSpec AudioFifoSafe Listener1722 Listener1722Spec Talker1722 TalkerSpec TalkerStream TalkerListener.
From Stdlib Require Import ZArith Lia.
From stdpp Require Import base list list_numbers numbers.
#[local] Open Scope Z_scope.

(** * Timestamps *)

Lemma interval_power rate' interval :
  syt_interval rate' = Some interval -> exists k, 0 <= k <= 5 /\ interval = 2 ^ k.
Proof.
  intros H. pose proof (rates _ _ H) as Hr. rewrite !elem_of_cons in Hr.
  destruct Hr as [Hr|[Hr|[Hr|[Hr|[Hr|[Hr|[Hr|[Hr|[Hr|Hr]]]]]]]]];
    [injection Hr as _ -> _..|by apply not_elem_of_nil in Hr].
  - by exists 0. - by exists 1. - by exists 3. - by exists 3. - by exists 3.
  - by exists 4. - by exists 4. - by exists 5. - by exists 5.
Qed.

Lemma pow_ones k : 2 ^ k - 1 = Z.ones k.
Proof. rewrite Z.ones_equiv. lia. Qed.

(** The frames a talker stamps are those whose number is a multiple of the interval. *)
Lemma on_interval k x : 0 <= k <= 5 -> Z.land (u32 x) (u32 (2 ^ k - 1)) = x mod 2 ^ k.
Proof.
  intros Hk. assert (0 < 2 ^ k <= 2 ^ 5) by (split; [apply Z.pow_pos_nonneg; lia|apply Z.pow_le_mono_r; lia]).
  rewrite (u32_small (2 ^ k - 1)) by lia. rewrite pow_ones, Z.land_ones by lia.
  unfold u32, wrap. replace (2 ^ 32) with (2 ^ k * 2 ^ (32 - k)) by (rewrite <- Z.pow_add_r by lia; f_equal; lia).
  assert (0 < 2 ^ (32 - k)) by (apply Z.pow_pos_nonneg; lia).
  rewrite Z.rem_mul_r by lia. rewrite (Z.mul_comm (2 ^ k)), Z_mod_plus_full. apply Z.mod_mod. lia.
Qed.

(** The listener's formula for the sample a timestamp belongs to. *)
Lemma timestamp_sample_value k x :
  0 <= k <= 5 -> timestamp_sample (2 ^ k) (Z.land x 0xFF) = (- x) mod 2 ^ k.
Proof.
  intros Hk. unfold timestamp_sample.
  assert (0 < 2 ^ k <= 2 ^ 5) by (split; [apply Z.pow_pos_nonneg; lia|apply Z.pow_le_mono_r; lia]).
  rewrite <- (u32_small (2 ^ k - 1)) at 2 by lia. rewrite on_interval by done.
  rewrite pow_ones, Z.land_ones, land_255 by lia.
  assert ((x mod 256) mod 2 ^ k = x mod 2 ^ k) as ->.
  { replace 256 with (2 ^ k * 2 ^ (8 - k)) by (rewrite <- Z.pow_add_r by lia; replace (k + (8 - k)) with 8 by lia; done).
    assert (0 < 2 ^ (8 - k)) by (apply Z.pow_pos_nonneg; lia).
    rewrite Z.rem_mul_r by lia. rewrite (Z.mul_comm (2 ^ k)), Z_mod_plus_full. apply Z.mod_mod. lia. }
  rewrite <- (Z_mod_plus_full (- x) (x / 2 ^ k + 1) (2 ^ k)). f_equal.
  pose proof (Z.div_mod x (2 ^ k) ltac:(lia)). lia.
Qed.

Lemma stamp_once k dbc' : 0 <= k <= 5 -> forall frames cur st (a : nat),
  Z.of_nat (length frames) <= 2 ^ k -> Z.of_nat a < 2 ^ k -> (dbc' + cur + Z.of_nat a) mod 2 ^ k = 0 ->
  stamp (2 ^ k) dbc' cur st frames =
    match frames !! a with Some f => (1, frame_timestamp f.2) | None => st end.
Proof.
  intros Hk. assert (0 < 2 ^ k) by (apply Z.pow_pos_nonneg; lia).
  induction frames as [|f frames IH]; intros cur st a Hl Ha H0; cbn [stamp]; [done|].
  rewrite length_cons in Hl. rewrite on_interval by done.
  destruct a as [|a]; cbn [lookup list_lookup].
  - rewrite Z.add_0_r in H0. rewrite H0. cbn [Z.eqb].
    rewrite (IH (cur + 1) _ (Z.to_nat (2 ^ k - 1))).
    + rewrite lookup_ge_None_2 by lia. done.
    + lia.
    + lia.
    + rewrite Z2Nat.id by lia. replace (dbc' + (cur + 1) + (2 ^ k - 1)) with (dbc' + cur + 1 * 2 ^ k) by lia.
      by rewrite Z_mod_plus_full.
  - rewrite (proj2 (Z.eqb_neq _ 0)).
    + apply IH; [lia|lia|]. rewrite <- H0. f_equal. lia.
    + intros E. revert H0. rewrite <- Zplus_mod_idemp_l, E, Z.add_0_l, Z.mod_small by lia. lia.
Qed.

(** The timestamp as the listener reads it ([AVBTP_TIMESTAMP]). *)
Definition packet_timestamp (buf : list Z) : Z :=
  u32 (ntoh_32 (buf !!! 30%nat) (buf !!! 31%nat) (buf !!! 32%nat) (buf !!! 33%nat)).

Lemma packet_timestamp_value buf v :
  take 4 (drop 30 buf) = hton_32 v -> 0 <= v < 2 ^ 32 -> packet_timestamp buf = v.
Proof.
  intros E Hv.
  assert (forall k x, hton_32 v !! k = Some x -> (k < 4)%nat -> buf !!! (30 + k)%nat = x) as H.
  { intros k x Hx Hk. apply list_lookup_total_correct. rewrite <- Hx, <- E.
    by rewrite lookup_take_lt, lookup_drop by done. }
  destruct (ntoh_hton_32 v) as (x0 & x1 & x2 & x3 & Ev & Hval). rewrite Ev in H. unfold packet_timestamp.
  assert (buf !!! 30%nat = x0) as -> by (apply (H 0%nat); [done|lia]).
  assert (buf !!! 31%nat = x1) as -> by (apply (H 1%nat); [done|lia]).
  assert (buf !!! 32%nat = x2) as -> by (apply (H 2%nat); [done|lia]).
  assert (buf !!! 33%nat = x3) as -> by (apply (H 3%nat); [done|lia]).
  rewrite Hval. by apply u32_small.
Qed.

Lemma last_cons_some {A} (l : list A) : l <> [] -> exists x, list.last l = Some x.
Proof. intros H. destruct (list.last l) eqn:E; [by eexists|]. by apply last_None in E. Qed.

(** C7: a timestamp belongs to the sample it was taken for. The frame whose time
    a packet carries - converted to PTP time, plus the presentation delay - is the
    one whose number in the packet the listener computes from the data block
    counter; if that number lies beyond the packet, the packet is not stamped. *)
Theorem timestamp_names_its_sample inputs frames t pad rate' :
  talker_inv inputs t -> frames_ok inputs frames -> current_samples_in_packet (config t) = 0 ->
  Z.of_nat (length frames) = samples_per_channel (config t) -> 0 < talker_num_channels (config t) ->
  samples_per_channel (config t) * talker_num_channels (config t) < 2 ^ 13 ->
  syt_interval rate' = Some (ts_interval (config t)) ->
  samples_per_channel (config t) <= ts_interval (config t) ->
  timestamp_valid (config t) = 0 -> room_behind pad ->
  exists pkt len t' info, talk frames t = Some ([(pkt, len)], t') /\ last_info frames = Some info /\
    let f := fields_of (pkt ++ pad) in
    match frames !! Z.to_nat (timestamp_sample (ts_interval (config t)) (f_dbc f)) with
    | Some (_, frame) => f_tv f = 1 /\ packet_timestamp (pkt ++ pad) =
        u32 (local_timestamp_to_ptp_mod32 (frame_timestamp frame) info + presentation_delay (config t))
    | None => f_tv f = 0
    end.
Proof.
  intros Ht Hok Hcur Hlen Hnch Hq Hsyt Hle Hv Hpad.
  destruct (talk_packet_fields inputs frames t Ht Hok Hcur Hlen Hnch Hq)
    as (t' & Et & _ & _ & _ & _ & _ & _ & Hpkt & _).
  destruct (Hpkt pad Hpad) as (Hfields & Hts & _). clear Hpkt.
  pose proof (ti_current _ _ Ht) as Hspc. set (c := config t) in *.
  destruct (last_cons_some frames) as [[info fr] Hlast]; [intros ->; cbn in Hlen; lia|].
  destruct (interval_power _ _ Hsyt) as (k & Hk & Ek). rewrite Ek in *.
  assert (0 < 2 ^ k) by (apply Z.pow_pos_nonneg; lia).
  pose proof (Z.mod_pos_bound (- dbc_at_start_of_last_packet c) (2 ^ k) ltac:(lia)) as Ha.
  set (a := Z.to_nat ((- dbc_at_start_of_last_packet c) mod 2 ^ k)).
  assert (stamp (2 ^ k) (dbc_at_start_of_last_packet c) 0 (timestamp_valid c, timestamp c) frames =
    match frames !! a with Some f => (1, frame_timestamp f.2) | None => (timestamp_valid c, timestamp c) end)
    as Est.
  { apply stamp_once; [done|lia|lia|]. unfold a. rewrite Z2Nat.id by lia.
    rewrite Zplus_mod_idemp_r. replace (dbc_at_start_of_last_packet c + 0 + - dbc_at_start_of_last_packet c) with 0 by lia.
    apply Z.mod_0_l. lia. }
  rewrite Est in Hfields, Hts.
  eexists _, _, t', info. split; [exact Et|].
  assert (last_info frames = Some info) as Hli by (unfold last_info; by rewrite Hlast).
  split; [exact Hli|]. cbv zeta. rewrite Hfields. cbn [f_dbc f_tv]. rewrite timestamp_sample_value by done.
  fold a. destruct (frames !! a) as [[info' frame]|] eqn:Ef.
  - cbn [fst snd negb Z.eqb] in Hts |- *. split; [done|]. apply packet_timestamp_value.
    + rewrite Hts. unfold sent_stamp. by rewrite Hli.
    + apply u32_range.
  - cbn [fst]. by rewrite Hv.
Qed.

(** * A whole stream *)

Lemma talk_app frames1 : forall frames2 t pkts1 t1 pkts2 t2,
  talk frames1 t = Some (pkts1, t1) -> talk frames2 t1 = Some (pkts2, t2) ->
  talk (frames1 ++ frames2) t = Some (pkts1 ++ pkts2, t2).
Proof.
  induction frames1 as [|[info frame] frames1 IH]; intros frames2 t pkts1 t1 pkts2 t2 E1 E2.
  - by injection E1 as <- <-.
  - cbn [talk app] in E1 |- *. apply M_bind_Some in E1 as (r & s1 & Er & E1). erewrite M_bind_run by exact Er.
    apply M_bind_Some in E1 as (s & s1' & [= <- <-] & E1). erewrite M_bind_run by reflexivity.
    apply M_bind_Some in E1 as (ps & s2 & Ep & [= <- <-]).
    erewrite M_bind_run by (eapply IH; [exact Ep|exact E2]). unfold mret, M_ret.
    by destruct (r =? 0).
Qed.

Lemma s32_low_byte x : Z.land (s32 x) 0xFF = x mod 256.
Proof.
  rewrite land_255. unfold s32, signed, wrap. change (2 ^ 32) with (256 * 16777216).
  assert ((x mod (256 * 16777216)) mod 256 = x mod 256) as E
    by (rewrite Z.rem_mul_r, (Z.mul_comm 256), Z_mod_plus_full by lia; apply Z.mod_mod; lia).
  destruct (_ <? _); [done|]. rewrite <- E. rewrite <- (Z_mod_plus_full (x mod _) (- 16777216) 256). f_equal.
Qed.

(** The buffer of the listener when a packet has come. *)
Definition arrived (pad : list Z) (p : list Z * Z) : list Z * Z := (p.1 ++ pad, p.2).

(** A stream with a whole number of samples per packet, between packets. *)
Record steady (n d D : Z) (t : talker_unit) : Prop := {
  st_channels : talker_num_channels (config t) = n;
  st_base : samples_per_packet_base (config t) = d;
  st_frac : samples_per_packet_fractional (config t) = 0;
  st_current : current_samples_in_packet (config t) = 0;
  st_rem : rem_acc (config t) = 0;
  st_dbc : dbc_at_start_of_last_packet (config t) = s32 D;
}.

Lemma steady_stream inputs n d pad blocks : forall t D,
  talker_inv inputs t -> steady n d D t -> 0 < n -> d * n < 2 ^ 13 -> room_behind pad ->
  Forall (fun frames => frames_ok inputs frames /\ Z.of_nat (length frames) = d) blocks ->
  exists pkts t', talk (concat blocks) t = Some (pkts, t') /\ length pkts = length blocks /\
    stream_packets n d D (arrived pad <$> pkts).
Proof.
  induction blocks as [|frames blocks IH]; intros t D Ht [H1 H2 H3 H4 H5 H6] Hn Hd Hpad Hb.
  - by exists [], t.
  - apply list.Forall_cons in Hb as [[Hok Hlen] Hb].
    assert (samples_per_channel (config t) = d) as Hspc
      by (unfold samples_per_channel, has_extra_sample; by rewrite H5).
    destruct (talk_packet_fields inputs frames t) as (t1 & E1 & Ht1 & Hs1 & F1 & F2 & _ & F3 & Hpkt & _);
      try done; rewrite ?Hspc, ?H1; try done.
    destruct Hs1 as [S1 _ S3 S4 _ _ _ _ _].
    destruct (IH t1 (D + d)) as (pkts & t' & E' & Hl & Hsp); try done.
    { split; [congruence|congruence|congruence|done| |by rewrite F3, H6, s32_add, Hspc].
      rewrite F2. unfold next_rem, has_extra_sample. by rewrite H5, H3. }
    eexists _, t'. cbn [concat]. split; [by eapply talk_app|]. split; [by rewrite length_app, Hl|].
    destruct (Hpkt pad Hpad) as (Hfields & _ & H13 & Hle & _ & Hacc).
    rewrite Hspc, H1, H6 in *. rewrite fmap_app. cbn [fmap list_fmap app]. unfold arrived at 1. cbn [fst snd].
    cbn [stream_packets]. rewrite Hfields. cbn [f_dbc f_quadlets]. rewrite s32_low_byte.
    split_and!; try done. lia.
Qed.

(** The sample rates at which every packet has the same number of samples. *)
Lemma steady_rate rate' interval :
  syt_interval rate' = Some interval -> Z.land (samples_per_packet rate') 0xffff = 0 ->
  let d := Z.shiftr (samples_per_packet rate') 16 in 0 < d < 256 /\ rate_of_samples d = rate'.
Proof.
  intros H Hf. pose proof (rates _ _ H) as Hr. remember (samples_per_packet rate') as spp eqn:Espp. clear Espp H.
  rewrite !elem_of_cons in Hr.
  destruct Hr as [Hr|[Hr|[Hr|[Hr|[Hr|[Hr|[Hr|[Hr|[Hr|Hr]]]]]]]]];
    [injection Hr as -> _ ->..|by apply not_elem_of_nil in Hr]; try done; by vm_compute.
Qed.

Section Lock.
  Context `{cfg : FifoConfig}.

(** C8: a listener locks to a talker's stream, at the rates of which every packet has the
    same whole number of samples per channel (those without a fraction: the multiples of 8
    kHz). A talker that has just been configured for [n] channels, at least one, at such a
    rate sends 17 packets; a listener that is ready for the stream takes them all, and
    then knows the number of channels in a packet and the talker's rate. *)
Theorem listener_locks_to_talker inputs rate' interval pad blocks t l :
  talker_inv inputs t -> just_configured (config t) -> 0 < talker_num_channels (config t) ->
  syt_interval rate' = Some interval ->
  samples_per_packet_base (config t) = Z.shiftr (samples_per_packet rate') 16 ->
  samples_per_packet_fractional (config t) = Z.land (samples_per_packet rate') 0xffff ->
  samples_per_packet_fractional (config t) = 0 ->
  length blocks = 17%nat ->
  Forall (fun frames => frames_ok inputs frames /\
            Z.of_nat (length frames) = samples_per_packet_base (config t)) blocks ->
  room_behind pad -> unlocked (stream l) ->
  exists pkts t' s', talk (concat blocks) t = Some (pkts, t') /\
    listen (arrived pad <$> pkts) l = Some (replicate 17 0, upd_stream (fun _ => s') l) /\
    chan_lock s' = 16 /\ num_channels_in_payload s' = talker_num_channels (config t) /\ rate s' = rate' /\
    num_channels s' = num_channels (stream l) /\ chan_map s' = chan_map (stream l).
Proof.
  intros Ht (J1 & J2 & J3) Hn Hsyt Hb Hf Hf0 Hlen Hbl Hpad Hul.
  destruct (steady_rate rate' interval Hsyt) as [Hd Hrate]; [congruence|]. cbv zeta in Hd, Hrate.
  rewrite <- Hb in Hd, Hrate.
  pose proof (ti_map _ _ Ht) as (_ & Hn8 & _). unfold AVB_MAX_CHANNELS_PER_TALKER_STREAM in Hn8.
  destruct (steady_stream inputs (talker_num_channels (config t)) (samples_per_packet_base (config t)) pad blocks t 0)
    as (pkts & t' & Et & Hl & Hsp); try done; [nia|].
  destruct (listener_locks_run (talker_num_channels (config t)) (samples_per_packet_base (config t)) 0
    (arrived pad <$> pkts) l) as (s' & E & L1 & L2 & L3 & L4 & L5);
    [done|done|nia|done|by rewrite length_fmap, Hl|done|].
  exists pkts, t', s'. split; [exact Et|]. split; [exact E|]. by rewrite L3, Hrate.
Qed.
End Lock.

(** * Sample runs *)

(** The 3rd packet of six frames at 48 kHz begins at the counter 12: the listener
    computes that the timestamp is that of the frame number 4. *)
Definition later_talker : talker_unit :=
  match talk (sample_frames 12) (sample_talker 48000) with Some (_, t) => t | None => blank_talker end.

Definition first_dbc (pad : list Z) (r : option (list (list Z * Z) * talker_unit)) : option Z :=
  match r with Some ((pkt, _) :: _, _) => Some (f_dbc (fields_of (pkt ++ pad))) | _ => None end.

Lemma timestamp_names_its_sample_witness :
  exists pkt len t', talk (sample_frames 6) later_talker = Some ([(pkt, len)], t') /\
    packet_timestamp (pkt ++ replicate 32 0) = 10 * 4000 + 500 + 2000000.
Proof.
  destruct (sample_talker_inv 48000) as [Hi Hc]; [by vm_compute; repeat constructor|].
  destruct (talk_counted 4 (sample_frames 12) (sample_talker 48000) 0 0 0 Hi (sample_frames_ok 12)
    (configured_counted _ _ Hi Hc)) as (pkts & t1 & E' & E & Ht1 & _).
  assert (later_talker = t1) as Elt by (unfold later_talker; by rewrite E). rewrite <- Elt in Ht1.
  destruct (timestamp_names_its_sample 4 (sample_frames 6) later_talker (replicate 32 0) 48000)
    as (pkt & len & t' & info & E1 & E2 & H).
  - exact Ht1.
  - exact (sample_frames_ok 6).
  - vm_compute. reflexivity.
  - vm_compute. reflexivity.
  - vm_compute. reflexivity.
  - vm_compute. reflexivity.
  - vm_compute. reflexivity.
  - vm_compute. discriminate.
  - vm_compute. reflexivity.
  - unfold room_behind. rewrite length_replicate. lia.
  - exists pkt, len, t'. split; [exact E1|].
    assert (f_dbc (fields_of (pkt ++ replicate 32 0)) = 12) as Hd.
    { assert (first_dbc (replicate 32 0) (talk (sample_frames 6) later_talker) = Some 12) as Hx
        by (vm_compute; reflexivity).
      rewrite E1 in Hx. unfold first_dbc in Hx. by apply (inj Some) in Hx. }
    cbv zeta in H. rewrite Hd in H.
    assert (ts_interval (config later_talker) = 8 /\ presentation_delay (config later_talker) = 2000000) as [Ei Ed]
      by (vm_compute; split; reflexivity).
    rewrite Ei, Ed in H. injection E2 as <-. change (Z.to_nat (timestamp_sample 8 12)) with 4%nat in H.
    destruct H as [_ H]. rewrite H. vm_compute. reflexivity.
Defined.

#[local] Existing Instance default_fifo_config.

(** Seventeen packets of six frames lock the configured listener to 48 kHz. *)
Lemma listener_locks_to_talker_witness :
  exists pkts t' s', talk (concat (replicate 17 (sample_frames 6))) (sample_talker 48000) = Some (pkts, t') /\
    listen (arrived (replicate 32 0) <$> pkts) configured_listener =
      Some (replicate 17 0, upd_stream (fun _ => s') configured_listener) /\
    num_channels_in_payload s' = 2 /\ rate s' = 48000.
Proof.
  destruct (sample_talker_inv 48000) as [Hi Hc]; [by vm_compute; repeat constructor|].
  destruct (listener_locks_to_talker 4 48000 8 (replicate 32 0) (replicate 17 (sample_frames 6))
    (sample_talker 48000) configured_listener) as (pkts & t' & s' & E1 & E2 & _ & H1 & H2 & _).
  - exact Hi.
  - exact Hc.
  - vm_compute. reflexivity.
  - reflexivity.
  - vm_compute. reflexivity.
  - vm_compute. reflexivity.
  - vm_compute. reflexivity.
  - reflexivity.
  - apply Forall_replicate. split; [exact (sample_frames_ok 6)|vm_compute; reflexivity].
  - unfold room_behind. rewrite length_replicate. lia.
  - repeat split; vm_compute; reflexivity.
  - exists pkts, t', s'. split; [exact E1|]. split; [exact E2|]. split; [|exact H2].
    rewrite H1. vm_compute. reflexivity.
Defined.
