(* ===== verification/AcmpTypes.v ===== *)
(** Connection management (ACMP): the data of
    [lib_tsn/src/1722_1/avb_1722_1_acmp.c], [avb_1722_1_acmp.h] and
    [avb_1722_1_acmp_pdu.h], and the layout of its packets.

    A GUID or stream identifier is the 64-bit integer of its union. The identity
    of the entity - [my_guid], [my_mac_addr] - is set before ACMP runs and is part
    of the configuration. Fast connect, which keeps connections in flash memory
    and is off by default, is not modelled. *)
From S2P Require Import Prelude Bytes MiscTimer.
From Stdlib Require Import ZArith Lia.
From stdpp Require Import base list list_numbers numbers.
#[local] Open Scope Z_scope.

Class AcmpConfig : Type := {
  AVB_1722_1_MAX_LISTENERS : nat;
  AVB_1722_1_MAX_TALKERS : nat;
  my_guid : Z;
  my_mac_addr : list Z;
}.

Definition AVB_1722_1_MAX_LISTENERS_PER_TALKER : nat := 4.
Definition AVB_1722_1_MAX_INFLIGHT_COMMANDS `{AcmpConfig} : nat := AVB_1722_1_MAX_LISTENERS * 2.

Inductive acmp_controller_state_t : Type :=
| ACMP_CONTROLLER_IDLE
| ACMP_CONTROLLER_WAITING
| ACMP_CONTROLLER_TIMEOUT
| ACMP_CONTROLLER_CONNECT_RX_RESPONSE
| ACMP_CONTROLLER_DISCONNECT_RX_RESPONSE
| ACMP_CONTROLLER_GET_TX_STATE_RESPONSE
| ACMP_CONTROLLER_GET_RX_STATE_RESPONSE
| ACMP_CONTROLLER_GET_TX_CONNECTION_RESPONSE.

Inductive acmp_talker_state_t : Type :=
| ACMP_TALKER_IDLE
| ACMP_TALKER_WAITING
| ACMP_TALKER_CONNECT
| ACMP_TALKER_DISCONNECT
| ACMP_TALKER_GET_STATE
| ACMP_TALKER_GET_CONNECTION.

Inductive acmp_listener_state_t : Type :=
| ACMP_LISTENER_IDLE
| ACMP_LISTENER_WAITING
| ACMP_LISTENER_CONNECT_RX_COMMAND
| ACMP_LISTENER_DISCONNECT_RX_COMMAND
| ACMP_LISTENER_CONNECT_TX_RESPONSE
| ACMP_LISTENER_DISCONNECT_TX_RESPONSE
| ACMP_LISTENER_GET_STATE
| ACMP_LISTENER_RX_TIMEOUT.

#[global] Instance acmp_controller_state_eq_dec : EqDecision acmp_controller_state_t.
Proof. solve_decision. Defined.
#[global] Instance acmp_talker_state_eq_dec : EqDecision acmp_talker_state_t.
Proof. solve_decision. Defined.
#[global] Instance acmp_listener_state_eq_dec : EqDecision acmp_listener_state_t.
Proof. solve_decision. Defined.

(** [avb_1722_1_acmp_message_t] *)
Definition ACMP_CMD_CONNECT_TX_COMMAND : Z := 0.
Definition ACMP_CMD_CONNECT_TX_RESPONSE : Z := 1.
Definition ACMP_CMD_DISCONNECT_TX_COMMAND : Z := 2.
Definition ACMP_CMD_DISCONNECT_TX_RESPONSE : Z := 3.
Definition ACMP_CMD_GET_TX_STATE_COMMAND : Z := 4.
Definition ACMP_CMD_GET_TX_STATE_RESPONSE : Z := 5.
Definition ACMP_CMD_CONNECT_RX_COMMAND : Z := 6.
Definition ACMP_CMD_CONNECT_RX_RESPONSE : Z := 7.
Definition ACMP_CMD_DISCONNECT_RX_COMMAND : Z := 8.
Definition ACMP_CMD_DISCONNECT_RX_RESPONSE : Z := 9.
Definition ACMP_CMD_GET_RX_STATE_COMMAND : Z := 10.
Definition ACMP_CMD_GET_RX_STATE_RESPONSE : Z := 11.
Definition ACMP_CMD_GET_TX_CONNECTION_COMMAND : Z := 12.
Definition ACMP_CMD_GET_TX_CONNECTION_RESPONSE : Z := 13.

(** [avb_1722_1_acmp_status_t], as far as it is used *)
Definition ACMP_STATUS_SUCCESS : Z := 0.
Definition ACMP_STATUS_LISTENER_UNKNOWN_ID : Z := 1.
Definition ACMP_STATUS_TALKER_UNKNOWN_ID : Z := 2.
Definition ACMP_STATUS_LISTENER_TALKER_TIMEOUT : Z := 7.
Definition ACMP_STATUS_LISTENER_EXCLUSIVE : Z := 8.
Definition ACMP_STATUS_STATE_UNAVAILABLE : Z := 9.
Definition ACMP_STATUS_NOT_CONNECTED : Z := 10.
Definition ACMP_STATUS_NO_SUCH_CONNECTION : Z := 11.
Definition ACMP_STATUS_INCOMPATIBLE_REQUEST : Z := 17.

Definition AVB_1722_1_ACMP_FLAGS_CLASS_B : Z := 1.
Definition AVB_1722_1_ACMP_FLAGS_FAST_CONNECT : Z := 2.
Definition AVB_1722_1_ACMP_CD_LENGTH : Z := 44.
Definition DEFAULT_1722_1_ACMP_SUBTYPE : Z := 0x7c.
Definition ACMP_DEFAULT_VLAN : Z := 2.
Definition ACMP_ETHERTYPE : Z := 0x22f0.
Definition avb_1722_1_acmp_dest_addr : list Z := [0x91; 0xe0; 0xf0; 0x01; 0x00; 0x00].

(** The timeouts, by command. *)
Definition avb_1722_1_acmp_inflight_timeouts : list Z := [20; 2; 2; 45; 5; 2; 2].

(** What ACMP does to the outside: frames, and the application hooks. *)
Inductive acmp_event : Type :=
| AcmpTx (frame : list Z)
| OnListenerConnect (source : Z) (listener_guid : Z)
| OnListenerDisconnect (source : Z) (listener_guid : Z) (connection_count : Z)
| OnListenerConnectFailed (source : Z) (listener_guid : Z) (status : Z)
| OnTalkerConnect (sink : Z) (talker_guid : Z) (dest_mac : list Z) (stream_id : Z) (vlan_id : Z)
| OnTalkerDisconnect (sink : Z) (talker_guid : Z) (dest_mac : list Z) (stream_id : Z).

Record avb_1722_1_acmp_cmd_resp : Type := MkCmdResp {
  cr_message_type : Z;  (* unsigned char *)
  cr_status : Z;  (* unsigned char *)
  cr_stream_id : Z;  (* stream_t *)
  cr_controller_guid : Z;  (* guid_t *)
  cr_talker_guid : Z;  (* guid_t *)
  cr_listener_guid : Z;  (* guid_t *)
  cr_talker_unique_id : Z;  (* unsigned short *)
  cr_listener_unique_id : Z;  (* unsigned short *)
  cr_stream_dest_mac : list Z;  (* unsigned char[6] *)
  cr_connection_count : Z;  (* unsigned short *)
  cr_sequence_id : Z;  (* unsigned short *)
  cr_flags : Z;  (* unsigned short *)
  cr_vlan_id : Z;  (* unsigned short *)
}.

Definition upd_cr_message_type (g : Z -> Z) (s : avb_1722_1_acmp_cmd_resp) : avb_1722_1_acmp_cmd_resp :=
  MkCmdResp (g (cr_message_type s)) (cr_status s) (cr_stream_id s) (cr_controller_guid s)
    (cr_talker_guid s) (cr_listener_guid s) (cr_talker_unique_id s) (cr_listener_unique_id s)
    (cr_stream_dest_mac s) (cr_connection_count s) (cr_sequence_id s) (cr_flags s) (cr_vlan_id
    s).
Definition upd_cr_status (g : Z -> Z) (s : avb_1722_1_acmp_cmd_resp) : avb_1722_1_acmp_cmd_resp :=
  MkCmdResp (cr_message_type s) (g (cr_status s)) (cr_stream_id s) (cr_controller_guid s)
    (cr_talker_guid s) (cr_listener_guid s) (cr_talker_unique_id s) (cr_listener_unique_id s)
    (cr_stream_dest_mac s) (cr_connection_count s) (cr_sequence_id s) (cr_flags s) (cr_vlan_id
    s).
Definition upd_cr_stream_id (g : Z -> Z) (s : avb_1722_1_acmp_cmd_resp) : avb_1722_1_acmp_cmd_resp :=
  MkCmdResp (cr_message_type s) (cr_status s) (g (cr_stream_id s)) (cr_controller_guid s)
    (cr_talker_guid s) (cr_listener_guid s) (cr_talker_unique_id s) (cr_listener_unique_id s)
    (cr_stream_dest_mac s) (cr_connection_count s) (cr_sequence_id s) (cr_flags s) (cr_vlan_id
    s).
Definition upd_cr_controller_guid (g : Z -> Z) (s : avb_1722_1_acmp_cmd_resp) : avb_1722_1_acmp_cmd_resp :=
  MkCmdResp (cr_message_type s) (cr_status s) (cr_stream_id s) (g (cr_controller_guid s))
    (cr_talker_guid s) (cr_listener_guid s) (cr_talker_unique_id s) (cr_listener_unique_id s)
    (cr_stream_dest_mac s) (cr_connection_count s) (cr_sequence_id s) (cr_flags s) (cr_vlan_id
    s).
Definition upd_cr_talker_guid (g : Z -> Z) (s : avb_1722_1_acmp_cmd_resp) : avb_1722_1_acmp_cmd_resp :=
  MkCmdResp (cr_message_type s) (cr_status s) (cr_stream_id s) (cr_controller_guid s) (g
    (cr_talker_guid s)) (cr_listener_guid s) (cr_talker_unique_id s) (cr_listener_unique_id s)
    (cr_stream_dest_mac s) (cr_connection_count s) (cr_sequence_id s) (cr_flags s) (cr_vlan_id
    s).
Definition upd_cr_listener_guid (g : Z -> Z) (s : avb_1722_1_acmp_cmd_resp) : avb_1722_1_acmp_cmd_resp :=
  MkCmdResp (cr_message_type s) (cr_status s) (cr_stream_id s) (cr_controller_guid s)
    (cr_talker_guid s) (g (cr_listener_guid s)) (cr_talker_unique_id s) (cr_listener_unique_id s)
    (cr_stream_dest_mac s) (cr_connection_count s) (cr_sequence_id s) (cr_flags s) (cr_vlan_id
    s).
Definition upd_cr_talker_unique_id (g : Z -> Z) (s : avb_1722_1_acmp_cmd_resp) : avb_1722_1_acmp_cmd_resp :=
  MkCmdResp (cr_message_type s) (cr_status s) (cr_stream_id s) (cr_controller_guid s)
    (cr_talker_guid s) (cr_listener_guid s) (g (cr_talker_unique_id s)) (cr_listener_unique_id s)
    (cr_stream_dest_mac s) (cr_connection_count s) (cr_sequence_id s) (cr_flags s) (cr_vlan_id
    s).
Definition upd_cr_listener_unique_id (g : Z -> Z) (s : avb_1722_1_acmp_cmd_resp) : avb_1722_1_acmp_cmd_resp :=
  MkCmdResp (cr_message_type s) (cr_status s) (cr_stream_id s) (cr_controller_guid s)
    (cr_talker_guid s) (cr_listener_guid s) (cr_talker_unique_id s) (g (cr_listener_unique_id s))
    (cr_stream_dest_mac s) (cr_connection_count s) (cr_sequence_id s) (cr_flags s) (cr_vlan_id
    s).
Definition upd_cr_stream_dest_mac (g : list Z -> list Z) (s : avb_1722_1_acmp_cmd_resp) : avb_1722_1_acmp_cmd_resp :=
  MkCmdResp (cr_message_type s) (cr_status s) (cr_stream_id s) (cr_controller_guid s)
    (cr_talker_guid s) (cr_listener_guid s) (cr_talker_unique_id s) (cr_listener_unique_id s) (g
    (cr_stream_dest_mac s)) (cr_connection_count s) (cr_sequence_id s) (cr_flags s) (cr_vlan_id
    s).
Definition upd_cr_connection_count (g : Z -> Z) (s : avb_1722_1_acmp_cmd_resp) : avb_1722_1_acmp_cmd_resp :=
  MkCmdResp (cr_message_type s) (cr_status s) (cr_stream_id s) (cr_controller_guid s)
    (cr_talker_guid s) (cr_listener_guid s) (cr_talker_unique_id s) (cr_listener_unique_id s)
    (cr_stream_dest_mac s) (g (cr_connection_count s)) (cr_sequence_id s) (cr_flags s)
    (cr_vlan_id s).
Definition upd_cr_sequence_id (g : Z -> Z) (s : avb_1722_1_acmp_cmd_resp) : avb_1722_1_acmp_cmd_resp :=
  MkCmdResp (cr_message_type s) (cr_status s) (cr_stream_id s) (cr_controller_guid s)
    (cr_talker_guid s) (cr_listener_guid s) (cr_talker_unique_id s) (cr_listener_unique_id s)
    (cr_stream_dest_mac s) (cr_connection_count s) (g (cr_sequence_id s)) (cr_flags s)
    (cr_vlan_id s).
Definition upd_cr_flags (g : Z -> Z) (s : avb_1722_1_acmp_cmd_resp) : avb_1722_1_acmp_cmd_resp :=
  MkCmdResp (cr_message_type s) (cr_status s) (cr_stream_id s) (cr_controller_guid s)
    (cr_talker_guid s) (cr_listener_guid s) (cr_talker_unique_id s) (cr_listener_unique_id s)
    (cr_stream_dest_mac s) (cr_connection_count s) (cr_sequence_id s) (g (cr_flags s))
    (cr_vlan_id s).
Definition upd_cr_vlan_id (g : Z -> Z) (s : avb_1722_1_acmp_cmd_resp) : avb_1722_1_acmp_cmd_resp :=
  MkCmdResp (cr_message_type s) (cr_status s) (cr_stream_id s) (cr_controller_guid s)
    (cr_talker_guid s) (cr_listener_guid s) (cr_talker_unique_id s) (cr_listener_unique_id s)
    (cr_stream_dest_mac s) (cr_connection_count s) (cr_sequence_id s) (cr_flags s) (g (cr_vlan_id
    s)).

Record avb_1722_1_acmp_listener_pair : Type := MkPair {
  lp_guid : Z;  (* guid_t *)
  lp_unique_id : Z;  (* unsigned short *)
}.


Record avb_1722_1_acmp_talker_stream_info : Type := MkTalkerInfo {
  ts_stream_id : Z;  (* stream_t *)
  ts_connection_count : Z;  (* int *)
  ts_destination_mac : list Z;  (* unsigned char[6] *)
  connected_listeners : list avb_1722_1_acmp_listener_pair;  (* [AVB_1722_1_MAX_LISTENERS_PER_TALKER] *)
}.

Definition upd_ts_stream_id (g : Z -> Z) (s : avb_1722_1_acmp_talker_stream_info) : avb_1722_1_acmp_talker_stream_info :=
  MkTalkerInfo (g (ts_stream_id s)) (ts_connection_count s) (ts_destination_mac s)
    (connected_listeners s).
Definition upd_ts_connection_count (g : Z -> Z) (s : avb_1722_1_acmp_talker_stream_info) : avb_1722_1_acmp_talker_stream_info :=
  MkTalkerInfo (ts_stream_id s) (g (ts_connection_count s)) (ts_destination_mac s)
    (connected_listeners s).
Definition upd_ts_destination_mac (g : list Z -> list Z) (s : avb_1722_1_acmp_talker_stream_info) : avb_1722_1_acmp_talker_stream_info :=
  MkTalkerInfo (ts_stream_id s) (ts_connection_count s) (g (ts_destination_mac s))
    (connected_listeners s).
Definition upd_connected_listeners (g : list avb_1722_1_acmp_listener_pair -> list avb_1722_1_acmp_listener_pair) (s : avb_1722_1_acmp_talker_stream_info) : avb_1722_1_acmp_talker_stream_info :=
  MkTalkerInfo (ts_stream_id s) (ts_connection_count s) (ts_destination_mac s) (g
    (connected_listeners s)).

Record avb_1722_1_acmp_listener_stream_info : Type := MkListenerInfo {
  ls_talker_guid : Z;  (* guid_t *)
  ls_talker_unique_id : Z;  (* unsigned short *)
  ls_connected : Z;  (* int *)
  ls_stream_id : Z;  (* stream_t *)
  ls_destination_mac : list Z;  (* unsigned char[6] *)
}.


Record avb_1722_1_acmp_inflight_command : Type := MkInflight {
  in_use : bool;  (* int *)
  inf_timeout : Z;  (* unsigned int timeout *)
  retried : bool;  (* unsigned int *)
  command : avb_1722_1_acmp_cmd_resp;
  original_sequence_id : Z;  (* unsigned short *)
}.

Definition upd_in_use (g : bool -> bool) (s : avb_1722_1_acmp_inflight_command) : avb_1722_1_acmp_inflight_command :=
  MkInflight (g (in_use s)) (inf_timeout s) (retried s) (command s) (original_sequence_id s).
Definition upd_inf_timeout (g : Z -> Z) (s : avb_1722_1_acmp_inflight_command) : avb_1722_1_acmp_inflight_command :=
  MkInflight (in_use s) (g (inf_timeout s)) (retried s) (command s) (original_sequence_id s).
Definition upd_retried (g : bool -> bool) (s : avb_1722_1_acmp_inflight_command) : avb_1722_1_acmp_inflight_command :=
  MkInflight (in_use s) (inf_timeout s) (g (retried s)) (command s) (original_sequence_id s).
Definition upd_command (g : avb_1722_1_acmp_cmd_resp -> avb_1722_1_acmp_cmd_resp) (s : avb_1722_1_acmp_inflight_command) : avb_1722_1_acmp_inflight_command :=
  MkInflight (in_use s) (inf_timeout s) (retried s) (g (command s)) (original_sequence_id s).
Definition upd_original_sequence_id (g : Z -> Z) (s : avb_1722_1_acmp_inflight_command) : avb_1722_1_acmp_inflight_command :=
  MkInflight (in_use s) (inf_timeout s) (retried s) (command s) (g (original_sequence_id s)).

(** The variables the sources have twice, for the controller and the listener. *)
Record entity_vars : Type := MkEntity {
  inflight_commands : list avb_1722_1_acmp_inflight_command;  (* [AVB_1722_1_MAX_INFLIGHT_COMMANDS] *)
  acmp_centisecond_counter : Z;  (* unsigned *)
  acmp_inflight_timer : avb_timer;
  sequence_id : Z;  (* short *)
  acmp_inflight_timeout_idx : option nat;  (* int *)
}.

Definition upd_inflight_commands (g : list avb_1722_1_acmp_inflight_command -> list avb_1722_1_acmp_inflight_command) (s : entity_vars) : entity_vars :=
  MkEntity (g (inflight_commands s)) (acmp_centisecond_counter s) (acmp_inflight_timer s)
    (sequence_id s) (acmp_inflight_timeout_idx s).
Definition upd_acmp_centisecond_counter (g : Z -> Z) (s : entity_vars) : entity_vars :=
  MkEntity (inflight_commands s) (g (acmp_centisecond_counter s)) (acmp_inflight_timer s)
    (sequence_id s) (acmp_inflight_timeout_idx s).
Definition upd_acmp_inflight_timer (g : avb_timer -> avb_timer) (s : entity_vars) : entity_vars :=
  MkEntity (inflight_commands s) (acmp_centisecond_counter s) (g (acmp_inflight_timer s))
    (sequence_id s) (acmp_inflight_timeout_idx s).
Definition upd_sequence_id (g : Z -> Z) (s : entity_vars) : entity_vars :=
  MkEntity (inflight_commands s) (acmp_centisecond_counter s) (acmp_inflight_timer s) (g
    (sequence_id s)) (acmp_inflight_timeout_idx s).
Definition upd_acmp_inflight_timeout_idx (g : option nat -> option nat) (s : entity_vars) : entity_vars :=
  MkEntity (inflight_commands s) (acmp_centisecond_counter s) (acmp_inflight_timer s)
    (sequence_id s) (g (acmp_inflight_timeout_idx s)).

(** The static variables of the C file and of the xC file. *)
Record acmp : Type := MkAcmp {
  acmp_controller_state : acmp_controller_state_t;
  acmp_talker_state : acmp_talker_state_t;
  acmp_listener_state : acmp_listener_state_t;
  controller_vars : entity_vars;
  listener_vars : entity_vars;
  acmp_controller_cmd_resp : avb_1722_1_acmp_cmd_resp;
  acmp_talker_rcvd_cmd_resp : avb_1722_1_acmp_cmd_resp;
  acmp_listener_rcvd_cmd_resp : avb_1722_1_acmp_cmd_resp;
  acmp_listener_streams : list avb_1722_1_acmp_listener_stream_info;  (* [AVB_1722_1_MAX_LISTENERS] *)
  acmp_talker_streams : list avb_1722_1_acmp_talker_stream_info;  (* [AVB_1722_1_MAX_TALKERS] *)
  avb_1722_1_buf : list Z;  (* the bytes of the array of words *)
  acmp_out : list acmp_event;  (* oldest first *)
}.

Definition upd_acmp_controller_state (g : acmp_controller_state_t -> acmp_controller_state_t) (s : acmp) : acmp :=
  MkAcmp (g (acmp_controller_state s)) (acmp_talker_state s) (acmp_listener_state s)
    (controller_vars s) (listener_vars s) (acmp_controller_cmd_resp s) (acmp_talker_rcvd_cmd_resp
    s) (acmp_listener_rcvd_cmd_resp s) (acmp_listener_streams s) (acmp_talker_streams s)
    (avb_1722_1_buf s) (acmp_out s).
Definition upd_acmp_talker_state (g : acmp_talker_state_t -> acmp_talker_state_t) (s : acmp) : acmp :=
  MkAcmp (acmp_controller_state s) (g (acmp_talker_state s)) (acmp_listener_state s)
    (controller_vars s) (listener_vars s) (acmp_controller_cmd_resp s) (acmp_talker_rcvd_cmd_resp
    s) (acmp_listener_rcvd_cmd_resp s) (acmp_listener_streams s) (acmp_talker_streams s)
    (avb_1722_1_buf s) (acmp_out s).
Definition upd_acmp_listener_state (g : acmp_listener_state_t -> acmp_listener_state_t) (s : acmp) : acmp :=
  MkAcmp (acmp_controller_state s) (acmp_talker_state s) (g (acmp_listener_state s))
    (controller_vars s) (listener_vars s) (acmp_controller_cmd_resp s) (acmp_talker_rcvd_cmd_resp
    s) (acmp_listener_rcvd_cmd_resp s) (acmp_listener_streams s) (acmp_talker_streams s)
    (avb_1722_1_buf s) (acmp_out s).
Definition upd_controller_vars (g : entity_vars -> entity_vars) (s : acmp) : acmp :=
  MkAcmp (acmp_controller_state s) (acmp_talker_state s) (acmp_listener_state s) (g
    (controller_vars s)) (listener_vars s) (acmp_controller_cmd_resp s)
    (acmp_talker_rcvd_cmd_resp s) (acmp_listener_rcvd_cmd_resp s) (acmp_listener_streams s)
    (acmp_talker_streams s) (avb_1722_1_buf s) (acmp_out s).
Definition upd_listener_vars (g : entity_vars -> entity_vars) (s : acmp) : acmp :=
  MkAcmp (acmp_controller_state s) (acmp_talker_state s) (acmp_listener_state s)
    (controller_vars s) (g (listener_vars s)) (acmp_controller_cmd_resp s)
    (acmp_talker_rcvd_cmd_resp s) (acmp_listener_rcvd_cmd_resp s) (acmp_listener_streams s)
    (acmp_talker_streams s) (avb_1722_1_buf s) (acmp_out s).
Definition upd_acmp_controller_cmd_resp (g : avb_1722_1_acmp_cmd_resp -> avb_1722_1_acmp_cmd_resp) (s : acmp) : acmp :=
  MkAcmp (acmp_controller_state s) (acmp_talker_state s) (acmp_listener_state s)
    (controller_vars s) (listener_vars s) (g (acmp_controller_cmd_resp s))
    (acmp_talker_rcvd_cmd_resp s) (acmp_listener_rcvd_cmd_resp s) (acmp_listener_streams s)
    (acmp_talker_streams s) (avb_1722_1_buf s) (acmp_out s).
Definition upd_acmp_talker_rcvd_cmd_resp (g : avb_1722_1_acmp_cmd_resp -> avb_1722_1_acmp_cmd_resp) (s : acmp) : acmp :=
  MkAcmp (acmp_controller_state s) (acmp_talker_state s) (acmp_listener_state s)
    (controller_vars s) (listener_vars s) (acmp_controller_cmd_resp s) (g
    (acmp_talker_rcvd_cmd_resp s)) (acmp_listener_rcvd_cmd_resp s) (acmp_listener_streams s)
    (acmp_talker_streams s) (avb_1722_1_buf s) (acmp_out s).
Definition upd_acmp_listener_rcvd_cmd_resp (g : avb_1722_1_acmp_cmd_resp -> avb_1722_1_acmp_cmd_resp) (s : acmp) : acmp :=
  MkAcmp (acmp_controller_state s) (acmp_talker_state s) (acmp_listener_state s)
    (controller_vars s) (listener_vars s) (acmp_controller_cmd_resp s) (acmp_talker_rcvd_cmd_resp
    s) (g (acmp_listener_rcvd_cmd_resp s)) (acmp_listener_streams s) (acmp_talker_streams s)
    (avb_1722_1_buf s) (acmp_out s).
Definition upd_acmp_listener_streams (g : list avb_1722_1_acmp_listener_stream_info -> list avb_1722_1_acmp_listener_stream_info) (s : acmp) : acmp :=
  MkAcmp (acmp_controller_state s) (acmp_talker_state s) (acmp_listener_state s)
    (controller_vars s) (listener_vars s) (acmp_controller_cmd_resp s) (acmp_talker_rcvd_cmd_resp
    s) (acmp_listener_rcvd_cmd_resp s) (g (acmp_listener_streams s)) (acmp_talker_streams s)
    (avb_1722_1_buf s) (acmp_out s).
Definition upd_acmp_talker_streams (g : list avb_1722_1_acmp_talker_stream_info -> list avb_1722_1_acmp_talker_stream_info) (s : acmp) : acmp :=
  MkAcmp (acmp_controller_state s) (acmp_talker_state s) (acmp_listener_state s)
    (controller_vars s) (listener_vars s) (acmp_controller_cmd_resp s) (acmp_talker_rcvd_cmd_resp
    s) (acmp_listener_rcvd_cmd_resp s) (acmp_listener_streams s) (g (acmp_talker_streams s))
    (avb_1722_1_buf s) (acmp_out s).
Definition upd_avb_1722_1_buf (g : list Z -> list Z) (s : acmp) : acmp :=
  MkAcmp (acmp_controller_state s) (acmp_talker_state s) (acmp_listener_state s)
    (controller_vars s) (listener_vars s) (acmp_controller_cmd_resp s) (acmp_talker_rcvd_cmd_resp
    s) (acmp_listener_rcvd_cmd_resp s) (acmp_listener_streams s) (acmp_talker_streams s) (g
    (avb_1722_1_buf s)) (acmp_out s).
Definition upd_acmp_out (g : list acmp_event -> list acmp_event) (s : acmp) : acmp :=
  MkAcmp (acmp_controller_state s) (acmp_talker_state s) (acmp_listener_state s)
    (controller_vars s) (listener_vars s) (acmp_controller_cmd_resp s) (acmp_talker_rcvd_cmd_resp
    s) (acmp_listener_rcvd_cmd_resp s) (acmp_listener_streams s) (acmp_talker_streams s)
    (avb_1722_1_buf s) (g (acmp_out s)).

(** * Packets *)

(** Offsets in [avb_1722_1_acmp_packet_t], and its size. *)
Definition off_acmp_stream_id : nat := 4.
Definition off_controller_guid : nat := 12.
Definition off_talker_guid : nat := 20.
Definition off_listener_guid : nat := 28.
Definition off_talker_unique_id : nat := 36.
Definition off_listener_unique_id : nat := 38.
Definition off_dest_mac : nat := 40.
Definition off_connection_count : nat := 46.
Definition off_sequence_id : nat := 48.
Definition off_flags : nat := 50.
Definition off_vlan_id : nat := 52.
Definition acmp_packet_size : nat := 56.
Definition ethernet_hdr_size : nat := 14.
Definition AVB_1722_1_ACMP_PACKET_SIZE : nat := ethernet_hdr_size + acmp_packet_size.

Definition bytes_at (off n : nat) (pkt : list Z) : list Z := take n (drop off pkt).
(** [ntoh_16], into an [unsigned short]. *)
Definition short_at (off : nat) (pkt : list Z) : Z := u16 (ntoh_16 (pkt !!! off) (pkt !!! S off)).
(** [get_64], into the bytes of the union. *)
Definition guid_at (off : nat) (pkt : list Z) : Z := guid_of_c (get_64 (bytes_at off 8 pkt)).

Definition GET_1722_1_MSG_TYPE (pkt : list Z) : Z := Z.land (pkt !!! 1%nat) 0x0f.
Definition GET_1722_1_VALID_TIME (pkt : list Z) : Z := Z.shiftr (Z.land (pkt !!! 2%nat) 0xf8) 3.

Definition store_rcvd_cmd_resp (pkt : list Z) : avb_1722_1_acmp_cmd_resp :=
  {| cr_message_type := GET_1722_1_MSG_TYPE pkt;
     cr_status := GET_1722_1_VALID_TIME pkt;
     cr_stream_id := guid_at off_acmp_stream_id pkt;
     cr_controller_guid := guid_at off_controller_guid pkt;
     cr_talker_guid := guid_at off_talker_guid pkt;
     cr_listener_guid := guid_at off_listener_guid pkt;
     cr_talker_unique_id := short_at off_talker_unique_id pkt;
     cr_listener_unique_id := short_at off_listener_unique_id pkt;
     cr_stream_dest_mac := bytes_at off_dest_mac 6 pkt;
     cr_connection_count := short_at off_connection_count pkt;
     cr_sequence_id := short_at off_sequence_id pkt;
     cr_flags := short_at off_flags pkt;
     cr_vlan_id := short_at off_vlan_id pkt |}.

Section Packets.
  Context `{cfg : AcmpConfig}.

(** [avb_1722_1_create_1722_1_header], over the old contents [old] of the buffer. *)
Definition avb_1722_1_create_1722_1_header (dest_addr : list Z) (subtype message_type status data_len : Z)
    (old : list Z) : list Z :=
  let pkt i := old !!! (ethernet_hdr_size + i)%nat in
  take 6 dest_addr ++ take 6 my_mac_addr ++ [u8 (Z.shiftr ACMP_ETHERTYPE 8); Z.land ACMP_ETHERTYPE 0xff] ++
  [ SET_BITS (SET_BITS (pkt 0%nat) 7 7 1) 0 6 subtype;
    SET_BITS (SET_BITS (SET_BITS (pkt 1%nat) 7 7 0) 4 6 0) 0 3 message_type;
    SET_BITS (SET_BITS (pkt 2%nat) 3 7 (u8 status)) 0 2 (Z.shiftr data_len 8);
    SET_BITS (pkt 3%nat) 0 7 (Z.land data_len 0xff) ].

(** The buffer after [avb_1722_1_create_acmp_packet]. The last two bytes of the
    packet, which are reserved, keep what was there. *)
Definition acmp_packet (cr : avb_1722_1_acmp_cmd_resp) (message_type status : Z) (old : list Z) : list Z :=
  avb_1722_1_create_1722_1_header avb_1722_1_acmp_dest_addr DEFAULT_1722_1_ACMP_SUBTYPE message_type status
    AVB_1722_1_ACMP_CD_LENGTH old ++
  set_64 (guid_c (cr_stream_id cr)) ++ set_64 (guid_c (cr_controller_guid cr)) ++
  set_64 (guid_c (cr_talker_guid cr)) ++ set_64 (guid_c (cr_listener_guid cr)) ++
  hton_16 (cr_talker_unique_id cr) ++ hton_16 (cr_listener_unique_id cr) ++
  take 6 (cr_stream_dest_mac cr) ++
  hton_16 (cr_connection_count cr) ++ hton_16 (cr_sequence_id cr) ++ hton_16 (cr_flags cr) ++
  hton_16 (cr_vlan_id cr) ++ drop 68 old.
End Packets.
