(* ===== verification/Acmp.v ===== *)
(** Connection management (ACMP): the operations of
    [lib_tsn/src/1722_1/avb_1722_1_acmp.c] and [avb_1722_1_acmp_periodic.xc].

    [AVB_ENABLE_1722_1] is on; fast connect and the assertions are off, their
    defaults. What the periodic functions ask of the rest of the system is in
    [acmp_env]. *)
From S2P Require Import Prelude Bytes MiscTimer AcmpTypes.
From stdpp Require Import base list list_numbers numbers option.
From Stdlib Require Import ZArith Lia.
#[local] Open Scope Z_scope.

(** [CONTROLLER] and [LISTENER], the indices of the two-element arrays. *)
Inductive acmp_entity : Type := CONTROLLER | LISTENER.

#[global] Instance acmp_entity_eq_dec : EqDecision acmp_entity.
Proof. solve_decision. Defined.

Definition vars (e : acmp_entity) (s : acmp) : entity_vars :=
  match e with CONTROLLER => controller_vars s | LISTENER => listener_vars s end.
Definition upd_vars (e : acmp_entity) (g : entity_vars -> entity_vars) : acmp -> acmp :=
  match e with CONTROLLER => upd_controller_vars g | LISTENER => upd_listener_vars g end.

(** What a periodic function reads: the clock, the AVB manager's answers to
    [get_sink_state], [get_source_state] and [get_source_id] (states by number,
    0 is [AVB_SINK_STATE_DISABLED] or [AVB_SOURCE_STATE_DISABLED]), and the status
    the application returns from [avb_listener_on_talker_connect]. *)
Record acmp_env : Type := MkAcmpEnv {
  env_now : Z;
  sink_state : Z -> Z;
  source_state : Z -> Z;
  source_id : Z -> Z * Z;
  connect_status : Z;
}.

(** A command is passed by reference: to one of the two command variables, or to
    the command of an inflight entry. *)
Inductive cmd_ref : Type :=
| ControllerCmd
| ListenerRcvd
| InflightCmd (e : acmp_entity) (i : nat).

Section Acmp.
Context `{cfg : AcmpConfig}.
Abbreviation AM := (M acmp).
Implicit Types e : acmp_entity.

Definition emit (ev : acmp_event) : AM unit := modify (upd_acmp_out (fun l => l ++ [ev])).

Definition get_inflight e (i : nat) : AM avb_1722_1_acmp_inflight_command :=
  load (fun s => inflight_commands (vars e s) !! i).
Definition upd_inflight e (i : nat) (g : avb_1722_1_acmp_inflight_command -> avb_1722_1_acmp_inflight_command)
    : AM unit :=
  store (fun s => x ← inflight_commands (vars e s) !! i;
                  Some (upd_vars e (upd_inflight_commands (<[i := g x]>)) s)).

Definition get_talker_stream (i : Z) : AM avb_1722_1_acmp_talker_stream_info :=
  load (fun s => if i <? 0 then None else acmp_talker_streams s !! Z.to_nat i).
Definition upd_talker_stream (i : Z)
    (g : avb_1722_1_acmp_talker_stream_info -> avb_1722_1_acmp_talker_stream_info) : AM unit :=
  store (fun s => if i <? 0 then None else
    x ← acmp_talker_streams s !! Z.to_nat i;
    Some (upd_acmp_talker_streams (<[Z.to_nat i := g x]>) s)).
Definition get_listener_stream (i : Z) : AM avb_1722_1_acmp_listener_stream_info :=
  load (fun s => if i <? 0 then None else acmp_listener_streams s !! Z.to_nat i).
Definition put_listener_stream (i : Z) (x : avb_1722_1_acmp_listener_stream_info) : AM unit :=
  store (fun s => if i <? 0 then None else
    _ ← acmp_listener_streams s !! Z.to_nat i;
    Some (upd_acmp_listener_streams (<[Z.to_nat i := x]>) s)).

Definition get_cmd (r : cmd_ref) : AM avb_1722_1_acmp_cmd_resp :=
  match r with
  | ControllerCmd => gets acmp_controller_cmd_resp
  | ListenerRcvd => gets acmp_listener_rcvd_cmd_resp
  | InflightCmd e i => x ← get_inflight e i; mret (command x)
  end.
Definition upd_cmd (r : cmd_ref) (g : avb_1722_1_acmp_cmd_resp -> avb_1722_1_acmp_cmd_resp) : AM unit :=
  match r with
  | ControllerCmd => modify (upd_acmp_controller_cmd_resp g)
  | ListenerRcvd => modify (upd_acmp_listener_rcvd_cmd_resp g)
  | InflightCmd e i => upd_inflight e i (upd_command g)
  end.
Abbreviation upd_listener_rcvd g := (modify (upd_acmp_listener_rcvd_cmd_resp g)).
Abbreviation upd_talker_rcvd g := (modify (upd_acmp_talker_rcvd_cmd_resp g)).

Definition set_controller_state (st : acmp_controller_state_t) : AM unit :=
  modify (upd_acmp_controller_state (fun _ => st)).
Definition set_talker_state (st : acmp_talker_state_t) : AM unit :=
  modify (upd_acmp_talker_state (fun _ => st)).
Definition set_listener_state (st : acmp_listener_state_t) : AM unit :=
  modify (upd_acmp_listener_state (fun _ => st)).

(** * Initialisation *)

(** What [memset] to zero leaves. *)
Definition zero_cmd_resp : avb_1722_1_acmp_cmd_resp :=
  MkCmdResp 0 0 0 0 0 0 0 0 [0; 0; 0; 0; 0; 0] 0 0 0 0.
Definition zero_inflight : avb_1722_1_acmp_inflight_command := MkInflight false 0 false zero_cmd_resp 0.
Definition zero_listener_stream : avb_1722_1_acmp_listener_stream_info :=
  MkListenerInfo 0 0 0 0 [0; 0; 0; 0; 0; 0].
Definition zero_talker_stream : avb_1722_1_acmp_talker_stream_info :=
  MkTalkerInfo 0 0 [0; 0; 0; 0; 0; 0] (replicate AVB_1722_1_MAX_LISTENERS_PER_TALKER (MkPair 0 0)).
Definition zero_entity : entity_vars :=
  MkEntity (replicate AVB_1722_1_MAX_INFLIGHT_COMMANDS zero_inflight) 0 zero_timer 0 (Some 0%nat).

Definition init_entity (now : Z) (v : entity_vars) : entity_vars :=
  MkEntity (replicate AVB_1722_1_MAX_INFLIGHT_COMMANDS zero_inflight) 0
    (start_avb_timer now 1 (init_avb_timer 10 (acmp_inflight_timer v))) 0 (acmp_inflight_timeout_idx v).

Definition avb_1722_1_acmp_controller_init (now : Z) : AM unit :=
  _ ← set_controller_state ACMP_CONTROLLER_WAITING;
  modify (upd_controller_vars (init_entity now)).

Definition avb_1722_1_acmp_controller_deinit : AM unit := set_controller_state ACMP_CONTROLLER_IDLE.

Definition avb_1722_1_acmp_talker_init : AM unit := set_talker_state ACMP_TALKER_WAITING.

Definition acmp_zero_listener_stream_info (unique_id : Z) : AM unit :=
  put_listener_stream unique_id zero_listener_stream.

Definition avb_1722_1_acmp_listener_init (now : Z) : AM unit :=
  _ ← set_listener_state ACMP_LISTENER_WAITING;
  _ ← forM (seqZ 0 (Z.of_nat AVB_1722_1_MAX_LISTENERS)) acmp_zero_listener_stream_info;
  modify (upd_listener_vars (init_entity now)).

(** The static data before any call. *)
Definition acmp_static (buf : list Z) : acmp :=
  {| acmp_controller_state := ACMP_CONTROLLER_IDLE;
     acmp_talker_state := ACMP_TALKER_IDLE;
     acmp_listener_state := ACMP_LISTENER_IDLE;
     controller_vars := zero_entity;
     listener_vars := zero_entity;
     acmp_controller_cmd_resp := zero_cmd_resp;
     acmp_talker_rcvd_cmd_resp := zero_cmd_resp;
     acmp_listener_rcvd_cmd_resp := zero_cmd_resp;
     acmp_listener_streams := replicate AVB_1722_1_MAX_LISTENERS zero_listener_stream;
     acmp_talker_streams := replicate AVB_1722_1_MAX_TALKERS zero_talker_stream;
     avb_1722_1_buf := buf;
     acmp_out := [] |}.

(** * Packets and inflight commands *)

Definition avb_1722_1_create_acmp_packet (cr : avb_1722_1_acmp_cmd_resp) (message_type status : Z) : AM unit :=
  store (fun s => let buf := avb_1722_1_buf s in
    if (length buf <? AVB_1722_1_ACMP_PACKET_SIZE)%nat then None
    else Some (upd_avb_1722_1_buf (acmp_packet cr message_type status) s)).

(** [i_eth.send_packet(avb_1722_1_buf, AVB_1722_1_ACMP_PACKET_SIZE, ...)] *)
Definition send_packet : AM unit :=
  buf ← gets avb_1722_1_buf; emit (AcmpTx (take AVB_1722_1_ACMP_PACKET_SIZE buf)).

Definition acmp_progress_inflight_timer (now : Z) e : AM unit :=
  v ← gets (vars e);
  let '(expired, tmr) := avb_timer_expired now (acmp_inflight_timer v) in
  _ ← modify (upd_vars e (upd_acmp_inflight_timer (fun _ => tmr)));
  whenM expired
    (_ ← modify (upd_vars e (upd_acmp_centisecond_counter (fun c => u32 (c + 1))));
     modify (upd_vars e (upd_acmp_inflight_timer (start_avb_timer now 1)))).

(** [acmp_get_inflight_list], which is [inflight_commands (vars e _)], and the search. *)
Definition matches_sequence_id (id : Z) (x : avb_1722_1_acmp_inflight_command) : bool :=
  in_use x && (cr_sequence_id (command x) =? id).
Definition acmp_get_inflight_from_sequence_id e (id : Z) : AM (option nat) :=
  l ← gets (fun s => inflight_commands (vars e s));
  mret (fst <$> list_find (fun x => matches_sequence_id id x = true) l).

Definition inflight_timeout (counter message_type : Z) : Z :=
  if (message_type mod 2 =? 0) && (message_type <=? 12)
  then u32 (counter + avb_1722_1_acmp_inflight_timeouts !!! Z.to_nat (message_type / 2))
  else 0.
Definition acmp_update_inflight_timeout e (i : nat) (message_type : Z) : AM unit :=
  c ← gets (fun s => acmp_centisecond_counter (vars e s));
  upd_inflight e i (upd_inf_timeout (fun _ => inflight_timeout c message_type)).

Definition acmp_set_inflight_retry e (message_type : Z) (inflight_idx : nat) : AM unit :=
  _ ← acmp_update_inflight_timeout e inflight_idx message_type;
  upd_inflight e inflight_idx (upd_retried (fun _ => true)).

Definition command_variable e : cmd_ref :=
  match e with CONTROLLER => ControllerCmd | LISTENER => ListenerRcvd end.

Definition acmp_add_inflight e (message_type original_sequence_id : Z) : AM unit :=
  _ ← forM_until (seq 0 AVB_1722_1_MAX_INFLIGHT_COMMANDS) (fun i =>
    x ← get_inflight e i;
    if in_use x then mret None
    else
      cr ← get_cmd (command_variable e);
      _ ← upd_inflight e i (fun x =>
            MkInflight true (inf_timeout x) false (upd_cr_message_type (fun _ => u8 message_type) cr)
              original_sequence_id);
      _ ← acmp_update_inflight_timeout e i message_type;
      mret (Some tt));
  skip.

Definition acmp_remove_inflight e : AM (option nat) :=
  cr ← get_cmd (command_variable e);
  index ← acmp_get_inflight_from_sequence_id e (cr_sequence_id cr);
  match index with
  | Some i => _ ← upd_inflight e i (upd_in_use (fun _ => false)); mret (Some i)
  | None => mret None
  end.

Definition timed_out (counter : Z) (x : avb_1722_1_acmp_inflight_command) : bool :=
  in_use x && (inf_timeout x <=? counter).
Definition acmp_check_inflight_command_timeouts e : AM (option nat) :=
  v ← gets (vars e);
  mret (fst <$> list_find (fun x => timed_out (acmp_centisecond_counter v) x = true) (inflight_commands v)).

(** * Reception *)

Definition acmp_controller_response_state (message_type : Z) : acmp_controller_state_t :=
  if message_type =? ACMP_CMD_CONNECT_RX_RESPONSE then ACMP_CONTROLLER_CONNECT_RX_RESPONSE
  else if message_type =? ACMP_CMD_DISCONNECT_RX_RESPONSE then ACMP_CONTROLLER_DISCONNECT_RX_RESPONSE
  else if message_type =? ACMP_CMD_GET_TX_STATE_RESPONSE then ACMP_CONTROLLER_GET_RX_STATE_RESPONSE
  else if message_type =? ACMP_CMD_GET_RX_STATE_RESPONSE then ACMP_CONTROLLER_GET_RX_STATE_RESPONSE
  else if message_type =? ACMP_CMD_GET_TX_CONNECTION_RESPONSE then ACMP_CONTROLLER_GET_TX_CONNECTION_RESPONSE
  else ACMP_CONTROLLER_WAITING.

Definition process_avb_1722_1_acmp_controller_packet (message_type : Z) (pkt : list Z) : AM unit :=
  st ← gets acmp_controller_state;
  if negb (bool_decide (st = ACMP_CONTROLLER_WAITING)) then skip
  else if negb (compare_guid (bytes_at off_controller_guid 8 pkt) my_guid) then skip
  else
    inflight_index ← acmp_get_inflight_from_sequence_id CONTROLLER (short_at off_sequence_id pkt);
    match inflight_index with
    | None => skip
    | Some i =>
        x ← get_inflight CONTROLLER i;
        whenM (message_type =? cr_message_type (command x) + 1)
          (_ ← upd_cmd ControllerCmd (fun _ => store_rcvd_cmd_resp pkt);
           set_controller_state (acmp_controller_response_state message_type))
    end.

Definition process_avb_1722_1_acmp_talker_packet (message_type : Z) (pkt : list Z) : AM unit :=
  if negb (compare_guid (bytes_at off_talker_guid 8 pkt) my_guid) then skip
  else
    st ← gets acmp_talker_state;
    if negb (bool_decide (st = ACMP_TALKER_WAITING)) then skip
    else
      _ ← upd_talker_rcvd (fun _ => store_rcvd_cmd_resp pkt);
      if message_type =? ACMP_CMD_CONNECT_TX_COMMAND then set_talker_state ACMP_TALKER_CONNECT
      else if message_type =? ACMP_CMD_DISCONNECT_TX_COMMAND then set_talker_state ACMP_TALKER_DISCONNECT
      else if message_type =? ACMP_CMD_GET_TX_STATE_COMMAND then set_talker_state ACMP_TALKER_GET_STATE
      else if message_type =? ACMP_CMD_GET_TX_CONNECTION_COMMAND then set_talker_state ACMP_TALKER_GET_CONNECTION
      else skip.

Definition process_avb_1722_1_acmp_listener_packet (message_type : Z) (pkt : list Z) : AM unit :=
  if negb (compare_guid (bytes_at off_listener_guid 8 pkt) my_guid) then skip
  else
    st ← gets acmp_listener_state;
    if negb (bool_decide (st = ACMP_LISTENER_WAITING)) then skip
    else
      _ ← upd_listener_rcvd (fun _ => store_rcvd_cmd_resp pkt);
      if message_type =? ACMP_CMD_CONNECT_TX_RESPONSE then set_listener_state ACMP_LISTENER_CONNECT_TX_RESPONSE
      else if message_type =? ACMP_CMD_DISCONNECT_TX_RESPONSE then
        set_listener_state ACMP_LISTENER_DISCONNECT_TX_RESPONSE
      else if message_type =? ACMP_CMD_CONNECT_RX_COMMAND then set_listener_state ACMP_LISTENER_CONNECT_RX_COMMAND
      else if message_type =? ACMP_CMD_DISCONNECT_RX_COMMAND then
        set_listener_state ACMP_LISTENER_DISCONNECT_RX_COMMAND
      else if message_type =? ACMP_CMD_GET_RX_STATE_COMMAND then set_listener_state ACMP_LISTENER_GET_STATE
      else skip.

(** [pkt] is the buffer from the 1722.1 header on; the task's buffers always
    hold a whole ACMP packet there. *)
Definition process_avb_1722_1_acmp_packet (pkt : list Z) : AM unit :=
  if (length pkt <? acmp_packet_size)%nat then trap
  else
    let message_type := GET_1722_1_MSG_TYPE pkt in
    if bool_decide (message_type ∈ [ACMP_CMD_CONNECT_TX_COMMAND; ACMP_CMD_DISCONNECT_TX_COMMAND;
         ACMP_CMD_GET_TX_STATE_COMMAND; ACMP_CMD_GET_TX_CONNECTION_COMMAND])
    then process_avb_1722_1_acmp_talker_packet message_type pkt
    else if bool_decide (message_type ∈ [ACMP_CMD_CONNECT_TX_RESPONSE; ACMP_CMD_DISCONNECT_TX_RESPONSE;
         ACMP_CMD_CONNECT_RX_COMMAND; ACMP_CMD_DISCONNECT_RX_COMMAND; ACMP_CMD_GET_RX_STATE_COMMAND])
    then process_avb_1722_1_acmp_listener_packet message_type pkt
    else if bool_decide (message_type ∈ [ACMP_CMD_CONNECT_RX_RESPONSE; ACMP_CMD_DISCONNECT_RX_RESPONSE;
         ACMP_CMD_GET_RX_STATE_RESPONSE; ACMP_CMD_GET_TX_STATE_RESPONSE; ACMP_CMD_GET_TX_CONNECTION_RESPONSE])
    then process_avb_1722_1_acmp_controller_packet message_type pkt
    else skip.

(** * Transmission *)

(** [retry] with its index is [Some inflight_idx]. The device gets its own command, too. *)
Definition acmp_send_command e (message_type : Z) (r : cmd_ref) (retry : option nat) : AM unit :=
  cr ← get_cmd r;
  v ← gets (vars e);
  _ ← upd_cmd r (upd_cr_sequence_id (fun _ => u16 (sequence_id v)));
  _ ← modify (upd_vars e (upd_sequence_id (fun n => s16 (n + 1))));
  cr' ← get_cmd r;
  _ ← avb_1722_1_create_acmp_packet cr' message_type ACMP_STATUS_SUCCESS;
  _ ← send_packet;
  buf ← gets avb_1722_1_buf;
  _ ← process_avb_1722_1_acmp_packet (drop ethernet_hdr_size buf);
  match retry with
  | None => acmp_add_inflight e message_type (cr_sequence_id cr)
  | Some inflight_idx => acmp_set_inflight_retry e message_type inflight_idx
  end.

Definition acmp_send_response (message_type : Z) (response : avb_1722_1_acmp_cmd_resp) (status : Z) : AM unit :=
  _ ← avb_1722_1_create_acmp_packet response message_type status;
  send_packet.

Definition acmp_controller_connect_disconnect (message_type talker_guid listener_guid talker_id listener_id : Z)
    : AM unit :=
  _ ← upd_cmd ControllerCmd (fun cr =>
        upd_cr_listener_unique_id (fun _ => u16 listener_id)
        (upd_cr_talker_unique_id (fun _ => u16 talker_id)
        (upd_cr_listener_guid (fun _ => listener_guid)
        (upd_cr_talker_guid (fun _ => talker_guid)
        (upd_cr_controller_guid (fun _ => my_guid) cr)))));
  acmp_send_command CONTROLLER message_type ControllerCmd None.

Definition avb_1722_1_controller_connect (talker_guid listener_guid talker_id listener_id : Z) : AM unit :=
  acmp_controller_connect_disconnect ACMP_CMD_CONNECT_RX_COMMAND talker_guid listener_guid talker_id listener_id.
Definition avb_1722_1_controller_disconnect (talker_guid listener_guid talker_id listener_id : Z) : AM unit :=
  acmp_controller_connect_disconnect ACMP_CMD_DISCONNECT_RX_COMMAND talker_guid listener_guid talker_id listener_id.

Definition get_connected_listener (talker_id : Z) (i : nat) : AM avb_1722_1_acmp_listener_pair :=
  t ← get_talker_stream talker_id; load (fun _ => connected_listeners t !! i).

Definition avb_1722_1_controller_disconnect_all_listeners (talker_id : Z) : AM unit :=
  t ← get_talker_stream talker_id;
  whenM (negb (ts_stream_id t =? 0) && (0 <? ts_connection_count t))
    (forM (seq 0 AVB_1722_1_MAX_LISTENERS_PER_TALKER) (fun i =>
       l ← get_connected_listener talker_id i;
       whenM (negb (lp_guid l =? 0))
         (avb_1722_1_controller_disconnect my_guid (lp_guid l) talker_id (Z.of_nat i)))).

Definition avb_1722_1_controller_disconnect_talker (listener_id : Z) : AM unit :=
  l ← get_listener_stream listener_id;
  whenM (negb (ls_stream_id l =? 0) && truthy (ls_connected l))
    (avb_1722_1_controller_disconnect (ls_talker_guid l) my_guid (ls_talker_unique_id l) listener_id).

(** * The talker's and the listener's stream information *)

Definition acmp_set_talker_response : AM unit :=
  cr ← gets acmp_talker_rcvd_cmd_resp;
  t ← get_talker_stream (cr_talker_unique_id cr);
  upd_talker_rcvd (fun cr =>
    upd_cr_connection_count (fun _ => u16 (ts_connection_count t))
    (upd_cr_stream_dest_mac (fun _ => ts_destination_mac t)
    (upd_cr_stream_id (fun _ => ts_stream_id t) cr))).

Definition acmp_listener_valid_listener_unique : AM bool :=
  cr ← gets acmp_listener_rcvd_cmd_resp;
  mret (cr_listener_unique_id cr <? Z.of_nat AVB_1722_1_MAX_LISTENERS).

Definition acmp_add_listener_stream_info : AM unit :=
  cr ← gets acmp_listener_rcvd_cmd_resp;
  put_listener_stream (cr_listener_unique_id cr)
    (MkListenerInfo (cr_talker_guid cr) (cr_talker_unique_id cr) 1 (cr_stream_id cr) (cr_stream_dest_mac cr)).

Definition acmp_listener_get_state : AM Z :=
  cr ← gets acmp_listener_rcvd_cmd_resp;
  l ← get_listener_stream (cr_listener_unique_id cr);
  _ ← upd_listener_rcvd (fun cr =>
    upd_cr_vlan_id (fun _ => if truthy (ls_stream_id l) then ACMP_DEFAULT_VLAN else 0)
    (upd_cr_connection_count (fun _ => u16 (ls_connected l))
    (upd_cr_talker_unique_id (fun _ => ls_talker_unique_id l)
    (upd_cr_talker_guid (fun _ => ls_talker_guid l)
    (upd_cr_stream_dest_mac (fun _ => ls_destination_mac l)
    (upd_cr_stream_id (fun _ => ls_stream_id l) cr))))));
  mret ACMP_STATUS_SUCCESS.

Definition acmp_talker_get_state : AM Z :=
  cr ← gets acmp_talker_rcvd_cmd_resp;
  t ← get_talker_stream (cr_talker_unique_id cr);
  _ ← upd_talker_rcvd (fun cr =>
    upd_cr_vlan_id (fun _ => if truthy (ts_stream_id t) then ACMP_DEFAULT_VLAN else 0)
    (upd_cr_connection_count (fun _ => u16 (ts_connection_count t))
    (upd_cr_stream_dest_mac (fun _ => ts_destination_mac t)
    (upd_cr_stream_id (fun _ => ts_stream_id t) cr))));
  mret ACMP_STATUS_SUCCESS.

Definition acmp_talker_get_connection : AM Z :=
  cr ← gets acmp_talker_rcvd_cmd_resp;
  let connection := cr_connection_count cr in
  if Z.of_nat AVB_1722_1_MAX_LISTENERS_PER_TALKER <=? connection then mret ACMP_STATUS_STATE_UNAVAILABLE
  else
    t ← get_talker_stream (cr_talker_unique_id cr);
    l ← load (fun _ => connected_listeners t !! Z.to_nat connection);
    if lp_guid l =? 0 then mret ACMP_STATUS_NO_SUCH_CONNECTION
    else
      _ ← upd_talker_rcvd (fun cr =>
        upd_cr_vlan_id (fun _ => ACMP_DEFAULT_VLAN)
        (upd_cr_listener_unique_id (fun _ => lp_unique_id l)
        (upd_cr_listener_guid (fun _ => lp_guid l)
        (upd_cr_stream_dest_mac (fun _ => ts_destination_mac t)
        (upd_cr_stream_id (fun _ => ts_stream_id t) cr)))));
      mret ACMP_STATUS_SUCCESS.

(** The entry of the listener a command names, and the first empty entry. *)
Definition same_listener (cr : avb_1722_1_acmp_cmd_resp) (l : avb_1722_1_acmp_listener_pair) : bool :=
  (lp_guid l =? cr_listener_guid cr) && (lp_unique_id l =? cr_listener_unique_id cr).
Definition empty_pair (l : avb_1722_1_acmp_listener_pair) : bool := lp_guid l =? 0.

(** The [int] count wraps as the machine does. *)
Definition add_connection (cr : avb_1722_1_acmp_cmd_resp) (t : avb_1722_1_acmp_talker_stream_info)
    : avb_1722_1_acmp_talker_stream_info :=
  match list_find (fun l => same_listener cr l = true) (connected_listeners t) with
  | Some _ => t
  | None =>
      match list_find (fun l => empty_pair l = true) (connected_listeners t) with
      | Some (i, _) =>
          upd_ts_connection_count (fun n => s32 (n + 1))
            (upd_connected_listeners (<[i := MkPair (cr_listener_guid cr) (cr_listener_unique_id cr)]>) t)
      | None => t
      end
  end.
Definition acmp_add_talker_stream_info : AM unit :=
  cr ← gets acmp_talker_rcvd_cmd_resp;
  upd_talker_stream (cr_talker_unique_id cr) (add_connection cr).

Definition remove_connection (cr : avb_1722_1_acmp_cmd_resp) (t : avb_1722_1_acmp_talker_stream_info)
    : avb_1722_1_acmp_talker_stream_info :=
  match list_find (fun l => same_listener cr l = true) (connected_listeners t) with
  | Some (i, _) =>
      upd_ts_connection_count (fun n => s32 (n - 1)) (upd_connected_listeners (<[i := MkPair 0 0]>) t)
  | None => t
  end.
Definition acmp_remove_talker_stream_info : AM unit :=
  cr ← gets acmp_talker_rcvd_cmd_resp;
  upd_talker_stream (cr_talker_unique_id cr) (remove_connection cr).

Definition acmp_talker_valid_talker_unique : AM bool :=
  cr ← gets acmp_talker_rcvd_cmd_resp;
  mret (cr_talker_unique_id cr <? Z.of_nat AVB_1722_1_MAX_TALKERS).

Definition avb_1722_1_talker_set_mac_address (talker_unique_id : Z) (macaddr : list Z) : AM unit :=
  whenM (talker_unique_id <? Z.of_nat AVB_1722_1_MAX_TALKERS)
    (upd_talker_stream talker_unique_id (upd_ts_destination_mac (fun _ => take 6 macaddr))).

Definition avb_1722_1_talker_set_stream_id (talker_unique_id : Z) (streamId : Z * Z) : AM unit :=
  whenM (talker_unique_id <? Z.of_nat AVB_1722_1_MAX_TALKERS)
    (upd_talker_stream talker_unique_id
       (upd_ts_stream_id (fun _ => u64 (streamId.2 + Z.shiftl streamId.1 32)))).

(** * Application hooks

    The default hooks of [avb_1722_1_app_hooks.xc], as far as they act on ACMP. *)

Definition avb_talker_on_listener_connect (env : acmp_env) (source_num listener_guid : Z) : AM unit :=
  _ ← emit (OnListenerConnect source_num listener_guid);
  whenM (source_state env source_num =? 0)
    (avb_1722_1_talker_set_stream_id source_num (source_id env source_num)).

(** * The state machines *)

Definition acmp_listener_is_connected (env : acmp_env) (connected_to : bool) : AM bool :=
  cr ← gets acmp_listener_rcvd_cmd_resp;
  if sink_state env (cr_listener_unique_id cr) =? 0 then mret false
  else
    l ← get_listener_stream (cr_listener_unique_id cr);
    mret (if (ls_talker_guid l =? cr_talker_guid cr) && (ls_talker_unique_id l =? cr_talker_unique_id cr)
          then connected_to else negb connected_to).

Definition avb_1722_1_acmp_controller_periodic (env : acmp_env) : AM unit :=
  st ← gets acmp_controller_state;
  match st with
  | ACMP_CONTROLLER_IDLE => skip
  | ACMP_CONTROLLER_WAITING =>
      _ ← acmp_progress_inflight_timer (env_now env) CONTROLLER;
      idx ← acmp_check_inflight_command_timeouts CONTROLLER;
      _ ← modify (upd_controller_vars (upd_acmp_inflight_timeout_idx (fun _ => idx)));
      whenM (bool_decide (is_Some idx)) (set_controller_state ACMP_CONTROLLER_TIMEOUT)
  | ACMP_CONTROLLER_TIMEOUT =>
      i ← load (fun s => acmp_inflight_timeout_idx (controller_vars s));
      x ← get_inflight CONTROLLER i;
      _ ← (if retried x then upd_inflight CONTROLLER i (upd_in_use (fun _ => false))
           else acmp_send_command CONTROLLER (cr_message_type (command x)) (InflightCmd CONTROLLER i) (Some i));
      set_controller_state ACMP_CONTROLLER_WAITING
  | ACMP_CONTROLLER_CONNECT_RX_RESPONSE =>
      _ ← acmp_remove_inflight CONTROLLER;
      cr ← gets acmp_controller_cmd_resp;
      _ ← whenM (negb (cr_status cr =? ACMP_STATUS_SUCCESS))
            (emit (OnListenerConnectFailed (cr_talker_unique_id cr) (cr_listener_guid cr) (cr_status cr)));
      set_controller_state ACMP_CONTROLLER_WAITING
  | ACMP_CONTROLLER_DISCONNECT_RX_RESPONSE
  | ACMP_CONTROLLER_GET_TX_STATE_RESPONSE
  | ACMP_CONTROLLER_GET_RX_STATE_RESPONSE
  | ACMP_CONTROLLER_GET_TX_CONNECTION_RESPONSE =>
      _ ← acmp_remove_inflight CONTROLLER;
      set_controller_state ACMP_CONTROLLER_WAITING
  end.

(** A response to the command the talker has received. *)
Definition talker_response (message_type status : Z) : AM unit :=
  cr ← gets acmp_talker_rcvd_cmd_resp; acmp_send_response message_type cr status.
Definition listener_response (message_type status : Z) : AM unit :=
  cr ← gets acmp_listener_rcvd_cmd_resp; acmp_send_response message_type cr status.

(** The states of the talker. *)
Definition talker_connect (env : acmp_env) : AM unit :=
  valid ← acmp_talker_valid_talker_unique;
  _ ← (if negb valid then talker_response ACMP_CMD_CONNECT_TX_RESPONSE ACMP_STATUS_TALKER_UNKNOWN_ID
       else
         _ ← acmp_add_talker_stream_info;
         cr ← gets acmp_talker_rcvd_cmd_resp;
         _ ← avb_talker_on_listener_connect env (cr_talker_unique_id cr) (cr_listener_guid cr);
         _ ← acmp_set_talker_response;
         talker_response ACMP_CMD_CONNECT_TX_RESPONSE ACMP_STATUS_SUCCESS);
  set_talker_state ACMP_TALKER_WAITING.

Definition talker_disconnect : AM unit :=
  valid ← acmp_talker_valid_talker_unique;
  _ ← (if negb valid then talker_response ACMP_CMD_DISCONNECT_TX_RESPONSE ACMP_STATUS_TALKER_UNKNOWN_ID
       else
         _ ← acmp_remove_talker_stream_info;
         cr ← gets acmp_talker_rcvd_cmd_resp;
         t ← get_talker_stream (cr_talker_unique_id cr);
         _ ← emit (OnListenerDisconnect (cr_talker_unique_id cr) (cr_listener_guid cr) (ts_connection_count t));
         _ ← acmp_set_talker_response;
         talker_response ACMP_CMD_DISCONNECT_TX_RESPONSE ACMP_STATUS_SUCCESS);
  set_talker_state ACMP_TALKER_WAITING.

Definition avb_1722_1_acmp_talker_periodic (env : acmp_env) : AM unit :=
  st ← gets acmp_talker_state;
  match st with
  | ACMP_TALKER_IDLE => skip
  | ACMP_TALKER_WAITING => skip
  | ACMP_TALKER_CONNECT => talker_connect env
  | ACMP_TALKER_DISCONNECT => talker_disconnect
  | ACMP_TALKER_GET_STATE =>
      valid ← acmp_talker_valid_talker_unique;
      acmp_status ← (if negb valid then mret ACMP_STATUS_TALKER_UNKNOWN_ID else acmp_talker_get_state);
      _ ← talker_response ACMP_CMD_GET_TX_STATE_RESPONSE acmp_status;
      set_talker_state ACMP_TALKER_WAITING
  | ACMP_TALKER_GET_CONNECTION =>
      valid ← acmp_talker_valid_talker_unique;
      acmp_status ← (if negb valid then mret ACMP_STATUS_TALKER_UNKNOWN_ID else acmp_talker_get_connection);
      _ ← talker_response ACMP_CMD_GET_TX_CONNECTION_RESPONSE acmp_status;
      set_talker_state ACMP_TALKER_WAITING
  end.

(** [CONNECT_TX_RESPONSE], once the inflight command of the response is known. *)
Definition listener_connected (env : acmp_env) (i : nat) : AM unit :=
  x ← get_inflight LISTENER i;
  _ ← upd_listener_rcvd (upd_cr_sequence_id (fun _ => original_sequence_id x));
  cr ← gets acmp_listener_rcvd_cmd_resp;
  if truthy (Z.land (cr_flags cr) AVB_1722_1_ACMP_FLAGS_CLASS_B)
  then acmp_send_response ACMP_CMD_CONNECT_RX_RESPONSE cr ACMP_STATUS_INCOMPATIBLE_REQUEST
  else
    _ ← emit (OnTalkerConnect (cr_listener_unique_id cr) (cr_talker_guid cr) (cr_stream_dest_mac cr)
                (cr_stream_id cr) (cr_vlan_id cr));
    _ ← upd_listener_rcvd (upd_cr_status (fun _ => u8 (connect_status env)));
    cr ← gets acmp_listener_rcvd_cmd_resp;
    _ ← acmp_send_response ACMP_CMD_CONNECT_RX_RESPONSE cr (cr_status cr);
    acmp_add_listener_stream_info.

(** The states of the listener. *)
Definition listener_connect_rx (env : acmp_env) : AM unit :=
  valid ← acmp_listener_valid_listener_unique;
  _ ← (if negb valid then listener_response ACMP_CMD_CONNECT_RX_RESPONSE ACMP_STATUS_LISTENER_UNKNOWN_ID
       else
         other ← acmp_listener_is_connected env false;
         if (other : bool)
         then listener_response ACMP_CMD_CONNECT_RX_RESPONSE ACMP_STATUS_LISTENER_EXCLUSIVE
         else acmp_send_command LISTENER ACMP_CMD_CONNECT_TX_COMMAND ListenerRcvd None);
  set_listener_state ACMP_LISTENER_WAITING.

Definition listener_disconnect_rx (env : acmp_env) : AM unit :=
  valid ← acmp_listener_valid_listener_unique;
  _ ← (if negb valid then listener_response ACMP_CMD_DISCONNECT_RX_RESPONSE ACMP_STATUS_LISTENER_UNKNOWN_ID
       else
         same ← acmp_listener_is_connected env true;
         if (same : bool)
         then
           _ ← acmp_send_command LISTENER ACMP_CMD_DISCONNECT_TX_COMMAND ListenerRcvd None;
           cr ← gets acmp_listener_rcvd_cmd_resp;
           _ ← emit (OnTalkerDisconnect (cr_listener_unique_id cr) (cr_talker_guid cr)
                       (cr_stream_dest_mac cr) (cr_stream_id cr));
           acmp_zero_listener_stream_info (cr_listener_unique_id cr)
         else listener_response ACMP_CMD_DISCONNECT_RX_RESPONSE ACMP_STATUS_NOT_CONNECTED);
  set_listener_state ACMP_LISTENER_WAITING.

Definition listener_connect_tx_response (env : acmp_env) : AM unit :=
  valid ← acmp_listener_valid_listener_unique;
  whenM valid
    (inflight ← acmp_remove_inflight LISTENER;
     _ ← match inflight with Some i => listener_connected env i | None => skip end;
     cr ← gets acmp_listener_rcvd_cmd_resp;
     if truthy (Z.land (cr_flags cr) AVB_1722_1_ACMP_FLAGS_FAST_CONNECT)
     then
       _ ← upd_listener_rcvd (upd_cr_controller_guid (fun _ => my_guid));
       set_listener_state ACMP_LISTENER_GET_STATE
     else set_listener_state ACMP_LISTENER_WAITING).

Definition listener_disconnect_tx_response : AM unit :=
  valid ← acmp_listener_valid_listener_unique;
  whenM valid
    (inflight ← acmp_remove_inflight LISTENER;
     _ ← match inflight with
         | Some i =>
             x ← get_inflight LISTENER i;
             _ ← upd_listener_rcvd (upd_cr_sequence_id (fun _ => original_sequence_id x));
             cr ← gets acmp_listener_rcvd_cmd_resp;
             _ ← acmp_send_response ACMP_CMD_DISCONNECT_RX_RESPONSE cr (cr_status cr);
             acmp_zero_listener_stream_info (cr_listener_unique_id cr)
         | None => skip
         end;
     _ ← upd_listener_rcvd (upd_cr_status (fun _ => ACMP_STATUS_SUCCESS));
     set_listener_state ACMP_LISTENER_WAITING).

Definition listener_rx_timeout : AM unit :=
  i ← load (fun s => acmp_inflight_timeout_idx (listener_vars s));
  x ← get_inflight LISTENER i;
  _ ← (if retried x then
         _ ← upd_cmd (InflightCmd LISTENER i) (upd_cr_sequence_id (fun _ => original_sequence_id x));
         cr ← get_cmd (InflightCmd LISTENER i);
         _ ← whenM (negb (truthy (Z.land (cr_flags cr) AVB_1722_1_ACMP_FLAGS_FAST_CONNECT)))
               (acmp_send_response (cr_message_type cr + 7) cr ACMP_STATUS_LISTENER_TALKER_TIMEOUT);
         upd_inflight LISTENER i (upd_in_use (fun _ => false))
       else acmp_send_command LISTENER (cr_message_type (command x)) (InflightCmd LISTENER i) (Some i));
  set_listener_state ACMP_LISTENER_WAITING.

Definition avb_1722_1_acmp_listener_periodic (env : acmp_env) : AM unit :=
  st ← gets acmp_listener_state;
  match st with
  | ACMP_LISTENER_IDLE => skip
  | ACMP_LISTENER_WAITING =>
      _ ← acmp_progress_inflight_timer (env_now env) LISTENER;
      idx ← acmp_check_inflight_command_timeouts LISTENER;
      _ ← modify (upd_listener_vars (upd_acmp_inflight_timeout_idx (fun _ => idx)));
      whenM (bool_decide (is_Some idx)) (set_listener_state ACMP_LISTENER_RX_TIMEOUT)
  | ACMP_LISTENER_CONNECT_RX_COMMAND => listener_connect_rx env
  | ACMP_LISTENER_DISCONNECT_RX_COMMAND => listener_disconnect_rx env
  | ACMP_LISTENER_CONNECT_TX_RESPONSE => listener_connect_tx_response env
  | ACMP_LISTENER_DISCONNECT_TX_RESPONSE => listener_disconnect_tx_response
  | ACMP_LISTENER_GET_STATE =>
      valid ← acmp_listener_valid_listener_unique;
      status ← (if negb valid then mret ACMP_STATUS_LISTENER_UNKNOWN_ID else acmp_listener_get_state);
      _ ← listener_response ACMP_CMD_GET_RX_STATE_RESPONSE status;
      set_listener_state ACMP_LISTENER_WAITING
  | ACMP_LISTENER_RX_TIMEOUT => listener_rx_timeout
  end.

(** * The device as a transition system *)

(** What happens to ACMP after its initialisation: a received packet, the three
    periodic functions, and the calls of the application. *)
Inductive acmp_input : Type :=
| RxPacket (pkt : list Z)
| ControllerPeriodic (env : acmp_env)
| TalkerPeriodic (env : acmp_env)
| ListenerPeriodic (env : acmp_env)
| TalkerInit
| Connect (talker_guid listener_guid talker_id listener_id : Z)
| Disconnect (talker_guid listener_guid talker_id listener_id : Z)
| DisconnectAllListeners (talker_id : Z)
| DisconnectTalker (listener_id : Z)
| SetMacAddress (talker_unique_id : Z) (macaddr : list Z)
| SetStreamId (talker_unique_id : Z) (streamId : Z * Z).

Definition acmp_do (inp : acmp_input) : AM unit :=
  match inp with
  | RxPacket pkt => process_avb_1722_1_acmp_packet pkt
  | ControllerPeriodic env => avb_1722_1_acmp_controller_periodic env
  | TalkerPeriodic env => avb_1722_1_acmp_talker_periodic env
  | ListenerPeriodic env => avb_1722_1_acmp_listener_periodic env
  | TalkerInit => avb_1722_1_acmp_talker_init
  | Connect tg lg t l => avb_1722_1_controller_connect tg lg t l
  | Disconnect tg lg t l => avb_1722_1_controller_disconnect tg lg t l
  | DisconnectAllListeners t => avb_1722_1_controller_disconnect_all_listeners t
  | DisconnectTalker l => avb_1722_1_controller_disconnect_talker l
  | SetMacAddress t mac => avb_1722_1_talker_set_mac_address t mac
  | SetStreamId t id => avb_1722_1_talker_set_stream_id t id
  end.

Definition acmp_run (l : list acmp_input) : AM unit := forM l acmp_do.

(** [avb_1722_1_init], as far as ACMP goes. *)
Definition acmp_init (now : Z) : AM unit :=
  _ ← avb_1722_1_acmp_controller_init now; avb_1722_1_acmp_listener_init now.
End Acmp.

