(* ===== verification/AcmpSpec.v ===== *)
(** Connection management: packets are read back as they were written. *)
From S2P Require Import Prelude Bytes MiscTimer AcmpTypes Acmp.
From stdpp Require Import base list list_numbers numbers option.
From Stdlib Require Import ZArith Lia.
#[local] Open Scope Z_scope.

(** * Types *)

(** The fields of a command lie in the range of the packet's field. *)
Record cr_ok (cr : avb_1722_1_acmp_cmd_resp) : Prop := {
  cr_ok_message_type : 0 <= cr_message_type cr < 16;
  cr_ok_status : 0 <= cr_status cr < 32;
  cr_ok_stream_id : 0 <= cr_stream_id cr < 2 ^ 64;
  cr_ok_controller_guid : 0 <= cr_controller_guid cr < 2 ^ 64;
  cr_ok_talker_guid : 0 <= cr_talker_guid cr < 2 ^ 64;
  cr_ok_listener_guid : 0 <= cr_listener_guid cr < 2 ^ 64;
  cr_ok_talker_unique_id : 0 <= cr_talker_unique_id cr < 65536;
  cr_ok_listener_unique_id : 0 <= cr_listener_unique_id cr < 65536;
  cr_ok_mac_length : length (cr_stream_dest_mac cr) = 6%nat;
  cr_ok_mac : Forall byte_ok (cr_stream_dest_mac cr);
  cr_ok_connection_count : 0 <= cr_connection_count cr < 65536;
  cr_ok_sequence_id : 0 <= cr_sequence_id cr < 65536;
  cr_ok_flags : 0 <= cr_flags cr < 65536;
  cr_ok_vlan_id : 0 <= cr_vlan_id cr < 65536;
}.

(** * Reading and writing packets *)

(** Fields at the front of the bytes, and fields behind [n] other bytes. *)
Lemma bytes_at_front x post : bytes_at 0 (length x) (x ++ post) = x.
Proof. unfold bytes_at. by rewrite drop_0, take_app_length. Qed.

Lemma short_at_front v post : 0 <= v < 65536 -> short_at 0 (hton_16 v ++ post) = v.
Proof. intros Hv. by destruct (ntoh_hton_16 v Hv) as (b0 & b1 & -> & _ & _ & E & _). Qed.

Lemma guid_at_front l post : 0 <= l < 2 ^ 64 -> guid_at 0 (set_64 (guid_c l) ++ post) = l.
Proof.
  intros Hl. unfold guid_at.
  change 8%nat with (length (set_64 (guid_c l))). rewrite bytes_at_front.
  rewrite get_set_64 by apply le_bytes_length. by apply guid_of_guid_c.
Qed.

Lemma bytes_at_skip n off k x l : length x = n -> bytes_at (n + off) k (x ++ l) = bytes_at off k l.
Proof.
  intros <-. unfold bytes_at. rewrite drop_app_ge by lia.
  by replace (length x + off - length x)%nat with off by lia.
Qed.

Lemma short_at_skip n off x l : length x = n -> short_at (n + off) (x ++ l) = short_at off l.
Proof.
  intros <-. unfold short_at. rewrite <- Nat.add_succ_r, !list_lookup_total_alt, !lookup_app_r by lia.
  by replace (length x + off - length x)%nat with off by lia;
    replace (length x + S off - length x)%nat with (S off) by lia.
Qed.

Lemma guid_at_skip n off x l : length x = n -> guid_at (n + off) (x ++ l) = guid_at off l.
Proof. intros. unfold guid_at. by rewrite bytes_at_skip. Qed.

(** A fact about all bytes [p] and all values [v] below [n], checked on each. *)
Lemma byte_cases (n : Z) (f : Z -> Z -> bool) p v :
  forallb (fun p => forallb (f p) (seqZ 0 n)) (seqZ 0 256) = true ->
  byte_ok p -> 0 <= v < n -> f p v = true.
Proof.
  intros H Hp Hv. rewrite forallb_forall in H.
  assert (In p (seqZ 0 256)) as Hin by (apply list_elem_of_In, elem_of_seqZ; unfold byte_ok in Hp; lia).
  specialize (H p Hin). rewrite forallb_forall in H. apply H, list_elem_of_In, elem_of_seqZ. lia.
Qed.

Lemma SET_BITS_ok p lo hi v : byte_ok (SET_BITS p lo hi v).
Proof. apply u8_range. Qed.

Lemma set_message_type p v : byte_ok p -> 0 <= v < 16 -> Z.land (SET_BITS p 0 3 v) 0x0f = v.
Proof.
  intros Hp Hv. apply Z.eqb_eq. revert Hp Hv.
  by apply (byte_cases 16 (fun p v => Z.land (SET_BITS p 0 3 v) 0x0f =? v)); vm_compute.
Qed.

Lemma set_status p v :
  byte_ok p -> 0 <= v < 32 ->
  Z.shiftr (Z.land (SET_BITS (SET_BITS p 3 7 (u8 v)) 0 2 (Z.shiftr AVB_1722_1_ACMP_CD_LENGTH 8)) 0xf8) 3 = v.
Proof.
  intros Hp Hv. apply Z.eqb_eq. revert Hp Hv.
  by apply (byte_cases 32 (fun p v => Z.shiftr (Z.land (SET_BITS (SET_BITS p 3 7 (u8 v)) 0 2
    (Z.shiftr AVB_1722_1_ACMP_CD_LENGTH 8)) 0xf8) 3 =? v)); vm_compute.
Qed.

Lemma lookup_total_ok l i : Forall byte_ok l -> byte_ok (l !!! i).
Proof.
  intros Hl. rewrite list_lookup_total_alt. destruct (l !! i) eqn:E; cbn.
  - by eapply Forall_lookup_1.
  - by vm_compute.
Qed.

(** * Round trip *)

(** Steps over the fields in front of the one wanted. *)
Ltac field_length x :=
  lazymatch x with set_64 _ => constr:(8%nat) | hton_16 _ => constr:(2%nat) | cr_stream_dest_mac _ => constr:(6%nat)
  | [_; _; _; _] => constr:(4%nat) end.
Ltac field_skip f off x l :=
  let n := field_length x in
  let o := eval vm_compute in (off - n)%nat in
  change (f off (x ++ l)) with (f (n + o)%nat (x ++ l)).
Ltac field_at :=
  lazymatch goal with
  | |- guid_at 0 _ = _ => by apply guid_at_front
  | |- short_at 0 _ = _ => by apply short_at_front
  | |- guid_at ?off (?x ++ ?l) = _ =>
      field_skip guid_at off x l; rewrite guid_at_skip by done; field_at
  | |- short_at ?off (?x ++ ?l) = _ =>
      field_skip short_at off x l; rewrite short_at_skip by done; field_at
  end.

Section Packets.
Context `{cfg : AcmpConfig}.

Definition config_ok : Prop :=
  0 <= my_guid < 2 ^ 64 /\ length my_mac_addr = 6%nat /\ Forall byte_ok my_mac_addr.

Definition sent_as (mt st : Z) (cr : avb_1722_1_acmp_cmd_resp) : avb_1722_1_acmp_cmd_resp :=
  upd_cr_message_type (fun _ => mt) (upd_cr_status (fun _ => st) cr).

Lemma acmp_packet_length cr mt st old :
  config_ok -> cr_ok cr -> (AVB_1722_1_ACMP_PACKET_SIZE <= length old)%nat ->
  length (acmp_packet cr mt st old) = length old.
Proof.
  intros (_ & Hm & _) Hcr Hl. change AVB_1722_1_ACMP_PACKET_SIZE with 70%nat in Hl.
  unfold acmp_packet, avb_1722_1_create_1722_1_header. repeat rewrite length_app.
  rewrite !hton_16_length, !length_take, (cr_ok_mac_length _ Hcr), Hm, !set_64_length, length_drop. cbn. lia.
Qed.

Lemma acmp_packet_roundtrip_eq cr mt st old :
  config_ok -> cr_ok cr -> 0 <= mt < 16 -> 0 <= st < 32 -> Forall byte_ok old ->
  store_rcvd_cmd_resp (drop ethernet_hdr_size (acmp_packet cr mt st old)) = sent_as mt st cr.
Proof.
  intros (_ & Hm & _) Hcr Hmt Hst Hold.
  pose proof (cr_ok_mac_length _ Hcr) as Hl.
  set (pkt := drop _ _).
  assert (exists b0 b3,
    pkt = [b0; SET_BITS (SET_BITS (SET_BITS (old !!! 15%nat) 7 7 0) 4 6 0) 0 3 mt;
           SET_BITS (SET_BITS (old !!! 16%nat) 3 7 (u8 st)) 0 2 (Z.shiftr AVB_1722_1_ACMP_CD_LENGTH 8); b3] ++
      set_64 (guid_c (cr_stream_id cr)) ++ set_64 (guid_c (cr_controller_guid cr)) ++
      set_64 (guid_c (cr_talker_guid cr)) ++ set_64 (guid_c (cr_listener_guid cr)) ++
      hton_16 (cr_talker_unique_id cr) ++ hton_16 (cr_listener_unique_id cr) ++ cr_stream_dest_mac cr ++
      hton_16 (cr_connection_count cr) ++ hton_16 (cr_sequence_id cr) ++ hton_16 (cr_flags cr) ++
      hton_16 (cr_vlan_id cr) ++ drop 68 old) as (b0 & b3 & E).
  { eexists _, _. subst pkt. unfold acmp_packet, avb_1722_1_create_1722_1_header. cbv zeta.
    rewrite (firstn_all2 my_mac_addr), (firstn_all2 (cr_stream_dest_mac cr)) by lia.
    remember my_mac_addr as mac eqn:Emac. clear Emac. destruct_len mac Hm. reflexivity. }
  unfold store_rcvd_cmd_resp. rewrite E. clearbody pkt. clear E. destruct Hcr.
  unfold sent_as, upd_cr_message_type, upd_cr_status. f_equal.
  - exact (set_message_type _ _ (SET_BITS_ok _ _ _ _) Hmt).
  - exact (set_status _ _ (lookup_total_ok _ _ Hold) Hst).
  - field_at.
  - field_at.
  - field_at.
  - field_at.
  - field_at.
  - field_at.
  - transitivity (bytes_at 0 6 (cr_stream_dest_mac cr ++ hton_16 (cr_connection_count cr) ++
      hton_16 (cr_sequence_id cr) ++ hton_16 (cr_flags cr) ++ hton_16 (cr_vlan_id cr) ++ drop 68 old));
      [reflexivity|]. rewrite <- Hl. apply bytes_at_front.
  - field_at.
  - field_at.
  - field_at.
  - field_at.
Qed.

(** What is stored of a received ACMP packet is what the sender put into it: every field of
    the command or response, its message type and its status, whatever the buffer held before. *)
Theorem acmp_packet_roundtrip cr mt st old :
  config_ok -> cr_ok cr -> 0 <= mt < 16 -> 0 <= st < 32 -> Forall byte_ok old ->
  store_rcvd_cmd_resp (drop ethernet_hdr_size (acmp_packet cr mt st old)) = sent_as mt st cr.
Proof. apply acmp_packet_roundtrip_eq. Qed.
End Packets.

(** * A device with one talker and one listener *)

Definition sample_acmp_config : AcmpConfig := {|
  AVB_1722_1_MAX_LISTENERS := 1;
  AVB_1722_1_MAX_TALKERS := 1;
  my_guid := 0x002297fffe000001;
  my_mac_addr := [0x00; 0x22; 0x97; 0x00; 0x00; 0x01] |}.

#[local] Existing Instance sample_acmp_config.

Lemma sample_config_ok : config_ok.
Proof. split_and!; [by vm_compute..|by apply bytes_okb]. Qed.

Definition sample_response : avb_1722_1_acmp_cmd_resp :=
  MkCmdResp 6 0 0x0022970001000000 1 2 3 0x1234 5 [0x91; 0xe0; 0xf0; 0; 0; 1] 6 7 8 2.

Lemma sample_response_ok : cr_ok sample_response.
Proof. constructor; try (by vm_compute); by apply bytes_okb. Qed.

(** A response with status 7, written over a buffer of ones. *)
Example acmp_packet_roundtrip_witness :
  store_rcvd_cmd_resp (drop ethernet_hdr_size (acmp_packet sample_response 7 7 (replicate 70 0xff))) =
    sent_as 7 7 sample_response.
Proof.
  apply acmp_packet_roundtrip;
    [apply sample_config_ok | apply sample_response_ok | by vm_compute | by vm_compute | by apply bytes_okb].
Defined.
