(* ===== verification/AcmpInv.v ===== *)
(** Connection management: the types of the state, and the rules of the safety proof.

    [runs f f' m P]: from a state that is well typed and in the frame [f], [m]
    ends without undefined behaviour, well typed, in the frame [f'], with a result
    that satisfies [P]. A frame is what a periodic function knows of the command
    it works on: nothing else writes to it while the state machine is busy. *)
From S2P Require Import Prelude Bytes MiscTimer AcmpTypes Acmp AcmpSpec.
From stdpp Require Import base list list_numbers numbers option.
From Stdlib Require Import ZArith Lia.
#[local] Open Scope Z_scope.

Section Safe.
Context `{cfg : AcmpConfig} (Hcfg : config_ok).
Abbreviation AM := (M acmp).

(** * Types *)

Definition u16_ok (x : Z) : Prop := 0 <= x < 65536.
Definition u32_ok (x : Z) : Prop := 0 <= x < 2 ^ 32.
Definition u64_ok (x : Z) : Prop := 0 <= x < 2 ^ 64.
Definition s16_ok (x : Z) : Prop := - 2 ^ 15 <= x < 2 ^ 15.
Definition s32_ok (x : Z) : Prop := - 2 ^ 31 <= x < 2 ^ 31.
Definition mac_ok (l : list Z) : Prop := length l = 6%nat /\ Forall byte_ok l.

(** The commands each entity sends; a free entry may hold zeros. *)
Definition own_commands (e : acmp_entity) : list Z :=
  match e with
  | CONTROLLER => [0; ACMP_CMD_CONNECT_RX_COMMAND; ACMP_CMD_DISCONNECT_RX_COMMAND]
  | LISTENER => [ACMP_CMD_CONNECT_TX_COMMAND; ACMP_CMD_DISCONNECT_TX_COMMAND]
  end.

Definition inflight_ok (e : acmp_entity) (x : avb_1722_1_acmp_inflight_command) : Prop :=
  cr_ok (command x) /\ cr_message_type (command x) ∈ own_commands e /\ u16_ok (original_sequence_id x) /\
  u32_ok (inf_timeout x).
Definition entity_ok (e : acmp_entity) (v : entity_vars) : Prop :=
  length (inflight_commands v) = AVB_1722_1_MAX_INFLIGHT_COMMANDS /\
  Forall (inflight_ok e) (inflight_commands v) /\
  u32_ok (acmp_centisecond_counter v) /\ s16_ok (sequence_id v).
Definition pair_ok (l : avb_1722_1_acmp_listener_pair) : Prop := u64_ok (lp_guid l) /\ u16_ok (lp_unique_id l).
Definition talker_ok (t : avb_1722_1_acmp_talker_stream_info) : Prop :=
  u64_ok (ts_stream_id t) /\ s32_ok (ts_connection_count t) /\ mac_ok (ts_destination_mac t) /\
  length (connected_listeners t) = AVB_1722_1_MAX_LISTENERS_PER_TALKER /\ Forall pair_ok (connected_listeners t).
Definition listener_ok (l : avb_1722_1_acmp_listener_stream_info) : Prop :=
  u64_ok (ls_talker_guid l) /\ u16_ok (ls_talker_unique_id l) /\ u64_ok (ls_stream_id l) /\
  mac_ok (ls_destination_mac l) /\ s32_ok (ls_connected l).

(** A frame on the wire is the packet of some command or response. *)
Definition event_ok (ev : acmp_event) : Prop :=
  match ev with
  | AcmpTx frame => exists cr mt st old, cr_ok cr /\ 0 <= mt < 16 /\ 0 <= st < 32 /\ Forall byte_ok old /\
      (AVB_1722_1_ACMP_PACKET_SIZE <= length old)%nat /\
      frame = take AVB_1722_1_ACMP_PACKET_SIZE (acmp_packet cr mt st old)
  | _ => True
  end.

Definition timeout_ok (v : entity_vars) : Prop :=
  exists i, acmp_inflight_timeout_idx v = Some i /\ (i < AVB_1722_1_MAX_INFLIGHT_COMMANDS)%nat.

Record acmp_ok (s : acmp) : Prop := {
  ok_controller : entity_ok CONTROLLER (controller_vars s);
  ok_listener : entity_ok LISTENER (listener_vars s);
  ok_controller_timeout : acmp_controller_state s = ACMP_CONTROLLER_TIMEOUT -> timeout_ok (controller_vars s);
  ok_listener_timeout : acmp_listener_state s = ACMP_LISTENER_RX_TIMEOUT -> timeout_ok (listener_vars s);
  ok_controller_cmd : cr_ok (acmp_controller_cmd_resp s);
  ok_talker_rcvd : cr_ok (acmp_talker_rcvd_cmd_resp s);
  ok_listener_rcvd : cr_ok (acmp_listener_rcvd_cmd_resp s);
  ok_listener_streams_length : length (acmp_listener_streams s) = AVB_1722_1_MAX_LISTENERS;
  ok_listener_streams : Forall listener_ok (acmp_listener_streams s);
  ok_talker_streams_length : length (acmp_talker_streams s) = AVB_1722_1_MAX_TALKERS;
  ok_talker_streams : Forall talker_ok (acmp_talker_streams s);
  ok_buf_length : (AVB_1722_1_ACMP_PACKET_SIZE <= length (avb_1722_1_buf s))%nat;
  ok_buf : Forall byte_ok (avb_1722_1_buf s);
  ok_out : Forall event_ok (acmp_out s);
}.

(** * Frames *)

Inductive frame : Type :=
| FNone
| FTalker (talker_unique_id : Z)
| FListener (listener_unique_id : Z).

Definition in_frame (f : frame) (s : acmp) : Prop :=
  match f with
  | FNone => True
  | FTalker t => acmp_talker_state s <> ACMP_TALKER_WAITING /\
      cr_talker_unique_id (acmp_talker_rcvd_cmd_resp s) = t
  | FListener u => acmp_listener_state s <> ACMP_LISTENER_WAITING /\
      cr_listener_unique_id (acmp_listener_rcvd_cmd_resp s) = u
  end.

Definition runs {A} (f f' : frame) (m : AM A) (P : A -> Prop) : Prop :=
  forall s, acmp_ok s -> in_frame f s -> wp true m (fun a s' => acmp_ok s' /\ in_frame f' s' /\ P a) s.

Lemma runs_ret {A} f (a : A) (P : A -> Prop) : P a -> runs f f (mret a) P.
Proof. intros HP s Hs Hf. by apply wp_ret. Qed.
Lemma runs_skip f : runs f f skip (fun _ => True).
Proof. intros s Hs Hf. by apply wp_skip. Qed.

Lemma runs_bind {A B} f f1 f' (m : AM A) (k : A -> AM B) (P : A -> Prop) (Q : B -> Prop) :
  runs f f1 m P -> (forall a, P a -> runs f1 f' (k a) Q) -> runs f f' (m ≫= k) Q.
Proof.
  intros Hm Hk s Hs Hf. apply wp_bind. eapply wp_mono; [by apply Hm|]. intros a s' (Hs' & Hf' & Ha).
  by apply Hk.
Qed.

Lemma runs_mono {A} f f' (m : AM A) (P Q : A -> Prop) :
  runs f f' m P -> (forall a, P a -> Q a) -> runs f f' m Q.
Proof. intros Hm HPQ s Hs Hf. eapply wp_mono; [by apply Hm|]. naive_solver. Qed.

Lemma runs_leave {A} f f' (m : AM A) (P : A -> Prop) : runs f f' m P -> runs f FNone m P.
Proof. intros Hm s Hs Hf. eapply wp_mono; [by apply Hm|]. naive_solver. Qed.

Lemma runs_forget {A} f f' (m : AM A) (P : A -> Prop) : runs FNone f' m P -> runs f f' m P.
Proof. intros Hm s Hs Hf. by apply Hm. Qed.

Lemma runs_gets {A} f (g : acmp -> A) (P : A -> Prop) :
  (forall s, acmp_ok s -> in_frame f s -> P (g s)) -> runs f f (gets g) P.
Proof. intros H s Hs Hf. apply wp_gets. auto. Qed.

Lemma runs_load {A} f (g : acmp -> option A) (P : A -> Prop) :
  (forall s, acmp_ok s -> in_frame f s -> exists a, g s = Some a /\ P a) -> runs f f (load g) P.
Proof. intros H s Hs Hf. destruct (H s Hs Hf) as (a & E & Ha). by eapply wp_load. Qed.

Lemma runs_modify f g :
  (forall s, acmp_ok s -> in_frame f s -> acmp_ok (g s) /\ in_frame f (g s)) ->
  runs f f (modify g) (fun _ => True).
Proof. intros H s Hs Hf. apply wp_modify. destruct (H s Hs Hf). done. Qed.

Lemma runs_store f g :
  (forall s, acmp_ok s -> in_frame f s -> exists s', g s = Some s' /\ acmp_ok s' /\ in_frame f s') ->
  runs f f (store g) (fun _ => True).
Proof. intros H s Hs Hf. destruct (H s Hs Hf) as (s' & E & Hs' & Hf'). by eapply wp_store. Qed.

Lemma runs_when f b (m : AM unit) :
  (b = true -> runs f f m (fun _ => True)) -> runs f f (whenM b m) (fun _ => True).
Proof. destruct b; intros H; [by apply H | apply runs_skip]. Qed.

Lemma runs_forM {A} f (l : list A) (g : A -> AM unit) :
  (forall x, x ∈ l -> runs f f (g x) (fun _ => True)) -> runs f f (forM l g) (fun _ => True).
Proof.
  intros Hg. induction l as [|x l IH]; [apply runs_skip|]. cbn [forM].
  eapply runs_bind; [apply Hg; by constructor|]. intros _ _. apply IH. intros y Hy. apply Hg. by constructor.
Qed.

Lemma runs_forM_until {A B} f (l : list A) (g : A -> AM (option B)) :
  (forall x, x ∈ l -> runs f f (g x) (fun _ => True)) -> runs f f (forM_until l g) (fun _ => True).
Proof.
  intros Hg. induction l as [|x l IH]; [by apply runs_ret|]. cbn [forM_until].
  eapply runs_bind; [apply Hg; by constructor|]. intros [b|] _; [by apply runs_ret|].
  apply IH. intros y Hy. apply Hg. by constructor.
Qed.

Lemma runs_enter {A} f f' (m : AM A) (P : A -> Prop) s :
  acmp_ok s -> in_frame f s -> runs f f' m P -> wp true m (fun _ => acmp_ok) s.
Proof. intros Hs Hf Hm. eapply wp_mono; [by apply Hm|]. naive_solver. Qed.

(** * Primitive operations *)

Ltac ok_fields := match goal with H : acmp_ok _ |- acmp_ok _ => destruct H; constructor; cbn in *; try done end.
Ltac in_frames f := destruct f; cbn in *; naive_solver.

Lemma runs_emit f ev : event_ok ev -> runs f f (emit ev) (fun _ => True).
Proof.
  intros Hev. apply runs_modify. intros s Hs Hf. split; [|in_frames f]. ok_fields.
  apply Forall_app. by split; [|constructor].
Qed.

Lemma vars_ok e s : acmp_ok s -> entity_ok e (vars e s).
Proof. intros []. by destruct e. Qed.

(** Updates of an entity's variables that keep its commands and its timeout index. *)
Lemma runs_upd_vars f e g :
  (forall v, entity_ok e v -> entity_ok e (g v)) ->
  (forall v, acmp_inflight_timeout_idx (g v) = acmp_inflight_timeout_idx v) ->
  runs f f (modify (upd_vars e g)) (fun _ => True).
Proof.
  intros Hg Hi. apply runs_modify. intros s Hs Hf. split; [|destruct e; in_frames f].
  destruct e; ok_fields; auto; unfold timeout_ok in *; by rewrite Hi.
Qed.

Lemma runs_get_inflight f e i :
  (i < AVB_1722_1_MAX_INFLIGHT_COMMANDS)%nat -> runs f f (get_inflight e i) (inflight_ok e).
Proof.
  intros Hi. apply runs_load. intros s Hs _. destruct (vars_ok e s Hs) as (Hl & Ha & Hc & Hq).
  destruct (lookup_lt_is_Some_2 (inflight_commands (vars e s)) i) as [x Hx]; [lia|].
  exists x. split; [done|]. by eapply Forall_lookup_1.
Qed.

Lemma runs_upd_inflight f e i g :
  (i < AVB_1722_1_MAX_INFLIGHT_COMMANDS)%nat -> (forall x, inflight_ok e x -> inflight_ok e (g x)) ->
  runs f f (upd_inflight e i g) (fun _ => True).
Proof.
  intros Hi Hg. apply runs_store. intros s Hs Hf. destruct (vars_ok e s Hs) as (Hl & Ha & Hc & Hq).
  destruct (lookup_lt_is_Some_2 (inflight_commands (vars e s)) i) as [x Hx]; [lia|].
  rewrite Hx. eexists. split; [reflexivity|].
  assert (entity_ok e (upd_inflight_commands (<[i:=g x]>) (vars e s))).
  { split_and!; cbn; [by rewrite length_insert| |done|done]. apply Forall_insert; [done|]. apply Hg. by eapply Forall_lookup_1. }
  split; [|destruct e; in_frames f]. destruct e; by ok_fields.
Qed.

Lemma runs_get_talker_stream f i :
  0 <= i < Z.of_nat AVB_1722_1_MAX_TALKERS -> runs f f (get_talker_stream i) talker_ok.
Proof.
  intros Hi. apply runs_load. intros s [] _. destruct (Z.ltb_spec i 0); [lia|].
  destruct (lookup_lt_is_Some_2 (acmp_talker_streams s) (Z.to_nat i)) as [x Hx]; [lia|].
  exists x. split; [done|]. by eapply Forall_lookup_1.
Qed.

Lemma runs_upd_talker_stream f i g :
  0 <= i < Z.of_nat AVB_1722_1_MAX_TALKERS -> (forall x, talker_ok x -> talker_ok (g x)) ->
  runs f f (upd_talker_stream i g) (fun _ => True).
Proof.
  intros Hi Hg. apply runs_store. intros s Hs Hf. destruct (Z.ltb_spec i 0); [lia|].
  pose proof (ok_talker_streams_length s Hs) as Hl.
  destruct (lookup_lt_is_Some_2 (acmp_talker_streams s) (Z.to_nat i)) as [x Hx]; [lia|].
  rewrite Hx. eexists. split; [reflexivity|]. split; [|in_frames f]. ok_fields; [by rewrite length_insert|].
  apply Forall_insert; [done|]. apply Hg. by eapply Forall_lookup_1.
Qed.

Lemma runs_get_listener_stream f i :
  0 <= i < Z.of_nat AVB_1722_1_MAX_LISTENERS -> runs f f (get_listener_stream i) listener_ok.
Proof.
  intros Hi. apply runs_load. intros s [] _. destruct (Z.ltb_spec i 0); [lia|].
  destruct (lookup_lt_is_Some_2 (acmp_listener_streams s) (Z.to_nat i)) as [x Hx]; [lia|].
  exists x. split; [done|]. by eapply Forall_lookup_1.
Qed.

Lemma runs_put_listener_stream f i x :
  0 <= i < Z.of_nat AVB_1722_1_MAX_LISTENERS -> listener_ok x ->
  runs f f (put_listener_stream i x) (fun _ => True).
Proof.
  intros Hi Hx. apply runs_store. intros s Hs Hf. destruct (Z.ltb_spec i 0); [lia|].
  pose proof (ok_listener_streams_length s Hs) as Hl.
  destruct (lookup_lt_is_Some_2 (acmp_listener_streams s) (Z.to_nat i)) as [y Hy]; [lia|].
  rewrite Hy. eexists. split; [reflexivity|]. split; [|in_frames f]. ok_fields; [by rewrite length_insert|].
  by apply Forall_insert.
Qed.

(** The command variables. *)
Lemma runs_get_talker_rcvd f : runs f f (gets acmp_talker_rcvd_cmd_resp)
  (fun cr => cr_ok cr /\ forall t, f = FTalker t -> cr_talker_unique_id cr = t).
Proof.
  apply runs_gets. intros s [] Hf. split; [done|]. intros t ->. by destruct Hf.
Qed.
Lemma runs_get_listener_rcvd f : runs f f (gets acmp_listener_rcvd_cmd_resp)
  (fun cr => cr_ok cr /\ forall t, f = FListener t -> cr_listener_unique_id cr = t).
Proof.
  apply runs_gets. intros s [] Hf. split; [done|]. intros t ->. by destruct Hf.
Qed.
Lemma runs_get_controller_cmd f : runs f f (gets acmp_controller_cmd_resp) cr_ok.
Proof. apply runs_gets. by intros s []. Qed.

Lemma runs_upd_talker_rcvd f g :
  (forall cr, cr_ok cr -> cr_ok (g cr)) ->
  (forall t cr, f = FTalker t -> cr_talker_unique_id (g cr) = cr_talker_unique_id cr) ->
  runs f f (modify (upd_acmp_talker_rcvd_cmd_resp g)) (fun _ => True).
Proof.
  intros Hg Hi. apply runs_modify. intros s Hs Hf. split; [ok_fields; by apply Hg|].
  destruct f as [|t|]; cbn in *; [done| |done]. by rewrite (Hi t).
Qed.
Lemma runs_upd_listener_rcvd f g :
  (forall cr, cr_ok cr -> cr_ok (g cr)) ->
  (forall t cr, f = FListener t -> cr_listener_unique_id (g cr) = cr_listener_unique_id cr) ->
  runs f f (modify (upd_acmp_listener_rcvd_cmd_resp g)) (fun _ => True).
Proof.
  intros Hg Hi. apply runs_modify. intros s Hs Hf. split; [ok_fields; by apply Hg|].
  destruct f as [| |t]; cbn in *; [done|done|]. by rewrite (Hi t).
Qed.
Lemma runs_upd_controller_cmd f g :
  (forall cr, cr_ok cr -> cr_ok (g cr)) -> runs f f (modify (upd_acmp_controller_cmd_resp g)) (fun _ => True).
Proof. intros Hg. apply runs_modify. intros s Hs Hf. split; [ok_fields; by apply Hg | in_frames f]. Qed.

(** States other than the timeout states. *)
Lemma runs_set_controller_state f st :
  st <> ACMP_CONTROLLER_TIMEOUT -> runs f f (set_controller_state st) (fun _ => True).
Proof. intros Hst. apply runs_modify. intros s Hs Hf. split; [by ok_fields | in_frames f]. Qed.
Lemma runs_set_talker_state f st :
  (forall t, f <> FTalker t) -> runs f f (set_talker_state st) (fun _ => True).
Proof.
  intros Hn. apply runs_modify. intros s Hs Hf. split; [by ok_fields|].
  destruct f as [|t|]; cbn in *; [done| |done]. by destruct (Hn t).
Qed.
Lemma runs_set_listener_state f st :
  st <> ACMP_LISTENER_RX_TIMEOUT -> (forall t, f <> FListener t) ->
  runs f f (set_listener_state st) (fun _ => True).
Proof.
  intros Hst Hn. apply runs_modify. intros s Hs Hf. split; [by ok_fields|].
  destruct f as [| |t]; cbn in *; [done|done|]. by destruct (Hn t).
Qed.
End Safe.
