(* ===== verification/AcmpSafe.v ===== *)
(** Connection management: every input is served, and leaves the state well typed. *)
From S2P Require Import Prelude Bytes MiscTimer AcmpTypes Acmp AcmpSpec AcmpInv.
From stdpp Require Import base list list_numbers numbers option.
From Stdlib Require Import ZArith Lia.
#[local] Open Scope Z_scope.

(** * Types of packets *)

Lemma guid_of_c_range l : Forall byte_ok l -> 0 <= guid_of_c l < 256 ^ Z.of_nat (length l).
Proof.
  intros Hl. rewrite <- be_value_reverse, <- length_reverse. apply be_value_range. by apply Forall_reverse.
Qed.

Lemma guid_at_ok off pkt : Forall byte_ok pkt -> u64_ok (guid_at off pkt).
Proof.
  intros Hp. unfold guid_at. apply (guid_of_c_range (get_64 _)). unfold get_64.
  apply Forall_fmap, Forall_true. intros i. cbn. apply lookup_total_ok.
  unfold bytes_at. by apply Forall_take, Forall_drop.
Qed.

Lemma mac_at_ok off pkt :
  (off + 6 <= length pkt)%nat -> Forall byte_ok pkt -> mac_ok (bytes_at off 6 pkt).
Proof.
  intros Hl Hp. unfold bytes_at. split; [rewrite length_take, length_drop; lia|].
  by apply Forall_take, Forall_drop.
Qed.

Lemma store_rcvd_cmd_resp_ok pkt :
  (acmp_packet_size <= length pkt)%nat -> Forall byte_ok pkt -> cr_ok (store_rcvd_cmd_resp pkt).
Proof.
  intros Hl Hp. change acmp_packet_size with 56%nat in Hl.
  assert (forall off, 0 <= short_at off pkt < 65536) by (intros; apply u16_range).
  assert (forall off, 0 <= guid_at off pkt < 2 ^ 64) by (intros; by apply guid_at_ok).
  destruct (mac_at_ok off_dest_mac pkt) as [Hm Hm']; [unfold off_dest_mac; lia|done|].
  constructor; unfold store_rcvd_cmd_resp; cbn [cr_message_type cr_status cr_stream_id cr_controller_guid cr_talker_guid
    cr_listener_guid cr_talker_unique_id cr_listener_unique_id cr_stream_dest_mac cr_connection_count
    cr_sequence_id cr_flags cr_vlan_id]; try done.
  - unfold GET_1722_1_MSG_TYPE. change 15 with (Z.ones 4). rewrite Z.land_ones by lia.
    apply Z.mod_pos_bound. lia.
  - unfold GET_1722_1_VALID_TIME.
    assert ((0 <=? Z.shiftr (Z.land (pkt !!! 2%nat) 0xf8) 3) && (Z.shiftr (Z.land (pkt !!! 2%nat) 0xf8) 3 <? 32)
      = true) as [?%Z.leb_le ?%Z.ltb_lt]%andb_true_iff; [|done].
    apply (byte_cases 1 (fun p _ => (0 <=? Z.shiftr (Z.land p 0xf8) 3) && (Z.shiftr (Z.land p 0xf8) 3 <? 32)) _ 0);
      [by vm_compute | by apply lookup_total_ok | lia].
Qed.

Ltac ok_cr := intros ? []; constructor; cbn in *; try done; try lia.
Ltac upd_rcvd lem := apply lem; [ok_cr | by intros].

Section Safe.
Context `{cfg : AcmpConfig} (Hcfg : config_ok).

Lemma acmp_packet_ok cr mt st old :
  cr_ok cr -> Forall byte_ok old -> Forall byte_ok (acmp_packet cr mt st old).
Proof.
  destruct Hcfg as (_ & Hl & Hmac). intros Hcr Hold.
  assert (forall v, Forall byte_ok (hton_16 v)) as Hh.
  { intros v. rewrite hton_16_eq. repeat constructor; try apply Z.mod_pos_bound; try lia.
    - apply Z.div_pos; [apply u16_range|lia].
    - apply Z.div_lt_upper_bound; [lia|]. pose proof (u16_range v). lia. }
  assert (forall l, Forall byte_ok (set_64 (guid_c l))) as Hs.
  { intros l. rewrite set_64_rev by apply le_bytes_length. apply Forall_reverse, le_bytes_ok. }
  unfold acmp_packet, avb_1722_1_create_1722_1_header. cbv zeta. rewrite !Forall_app.
  split_and!; try apply Hh; try apply Hs; try by apply Forall_take.
  - by apply Forall_take, bytes_okb.
  - by apply bytes_okb.
  - repeat constructor; apply SET_BITS_ok.
  - apply Forall_take, Hcr.
  - by apply Forall_drop.
Qed.

(** * Operations *)

(** The packet built is the packet sent. *)
Lemma runs_transmit {A} f f' cr mt st (k : M acmp A) P :
  cr_ok cr -> 0 <= mt < 16 -> 0 <= st < 32 -> runs f f' k P ->
  runs f f' (_ ← avb_1722_1_create_acmp_packet cr mt st; _ ← send_packet; k) P.
Proof.
  intros Hcr Hmt Hst Hk s Hs Hf. pose proof (ok_buf_length s Hs) as Hl. pose proof (ok_buf s Hs) as Hb.
  apply Nat.ltb_ge in Hl as El. apply wp_bind. eapply wp_store; [cbv beta zeta; rewrite El; reflexivity|].
  cbv beta. apply wp_bind. unfold send_packet. apply wp_bind, wp_gets. apply wp_modify. apply Hk.
  - destruct Hs; constructor; cbn -[acmp_packet AVB_1722_1_ACMP_PACKET_SIZE] in *; try done.
    + by rewrite acmp_packet_length.
    + by apply acmp_packet_ok.
    + apply Forall_app. split; [done|]. constructor; [|done]. cbn -[acmp_packet AVB_1722_1_ACMP_PACKET_SIZE].
      by exists cr, mt, st, (avb_1722_1_buf s).
  - destruct f; done.
Qed.

Lemma runs_send_response f mt cr st :
  cr_ok cr -> 0 <= mt < 16 -> 0 <= st < 32 -> runs f f (acmp_send_response mt cr st) (fun _ => True).
Proof.
  intros Hcr Hmt Hst. apply (runs_transmit f f cr mt st skip _ Hcr Hmt Hst (runs_skip f)).
Qed.


(** Inflight commands. *)
Definition index_ok (o : option nat) : Prop := forall i, o = Some i -> (i < AVB_1722_1_MAX_INFLIGHT_COMMANDS)%nat.

Lemma find_inflight_ok l (P : avb_1722_1_acmp_inflight_command -> Prop) `{!forall x, Decision (P x)} :
  length l = AVB_1722_1_MAX_INFLIGHT_COMMANDS -> index_ok (fst <$> list_find P l).
Proof.
  intros Hl i Hi. apply fmap_Some in Hi as ([j x] & Hf & ->). apply list_find_Some in Hf as [Hx _].
  apply lookup_lt_Some in Hx. by rewrite Hl in Hx.
Qed.

Lemma runs_get_vars f e : runs f f (gets (vars e)) (entity_ok e).
Proof. apply runs_gets. intros. by apply vars_ok. Qed.

Lemma runs_find f e id : runs f f (acmp_get_inflight_from_sequence_id e id) index_ok.
Proof.
  eapply (runs_bind _ _ _ _ _ (fun l => length l = AVB_1722_1_MAX_INFLIGHT_COMMANDS)).
  - apply runs_gets. intros s Hs _. by apply vars_ok.
  - intros l Hl. apply runs_ret. by apply find_inflight_ok.
Qed.

Lemma runs_check_timeouts f e : runs f f (acmp_check_inflight_command_timeouts e) index_ok.
Proof.
  eapply runs_bind; [apply runs_get_vars|]. intros v [Hl _]. apply runs_ret. by apply find_inflight_ok.
Qed.

Lemma runs_progress_timer f now e : runs f f (acmp_progress_inflight_timer now e) (fun _ => True).
Proof.
  eapply runs_bind; [apply runs_get_vars|]. intros v _. destruct (avb_timer_expired _ _) as [b tmr].
  eapply runs_bind; [by apply runs_upd_vars|]. intros _ _. apply runs_when. intros _.
  eapply runs_bind; [|intros _ _; by apply runs_upd_vars].
  apply runs_upd_vars; [|done]. intros w (Hl & Ha & _ & Hq). split_and!; try done. apply u32_range.
Qed.

Lemma inflight_timeout_ok c mt : u32_ok (inflight_timeout c mt).
Proof. unfold inflight_timeout. destruct (_ && _); [apply u32_range|done]. Qed.

Lemma runs_update_timeout f e i mt :
  (i < AVB_1722_1_MAX_INFLIGHT_COMMANDS)%nat -> runs f f (acmp_update_inflight_timeout e i mt) (fun _ => True).
Proof.
  intros Hi. eapply runs_bind; [by apply (runs_gets f _ (fun _ => True))|]. intros c _.
  apply runs_upd_inflight; [done|]. intros x (Hx & Hk & Ho & _). split_and!; try done. apply inflight_timeout_ok.
Qed.

Lemma runs_set_retry f e mt i :
  (i < AVB_1722_1_MAX_INFLIGHT_COMMANDS)%nat -> runs f f (acmp_set_inflight_retry e mt i) (fun _ => True).
Proof.
  intros Hi. eapply runs_bind; [by apply runs_update_timeout|]. intros _ _.
  apply runs_upd_inflight; [done|]. by intros [] [].
Qed.

(** A reference to a command, and what may be changed through it. *)
Definition ref_ok (r : cmd_ref) : Prop :=
  match r with InflightCmd _ i => (i < AVB_1722_1_MAX_INFLIGHT_COMMANDS)%nat | _ => True end.

Lemma runs_get_cmd f r : ref_ok r -> runs f f (get_cmd r) cr_ok.
Proof.
  destruct r as [| |e i]; intros Hr; cbn [get_cmd].
  - apply runs_get_controller_cmd.
  - eapply runs_mono; [apply runs_get_listener_rcvd|]. by intros cr [].
  - eapply runs_bind; [by apply runs_get_inflight|]. intros x [Hx _]. by apply runs_ret.
Qed.

Lemma runs_upd_cmd_sequence_id f r g :
  ref_ok r -> (forall n, u16_ok (g n)) -> runs f f (upd_cmd r (upd_cr_sequence_id g)) (fun _ => True).
Proof.
  intros Hr Hg. assert (forall cr, cr_ok cr -> cr_ok (upd_cr_sequence_id g cr)) as Hcr by (ok_cr; apply Hg).
  destruct r as [| |e i]; cbn [upd_cmd].
  - by apply runs_upd_controller_cmd.
  - by apply runs_upd_listener_rcvd.
  - apply runs_upd_inflight; [done|]. intros x (Hx & Hk & Ho & Ht). split_and!; cbn; auto.
Qed.

Lemma command_variable_ok e : ref_ok (command_variable e).
Proof. by destruct e. Qed.

Lemma own_command_range e mt : mt ∈ own_commands e -> 0 <= mt < 16.
Proof. destruct e; cbn; intros H; repeat (apply elem_of_cons in H as [-> | H]; [by vm_compute|]); by apply elem_of_nil in H. Qed.

Lemma runs_add_inflight f e mt seq :
  mt ∈ own_commands e -> u16_ok seq -> runs f f (acmp_add_inflight e mt seq) (fun _ => True).
Proof.
  intros Hmt Hseq. pose proof (own_command_range e mt Hmt) as Hr.
  eapply runs_bind; [|intros _ _; apply runs_skip]. apply runs_forM_until. intros i Hi.
  apply elem_of_seq in Hi as [_ Hi]. eapply runs_bind; [apply runs_get_inflight; lia|]. intros x _.
  destruct (in_use x); [by apply runs_ret|].
  eapply runs_bind; [apply runs_get_cmd, command_variable_ok|]. intros cr Hcr.
  eapply runs_bind; [|intros _ _; eapply runs_bind; [apply runs_update_timeout; lia|]; intros _ _; by apply runs_ret].
  apply runs_upd_inflight; [lia|]. intros y (_ & _ & _ & Hy). split_and!; cbn; rewrite ?u8_small by lia; try done.
  revert cr Hcr. ok_cr.
Qed.

Lemma runs_remove_inflight f e : runs f f (acmp_remove_inflight e) index_ok.
Proof.
  eapply runs_bind; [apply runs_get_cmd, command_variable_ok|]. intros cr _.
  eapply runs_bind; [apply runs_find|]. intros [i|] Hi; [|by apply runs_ret].
  eapply runs_bind; [|intros _ _; by apply runs_ret]. apply runs_upd_inflight; [by apply Hi|]. by intros [] [].
Qed.

(** Reception. A busy state machine drops packets, so frames are kept. *)
Lemma runs_process_talker f mt pkt :
  (acmp_packet_size <= length pkt)%nat -> Forall byte_ok pkt ->
  runs f f (process_avb_1722_1_acmp_talker_packet mt pkt) (fun _ => True).
Proof.
  intros Hl Hp. unfold process_avb_1722_1_acmp_talker_packet. destruct (negb _); [apply runs_skip|].
  intros s Hs Hf. apply wp_bind, wp_gets. case_bool_decide as Hst; cbn [negb]; [|by apply wp_skip].
  assert (forall t, f <> FTalker t) as Hn by (intros t ->; by destruct Hf). clear Hst. revert s Hs Hf.
  eapply runs_bind.
  - apply runs_upd_talker_rcvd; [intros; by apply store_rcvd_cmd_resp_ok|]. intros t ? ->. by destruct (Hn t).
  - intros _ _. repeat (destruct (mt =? _); [by apply runs_set_talker_state|]). apply runs_skip.
Qed.

Lemma runs_process_listener f mt pkt :
  (acmp_packet_size <= length pkt)%nat -> Forall byte_ok pkt ->
  runs f f (process_avb_1722_1_acmp_listener_packet mt pkt) (fun _ => True).
Proof.
  intros Hl Hp. unfold process_avb_1722_1_acmp_listener_packet. destruct (negb _); [apply runs_skip|].
  intros s Hs Hf. apply wp_bind, wp_gets. case_bool_decide as Hst; cbn [negb]; [|by apply wp_skip].
  assert (forall t, f <> FListener t) as Hn by (intros t ->; by destruct Hf). clear Hst. revert s Hs Hf.
  eapply runs_bind.
  - apply runs_upd_listener_rcvd; [intros; by apply store_rcvd_cmd_resp_ok|]. intros t ? ->. by destruct (Hn t).
  - intros _ _. repeat (destruct (mt =? _); [by apply runs_set_listener_state|]). apply runs_skip.
Qed.

Lemma runs_process_controller f mt pkt :
  (acmp_packet_size <= length pkt)%nat -> Forall byte_ok pkt ->
  runs f f (process_avb_1722_1_acmp_controller_packet mt pkt) (fun _ => True).
Proof.
  intros Hl Hp. unfold process_avb_1722_1_acmp_controller_packet.
  eapply runs_bind; [by apply (runs_gets f _ (fun _ => True))|]. intros st _.
  destruct (negb _); [apply runs_skip|]. destruct (negb _); [apply runs_skip|].
  eapply runs_bind; [apply runs_find|]. intros [i|] Hi; [|apply runs_skip].
  eapply runs_bind; [by apply runs_get_inflight, Hi|]. intros x _. apply runs_when. intros _.
  eapply runs_bind; [apply runs_upd_controller_cmd; intros; by apply store_rcvd_cmd_resp_ok|]. intros _ _.
  apply runs_set_controller_state. unfold acmp_controller_response_state. by repeat destruct (mt =? _).
Qed.

Lemma runs_process f pkt :
  (acmp_packet_size <= length pkt)%nat -> Forall byte_ok pkt ->
  runs f f (process_avb_1722_1_acmp_packet pkt) (fun _ => True).
Proof.
  intros Hl Hp. unfold process_avb_1722_1_acmp_packet. destruct (Nat.ltb_spec (length pkt) acmp_packet_size); [lia|].
  cbv zeta. repeat case_bool_decide.
  - by apply runs_process_talker.
  - by apply runs_process_listener.
  - by apply runs_process_controller.
  - apply runs_skip.
Qed.

(** Commands. *)
Lemma runs_send_command f e mt r retry :
  mt ∈ own_commands e -> ref_ok r -> index_ok retry ->
  runs f f (acmp_send_command e mt r retry) (fun _ => True).
Proof.
  intros Hmt Hr Hretry.
  eapply runs_bind; [by apply runs_get_cmd|]. intros cr Hcr.
  eapply runs_bind; [apply runs_get_vars|]. intros v _.
  eapply runs_bind; [apply runs_upd_cmd_sequence_id; [done|]; intros; apply u16_range|]. intros _ _.
  eapply runs_bind; [apply runs_upd_vars; [|done]; intros w (Hl & Ha & Hc & _); split_and!; try done;
    by apply (signed_range 16)|]. intros _ _.
  eapply runs_bind; [by apply runs_get_cmd|]. intros cr' Hcr'.
  apply runs_transmit; [done|by eapply own_command_range|by vm_compute|].
  eapply (runs_bind f f f _ _ (fun buf => AVB_1722_1_ACMP_PACKET_SIZE <= length buf /\ Forall byte_ok buf)%nat).
  { apply runs_gets. by intros s []. }
  intros buf [Hl Hb]. eapply runs_bind.
  { apply runs_process; [|by apply Forall_drop]. rewrite length_drop.
    unfold AVB_1722_1_ACMP_PACKET_SIZE in Hl. lia. }
  intros _ _. destruct retry as [i|].
  - by apply runs_set_retry, Hretry.
  - apply runs_add_inflight; [done|]. apply Hcr.
Qed.

Lemma runs_connect_disconnect f mt tg lg t l :
  mt ∈ own_commands CONTROLLER -> u64_ok tg -> u64_ok lg ->
  runs f f (acmp_controller_connect_disconnect mt tg lg t l) (fun _ => True).
Proof.
  intros Hmt Htg Hlg. eapply runs_bind.
  - apply runs_upd_controller_cmd. intros cr Hcr. destruct Hcfg as [Hg _].
    pose proof (u16_range t). pose proof (u16_range l). revert cr Hcr. by ok_cr.
  - intros _ _. by apply runs_send_command.
Qed.

Lemma own_connect : ACMP_CMD_CONNECT_RX_COMMAND ∈ own_commands CONTROLLER.
Proof. cbn. repeat constructor. Qed.
Lemma own_disconnect : ACMP_CMD_DISCONNECT_RX_COMMAND ∈ own_commands CONTROLLER.
Proof. cbn. repeat constructor. Qed.

Lemma runs_get_connected_listener f t i :
  0 <= t < Z.of_nat AVB_1722_1_MAX_TALKERS -> (i < AVB_1722_1_MAX_LISTENERS_PER_TALKER)%nat ->
  runs f f (get_connected_listener t i) pair_ok.
Proof.
  intros Ht Hi. eapply runs_bind; [by apply runs_get_talker_stream|]. intros x (_ & _ & _ & Hl & Hp).
  apply runs_load. intros s _ _. destruct (lookup_lt_is_Some_2 (connected_listeners x) i) as [y Hy]; [lia|].
  exists y. split; [done|]. by eapply Forall_lookup_1.
Qed.

Lemma runs_disconnect_all f t :
  0 <= t < Z.of_nat AVB_1722_1_MAX_TALKERS ->
  runs f f (avb_1722_1_controller_disconnect_all_listeners t) (fun _ => True).
Proof.
  intros Ht. eapply runs_bind; [by apply runs_get_talker_stream|]. intros x _. apply runs_when. intros _.
  apply runs_forM. intros i [_ Hi]%elem_of_seq. eapply runs_bind; [by apply runs_get_connected_listener|].
  intros y [Hy _]. apply runs_when. intros _. apply runs_connect_disconnect; [apply own_disconnect|apply Hcfg|done].
Qed.

Lemma runs_disconnect_talker f l :
  0 <= l < Z.of_nat AVB_1722_1_MAX_LISTENERS ->
  runs f f (avb_1722_1_controller_disconnect_talker l) (fun _ => True).
Proof.
  intros Hl. eapply runs_bind; [by apply runs_get_listener_stream|]. intros x (Hx & _). apply runs_when. intros _.
  apply runs_connect_disconnect; [apply own_disconnect|done|apply Hcfg].
Qed.

(** Stream information. *)
Lemma runs_set_talker_response t :
  0 <= t < Z.of_nat AVB_1722_1_MAX_TALKERS ->
  runs (FTalker t) (FTalker t) acmp_set_talker_response (fun _ => True).
Proof.
  intros Ht. eapply runs_bind; [apply runs_get_talker_rcvd|]. intros cr [_ Hc]. rewrite (Hc t eq_refl).
  eapply runs_bind; [by apply runs_get_talker_stream|]. intros x (Hi & _ & [Hm Hb] & _).
  pose proof (u16_range (ts_connection_count x)). upd_rcvd runs_upd_talker_rcvd.
Qed.

Lemma runs_talker_response f mt st :
  0 <= mt < 16 -> 0 <= st < 32 -> runs f f (talker_response mt st) (fun _ => True).
Proof.
  intros Hmt Hst. eapply runs_bind; [apply runs_get_talker_rcvd|]. intros cr [Hcr _]. by apply runs_send_response.
Qed.
Lemma runs_listener_response f mt st :
  0 <= mt < 16 -> 0 <= st < 32 -> runs f f (listener_response mt st) (fun _ => True).
Proof.
  intros Hmt Hst. eapply runs_bind; [apply runs_get_listener_rcvd|]. intros cr [Hcr _]. by apply runs_send_response.
Qed.

Lemma runs_talker_get_state t :
  0 <= t < Z.of_nat AVB_1722_1_MAX_TALKERS ->
  runs (FTalker t) (FTalker t) acmp_talker_get_state (fun st => 0 <= st < 32).
Proof.
  intros Ht. eapply runs_bind; [apply runs_get_talker_rcvd|]. intros cr [_ Hc]. rewrite (Hc t eq_refl).
  eapply runs_bind; [by apply runs_get_talker_stream|]. intros x (Hi & _ & [Hm Hb] & _).
  eapply runs_bind; [|intros _ _; by apply runs_ret]. pose proof (u16_range (ts_connection_count x)).
  upd_rcvd runs_upd_talker_rcvd. by destruct (truthy _).
Qed.

Lemma runs_talker_get_connection t :
  0 <= t < Z.of_nat AVB_1722_1_MAX_TALKERS ->
  runs (FTalker t) (FTalker t) acmp_talker_get_connection (fun st => 0 <= st < 32).
Proof.
  intros Ht. eapply runs_bind; [apply runs_get_talker_rcvd|]. intros cr [Hcr Hc]. rewrite (Hc t eq_refl). cbv zeta.
  destruct (Z.leb_spec (Z.of_nat AVB_1722_1_MAX_LISTENERS_PER_TALKER) (cr_connection_count cr)); [by apply runs_ret|].
  pose proof (cr_ok_connection_count cr Hcr).
  eapply runs_bind; [by apply runs_get_talker_stream|]. intros x (Hi & Hn & [Hm Hb] & Hl & Hp).
  eapply (runs_bind _ (FTalker t) _ _ _ pair_ok).
  { apply runs_load. intros s _ _.
    destruct (lookup_lt_is_Some_2 (connected_listeners x) (Z.to_nat (cr_connection_count cr))) as [y Hy]; [lia|].
    exists y. split; [done|]. by eapply Forall_lookup_1. }
  intros y [Hg Hu]. destruct (lp_guid y =? 0); [by apply runs_ret|].
  eapply runs_bind; [|intros _ _; by apply runs_ret]. upd_rcvd runs_upd_talker_rcvd.
Qed.

Lemma add_connection_ok cr x : cr_ok cr -> talker_ok x -> talker_ok (add_connection cr x).
Proof.
  intros Hcr Hx. unfold add_connection. destruct (list_find _ _); [done|].
  destruct (list_find _ _) as [[i l]|]; [|done]. destruct Hx as (Hi & Hn & Hm & Hl & Hp).
  split_and!; cbn; [done|by apply (signed_range 32)|done|by rewrite length_insert|]. apply Forall_insert; [done|]. split; apply Hcr.
Qed.

Lemma remove_connection_ok cr x : talker_ok x -> talker_ok (remove_connection cr x).
Proof.
  intros Hx. unfold remove_connection. destruct (list_find _ _) as [[i l]|]; [|done].
  destruct Hx as (Hi & Hn & Hm & Hl & Hp).
  split_and!; cbn; [done|by apply (signed_range 32)|done|by rewrite length_insert|]. by apply Forall_insert.
Qed.

Lemma runs_set_mac_address f t mac :
  0 <= t -> mac_ok mac -> runs f f (avb_1722_1_talker_set_mac_address t mac) (fun _ => True).
Proof.
  intros Ht [Hl Hb]. apply runs_when. intros Hlt%Z.ltb_lt. apply runs_upd_talker_stream; [done|].
  intros x (Hi & Hn & Hm & Hc & Hp). split_and!; cbn; try done; [split; [rewrite length_take; lia|by apply Forall_take]..].
Qed.

Lemma runs_set_stream_id f t id :
  0 <= t -> runs f f (avb_1722_1_talker_set_stream_id t id) (fun _ => True).
Proof.
  intros Ht. apply runs_when. intros Hlt%Z.ltb_lt. apply runs_upd_talker_stream; [done|].
  intros x (Hi & Hn & Hm & Hc & Hp). split_and!; cbn; try done; apply (wrap_range 64); lia.
Qed.

Lemma runs_valid_talker t :
  runs (FTalker t) (FTalker t) acmp_talker_valid_talker_unique
    (fun b => 0 <= t /\ b = (t <? Z.of_nat AVB_1722_1_MAX_TALKERS)).
Proof.
  eapply runs_bind; [apply runs_get_talker_rcvd|]. intros cr [Hcr Hc]. apply runs_ret.
  rewrite <- (Hc t eq_refl). split; [apply Hcr|done].
Qed.

Lemma runs_valid_listener t :
  runs (FListener t) (FListener t) acmp_listener_valid_listener_unique
    (fun b => 0 <= t /\ b = (t <? Z.of_nat AVB_1722_1_MAX_LISTENERS)).
Proof.
  eapply runs_bind; [apply runs_get_listener_rcvd|]. intros cr [Hcr Hc]. apply runs_ret.
  rewrite <- (Hc t eq_refl). split; [apply Hcr|done].
Qed.

(** * The talker *)

(** The end of a talker's handler. *)
Lemma runs_talker_done t : runs (FTalker t) FNone (set_talker_state ACMP_TALKER_WAITING) (fun _ => True).
Proof. intros s Hs _. by apply (runs_set_talker_state FNone). Qed.

(** What a handler does with the number of the stream: one branch if it is in
    range, another if not. *)
Lemma runs_talker_valid {A} t (k : bool -> M acmp A) f' P :
  (0 <= t < Z.of_nat AVB_1722_1_MAX_TALKERS -> runs (FTalker t) f' (k true) P) ->
  runs (FTalker t) f' (k false) P ->
  runs (FTalker t) f' (b ← acmp_talker_valid_talker_unique; k b) P.
Proof.
  intros Ht Hf. eapply runs_bind; [apply runs_valid_talker|]. intros b [H0 ->].
  destruct (Z.ltb_spec t (Z.of_nat AVB_1722_1_MAX_TALKERS)); auto.
Qed.

Lemma runs_add_stream_info t :
  0 <= t < Z.of_nat AVB_1722_1_MAX_TALKERS ->
  runs (FTalker t) (FTalker t) acmp_add_talker_stream_info (fun _ => True).
Proof.
  intros Ht. eapply runs_bind; [apply runs_get_talker_rcvd|]. intros cr [Hcr Hc]. rewrite (Hc t eq_refl).
  apply runs_upd_talker_stream; [done|]. intros. by apply add_connection_ok.
Qed.
Lemma runs_remove_stream_info t :
  0 <= t < Z.of_nat AVB_1722_1_MAX_TALKERS ->
  runs (FTalker t) (FTalker t) acmp_remove_talker_stream_info (fun _ => True).
Proof.
  intros Ht. eapply runs_bind; [apply runs_get_talker_rcvd|]. intros cr [Hcr Hc]. rewrite (Hc t eq_refl).
  apply runs_upd_talker_stream; [done|]. intros. by apply remove_connection_ok.
Qed.
Lemma runs_hook env t g f :
  0 <= t -> runs f f (avb_talker_on_listener_connect env t g) (fun _ => True).
Proof.
  intros Ht. eapply runs_bind; [by apply runs_emit|]. intros _ _. apply runs_when. intros _.
  by apply runs_set_stream_id.
Qed.
Lemma runs_talker_connect env t : runs (FTalker t) FNone (talker_connect env) (fun _ => True).
Proof.
  apply runs_talker_valid; [intros Ht|]; (eapply runs_bind; [|intros _ _; apply runs_talker_done]); cbn [negb].
  2: by apply runs_talker_response.
  eapply runs_bind; [by apply runs_add_stream_info|]. intros _ _. eapply runs_bind; [apply runs_get_talker_rcvd|]. intros cr [_ Hc]. rewrite (Hc t eq_refl).
  eapply runs_bind; [apply runs_hook, Ht|]. intros _ _. eapply runs_bind; [by apply runs_set_talker_response|]. intros _ _. by apply runs_talker_response.
Qed.

Lemma runs_talker_disconnect t : runs (FTalker t) FNone talker_disconnect (fun _ => True).
Proof.
  apply runs_talker_valid; [intros Ht|]; (eapply runs_bind; [|intros _ _; apply runs_talker_done]); cbn [negb].
  2: by apply runs_talker_response.
  eapply runs_bind; [by apply runs_remove_stream_info|]. intros _ _. eapply runs_bind; [apply runs_get_talker_rcvd|]. intros cr [_ Hc]. rewrite (Hc t eq_refl).
  eapply runs_bind; [by apply runs_get_talker_stream|]. intros x _. eapply runs_bind; [by apply runs_emit|].
  intros _ _. eapply runs_bind; [by apply runs_set_talker_response|]. intros _ _. by apply runs_talker_response.
Qed.

(** The two requests for information. *)
Lemma runs_talker_get t (get : M acmp Z) mt :
  0 <= mt < 16 ->
  (0 <= t < Z.of_nat AVB_1722_1_MAX_TALKERS -> runs (FTalker t) (FTalker t) get (fun st => 0 <= st < 32)) ->
  runs (FTalker t) FNone
    (valid ← acmp_talker_valid_talker_unique;
     acmp_status ← (if negb valid then mret ACMP_STATUS_TALKER_UNKNOWN_ID else get);
     _ ← talker_response mt acmp_status;
     set_talker_state ACMP_TALKER_WAITING) (fun _ => True).
Proof.
  intros Hmt Hget. apply runs_talker_valid; [intros Ht|]; cbn [negb].
  - eapply runs_bind; [by apply Hget|]. intros st Hst.
    eapply runs_bind; [by apply runs_talker_response|]. intros _ _. apply runs_talker_done.
  - eapply runs_bind; [by apply (runs_ret _ _ (fun st => 0 <= st < 32))|]. intros st Hst.
    eapply runs_bind; [by apply runs_talker_response|]. intros _ _. apply runs_talker_done.
Qed.

Lemma talker_periodic_ok env s :
  acmp_ok s -> wp true (avb_1722_1_acmp_talker_periodic env) (fun _ => acmp_ok) s.
Proof.
  intros Hs. unfold avb_1722_1_acmp_talker_periodic. apply wp_bind, wp_gets.
  pose (t := cr_talker_unique_id (acmp_talker_rcvd_cmd_resp s)).
  destruct (acmp_talker_state s) eqn:Est; [by apply wp_skip..| | | |];
    (apply (runs_enter (FTalker t) FNone _ (fun _ => True)); [done|by split; [rewrite Est|]|]).
  - apply runs_talker_connect.
  - apply runs_talker_disconnect.
  - by apply runs_talker_get; [|apply runs_talker_get_state].
  - by apply runs_talker_get; [|apply runs_talker_get_connection].
Qed.

(** * The controller and the listener *)

(** The two state machines that wait for answers, by entity. *)
Definition machine_states (s : acmp) : acmp_controller_state_t * acmp_listener_state_t :=
  (acmp_controller_state s, acmp_listener_state s).
Abbreviation keeps_states := (keeps (fun s s' => machine_states s' = machine_states s)).

#[local] Instance states_preorder : PreOrder (fun s s' => machine_states s' = machine_states s).
Proof. split; [done|]. intros s1 s2 s3 E1 E2. by rewrite E2. Qed.

Lemma wp_keeps {A} R (m : M acmp A) Q s :
  keeps R m -> wp true m Q s -> wp true m (fun a s' => Q a s' /\ R s s') s.
Proof. intros Hk. unfold wp. destruct (m s) as [[a s']|] eqn:E; [|done]. split; [done|by eapply Hk]. Qed.

Lemma progress_keeps now e : keeps_states (acmp_progress_inflight_timer now e).
Proof.
  unfold acmp_progress_inflight_timer. keeps_auto; apply keeps_modify; intros; by destruct e.
Qed.
Lemma check_keeps e : keeps_states (acmp_check_inflight_command_timeouts e).
Proof. unfold acmp_check_inflight_command_timeouts. keeps_auto. Qed.

(** Waiting: the clock moves on, and a command that has timed out is noted. *)
Definition note_timeout (e : acmp_entity) (idx : option nat) : M acmp unit :=
  _ ← modify (upd_vars e (upd_acmp_inflight_timeout_idx (fun _ => idx)));
  whenM (bool_decide (is_Some idx))
    match e with
    | CONTROLLER => set_controller_state ACMP_CONTROLLER_TIMEOUT
    | LISTENER => set_listener_state ACMP_LISTENER_RX_TIMEOUT
    end.

Definition is_waiting (e : acmp_entity) (s : acmp) : Prop :=
  match e with
  | CONTROLLER => acmp_controller_state s = ACMP_CONTROLLER_WAITING
  | LISTENER => acmp_listener_state s = ACMP_LISTENER_WAITING
  end.

Lemma is_waiting_states e s s' : machine_states s' = machine_states s -> is_waiting e s -> is_waiting e s'.
Proof. intros E. injection E as E1 E2. destruct e; cbn; congruence. Qed.

Lemma note_timeout_ok e idx s :
  acmp_ok s -> is_waiting e s -> index_ok idx -> wp true (note_timeout e idx) (fun _ => acmp_ok) s.
Proof.
  intros Hs Hw Hi. apply wp_bind, wp_modify. apply wp_when; [intros [i ->]%bool_decide_eq_true|intros _].
  - destruct e; apply wp_modify; destruct Hs; constructor; cbn in *; try done; intros; (exists i; split; [done|by apply Hi]).
  - destruct e; cbn in Hw; destruct Hs; constructor; cbn in *; try done; rewrite Hw; discriminate.
Qed.

Lemma waiting_ok now e s :
  acmp_ok s -> is_waiting e s ->
  wp true (_ ← acmp_progress_inflight_timer now e; idx ← acmp_check_inflight_command_timeouts e;
           note_timeout e idx) (fun _ => acmp_ok) s.
Proof.
  intros Hs Hw. apply wp_bind. eapply wp_mono.
  { eapply wp_keeps; [apply progress_keeps|]. by apply (runs_progress_timer FNone). }
  cbv beta. intros _ s1 ((Hs1 & _ & _) & E1). apply (is_waiting_states _ _ _ E1) in Hw. apply wp_bind. eapply wp_mono.
  { eapply wp_keeps; [apply check_keeps|]. by apply (runs_check_timeouts FNone). }
  cbv beta. intros idx s2 ((Hs2 & _ & Hi) & E2). apply (is_waiting_states _ _ _ E2) in Hw. by apply note_timeout_ok.
Qed.

Lemma runs_controller_done f :
  runs f FNone (set_controller_state ACMP_CONTROLLER_WAITING) (fun _ => True).
Proof. by apply runs_forget, runs_set_controller_state. Qed.

Lemma controller_periodic_ok env s :
  acmp_ok s -> wp true (avb_1722_1_acmp_controller_periodic env) (fun _ => acmp_ok) s.
Proof.
  intros Hs. unfold avb_1722_1_acmp_controller_periodic. apply wp_bind, wp_gets.
  destruct (acmp_controller_state s) eqn:Est; [by apply wp_skip|by apply (waiting_ok _ CONTROLLER)| | | | | |].
  { destruct (ok_controller_timeout s Hs Est) as (i & Hi & Hlt). apply wp_bind. eapply wp_load; [exact Hi|].
    apply (runs_enter FNone FNone _ (fun _ => True)); [done|done|].
    eapply runs_bind; [by apply runs_get_inflight|]. intros x (_ & Hk & _).
    eapply runs_bind; [|intros _ _; apply runs_controller_done].
    destruct (retried x); [apply runs_upd_inflight; [done|]; by intros [] []|].
    apply runs_send_command; [done|done|]. by intros j [= <-]. }
  all: apply (runs_enter FNone FNone _ (fun _ => True)); [done|done|];
    eapply runs_bind; [apply runs_remove_inflight|]; intros idx _.
  2-5: apply runs_controller_done.
  eapply runs_bind; [apply runs_get_controller_cmd|]. intros cr _.
  eapply runs_bind; [|intros _ _; apply runs_controller_done]. apply runs_when. intros _. by apply runs_emit.
Qed.

Lemma runs_listener_done f st :
  st <> ACMP_LISTENER_RX_TIMEOUT -> runs f FNone (set_listener_state st) (fun _ => True).
Proof. intros. by apply runs_forget, runs_set_listener_state. Qed.

Lemma runs_is_connected env t connected :
  0 <= t < Z.of_nat AVB_1722_1_MAX_LISTENERS ->
  runs (FListener t) (FListener t) (acmp_listener_is_connected env connected) (fun _ => True).
Proof.
  intros Ht. eapply runs_bind; [apply runs_get_listener_rcvd|]. intros cr [_ Hc]. rewrite (Hc t eq_refl).
  destruct (_ =? 0); [by apply runs_ret|]. eapply runs_bind; [by apply runs_get_listener_stream|].
  intros x _. by apply runs_ret.
Qed.

Lemma runs_listener_get_state t :
  0 <= t < Z.of_nat AVB_1722_1_MAX_LISTENERS ->
  runs (FListener t) (FListener t) acmp_listener_get_state (fun st => 0 <= st < 32).
Proof.
  intros Ht. eapply runs_bind; [apply runs_get_listener_rcvd|]. intros cr [_ Hc]. rewrite (Hc t eq_refl).
  eapply runs_bind; [by apply runs_get_listener_stream|]. intros x (Hg & Hu & Hi & [Hm Hb] & _).
  eapply runs_bind; [|intros _ _; by apply runs_ret]. pose proof (u16_range (ls_connected x)).
  upd_rcvd runs_upd_listener_rcvd. by destruct (truthy _).
Qed.

Lemma runs_zero_listener f t :
  0 <= t < Z.of_nat AVB_1722_1_MAX_LISTENERS -> runs f f (acmp_zero_listener_stream_info t) (fun _ => True).
Proof.
  intros Ht. apply runs_put_listener_stream; [done|]. split_and!; try done.
  split; [done|by apply bytes_okb].
Qed.

Lemma runs_set_sequence_id t x :
  inflight_ok LISTENER x ->
  runs (FListener t) (FListener t) (modify (upd_acmp_listener_rcvd_cmd_resp
    (upd_cr_sequence_id (fun _ => original_sequence_id x)))) (fun _ => True).
Proof. intros (_ & _ & Ho & _). upd_rcvd runs_upd_listener_rcvd. Qed.

Lemma runs_listener_connected env t i :
  0 <= t < Z.of_nat AVB_1722_1_MAX_LISTENERS -> (i < AVB_1722_1_MAX_INFLIGHT_COMMANDS)%nat ->
  0 <= connect_status env < 32 ->
  runs (FListener t) (FListener t) (listener_connected env i) (fun _ => True).
Proof.
  intros Ht Hi Henv. eapply runs_bind; [by apply runs_get_inflight|]. intros x Hx.
  eapply runs_bind; [by apply runs_set_sequence_id|]. intros _ _.
  eapply runs_bind; [apply runs_get_listener_rcvd|]. intros cr [Hcr _].
  destruct (truthy _); [by apply runs_send_response|].
  eapply runs_bind; [by apply runs_emit|]. intros _ _.
  eapply runs_bind. { rewrite u8_small by lia. upd_rcvd runs_upd_listener_rcvd. }
  intros _ _. eapply runs_bind; [apply runs_get_listener_rcvd|]. intros cr' [Hcr' _].
  eapply runs_bind; [by apply runs_send_response; [| |apply Hcr']|]. intros _ _.
  eapply runs_bind; [apply runs_get_listener_rcvd|]. intros cr'' [Hcr'' Hc]. rewrite (Hc t eq_refl).
  apply runs_put_listener_stream; [done|]. split_and!; cbn; try apply Hcr''; [split; apply Hcr''|done].
Qed.
End Safe.
