(* ===== verification/AcmpReach.v ===== *)
(** Connection management: the states a device can reach, and what holds in all of them. *)
From S2P Require Import Prelude Bytes MiscTimer AcmpTypes Acmp AcmpSpec AcmpInv AcmpSafe.
From stdpp Require Import base list list_numbers numbers option.
From Stdlib Require Import ZArith Lia.
#[local] Open Scope Z_scope.

Section Reach.
Context `{cfg : AcmpConfig} (Hcfg : config_ok).

(** * The listener *)

Lemma runs_listener_valid {A} t (k : bool -> M acmp A) f' P :
  (0 <= t < Z.of_nat AVB_1722_1_MAX_LISTENERS -> runs (FListener t) f' (k true) P) ->
  runs (FListener t) f' (k false) P ->
  runs (FListener t) f' (b ← acmp_listener_valid_listener_unique; k b) P.
Proof.
  intros Ht Hf. eapply runs_bind; [apply runs_valid_listener|]. intros b [H0 ->].
  destruct (Z.ltb_spec t (Z.of_nat AVB_1722_1_MAX_LISTENERS)); auto.
Qed.

Lemma own_connect_tx : ACMP_CMD_CONNECT_TX_COMMAND ∈ own_commands LISTENER.
Proof. cbn. repeat constructor. Qed.
Lemma own_disconnect_tx : ACMP_CMD_DISCONNECT_TX_COMMAND ∈ own_commands LISTENER.
Proof. cbn. repeat constructor. Qed.

Lemma runs_listener_connect_rx env t : runs (FListener t) FNone (listener_connect_rx env) (fun _ => True).
Proof.
  apply runs_listener_valid; [intros Ht|]; (eapply runs_bind; [|intros _ _; by apply runs_listener_done]); cbn [negb].
  2: by apply runs_listener_response.
  eapply runs_bind; [by apply runs_is_connected|]. intros [] _; [by apply runs_listener_response|].
  by apply runs_send_command; [|apply own_connect_tx| |].
Qed.

Lemma runs_listener_disconnect_rx env t : runs (FListener t) FNone (listener_disconnect_rx env) (fun _ => True).
Proof.
  apply runs_listener_valid; [intros Ht|]; (eapply runs_bind; [|intros _ _; by apply runs_listener_done]); cbn [negb].
  2: by apply runs_listener_response.
  eapply runs_bind; [by apply runs_is_connected|]. intros [] _; [|by apply runs_listener_response].
  eapply runs_bind; [by apply runs_send_command; [|apply own_disconnect_tx| |]|]. intros _ _.
  eapply runs_bind; [apply runs_get_listener_rcvd|]. intros cr [_ Hc]. rewrite (Hc t eq_refl).
  eapply runs_bind; [by apply runs_emit|]. intros _ _. by apply runs_zero_listener.
Qed.

Lemma runs_listener_connect_tx_response env t :
  0 <= connect_status env < 32 ->
  runs (FListener t) FNone (listener_connect_tx_response env) (fun _ => True).
Proof.
  intros Henv. apply runs_listener_valid; [intros Ht|apply (runs_leave _ (FListener t)), runs_skip].
  eapply runs_bind; [apply runs_remove_inflight|]. intros idx Hidx.
  eapply (runs_bind _ (FListener t) _ _ _ (fun _ => True)).
  { destruct idx as [i|]; [|apply runs_skip]. by apply runs_listener_connected; [| |apply Hidx|]. }
  intros _ _. eapply runs_bind; [apply runs_get_listener_rcvd|]. intros cr _.
  destruct (truthy _); [|by apply runs_listener_done].
  eapply runs_bind; [|intros _ _; by apply runs_listener_done].
  destruct Hcfg as [Hg _]. upd_rcvd runs_upd_listener_rcvd.
Qed.

Lemma runs_listener_disconnect_tx_response t :
  runs (FListener t) FNone listener_disconnect_tx_response (fun _ => True).
Proof.
  apply runs_listener_valid; [intros Ht|apply (runs_leave _ (FListener t)), runs_skip].
  eapply runs_bind; [apply runs_remove_inflight|]. intros idx Hidx.
  eapply (runs_bind _ (FListener t) _ _ _ (fun _ => True)).
  { destruct idx as [i|]; [|apply runs_skip]. eapply runs_bind; [by apply runs_get_inflight, Hidx|]. intros x Hx.
    eapply runs_bind; [by apply runs_set_sequence_id|]. intros _ _.
    eapply runs_bind; [apply runs_get_listener_rcvd|]. intros cr [Hcr Hc]. rewrite (Hc t eq_refl).
    eapply runs_bind; [by apply runs_send_response; [| | |apply Hcr]|]. intros _ _. by apply runs_zero_listener. }
  intros _ _. eapply runs_bind; [|intros _ _; by apply runs_listener_done].
  upd_rcvd runs_upd_listener_rcvd.
Qed.

(** The answer to a command that has timed out twice. *)
Lemma runs_give_up i x :
  (i < AVB_1722_1_MAX_INFLIGHT_COMMANDS)%nat -> inflight_ok LISTENER x ->
  runs FNone FNone
    (_ ← upd_cmd (InflightCmd LISTENER i) (upd_cr_sequence_id (fun _ => original_sequence_id x));
     cr ← get_cmd (InflightCmd LISTENER i);
     _ ← whenM (negb (truthy (Z.land (cr_flags cr) AVB_1722_1_ACMP_FLAGS_FAST_CONNECT)))
           (acmp_send_response (cr_message_type cr + 7) cr ACMP_STATUS_LISTENER_TALKER_TIMEOUT);
     upd_inflight LISTENER i (upd_in_use (fun _ => false))) (fun _ => True).
Proof.
  intros Hi (_ & _ & Ho & _). eapply runs_bind; [by apply runs_upd_cmd_sequence_id|]. intros _ _.
  eapply (runs_bind _ FNone _ _ _ (fun cr => cr_ok cr /\ cr_message_type cr ∈ own_commands LISTENER)).
  { eapply runs_bind; [by apply runs_get_inflight|]. intros y (Hy & Hk & _). by apply runs_ret. }
  intros cr [Hcr Hk]. eapply runs_bind.
  - apply runs_when. intros _. apply runs_send_response; [done|done| |by vm_compute].
    cbn in Hk. repeat (apply elem_of_cons in Hk as [-> | Hk]; [by vm_compute|]). by apply elem_of_nil in Hk.
  - intros _ _. apply runs_upd_inflight; [done|]. by intros [] [].
Qed.

Lemma listener_rx_timeout_ok s :
  acmp_ok s -> acmp_listener_state s = ACMP_LISTENER_RX_TIMEOUT -> wp true listener_rx_timeout (fun _ => acmp_ok) s.
Proof.
  intros Hs Est. destruct (ok_listener_timeout s Hs Est) as (i & Hi & Hlt). apply wp_bind.
  eapply wp_load; [exact Hi|]. apply (runs_enter FNone FNone _ (fun _ => True)); [done|done|].
  eapply runs_bind; [by apply runs_get_inflight|]. intros x Hx.
  eapply runs_bind; [|intros _ _; by apply runs_listener_done].
  destruct (retried x); [by apply runs_give_up|]. destruct Hx as (_ & Hk & _).
  apply runs_send_command; [done|done|done|]. by intros j [= <-].
Qed.

Lemma listener_periodic_ok env s :
  0 <= connect_status env < 32 ->
  acmp_ok s -> wp true (avb_1722_1_acmp_listener_periodic env) (fun _ => acmp_ok) s.
Proof.
  intros Henv Hs. unfold avb_1722_1_acmp_listener_periodic. apply wp_bind, wp_gets.
  pose (t := cr_listener_unique_id (acmp_listener_rcvd_cmd_resp s)).
  destruct (acmp_listener_state s) eqn:Est; [by apply wp_skip|by apply (waiting_ok _ LISTENER)|..].
  6: by apply listener_rx_timeout_ok.
  all: apply (runs_enter (FListener t) FNone _ (fun _ => True)); [done|by split; [rewrite Est|]|].
  - apply runs_listener_connect_rx.
  - apply runs_listener_disconnect_rx.
  - by apply runs_listener_connect_tx_response.
  - apply runs_listener_disconnect_tx_response.
  - apply runs_listener_valid; [intros Ht|]; cbn [negb].
    + eapply runs_bind; [by apply runs_listener_get_state|]. intros st Hst.
      eapply runs_bind; [by apply runs_listener_response|]. intros _ _. by apply runs_listener_done.
    + eapply runs_bind; [by apply (runs_ret _ _ (fun st => 0 <= st < 32))|]. intros st Hst.
      eapply runs_bind; [by apply runs_listener_response|]. intros _ _. by apply runs_listener_done.
Qed.

(** * Reachable states *)

(** What the callers guarantee: whole packets of bytes, statuses that fit their
    field, numbers of the device's own streams, and identifiers of their types. *)
Definition input_ok (inp : acmp_input) : Prop :=
  match inp with
  | RxPacket pkt => (acmp_packet_size <= length pkt)%nat /\ Forall byte_ok pkt
  | ControllerPeriodic _ | TalkerPeriodic _ | TalkerInit => True
  | ListenerPeriodic env => 0 <= connect_status env < 32
  | Connect tg lg _ _ | Disconnect tg lg _ _ => u64_ok tg /\ u64_ok lg
  | DisconnectAllListeners t => 0 <= t < Z.of_nat AVB_1722_1_MAX_TALKERS
  | DisconnectTalker l => 0 <= l < Z.of_nat AVB_1722_1_MAX_LISTENERS
  | SetMacAddress t mac => 0 <= t /\ mac_ok mac
  | SetStreamId t _ => 0 <= t
  end.

Definition buf_ok (buf : list Z) : Prop := (AVB_1722_1_ACMP_PACKET_SIZE <= length buf)%nat /\ Forall byte_ok buf.

Inductive acmp_reachable : acmp -> Prop :=
| acmp_started buf now s :
    buf_ok buf -> acmp_init now (acmp_static buf) = Some (tt, s) -> acmp_reachable s
| acmp_next s inp s' :
    acmp_reachable s -> input_ok inp -> acmp_do inp s = Some (tt, s') -> acmp_reachable s'.

Lemma zero_cmd_resp_ok : cr_ok zero_cmd_resp.
Proof. constructor; try done. by apply bytes_okb. Qed.

Lemma zero_inflights_ok e : entity_ok e zero_entity.
Proof.
  split_and!; [apply length_replicate| |done|done]. apply Forall_replicate. split_and!; cbn; [apply zero_cmd_resp_ok| |done|done].
  destruct e; repeat constructor.
Qed.

Lemma init_entity_ok e now v : entity_ok e (init_entity now v).
Proof. apply (zero_inflights_ok e). Qed.

Lemma acmp_static_ok buf : buf_ok buf -> acmp_ok (acmp_static buf).
Proof.
  intros [Hl Hb]. assert (mac_ok [0; 0; 0; 0; 0; 0]) as Hm by (split; [done|by apply bytes_okb]).
  constructor; cbn [acmp_static acmp_controller_state acmp_talker_state acmp_listener_state controller_vars
    listener_vars acmp_controller_cmd_resp acmp_talker_rcvd_cmd_resp acmp_listener_rcvd_cmd_resp
    acmp_listener_streams acmp_talker_streams avb_1722_1_buf acmp_out]; try done;
    try apply zero_inflights_ok; try apply zero_cmd_resp_ok; try apply length_replicate.
  - by apply Forall_replicate.
  - apply Forall_replicate. split_and!; try done. apply Forall_replicate. done.
Qed.

Lemma acmp_init_ok buf now : buf_ok buf -> wp true (acmp_init now) (fun _ => acmp_ok) (acmp_static buf).
Proof.
  intros Hb. apply (runs_enter FNone FNone _ (fun _ => True)); [by apply acmp_static_ok|done|].
  assert (forall f e, runs f f (modify (upd_vars e (init_entity now))) (fun _ => True)) as Hinit.
  { intros f e. apply runs_upd_vars; [intros; apply init_entity_ok|done]. }
  eapply runs_bind.
  - eapply runs_bind; [by apply runs_set_controller_state|]. intros _ _. apply (Hinit _ CONTROLLER).
  - intros _ _. eapply runs_bind; [by apply runs_set_listener_state|]. intros _ _.
    eapply runs_bind; [|intros _ _; apply (Hinit _ LISTENER)].
    apply runs_forM. intros x Hx%elem_of_seqZ. apply runs_zero_listener. lia.
Qed.

Lemma acmp_do_ok inp s : acmp_ok s -> input_ok inp -> wp true (acmp_do inp) (fun _ => acmp_ok) s.
Proof.
  intros Hs Hi. destruct inp; cbn in Hi; cbn [acmp_do].
  1, 5-11: apply (runs_enter FNone FNone _ (fun _ => True)); [done|done|].
  - apply runs_process; apply Hi.
  - by apply runs_set_talker_state.
  - apply runs_connect_disconnect; [done|apply own_connect|apply Hi..].
  - apply runs_connect_disconnect; [done|apply own_disconnect|apply Hi..].
  - by apply runs_disconnect_all.
  - by apply runs_disconnect_talker.
  - apply runs_set_mac_address; apply Hi.
  - by apply runs_set_stream_id.
  - by apply controller_periodic_ok.
  - by apply talker_periodic_ok.
  - by apply listener_periodic_ok.
Qed.

Lemma reachable_acmp_ok s : acmp_reachable s -> acmp_ok s.
Proof.
  induction 1 as [buf now s Hb E|s inp s' _ IH Hi E].
  - pose proof (acmp_init_ok buf now Hb) as H. unfold wp in H. by rewrite E in H.
  - pose proof (acmp_do_ok inp s IH Hi) as H. unfold wp in H. by rewrite E in H.
Qed.

(** C32: In every reachable state every input is served to the end: a received packet, whatever its
    bytes, the periodic functions in whatever state the machines are, and the calls of the
    application; no index leaves its array, the stream numbers and counts of packets and the index
    of a timed-out command included. *)
Theorem acmp_input_served s inp :
  acmp_reachable s -> input_ok inp -> exists s', acmp_do inp s = Some (tt, s').
Proof.
  intros Hs Hi. apply reachable_acmp_ok in Hs.
  destruct (wp_elim true (acmp_do inp) _ s eq_refl (acmp_do_ok inp s Hs Hi)) as ([] & s' & E & _). by exists s'.
Qed.

Lemma frame_fields f :
  event_ok (AcmpTx f) ->
  length f = AVB_1722_1_ACMP_PACKET_SIZE /\ Forall byte_ok f /\ take 6 f = avb_1722_1_acmp_dest_addr /\
  take 6 (drop 6 f) = my_mac_addr.
Proof.
  intros (cr & mt & st & old & Hcr & Hmt & Hst & Hb & Hl & ->).
  pose proof (acmp_packet_length cr mt st old Hcfg Hcr Hl) as Hlen.
  split_and!.
  - rewrite length_take. lia.
  - by apply Forall_take, acmp_packet_ok.
  - reflexivity.
  - destruct Hcfg as (_ & Hm & _). unfold acmp_packet, avb_1722_1_create_1722_1_header. cbv zeta.
    remember my_mac_addr as mac eqn:Emac. clear Emac. destruct_len mac Hm. reflexivity.
Qed.

(** C36: The state stays well typed: every field of the commands, inflight entries and stream tables in
    the range of its type, the arrays at their lengths. And every frame a device has sent has the length
    of an ACMP packet, goes from the device to the ACMP address, and carries fields in their ranges. *)
Theorem acmp_well_typed s :
  acmp_reachable s ->
  acmp_ok s /\
  forall f, AcmpTx f ∈ acmp_out s ->
    length f = AVB_1722_1_ACMP_PACKET_SIZE /\ Forall byte_ok f /\ take 6 f = avb_1722_1_acmp_dest_addr /\
    take 6 (drop 6 f) = my_mac_addr /\ cr_ok (store_rcvd_cmd_resp (drop ethernet_hdr_size f)).
Proof.
  intros Hs%reachable_acmp_ok. split; [done|]. intros f Hf.
  pose proof (proj1 (list.Forall_forall _ _) (ok_out s Hs) _ Hf) as Hev.
  destruct (frame_fields f Hev) as (Hl & Hb & Hd & Hm). split_and!; try done.
  apply store_rcvd_cmd_resp_ok; [|by apply Forall_drop]. rewrite length_drop, Hl. done.
Qed.
End Reach.

(** * A device with one talker and one listener *)

#[local] Existing Instance sample_acmp_config.

Definition sample_env : acmp_env := MkAcmpEnv 0 (fun _ => 0) (fun _ => 0) (fun _ => (0x00229700, 0x00010000)) 0.
Definition sample_buf : list Z := replicate 70 0.

Lemma sample_buf_ok : buf_ok sample_buf.
Proof. split; [by vm_compute|by apply bytes_okb]. Qed.

(** A listener connects to the talker. *)
Definition sample_connect : avb_1722_1_acmp_cmd_resp :=
  MkCmdResp 0 0 0 0x00229700fe0000aa (my_guid) 0x00229700fe0000bb 0 0 [0; 0; 0; 0; 0; 0] 0 7 0 0.
Definition sample_packet (cr : avb_1722_1_acmp_cmd_resp) (mt : Z) : list Z :=
  drop ethernet_hdr_size (acmp_packet cr mt 0 sample_buf).

Definition final {A} (s0 : acmp) (r : option (A * acmp)) : acmp := match r with Some (_, s) => s | None => s0 end.

Definition sample_started : acmp := final (acmp_static sample_buf) (acmp_init 0 (acmp_static sample_buf)).
Definition sample_run (l : list acmp_input) : acmp := final sample_started (acmp_run l sample_started).

Definition sample_inputs : list acmp_input :=
  [TalkerInit; RxPacket (sample_packet sample_connect ACMP_CMD_CONNECT_TX_COMMAND); TalkerPeriodic sample_env].

Lemma sample_inputs_ok : Forall input_ok sample_inputs.
Proof. repeat constructor; by apply bytes_okb || by vm_compute. Qed.

Lemma acmp_run_reachable l s s' :
  acmp_reachable s -> Forall input_ok l -> acmp_run l s = Some (tt, s') -> acmp_reachable s'.
Proof.
  revert s. induction l as [|inp l IH]; intros s Hs Hl E; [by injection E as <-|].
  apply M_bind_Some in E as ([] & s1 & E1 & E2). apply list.Forall_cons in Hl as [Hi Hl].
  apply (IH s1); [|done|done]. by apply (acmp_next s inp).
Qed.

Lemma sample_started_reachable : acmp_reachable sample_started.
Proof. by apply (acmp_started sample_buf 0 _ sample_buf_ok). Qed.

Lemma sample_reachable : acmp_reachable (sample_run sample_inputs).
Proof.
  apply (acmp_run_reachable sample_inputs sample_started); [apply sample_started_reachable|apply sample_inputs_ok|].
  by vm_compute.
Qed.

(** A packet of nothing but ones is served. *)
Example acmp_input_served_witness :
  exists s', acmp_do (RxPacket (replicate 56 0xff)) (sample_run sample_inputs) = Some (tt, s').
Proof.
  apply (acmp_input_served sample_config_ok); [apply sample_reachable|].
  split; [by vm_compute|by apply bytes_okb].
Defined.

(** The state of the sample run, which has answered with one frame. *)
Example acmp_well_typed_witness :
  length (acmp_out (sample_run sample_inputs)) = 2%nat /\ acmp_ok (sample_run sample_inputs).
Proof. split; [by vm_compute|]. apply (acmp_well_typed sample_config_ok _ sample_reachable). Defined.
