(* ===== verification/AcmpTalker.v ===== *)
(** Connection management: the talker answers every command, and keeps the set of
    its listeners. *)
From S2P Require Import Prelude Bytes MiscTimer AcmpTypes Acmp AcmpSpec AcmpInv AcmpSafe AcmpReach.
From stdpp Require Import base gmap list list_numbers numbers option.
From Stdlib Require Import ZArith Lia.
#[local] Open Scope Z_scope.

Section Talker.
Context `{cfg : AcmpConfig} (Hcfg : config_ok).

(** * Responses *)

(** What a response repeats of its command. *)
Definition command_id (cr : avb_1722_1_acmp_cmd_resp) : Z * Z * Z * Z :=
  (cr_sequence_id cr, cr_controller_guid cr, cr_talker_guid cr, cr_talker_unique_id cr).

(** The frame [f] is a response of type [mt] with status [st] to the command [cr]. *)
Definition response_to (cr : avb_1722_1_acmp_cmd_resp) (mt st : Z) (f : list Z) : Prop :=
  let r := store_rcvd_cmd_resp (drop ethernet_hdr_size f) in
  cr_message_type r = mt /\ cr_status r = st /\ command_id r = command_id cr.

Definition is_hook (ev : acmp_event) : Prop := match ev with AcmpTx _ => False | _ => True end.

Lemma acmp_packet_take cr mt st old :
  config_ok -> cr_ok cr -> (70 <= length old)%nat ->
  take 70 (acmp_packet cr mt st old) = acmp_packet cr mt st (take 70 old).
Proof.
  intros (_ & Hm & _) Hcr Hl. pose proof (cr_ok_mac_length cr Hcr) as Hc.
  assert (forall i, (i < 70)%nat -> take 70 old !!! i = old !!! i) as Hi.
  { intros i Hi. by rewrite !list_lookup_total_alt, lookup_take_lt. }
  unfold acmp_packet, avb_1722_1_create_1722_1_header. cbv zeta. rewrite !Hi by (unfold ethernet_hdr_size; lia).
  rewrite skipn_firstn_comm. remember (drop 68 old) as post. remember my_mac_addr as mac eqn:E. clear E.
  destruct_len mac Hm. remember (cr_stream_dest_mac cr) as dm eqn:E. clear E. destruct_len dm Hc. reflexivity.
Qed.

Lemma response_frame cr0 cr mt st old :
  cr_ok cr -> command_id cr = command_id cr0 -> 0 <= mt < 16 -> 0 <= st < 32 ->
  Forall byte_ok old -> (AVB_1722_1_ACMP_PACKET_SIZE <= length old)%nat ->
  response_to cr0 mt st (take AVB_1722_1_ACMP_PACKET_SIZE (acmp_packet cr mt st old)).
Proof.
  intros Hcr Hid Hmt Hst Hb Hl. unfold response_to.
  change AVB_1722_1_ACMP_PACKET_SIZE with 70%nat in *. rewrite acmp_packet_take by done.
  rewrite acmp_packet_roundtrip_eq by (try done; by apply Forall_take). done.
Qed.

(** * The talker's handlers, from the command to the response *)

(** What the work before the response leaves alone: the identity of the command
    and the buffer; it only calls hooks. [quiet] work changes nothing else at all
    but the command. *)
Record working (quiet : bool) (s s' : acmp) : Prop := {
  working_id : command_id (acmp_talker_rcvd_cmd_resp s') = command_id (acmp_talker_rcvd_cmd_resp s);
  working_buf : avb_1722_1_buf s' = avb_1722_1_buf s;
  working_out : exists hooks, acmp_out s' = acmp_out s ++ hooks /\ Forall is_hook hooks /\ (quiet = true -> hooks = []);
  working_quiet : quiet = true -> acmp_talker_streams s' = acmp_talker_streams s;
}.

#[local] Instance working_preorder quiet : PreOrder (working quiet).
Proof.
  split.
  - intros s. constructor; try done. exists []. by rewrite app_nil_r.
  - intros s1 s2 s3 [I1 B1 (h1 & O1 & H1 & Q1) T1] [I2 B2 (h2 & O2 & H2 & Q2) T2].
    constructor; [congruence|congruence| |intros E; by rewrite T2, T1].
    exists (h1 ++ h2). rewrite O2, O1, <- app_assoc. split_and!; [done|by apply Forall_app|].
    intros E. by rewrite Q1, Q2.
Qed.

Lemma working_rcvd quiet g :
  (forall cr, command_id (g cr) = command_id cr) -> keeps (working quiet) (modify (upd_acmp_talker_rcvd_cmd_resp g)).
Proof.
  intros Hg. apply keeps_modify. intros s. constructor; cbn; try done. exists []. by rewrite app_nil_r.
Qed.

Lemma working_stream i g : keeps (working false) (upd_talker_stream i g).
Proof.
  apply keeps_store. intros s s' E. destruct (i <? 0); [done|].
  destruct (acmp_talker_streams s !! Z.to_nat i); [|done]. injection E as <-.
  constructor; cbn; try done. exists []. by rewrite app_nil_r.
Qed.

Lemma working_emit ev : is_hook ev -> keeps (working false) (emit ev).
Proof.
  intros Hev. apply keeps_modify. intros s. constructor; cbn; try done. exists [ev]. by repeat constructor.
Qed.

(** How the handler of a command [cr0] received in [s0] ends. *)
Definition answered (s0 : acmp) (cr0 : avb_1722_1_acmp_cmd_resp) (mt st : Z) (quiet : bool) (s' : acmp) : Prop :=
  acmp_talker_state s' = ACMP_TALKER_WAITING /\
  (exists hooks f, acmp_out s' = acmp_out s0 ++ hooks ++ [AcmpTx f] /\ Forall is_hook hooks /\
     response_to cr0 mt st f /\ (quiet = true -> hooks = [])) /\
  (quiet = true -> acmp_talker_streams s' = acmp_talker_streams s0).

Lemma transmit_run cr mt st s :
  acmp_ok s ->
  acmp_send_response mt cr st s =
    let buf := acmp_packet cr mt st (avb_1722_1_buf s) in
    Some (tt, upd_acmp_out (fun l => l ++ [AcmpTx (take AVB_1722_1_ACMP_PACKET_SIZE buf)])
                (upd_avb_1722_1_buf (fun _ => buf) s)).
Proof.
  intros Hs. pose proof (ok_buf_length s Hs) as Hl. apply Nat.ltb_ge in Hl.
  unfold acmp_send_response, avb_1722_1_create_acmp_packet, store. unfold mbind, M_bind. cbv zeta. by rewrite Hl.
Qed.

Lemma answer_end s0 s mt st quiet :
  acmp_ok s -> working quiet s0 s -> 0 <= mt < 16 -> 0 <= st < 32 ->
  wp true (talker_response mt st) (fun _ s' => wp true (set_talker_state ACMP_TALKER_WAITING)
    (fun _ => answered s0 (acmp_talker_rcvd_cmd_resp s0) mt st quiet) s') s.
Proof.
  intros Hs [Hid Hb (hooks & Ho & Hh & Hq) Ht] Hmt Hst.
  unfold talker_response. apply wp_bind, wp_gets. unfold wp at 1. rewrite transmit_run by done. cbv zeta.
  apply wp_modify. split_and!; [done| |by cbn].
  eexists hooks, _. cbn [upd_acmp_talker_state upd_acmp_out upd_avb_1722_1_buf acmp_out].
  rewrite Ho, <- app_assoc. split_and!; [reflexivity|done| |done].
  apply response_frame; try done; apply Hs.
Qed.

(** One step of the work before the response. *)
Lemma work_step {A B} t quiet (m : M acmp A) (k : A -> M acmp B) P Q s0 s :
  acmp_ok s -> in_frame (FTalker t) s -> working quiet s0 s ->
  runs (FTalker t) (FTalker t) m P -> keeps (working quiet) m ->
  (forall a s', acmp_ok s' -> in_frame (FTalker t) s' -> working quiet s0 s' -> P a -> m s = Some (a, s') ->
     wp true (k a) Q s') ->
  wp true (m ≫= k) Q s.
Proof.
  intros Hs Hf Hw Hrun Hkeep Hk. specialize (Hrun s Hs Hf). apply wp_bind. unfold wp in Hrun |- * at 1.
  destruct (m s) as [[a s']|] eqn:E; [|done]. destruct Hrun as (Hs' & Hf' & Ha).
  apply Hk; try done. etransitivity; [exact Hw|]. exact (Hkeep s a s' E).
Qed.

(** * Every command gets its answer *)

Definition talker_commands : list Z :=
  [ACMP_CMD_CONNECT_TX_COMMAND; ACMP_CMD_DISCONNECT_TX_COMMAND; ACMP_CMD_GET_TX_STATE_COMMAND;
   ACMP_CMD_GET_TX_CONNECTION_COMMAND].

(** The status of the answer: an unknown stream, a connection number out of
    range or not in use, or success. *)
Definition connection_status (s : acmp) (cr : avb_1722_1_acmp_cmd_resp) : Z :=
  if Z.of_nat AVB_1722_1_MAX_LISTENERS_PER_TALKER <=? cr_connection_count cr then ACMP_STATUS_STATE_UNAVAILABLE
  else
    match acmp_talker_streams s !! Z.to_nat (cr_talker_unique_id cr) with
    | Some t =>
        match connected_listeners t !! Z.to_nat (cr_connection_count cr) with
        | Some l => if lp_guid l =? 0 then ACMP_STATUS_NO_SUCH_CONNECTION else ACMP_STATUS_SUCCESS
        | None => ACMP_STATUS_SUCCESS
        end
    | None => ACMP_STATUS_SUCCESS
    end.

Definition talker_status (s : acmp) (cr : avb_1722_1_acmp_cmd_resp) (mt : Z) : Z :=
  if Z.of_nat AVB_1722_1_MAX_TALKERS <=? cr_talker_unique_id cr then ACMP_STATUS_TALKER_UNKNOWN_ID
  else if mt =? ACMP_CMD_GET_TX_CONNECTION_COMMAND then connection_status s cr
  else ACMP_STATUS_SUCCESS.

Definition talker_state_of (mt : Z) : acmp_talker_state_t :=
  if mt =? ACMP_CMD_CONNECT_TX_COMMAND then ACMP_TALKER_CONNECT
  else if mt =? ACMP_CMD_DISCONNECT_TX_COMMAND then ACMP_TALKER_DISCONNECT
  else if mt =? ACMP_CMD_GET_TX_STATE_COMMAND then ACMP_TALKER_GET_STATE
  else ACMP_TALKER_GET_CONNECTION.

Definition received (pkt : list Z) (s : acmp) : acmp :=
  upd_acmp_talker_state (fun _ => talker_state_of (GET_1722_1_MSG_TYPE pkt))
    (upd_acmp_talker_rcvd_cmd_resp (fun _ => store_rcvd_cmd_resp pkt) s).

Lemma receive_run pkt s :
  (acmp_packet_size <= length pkt)%nat -> GET_1722_1_MSG_TYPE pkt ∈ talker_commands ->
  compare_guid (bytes_at off_talker_guid 8 pkt) my_guid = true -> acmp_talker_state s = ACMP_TALKER_WAITING ->
  process_avb_1722_1_acmp_packet pkt s = Some (tt, received pkt s).
Proof.
  intros Hl Hmt Hg Hst. unfold process_avb_1722_1_acmp_packet.
  destruct (Nat.ltb_spec (length pkt) acmp_packet_size); [lia|]. cbv zeta.
  rewrite bool_decide_eq_true_2 by done. unfold process_avb_1722_1_acmp_talker_packet. rewrite Hg. cbn [negb].
  erewrite M_bind_run by reflexivity. rewrite Hst, bool_decide_eq_true_2 by done.
  cbn [negb]. erewrite M_bind_run by reflexivity.
  unfold received, talker_state_of.
  set (m := GET_1722_1_MSG_TYPE pkt) in *. clearbody m.
  apply elem_of_cons in Hmt as [-> | Hmt]; [reflexivity|].
  apply elem_of_cons in Hmt as [-> | Hmt]; [reflexivity|].
  apply elem_of_cons in Hmt as [-> | Hmt]; [reflexivity|].
  apply elem_of_cons in Hmt as [-> | Hmt]; [reflexivity|by apply elem_of_nil in Hmt].
Qed.

(** The handlers. *)
Lemma working_get quiet i : keeps (working quiet) (get_talker_stream i).
Proof. apply keeps_load. apply _. Qed.

#[local] Hint Resolve working_get working_stream working_emit : keeps.

Lemma working_set_response quiet : keeps (working quiet) acmp_set_talker_response.
Proof. unfold acmp_set_talker_response. keeps_auto; by apply working_rcvd. Qed.
Lemma working_get_state quiet : keeps (working quiet) acmp_talker_get_state.
Proof. unfold acmp_talker_get_state. keeps_auto; by apply working_rcvd. Qed.
Lemma working_get_connection quiet : keeps (working quiet) acmp_talker_get_connection.
Proof. unfold acmp_talker_get_connection. cbv zeta. keeps_auto; by apply working_rcvd. Qed.
Lemma working_hook env i g : keeps (working false) (avb_talker_on_listener_connect env i g).
Proof. unfold avb_talker_on_listener_connect, avb_1722_1_talker_set_stream_id. keeps_auto; by apply working_emit. Qed.

Lemma get_connection_status s st s' :
  acmp_talker_get_connection s = Some (st, s') -> st = connection_status s (acmp_talker_rcvd_cmd_resp s).
Proof.
  unfold acmp_talker_get_connection, connection_status. erewrite M_bind_run by reflexivity. cbv zeta.
  destruct (_ <=? _); [by intros [= <- _]|]. unfold get_talker_stream. unfold mbind, M_bind, load.
  destruct (_ <? 0); [done|]. destruct (acmp_talker_streams s !! _) as [t|]; [|done].
  destruct (connected_listeners t !! _) as [l|]; [|done]. destruct (lp_guid l =? 0); by intros [= <- _].
Qed.

Lemma wp_valid {A} (k : bool -> M acmp A) Q s :
  wp true (k (cr_talker_unique_id (acmp_talker_rcvd_cmd_resp s) <? Z.of_nat AVB_1722_1_MAX_TALKERS)) Q s ->
  wp true (b ← acmp_talker_valid_talker_unique; k b) Q s.
Proof. intros H. apply wp_bind, wp_bind, wp_gets, wp_ret, H. Qed.

Lemma in_talker_frame s :
  acmp_talker_state s <> ACMP_TALKER_WAITING ->
  in_frame (FTalker (cr_talker_unique_id (acmp_talker_rcvd_cmd_resp s))) s.
Proof. done. Qed.

(** The work of the handlers, step by step. *)
Lemma working_add : keeps (working false) acmp_add_talker_stream_info.
Proof. unfold acmp_add_talker_stream_info. keeps_auto. Qed.
Lemma working_remove : keeps (working false) acmp_remove_talker_stream_info.
Proof. unfold acmp_remove_talker_stream_info. keeps_auto. Qed.

Section Handlers.
Context (s : acmp) (Hs : acmp_ok s) (Hbusy : acmp_talker_state s <> ACMP_TALKER_WAITING).
#[local] Abbreviation rcvd := (acmp_talker_rcvd_cmd_resp s).
#[local] Abbreviation t := (cr_talker_unique_id rcvd).

Lemma t_nonneg : 0 <= t.
Proof. apply cr_ok_talker_unique_id. apply Hs. Qed.

Lemma answer_unknown mt quiet :
  0 <= mt < 16 ->
  wp true (talker_response mt ACMP_STATUS_TALKER_UNKNOWN_ID) (fun _ s' =>
    wp true (set_talker_state ACMP_TALKER_WAITING)
      (fun _ => answered s rcvd mt ACMP_STATUS_TALKER_UNKNOWN_ID quiet) s') s.
Proof. intros Hmt. by apply answer_end. Qed.

Lemma talker_connect_answers env :
  wp true (talker_connect env) (fun _ =>
    let unknown := Z.of_nat AVB_1722_1_MAX_TALKERS <=? t in
    answered s rcvd ACMP_CMD_CONNECT_TX_RESPONSE
      (if unknown then ACMP_STATUS_TALKER_UNKNOWN_ID else ACMP_STATUS_SUCCESS) unknown) s.
Proof.
  apply wp_valid, wp_bind. cbv zeta. rewrite Z.leb_antisym. pose proof t_nonneg as H0.
  destruct (Z.ltb_spec t (Z.of_nat AVB_1722_1_MAX_TALKERS)) as [Ht|]; cbn [negb]; [|by apply answer_unknown].
  eapply (work_step t false); [done|done|done|by apply runs_add_stream_info|by apply working_add|].
  intros _ s1 Hs1 Hf1 Hw1 _ _. apply wp_bind, wp_gets. pose proof Hf1 as [Hb1 Ht1]. rewrite Ht1.
  generalize (cr_listener_guid (acmp_talker_rcvd_cmd_resp s1)). intros g.
  eapply (work_step t false); [done|done|done|by apply runs_hook|apply working_hook|].
  intros _ s2 Hs2 Hf2 Hw2 _ _.
  eapply (work_step t false); [done|done|done|by apply runs_set_talker_response|apply working_set_response|].
  intros _ s9 Hs9 Hf9 Hw9 _ _. by apply answer_end.
Qed.

Lemma talker_disconnect_answers :
  wp true talker_disconnect (fun _ =>
    let unknown := Z.of_nat AVB_1722_1_MAX_TALKERS <=? t in
    answered s rcvd ACMP_CMD_DISCONNECT_TX_RESPONSE
      (if unknown then ACMP_STATUS_TALKER_UNKNOWN_ID else ACMP_STATUS_SUCCESS) unknown) s.
Proof.
  apply wp_valid, wp_bind. cbv zeta. rewrite Z.leb_antisym. pose proof t_nonneg as H0.
  destruct (Z.ltb_spec t (Z.of_nat AVB_1722_1_MAX_TALKERS)) as [Ht|]; cbn [negb]; [|by apply answer_unknown].
  eapply (work_step t false); [done|done|done|by apply runs_remove_stream_info|by apply working_remove|].
  intros _ s1 Hs1 Hf1 Hw1 _ _. apply wp_bind, wp_gets. pose proof Hf1 as [Hb1 Ht1]. rewrite Ht1.
  generalize (cr_listener_guid (acmp_talker_rcvd_cmd_resp s1)). intros g.
  eapply (work_step t false); [done|done|done|by apply runs_get_talker_stream|apply working_get|].
  intros x s2 Hs2 Hf2 Hw2 _ _.
  eapply (work_step t false); [done|done|done|by apply runs_emit|by apply working_emit|].
  intros _ s3 Hs3 Hf3 Hw3 _ _.
  eapply (work_step t false); [done|done|done|by apply runs_set_talker_response|apply working_set_response|].
  intros _ s9 Hs9 Hf9 Hw9 _ _. by apply answer_end.
Qed.

(** A request for information changes nothing. *)
Lemma talker_get_answers (get : M acmp Z) mt st :
  0 <= mt < 16 ->
  (0 <= t < Z.of_nat AVB_1722_1_MAX_TALKERS -> runs (FTalker t) (FTalker t) get (fun st => 0 <= st < 32)) ->
  keeps (working true) get -> (forall st' s', get s = Some (st', s') -> st' = st) ->
  wp true
    (valid ← acmp_talker_valid_talker_unique;
     acmp_status ← (if negb valid then mret ACMP_STATUS_TALKER_UNKNOWN_ID else get);
     _ ← talker_response mt acmp_status;
     set_talker_state ACMP_TALKER_WAITING)
    (fun _ => answered s rcvd mt
      (if Z.of_nat AVB_1722_1_MAX_TALKERS <=? t then ACMP_STATUS_TALKER_UNKNOWN_ID else st) true) s.
Proof.
  intros Hmt Hget Hkeep Hst. apply wp_valid. rewrite Z.leb_antisym. pose proof t_nonneg as H0.
  destruct (Z.ltb_spec t (Z.of_nat AVB_1722_1_MAX_TALKERS)) as [Ht|]; cbn [negb].
  - eapply (work_step t true); [done|done|done|by apply Hget|done|].
    intros st' s1 Hs1 Hf1 Hw1 Hr E. apply Hst in E as <-. apply wp_bind. by apply answer_end.
  - apply wp_bind, wp_ret, wp_bind. by apply answer_unknown.
Qed.
End Handlers.

Lemma answered_quietly s cr mt st quiet s' : answered s cr mt st true s' -> answered s cr mt st quiet s'.
Proof.
  intros (H1 & (hooks & f & Ho & Hh & Hr & Hq) & Ht). rewrite (Hq eq_refl) in Ho.
  split_and!; [done| |by rewrite Ht]. exists [], f. by split_and!.
Qed.

Lemma answered_if (b : bool) s cr mt st1 st2 s' :
  st1 <> ACMP_STATUS_SUCCESS -> st2 = ACMP_STATUS_SUCCESS ->
  answered s cr mt (if b then st1 else st2) b s' ->
  answered s cr mt (if b then st1 else st2) (negb ((if b then st1 else st2) =? ACMP_STATUS_SUCCESS)) s'.
Proof.
  intros H1 ->. destruct b; [apply answered_quietly|]. by rewrite Z.eqb_refl.
Qed.

Lemma talker_periodic_answers pkt env s :
  acmp_ok s -> (acmp_packet_size <= length pkt)%nat -> Forall byte_ok pkt ->
  let mt := GET_1722_1_MSG_TYPE pkt in
  let st := talker_status s (store_rcvd_cmd_resp pkt) mt in
  mt ∈ talker_commands ->
  wp true (avb_1722_1_acmp_talker_periodic env) (fun _ =>
    answered s (store_rcvd_cmd_resp pkt) (mt + 1) st (negb (st =? ACMP_STATUS_SUCCESS))) (received pkt s).
Proof.
  intros Hs Hl Hb mt st Hmt.
  assert (acmp_ok (received pkt s)) as Hr.
  { pose proof (store_rcvd_cmd_resp_ok pkt Hl Hb). destruct Hs; constructor; try done. }
  assert (acmp_talker_state (received pkt s) <> ACMP_TALKER_WAITING) as Hbusy.
  { cbn. unfold talker_state_of. by repeat destruct (_ =? _). }
  apply wp_bind, wp_gets. change (acmp_talker_state (received pkt s)) with (talker_state_of mt).
  subst st. unfold talker_status.
  apply elem_of_cons in Hmt as [E | Hmt]; [|apply elem_of_cons in Hmt as [E | Hmt];
    [|apply elem_of_cons in Hmt as [E | Hmt]; [|apply elem_of_cons in Hmt as [E | Hmt]; [|by apply elem_of_nil in Hmt]]]];
    fold mt in E; rewrite E; cbn [talker_state_of Z.eqb].
  - eapply wp_mono; [by apply talker_connect_answers|]. intros [] s' H.
    by refine (answered_if _ s _ _ _ _ _ _ _ H).
  - eapply wp_mono; [by apply talker_disconnect_answers|]. intros [] s' H.
    by refine (answered_if _ s _ _ _ _ _ _ _ H).
  - eapply wp_mono.
    + apply (talker_get_answers (received pkt s) Hr Hbusy acmp_talker_get_state ACMP_CMD_GET_TX_STATE_RESPONSE
        ACMP_STATUS_SUCCESS); [done|apply runs_talker_get_state|apply working_get_state|].
      intros st' s'. unfold acmp_talker_get_state. erewrite M_bind_run by reflexivity.
      intros (t & s1 & E1 & (u & s2 & E2 & E3)%M_bind_Some)%M_bind_Some. by injection E3 as <- _.
    + intros [] s' H. exact (answered_quietly s _ _ _ _ _ H).
  - eapply wp_mono.
    + apply (talker_get_answers (received pkt s) Hr Hbusy acmp_talker_get_connection
        ACMP_CMD_GET_TX_CONNECTION_RESPONSE (connection_status s (store_rcvd_cmd_resp pkt)));
        [done|apply runs_talker_get_connection|apply working_get_connection|].
      intros st' s' E'. by apply get_connection_status in E'.
    + intros [] s' H. exact (answered_quietly s _ _ _ _ _ H).
Qed.

(** C33: A talker that waits answers a command addressed to it, of an ACMP packet's size,
    at the next call of its periodic function, with exactly one frame: the matching
    response, with the sequence number, controller, talker and stream number of the
    command. The status reports a stream the talker does not have and, for
    GET_TX_CONNECTION, a connection number beyond the table or an entry not in use; it is
    SUCCESS otherwise, for the disconnection of a listener that is not connected as well.
    After an error the stream table is as it was and no hook has been called. *)
Theorem talker_answers_command s pkt env :
  acmp_reachable s -> acmp_talker_state s = ACMP_TALKER_WAITING ->
  (acmp_packet_size <= length pkt)%nat -> Forall byte_ok pkt ->
  compare_guid (bytes_at off_talker_guid 8 pkt) my_guid = true ->
  let cr := store_rcvd_cmd_resp pkt in
  let mt := GET_1722_1_MSG_TYPE pkt in
  let st := talker_status s cr mt in
  mt ∈ talker_commands ->
  exists s' hooks f,
    acmp_run [RxPacket pkt; TalkerPeriodic env] s = Some (tt, s') /\
    acmp_talker_state s' = ACMP_TALKER_WAITING /\
    acmp_out s' = acmp_out s ++ hooks ++ [AcmpTx f] /\ Forall is_hook hooks /\
    response_to cr (mt + 1) st f /\
    (st <> ACMP_STATUS_SUCCESS -> hooks = [] /\ acmp_talker_streams s' = acmp_talker_streams s).
Proof.
  intros Hs%(reachable_acmp_ok Hcfg) Hw Hl Hb Hg cr mt st Hmt.
  pose proof (talker_periodic_answers pkt env s Hs Hl Hb Hmt) as H. fold cr mt in H. fold st in H.
  apply wp_elim in H as ([] & s' & E & (H1 & (hooks & f & Ho & Hh & Hr & Hq) & Ht)); [|done].
  exists s', hooks, f. split_and!; try done.
  - unfold acmp_run. cbn [forM acmp_do]. erewrite M_bind_run by (by apply receive_run).
    by erewrite M_bind_run by exact E.
  - intros Hne. apply Z.eqb_neq in Hne. rewrite Hne in Hq, Ht. split; [by apply Hq|by apply Ht].
Qed.
End Talker.

#[local] Existing Instance sample_acmp_config.

(** A request for a stream the device does not have. *)
Definition unknown_stream_packet : list Z :=
  sample_packet (upd_cr_talker_unique_id (fun _ => 300) sample_connect) ACMP_CMD_CONNECT_TX_COMMAND.

Example talker_answers_command_witness :
  let s := sample_run sample_inputs in
  let cr := store_rcvd_cmd_resp unknown_stream_packet in
  talker_status s cr 0 = ACMP_STATUS_TALKER_UNKNOWN_ID /\
  exists s' hooks f,
    acmp_run [RxPacket unknown_stream_packet; TalkerPeriodic sample_env] s = Some (tt, s') /\
    acmp_talker_state s' = ACMP_TALKER_WAITING /\
    acmp_out s' = acmp_out s ++ hooks ++ [AcmpTx f] /\ Forall is_hook hooks /\
    response_to cr 1 ACMP_STATUS_TALKER_UNKNOWN_ID f /\
    (ACMP_STATUS_TALKER_UNKNOWN_ID <> ACMP_STATUS_SUCCESS -> hooks = [] /\
      acmp_talker_streams s' = acmp_talker_streams s).
Proof.
  cbv zeta. split; [by vm_compute|].
  exact (talker_answers_command sample_config_ok (sample_run sample_inputs) unknown_stream_packet sample_env
    sample_reachable ltac:(by vm_compute) ltac:(by vm_compute) ltac:(by apply bytes_okb) ltac:(by vm_compute)
    (list_elem_of_here 0 _)).
Defined.
