(* ===== verification/AcmpListeners.v ===== *)
(** Connection management: the listeners of a talker's stream are a bounded set.

    A slot with GUID zero is free. Commands that name a listener with GUID zero
    break the count, see [zero_guid_breaks_count]. *)
From S2P Require Import Prelude Bytes MiscTimer AcmpTypes Acmp.
From stdpp Require Import base gmap list list_numbers numbers option.
From Stdlib Require Import ZArith Lia.
#[local] Open Scope Z_scope.

(** * Slots *)

Section Slots.
Context {A : Type} (P : A -> Prop) `{!forall x, Decision (P x)}.

Lemma filter_fill (l : list A) i x y :
  l !! i = Some x -> ~ P x -> P y -> filter P (<[i := y]> l) ≡ₚ y :: filter P l.
Proof.
  intros Hx Hnx Hy. pose proof (lookup_lt_Some _ _ _ Hx) as Hi.
  rewrite <- (take_drop_middle l i x Hx) at 2. rewrite insert_take_drop by done.
  rewrite !list.filter_app, !list.filter_cons. rewrite decide_True, decide_False by done.
  by rewrite <- Permutation_middle.
Qed.

Lemma filter_free (l : list A) i x y :
  l !! i = Some x -> P x -> ~ P y -> filter P l ≡ₚ x :: filter P (<[i := y]> l).
Proof.
  intros Hx Hpx Hy. pose proof (lookup_lt_Some _ _ _ Hx) as Hi.
  rewrite <- (list_insert_id l i x Hx) at 1. rewrite <- (list_insert_insert_eq l i x y).
  apply (filter_fill _ _ y); [by apply list_lookup_insert_eq|done|done].
Qed.

Lemma list_filter_all (l : list A) : (forall x, x ∈ l -> P x) -> filter P l = l.
Proof.
  intros Ha. induction l as [|x l IH]; [done|]. rewrite list.filter_cons_True by (apply Ha; by constructor).
  f_equal. apply IH. intros y Hy. apply Ha. by constructor.
Qed.
End Slots.

(** * The set of listeners *)

Definition listener_key (l : avb_1722_1_acmp_listener_pair) : Z * Z := (lp_guid l, lp_unique_id l).
Definition command_key (cr : avb_1722_1_acmp_cmd_resp) : Z * Z := (cr_listener_guid cr, cr_listener_unique_id cr).
Definition in_slot (l : avb_1722_1_acmp_listener_pair) : Prop := lp_guid l <> 0.
#[local] Instance in_slot_dec l : Decision (in_slot l) := _.

Definition listener_keys (t : avb_1722_1_acmp_talker_stream_info) : list (Z * Z) :=
  listener_key <$> filter in_slot (connected_listeners t).
Definition listeners (t : avb_1722_1_acmp_talker_stream_info) : gset (Z * Z) := list_to_set (listener_keys t).

(** The table holds each listener once, and the count is their number. *)
Record table_ok (t : avb_1722_1_acmp_talker_stream_info) : Prop := {
  table_length : length (connected_listeners t) = AVB_1722_1_MAX_LISTENERS_PER_TALKER;
  table_nodup : NoDup (listener_keys t);
  table_count : ts_connection_count t = Z.of_nat (length (listener_keys t));
}.

(** ** The specification: a set with a capacity *)

Inductive listener_command : Type :=
| ConnectListener (cr : avb_1722_1_acmp_cmd_resp)
| DisconnectListener (cr : avb_1722_1_acmp_cmd_resp).

Definition command_of (c : listener_command) : avb_1722_1_acmp_cmd_resp :=
  match c with ConnectListener cr | DisconnectListener cr => cr end.

Definition set_step (S : gset (Z * Z)) (c : listener_command) : gset (Z * Z) :=
  match c with
  | ConnectListener cr =>
      if decide (size S < AVB_1722_1_MAX_LISTENERS_PER_TALKER)%nat then {[command_key cr]} ∪ S else S
  | DisconnectListener cr => S ∖ {[command_key cr]}
  end.

Definition table_step (t : avb_1722_1_acmp_talker_stream_info) (c : listener_command)
    : avb_1722_1_acmp_talker_stream_info :=
  match c with
  | ConnectListener cr => add_connection cr t
  | DisconnectListener cr => remove_connection cr t
  end.

(** ** The table implements it *)

Lemma listeners_size t : table_ok t -> size (listeners t) = length (listener_keys t).
Proof. intros H. apply size_list_to_set, H. Qed.

Lemma listener_keys_bound t : table_ok t -> (length (listener_keys t) <= 4)%nat.
Proof.
  intros H. unfold listener_keys. rewrite length_fmap. etransitivity; [apply length_filter|].
  by rewrite (table_length t H).
Qed.

Lemma same_listener_iff cr l : same_listener cr l = true <-> listener_key l = command_key cr.
Proof.
  unfold same_listener, listener_key, command_key. rewrite andb_true_iff, !Z.eqb_eq.
  split; [by intros [-> ->] | by intros [= -> ->]].
Qed.

Lemma in_keys t cr :
  cr_listener_guid cr <> 0 ->
  command_key cr ∈ listener_keys t <-> exists l, l ∈ connected_listeners t /\ same_listener cr l = true.
Proof.
  intros Hg. unfold listener_keys. rewrite list_elem_of_fmap. split.
  - intros (l & E & [_ Hl]%list_elem_of_filter). exists l. split; [done|by apply same_listener_iff].
  - intros (l & Hl & E%same_listener_iff). exists l. split; [done|]. apply list_elem_of_filter. split; [|done].
    injection E as E _. unfold in_slot. by rewrite E.
Qed.

Lemma full_table t :
  table_ok t -> list_find (fun l => empty_pair l = true) (connected_listeners t) = None ->
  length (listener_keys t) = AVB_1722_1_MAX_LISTENERS_PER_TALKER.
Proof.
  intros Ht Hn. rewrite list_find_None in Hn. unfold listener_keys. rewrite length_fmap, list_filter_all.
  - apply Ht.
  - intros l Hl. rewrite list.Forall_forall in Hn. specialize (Hn l Hl). unfold empty_pair in Hn.
    intros E. apply Hn. by apply Z.eqb_eq.
Qed.

Lemma keys_fill t i l cr :
  connected_listeners t !! i = Some l -> empty_pair l = true -> cr_listener_guid cr <> 0 ->
  listener_keys (upd_connected_listeners (<[i := MkPair (cr_listener_guid cr) (cr_listener_unique_id cr)]>) t) ≡ₚ
    command_key cr :: listener_keys t.
Proof.
  intros Hi He%Z.eqb_eq Hg. unfold listener_keys. cbn [upd_connected_listeners connected_listeners].
  rewrite (filter_fill in_slot _ i l (MkPair _ _) Hi (fun H => H He) Hg). by rewrite fmap_cons.
Qed.

Lemma keys_free t i l cr :
  connected_listeners t !! i = Some l -> same_listener cr l = true -> cr_listener_guid cr <> 0 ->
  listener_keys t ≡ₚ command_key cr :: listener_keys (upd_connected_listeners (<[i := MkPair 0 0]>) t).
Proof.
  intros Hi E%same_listener_iff Hg. unfold listener_keys. cbn [upd_connected_listeners connected_listeners].
  assert (in_slot l) as Hl by (injection E as E' _; unfold in_slot; by rewrite E').
  rewrite (filter_free in_slot _ i l (MkPair 0 0) Hi Hl) by (intros H; by apply H). by rewrite fmap_cons, E.
Qed.

Lemma add_connection_refines t cr :
  table_ok t -> cr_listener_guid cr <> 0 ->
  table_ok (add_connection cr t) /\ listeners (add_connection cr t) = set_step (listeners t) (ConnectListener cr).
Proof.
  intros Ht Hg. pose proof (listener_keys_bound t Ht) as Hb. cbn [set_step]. rewrite listeners_size by done.
  unfold add_connection. destruct (list_find (fun l => same_listener cr l = true) _) as [[i l]|] eqn:Ef.
  - apply list_find_Some in Ef as (Hl & Es & _). split; [done|].
    assert (command_key cr ∈ listeners t).
    { apply elem_of_list_to_set, in_keys; [done|]. exists l. split; [by eapply list_elem_of_lookup_2|done]. }
    destruct (decide _); [set_solver|done].
  - apply list_find_None in Ef.
    assert (command_key cr ∉ listener_keys t) as Hn.
    { rewrite in_keys by done. intros (l & Hl & Es). rewrite list.Forall_forall in Ef. by apply (Ef l). }
    destruct (list_find (fun l => empty_pair l = true) _) as [[i l]|] eqn:Ee.
    + apply list_find_Some in Ee as (Hl & Ee & Hfirst). pose proof (keys_fill t i l cr Hl Ee Hg) as Hp.
      assert (length (listener_keys t) < AVB_1722_1_MAX_LISTENERS_PER_TALKER)%nat as Hlt.
      { apply Permutation_length in Hp. cbn [length] in Hp. unfold listener_keys in Hp at 1.
        rewrite length_fmap in Hp. pose proof (list.length_filter in_slot (<[i:=MkPair (cr_listener_guid cr)
          (cr_listener_unique_id cr)]> (connected_listeners t))) as Hle.
        rewrite length_insert, (table_length t Ht) in Hle. cbn in Hp. lia. }
      rewrite decide_True by done. split.
      * constructor.
        -- cbn. rewrite length_insert. apply Ht.
        -- change (NoDup (listener_keys (upd_connected_listeners (<[i:=MkPair (cr_listener_guid cr)
             (cr_listener_unique_id cr)]>) t))). rewrite Hp. constructor; [done|apply Ht].
        -- cbn [upd_ts_connection_count ts_connection_count upd_connected_listeners].
           change (listener_keys _) with (listener_keys (upd_connected_listeners (<[i:=MkPair (cr_listener_guid cr)
             (cr_listener_unique_id cr)]>) t)). rewrite Hp, (table_count t Ht), s32_small by (cbn; lia).
           cbn [length]. lia.
      * unfold listeners. change (listener_keys (upd_ts_connection_count _ ?x)) with (listener_keys x).
        by rewrite Hp.
    + rewrite decide_False by (rewrite (full_table t Ht Ee); lia). done.
Qed.

Lemma remove_connection_refines t cr :
  table_ok t -> cr_listener_guid cr <> 0 ->
  table_ok (remove_connection cr t) /\
  listeners (remove_connection cr t) = set_step (listeners t) (DisconnectListener cr).
Proof.
  intros Ht Hg. pose proof (listener_keys_bound t Ht) as Hb. cbn [set_step].
  unfold remove_connection. destruct (list_find (fun l => same_listener cr l = true) _) as [[i l]|] eqn:Ef.
  - apply list_find_Some in Ef as (Hl & Es & _). pose proof (keys_free t i l cr Hl Es Hg) as Hp.
    pose proof (table_nodup t Ht) as Hd. rewrite Hp in Hd. apply list.NoDup_cons in Hd as [Hn Hd].
    split.
    + constructor; [cbn; rewrite length_insert; apply Ht|exact Hd|].
      cbn [upd_ts_connection_count ts_connection_count upd_connected_listeners].
      change (listener_keys _) with (listener_keys (upd_connected_listeners (<[i:=MkPair 0 0]>) t)).
      rewrite (table_count t Ht), Hp in *. cbn [length] in *. rewrite s32_small by lia. lia.
    + unfold listeners. change (listener_keys (upd_ts_connection_count _ ?x)) with (listener_keys x).
      rewrite Hp. set_solver.
  - apply list_find_None in Ef. split; [done|].
    assert (command_key cr ∉ listener_keys t) as Hn.
    { rewrite in_keys by done. intros (l & Hl & Es). rewrite list.Forall_forall in Ef. by apply (Ef l). }
    unfold listeners. set_solver.
Qed.

(** C34: The table of a stream's listeners implements a set of at most four, whatever the order of
    connects and disconnects (of listeners with a GUID that is not zero): a connect adds the listener,
    unless the set is full, and a connect of a listener that is there and a disconnect of one that is not
    change nothing. And the count the talker reports is the size of the set. *)
Theorem listeners_refine_set l t :
  table_ok t -> Forall (fun c => cr_listener_guid (command_of c) <> 0) l ->
  let t' := foldl table_step t l in
  table_ok t' /\ listeners t' = foldl set_step (listeners t) l /\
  ts_connection_count t' = Z.of_nat (size (listeners t')).
Proof.
  intros Ht Hl. cbv zeta. revert t Ht. induction l as [|c l IH]; intros t Ht; cbn [foldl].
  - split_and!; [done|done|]. rewrite listeners_size by done. apply Ht.
  - apply list.Forall_cons in Hl as [Hc Hl].
    assert (table_ok (table_step t c) /\ listeners (table_step t c) = set_step (listeners t) c) as [Ht' <-].
    { destruct c; [by apply add_connection_refines | by apply remove_connection_refines]. }
    by apply IH.
Qed.

Definition sample_command (g u : Z) : avb_1722_1_acmp_cmd_resp :=
  MkCmdResp 0 0 0 0 0 g 0 u [0; 0; 0; 0; 0; 0] 0 0 0 0.

Lemma zero_table_ok : table_ok zero_talker_stream.
Proof. constructor; [done|by vm_compute; constructor|done]. Qed.

(** Two connects of one listener, one of another, and a disconnect. *)
Example listeners_refine_set_witness :
  let l := [ConnectListener (sample_command 7 0); ConnectListener (sample_command 7 0);
            ConnectListener (sample_command 8 1); DisconnectListener (sample_command 7 0)] in
  let t' := foldl table_step zero_talker_stream l in
  ts_connection_count t' = 1 /\ table_ok t' /\ listeners t' = foldl set_step (listeners zero_talker_stream) l /\
  ts_connection_count t' = Z.of_nat (size (listeners t')).
Proof.
  cbv zeta. split; [by vm_compute|].
  apply (listeners_refine_set _ zero_talker_stream zero_table_ok). by repeat constructor.
Defined.

(** A disconnect that names the listener with GUID and number zero finds a free
    slot, and takes the count below zero; a connect with GUID zero is counted but
    not kept. *)
Lemma zero_guid_breaks_count :
  ts_connection_count (remove_connection (sample_command 0 0) zero_talker_stream) = -1 /\
  let t := add_connection (sample_command 0 5) zero_talker_stream in
  ts_connection_count t = 1 /\ listeners t = ∅.
Proof. by vm_compute. Qed.
