(* ===== verification/AcmpStuck.v ===== *)
(** Connection management: a response for a stream the listener does not have stops it for good. *)
From S2P Require Import Prelude Bytes MiscTimer AcmpTypes Acmp AcmpSpec AcmpInv AcmpSafe AcmpReach.
From stdpp Require Import base list list_numbers numbers option.
From Stdlib Require Import ZArith Lia.
#[local] Open Scope Z_scope.

Section Stuck.
Context `{cfg : AcmpConfig} (Hcfg : config_ok).

(** The two states in which the periodic function does nothing for a number out of range. *)
Definition stuck_state (st : acmp_listener_state_t) : Prop :=
  st = ACMP_LISTENER_CONNECT_TX_RESPONSE \/ st = ACMP_LISTENER_DISCONNECT_TX_RESPONSE.

Definition stuck (s : acmp) : Prop :=
  stuck_state (acmp_listener_state s) /\
  Z.of_nat AVB_1722_1_MAX_LISTENERS <= cr_listener_unique_id (acmp_listener_rcvd_cmd_resp s).

Definition stays_stuck (s s' : acmp) : Prop :=
  stuck s -> acmp_listener_state s' = acmp_listener_state s /\
    acmp_listener_rcvd_cmd_resp s' = acmp_listener_rcvd_cmd_resp s.

#[local] Instance stays_stuck_preorder : PreOrder stays_stuck.
Proof.
  split; [by intros s|]. intros s1 s2 s3 H12 H23 H1. destruct (H12 H1) as [E1 E2].
  destruct H23 as [E3 E4]; [unfold stuck; by rewrite E1, E2|]. by rewrite E3, E4.
Qed.

(** Updates of other variables. *)
Lemma stuck_modify g :
  (forall s, acmp_listener_state (g s) = acmp_listener_state s /\
     acmp_listener_rcvd_cmd_resp (g s) = acmp_listener_rcvd_cmd_resp s) -> keeps stays_stuck (modify g).
Proof. intros H. apply keeps_modify. intros s _. apply H. Qed.

Lemma stuck_emit ev : keeps stays_stuck (emit ev).
Proof. by apply stuck_modify. Qed.
Lemma stuck_upd_vars e g : keeps stays_stuck (modify (upd_vars e g)).
Proof. apply stuck_modify. by destruct e. Qed.
Lemma stuck_controller_vars g : keeps stays_stuck (modify (upd_controller_vars g)).
Proof. by apply stuck_modify. Qed.
Lemma stuck_talker_rcvd g : keeps stays_stuck (modify (upd_acmp_talker_rcvd_cmd_resp g)).
Proof. by apply stuck_modify. Qed.
Lemma stuck_controller_cmd g : keeps stays_stuck (modify (upd_acmp_controller_cmd_resp g)).
Proof. by apply stuck_modify. Qed.
Lemma stuck_controller_state st : keeps stays_stuck (set_controller_state st).
Proof. by apply stuck_modify. Qed.
Lemma stuck_talker_state st : keeps stays_stuck (set_talker_state st).
Proof. by apply stuck_modify. Qed.
Lemma stuck_upd_inflight e i g : keeps stays_stuck (upd_inflight e i g).
Proof.
  apply keeps_store. intros s s'. destruct (inflight_commands (vars e s) !! i); [|done].
  intros [= <-] _. by destruct e.
Qed.
Lemma stuck_talker_stream i g : keeps stays_stuck (upd_talker_stream i g).
Proof.
  apply keeps_store. intros s s'. destruct (i <? 0); [done|].
  destruct (acmp_talker_streams s !! Z.to_nat i); [|done]. by intros [= <-] _.
Qed.
Lemma stuck_create cr mt st : keeps stays_stuck (avb_1722_1_create_acmp_packet cr mt st).
Proof. apply keeps_store. intros s s'. cbv zeta. destruct (_ <? _)%nat; [done|]. by intros [= <-] _. Qed.

#[local] Hint Resolve stuck_emit stuck_upd_vars stuck_controller_vars stuck_talker_rcvd stuck_controller_cmd
  stuck_controller_state stuck_talker_state stuck_upd_inflight stuck_talker_stream stuck_create : keeps.

(** A busy listener drops packets. *)
Lemma stuck_process_listener mt pkt : keeps stays_stuck (process_avb_1722_1_acmp_listener_packet mt pkt).
Proof.
  unfold process_avb_1722_1_acmp_listener_packet. destruct (negb _); [auto with keeps|].
  intros s a s' E [Hst _]. unfold mbind, M_bind, gets in E.
  rewrite bool_decide_eq_false_2 in E by (intros Ew; rewrite Ew in Hst; by destruct Hst).
  by injection E as _ <-.
Qed.
Lemma stuck_find e id : keeps stays_stuck (acmp_get_inflight_from_sequence_id e id).
Proof. unfold acmp_get_inflight_from_sequence_id. keeps_auto. Qed.
#[local] Hint Resolve stuck_process_listener stuck_find : keeps.

Lemma stuck_process pkt : keeps stays_stuck (process_avb_1722_1_acmp_packet pkt).
Proof.
  unfold process_avb_1722_1_acmp_packet. cbv zeta. unfold process_avb_1722_1_acmp_talker_packet,
    process_avb_1722_1_acmp_controller_packet, get_inflight. keeps_auto.
Qed.
#[local] Hint Resolve stuck_process : keeps.

Lemma stuck_update_timeout e i mt : keeps stays_stuck (acmp_update_inflight_timeout e i mt).
Proof. unfold acmp_update_inflight_timeout. keeps_auto. Qed.
Lemma stuck_get_cmd r : keeps stays_stuck (get_cmd r).
Proof. destruct r; cbn [get_cmd]; unfold get_inflight; keeps_auto. Qed.
#[local] Hint Resolve stuck_update_timeout stuck_get_cmd : keeps.

(** Commands that are not the listener's received one. *)
Lemma stuck_send_command e mt r retry : r <> ListenerRcvd -> keeps stays_stuck (acmp_send_command e mt r retry).
Proof.
  intros Hr. assert (forall g, keeps stays_stuck (upd_cmd r g)) as Hu.
  { intros g. destruct r; cbn [upd_cmd]; auto with keeps. done. }
  unfold acmp_send_command, send_packet, acmp_add_inflight, acmp_set_inflight_retry, get_inflight. keeps_auto.
Qed.

Lemma stuck_connect_disconnect mt tg lg t l : keeps stays_stuck (acmp_controller_connect_disconnect mt tg lg t l).
Proof.
  unfold acmp_controller_connect_disconnect. cbn [upd_cmd].
  apply keeps_bind; [apply _|auto with keeps|]. intros _. by apply stuck_send_command.
Qed.
Lemma stuck_send_response mt cr st : keeps stays_stuck (acmp_send_response mt cr st).
Proof. unfold acmp_send_response, send_packet. keeps_auto. Qed.
Lemma stuck_remove_inflight e : keeps stays_stuck (acmp_remove_inflight e).
Proof. unfold acmp_remove_inflight. keeps_auto. Qed.
#[local] Hint Resolve stuck_connect_disconnect stuck_send_response stuck_remove_inflight : keeps.

Lemma stuck_controller_periodic env : keeps stays_stuck (avb_1722_1_acmp_controller_periodic env).
Proof.
  unfold avb_1722_1_acmp_controller_periodic, acmp_progress_inflight_timer, acmp_check_inflight_command_timeouts,
    get_inflight.
  keeps_auto. by apply stuck_send_command.
Qed.

Lemma stuck_talker_periodic env : keeps stays_stuck (avb_1722_1_acmp_talker_periodic env).
Proof.
  unfold avb_1722_1_acmp_talker_periodic, talker_connect, talker_disconnect, acmp_talker_valid_talker_unique,
    talker_response, acmp_add_talker_stream_info, acmp_remove_talker_stream_info, avb_talker_on_listener_connect,
    avb_1722_1_talker_set_stream_id, acmp_set_talker_response, acmp_talker_get_state, acmp_talker_get_connection,
    get_talker_stream. cbv zeta.
  keeps_auto.
Qed.

(** The listener's own periodic function finds the number out of range and leaves the state. *)
Lemma stuck_listener_periodic env : keeps stays_stuck (avb_1722_1_acmp_listener_periodic env).
Proof.
  intros s a s' E Hs. pose proof Hs as [[Est | Est] Hu]; apply Z.ltb_ge in Hu;
    unfold avb_1722_1_acmp_listener_periodic in E; erewrite M_bind_run in E by reflexivity; rewrite Est in E;
    [unfold listener_connect_tx_response in E | unfold listener_disconnect_tx_response in E];
    erewrite M_bind_run in E by reflexivity; rewrite Hu in E; by injection E as _ <-.
Qed.

Lemma stuck_do inp : keeps stays_stuck (acmp_do inp).
Proof.
  destruct inp; cbn [acmp_do]; unfold avb_1722_1_acmp_talker_init, avb_1722_1_controller_connect,
    avb_1722_1_controller_disconnect, avb_1722_1_controller_disconnect_all_listeners,
    avb_1722_1_controller_disconnect_talker, avb_1722_1_talker_set_mac_address, avb_1722_1_talker_set_stream_id,
    avb_1722_1_controller_disconnect, get_connected_listener, get_talker_stream, get_listener_stream;
    try solve [keeps_auto].
  - apply stuck_controller_periodic.
  - apply stuck_talker_periodic.
  - apply stuck_listener_periodic.
Qed.

Lemma stuck_run l s :
  acmp_ok s -> stuck s -> Forall input_ok l ->
  exists s', acmp_run l s = Some (tt, s') /\ acmp_listener_state s' = acmp_listener_state s.
Proof.
  revert s. induction l as [|inp l IH]; intros s Hs Hst Hl; [by exists s|].
  apply list.Forall_cons in Hl as [Hi Hl].
  destruct (wp_elim true (acmp_do inp) _ s eq_refl (acmp_do_ok Hcfg inp s Hs Hi)) as ([] & s1 & E & Hs1).
  destruct (stuck_do inp s tt s1 E Hst) as [E1 E2].
  destruct (IH s1 Hs1) as (s' & E' & Est); [unfold stuck; by rewrite E1, E2|done|].
  exists s'. split; [|congruence]. unfold acmp_run. cbn [forM]. by erewrite M_bind_run by exact E.
Qed.

(** The message that stops it, and the state it leads to. *)
Definition stuck_state_of (mt : Z) : acmp_listener_state_t :=
  if mt =? ACMP_CMD_CONNECT_TX_RESPONSE then ACMP_LISTENER_CONNECT_TX_RESPONSE
  else ACMP_LISTENER_DISCONNECT_TX_RESPONSE.

Lemma stuck_receive_run pkt s :
  (acmp_packet_size <= length pkt)%nat -> acmp_listener_state s = ACMP_LISTENER_WAITING ->
  GET_1722_1_MSG_TYPE pkt ∈ [ACMP_CMD_CONNECT_TX_RESPONSE; ACMP_CMD_DISCONNECT_TX_RESPONSE] ->
  compare_guid (bytes_at off_listener_guid 8 pkt) my_guid = true ->
  process_avb_1722_1_acmp_packet pkt s =
    Some (tt, upd_acmp_listener_state (fun _ => stuck_state_of (GET_1722_1_MSG_TYPE pkt))
                (upd_acmp_listener_rcvd_cmd_resp (fun _ => store_rcvd_cmd_resp pkt) s)).
Proof.
  intros Hl Hw Hmt Hg. unfold process_avb_1722_1_acmp_packet.
  destruct (Nat.ltb_spec (length pkt) acmp_packet_size); [lia|]. cbv zeta.
  set (mt := GET_1722_1_MSG_TYPE pkt) in *. clearbody mt.
  apply elem_of_cons in Hmt as [-> | Hmt]; [|apply elem_of_cons in Hmt as [-> | Hmt]; [|by apply elem_of_nil in Hmt]].
  all: rewrite bool_decide_eq_false_2 by (apply (bool_decide_unpack _); by vm_compute); rewrite bool_decide_eq_true_2 by (cbn; repeat constructor).
  all: unfold process_avb_1722_1_acmp_listener_packet; rewrite Hg; cbn [negb].
  all: erewrite M_bind_run by reflexivity; rewrite Hw, bool_decide_eq_true_2 by done; reflexivity.
Qed.

(** C35: A CONNECT_TX or DISCONNECT_TX response that carries a stream number the listener does not have -
    from anyone, in answer to no command - stops the listener's state machine for good: whatever packets,
    ticks and calls follow, it stays in the state of that response and takes no command any more. *)
Theorem listener_never_recovers s pkt l :
  acmp_reachable s -> acmp_listener_state s = ACMP_LISTENER_WAITING ->
  (acmp_packet_size <= length pkt)%nat -> Forall byte_ok pkt ->
  GET_1722_1_MSG_TYPE pkt ∈ [ACMP_CMD_CONNECT_TX_RESPONSE; ACMP_CMD_DISCONNECT_TX_RESPONSE] ->
  compare_guid (bytes_at off_listener_guid 8 pkt) my_guid = true ->
  Z.of_nat AVB_1722_1_MAX_LISTENERS <= short_at off_listener_unique_id pkt ->
  Forall input_ok l ->
  exists s', acmp_run (RxPacket pkt :: l) s = Some (tt, s') /\
    acmp_listener_state s' = stuck_state_of (GET_1722_1_MSG_TYPE pkt).
Proof.
  intros Hs%(reachable_acmp_ok Hcfg) Hw Hl Hb Hmt Hg Hu Hin.
  pose proof (stuck_receive_run pkt s Hl Hw Hmt Hg) as E.
  pose proof (acmp_do_ok Hcfg (RxPacket pkt) s Hs (conj Hl Hb)) as Hs1. unfold wp in Hs1. cbn [acmp_do] in Hs1.
  rewrite E in Hs1. edestruct (stuck_run l) as (s' & E' & Est); [exact Hs1| |exact Hin|].
  - split; [|exact Hu]. cbn [upd_acmp_listener_state acmp_listener_state]. unfold stuck_state_of.
    destruct (_ =? _); [by left | by right].
  - exists s'. split; [|exact Est]. unfold acmp_run. cbn [forM acmp_do]. by erewrite M_bind_run by exact E.
Qed.
End Stuck.

#[local] Existing Instance sample_acmp_config.

(** One packet, then a connect command and two ticks. *)
Definition stopping_packet : list Z :=
  sample_packet (MkCmdResp 0 0 0 0 0 my_guid 0 1 [0; 0; 0; 0; 0; 0] 0 7 0 0) ACMP_CMD_CONNECT_TX_RESPONSE.
Definition later_inputs : list acmp_input :=
  [ListenerPeriodic sample_env; RxPacket (sample_packet sample_connect ACMP_CMD_CONNECT_RX_COMMAND);
   ListenerPeriodic sample_env].

Example listener_never_recovers_witness :
  exists s', acmp_run (RxPacket stopping_packet :: later_inputs) (sample_run sample_inputs) = Some (tt, s') /\
    acmp_listener_state s' = ACMP_LISTENER_CONNECT_TX_RESPONSE.
Proof.
  assert (Forall input_ok later_inputs) as Hin.
  { constructor; [by vm_compute|constructor; [split; [by vm_compute|by apply bytes_okb]|constructor; [by vm_compute|done]]]. }
  exact (listener_never_recovers sample_config_ok (sample_run sample_inputs) stopping_packet later_inputs
    sample_reachable ltac:(by vm_compute) ltac:(by vm_compute) ltac:(by apply bytes_okb)
    (list_elem_of_here 1 _) ltac:(by vm_compute) ltac:(by vm_compute) Hin).
Defined.
