(* ===== verification/MediaClock.v ===== *)
(** The recovery of the media clock from a stream,
    [lib_tsn/src/media_clock/media_clock_support.c].

    The length of a word, in 10 ns ticks with 24 fractional bits, follows the
    difference between the time a sample left ([outgoing_ptp_ts]) and the time its
    timestamp asked for ([presentation_ts]).

    What it does with an error: a bounded correction in the right direction, computed
    without overflow. *)
From S2P Require Import Prelude.
From stdpp Require Import base list numbers option.
From Stdlib Require Import ZArith Lia.
#[local] Open Scope Z_scope.

Definition WORDLEN_FRACTIONAL_BITS : Z := 24.
Definition WC_FRACTIONAL_BITS : Z := 16.

Inductive device_media_clock_type_t : Type :=
| DEVICE_MEDIA_CLOCK_INPUT_STREAM_DERIVED
| DEVICE_MEDIA_CLOCK_LOCAL_CLOCK.

Record stream_info_t : Type := MkStreamInfo {
  info_valid : bool;         (* int *)
  local_ts : Z;              (* unsigned int *)
  outgoing_ptp_ts : Z;       (* unsigned int *)
  presentation_ts : Z;       (* unsigned int *)
  info_locked : bool;        (* int *)
  info_fill : Z;             (* int *)
}.

Record clock_info_t : Type := MkClockInfo {
  wordlen : Z;               (* unsigned long long *)
  clock_ierror : Z;          (* long long ierror *)
  clock_rate : Z;            (* unsigned int *)
  clock_first : bool;        (* int *)
  stream_info1 : stream_info_t;
  stream_info2 : stream_info_t;
}.

Definition invalidate (i : stream_info_t) : stream_info_t :=
  MkStreamInfo false (local_ts i) (outgoing_ptp_ts i) (presentation_ts i) (info_locked i) (info_fill i).

(** The state is the array [clock_states]. *)
Abbreviation CM := (M (list clock_info_t)).

Definition get_clock (i : nat) : CM clock_info_t := load (fun s => s !! i).
Definition put_clock (i : nat) (c : clock_info_t) : CM unit :=
  store (fun s => _ ← s !! i; Some (<[i := c]> s)).

Definition local_wordlen_to_external_wordlen (w : Z) : Z :=
  u32 (Z.shiftr w (WORDLEN_FRACTIONAL_BITS - WC_FRACTIONAL_BITS)).

(** [None]: [fail], an unsupported rate. *)
Definition calculate_wordlen (sample_rate : Z) : option Z :=
  let nanoseconds := u64 (Z.shiftl 100000000 WORDLEN_FRACTIONAL_BITS) in
  if sample_rate mod 48000 =? 0 then Some (nanoseconds / 48000)
  else if sample_rate mod 44100 =? 0 then Some (nanoseconds / 44100)
  else None.

Definition init_media_clock_recovery (clock_num : nat) (rate : Z) : CM unit :=
  c ← get_clock clock_num;
  w ← (if negb (rate =? 0) then load (fun _ => calculate_wordlen rate) else mret 0);
  put_clock clock_num
    (MkClockInfo w 0 rate true (invalidate (stream_info1 c)) (invalidate (stream_info2 c))).

Definition update_media_clock_stream_info (clock_index : nat) (local outgoing presentation : Z)
    (locked : bool) (fill : Z) : CM unit :=
  c ← get_clock clock_index;
  put_clock clock_index
    (MkClockInfo (wordlen c) (clock_ierror c) (clock_rate c) (clock_first c) (stream_info1 c)
       (MkStreamInfo true local outgoing presentation locked fill)).

Definition inform_media_clock_of_lock (clock_index : nat) : CM unit :=
  c ← get_clock clock_index;
  put_clock clock_index
    (MkClockInfo (wordlen c) (clock_ierror c) (clock_rate c) (clock_first c) (stream_info1 c)
       (invalidate (stream_info2 c))).

(** The error of a sample, in ticks with the fractional bits: a difference of
    [int]s, widened and shifted. *)
Definition stream_ierror (i : stream_info_t) : Z :=
  s64 (Z.shiftl (s32 (s32 (outgoing_ptp_ts i) - s32 (presentation_ts i))) WORDLEN_FRACTIONAL_BITS).

(** The proportional and integral correction; the quotients are those of
    [long long]s, the result is taken off an [unsigned long long]. *)
Definition corrected_wordlen (w perror ierror diff_local : Z) : Z :=
  u64 (u64 (w - s64 (Z.quot (s64 (Z.quot perror diff_local * 80)) 11)) - s64 (Z.quot (s64 (Z.quot ierror diff_local * 1)) 5)).

(** The case of a stream, once there are two valid records; [diff_local] is an
    [unsigned] difference in a [long long], and no divisor if it is zero. *)
Definition recover (c : clock_info_t) : option clock_info_t :=
  let diff_local := u32 (local_ts (stream_info2 c) - local_ts (stream_info1 c)) in
  let ierror := stream_ierror (stream_info2 c) in
  let perror := if clock_first c then 0 else s64 (ierror - clock_ierror c) in
  if diff_local =? 0 then None
  else Some (MkClockInfo (corrected_wordlen (wordlen c) perror ierror diff_local) ierror (clock_rate c) false
               (stream_info2 c) (invalidate (stream_info2 c))).

Definition update_media_clock (clock_index : nat) (clock_type : device_media_clock_type_t) : CM Z :=
  c ← get_clock clock_index;
  match clock_type with
  | DEVICE_MEDIA_CLOCK_LOCAL_CLOCK => mret (local_wordlen_to_external_wordlen (wordlen c))
  | DEVICE_MEDIA_CLOCK_INPUT_STREAM_DERIVED =>
      if negb (info_valid (stream_info2 c)) then mret (local_wordlen_to_external_wordlen (wordlen c))
      else if negb (info_valid (stream_info1 c)) then
        _ ← put_clock clock_index
              (MkClockInfo (wordlen c) (clock_ierror c) (clock_rate c) (clock_first c)
                 (stream_info2 c) (invalidate (stream_info2 c)));
        mret (local_wordlen_to_external_wordlen (wordlen c))
      else
        c' ← (if negb (info_locked (stream_info2 c)) then
                w ← load (fun _ => calculate_wordlen (clock_rate c));
                mret (MkClockInfo w 0 (clock_rate c) true (stream_info2 c) (invalidate (stream_info2 c)))
              else load (fun _ => recover c));
        _ ← put_clock clock_index c';
        mret (local_wordlen_to_external_wordlen (wordlen c'))
  end.

(** * Types *)

Definition info_ok (i : stream_info_t) : Prop :=
  0 <= local_ts i < 2 ^ 32 /\ 0 <= outgoing_ptp_ts i < 2 ^ 32 /\ 0 <= presentation_ts i < 2 ^ 32.

Record clock_ok (c : clock_info_t) : Prop := {
  ok_wordlen : 0 <= wordlen c < 2 ^ 64;
  ok_ierror : - 2 ^ 55 <= clock_ierror c <= 2 ^ 55;
  ok_info1 : info_ok (stream_info1 c);
  ok_info2 : info_ok (stream_info2 c);
}.

(** The error of a sample in nanoseconds, positive if it left late. *)
Definition lateness (i : stream_info_t) : Z := s32 (outgoing_ptp_ts i - presentation_ts i).

(** ** Errors and corrections as integers *)

Lemma lateness_range i : - 2 ^ 31 <= lateness i < 2 ^ 31.
Proof. apply (signed_range 32). lia. Qed.

(** The shift does not overflow. *)
Lemma stream_ierror_exact i : stream_ierror i = lateness i * 2 ^ 24.
Proof.
  unfold stream_ierror. rewrite s32_diff. fold (lateness i). pose proof (lateness_range i).
  rewrite Z.shiftl_mul_pow2 by (unfold WORDLEN_FRACTIONAL_BITS; lia).
  apply s64_small. unfold WORDLEN_FRACTIONAL_BITS. lia.
Qed.

(** Quotients that round towards zero. *)
Lemma quot_abs a d : 0 < d -> Z.abs (Z.quot a d) = Z.abs a / d.
Proof. intros Hd. rewrite <- Z.quot_abs by lia. rewrite (Z.abs_eq d) by lia. apply Z.quot_div_nonneg; lia. Qed.

Lemma quot_sign a d : 0 < d -> (0 <= a -> 0 <= Z.quot a d) /\ (a <= 0 -> Z.quot a d <= 0).
Proof.
  intros Hd. split; intros Ha; [apply Z.quot_pos; lia|].
  rewrite <- (Z.opp_involutive a), Z.quot_opp_l by lia. pose proof (Z.quot_pos (- a) d ltac:(lia) Hd). lia.
Qed.

Lemma quot_bound a d m : 0 < d -> - m <= a <= m -> - m <= Z.quot a d <= m.
Proof.
  intros Hd Ha. pose proof (quot_abs a d Hd) as E.
  assert (Z.abs a / d <= Z.abs a) by (apply Z.div_le_upper_bound; nia). lia.
Qed.

(** The correction, over the integers. *)
Definition correction (perror ierror d : Z) : Z :=
  Z.quot (Z.quot perror d * 80) 11 + Z.quot (Z.quot ierror d) 5.

Lemma correction_sign p e d :
  0 < d -> (0 <= p -> 0 <= e -> 0 <= correction p e d) /\ (p <= 0 -> e <= 0 -> correction p e d <= 0).
Proof.
  intros Hd. unfold correction. pose proof (quot_sign p d Hd). pose proof (quot_sign e d Hd).
  pose proof (quot_sign (Z.quot p d * 80) 11 ltac:(lia)). pose proof (quot_sign (Z.quot e d) 5 ltac:(lia)).
  split; intros; lia.
Qed.

Lemma correction_bound p e d :
  0 < d -> Z.abs (correction p e d) <= Z.abs p / d * 80 / 11 + Z.abs e / d / 5.
Proof.
  intros Hd. unfold correction. etransitivity; [apply Z.abs_triangle|].
  rewrite !quot_abs, Z.abs_mul, !quot_abs by lia. reflexivity.
Qed.

(** The gains of the regulator: the correction is 80/11 of the error's change and 1/5 of the
    error, both per tick between the samples, up to ten units of the last place. *)
Lemma correction_gains p e d :
  0 < d -> Z.abs (55 * d * correction p e d - (400 * p + 11 * e)) < 550 * d.
Proof.
  intros Hd. unfold correction. set (P := Z.quot p d). set (E := Z.quot e d).
  pose proof (Z.quot_rem' p d) as HP. pose proof (Z.rem_bound_abs p d ltac:(lia)) as BP.
  pose proof (Z.quot_rem' e d) as HE. pose proof (Z.rem_bound_abs e d ltac:(lia)) as BE.
  pose proof (Z.quot_rem' (P * 80) 11) as H1. pose proof (Z.rem_bound_abs (P * 80) 11 ltac:(lia)) as B1.
  pose proof (Z.quot_rem' E 5) as H2. pose proof (Z.rem_bound_abs E 5 ltac:(lia)) as B2.
  fold P in HP. fold E in HE.
  set (K1 := Z.quot (P * 80) 11) in *. set (K2 := Z.quot E 5) in *. clearbody P E K1 K2.
  set (r1 := Z.rem (P * 80) 11) in *. set (r2 := Z.rem E 5) in *.
  set (rp := Z.rem p d) in *. set (re := Z.rem e d) in *. clearbody r1 r2 rp re.
  replace (55 * d * (K1 + K2) - (400 * p + 11 * e)) with (- (5 * d * r1 + 400 * rp + 11 * d * r2 + 11 * re)) by nia.
  nia.
Qed.

(** With errors of 55 bits no step of the computation overflows. *)
Lemma corrected_exact w p e d :
  0 < d -> - 2 ^ 56 <= p <= 2 ^ 56 -> - 2 ^ 55 <= e <= 2 ^ 55 ->
  corrected_wordlen w p e d = u64 (w - correction p e d).
Proof.
  intros Hd Hp He. unfold corrected_wordlen, correction.
  pose proof (quot_bound p d _ Hd Hp) as Hp'. pose proof (quot_bound e d _ Hd He) as He'.
  set (P := Z.quot p d) in *. set (E := Z.quot e d) in *. clearbody P E.
  rewrite (s64_small (P * 80)), (s64_small (E * 1)), Z.mul_1_r by lia.
  pose proof (quot_bound (P * 80) 11 (2 ^ 56 * 80) ltac:(lia) ltac:(lia)).
  pose proof (quot_bound E 5 (2 ^ 55) ltac:(lia) ltac:(lia)).
  rewrite !s64_small by lia. unfold u64, wrap. rewrite Zminus_mod_idemp_l. f_equal. lia.
Qed.

(** * The recovery step *)

(** What the error has changed since the last sample, in the internal unit. *)
Definition error_change (c : clock_info_t) : Z :=
  if clock_first c then 0 else lateness (stream_info2 c) * 2 ^ 24 - clock_ierror c.
Definition elapsed (c : clock_info_t) : Z := (local_ts (stream_info2 c) - local_ts (stream_info1 c)) mod 2 ^ 32.

Lemma elapsed_pos c :
  info_ok (stream_info1 c) -> info_ok (stream_info2 c) ->
  local_ts (stream_info1 c) <> local_ts (stream_info2 c) -> 0 < elapsed c < 2 ^ 32.
Proof. intros (H1 & _) (H2 & _) Hne. unfold elapsed. change (2 ^ 32) with 4294967296 in *. Z.div_mod_to_equations. lia. Qed.

Lemma recover_run c :
  clock_ok c -> local_ts (stream_info1 c) <> local_ts (stream_info2 c) ->
  recover c = Some (MkClockInfo
    (u64 (wordlen c - correction (error_change c) (lateness (stream_info2 c) * 2 ^ 24) (elapsed c)))
    (lateness (stream_info2 c) * 2 ^ 24) (clock_rate c) false (stream_info2 c) (invalidate (stream_info2 c))).
Proof.
  intros [Hw He H1 H2] Hne. pose proof (elapsed_pos c H1 H2 Hne) as Hd. pose proof (lateness_range (stream_info2 c)).
  unfold recover. rewrite stream_ierror_exact. change (u32 _) with (elapsed c).
  destruct (Z.eqb_spec (elapsed c) 0); [lia|]. f_equal.
  assert ((if clock_first c then 0 else s64 (lateness (stream_info2 c) * 2 ^ 24 - clock_ierror c)) = error_change c) as ->.
  { unfold error_change. destruct (clock_first c); [done|]. apply s64_small. lia. }
  f_equal. apply corrected_exact; [lia| |lia]. unfold error_change. destruct (clock_first c); lia.
Qed.

Lemma recovered_ok c :
  clock_ok c -> clock_ok (MkClockInfo
    (u64 (wordlen c - correction (error_change c) (lateness (stream_info2 c) * 2 ^ 24) (elapsed c)))
    (lateness (stream_info2 c) * 2 ^ 24) (clock_rate c) false (stream_info2 c) (invalidate (stream_info2 c))).
Proof.
  intros [Hw He H1 H2]. pose proof (lateness_range (stream_info2 c)). constructor; cbn; [|lia|done|done].
  apply (wrap_range 64). lia.
Qed.

(** C39: The recovery of a clock from a stream that is locked, with two samples at different times:
    the signed intermediate results do not overflow (the difference of the times and the word
    length are modulo 2^32 and 2^64, as their types are). The word length loses 80/11 of what the
    error has changed and 1/5 of the error, each per tick between the samples, up to ten units of
    the last place. So words become shorter for a stream that is late and not catching up, longer
    for one that is early and not falling behind, and stay the same for one that is and was on time. *)
Theorem clock_recovery_step s i c :
  s !! i = Some c -> clock_ok c ->
  info_valid (stream_info1 c) = true -> info_valid (stream_info2 c) = true -> info_locked (stream_info2 c) = true ->
  local_ts (stream_info1 c) <> local_ts (stream_info2 c) ->
  let e := lateness (stream_info2 c) * 2 ^ 24 in
  let p := error_change c in
  let d := elapsed c in
  exists c' k,
    update_media_clock i DEVICE_MEDIA_CLOCK_INPUT_STREAM_DERIVED s =
      Some (local_wordlen_to_external_wordlen (wordlen c'), <[i := c']> s) /\
    clock_ok c' /\ clock_ierror c' = e /\ clock_first c' = false /\
    stream_info1 c' = stream_info2 c /\ info_valid (stream_info2 c') = false /\
    wordlen c' = u64 (wordlen c - k) /\
    Z.abs (55 * d * k - (400 * p + 11 * e)) < 550 * d /\
    (0 <= p -> 0 <= e -> 0 <= k) /\ (p <= 0 -> e <= 0 -> k <= 0) /\
    Z.abs k <= Z.abs p / d * 80 / 11 + Z.abs e / d / 5.
Proof.
  intros Hi Hc V1 V2 L2 Hne e p d.
  pose proof (elapsed_pos c (ok_info1 c Hc) (ok_info2 c Hc) Hne) as Hd.
  eexists _, (correction p e d). split; [|split; [by apply recovered_ok|]].
  - unfold update_media_clock, get_clock, put_clock, load, store. unfold mbind, M_bind. rewrite Hi, V1, V2, L2.
    cbn [negb]. rewrite recover_run by done. cbn [mbind option_bind]. rewrite Hi. reflexivity.
  - cbn [clock_ierror wordlen clock_first stream_info1 stream_info2 invalidate info_valid]. split_and!; [done..| | | |].
    + apply (correction_gains p e d (proj1 Hd)).
    + apply (proj1 (correction_sign p e d (proj1 Hd))).
    + apply (proj2 (correction_sign p e d (proj1 Hd))).
    + apply (correction_bound p e d (proj1 Hd)).
Qed.

(** A sample that left 5 us late, 21 ms after one that was on time. *)
Definition late_clock : clock_info_t :=
  MkClockInfo 34952533333 0 48000 false
    (MkStreamInfo true 0 1000 1000 true 0) (MkStreamInfo true 2097152 21005000 21000000 true 0).

Example clock_recovery_step_witness :
  exists c' k,
    update_media_clock 0 DEVICE_MEDIA_CLOCK_INPUT_STREAM_DERIVED [late_clock] =
      Some (local_wordlen_to_external_wordlen (wordlen c'), [c']) /\
    clock_ok c' /\ clock_ierror c' = 5000 * 2 ^ 24 /\ wordlen c' = u64 (34952533333 - k) /\ 298900 <= k <= 298909.
Proof.
  assert (clock_ok late_clock) as Hok by (constructor; by vm_compute).
  destruct (clock_recovery_step [late_clock] 0 late_clock eq_refl Hok eq_refl eq_refl eq_refl ltac:(by vm_compute))
    as (c' & k & E & Hc & He & _ & _ & _ & Hw & Hg & Hp & _ & Hb).
  exists c', k. split_and!; [exact E|exact Hc|exact He|exact Hw| |].
  - revert Hg. change (elapsed late_clock) with 2097152. change (error_change late_clock) with (5000 * 2 ^ 24).
    change (lateness (stream_info2 late_clock)) with 5000. lia.
  - assert (0 <= k) by (by apply Hp; vm_compute).
    etransitivity; [|etransitivity; [exact Hb|by vm_compute]]. lia.
Defined.
