(* ===== verification/AvbUtil.v ===== *)
(** Numbers as text, [lib_tsn/src/util/avb_util.c].

    The state is the memory the pointers point into; a pointer is an offset in it.

    [avb_itoa] writes the number, [avb_atoi] reads its digits in the wrong order. *)
From S2P Require Import Prelude.
From stdpp Require Import base list numbers option list_numbers.
From Stdlib Require Import ZArith Lia.
#[local] Open Scope Z_scope.

(** * The code *)

Abbreviation TM := (M (list Z)).

Definition rd (p : Z) : TM Z := load (fun s => if p <? 0 then None else s !! Z.to_nat p).
Definition wr (p v : Z) : TM unit :=
  store (fun s => if p <? 0 then None else _ ← s !! Z.to_nat p; Some (<[Z.to_nat p := v]> s)).

Definition reverse_array (buf : Z) (size : nat) : TM unit :=
  loopM (S size) (fun be =>
    let '(begin, end_) := be in
    if begin <? end_ then
      tmp ← rd (buf + begin);
      y ← rd (buf + end_);
      _ ← wr (buf + begin) y;
      _ ← wr (buf + end_) (u8 tmp);
      mret (inl (begin + 1, end_ - 1))
    else mret (inr tt)) (0, Z.of_nat size - 1).

(** The characters of [0123456789ABCDEF] and their final zero. *)
Definition digits : list Z := [48; 49; 50; 51; 52; 53; 54; 55; 56; 57; 65; 66; 67; 68; 69; 70; 0].

Definition itoa_fuel : nat := 32.
Definition avb_itoa (n buf base fill : Z) : TM Z :=
  '(i, fill) ← loopM itoa_fuel (fun st =>
    let '(n, i, fill) := st in
    if 0 <? n then
      if base =? 0 then trap
      else
        let next := Z.quot n base in
        let cur := Z.rem n base in
        d ← load (fun _ => if cur <? 0 then None else digits !! Z.to_nat cur);
        _ ← wr (buf + i) d;
        mret (inl (next, i + 1, fill - 1))
    else mret (inr (i, fill))) (n, 0, fill);
  _ ← forM (seqZ 0 fill) (fun j => wr (buf + i + j) 48);
  let i := i + Z.max 0 fill in
  _ ← reverse_array buf (Z.to_nat i);
  mret i.

(** [long long]s are passed to [avb_itoa] as [int]s. *)
Definition avb_itoa_fixed (n buf base fill1 fill2 prec : Z) : TM Z :=
  let buf0 := buf in
  _ ← wr buf (if n <? 0 then 45 else 32);
  let x := if n <? 0 then s32 (- n) else n in
  let buf := buf + 1 in
  c ← avb_itoa (s32 (Z.shiftr x prec)) buf base fill1;
  let buf := buf + c in
  _ ← wr buf 46;
  let buf := buf + 1 in
  let x := s64 (x - Z.shiftl (Z.shiftr x prec) prec) in
  let x := foldl (fun x _ => s64 (x * base)) x (seqZ 0 fill2) in
  c ← avb_itoa (s32 (Z.shiftr x prec)) buf base fill2;
  mret (buf + c - buf0).

Definition is_digit (c : Z) : bool := (48 <=? c) && (c <=? 57).

(** The loops that skip the digits from [p] on. *)
Definition skip_digits (p : Z) : TM Z :=
  len ← gets length;
  loopM (S len) (fun p => c ← rd p; mret (if is_digit c then inl (p + 1) else inr p)) p.

(** The result is the pointer returned and the number stored in [x0]. *)
Definition avb_atoi (buf : Z) : TM (Z * Z) :=
  c ← rd buf;
  let p := if c =? 45 then buf + 1 else buf in
  let sign := if c =? 45 then -1 else 1 in
  p ← skip_digits p;
  let p := p - 1 in
  '(p, x) ← loopM (S (Z.to_nat (p - buf + 1))) (fun st =>
    let '(p, x) := st in
    if buf <=? p then
      c ← rd p;
      mret (inl (p - 1, s32 (x * 10 + (c - 48))))
    else mret (inr (p, x))) (p, 0);
  let x := s32 (x * sign) in
  p ← skip_digits p;
  mret (p, x).

(** * Memory *)

Lemma rd_run s p i c : p = Z.of_nat i -> s !! i = Some c -> rd p s = Some (c, s).
Proof.
  intros -> Hi. unfold rd, load. destruct (Z.ltb_spec (Z.of_nat i) 0); [lia|]. by rewrite Nat2Z.id, Hi.
Qed.

Lemma wr_run s p i v : p = Z.of_nat i -> (i < length s)%nat -> wr p v s = Some (tt, <[i := v]> s).
Proof.
  intros -> Hi. unfold wr, store. destruct (Z.ltb_spec (Z.of_nat i) 0); [lia|]. rewrite Nat2Z.id.
  destruct (lookup_lt_is_Some_2 s i Hi) as [x ->]. done.
Qed.

Lemma wr_at pre x post v : wr (Z.of_nat (length pre)) v (pre ++ x :: post) = Some (tt, pre ++ v :: post).
Proof.
  erewrite wr_run; [|reflexivity|rewrite length_app; cbn; lia]. by rewrite insert_app_r_alt, Nat.sub_diag by lia.
Qed.

Lemma rd_at pre x post : rd (Z.of_nat (length pre)) (pre ++ x :: post) = Some (x, pre ++ x :: post).
Proof. eapply rd_run; [reflexivity|]. by rewrite lookup_app_r, Nat.sub_diag. Qed.

(** * The reversal *)

Definition swap_ends (buf : Z) (be : Z * Z) : TM ((Z * Z) + unit) :=
  let '(begin, end_) := be in
  if begin <? end_ then
    tmp ← rd (buf + begin);
    y ← rd (buf + end_);
    _ ← wr (buf + begin) y;
    _ ← wr (buf + end_) (u8 tmp);
    mret (inl (begin + 1, end_ - 1))
  else mret (inr tt).

Lemma swap_stop buf b e s : e <= b -> swap_ends buf (b, e) s = Some (inr tt, s).
Proof. intros H. unfold swap_ends. by destruct (Z.ltb_spec b e); [lia|]. Qed.

Lemma swap_run buf pre x m y post b e :
  byte_ok x -> buf + b = Z.of_nat (length pre) -> buf + e = Z.of_nat (length pre + S (length m)) ->
  swap_ends buf (b, e) (pre ++ x :: m ++ y :: post) =
    Some (inl (b + 1, e - 1), pre ++ y :: m ++ x :: post).
Proof.
  intros Hx Hb He. unfold swap_ends. destruct (Z.ltb_spec b e); [|lia].
  assert (forall z v, pre ++ z :: m ++ v :: post = (pre ++ z :: m) ++ v :: post) as Ez by (intros; by rewrite <- app_assoc).
  assert (forall z : Z, buf + e = Z.of_nat (length (pre ++ z :: m))) as He' by (intros; rewrite length_app; cbn; lia).
  rewrite Hb. erewrite M_bind_run by apply rd_at.
  erewrite M_bind_run by (rewrite Ez, (He' x); apply rd_at). rewrite <- Ez.
  erewrite M_bind_run by apply wr_at.
  erewrite M_bind_run by (rewrite Ez, (He' y); apply wr_at). rewrite <- Ez, u8_small by done. done.
Qed.

Lemma reverse_loop fuel buf pre l post b :
  (length l < fuel)%nat -> Forall byte_ok l -> buf + b = Z.of_nat (length pre) ->
  loopM fuel (swap_ends buf) (b, b + Z.of_nat (length l) - 1) (pre ++ l ++ post) =
    Some (tt, pre ++ reverse l ++ post).
Proof.
  revert pre l post b. induction fuel as [|fuel IH]; intros pre l post b Hf Hl Hb; [lia|]. cbn [loopM].
  destruct l as [|x l]; [by erewrite M_bind_run by (apply swap_stop; cbn; lia)|].
  destruct l as [|y m _] using rev_ind; [by erewrite M_bind_run by (apply swap_stop; cbn; lia)|].
  apply list.Forall_cons in Hl as [Hx Hl]. apply Forall_app in Hl as [Hm _].
  cbn [length] in *. rewrite length_app in *. cbn [length] in *.
  assert (pre ++ (x :: m ++ [y]) ++ post = pre ++ x :: m ++ y :: post) as -> by (cbn; by rewrite <- app_assoc).
  erewrite M_bind_run by (apply swap_run; [done|done|lia]).
  specialize (IH (pre ++ [y]) m ([x] ++ post) (b + 1) ltac:(lia) Hm ltac:(rewrite length_app; cbn; lia)).
  replace (b + Z.of_nat (S (length m + 1)) - 1 - 1) with (b + 1 + Z.of_nat (length m) - 1) by lia.
  replace (pre ++ y :: m ++ x :: post) with ((pre ++ [y]) ++ m ++ [x] ++ post) by (rewrite <- !app_assoc; done).
  rewrite IH, reverse_cons, reverse_app, <- !app_assoc. done.
Qed.

Lemma reverse_array_run pre l post :
  Forall byte_ok l ->
  reverse_array (Z.of_nat (length pre)) (length l) (pre ++ l ++ post) = Some (tt, pre ++ reverse l ++ post).
Proof.
  intros Hl. unfold reverse_array. rewrite <- (Z.add_0_l (Z.of_nat (length l) - 1)), Z.add_sub_assoc.
  apply (reverse_loop (S (length l)) _ pre l post 0); [lia|done|lia].
Qed.

(** * Text as a number *)

Definition digit_value (c : Z) : Z := if c <? 58 then c - 48 else c - 55.
Definition text_value (base : Z) (text : list Z) : Z := foldl (fun x c => x * base + digit_value c) 0 text.

(** The digits of [n], the least first. *)
Fixpoint digits_le (k : nat) (base n : Z) : list Z :=
  match k with
  | O => []
  | S k => if 0 <? n then n mod base :: digits_le k base (n / base) else []
  end.
Definition digit_char (d : Z) : Z := digits !!! Z.to_nat d.

Definition num_digits (base n : Z) : nat := length (digits_le 31 base n).

Lemma digit_cases (f : Z -> bool) d :
  forallb f (seqZ 0 16) = true -> 0 <= d < 16 -> f d = true.
Proof.
  intros H Hd. rewrite forallb_forall in H. apply H, list_elem_of_In, elem_of_seqZ. lia.
Qed.

Lemma digit_char_value d : 0 <= d < 16 -> digit_value (digit_char d) = d.
Proof. intros Hd. apply Z.eqb_eq. by apply (digit_cases (fun d => digit_value (digit_char d) =? d)). Qed.

Lemma digit_char_ok d : 0 <= d < 16 -> byte_ok (digit_char d).
Proof.
  intros Hd. unfold byte_ok.
  assert ((0 <=? digit_char d) && (digit_char d <? 256) = true) as [?%Z.leb_le ?%Z.ltb_lt]%andb_true_iff; [|done].
  by apply (digit_cases (fun d => (0 <=? digit_char d) && (digit_char d <? 256))).
Qed.

Lemma digits_lookup d : 0 <= d < 16 -> digits !! Z.to_nat d = Some (digit_char d).
Proof. intros Hd. unfold digit_char. apply list_lookup_lookup_total_lt. cbn. lia. Qed.

Lemma digits_le_range k base n : 2 <= base <= 16 -> Forall (fun d => 0 <= d < 16) (digits_le k base n).
Proof.
  intros Hb. revert n. induction k as [|k IH]; intros n; cbn; [done|]. destruct (0 <? n); [|done].
  constructor; [|apply IH]. pose proof (Z.mod_pos_bound n base). lia.
Qed.

Lemma text_value_app base l c : text_value base (l ++ [c]) = text_value base l * base + digit_value c.
Proof. unfold text_value. by rewrite foldl_app. Qed.

(** The digits make the number. *)
Lemma digits_value k base n :
  2 <= base <= 16 -> 0 <= n < base ^ Z.of_nat k ->
  text_value base (reverse (digit_char <$> digits_le k base n)) = n.
Proof.
  intros Hb. revert n. induction k as [|k IH]; intros n Hn.
  - change (base ^ Z.of_nat 0) with 1 in Hn. cbn. lia.
  - cbn [digits_le]. destruct (Z.ltb_spec 0 n); [|cbn; lia].
    rewrite fmap_cons, reverse_cons, text_value_app, digit_char_value by (pose proof (Z.mod_pos_bound n base); lia).
    rewrite IH.
    + pose proof (Z.div_mod n base ltac:(lia)). lia.
    + rewrite Nat2Z.inj_succ, Z.pow_succ_r in Hn by lia.
      split; [apply Z.div_pos; lia | apply Z.div_lt_upper_bound; lia].
Qed.

Lemma value_zeros base k l : text_value base (replicate k 48 ++ l) = text_value base l.
Proof. induction k as [|k IH]; [done|]. unfold text_value in *. cbn. exact IH. Qed.

(** * The loops of [avb_itoa] *)

Definition itoa_step (buf base : Z) (st : Z * Z * Z) : M (list Z) ((Z * Z * Z) + (Z * Z)) :=
  let '(n, i, fill) := st in
  if 0 <? n then
    if base =? 0 then trap
    else
      let next := Z.quot n base in
      let cur := Z.rem n base in
      d ← load (fun _ => if cur <? 0 then None else digits !! Z.to_nat cur);
      _ ← wr (buf + i) d;
      mret (inl (next, i + 1, fill - 1))
  else mret (inr (i, fill)).

Lemma itoa_step_run buf base n i fill pre x post :
  2 <= base <= 16 -> 0 < n -> buf + i = Z.of_nat (length pre) ->
  itoa_step buf base (n, i, fill) (pre ++ x :: post) =
    Some (inl (n / base, i + 1, fill - 1), pre ++ digit_char (n mod base) :: post).
Proof.
  intros Hb Hn Hi. unfold itoa_step. destruct (Z.ltb_spec 0 n); [|lia]. destruct (Z.eqb_spec base 0); [lia|].
  cbv zeta. rewrite Z.rem_mod_nonneg, Z.quot_div_nonneg by lia. pose proof (Z.mod_pos_bound n base ltac:(lia)).
  destruct (Z.ltb_spec (n mod base) 0); [lia|]. rewrite digits_lookup by lia.
  erewrite M_bind_run by reflexivity. rewrite Hi. by erewrite M_bind_run by apply wr_at.
Qed.

Lemma itoa_loop k fuel buf base n i fill pre old post :
  2 <= base <= 16 -> 0 <= n < base ^ Z.of_nat k -> (k < fuel)%nat ->
  buf + i = Z.of_nat (length pre) -> length old = length (digits_le k base n) ->
  loopM fuel (itoa_step buf base) (n, i, fill) (pre ++ old ++ post) =
    Some ((i + Z.of_nat (length old), fill - Z.of_nat (length old)),
          pre ++ (digit_char <$> digits_le k base n) ++ post).
Proof.
  intros Hb. revert fuel n i fill pre old. induction k as [|k IH]; intros fuel n i fill pre old Hn Hf Hi Hl;
    (destruct fuel as [|fuel]; [lia|]); cbn [loopM digits_le] in *.
  - change (base ^ Z.of_nat 0) with 1 in Hn. assert (n = 0) as -> by lia. apply nil_length_inv in Hl as ->.
    erewrite M_bind_run by reflexivity. cbn. unfold mret, M_ret. do 3 f_equal; lia.
  - destruct (Z.ltb_spec 0 n).
    + destruct old as [|x old]; [done|]. cbn [length] in Hl.
      change ((x :: old) ++ post) with (x :: (old ++ post)).
      erewrite M_bind_run by (by apply itoa_step_run). cbv beta iota.
      rewrite Nat2Z.inj_succ, Z.pow_succ_r in Hn by lia.
      specialize (IH fuel (n / base) (i + 1) (fill - 1) (pre ++ [digit_char (n mod base)]) old).
      rewrite <- (app_assoc pre [_] (old ++ post)) in IH.
      etransitivity; [apply IH|].
      * split; [apply Z.div_pos; lia | apply Z.div_lt_upper_bound; lia].
      * lia.
      * rewrite length_app. cbn. lia.
      * lia.
      * rewrite fmap_cons, <- app_assoc. cbn [app length]. do 2 f_equal. f_equal; lia.
    + apply nil_length_inv in Hl as ->. assert (n = 0) as -> by lia.
      erewrite M_bind_run by reflexivity. cbn. unfold mret, M_ret. do 3 f_equal; lia.
Qed.

(** The padding. *)
Lemma pad_loop m j q pre old post :
  q + j = Z.of_nat (length pre) -> length old = m ->
  forM (seqZ j (Z.of_nat m)) (fun j => wr (q + j) 48) (pre ++ old ++ post) =
    Some (tt, pre ++ replicate m 48 ++ post).
Proof.
  revert j pre old. induction m as [|m IH]; intros j pre old Hq Hl.
  - apply nil_length_inv in Hl as ->. done.
  - destruct old as [|x old]; [done|]. cbn in Hl. rewrite seqZ_cons by lia. cbn [forM app].
    rewrite Hq. erewrite M_bind_run by apply wr_at.
    replace (Z.pred (Z.of_nat (S m))) with (Z.of_nat m) by lia.
    specialize (IH (Z.succ j) (pre ++ [48]) old ltac:(rewrite length_app; cbn; lia) ltac:(lia)).
    rewrite <- !app_assoc in IH. exact IH.
Qed.

(** * The number is written *)

Definition text_of (base n fill : Z) : list Z :=
  replicate (Z.to_nat (fill - Z.of_nat (num_digits base n))) 48 ++ reverse (digit_char <$> digits_le 31 base n).

Lemma chars_ok k base n : 2 <= base <= 16 -> Forall byte_ok (digit_char <$> digits_le k base n).
Proof.
  intros Hb. apply Forall_fmap, (list.Forall_impl _ _ _ (digits_le_range k base n Hb)). intros d. apply digit_char_ok.
Qed.

Lemma avb_itoa_run n base fill pre room post :
  0 <= n < 2 ^ 31 -> 2 <= base <= 16 -> length room = length (text_of base n fill) ->
  avb_itoa n (Z.of_nat (length pre)) base fill (pre ++ room ++ post) =
    Some (Z.of_nat (length room), pre ++ text_of base n fill ++ post).
Proof.
  intros Hn Hb Hl. set (ds := digit_char <$> digits_le 31 base n).
  set (m := Z.to_nat (fill - Z.of_nat (num_digits base n))).
  assert (length ds = num_digits base n) as Hds by (apply length_fmap).
  assert (text_of base n fill = replicate m 48 ++ reverse ds) as Et by reflexivity.
  rewrite Et in Hl |- *. rewrite length_app, length_replicate, length_reverse in Hl.
  assert (0 <= n < base ^ Z.of_nat 31) as Hn'.
  { split; [lia|]. eapply Z.lt_le_trans; [apply Hn|]. apply (Z.pow_le_mono_l 2 base 31). lia. }
  rewrite <- (take_drop (length ds) room), <- app_assoc.
  set (r1 := take (length ds) room). set (r2 := drop (length ds) room).
  assert (length r1 = length ds) as H1 by (apply length_take_le; lia).
  assert (length r2 = m) as H2 by (unfold r2; rewrite length_drop; lia).
  assert (Z.of_nat (length (r1 ++ r2)) = Z.of_nat (length ds) + Z.of_nat m) as Hr by (rewrite length_app; lia).
  unfold avb_itoa. erewrite M_bind_run.
  2: { apply (itoa_loop 31 itoa_fuel _ base n 0 fill pre r1 (r2 ++ post)); try done; [unfold itoa_fuel; lia|lia|].
       by rewrite H1, Hds. }
  cbv beta iota. rewrite H1. fold ds.
  assert (seqZ 0 (fill - Z.of_nat (length ds)) = seqZ 0 (Z.of_nat m)) as ->.
  { unfold m. rewrite <- Hds. unfold seqZ. by rewrite Nat2Z.id. }
  replace (Z.max 0 (fill - Z.of_nat (length ds))) with (Z.of_nat m) by lia.
  erewrite M_bind_run.
  2: { rewrite (app_assoc pre ds). apply (pad_loop m 0 _ (pre ++ ds) r2 post); [rewrite length_app; lia|done]. }
  cbv zeta. replace (Z.to_nat _) with (length (ds ++ replicate m 48)) by (rewrite length_app, length_replicate; lia).
  erewrite M_bind_run.
  2: { rewrite <- (app_assoc pre ds), (app_assoc ds). apply reverse_array_run. apply Forall_app.
       split; [by apply chars_ok | by apply Forall_replicate]. }
  rewrite reverse_app, reverse_replicate, Hr. by rewrite <- (app_assoc (replicate m 48)).
Qed.

Lemma text_of_value base n fill :
  0 <= n < 2 ^ 31 -> 2 <= base <= 16 -> text_value base (text_of base n fill) = n.
Proof.
  intros Hn Hb. unfold text_of. rewrite value_zeros. apply digits_value; [done|]. split; [lia|].
  eapply Z.lt_le_trans; [apply Hn|]. apply (Z.pow_le_mono_l 2 base 31). lia.
Qed.

Lemma text_of_length base n fill :
  Z.of_nat (length (text_of base n fill)) = Z.max (Z.of_nat (num_digits base n)) fill.
Proof. unfold text_of, num_digits. rewrite length_app, length_replicate, length_reverse, length_fmap. lia. Qed.

(** [avb_itoa] writes a number that is not negative, in any base up to 16, as a text that reads back
    as that number, zeros in front filling it up to the width asked for; it returns the length of the
    text and touches no other byte. *)
Theorem avb_itoa_spec n base fill pre room post :
  0 <= n < 2 ^ 31 -> 2 <= base <= 16 ->
  Z.of_nat (length room) = Z.max (Z.of_nat (num_digits base n)) fill ->
  exists text,
    avb_itoa n (Z.of_nat (length pre)) base fill (pre ++ room ++ post) =
      Some (Z.of_nat (length room), pre ++ text ++ post) /\
    length text = length room /\ text_value base text = n.
Proof.
  intros Hn Hb Hl. exists (text_of base n fill). pose proof (text_of_length base n fill).
  split_and!; [apply avb_itoa_run; [done|done|lia]|lia|by apply text_of_value].
Qed.

(** 2026 in hexadecimal, six wide, in the middle of a buffer. *)
Example avb_itoa_spec_witness :
  exists text,
    avb_itoa 2026 3 16 6 (replicate 12 0) = Some (6, replicate 3 0 ++ text ++ replicate 3 0) /\
    length text = 6%nat /\ text_value 16 text = 2026.
Proof.
  apply (avb_itoa_spec 2026 16 6 (replicate 3 0) (replicate 6 0) (replicate 3 0)); by vm_compute.
Defined.

(** * The number is read backwards *)

Lemma skip_step s p i c :
  p = Z.of_nat i -> s !! i = Some c ->
  (c ← rd p; mret (if is_digit c then inl (p + 1) else inr p)) s =
    Some ((if is_digit c then inl (p + 1) else inr p) : Z + Z, s).
Proof. intros Hp Hi. by erewrite M_bind_run by (by eapply rd_run). Qed.

Lemma skip_loop fuel ds pre c post :
  (length ds < fuel)%nat -> Forall (fun c => is_digit c = true) ds -> is_digit c = false ->
  loopM fuel (fun p => c ← rd p; mret (if is_digit c then inl (p + 1) else inr p)) (Z.of_nat (length pre))
    (pre ++ ds ++ c :: post) =
    Some (Z.of_nat (length pre + length ds), pre ++ ds ++ c :: post).
Proof.
  revert fuel pre. induction ds as [|d ds IH]; intros fuel pre Hf Hd Hc;
    (destruct fuel as [|fuel]; [cbn in Hf; lia|]); cbn [loopM].
  - erewrite M_bind_run by (eapply skip_step; [reflexivity|by rewrite lookup_app_r, Nat.sub_diag]).
    rewrite Hc. by rewrite Nat.add_0_r.
  - apply list.Forall_cons in Hd as [Hd Hds].
    erewrite M_bind_run by (eapply skip_step; [reflexivity|by rewrite lookup_app_r, Nat.sub_diag]).
    rewrite Hd. specialize (IH fuel (pre ++ [d]) ltac:(cbn in Hf; lia) Hds Hc).
    rewrite <- app_assoc, length_app in IH. cbn [length] in IH |- *.
    replace (Z.of_nat (length pre) + 1) with (Z.of_nat (length pre + 1)) by lia.
    etransitivity; [exact IH|]. do 3 f_equal. lia.
Qed.

Lemma skip_digits_run ds pre c post :
  Forall (fun c => is_digit c = true) ds -> is_digit c = false ->
  skip_digits (Z.of_nat (length pre)) (pre ++ ds ++ c :: post) =
    Some (Z.of_nat (length pre + length ds), pre ++ ds ++ c :: post).
Proof.
  intros Hd Hc. unfold skip_digits. erewrite M_bind_run by reflexivity. apply skip_loop; [|done|done].
  rewrite !length_app. cbn. lia.
Qed.

Definition atoi_step (buf : Z) (st : Z * Z) : M (list Z) ((Z * Z) + (Z * Z)) :=
  let '(p, x) := st in
  if buf <=? p then
    c ← rd p;
    mret (inl (p - 1, s32 (x * 10 + (c - 48))))
  else mret (inr (p, x)).

(** The value of the digits read from the last to the first, on top of [x]. *)
Definition backwards (x : Z) (ds : list Z) : Z := foldl (fun x c => x * 10 + (c - 48)) x (reverse ds).

Lemma digit_range c : is_digit c = true -> 0 <= c - 48 <= 9.
Proof. unfold is_digit. intros [?%Z.leb_le ?%Z.leb_le]%andb_true_iff. lia. Qed.

Lemma atoi_loop k pre ds rest x :
  Forall (fun c => is_digit c = true) ds -> 0 <= x < 10 ^ Z.of_nat k -> (k + length ds <= 9)%nat ->
  loopM (S (length ds)) (atoi_step (Z.of_nat (length pre))) (Z.of_nat (length pre + length ds) - 1, x)
    (pre ++ ds ++ rest) =
    Some ((Z.of_nat (length pre) - 1, backwards x ds), pre ++ ds ++ rest) /\
  0 <= backwards x ds < 10 ^ Z.of_nat (k + length ds).
Proof.
  revert k x rest. induction ds as [|d ds IH] using rev_ind; intros k x rest Hd Hx Hk.
  - cbn [loopM length]. rewrite !Nat.add_0_r. split; [|done]. unfold atoi_step.
    destruct (Z.leb_spec (Z.of_nat (length pre)) (Z.of_nat (length pre) - 1)); [lia|]. done.
  - rewrite length_app in *. cbn [length] in *. apply Forall_app in Hd as [Hds Hd].
    apply list.Forall_singleton, digit_range in Hd.
    assert (10 ^ Z.of_nat (S k) <= 10 ^ 9) by (apply Z.pow_le_mono_r; lia).
    rewrite Nat2Z.inj_succ, Z.pow_succ_r in H by lia. change (10 ^ 9) with 1000000000 in H.
    assert (s32 (x * 10 + (d - 48)) = x * 10 + (d - 48)) as Es by (apply s32_small; lia).
    destruct (IH (S k) (x * 10 + (d - 48)) (d :: rest) Hds) as [IH1 IH2];
      [rewrite Nat2Z.inj_succ, Z.pow_succ_r by lia; lia|lia|].
    assert (backwards x (ds ++ [d]) = backwards (x * 10 + (d - 48)) ds) as Eb
      by (unfold backwards; by rewrite reverse_app).
    rewrite Eb. split; [|by replace (k + (length ds + 1))%nat with (S k + length ds)%nat by lia].
    replace (S (length ds + 1)) with (S (S (length ds))) by lia. cbn [loopM].
    erewrite M_bind_run.
    2: { unfold atoi_step at 1.
         destruct (Z.leb_spec (Z.of_nat (length pre)) (Z.of_nat (length pre + (length ds + 1)) - 1)); [|lia].
         erewrite M_bind_run; [reflexivity|]. apply (rd_run _ _ (length pre + length ds) d); [lia|].
         rewrite !lookup_app_r by lia. rewrite <- app_assoc.
         rewrite lookup_app_r by lia. by replace (length pre + length ds - length pre - length ds)%nat with 0%nat by lia. }
    cbv beta iota. rewrite Es, <- app_assoc.
    replace (Z.of_nat (length pre + (length ds + 1)) - 1 - 1) with (Z.of_nat (length pre + length ds) - 1) by lia.
    exact IH1.
Qed.

Lemma backwards_value ds :
  Forall (fun c => is_digit c = true) ds -> backwards 0 ds = text_value 10 (reverse ds).
Proof.
  intros Hd. unfold backwards, text_value. apply Forall_reverse in Hd. generalize 0.
  induction (reverse ds) as [|d l IH]; intros x; [done|]. cbn [foldl].
  apply list.Forall_cons in Hd as [Hd%digit_range Hl]. rewrite (IH Hl). f_equal. f_equal. unfold digit_value.
  destruct (Z.ltb_spec d 58); lia.
Qed.

(** [avb_atoi] reads the digits from the last to the first and takes the last for the most
    significant - 123 is read as 321 - and returns a pointer to the byte before the text. *)
Theorem avb_atoi_reads_backwards pre before ds after post :
  Forall (fun c => is_digit c = true) ds -> (0 < length ds <= 9)%nat ->
  is_digit before = false -> is_digit after = false ->
  avb_atoi (Z.of_nat (S (length pre))) (pre ++ before :: ds ++ after :: post) =
    Some ((Z.of_nat (length pre), text_value 10 (reverse ds)), pre ++ before :: ds ++ after :: post).
Proof.
  intros Hd Hl Hb Ha.
  assert (pre ++ before :: ds ++ after :: post = (pre ++ [before]) ++ ds ++ after :: post) as Es by (by rewrite <- app_assoc).
  assert (Z.of_nat (S (length pre)) = Z.of_nat (length (pre ++ [before]))) as Hp by (rewrite length_app; cbn; lia).
  rewrite Es, Hp. destruct ds as [|d ds]; [cbn in Hl; lia|].
  assert (is_digit d = true) as Hd0 by (by apply list.Forall_cons in Hd as [? _]).
  unfold avb_atoi. erewrite M_bind_run by apply rd_at.
  assert ((d =? 45) = false) as ->.
  { apply digit_range in Hd0. apply Z.eqb_neq. lia. }
  erewrite M_bind_run by (exact (skip_digits_run (d :: ds) (pre ++ [before]) after post Hd Ha)). cbv zeta.
  destruct (atoi_loop 0 (pre ++ [before]) (d :: ds) (after :: post) 0 Hd) as [E Hr]; [cbn; lia|cbn in *; lia|].
  replace (Z.to_nat _) with (length (d :: ds)) by (cbn; lia).
  erewrite M_bind_run by exact E. cbv beta iota.
  assert (10 ^ Z.of_nat (0 + length (d :: ds)) <= 10 ^ 9) as Hmax by (apply Z.pow_le_mono_r; lia).
  change (10 ^ 9) with 1000000000 in Hmax.
  rewrite Z.mul_1_r, s32_small by lia.
  replace (Z.of_nat (length (pre ++ [before])) - 1) with (Z.of_nat (length pre)) by lia.
  rewrite <- Es. erewrite M_bind_run by (apply (skip_digits_run [] pre before); [constructor|done]).
  rewrite Nat.add_0_r. unfold mret, M_ret. do 3 f_equal.
  by rewrite backwards_value.
Qed.

Example avb_atoi_reads_backwards_witness :
  avb_atoi 1 [32; 49; 50; 51; 0] = Some ((0, 321), [32; 49; 50; 51; 0]).
Proof.
  apply (avb_atoi_reads_backwards [] 32 [49; 50; 51] 0 []); [by repeat constructor|cbn; lia|done|done].
Defined.
