(* ===== verification/AvbApi.v ===== *)
(** The control interface of the AVB manager, [lib_tsn/api/avb.h].

    A client of the manager reads and writes whole records of sources, sinks and
    media clocks; the settings an application sees are extensions of that interface,
    each of which reads a record, checks, changes a field and writes it back. They
    are defined here over any implementation of the interface, the class
    [avb_interface]; [AvbInterfaceLaws] is what they rely on. *)
From S2P Require Import Prelude MrpTypes.
From stdpp Require Import base list numbers option.
From Stdlib Require Import ZArith Lia.
#[local] Open Scope Z_scope.

(** [default_avb_conf.h] *)
Definition AVB_MAX_CHANNELS_PER_TALKER_STREAM : nat := 8.
Definition AVB_MAX_CHANNELS_PER_LISTENER_STREAM : nat := 8.
Definition AVB_NUM_MEDIA_CLOCKS : nat := 1.

Record avb_stream_info_t : Type := MkStreamInfoT {
  st_state : Z;  (* int *)
  st_tile_id : Z;  (* char *)
  st_local_id : Z;  (* char *)
  st_num_channels : Z;  (* char *)
  st_format : Z;  (* char *)
  st_rate : Z;  (* int *)
  st_sync : Z;  (* char *)
  st_flags : Z;  (* short *)
}.

Definition upd_st_state (g : Z -> Z) (s : avb_stream_info_t) : avb_stream_info_t :=
  MkStreamInfoT (g (st_state s)) (st_tile_id s) (st_local_id s) (st_num_channels s) (st_format s)
    (st_rate s) (st_sync s) (st_flags s).
Definition upd_st_num_channels (g : Z -> Z) (s : avb_stream_info_t) : avb_stream_info_t :=
  MkStreamInfoT (st_state s) (st_tile_id s) (st_local_id s) (g (st_num_channels s)) (st_format s)
    (st_rate s) (st_sync s) (st_flags s).
Definition upd_st_format (g : Z -> Z) (s : avb_stream_info_t) : avb_stream_info_t :=
  MkStreamInfoT (st_state s) (st_tile_id s) (st_local_id s) (st_num_channels s) (g (st_format s))
    (st_rate s) (st_sync s) (st_flags s).
Definition upd_st_rate (g : Z -> Z) (s : avb_stream_info_t) : avb_stream_info_t :=
  MkStreamInfoT (st_state s) (st_tile_id s) (st_local_id s) (st_num_channels s) (st_format s) (g
    (st_rate s)) (st_sync s) (st_flags s).
Definition upd_st_sync (g : Z -> Z) (s : avb_stream_info_t) : avb_stream_info_t :=
  MkStreamInfoT (st_state s) (st_tile_id s) (st_local_id s) (st_num_channels s) (st_format s)
    (st_rate s) (g (st_sync s)) (st_flags s).

Record source_info : Type := MkSourceInfo {
  so_reservation : avb_srp_info_t;
  so_stream : avb_stream_info_t;
  talker_ctl : nat;  (* the talker unit at the other end *)
  so_presentation : Z;  (* int *)
  so_map : list Z;  (* int[AVB_MAX_CHANNELS_PER_TALKER_STREAM] *)
}.

Definition upd_so_reservation (g : avb_srp_info_t -> avb_srp_info_t) (s : source_info) : source_info :=
  MkSourceInfo (g (so_reservation s)) (so_stream s) (talker_ctl s) (so_presentation s) (so_map s).
Definition upd_so_stream (g : avb_stream_info_t -> avb_stream_info_t) (s : source_info) : source_info :=
  MkSourceInfo (so_reservation s) (g (so_stream s)) (talker_ctl s) (so_presentation s) (so_map s).
Definition upd_so_presentation (g : Z -> Z) (s : source_info) : source_info :=
  MkSourceInfo (so_reservation s) (so_stream s) (talker_ctl s) (g (so_presentation s)) (so_map s).
Definition upd_so_map (g : list Z -> list Z) (s : source_info) : source_info :=
  MkSourceInfo (so_reservation s) (so_stream s) (talker_ctl s) (so_presentation s) (g (so_map s)).

Record sink_info : Type := MkSinkInfo {
  si_reservation : avb_srp_info_t;
  si_stream : avb_stream_info_t;
  listener_ctl : nat;  (* the listener unit *)
  si_map : list Z;  (* int[AVB_MAX_CHANNELS_PER_LISTENER_STREAM] *)
}.

Definition upd_si_reservation (g : avb_srp_info_t -> avb_srp_info_t) (s : sink_info) : sink_info :=
  MkSinkInfo (g (si_reservation s)) (si_stream s) (listener_ctl s) (si_map s).
Definition upd_si_stream (g : avb_stream_info_t -> avb_stream_info_t) (s : sink_info) : sink_info :=
  MkSinkInfo (si_reservation s) (g (si_stream s)) (listener_ctl s) (si_map s).
Definition upd_si_map (g : list Z -> list Z) (s : sink_info) : sink_info :=
  MkSinkInfo (si_reservation s) (si_stream s) (listener_ctl s) (g (si_map s)).

Record media_clock_info_t : Type := MkMediaClock {
  mc_active : bool;  (* int *)
  mc_clock_type : Z;  (* enum device_media_clock_type_t *)
  mc_source : Z;  (* int *)
  mc_rate : Z;  (* int *)
  mc_lock_counter : Z;  (* int *)
  mc_unlock_counter : Z;  (* int *)
}.

Definition upd_mc_active (g : bool -> bool) (s : media_clock_info_t) : media_clock_info_t :=
  MkMediaClock (g (mc_active s)) (mc_clock_type s) (mc_source s) (mc_rate s) (mc_lock_counter s)
    (mc_unlock_counter s).
Definition upd_mc_clock_type (g : Z -> Z) (s : media_clock_info_t) : media_clock_info_t :=
  MkMediaClock (mc_active s) (g (mc_clock_type s)) (mc_source s) (mc_rate s) (mc_lock_counter s)
    (mc_unlock_counter s).
Definition upd_mc_source (g : Z -> Z) (s : media_clock_info_t) : media_clock_info_t :=
  MkMediaClock (mc_active s) (mc_clock_type s) (g (mc_source s)) (mc_rate s) (mc_lock_counter s)
    (mc_unlock_counter s).
Definition upd_mc_rate (g : Z -> Z) (s : media_clock_info_t) : media_clock_info_t :=
  MkMediaClock (mc_active s) (mc_clock_type s) (mc_source s) (g (mc_rate s)) (mc_lock_counter s)
    (mc_unlock_counter s).

(** The states of sources and sinks as the [int] of the stream. *)
Definition source_state_c (st : avb_source_state_t) : Z :=
  match st with
  | AVB_SOURCE_STATE_DISABLED => 0
  | AVB_SOURCE_STATE_POTENTIAL => 1
  | AVB_SOURCE_STATE_ENABLED => 2
  end.
Definition sink_state_c (st : avb_sink_state_t) : Z :=
  match st with
  | AVB_SINK_STATE_DISABLED => 0
  | AVB_SINK_STATE_POTENTIAL => 1
  | AVB_SINK_STATE_ENABLED => 2
  end.

(** * The interface *)

(** [interface avb_interface]; a number without a record is an access outside the
    manager's array. *)
Class avb_interface (S : Type) : Type := {
  _get_source_info : Z -> M S source_info;
  _set_source_info : Z -> source_info -> M S unit;
  _get_sink_info : Z -> M S sink_info;
  _set_sink_info : Z -> sink_info -> M S unit;
  _get_media_clock_info : Z -> M S media_clock_info_t;
  _set_media_clock_info : Z -> media_clock_info_t -> M S unit;
}.

(** An element of a C array. *)
Definition elem_at {A} (l : list A) (n : Z) : option A := if n <? 0 then None else l !! Z.to_nat n.
Definition set_elem {A} (n : Z) (x : A) (l : list A) : list A := <[Z.to_nat n := x]> l.

(** * The settings *)

Section Settings.
Context `{cfg : Config} {S : Type} `{avb : !avb_interface S}.
Abbreviation CM := (M S).

(** A getter returns 0 or stores what [f] reads; a setter returns 0 if the number is
    out of range or [f] refuses, else writes the record back. *)
Definition get_source_with {A} (f : source_info -> CM A) (source_num : Z) : CM (option A) :=
  if Z.of_nat AVB_NUM_SOURCES <=? source_num then mret None
  else source ← _get_source_info source_num; a ← f source; mret (Some a).
Definition set_source_with (f : source_info -> option source_info) (source_num : Z) : CM bool :=
  if Z.of_nat AVB_NUM_SOURCES <=? source_num then mret false
  else
    source ← _get_source_info source_num;
    match f source with
    | None => mret false
    | Some source => _ ← _set_source_info source_num source; mret true
    end.
Definition get_sink_with {A} (f : sink_info -> CM A) (sink_num : Z) : CM (option A) :=
  if Z.of_nat AVB_NUM_SINKS <=? sink_num then mret None
  else sink ← _get_sink_info sink_num; a ← f sink; mret (Some a).
Definition set_sink_with (f : sink_info -> option sink_info) (sink_num : Z) : CM bool :=
  if Z.of_nat AVB_NUM_SINKS <=? sink_num then mret false
  else
    sink ← _get_sink_info sink_num;
    match f sink with
    | None => mret false
    | Some sink => _ ← _set_sink_info sink_num sink; mret true
    end.
Definition get_clock_with {A} (f : media_clock_info_t -> A) (clock_num : Z) : CM (option A) :=
  if Z.of_nat AVB_NUM_MEDIA_CLOCKS <=? clock_num then mret None
  else info ← _get_media_clock_info clock_num; mret (Some (f info)).
Definition set_clock_with (f : media_clock_info_t -> media_clock_info_t) (clock_num : Z) : CM bool :=
  if Z.of_nat AVB_NUM_MEDIA_CLOCKS <=? clock_num then mret false
  else info ← _get_media_clock_info clock_num; _ ← _set_media_clock_info clock_num (f info); mret true.

(** [if (stream.state != ..._DISABLED) return 0;] *)
Definition source_if_disabled (f : source_info -> option source_info) (source : source_info) : option source_info :=
  if st_state (so_stream source) =? 0 then f source else None.
Definition sink_if_disabled (f : sink_info -> option sink_info) (sink : sink_info) : option sink_info :=
  if st_state (si_stream sink) =? 0 then f sink else None.

(** [memcpy(to, from, len<<2)] out of an array, and [memcpy] into one. *)
Definition copy_out (from : list Z) (len : Z) : CM (list Z) :=
  load (fun _ => if (Z.to_nat len <=? length from)%nat then Some (take (Z.to_nat len) from) else None).
Definition copy_in (from to : list Z) : list Z := from ++ drop (length from) to.

(** ** Sources *)

Definition get_source_format : Z -> CM (option (Z * Z)) :=
  get_source_with (fun s => mret (st_format (so_stream s), st_rate (so_stream s))).
Definition set_source_format (source_num format rate : Z) : CM bool :=
  set_source_with (source_if_disabled (fun s =>
    Some (upd_so_stream (fun t => upd_st_rate (fun _ => rate) (upd_st_format (fun _ => u8 format) t)) s))) source_num.

Definition get_source_channels : Z -> CM (option Z) :=
  get_source_with (fun s => mret (st_num_channels (so_stream s))).
Definition set_source_channels (source_num channels : Z) : CM bool :=
  set_source_with (source_if_disabled (fun s =>
    Some (upd_so_stream (upd_st_num_channels (fun _ => u8 channels)) s))) source_num.

Definition get_source_sync : Z -> CM (option Z) :=
  get_source_with (fun s => mret (st_sync (so_stream s))).
Definition set_source_sync (source_num sync : Z) : CM bool :=
  set_source_with (source_if_disabled (fun s =>
    Some (upd_so_stream (upd_st_sync (fun _ => u8 sync)) s))) source_num.

Definition get_source_presentation : Z -> CM (option Z) :=
  get_source_with (fun s => mret (so_presentation s)).
Definition set_source_presentation (source_num presentation : Z) : CM bool :=
  set_source_with (source_if_disabled (fun s =>
    Some (upd_so_presentation (fun _ => presentation) s))) source_num.

Definition get_source_vlan : Z -> CM (option Z) :=
  get_source_with (fun s => mret (vlan_id (so_reservation s))).
Definition set_source_vlan (source_num vlan : Z) : CM bool :=
  set_source_with (fun s => Some (upd_so_reservation (upd_vlan_id (fun _ => s16 vlan)) s)) source_num.

Definition get_source_state : Z -> CM (option Z) :=
  get_source_with (fun s => mret (st_state (so_stream s))).
Definition set_source_state (source_num : Z) (state : avb_source_state_t) : CM bool :=
  set_source_with (fun s => Some (upd_so_stream (upd_st_state (fun _ => source_state_c state)) s)) source_num.

Definition get_source_map : Z -> CM (option (list Z)) :=
  get_source_with (fun s => copy_out (so_map s) (st_num_channels (so_stream s))).
Definition set_source_map (source_num : Z) (map : list Z) : CM bool :=
  set_source_with (source_if_disabled (fun s =>
    if (AVB_MAX_CHANNELS_PER_TALKER_STREAM <? length map)%nat then None
    else Some (upd_so_map (copy_in map) s))) source_num.

Definition get_source_dest : Z -> CM (option (list Z)) :=
  get_source_with (fun s => mret (take 6 (dest_mac_addr (so_reservation s)))).
Definition set_source_dest (source_num : Z) (addr : list Z) : CM bool :=
  set_source_with (source_if_disabled (fun s =>
    if negb (length addr =? 6)%nat then None
    else Some (upd_so_reservation (upd_dest_mac_addr (fun _ => addr)) s))) source_num.

Definition get_source_id : Z -> CM (option (Z * Z)) :=
  get_source_with (fun s => mret (stream_id0 (so_reservation s), stream_id1 (so_reservation s))).

(** ** Sinks *)

Definition get_sink_id : Z -> CM (option (Z * Z)) :=
  get_sink_with (fun s => mret (stream_id0 (si_reservation s), stream_id1 (si_reservation s))).
Definition set_sink_id (sink_num : Z) (stream_id : Z * Z) : CM bool :=
  set_sink_with (sink_if_disabled (fun s =>
    Some (upd_si_reservation (fun r =>
      upd_stream_id1 (fun _ => stream_id.2) (upd_stream_id0 (fun _ => stream_id.1) r)) s))) sink_num.

Definition get_sink_format : Z -> CM (option (Z * Z)) :=
  get_sink_with (fun s => mret (st_format (si_stream s), st_rate (si_stream s))).
Definition set_sink_format (sink_num format rate : Z) : CM bool :=
  set_sink_with (sink_if_disabled (fun s =>
    Some (upd_si_stream (fun t => upd_st_rate (fun _ => rate) (upd_st_format (fun _ => u8 format) t)) s))) sink_num.

Definition get_sink_channels : Z -> CM (option Z) :=
  get_sink_with (fun s => mret (st_num_channels (si_stream s))).
Definition set_sink_channels (sink_num channels : Z) : CM bool :=
  set_sink_with (sink_if_disabled (fun s =>
    Some (upd_si_stream (upd_st_num_channels (fun _ => u8 channels)) s))) sink_num.

Definition get_sink_sync : Z -> CM (option Z) :=
  get_sink_with (fun s => mret (st_sync (si_stream s))).
Definition set_sink_sync (sink_num sync : Z) : CM bool :=
  set_sink_with (sink_if_disabled (fun s =>
    Some (upd_si_stream (upd_st_sync (fun _ => u8 sync)) s))) sink_num.

Definition get_sink_vlan : Z -> CM (option Z) :=
  get_sink_with (fun s => mret (vlan_id (si_reservation s))).
Definition set_sink_vlan (sink_num vlan : Z) : CM bool :=
  set_sink_with (sink_if_disabled (fun s =>
    Some (upd_si_reservation (upd_vlan_id (fun _ => s16 vlan)) s))) sink_num.

Definition get_sink_addr : Z -> CM (option (list Z)) :=
  get_sink_with (fun s => mret (take 6 (dest_mac_addr (si_reservation s)))).
Definition set_sink_addr (sink_num : Z) (addr : list Z) : CM bool :=
  set_sink_with (sink_if_disabled (fun s =>
    if negb (length addr =? 6)%nat then None
    else Some (upd_si_reservation (upd_dest_mac_addr (fun _ => addr)) s))) sink_num.

Definition get_sink_state : Z -> CM (option Z) :=
  get_sink_with (fun s => mret (st_state (si_stream s))).
Definition set_sink_state (sink_num : Z) (state : avb_sink_state_t) : CM bool :=
  set_sink_with (fun s => Some (upd_si_stream (upd_st_state (fun _ => sink_state_c state)) s)) sink_num.

Definition get_sink_map : Z -> CM (option (list Z)) :=
  get_sink_with (fun s => copy_out (si_map s) (st_num_channels (si_stream s))).
(** Without the check of the state. *)
Definition set_sink_map (sink_num : Z) (map : list Z) : CM bool :=
  set_sink_with (fun s =>
    if (AVB_MAX_CHANNELS_PER_LISTENER_STREAM <? length map)%nat then None
    else Some (upd_si_map (copy_in map) s)) sink_num.

(** ** Media clocks *)

Definition get_device_media_clock_rate : Z -> CM (option Z) := get_clock_with mc_rate.
Definition set_device_media_clock_rate (clock_num rate : Z) : CM bool :=
  set_clock_with (upd_mc_rate (fun _ => rate)) clock_num.
(** [true] is [DEVICE_MEDIA_CLOCK_STATE_ENABLED]. *)
Definition get_device_media_clock_state : Z -> CM (option bool) := get_clock_with mc_active.
Definition set_device_media_clock_state (clock_num : Z) (state : bool) : CM bool :=
  set_clock_with (upd_mc_active (fun _ => state)) clock_num.
Definition get_device_media_clock_source : Z -> CM (option Z) := get_clock_with mc_source.
Definition set_device_media_clock_source (clock_num source : Z) : CM bool :=
  set_clock_with (upd_mc_source (fun _ => source)) clock_num.
Definition get_device_media_clock_type : Z -> CM (option Z) := get_clock_with mc_clock_type.
Definition set_device_media_clock_type (clock_num clock_type : Z) : CM bool :=
  set_clock_with (upd_mc_clock_type (fun _ => clock_type)) clock_num.
End Settings.

(** * What the settings rely on *)

(** The records an implementation keeps. A read returns the record. A write that does
    not change the state of a stream, or activate a clock, replaces the record and
    no other; for sinks this is promised while they are disabled. *)
Class AvbInterfaceLaws (S : Type) `{avb : avb_interface S} : Type := {
  sources_of : S -> list source_info;
  sinks_of : S -> list sink_info;
  clocks_of : S -> list media_clock_info_t;
  law_get_source : forall s n source, elem_at (sources_of s) n = Some source -> _get_source_info n s = Some (source, s);
  law_get_sink : forall s n sink, elem_at (sinks_of s) n = Some sink -> _get_sink_info n s = Some (sink, s);
  law_get_clock : forall s n clock, elem_at (clocks_of s) n = Some clock -> _get_media_clock_info n s = Some (clock, s);
  law_set_source : forall s n old new, elem_at (sources_of s) n = Some old ->
    st_state (so_stream new) = st_state (so_stream old) ->
    exists s', _set_source_info n new s = Some (tt, s') /\
      sources_of s' = set_elem n new (sources_of s) /\ sinks_of s' = sinks_of s /\ clocks_of s' = clocks_of s;
  law_set_sink : forall s n old new, elem_at (sinks_of s) n = Some old ->
    st_state (si_stream old) = 0 -> st_state (si_stream new) = 0 ->
    exists s', _set_sink_info n new s = Some (tt, s') /\
      sources_of s' = sources_of s /\ sinks_of s' = set_elem n new (sinks_of s) /\ clocks_of s' = clocks_of s;
  law_set_clock : forall s n old new, elem_at (clocks_of s) n = Some old ->
    (mc_active new = true -> mc_active old = true) ->
    exists s', _set_media_clock_info n new s = Some (tt, s') /\
      sources_of s' = sources_of s /\ sinks_of s' = sinks_of s /\ clocks_of s' = set_elem n new (clocks_of s);
}.

(** ** Arrays *)

Lemma elem_at_lookup {A} (l : list A) n x : elem_at l n = Some x <-> 0 <= n /\ l !! Z.to_nat n = Some x.
Proof. unfold elem_at. destruct (Z.ltb_spec n 0); split; [done | intros [? ?]; lia | done | by intros [? ?]]. Qed.

Lemma elem_at_set {A} (l : list A) n x y : elem_at l n = Some x -> elem_at (set_elem n y l) n = Some y.
Proof.
  rewrite !elem_at_lookup. intros [Hn H]. split; [done|]. unfold set_elem.
  apply list_lookup_insert_eq. by eapply lookup_lt_Some.
Qed.

Lemma elem_at_set_ne {A} (l : list A) n m y : 0 <= n -> 0 <= m -> n <> m -> elem_at (set_elem n y l) m = elem_at l m.
Proof.
  intros Hn Hm Hne. unfold elem_at, set_elem. destruct (Z.ltb_spec m 0); [done|].
  apply list_lookup_insert_ne. lia.
Qed.

Lemma copy_in_length from to : (length from <= length to)%nat -> length (copy_in from to) = length to.
Proof. intros H. unfold copy_in. rewrite length_app, length_drop. lia. Qed.

Section Laws.
Context `{cfg : Config} {S : Type} `{laws : AvbInterfaceLaws S}.

(** ** Getters and setters in general *)

Lemma get_source_run {A} (f : source_info -> M S A) n s source a :
  n < Z.of_nat AVB_NUM_SOURCES -> elem_at (sources_of s) n = Some source -> f source s = Some (a, s) ->
  get_source_with f n s = Some (Some a, s).
Proof.
  intros Hn Hs Hf. unfold get_source_with. destruct (Z.leb_spec (Z.of_nat AVB_NUM_SOURCES) n); [lia|].
  erewrite M_bind_run by (by apply law_get_source). by erewrite M_bind_run by exact Hf.
Qed.

Lemma set_source_run (f : source_info -> option source_info) n s source source' :
  n < Z.of_nat AVB_NUM_SOURCES -> elem_at (sources_of s) n = Some source -> f source = Some source' ->
  st_state (so_stream source') = st_state (so_stream source) ->
  exists s', set_source_with f n s = Some (true, s') /\
    sources_of s' = set_elem n source' (sources_of s) /\ sinks_of s' = sinks_of s /\ clocks_of s' = clocks_of s.
Proof.
  intros Hn Hs Hf Hst. destruct (law_set_source s n source source' Hs Hst) as (s' & E & H).
  exists s'. split; [|done]. unfold set_source_with. destruct (Z.leb_spec (Z.of_nat AVB_NUM_SOURCES) n); [lia|].
  erewrite M_bind_run by (by apply law_get_source). rewrite Hf. by erewrite M_bind_run by exact E.
Qed.

Lemma set_source_refused (f : source_info -> option source_info) n s :
  Z.of_nat AVB_NUM_SOURCES <= n \/ (exists source, elem_at (sources_of s) n = Some source /\ f source = None) ->
  set_source_with f n s = Some (false, s).
Proof.
  intros H. unfold set_source_with. destruct (Z.leb_spec (Z.of_nat AVB_NUM_SOURCES) n); [done|].
  destruct H as [|(source & Hs & Hf)]; [lia|].
  erewrite M_bind_run by (by apply law_get_source). by rewrite Hf.
Qed.

Lemma get_sink_run {A} (f : sink_info -> M S A) n s sink a :
  n < Z.of_nat AVB_NUM_SINKS -> elem_at (sinks_of s) n = Some sink -> f sink s = Some (a, s) ->
  get_sink_with f n s = Some (Some a, s).
Proof.
  intros Hn Hs Hf. unfold get_sink_with. destruct (Z.leb_spec (Z.of_nat AVB_NUM_SINKS) n); [lia|].
  erewrite M_bind_run by (by apply law_get_sink). by erewrite M_bind_run by exact Hf.
Qed.

Lemma set_sink_run (f : sink_info -> option sink_info) n s sink sink' :
  n < Z.of_nat AVB_NUM_SINKS -> elem_at (sinks_of s) n = Some sink -> f sink = Some sink' ->
  st_state (si_stream sink) = 0 -> st_state (si_stream sink') = 0 ->
  exists s', set_sink_with f n s = Some (true, s') /\
    sources_of s' = sources_of s /\ sinks_of s' = set_elem n sink' (sinks_of s) /\ clocks_of s' = clocks_of s.
Proof.
  intros Hn Hs Hf H0 H1. destruct (law_set_sink s n sink sink' Hs H0 H1) as (s' & E & H).
  exists s'. split; [|done]. unfold set_sink_with. destruct (Z.leb_spec (Z.of_nat AVB_NUM_SINKS) n); [lia|].
  erewrite M_bind_run by (by apply law_get_sink). rewrite Hf. by erewrite M_bind_run by exact E.
Qed.

Lemma set_sink_refused (f : sink_info -> option sink_info) n s :
  Z.of_nat AVB_NUM_SINKS <= n \/ (exists sink, elem_at (sinks_of s) n = Some sink /\ f sink = None) ->
  set_sink_with f n s = Some (false, s).
Proof.
  intros H. unfold set_sink_with. destruct (Z.leb_spec (Z.of_nat AVB_NUM_SINKS) n); [done|].
  destruct H as [|(sink & Hs & Hf)]; [lia|].
  erewrite M_bind_run by (by apply law_get_sink). by rewrite Hf.
Qed.

(** ** Settings are read back *)

(** [set] succeeds, [get] then returns [a], and only records [n] of the sources has changed. *)
Definition source_reads_back {A} (n : Z) (set : M S bool) (get : M S (option A)) (a : A) (s : S) : Prop :=
  exists s', set s = Some (true, s') /\ get s' = Some (Some a, s') /\
    (forall m, 0 <= m -> m <> n -> elem_at (sources_of s') m = elem_at (sources_of s) m) /\
    sinks_of s' = sinks_of s /\ clocks_of s' = clocks_of s.
Definition sink_reads_back {A} (n : Z) (set : M S bool) (get : M S (option A)) (a : A) (s : S) : Prop :=
  exists s', set s = Some (true, s') /\ get s' = Some (Some a, s') /\
    (forall m, 0 <= m -> m <> n -> elem_at (sinks_of s') m = elem_at (sinks_of s) m) /\
    sources_of s' = sources_of s /\ clocks_of s' = clocks_of s.

Lemma source_read_back {A} (f : source_info -> option source_info) (h : source_info -> M S A) a n s source source' :
  n < Z.of_nat AVB_NUM_SOURCES -> elem_at (sources_of s) n = Some source -> f source = Some source' ->
  st_state (so_stream source') = st_state (so_stream source) -> (forall s', h source' s' = Some (a, s')) ->
  source_reads_back n (set_source_with f n) (get_source_with h n) a s.
Proof.
  intros Hn Hs Hf Hst Hh. destruct (set_source_run f n s source source') as (s' & E & H1 & H2 & H3); try done.
  exists s'. split_and!; [done| |intros m Hm Hne|done|done].
  - eapply get_source_run; [done| |apply Hh]. rewrite H1. by eapply elem_at_set.
  - rewrite H1. apply elem_at_set_ne; [by apply elem_at_lookup in Hs as [? _]|done|done].
Qed.

Lemma sink_read_back {A} (f : sink_info -> option sink_info) (h : sink_info -> M S A) a n s sink sink' :
  n < Z.of_nat AVB_NUM_SINKS -> elem_at (sinks_of s) n = Some sink -> st_state (si_stream sink) = 0 ->
  f sink = Some sink' -> st_state (si_stream sink') = 0 -> (forall s', h sink' s' = Some (a, s')) ->
  sink_reads_back n (set_sink_with f n) (get_sink_with h n) a s.
Proof.
  intros Hn Hs H0 Hf H1 Hh. destruct (set_sink_run f n s sink sink') as (s' & E & H2 & H3 & H4); try done.
  exists s'. split_and!; [done| |intros m Hm Hne|done|done].
  - eapply get_sink_run; [done| |apply Hh]. rewrite H3. by eapply elem_at_set.
  - rewrite H3. apply elem_at_set_ne; [by apply elem_at_lookup in Hs as [? _]|done|done].
Qed.

Lemma copy_back (from to : list Z) len (s : S) :
  len = Z.of_nat (length from) -> (length from <= length to)%nat ->
  copy_out (copy_in from to) len s = Some (from, s).
Proof.
  intros -> H. unfold copy_out, load. rewrite copy_in_length, Nat2Z.id by exact H.
  destruct (Nat.leb_spec (length from) (length to)); [|lia]. unfold copy_in. by rewrite take_app_length.
Qed.

(** Over any manager that keeps the laws of the interface, a setting of a source
    that is disabled is accepted and read back - a channel count, a format and a
    clock number modulo 256, a VLAN as a [short] - and no other source changes. *)
Theorem source_settings_read_back s n source format rate channels sync presentation vlan map addr :
  n < Z.of_nat AVB_NUM_SOURCES -> elem_at (sources_of s) n = Some source -> st_state (so_stream source) = 0 ->
  length (so_map source) = AVB_MAX_CHANNELS_PER_TALKER_STREAM ->
  Z.of_nat (length map) = st_num_channels (so_stream source) ->
  (length map <= AVB_MAX_CHANNELS_PER_TALKER_STREAM)%nat -> length addr = 6%nat ->
  source_reads_back n (set_source_format n format rate) (get_source_format n) (u8 format, rate) s /\
  source_reads_back n (set_source_channels n channels) (get_source_channels n) (u8 channels) s /\
  source_reads_back n (set_source_sync n sync) (get_source_sync n) (u8 sync) s /\
  source_reads_back n (set_source_presentation n presentation) (get_source_presentation n) presentation s /\
  source_reads_back n (set_source_vlan n vlan) (get_source_vlan n) (s16 vlan) s /\
  source_reads_back n (set_source_map n map) (get_source_map n) map s /\
  source_reads_back n (set_source_dest n addr) (get_source_dest n) addr s.
Proof.
  intros Hn Hs H0 Hm Hnch Hmap Haddr.
  apply Nat.ltb_ge in Hmap as Hltb.
  split_and!; (eapply source_read_back;
    [exact Hn | exact Hs
    | unfold source_if_disabled; try rewrite H0; cbv beta; rewrite ?Hltb, ?Haddr; reflexivity
    | reflexivity | try reflexivity]).
  - intros s'. apply copy_back; [done|lia].
  - intros s'. cbn. by rewrite take_ge by lia.
Qed.

Lemma sink_settings_read_back s n sink id format rate channels sync vlan addr :
  n < Z.of_nat AVB_NUM_SINKS -> elem_at (sinks_of s) n = Some sink -> st_state (si_stream sink) = 0 ->
  length addr = 6%nat ->
  sink_reads_back n (set_sink_id n id) (get_sink_id n) id s /\
  sink_reads_back n (set_sink_format n format rate) (get_sink_format n) (u8 format, rate) s /\
  sink_reads_back n (set_sink_channels n channels) (get_sink_channels n) (u8 channels) s /\
  sink_reads_back n (set_sink_sync n sync) (get_sink_sync n) (u8 sync) s /\
  sink_reads_back n (set_sink_vlan n vlan) (get_sink_vlan n) (s16 vlan) s /\
  sink_reads_back n (set_sink_addr n addr) (get_sink_addr n) addr s.
Proof.
  intros Hn Hs H0 Haddr.
  split_and!; (eapply sink_read_back;
    [exact Hn | exact Hs | exact H0
    | unfold sink_if_disabled; rewrite H0; cbv beta; rewrite ?Haddr; reflexivity
    | exact H0 | try reflexivity]).
  - intros s'. by destruct id.
  - intros s'. cbn. by rewrite take_ge by lia.
Qed.

(** ** Settings are refused *)

Definition bad_source (s : S) (n : Z) : Prop :=
  Z.of_nat AVB_NUM_SOURCES <= n \/
  exists source, elem_at (sources_of s) n = Some source /\ st_state (so_stream source) <> 0.
Definition bad_sink (s : S) (n : Z) : Prop :=
  Z.of_nat AVB_NUM_SINKS <= n \/
  exists sink, elem_at (sinks_of s) n = Some sink /\ st_state (si_stream sink) <> 0.

Lemma set_source_running (f : source_info -> option source_info) n s :
  bad_source s n -> set_source_with (source_if_disabled f) n s = Some (false, s).
Proof.
  intros [H|(source & Hs & Hst)]; apply set_source_refused; [by left|right; exists source; split; [done|]].
  unfold source_if_disabled. by rewrite (proj2 (Z.eqb_neq _ _) Hst).
Qed.

Lemma set_sink_running (f : sink_info -> option sink_info) n s :
  bad_sink s n -> set_sink_with (sink_if_disabled f) n s = Some (false, s).
Proof.
  intros [H|(sink & Hs & Hst)]; apply set_sink_refused; [by left|right; exists sink; split; [done|]].
  unfold sink_if_disabled. by rewrite (proj2 (Z.eqb_neq _ _) Hst).
Qed.

(** Over any manager that keeps the laws of the interface, the settings of a stream
    that is not disabled, or does not exist, are refused without any change - format,
    channels, clock, presentation time, map and address of a source; identifier, format,
    channels, clock, VLAN and address of a sink. *)
Theorem settings_refused s n m format rate channels sync presentation map addr id vlan :
  bad_source s n -> bad_sink s m ->
  set_source_format n format rate s = Some (false, s) /\
  set_source_channels n channels s = Some (false, s) /\
  set_source_sync n sync s = Some (false, s) /\
  set_source_presentation n presentation s = Some (false, s) /\
  set_source_map n map s = Some (false, s) /\
  set_source_dest n addr s = Some (false, s) /\
  set_sink_id m id s = Some (false, s) /\
  set_sink_format m format rate s = Some (false, s) /\
  set_sink_channels m channels s = Some (false, s) /\
  set_sink_sync m sync s = Some (false, s) /\
  set_sink_vlan m vlan s = Some (false, s) /\
  set_sink_addr m addr s = Some (false, s).
Proof. intros Hn Hm. split_and!; first [by apply set_source_running | by apply set_sink_running]. Qed.
End Laws.
