(* ===== verification/AvbManager.v ===== *)
(** The AVB manager, [lib_tsn/src/avb/avb.xc]: the task that keeps the sources and
    sinks and drives the talkers, listeners and SRP when their states change.

    Commands on channels, and calls of other tasks, are events of [mgr_out]. The two
    answers SRP gives - the VLAN of a stream - are arguments, the class [SrpAnswers].
    The media clock server is the part of it that the manager calls. *)
From S2P Require Import Prelude MrpTypes SrpEncode MediaClock AvbApi.
From stdpp Require Import base list numbers option.
From Stdlib Require Import ZArith Lia.
#[local] Open Scope Z_scope.

Definition UNMAPPED : Z := -1.
Definition AVB_CHANNEL_UNMAPPED : Z := -1.
Definition AVB_SRP_TSPEC_RANK_DEFAULT : Z := 1.
Definition AVB_SRP_TSPEC_RESERVED_VALUE : Z := 0.
Definition AVB_SRP_MAX_INTERVAL_FRAMES_DEFAULT : Z := 1.
Definition AVB_SRP_ACCUMULATED_LATENCY_DEFAULT : Z := 150000.
Definition AVB_DEFAULT_PRESENTATION_TIME_DELAY_NS : Z := 2000000.
Definition AVB_MAX_AUDIO_SAMPLE_RATE : Z := 48000.
Definition AVB1722_PLUS_SIP_HEADER_SIZE : Z := 32.
Definition MANAGER_PACKET_RATE : Z := 8000.

(** What the manager does to other tasks. [c] is a talker or listener unit, [l] the
    number of the stream in it. *)
Inductive mgr_event : Type :=
| ConfigureListenerStream (c : nat) (l sync rate num_channels : Z) (map : list Z)
| AdjustListenerMap (c : nat) (l sync : Z) (map : list Z)
| DisableListenerStream (c : nat) (l : Z)
| GetRouterLink (c : nat)
| AddMacaddrFilter (appdata : Z) (addr : list Z)
| DelMacaddrFilter (appdata : Z) (addr : list Z)
| AttachRequest (stream_id : Z * Z) (vlan : Z)
| EndAttachRequest (stream_id : Z * Z)
| ConfigureTalkerStream (c : nat) (l format : Z) (dest : list Z) (source_num num_channels fifo_mask : Z)
    (map : list Z) (rate presentation : Z)
| SetTalkerVlan (c : nat) (l vlan : Z)
| TalkerGo (c : nat) (l : Z)
| TalkerStop (c : nat) (l : Z)
| StreamRequest (reservation : avb_srp_info_t)
| EndStreamRequest (stream_id : Z * Z)
| RegisterClock (clk sync : Z)
| LeaveVlan (vid : Z)
| SetSamplingRate (rate : Z).

Record media_info_t : Type := MkMediaInfo {
  mi_tile_id : Z;  (* int *)
  clk_ctl : Z;  (* unsigned *)
  mi_fifo : Z;  (* unsigned *)
  mi_local_id : Z;  (* int *)
  mapped_to : Z;  (* int *)
}.

Definition upd_mapped_to (g : Z -> Z) (s : media_info_t) : media_info_t :=
  MkMediaInfo (mi_tile_id s) (clk_ctl s) (mi_fifo s) (mi_local_id s) (g (mapped_to s)).

Record manager : Type := MkManager {
  mgr_sources : list source_info;  (* [AVB_NUM_SOURCES] *)
  mgr_sinks : list sink_info;  (* [AVB_NUM_SINKS] *)
  mgr_inputs : list media_info_t;  (* [AVB_NUM_MEDIA_INPUTS] *)
  mgr_outputs : list media_info_t;  (* [AVB_NUM_MEDIA_OUTPUTS] *)
  max_talker_stream_id : nat;  (* int *)
  max_listener_stream_id : nat;  (* int *)
  mgr_clocks : list media_clock_info_t;  (* of the media clock server *)
  clock_states : list clock_info_t;  (* of the media clock server *)
  mgr_out : list mgr_event;  (* oldest first *)
}.

Definition upd_mgr_sources (g : list source_info -> list source_info) (s : manager) : manager :=
  MkManager (g (mgr_sources s)) (mgr_sinks s) (mgr_inputs s) (mgr_outputs s) (max_talker_stream_id
    s) (max_listener_stream_id s) (mgr_clocks s) (clock_states s) (mgr_out s).
Definition upd_mgr_sinks (g : list sink_info -> list sink_info) (s : manager) : manager :=
  MkManager (mgr_sources s) (g (mgr_sinks s)) (mgr_inputs s) (mgr_outputs s) (max_talker_stream_id
    s) (max_listener_stream_id s) (mgr_clocks s) (clock_states s) (mgr_out s).
Definition upd_mgr_inputs (g : list media_info_t -> list media_info_t) (s : manager) : manager :=
  MkManager (mgr_sources s) (mgr_sinks s) (g (mgr_inputs s)) (mgr_outputs s) (max_talker_stream_id
    s) (max_listener_stream_id s) (mgr_clocks s) (clock_states s) (mgr_out s).
Definition upd_max_talker_stream_id (g : nat -> nat) (s : manager) : manager :=
  MkManager (mgr_sources s) (mgr_sinks s) (mgr_inputs s) (mgr_outputs s) (g (max_talker_stream_id
    s)) (max_listener_stream_id s) (mgr_clocks s) (clock_states s) (mgr_out s).
Definition upd_max_listener_stream_id (g : nat -> nat) (s : manager) : manager :=
  MkManager (mgr_sources s) (mgr_sinks s) (mgr_inputs s) (mgr_outputs s) (max_talker_stream_id s) (g
    (max_listener_stream_id s)) (mgr_clocks s) (clock_states s) (mgr_out s).
Definition upd_mgr_clocks (g : list media_clock_info_t -> list media_clock_info_t) (s : manager) : manager :=
  MkManager (mgr_sources s) (mgr_sinks s) (mgr_inputs s) (mgr_outputs s) (max_talker_stream_id s)
    (max_listener_stream_id s) (g (mgr_clocks s)) (clock_states s) (mgr_out s).
Definition upd_clock_states (g : list clock_info_t -> list clock_info_t) (s : manager) : manager :=
  MkManager (mgr_sources s) (mgr_sinks s) (mgr_inputs s) (mgr_outputs s) (max_talker_stream_id s)
    (max_listener_stream_id s) (mgr_clocks s) (g (clock_states s)) (mgr_out s).
Definition upd_mgr_out (g : list mgr_event -> list mgr_event) (s : manager) : manager :=
  MkManager (mgr_sources s) (mgr_sinks s) (mgr_inputs s) (mgr_outputs s) (max_talker_stream_id s)
    (max_listener_stream_id s) (mgr_clocks s) (clock_states s) (g (mgr_out s)).

(** The answers of SRP to a request, given all that has happened. *)
Class SrpAnswers : Type := {
  register_stream_request : list mgr_event -> avb_srp_info_t -> Z;
  register_attach_request : list mgr_event -> Z * Z -> Z -> Z;
}.

Section Manager.
Context `{cfg : Config} `{answers : SrpAnswers}.
Abbreviation GM := (M manager).

Definition tell (ev : mgr_event) : GM unit := modify (upd_mgr_out (fun l => l ++ [ev])).

Definition the_source (n : Z) : GM source_info := load (fun s => elem_at (mgr_sources s) n).
Definition put_source (n : Z) (x : source_info) : GM unit :=
  store (fun s => _ ← elem_at (mgr_sources s) n; Some (upd_mgr_sources (set_elem n x) s)).
(** Through the pointer [&sources[n]]. *)
Definition upd_source_at (n : Z) (f : source_info -> source_info) : GM unit :=
  store (fun s => x ← elem_at (mgr_sources s) n; Some (upd_mgr_sources (set_elem n (f x)) s)).
Definition the_sink (n : Z) : GM sink_info := load (fun s => elem_at (mgr_sinks s) n).
Definition put_sink (n : Z) (x : sink_info) : GM unit :=
  store (fun s => _ ← elem_at (mgr_sinks s) n; Some (upd_mgr_sinks (set_elem n x) s)).
Definition upd_sink_at (n : Z) (f : sink_info -> sink_info) : GM unit :=
  store (fun s => x ← elem_at (mgr_sinks s) n; Some (upd_mgr_sinks (set_elem n (f x)) s)).
Definition the_clock (n : Z) : GM media_clock_info_t := load (fun s => elem_at (mgr_clocks s) n).
Definition put_clock_info (n : Z) (x : media_clock_info_t) : GM unit :=
  store (fun s => _ ← elem_at (mgr_clocks s) n; Some (upd_mgr_clocks (set_elem n x) s)).

Definition set_mapped_to (v n : Z) : GM unit :=
  store (fun s => x ← elem_at (mgr_inputs s) n; Some (upd_mgr_inputs (set_elem n (upd_mapped_to (fun _ => v) x)) s)).

(** The first [num_channels] entries of a map, and the inputs they name. *)
Definition channels_of (map : list Z) (num_channels : Z) : GM (list Z) :=
  load (fun _ => if (Z.to_nat num_channels <=? length map)%nat then Some (take (Z.to_nat num_channels) map) else None).
Definition inputs_of (channels : list Z) : GM (list media_info_t) :=
  load (fun s => mapM (elem_at (mgr_inputs s)) channels).

(** * Registration *)

(** What a talker unit's source gets; the other fields stay. *)
Definition registered_source (mac_addr : list Z) (c : nat) (tile_id j : Z) (source : source_info) : source_info :=
  let m i := mac_addr !!! i in
  let t := so_stream source in
  let l := u8 j in
  let r := so_reservation source in
  MkSourceInfo
    (MkSrpInfo
       (u32 (Z.lor (Z.lor (Z.lor (Z.shiftl (m 0%nat) 24) (Z.shiftl (m 1%nat) 16)) (Z.shiftl (m 2%nat) 8)) (m 3%nat)))
       (u32 (Z.lor (Z.lor (Z.shiftl (m 4%nat) 24) (Z.shiftl (m 5%nat) 16)) (Z.land l 0xffff)))
       (dest_mac_addr r) 0 (tspec_max_frame_size r) AVB_SRP_MAX_INTERVAL_FRAMES_DEFAULT
       (Z.lor (Z.lor (Z.shiftl AVB_SRP_TSPEC_PRIORITY_DEFAULT 5) (Z.shiftl AVB_SRP_TSPEC_RANK_DEFAULT 4))
          AVB_SRP_TSPEC_RESERVED_VALUE)
       AVB_SRP_ACCUMULATED_LATENCY_DEFAULT (failure_bridge_id r) (failure_code r))
    (MkStreamInfoT 0 (u8 tile_id) l (st_num_channels t) (st_format t) (st_rate t) (st_sync t) 0)
    c AVB_DEFAULT_PRESENTATION_TIME_DELAY_NS (so_map source).

(** [units]: the tile and the number of streams each unit reports. *)
Definition register_talkers (units : list (Z * Z)) (mac_addr : list Z) : GM unit :=
  forM (imap pair units) (fun '(c, (tile_id, num_streams)) =>
    forM (seqZ 0 num_streams) (fun j =>
      k ← gets max_talker_stream_id;
      _ ← upd_source_at (Z.of_nat k) (registered_source mac_addr c tile_id j);
      modify (upd_max_talker_stream_id S))).

Definition registered_sink (c : nat) (tile_id j : Z) (sink : sink_info) : sink_info :=
  let t := si_stream sink in
  MkSinkInfo (upd_vlan_id (fun _ => 0) (si_reservation sink))
    (MkStreamInfoT 0 (u8 tile_id) (u8 j) (st_num_channels t) (st_format t) (st_rate t) (st_sync t) 0)
    c (si_map sink).

Definition register_listeners (units : list (Z * Z)) : GM unit :=
  forM (imap pair units) (fun '(c, (tile_id, num_streams)) =>
    forM (seqZ 0 num_streams) (fun j =>
      k ← gets max_listener_stream_id;
      _ ← upd_sink_at (Z.of_nat k) (registered_sink c tile_id j);
      modify (upd_max_listener_stream_id S))).

(** * Sinks *)

Definition valid_to_leave_vlan (s : manager) : bool :=
  forallb (fun sink => st_state (si_stream sink) =? 0) (mgr_sinks s) &&
  forallb (fun source => st_state (so_stream source) =? 0) (mgr_sources s).

(** With one port. *)
Definition leave_vlan_if_unused (vid : Z) : GM unit :=
  unused ← gets valid_to_leave_vlan;
  whenM ((MRP_NUM_PORTS =? 1)%nat && truthy vid && unused) (tell (LeaveVlan vid)).

Definition sink_id (sink : sink_info) : Z * Z :=
  (stream_id0 (si_reservation sink), stream_id1 (si_reservation sink)).
Definition source_stream_id (source : source_info) : Z * Z :=
  (stream_id0 (so_reservation source), stream_id1 (so_reservation source)).

Definition set_avb_sink_map (sink : sink_info) : GM unit :=
  let t := si_stream sink in
  map ← channels_of (si_map sink) (st_num_channels t);
  tell (AdjustListenerMap (listener_ctl sink) (st_local_id t) (st_sync t) map).

Definition start_sink (sink_num : Z) (sink : sink_info) : GM unit :=
  let t := si_stream sink in
  let r := si_reservation sink in
  c0 ← load (fun _ => si_map sink !! 0%nat);
  output ← load (fun s => elem_at (mgr_outputs s) c0);
  map ← channels_of (si_map sink) (st_num_channels t);
  _ ← tell (ConfigureListenerStream (listener_ctl sink) (st_local_id t) (st_sync t) (st_rate t) (st_num_channels t) map);
  _ ← tell (RegisterClock (clk_ctl output) (st_sync t));
  _ ← tell (GetRouterLink (listener_ctl sink));
  _ ← tell (AddMacaddrFilter (st_local_id t) (dest_mac_addr r));
  past ← gets mgr_out;
  _ ← tell (AttachRequest (sink_id sink) (vlan_id r));
  upd_sink_at sink_num
    (upd_si_reservation (upd_vlan_id (fun _ => s16 (register_attach_request past (sink_id sink) (vlan_id r))))).

Definition stop_sink (sink : sink_info) : GM unit :=
  let t := si_stream sink in
  let r := si_reservation sink in
  _ ← tell (DisableListenerStream (listener_ctl sink) (st_local_id t));
  _ ← tell (DelMacaddrFilter (st_local_id t) (dest_mac_addr r));
  _ ← tell (EndAttachRequest (sink_id sink));
  leave_vlan_if_unused (vlan_id r).

Definition update_sink_state (sink_num prev state : Z) : GM unit :=
  sink ← the_sink sink_num;
  if (prev =? 0) && (state =? 1) then start_sink sink_num sink
  else if negb (prev =? 0) && negb (state =? 0) then set_avb_sink_map sink
  else if negb (prev =? 0) && (state =? 0) then stop_sink sink
  else skip.

(** * Sources *)

Definition fifo_mask (channels : list Z) : Z := foldl (fun m c => Z.lor m (u32 (Z.shiftl 1 c))) 0 channels.

Definition configure_talker_stream (source : source_info) (source_num : Z) : GM unit :=
  let t := so_stream source in
  channels ← channels_of (so_map source) (st_num_channels t);
  _ ← forM channels (set_mapped_to source_num);
  tell (ConfigureTalkerStream (talker_ctl source) (st_local_id t) (st_format t)
          (take 6 (dest_mac_addr (so_reservation source))) source_num (st_num_channels t) (fifo_mask channels) channels
          (st_rate t)
          (if truthy (so_presentation source) then so_presentation source else AVB_DEFAULT_PRESENTATION_TIME_DELAY_NS)).

Definition avb_srp_calculate_max_framesize (source : source_info) : Z :=
  let samples_per_packet := (AVB_MAX_AUDIO_SAMPLE_RATE + (MANAGER_PACKET_RATE - 1)) / MANAGER_PACKET_RATE in
  AVB1722_PLUS_SIP_HEADER_SIZE + st_num_channels (so_stream source) * samples_per_packet * 4.

(** The flag [valid], from the inputs the channels are mapped to; [clk] is the clock of
    the first channel's input. *)
Definition source_valid (source : source_info) (clk : Z) (inputs : list media_info_t) : bool :=
  negb (st_num_channels (so_stream source) <=? 0) &&
  negb (vlan_id (so_reservation source) <? 0) &&
  forallb (fun i => (mapped_to i =? UNMAPPED) && (clk_ctl i =? clk)) inputs.

Definition start_source (source_num : Z) (source : source_info) : GM unit :=
  let t := so_stream source in
  c0 ← load (fun _ => so_map source !! 0%nat);
  input ← load (fun s => elem_at (mgr_inputs s) c0);
  channels ← channels_of (so_map source) (st_num_channels t);
  inputs ← inputs_of channels;
  if negb (source_valid source (clk_ctl input) inputs) then skip
  else
    _ ← configure_talker_stream source source_num;
    _ ← upd_source_at source_num
          (upd_so_reservation (upd_tspec_max_frame_size (fun _ => s16 (avb_srp_calculate_max_framesize source))));
    source ← the_source source_num;
    past ← gets mgr_out;
    _ ← tell (StreamRequest (so_reservation source));
    let vlan := s16 (register_stream_request past (so_reservation source)) in
    _ ← upd_source_at source_num (upd_so_reservation (upd_vlan_id (fun _ => vlan)));
    _ ← tell (SetTalkerVlan (talker_ctl source) (st_local_id t) vlan);
    tell (RegisterClock (clk_ctl input) (st_sync t)).

Definition stop_source (source : source_info) : GM unit :=
  let t := so_stream source in
  channels ← channels_of (so_map source) (st_num_channels t);
  _ ← forM channels (set_mapped_to UNMAPPED);
  _ ← tell (TalkerStop (talker_ctl source) (st_local_id t));
  _ ← leave_vlan_if_unused (vlan_id (so_reservation source));
  tell (EndStreamRequest (source_stream_id source)).

Definition update_source_state (source_num prev state : Z) : GM unit :=
  source ← the_source source_num;
  let c := talker_ctl source in
  let l := st_local_id (so_stream source) in
  if (prev =? 0) && (state =? 1) then start_source source_num source
  else if (prev =? 2) && (state =? 1) then tell (TalkerStop c l)
  else if (prev =? 1) && (state =? 2) then
    _ ← configure_talker_stream source source_num; tell (TalkerGo c l)
  else if negb (prev =? 0) && (state =? 0) then stop_source source
  else skip.

(** * The server *)

Definition on_recovery {A} (m : M (list clock_info_t) A) : GM A := fun s =>
  match m (clock_states s) with
  | Some (a, l) => Some (a, upd_clock_states (fun _ => l) s)
  | None => None
  end.

(** [set_clock_info] of [media_clock_server.xc]. *)
Definition set_clock_info (clock_num : Z) (info : media_clock_info_t) : GM unit :=
  old ← the_clock clock_num;
  _ ← put_clock_info clock_num info;
  whenM (negb (mc_active old) && mc_active info)
    (on_recovery (init_media_clock_recovery (Z.to_nat clock_num) (u32 (mc_rate info)))).

Definition serve_set_source_info (source_num : Z) (info : source_info) : GM unit :=
  old ← the_source source_num;
  _ ← put_source source_num info;
  update_source_state source_num (st_state (so_stream old)) (st_state (so_stream info)).

Definition serve_set_sink_info (sink_num : Z) (info : sink_info) : GM unit :=
  old ← the_sink sink_num;
  _ ← put_sink sink_num info;
  update_sink_state sink_num (st_state (si_stream old)) (st_state (si_stream info)).

Definition serve_set_media_clock_info (clock_num : Z) (info : media_clock_info_t) : GM unit :=
  old ← the_clock clock_num;
  _ ← whenM (negb (mc_rate old =? mc_rate info)) (tell (SetSamplingRate (mc_rate info)));
  set_clock_info clock_num info.

#[global] Instance avb_manager : avb_interface manager := {
  _get_source_info := the_source;
  _set_source_info := serve_set_source_info;
  _get_sink_info := the_sink;
  _set_sink_info := serve_set_sink_info;
  _get_media_clock_info := the_clock;
  _set_media_clock_info := serve_set_media_clock_info;
}.
End Manager.
