(* ===== verification/AvbManagerSpec.v ===== *)
(** What the AVB manager does: it keeps the laws of its interface, and no talker
    transmits unless its source is enabled. *)
From S2P Require Import Prelude MrpTypes MediaClock AvbApi AvbManager.
From stdpp Require Import base list list_numbers numbers option.
From Stdlib Require Import ZArith Lia.
#[local] Open Scope Z_scope.

(** * The laws of the interface *)

Section Laws.
Context `{cfg : Config} `{answers : SrpAnswers}.

Lemma the_source_run s n source : elem_at (mgr_sources s) n = Some source -> the_source n s = Some (source, s).
Proof. intros H. unfold the_source, load. by rewrite H. Qed.
Lemma the_sink_run s n sink : elem_at (mgr_sinks s) n = Some sink -> the_sink n s = Some (sink, s).
Proof. intros H. unfold the_sink, load. by rewrite H. Qed.
Lemma the_clock_run s n clock : elem_at (mgr_clocks s) n = Some clock -> the_clock n s = Some (clock, s).
Proof. intros H. unfold the_clock, load. by rewrite H. Qed.
Lemma put_source_run s n old new :
  elem_at (mgr_sources s) n = Some old -> put_source n new s = Some (tt, upd_mgr_sources (set_elem n new) s).
Proof. intros H. unfold put_source, store. by rewrite H. Qed.
Lemma put_sink_run s n old new :
  elem_at (mgr_sinks s) n = Some old -> put_sink n new s = Some (tt, upd_mgr_sinks (set_elem n new) s).
Proof. intros H. unfold put_sink, store. by rewrite H. Qed.
Lemma put_clock_info_run s n old new :
  elem_at (mgr_clocks s) n = Some old -> put_clock_info n new s = Some (tt, upd_mgr_clocks (set_elem n new) s).
Proof. intros H. unfold put_clock_info, store. by rewrite H. Qed.

Lemma serve_set_source_quiet s n old new :
  elem_at (mgr_sources s) n = Some old -> st_state (so_stream new) = st_state (so_stream old) ->
  serve_set_source_info n new s = Some (tt, upd_mgr_sources (set_elem n new) s).
Proof.
  intros Hs Hst. unfold serve_set_source_info. erewrite M_bind_run by (by apply the_source_run).
  erewrite M_bind_run by (by eapply put_source_run). unfold update_source_state.
  erewrite M_bind_run by (apply the_source_run; cbn; by eapply elem_at_set). rewrite Hst.
  generalize (st_state (so_stream old)). intros p.
  destruct (Z.eqb_spec p 0), (Z.eqb_spec p 1), (Z.eqb_spec p 2); subst; done.
Qed.

Lemma serve_set_sink_quiet s n old new :
  elem_at (mgr_sinks s) n = Some old -> st_state (si_stream old) = 0 -> st_state (si_stream new) = 0 ->
  serve_set_sink_info n new s = Some (tt, upd_mgr_sinks (set_elem n new) s).
Proof.
  intros Hs H0 H1. unfold serve_set_sink_info. erewrite M_bind_run by (by apply the_sink_run).
  erewrite M_bind_run by (by eapply put_sink_run). unfold update_sink_state.
  erewrite M_bind_run by (apply the_sink_run; cbn; by eapply elem_at_set). by rewrite H0, H1.
Qed.

Lemma serve_set_clock_quiet s n old new :
  elem_at (mgr_clocks s) n = Some old -> (mc_active new = true -> mc_active old = true) ->
  exists out, serve_set_media_clock_info n new s =
    Some (tt, upd_mgr_clocks (set_elem n new) (upd_mgr_out (fun _ => out) s)).
Proof.
  intros Hs Ha. unfold serve_set_media_clock_info. erewrite M_bind_run by (by apply the_clock_run).
  assert (exists out, whenM (negb (mc_rate old =? mc_rate new)) (tell (SetSamplingRate (mc_rate new))) s =
    Some (tt, upd_mgr_out (fun _ => out) s)) as [out E].
  { destruct (negb _); [by eexists|]. exists (mgr_out s). by destruct s. }
  exists out. erewrite M_bind_run by exact E. unfold set_clock_info.
  erewrite M_bind_run by (by apply the_clock_run). erewrite M_bind_run by (by eapply put_clock_info_run).
  destruct (mc_active old), (mc_active new); try done. by specialize (Ha eq_refl).
Qed.

#[global] Instance avb_manager_laws : AvbInterfaceLaws manager.
Proof.
  refine {| sources_of := mgr_sources; sinks_of := mgr_sinks; clocks_of := mgr_clocks |}.
  - exact the_source_run.
  - exact the_sink_run.
  - exact the_clock_run.
  - intros s n old new Hs Hst. eexists. split; [by eapply serve_set_source_quiet|done].
  - intros s n old new Hs H0 H1. eexists. split; [by eapply serve_set_sink_quiet|done].
  - intros s n old new Hs Ha. destruct (serve_set_clock_quiet s n old new Hs Ha) as [out E]. by eexists.
Defined.
End Laws.

(** * Calls and reachable states *)

(** What the clients of the interface ask for. *)
Inductive api_call : Type :=
| SetSourceFormat (n format rate : Z)
| SetSourceChannels (n channels : Z)
| SetSourceSync (n sync : Z)
| SetSourcePresentation (n presentation : Z)
| SetSourceVlan (n vlan : Z)
| SetSourceState (n : Z) (state : avb_source_state_t)
| SetSourceMap (n : Z) (map : list Z)
| SetSourceDest (n : Z) (addr : list Z)
| SetSinkId (n : Z) (id : Z * Z)
| SetSinkFormat (n format rate : Z)
| SetSinkChannels (n channels : Z)
| SetSinkSync (n sync : Z)
| SetSinkVlan (n vlan : Z)
| SetSinkAddr (n : Z) (addr : list Z)
| SetSinkState (n : Z) (state : avb_sink_state_t)
| SetSinkMap (n : Z) (map : list Z)
| SetClockRate (n rate : Z)
| SetClockState (n : Z) (enabled : bool)
| SetClockSource (n source : Z)
| SetClockType (n clock_type : Z).

Section Reach.
Context `{cfg : Config} `{answers : SrpAnswers}.

Definition api_do (c : api_call) : M manager bool :=
  match c with
  | SetSourceFormat n f r => set_source_format n f r
  | SetSourceChannels n c => set_source_channels n c
  | SetSourceSync n c => set_source_sync n c
  | SetSourcePresentation n p => set_source_presentation n p
  | SetSourceVlan n v => set_source_vlan n v
  | SetSourceState n st => set_source_state n st
  | SetSourceMap n m => set_source_map n m
  | SetSourceDest n a => set_source_dest n a
  | SetSinkId n id => set_sink_id n id
  | SetSinkFormat n f r => set_sink_format n f r
  | SetSinkChannels n c => set_sink_channels n c
  | SetSinkSync n c => set_sink_sync n c
  | SetSinkVlan n v => set_sink_vlan n v
  | SetSinkAddr n a => set_sink_addr n a
  | SetSinkState n st => set_sink_state n st
  | SetSinkMap n m => set_sink_map n m
  | SetClockRate n r => set_device_media_clock_rate n r
  | SetClockState n e => set_device_media_clock_state n e
  | SetClockSource n s => set_device_media_clock_source n s
  | SetClockType n t => set_device_media_clock_type n t
  end.

(** ** The start *)

Definition zero_reservation : avb_srp_info_t :=
  MkSrpInfo 0 0 (replicate 6 0) 0 0 0 0 0 (replicate 8 0) 0.
Definition zero_stream : avb_stream_info_t := MkStreamInfoT 0 0 0 0 0 0 0 0.
Definition zero_source : source_info :=
  MkSourceInfo zero_reservation zero_stream 0 0 (replicate AVB_MAX_CHANNELS_PER_TALKER_STREAM 0).
Definition zero_sink : sink_info :=
  MkSinkInfo zero_reservation zero_stream 0 (replicate AVB_MAX_CHANNELS_PER_LISTENER_STREAM 0).

(** The static data, with the media the media units have registered. *)
Definition manager_static (inputs outputs : list media_info_t) (clocks : list media_clock_info_t)
    (states : list clock_info_t) : manager :=
  MkManager (replicate AVB_NUM_SOURCES zero_source) (replicate AVB_NUM_SINKS zero_sink) inputs outputs 0 0
    clocks states [].

(** [avb_init]. *)
Definition avb_init (talkers listeners : list (Z * Z)) (mac_addr : list Z) : M manager unit :=
  _ ← register_talkers talkers mac_addr; register_listeners listeners.

(** The units fill the arrays: their streams add up, and none has more than 256. *)
Definition units_fill (units : list (Z * Z)) (total : nat) : Prop :=
  Forall (fun '(_, n) => 0 <= n <= 256) units /\
  foldr Z.add 0 (snd <$> units) = Z.of_nat total.

Inductive manager_reachable : manager -> Prop :=
| manager_starts inputs outputs clocks states talkers listeners mac_addr s :
    units_fill talkers AVB_NUM_SOURCES ->
    avb_init talkers listeners mac_addr (manager_static inputs outputs clocks states) = Some (tt, s) ->
    manager_reachable s
| manager_serves s c b s' :
    manager_reachable s -> api_do c s = Some (b, s') -> manager_reachable s'.
End Reach.

(** * Transmission *)

Definition stream_key (source : source_info) : nat * Z := (talker_ctl source, st_local_id (so_stream source)).
Definition source_state (source : source_info) : Z := st_state (so_stream source).

(** Whether the talker of stream [k] has been told to go, and not to stop since. *)
Definition transmits (k : nat * Z) (sent : bool) (ev : mgr_event) : bool :=
  match ev with
  | TalkerGo c l => if decide ((c, l) = k) then true else sent
  | TalkerStop c l => if decide ((c, l) = k) then false else sent
  | _ => sent
  end.
Definition transmitting (k : nat * Z) (events : list mgr_event) : bool := foldl (transmits k) false events.

Lemma transmitting_snoc k events ev : transmitting k (events ++ [ev]) = transmits k (transmitting k events) ev.
Proof. unfold transmitting. by rewrite foldl_app. Qed.

(** Steps that start and stop no talker and keep the states of the sources. *)
Definition quiet (s s' : manager) : Prop :=
  stream_key <$> mgr_sources s' = stream_key <$> mgr_sources s /\
  source_state <$> mgr_sources s' = source_state <$> mgr_sources s /\
  forall k, transmitting k (mgr_out s') = transmitting k (mgr_out s).

#[global] Instance quiet_preorder : PreOrder quiet.
Proof.
  split; [done|]. intros s1 s2 s3 (K1 & S1 & T1) (K2 & S2 & T2). split_and!; [congruence|congruence|].
  intros k. by rewrite T2, T1.
Qed.

Lemma set_elem_same {A B} (g : A -> B) (l : list A) n x y :
  elem_at l n = Some x -> g y = g x -> g <$> set_elem n y l = g <$> l.
Proof.
  intros [_ H]%elem_at_lookup E. unfold set_elem. rewrite list_fmap_insert, E.
  apply list_insert_id. by rewrite list_lookup_fmap, H.
Qed.

Section Transmission.
Context `{cfg : Config} `{answers : SrpAnswers}.
Implicit Types s : manager.

Lemma tell_quiet ev :
  (forall k b, transmits k b ev = b) -> keeps quiet (tell ev).
Proof. intros H. apply keeps_modify. intros s. split_and!; try done. intros k. unfold upd_mgr_out. cbn [mgr_out]. by rewrite transmitting_snoc, H. Qed.

Lemma upd_source_at_quiet n f :
  (forall x, stream_key (f x) = stream_key x /\ source_state (f x) = source_state x) ->
  keeps quiet (upd_source_at n f).
Proof.
  intros Hf. apply keeps_store. intros s s' H. destruct (elem_at (mgr_sources s) n) as [x|] eqn:E; [|done].
  cbn in H. simplify_eq. destruct (Hf x). split_and!; [| |done]; cbn; by eapply set_elem_same.
Qed.

Lemma upd_sink_at_quiet n f : keeps quiet (upd_sink_at n f).
Proof. apply keeps_store. intros s s' H. destruct (elem_at (mgr_sinks s) n); [|done]. cbn in H. by simplify_eq. Qed.
Lemma put_sink_quiet n x : keeps quiet (put_sink n x).
Proof. apply keeps_store. intros s s' H. destruct (elem_at (mgr_sinks s) n); [|done]. cbn in H. by simplify_eq. Qed.
Lemma put_clock_info_quiet n x : keeps quiet (put_clock_info n x).
Proof. apply keeps_store. intros s s' H. destruct (elem_at (mgr_clocks s) n); [|done]. cbn in H. by simplify_eq. Qed.
Lemma set_mapped_to_quiet v n : keeps quiet (set_mapped_to v n).
Proof. apply keeps_store. intros s s' H. destruct (elem_at (mgr_inputs s) n); [|done]. cbn in H. by simplify_eq. Qed.
Lemma on_recovery_quiet {A} (m : M (list clock_info_t) A) : keeps quiet (on_recovery m).
Proof. intros s a s' H. unfold on_recovery in H. destruct (m _) as [[]|]; [|done]. by simplify_eq. Qed.

Hint Resolve tell_quiet upd_source_at_quiet upd_sink_at_quiet put_sink_quiet put_clock_info_quiet
  set_mapped_to_quiet on_recovery_quiet : keeps.

Lemma configure_talker_stream_quiet source n : keeps quiet (configure_talker_stream source n).
Proof. unfold configure_talker_stream, channels_of. keeps_auto. Qed.
Hint Resolve configure_talker_stream_quiet : keeps.

Lemma leave_vlan_if_unused_quiet vid : keeps quiet (leave_vlan_if_unused vid).
Proof. unfold leave_vlan_if_unused. keeps_auto. Qed.
Hint Resolve leave_vlan_if_unused_quiet : keeps.

Lemma start_source_quiet n source : keeps quiet (start_source n source).
Proof. unfold start_source, channels_of, inputs_of, the_source. keeps_auto. Qed.

Lemma update_sink_state_quiet n p q : keeps quiet (update_sink_state n p q).
Proof.
  unfold update_sink_state, start_sink, stop_sink, set_avb_sink_map, the_sink, channels_of. keeps_auto.
Qed.

Lemma serve_set_sink_quiet_all n x : keeps quiet (serve_set_sink_info n x).
Proof. pose proof update_sink_state_quiet. unfold serve_set_sink_info, the_sink. keeps_auto. Qed.

Lemma serve_set_clock_quiet_all n x : keeps quiet (serve_set_media_clock_info n x).
Proof. unfold serve_set_media_clock_info, set_clock_info, the_clock. keeps_auto. Qed.

(** ** The invariant *)

Record tx_inv (s : manager) : Prop := {
  tx_keys : NoDup (stream_key <$> mgr_sources s);
  tx_enabled : forall i source, mgr_sources s !! i = Some source ->
    transmitting (stream_key source) (mgr_out s) = true -> source_state source = 2;
}.

Lemma quiet_inv s s' : quiet s s' -> tx_inv s -> tx_inv s'.
Proof.
  intros (K & St & T) [H1 H2]. split; [by rewrite K|]. intros i source' Hi Ht.
  assert (source_state <$> (mgr_sources s !! i) = Some (source_state source')) as E1
    by (by rewrite <- list_lookup_fmap, <- St, list_lookup_fmap, Hi).
  assert (stream_key <$> (mgr_sources s !! i) = Some (stream_key source')) as E2
    by (by rewrite <- list_lookup_fmap, <- K, list_lookup_fmap, Hi).
  destruct (mgr_sources s !! i) as [source|] eqn:E; [|done]. cbn in E1, E2.
  assert (source_state source = source_state source') as <- by congruence.
  apply (H2 i source E). rewrite T in Ht. congruence.
Qed.

(** The talkers' commands of an update, seen from the states: the source's own talker is
    stopped or left alone unless the source gets enabled; other talkers are left alone. *)
Definition updated (k : nat * Z) (q : Z) (s s' : manager) : Prop :=
  stream_key <$> mgr_sources s' = stream_key <$> mgr_sources s /\
  source_state <$> mgr_sources s' = source_state <$> mgr_sources s /\
  (forall k', k' <> k -> transmitting k' (mgr_out s') = transmitting k' (mgr_out s)) /\
  (q <> 2 -> transmitting k (mgr_out s') = true -> False).

Lemma quiet_updated k q s s' :
  quiet s s' -> (q <> 2 -> transmitting k (mgr_out s) = true -> False) -> updated k q s s'.
Proof. intros (K & St & T) H. split_and!; [done|done|by intros; apply T|]. intros Hq. rewrite T. by apply H. Qed.

Lemma transmits_other k c l sent ev :
  k <> (c, l) -> ev = TalkerGo c l \/ ev = TalkerStop c l -> transmits k sent ev = sent.
Proof. intros Hk [-> | ->]; cbn; destruct (decide _); congruence. Qed.

Lemma tell_updated source ev q s s' :
  let c := talker_ctl source in let l := st_local_id (so_stream source) in
  ev = TalkerGo c l /\ q = 2 \/ ev = TalkerStop c l ->
  tell ev s = Some (tt, s') -> updated (stream_key source) q s s'.
Proof.
  intros c l Hev [= <-]. unfold updated, upd_mgr_out. cbn [mgr_sources mgr_out]. split_and!; [done|done| |].
  - intros k Hk. rewrite transmitting_snoc. apply (transmits_other k c l); [done|naive_solver].
  - intros Hq. rewrite transmitting_snoc. destruct Hev as [[_ ?]| ->]; [done|]. cbn. by rewrite decide_True.
Qed.

Lemma quiet_then_updated k q s s1 s2 : quiet s s1 -> updated k q s1 s2 -> updated k q s s2.
Proof.
  intros (K & St & T) (K2 & S2 & T2 & O2). split_and!; [congruence|congruence| |done].
  intros k' Hk. by rewrite T2, T.
Qed.
Lemma updated_then_quiet k q s s1 s2 : updated k q s s1 -> quiet s1 s2 -> updated k q s s2.
Proof.
  intros (K2 & S2 & T2 & O2) (K & St & T). split_and!; [congruence|congruence| |].
  - intros k' Hk. by rewrite T, T2.
  - intros Hq. rewrite T. by apply O2.
Qed.

Lemma stop_source_updated source q s u s' :
  stop_source source s = Some (u, s') -> updated (stream_key source) q s s'.
Proof.
  unfold stop_source, channels_of. intros H.
  apply M_bind_Some in H as (channels & s1 & E1 & H). apply M_bind_Some in H as ([] & s2 & E2 & H).
  apply M_bind_Some in H as ([] & s3 & E3 & H).
  apply quiet_then_updated with s1; [by eapply (keeps_load quiet); exact E1|].
  apply quiet_then_updated with s2; [eapply (keeps_forM quiet); [|exact E2]; apply set_mapped_to_quiet|].
  apply updated_then_quiet with s3; [by eapply tell_updated; [right|exact E3]|].
  revert H. assert (keeps quiet (_ ← leave_vlan_if_unused (vlan_id (so_reservation source));
    tell (EndStreamRequest (source_stream_id source)))) as K by keeps_auto. by apply K.
Qed.

Lemma update_source_state_updated n p q s source u s' :
  elem_at (mgr_sources s) n = Some source ->
  (p <> 2 -> transmitting (stream_key source) (mgr_out s) = true -> False) -> (p = q \/ 0 <= q <= 2) ->
  update_source_state n p q s = Some (u, s') -> updated (stream_key source) q s s'.
Proof.
  intros Hs Hp Hq. unfold update_source_state. erewrite M_bind_run by (by apply the_source_run). cbv zeta.
  assert (forall m : M manager unit, keeps quiet m -> p <> 2 -> m s = Some (u, s') ->
    updated (stream_key source) q s s') as Hquiet.
  { intros m Hm Hp2 H. apply quiet_updated; [by eapply Hm|intros _; by apply Hp]. }
  assert (p = 2 -> q = 2 -> skip s = Some (u, s') -> updated (stream_key source) q s s') as Hskip.
  { intros _ Hq2 H. apply quiet_updated; [by eapply (keeps_skip quiet)|done]. }
  assert (keeps quiet (@skip manager)) as Kskip by apply keeps_skip, _.
  destruct (Z.eqb_spec p 0), (Z.eqb_spec q 1), (Z.eqb_spec p 2), (Z.eqb_spec p 1), (Z.eqb_spec q 2), (Z.eqb_spec q 0);
    cbn [andb negb]; try lia; intros H;
    try (by apply (Hquiet _ (start_source_quiet n source))); try (by apply (Hquiet _ Kskip)); try (by apply Hskip);
    try (by eapply stop_source_updated); try (destruct u; by eapply tell_updated; [right|exact H]).
  apply M_bind_Some in H as ([] & s1 & E1 & H). destruct u.
  apply quiet_then_updated with s1; [by eapply configure_talker_stream_quiet|].
  eapply tell_updated; [by left|exact H].
Qed.

Lemma updated_inv n new s s1 s' :
  tx_inv s -> s1 = upd_mgr_sources (set_elem n new) s ->
  (exists old, elem_at (mgr_sources s) n = Some old /\ stream_key new = stream_key old) ->
  updated (stream_key new) (source_state new) s1 s' -> tx_inv s'.
Proof.
  intros [H1 H2] -> (old & Ho & Hk) (K & St & T & O).
  assert (stream_key <$> set_elem n new (mgr_sources s) = stream_key <$> mgr_sources s) as K1 by (by eapply set_elem_same).
  cbn [upd_mgr_sources mgr_sources mgr_out] in *. split; [by rewrite K, K1|]. intros i source Hi Ht.
  assert (stream_key <$> (set_elem n new (mgr_sources s) !! i) = Some (stream_key source)) as E1
    by (by rewrite <- list_lookup_fmap, <- K, list_lookup_fmap, Hi).
  assert (source_state <$> (set_elem n new (mgr_sources s) !! i) = Some (source_state source)) as E2
    by (by rewrite <- list_lookup_fmap, <- St, list_lookup_fmap, Hi).
  destruct (set_elem n new (mgr_sources s) !! i) as [x|] eqn:E; [|done]. cbn in E1, E2.
  apply (inj Some) in E1. apply (inj Some) in E2. rewrite <- E2. apply elem_at_lookup in Ho as [Hn Ho].
  destruct (decide (i = Z.to_nat n)) as [->|Hne].
  - unfold set_elem in E. rewrite list_lookup_insert_eq in E by (by eapply lookup_lt_Some). injection E as <-.
    destruct (decide (source_state new = 2)); [done|]. exfalso. apply O; [done|congruence].
  - unfold set_elem in E. rewrite list_lookup_insert_ne in E by done. apply (H2 i x E). rewrite <- T; [congruence|].
    intros Heq. apply Hne. eapply (NoDup_lookup (stream_key <$> mgr_sources s)); [done| |];
      rewrite list_lookup_fmap; [by rewrite E|]. rewrite Ho. cbn. congruence.
Qed.

Lemma serve_set_source_inv n old new s u s' :
  tx_inv s -> elem_at (mgr_sources s) n = Some old -> stream_key new = stream_key old ->
  source_state new = source_state old \/ 0 <= source_state new <= 2 ->
  serve_set_source_info n new s = Some (u, s') -> tx_inv s'.
Proof.
  intros Hinv Hs Hk Hst. unfold serve_set_source_info. erewrite M_bind_run by (by apply the_source_run).
  erewrite M_bind_run by (by eapply put_source_run). intros H.
  eapply updated_inv; [exact Hinv|reflexivity|by exists old|].
  eapply update_source_state_updated; [| | |exact H].
  - cbn. by eapply elem_at_set.
  - intros Hp Ht. apply Hp. apply elem_at_lookup in Hs as [_ Hs].
    apply (tx_enabled s Hinv (Z.to_nat n) old Hs). by rewrite <- Hk.
  - destruct Hst as [Hst|Hst]; [left; by symmetry|by right].
Qed.

(** ** Calls *)

Lemma set_source_inv f n s b s' :
  (forall x y, f x = Some y -> stream_key y = stream_key x /\
    (source_state y = source_state x \/ 0 <= source_state y <= 2)) ->
  tx_inv s -> set_source_with f n s = Some (b, s') -> tx_inv s'.
Proof.
  intros Hf Hinv. unfold set_source_with. destruct (_ <=? n); [by intros [= _ <-]|]. cbn [_get_source_info avb_manager].
  intros H. apply M_bind_Some in H as (source & s1 & E1 & H).
  unfold the_source, load in E1. destruct (elem_at (mgr_sources s) n) as [x|] eqn:Ex; [|done].
  injection E1 as -> ->. destruct (f source) as [y|] eqn:Ey; [|by injection H as _ <-].
  apply M_bind_Some in H as (u & s2 & E2 & H). injection H as _ <-. destruct (Hf _ _ Ey) as [Hk Hst].
  by eapply serve_set_source_inv.
Qed.

Lemma set_source_disabled_inv f n s b s' :
  (forall x y, f x = Some y -> stream_key y = stream_key x /\ source_state y = source_state x) ->
  tx_inv s -> set_source_with (source_if_disabled f) n s = Some (b, s') -> tx_inv s'.
Proof.
  intros Hf. apply set_source_inv. intros x y. unfold source_if_disabled. destruct (_ =? 0); [|done].
  intros H. destruct (Hf x y H). auto.
Qed.

Lemma set_sink_keeps f n : keeps quiet (set_sink_with f n).
Proof.
  unfold set_sink_with. pose proof serve_set_sink_quiet_all. cbn [_get_sink_info _set_sink_info avb_manager].
  unfold the_sink. keeps_auto.
Qed.

Lemma set_clock_keeps f n : keeps quiet (set_clock_with f n).
Proof.
  unfold set_clock_with. pose proof serve_set_clock_quiet_all.
  cbn [_get_media_clock_info _set_media_clock_info avb_manager]. unfold the_clock. keeps_auto.
Qed.

Lemma api_do_inv c s b s' : tx_inv s -> api_do c s = Some (b, s') -> tx_inv s'.
Proof.
  intros Hinv H. destruct c; cbn [api_do] in H;
    try (by eapply quiet_inv; [eapply set_sink_keeps; exact H|]);
    try (by eapply quiet_inv; [eapply set_clock_keeps; exact H|]);
    try (by eapply set_source_disabled_inv; [|exact Hinv|exact H]; cbn; intros x y [= <-]).
  - eapply set_source_inv; [|exact Hinv|exact H]. cbn. intros x y [= <-]. auto.
  - eapply set_source_inv; [|exact Hinv|exact H]. cbn. intros x y [= <-]. split; [done|right].
    by destruct state.
  - eapply set_source_disabled_inv; [|exact Hinv|exact H]. cbv beta. intros x y. case_match; by intros [= <-].
  - eapply set_source_disabled_inv; [|exact Hinv|exact H]. cbv beta. intros x y. case_match; by intros [= <-].
Qed.

(** ** Registration *)

Fixpoint unit_streams (c : nat) (units : list (Z * Z)) : list (nat * (Z * Z)) :=
  match units with
  | [] => []
  | (tile_id, n) :: units => ((fun j => (c, (tile_id, j))) <$> seqZ 0 n) ++ unit_streams (S c) units
  end.

Definition register_one (mac_addr : list Z) (x : nat * (Z * Z)) : M manager unit :=
  k ← gets max_talker_stream_id;
  _ ← upd_source_at (Z.of_nat k) (registered_source mac_addr x.1 x.2.1 x.2.2);
  modify (upd_max_talker_stream_id S).

Lemma register_talkers_flat units mac s :
  register_talkers units mac s = forM (unit_streams 0 units) (register_one mac) s.
Proof.
  unfold register_talkers. change (imap pair units) with (imap (fun i (x : Z * Z) => ((0 + i)%nat, x)) units).
  generalize 0%nat. revert s. induction units as [|[tile n] units IH]; intros s c; [done|].
  cbn [imap forM unit_streams]. rewrite forM_app, Nat.add_0_r. unfold mbind, M_bind.
  rewrite (forM_fmap (fun j => (c, (tile, j)))).
  change (forM (seqZ 0 n) (fun x => register_one mac (c, (tile, x)))) with (forM (seqZ 0 n) (fun j =>
    k ← gets max_talker_stream_id;
    _ ← upd_source_at (Z.of_nat k) (registered_source mac c tile j); modify (upd_max_talker_stream_id S))).
  unfold mbind, M_bind. destruct (forM (seqZ 0 n) _ s) as [[]|]; [|done].
  rewrite <- IH. f_equal. apply imap_ext. intros i x Hi. cbn. f_equal. lia.
Qed.

Definition key_of (x : nat * (Z * Z)) : nat * Z := (x.1, u8 x.2.2).

Lemma register_list mac l s u s' :
  forM l (register_one mac) s = Some (u, s') ->
  Forall (fun x => source_state x = 0) (mgr_sources s) ->
  mgr_out s' = mgr_out s /\ length (mgr_sources s') = length (mgr_sources s) /\
  Forall (fun x => source_state x = 0) (mgr_sources s') /\
  take (max_talker_stream_id s + length l) (stream_key <$> mgr_sources s') =
    take (max_talker_stream_id s) (stream_key <$> mgr_sources s) ++ (key_of <$> l).
Proof.
  revert s. induction l as [|x l IH]; intros s H Hst.
  { injection H as _ <-. rewrite Nat.add_0_r, app_nil_r. done. }
  cbn [forM] in H. apply M_bind_Some in H as ([] & s1 & E1 & H).
  unfold register_one in E1. rewrite (M_bind_run _ _ s (max_talker_stream_id s) s eq_refl) in E1.
  apply M_bind_Some in E1 as ([] & s0 & E0 & E1). injection E1 as <-.
  unfold upd_source_at, store in E0. destruct (elem_at (mgr_sources s) _) as [old|] eqn:Eo; [|done].
  cbn in E0. injection E0 as <-. apply elem_at_lookup in Eo as [_ Eo]. rewrite Nat2Z.id in Eo.
  set (new := registered_source mac x.1 x.2.1 x.2.2 old) in *.
  destruct (IH _ H) as (I1 & I2 & I3 & I4).
  { cbn. apply Forall_insert; [done|by cbn]. }
  cbn [upd_max_talker_stream_id upd_mgr_sources mgr_sources mgr_out max_talker_stream_id] in *.
  unfold set_elem in *. rewrite Nat2Z.id in *. rewrite length_insert in I2. split_and!; [done|done|done|].
  cbn [length]. replace (max_talker_stream_id s + S (length l))%nat with (S (max_talker_stream_id s) + length l)%nat by lia.
  rewrite I4, fmap_cons, list_fmap_insert.
  assert (max_talker_stream_id s < length (stream_key <$> mgr_sources s))%nat
    by (rewrite length_fmap; by eapply lookup_lt_Some).
  rewrite (take_S_r _ _ (stream_key new)) by (by apply list_lookup_insert_eq).
  rewrite take_insert_ge by lia. by rewrite <- app_assoc.
Qed.

Lemma unit_streams_length c units :
  Forall (fun '(_, n) => 0 <= n <= 256) units ->
  Z.of_nat (length (unit_streams c units)) = foldr Z.add 0 (snd <$> units).
Proof.
  revert c. induction units as [|[tile n] units IH]; intros c H; [done|]. apply list.Forall_cons in H as [H1 H2].
  cbn [unit_streams fmap list_fmap foldr snd]. rewrite length_app, length_fmap, length_seqZ, Nat2Z.inj_add, IH by done.
  lia.
Qed.

Lemma unit_streams_keys c units :
  Forall (fun '(_, n) => 0 <= n <= 256) units ->
  NoDup (key_of <$> unit_streams c units) /\ Forall (fun k => (c <= k.1)%nat) (key_of <$> unit_streams c units).
Proof.
  revert c. induction units as [|[tile n] units IH]; intros c H; [split; constructor|].
  apply list.Forall_cons in H as [H1 H2]. destruct (IH (S c) H2) as [I1 I2]. cbn [unit_streams].
  rewrite fmap_app, <- list_fmap_compose. split.
  - apply list.NoDup_app. split_and!; [|intros k Hk1 Hk2|done].
    + apply NoDup_fmap_2_strong; [|apply NoDup_seqZ]. intros i j Hi Hj. rewrite elem_of_seqZ in Hi, Hj.
      unfold key_of. cbn. intros [= E]. rewrite !u8_small in E by lia. done.
    + apply list_elem_of_fmap in Hk1 as (j & -> & _). rewrite list.Forall_forall in I2.
      specialize (I2 _ Hk2). cbn in I2. lia.
  - apply Forall_app. split; [apply Forall_fmap, list.Forall_forall; intros j _; cbn; lia|].
    eapply list.Forall_impl; [exact I2|]. intros k. cbn. lia.
Qed.

Lemma register_listeners_quiet units : keeps quiet (register_listeners units).
Proof.
  unfold register_listeners. apply keeps_forM; [apply _|]. intros [c [tile n]]. apply keeps_forM; [apply _|]. intros j.
  pose proof upd_sink_at_quiet. keeps_step; [apply _|eauto with keeps|]. keeps_step; [apply _|eauto with keeps|].
  by apply keeps_modify.
Qed.

Lemma avb_init_inv inputs outputs clocks states talkers listeners mac s u :
  units_fill talkers AVB_NUM_SOURCES ->
  avb_init talkers listeners mac (manager_static inputs outputs clocks states) = Some (u, s) -> tx_inv s.
Proof.
  intros [H1 H2] H. apply M_bind_Some in H as ([] & s1 & E1 & H). apply register_listeners_quiet in H.
  apply (quiet_inv _ _ H). rewrite register_talkers_flat in E1. apply register_list in E1; [|by apply Forall_replicate].
  destruct E1 as (Hout & Hlen & _ & Hk). cbn in Hlen, Hk, Hout.
  pose proof (unit_streams_length 0 talkers H1) as Hl. rewrite H2 in Hl. apply Nat2Z.inj in Hl.
  rewrite length_replicate in Hlen. rewrite take_0, take_ge in Hk by (rewrite length_fmap; lia).
  split; [rewrite Hk; by apply unit_streams_keys|]. intros i source _. by rewrite Hout.
Qed.

Lemma reachable_tx_inv s : manager_reachable s -> tx_inv s.
Proof. induction 1; [by eapply avb_init_inv|by eapply api_do_inv]. Qed.

(** C38: Whatever the clients of the manager have asked for, a talker is only told to
    transmit a stream - and not told to stop again - while the source of the stream is
    in the state enabled. *)
Theorem only_enabled_sources_transmit s i source :
  manager_reachable s -> mgr_sources s !! i = Some source ->
  transmitting (stream_key source) (mgr_out s) = true ->
  st_state (so_stream source) = source_state_c AVB_SOURCE_STATE_ENABLED.
Proof. intros H. by apply (tx_enabled s (reachable_tx_inv s H) i). Qed.
End Transmission.

(** ** Runs *)

Section Runs.
Context `{cfg : Config} `{answers : SrpAnswers}.

Definition api_run (calls : list api_call) : M manager unit := forM calls (fun c => _ ← api_do c; skip).

Lemma api_run_reachable calls s u s' : manager_reachable s -> api_run calls s = Some (u, s') -> manager_reachable s'.
Proof.
  revert s. induction calls as [|c calls IH]; intros s Hs H; [by injection H as _ <-|].
  cbn [api_run forM] in H. apply M_bind_Some in H as ([] & s1 & E & H).
  apply M_bind_Some in E as (b & s2 & E1 & E2). injection E2 as <-.
  eapply IH; [|exact H]. by eapply manager_serves.
Qed.
End Runs.

(** A device with one source, two inputs and an output, whose SRP answers VLAN 2. *)
Definition sample_answers : SrpAnswers :=
  {| register_stream_request _ _ := 2; register_attach_request _ _ v := v |}.
Definition sample_start : manager :=
  @manager_static default_config [MkMediaInfo 0 7 0 0 UNMAPPED; MkMediaInfo 0 7 0 1 UNMAPPED] [MkMediaInfo 0 7 0 0 UNMAPPED]
    [MkMediaClock false 1 0 48000 0 0] [MkClockInfo 0 0 0 true (MkStreamInfo false 0 0 0 false 0) (MkStreamInfo false 0 0 0 false 0)].
Definition sample_mac : list Z := [0x00; 0x22; 0x97; 0x01; 0x02; 0x03].
Definition sample_calls : list api_call :=
  [SetSourceChannels 0 2; SetSourceMap 0 [0; 1]; SetSourceFormat 0 0 48000; SetSourceDest 0 [0x91; 0xe0; 0xf0; 0; 1; 2];
   SetSourceState 0 AVB_SOURCE_STATE_POTENTIAL; SetSourceState 0 AVB_SOURCE_STATE_ENABLED].

(** The manager of the sample device once its units are registered, and after the calls. *)
Definition sample_registered : manager :=
  match avb_init [(0, 1)] [(0, 1)] sample_mac sample_start with Some (_, s) => s | None => sample_start end.
Definition sample_manager : manager :=
  match @api_run default_config sample_answers sample_calls sample_registered with
  | Some (_, s) => s
  | None => sample_start
  end.

Lemma sample_registered_reachable : @manager_reachable default_config sample_answers sample_registered.
Proof.
  eapply (manager_starts _ _ _ _ [(0, 1)] [(0, 1)] sample_mac).
  - split; [by repeat constructor|done].
  - unfold sample_registered. by vm_compute.
Qed.

Lemma sample_manager_reachable : @manager_reachable default_config sample_answers sample_manager.
Proof.
  eapply (api_run_reachable sample_calls); [apply sample_registered_reachable|].
  unfold sample_manager. by vm_compute.
Qed.

Example only_enabled_sources_transmit_witness :
  exists source, mgr_sources sample_manager !! 0%nat = Some source /\
    transmitting (stream_key source) (mgr_out sample_manager) = true /\ st_state (so_stream source) = 2.
Proof.
  eexists. split; [by vm_compute|]. split; [by vm_compute|].
  apply (@only_enabled_sources_transmit default_config sample_answers sample_manager 0 _ sample_manager_reachable);
    by vm_compute.
Defined.

(** ** The settings of the sample device *)

#[local] Existing Instances default_config sample_answers.

Example source_settings_read_back_witness :
  source_reads_back 0
    (set_source_channels 0 300) (get_source_channels 0) 44 sample_registered /\
  source_reads_back 0
    (set_source_dest 0 sample_mac) (get_source_dest 0) sample_mac sample_registered.
Proof.
  destruct (source_settings_read_back sample_registered 0 (default zero_source (mgr_sources sample_registered !! 0%nat)) 0 0 300 0 0 0 [] sample_mac)
    as (_ & H1 & _ & _ & _ & _ & H2); [by vm_compute..|by vm_compute; lia|by vm_compute|exact (conj H1 H2)].
Defined.

Example settings_refused_witness :
  set_source_channels 0 1 sample_manager =
    Some (false, sample_manager) /\
  set_sink_vlan 1 1 sample_manager =
    Some (false, sample_manager).
Proof.
  destruct (settings_refused sample_manager 0 1 0 0 1 0 0 [] [] (0, 0) 1) as (_ & H1 & _ & _ & _ & _ & _ & _ & _ & _ & H2 & _).
  - right. eexists. split; [by vm_compute|by vm_compute].
  - left. by vm_compute.
  - split; [exact H1 | exact H2].
Defined.
