(* ===== verification/AvbManagerStates.v ===== *)
(** What enabling a source and setting the rate of a clock lead to. *)
From S2P Require Import Prelude MrpTypes MediaClock AvbApi AvbManager AvbManagerSpec.
From stdpp Require Import base list list_numbers numbers option.
From Stdlib Require Import ZArith Lia.
#[local] Open Scope Z_scope.

(** Brings a state back into the form of a constructor. *)
Ltac norm_manager :=
  unfold upd_mgr_out, upd_mgr_sources, upd_mgr_sinks, upd_mgr_inputs, upd_mgr_clocks, upd_clock_states in *;
  cbn [mgr_sources mgr_sinks mgr_inputs mgr_outputs max_talker_stream_id max_listener_stream_id mgr_clocks
    clock_states mgr_out] in *; cbv zeta.

Section Enable.
Context `{cfg : Config} `{answers : SrpAnswers}.
Implicit Types s : manager.

Definition inputs_exist (s : manager) (channels : list Z) : Prop :=
  Forall (fun c => is_Some (elem_at (mgr_inputs s) c)) channels.

(** The command that configures the talker of a source. *)
Definition talker_configuration (source : source_info) (n : Z) (channels : list Z) : mgr_event :=
  let t := so_stream source in
  ConfigureTalkerStream (talker_ctl source) (st_local_id t) (st_format t)
    (take 6 (dest_mac_addr (so_reservation source))) n (st_num_channels t) (fifo_mask channels) channels
    (st_rate t)
    (if truthy (so_presentation source) then so_presentation source else AVB_DEFAULT_PRESENTATION_TIME_DELAY_NS).

Definition source_channels (source : source_info) : list Z :=
  take (Z.to_nat (st_num_channels (so_stream source))) (so_map source).

Lemma channels_of_run source s :
  (Z.to_nat (st_num_channels (so_stream source)) <= length (so_map source))%nat ->
  channels_of (so_map source) (st_num_channels (so_stream source)) s = Some (source_channels source, s).
Proof. intros H. unfold channels_of, load. by rewrite (proj2 (Nat.leb_le _ _) H). Qed.

Lemma mapped_run v channels s :
  inputs_exist s channels ->
  exists ins, forM channels (set_mapped_to v) s = Some (tt, upd_mgr_inputs (fun _ => ins) s) /\
    length ins = length (mgr_inputs s).
Proof.
  revert s. induction channels as [|c channels IH]; intros s H; [exists (mgr_inputs s); by destruct s|].
  apply list.Forall_cons in H as [[x Hx] H]. cbn [forM].
  destruct (IH (upd_mgr_inputs (set_elem c (upd_mapped_to (fun _ => v) x)) s)) as (ins & E & Hl).
  - eapply list.Forall_impl; [exact H|]. intros d [y Hy]. apply elem_at_lookup in Hy as [Hd Hy].
    cbn. destruct (lookup_lt_is_Some_2 (set_elem c (upd_mapped_to (fun _ => v) x) (mgr_inputs s)) (Z.to_nat d)) as [z Hz].
    { unfold set_elem. rewrite length_insert. by eapply lookup_lt_Some. }
    exists z. by apply elem_at_lookup.
  - exists ins. split; [|by rewrite Hl; cbn; unfold set_elem; rewrite length_insert].
    erewrite M_bind_run by (unfold set_mapped_to, store; by rewrite Hx). exact E.
Qed.

Lemma inputs_exist_length s s' channels :
  length (mgr_inputs s') = length (mgr_inputs s) -> inputs_exist s channels -> inputs_exist s' channels.
Proof.
  intros Hl H. eapply list.Forall_impl; [exact H|]. intros c [x Hx]. apply elem_at_lookup in Hx as [Hc Hx].
  destruct (lookup_lt_is_Some_2 (mgr_inputs s') (Z.to_nat c)) as [y Hy]; [rewrite Hl; by eapply lookup_lt_Some|].
  exists y. by apply elem_at_lookup.
Qed.

Lemma configure_run source n s :
  (Z.to_nat (st_num_channels (so_stream source)) <= length (so_map source))%nat ->
  inputs_exist s (source_channels source) ->
  exists ins, configure_talker_stream source n s =
      Some (tt, upd_mgr_out (fun l => l ++ [talker_configuration source n (source_channels source)])
                  (upd_mgr_inputs (fun _ => ins) s)) /\
    length ins = length (mgr_inputs s).
Proof.
  intros Hm Hi. destruct (mapped_run n _ s Hi) as (ins & E & Hl). exists ins. split; [|done].
  unfold configure_talker_stream. erewrite M_bind_run by (by apply channels_of_run).
  by erewrite M_bind_run by exact E.
Qed.

(** ** From disabled to potential *)

(** What the request to SRP carries. *)
Definition requested (source : source_info) : avb_srp_info_t :=
  upd_tspec_max_frame_size (fun _ => s16 (avb_srp_calculate_max_framesize source)) (so_reservation source).

(** The commands that make a source potential, with the VLAN SRP has answered. *)
Definition starting_events (source : source_info) (n clk vlan : Z) : list mgr_event :=
  [talker_configuration source n (source_channels source); StreamRequest (requested source);
   SetTalkerVlan (talker_ctl source) (st_local_id (so_stream source)) vlan;
   RegisterClock clk (st_sync (so_stream source))].

Lemma upd_source_at_run s n f source :
  elem_at (mgr_sources s) n = Some source ->
  upd_source_at n f s = Some (tt, upd_mgr_sources (set_elem n (f source)) s).
Proof. intros H. unfold upd_source_at, store. by rewrite H. Qed.

Lemma set_elem_twice {A} n (x y : A) l : set_elem n x (set_elem n y l) = set_elem n x l.
Proof. apply list_insert_insert_eq. Qed.

Lemma start_source_valid n source s c0 input inputs :
  elem_at (mgr_sources s) n = Some source ->
  so_map source !! 0%nat = Some c0 -> elem_at (mgr_inputs s) c0 = Some input ->
  (Z.to_nat (st_num_channels (so_stream source)) <= length (so_map source))%nat ->
  inputs_exist s (source_channels source) -> inputs_of (source_channels source) s = Some (inputs, s) ->
  source_valid source (clk_ctl input) inputs = true ->
  exists ins vlan, start_source n source s = Some (tt,
    upd_mgr_out (fun l => l ++ starting_events source n (clk_ctl input) vlan)
      (upd_mgr_sources (set_elem n (upd_so_reservation (fun _ => upd_vlan_id (fun _ => vlan) (requested source)) source))
        (upd_mgr_inputs (fun _ => ins) s))) /\
    length ins = length (mgr_inputs s).
Proof.
  intros Hs Hc0 Hin Hm Hex Hins Hv. destruct (configure_run source n s Hm Hex) as (ins & E & Hl).
  destruct s as [sources sinks inputs0 outputs mt ml clocks states out].
  eexists ins, _. split; [|done]. unfold start_source.
  erewrite M_bind_run by (unfold load; by rewrite Hc0).
  erewrite M_bind_run by (unfold load; by rewrite Hin).
  erewrite M_bind_run by (by apply channels_of_run). erewrite M_bind_run by exact Hins.
  rewrite Hv. cbn [negb]. erewrite M_bind_run by exact E. clear E Hin Hex Hins Hv.
  norm_manager.
  erewrite M_bind_run by (apply upd_source_at_run; exact Hs). norm_manager.
  erewrite M_bind_run by (apply the_source_run; by eapply elem_at_set).
  erewrite M_bind_run by reflexivity. erewrite M_bind_run by reflexivity. norm_manager.
  erewrite M_bind_run by (apply upd_source_at_run; by eapply elem_at_set). norm_manager.
  erewrite M_bind_run by reflexivity. unfold tell, modify. norm_manager.
  rewrite set_elem_twice, <- !app_assoc. reflexivity.
Qed.

Lemma start_source_invalid n source s c0 input inputs :
  so_map source !! 0%nat = Some c0 -> elem_at (mgr_inputs s) c0 = Some input ->
  (Z.to_nat (st_num_channels (so_stream source)) <= length (so_map source))%nat ->
  inputs_of (source_channels source) s = Some (inputs, s) -> source_valid source (clk_ctl input) inputs = false ->
  start_source n source s = Some (tt, s).
Proof.
  intros Hc0 Hin Hm Hins Hv. unfold start_source.
  erewrite M_bind_run by (unfold load; by rewrite Hc0). erewrite M_bind_run by (unfold load; by rewrite Hin).
  erewrite M_bind_run by (by apply channels_of_run). erewrite M_bind_run by exact Hins. by rewrite Hv.
Qed.

(** ** Enabling a source *)

Definition with_state (st : avb_source_state_t) (source : source_info) : source_info :=
  upd_so_stream (upd_st_state (fun _ => source_state_c st)) source.

Lemma set_source_state_run s n st source :
  n < Z.of_nat AVB_NUM_SOURCES -> elem_at (mgr_sources s) n = Some source ->
  set_source_state n st s =
    (_ ← update_source_state n (st_state (so_stream source)) (source_state_c st); mret true)
      (upd_mgr_sources (set_elem n (with_state st source)) s).
Proof.
  intros Hn Hs. unfold set_source_state, set_source_with. destruct (Z.leb_spec (Z.of_nat AVB_NUM_SOURCES) n); [lia|].
  cbn [_get_source_info _set_source_info avb_manager]. erewrite M_bind_run by (by apply the_source_run).
  cbv beta iota. unfold serve_set_source_info. unfold mbind, M_bind.
  by rewrite (the_source_run s n source Hs), (put_source_run s n source _ Hs).
Qed.

(** What the second step, from potential to enabled, does. *)
Lemma enable_potential s n source :
  n < Z.of_nat AVB_NUM_SOURCES -> elem_at (mgr_sources s) n = Some source -> st_state (so_stream source) = 1 ->
  (Z.to_nat (st_num_channels (so_stream source)) <= length (so_map source))%nat ->
  inputs_exist s (source_channels source) ->
  exists s', set_source_state n AVB_SOURCE_STATE_ENABLED s = Some (true, s') /\
    mgr_out s' = mgr_out s ++ [talker_configuration source n (source_channels source);
      TalkerGo (talker_ctl source) (st_local_id (so_stream source))].
Proof.
  intros Hn Hs H1 Hm Hex. destruct s as [sources sinks inputs outputs mt ml clocks states out].
  rewrite (set_source_state_run _ n _ source Hn Hs), H1. norm_manager. unfold update_source_state.
  destruct (configure_run (with_state AVB_SOURCE_STATE_ENABLED source) n
    (MkManager (set_elem n (with_state AVB_SOURCE_STATE_ENABLED source) sources) sinks inputs outputs mt ml clocks
       states out) Hm Hex) as (ins & E & _).
  eexists. split.
  - unfold mbind, M_bind.
    rewrite (the_source_run _ n (with_state AVB_SOURCE_STATE_ENABLED source)) by (by eapply elem_at_set).
    cbn [source_state_c Z.eqb andb negb Pos.eqb]. rewrite E. reflexivity.
  - norm_manager. by rewrite <- app_assoc.
Qed.

(** The first step, from disabled to potential. *)
Lemma start_disabled s n source c0 input inputs :
  n < Z.of_nat AVB_NUM_SOURCES -> elem_at (mgr_sources s) n = Some source -> st_state (so_stream source) = 0 ->
  so_map source !! 0%nat = Some c0 -> elem_at (mgr_inputs s) c0 = Some input ->
  (Z.to_nat (st_num_channels (so_stream source)) <= length (so_map source))%nat ->
  inputs_exist s (source_channels source) -> inputs_of (source_channels source) s = Some (inputs, s) ->
  exists s1 source1 vlan, set_source_state n AVB_SOURCE_STATE_POTENTIAL s = Some (true, s1) /\
    mgr_out s1 = mgr_out s ++
      (if source_valid source (clk_ctl input) inputs then starting_events source n (clk_ctl input) vlan else []) /\
    length (mgr_inputs s1) = length (mgr_inputs s) /\
    elem_at (mgr_sources s1) n = Some source1 /\ source1 = upd_so_reservation (fun _ => so_reservation source1)
      (with_state AVB_SOURCE_STATE_POTENTIAL source) /\
    dest_mac_addr (so_reservation source1) = dest_mac_addr (so_reservation source).
Proof.
  intros Hn Hs H0 Hc0 Hin Hm Hex Hins. destruct s as [sources sinks inputs0 outputs mt ml clocks states out].
  set (source' := with_state AVB_SOURCE_STATE_POTENTIAL source).
  set (s0 := MkManager (set_elem n source' sources) sinks inputs0 outputs mt ml clocks states out).
  rewrite (set_source_state_run _ n _ source Hn Hs), H0. norm_manager. fold source'. fold s0.
  assert (elem_at (mgr_sources s0) n = Some source') as Hs0 by (by eapply elem_at_set).
  assert (inputs_of (source_channels source') s0 = Some (inputs, s0)) as Hins0.
  { unfold inputs_of, load in Hins |- *. norm_manager. change (source_channels source') with (source_channels source).
    unfold s0. norm_manager. destruct (mapM _ _); [|done]. by injection Hins as ->. }
  assert (forall s1, start_source n source' s0 = Some (tt, s1) ->
    (_ ← update_source_state n 0 1; mret true) s0 = Some (true, s1)) as Hrun.
  { intros s1 E. unfold update_source_state, mbind, M_bind. rewrite (the_source_run s0 n source' Hs0).
    cbn [Z.eqb andb Pos.eqb]. by rewrite E. }
  destruct (source_valid source (clk_ctl input) inputs) eqn:Hv.
  - destruct (start_source_valid n source' s0 c0 input inputs Hs0 Hc0 Hin Hm Hex Hins0 Hv) as (ins & vlan & E & Hl).
    eexists _, _, vlan. split; [by apply Hrun|]. norm_manager.
    split_and!; [done|exact Hl|by eapply elem_at_set|done|done].
  - pose proof (start_source_invalid n source' s0 c0 input inputs Hc0 Hin Hm Hins0 Hv) as E.
    exists s0, source', 0. split; [by apply Hrun|]. split_and!; try done. cbn. by rewrite app_nil_r.
Qed.

(** A client that makes a disabled source potential and then enabled gets the talker
    configured and started. A valid source is configured first, its stream requested from
    SRP, and the VLAN of the answer set; one that is not valid - its channels or VLAN are
    wrong, or its inputs are taken or have different clocks - is started all the same,
    without a request. *)
Theorem enabling_a_source s n source c0 input inputs :
  n < Z.of_nat AVB_NUM_SOURCES -> elem_at (mgr_sources s) n = Some source -> st_state (so_stream source) = 0 ->
  so_map source !! 0%nat = Some c0 -> elem_at (mgr_inputs s) c0 = Some input ->
  (Z.to_nat (st_num_channels (so_stream source)) <= length (so_map source))%nat ->
  inputs_exist s (source_channels source) -> inputs_of (source_channels source) s = Some (inputs, s) ->
  exists s' vlan,
    (_ ← set_source_state n AVB_SOURCE_STATE_POTENTIAL; set_source_state n AVB_SOURCE_STATE_ENABLED) s =
      Some (true, s') /\
    mgr_out s' = mgr_out s ++
      (if source_valid source (clk_ctl input) inputs then starting_events source n (clk_ctl input) vlan else []) ++
      [talker_configuration source n (source_channels source);
       TalkerGo (talker_ctl source) (st_local_id (so_stream source))].
Proof.
  intros Hn Hs H0 Hc0 Hin Hm Hex Hins.
  destruct (start_disabled s n source c0 input inputs) as (s1 & source1 & vlan & E1 & O1 & L1 & Hs1 & Hsrc & Hd); try done.
  destruct (enable_potential s1 n source1) as (s2 & E2 & O2); [done|done|by rewrite Hsrc|by rewrite Hsrc| |].
  - eapply inputs_exist_length; [exact L1|]. by rewrite Hsrc.
  - exists s2, vlan. split; [by erewrite M_bind_run by exact E1|]. rewrite O2, O1, <- app_assoc. do 3 f_equal.
    + unfold talker_configuration. rewrite Hd, Hsrc. reflexivity.
    + rewrite Hsrc. reflexivity.
Qed.
End Enable.

#[local] Existing Instances default_config sample_answers.

(** Two channels on the same clock, but the second input is taken. *)
Definition taken_inputs : manager :=
  match api_run [SetSourceChannels 0 2; SetSourceMap 0 [0; 1]]
          (upd_mgr_inputs (fun _ => [MkMediaInfo 0 7 0 0 UNMAPPED; MkMediaInfo 0 7 0 1 5]) sample_registered) with
  | Some (_, s) => s
  | None => sample_start
  end.

Example enabling_a_source_witness :
  exists s' ev,
    (_ ← set_source_state 0 AVB_SOURCE_STATE_POTENTIAL; set_source_state 0 AVB_SOURCE_STATE_ENABLED) taken_inputs =
      Some (true, s') /\
    mgr_out s' = [ev; TalkerGo 0 0].
Proof.
  destruct (enabling_a_source taken_inputs 0 (default zero_source (mgr_sources taken_inputs !! 0%nat)) 0
    (MkMediaInfo 0 7 0 0 UNMAPPED) [MkMediaInfo 0 7 0 0 UNMAPPED; MkMediaInfo 0 7 0 1 5])
    as (s' & vlan & E & O);
    [by vm_compute|by vm_compute|by vm_compute|by vm_compute|by vm_compute|vm_compute; lia
    |apply (bool_decide_unpack _); by vm_compute|by vm_compute|].
  eexists s', _. split; [exact E|]. rewrite O. by vm_compute.
Defined.

(** Two talker units give their streams the same identifiers. *)
Lemma units_share_stream_ids mac c c' tile tile' j x x' :
  source_stream_id (registered_source mac c tile j x) = source_stream_id (registered_source mac c' tile' j x').
Proof. done. Qed.

(** * The rate of a clock *)

Section Rate.
Context `{cfg : Config} `{answers : SrpAnswers}.
Implicit Types s : manager.

(** The set half of [process_aem_cmd_getset_sampling_rate]; [false] is the status
    NO_SUCH_DESCRIPTOR. *)
Definition aem_set_sampling_rate (media_clock_id rate : Z) : M manager bool :=
  _ ← set_device_media_clock_state media_clock_id false;
  ok ← set_device_media_clock_rate media_clock_id rate;
  if (ok : bool) then _ ← set_device_media_clock_state media_clock_id true; mret true else mret false.

(** The word length clock recovery begins with; [None] for a rate that stops the device. *)
Definition initial_wordlen (rate : Z) : option Z := if rate =? 0 then Some 0 else calculate_wordlen rate.

Lemma set_clock_with_run n f s clock :
  0 <= n < Z.of_nat AVB_NUM_MEDIA_CLOCKS -> elem_at (mgr_clocks s) n = Some clock ->
  (mc_active (f clock) = true -> mc_active clock = true) ->
  exists out, set_clock_with f n s = Some (true, upd_mgr_clocks (set_elem n (f clock)) (upd_mgr_out (fun _ => out) s)).
Proof.
  intros Hn Hc Ha. destruct (serve_set_clock_quiet s n clock (f clock) Hc Ha) as [out E]. exists out.
  unfold set_clock_with. destruct (Z.leb_spec (Z.of_nat AVB_NUM_MEDIA_CLOCKS) n); [lia|].
  cbn [_get_media_clock_info _set_media_clock_info avb_manager]. erewrite M_bind_run by (by apply the_clock_run).
  by erewrite M_bind_run by exact E.
Qed.

Lemma init_recovery_run i rate (l : list clock_info_t) c :
  l !! i = Some c ->
  init_media_clock_recovery i rate l =
    match initial_wordlen rate with
    | Some w => Some (tt, <[i := MkClockInfo w 0 rate true (invalidate (stream_info1 c)) (invalidate (stream_info2 c))]> l)
    | None => None
    end.
Proof.
  intros Hi. unfold init_media_clock_recovery, get_clock, put_clock, load, store, initial_wordlen, mbind, M_bind.
  rewrite Hi. destruct (rate =? 0); cbn [negb]; [by cbn; rewrite Hi|].
  destruct (calculate_wordlen rate); [by cbn; rewrite Hi|done].
Qed.

Lemma activate_run n s clock c :
  0 <= n < Z.of_nat AVB_NUM_MEDIA_CLOCKS -> elem_at (mgr_clocks s) n = Some clock -> mc_active clock = false ->
  clock_states s !! Z.to_nat n = Some c ->
  set_device_media_clock_state n true s =
    match initial_wordlen (u32 (mc_rate clock)) with
    | Some w => Some (true, upd_clock_states
        (<[Z.to_nat n := MkClockInfo w 0 (u32 (mc_rate clock)) true (invalidate (stream_info1 c)) (invalidate (stream_info2 c))]>)
        (upd_mgr_clocks (set_elem n (upd_mc_active (fun _ => true) clock)) s))
    | None => None
    end.
Proof.
  intros Hn Hc Ha Hs. unfold set_device_media_clock_state, set_clock_with.
  destruct (Z.leb_spec (Z.of_nat AVB_NUM_MEDIA_CLOCKS) n); [lia|].
  cbn [_get_media_clock_info _set_media_clock_info avb_manager]. erewrite M_bind_run by (by apply the_clock_run).
  unfold serve_set_media_clock_info, set_clock_info, mbind, M_bind. rewrite (the_clock_run s n clock Hc).
  cbn [mc_rate upd_mc_active]. rewrite Z.eqb_refl. cbn [negb whenM skip mret M_ret].
  rewrite (the_clock_run s n clock Hc), (put_clock_info_run s n clock _ Hc), Ha.
  cbn [mc_active upd_mc_active negb andb whenM]. unfold on_recovery. cbn [clock_states upd_mgr_clocks].
  rewrite (init_recovery_run _ _ _ c Hs). by destruct (initial_wordlen _).
Qed.

Lemma aem_set_sampling_rate_run s n rate clock c :
  0 <= n < Z.of_nat AVB_NUM_MEDIA_CLOCKS -> 0 <= rate < 2 ^ 31 ->
  elem_at (mgr_clocks s) n = Some clock -> clock_states s !! Z.to_nat n = Some c ->
  exists s2, (aem_set_sampling_rate n rate s =
    match initial_wordlen rate with
    | Some w => Some (true, upd_clock_states
        (<[Z.to_nat n := MkClockInfo w 0 rate true (invalidate (stream_info1 c)) (invalidate (stream_info2 c))]>) s2)
    | None => None
    end) /\
    clock_states s2 = clock_states s /\
    exists clock', elem_at (mgr_clocks s2) n = Some clock' /\ mc_active clock' = true /\ mc_rate clock' = rate.
Proof.
  intros Hn Hr Hc Hs. unfold aem_set_sampling_rate.
  destruct (set_clock_with_run n (upd_mc_active (fun _ => false)) s clock Hn Hc) as [out1 E1]; [by cbn|].
  destruct s as [sources sinks inputs outputs mt ml clocks states out]. norm_manager.
  set (clock1 := upd_mc_active (fun _ => false) clock) in *.
  destruct (set_clock_with_run n (upd_mc_rate (fun _ => rate))
    (MkManager sources sinks inputs outputs mt ml (set_elem n clock1 clocks) states out1) clock1 Hn) as [out2 E2];
    [by eapply elem_at_set|by cbn|]. norm_manager.
  unfold mbind, M_bind. unfold set_device_media_clock_state at 1, set_device_media_clock_rate. rewrite E1, E2. cbv iota.
  set (clock2 := upd_mc_rate (fun _ => rate) clock1) in *.
  rewrite (activate_run n _ clock2 c Hn) by first [by eapply elem_at_set, elem_at_set | done].
  change (mc_rate clock2) with rate. rewrite u32_small by lia. eexists.
  split; [by destruct (initial_wordlen rate)|]. split; [done|].
  eexists. split; [by eapply elem_at_set, elem_at_set, elem_at_set|done].
Qed.

(** The command that sets the sampling rate succeeds for zero and for multiples of
    48000 and 44100: the clock is active with that rate and recovery starts with the
    rate's word length. For every other rate it does not return: the device stops in
    [fail]. *)
Theorem sampling_rate_set_or_fatal s n rate clock c :
  0 <= n < Z.of_nat AVB_NUM_MEDIA_CLOCKS -> 0 <= rate < 2 ^ 31 ->
  elem_at (mgr_clocks s) n = Some clock -> clock_states s !! Z.to_nat n = Some c ->
  if (rate mod 48000 =? 0) || (rate mod 44100 =? 0) then
    exists s' clock' c',
      aem_set_sampling_rate n rate s = Some (true, s') /\
      elem_at (mgr_clocks s') n = Some clock' /\ mc_active clock' = true /\ mc_rate clock' = rate /\
      clock_states s' !! Z.to_nat n = Some c' /\ Some (wordlen c') = initial_wordlen rate
  else aem_set_sampling_rate n rate s = None.
Proof.
  intros Hn Hr Hc Hs.
  destruct (aem_set_sampling_rate_run s n rate clock c Hn Hr Hc Hs) as (s2 & -> & Es & clock' & E & Ha & Hrate).
  assert (((rate mod 48000 =? 0) || (rate mod 44100 =? 0)) = bool_decide (is_Some (initial_wordlen rate))) as ->.
  { unfold initial_wordlen, calculate_wordlen. destruct (Z.eqb_spec rate 0) as [->|]; [done|].
    by destruct (rate mod 48000 =? 0), (rate mod 44100 =? 0). }
  destruct (initial_wordlen rate) as [w|]; [|done]. cbn [bool_decide].
  eexists _, clock', _. split_and!; [done|exact E|done|done| |].
  - cbn. apply list_lookup_insert_eq. rewrite Es. by eapply lookup_lt_Some.
  - done.
Qed.
End Rate.

Example sampling_rate_set_or_fatal_witness :
  aem_set_sampling_rate 0 32000 sample_manager = None /\
  exists s' clock' c', aem_set_sampling_rate 0 96000 sample_manager = Some (true, s') /\
    elem_at (mgr_clocks s') 0 = Some clock' /\ mc_active clock' = true /\ mc_rate clock' = 96000 /\
    clock_states s' !! 0%nat = Some c' /\ Some (wordlen c') = initial_wordlen 96000.
Proof.
  pose (clock := MkMediaClock false 1 0 48000 0 0).
  pose (c := MkClockInfo 0 0 0 true (MkStreamInfo false 0 0 0 false 0) (MkStreamInfo false 0 0 0 false 0)).
  split.
  - apply (sampling_rate_set_or_fatal sample_manager 0 32000 clock c); by vm_compute.
  - apply (sampling_rate_set_or_fatal sample_manager 0 96000 clock c); by vm_compute.
Defined.
