(* ===== verification/TalkerTask.v ===== *)
(** The task of a talker unit, [lib_tsn/src/1722/avb_1722_talker.xc]: the streams of the
    unit by number, the commands of the AVB manager, the frames it takes from the double
    buffer of the audio task ([lib_tsn/src/audio_buffering]), and the packets it sends.

    A stream with its transmit buffer is the [talker_unit] of Talker1722, on which
    [on_unit] runs the packetiser.  The commands are values, what the task sends on its
    channels is in [task_out].  The task serves every order of commands that starts
    configured streams only ([talker_task_safe]). *)
From S2P Require Import Prelude MrpTypes AvbApi Bytes PtpTime AudioFifo Listener1722 Talker1722 TalkerSpec TalkerStream.
From Stdlib Require Import ZArith Lia.
From stdpp Require Import base list list_numbers numbers option.
#[local] Open Scope Z_scope.

(** * State *)

Record audio_double_buffer_t : Type := MkDoubleBuffer {
  active_buffer : Z;  (* unsigned int *)
  data_ready : Z;  (* unsigned int *)
  data_taken : Z;  (* unsigned int *)
  frame_buffer : list audio_frame_t;  (* audio_frame_t buffer[2] *)
}.

Definition upd_active_buffer (g : Z -> Z) (s : audio_double_buffer_t) : audio_double_buffer_t :=
  MkDoubleBuffer (g (active_buffer s)) (data_ready s) (data_taken s) (frame_buffer s).
Definition upd_data_ready (g : Z -> Z) (s : audio_double_buffer_t) : audio_double_buffer_t :=
  MkDoubleBuffer (active_buffer s) (g (data_ready s)) (data_taken s) (frame_buffer s).
Definition upd_frame_buffer (g : list audio_frame_t -> list audio_frame_t) (s : audio_double_buffer_t) : audio_double_buffer_t :=
  MkDoubleBuffer (active_buffer s) (data_ready s) (data_taken s) (g (frame_buffer s)).

Record avb_1722_talker_state_t : Type := MkTalkerState {
  tx_bufs : list (list Z);  (* the bytes of tx_buf[AVB_NUM_SOURCES] *)
  tx_buf_fill_size : list Z;  (* unsigned int[AVB_NUM_SOURCES] *)
  talker_streams : list avb1722_Talker_StreamConfig_t;  (* [AVB_MAX_STREAMS_PER_TALKER_UNIT] *)
  max_active_avb_stream : Z;  (* int *)
  cur_avb_stream : Z;  (* int *)
  talker_mac_addr : list Z;  (* unsigned char[6] *)
  talker_vlan : Z;  (* int *)
  sent_1722 : Z;  (* unsigned, of counters *)
}.

Definition upd_tx_bufs (g : list (list Z) -> list (list Z)) (s : avb_1722_talker_state_t) : avb_1722_talker_state_t :=
  MkTalkerState (g (tx_bufs s)) (tx_buf_fill_size s) (talker_streams s) (max_active_avb_stream s)
    (cur_avb_stream s) (talker_mac_addr s) (talker_vlan s) (sent_1722 s).
Definition upd_tx_buf_fill_size (g : list Z -> list Z) (s : avb_1722_talker_state_t) : avb_1722_talker_state_t :=
  MkTalkerState (tx_bufs s) (g (tx_buf_fill_size s)) (talker_streams s) (max_active_avb_stream s)
    (cur_avb_stream s) (talker_mac_addr s) (talker_vlan s) (sent_1722 s).
Definition upd_talker_streams (g : list avb1722_Talker_StreamConfig_t -> list avb1722_Talker_StreamConfig_t) (s : avb_1722_talker_state_t) : avb_1722_talker_state_t :=
  MkTalkerState (tx_bufs s) (tx_buf_fill_size s) (g (talker_streams s)) (max_active_avb_stream s)
    (cur_avb_stream s) (talker_mac_addr s) (talker_vlan s) (sent_1722 s).
Definition upd_max_active_avb_stream (g : Z -> Z) (s : avb_1722_talker_state_t) : avb_1722_talker_state_t :=
  MkTalkerState (tx_bufs s) (tx_buf_fill_size s) (talker_streams s) (g (max_active_avb_stream s))
    (cur_avb_stream s) (talker_mac_addr s) (talker_vlan s) (sent_1722 s).
Definition upd_talker_vlan (g : Z -> Z) (s : avb_1722_talker_state_t) : avb_1722_talker_state_t :=
  MkTalkerState (tx_bufs s) (tx_buf_fill_size s) (talker_streams s) (max_active_avb_stream s)
    (cur_avb_stream s) (talker_mac_addr s) (g (talker_vlan s)) (sent_1722 s).
Definition upd_sent_1722 (g : Z -> Z) (s : avb_1722_talker_state_t) : avb_1722_talker_state_t :=
  MkTalkerState (tx_bufs s) (tx_buf_fill_size s) (talker_streams s) (max_active_avb_stream s)
    (cur_avb_stream s) (talker_mac_addr s) (talker_vlan s) (g (sent_1722 s)).

(** What the task sends: its registration with the manager, packets, answers to the
    manager, and requests to the PTP server. *)
Inductive talker_event : Type :=
| RegisterTalkerStreams (num_streams : Z)
| SendPacket (bytes : list Z)
| SendCounters (sent : Z)
| RequestTimeInfo.

Record talker_task : Type := MkTalkerTask {
  task_state : avb_1722_talker_state_t;
  audio_sample_type : Z;  (* AVB1722_audioSampleType, static *)
  sample_buffer : audio_double_buffer_t;  (* shared with the audio task *)
  task_time_info : ptp_time_info_mod64;
  pending_timeinfo : Z;  (* int *)
  next_timeinfo : Z;  (* unsigned t *)
  task_out : list talker_event;  (* oldest first *)
}.

Definition upd_task_state (g : avb_1722_talker_state_t -> avb_1722_talker_state_t) (s : talker_task) : talker_task :=
  MkTalkerTask (g (task_state s)) (audio_sample_type s) (sample_buffer s) (task_time_info s)
    (pending_timeinfo s) (next_timeinfo s) (task_out s).
Definition upd_audio_sample_type (g : Z -> Z) (s : talker_task) : talker_task :=
  MkTalkerTask (task_state s) (g (audio_sample_type s)) (sample_buffer s) (task_time_info s)
    (pending_timeinfo s) (next_timeinfo s) (task_out s).
Definition upd_sample_buffer (g : audio_double_buffer_t -> audio_double_buffer_t) (s : talker_task) : talker_task :=
  MkTalkerTask (task_state s) (audio_sample_type s) (g (sample_buffer s)) (task_time_info s)
    (pending_timeinfo s) (next_timeinfo s) (task_out s).
Definition upd_task_time_info (g : ptp_time_info_mod64 -> ptp_time_info_mod64) (s : talker_task) : talker_task :=
  MkTalkerTask (task_state s) (audio_sample_type s) (sample_buffer s) (g (task_time_info s))
    (pending_timeinfo s) (next_timeinfo s) (task_out s).
Definition upd_pending_timeinfo (g : Z -> Z) (s : talker_task) : talker_task :=
  MkTalkerTask (task_state s) (audio_sample_type s) (sample_buffer s) (task_time_info s) (g
    (pending_timeinfo s)) (next_timeinfo s) (task_out s).
Definition upd_next_timeinfo (g : Z -> Z) (s : talker_task) : talker_task :=
  MkTalkerTask (task_state s) (audio_sample_type s) (sample_buffer s) (task_time_info s)
    (pending_timeinfo s) (g (next_timeinfo s)) (task_out s).
Definition upd_task_out (g : list talker_event -> list talker_event) (s : talker_task) : talker_task :=
  MkTalkerTask (task_state s) (audio_sample_type s) (sample_buffer s) (task_time_info s)
    (pending_timeinfo s) (next_timeinfo s) (g (task_out s)).

(** The size of the inputs of the device, [AVB_NUM_MEDIA_INPUTS], and its highest
    rate, [AVB_MAX_AUDIO_SAMPLE_RATE]. *)
Class TalkerConfig : Type := {
  media_inputs : nat;
  max_audio_sample_rate : Z;
}.

(** The highest rate is a multiple of the packet rate. *)
Class TalkerRates `{tcfg : TalkerConfig} : Prop := {
  rate_multiple : max_audio_sample_rate mod 8000 = 0;
  rate_positive : 0 < max_audio_sample_rate;
}.

Definition TIMEINFO_UPDATE_INTERVAL : Z := 50000000.

Section Task.
Context `{cfg : Config} `{tcfg : TalkerConfig}.

Definition AVB_MAX_STREAMS_PER_TALKER_UNIT : nat := AVB_NUM_SOURCES.
Definition AVB1722_TALKER_MAX_NUM_SAMPLES_PER_CHANNEL : Z := max_audio_sample_rate / AVB1722_PACKET_RATE.
Definition MAX_PKT_BUF_SIZE_TALKER : Z :=
  AVB_ETHERNET_HDR_SIZE + AVB_TP_HDR_SIZE + AVB_CIP_HDR_SIZE +
  AVB1722_TALKER_MAX_NUM_SAMPLES_PER_CHANNEL * Z.of_nat AVB_MAX_CHANNELS_PER_TALKER_STREAM * 4 + 4.
(** The bytes of [unsigned int tx_buf[..][(MAX_PKT_BUF_SIZE_TALKER + 3) / 4]]. *)
Definition tx_buf_bytes : Z := 4 * ((MAX_PKT_BUF_SIZE_TALKER + 3) / 4).

Abbreviation TM := (M talker_task).

Definition emit_talker (ev : talker_event) : TM unit := modify (upd_task_out (fun l => l ++ [ev])).
Definition on_state (f : avb_1722_talker_state_t -> avb_1722_talker_state_t) : TM unit := modify (upd_task_state f).
Definition talker_st {A} (f : avb_1722_talker_state_t -> A) : TM A := gets (fun s => f (task_state s)).

(** A stream and its buffer, with the static sample type. *)
Definition unit_of (n : Z) (s : talker_task) : option talker_unit :=
  c ← elem_at (talker_streams (task_state s)) n;
  b ← elem_at (tx_bufs (task_state s)) n;
  Some (MkTalker c b (audio_sample_type s)).
Definition put_unit (n : Z) (t : talker_unit) (s : talker_task) : talker_task :=
  upd_audio_sample_type (fun _ => AVB1722_audioSampleType t)
    (upd_task_state (fun st => upd_talker_streams (set_elem n (config t)) (upd_tx_bufs (set_elem n (tx_buf t)) st)) s).
Definition on_unit {A} (n : Z) (m : M talker_unit A) : TM A := fun s =>
  match unit_of n s with
  | Some t => match m t with Some (a, t') => Some (a, put_unit n t' s) | None => None end
  | None => None
  end.

(** [st.talker_streams[n]] passed by reference; [f] may trap. *)
Definition the_talker_stream (n : Z) : TM avb1722_Talker_StreamConfig_t :=
  load (fun s => elem_at (talker_streams (task_state s)) n).
Definition on_talker_stream (n : Z) (f : avb1722_Talker_StreamConfig_t -> option avb1722_Talker_StreamConfig_t)
    : TM unit := store (fun s =>
  c ← elem_at (talker_streams (task_state s)) n;
  c' ← f c;
  Some (upd_task_state (upd_talker_streams (set_elem n c')) s)).
Definition fill_size (n : Z) : TM Z := load (fun s => elem_at (tx_buf_fill_size (task_state s)) n).
Definition set_fill_size (n size : Z) : TM unit := store (fun s =>
  _ ← elem_at (tx_buf_fill_size (task_state s)) n;
  Some (upd_task_state (upd_tx_buf_fill_size (set_elem n size)) s)).

(** * Initialisation *)

(** The state is a local variable of the task: [junk] is what it holds before.
    [mac_addr] is the manager's answer to the registration.  The [memset] of the
    buffers has its size and its value exchanged and writes nothing. *)
Definition avb_1722_talker_init (num_streams : Z) (mac_addr : list Z) : TM unit :=
  _ ← on_state (fun st => MkTalkerState (tx_bufs st) (tx_buf_fill_size st) (talker_streams st) (-1) 0
        (talker_mac_addr st) 0 (sent_1722 st));
  _ ← forM (seq 0 AVB_NUM_SOURCES) (fun i => set_fill_size (Z.of_nat i) 0);
  _ ← emit_talker (RegisterTalkerStreams num_streams);
  _ ← on_state (fun st => MkTalkerState (tx_bufs st) (tx_buf_fill_size st) (talker_streams st)
        (max_active_avb_stream st) (cur_avb_stream st) mac_addr (talker_vlan st) (sent_1722 st));
  _ ← forM (seq 0 AVB_MAX_STREAMS_PER_TALKER_UNIT) (fun i =>
        on_talker_stream (Z.of_nat i) (fun c => Some (upd_talker_active (fun _ => 0) c)));
  on_state (upd_sent_1722 (fun _ => 0)).

(** * Commands *)

(** A command with the numbers that follow it; [OtherCommand] is one that is not for a
    talker. *)
Inductive talker_command : Type :=
| CmdConfigure (n : Z) (set : talker_settings)  (* AVB1722_CONFIGURE_TALKER_STREAM *)
| CmdDisable (n : Z)  (* AVB1722_DISABLE_TALKER_STREAM *)
| CmdGo (n : Z)  (* AVB1722_TALKER_GO *)
| CmdStop (n : Z)  (* AVB1722_TALKER_STOP *)
| CmdSetPort (n port : Z)  (* AVB1722_SET_PORT *)
| CmdSetVlan (n vlan : Z)  (* AVB1722_SET_VLAN *)
| CmdGetCounters  (* AVB1722_GET_COUNTERS *)
| OtherCommand.

Definition avb_1722_talker_handle_cmd (cmd : talker_command) : TM unit :=
  match cmd with
  | CmdConfigure n set =>
      mac ← talker_st talker_mac_addr;
      _ ← on_talker_stream n (configure_talker_stream set mac);
      _ ← on_state (fun st => if max_active_avb_stream st <? n then upd_max_active_avb_stream (fun _ => n) st else st);
      vlan ← talker_st talker_vlan;
      on_unit n (AVB1722_Talker_bufInit vlan)
  | CmdDisable n => on_talker_stream n (fun c => Some (disable_talker_stream c))
  | CmdGo n => on_talker_stream n (fun c => Some (start_stream c))
  | CmdStop n => on_talker_stream n (fun c => Some (stop_stream c))
  | CmdSetPort n port => on_talker_stream n (fun c => Some (upd_txport (fun _ => port) c))
  | CmdSetVlan n vlan =>
      _ ← on_state (upd_talker_vlan (fun _ => vlan));
      on_unit n (avb1722_set_buffer_vlan vlan)
  | CmdGetCounters => sent ← talker_st sent_1722; emit_talker (SendCounters sent)
  | OtherCommand => skip
  end.

(** * Frames *)

(** [init_audio_input_buffer] *)
Definition init_audio_input_buffer (b : audio_double_buffer_t) : audio_double_buffer_t :=
  upd_active_buffer (fun _ => 0) (upd_data_ready (fun _ => 0) b).

(** [audio_buffers_swap_active_buffer0] *)
Definition audio_buffers_swap_active_buffer (b : audio_double_buffer_t) : audio_double_buffer_t :=
  upd_data_ready (fun _ => 1) (upd_active_buffer (fun a => c_int (a =? 0)) b).

(** The audio task fills the active frame and swaps the buffers. *)
Definition frame_arrives (frame : audio_frame_t) (b : audio_double_buffer_t) : audio_double_buffer_t :=
  audio_buffers_swap_active_buffer (upd_frame_buffer (set_elem (active_buffer b) frame) b).

(** The numbers of the streams up to the last one that has been configured. *)
Definition active_range : TM (list nat) :=
  mx ← talker_st max_active_avb_stream; mret (seq 0 (Z.to_nat (mx + 1))).

(** The first loop of [avb_1722_talker_send_packets]: [frame] goes to every stream that
    is active. *)
Definition frame_to_stream (frame : audio_frame_t) (i : nat) : TM unit :=
  c ← the_talker_stream (Z.of_nat i);
  _ ← whenM (talker_active c =? 2)
        (info ← gets task_time_info;
         packet_size ← on_unit (Z.of_nat i) (avb1722_create_packet info frame);
         size ← fill_size (Z.of_nat i);
         whenM (size =? 0) (set_fill_size (Z.of_nat i) packet_size));
  mx ← talker_st max_active_avb_stream;
  whenM (Z.of_nat i =? mx) (modify (upd_sample_buffer (upd_data_ready (fun _ => 0)))).
Definition create_packets (frame : audio_frame_t) : TM unit :=
  range ← active_range; forM range (frame_to_stream frame).

(** [ethernet_send_hp_packet]: [size] bytes of the buffer after the alignment. *)
Definition send_from_buffer (i : nat) (size : Z) : TM unit :=
  bytes ← load (fun s =>
    b ← elem_at (tx_bufs (task_state s)) (Z.of_nat i);
    if Buf + size <=? Z.of_nat (length b) then Some (take (Z.to_nat size) (drop (Z.to_nat Buf) b)) else None);
  emit_talker (SendPacket bytes).

(** The second loop, which sends the first packet that waits. *)
Definition send_if_full (i : nat) : TM (option unit) :=
  packet_size ← fill_size (Z.of_nat i);
  if packet_size =? 0 then mret None
  else
    _ ← send_from_buffer i packet_size;
    _ ← set_fill_size (Z.of_nat i) 0;
    _ ← on_state (upd_sent_1722 (fun n => u32 (n + 1)));
    mret (Some tt).
Definition send_first_packet : TM unit :=
  range ← active_range; _ ← forM_until range send_if_full; skip.

Definition avb_1722_talker_send_packets : TM unit :=
  b ← gets sample_buffer;
  if data_ready b =? 0 then skip
  else
    let rd_buf := c_int (active_buffer b =? 0) in
    mx ← talker_st max_active_avb_stream;
    if mx =? -1 then skip
    else
      frame ← load (fun s => elem_at (frame_buffer (sample_buffer s)) rd_buf);
      _ ← create_packets frame;
      send_first_packet.

(** * The task *)

(** The cases of the [select]: a command, the timer with its time, an answer of the PTP
    server, and none of them. *)
Inductive talker_input : Type :=
| TalkerCommand (cmd : talker_command)
| TalkerTimer (now : Z)
| TimeInfoArrives (info : ptp_time_info_mod64)
| NothingPending.

Definition talker_serve (i : talker_input) : TM unit :=
  match i with
  | TalkerCommand cmd => avb_1722_talker_handle_cmd cmd
  | TalkerTimer now =>
      pending ← gets pending_timeinfo;
      _ ← whenM (pending =? 0) (_ ← emit_talker RequestTimeInfo; modify (upd_pending_timeinfo (fun _ => 1)));
      modify (upd_next_timeinfo (fun _ => u32 (now + TIMEINFO_UPDATE_INTERVAL)))
  | TimeInfoArrives info =>
      _ ← modify (upd_task_time_info (fun _ => info)); modify (upd_pending_timeinfo (fun _ => 0))
  | NothingPending => avb_1722_talker_send_packets
  end.

(** The start of [avb_1722_talker], with the first answer of the PTP server and the time. *)
Definition avb_1722_talker_start (num_streams : Z) (mac_addr : list Z) (info : ptp_time_info_mod64) (now : Z)
    : TM unit :=
  _ ← modify (upd_pending_timeinfo (fun _ => 0));
  _ ← avb_1722_talker_init num_streams mac_addr;
  _ ← emit_talker RequestTimeInfo;
  _ ← modify (upd_task_time_info (fun _ => info));
  modify (upd_next_timeinfo (fun _ => u32 (now + TIMEINFO_UPDATE_INTERVAL))).

(** Steps of the task, and frames of the audio task between them. *)
Inductive talker_step : Type :=
| Serve (i : talker_input)
| FrameIn (frame : audio_frame_t).

Definition talker_do (st : talker_step) : TM unit :=
  match st with
  | Serve i => talker_serve i
  | FrameIn frame => modify (upd_sample_buffer (frame_arrives frame))
  end.
Definition talker_run (steps : list talker_step) : TM unit := forM steps talker_do.
End Task.

(** * Streams of the unit *)

Section Units.
Context `{cfg : Config} `{tcfg : TalkerConfig} `{wf_rates : !TalkerRates}.
Implicit Types s : talker_task.

Lemma unit_of_lookup n s t :
  unit_of n s = Some t <->
  elem_at (talker_streams (task_state s)) n = Some (config t) /\ elem_at (tx_bufs (task_state s)) n = Some (tx_buf t) /\
  AVB1722_audioSampleType t = audio_sample_type s.
Proof.
  unfold unit_of. destruct (elem_at (talker_streams _) n) as [c|]; cbn; [|naive_solver].
  destruct (elem_at (tx_bufs _) n) as [b|]; cbn; [|naive_solver].
  split; [by intros [= <-]|]. destruct t. cbn. by intros ([= ->] & [= ->] & ->).
Qed.

Lemma elem_at_set_inv {A} (l : list A) n m x y :
  elem_at (set_elem n x l) m = Some y -> 0 <= n -> m = n /\ y = x \/ m <> n /\ elem_at l m = Some y.
Proof.
  intros H Hn. destruct (decide (m = n)) as [->|Hne].
  - left. split; [done|]. apply elem_at_lookup in H as [_ H]. unfold set_elem in H.
    apply list_lookup_insert_Some in H. naive_solver.
  - right. split; [done|]. pose proof (proj1 (elem_at_lookup _ _ _) H) as [Hm _].
    by rewrite elem_at_set_ne in H.
Qed.

Lemma unit_of_put n s t t0 : unit_of n s = Some t0 -> unit_of n (put_unit n t s) = Some t.
Proof.
  rewrite !unit_of_lookup. intros (H1 & H2 & _). unfold put_unit. cbn.
  by rewrite (elem_at_set _ _ _ _ H1), (elem_at_set _ _ _ _ H2).
Qed.

Lemma put_unit_twice n t t' s : put_unit n t' (put_unit n t s) = put_unit n t' s.
Proof.
  destruct s as [[]]. unfold put_unit, upd_audio_sample_type, upd_task_state, upd_talker_streams, upd_tx_bufs. cbn.
  unfold set_elem. by rewrite !list_insert_insert_eq.
Qed.

Definition with_type (ty : Z) (t : talker_unit) : talker_unit := upd_AVB1722_audioSampleType (fun _ => ty) t.

Lemma unit_of_put_ne n m s t t0 :
  unit_of n s = Some t0 -> m <> n ->
  unit_of m (put_unit n t s) = with_type (AVB1722_audioSampleType t) <$> unit_of m s.
Proof.
  intros (H1 & _)%unit_of_lookup Hne. apply elem_at_lookup in H1 as [Hn _].
  unfold unit_of, put_unit. cbn. destruct (Z.ltb_spec m 0) as [Hm|Hm].
  - unfold elem_at. by destruct (Z.ltb_spec m 0); [|lia].
  - rewrite !elem_at_set_ne by lia. by destruct (elem_at (talker_streams _) m), (elem_at (tx_bufs _) m).
Qed.

Lemma on_unit_run {A} n (m : M talker_unit A) s t a t' :
  unit_of n s = Some t -> m t = Some (a, t') -> on_unit n m s = Some (a, put_unit n t' s).
Proof. intros H E. unfold on_unit. by rewrite H, E. Qed.

Lemma set_elem_id {A} (l : list A) n x : elem_at l n = Some x -> set_elem n x l = l.
Proof. intros [_ H]%elem_at_lookup. by apply list_insert_id. Qed.

Lemma on_talker_stream_run n f s t c :
  unit_of n s = Some t -> f (config t) = Some c ->
  on_talker_stream n f s = Some (tt, put_unit n (upd_config (fun _ => c) t) s).
Proof.
  intros (H1 & H2 & H3)%unit_of_lookup Hf. unfold on_talker_stream, store. rewrite H1. cbn. rewrite Hf. cbn.
  unfold put_unit. cbn. rewrite H3. do 2 f_equal. destruct s as [[]]. cbn in *.
  unfold upd_task_state, upd_audio_sample_type, upd_talker_streams, upd_tx_bufs. cbn. by rewrite (set_elem_id _ _ _ H2).
Qed.

(** The invariant of a stream does not see the sample type. *)
Lemma talker_inv_type inputs ty t : talker_inv inputs t -> talker_inv inputs (with_type ty t).
Proof. intros []. by split. Qed.

(** * The invariant *)

(** The packets the task has sent. *)
Definition sent_packets (out : list talker_event) : list (list Z) :=
  omap (fun ev => match ev with SendPacket bytes => Some bytes | _ => None end) out.

Lemma sent_packets_app l1 l2 : sent_packets (l1 ++ l2) = sent_packets l1 ++ sent_packets l2.
Proof. apply omap_app. Qed.

(** Of a stream: its arrays have their sizes, it is set up if it has been configured,
    and only then active. *)
Record unit_ok (configured : Prop) (t : talker_unit) : Prop := {
  uo_buf : Z.of_nat (length (tx_buf t)) = tx_buf_bytes;
  uo_map : length (talker_map (config t)) = AVB_MAX_CHANNELS_PER_TALKER_STREAM;
  uo_conf : configured -> talker_inv media_inputs t;
  uo_active : talker_active (config t) = 2 -> configured;
}.

(** Of the task: the arrays have their sizes, packets that wait fit into their buffers,
    the streams in [conf] have been configured, and the packets sent are counted. *)
Record task_ok (conf : list Z) (s : talker_task) : Prop := {
  to_streams : length (talker_streams (task_state s)) = AVB_NUM_SOURCES;
  to_bufs : length (tx_bufs (task_state s)) = AVB_NUM_SOURCES;
  to_fill : length (tx_buf_fill_size (task_state s)) = AVB_NUM_SOURCES;
  to_mac : length (talker_mac_addr (task_state s)) = MAC_ADRS_BYTE_COUNT;
  to_max : -1 <= max_active_avb_stream (task_state s) < Z.of_nat AVB_NUM_SOURCES;
  to_conf : Forall (fun n => 0 <= n <= max_active_avb_stream (task_state s)) conf;
  to_units : forall n t, unit_of n s = Some t -> unit_ok (n ∈ conf) t;
  to_waiting : Forall (fun size => size = 0 \/ 50 <= size /\ Buf + size <= tx_buf_bytes) (tx_buf_fill_size (task_state s));
  to_count : sent_1722 (task_state s) = u32 (Z.of_nat (length (sent_packets (task_out s))));
  to_sizes : Forall (fun p => 50 <= Z.of_nat (length p) <= tx_buf_bytes - Buf) (sent_packets (task_out s));
  to_frames : length (frame_buffer (sample_buffer s)) = 2%nat;
  to_samples : Forall (fun f => length (frame_samples f) = media_inputs) (frame_buffer (sample_buffer s));
  to_active_buffer : 0 <= active_buffer (sample_buffer s) <= 1;
}.

Lemma elem_at_in {A} (l : list A) n : 0 <= n < Z.of_nat (length l) -> exists x, elem_at l n = Some x.
Proof.
  intros Hn. destruct (lookup_lt_is_Some_2 l (Z.to_nat n)) as [x Hx]; [lia|]. exists x. apply elem_at_lookup. split; [lia|done].
Qed.

Lemma unit_exists conf s n : task_ok conf s -> 0 <= n < Z.of_nat AVB_NUM_SOURCES -> exists t, unit_of n s = Some t.
Proof.
  intros [] Hn. destruct (elem_at_in (talker_streams (task_state s)) n) as [c Hc]; [lia|].
  destruct (elem_at_in (tx_bufs (task_state s)) n) as [b Hb]; [lia|].
  exists (MkTalker c b (audio_sample_type s)). by apply unit_of_lookup.
Qed.

Lemma task_ok_ext conf s s' :
  task_ok conf s ->
  talker_streams (task_state s') = talker_streams (task_state s) ->
  tx_bufs (task_state s') = tx_bufs (task_state s) ->
  tx_buf_fill_size (task_state s') = tx_buf_fill_size (task_state s) ->
  talker_mac_addr (task_state s') = talker_mac_addr (task_state s) ->
  max_active_avb_stream (task_state s') = max_active_avb_stream (task_state s) ->
  frame_buffer (sample_buffer s') = frame_buffer (sample_buffer s) ->
  active_buffer (sample_buffer s') = active_buffer (sample_buffer s) ->
  sent_1722 (task_state s') = sent_1722 (task_state s) -> sent_packets (task_out s') = sent_packets (task_out s) ->
  task_ok conf s'.
Proof.
  intros [H1 H2 H3 H4 H5 H6 H7 H8 H9 H10 H11 H12 H13] E1 E2 E3 E4 E5 E6 E7 E8 E9.
  split; rewrite ?E1, ?E2, ?E3, ?E4, ?E5, ?E6, ?E7, ?E8, ?E9; try done.
  intros n t (A1 & A2 & A3)%unit_of_lookup. rewrite E1 in A1. rewrite E2 in A2.
  destruct (H7 n (with_type (audio_sample_type s) t)) as [U1 U2 U3 U4]; [by apply unit_of_lookup|].
  split; [done|done| |done]. intros Hc. apply (talker_inv_type _ (AVB1722_audioSampleType t)) in U3; [|done].
  by destruct t.
Qed.

Lemma put_unit_ok conf conf' n s t t0 :
  task_ok conf s -> unit_of n s = Some t0 -> unit_ok (n ∈ conf') t ->
  (forall m, m <> n -> m ∈ conf' <-> m ∈ conf) ->
  Forall (fun n => 0 <= n <= max_active_avb_stream (task_state s)) conf' ->
  task_ok conf' (put_unit n t s).
Proof.
  intros [H1 H2 H3 H4 H5 H6 H7 H8 H9 H10 H11 H12 H13] H0 Ht Hc Hf. split; try done;
    [cbn; unfold set_elem; by rewrite length_insert..|].
  intros m u Hu. destruct (decide (m = n)) as [->|Hne].
  - rewrite (unit_of_put _ _ _ _ H0) in Hu. by simplify_eq.
  - rewrite (unit_of_put_ne _ _ _ _ _ H0 Hne) in Hu. apply fmap_Some in Hu as (u0 & Hu & ->).
    destruct (H7 m u0 Hu) as [U1 U2 U3 U4]. split; [done|done| |].
    + intros Hm. apply talker_inv_type, U3. by apply Hc.
    + intros Ha. apply Hc; [done|]. by apply U4.
Qed.

(** Changes of a stream that leave it as configured as it is. *)
Lemma put_same_ok conf n s t t0 :
  task_ok conf s -> unit_of n s = Some t0 -> unit_ok (n ∈ conf) t -> task_ok conf (put_unit n t s).
Proof. intros H H0 Ht. eapply put_unit_ok; [done..|by destruct H]. Qed.
(** * Commands *)

Definition settings_ok (set : talker_settings) : Prop :=
  is_Some (syt_interval (set_rate set)) /\ set_rate set <= max_audio_sample_rate /\
  length (set_destMACAdrs set) = MAC_ADRS_BYTE_COUNT /\
  (length (set_map set) <= AVB_MAX_CHANNELS_PER_TALKER_STREAM)%nat /\
  Forall (fun m => 0 <= m < Z.of_nat media_inputs) (set_map set).

Definition in_unit (n : Z) : Prop := 0 <= n < Z.of_nat AVB_NUM_SOURCES.

(** A command for a stream the unit has; only a stream that has been configured is
    started. *)
Definition command_ok (conf : list Z) (cmd : talker_command) : Prop :=
  match cmd with
  | CmdConfigure n set => in_unit n /\ settings_ok set
  | CmdDisable n | CmdStop n | CmdSetPort n _ | CmdSetVlan n _ => in_unit n
  | CmdGo n => n ∈ conf
  | CmdGetCounters | OtherCommand => True
  end.
Definition configured_after (conf : list Z) (cmd : talker_command) : list Z :=
  match cmd with CmdConfigure n _ => n :: conf | _ => conf end.

Lemma tx_buf_bytes_big :
  86 <= tx_buf_bytes /\ 52 + 32 * (max_audio_sample_rate / 8000) <= tx_buf_bytes.
Proof.
  pose proof rate_multiple as H8. pose proof rate_positive as Hp. unfold tx_buf_bytes, MAX_PKT_BUF_SIZE_TALKER, AVB1722_TALKER_MAX_NUM_SAMPLES_PER_CHANNEL,
    AVB_ETHERNET_HDR_SIZE, AVB_TP_HDR_SIZE, AVB_CIP_HDR_SIZE, AVB_MAX_CHANNELS_PER_TALKER_STREAM, AVB1722_PACKET_RATE.
  change (Z.of_nat 8) with 8. set (k := max_audio_sample_rate / 8000).
  pose proof (Z.div_mod max_audio_sample_rate 8000 ltac:(lia)) as E. rewrite H8 in E. fold k in E.
  pose proof (Z.div_mod (18 + 24 + 8 + k * 8 * 4 + 4 + 3) 4 ltac:(lia)).
  pose proof (Z.mod_pos_bound (18 + 24 + 8 + k * 8 * 4 + 4 + 3) 4 ltac:(lia)).
  split; unfold AVB_TP_HDR_SIZE; lia.
Qed.

(** The packets of a stream fit into the buffer, whatever its channels, if the highest
    rate is a multiple of the packet rate. *)
Lemma packet_fits set c :
  settings_ok set ->
  talker_num_channels c = Z.of_nat (length (set_map set)) ->
  samples_per_packet_base c = Z.shiftr (samples_per_packet (set_rate set)) 16 ->
  samples_per_packet_fractional c = Z.land (samples_per_packet (set_rate set)) 0xffff ->
  samples_start + 4 * (max_samples c * talker_num_channels c) <= tx_buf_bytes.
Proof.
  intros ([interval Hr] & Hle & _ & Hn & _) Hch Hb Hf. pose proof (rates _ _ Hr) as Hrates.
  assert (0 < set_rate set /\ 8000 * (max_samples c - 1) < set_rate set /\ 1 <= max_samples c) as (Hpos & Hms & Hm1).
  { unfold max_samples. rewrite Hb, Hf. clear -Hrates. remember (samples_per_packet (set_rate set)) as spp.
    clear Heqspp. do 9 (apply elem_of_cons in Hrates; destruct Hrates as [[= -> _ ->]|Hrates]; [by vm_compute|]).
    by apply not_elem_of_nil in Hrates. }
  destruct tx_buf_bytes_big as [_ Hbuf]. change samples_start with 52. rewrite Hch.
  unfold AVB_MAX_CHANNELS_PER_TALKER_STREAM in Hn.
  assert (max_samples c <= max_audio_sample_rate / 8000) as Hmax
    by (pose proof rate_multiple; pose proof (Z.div_mod max_audio_sample_rate 8000 ltac:(lia)); lia).
  set (k := max_audio_sample_rate / 8000) in *. set (l := Z.of_nat _) in *. assert (0 <= l <= 8) by lia. nia.
Qed.

Lemma set_buffer_vlan_run vlan t :
  (18 <= length (tx_buf t))%nat ->
  exists b, avb1722_set_buffer_vlan vlan t = Some (tt, upd_tx_buf (fun _ => b) t) /\ agree_outside 16 2 (tx_buf t) b.
Proof.
  intros Hl. destruct (lookup_lt_is_Some_2 (tx_buf t) 16) as [x Hx]; [lia|].
  eexists. split.
  - unfold avb1722_set_buffer_vlan. change (pEtherHdr + off_flagVID) with 16. change (pEtherHdr + (off_flagVID + 1)) with 17.
    erewrite M_bind_run by (by apply (get_byte_run _ _ x)).
    erewrite M_bind_run by (apply put_run; [done|cbn [length]; lia]).
    erewrite M_bind_run by (apply put_run; [done|cbn [length]; unfold upd_tx_buf; cbn; rewrite ?length_insert; lia]).
    unfold set_vid. change (pEtherHdr + off_flagVID) with 16. change (pEtherHdr + (off_flagVID + 1)) with 17.
    erewrite M_bind_run.
    2: { unfold or_byte. erewrite M_bind_run.
         2: { apply get_byte_run; [done|]. cbn. rewrite list_lookup_insert_ne by done.
              apply list_lookup_insert_eq. lia. }
         apply put_run; [done|cbn; rewrite ?length_insert; lia]. }
    rewrite put_run by (first [done|cbn; rewrite ?length_insert; lia]). unfold upd_tx_buf. cbn [config tx_buf AVB1722_audioSampleType].
    reflexivity.
  - cbn. split; [by rewrite ?length_insert|]. intros j Hj. by rewrite ?list_lookup_insert_ne by lia.
Qed.

Lemma unit_ok_vlan P b t : agree_outside 16 2 (tx_buf t) b -> unit_ok P t -> unit_ok P (upd_tx_buf (fun _ => b) t).
Proof.
  intros [L H] [U1 U2 U3 U4]. split; cbn; [by rewrite L|done| |done].
  intros [I1 I2 I3 I4 I5 I6 (F1 & F2 & F3 & F4)]%U3. split; cbn; try done; [by rewrite L|].
  unfold formatted. rewrite L, !H by lia. done.
Qed.

Lemma set_vlan_ok conf n vlan s :
  task_ok conf s -> in_unit n ->
  exists s', avb_1722_talker_handle_cmd (CmdSetVlan n vlan) s = Some (tt, s') /\ task_ok conf s' /\
    talker_vlan (task_state s') = vlan.
Proof.
  intros H Hn. set (s1 := upd_task_state (upd_talker_vlan (fun _ => vlan)) s).
  assert (task_ok conf s1) as H1 by (by apply (task_ok_ext _ s)).
  destruct (unit_exists _ _ _ H1 Hn) as [t Ht]. pose proof (to_units _ _ H1 _ _ Ht) as Hu.
  destruct tx_buf_bytes_big as [Hb _]. pose proof (uo_buf _ _ Hu).
  destruct (set_buffer_vlan_run vlan t) as (b & E & Hag); [lia|].
  exists (put_unit n (upd_tx_buf (fun _ => b) t) s1). split; [|split; [|done]].
  - cbn [avb_1722_talker_handle_cmd]. erewrite M_bind_run by reflexivity. by apply (on_unit_run _ _ _ t).
  - eapply put_same_ok; [done|exact Ht|]. by apply unit_ok_vlan.
Qed.

(** A command that writes fields of a stream the invariant does not see. *)
Lemma stream_cmd_ok conf n f s t :
  task_ok conf s -> unit_of n s = Some t ->
  talker_map (f (config t)) = talker_map (config t) ->
  (talker_inv media_inputs t -> talker_inv media_inputs (upd_config f t)) ->
  (talker_active (f (config t)) = 2 -> n ∈ conf) ->
  on_talker_stream n (fun c => Some (f c)) s = Some (tt, put_unit n (upd_config f t) s) /\
  task_ok conf (put_unit n (upd_config f t) s).
Proof.
  intros H Ht Hm Hi Ha. split.
  - by rewrite (on_talker_stream_run _ _ _ t (f (config t))).
  - destruct (to_units _ _ H _ _ Ht) as [U1 U2 U3 U4]. eapply put_same_ok; [done|exact Ht|].
    split; [done|cbn; congruence| |done]. intros Hc. by apply Hi, U3.
Qed.

Lemma configure_cmd_ok conf n set s :
  task_ok conf s -> in_unit n -> settings_ok set ->
  exists s' t t', avb_1722_talker_handle_cmd (CmdConfigure n set) s = Some (tt, s') /\ task_ok (n :: conf) s' /\
    unit_of n s = Some t /\ unit_of n s' = Some t' /\ s' = put_unit n t' (upd_task_state (upd_max_active_avb_stream (Z.max n)) s) /\
    just_configured (config t') /\ talker_active (config t') = 1 /\ tagged (talker_vlan (task_state s)) (tx_buf t').
Proof.
  intros H Hn Hset. pose proof Hset as ([interval Hr] & Hle & Hd & Hl & Hmap).
  destruct tx_buf_bytes_big as [Hb _].
  destruct (unit_exists _ _ _ H Hn) as [t Ht]. pose proof (to_units _ _ H _ _ Ht) as [U1 U2 _ _].
  destruct (configure_talker_run set (talker_mac_addr (task_state s)) (talker_vlan (task_state s)) t interval)
    as (c & b & E1 & E2 & Hc & _ & _ & _ & Hch & _ & Hbase & Hfrac & Lb & Htag & Hinv); try done; [apply H|lia|].
  cbv zeta in E2. set (t1 := upd_config (fun _ => c) t) in *.
  set (t' := upd_AVB1722_audioSampleType _ _) in *.
  set (s1 := upd_task_state (upd_max_active_avb_stream (Z.max n)) s).
  assert (talker_inv media_inputs t') as Hinv'.
  { apply Hinv; [done|]. rewrite U1. by apply (packet_fits set). }
  assert (unit_of n s1 = Some t) as Ht1 by (apply unit_of_lookup; by apply unit_of_lookup in Ht).
  assert (talker_active c = 1) as Ha.
  { revert E1. unfold configure_talker_stream. repeat case_match; try done. by intros [= <-]. }
  assert (task_ok conf s1 /\ 0 <= n <= max_active_avb_stream (task_state s1)) as [Hs1 Hmax].
  { pose proof (to_max _ _ H). split; [|unfold in_unit in *; cbn; lia].
    destruct H as [K1 K2 K3 K4 K5 K6 K7 K8 K9 K10 K11 K12 K13]. split; try done; cbn.
    - unfold in_unit in *. lia.
    - eapply list.Forall_impl; [exact K6|]. cbn. lia. }
  exists (put_unit n t' s1), t, t'. split; [|split; [|split; [done|split; [by eapply unit_of_put|split_and!; try done; by apply Ha]]]].
  - cbn [avb_1722_talker_handle_cmd]. erewrite M_bind_run by reflexivity.
    erewrite M_bind_run by (by apply (on_talker_stream_run _ _ _ t c)). fold t1.
    erewrite (M_bind_run _ _ _ tt (put_unit n t1 s1)).
    2: { unfold on_state, modify, s1. do 2 f_equal. destruct s as [[]]. unfold put_unit, upd_audio_sample_type,
           upd_task_state, upd_talker_streams, upd_tx_bufs, upd_max_active_avb_stream. cbn.
         match goal with |- context [?x <? n] => destruct (Z.ltb_spec x n) end; do 2 f_equal; lia. }
    erewrite M_bind_run by reflexivity.
    rewrite <- (put_unit_twice n t1 t' s1). apply (on_unit_run _ _ _ t1); [by eapply unit_of_put|exact E2].
  - eapply put_unit_ok; [exact Hs1|exact Ht1| | |].
    + split; [cbn; by rewrite Lb|by apply Hinv'|done|]. intros _. by left.
    + intros m Hm. rewrite elem_of_cons. naive_solver.
    + constructor; [done|]. apply Hs1.
Qed.

Lemma handle_cmd_ok conf cmd s :
  task_ok conf s -> command_ok conf cmd ->
  exists s', avb_1722_talker_handle_cmd cmd s = Some (tt, s') /\ task_ok (configured_after conf cmd) s'.
Proof.
  intros H. assert (forall n, n ∈ conf -> in_unit n) as Hconf.
  { intros n Hn. pose proof (to_max _ _ H). pose proof (to_conf _ _ H) as Hf.
    rewrite list.Forall_forall in Hf. specialize (Hf _ Hn). unfold in_unit. lia. }
  assert (forall n f, in_unit n -> (forall c, talker_map (f c) = talker_map c) ->
    (forall t, talker_inv media_inputs t -> talker_inv media_inputs (upd_config f t)) ->
    (forall t, unit_of n s = Some t -> talker_active (f (config t)) = 2 -> n ∈ conf) ->
    exists s', on_talker_stream n (fun c => Some (f c)) s = Some (tt, s') /\ task_ok conf s') as Hstream.
  { intros n f Hn Hm Hi Ha. destruct (unit_exists _ _ _ H Hn) as [t Ht]. eexists.
    apply (stream_cmd_ok conf n f s t); [done|done|apply Hm|apply Hi|by apply Ha]. }
  destruct cmd as [n set|n|n|n|n port|n vlan| |]; cbn [command_ok configured_after]; intros Hc.
  - destruct Hc as [Hn Hset]. destruct (configure_cmd_ok conf n set s) as (s' & t & t' & E & H' & _); [done..|]. by exists s'.
  - apply (Hstream n disable_talker_stream); [done..|by intros t []; split|done].
  - apply (Hstream n start_stream); [by apply Hconf|done|by intros t []; split|done].
  - apply (Hstream n stop_stream); [done..|by intros t []; split|done].
  - apply (Hstream n (upd_txport (fun _ => port))); [done..|by intros t []; split|].
    intros t Ht Ha. by apply (uo_active _ _ (to_units _ _ H _ _ Ht)).
  - destruct (set_vlan_ok conf n vlan s) as (s' & E & H' & _); [done..|]. by exists s'.
  - eexists. split; [reflexivity|]. apply (task_ok_ext _ s); try done. unfold upd_task_out. cbn [task_out].
    by rewrite sent_packets_app, app_nil_r.
  - by exists s.
Qed.

(** * Frames *)

Definition clear_if (b : bool) (s : talker_task) : talker_task :=
  if b then upd_sample_buffer (upd_data_ready (fun _ => 0)) s else s.
Definition waiting (i size : Z) (s : talker_task) : talker_task :=
  upd_task_state (upd_tx_buf_fill_size (set_elem i size)) s.

Lemma clear_if_ok conf b s : task_ok conf s -> task_ok conf (clear_if b s).
Proof. intros H. destruct b; [by apply (task_ok_ext _ s)|done]. Qed.

Lemma last_stream_run i s :
  (mx ← talker_st max_active_avb_stream; whenM (i =? mx) (modify (upd_sample_buffer (upd_data_ready (fun _ => 0))))) s =
  Some (tt, clear_if (i =? max_active_avb_stream (task_state s)) s).
Proof. erewrite M_bind_run by reflexivity. unfold clear_if. by destruct (_ =? _). Qed.

Lemma the_stream_run i s t : unit_of i s = Some t -> the_talker_stream i s = Some (config t, s).
Proof. intros (H & _)%unit_of_lookup. unfold the_talker_stream, load. by rewrite H. Qed.

Lemma frame_to_stream_idle frame i s t :
  unit_of (Z.of_nat i) s = Some t -> talker_active (config t) <> 2 ->
  frame_to_stream frame i s = Some (tt, clear_if (Z.of_nat i =? max_active_avb_stream (task_state s)) s).
Proof.
  intros Ht Ha. unfold frame_to_stream. erewrite M_bind_run by (by apply the_stream_run).
  rewrite (proj2 (Z.eqb_neq _ _) Ha). erewrite M_bind_run by reflexivity. apply last_stream_run.
Qed.

(** A frame for an active stream: a packet that becomes complete waits, unless another
    one does. *)
Lemma frame_to_stream_run frame i s t r t' size :
  unit_of (Z.of_nat i) s = Some t -> talker_active (config t) = 2 ->
  avb1722_create_packet (task_time_info s) frame t = Some (r, t') ->
  elem_at (tx_buf_fill_size (task_state s)) (Z.of_nat i) = Some size ->
  frame_to_stream frame i s = Some (tt, clear_if (Z.of_nat i =? max_active_avb_stream (task_state s))
    (waiting (Z.of_nat i) (if size =? 0 then r else size) (put_unit (Z.of_nat i) t' s))).
Proof.
  intros Ht Ha E Hsize. unfold frame_to_stream. erewrite M_bind_run by (by apply the_stream_run).
  rewrite Ha. cbn [whenM Z.eqb Pos.eqb]. set (s1 := put_unit (Z.of_nat i) t' s).
  assert (elem_at (tx_buf_fill_size (task_state s1)) (Z.of_nat i) = Some size) as Hsize1 by done.
  erewrite M_bind_run.
  2: { erewrite M_bind_run by reflexivity. erewrite M_bind_run by (by apply (on_unit_run _ _ _ t r t')). fold s1.
       erewrite M_bind_run by (unfold fill_size, load; by rewrite Hsize1).
       instantiate (1 := waiting (Z.of_nat i) (if size =? 0 then r else size) s1). instantiate (1 := tt).
       destruct (size =? 0); cbn [whenM].
       - unfold set_fill_size, store. by rewrite Hsize1.
       - unfold skip, mret, M_ret, waiting. do 2 f_equal. generalize s1 Hsize1. intros [[]] Hs. cbn in Hs.
         unfold upd_task_state, upd_tx_buf_fill_size. cbn. by rewrite (set_elem_id _ _ _ Hs). }
  apply (last_stream_run _ (waiting _ _ s1)).
Qed.

Lemma waiting_task_ok conf i size s :
  (size = 0 \/ 50 <= size /\ Buf + size <= tx_buf_bytes) -> task_ok conf s -> task_ok conf (waiting i size s).
Proof.
  intros Hsize [H1 H2 H3 H4 H5 H6 H7 H8 H9 H10 H11 H12 H13]. split; try done; cbn.
  - unfold set_elem. by rewrite length_insert.
  - unfold set_elem. by apply Forall_insert.
Qed.

Lemma elem_at_fill conf s i :
  task_ok conf s -> (i < AVB_NUM_SOURCES)%nat ->
  exists size, elem_at (tx_buf_fill_size (task_state s)) (Z.of_nat i) = Some size /\
    (size = 0 \/ 50 <= size /\ Buf + size <= tx_buf_bytes).
Proof.
  intros H Hi. destruct (elem_at_in (tx_buf_fill_size (task_state s)) (Z.of_nat i)) as [size Hs].
  { rewrite (to_fill _ _ H). lia. }
  exists size. split; [done|]. pose proof (to_waiting _ _ H) as Hw. apply elem_at_lookup in Hs as [_ Hs].
  exact (Forall_lookup_1 _ _ _ _ Hw Hs).
Qed.

(** An active stream takes any frame. *)
Lemma create_ok conf s i t frame :
  task_ok conf s -> unit_of i s = Some t -> talker_active (config t) = 2 ->
  length (frame_samples frame) = media_inputs ->
  exists r t', avb1722_create_packet (task_time_info s) frame t = Some (r, t') /\ talker_inv media_inputs t' /\
    same_talker_stream t t' /\ task_ok conf (put_unit i t' s) /\ (r = 0 \/ 50 <= r /\ Buf + r <= tx_buf_bytes).
Proof.
  intros H Ht Ha Hf. destruct (to_units _ _ H _ _ Ht) as [U1 U2 U3 U4]. pose proof (U4 Ha) as Hc. pose proof (U3 Hc) as Hi.
  destruct (create_packet_run media_inputs (task_time_info s) frame t Hi Hf) as (r & t' & E & Hi' & Hs & _ & _ & Hend).
  exists r, t'. split; [done|]. split; [done|]. split; [done|]. pose proof Hs as [S1 S2 S3 S4 S5 S6 S7 S8 S9 S10 S11]. split.
  - eapply put_same_ok; [done|exact Ht|]. split; [by rewrite S9|by rewrite S2|done|by rewrite S10].
  - pose proof (samples_le_max _ _ Hi). pose proof (ti_room _ _ Hi) as Hroom. rewrite U1 in Hroom.
    pose proof (ti_current _ _ Hi). destruct (ti_map _ _ Hi) as (_ & Hn & _).
    destruct (_ =? _); [right|left; apply Hend]. destruct Hend as [-> _]. unfold Buf. change samples_start with 52 in Hroom. nia.
Qed.

Lemma frame_to_stream_ok conf frame i s :
  task_ok conf s -> (i < AVB_NUM_SOURCES)%nat -> length (frame_samples frame) = media_inputs ->
  exists s', frame_to_stream frame i s = Some (tt, s') /\ task_ok conf s' /\
    max_active_avb_stream (task_state s') = max_active_avb_stream (task_state s).
Proof.
  intros H Hi Hf. destruct (unit_exists _ s (Z.of_nat i) H) as [t Ht]; [lia|].
  destruct (decide (talker_active (config t) = 2)) as [Ha|Ha].
  - destruct (elem_at_fill _ _ _ H Hi) as (size & Hs & Hsize).
    destruct (create_ok _ _ _ _ frame H Ht Ha Hf) as (r & t' & E & _ & _ & Hok & Hr).
    eexists. split; [by apply (frame_to_stream_run _ _ _ t r t' size)|]. split.
    + apply clear_if_ok, waiting_task_ok; [by destruct (size =? 0)|done].
    + by destruct (Z.of_nat i =? _).
  - eexists. split; [by apply (frame_to_stream_idle _ _ _ t)|]. split; [by apply clear_if_ok|]. by destruct (Z.of_nat i =? _).
Qed.

Lemma create_packets_ok conf frame s :
  task_ok conf s -> length (frame_samples frame) = media_inputs ->
  exists s', create_packets frame s = Some (tt, s') /\ task_ok conf s'.
Proof.
  intros H Hf. unfold create_packets, active_range. erewrite M_bind_run by reflexivity.
  set (l := seq 0 (Z.to_nat (max_active_avb_stream (task_state s) + 1))).
  assert (Forall (fun i => (i < AVB_NUM_SOURCES)%nat) l) as Hl.
  { apply list.Forall_forall. intros i Hi. apply elem_of_seq in Hi. pose proof (to_max _ _ H). lia. }
  assert (wp true (forM l (frame_to_stream frame)) (fun _ s' => task_ok conf s') s) as Hwp.
  { eapply wp_mono; [apply (wp_forM true l _ (fun l' s' => Forall (fun i => (i < AVB_NUM_SOURCES)%nat) l' /\ task_ok conf s'))|].
    - done.
    - intros i l' s' [[Hi Hl']%list.Forall_cons H']. destruct (frame_to_stream_ok _ frame _ _ H' Hi Hf) as (s2 & E & H2 & _).
      by eapply wp_intro.
    - by intros _ s' [_ H']. }
  destruct (wp_elim true _ _ _ eq_refl Hwp) as ([] & s' & E & H'). by exists s'.
Qed.

(** * Packets *)

Definition waiting_size (s : talker_task) (i : nat) : Z := tx_buf_fill_size (task_state s) !!! i.
Definition waiting_packet (s : talker_task) (i : nat) : list Z :=
  take (Z.to_nat (waiting_size s i)) (drop (Z.to_nat Buf) (tx_bufs (task_state s) !!! i)).

(** After the packet of stream [i] has been sent. *)
Definition sent_from (i : nat) (s : talker_task) : talker_task :=
  upd_task_state (upd_sent_1722 (fun n => u32 (n + 1)))
    (waiting (Z.of_nat i) 0 (upd_task_out (fun l => l ++ [SendPacket (waiting_packet s i)]) s)).

(** The arrays reach as far as the streams, and the packets that wait lie in them. *)
Definition sendable (s : talker_task) (i : nat) : Prop :=
  (i < length (tx_buf_fill_size (task_state s)))%nat /\ (i < length (tx_bufs (task_state s)))%nat /\
  Buf + waiting_size s i <= Z.of_nat (length (tx_bufs (task_state s) !!! i)).

Lemma elem_at_nat {A} `{!Inhabited A} (l : list A) (i : nat) : (i < length l)%nat -> elem_at l (Z.of_nat i) = Some (l !!! i).
Proof. intros H. apply elem_at_lookup. rewrite Nat2Z.id. split; [lia|]. by apply list_lookup_lookup_total_lt. Qed.

Lemma send_if_full_run i s :
  sendable s i ->
  send_if_full i s = if decide (waiting_size s i <> 0) then Some (Some tt, sent_from i s) else Some (None, s).
Proof.
  intros (Hf & Hb & Hfit). unfold send_if_full, fill_size.
  erewrite M_bind_run by (unfold load; by rewrite elem_at_nat). fold (waiting_size s i).
  destruct (Z.eqb_spec (waiting_size s i) 0) as [E|E]; [by rewrite decide_False by tauto|].
  rewrite decide_True by done. erewrite M_bind_run.
  2: { unfold send_from_buffer. erewrite M_bind_run by
         (unfold load; rewrite elem_at_nat by done; cbn [mbind option_bind]; by rewrite (proj2 (Z.leb_le _ _) Hfit)).
       fold (waiting_packet s i). reflexivity. }
  erewrite M_bind_run.
  2: { unfold set_fill_size, store. change (tx_buf_fill_size (task_state (upd_task_out ?f s)))
         with (tx_buf_fill_size (task_state s)). by rewrite elem_at_nat. }
  reflexivity.
Qed.

(** One packet at most: that of the first stream that has one. *)
Lemma send_first_run s :
  (forall i, (i < Z.to_nat (max_active_avb_stream (task_state s) + 1))%nat -> sendable s i) ->
  send_first_packet s =
    match list_find (fun i => waiting_size s i <> 0) (seq 0 (Z.to_nat (max_active_avb_stream (task_state s) + 1))) with
    | Some (_, i) => Some (tt, sent_from i s)
    | None => Some (tt, s)
    end.
Proof.
  intros H. unfold send_first_packet, active_range. erewrite M_bind_run by reflexivity.
  unfold mbind at 1, M_bind at 1.
  rewrite (forM_until_find (fun i => waiting_size s i <> 0) _ _ (fun _ => tt) sent_from).
  - by destruct (list_find _ _) as [[]|].
  - intros i Hi%elem_of_seq. apply send_if_full_run, H. lia.
Qed.

Lemma ok_sendable conf s i : task_ok conf s -> (i < AVB_NUM_SOURCES)%nat -> sendable s i.
Proof.
  intros H Hi. unfold sendable. rewrite (to_fill _ _ H), (to_bufs _ _ H). split_and!; [done..|].
  destruct (elem_at_fill _ _ _ H Hi) as (size & Hs & Hsize). rewrite elem_at_nat in Hs by (by rewrite (to_fill _ _ H)).
  injection Hs as Hs. unfold waiting_size. rewrite Hs.
  destruct (unit_exists _ s (Z.of_nat i) H) as [t Ht]; [lia|]. pose proof (uo_buf _ _ (to_units _ _ H _ _ Ht)) as Hb.
  apply unit_of_lookup in Ht as (_ & Ht & _). rewrite elem_at_nat in Ht by (by rewrite (to_bufs _ _ H)).
  injection Ht as ->. rewrite Hb. destruct tx_buf_bytes_big. unfold Buf in *. lia.
Qed.

Lemma sent_from_ok conf s i :
  task_ok conf s -> (i < AVB_NUM_SOURCES)%nat -> waiting_size s i <> 0 -> task_ok conf (sent_from i s).
Proof.
  intros H Hi Hne. pose proof (ok_sendable _ _ _ H Hi) as (Hf & Hb & Hfit).
  destruct (elem_at_fill _ _ _ H Hi) as (size & Hs & Hsize). rewrite elem_at_nat in Hs by done. injection Hs as Hs.
  fold (waiting_size s i) in Hs. assert (50 <= size /\ Buf + size <= tx_buf_bytes) as Hs2 by (destruct Hsize; lia).
  assert (task_ok conf (waiting (Z.of_nat i) 0 s)) as Hw by (apply waiting_task_ok; [by left|done]).
  destruct Hw as [H1 H2 H3 H4 H5 H6 H7 H8 H9 H10 H11 H12 H13]. split; try done; unfold sent_from; cbn [task_out upd_task_out
    upd_task_state waiting task_state upd_sent_1722 sent_1722 upd_tx_buf_fill_size].
  - change (sent_1722 (task_state s) = u32 (Z.of_nat (length (sent_packets (task_out s))))) in H9. rewrite H9.
    rewrite sent_packets_app, length_app, Nat2Z.inj_add. unfold u32, wrap. by rewrite Zplus_mod_idemp_l.
  - rewrite sent_packets_app. apply Forall_app. split; [done|]. constructor; [|done]. unfold waiting_packet.
    rewrite length_take, length_drop. unfold Buf in *. lia.
Qed.

Lemma send_first_ok conf s : task_ok conf s -> exists s', send_first_packet s = Some (tt, s') /\ task_ok conf s'.
Proof.
  intros H. pose proof (to_max _ _ H) as Hm. rewrite send_first_run.
  - destruct (list_find _ _) as [[k i]|] eqn:E; [|by exists s].
    apply list_find_Some in E as (Hi & Hne & _). apply lookup_seq in Hi as [-> Hi].
    eexists. split; [done|]. apply sent_from_ok; [done|lia|done].
  - intros i Hi. apply (ok_sendable conf); [done|lia].
Qed.

Lemma send_packets_ok conf s :
  task_ok conf s -> exists s', avb_1722_talker_send_packets s = Some (tt, s') /\ task_ok conf s'.
Proof.
  intros H. unfold avb_1722_talker_send_packets. erewrite M_bind_run by reflexivity.
  destruct (_ =? 0); [by exists s|]. cbv zeta. erewrite M_bind_run by reflexivity. destruct (_ =? -1); [by exists s|].
  destruct (elem_at_in (frame_buffer (sample_buffer s)) (c_int (active_buffer (sample_buffer s) =? 0))) as [frame Hf].
  { rewrite (to_frames _ _ H). by destruct (_ =? 0). }
  erewrite M_bind_run by (unfold load; by rewrite Hf).
  destruct (create_packets_ok _ frame _ H) as (s1 & E1 & H1).
  { apply elem_at_lookup in Hf as [_ Hf]. exact (Forall_lookup_1 _ _ _ _ (to_samples _ _ H) Hf). }
  erewrite M_bind_run by exact E1. by apply send_first_ok.
Qed.

(** * Runs *)

(** What a run may do, with the streams configured so far: commands as above, and frames
    with all inputs. *)
Fixpoint steps_ok (conf : list Z) (steps : list talker_step) : Prop :=
  match steps with
  | [] => True
  | Serve (TalkerCommand cmd) :: steps' => command_ok conf cmd /\ steps_ok (configured_after conf cmd) steps'
  | FrameIn frame :: steps' => length (frame_samples frame) = media_inputs /\ steps_ok conf steps'
  | _ :: steps' => steps_ok conf steps'
  end.

Lemma frame_in_ok conf frame s :
  task_ok conf s -> length (frame_samples frame) = media_inputs ->
  task_ok conf (upd_sample_buffer (frame_arrives frame) s).
Proof.
  intros [H1 H2 H3 H4 H5 H6 H7 H8 H9 H10 H11 H12 H13] Hf. split; try done; cbn; unfold set_elem.
  - by rewrite length_insert.
  - by apply Forall_insert.
  - by destruct (_ =? 0).
Qed.

Lemma timer_ok conf now s :
  task_ok conf s -> exists s', talker_serve (TalkerTimer now) s = Some (tt, s') /\ task_ok conf s'.
Proof.
  intros H. cbn [talker_serve]. erewrite M_bind_run by reflexivity.
  destruct (_ =? 0); (eexists; split; [reflexivity|]); apply (task_ok_ext _ s); try done.
  cbn. by rewrite sent_packets_app, app_nil_r.
Qed.

(** The streams configured after a run. *)
Fixpoint configured_by (conf : list Z) (steps : list talker_step) : list Z :=
  match steps with
  | [] => conf
  | Serve (TalkerCommand cmd) :: steps' => configured_by (configured_after conf cmd) steps'
  | _ :: steps' => configured_by conf steps'
  end.

Lemma run_ok steps : forall conf s,
  task_ok conf s -> steps_ok conf steps ->
  exists s', talker_run steps s = Some (tt, s') /\ task_ok (configured_by conf steps) s'.
Proof.
  induction steps as [|st steps IH]; intros conf s H Hok; [by exists s|].
  assert (exists conf1 s1, talker_do st s = Some (tt, s1) /\ task_ok conf1 s1 /\ steps_ok conf1 steps /\
    configured_by conf (st :: steps) = configured_by conf1 steps) as (conf1 & s1 & E1 & H1 & Hok1 & ->).
  { destruct st as [[cmd|now|info|]|frame]; cbn [steps_ok configured_by] in *.
    - destruct Hok as [Hc Hok]. destruct (handle_cmd_ok _ _ _ H Hc) as (s' & E & H'). by exists (configured_after conf cmd), s'.
    - destruct (timer_ok conf now s H) as (s' & E & H'). by exists conf, s'.
    - exists conf. eexists. split; [reflexivity|]. split; [|done]. by apply (task_ok_ext _ s).
    - destruct (send_packets_ok conf s H) as (s' & E & H'). by exists conf, s'.
    - destruct Hok as [Hf Hok]. exists conf. eexists. split; [reflexivity|]. split; [by apply frame_in_ok|done]. }
  destruct (IH conf1 s1 H1 Hok1) as (s' & E & H'). exists s'. split; [|done].
  unfold talker_run. cbn [forM]. by erewrite M_bind_run by exact E1.
Qed.

(** What the task finds: arrays of any content, no packet sent. *)
Record fresh_task (s : talker_task) : Prop := {
  ft_streams : length (talker_streams (task_state s)) = AVB_NUM_SOURCES;
  ft_maps : Forall (fun c => length (talker_map c) = AVB_MAX_CHANNELS_PER_TALKER_STREAM) (talker_streams (task_state s));
  ft_bufs : length (tx_bufs (task_state s)) = AVB_NUM_SOURCES;
  ft_sizes : Forall (fun b => Z.of_nat (length b) = tx_buf_bytes) (tx_bufs (task_state s));
  ft_fill : length (tx_buf_fill_size (task_state s)) = AVB_NUM_SOURCES;
  ft_frames : length (frame_buffer (sample_buffer s)) = 2%nat;
  ft_samples : Forall (fun f => length (frame_samples f) = media_inputs) (frame_buffer (sample_buffer s));
  ft_active_buffer : 0 <= active_buffer (sample_buffer s) <= 1;
  ft_out : task_out s = [];
}.

(** Each element of an array is set in turn. *)
Lemma clear_fill_run s :
  length (tx_buf_fill_size (task_state s)) = AVB_NUM_SOURCES ->
  exists f, forM (seq 0 AVB_NUM_SOURCES) (fun i => set_fill_size (Z.of_nat i) 0) s =
      Some (tt, upd_task_state (upd_tx_buf_fill_size (fun _ => f)) s) /\
    length f = AVB_NUM_SOURCES /\ Forall (fun size => size = 0) f.
Proof.
  intros Hl. set (I := fun (l : list nat) s' => exists f, s' = upd_task_state (upd_tx_buf_fill_size (fun _ => f)) s /\
    length f = AVB_NUM_SOURCES /\ Forall (fun i => (i < AVB_NUM_SOURCES)%nat) l /\
    forall i size, f !! i = Some size -> i ∉ l -> size = 0).
  assert (wp true (forM (seq 0 AVB_NUM_SOURCES) (fun i => set_fill_size (Z.of_nat i) 0)) (fun _ => I []) s) as Hwp.
  { apply wp_forM.
    - exists (tx_buf_fill_size (task_state s)). split; [by destruct s as [[]]|]. split; [done|]. split.
      + apply list.Forall_forall. intros i Hi%elem_of_seq. lia.
      + intros i size Hi%lookup_lt_Some Hn. destruct Hn. apply elem_of_seq. lia.
    - intros x l s' (f & -> & Lf & [Hx Hl']%list.Forall_cons & Hf). eapply wp_store.
      { cbn. rewrite elem_at_nat by lia. reflexivity. }
      exists (set_elem (Z.of_nat x) 0 f). split; [by destruct s as [[]]|]. unfold set_elem. rewrite Nat2Z.id, length_insert.
      split; [done|]. split; [done|]. intros i size Hi Hn. apply list_lookup_insert_Some in Hi as [(-> & <- & _)|[Hne Hi]]; [done|].
      apply (Hf i); [done|]. rewrite not_elem_of_cons. by split. }
  destruct (wp_elim true _ _ _ eq_refl Hwp) as ([] & s' & E & f & -> & Lf & _ & Hf). exists f. split; [done|]. split; [done|].
  apply Forall_lookup_2. intros i size Hi. apply (Hf i); [done|]. apply not_elem_of_nil.
Qed.

Lemma deactivate_run s :
  length (talker_streams (task_state s)) = AVB_NUM_SOURCES ->
  Forall (fun c => length (talker_map c) = AVB_MAX_CHANNELS_PER_TALKER_STREAM) (talker_streams (task_state s)) ->
  exists cs, forM (seq 0 AVB_MAX_STREAMS_PER_TALKER_UNIT) (fun i =>
        on_talker_stream (Z.of_nat i) (fun c => Some (upd_talker_active (fun _ => 0) c))) s =
      Some (tt, upd_task_state (upd_talker_streams (fun _ => cs)) s) /\
    length cs = AVB_NUM_SOURCES /\
    Forall (fun c => talker_active c = 0 /\ length (talker_map c) = AVB_MAX_CHANNELS_PER_TALKER_STREAM) cs.
Proof.
  intros Hl Hm. unfold AVB_MAX_STREAMS_PER_TALKER_UNIT.
  set (I := fun (l : list nat) s' => exists cs, s' = upd_task_state (upd_talker_streams (fun _ => cs)) s /\
    length cs = AVB_NUM_SOURCES /\ Forall (fun i => (i < AVB_NUM_SOURCES)%nat) l /\
    forall i c, cs !! i = Some c -> length (talker_map c) = AVB_MAX_CHANNELS_PER_TALKER_STREAM /\ (i ∉ l -> talker_active c = 0)).
  assert (wp true (forM (seq 0 AVB_NUM_SOURCES) (fun i =>
        on_talker_stream (Z.of_nat i) (fun c => Some (upd_talker_active (fun _ => 0) c)))) (fun _ => I []) s) as Hwp.
  { apply wp_forM.
    - exists (talker_streams (task_state s)). split; [by destruct s as [[]]|]. split; [done|]. split.
      + apply list.Forall_forall. intros i Hi%elem_of_seq. lia.
      + intros i c Hi. split; [exact (Forall_lookup_1 _ _ _ _ Hm Hi)|]. intros Hn. destruct Hn.
        apply lookup_lt_Some in Hi. apply elem_of_seq. lia.
    - intros x l s' (cs & -> & Lc & [Hx Hl']%list.Forall_cons & Hc).
      destruct (lookup_lt_is_Some_2 cs x) as [c Ex]; [lia|]. eapply wp_store.
      { cbn. rewrite (proj2 (elem_at_lookup cs (Z.of_nat x) c)) by (rewrite Nat2Z.id; split; [lia|done]). reflexivity. }
      exists (set_elem (Z.of_nat x) (upd_talker_active (fun _ => 0) c) cs). split; [by destruct s as [[]]|].
      unfold set_elem. rewrite Nat2Z.id, length_insert. split; [done|]. split; [done|].
      intros i c' Hi. apply list_lookup_insert_Some in Hi as [(-> & <- & _)|[Hne Hi]].
      + split; [exact (proj1 (Hc i c Ex))|done].
      + destruct (Hc i c' Hi) as [H1 H2]. split; [done|]. intros Hn. apply H2. rewrite not_elem_of_cons. by split. }
  destruct (wp_elim true _ _ _ eq_refl Hwp) as ([] & s' & E & cs & -> & Lc & _ & Hc). exists cs. split; [done|]. split; [done|].
  apply Forall_lookup_2. intros i c Hi. destruct (Hc i c Hi) as [H1 H2]. split; [|done]. apply H2, not_elem_of_nil.
Qed.

Lemma start_ok num_streams mac_addr info now s :
  fresh_task s -> length mac_addr = MAC_ADRS_BYTE_COUNT ->
  exists s', avb_1722_talker_start num_streams mac_addr info now s = Some (tt, s') /\ task_ok [] s'.
Proof.
  intros [F1 F2 F3 F4 F5 F6 F7 F8 F9] Hmac. unfold avb_1722_talker_start, avb_1722_talker_init.
  erewrite M_bind_run by reflexivity.
  set (s1 := upd_task_state (fun st => MkTalkerState (tx_bufs st) (tx_buf_fill_size st) (talker_streams st) (-1) 0
        (talker_mac_addr st) 0 (sent_1722 st)) (upd_pending_timeinfo (fun _ => 0) s)).
  destruct (clear_fill_run s1) as (f & E1 & Lf & Hf); [done|].
  set (s2 := upd_task_state (fun st => MkTalkerState (tx_bufs st) (tx_buf_fill_size st) (talker_streams st)
        (max_active_avb_stream st) (cur_avb_stream st) mac_addr (talker_vlan st) (sent_1722 st))
        (upd_task_out (fun l => l ++ [RegisterTalkerStreams num_streams])
          (upd_task_state (upd_tx_buf_fill_size (fun _ => f)) s1))).
  destruct (deactivate_run s2) as (cs & E2 & Lc & Hc); [done..|].
  erewrite M_bind_run.
  2: { erewrite M_bind_run by reflexivity. fold s1. erewrite M_bind_run by exact E1. erewrite M_bind_run by reflexivity.
       erewrite M_bind_run by reflexivity. fold s2. erewrite M_bind_run by exact E2. reflexivity. }
  eexists. split; [reflexivity|]. split; try done; cbn.
  - lia.
  - intros n t (A1 & A2 & A3)%unit_of_lookup. cbn in A1, A2. apply elem_at_lookup in A1 as [_ A1], A2 as [_ A2].
    destruct (Forall_lookup_1 _ _ _ _ Hc A1) as [Ha Hm]. split; [exact (Forall_lookup_1 _ _ _ _ F4 A2)|done| |congruence].
    by intros ?%not_elem_of_nil.
  - eapply list.Forall_impl; [exact Hf|]. by left.
  - by rewrite F9.
  - by rewrite F9.
Qed.

(** A talker unit serves everything: from its start, with arrays of any content, any
    order of commands for streams it has that starts configured streams only, with frames
    and time in between, is served to the end, within the arrays; every packet sent has a
    header at least and fits into its buffer, and the counter counts the packets. *)
Lemma talker_task_safe num_streams mac_addr info now steps s :
  fresh_task s -> length mac_addr = MAC_ADRS_BYTE_COUNT -> steps_ok [] steps ->
  exists s', (_ ← avb_1722_talker_start num_streams mac_addr info now; talker_run steps) s = Some (tt, s') /\
    sent_1722 (task_state s') = u32 (Z.of_nat (length (sent_packets (task_out s')))) /\
    Forall (fun p => 50 <= Z.of_nat (length p) <= tx_buf_bytes - 2) (sent_packets (task_out s')).
Proof.
  intros Hs Hm Hok. destruct (start_ok num_streams mac_addr info now s Hs Hm) as (s1 & E1 & H1).
  destruct (run_ok steps [] s1 H1 Hok) as (s' & E2 & H2). exists s'.
  split; [by erewrite M_bind_run by exact E1|]. split; [by apply H2|by apply H2].
Qed.
End Units.
