(* ===== verification/TalkerUnits.v ===== *)
(** What a talker unit sends: one stream alone, two streams at once, the VLAN of a stream;
    and the commands the AVB manager gives it.

    Fed with frames, a unit with one active stream sends the packets of TalkerStream.  Of
    two streams that complete their packets with the same frame, the second is damaged.
    The VLAN of a stream may be that of another one.  The manager starts no stream it has
    not configured, so that the task serves all its commands. *)
From S2P Require Import Prelude MrpTypes MediaClock AvbApi AvbManager AvbManagerSpec AvbManagerStates Bytes PtpTime AudioFifo Listener1722 Talker1722 TalkerSpec TalkerStream TalkerTask.
From Stdlib Require Import ZArith Lia.
From stdpp Require Import base list list_numbers numbers option.
#[local] Open Scope Z_scope.

Section Units.
Context `{cfg : Config} `{tcfg : TalkerConfig} `{wf_rates : !TalkerRates}.
Implicit Types s : talker_task.

(** * A frame on its way *)

(** The state in which the task handles a frame that has just come. *)
Definition fed (info : ptp_time_info_mod64) (frame : audio_frame_t) (s : talker_task) : talker_task :=
  upd_sample_buffer (frame_arrives frame) (upd_pending_timeinfo (fun _ => 0) (upd_task_time_info (fun _ => info) s)).
Definition feed_one (f : timed_frame) : list talker_step :=
  [Serve (TimeInfoArrives f.1); FrameIn f.2; Serve NothingPending].
(** Frames one by one, each with the time information it finds. *)
Definition feed (frames : list timed_frame) : list talker_step := flat_map feed_one frames.

Lemma feed_one_run conf info frame s :
  task_ok conf s -> max_active_avb_stream (task_state s) <> -1 ->
  talker_run (feed_one (info, frame)) s = (_ ← create_packets frame; send_first_packet) (fed info frame s).
Proof.
  intros H Hmax. unfold talker_run, feed_one. cbn [forM fst snd].
  erewrite M_bind_run by reflexivity. erewrite M_bind_run by reflexivity. fold (fed info frame s).
  assert (forall m : M talker_task unit, (m ≫= fun _ => skip) (fed info frame s) = m (fed info frame s)) as ->.
  { intros m. unfold mbind, M_bind. by destruct (m _) as [[[] ?]|]. }
  cbn [talker_do talker_serve]. unfold avb_1722_talker_send_packets.
  erewrite M_bind_run by reflexivity. cbn [fed sample_buffer upd_sample_buffer frame_arrives audio_buffers_swap_active_buffer
    upd_data_ready data_ready Z.eqb]. cbv zeta. erewrite M_bind_run by reflexivity.
  cbn [talker_st gets]. rewrite (proj2 (Z.eqb_neq _ _)) by done.
  erewrite M_bind_run; [reflexivity|]. unfold load. cbn. pose proof (to_active_buffer _ _ H) as Ha.
  assert (c_int (c_int (active_buffer (sample_buffer s) =? 0) =? 0) = active_buffer (sample_buffer s)) as ->.
  { destruct (Z.eqb_spec (active_buffer (sample_buffer s)) 0) as [E|E]; cbn; lia. }
  destruct (elem_at_in (frame_buffer (sample_buffer s)) (active_buffer (sample_buffer s))) as [old Hold].
  { rewrite (to_frames _ _ H). lia. }
  by erewrite elem_at_set.
Qed.

Lemma fed_ok conf info frame s :
  task_ok conf s -> length (frame_samples frame) = media_inputs -> task_ok conf (fed info frame s).
Proof. intros H Hf. apply frame_in_ok; [|done]. by apply (task_ok_ext _ s). Qed.

Lemma clear_if_twice b b' s : clear_if b (clear_if b' s) = clear_if (b' || b) s.
Proof. by destruct b, b'. Qed.
Lemma unit_of_clear n b s : unit_of n (clear_if b s) = unit_of n s.
Proof. by destruct b. Qed.
Lemma state_of_clear b s : task_state (clear_if b s) = task_state s.
Proof. by destruct b. Qed.

(** Streams that are not active see nothing of a frame. *)
Lemma idle_streams frame l : forall s,
  (forall k, k ∈ l -> exists t, unit_of (Z.of_nat k) s = Some t /\ talker_active (config t) <> 2) ->
  forM l (frame_to_stream frame) s =
    Some (tt, clear_if (existsb (fun k => Z.of_nat k =? max_active_avb_stream (task_state s)) l) s).
Proof.
  induction l as [|k l IH]; intros s Hl; [done|]. cbn [forM existsb].
  destruct (Hl k) as (t & Ht & Ha); [by left|]. erewrite M_bind_run by (by apply (frame_to_stream_idle _ _ _ t)).
  rewrite IH; [by rewrite clear_if_twice, state_of_clear|]. intros j Hj. rewrite unit_of_clear. apply Hl. by right.
Qed.

(** * One stream *)

(** Stream [i] is the only one that is active, and no packet waits. *)
Record sole (conf : list Z) (i : nat) (t : talker_unit) (s : talker_task) : Prop := {
  so_ok : task_ok conf s;
  so_unit : unit_of (Z.of_nat i) s = Some t;
  so_active : talker_active (config t) = 2;
  so_max : Z.of_nat i <= max_active_avb_stream (task_state s);
  so_others : forall m u, m <> Z.of_nat i -> unit_of m s = Some u -> talker_active (config u) <> 2;
  so_waiting : Forall (fun size => size = 0) (tx_buf_fill_size (task_state s));
}.

Lemma sole_in_unit conf i t s : sole conf i t s -> (i < AVB_NUM_SOURCES)%nat.
Proof. intros H. pose proof (to_max _ _ (so_ok _ _ _ _ H)). pose proof (so_max _ _ _ _ H). lia. Qed.

Lemma sole_fed conf i t s info frame :
  sole conf i t s -> length (frame_samples frame) = media_inputs -> sole conf i t (fed info frame s).
Proof. intros [H1 H2 H3 H4 H5 H6] Hf. split; try done. by apply fed_ok. Qed.

(** The first loop gives the frame to that stream. *)
Lemma sole_create conf i t s frame :
  sole conf i t s -> length (frame_samples frame) = media_inputs ->
  exists r t', avb1722_create_packet (task_time_info s) frame t = Some (r, t') /\
    create_packets frame s = Some (tt, clear_if true (waiting (Z.of_nat i) r (put_unit (Z.of_nat i) t' s))) /\
    same_talker_stream t t'.
Proof.
  intros Hsole Hf. pose proof (sole_in_unit _ _ _ _ Hsole) as Hi. destruct Hsole as [H Ht Ha Hm Ho Hw].
  destruct (create_ok _ _ _ _ frame H Ht Ha Hf) as (r & t' & E & _ & Hs & Hok & Hr).
  exists r, t'. split; [done|]. split; [|done]. unfold create_packets, active_range. erewrite M_bind_run by reflexivity.
  set (mx := max_active_avb_stream (task_state s)) in *. pose proof (to_max _ _ H) as Hmx. fold mx in Hmx.
  assert (seq 0 (Z.to_nat (mx + 1)) = seq 0 i ++ i :: seq (S i) (Z.to_nat mx - i)) as ->.
  { rewrite cons_seq, <- seq_app. f_equal. lia. }
  assert (forall k, (k < AVB_NUM_SOURCES)%nat -> k <> i -> exists u, unit_of (Z.of_nat k) s = Some u /\ talker_active (config u) <> 2) as Hidle.
  { intros k Hk Hne. destruct (unit_exists _ s (Z.of_nat k) H) as [u Hu]; [lia|]. exists u. split; [done|].
    apply (Ho (Z.of_nat k)); [lia|done]. }
  rewrite forM_app. erewrite M_bind_run by (apply idle_streams; intros k Hk%elem_of_seq; apply Hidle; lia).
  set (b1 := existsb _ _). cbn [forM]. destruct (elem_at_fill _ _ _ H Hi) as (size & Hsz & _).
  assert (size = 0) as -> by (apply elem_at_lookup in Hsz as [_ Hsz]; exact (Forall_lookup_1 _ _ _ _ Hw Hsz)).
  erewrite M_bind_run.
  2: { apply (frame_to_stream_run frame i (clear_if b1 s) t r t' 0); rewrite ?unit_of_clear, ?state_of_clear; try done.
       by destruct b1. }
  rewrite state_of_clear. change (0 =? 0) with true. cbv iota. fold mx. set (s1 := waiting _ r (put_unit _ t' (clear_if b1 s))).
  rewrite idle_streams.
  - rewrite clear_if_twice, state_of_clear. change (max_active_avb_stream (task_state s1)) with
      (max_active_avb_stream (task_state (clear_if b1 s))). rewrite state_of_clear. fold mx.
    assert ((Z.of_nat i =? mx) || existsb (fun k => Z.of_nat k =? mx) (seq (S i) (Z.to_nat mx - i)) = true) as ->.
    { destruct (Z.eqb_spec (Z.of_nat i) mx) as [|Hne]; [done|]. cbn [orb]. apply existsb_exists. exists (Z.to_nat mx).
      rewrite in_seq. split; [lia|]. apply Z.eqb_eq. lia. }
    unfold s1. by destruct b1.
  - intros k Hk%elem_of_seq. destruct (Hidle k) as (u & Hu & Hau); [lia..|]. eexists.
    rewrite unit_of_clear. split; [|].
    + change (unit_of (Z.of_nat k) s1) with (unit_of (Z.of_nat k) (put_unit (Z.of_nat i) t' (clear_if b1 s))).
      rewrite (unit_of_put_ne _ _ _ _ t) by (rewrite ?unit_of_clear; first [done|lia]). rewrite unit_of_clear, Hu. reflexivity.
    + done.
Qed.

Lemma list_find_sole (P : nat -> Prop) `{!forall x, Decision (P x)} i n :
  (i < n)%nat -> P i -> (forall k, (k < n)%nat -> k <> i -> ~ P k) -> list_find P (seq 0 n) = Some (i, i).
Proof.
  intros Hi HP Hne. apply list_find_Some. split; [apply lookup_seq; lia|]. split; [done|].
  intros j y [-> Hj]%lookup_seq Hlt. apply Hne; lia.
Qed.

Lemma waiting_size_set s i size k :
  (i < length (tx_buf_fill_size (task_state s)))%nat ->
  waiting_size (waiting (Z.of_nat i) size s) k = (if decide (k = i) then size else waiting_size s k).
Proof.
  intros Hi. unfold waiting_size, waiting. cbn. unfold set_elem. rewrite Nat2Z.id.
  destruct (decide (k = i)) as [->|Hne]; [by apply list_lookup_total_insert_eq|].
  by apply list_lookup_total_insert_ne.
Qed.

(** Stream [i] alone has got a frame; its packet waits if [r] is not zero. *)
Record pending (conf : list Z) (i : nat) (t : talker_unit) (r : Z) (s : talker_task) : Prop := {
  pe_ok : task_ok conf s;
  pe_unit : unit_of (Z.of_nat i) s = Some t;
  pe_active : talker_active (config t) = 2;
  pe_max : Z.of_nat i <= max_active_avb_stream (task_state s);
  pe_others : forall m u, m <> Z.of_nat i -> unit_of m s = Some u -> talker_active (config u) <> 2;
  pe_waiting : forall k, (k < AVB_NUM_SOURCES)%nat -> waiting_size s k = (if decide (k = i) then r else 0);
}.

Lemma sole_pending conf i t s frame :
  sole conf i t s -> length (frame_samples frame) = media_inputs ->
  exists r t' s', avb1722_create_packet (task_time_info s) frame t = Some (r, t') /\
    create_packets frame s = Some (tt, s') /\ same_talker_stream t t' /\ pending conf i t' r s' /\
    task_out s' = task_out s.
Proof.
  intros Hsole Hf. pose proof (sole_in_unit _ _ _ _ Hsole) as Hi.
  destruct (sole_create _ _ _ _ frame Hsole Hf) as (r & t' & E & Ec & Hs). pose proof (so_ok _ _ _ _ Hsole) as H.
  pose proof (so_unit _ _ _ _ Hsole) as Ht.
  exists r, t'. eexists. split; [done|]. split; [exact Ec|]. split; [done|]. split; [|done]. split.
  - destruct (create_packets_ok conf frame s) as (s2 & E2 & H2); [done..|]. by simplify_eq.
  - by eapply unit_of_put.
  - rewrite (ss_active _ _ Hs). apply Hsole.
  - apply Hsole.
  - intros m u Hne Hu. change (unit_of m (put_unit (Z.of_nat i) t' s) = Some u) in Hu.
    rewrite (unit_of_put_ne _ _ _ _ t) in Hu by done. apply fmap_Some in Hu as (u0 & Hu & ->).
    by apply (so_others _ _ _ _ Hsole m u0).
  - intros k Hk. change (waiting_size (clear_if _ ?x) k) with (waiting_size x k).
    rewrite waiting_size_set by (cbn; rewrite (to_fill _ _ H); lia). destruct (decide (k = i)); [done|].
    apply (Forall_lookup_1 _ _ k _ (so_waiting _ _ _ _ Hsole)). apply list_lookup_lookup_total_lt.
    cbn. by rewrite (to_fill _ _ H).
Qed.

Definition packet_of (t : talker_unit) (r : Z) : list Z := take (Z.to_nat r) (drop (Z.to_nat Buf) (tx_buf t)).

Lemma no_size_waits s :
  length (tx_buf_fill_size (task_state s)) = AVB_NUM_SOURCES ->
  (forall k, (k < AVB_NUM_SOURCES)%nat -> waiting_size s k = 0) -> Forall (fun size => size = 0) (tx_buf_fill_size (task_state s)).
Proof.
  intros Hl H. apply Forall_lookup_2. intros k size Hk. rewrite <- (H k) by (apply lookup_lt_Some in Hk; lia).
  symmetry. by apply list_lookup_total_correct.
Qed.

(** The second loop sends that packet. *)
Lemma pending_sent conf i t r s :
  pending conf i t r s ->
  exists s', send_first_packet s = Some (tt, s') /\ sole conf i t s' /\
    task_out s' = task_out s ++ (if r =? 0 then [] else [SendPacket (packet_of t r)]).
Proof.
  intros [H Ht Ha Hm Ho Hw]. pose proof (to_max _ _ H) as Hmx. assert (i < AVB_NUM_SOURCES)%nat as Hi by lia.
  rewrite send_first_run by (intros k Hk; apply (ok_sendable conf); [done|lia]).
  set (n := Z.to_nat _). assert (n <= AVB_NUM_SOURCES)%nat as Hn by (unfold n; lia).
  destruct (Z.eqb_spec r 0) as [->|Hr].
  - assert (list_find (fun k => waiting_size s k <> 0) (seq 0 n) = None) as ->.
    { apply list_find_None, list.Forall_forall. intros k Hk%elem_of_seq. rewrite Hw by lia. destruct (decide (k = i)); lia. }
    exists s. split; [done|]. split; [|by rewrite app_nil_r]. split; try done. apply no_size_waits; [by apply H|].
    intros k Hk. rewrite Hw by done. by destruct (decide (k = i)).
  - rewrite (list_find_sole _ i).
    + eexists. split; [done|]. split.
      * split; try done; [apply sent_from_ok; [done|done|rewrite Hw by done; by rewrite decide_True]|].
        change (tx_buf_fill_size (task_state (sent_from i s))) with (tx_buf_fill_size (task_state (waiting (Z.of_nat i) 0 s))).
        apply no_size_waits; [cbn; unfold set_elem; rewrite length_insert; by apply H|].
        intros k Hk. rewrite waiting_size_set by (rewrite (to_fill _ _ H); lia). rewrite Hw by done. by destruct (decide (k = i)).
      * unfold sent_from. cbn. unfold waiting_packet. rewrite Hw, decide_True by done. unfold packet_of.
        apply unit_of_lookup in Ht as (_ & Ht & _). rewrite elem_at_nat in Ht by (rewrite (to_bufs _ _ H); lia).
        injection Ht as ->. done.
    + unfold n. lia.
    + rewrite Hw, decide_True by done. done.
    + intros k Hk Hne. rewrite Hw, decide_False by (done || lia). tauto.
Qed.

(** The packets a stream alone makes are sent as they become complete. *)
Lemma sole_step conf i t s info frame :
  sole conf i t s -> length (frame_samples frame) = media_inputs ->
  exists r t' s', avb1722_create_packet info frame t = Some (r, t') /\ talker_run (feed_one (info, frame)) s = Some (tt, s') /\
    sole conf i t' s' /\ same_talker_stream t t' /\
    task_out s' = task_out s ++ (if r =? 0 then [] else [SendPacket (packet_of t' r)]).
Proof.
  intros Hsole Hf. pose proof (sole_fed _ _ _ _ info frame Hsole Hf) as Hfed.
  destruct (sole_pending _ _ _ _ frame Hfed Hf) as (r & t' & s1 & E & Ec & Hs & Hp & Ho).
  destruct (pending_sent _ _ _ _ _ Hp) as (s' & E' & Hs' & Ho'). exists r, t', s'. split; [exact E|]. split.
  - pose proof (so_max _ _ _ _ Hsole). rewrite (feed_one_run conf) by (first [by apply Hsole|lia]).
    by erewrite M_bind_run by exact Ec.
  - split; [done|]. split; [done|]. by rewrite Ho', Ho.
Qed.

Lemma talker_run_app l1 l2 s : talker_run (l1 ++ l2) s = (_ ← talker_run l1; talker_run l2) s.
Proof. apply forM_app. Qed.

Definition packet_event (p : list Z * Z) : talker_event := SendPacket (take (Z.to_nat p.2) p.1).

Lemma sole_talks conf i frames : forall t s,
  sole conf i t s -> frames_ok media_inputs frames ->
  exists pkts t' s', talk frames t = Some (pkts, t') /\ talker_run (feed frames) s = Some (tt, s') /\
    sole conf i t' s' /\ same_talker_stream t t' /\ task_out s' = task_out s ++ (packet_event <$> pkts).
Proof.
  induction frames as [|[info frame] frames IH]; intros t s Hsole Hok.
  - exists [], t, s. by rewrite app_nil_r.
  - apply list.Forall_cons in Hok as [Hf Hok].
    destruct (sole_step _ _ _ _ info frame Hsole Hf) as (r & t1 & s1 & E1 & R1 & Hs1 & S1 & O1).
    destruct (IH t1 s1 Hs1 Hok) as (pkts & t' & s' & E & R & Hs & S & O).
    eexists _, t', s'. split.
    { cbn [talk]. erewrite M_bind_run by exact E1. erewrite M_bind_run by reflexivity. erewrite M_bind_run by exact E. reflexivity. }
    split; [|split; [done|split; [by etrans|]]].
    + unfold feed. cbn [flat_map]. fold (feed frames). rewrite talker_run_app. by erewrite M_bind_run by exact R1.
    + rewrite O, O1, <- app_assoc. by destruct (r =? 0).
Qed.

(** C11: a unit with one active stream sends exactly the packets of that stream: fed with
    any frames, it sends one after the other the packets the packetiser makes of them, and
    the stream it leaves behind is that of the packetiser. *)
Theorem one_stream_refines_talk conf i t s frames :
  sole conf i t s -> frames_ok media_inputs frames ->
  exists pkts t' s', talk frames t = Some (pkts, t') /\ talker_run (feed frames) s = Some (tt, s') /\
    unit_of (Z.of_nat i) s' = Some t' /\ task_out s' = task_out s ++ (packet_event <$> pkts).
Proof.
  intros Hsole Hok. destruct (sole_talks _ _ _ _ _ Hsole Hok) as (pkts & t' & s' & E & R & Hs & _ & O).
  exists pkts, t', s'. split_and!; [done..|by apply Hs|done].
Qed.

(** * Two streams *)

(** The next frame completes the packet of a stream. *)
Definition completes (c : avb1722_Talker_StreamConfig_t) : Prop :=
  current_samples_in_packet c + 1 = samples_per_channel c.

Definition packet_length (c : avb1722_Talker_StreamConfig_t) : Z :=
  50 + 4 * (samples_per_channel c * talker_num_channels c).

Lemma packet_word t r o :
  0 <= o -> o + 4 <= r -> word_le (packet_of t r) o = word_le (tx_buf t) (2 + o).
Proof.
  intros Ho Hr. apply word_le_ext; [lia..|]. intros j Hj. unfold packet_of.
  rewrite lookup_take_lt by lia. rewrite lookup_drop. f_equal. unfold Buf. lia.
Qed.

(** A frame for stream [i]: the state after it, when its packet becomes complete and
    none waits. *)
Lemma complete_run conf i t s frame :
  task_ok conf s -> (i < AVB_NUM_SOURCES)%nat -> unit_of (Z.of_nat i) s = Some t -> talker_active (config t) = 2 ->
  length (frame_samples frame) = media_inputs -> waiting_size s i = 0 -> completes (config t) ->
  exists t' s', avb1722_create_packet (task_time_info s) frame t = Some (packet_length (config t), t') /\
    frame_to_stream frame i s = Some (tt, s') /\ task_ok conf s' /\ same_talker_stream t t' /\
    current_samples_in_packet (config t') = 0 /\
    s' = clear_if (Z.of_nat i =? max_active_avb_stream (task_state s))
           (waiting (Z.of_nat i) (packet_length (config t)) (put_unit (Z.of_nat i) t' s)).
Proof.
  intros H Hi Ht Ha Hf Hw Hc. destruct (to_units _ _ H _ _ Ht) as [_ _ U3 U4].
  destruct (create_packet_run media_inputs (task_time_info s) frame t (U3 (U4 Ha)) Hf) as (r & t' & E & _ & Hs & _ & _ & Hend).
  rewrite Hc, Z.eqb_refl in Hend. destruct Hend as (-> & Hcur & _). fold (packet_length (config t)) in E.
  assert (elem_at (tx_buf_fill_size (task_state s)) (Z.of_nat i) = Some 0) as Hfill
    by (rewrite elem_at_nat by (rewrite (to_fill _ _ H); lia); by f_equal).
  pose proof (frame_to_stream_run frame i s t _ t' 0 Ht Ha E Hfill) as Er. cbn [Z.eqb] in Er.
  exists t'. eexists. split; [done|]. split; [exact Er|]. split; [|done].
  destruct (frame_to_stream_ok conf frame i s H Hi Hf) as (s2 & E2 & H2 & _). by simplify_eq.
Qed.

(** A frame for stream [i] while a packet of [size] waits: its first words are those of
    the frame if the last packet has just been complete. *)
Lemma refill_run conf i t s frame size :
  task_ok conf s -> (i < AVB_NUM_SOURCES)%nat -> unit_of (Z.of_nat i) s = Some t -> talker_active (config t) = 2 ->
  length (frame_samples frame) = media_inputs -> waiting_size s i = size -> current_samples_in_packet (config t) = 0 ->
  exists r t' s', frame_to_stream frame i s = Some (tt, s') /\ task_ok conf s' /\ (r = 0 <-> samples_per_channel (config t) <> 1) /\
    same_talker_stream t t' /\
    (forall k, Z.of_nat k < talker_num_channels (config t) ->
       word_le (tx_buf t') (52 + 4 * Z.of_nat k) =
         Some (packed_sample (AVB1722_audioSampleType t) (channel_sample (config t) frame k))) /\
    s' = clear_if (Z.of_nat i =? max_active_avb_stream (task_state s))
           (waiting (Z.of_nat i) (if size =? 0 then r else size) (put_unit (Z.of_nat i) t' s)).
Proof.
  intros H Hi Ht Ha Hf Hw Hc. destruct (to_units _ _ H _ _ Ht) as [_ _ U3 U4]. pose proof (U3 (U4 Ha)) as Hinv.
  destruct (create_packet_run media_inputs (task_time_info s) frame t Hinv Hf) as (r & t' & E & _ & Hs & Hwords & _ & Hend).
  rewrite Hc in Hwords, Hend.
  assert (elem_at (tx_buf_fill_size (task_state s)) (Z.of_nat i) = Some size) as Hfill
    by (rewrite elem_at_nat by (rewrite (to_fill _ _ H); lia); by f_equal).
  pose proof (frame_to_stream_run frame i s t r t' size Ht Ha E Hfill) as Er.
  exists r, t'. eexists. split; [exact Er|]. split.
  { destruct (frame_to_stream_ok conf frame i s H Hi Hf) as (s2 & E2 & H2 & _). by simplify_eq. }
  split; [|split; [done|split; [exact Hwords|done]]].
  pose proof (ti_current _ _ Hinv). pose proof (ti_map _ _ Hinv) as (_ & Hn & _).
  destruct (Z.eqb_spec (0 + 1) (samples_per_channel (config t))); destruct Hend as [-> _]; [|lia]. split; [nia|lia].
Qed.

(** Two streams are active, the first ones, and nothing waits. *)
Record two_streams (conf : list Z) (t0 t1 : talker_unit) (s : talker_task) : Prop := {
  tw_ok : task_ok conf s;
  tw_max : max_active_avb_stream (task_state s) = 1;
  tw_unit0 : unit_of 0 s = Some t0;
  tw_unit1 : unit_of 1 s = Some t1;
  tw_active0 : talker_active (config t0) = 2;
  tw_active1 : talker_active (config t1) = 2;
  tw_waiting : waiting_size s 0 = 0 /\ waiting_size s 1 = 0;
}.

Lemma waiting_size_clear b s k : waiting_size (clear_if b s) k = waiting_size s k.
Proof. by destruct b. Qed.
Lemma out_clear b s : task_out (clear_if b s) = task_out s.
Proof. by destruct b. Qed.
Lemma unit_of_waiting n i size s : unit_of n (waiting i size s) = unit_of n s.
Proof. done. Qed.
Lemma waiting_size_put i n t s : waiting_size (put_unit n t s) i = waiting_size s i.
Proof. done. Qed.
Lemma with_type_same ty t : AVB1722_audioSampleType t = ty -> with_type ty t = t.
Proof. intros <-. by destruct t. Qed.

Lemma two_fed conf t0 t1 s info frame :
  two_streams conf t0 t1 s -> length (frame_samples frame) = media_inputs -> two_streams conf t0 t1 (fed info frame s).
Proof. intros [H1 H2 H3 H4 H5 H6 H7] Hf. split; try done. by apply fed_ok. Qed.

Lemma unit_of_type n s t : unit_of n s = Some t -> AVB1722_audioSampleType t = audio_sample_type s.
Proof. by intros (_ & _ & H)%unit_of_lookup. Qed.

Lemma packet_length_pos conf n s t :
  task_ok conf s -> unit_of n s = Some t -> talker_active (config t) = 2 -> 50 <= packet_length (config t).
Proof.
  intros H Ht Ha. destruct (to_units _ _ H _ _ Ht) as [_ _ U3 U4]. pose proof (U3 (U4 Ha)) as Hinv.
  pose proof (ti_current _ _ Hinv). pose proof (ti_map _ _ Hinv) as (_ & Hn & _). unfold packet_length. nia.
Qed.

(** What a frame for stream [i] changes, and what sending its packet does. *)
Lemma given_state conf b i v t t' s s' :
  s' = clear_if b (waiting (Z.of_nat i) v (put_unit (Z.of_nat i) t' s)) ->
  task_ok conf s -> (i < AVB_NUM_SOURCES)%nat -> unit_of (Z.of_nat i) s = Some t -> same_talker_stream t t' ->
  max_active_avb_stream (task_state s') = max_active_avb_stream (task_state s) /\
  unit_of (Z.of_nat i) s' = Some t' /\ (forall m, m <> Z.of_nat i -> unit_of m s' = unit_of m s) /\
  (forall k, waiting_size s' k = (if decide (k = i) then v else waiting_size s k)) /\
  task_time_info s' = task_time_info s /\ task_out s' = task_out s.
Proof.
  intros -> H Hi Ht Hs. rewrite state_of_clear, out_clear, unit_of_clear. split; [done|].
  split; [by eapply unit_of_put|]. split; [|split; [|by destruct b]].
  - intros m Hne. rewrite unit_of_clear, unit_of_waiting, (unit_of_put_ne _ _ _ _ t) by done.
    destruct (unit_of m s) as [u|] eqn:Hu; [|done]. cbn. f_equal. apply with_type_same.
    by rewrite (ss_type _ _ Hs), (unit_of_type _ _ _ Ht), (unit_of_type _ _ _ Hu).
  - intros k. rewrite waiting_size_clear. apply (waiting_size_set (put_unit (Z.of_nat i) t' s)).
    change (i < length (tx_buf_fill_size (task_state s)))%nat. by rewrite (to_fill _ _ H).
Qed.

Lemma sent_state conf i t s :
  task_ok conf s -> unit_of (Z.of_nat i) s = Some t -> (i < AVB_NUM_SOURCES)%nat ->
  max_active_avb_stream (task_state (sent_from i s)) = max_active_avb_stream (task_state s) /\
  (forall m, unit_of m (sent_from i s) = unit_of m s) /\
  (forall k, waiting_size (sent_from i s) k = (if decide (k = i) then 0 else waiting_size s k)) /\
  task_out (sent_from i s) = task_out s ++ [SendPacket (packet_of t (waiting_size s i))].
Proof.
  intros H Ht Hi. split; [done|]. split; [done|]. split.
  - intros k. apply (waiting_size_set (upd_task_out _ s)).
    change (i < length (tx_buf_fill_size (task_state s)))%nat. by rewrite (to_fill _ _ H).
  - cbn. unfold waiting_packet, packet_of. do 5 f_equal.
    apply unit_of_lookup in Ht as (_ & Ht & _). rewrite elem_at_nat in Ht by (by rewrite (to_bufs _ _ H)). by injection Ht.
Qed.

(** With two streams the task goes through both. *)
Lemma two_create frame s s1 s2 :
  max_active_avb_stream (task_state s) = 1 ->
  frame_to_stream frame 0 s = Some (tt, s1) -> frame_to_stream frame 1 s1 = Some (tt, s2) ->
  create_packets frame s = Some (tt, s2).
Proof.
  intros Hm R1 R2. unfold create_packets, active_range. 
  erewrite (M_bind_run _ _ _ (seq 0 (Z.to_nat (max_active_avb_stream (task_state s) + 1))) s) by reflexivity.
  rewrite Hm. change (seq 0 (Z.to_nat (1 + 1))) with [0%nat; 1%nat]. cbn [forM].
  erewrite M_bind_run by exact R1. by erewrite M_bind_run by exact R2.
Qed.

(** The frame that completes both packets: the first one is sent. *)
Lemma both_complete conf t0 t1 s info frame :
  two_streams conf t0 t1 s -> completes (config t0) -> completes (config t1) ->
  length (frame_samples frame) = media_inputs ->
  exists t0' t1' s', talker_run (feed_one (info, frame)) s = Some (tt, s') /\ task_ok conf s' /\
    max_active_avb_stream (task_state s') = 1 /\ unit_of 0 s' = Some t0' /\ unit_of 1 s' = Some t1' /\
    same_talker_stream t0 t0' /\ same_talker_stream t1 t1' /\
    current_samples_in_packet (config t0') = 0 /\ current_samples_in_packet (config t1') = 0 /\
    waiting_size s' 0 = 0 /\ waiting_size s' 1 = packet_length (config t1) /\
    avb1722_create_packet info frame t0 = Some (packet_length (config t0), t0') /\
    task_out s' = task_out s ++ [SendPacket (packet_of t0' (packet_length (config t0)))].
Proof.
  intros Htw C0 C1 Hf. pose proof (two_fed _ _ _ _ info frame Htw Hf) as [H Hmax T0 T1 A0 A1 [W0 W1]].
  pose proof (to_max _ _ H) as Hsrc. rewrite Hmax in Hsrc. assert (2 <= AVB_NUM_SOURCES)%nat as Hsrc2 by lia.
  pose proof (packet_length_pos _ _ _ _ H T0 A0) as L0.
  destruct (complete_run conf 0 t0 (fed info frame s) frame) as (t0' & s1 & E0 & R0 & H1 & S0 & Z0 & D1); [done|lia|done..|].
  destruct (given_state _ _ 0 _ _ _ _ _ D1 H ltac:(lia) T0 S0) as (M1 & U0 & U1 & V1 & I1 & O1).
  rewrite Hmax in M1.
  destruct (complete_run conf 1 t1 s1 frame) as (t1' & s2 & E1 & R1 & H2 & S1 & Z1 & D2);
    [done|lia|by rewrite U1|done|done|by rewrite V1|done|].
  destruct (given_state _ _ 1 _ t1 _ _ _ D2 H1 ltac:(lia) ltac:(by rewrite U1) S1) as (M2 & U0' & U1' & V2 & I2 & O2).
  assert (unit_of 0 s2 = Some t0') as T0' by (by rewrite U1').
  destruct (sent_state conf 0 t0' s2 H2 T0' ltac:(lia)) as (M3 & U3 & V3 & O3).
  assert (waiting_size s2 0 = packet_length (config t0)) as W2 by (rewrite V2, V1; done).
  exists t0', t1', (sent_from 0 s2). split.
  { rewrite (feed_one_run conf) by (first [by apply Htw|rewrite (tw_max _ _ _ _ Htw); done]).
    erewrite M_bind_run by (by eapply two_create). rewrite send_first_run.
    - rewrite M2, M1. change (seq 0 (Z.to_nat (1 + 1))) with [0%nat; 1%nat]. cbn [list_find].
      by rewrite W2, decide_True by lia.
    - rewrite M2, M1. intros k Hk. apply (ok_sendable conf); [done|lia]. }
  split; [apply sent_from_ok; [done|lia|lia]|]. rewrite M3, M2, M1, !U3, O3, W2, O2, O1. split_and!; try done.
  by rewrite V3, V2.
Qed.

(** The next frame begins the packets anew, in the buffers, before the second is sent. *)
Lemma second_sent conf t0 t1 s info frame :
  task_ok conf s -> max_active_avb_stream (task_state s) = 1 -> unit_of 0 s = Some t0 -> unit_of 1 s = Some t1 ->
  talker_active (config t0) = 2 -> talker_active (config t1) = 2 ->
  current_samples_in_packet (config t0) = 0 -> current_samples_in_packet (config t1) = 0 ->
  samples_per_channel (config t0) <> 1 -> waiting_size s 0 = 0 -> waiting_size s 1 <> 0 ->
  length (frame_samples frame) = media_inputs ->
  exists t1' s', talker_run (feed_one (info, frame)) s = Some (tt, s') /\
    task_out s' = task_out s ++ [SendPacket (packet_of t1' (waiting_size s 1))] /\
    length (tx_buf t1') = length (tx_buf t1) /\
    (forall k, Z.of_nat k < talker_num_channels (config t1) ->
       word_le (tx_buf t1') (52 + 4 * Z.of_nat k) =
         Some (packed_sample (AVB1722_audioSampleType t1) (channel_sample (config t1) frame k))).
Proof.
  intros Hs Hmaxs T0 T1 A0 A1 Z0 Z1 Hspc W0 W1 Hf. pose proof (fed_ok conf info frame s Hs Hf) as H.
  pose proof (to_max _ _ Hs) as Hsrc. rewrite Hmaxs in Hsrc. assert (2 <= AVB_NUM_SOURCES)%nat as Hsrc2 by lia.
  destruct (refill_run conf 0 t0 (fed info frame s) frame 0) as (r & t0' & s1 & R0 & H1 & Hr & S0 & _ & D1); [done|lia|done..|].
  assert (r = 0) as -> by (by apply Hr).
  destruct (given_state _ _ 0 _ _ _ _ _ D1 H ltac:(lia) T0 S0) as (M1 & U0 & U1 & V1 & _ & O1).
  change (max_active_avb_stream (task_state (fed info frame s))) with (max_active_avb_stream (task_state s)) in M1.
  rewrite Hmaxs in M1. assert (waiting_size s1 1 = waiting_size s 1) as W1' by (by rewrite V1).
  destruct (refill_run conf 1 t1 s1 frame (waiting_size s 1)) as (r1 & t1' & s2 & R1 & H2 & _ & S1 & Hw & D2);
    [done|lia|by rewrite U1|done..|].
  rewrite (proj2 (Z.eqb_neq _ _) W1) in D2.
  destruct (given_state _ _ 1 _ t1 _ _ _ D2 H1 ltac:(lia) ltac:(by rewrite U1) S1) as (M2 & U0' & U1' & V2 & _ & O2).
  destruct (sent_state conf 1 t1' s2 H2 U0' ltac:(lia)) as (_ & _ & _ & O3).
  assert (waiting_size s2 0 = 0 /\ waiting_size s2 1 = waiting_size s 1) as [W20 W21] by (rewrite !V2, V1; done).
  exists t1', (sent_from 1 s2). split.
  - rewrite (feed_one_run conf) by (first [done|rewrite Hmaxs; done]).
    erewrite M_bind_run by (by eapply two_create). rewrite send_first_run.
    + rewrite M2, M1. change (seq 0 (Z.to_nat (1 + 1))) with [0%nat; 1%nat]. cbn [list_find].
      by rewrite W20, W21, decide_False, decide_True by tauto.
    + rewrite M2, M1. intros k Hk. apply (ok_sendable conf); [done|lia].
  - split; [by rewrite O3, W21, O2, O1|]. split; [apply S1|exact Hw].
Qed.

(** C12: when two streams, of at least two samples per packet (more than 8 kHz), complete
    their packets with the same frame, the second packet goes out damaged: only one packet
    is sent for a frame, and the next frame is packed into both buffers before the second
    is sent - its first block of samples, in every channel, is that of the next frame. The
    first packet is as the packetiser made it. *)
Theorem second_stream_damaged conf t0 t1 s info frame info' frame' :
  two_streams conf t0 t1 s -> completes (config t0) -> completes (config t1) ->
  2 <= samples_per_packet_base (config t0) ->
  length (frame_samples frame) = media_inputs -> length (frame_samples frame') = media_inputs ->
  exists t0' p1 s', talker_run (feed [(info, frame); (info', frame')]) s = Some (tt, s') /\
    avb1722_create_packet info frame t0 = Some (packet_length (config t0), t0') /\
    task_out s' = task_out s ++ [SendPacket (packet_of t0' (packet_length (config t0))); SendPacket p1] /\
    Z.of_nat (length p1) = packet_length (config t1) /\
    forall k, Z.of_nat k < talker_num_channels (config t1) ->
      word_le p1 (50 + 4 * Z.of_nat k) =
        Some (packed_sample (AVB1722_audioSampleType t1) (channel_sample (config t1) frame' k)).
Proof.
  intros Htw C0 C1 Hbase Hf Hf'.
  destruct (both_complete conf t0 t1 s info frame Htw C0 C1 Hf) as
    (t0' & t1' & s1 & R1 & H1 & M1 & U0 & U1 & S0 & S1 & Z0 & Z1 & W0 & W1 & E & O1).
  pose proof Htw as [H Hmax T0 T1 A0 A1 _]. pose proof (packet_length_pos _ _ _ _ H T1 A1) as L1.
  destruct (second_sent conf t0' t1' s1 info' frame') as (t1'' & s2 & R2 & O2 & Lb & Hw); try done.
  { by rewrite (ss_active _ _ S0). }
  { by rewrite (ss_active _ _ S1). }
  { unfold samples_per_channel. rewrite (ss_base _ _ S0). destruct (has_extra_sample _); lia. }
  { lia. }
  destruct (to_units _ _ H _ _ T1) as [U _ U3 U4]. pose proof (U3 (U4 A1)) as Hinv.
  pose proof (samples_le_max _ _ Hinv). pose proof (ti_room _ _ Hinv) as Hroom. change samples_start with 52 in Hroom.
  pose proof (ti_map _ _ Hinv) as (_ & Hn & _). pose proof (ti_current _ _ Hinv).
  rewrite (ss_num_channels _ _ S1) in Hw. rewrite W1 in O2.
  exists t0', (packet_of t1'' (packet_length (config t1))), s2. split; [|split; [done|split; [|split]]].
  - unfold feed. cbn [flat_map]. rewrite app_nil_r, talker_run_app. by erewrite M_bind_run by exact R1.
  - by rewrite O2, O1, <- app_assoc.
  - unfold packet_of. rewrite length_take, length_drop, Lb, (ss_length _ _ S1). unfold Buf, packet_length in *. nia.
  - intros k Hk. rewrite packet_word by (unfold packet_length; nia).
    replace (2 + (50 + 4 * Z.of_nat k)) with (52 + 4 * Z.of_nat k) by lia. rewrite (Hw k Hk).
    rewrite (ss_type _ _ S1). unfold channel_sample. by rewrite (ss_map _ _ S1).
Qed.

(** * The VLAN of a stream *)

(** The VLAN identifier of a tagged frame. *)
Definition frame_vid (p : list Z) : Z := Z.land (p !!! 14%nat) 0xF * 256 + p !!! 15%nat.

Lemma tagged_vid vlanid b p : tagged vlanid b -> take 18 p = take 18 (drop 2 b) -> frame_vid p = vlanid mod 4096.
Proof.
  intros [H1 H2] Hp.
  assert (forall k x, (k < 18)%nat -> b !! (2 + k)%nat = Some x -> p !!! k = x) as Hat.
  { intros k x Hk Hx. apply list_lookup_total_correct. rewrite <- (lookup_take_lt p 18) by done. rewrite Hp.
    by rewrite lookup_take_lt, lookup_drop by done. }
  unfold frame_vid. rewrite (Hat 14%nat _ ltac:(lia) H1), (Hat 15%nat _ ltac:(lia) H2).
  assert (Z.land (Z.shiftr vlanid 8) 0xF = (vlanid / 256) mod 16) as ->
    by (change 0xF with (Z.ones 4); by rewrite Z.land_ones, Z.shiftr_div_pow2 by lia).
  assert (u8 (Z.land vlanid 0xFF) = vlanid mod 256) as ->
    by (change 0xFF with (Z.ones 8); rewrite Z.land_ones by lia; apply u8_small, Z.mod_pos_bound; lia).
  pose proof (Z.mod_pos_bound (vlanid / 256) 16 eq_refl) as Hb.
  change 4096 with (256 * 16). rewrite Z.rem_mul_r by lia. revert Hb. generalize ((vlanid / 256) mod 16). intros x Hx.
  assert (Z.land (u8 (Z.lor 0x60 x)) 0xF = x) as ->; [|lia].
  assert (x ∈ seqZ 0 16) as Hin by (apply elem_of_seqZ; lia). clear Hx Hat.
  revert x Hin. apply list.Forall_forall. by repeat constructor.
Qed.

(** The packets of a stream have the tag of its buffer. *)
Lemma talk_tag inputs frames : forall t pkts t',
  talker_inv inputs t -> frames_ok inputs frames -> talk frames t = Some (pkts, t') ->
  Forall (fun p => take 18 p.1 = take 18 (drop 2 (tx_buf t)) /\ 50 <= p.2) pkts.
Proof.
  induction frames as [|[info frame] frames IH]; intros t pkts t' Hinv Hok H; [by injection H as <- <-|].
  apply list.Forall_cons in Hok as [Hf Hok].
  destruct (create_packet_run inputs info frame t Hinv Hf) as (r & t1 & E & Hinv1 & Hs & _ & _ & Hend).
  assert (forall b b' : list Z, take 20 b' = take 20 b -> take 18 (drop 2 b') = take 18 (drop 2 b)) as Hdrop.
  { intros b b' Hb. rewrite !take_drop_commute. change (2 + 18)%nat with 20%nat. by rewrite Hb. }
  cbn [talk] in H. erewrite M_bind_run in H by exact E. erewrite M_bind_run in H by reflexivity.
  apply M_bind_Some in H as (pkts1 & t2 & E2 & H).
  pose proof (IH t1 pkts1 t2 Hinv1 Hok E2) as IH1. rewrite (Hdrop _ _ (ss_tag _ _ Hs)) in IH1.
  destruct (Z.eqb_spec r 0) as [|Hr]; injection H as <- <-; [done|]. constructor; [|done]. split.
  - apply Hdrop, (ss_tag _ _ Hs).
  - pose proof (ti_current _ _ Hinv). pose proof (ti_map _ _ Hinv) as (_ & Hn & _). cbn [snd].
    destruct (_ =? _); destruct Hend as [-> _]; [nia|done].
Qed.

Definition quiet_unit (s : talker_task) : Prop :=
  (forall n t, unit_of n s = Some t -> talker_active (config t) <> 2) /\
  Forall (fun size => size = 0) (tx_buf_fill_size (task_state s)).

(** Setting a VLAN changes a buffer. *)
Lemma set_vlan_quiet n vlan s s' :
  quiet_unit s -> avb_1722_talker_handle_cmd (CmdSetVlan n vlan) s = Some (tt, s') ->
  (exists t, unit_of n s = Some t /\ (18 <= length (tx_buf t))%nat) -> quiet_unit s' /\ task_out s' = task_out s.
Proof.
  intros [Hq Hw] H (t & Ht & Hl). cbn [avb_1722_talker_handle_cmd] in H. erewrite M_bind_run in H by reflexivity.
  destruct (set_buffer_vlan_run vlan t Hl) as (b & E & _).
  set (s1 := upd_task_state (upd_talker_vlan (fun _ => vlan)) s) in *.
  change (on_unit n (avb1722_set_buffer_vlan vlan) s1 = Some (tt, s')) in H.
  assert (unit_of n s1 = Some t) as Ht1 by exact Ht. rewrite (on_unit_run _ _ _ t _ _ Ht1 E) in H.
  assert (s' = put_unit n (upd_tx_buf (fun _ => b) t) s1) as -> by congruence. split; [|done]. split; [|exact Hw]. intros m u Hu.
  destruct (decide (m = n)) as [->|Hne].
  - rewrite (unit_of_put _ _ _ t Ht1) in Hu. injection Hu as <-. by apply (Hq n t).
  - rewrite (unit_of_put_ne _ _ _ _ t Ht1 Hne) in Hu. apply fmap_Some in Hu as (u0 & Hu & ->). by apply (Hq m u0).
Qed.

(** Configuring a stream of a quiet unit and starting it. *)
Lemma configure_and_go conf i set s :
  task_ok conf s -> quiet_unit s -> in_unit (Z.of_nat i) -> settings_ok set ->
  exists t s', talker_run [Serve (TalkerCommand (CmdConfigure (Z.of_nat i) set)); Serve (TalkerCommand (CmdGo (Z.of_nat i)))] s =
      Some (tt, s') /\ sole (Z.of_nat i :: conf) i t s' /\ task_out s' = task_out s /\
    tagged (talker_vlan (task_state s)) (tx_buf t).
Proof.
  intros H [Hq Hw] Hi Hset.
  destruct (configure_cmd_ok conf (Z.of_nat i) set s) as (s1 & t0 & t & E1 & H1 & Ht0 & Ht & Es1 & _ & _ & Htag); [done..|].
  assert (Z.of_nat i ∈ Z.of_nat i :: conf) as Hin by (by left).
  destruct (handle_cmd_ok (Z.of_nat i :: conf) (CmdGo (Z.of_nat i)) s1 H1 Hin) as (s2 & E2 & H2).
  assert (s2 = put_unit (Z.of_nat i) (upd_config (fun _ => start_stream (config t)) t) s1) as Es2.
  { cbn [avb_1722_talker_handle_cmd] in E2.
    erewrite on_talker_stream_run in E2 by (exact Ht || reflexivity). by injection E2. }
  exists (upd_config (fun _ => start_stream (config t)) t), s2. split.
  { unfold talker_run. cbn [forM talker_do talker_serve]. erewrite M_bind_run by exact E1. by erewrite M_bind_run by exact E2. }
  split; [|split; [by rewrite Es2, Es1|exact Htag]]. split; [exact H2|rewrite Es2; by eapply unit_of_put|done| | |].
  - rewrite Es2, Es1. cbn. lia.
  - intros m u Hne Hu. rewrite Es2 in Hu. rewrite (unit_of_put_ne _ _ _ _ t Ht Hne) in Hu.
    apply fmap_Some in Hu as (u1 & Hu & ->). rewrite Es1 in Hu.
    rewrite (unit_of_put_ne _ _ _ _ t0) in Hu by first [exact Ht0|done].
    apply fmap_Some in Hu as (u2 & Hu & ->). by apply (Hq m u2).
  - by rewrite Es2, Es1.
Qed.

(** C13: a stream that is configured and started sends its packets in the VLAN that was
    set last on the unit, for whatever stream [m] it was meant: the task keeps one VLAN
    for all its streams, and configuring a stream writes it into the stream's buffer. *)
Theorem last_vlan_tags_packets conf i m vlan set s frames :
  task_ok conf s -> quiet_unit s -> in_unit (Z.of_nat i) -> in_unit m -> settings_ok set ->
  frames_ok media_inputs frames ->
  let cmds := [CmdSetVlan m vlan; CmdConfigure (Z.of_nat i) set; CmdGo (Z.of_nat i)] in
  exists pkts s', talker_run (((fun c => Serve (TalkerCommand c)) <$> cmds) ++ feed frames) s = Some (tt, s') /\
    task_out s' = task_out s ++ (SendPacket <$> pkts) /\ Forall (fun p => frame_vid p = vlan mod 4096) pkts.
Proof.
  intros H Hq Hi Hm Hset Hok cmds.
  destruct (set_vlan_ok conf m vlan s H Hm) as (s1 & E1 & H1 & Hv).
  destruct (set_vlan_quiet m vlan s s1 Hq E1) as [Hq1 O1].
  { destruct (unit_exists _ _ _ H Hm) as [t Ht]. exists t. split; [done|]. pose proof (uo_buf _ _ (to_units _ _ H _ _ Ht)).
    destruct tx_buf_bytes_big. lia. }
  destruct (configure_and_go conf i set s1 H1 Hq1 Hi Hset) as (t & s2 & E2 & Hsole & O2 & Htag).
  destruct (sole_talks _ _ frames _ _ Hsole Hok) as (pkts & t' & s' & Et & E3 & _ & _ & O3).
  exists ((fun p => take (Z.to_nat p.2) p.1) <$> pkts), s'. split; [|split].
  - unfold cmds. cbn [fmap list_fmap app]. unfold talker_run in *. cbn [forM talker_do talker_serve] in *.
    erewrite M_bind_run by exact E1. apply M_bind_Some in E2 as ([] & s3 & E2 & E4). erewrite M_bind_run by exact E2.
    apply M_bind_Some in E4 as ([] & s4 & E4 & [= ->]). erewrite M_bind_run by exact E4. exact E3.
  - by rewrite O3, O2, O1, <- list_fmap_compose.
  - apply Forall_fmap. destruct (to_units _ _ (so_ok _ _ _ _ Hsole) _ _ (so_unit _ _ _ _ Hsole)) as [_ _ U3 U4].
    eapply list.Forall_impl; [eapply talk_tag; [apply U3, U4, Hsole|exact Hok|exact Et]|].
    intros [b r] [Hb Hr]. cbn in *. rewrite Hv in Htag. apply (tagged_vid _ _ _ Htag).
    rewrite take_take, Nat.min_l by lia. exact Hb.
Qed.
End Units.

(** * The commands of the manager *)

(** The command a talker unit [c] sees of what the manager sends. *)
Definition command_of (c : nat) (ev : mgr_event) : option talker_command :=
  match ev with
  | ConfigureTalkerStream c' l format dest source_num num_channels mask map rate presentation =>
      if (c' =? c)%nat then Some (CmdConfigure l (MkSettings format dest source_num mask map rate presentation)) else None
  | SetTalkerVlan c' l vlan => if (c' =? c)%nat then Some (CmdSetVlan l vlan) else None
  | TalkerGo c' l => if (c' =? c)%nat then Some (CmdGo l) else None
  | TalkerStop c' l => if (c' =? c)%nat then Some (CmdStop l) else None
  | _ => None
  end.

(** Whether stream [l] of unit [c] has been configured. *)
Definition configures (c : nat) (l : Z) (ev : mgr_event) : bool :=
  match ev with
  | ConfigureTalkerStream c' l' _ _ _ _ _ _ _ _ => (c' =? c)%nat && (l' =? l)
  | _ => false
  end.

(** Every stream that is started has been configured before. *)
Definition starts_ok (evs : list mgr_event) : Prop :=
  forall pre c l post, evs = pre ++ TalkerGo c l :: post -> existsb (configures c l) pre = true.

Definition keeps_starts (m m' : manager) : Prop := starts_ok (mgr_out m) -> starts_ok (mgr_out m').

#[global] Instance keeps_starts_preorder : PreOrder keeps_starts.
Proof. split; [intros m H; exact H|]. intros m1 m2 m3 H1 H2 H. by apply H2, H1. Qed.

Lemma starts_snoc evs ev :
  starts_ok evs -> (forall c l, ev = TalkerGo c l -> existsb (configures c l) evs = true) -> starts_ok (evs ++ [ev]).
Proof.
  intros H Hev pre c l post E. destruct (decide (post = [])) as [->|Hne].
  - apply app_inj_tail in E as [<- ->]. by apply Hev.
  - destruct (exists_last Hne) as (post' & x & ->). rewrite app_comm_cons, app_assoc in E.
    apply app_inj_tail in E as [E _]. by apply (H pre c l post').
Qed.

Section Manager.
Context `{cfg : Config} `{answers : SrpAnswers}.
Implicit Types m : manager.

Lemma same_out_starts m m' : mgr_out m' = mgr_out m -> keeps_starts m m'.
Proof. unfold keeps_starts. by intros ->. Qed.

Lemma tell_starts ev : (forall c l, ev <> TalkerGo c l) -> keeps keeps_starts (tell ev).
Proof.
  intros Hev. apply keeps_modify. intros m Hm. cbn. apply starts_snoc; [done|]. intros c l ->. by destruct (Hev c l).
Qed.

Lemma upd_source_at_starts n f : keeps keeps_starts (upd_source_at n f).
Proof. apply keeps_store. intros m m' H. destruct (elem_at _ n); [|done]. cbn in H. simplify_eq. by apply same_out_starts. Qed.
Lemma upd_sink_at_starts n f : keeps keeps_starts (upd_sink_at n f).
Proof. apply keeps_store. intros m m' H. destruct (elem_at _ n); [|done]. cbn in H. simplify_eq. by apply same_out_starts. Qed.
Lemma put_source_starts n x : keeps keeps_starts (put_source n x).
Proof. apply keeps_store. intros m m' H. destruct (elem_at _ n); [|done]. cbn in H. simplify_eq. by apply same_out_starts. Qed.
Lemma put_sink_starts n x : keeps keeps_starts (put_sink n x).
Proof. apply keeps_store. intros m m' H. destruct (elem_at _ n); [|done]. cbn in H. simplify_eq. by apply same_out_starts. Qed.
Lemma put_clock_info_starts n x : keeps keeps_starts (put_clock_info n x).
Proof. apply keeps_store. intros m m' H. destruct (elem_at _ n); [|done]. cbn in H. simplify_eq. by apply same_out_starts. Qed.
Lemma set_mapped_to_starts v n : keeps keeps_starts (set_mapped_to v n).
Proof. apply keeps_store. intros m m' H. destruct (elem_at _ n); [|done]. cbn in H. simplify_eq. by apply same_out_starts. Qed.
Lemma on_recovery_starts {A} (k : M (list clock_info_t) A) : keeps keeps_starts (on_recovery k).
Proof. intros m a m' H. unfold on_recovery in H. destruct (k _) as [[]|]; [|done]. simplify_eq. by apply same_out_starts. Qed.

Hint Resolve tell_starts upd_source_at_starts upd_sink_at_starts put_source_starts put_sink_starts
  put_clock_info_starts set_mapped_to_starts on_recovery_starts : keeps.

(** A source is enabled by configuring its stream and starting it. *)
Lemma configure_go_starts source n m u m' :
  (_ ← AvbManager.configure_talker_stream source n;
   tell (TalkerGo (talker_ctl source) (st_local_id (so_stream source)))) m = Some (u, m') -> keeps_starts m m'.
Proof.
  intros H Hm. unfold AvbManager.configure_talker_stream in H. apply M_bind_Some in H as (u1 & m1 & H & [= _ <-]).
  apply M_bind_Some in H as (channels & m2 & E2 & H). apply M_bind_Some in H as (u2 & m3 & E3 & [= _ <-]).
  assert (starts_ok (mgr_out m3)) as H3.
  { assert (keeps keeps_starts (channels_of (so_map source) (st_num_channels (so_stream source)))) as K1
      by (unfold channels_of; keeps_auto).
    assert (keeps keeps_starts (forM channels (set_mapped_to n))) as K2 by keeps_auto.
    by apply (K2 _ _ _ E3), (K1 _ _ _ E2). }
  cbn. apply starts_snoc; [apply starts_snoc; [done|done]|]. intros c l [= <- <-].
  rewrite existsb_app. cbn [existsb configures]. by rewrite Nat.eqb_refl, Z.eqb_refl, orb_true_r.
Qed.

Lemma configure_starts source n : keeps keeps_starts (AvbManager.configure_talker_stream source n).
Proof. unfold AvbManager.configure_talker_stream, channels_of. keeps_auto. Qed.
Lemma leave_vlan_starts vid : keeps keeps_starts (leave_vlan_if_unused vid).
Proof. unfold leave_vlan_if_unused. keeps_auto. Qed.
Hint Resolve configure_starts leave_vlan_starts : keeps.

Lemma update_source_state_starts n p q : keeps keeps_starts (update_source_state n p q).
Proof.
  intros m u m' H. unfold update_source_state in H. apply M_bind_Some in H as (source & m1 & E & H).
  assert (keeps_starts m m1) as K1 by (revert E; unfold the_source; apply (keeps_load keeps_starts)).
  etrans; [exact K1|]. clear K1 E. cbv zeta in H. revert H.
  destruct (_ && _).
  { assert (keeps keeps_starts (start_source n source)) as K
      by (unfold start_source, channels_of, inputs_of, the_source; keeps_auto). apply K. }
  destruct (_ && _).
  { assert (keeps keeps_starts (tell (TalkerStop (talker_ctl source) (st_local_id (so_stream source))))) as K by keeps_auto.
    apply K. }
  destruct (_ && _); [apply configure_go_starts|].
  destruct (_ && _); [|by apply (keeps_skip keeps_starts)].
  assert (keeps keeps_starts (stop_source source)) as K by (unfold stop_source, channels_of; keeps_auto). apply K.
Qed.
Hint Resolve update_source_state_starts : keeps.

Lemma update_sink_state_starts n p q : keeps keeps_starts (update_sink_state n p q).
Proof. unfold update_sink_state, start_sink, stop_sink, set_avb_sink_map, the_sink, channels_of. keeps_auto. Qed.
Hint Resolve update_sink_state_starts : keeps.

Lemma set_source_starts f n : keeps keeps_starts (set_source_with f n).
Proof.
  unfold set_source_with. cbn [_get_source_info _set_source_info avb_manager]. unfold serve_set_source_info, the_source. keeps_auto.
Qed.
Lemma set_sink_starts f n : keeps keeps_starts (set_sink_with f n).
Proof. unfold set_sink_with. cbn [_get_sink_info _set_sink_info avb_manager]. unfold serve_set_sink_info, the_sink. keeps_auto. Qed.
Lemma set_clock_starts f n : keeps keeps_starts (set_clock_with f n).
Proof.
  unfold set_clock_with. cbn [_get_media_clock_info _set_media_clock_info avb_manager].
  unfold serve_set_media_clock_info, set_clock_info, the_clock. keeps_auto.
Qed.

Lemma reachable_starts m : manager_reachable m -> starts_ok (mgr_out m).
Proof.
  induction 1 as [inputs outputs clocks states talkers listeners mac m Hfill H|m c b m' _ IH H].
  - assert (keeps keeps_starts (avb_init talkers listeners mac)) as K.
    { unfold avb_init, register_talkers, register_listeners. keeps_auto.
      all: apply keeps_modify; intros; by apply same_out_starts. }
    apply (K _ _ _ H). intros pre c l post E. cbn in E. by destruct pre.
  - revert IH. destruct c; cbn [api_do] in H; (by eapply set_source_starts; exact H) || (by eapply set_sink_starts; exact H) ||
      (by eapply set_clock_starts; exact H).
Qed.
End Manager.

(** ** The debug counters *)

(** The part of [get_debug_counters] for the talkers; [counter] is what the units answer
    to [AVB1722_GET_COUNTERS]. *)
Definition debug_sent_1722 (counter : nat -> Z) (m : manager) : option Z :=
  foldl (fun sum i => a ← sum; source ← mgr_sources m !! i; Some (u32 (a + counter (talker_ctl source))))
    (Some 0) (seq 0 (max_talker_stream_id m)).

(** The unit is asked once for each of its streams, and counted as often. *)
Lemma debug_counts_per_stream counter c m :
  (max_talker_stream_id m <= length (mgr_sources m))%nat ->
  (forall i source, mgr_sources m !! i = Some source -> talker_ctl source = c) ->
  debug_sent_1722 counter m = Some (u32 (Z.of_nat (max_talker_stream_id m) * counter c)).
Proof.
  unfold debug_sent_1722. intros Hl Hc. revert Hl. generalize (max_talker_stream_id m). intros n Hl.
  induction n as [|n IH]; [done|]. rewrite seq_S, foldl_app, IH by lia. cbn [foldl Nat.add mbind option_bind].
  destruct (lookup_lt_is_Some_2 (mgr_sources m) n) as [source Hs]; [lia|]. rewrite Hs. cbn [mbind option_bind].
  rewrite (Hc _ _ Hs). f_equal. unfold u32, wrap. rewrite Zplus_mod_idemp_l. f_equal. lia.
Qed.

Section Served.
Context `{cfg : Config} `{tcfg : TalkerConfig} `{wf_rates : !TalkerRates} `{answers : SrpAnswers}.

Definition commands_in (steps : list talker_step) : list talker_command :=
  omap (fun st => match st with Serve (TalkerCommand cmd) => Some cmd | _ => None end) steps.

(** What a command must be apart from the order. *)
Definition in_range (cmd : talker_command) : Prop :=
  match cmd with CmdGo _ => True | _ => command_ok [] cmd end.
Definition frame_in_range (st : talker_step) : Prop :=
  match st with FrameIn frame => length (frame_samples frame) = media_inputs | _ => True end.

(** Every stream that is started is in [conf] or has been configured. *)
Definition started_configured (conf : list Z) (cmds : list talker_command) : Prop :=
  forall pre n post, cmds = pre ++ CmdGo n :: post -> n ∈ conf \/ exists set, CmdConfigure n set ∈ pre.

Lemma steps_ok_ordered steps : forall conf,
  Forall in_range (commands_in steps) -> Forall frame_in_range steps -> started_configured conf (commands_in steps) ->
  steps_ok conf steps.
Proof.
  induction steps as [|st steps IH]; intros conf Hr Hf Ho; [done|]. apply list.Forall_cons in Hf as [Hf1 Hf].
  destruct st as [[cmd|now|info|]|frame]; cbn [steps_ok]; try (by apply IH); [|by split; [|apply IH]].
  change (commands_in (Serve (TalkerCommand cmd) :: steps)) with (cmd :: commands_in steps) in Hr, Ho.
  apply list.Forall_cons in Hr as [Hr1 Hr]. split.
  - destruct cmd; try done. destruct (Ho [] n (commands_in steps) eq_refl) as [|(set & Hin)]; [done|].
    by apply not_elem_of_nil in Hin.
  - apply IH; [done|done|]. intros pre n post E. destruct (Ho (cmd :: pre) n post) as [Hn|(set & Hin)]; [by rewrite E| |].
    + left. destruct cmd; try done. by right.
    + apply elem_of_cons in Hin as [<-|Hin]; [left; by left|]. right. by exists set.
Qed.

Lemma omap_split {A B} (f : A -> option B) l : forall pre x post,
  omap f l = pre ++ x :: post -> exists l1 y l2, l = l1 ++ y :: l2 /\ f y = Some x /\ omap f l1 = pre.
Proof.
  induction l as [|a l IH]; intros pre x post E; cbn in E; [by destruct pre|].
  destruct (f a) as [b|] eqn:Ea.
  - destruct pre as [|p pre]; injection E as <- E.
    + by exists [], a, l.
    + destruct (IH pre x post E) as (l1 & y & l2 & -> & Hy & H). exists (a :: l1), y, l2.
      split; [done|]. split; [done|]. cbn. by rewrite Ea, H.
  - destruct (IH pre x post E) as (l1 & y & l2 & -> & Hy & H). exists (a :: l1), y, l2.
    split; [done|]. split; [done|]. cbn. by rewrite Ea.
Qed.

Lemma starts_commands c evs : starts_ok evs -> started_configured [] (omap (command_of c) evs).
Proof.
  intros H pre n post E. right. apply omap_split in E as (l1 & ev & l2 & -> & Hev & <-).
  destruct ev; cbn in Hev; try (destruct (_ =? c)%nat eqn:Ec; [|done]); try done. injection Hev as ->.
  apply Nat.eqb_eq in Ec as ->. pose proof (H l1 c n l2 eq_refl) as Hx. apply existsb_exists in Hx as (ev & Hin & Hx).
  destruct ev; try done. cbn in Hx. apply andb_prop in Hx as [Hc Hl]. apply Z.eqb_eq in Hl as ->.
  eexists. apply list_elem_of_omap. eexists. split; [by apply list_elem_of_In|]. cbn. by rewrite Hc.
Qed.

Lemma started_prefix conf cmds cmds' : cmds `prefix_of` cmds' -> started_configured conf cmds' -> started_configured conf cmds.
Proof.
  intros [k ->] H pre n post E. apply (H pre n (post ++ k)). by rewrite E, <- app_assoc.
Qed.

(** C10: whatever the clients of the AVB manager ask for, a talker unit serves the commands
    they lead to: after its start, with arrays of any content, it serves the commands the
    manager has sent to it so far, or as many as have arrived, with frames, time and
    answers of the clock anywhere in between, to the end and within its arrays - if the
    streams are configured with a rate, a mapping and numbers that exist. Every packet
    sent has its header at least and fits into its buffer, and the counter counts them. *)
Theorem manager_commands_served c m num_streams mac_addr info now steps s :
  manager_reachable m -> commands_in steps `prefix_of` omap (command_of c) (mgr_out m) ->
  Forall in_range (commands_in steps) -> Forall frame_in_range steps ->
  fresh_task s -> length mac_addr = MAC_ADRS_BYTE_COUNT ->
  exists s', (_ ← avb_1722_talker_start num_streams mac_addr info now; talker_run steps) s = Some (tt, s') /\
    sent_1722 (task_state s') = u32 (Z.of_nat (length (sent_packets (task_out s')))) /\
    Forall (fun p => 50 <= Z.of_nat (length p) <= tx_buf_bytes - 2) (sent_packets (task_out s')).
Proof.
  intros Hm Hpre Hr Hf Hs Hmac. apply talker_task_safe; [done..|].
  apply steps_ok_ordered; [done|done|]. eapply started_prefix; [exact Hpre|]. by apply starts_commands, reachable_starts.
Qed.
End Served.

(** * A unit with two streams

    Two sources of two channels each, on a device with four inputs. *)

Definition two_source_config : Config :=
  {| MRP_NUM_PORTS := 1; AVB_NUM_SOURCES := 2; AVB_NUM_SINKS := 1; AVB_MAX_NUM_VLAN := 2 |}.
Definition four_inputs : TalkerConfig := {| media_inputs := 4; max_audio_sample_rate := 48000 |}.

#[local] Existing Instances two_source_config four_inputs sample_answers.

(** What the task finds: arrays of no particular content. *)
Definition sample_fresh : talker_task :=
  MkTalkerTask (MkTalkerState [replicate 248 7; replicate 248 9] [3; 4]
                 [upd_talker_active (fun _ => 2) (config blank_talker); config blank_talker] 9 9 [] 9 77)
    5 (init_audio_input_buffer (MkDoubleBuffer 9 9 0 [sample_frame 0; sample_frame 0])) sample_time 1 0 [].

Lemma sample_fresh_ok : fresh_task sample_fresh.
Proof. split; try (by vm_compute); by repeat constructor. Qed.

Definition stream_settings (map : list Z) : talker_settings :=
  MkSettings MBLA_24BIT [0x91; 0xe0; 0xf0; 0; 0xfe; 1] 0 5 map 48000 2000000.

Definition unit_mac : list Z := [0; 0x22; 0x97; 0; 0; 1].

(** The state after the start and some steps. *)
Definition unit_after (steps : list talker_step) : talker_task :=
  match (_ ← avb_1722_talker_start 2 unit_mac sample_time 0; talker_run steps) sample_fresh with
  | Some (_, s) => s
  | None => sample_fresh
  end.

#[local] Instance sample_rates : TalkerRates.
Proof. by split. Qed.

Lemma unit_after_ok steps : steps_ok [] steps -> task_ok (configured_by [] steps) (unit_after steps).
Proof.
  intros H. destruct (start_ok 2 unit_mac sample_time 0 sample_fresh sample_fresh_ok eq_refl) as (s1 & E1 & H1).
  destruct (run_ok steps [] s1 H1 H) as (s' & E & H').
  unfold unit_after. erewrite M_bind_run by exact E1. by rewrite E.
Qed.

Definition command (cmd : talker_command) : talker_step := Serve (TalkerCommand cmd).

(** ** The manager's commands *)

Definition two_registered : manager :=
  match avb_init [(0, 2)] [(0, 1)] sample_mac (manager_static (replicate 4 (MkMediaInfo 0 7 0 0 UNMAPPED))
          [MkMediaInfo 0 7 0 0 UNMAPPED] [] []) with
  | Some (_, m) => m
  | None => manager_static [] [] [] []
  end.
Definition two_calls : list api_call :=
  [SetSourceFormat 0 MBLA_24BIT 48000; SetSourceChannels 0 2; SetSourceMap 0 [0; 1];
   SetSourceFormat 1 MBLA_24BIT 48000; SetSourceChannels 1 2; SetSourceMap 1 [2; 3];
   SetSourceState 0 AVB_SOURCE_STATE_POTENTIAL; SetSourceState 1 AVB_SOURCE_STATE_POTENTIAL;
   SetSourceState 0 AVB_SOURCE_STATE_ENABLED; SetSourceState 1 AVB_SOURCE_STATE_ENABLED;
   SetSourceState 0 AVB_SOURCE_STATE_DISABLED].
Definition two_manager : manager :=
  match api_run two_calls two_registered with Some (_, m) => m | None => two_registered end.

Lemma two_manager_reachable : manager_reachable two_manager.
Proof.
  assert (manager_reachable two_registered) as H.
  { eapply (manager_starts _ _ _ _ [(0, 2)] [(0, 1)] sample_mac); [split; [by repeat constructor|done]|by vm_compute]. }
  eapply (api_run_reachable two_calls); [exact H|by vm_compute].
Qed.

Definition configure_source (n mask : Z) (map : list Z) : talker_command :=
  CmdConfigure n (MkSettings 0 (replicate 6 0) n mask map 48000 2000000).

(** What the unit gets to see of it. *)
Definition two_commands : list talker_command :=
  [configure_source 0 3 [0; 1]; CmdSetVlan 0 2; configure_source 1 12 [2; 3]; CmdSetVlan 1 2;
   configure_source 0 3 [0; 1]; CmdGo 0; configure_source 1 12 [2; 3]; CmdGo 1; CmdStop 0].

Lemma two_manager_commands : omap (command_of 0) (mgr_out two_manager) = two_commands.
Proof. by vm_compute. Qed.

Lemma two_commands_in_range : Forall in_range two_commands.
Proof.
  assert (forall n mask map, 0 <= n < 2 -> (length map <= 8)%nat -> Forall (fun m => 0 <= m < 4) map ->
    in_range (configure_source n mask map)) as H.
  { intros n mask map Hn Hl Hm. split; [exact Hn|]. split; [by eexists|]. split; [done|]. split; [done|]. split; [exact Hl|exact Hm]. }
  unfold two_commands. repeat constructor; try done;
    match goal with |- _ /\ settings_ok _ => apply H; [lia|cbn; lia|repeat constructor; lia] end.
Qed.

(** The commands, with 20 frames before the last one. *)
Definition manager_steps : list talker_step :=
  (command <$> take 8 two_commands) ++ feed (sample_frames 20) ++ (command <$> drop 8 two_commands).

Lemma manager_steps_commands : commands_in manager_steps = two_commands.
Proof. by vm_compute. Qed.

Lemma manager_steps_frames : Forall frame_in_range manager_steps.
Proof. vm_compute. by repeat constructor. Qed.

Lemma manager_commands_served_witness :
  commands_in manager_steps = omap (command_of 0) (mgr_out two_manager) /\
  exists s', (_ ← avb_1722_talker_start 2 unit_mac sample_time 0; talker_run manager_steps) sample_fresh = Some (tt, s') /\
    sent_1722 (task_state s') = u32 (Z.of_nat (length (sent_packets (task_out s')))).
Proof.
  assert (commands_in manager_steps = omap (command_of 0) (mgr_out two_manager)) as Hc
    by (rewrite manager_steps_commands; symmetry; exact two_manager_commands).
  split; [exact Hc|].
  destruct (manager_commands_served 0 two_manager 2 unit_mac sample_time 0 manager_steps sample_fresh two_manager_reachable) as (s' & E & H & _).
  - rewrite Hc. reflexivity.
  - rewrite manager_steps_commands. exact two_commands_in_range.
  - exact manager_steps_frames.
  - exact sample_fresh_ok.
  - reflexivity.
  - exists s'. split; [exact E|exact H].
Defined.

(** ** One stream

    The second stream of the unit, two frames into its first packet. *)

Definition one_stream_steps : list talker_step :=
  command <$> [CmdConfigure 0 (stream_settings [0; 1]); CmdSetVlan 1 2; CmdConfigure 1 (stream_settings [2; 0]); CmdGo 1].
Definition one_stream : talker_task := unit_after one_stream_steps.
Definition stream_of (n : Z) (s : talker_task) : talker_unit := default blank_talker (unit_of n s).

Lemma others_idle s i acts :
  talker_active <$> talker_streams (task_state s) = acts -> (forall k a, acts !! k = Some a -> k <> i -> a <> 2) ->
  forall m u, m <> Z.of_nat i -> unit_of m s = Some u -> talker_active (config u) <> 2.
Proof.
  intros E H m u Hne (Hu & _ & _)%unit_of_lookup. apply elem_at_lookup in Hu as [Hm Hu].
  apply (H (Z.to_nat m)); [|lia]. by rewrite <- E, list_lookup_fmap, Hu.
Qed.

Lemma stream_settings_ok map :
  (length map <= 8)%nat -> Forall (fun m => 0 <= m < 4) map -> settings_ok (stream_settings map).
Proof. intros Hl Hm. split; [by eexists|]. split; [done|]. split; [done|]. split; [exact Hl|exact Hm]. Qed.

Ltac steps_in_order :=
  cbn [steps_ok command_ok configured_after fmap list_fmap command app]; split_and!; try done;
  try (apply stream_settings_ok; [cbn; lia|repeat constructor; lia]);
  try (unfold in_unit; cbn; lia); try (rewrite !elem_of_cons; tauto).

Lemma one_stream_sole : sole [1; 0] 1 (stream_of 1 one_stream) one_stream.
Proof.
  split; [|by vm_compute..| |by vm_compute; repeat constructor].
  - apply (unit_after_ok one_stream_steps). unfold one_stream_steps. steps_in_order.
  - apply (others_idle one_stream 1 [1; 2]); [by vm_compute|]. intros [|[|k]] a [= <-]; done.
Qed.

(** Twenty frames make three packets. *)
Lemma one_stream_refines_talk_witness :
  exists pkts t' s', talk (sample_frames 20) (stream_of 1 one_stream) = Some (pkts, t') /\
    talker_run (feed (sample_frames 20)) one_stream = Some (tt, s') /\ length pkts = 3%nat /\
    task_out s' = task_out one_stream ++ (packet_event <$> pkts).
Proof.
  destruct (one_stream_refines_talk [1; 0] 1 (stream_of 1 one_stream) one_stream (sample_frames 20)
    one_stream_sole (sample_frames_ok 20)) as (pkts & t' & s' & E & R & _ & O).
  exists pkts, t', s'. split; [exact E|]. split; [exact R|]. split; [|exact O].
  assert (length <$> (fst <$> talk (sample_frames 20) (stream_of 1 one_stream)) = Some 3%nat) as Hl by (vm_compute; reflexivity).
  rewrite E in Hl. by injection Hl.
Defined.

(** ** Two streams

    Both streams have five frames of their first packets. *)

Definition two_ready_steps : list talker_step :=
  (command <$> [CmdConfigure 0 (stream_settings [0; 1]); CmdConfigure 1 (stream_settings [2; 3]); CmdGo 0; CmdGo 1]) ++
  feed (sample_frames 5).
Definition two_ready : talker_task := unit_after two_ready_steps.

Lemma two_ready_ok : two_streams [1; 0] (stream_of 0 two_ready) (stream_of 1 two_ready) two_ready.
Proof.
  split; [|by vm_compute..]. apply (unit_after_ok two_ready_steps). unfold two_ready_steps. cbn [feed flat_map sample_frames seq fmap list_fmap feed_one app fst snd]. steps_in_order.
Qed.

(** The second packet begins with the sample of the seventh frame. *)
Lemma second_stream_damaged_witness :
  exists p0 p1 s', talker_run (feed [(sample_time, sample_frame 5); (sample_time, sample_frame 6)]) two_ready = Some (tt, s') /\
    task_out s' = task_out two_ready ++ [SendPacket p0; SendPacket p1] /\
    word_le p1 50 = Some (packed_sample MBLA_24BIT (0x12345600 + 6)).
Proof.
  destruct (second_stream_damaged [1; 0] (stream_of 0 two_ready) (stream_of 1 two_ready) two_ready
    sample_time (sample_frame 5) sample_time (sample_frame 6) two_ready_ok) as (t0' & p1 & s' & R & _ & O & _ & Hw); [by vm_compute..|].
  eexists _, p1, s'. split; [exact R|]. split; [exact O|].
  assert (Z.of_nat 0 < talker_num_channels (config (stream_of 1 two_ready))) as Hk by (by vm_compute).
  etransitivity; [exact (Hw 0%nat Hk)|by vm_compute].
Defined.

(** ** The VLAN

    A unit whose streams are configured; VLAN 5 is set for the second, and the first is
    enabled. *)

Definition two_idle_steps : list talker_step :=
  command <$> [CmdConfigure 0 (stream_settings [0; 1]); CmdSetVlan 0 2; CmdConfigure 1 (stream_settings [2; 3])].
Definition two_idle : talker_task := unit_after two_idle_steps.

Lemma two_idle_ok : task_ok [1; 0] two_idle /\ quiet_unit two_idle.
Proof.
  split; [apply (unit_after_ok two_idle_steps); unfold two_idle_steps; steps_in_order|]. split; [|by vm_compute; repeat constructor].
  intros n t Ht. destruct (decide (n = Z.of_nat 2)) as [->|Hne]; [by vm_compute in Ht|].
  apply (others_idle two_idle 2 [1; 1]) with n; [by vm_compute| |done|done]. intros [|[|k]] a [= <-]; done.
Qed.

Lemma last_vlan_tags_packets_witness :
  exists pkts s', talker_run ((command <$> [CmdSetVlan 1 5; CmdConfigure 0 (stream_settings [0; 1]); CmdGo 0]) ++ feed (sample_frames 7))
      two_idle = Some (tt, s') /\
    task_out s' = task_out two_idle ++ (SendPacket <$> pkts) /\ Forall (fun p => frame_vid p = 5) pkts.
Proof.
  destruct two_idle_ok as [H Hq].
  apply (last_vlan_tags_packets [1; 0] 0 1 5 (stream_settings [0; 1]) two_idle (sample_frames 7));
    [exact H|exact Hq|done|done| |apply sample_frames_ok].
  apply stream_settings_ok; [cbn; lia|repeat constructor; lia].
Defined.
