(* ===== verification/AppHooks.v ===== *)
(** The default hooks of connection management, [avb_1722_1_app_hooks.xc], over the
    interface of the AVB manager, and what connecting a listener does to the device. *)
From S2P Require Import Prelude MrpTypes MediaClock AvbApi AvbManager AvbManagerSpec AvbManagerStates.
From stdpp Require Import base list list_numbers numbers option.
From Stdlib Require Import ZArith Lia.
#[local] Open Scope Z_scope.

Section Hooks.
Context `{cfg : Config} {St : Type} `{avb : !avb_interface St}.

(** The result is [ACMP_STATUS_SUCCESS]. For a sink that does not exist the identifier
    compared is not set, but no call has an effect then. *)
Definition avb_listener_on_talker_connect_default (sink_num : Z) (dest_addr : list Z) (stream_id : Z * Z)
    (vlan_id : Z) : M St Z :=
  current ← get_sink_id sink_num;
  _ ← (if bool_decide (current = Some stream_id) then mret true
       else set_sink_state sink_num AVB_SINK_STATE_DISABLED);
  _ ← set_sink_id sink_num stream_id;
  _ ← set_sink_addr sink_num dest_addr;
  _ ← set_sink_vlan sink_num vlan_id;
  _ ← set_sink_state sink_num AVB_SINK_STATE_POTENTIAL;
  mret 0.

Definition avb_listener_on_talker_disconnect_default (sink_num : Z) : M St unit :=
  _ ← set_sink_state sink_num AVB_SINK_STATE_DISABLED; skip.

Definition avb_talker_on_listener_disconnect_default (source_num connection_count : Z) : M St unit :=
  state ← get_source_state source_num;
  match state with
  | None => skip
  | Some state =>
      whenM ((0 <? state) && (connection_count =? 0))
        (_ ← set_source_state source_num AVB_SOURCE_STATE_DISABLED; _ ← set_source_vlan source_num 0; skip)
  end.
End Hooks.

Section Connect.
Context `{cfg : Config} `{answers : SrpAnswers}.
Implicit Types s : manager.

Definition sink_channels (sink : sink_info) : list Z :=
  take (Z.to_nat (st_num_channels (si_stream sink))) (si_map sink).

Definition with_sink_state (st : avb_sink_state_t) (sink : sink_info) : sink_info :=
  upd_si_stream (upd_st_state (fun _ => sink_state_c st)) sink.

(** ** Steps *)

Lemma set_sink_quiet_run f n s sink sink' :
  n < Z.of_nat AVB_NUM_SINKS -> elem_at (mgr_sinks s) n = Some sink -> f sink = Some sink' ->
  st_state (si_stream sink) = 0 -> st_state (si_stream sink') = 0 ->
  set_sink_with f n s = Some (true, upd_mgr_sinks (set_elem n sink') s).
Proof.
  intros Hn Hs Hf H0 H1. unfold set_sink_with. destruct (Z.leb_spec (Z.of_nat AVB_NUM_SINKS) n); [lia|].
  cbn [_get_sink_info _set_sink_info avb_manager]. erewrite M_bind_run by (by apply the_sink_run). rewrite Hf.
  by erewrite M_bind_run by (by eapply serve_set_sink_quiet).
Qed.

Lemma set_sink_state_run s n st sink :
  n < Z.of_nat AVB_NUM_SINKS -> elem_at (mgr_sinks s) n = Some sink ->
  set_sink_state n st s =
    (_ ← update_sink_state n (st_state (si_stream sink)) (sink_state_c st); mret true)
      (upd_mgr_sinks (set_elem n (with_sink_state st sink)) s).
Proof.
  intros Hn Hs. unfold set_sink_state, set_sink_with. destruct (Z.leb_spec (Z.of_nat AVB_NUM_SINKS) n); [lia|].
  cbn [_get_sink_info _set_sink_info avb_manager]. erewrite M_bind_run by (by apply the_sink_run).
  cbv beta iota. unfold serve_set_sink_info. unfold mbind, M_bind.
  by rewrite (the_sink_run s n sink Hs), (put_sink_run s n sink _ Hs).
Qed.

(** What stopping a sink sends, in a state in which it is already marked disabled. *)
Definition stopping_events (s : manager) (sink : sink_info) : list mgr_event :=
  [DisableListenerStream (listener_ctl sink) (st_local_id (si_stream sink));
   DelMacaddrFilter (st_local_id (si_stream sink)) (dest_mac_addr (si_reservation sink));
   EndAttachRequest (sink_id sink)] ++
  (if (MRP_NUM_PORTS =? 1)%nat && truthy (vlan_id (si_reservation sink)) && valid_to_leave_vlan s
   then [LeaveVlan (vlan_id (si_reservation sink))] else []).

Lemma disable_sink_run s n sink :
  n < Z.of_nat AVB_NUM_SINKS -> elem_at (mgr_sinks s) n = Some sink ->
  let s1 := upd_mgr_sinks (set_elem n (with_sink_state AVB_SINK_STATE_DISABLED sink)) s in
  set_sink_state n AVB_SINK_STATE_DISABLED s =
    Some (true, upd_mgr_out (fun l => l ++ if st_state (si_stream sink) =? 0 then [] else stopping_events s1 sink) s1).
Proof.
  intros Hn Hs s1. rewrite (set_sink_state_run s n _ sink Hn Hs). fold s1.
  assert (elem_at (mgr_sinks s1) n = Some (with_sink_state AVB_SINK_STATE_DISABLED sink)) as Hs1 by (by eapply elem_at_set).
  unfold update_sink_state. unfold mbind at 1 2, M_bind at 1 2. rewrite (the_sink_run s1 n _ Hs1).
  cbn [sink_state_c]. destruct (st_state (si_stream sink) =? 0); cbn [andb negb Z.eqb].
  - destruct s1. norm_manager. by rewrite app_nil_r.
  - unfold stop_sink, stopping_events, leave_vlan_if_unused. cbv zeta.
    change (listener_ctl (with_sink_state _ sink)) with (listener_ctl sink).
    change (si_reservation (with_sink_state _ sink)) with (si_reservation sink).
    change (st_local_id (si_stream (with_sink_state _ sink))) with (st_local_id (si_stream sink)).
    change (sink_id (with_sink_state _ sink)) with (sink_id sink).
    generalize (MRP_NUM_PORTS =? 1)%nat (truthy (vlan_id (si_reservation sink))). intros b1 b2.
    change (valid_to_leave_vlan s1) with (valid_to_leave_vlan (upd_mgr_out (fun _ => []) s1)).
    destruct s1 as [sources sinks inputs outputs mt ml clocks states out]. norm_manager.
    unfold tell, modify, mbind, M_bind, gets. norm_manager.
    change (valid_to_leave_vlan (MkManager sources sinks inputs outputs mt ml clocks states _))
      with (valid_to_leave_vlan (MkManager sources sinks inputs outputs mt ml clocks states [])).
    destruct (b1 && b2 && _); cbn [whenM]; norm_manager; by rewrite <- ?app_assoc.
Qed.

(** What starting a sink sends. *)
Definition starting_sink_events (sink : sink_info) (output : media_info_t) : list mgr_event :=
  let t := si_stream sink in
  [ConfigureListenerStream (listener_ctl sink) (st_local_id t) (st_sync t) (st_rate t) (st_num_channels t)
     (sink_channels sink);
   RegisterClock (clk_ctl output) (st_sync t); GetRouterLink (listener_ctl sink);
   AddMacaddrFilter (st_local_id t) (dest_mac_addr (si_reservation sink));
   AttachRequest (sink_id sink) (vlan_id (si_reservation sink))].

Lemma start_sink_run s n sink c0 output :
  n < Z.of_nat AVB_NUM_SINKS -> elem_at (mgr_sinks s) n = Some sink -> st_state (si_stream sink) = 0 ->
  si_map sink !! 0%nat = Some c0 -> elem_at (mgr_outputs s) c0 = Some output ->
  (Z.to_nat (st_num_channels (si_stream sink)) <= length (si_map sink))%nat ->
  exists vlan, set_sink_state n AVB_SINK_STATE_POTENTIAL s = Some (true,
    upd_mgr_out (fun l => l ++ starting_sink_events sink output)
      (upd_mgr_sinks (set_elem n (upd_si_reservation (upd_vlan_id (fun _ => vlan))
        (with_sink_state AVB_SINK_STATE_POTENTIAL sink))) s)).
Proof.
  intros Hn Hs H0 Hc0 Ho Hm. rewrite (set_sink_state_run s n _ sink Hn Hs), H0.
  set (sink' := with_sink_state AVB_SINK_STATE_POTENTIAL sink).
  destruct s as [sources sinks inputs outputs mt ml clocks states out]. norm_manager.
  assert (elem_at (set_elem n sink' sinks) n = Some sink') as Hs1 by (by eapply elem_at_set).
  eexists. unfold update_sink_state, start_sink. unfold mbind at 1 2, M_bind at 1 2.
  rewrite (the_sink_run _ n sink') by done. cbn [sink_state_c Z.eqb Pos.eqb andb]. cbv zeta.
  change (si_map sink') with (si_map sink). change (si_reservation sink') with (si_reservation sink).
  change (listener_ctl sink') with (listener_ctl sink).
  change (st_num_channels (si_stream sink')) with (st_num_channels (si_stream sink)).
  unfold mbind, M_bind, channels_of, load, tell, modify, gets, upd_sink_at, store. norm_manager. rewrite Hc0.
  norm_manager. rewrite Ho. norm_manager. rewrite (proj2 (Nat.leb_le _ _) Hm). norm_manager. rewrite Hs1.
  cbn [mbind option_bind]. norm_manager. rewrite set_elem_twice, <- !app_assoc. reflexivity.
Qed.

(** The settings of a sink that is disabled, one after the other. *)
Definition tuned (sink : sink_info) (dest_addr : list Z) (stream_id : Z * Z) (vlan : Z) : sink_info :=
  upd_si_reservation (fun r => upd_vlan_id (fun _ => s16 vlan) (upd_dest_mac_addr (fun _ => dest_addr)
    (upd_stream_id1 (fun _ => stream_id.2) (upd_stream_id0 (fun _ => stream_id.1) r))))
    (with_sink_state AVB_SINK_STATE_DISABLED sink).

Lemma tune_run s n sink dest_addr stream_id vlan :
  n < Z.of_nat AVB_NUM_SINKS -> elem_at (mgr_sinks s) n = Some (with_sink_state AVB_SINK_STATE_DISABLED sink) ->
  length dest_addr = 6%nat ->
  (_ ← set_sink_id n stream_id; _ ← set_sink_addr n dest_addr; set_sink_vlan n vlan) s =
    Some (true, upd_mgr_sinks (set_elem n (tuned sink dest_addr stream_id vlan)) s).
Proof.
  intros Hn Hs Ha. destruct s as [sources sinks inputs outputs mt ml clocks states out]. norm_manager.
  erewrite M_bind_run by (eapply set_sink_quiet_run; [exact Hn|exact Hs|reflexivity|reflexivity|reflexivity]).
  norm_manager.
  erewrite M_bind_run by (eapply set_sink_quiet_run;
    [exact Hn|by eapply elem_at_set|unfold sink_if_disabled; cbn [upd_si_reservation si_stream]; rewrite Ha; reflexivity
    |reflexivity|reflexivity]).
  norm_manager. unfold set_sink_vlan.
  erewrite set_sink_quiet_run; [|exact Hn|by eapply elem_at_set, elem_at_set|reflexivity|reflexivity|reflexivity].
  norm_manager. by rewrite !set_elem_twice.
Qed.

(** ** Connecting *)

(** Connecting a sink to a stream it does not carry: whatever state the sink is in, it
    is first stopped - its listener disabled, the address of the old stream taken out of
    the filter, the old stream left, and its VLAN if no other stream runs - and then
    started for the new stream, whose identifier, address and VLAN it has when the
    attach request is sent. *)
Theorem listener_connects s n sink c0 output dest_addr stream_id vlan :
  0 <= n < Z.of_nat AVB_NUM_SINKS -> elem_at (mgr_sinks s) n = Some sink -> sink_id sink <> stream_id ->
  length dest_addr = 6%nat -> si_map sink !! 0%nat = Some c0 -> elem_at (mgr_outputs s) c0 = Some output ->
  (Z.to_nat (st_num_channels (si_stream sink)) <= length (si_map sink))%nat ->
  let stopped := upd_mgr_sinks (set_elem n (with_sink_state AVB_SINK_STATE_DISABLED sink)) s in
  exists s' sink',
    avb_listener_on_talker_connect_default n dest_addr stream_id vlan s = Some (0, s') /\
    mgr_out s' = mgr_out s ++
      (if st_state (si_stream sink) =? 0 then [] else stopping_events stopped sink) ++
      starting_sink_events (tuned sink dest_addr stream_id vlan) output /\
    elem_at (mgr_sinks s') n = Some sink' /\ st_state (si_stream sink') = sink_state_c AVB_SINK_STATE_POTENTIAL /\
    sink_id sink' = stream_id /\ dest_mac_addr (si_reservation sink') = dest_addr /\
    forall m, 0 <= m -> m <> n -> elem_at (mgr_sinks s') m = elem_at (mgr_sinks s) m.
Proof.
  intros [Hn0 Hn] Hs Hid Ha Hc0 Ho Hm stopped. pose proof (disable_sink_run s n sink Hn Hs) as E1. fold stopped in E1.
  destruct s as [sources sinks inputs outputs mt ml clocks states out]. cbv zeta in E1. norm_manager.
  set (evs := if st_state (si_stream sink) =? 0 then [] else stopping_events stopped sink) in *.
  set (s1 := upd_mgr_out (fun l => l ++ evs) stopped) in *.
  change (set_sink_state n AVB_SINK_STATE_DISABLED
    (MkManager sources sinks inputs outputs mt ml clocks states out) = Some (true, s1)) in E1.
  assert (elem_at (mgr_sinks s1) n = Some (with_sink_state AVB_SINK_STATE_DISABLED sink)) as Hs1 by (by eapply elem_at_set).
  pose proof (tune_run s1 n sink dest_addr stream_id vlan Hn Hs1 Ha) as E2.
  set (sink2 := tuned sink dest_addr stream_id vlan) in *. set (s2 := upd_mgr_sinks (set_elem n sink2) s1) in *.
  destruct (start_sink_run s2 n sink2 c0 output) as [v E3]; try done; [by eapply elem_at_set|].
  eexists _, _. split; [|split_and!].
  - unfold avb_listener_on_talker_connect_default.
    erewrite M_bind_run by (eapply (get_sink_run _ n _ sink); [exact Hn|exact Hs|reflexivity]).
    rewrite bool_decide_false by (intros [= E]; by apply Hid).
    erewrite M_bind_run by exact E1. unfold mbind, M_bind in E2 |- *.
    destruct (set_sink_id n stream_id s1) as [[? ?]|]; [|done].
    destruct (set_sink_addr n dest_addr _) as [[? ?]|]; [|done].
    destruct (set_sink_vlan n vlan _) as [[? ?]|]; [|done]. injection E2 as _ E2. rewrite E2, E3. reflexivity.
  - unfold s2, s1, stopped. norm_manager. by rewrite <- app_assoc.
  - by eapply elem_at_set, elem_at_set.
  - done.
  - by destruct stream_id.
  - done.
  - intros m H0 Hne. unfold s2, s1, stopped. norm_manager. by rewrite !elem_at_set_ne by done.
Qed.
End Connect.

#[local] Existing Instances default_config sample_answers.

(** The sample device, listening to stream 1:2 on VLAN 5. *)
Definition sample_listening : manager :=
  match api_run [SetSinkChannels 0 1; SetSinkId 0 (1, 2); SetSinkVlan 0 5; SetSinkState 0 AVB_SINK_STATE_POTENTIAL]
          sample_registered with
  | Some (_, s) => s
  | None => sample_start
  end.

Example listener_connects_witness :
  exists s', avb_listener_on_talker_connect_default 0 sample_mac (3, 4) 2 sample_listening = Some (0, s') /\
    drop 5 (mgr_out s') =
      [DisableListenerStream 0 0; DelMacaddrFilter 0 (replicate 6 0); EndAttachRequest (1, 2); LeaveVlan 5;
       ConfigureListenerStream 0 0 0 0 1 [0]; RegisterClock 7 0; GetRouterLink 0; AddMacaddrFilter 0 sample_mac;
       AttachRequest (3, 4) 2].
Proof.
  destruct (listener_connects sample_listening 0 (default zero_sink (mgr_sinks sample_listening !! 0%nat)) 0
    (MkMediaInfo 0 7 0 0 UNMAPPED) sample_mac (3, 4) 2) as (s' & sink' & E & O & _);
    [by vm_compute|by vm_compute|by vm_compute|done|by vm_compute|by vm_compute|vm_compute; lia|].
  exists s'. split; [exact E|]. rewrite O. by vm_compute.
Defined.
