(* ===== verification/AvbRefine.v ===== *)
(** The AVB manager as SRP sees it: the operations of [AvbApp] on the world of SRP are
    those of the manager, seen through the identifiers, states and VLANs of its streams. *)
From S2P Require Import Prelude MrpTypes MrpMatch MediaClock AvbApp AvbApi AvbManager AvbManagerSpec AvbManagerStates AppHooks.
From stdpp Require Import base list list_numbers numbers option.
From Stdlib Require Import ZArith Lia.
#[local] Open Scope Z_scope.

Definition sees_source (x : source_info) (y : avb_source_info_t) : Prop :=
  src_stream_id0 y = stream_id0 (so_reservation x) /\ src_stream_id1 y = stream_id1 (so_reservation x) /\
  source_state_c (src_state y) = st_state (so_stream x) /\ src_vlan y = vlan_id (so_reservation x).
Definition sees_sink (x : sink_info) (y : avb_sink_info_t) : Prop :=
  snk_stream_id0 y = stream_id0 (si_reservation x) /\ snk_stream_id1 y = stream_id1 (si_reservation x) /\
  sink_state_c (snk_state y) = st_state (si_stream x) /\ snk_vlan y = vlan_id (si_reservation x).

(** SRP's world shows the streams of the manager. *)
Definition sees (s : manager) (w : world) : Prop :=
  Forall2 sees_source (mgr_sources s) (sources (env w)) /\ Forall2 sees_sink (mgr_sinks s) (sinks (env w)).

Section Refine.
Context `{cfg : Config} `{answers : SrpAnswers}.
Implicit Types s : manager.
Implicit Types w : world.

Lemma sees_lookup s w n y :
  sees s w -> sources (env w) !! n = Some y ->
  exists x, elem_at (mgr_sources s) (Z.of_nat n) = Some x /\ sees_source x y.
Proof.
  intros [H _] Hy. destruct (Forall2_lookup_r _ _ _ _ _ H Hy) as (x & Hx & Hxy). exists x.
  split; [|done]. apply elem_at_lookup. rewrite Nat2Z.id. split; [lia|done].
Qed.
Lemma sees_lookup_sink s w n y :
  sees s w -> sinks (env w) !! n = Some y ->
  exists x, elem_at (mgr_sinks s) (Z.of_nat n) = Some x /\ sees_sink x y.
Proof.
  intros [_ H] Hy. destruct (Forall2_lookup_r _ _ _ _ _ H Hy) as (x & Hx & Hxy). exists x.
  split; [|done]. apply elem_at_lookup. rewrite Nat2Z.id. split; [lia|done].
Qed.

(** A state update of the manager that leaves its streams alone but for the update itself. *)
Definition same_streams (s s' : manager) : Prop :=
  mgr_sources s' = mgr_sources s /\ mgr_sinks s' = mgr_sinks s.
#[local] Instance same_streams_preorder : PreOrder same_streams.
Proof. split; [done|]. intros s1 s2 s3 [A1 B1] [A2 B2]. split; congruence. Qed.

Lemma tell_same ev : keeps same_streams (tell ev).
Proof. by apply keeps_modify. Qed.
Lemma set_mapped_to_same v n : keeps same_streams (set_mapped_to v n).
Proof. apply keeps_store. intros s s' H. destruct (elem_at (mgr_inputs s) n); [|done]. cbn in H. by simplify_eq. Qed.
Hint Resolve tell_same set_mapped_to_same : keeps.

Lemma configure_same source n : keeps same_streams (configure_talker_stream source n).
Proof. unfold configure_talker_stream, channels_of. keeps_auto. Qed.
Lemma stop_source_same source : keeps same_streams (stop_source source).
Proof. unfold stop_source, channels_of, leave_vlan_if_unused. keeps_auto. Qed.

(** The changes of state other than the request of a stream run without touching the streams. *)
Lemma update_source_state_run s n source p q :
  elem_at (mgr_sources s) n = Some source -> ~ (p = 0 /\ q = 1) ->
  (Z.to_nat (st_num_channels (so_stream source)) <= length (so_map source))%nat ->
  inputs_exist s (source_channels source) ->
  exists s', update_source_state n p q s = Some (tt, s') /\ same_streams s s'.
Proof.
  intros Hs Hpq Hm Hex. unfold update_source_state. erewrite M_bind_run by (by apply the_source_run). cbv zeta.
  destruct (configure_run source n s Hm Hex) as (ins1 & E1 & _).
  destruct (mapped_run UNMAPPED _ s Hex) as (ins2 & E2 & _).
  assert (exists s', stop_source source s = Some (tt, s')) as [s2 E3].
  { unfold stop_source. erewrite M_bind_run by (by apply channels_of_run). erewrite M_bind_run by exact E2.
    erewrite M_bind_run by reflexivity. unfold leave_vlan_if_unused. unfold mbind, M_bind, gets.
    destruct (whenM _ _ _) as [[[] s3]|] eqn:E; [by eexists|]. destruct (_ && _) in E; done. }
  destruct ((p =? 0) && (q =? 1)) eqn:C1; [apply andb_true_iff in C1; lia|].
  destruct ((p =? 2) && (q =? 1)); [eexists; split; [reflexivity|done]|].
  destruct ((p =? 1) && (q =? 2)).
  { eexists. split; [erewrite M_bind_run by exact E1; reflexivity|done]. }
  destruct (negb (p =? 0) && (q =? 0)); [|by eexists].
  exists s2. split; [exact E3|by eapply stop_source_same].
Qed.

Lemma sees_set_source s s' w w' n x y :
  sees s w -> mgr_sources s' = set_elem (Z.of_nat n) x (mgr_sources s) -> mgr_sinks s' = mgr_sinks s ->
  sources (env w') = <[n := y]> (sources (env w)) -> sinks (env w') = sinks (env w) ->
  sees_source x y -> sees s' w'.
Proof.
  intros [H1 H2] E1 E2 E3 E4 Hxy. split; [rewrite E1, E3|by rewrite E2, E4]. unfold set_elem. rewrite Nat2Z.id.
  by apply Forall2_insert.
Qed.
Lemma sees_set_sink s s' w w' n x y :
  sees s w -> mgr_sinks s' = set_elem (Z.of_nat n) x (mgr_sinks s) -> mgr_sources s' = mgr_sources s ->
  sinks (env w') = <[n := y]> (sinks (env w)) -> sources (env w') = sources (env w) ->
  sees_sink x y -> sees s' w'.
Proof.
  intros [H1 H2] E1 E2 E3 E4 Hxy. split; [by rewrite E2, E4|rewrite E1, E3]. unfold set_elem. rewrite Nat2Z.id.
  by apply Forall2_insert.
Qed.

(** ** The operations *)

Lemma get_source_state_refines s w n st w' :
  sees s w -> Z.of_nat n < Z.of_nat AVB_NUM_SOURCES -> avb_get_source_state n w = Some (st, w') ->
  get_source_state (Z.of_nat n) s = Some (Some (source_state_c st), s) /\ sees s w'.
Proof.
  intros Hw Hn H. apply M_bind_Some in H as (y & w1 & E1 & H). injection H as <- <-.
  unfold get_source, load in E1. destruct (sources (env w) !! n) as [y'|] eqn:Hy; [|done]. injection E1 as -> ->.
  destruct (sees_lookup s _ n y Hw Hy) as (x & Hx & (_ & _ & Hst & _)). split; [|done].
  rewrite Hst. by eapply get_source_run.
Qed.

Lemma get_source_vlan_refines s w n v w' :
  sees s w -> Z.of_nat n < Z.of_nat AVB_NUM_SOURCES -> avb_get_source_vlan n w = Some (v, w') ->
  get_source_vlan (Z.of_nat n) s = Some (Some v, s) /\ sees s w'.
Proof.
  intros Hw Hn H. apply M_bind_Some in H as (y & w1 & E1 & H). injection H as <- <-.
  unfold get_source, load in E1. destruct (sources (env w) !! n) as [y'|] eqn:Hy; [|done]. injection E1 as -> ->.
  destruct (sees_lookup s _ n y Hw Hy) as (x & Hx & (_ & _ & _ & Hv)). split; [|done].
  rewrite Hv. by eapply get_source_run.
Qed.

Lemma get_sink_vlan_refines s w n v w' :
  sees s w -> Z.of_nat n < Z.of_nat AVB_NUM_SINKS -> avb_get_sink_vlan n w = Some (v, w') ->
  get_sink_vlan (Z.of_nat n) s = Some (Some v, s) /\ sees s w'.
Proof.
  intros Hw Hn H. apply M_bind_Some in H as (y & w1 & E1 & H). injection H as <- <-.
  unfold get_sink, load in E1. destruct (sinks (env w) !! n) as [y'|] eqn:Hy; [|done]. injection E1 as -> ->.
  destruct (sees_lookup_sink s _ n y Hw Hy) as (x & Hx & (_ & _ & _ & Hv)). split; [|done].
  rewrite Hv. by eapply get_sink_run.
Qed.

Lemma set_source_vlan_refines s w n v u w' :
  sees s w -> Z.of_nat n < Z.of_nat AVB_NUM_SOURCES -> avb_set_source_vlan n v w = Some (u, w') ->
  exists s', set_source_vlan (Z.of_nat n) v s = Some (true, s') /\ sees s' w'.
Proof.
  intros Hw Hn H. apply M_bind_Some in H as ([] & w1 & E1 & H). injection H as _ <-.
  unfold upd_source, store in E1. destruct (sources (env w) !! n) as [y|] eqn:Hy; [|done]. injection E1 as <-.
  destruct (sees_lookup s _ n y Hw Hy) as (x & Hx & (H0 & H1 & H2 & H3)).
  destruct (set_source_run (laws := avb_manager_laws) (fun t => Some (upd_so_reservation (upd_vlan_id (fun _ => s16 v)) t)) (Z.of_nat n) s x _
    Hn Hx eq_refl) as (s' & E & S1 & S2 & _); [done|].
  exists s'. split; [exact E|]. eapply (sees_set_source s s' w _ n _ (upd_src_vlan (fun _ => s16 v) y)); try done.
Qed.

Lemma set_sink_vlan_refines s w n v u w' :
  sees s w -> Z.of_nat n < Z.of_nat AVB_NUM_SINKS -> avb_set_sink_vlan n v w = Some (u, w') ->
  exists s' b, set_sink_vlan (Z.of_nat n) v s = Some (b, s') /\ sees s' w'.
Proof.
  intros Hw Hn H. apply M_bind_Some in H as (y & w1 & E1 & H).
  unfold get_sink, load in E1. destruct (sinks (env w) !! n) as [y'|] eqn:Hy; [|done]. injection E1 as -> ->.
  destruct (sees_lookup_sink s _ n y Hw Hy) as (x & Hx & (H0 & H1 & H2 & H3)).
  destruct (decide (snk_state y = AVB_SINK_STATE_DISABLED)) as [Hd|Hd].
  - rewrite Hd in H2. apply M_bind_Some in H as ([] & w2 & E2 & H). injection H as _ <-.
    unfold upd_sink, store in E2. rewrite Hy in E2. injection E2 as <-.
    eexists _, true. split; [by eapply set_sink_quiet_run; [done|exact Hx|unfold sink_if_disabled; rewrite <- H2|..]|].
    eapply (sees_set_sink s _ w1 _ n _ (upd_snk_vlan (fun _ => s16 v) y)); try done. by rewrite <- Hd in H2.
  - injection H as _ <-. exists s, false. split; [|done]. apply set_sink_running. right. exists x. split; [done|].
    rewrite <- H2. by destruct (snk_state y).
Qed.

Lemma set_source_state_refines s w n st u w' x :
  sees s w -> Z.of_nat n < Z.of_nat AVB_NUM_SOURCES -> avb_set_source_state n st w = Some (u, w') ->
  elem_at (mgr_sources s) (Z.of_nat n) = Some x ->
  ~ (st_state (so_stream x) = 0 /\ st = AVB_SOURCE_STATE_POTENTIAL) ->
  (Z.to_nat (st_num_channels (so_stream x)) <= length (so_map x))%nat -> inputs_exist s (source_channels x) ->
  exists s', set_source_state (Z.of_nat n) st s = Some (true, s') /\ sees s' w'.
Proof.
  intros Hw Hn H Hx Hst Hm Hex. apply M_bind_Some in H as ([] & w1 & E1 & H). injection H as _ <-.
  unfold upd_source, store in E1. destruct (sources (env w) !! n) as [y|] eqn:Hy; [|done]. injection E1 as <-.
  destruct (sees_lookup s _ n y Hw Hy) as (x' & Hx' & (H0 & H1 & H2 & H3)). assert (x' = x) as -> by congruence.
  rewrite (set_source_state_run s _ st x Hn Hx).
  set (s1 := upd_mgr_sources (set_elem (Z.of_nat n) (with_state st x)) s).
  destruct (update_source_state_run s1 (Z.of_nat n) (with_state st x) (st_state (so_stream x)) (source_state_c st))
    as (s' & E & S1 & S2); try done.
  - by eapply elem_at_set.
  - intros [Hp Hq]. apply Hst. split; [done|]. by destruct st.
  - exists s'. split; [by erewrite M_bind_run by exact E|].
    eapply (sees_set_source s s' w _ n _ (upd_src_state (fun _ => st) y)); [done|exact S1|exact S2|done|done|done].
Qed.

(** The queries and settings that SRP makes of the AVB manager act on SRP's view of
    the streams - identifier, state, VLAN - exactly as the whole manager acts on its own
    records, with all the commands it sends: every such step of the view is a step of the
    manager that leads to the same view. (A source that goes from disabled to potential is
    not among them: the manager then asks SRP for the stream.) *)
Theorem manager_refines_srp_view s w n x v st w1 w2 w3 w4 r1 r2 r3 :
  sees s w -> Z.of_nat n < Z.of_nat AVB_NUM_SOURCES -> elem_at (mgr_sources s) (Z.of_nat n) = Some x ->
  ~ (st_state (so_stream x) = 0 /\ st = AVB_SOURCE_STATE_POTENTIAL) ->
  (Z.to_nat (st_num_channels (so_stream x)) <= length (so_map x))%nat -> inputs_exist s (source_channels x) ->
  avb_get_source_state n w = Some (r1, w1) -> avb_get_source_vlan n w = Some (r2, w2) ->
  avb_set_source_vlan n v w = Some (r3, w3) -> avb_set_source_state n st w = Some (tt, w4) ->
  (get_source_state (Z.of_nat n) s = Some (Some (source_state_c r1), s) /\ sees s w1) /\
  (get_source_vlan (Z.of_nat n) s = Some (Some r2, s) /\ sees s w2) /\
  (exists s', set_source_vlan (Z.of_nat n) v s = Some (true, s') /\ sees s' w3) /\
  (exists s', set_source_state (Z.of_nat n) st s = Some (true, s') /\ sees s' w4).
Proof.
  intros. split_and!; first
    [by eapply get_source_state_refines | by eapply get_source_vlan_refines | by eapply set_source_vlan_refines
    | by eapply set_source_state_refines].
Qed.
End Refine.

#[local] Existing Instances default_config sample_answers.

(** SRP's view of the sample device while its source transmits. *)
Definition sample_view : world :=
  static_world (MkEnv (fun _ => 0) 0 [] 0 [MkSource 0x00229701 0x02030000 AVB_SOURCE_STATE_ENABLED 2]
    [MkSink 0 0 AVB_SINK_STATE_DISABLED 0] []).

Lemma sample_sees : sees sample_manager sample_view.
Proof. split; vm_compute; (constructor; [by split_and!|constructor]). Qed.

Example manager_refines_srp_view_witness :
  exists s' w', avb_set_source_state 0 AVB_SOURCE_STATE_POTENTIAL sample_view = Some (tt, w') /\
    set_source_state 0 AVB_SOURCE_STATE_POTENTIAL sample_manager = Some (true, s') /\ sees s' w'.
Proof.
  destruct (avb_set_source_state 0 AVB_SOURCE_STATE_POTENTIAL sample_view) as [[[] w4]|] eqn:E4;
    [|by vm_compute in E4].
  destruct (manager_refines_srp_view sample_manager sample_view 0
    (default zero_source (mgr_sources sample_manager !! 0%nat)) 3 AVB_SOURCE_STATE_POTENTIAL
    sample_view sample_view
    (upd_env (fun e => upd_trace (fun _ => [MrpTypes.SetSourceVlan 0 3]) (upd_sources (fun _ =>
       [MkSource 0x00229701 0x02030000 AVB_SOURCE_STATE_ENABLED 3]) e)) sample_view)
    w4 AVB_SOURCE_STATE_ENABLED 2 tt sample_sees) as (_ & _ & _ & s' & E & Hs);
    [by vm_compute|by vm_compute|by vm_compute; lia|vm_compute; lia
    |apply (bool_decide_unpack _); by vm_compute|by vm_compute|by vm_compute|by vm_compute|exact E4|].
  exists s', w4. exact (conj eq_refl (conj E Hs)).
Defined.
