(* ===== verification/AecpTypes.v ===== *)
(** Enumeration and control (AECP): the data of [lib_tsn/src/1722_1/avb_1722_1_aecp.c],
    [avb_1722_1_aecp_pdu.h] and [lib_tsn/api/avb_1722_1_aecp_aem.h], and the outside
    it calls.

    A handler changes the received packet in place and copies parts of it into the
    transmit buffer, so both buffers belong to the state. The AVB manager, the
    application and the flash memory are a state [D] with the operations of the classes
    [avb_interface], [control_callbacks] and [flash_library]; the last two are not
    part of the library. *)
From S2P Require Import Prelude Bytes MiscTimer MrpTypes AvbApi AcmpTypes.
From stdpp Require Import base list list_numbers numbers option.
From Stdlib Require Import ZArith Lia.
#[local] Open Scope Z_scope.

(** * Constants *)

Definition AECP_CMD_AEM_COMMAND : Z := 0.
Definition AECP_CMD_AEM_RESPONSE : Z := 1.
Definition AECP_CMD_ADDRESS_ACCESS_COMMAND : Z := 2.
Definition DEFAULT_1722_1_AECP_SUBTYPE : Z := 0x7b.

Definition AECP_AEM_CMD_ACQUIRE_ENTITY : Z := 0.
Definition AECP_AEM_CMD_LOCK_ENTITY : Z := 1.
Definition AECP_AEM_CMD_ENTITY_AVAILABLE : Z := 2.
Definition AECP_AEM_CMD_CONTROLLER_AVAILABLE : Z := 3.
Definition AECP_AEM_CMD_READ_DESCRIPTOR : Z := 4.
Definition AECP_AEM_CMD_SET_STREAM_FORMAT : Z := 8.
Definition AECP_AEM_CMD_GET_STREAM_FORMAT : Z := 9.
Definition AECP_AEM_CMD_SET_STREAM_INFO : Z := 14.
Definition AECP_AEM_CMD_GET_STREAM_INFO : Z := 15.
Definition AECP_AEM_CMD_SET_SAMPLING_RATE : Z := 20.
Definition AECP_AEM_CMD_GET_SAMPLING_RATE : Z := 21.
Definition AECP_AEM_CMD_SET_CLOCK_SOURCE : Z := 22.
Definition AECP_AEM_CMD_GET_CLOCK_SOURCE : Z := 23.
Definition AECP_AEM_CMD_SET_CONTROL : Z := 24.
Definition AECP_AEM_CMD_GET_CONTROL : Z := 25.
Definition AECP_AEM_CMD_SET_SIGNAL_SELECTOR : Z := 28.
Definition AECP_AEM_CMD_GET_SIGNAL_SELECTOR : Z := 29.
Definition AECP_AEM_CMD_START_STREAMING : Z := 34.
Definition AECP_AEM_CMD_STOP_STREAMING : Z := 35.
Definition AECP_AEM_CMD_GET_COUNTERS : Z := 41.
Definition AECP_AEM_CMD_REBOOT : Z := 42.
Definition AECP_AEM_CMD_START_OPERATION : Z := 52.
Definition AECP_AEM_CMD_ABORT_OPERATION : Z := 53.
Definition AECP_AEM_CMD_OPERATION_STATUS : Z := 54.

Definition AECP_AEM_STATUS_SUCCESS : Z := 0.
Definition AECP_AEM_STATUS_NOT_IMPLEMENTED : Z := 1.
Definition AECP_AEM_STATUS_NO_SUCH_DESCRIPTOR : Z := 2.
Definition AECP_AEM_STATUS_ENTITY_ACQUIRED : Z := 4.
Definition AECP_AEM_STATUS_BAD_ARGUMENTS : Z := 7.
Definition AECP_AEM_STATUS_IN_PROGRESS : Z := 9.
Definition AECP_AEM_STATUS_ENTITY_MISBEHAVING : Z := 10.
Definition AECP_AEM_STATUS_NOT_SUPPORTED : Z := 11.
Definition AECP_AEM_STATUS_STREAM_IS_RUNNING : Z := 12.

Definition AECP_AA_MODE_WRITE : Z := 1.
Definition AECP_AA_STATUS_SUCCESS : Z := 0.
Definition AECP_AA_STATUS_ADDRESS_INVALID : Z := 4.
Definition AECP_AA_STATUS_TLV_INVALID : Z := 5.

(** [aem_descriptor_types.h] *)
Definition AEM_ENTITY_TYPE : Z := 0x0000.
Definition AEM_AUDIO_UNIT_TYPE : Z := 0x0002.
Definition AEM_STREAM_INPUT_TYPE : Z := 0x0005.
Definition AEM_STREAM_OUTPUT_TYPE : Z := 0x0006.
Definition AEM_MEMORY_OBJECT_TYPE : Z := 0x000b.
Definition AEM_STREAM_PORT_INPUT_TYPE : Z := 0x000e.
Definition AEM_STREAM_PORT_OUTPUT_TYPE : Z := 0x000f.
Definition AEM_AUDIO_CLUSTER_TYPE : Z := 0x0014.
Definition AEM_AUDIO_MAP_TYPE : Z := 0x0017.
Definition AEM_CONTROL_TYPE : Z := 0x001a.
Definition AEM_SIGNAL_SELECTOR_TYPE : Z := 0x001b.
Definition AEM_CLOCK_DOMAIN_TYPE : Z := 0x0024.
Definition AEM_CONTROL_LINEAR_DOUBLE : Z := 0x0009.
Definition AEM_MEMORY_OBJECT_OPERATION_STORE : Z := 0x0000.
Definition AEM_MEMORY_OBJECT_OPERATION_STORE_AND_REBOOT : Z := 0x0001.
Definition AEM_MEMORY_OBJECT_OPERATION_ERASE : Z := 0x0003.
Definition AEM_MEMORY_OBJECT_OPERATION_UPLOAD : Z := 0x0004.

Definition FLASH_PAGE_SIZE : nat := 256.
(** [AVB_1722_1_AECP_COMMAND_DATA_OFFSET] and the size of [avb_1722_1_buf] in bytes. *)
Definition AVB_1722_1_AECP_COMMAND_DATA_OFFSET : Z := 12.
Definition AVB_1722_1_PACKET_SIZE : nat := 552.

(** * Configuration *)

(** The device, and what the build generates for it in [aem_descriptors.h]: the words
    of [aem_descriptor_list], in which a pointer is the number of an array of
    [aecp_descriptors], and the numbers of the arrays the code names. *)
Class AecpConfig : Type := {
  AVB_NUM_MEDIA_INPUTS : Z;
  AVB_NUM_MEDIA_OUTPUTS : Z;
  AVB_1722_1_AEM_ENABLED : bool;
  AEM_GENERATE_DESCRIPTORS_ON_FLY : bool;
  AVB_1722_1_FIRMWARE_UPGRADE_ENABLED : bool;
  aem_descriptor_list : list Z;
  desc_entity : nat;
  desc_avb_interface_0 : nat;
  desc_clock_source_0 : nat;
  desc_upgrade_image_memory_object_0 : nat;
  desc_audio_cluster_template : nat;
  desc_stream_input_0 : nat;
  desc_stream_port_input_0 : nat;
  desc_stream_output_0 : nat;
  desc_stream_port_output_0 : nat;
}.

(** The callbacks of the application, [interface avb_1722_1_control_callbacks]. What
    is passed by reference is passed in and returned. *)
Class control_callbacks (D : Type) : Type := {
  (* index, value_size, values_length, values: status and the last three *)
  get_control_value : Z -> Z -> Z -> list Z -> M D (Z * Z * Z * list Z);
  (* index, values_length, values: status and values *)
  set_control_value : Z -> Z -> list Z -> M D (Z * list Z);
  (* index, signal_type, signal_index, signal_output: status and the last three *)
  get_signal_selector : Z -> Z -> Z -> Z -> M D (Z * Z * Z * Z);
  set_signal_selector : Z -> Z -> Z -> Z -> M D Z;
}.

(** The flash library. Image information, a local variable of its callers, is kept in
    [D]; the first two also give the [size] of the image. *)
Class flash_library (D : Type) : Type := {
  fl_getFactoryImage : M D (Z * Z);
  fl_getNextBootImage : M D (Z * Z);
  fl_startImageAdd : M D Z;
  fl_startImageReplace : M D Z;
  fl_writeImagePage : list Z -> M D Z;
}.

(** * State *)

Inductive entity_acquired_t : Type :=
| AEM_ENTITY_NOT_ACQUIRED
| AEM_ENTITY_ACQUIRED
| AEM_ENTITY_ACQUIRED_AND_PERSISTENT
| AEM_ENTITY_ACQUIRED_BUT_PENDING.

Inductive controller_available_t : Type :=
| AECP_AEM_CONTROLLER_AVAILABLE_IN_A
| AECP_AEM_CONTROLLER_AVAILABLE_IN_B
| AECP_AEM_CONTROLLER_AVAILABLE_IN_C
| AECP_AEM_CONTROLLER_AVAILABLE_IN_D
| AECP_AEM_CONTROLLER_AVAILABLE_IN_E
| AECP_AEM_CONTROLLER_AVAILABLE_IN_F
| AECP_AEM_CONTROLLER_AVAILABLE_IDLE.

Inductive aecp_aem_state_t : Type :=
| AECP_AEM_IDLE
| AECP_AEM_WAITING
| AECP_AEM_CONTROLLER_AVAILABLE_TIMEOUT
| AECP_AEM_LOCK_TIMEOUT.

#[global] Instance entity_acquired_eq_dec : EqDecision entity_acquired_t.
Proof. solve_decision. Defined.
#[global] Instance controller_available_eq_dec : EqDecision controller_available_t.
Proof. solve_decision. Defined.

(** What AECP does to the outside: frames, the departure message of ADP, and the end. *)
Inductive aecp_event : Type :=
| AecpTx (frame : list Z)
| AdpDepartImmediately
| DeviceReboot.

(** Who has acquired the entity, and who waits for it. *)
Record acquisition : Type := MkAcquisition {
  entity_acquired_status : entity_acquired_t;
  aecp_aem_controller_available_state : controller_available_t;
  aecp_aem_controller_available_timer : avb_timer;
  pending_controller_guid : Z;  (* guid_t *)
  acquired_controller_guid : Z;  (* guid_t *)
  acquired_controller_mac : list Z;  (* unsigned char[6] *)
  pending_controller_mac : list Z;  (* unsigned char[6] *)
  pending_controller_sequence : Z;  (* unsigned short *)
  pending_persistent : Z;  (* unsigned char *)
  aecp_controller_available_sequence : Z;  (* unsigned short *)
}.

Definition upd_entity_acquired_status (g : entity_acquired_t -> entity_acquired_t) (s : acquisition) : acquisition :=
  MkAcquisition (g (entity_acquired_status s)) (aecp_aem_controller_available_state s)
    (aecp_aem_controller_available_timer s) (pending_controller_guid s) (acquired_controller_guid s)
    (acquired_controller_mac s) (pending_controller_mac s) (pending_controller_sequence s)
    (pending_persistent s) (aecp_controller_available_sequence s).
Definition upd_aecp_aem_controller_available_state (g : controller_available_t -> controller_available_t) (s : acquisition) : acquisition :=
  MkAcquisition (entity_acquired_status s) (g (aecp_aem_controller_available_state s))
    (aecp_aem_controller_available_timer s) (pending_controller_guid s) (acquired_controller_guid s)
    (acquired_controller_mac s) (pending_controller_mac s) (pending_controller_sequence s)
    (pending_persistent s) (aecp_controller_available_sequence s).
Definition upd_aecp_aem_controller_available_timer (g : avb_timer -> avb_timer) (s : acquisition) : acquisition :=
  MkAcquisition (entity_acquired_status s) (aecp_aem_controller_available_state s) (g
    (aecp_aem_controller_available_timer s)) (pending_controller_guid s) (acquired_controller_guid s)
    (acquired_controller_mac s) (pending_controller_mac s) (pending_controller_sequence s)
    (pending_persistent s) (aecp_controller_available_sequence s).
Definition upd_pending_controller_guid (g : Z -> Z) (s : acquisition) : acquisition :=
  MkAcquisition (entity_acquired_status s) (aecp_aem_controller_available_state s)
    (aecp_aem_controller_available_timer s) (g (pending_controller_guid s)) (acquired_controller_guid s)
    (acquired_controller_mac s) (pending_controller_mac s) (pending_controller_sequence s)
    (pending_persistent s) (aecp_controller_available_sequence s).
Definition upd_acquired_controller_guid (g : Z -> Z) (s : acquisition) : acquisition :=
  MkAcquisition (entity_acquired_status s) (aecp_aem_controller_available_state s)
    (aecp_aem_controller_available_timer s) (pending_controller_guid s) (g (acquired_controller_guid s))
    (acquired_controller_mac s) (pending_controller_mac s) (pending_controller_sequence s)
    (pending_persistent s) (aecp_controller_available_sequence s).
Definition upd_acquired_controller_mac (g : list Z -> list Z) (s : acquisition) : acquisition :=
  MkAcquisition (entity_acquired_status s) (aecp_aem_controller_available_state s)
    (aecp_aem_controller_available_timer s) (pending_controller_guid s) (acquired_controller_guid s) (g
    (acquired_controller_mac s)) (pending_controller_mac s) (pending_controller_sequence s)
    (pending_persistent s) (aecp_controller_available_sequence s).
Definition upd_pending_controller_mac (g : list Z -> list Z) (s : acquisition) : acquisition :=
  MkAcquisition (entity_acquired_status s) (aecp_aem_controller_available_state s)
    (aecp_aem_controller_available_timer s) (pending_controller_guid s) (acquired_controller_guid s)
    (acquired_controller_mac s) (g (pending_controller_mac s)) (pending_controller_sequence s)
    (pending_persistent s) (aecp_controller_available_sequence s).
Definition upd_pending_controller_sequence (g : Z -> Z) (s : acquisition) : acquisition :=
  MkAcquisition (entity_acquired_status s) (aecp_aem_controller_available_state s)
    (aecp_aem_controller_available_timer s) (pending_controller_guid s) (acquired_controller_guid s)
    (acquired_controller_mac s) (pending_controller_mac s) (g (pending_controller_sequence s))
    (pending_persistent s) (aecp_controller_available_sequence s).
Definition upd_pending_persistent (g : Z -> Z) (s : acquisition) : acquisition :=
  MkAcquisition (entity_acquired_status s) (aecp_aem_controller_available_state s)
    (aecp_aem_controller_available_timer s) (pending_controller_guid s) (acquired_controller_guid s)
    (acquired_controller_mac s) (pending_controller_mac s) (pending_controller_sequence s) (g
    (pending_persistent s)) (aecp_controller_available_sequence s).
Definition upd_aecp_controller_available_sequence (g : Z -> Z) (s : acquisition) : acquisition :=
  MkAcquisition (entity_acquired_status s) (aecp_aem_controller_available_state s)
    (aecp_aem_controller_available_timer s) (pending_controller_guid s) (acquired_controller_guid s)
    (acquired_controller_mac s) (pending_controller_mac s) (pending_controller_sequence s)
    (pending_persistent s) (g (aecp_controller_available_sequence s)).

(** The state of a firmware upgrade. *)
Record upload : Type := MkUpload {
  aecp_flash_page_buf : list Z;  (* unsigned char[FLASH_PAGE_SIZE] *)
  aecp_aa_bytes_copied : Z;  (* unsigned *)
  aecp_aa_flash_write_addr : Z;  (* unsigned *)
  aecp_aa_next_write_address : Z;  (* unsigned *)
  write_offset : Z;  (* unsigned, of [avb_1722_1_aecp_efu.xc] *)
}.

Definition upd_aecp_flash_page_buf (g : list Z -> list Z) (s : upload) : upload :=
  MkUpload (g (aecp_flash_page_buf s)) (aecp_aa_bytes_copied s) (aecp_aa_flash_write_addr s)
    (aecp_aa_next_write_address s) (write_offset s).
Definition upd_aecp_aa_bytes_copied (g : Z -> Z) (s : upload) : upload :=
  MkUpload (aecp_flash_page_buf s) (g (aecp_aa_bytes_copied s)) (aecp_aa_flash_write_addr s)
    (aecp_aa_next_write_address s) (write_offset s).
Definition upd_aecp_aa_flash_write_addr (g : Z -> Z) (s : upload) : upload :=
  MkUpload (aecp_flash_page_buf s) (aecp_aa_bytes_copied s) (g (aecp_aa_flash_write_addr s))
    (aecp_aa_next_write_address s) (write_offset s).
Definition upd_aecp_aa_next_write_address (g : Z -> Z) (s : upload) : upload :=
  MkUpload (aecp_flash_page_buf s) (aecp_aa_bytes_copied s) (aecp_aa_flash_write_addr s) (g
    (aecp_aa_next_write_address s)) (write_offset s).
Definition upd_write_offset (g : Z -> Z) (s : upload) : upload :=
  MkUpload (aecp_flash_page_buf s) (aecp_aa_bytes_copied s) (aecp_aa_flash_write_addr s)
    (aecp_aa_next_write_address s) (g (write_offset s)).

(** The static variables, the buffers, and the outside. *)
Record aecp (D : Type) : Type := MkAecp {
  aecp_acq : acquisition;
  aecp_upl : upload;
  operation_id : Z;  (* int *)
  aecp_aem_state : aecp_aem_state_t;
  aecp_aem_lock_timer : avb_timer;
  aecp_descriptors : list (list Z);  (* the arrays of aem_descriptors.h *)
  aecp_rx : list Z;  (* the received packet, from its 1722.1 header to the end of its buffer *)
  aecp_buf : list Z;  (* avb_1722_1_buf *)
  aecp_out : list aecp_event;  (* oldest first *)
  aecp_dev : D;  (* the AVB manager, the application and the flash memory *)
}.
Arguments MkAecp {D}.
Arguments aecp_acq {D}.
Arguments aecp_upl {D}.
Arguments operation_id {D}.
Arguments aecp_aem_state {D}.
Arguments aecp_aem_lock_timer {D}.
Arguments aecp_descriptors {D}.
Arguments aecp_rx {D}.
Arguments aecp_buf {D}.
Arguments aecp_out {D}.
Arguments aecp_dev {D}.

Definition upd_aecp_acq {D : Type} (g : acquisition -> acquisition) (s : aecp D) : aecp D :=
  MkAecp (g (aecp_acq s)) (aecp_upl s) (operation_id s) (aecp_aem_state s) (aecp_aem_lock_timer s)
    (aecp_descriptors s) (aecp_rx s) (aecp_buf s) (aecp_out s) (aecp_dev s).
Definition upd_aecp_upl {D : Type} (g : upload -> upload) (s : aecp D) : aecp D :=
  MkAecp (aecp_acq s) (g (aecp_upl s)) (operation_id s) (aecp_aem_state s) (aecp_aem_lock_timer s)
    (aecp_descriptors s) (aecp_rx s) (aecp_buf s) (aecp_out s) (aecp_dev s).
Definition upd_operation_id {D : Type} (g : Z -> Z) (s : aecp D) : aecp D :=
  MkAecp (aecp_acq s) (aecp_upl s) (g (operation_id s)) (aecp_aem_state s) (aecp_aem_lock_timer s)
    (aecp_descriptors s) (aecp_rx s) (aecp_buf s) (aecp_out s) (aecp_dev s).
Definition upd_aecp_aem_state {D : Type} (g : aecp_aem_state_t -> aecp_aem_state_t) (s : aecp D) : aecp D :=
  MkAecp (aecp_acq s) (aecp_upl s) (operation_id s) (g (aecp_aem_state s)) (aecp_aem_lock_timer s)
    (aecp_descriptors s) (aecp_rx s) (aecp_buf s) (aecp_out s) (aecp_dev s).
Definition upd_aecp_aem_lock_timer {D : Type} (g : avb_timer -> avb_timer) (s : aecp D) : aecp D :=
  MkAecp (aecp_acq s) (aecp_upl s) (operation_id s) (aecp_aem_state s) (g (aecp_aem_lock_timer s))
    (aecp_descriptors s) (aecp_rx s) (aecp_buf s) (aecp_out s) (aecp_dev s).
Definition upd_aecp_descriptors {D : Type} (g : list (list Z) -> list (list Z)) (s : aecp D) : aecp D :=
  MkAecp (aecp_acq s) (aecp_upl s) (operation_id s) (aecp_aem_state s) (aecp_aem_lock_timer s) (g
    (aecp_descriptors s)) (aecp_rx s) (aecp_buf s) (aecp_out s) (aecp_dev s).
Definition upd_aecp_rx {D : Type} (g : list Z -> list Z) (s : aecp D) : aecp D :=
  MkAecp (aecp_acq s) (aecp_upl s) (operation_id s) (aecp_aem_state s) (aecp_aem_lock_timer s)
    (aecp_descriptors s) (g (aecp_rx s)) (aecp_buf s) (aecp_out s) (aecp_dev s).
Definition upd_aecp_buf {D : Type} (g : list Z -> list Z) (s : aecp D) : aecp D :=
  MkAecp (aecp_acq s) (aecp_upl s) (operation_id s) (aecp_aem_state s) (aecp_aem_lock_timer s)
    (aecp_descriptors s) (aecp_rx s) (g (aecp_buf s)) (aecp_out s) (aecp_dev s).
Definition upd_aecp_out {D : Type} (g : list aecp_event -> list aecp_event) (s : aecp D) : aecp D :=
  MkAecp (aecp_acq s) (aecp_upl s) (operation_id s) (aecp_aem_state s) (aecp_aem_lock_timer s)
    (aecp_descriptors s) (aecp_rx s) (aecp_buf s) (g (aecp_out s)) (aecp_dev s).
Definition upd_aecp_dev {D : Type} (g : D -> D) (s : aecp D) : aecp D :=
  MkAecp (aecp_acq s) (aecp_upl s) (operation_id s) (aecp_aem_state s) (aecp_aem_lock_timer s)
    (aecp_descriptors s) (aecp_rx s) (aecp_buf s) (aecp_out s) (g (aecp_dev s)).

(** What a call finds: the clock; the six bytes of memory from its parameter [src_addr]
    on; what lies behind a descriptor; what is left on the stack in its local
    variables; the readings of the clock, and the rounds, of the loop that waits for
    the flash memory. *)
Record aecp_env : Type := MkAecpEnv {
  aecp_now : Z;
  at_src_addr : list Z;
  behind_descriptor : list Z;
  stack_value_size : Z;
  stack_values_length : Z;
  stack_values : list Z;
  stack_num_string : list Z;
  stack_signal : Z * Z * Z;
  clock_reading : nat -> Z;
  flash_polls : nat;
}.

(** * Packets *)

(** Offsets in [avb_1722_1_aecp_packet_t]; in the transmit buffer the packet follows
    the Ethernet header. *)
Definition off_target_guid : nat := 4.
Definition off_aecp_controller_guid : nat := 12.
Definition off_aecp_sequence_id : nat := 20.
Definition AVB_1722_1_AECP_PAYLOAD_OFFSET : nat := 22.
Definition off_aem_command : nat := 24.

Definition GET_1722_1_DATALENGTH (pkt : list Z) : Z :=
  Z.shiftl (Z.land (pkt !!! 2%nat) 0x7) 8 + pkt !!! 3%nat.
Definition AEM_MSG_GET_COMMAND_TYPE (pkt : list Z) : Z :=
  Z.lor (Z.shiftl (Z.land (pkt !!! 22%nat) 0x7f) 8) (pkt !!! 23%nat).
(** The first two bytes of the message. *)
Definition AEM_MSG_SET_COMMAND_TYPE (old : Z) (type : Z) : list Z :=
  [Z.lor (Z.land old 0x80) (Z.land (Z.shiftr type 8) 0x7f); Z.land type 0xFF].
Definition AEM_MSG_SET_U_FLAG (old uflag : Z) : Z :=
  Z.lor (Z.land old 0x7f) (Z.land (Z.shiftl uflag 7) 0x80).
(** [flags[3] & 1] and [flags[0] & 0x80] of an ACQUIRE_ENTITY command. *)
Definition AEM_ACQUIRE_ENTITY_PERSISTENT_FLAG (pkt : list Z) : Z := Z.land (pkt !!! 27%nat) 1.
Definition AEM_ACQUIRE_ENTITY_RELEASE_FLAG (pkt : list Z) : Z := Z.land (pkt !!! 24%nat) 0x80.
Definition ADDRESS_MSG_GET_MODE (pkt : list Z) : Z := Z.land (Z.shiftr (pkt !!! 24%nat) 4) 0xF.
Definition ADDRESS_MSG_GET_LENGTH (pkt : list Z) : Z :=
  Z.lor (Z.shiftl (Z.land (pkt !!! 24%nat) 0xf) 8) (pkt !!! 25%nat).
(** [ntoh_32], of a field. *)
Definition word_at (off : nat) (pkt : list Z) : Z :=
  ntoh_32 (pkt !!! off) (pkt !!! (off + 1)%nat) (pkt !!! (off + 2)%nat) (pkt !!! (off + 3)%nat).

(** [memcpy] out of and into an array. *)
Definition read_at (off n : nat) (l : list Z) : option (list Z) :=
  if (off + n <=? length l)%nat then Some (bytes_at off n l) else None.
Definition write_at (off : nat) (bs l : list Z) : option (list Z) :=
  if (off + length bs <=? length l)%nat then Some (take off l ++ bs ++ drop (off + length bs) l) else None.

Section Buffers.
Context {D : Type} `{cfg : AcmpConfig}.
Abbreviation PM := (M (aecp D)).

Definition rx_read (off n : nat) : PM (list Z) := load (fun s => read_at off n (aecp_rx s)).
Definition rx_write (off : nat) (bs : list Z) : PM unit :=
  store (fun s => l ← write_at off bs (aecp_rx s); Some (upd_aecp_rx (fun _ => l) s)).
(** [off] is an offset in the packet. *)
Definition tx_write (off : nat) (bs : list Z) : PM unit :=
  store (fun s => l ← write_at (ethernet_hdr_size + off) bs (aecp_buf s); Some (upd_aecp_buf (fun _ => l) s)).
Definition tx_read (off n : nat) : PM (list Z) :=
  load (fun s => read_at (ethernet_hdr_size + off) n (aecp_buf s)).

(** A received packet holds its fields: the handlers read them without a check. *)
Definition get_rx : PM (list Z) := load (fun s => if (536 <=? length (aecp_rx s))%nat then Some (aecp_rx s) else None).

(** [memcpy(to, from, n)] from the received packet to the packet to be sent; a negative
    [n] is a huge one. *)
Definition copy_rx_tx (to from : nat) (n : Z) : PM unit :=
  if n <? 0 then trap else bs ← rx_read from (Z.to_nat n); tx_write to bs.

Definition out_event (ev : aecp_event) : PM unit := modify (upd_aecp_out (fun l => l ++ [ev])).

(** [eth_send_packet(i_eth, avb_1722_1_buf, n, ...)] *)
Definition eth_send_packet (n : Z) : PM unit :=
  bs ← load (fun s => if n <? 0 then None else read_at 0 (Z.to_nat n) (aecp_buf s));
  out_event (AecpTx bs).

(** A call of the AVB manager, the application, or the flash library. *)
Definition on_dev {A} (m : M D A) : PM A := fun s =>
  match m (aecp_dev s) with Some (a, d) => Some (a, upd_aecp_dev (fun _ => d) s) | None => None end.

Definition put_acq (f : acquisition -> acquisition) : PM unit := modify (upd_aecp_acq f).
Definition put_upl (f : upload -> upload) : PM unit := modify (upd_aecp_upl f).

(** [avb_1722_1_create_1722_1_header] on the transmit buffer. *)
Definition tx_header (dest_addr : list Z) (message_type status data_len : Z) : PM unit :=
  store (fun s => let buf := aecp_buf s in
    if (length buf <? 18)%nat then None
    else Some (upd_aecp_buf (fun _ =>
      avb_1722_1_create_1722_1_header dest_addr DEFAULT_1722_1_AECP_SUBTYPE message_type status data_len buf
        ++ drop 18 buf) s)).

(** The response header: the identification of the command follows it. *)
Definition avb_1722_1_create_aecp_response_header (dest_addr : list Z) (status message_type data_len : Z) : PM unit :=
  _ ← tx_header dest_addr (message_type + 1) status data_len;
  copy_rx_tx off_target_guid off_target_guid 18.

Definition avb_1722_1_create_aecp_aem_response (src_addr : list Z) (status command_data_len : Z) : PM unit :=
  _ ← avb_1722_1_create_aecp_response_header src_addr status AECP_CMD_AEM_COMMAND (command_data_len + 12);
  copy_rx_tx AVB_1722_1_AECP_PAYLOAD_OFFSET AVB_1722_1_AECP_PAYLOAD_OFFSET (command_data_len + 2).
End Buffers.
