(* ===== verification/AecpControls.v ===== *)
(** Enumeration and control (AECP): the commands that read and set the state of the
    device, [lib_tsn/src/1722_1/avb_1722_1_aecp_controls.xc].

    Each reads its arguments from the received packet and writes its results into it;
    the response is a copy. A status passed by reference is returned. *)
From S2P Require Import Prelude Bytes MiscTimer MrpTypes AvbApi AcmpTypes AecpTypes.
From stdpp Require Import base list list_numbers numbers option.
From Stdlib Require Import ZArith Lia.
#[local] Open Scope Z_scope.

Definition sfc_from_sampling_rate (rate : Z) : Z :=
  if rate =? 32000 then 0 else if rate =? 44100 then 1 else if rate =? 48000 then 2
  else if rate =? 88200 then 3 else if rate =? 96000 then 4 else if rate =? 176400 then 5
  else if rate =? 192000 then 6 else 0.

Definition sampling_rate_from_sfc (sfc : Z) : Z :=
  if sfc =? 0 then 32000 else if sfc =? 1 then 44100 else if sfc =? 2 then 48000
  else if sfc =? 3 then 88200 else if sfc =? 4 then 96000 else if sfc =? 5 then 176400
  else if sfc =? 6 then 192000 else 0.

(** The eight bytes of [stream_format]. *)
Definition get_stream_format_field (stream : avb_stream_info_t) : list Z :=
  [0x00; 0xa0; u8 (sfc_from_sampling_rate (st_rate stream)); st_num_channels stream; 0x40; 0;
   st_num_channels stream; 0].

Definition AVB_FORMAT_MBLA_24BIT : Z := 0.

(** Offsets of the fields of commands in the packet, and sizes of commands. *)
Definition off_desc_type : nat := 24.
Definition off_desc_id : nat := 26.
Definition off_args : nat := 28.
Definition sizeof_getset_stream_format : Z := 12.
Definition sizeof_getset_stream_info : Z := 48.
Definition sizeof_getset_sampling_rate : Z := 8.
Definition sizeof_getset_clock_source : Z := 8.
Definition sizeof_startstop_streaming : Z := 4.
Definition sizeof_getset_control : Z := 4.
Definition sizeof_getset_signal_selector : Z := 12.
Definition sizeof_get_counters : Z := 136.

(** [AECP_STREAM_INFO_FLAGS_...] *)
Definition STREAM_VLAN_ID_VALID : Z := 0x02000000.
Definition MSRP_FAILURE_VALID : Z := 0x08000000.
Definition STREAM_DESC_MAC_VALID : Z := 0x10000000.
Definition MSRP_ACC_LAT_VALID : Z := 0x20000000.
Definition STREAM_ID_VALID : Z := 0x40000000.
Definition STREAM_FORMAT_VALID : Z := 0x80000000.

(** The flags of GET_STREAM_INFO: [A | B | c ? F : 0] is [(A | B | c) ? F : 0]. *)
Definition stream_info_flags (r : avb_srp_info_t) : Z :=
  if truthy (Z.lor (Z.lor (Z.lor (Z.lor (Z.lor STREAM_VLAN_ID_VALID STREAM_DESC_MAC_VALID) STREAM_ID_VALID)
       STREAM_FORMAT_VALID) MSRP_ACC_LAT_VALID) (failure_bridge_id r !!! 1%nat))
  then MSRP_FAILURE_VALID else 0.

(** A local copy of the record of a stream, and the pointers into it. *)
Inductive stream_record : Type := SinkRecord (sink : sink_info) | SourceRecord (source : source_info).

Definition record_stream (x : stream_record) : avb_stream_info_t :=
  match x with SinkRecord s => si_stream s | SourceRecord s => so_stream s end.
Definition record_reservation (x : stream_record) : avb_srp_info_t :=
  match x with SinkRecord s => si_reservation s | SourceRecord s => so_reservation s end.
Definition upd_record_stream (f : avb_stream_info_t -> avb_stream_info_t) (x : stream_record) : stream_record :=
  match x with SinkRecord s => SinkRecord (upd_si_stream f s) | SourceRecord s => SourceRecord (upd_so_stream f s) end.
Definition upd_record_reservation (f : avb_srp_info_t -> avb_srp_info_t) (x : stream_record) : stream_record :=
  match x with
  | SinkRecord s => SinkRecord (upd_si_reservation f s)
  | SourceRecord s => SourceRecord (upd_so_reservation f s)
  end.

Section Controls.
Context {D : Type} `{cfg : Config} `{acfg : AcmpConfig} `{avb : !avb_interface D} `{cb : !control_callbacks D}.
Abbreviation CM := (M (aecp D)).

Definition rx_short (off : nat) : CM Z := pkt ← get_rx; mret (short_at off pkt).

(** ** Streams *)

(** The record a command names: [None] for NO_SUCH_DESCRIPTOR. *)
Definition find_stream (desc_type stream_index : Z) : CM (option stream_record) :=
  if (desc_type =? AEM_STREAM_INPUT_TYPE) && (stream_index <? Z.of_nat AVB_NUM_SINKS) then
    sink ← on_dev (_get_sink_info stream_index); mret (Some (SinkRecord sink))
  else if (desc_type =? AEM_STREAM_OUTPUT_TYPE) && (stream_index <? Z.of_nat AVB_NUM_SOURCES) then
    source ← on_dev (_get_source_info stream_index); mret (Some (SourceRecord source))
  else mret None.
Definition set_record (stream_index : Z) (x : stream_record) : CM unit :=
  match x with
  | SinkRecord sink => on_dev (_set_sink_info stream_index sink)
  | SourceRecord source => on_dev (_set_source_info stream_index source)
  end.

Definition process_aem_cmd_getset_stream_format (command_type : Z) : CM Z :=
  stream_index ← rx_short off_desc_id;
  desc_type ← rx_short off_desc_type;
  found ← find_stream desc_type stream_index;
  match found with
  | None => mret AECP_AEM_STATUS_NO_SUCH_DESCRIPTOR
  | Some x =>
      if command_type =? AECP_AEM_CMD_GET_STREAM_FORMAT then
        _ ← rx_write off_args (get_stream_format_field (record_stream x)); mret AECP_AEM_STATUS_SUCCESS
      else
        pkt ← get_rx;
        let rate := sampling_rate_from_sfc (pkt !!! (off_args + 2)%nat) in
        let channels := pkt !!! (off_args + 6)%nat in
        if st_state (record_stream x) =? 2 then mret AECP_AEM_STATUS_STREAM_IS_RUNNING
        else
          _ ← set_record stream_index (upd_record_stream (fun t =>
                upd_st_format (fun _ => u8 AVB_FORMAT_MBLA_24BIT)
                (upd_st_rate (fun _ => rate) (upd_st_num_channels (fun _ => u8 channels) t))) x);
          mret AECP_AEM_STATUS_SUCCESS
  end.

(** The fields of the response, from [flags] on; the byte [reserved1] is left as it is. *)
Definition stream_info_fields (x : stream_record) (reserved1 : Z) : list Z :=
  let r := record_reservation x in
  hton_32 (stream_info_flags r) ++ get_stream_format_field (record_stream x) ++
  hton_32 (stream_id0 r) ++ hton_32 (stream_id1 r) ++ hton_32 (accumulated_latency r) ++
  take 6 (dest_mac_addr r) ++ [failure_code r; reserved1] ++ take 8 (failure_bridge_id r) ++
  hton_16 (vlan_id r).

Definition process_aem_cmd_getset_stream_info (command_type : Z) : CM Z :=
  stream_index ← rx_short off_desc_id;
  desc_type ← rx_short off_desc_type;
  found ← find_stream desc_type stream_index;
  match found with
  | None => mret AECP_AEM_STATUS_NO_SUCH_DESCRIPTOR
  | Some x =>
      pkt ← get_rx;
      if command_type =? AECP_AEM_CMD_GET_STREAM_INFO then
        _ ← rx_write off_args (stream_info_fields x (pkt !!! 59%nat)); mret AECP_AEM_STATUS_SUCCESS
      else if negb (st_state (record_stream x) =? 0) then mret AECP_AEM_STATUS_STREAM_IS_RUNNING
      else
        let flags := word_at off_args pkt in
        let x := if truthy (Z.land flags STREAM_VLAN_ID_VALID)
                 then upd_record_reservation (upd_vlan_id (fun _ => ntoh_16 (pkt !!! 68%nat) (pkt !!! 69%nat))) x
                 else x in
        _ ← set_record stream_index x;
        mret AECP_AEM_STATUS_SUCCESS
  end.

Definition process_aem_cmd_startstop_streaming (command_type : Z) : CM Z :=
  stream_index ← rx_short off_desc_id;
  desc_type ← rx_short off_desc_type;
  if desc_type =? AEM_STREAM_INPUT_TYPE then
    state ← on_dev (get_sink_state stream_index);
    match state with
    | None => mret AECP_AEM_STATUS_NO_SUCH_DESCRIPTOR
    | Some state =>
        _ ← (if command_type =? AECP_AEM_CMD_START_STREAMING then
               _ ← on_dev (set_sink_state stream_index AVB_SINK_STATE_POTENTIAL);
               on_dev (set_sink_state stream_index AVB_SINK_STATE_ENABLED)
             else
               _ ← (if state =? 2 then on_dev (set_sink_state stream_index AVB_SINK_STATE_POTENTIAL) else mret true);
               on_dev (set_sink_state stream_index AVB_SINK_STATE_DISABLED));
        mret AECP_AEM_STATUS_SUCCESS
    end
  else if desc_type =? AEM_STREAM_OUTPUT_TYPE then
    state ← on_dev (get_source_state stream_index);
    match state with
    | None => mret AECP_AEM_STATUS_NO_SUCH_DESCRIPTOR
    | Some state =>
        _ ← (if command_type =? AECP_AEM_CMD_START_STREAMING then
               on_dev (set_source_state stream_index AVB_SOURCE_STATE_ENABLED)
             else if state =? 2 then on_dev (set_source_state stream_index AVB_SOURCE_STATE_POTENTIAL)
             else mret true);
        mret AECP_AEM_STATUS_SUCCESS
    end
  else mret AECP_AEM_STATUS_SUCCESS.

(** ** Clocks *)

(** A setting of a clock: disable it, change it, enable it. *)
Definition set_clock (media_clock_id : Z) (set : M D bool) : CM Z :=
  _ ← on_dev (set_device_media_clock_state media_clock_id false);
  ok ← on_dev set;
  if (ok : bool)
  then _ ← on_dev (set_device_media_clock_state media_clock_id true); mret AECP_AEM_STATUS_SUCCESS
  else mret AECP_AEM_STATUS_NO_SUCH_DESCRIPTOR.

Definition process_aem_cmd_getset_sampling_rate (command_type : Z) : CM Z :=
  media_clock_id ← rx_short off_desc_id;
  if command_type =? AECP_AEM_CMD_GET_SAMPLING_RATE then
    rate ← on_dev (get_device_media_clock_rate media_clock_id);
    match rate with
    | Some rate => _ ← rx_write off_args (hton_32 rate); mret AECP_AEM_STATUS_SUCCESS
    | None => mret AECP_AEM_STATUS_NO_SUCH_DESCRIPTOR
    end
  else
    pkt ← get_rx;
    set_clock media_clock_id (set_device_media_clock_rate media_clock_id (word_at off_args pkt)).

Definition process_aem_cmd_getset_clock_source (command_type : Z) : CM Z :=
  media_clock_id ← rx_short off_desc_id;
  if command_type =? AECP_AEM_CMD_GET_CLOCK_SOURCE then
    source_index ← on_dev (get_device_media_clock_type media_clock_id);
    match source_index with
    | Some source_index => _ ← rx_write off_args (hton_16 source_index); mret AECP_AEM_STATUS_SUCCESS
    | None => mret AECP_AEM_STATUS_NO_SUCH_DESCRIPTOR
    end
  else
    pkt ← get_rx;
    set_clock media_clock_id
      (set_device_media_clock_type media_clock_id (ntoh_16 (pkt !!! off_args) (pkt !!! S off_args))).

Definition process_aem_cmd_get_counters : CM Z :=
  clock_domain_id ← rx_short off_desc_id;
  desc_type ← rx_short off_desc_type;
  if desc_type =? AEM_CLOCK_DOMAIN_TYPE then
    if clock_domain_id <? Z.of_nat AVB_NUM_MEDIA_CLOCKS then
      info ← on_dev (_get_media_clock_info clock_domain_id);
      _ ← rx_write off_args (hton_32 (Z.lor 1 2));
      _ ← rx_write (off_args + 4) (replicate 128 0);
      _ ← rx_write (off_args + 4 + 0) (hton_32 (mc_lock_counter info));
      _ ← rx_write (off_args + 4 + 4) (hton_32 (mc_unlock_counter info));
      mret AECP_AEM_STATUS_SUCCESS
    else mret AECP_AEM_STATUS_NO_SUCH_DESCRIPTOR
  else mret AECP_AEM_STATUS_NOT_SUPPORTED.

(** ** Controls and signal selectors of the application *)

(** What the application answers to the get command stays in local variables. *)
Definition process_aem_cmd_getset_signal_selector (command_type : Z) : CM Z :=
  selector_index ← rx_short off_desc_id;
  selector_type ← rx_short off_desc_type;
  signal_type ← rx_short off_args;
  signal_index ← rx_short (off_args + 2);
  signal_output ← rx_short (off_args + 4);
  if negb (selector_type =? AEM_SIGNAL_SELECTOR_TYPE) then mret AECP_AEM_STATUS_BAD_ARGUMENTS
  else if command_type =? AECP_AEM_CMD_GET_SIGNAL_SELECTOR then
    '(status, _, _, _) ← on_dev (get_signal_selector selector_index signal_type signal_index signal_output);
    mret status
  else on_dev (set_signal_selector selector_index signal_type signal_index signal_output).

(** Status and length of the values, which lie behind the command in the packet. *)
Definition process_aem_cmd_getset_control (env : aecp_env) (command_type : Z) : CM (Z * Z) :=
  pkt ← get_rx;
  let control_index := short_at off_desc_id pkt in
  let control_type := short_at off_desc_type pkt in
  let values_length :=
    u16 (GET_1722_1_DATALENGTH pkt - sizeof_getset_control - AVB_1722_1_AECP_COMMAND_DATA_OFFSET) in
  if negb (control_type =? AEM_CONTROL_TYPE) then mret (AECP_AEM_STATUS_BAD_ARGUMENTS, values_length)
  else
    let values := drop off_args pkt in
    if command_type =? AECP_AEM_CMD_GET_CONTROL then
      '(status, _, values_length, values) ←
        on_dev (get_control_value control_index (stack_value_size env) values_length values);
      _ ← rx_write off_args values;
      mret (status, values_length)
    else
      '(status, values) ← on_dev (set_control_value control_index values_length values);
      _ ← rx_write off_args values;
      mret (status, values_length).

(** ** Descriptors *)

(** The descriptor lies in the packet to be sent. *)
Definition off_descriptor : nat := 28.
Definition off_current_sampling_rate : nat := 136.
Definition off_clock_source_index : nat := 70.
Definition off_current_format : nat := 74.
Definition off_control_value_type : nat := 80.
Definition off_current_signal_type : nat := 84.
Definition sizeof_desc_control : nat := 104.

Definition set_current_fields_in_descriptor (env : aecp_env) (read_type read_id : Z) : CM unit :=
  if (read_type =? AEM_AUDIO_UNIT_TYPE) || (read_type =? AEM_CLOCK_DOMAIN_TYPE) then
    clock_info ← on_dev (_get_media_clock_info 0);
    if read_type =? AEM_AUDIO_UNIT_TYPE
    then tx_write (off_descriptor + off_current_sampling_rate) (hton_32 (mc_rate clock_info))
    else tx_write (off_descriptor + off_clock_source_index) (hton_16 (mc_clock_type clock_info))
  else if read_type =? AEM_STREAM_INPUT_TYPE then
    sink ← on_dev (_get_sink_info read_id);
    tx_write (off_descriptor + off_current_format) (get_stream_format_field (si_stream sink))
  else if read_type =? AEM_STREAM_OUTPUT_TYPE then
    source ← on_dev (_get_source_info read_id);
    tx_write (off_descriptor + off_current_format) (get_stream_format_field (so_stream source))
  else if read_type =? AEM_CONTROL_TYPE then
    '(_, value_size, values_length, values) ←
      on_dev (get_control_value read_id (stack_value_size env) (stack_values_length env) (stack_values env));
    if negb (value_size =? values_length) then trap
    else
      t ← tx_read (off_descriptor + off_control_value_type) 2;
      if ntoh_16 (t !!! 0%nat) (t !!! 1%nat) <=? AEM_CONTROL_LINEAR_DOUBLE then
        bs ← load (fun _ => read_at 0 (Z.to_nat value_size) values);
        tx_write (off_descriptor + sizeof_desc_control + 4 * Z.to_nat value_size) bs
      else trap
  else if read_type =? AEM_SIGNAL_SELECTOR_TYPE then
    let '(t, i, o) := stack_signal env in
    '(_, signal_type, signal_index, signal_output) ← on_dev (get_signal_selector read_id t i o);
    tx_write (off_descriptor + off_current_signal_type)
      (hton_16 signal_type ++ hton_16 signal_index ++ hton_16 signal_output)
  else skip.
End Controls.
