(* ===== verification/Aecp.v ===== *)
(** Enumeration and control (AECP): the operations of
    [lib_tsn/src/1722_1/avb_1722_1_aecp.c] and [avb_1722_1_aecp_efu.xc]. *)
From S2P Require Import Prelude Bytes MiscTimer MrpTypes AvbApi AvbUtil AcmpTypes AecpTypes AecpControls.
From stdpp Require Import base list list_numbers numbers option.
From Stdlib Require Import ZArith Lia.
#[local] Open Scope Z_scope.

(** * Names generated for descriptors *)

(** A C string: the characters before the first zero. *)
Fixpoint c_string (l : list Z) : list Z :=
  match l with
  | [] => []
  | c :: l => if c =? 0 then [] else c :: c_string l
  end.

(** The contents of [num_string], which is [stack] when the function begins. *)
Definition number_string (base n : Z) (stack : list Z) : option (list Z) :=
  snd <$> (count ← (if truthy n then
             count ← avb_itoa (base * n + 1) 0 10 1;
             _ ← wr count 45;
             c ← avb_itoa (base * n + n) (count + 1) 10 0;
             mret (count + 1 + c)
           else avb_itoa (base + 1) 0 10 1);
           wr count 0) (take 5 stack).

(** [object_name] is a field of 64 bytes. *)
Definition generate_object_name (object_name : list Z) (base n : Z) (stack : list Z) : option (list Z) :=
  num_string ← number_string base n stack;
  write_at (length (c_string object_name)) (c_string num_string ++ [0]) object_name.

Definition channel_string : list Z := [67; 104; 97; 110; 110; 101; 108; 32].
Definition output_string : list Z := [79; 117; 116; 112; 117; 116; 32].
Definition input_string : list Z := [73; 110; 112; 117; 116; 32].

(** [memset(object_name, 0, 64)], [strcpy], and the number. *)
Definition object_name (prefix : list Z) (base n : Z) (stack : list Z) : option (list Z) :=
  generate_object_name (prefix ++ replicate (64 - length prefix) 0) base n stack.

Definition available_timeouts : list Z := [12; 1; 11; 12; 2].
Definition controller_available_index (st : controller_available_t) : nat :=
  match st with
  | AECP_AEM_CONTROLLER_AVAILABLE_IN_A => 0
  | AECP_AEM_CONTROLLER_AVAILABLE_IN_B => 1
  | AECP_AEM_CONTROLLER_AVAILABLE_IN_C => 2
  | AECP_AEM_CONTROLLER_AVAILABLE_IN_D => 3
  | AECP_AEM_CONTROLLER_AVAILABLE_IN_E => 4
  | AECP_AEM_CONTROLLER_AVAILABLE_IN_F => 5
  | AECP_AEM_CONTROLLER_AVAILABLE_IDLE => 6
  end.
(** [aecp_aem_controller_available_state++] *)
Definition next_controller_available (st : controller_available_t) : controller_available_t :=
  match st with
  | AECP_AEM_CONTROLLER_AVAILABLE_IN_A => AECP_AEM_CONTROLLER_AVAILABLE_IN_B
  | AECP_AEM_CONTROLLER_AVAILABLE_IN_B => AECP_AEM_CONTROLLER_AVAILABLE_IN_C
  | AECP_AEM_CONTROLLER_AVAILABLE_IN_C => AECP_AEM_CONTROLLER_AVAILABLE_IN_D
  | AECP_AEM_CONTROLLER_AVAILABLE_IN_D => AECP_AEM_CONTROLLER_AVAILABLE_IN_E
  | AECP_AEM_CONTROLLER_AVAILABLE_IN_E => AECP_AEM_CONTROLLER_AVAILABLE_IN_F
  | st => st
  end.

Section Aecp.
Context {D : Type} `{cfg : Config} `{acfg : AcmpConfig} `{ecfg : AecpConfig}
  `{avb : !avb_interface D} `{cb : !control_callbacks D} `{fl : !flash_library D}.
Abbreviation EM := (M (aecp D)).

(** * Initialisation *)

Definition desc_write (d off : nat) (bs : list Z) : EM unit :=
  store (fun s => l ← aecp_descriptors s !! d; l ← write_at off bs l;
                  Some (upd_aecp_descriptors (<[d := l]>) s)).

(** [avb_itoa(serial_num, &desc_entity[244], 10, 0)] *)
Definition write_serial_num (serial_num : Z) : EM unit :=
  store (fun s =>
    l ← aecp_descriptors s !! desc_entity;
    '(_, l) ← avb_itoa (s32 serial_num) 244 10 0 l;
    Some (upd_aecp_descriptors (<[desc_entity := l]>) s)).

Definition avb_1722_1_aem_descriptors_init (serial_num : Z) : EM unit :=
  _ ← whenM AVB_1722_1_FIRMWARE_UPGRADE_ENABLED
        ('(factory, _) ← on_dev fl_getFactoryImage;
         whenM (factory =? 0)
           ('(next, size) ← on_dev fl_getNextBootImage;
            whenM (next =? 0)
              (desc_write desc_upgrade_image_memory_object_0 96 (le_bytes 4 (byterev size)))));
  _ ← desc_write desc_entity 4 (set_64 (guid_c my_guid));
  _ ← write_serial_num serial_num;
  _ ← forM (seq 0 6) (fun i =>
        _ ← desc_write desc_avb_interface_0 (70 + i) [my_mac_addr !!! i];
        desc_write desc_clock_source_0 (74 + i) [my_mac_addr !!! i]);
  desc_write desc_avb_interface_0 78 (take 3 my_mac_addr ++ [0xff; 0xfe] ++ bytes_at 3 3 my_mac_addr ++ [0; 1]).

Definition avb_1722_1_aecp_aem_init (serial_num : Z) : EM unit :=
  _ ← whenM AVB_1722_1_AEM_ENABLED (avb_1722_1_aem_descriptors_init serial_num);
  _ ← modify (upd_aecp_aem_lock_timer (init_avb_timer 100));
  _ ← put_acq (upd_aecp_aem_controller_available_timer (init_avb_timer 5));
  modify (upd_aecp_aem_state (fun _ => AECP_AEM_WAITING)).

(** * READ_DESCRIPTOR *)

Definition list_word (i : Z) : EM Z := load (fun _ => elem_at aem_descriptor_list i).
(** [(descriptor[2] << 8) | descriptor[3]], of the array a word of the list points to. *)
Definition descriptor_index (d : Z) : EM Z :=
  load (fun s => l ← elem_at (aecp_descriptors s) d; bs ← read_at 2 2 l;
                 Some (Z.lor (Z.shiftl (bs !!! 0%nat) 8) (bs !!! 1%nat))).

(** The descriptors of a type: size and pointer last looked at, and whether found. *)
Fixpoint scan_descriptors (n : nat) (p read_id : Z) (acc : Z * Z * bool) : EM (Z * Z * bool) :=
  match n with
  | O => mret acc
  | S n =>
      size ← list_word p;
      d ← list_word (p + 1);
      index ← descriptor_index d;
      if index =? read_id then mret (size, d, true) else scan_descriptors n (p + 2) read_id (size, d, acc.2)
  end.

(** Each round advances by two words at least. *)
Definition find_descriptor (read_type read_id : Z) : EM (Z * Z * bool) :=
  loopM (S (length aem_descriptor_list)) (fun st =>
    let '(i, acc) := st in
    type ← list_word i;
    if type <=? read_type then
      num_descriptors ← list_word (i + 1);
      acc ← (if type =? read_type then scan_descriptors (Z.to_nat num_descriptors) (i + 2) read_id acc else mret acc);
      let i := i + (num_descriptors * 2 + 2) in
      if Z.of_nat (length aem_descriptor_list) <=? i then mret (inr acc) else mret (inl (i, acc))
    else mret (inr acc)) (0, (0, 0, false)).

(** The template of a descriptor generated on the fly, and its size. *)
Definition generated_template (read_type read_id : Z) : EM (option (nat * nat)) :=
  l ← gets aecp_descriptors;
  let size d := length (l !!! d) in
  let sources := (0 <? AVB_NUM_SOURCES)%nat in
  if read_type =? AEM_AUDIO_CLUSTER_TYPE then
    mret (if read_id <? AVB_NUM_MEDIA_OUTPUTS + AVB_NUM_MEDIA_INPUTS then Some (desc_audio_cluster_template, 87%nat) else None)
  else if sources && (read_type =? AEM_STREAM_INPUT_TYPE) then
    mret (if read_id <? Z.of_nat AVB_NUM_SINKS then Some (desc_stream_input_0, size desc_stream_input_0) else None)
  else if sources && (read_type =? AEM_STREAM_PORT_INPUT_TYPE) then
    mret (if read_id <? Z.of_nat AVB_NUM_SINKS then Some (desc_stream_port_input_0, 20%nat) else None)
  else if sources && (read_type =? AEM_STREAM_OUTPUT_TYPE) then
    mret (if read_id <? Z.of_nat AVB_NUM_SOURCES then Some (desc_stream_output_0, size desc_stream_output_0) else None)
  else if sources && (read_type =? AEM_STREAM_PORT_OUTPUT_TYPE) then
    mret (if read_id <? Z.of_nat AVB_NUM_SOURCES then Some (desc_stream_port_output_0, 20%nat) else None)
  else mret None.

(** The fields the code writes into the template. *)
Definition fill_template (env : aecp_env) (read_type read_id : Z) (d : nat) : EM unit :=
  _ ← desc_write d 3 [u8 read_id];
  let name prefix base n :=
    nm ← load (fun _ => object_name prefix base n (stack_num_string env)); desc_write d 4 nm in
  let id := if AVB_NUM_MEDIA_OUTPUTS <=? read_id then read_id - AVB_NUM_MEDIA_OUTPUTS else read_id in
  let sources := Z.of_nat AVB_NUM_SOURCES in
  let sinks := Z.of_nat AVB_NUM_SINKS in
  _ ← (if read_type =? AEM_AUDIO_CLUSTER_TYPE then name channel_string id 0
       else if read_type =? AEM_STREAM_OUTPUT_TYPE then
         if sources =? 0 then trap else name output_string id (Z.quot AVB_NUM_MEDIA_INPUTS sources)
       else if read_type =? AEM_STREAM_INPUT_TYPE then
         if sinks =? 0 then trap else name input_string (u8 read_id) (Z.quot AVB_NUM_MEDIA_OUTPUTS sinks)
       else skip);
  if read_type =? AEM_STREAM_PORT_OUTPUT_TYPE then
    if sources =? 0 then trap
    else
      _ ← desc_write d 14 (hton_16 (AVB_NUM_MEDIA_OUTPUTS + Z.quot (read_id * AVB_NUM_MEDIA_INPUTS) sources));
      desc_write d 18 (hton_16 (sources + read_id))
  else if read_type =? AEM_STREAM_PORT_INPUT_TYPE then
    if sinks =? 0 then trap
    else
      _ ← desc_write d 14 (hton_16 (Z.quot (read_id * AVB_NUM_MEDIA_OUTPUTS) sinks));
      desc_write d 18 (hton_16 read_id)
  else skip.

(** The descriptor of the mapping of a stream, built in the packet: its size. *)
Definition audio_map_mappings (read_id : Z) : Z :=
  let sinks := Z.of_nat AVB_NUM_SINKS in
  let sources := Z.of_nat AVB_NUM_SOURCES in
  if (0 <? sinks) && (0 <? sources) then
    if read_id <? sinks then Z.quot AVB_NUM_MEDIA_OUTPUTS sinks else Z.quot AVB_NUM_MEDIA_INPUTS sources
  else if 0 <? sources then if read_id <? sources then Z.quot AVB_NUM_MEDIA_INPUTS sources else 0
  else if read_id <? sinks then Z.quot AVB_NUM_MEDIA_OUTPUTS sinks else 0.
Definition build_audio_map (read_id : Z) : EM Z :=
  let num_mappings := audio_map_mappings read_id in
  let desc_size_bytes := 8 + num_mappings * 8 in
  _ ← (if desc_size_bytes <? 0 then trap else tx_write off_descriptor (replicate (Z.to_nat desc_size_bytes) 0));
  _ ← tx_write off_descriptor (hton_16 AEM_AUDIO_MAP_TYPE ++ hton_16 read_id ++ hton_16 8 ++ hton_16 num_mappings);
  _ ← forM (seqZ 0 num_mappings) (fun i =>
        if (AVB_NUM_SINKS =? 0)%nat then trap
        else tx_write (off_descriptor + 8 + 8 * Z.to_nat i)
               (hton_16 (read_id mod Z.of_nat AVB_NUM_SINKS) ++ hton_16 i ++ hton_16 i ++ hton_16 0));
  mret desc_size_bytes.

(** The response that carries a descriptor of [size] bytes; [Some d] is one to be copied
    from array [d], with the 40 bytes that lie behind it. *)
Definition read_descriptor_found (env : aecp_env) (read_type read_id : Z) (src_addr : list Z)
    (size : Z) (descriptor : option Z) : EM Z :=
  _ ← avb_1722_1_create_aecp_response_header src_addr AECP_AEM_STATUS_SUCCESS AECP_CMD_AEM_COMMAND (size + 16);
  _ ← copy_rx_tx AVB_1722_1_AECP_PAYLOAD_OFFSET AVB_1722_1_AECP_PAYLOAD_OFFSET 6;
  _ ← match descriptor with
      | Some d =>
          bs ← load (fun s => l ← elem_at (aecp_descriptors s) d;
                 if size <? 0 then None
                 else read_at 0 (Z.to_nat size + 40) (l ++ take 40 (behind_descriptor env)));
          tx_write off_descriptor bs
      | None => skip
      end;
  _ ← set_current_fields_in_descriptor env read_type read_id;
  mret (14 + 4 + 24 + size).

Definition read_descriptor_missing (src_addr : list Z) : EM Z :=
  _ ← avb_1722_1_create_aecp_response_header src_addr AECP_AEM_STATUS_NO_SUCH_DESCRIPTOR AECP_CMD_AEM_COMMAND 40;
  _ ← copy_rx_tx AVB_1722_1_AECP_PAYLOAD_OFFSET AVB_1722_1_AECP_PAYLOAD_OFFSET 28;
  mret (14 + 4 + 20 + 8).

(** The search of the list, and the response. *)
Definition read_listed_descriptor (env : aecp_env) (read_type read_id : Z) (src_addr : list Z) : EM Z :=
  '(size, d, found) ← find_descriptor read_type read_id;
  if (found : bool) then read_descriptor_found env read_type read_id src_addr size (Some d)
  else read_descriptor_missing src_addr.

Definition create_aem_read_descriptor_response (env : aecp_env) (read_type read_id : Z) (src_addr : list Z) : EM Z :=
  if negb AVB_1722_1_AEM_ENABLED then mret 0
  else if negb AEM_GENERATE_DESCRIPTORS_ON_FLY then read_listed_descriptor env read_type read_id src_addr
  else
    template ← generated_template read_type read_id;
    match template with
    | Some (d, size) =>
        _ ← fill_template env read_type read_id d;
        read_descriptor_found env read_type read_id src_addr (Z.of_nat size) (Some (Z.of_nat d))
    | None =>
        if read_type =? AEM_AUDIO_MAP_TYPE then
          if read_id <? Z.of_nat AVB_NUM_SINKS + Z.of_nat AVB_NUM_SOURCES then
            size ← build_audio_map read_id;
            read_descriptor_found env read_type read_id src_addr size None
          else read_descriptor_missing src_addr
        else read_listed_descriptor env read_type read_id src_addr
    end.

(** * ACQUIRE_ENTITY *)

Definition set_owner_in_rx : EM unit :=
  a ← gets aecp_acq; rx_write (off_aem_command + 4) (set_64 (guid_c (acquired_controller_guid a))).

Definition avb_1722_1_create_controller_available_packet : EM Z :=
  a ← gets aecp_acq;
  _ ← tx_header (acquired_controller_mac a) AECP_CMD_AEM_COMMAND AECP_AEM_STATUS_SUCCESS
        AVB_1722_1_AECP_COMMAND_DATA_OFFSET;
  _ ← tx_write off_target_guid (set_64 (guid_c (acquired_controller_guid a)) ++ set_64 (guid_c my_guid) ++
        hton_16 (aecp_controller_available_sequence a));
  old ← tx_read 22 1;
  _ ← tx_write 22 (AEM_MSG_SET_COMMAND_TYPE (old !!! 0%nat) AECP_AEM_CMD_CONTROLLER_AVAILABLE);
  old ← tx_read 22 1;
  _ ← tx_write 22 [AEM_MSG_SET_U_FLAG (old !!! 0%nat) 0];
  mret (Z.of_nat AVB_1722_1_AECP_PAYLOAD_OFFSET).

(** 16 is the size of the command. *)
Definition avb_1722_1_create_acquire_response_packet (status : Z) : EM Z :=
  a ← gets aecp_acq;
  _ ← tx_write off_aem_command [pending_persistent a];
  _ ← tx_write (off_aem_command + 4) (set_64 (guid_c (acquired_controller_guid a)) ++ hton_16 0 ++ hton_16 0);
  _ ← tx_header (pending_controller_mac a) AECP_CMD_AEM_RESPONSE status (AVB_1722_1_AECP_COMMAND_DATA_OFFSET + 16);
  _ ← tx_write off_target_guid (set_64 (guid_c my_guid) ++ set_64 (guid_c (pending_controller_guid a)) ++
        hton_16 (pending_controller_sequence a));
  old ← tx_read 22 1;
  _ ← tx_write 22 (AEM_MSG_SET_COMMAND_TYPE (old !!! 0%nat) AECP_AEM_CMD_ACQUIRE_ENTITY);
  old ← tx_read 22 1;
  _ ← tx_write 22 [AEM_MSG_SET_U_FLAG (old !!! 0%nat) 0];
  mret (16 + Z.of_nat AVB_1722_1_AECP_PAYLOAD_OFFSET).

Definition acquire_release (pkt : list Z) : EM Z :=
  a ← gets aecp_acq;
  if bool_decide (entity_acquired_status a = AEM_ENTITY_NOT_ACQUIRED) then mret AECP_AEM_STATUS_BAD_ARGUMENTS
  else if compare_guid (bytes_at off_aecp_controller_guid 8 pkt) (acquired_controller_guid a) then
    _ ← put_acq (fun a =>
          upd_acquired_controller_mac (fun _ => replicate 6 0)
          (upd_acquired_controller_guid (fun _ => 0)
          (upd_entity_acquired_status (fun _ => AEM_ENTITY_NOT_ACQUIRED) a)));
    mret AECP_AEM_STATUS_SUCCESS
  else
    _ ← set_owner_in_rx; mret AECP_AEM_STATUS_ENTITY_ACQUIRED.

(** Another controller asks for an entity that is acquired: its owner is asked whether
    it is still there. The address saved is that of the parameter, not what it points
    to. *)
Definition acquire_ask_owner (env : aecp_env) (pkt : list Z) : EM unit :=
  _ ← put_acq (fun a =>
        upd_aecp_controller_available_sequence (fun n => u16 (n + 1))
        (upd_pending_persistent (fun _ => AEM_ACQUIRE_ENTITY_PERSISTENT_FLAG pkt)
        (upd_pending_controller_sequence (fun _ => short_at off_aecp_sequence_id pkt)
        (upd_pending_controller_mac (fun _ => at_src_addr env)
        (upd_pending_controller_guid (fun _ => guid_at off_aecp_controller_guid pkt) a)))));
  _ ← avb_1722_1_create_controller_available_packet;
  _ ← eth_send_packet 64;
  put_acq (fun a =>
    upd_entity_acquired_status (fun _ => AEM_ENTITY_ACQUIRED_BUT_PENDING)
    (upd_aecp_aem_controller_available_state (fun _ => AECP_AEM_CONTROLLER_AVAILABLE_IN_A)
    (upd_aecp_aem_controller_available_timer (start_avb_timer (aecp_now env) 12) a))).

Definition acquire_acquire (env : aecp_env) (pkt : list Z) : EM Z :=
  a ← gets aecp_acq;
  let same := compare_guid (bytes_at off_aecp_controller_guid 8 pkt) (acquired_controller_guid a) in
  match entity_acquired_status a with
  | AEM_ENTITY_NOT_ACQUIRED =>
      _ ← put_acq (fun a =>
            upd_acquired_controller_guid (fun _ => guid_at off_aecp_controller_guid pkt)
            (upd_entity_acquired_status (fun _ =>
               if truthy (AEM_ACQUIRE_ENTITY_PERSISTENT_FLAG pkt) then AEM_ENTITY_ACQUIRED_AND_PERSISTENT
               else AEM_ENTITY_ACQUIRED) a));
      _ ← set_owner_in_rx;
      _ ← put_acq (upd_acquired_controller_mac (fun _ => at_src_addr env));
      mret AECP_AEM_STATUS_SUCCESS
  | AEM_ENTITY_ACQUIRED_BUT_PENDING => mret AECP_AEM_STATUS_SUCCESS
  | AEM_ENTITY_ACQUIRED =>
      status ← (if same then mret AECP_AEM_STATUS_SUCCESS
                else _ ← acquire_ask_owner env pkt; mret AECP_AEM_STATUS_IN_PROGRESS);
      _ ← set_owner_in_rx;
      mret status
  | AEM_ENTITY_ACQUIRED_AND_PERSISTENT =>
      _ ← set_owner_in_rx;
      mret (if same then AECP_AEM_STATUS_SUCCESS else AECP_AEM_STATUS_ENTITY_ACQUIRED)
  end.

(** Status and [cd_len], an [unsigned short]. *)
Definition process_aem_cmd_acquire (env : aecp_env) : EM (Z * Z) :=
  pkt ← get_rx;
  let descriptor_index := short_at (off_aem_command + 14) pkt in
  let descriptor_type := short_at (off_aem_command + 12) pkt in
  status ← (if (AEM_ENTITY_TYPE =? descriptor_type) && (0 =? descriptor_index) then
              if truthy (AEM_ACQUIRE_ENTITY_RELEASE_FLAG pkt) then acquire_release pkt else acquire_acquire env pkt
            else mret AECP_AEM_STATUS_NOT_SUPPORTED);
  mret (status, u16 (GET_1722_1_DATALENGTH pkt - AVB_1722_1_AECP_COMMAND_DATA_OFFSET)).

(** * Firmware upgrades: [avb_1722_1_aecp_efu.xc] *)

Definition begin_write_upgrade_image : EM unit := put_upl (upd_write_offset (fun _ => 0)).
Definition abort_write_upgrade_image : EM unit := put_upl (upd_write_offset (fun _ => u32 (-1))).

(** The status, which it leaves as it is if all is well. *)
Definition avb_write_upgrade_image_page (address : Z) (data : list Z) (status : Z) : EM Z :=
  u ← gets aecp_upl;
  if AVB_1722_1_FIRMWARE_UPGRADE_ENABLED && (u32 address =? write_offset u) then
    result ← on_dev (fl_writeImagePage data);
    if negb (result =? 0) then mret AECP_AA_STATUS_ADDRESS_INVALID
    else _ ← put_upl (upd_write_offset (fun n => u32 (n + Z.of_nat FLASH_PAGE_SIZE))); mret status
  else mret AECP_AA_STATUS_ADDRESS_INVALID.

(** The loop that waits for the flash memory, telling the controller so: [t] is the
    time of the last message, [k] the number of readings of the clock. *)
Definition start_image (env : aecp_env) (src_addr : list Z) (num_tx_bytes datalen flashstatus : Z) : EM Z :=
  loopM (flash_polls env) (fun tk =>
    let '(t, k) := tk in
    result ← on_dev (if negb (flashstatus =? 0) then fl_startImageAdd else fl_startImageReplace);
    if 0 <? result then
      if u32 (120 * XS1_TIMER_KHZ) <=? u32 (clock_reading env k - t) then
        _ ← avb_1722_1_create_aecp_aem_response src_addr AECP_AEM_STATUS_IN_PROGRESS datalen;
        _ ← eth_send_packet num_tx_bytes;
        mret (inl (clock_reading env (k + 1), (k + 2)%nat))
      else mret (inl (t, (k + 1)%nat))
    else mret (inr result)) (clock_reading env 0, 1%nat).

Definition operation_upload (env : aecp_env) (src_addr : list Z) (num_tx_bytes datalen : Z) : EM (Z * Z * bool) :=
  '(factory, _) ← on_dev fl_getFactoryImage;
  if negb (factory =? 0) then mret (AECP_AEM_STATUS_ENTITY_MISBEHAVING, 0, false)
  else
    '(flashstatus, _) ← on_dev fl_getNextBootImage;
    result ← start_image env src_addr num_tx_bytes datalen flashstatus;
    status ← (if result <? 0 then mret AECP_AEM_STATUS_ENTITY_MISBEHAVING
              else _ ← begin_write_upgrade_image; mret AECP_AEM_STATUS_SUCCESS);
    _ ← avb_1722_1_create_aecp_aem_response src_addr status datalen;
    _ ← eth_send_packet num_tx_bytes;
    mret (status, 0, false).

Definition operation_store (src_addr : list Z) (num_tx_bytes datalen operation_type : Z) : EM (Z * Z * bool) :=
  n ← gets operation_id;
  _ ← rx_write (off_aem_command + 4) (hton_16 n);
  _ ← modify (upd_operation_id (fun n => s32 (n + 1)));
  _ ← avb_1722_1_create_aecp_aem_response src_addr AECP_AEM_STATUS_SUCCESS datalen;
  _ ← eth_send_packet num_tx_bytes;
  old ← rx_read 22 1;
  _ ← rx_write 22 [AEM_MSG_SET_U_FLAG (old !!! 0%nat) 1];
  old ← rx_read 22 1;
  _ ← rx_write 22 (AEM_MSG_SET_COMMAND_TYPE (old !!! 0%nat) AECP_AEM_CMD_OPERATION_STATUS);
  _ ← rx_write (off_aem_command + 6) (hton_16 1000);
  _ ← avb_1722_1_create_aecp_aem_response src_addr AECP_AEM_STATUS_SUCCESS datalen;
  _ ← eth_send_packet num_tx_bytes;
  mret (AECP_AEM_STATUS_SUCCESS, 0, operation_type =? AEM_MEMORY_OBJECT_OPERATION_STORE_AND_REBOOT).

(** Status, [cd_len] and [reboot]. *)
Definition process_aem_cmd_start_abort_operation (env : aecp_env) (src_addr : list Z) (command_type : Z)
    : EM (Z * Z * bool) :=
  pkt ← get_rx;
  let desc_type := short_at off_aem_command pkt in
  let desc_id := short_at (off_aem_command + 2) pkt in
  let operation_type := short_at (off_aem_command + 6) pkt in
  let datalen := GET_1722_1_DATALENGTH pkt in
  let cd_len := datalen - AVB_1722_1_AECP_COMMAND_DATA_OFFSET in
  if (command_type =? AECP_AEM_CMD_START_OPERATION) && (desc_type =? AEM_MEMORY_OBJECT_TYPE) && (desc_id =? 0) then
    let num_tx_bytes := Z.max 64 (8 + Z.of_nat AVB_1722_1_AECP_PAYLOAD_OFFSET) in
    if (operation_type =? AEM_MEMORY_OBJECT_OPERATION_UPLOAD) || (operation_type =? AEM_MEMORY_OBJECT_OPERATION_ERASE)
    then operation_upload env src_addr num_tx_bytes datalen
    else if (operation_type =? AEM_MEMORY_OBJECT_OPERATION_STORE) ||
            (operation_type =? AEM_MEMORY_OBJECT_OPERATION_STORE_AND_REBOOT)
    then operation_store src_addr num_tx_bytes datalen operation_type
    else mret (AECP_AEM_STATUS_BAD_ARGUMENTS, cd_len, false)
  else if command_type =? AECP_AEM_CMD_ABORT_OPERATION then
    _ ← put_upl (fun u => upd_aecp_aa_next_write_address (fun _ => 0)
          (upd_aecp_aa_flash_write_addr (fun _ => 0) (upd_aecp_aa_bytes_copied (fun _ => 0) u)));
    mret (AECP_AEM_STATUS_SUCCESS, cd_len, false)
  else mret (AECP_AEM_STATUS_NO_SUCH_DESCRIPTOR, cd_len, false).

(** * Dispatch *)

(** What an AEM command leads to: [Answered] if the handler has sent its responses
    itself and returns, else the status, [cd_len] and whether to reboot. *)
Inductive aem_result : Type := Answered | Respond (status cd_len : Z) (reboot : bool).

Definition not_implemented (src_addr : list Z) (num_pkt_bytes : Z) : EM aem_result :=
  pkt ← get_rx;
  _ ← avb_1722_1_create_aecp_response_header src_addr AECP_AEM_STATUS_NOT_IMPLEMENTED AECP_CMD_AEM_COMMAND
        (GET_1722_1_DATALENGTH pkt);
  _ ← copy_rx_tx AVB_1722_1_AECP_PAYLOAD_OFFSET AVB_1722_1_AECP_PAYLOAD_OFFSET
        (num_pkt_bytes - Z.of_nat AVB_1722_1_AECP_PAYLOAD_OFFSET);
  _ ← eth_send_packet (Z.max 64 (num_pkt_bytes + Z.of_nat ethernet_hdr_size));
  mret Answered.

Definition read_descriptor (env : aecp_env) (src_addr : list Z) : EM aem_result :=
  pkt ← get_rx;
  num_tx_bytes ← create_aem_read_descriptor_response env (short_at (off_aem_command + 4) pkt)
                   (short_at (off_aem_command + 6) pkt) src_addr;
  _ ← eth_send_packet (Z.max 64 num_tx_bytes);
  mret (Respond AECP_AEM_STATUS_SUCCESS 0 false).

(** A handler that returns the status; the length is the size of the command. *)
Definition sized (m : EM Z) (size : Z) : EM aem_result := status ← m; mret (Respond status size false).

Definition aem_command (env : aecp_env) (src_addr : list Z) (num_pkt_bytes command_type : Z) : EM aem_result :=
  let cmd c := command_type =? c in
  if cmd AECP_AEM_CMD_ACQUIRE_ENTITY then
    '(status, cd_len) ← process_aem_cmd_acquire env; mret (Respond status cd_len false)
  else if cmd AECP_AEM_CMD_LOCK_ENTITY then mret (Respond AECP_AEM_STATUS_SUCCESS 0 false)
  else if cmd AECP_AEM_CMD_ENTITY_AVAILABLE then
    mret (Respond AECP_AEM_STATUS_SUCCESS (Z.of_nat AVB_1722_1_AECP_PAYLOAD_OFFSET) false)
  else if cmd AECP_AEM_CMD_REBOOT then
    mret (Respond AECP_AEM_STATUS_SUCCESS (Z.of_nat AVB_1722_1_AECP_PAYLOAD_OFFSET) true)
  else if cmd AECP_AEM_CMD_READ_DESCRIPTOR then read_descriptor env src_addr
  else if cmd AECP_AEM_CMD_GET_STREAM_INFO || cmd AECP_AEM_CMD_SET_STREAM_INFO then
    sized (process_aem_cmd_getset_stream_info command_type) sizeof_getset_stream_info
  else if cmd AECP_AEM_CMD_GET_STREAM_FORMAT || cmd AECP_AEM_CMD_SET_STREAM_FORMAT then
    sized (process_aem_cmd_getset_stream_format command_type) sizeof_getset_stream_format
  else if cmd AECP_AEM_CMD_GET_SAMPLING_RATE || cmd AECP_AEM_CMD_SET_SAMPLING_RATE then
    sized (process_aem_cmd_getset_sampling_rate command_type) sizeof_getset_sampling_rate
  else if cmd AECP_AEM_CMD_GET_CLOCK_SOURCE || cmd AECP_AEM_CMD_SET_CLOCK_SOURCE then
    sized (process_aem_cmd_getset_clock_source command_type) sizeof_getset_clock_source
  else if cmd AECP_AEM_CMD_START_STREAMING || cmd AECP_AEM_CMD_STOP_STREAMING then
    sized (process_aem_cmd_startstop_streaming command_type) sizeof_startstop_streaming
  else if cmd AECP_AEM_CMD_GET_CONTROL || cmd AECP_AEM_CMD_SET_CONTROL then
    '(status, values_length) ← process_aem_cmd_getset_control env command_type;
    mret (Respond status (values_length + sizeof_getset_control + AVB_1722_1_AECP_COMMAND_DATA_OFFSET) false)
  else if cmd AECP_AEM_CMD_GET_SIGNAL_SELECTOR || cmd AECP_AEM_CMD_SET_SIGNAL_SELECTOR then
    sized (process_aem_cmd_getset_signal_selector command_type) sizeof_getset_signal_selector
  else if cmd AECP_AEM_CMD_GET_COUNTERS then sized process_aem_cmd_get_counters sizeof_get_counters
  else if cmd AECP_AEM_CMD_START_OPERATION || cmd AECP_AEM_CMD_ABORT_OPERATION then
    if AVB_1722_1_FIRMWARE_UPGRADE_ENABLED then
      '(status, cd_len, reboot) ← process_aem_cmd_start_abort_operation env src_addr command_type;
      mret (Respond status cd_len reboot)
    else mret (Respond AECP_AEM_STATUS_SUCCESS 0 false)
  else not_implemented src_addr num_pkt_bytes.

(** Sending what is in the buffer, [cd_len] bytes behind the fixed part, and rebooting. *)
Definition send_response (cd_len : Z) : EM unit :=
  whenM (0 <? cd_len)
    (eth_send_packet (Z.max 64 (cd_len + 2 + Z.of_nat AVB_1722_1_AECP_PAYLOAD_OFFSET + Z.of_nat ethernet_hdr_size))).
Definition reboot_device : EM unit :=
  _ ← out_event AdpDepartImmediately; out_event DeviceReboot.

(** The response of the owner, or of the controller that waits. *)
Definition controller_available_response (pkt : list Z) : EM Z :=
  a ← gets aecp_acq;
  if bool_decide (entity_acquired_status a = AEM_ENTITY_ACQUIRED_BUT_PENDING) &&
     compare_guid (bytes_at off_aecp_controller_guid 8 pkt) my_guid
  then
    if compare_guid (bytes_at off_target_guid 8 pkt) (pending_controller_guid a) then
      _ ← put_acq (fun a =>
            upd_aecp_aem_controller_available_state (fun _ => AECP_AEM_CONTROLLER_AVAILABLE_IDLE)
            (upd_entity_acquired_status (fun _ => AEM_ENTITY_ACQUIRED) a));
      avb_1722_1_create_acquire_response_packet AECP_AEM_STATUS_SUCCESS
    else if compare_guid (bytes_at off_target_guid 8 pkt) (acquired_controller_guid a) then
      _ ← put_acq (upd_entity_acquired_status (fun _ =>
            if truthy (AEM_ACQUIRE_ENTITY_PERSISTENT_FLAG pkt) then AEM_ENTITY_ACQUIRED_AND_PERSISTENT
            else AEM_ENTITY_ACQUIRED));
      cd_len ← avb_1722_1_create_acquire_response_packet AECP_AEM_STATUS_ENTITY_ACQUIRED;
      _ ← put_acq (upd_aecp_aem_controller_available_timer stop_avb_timer);
      mret cd_len
    else mret 0
  else mret 0.

Definition process_avb_1722_1_aecp_aem_msg (env : aecp_env) (src_addr : list Z) (message_type num_pkt_bytes : Z)
    : EM unit :=
  pkt ← get_rx;
  let command_type := AEM_MSG_GET_COMMAND_TYPE pkt in
  if message_type =? AECP_CMD_AEM_COMMAND then
    if negb (compare_guid (bytes_at off_target_guid 8 pkt) my_guid) then skip
    else
      result ← aem_command env src_addr num_pkt_bytes command_type;
      match result with
      | Answered => skip
      | Respond status cd_len reboot =>
          _ ← whenM (0 <? cd_len) (avb_1722_1_create_aecp_aem_response src_addr status cd_len);
          _ ← send_response cd_len;
          whenM reboot reboot_device
      end
  else
    cd_len ← (if command_type =? AECP_AEM_CMD_CONTROLLER_AVAILABLE
              then controller_available_response pkt else mret 0);
    send_response cd_len.

(** * ADDRESS_ACCESS *)

(** [bytes_available] and [packet_index]; a copy of a negative length is a huge one. *)
Definition off_aa_data : nat := 34.
Definition aa_copy (to : Z) (from len : Z) : EM unit :=
  if len <? 0 then trap
  else
    bs ← (if from <? 0 then trap else rx_read (off_aa_data + Z.to_nat from) (Z.to_nat len));
    store (fun s =>
      l ← (if to <? 0 then None else write_at (Z.to_nat to) bs (aecp_flash_page_buf (aecp_upl s)));
      Some (upd_aecp_upl (upd_aecp_flash_page_buf (fun _ => l)) s)).

(** Writes a page at the current address, and advances the address. *)
Definition aa_write_page (data : list Z) (status : Z) : EM Z :=
  u ← gets aecp_upl;
  status ← avb_write_upgrade_image_page (aecp_aa_flash_write_addr u) data status;
  _ ← put_upl (upd_aecp_aa_flash_write_addr (fun n => u32 (n + Z.of_nat FLASH_PAGE_SIZE)));
  mret status.

(** One round of the loop. *)
Definition aa_round (length : Z) (st : Z * Z * Z) : EM ((Z * Z * Z) + Z) :=
  let '(bytes_available, packet_index, status) := st in
  let page := Z.of_nat FLASH_PAGE_SIZE in
  u ← gets aecp_upl;
  let copied := aecp_aa_bytes_copied u in
  st ← (if copied =? 0 then
          if (packet_index =? 0) || (u32 (packet_index + page) <=? u32 length) then
            data ← rx_read (off_aa_data + Z.to_nat packet_index) FLASH_PAGE_SIZE;
            status ← aa_write_page data status;
            mret (bytes_available - page, u32 (packet_index + page), status)
          else
            _ ← aa_copy 0 packet_index bytes_available;
            _ ← put_upl (upd_aecp_aa_bytes_copied (fun n => u32 (n + bytes_available)));
            mret (0, 0, status)
        else if copied =? page then
          status ← aa_write_page (aecp_flash_page_buf u) status;
          _ ← put_upl (upd_aecp_aa_bytes_copied (fun _ => 0));
          mret (bytes_available - page, packet_index, status)
        else
          let bytes_to_copy := s32 (page - copied) in
          _ ← aa_copy copied packet_index bytes_to_copy;
          _ ← put_upl (upd_aecp_aa_bytes_copied (fun n => u32 (n + bytes_to_copy)));
          mret (bytes_available, u32 (packet_index + bytes_to_copy), status));
  let '(bytes_available, packet_index, status) := st in
  mret (if 0 <? bytes_available then inl (bytes_available, packet_index, status) else inr status).

(** Each two rounds take a page. *)
Definition aa_fuel : nat := 64.
Definition aa_write (length : Z) : EM Z :=
  u ← gets aecp_upl;
  status ← loopM aa_fuel (aa_round length) (s32 (length + aecp_aa_bytes_copied u), 0, AECP_AA_STATUS_SUCCESS);
  _ ← put_upl (upd_aecp_aa_next_write_address (fun n => u32 (n + length)));
  mret status.

Definition process_avb_1722_1_aecp_address_access_cmd (src_addr : list Z) (num_pkt_bytes : Z) : EM unit :=
  pkt ← get_rx;
  let tlv_count := ntoh_16 (pkt !!! 22%nat) (pkt !!! 23%nat) in
  let address := u32 (word_at 30 pkt) in
  if negb (compare_guid (bytes_at off_target_guid 8 pkt) my_guid) then skip
  else
    u ← gets aecp_upl;
    status ← (if negb (tlv_count =? 1) || negb (ADDRESS_MSG_GET_MODE pkt =? AECP_AA_MODE_WRITE)
              then mret AECP_AA_STATUS_TLV_INVALID
              else if negb (aecp_aa_next_write_address u =? address) then mret AECP_AA_STATUS_ADDRESS_INVALID
              else aa_write (ADDRESS_MSG_GET_LENGTH pkt));
    _ ← avb_1722_1_create_aecp_response_header src_addr status AECP_CMD_ADDRESS_ACCESS_COMMAND
          (GET_1722_1_DATALENGTH pkt);
    _ ← copy_rx_tx AVB_1722_1_AECP_PAYLOAD_OFFSET AVB_1722_1_AECP_PAYLOAD_OFFSET 514;
    eth_send_packet (Z.max 64 (num_pkt_bytes + Z.of_nat ethernet_hdr_size)).

(** * The interface *)

(** [num_pkt_bytes] is the length of the packet without its Ethernet header. *)
Definition process_avb_1722_1_aecp_packet (env : aecp_env) (src_addr : list Z) (num_pkt_bytes : Z) : EM unit :=
  pkt ← get_rx;
  let message_type := GET_1722_1_MSG_TYPE pkt in
  if (message_type =? AECP_CMD_AEM_COMMAND) || (message_type =? AECP_CMD_AEM_RESPONSE) then
    whenM AVB_1722_1_AEM_ENABLED (process_avb_1722_1_aecp_aem_msg env src_addr message_type num_pkt_bytes)
  else if message_type =? AECP_CMD_ADDRESS_ACCESS_COMMAND then
    whenM AVB_1722_1_FIRMWARE_UPGRADE_ENABLED (process_avb_1722_1_aecp_address_access_cmd src_addr num_pkt_bytes)
  else skip.

(** A packet arrives: the task reads it into its buffer and calls the handler. *)
Definition receive_aecp (env : aecp_env) (src_addr : list Z) (num_pkt_bytes : Z) (pkt : list Z) : EM unit :=
  _ ← modify (upd_aecp_rx (fun _ => pkt));
  process_avb_1722_1_aecp_packet env src_addr num_pkt_bytes.

Definition controller_available_timeout (now : Z) : EM Z :=
  a ← gets aecp_acq;
  match aecp_aem_controller_available_state a with
  | AECP_AEM_CONTROLLER_AVAILABLE_IDLE => mret 0
  | AECP_AEM_CONTROLLER_AVAILABLE_IN_F =>
      _ ← put_acq (fun a =>
            upd_acquired_controller_mac (fun _ => pending_controller_mac a)
            (upd_acquired_controller_guid (fun _ => pending_controller_guid a)
            (upd_entity_acquired_status (fun _ =>
               if truthy (pending_persistent a) then AEM_ENTITY_ACQUIRED_AND_PERSISTENT else AEM_ENTITY_ACQUIRED) a)));
      cd_len ← avb_1722_1_create_acquire_response_packet AECP_AEM_STATUS_SUCCESS;
      _ ← put_acq (upd_aecp_aem_controller_available_state (fun _ => AECP_AEM_CONTROLLER_AVAILABLE_IDLE));
      mret cd_len
  | st =>
      cd_len ← avb_1722_1_create_acquire_response_packet AECP_AEM_STATUS_IN_PROGRESS;
      timeout ← load (fun _ => available_timeouts !! controller_available_index st);
      _ ← put_acq (fun a =>
            upd_aecp_aem_controller_available_state next_controller_available
            (upd_aecp_aem_controller_available_timer (start_avb_timer now timeout) a));
      mret cd_len
  end.

Definition avb_1722_1_aecp_aem_periodic (env : aecp_env) : EM unit :=
  a ← gets aecp_acq;
  let '(expired, tmr) := avb_timer_expired (aecp_now env) (aecp_aem_controller_available_timer a) in
  _ ← put_acq (upd_aecp_aem_controller_available_timer (fun _ => tmr));
  whenM expired
    (cd_len ← controller_available_timeout (aecp_now env);
     whenM (truthy cd_len) (eth_send_packet (Z.max 64 cd_len))).
End Aecp.
