(* ===== verification/AecpRun.v ===== *)
(** AECP: what its operations leave as it is; the buffers of a running device, and what is
    sent in response to a command. *)
From S2P Require Import Prelude Bytes MiscTimer MrpTypes AvbApi AvbUtil AcmpTypes AecpTypes AecpControls Aecp AcmpSpec.
From stdpp Require Import base list list_numbers numbers option.
From Stdlib Require Import ZArith Lia.
#[local] Open Scope Z_scope.

(** ** Arrays *)

Lemma read_at_run off n l : (off + n <= length l)%nat -> read_at off n l = Some (bytes_at off n l).
Proof. intros H. unfold read_at. destruct (Nat.leb_spec (off + n) (length l)); [done|lia]. Qed.

Lemma write_at_run off bs l :
  (off + length bs <= length l)%nat -> write_at off bs l = Some (take off l ++ bs ++ drop (off + length bs) l).
Proof. intros H. unfold write_at. destruct (Nat.leb_spec (off + length bs) (length l)); [done|lia]. Qed.

Lemma write_at_Some off bs l l' :
  write_at off bs l = Some l' ->
  (off + length bs <= length l)%nat /\ l' = take off l ++ bs ++ drop (off + length bs) l.
Proof. unfold write_at. destruct (Nat.leb_spec (off + length bs) (length l)); [|done]. by intros [= <-]. Qed.

Lemma write_at_length off bs l l' : write_at off bs l = Some l' -> length l' = length l.
Proof.
  intros [H ->]%write_at_Some. rewrite !length_app, length_take, length_drop. lia.
Qed.

Lemma write_at_take off bs l l' n : write_at off bs l = Some l' -> (n <= off)%nat -> take n l' = take n l.
Proof.
  intros [H ->]%write_at_Some Hn. rewrite take_app_le by (rewrite length_take; lia). rewrite take_take. f_equal. lia.
Qed.

Lemma bytes_at_length off n l : (off + n <= length l)%nat -> length (bytes_at off n l) = n.
Proof. intros H. unfold bytes_at. rewrite length_take, length_drop. lia. Qed.

Lemma bytes_at_take off n m l : (off + n <= m)%nat -> bytes_at off n (take m l) = bytes_at off n l.
Proof. intros H. unfold bytes_at. rewrite skipn_firstn_comm, take_take. f_equal. lia. Qed.

(** The fields of a packet that lie in its first [m] bytes. *)
Lemma same_bytes off n m l l' : take m l = take m l' -> (off + n <= m)%nat -> bytes_at off n l = bytes_at off n l'.
Proof. intros H Hm. by rewrite <- (bytes_at_take off n m l), H, bytes_at_take by done. Qed.

Lemma same_byte i m (l l' : list Z) : take m l = take m l' -> (i < m)%nat -> l !!! i = l' !!! i.
Proof.
  intros H Hi. rewrite !list_lookup_total_alt. f_equal.
  by rewrite <- (lookup_take_lt l m i), H, lookup_take_lt by done.
Qed.

Lemma bytes_at_written off bs l : (off <= length l)%nat -> bytes_at off (length bs) (take off l ++ bs ++ drop (off + length bs) l) = bs.
Proof.
  intros Hl. unfold bytes_at. rewrite drop_app_ge by (rewrite length_take; lia).
  rewrite length_take. replace (off - off `min` length l)%nat with 0%nat by lia. by rewrite drop_0, take_app_length.
Qed.

(** Bytes within bytes that are the same. *)
Lemma bytes_at_inner off n l l' i k :
  bytes_at off n l = bytes_at off n l' -> (i + k <= n)%nat -> bytes_at (off + i) k l = bytes_at (off + i) k l'.
Proof.
  intros H Hi. assert (forall l, bytes_at (off + i) k l = bytes_at i k (bytes_at off n l)) as E.
  { intros x. unfold bytes_at at 1 2. unfold bytes_at. rewrite skipn_firstn_comm, take_take, drop_drop. f_equal. lia. }
  by rewrite !E, H.
Qed.

(** * Relations between states *)

(** The acquisition of the entity is the same. *)
Definition same_acq {D} (s s' : aecp D) : Prop := aecp_acq s' = aecp_acq s.

(** A handler of a command has worked on the packet behind its identification - message
    type, command type and descriptor - and on the device only. *)
Record handles {D} (s s' : aecp D) : Prop := {
  h_acq : aecp_acq s' = aecp_acq s;
  h_upl : aecp_upl s' = aecp_upl s;
  h_buf : aecp_buf s' = aecp_buf s;
  h_out : aecp_out s' = aecp_out s;
  h_rx_length : length (aecp_rx s') = length (aecp_rx s);
  h_rx : take off_args (aecp_rx s') = take off_args (aecp_rx s);
}.

#[global] Instance same_acq_preorder {D} : PreOrder (@same_acq D).
Proof. split; unfold same_acq; [done | congruence]. Qed.
#[global] Instance handles_preorder {D} : PreOrder (@handles D).
Proof. split; [by constructor | intros ??? [] []; constructor; congruence]. Qed.

Section Frames.
Context {D : Type} `{cfg : Config} `{acfg : AcmpConfig} `{ecfg : AecpConfig}
  `{avb : !avb_interface D} `{cb : !control_callbacks D} `{fl : !flash_library D}.
Abbreviation SM := (M (aecp D)).

(** ** Handlers *)

Lemma handles_on_dev {A} (m : M D A) : keeps handles (on_dev m).
Proof. intros s a s' H. unfold on_dev in H. destruct (m _) as [[]|]; simplify_eq. by constructor. Qed.

Lemma handles_rx_write off bs : (off_args <= off)%nat -> keeps handles (@rx_write D off bs).
Proof.
  intros Hoff. apply keeps_store. intros s s' H. apply bind_Some in H as (l & H & [= <-]).
  constructor; cbn; try done; [by eapply write_at_length | by eapply write_at_take].
Qed.

Lemma handles_get_rx : keeps handles (@get_rx D).
Proof. apply keeps_load. apply _. Qed.
Hint Resolve handles_on_dev handles_get_rx : keeps.
Hint Extern 1 (keeps handles (rx_write _ _)) => apply handles_rx_write; unfold off_args; lia : keeps.

Lemma handles_find_stream t i : keeps handles (find_stream (D := D) t i).
Proof. unfold find_stream. keeps_auto. Qed.
Lemma handles_set_record i x : keeps handles (set_record (D := D) i x).
Proof. unfold set_record. keeps_auto. Qed.
Hint Resolve handles_find_stream handles_set_record : keeps.

Lemma handles_stream_format c : keeps handles (process_aem_cmd_getset_stream_format (D := D) c).
Proof. unfold process_aem_cmd_getset_stream_format, rx_short. keeps_auto. Qed.
Lemma handles_stream_info c : keeps handles (process_aem_cmd_getset_stream_info (D := D) c).
Proof. unfold process_aem_cmd_getset_stream_info, rx_short. keeps_auto. Qed.
Lemma handles_startstop c : keeps handles (process_aem_cmd_startstop_streaming (D := D) c).
Proof. unfold process_aem_cmd_startstop_streaming, rx_short. keeps_auto. Qed.
Lemma handles_sampling_rate c : keeps handles (process_aem_cmd_getset_sampling_rate (D := D) c).
Proof. unfold process_aem_cmd_getset_sampling_rate, set_clock, rx_short. keeps_auto. Qed.
Lemma handles_clock_source c : keeps handles (process_aem_cmd_getset_clock_source (D := D) c).
Proof. unfold process_aem_cmd_getset_clock_source, set_clock, rx_short. keeps_auto. Qed.
Lemma handles_get_counters : keeps handles (process_aem_cmd_get_counters (D := D)).
Proof. unfold process_aem_cmd_get_counters, rx_short. keeps_auto. Qed.
Lemma handles_signal_selector c : keeps handles (process_aem_cmd_getset_signal_selector (D := D) c).
Proof. unfold process_aem_cmd_getset_signal_selector, rx_short. keeps_auto. Qed.
Lemma handles_control env c : keeps handles (process_aem_cmd_getset_control (D := D) env c).
Proof. unfold process_aem_cmd_getset_control. keeps_auto. Qed.
End Frames.

(** ** The acquisition *)

Section SameAcq.
Context {D : Type} `{cfg : Config} `{acfg : AcmpConfig} `{ecfg : AecpConfig}
  `{avb : !avb_interface D} `{cb : !control_callbacks D} `{fl : !flash_library D}.
Abbreviation SM := (M (aecp D)).

Lemma handles_same_acq {A} (m : SM A) : keeps handles m -> keeps same_acq m.
Proof. intros H s a s' E. apply (H _ _ _ E). Qed.

Lemma same_acq_on_dev {A} (m : M D A) : keeps same_acq (on_dev m).
Proof. apply handles_same_acq, handles_on_dev. Qed.
Lemma same_acq_get_rx : keeps same_acq (@get_rx D).
Proof. apply handles_same_acq, handles_get_rx. Qed.
Lemma same_acq_rx_write off bs : keeps same_acq (@rx_write D off bs).
Proof. apply keeps_store. intros s s' H. apply bind_Some in H as (l & H & [= <-]). done. Qed.
Lemma same_acq_tx_write off bs : keeps same_acq (@tx_write D off bs).
Proof. apply keeps_store. intros s s' H. apply bind_Some in H as (l & H & [= <-]). done. Qed.
Lemma same_acq_rx_read off n : keeps same_acq (@rx_read D off n).
Proof. apply keeps_load. apply _. Qed.
Lemma same_acq_tx_read off n : keeps same_acq (@tx_read D off n).
Proof. apply keeps_load. apply _. Qed.
Lemma same_acq_tx_header d m st l : keeps same_acq (tx_header (D := D) d m st l).
Proof. apply keeps_store. intros s s' H. cbv zeta in H. case_match; [done|]. by injection H as <-. Qed.
Lemma same_acq_out_event ev : keeps same_acq (@out_event D ev).
Proof. by apply keeps_modify. Qed.
Lemma same_acq_put_upl f : keeps same_acq (@put_upl D f).
Proof. by apply keeps_modify. Qed.
Lemma same_acq_desc_write d off bs : keeps same_acq (@desc_write D d off bs).
Proof.
  apply keeps_store. intros s s' H. apply bind_Some in H as (l & _ & H). apply bind_Some in H as (l' & _ & [= <-]). done.
Qed.
#[local] Hint Resolve same_acq_on_dev same_acq_get_rx same_acq_rx_write same_acq_tx_write same_acq_rx_read
  same_acq_tx_read same_acq_tx_header same_acq_out_event same_acq_put_upl same_acq_desc_write : keeps.

Lemma same_acq_send n : keeps same_acq (@eth_send_packet D n).
Proof. unfold eth_send_packet. keeps_auto. Qed.
Lemma same_acq_copy to from n : keeps same_acq (@copy_rx_tx D to from n).
Proof. unfold copy_rx_tx. keeps_auto. Qed.
#[local] Hint Resolve same_acq_send same_acq_copy : keeps.
Lemma same_acq_response_header d st m l : keeps same_acq (avb_1722_1_create_aecp_response_header (D := D) d st m l).
Proof. unfold avb_1722_1_create_aecp_response_header. keeps_auto. Qed.
#[local] Hint Resolve same_acq_response_header : keeps.
Lemma same_acq_aem_response d st l : keeps same_acq (avb_1722_1_create_aecp_aem_response (D := D) d st l).
Proof. unfold avb_1722_1_create_aecp_aem_response. keeps_auto. Qed.
#[local] Hint Resolve same_acq_aem_response : keeps.

(** Descriptors. *)
Lemma same_acq_current_fields env t i : keeps same_acq (set_current_fields_in_descriptor (D := D) env t i).
Proof. unfold set_current_fields_in_descriptor. keeps_auto. Qed.
Lemma same_acq_scan n p i acc : keeps same_acq (scan_descriptors (D := D) n p i acc).
Proof. revert p acc. induction n; intros p acc; cbn [scan_descriptors]; unfold list_word, descriptor_index; keeps_auto. Qed.
#[local] Hint Resolve same_acq_current_fields same_acq_scan : keeps.
Lemma same_acq_find t i : keeps same_acq (find_descriptor (D := D) t i).
Proof. unfold find_descriptor, list_word. keeps_auto. Qed.
Lemma same_acq_template t i : keeps same_acq (generated_template (D := D) t i).
Proof. unfold generated_template. keeps_auto. Qed.
Lemma same_acq_fill env t i d : keeps same_acq (fill_template (D := D) env t i d).
Proof. unfold fill_template. keeps_auto. Qed.
Lemma same_acq_map i : keeps same_acq (build_audio_map (D := D) i).
Proof. unfold build_audio_map. keeps_auto. Qed.
Lemma same_acq_found env t i src size d : keeps same_acq (read_descriptor_found (D := D) env t i src size d).
Proof. unfold read_descriptor_found. keeps_auto. Qed.
Lemma same_acq_missing src : keeps same_acq (read_descriptor_missing (D := D) src).
Proof. unfold read_descriptor_missing. keeps_auto. Qed.
#[local] Hint Resolve same_acq_find same_acq_template same_acq_fill same_acq_map same_acq_found same_acq_missing : keeps.
Lemma same_acq_read_descriptor env src : keeps same_acq (read_descriptor (D := D) env src).
Proof. unfold read_descriptor, create_aem_read_descriptor_response, read_listed_descriptor. keeps_auto. Qed.

(** Packets of the acquisition, and upgrades. *)
Lemma same_acq_available_packet : keeps same_acq (avb_1722_1_create_controller_available_packet (D := D)).
Proof. unfold avb_1722_1_create_controller_available_packet. keeps_auto. Qed.
Lemma same_acq_acquire_packet st : keeps same_acq (avb_1722_1_create_acquire_response_packet (D := D) st).
Proof. unfold avb_1722_1_create_acquire_response_packet. keeps_auto. Qed.
Lemma same_acq_set_owner : keeps same_acq (set_owner_in_rx (D := D)).
Proof. unfold set_owner_in_rx. keeps_auto. Qed.
Lemma same_acq_write_page a d st : keeps same_acq (avb_write_upgrade_image_page (D := D) a d st).
Proof. unfold avb_write_upgrade_image_page. keeps_auto. Qed.
#[local] Hint Resolve same_acq_write_page : keeps.
Lemma same_acq_operation env src c : keeps same_acq (process_aem_cmd_start_abort_operation (D := D) env src c).
Proof.
  assert (keeps same_acq (modify (S := aecp D) (upd_operation_id (fun n => s32 (n + 1))))) by (by apply keeps_modify).
  unfold process_aem_cmd_start_abort_operation, operation_upload, operation_store, start_image, begin_write_upgrade_image.
  keeps_auto.
Qed.
Lemma same_acq_aa_write len : keeps same_acq (aa_write (D := D) len).
Proof.
  assert (forall to from n, keeps same_acq (aa_copy (D := D) to from n)).
  { intros. unfold aa_copy. keeps_auto. apply keeps_store. intros s s' H. apply bind_Some in H as (l & _ & [= <-]). done. }
  unfold aa_write, aa_round, aa_write_page. keeps_auto.
Qed.
Lemma same_acq_address_access src n : keeps same_acq (process_avb_1722_1_aecp_address_access_cmd (D := D) src n).
Proof. pose proof same_acq_aa_write. unfold process_avb_1722_1_aecp_address_access_cmd. keeps_auto. Qed.
Lemma same_acq_not_implemented src n : keeps same_acq (not_implemented (D := D) src n).
Proof. unfold not_implemented. keeps_auto. Qed.
Lemma same_acq_send_response n : keeps same_acq (send_response (D := D) n).
Proof. unfold send_response. keeps_auto. Qed.
Lemma same_acq_reboot : keeps same_acq (reboot_device (D := D)).
Proof. unfold reboot_device. keeps_auto. Qed.
#[local] Hint Resolve same_acq_read_descriptor same_acq_operation same_acq_not_implemented : keeps.

(** Every command but ACQUIRE_ENTITY. *)
Lemma same_acq_sized (m : SM Z) size : keeps handles m -> keeps same_acq (sized m size).
Proof. intros H%handles_same_acq. unfold sized. keeps_auto. Qed.
Lemma same_acq_command env src n c :
  c <> AECP_AEM_CMD_ACQUIRE_ENTITY -> keeps same_acq (aem_command (D := D) env src n c).
Proof.
  intros Hc. unfold aem_command. destruct (Z.eqb_spec c AECP_AEM_CMD_ACQUIRE_ENTITY); [done|].
  pose proof (handles_same_acq _ (handles_control (D := D) env c)).
  repeat match goal with
  | |- keeps _ (if ?b then _ else _) => destruct b
  | |- keeps _ (sized _ _) => apply same_acq_sized
  | |- keeps handles _ => first [apply handles_stream_info | apply handles_stream_format | apply handles_sampling_rate
      | apply handles_clock_source | apply handles_startstop | apply handles_signal_selector | apply handles_get_counters]
  end; keeps_auto.
Qed.
End SameAcq.

#[export] Hint Resolve handles_on_dev handles_get_rx same_acq_on_dev same_acq_get_rx same_acq_rx_write same_acq_tx_write
  same_acq_rx_read same_acq_tx_read same_acq_tx_header same_acq_out_event same_acq_put_upl same_acq_send same_acq_copy
  same_acq_response_header same_acq_aem_response same_acq_available_packet same_acq_acquire_packet same_acq_set_owner
  same_acq_address_access same_acq_send_response same_acq_reboot : keeps.

(** The fields of a state written out. *)
Ltac norm_aecp :=
  unfold upd_aecp_acq, upd_aecp_upl, upd_operation_id, upd_aecp_descriptors, upd_aecp_rx, upd_aecp_buf, upd_aecp_out,
    upd_aecp_dev in *;
  cbn [aecp_acq aecp_upl operation_id aecp_aem_state aecp_aem_lock_timer aecp_descriptors aecp_rx aecp_buf aecp_out
    aecp_dev] in *; cbv zeta.

(** ** Header fields *)

(** Whatever the byte was before. *)
Lemma set_command_type p v : 0 <= v < 16 -> Z.land (SET_BITS p 0 3 v) 0x0f = v.
Proof. rewrite SET_BITS_wrap. apply set_message_type, u8_range. Qed.

(** Status and length share a byte; [v] has both, the status in its upper bits. *)
Lemma status_and_length p v :
  0 <= v < 256 ->
  let b := SET_BITS (SET_BITS p 3 7 (u8 (v / 8))) 0 2 (v mod 8) in
  Z.shiftr (Z.land b 0xf8) 3 = v / 8 /\ Z.land b 0x7 = v mod 8.
Proof.
  intros Hv b. unfold b. rewrite (SET_BITS_wrap p). fold b. pose proof (u8_range p : byte_ok (u8 p)) as Hp.
  revert Hp. generalize (u8 p). clear b p. intros p Hp. set (b := SET_BITS (SET_BITS p _ _ _) _ _ _).
  assert ((Z.shiftr (Z.land b 0xf8) 3 =? v / 8) && (Z.land b 0x7 =? v mod 8) = true) as H.
  { revert Hp Hv. by apply (byte_cases 256 (fun p v =>
      let b := SET_BITS (SET_BITS p 3 7 (u8 (v / 8))) 0 2 (v mod 8) in
      (Z.shiftr (Z.land b 0xf8) 3 =? v / 8) && (Z.land b 0x7 =? v mod 8))); vm_compute. }
  apply andb_true_iff in H as [H1%Z.eqb_eq H2%Z.eqb_eq]. done.
Qed.

Lemma low_byte p v : 0 <= v < 256 -> SET_BITS p 0 7 v = v.
Proof.
  rewrite SET_BITS_wrap. intros Hv. pose proof (u8_range p : byte_ok (u8 p)) as Hp. apply Z.eqb_eq. revert Hp Hv. by apply (byte_cases 256 (fun p v => SET_BITS p 0 7 v =? v)); vm_compute.
Qed.

(** What a frame says: the fields of the packet in it. *)
Definition frame_packet (frame : list Z) : list Z := drop ethernet_hdr_size frame.
Definition frame_type (frame : list Z) : Z := GET_1722_1_MSG_TYPE (frame_packet frame).
Definition frame_status (frame : list Z) : Z := GET_1722_1_VALID_TIME (frame_packet frame).
Definition frame_length (frame : list Z) : Z := GET_1722_1_DATALENGTH (frame_packet frame).

Section Run.
Context {D : Type} `{cfg : Config} `{acfg : AcmpConfig} `{ecfg : AecpConfig}
  `{avb : !avb_interface D} `{cb : !control_callbacks D} `{fl : !flash_library D}.
Context (Hmac : length my_mac_addr = 6%nat).
Implicit Types s : aecp D.

(** The buffers, and the addresses saved. *)
Record aecp_ok s : Prop := {
  ok_buf : length (aecp_buf s) = AVB_1722_1_PACKET_SIZE;
  ok_acquired_mac : length (acquired_controller_mac (aecp_acq s)) = 6%nat;
  ok_pending_mac : length (pending_controller_mac (aecp_acq s)) = 6%nat;
}.
(** The header on an old buffer. *)
Definition header (dest : list Z) (mt st len : Z) (buf : list Z) : list Z :=
  avb_1722_1_create_1722_1_header dest DEFAULT_1722_1_AECP_SUBTYPE mt st len buf.

Lemma header_length dest mt st len buf : length dest = 6%nat -> length (header dest mt st len buf) = 18%nat.
Proof.
  intros Hd. unfold header, avb_1722_1_create_1722_1_header. rewrite !length_app, !length_take, Hd, Hmac. done.
Qed.

Lemma header_fields dest mt st len buf post :
  length dest = 6%nat -> 0 <= mt < 16 -> 0 <= st < 32 -> 0 <= len < 2048 ->
  let frame := header dest mt st len buf ++ post in
  take 6 frame = dest /\ frame_type frame = mt /\ frame_status frame = st /\ frame_length frame = len.
Proof.
  intros Hd Hmt Hst Hlen frame. unfold frame, frame_type, frame_status, frame_length, frame_packet, header.
  unfold avb_1722_1_create_1722_1_header. cbv zeta.
  set (x0 := SET_BITS (SET_BITS (buf !!! _) 7 7 1) 0 6 _).
  set (x1 := SET_BITS (SET_BITS (SET_BITS _ _ _ _) _ _ _) 0 3 mt).
  set (x2 := SET_BITS (SET_BITS (buf !!! _) 3 7 _) 0 2 _). set (x3 := SET_BITS _ 0 7 _).
  rewrite (take_ge dest), (take_ge my_mac_addr) by lia.
  assert (drop ethernet_hdr_size
    ((dest ++ my_mac_addr ++ [u8 (Z.shiftr ACMP_ETHERTYPE 8); Z.land ACMP_ETHERTYPE 255] ++ [x0; x1; x2; x3]) ++ post) =
    [x0; x1; x2; x3] ++ post) as ->.
  { rewrite <- !app_assoc. destruct_len dest Hd. pose proof Hmac as Hm. revert Hm.
    generalize my_mac_addr. intros mac Hm. by destruct_len mac Hm. }
  assert (x2 = SET_BITS (SET_BITS (buf !!! (ethernet_hdr_size + 2)%nat) 3 7 (u8 ((8 * st + len / 256) / 8))) 0 2 ((8 * st + len / 256) mod 8)) as E2.
  { assert (0 <= len / 256 < 8) by (split; [apply Z.div_pos; lia | apply Z.div_lt_upper_bound; lia]).
    unfold x2. rewrite shiftr_div by lia. change (2 ^ 8) with 256.
    rewrite (Z.mul_comm 8), Z.div_add_l, (Z.div_small (len / 256)), Z.add_0_r by lia.
    by rewrite (Z.add_comm (st * 8)), Z_mod_plus_full, (Z.mod_small (len / 256)) by lia. }
  assert (0 <= len / 256 < 8) as Hh by (split; [apply Z.div_pos; lia | apply Z.div_lt_upper_bound; lia]).
  destruct (status_and_length (buf !!! (ethernet_hdr_size + 2)%nat) (8 * st + len / 256)) as [E3 E4];
    [lia|]. rewrite <- E2 in E3, E4.
  assert ((8 * st + len / 256) / 8 = st) as E5 by (rewrite Z.mul_comm, Z.div_add_l, Z.div_small by lia; lia).
  assert ((8 * st + len / 256) mod 8 = len / 256) as E6
    by (rewrite (Z.mul_comm 8), Z.add_comm, Z_mod_plus_full; apply Z.mod_small; lia).
  split_and!.
  - by rewrite <- app_assoc, take_app_length'.
  - unfold GET_1722_1_MSG_TYPE. cbn. by apply set_command_type.
  - unfold GET_1722_1_VALID_TIME. cbn. by rewrite E3.
  - unfold GET_1722_1_DATALENGTH. cbn. rewrite E4, E6. unfold x3. rewrite land_255, low_byte by (apply Z.mod_pos_bound; lia).
    rewrite Z.shiftl_mul_pow2 by lia. pose proof (Z.div_mod len 256). lia.
Qed.

(** ** Steps on the buffers *)

Lemma bytes_at_app off n m l : bytes_at off n l ++ bytes_at (off + n) m l = bytes_at off (n + m) l.
Proof.
  unfold bytes_at. rewrite <- (take_drop n (take (n + m) (drop off l))), take_take, skipn_firstn_comm, drop_drop.
  by replace (n `min` (n + m))%nat with n by lia; replace (n + m - n)%nat with m by lia.
Qed.

Lemma get_rx_run s : (536 <= length (aecp_rx s))%nat -> get_rx s = Some (aecp_rx s, s).
Proof. intros H. unfold get_rx, load. by destruct (Nat.leb_spec 536 (length (aecp_rx s))); [|lia]. Qed.

Lemma rx_write_run off bs s :
  (off + length bs <= length (aecp_rx s))%nat ->
  rx_write off bs s = Some (tt, upd_aecp_rx (fun l => take off l ++ bs ++ drop (off + length bs) l) s).
Proof. intros H. unfold rx_write, store. by rewrite write_at_run. Qed.

(** The same, with what is in the field afterwards. *)
Lemma rx_field_run off bs s :
  (off + length bs <= length (aecp_rx s))%nat ->
  exists rx, rx_write off bs s = Some (tt, upd_aecp_rx (fun _ => rx) s) /\ length rx = length (aecp_rx s) /\
    take off rx = take off (aecp_rx s) /\ bytes_at off (length bs) rx = bs.
Proof.
  intros H. rewrite rx_write_run by done. eexists. split; [by destruct s|]. split_and!.
  - rewrite !length_app, length_take, length_drop. lia.
  - apply take_app_length'. rewrite length_take. lia.
  - apply bytes_at_written. lia.
Qed.

Lemma tx_write_run off bs s :
  (14 + off + length bs <= length (aecp_buf s))%nat ->
  tx_write off bs s = Some (tt, upd_aecp_buf (fun l => take (14 + off) l ++ bs ++ drop (14 + off + length bs) l) s).
Proof. intros H. unfold tx_write, store, ethernet_hdr_size. by rewrite write_at_run. Qed.

Lemma tx_header_run dest mt st len s :
  (18 <= length (aecp_buf s))%nat ->
  tx_header dest mt st len s =
    Some (tt, upd_aecp_buf (fun b => header dest mt st len b ++ drop 18 b) s).
Proof. intros H. unfold tx_header, store. by destruct (Nat.ltb_spec (length (aecp_buf s)) 18); [lia|]. Qed.

Lemma copy_run to from n s :
  0 <= n -> (from + Z.to_nat n <= length (aecp_rx s))%nat -> (14 + to + Z.to_nat n <= length (aecp_buf s))%nat ->
  copy_rx_tx to from n s =
    Some (tt, upd_aecp_buf (fun l => take (14 + to) l ++ bytes_at from (Z.to_nat n) (aecp_rx s) ++ drop (14 + to + Z.to_nat n) l) s).
Proof.
  intros Hn Hf Ht. unfold copy_rx_tx. destruct (Z.ltb_spec n 0); [lia|].
  assert (rx_read from (Z.to_nat n) s = Some (bytes_at from (Z.to_nat n) (aecp_rx s), s)) as E
    by (unfold rx_read, load; by rewrite read_at_run).
  erewrite M_bind_run by exact E. rewrite tx_write_run; rewrite bytes_at_length by done; done.
Qed.

Lemma eth_send_packet_run n s :
  0 <= n -> (Z.to_nat n <= length (aecp_buf s))%nat ->
  eth_send_packet n s = Some (tt, upd_aecp_out (fun l => l ++ [AecpTx (take (Z.to_nat n) (aecp_buf s))]) s).
Proof.
  intros Hn Hl. unfold eth_send_packet, load, mbind, M_bind. destruct (Z.ltb_spec n 0); [lia|].
  by rewrite read_at_run by done.
Qed.

(** The whole response: header, identification, and the beginning of the message. *)
Definition response (dest : list Z) (mt st len : Z) (n : nat) (rx buf : list Z) : list Z :=
  header dest mt st len buf ++ bytes_at off_target_guid (18 + n) rx ++ drop (36 + n) buf.

Lemma response_header_run dest st mt len s :
  length dest = 6%nat -> (36 <= length (aecp_buf s))%nat -> (22 <= length (aecp_rx s))%nat ->
  avb_1722_1_create_aecp_response_header dest st mt len s =
    Some (tt, upd_aecp_buf (response dest (mt + 1) st len 0 (aecp_rx s)) s).
Proof.
  intros Hd Hb Hr. unfold avb_1722_1_create_aecp_response_header.
  erewrite M_bind_run by (apply tx_header_run; lia).
  pose proof (header_length dest (mt + 1) st len (aecp_buf s) Hd) as Hh.
  rewrite copy_run; [|lia|cbn; lia|cbn [aecp_buf upd_aecp_buf]; rewrite length_app, length_drop, Hh; unfold off_target_guid; lia].
  destruct s as [acq upl op st' lock desc rx buf out dev]. norm_aecp. do 3 f_equal.
  unfold response. change (14 + off_target_guid)%nat with 18%nat. change (Z.to_nat 18) with 18%nat.
  rewrite take_app_length' by done. rewrite drop_app_ge, Hh, drop_drop by (rewrite Hh; lia). done.
Qed.

(** Copying more of the message behind the identification. *)
Lemma response_copy dest mt st len n rx buf :
  length dest = 6%nat -> (22 + n <= length rx)%nat -> (36 + n <= length buf)%nat ->
  take 36 (response dest mt st len 0 rx buf) ++ bytes_at 22 n rx ++ drop (36 + n) (response dest mt st len 0 rx buf) =
  response dest mt st len n rx buf.
Proof.
  intros Hd Hr Hb. unfold response. rewrite !Nat.add_0_r.
  pose proof (header_length dest mt st len buf Hd) as Hh.
  assert (length (bytes_at off_target_guid 18 rx) = 18%nat) as Hl by (apply bytes_at_length; unfold off_target_guid; lia).
  set (h := header dest mt st len buf) in *. set (b := bytes_at off_target_guid 18 rx) in *.
  assert (take 36 (h ++ b ++ drop 36 buf) = h ++ b) as ->
    by (rewrite app_assoc; apply take_app_length'; rewrite length_app; lia).
  assert (drop (36 + n) (h ++ b ++ drop 36 buf) = drop (36 + n) buf) as ->.
  { rewrite app_assoc, drop_app_ge, drop_drop by (rewrite length_app; lia). f_equal. rewrite length_app. lia. }
  rewrite <- app_assoc. f_equal. rewrite app_assoc. f_equal. apply (bytes_at_app off_target_guid 18 n).
Qed.

Lemma response_length dest mt st len n rx buf :
  length dest = 6%nat -> (22 + n <= length rx)%nat -> (36 + n <= length buf)%nat ->
  length (response dest mt st len n rx buf) = length buf.
Proof.
  intros Hd Hr Hb. unfold response.
  rewrite !length_app, header_length, bytes_at_length, length_drop by (unfold off_target_guid; lia || done). lia.
Qed.

(** The message is copied behind the header, whose buffer it lies in. *)
Lemma response_more_run dest mt st len m s :
  length dest = 6%nat -> 0 <= m -> (22 + Z.to_nat m <= length (aecp_rx s))%nat -> (36 + Z.to_nat m <= length (aecp_buf s))%nat ->
  copy_rx_tx AVB_1722_1_AECP_PAYLOAD_OFFSET AVB_1722_1_AECP_PAYLOAD_OFFSET m
    (upd_aecp_buf (response dest mt st len 0 (aecp_rx s)) s) =
    Some (tt, upd_aecp_buf (response dest mt st len (Z.to_nat m) (aecp_rx s)) s).
Proof.
  intros Hd Hm Hr Hb. destruct s as [acq upl op st' lock desc rx buf out dev]. cbn [aecp_buf aecp_rx] in *.
  pose proof (response_length dest mt st len 0 rx buf Hd) as Hl.
  rewrite copy_run; cbn [aecp_buf aecp_rx upd_aecp_buf]; unfold AVB_1722_1_AECP_PAYLOAD_OFFSET in *; [|lia|lia|rewrite Hl; lia].
  norm_aecp. do 3 f_equal. by apply (response_copy dest mt st len (Z.to_nat m)).
Qed.

Lemma aem_response_run dest st n s :
  length dest = 6%nat -> 0 <= n -> (24 + Z.to_nat n <= length (aecp_rx s))%nat ->
  (38 + Z.to_nat n <= length (aecp_buf s))%nat ->
  avb_1722_1_create_aecp_aem_response dest st n s =
    Some (tt, upd_aecp_buf (response dest 1 st (n + 12) (2 + Z.to_nat n) (aecp_rx s)) s).
Proof.
  intros Hd Hn Hr Hb. unfold avb_1722_1_create_aecp_aem_response, AECP_CMD_AEM_COMMAND.
  erewrite M_bind_run by (apply response_header_run; [done|lia|lia]).
  rewrite response_more_run by (lia || done). by replace (Z.to_nat (n + 2)) with (2 + Z.to_nat n)%nat by lia.
Qed.

(** What a response says. *)
Record answers (src pkt : list Z) (status : Z) (n : nat) (frame : list Z) : Prop := {
  an_dest : take 6 frame = src;
  an_type : frame_type frame = 1;
  an_status : frame_status frame = status;
  an_identification : bytes_at off_target_guid 18 (frame_packet frame) = bytes_at off_target_guid 18 pkt;
  an_message : bytes_at AVB_1722_1_AECP_PAYLOAD_OFFSET n (frame_packet frame) = bytes_at AVB_1722_1_AECP_PAYLOAD_OFFSET n pkt;
}.

Lemma response_answers dest st len n m rx buf :
  length dest = 6%nat -> 0 <= st < 32 -> 0 <= len < 2048 ->
  (22 + n <= length rx)%nat -> (36 + n <= length buf)%nat -> (36 + n <= m)%nat ->
  answers dest rx st n (take m (response dest 1 st len n rx buf)) /\
  frame_length (take m (response dest 1 st len n rx buf)) = len.
Proof.
  intros Hd Hst Hlen Hr Hb Hm. pose proof (header_length dest 1 st len buf Hd) as Hh.
  assert (length (bytes_at off_target_guid (18 + n) rx) = (18 + n)%nat) as Hl by (apply bytes_at_length; unfold off_target_guid; lia).
  assert (take m (response dest 1 st len n rx buf) =
    header dest 1 st len buf ++ bytes_at off_target_guid (18 + n) rx ++ take (m - 36 - n) (drop (36 + n) buf)) as E.
  { unfold response. rewrite take_app_ge, Hh by lia. rewrite take_app_ge, Hl by lia.
    do 3 f_equal. lia. }
  rewrite E. destruct (header_fields dest 1 st len buf
    (bytes_at off_target_guid (18 + n) rx ++ take (m - 36 - n) (drop (36 + n) buf)) Hd) as (H1 & H2 & H3 & H4); try lia.
  split; [|done]. constructor; try done.
  - unfold frame_packet. rewrite (drop_app_le (header _ _ _ _ _)) by (rewrite Hh; unfold ethernet_hdr_size; lia).
    assert (length (drop ethernet_hdr_size (header dest 1 st len buf)) = 4%nat) as Hd4
      by (rewrite length_drop, Hh; done).
    etrans; [exact (bytes_at_skip 4 0 18 _ _ Hd4)|].
    rewrite <- (bytes_at_app off_target_guid 18 n), <- app_assoc. unfold bytes_at at 1. rewrite drop_0.
    apply take_app_length'. rewrite bytes_at_length; unfold off_target_guid; lia.
  - unfold frame_packet. rewrite (drop_app_le (header _ _ _ _ _)) by (rewrite Hh; unfold ethernet_hdr_size; lia).
    assert (length (drop ethernet_hdr_size (header dest 1 st len buf)) = 4%nat) as Hd4
      by (rewrite length_drop, Hh; done).
    etrans; [exact (bytes_at_skip 4 18 n _ _ Hd4)|].
    rewrite <- (bytes_at_app off_target_guid 18 n), <- app_assoc.
    assert (length (bytes_at off_target_guid 18 rx) = 18%nat) as H18 by (apply bytes_at_length; unfold off_target_guid; lia).
    etrans; [exact (bytes_at_skip 18 0 n _ _ H18)|].
    unfold bytes_at at 1. rewrite drop_0. apply take_app_length'. rewrite bytes_at_length; unfold AVB_1722_1_AECP_PAYLOAD_OFFSET, off_target_guid; lia.
Qed.

Definition status_ok (st : Z) : Prop := 0 <= st < 32.

(** A command's work: where the answer is still to be sent, and what it may have done. *)
Record worked (s s' : aecp D) : Prop := {
  w_ok : aecp_ok s -> aecp_ok s';
  w_rx_length : length (aecp_rx s') = length (aecp_rx s);
  w_rx : take off_args (aecp_rx s') = take off_args (aecp_rx s);
}.

Lemma handles_worked s s' : handles s s' -> worked s s'.
Proof. intros [Ha Hu Hb Ho Hl Hr]. constructor; [|done|done]. intros [H1 H2 H3]. constructor; congruence. Qed.

(** ** Packets built behind a header *)

Lemma tx_write_field off bs s h p :
  aecp_buf s = h ++ p -> length h = 18%nat -> (4 <= off)%nat -> (off + length bs <= 4 + length p)%nat ->
  tx_write off bs s = Some (tt, upd_aecp_buf (fun _ => h ++ take (off - 4) p ++ bs ++ drop (off - 4 + length bs) p) s).
Proof.
  intros Hb Hh Hoff Hl. rewrite tx_write_run by (rewrite Hb, length_app; lia).
  destruct s. norm_aecp. subst. do 3 f_equal.
  rewrite take_app_ge, drop_app_ge, <- app_assoc by lia. do 2 f_equal; [f_equal; lia|]. do 2 f_equal. lia.
Qed.

Lemma tx_write_next off bs s h p :
  aecp_buf s = h ++ p -> length h = 18%nat -> (4 <= off)%nat -> (off + length bs <= 4 + length p)%nat ->
  exists p', tx_write off bs s = Some (tt, upd_aecp_buf (fun _ => h ++ p') s) /\ length p' = length p.
Proof.
  intros Hb Hh Hoff Hl. eexists. split; [by apply tx_write_field|]. rewrite !length_app, length_take, length_drop. lia.
Qed.

Lemma tx_read_run off n s : (14 + off + n <= length (aecp_buf s))%nat -> exists bs, tx_read off n s = Some (bs, s).
Proof. intros H. unfold tx_read, load, ethernet_hdr_size. rewrite read_at_run by lia. by eexists. Qed.

(** The command type in what follows the header of 18 bytes. *)
Definition command_in (p : list Z) : Z := Z.lor (Z.shiftl (Z.land (p !!! 18%nat) 0x7f) 8) (p !!! 19%nat).

(** A type of one byte is what is read back, whatever the buffer held. *)
Lemma command_written old c :
  0 <= c < 256 ->
  Z.lor (Z.shiftl (Z.land (AEM_MSG_SET_U_FLAG (AEM_MSG_SET_COMMAND_TYPE old c !!! 0%nat) 0) 0x7f) 8) (Z.land c 0xff) = c.
Proof.
  intros Hc. unfold AEM_MSG_SET_COMMAND_TYPE, AEM_MSG_SET_U_FLAG. cbn [lookup_total list_lookup_total].
  rewrite (Z.shiftr_div_pow2 c 8), Z.div_small by lia. change (Z.land 0 0x7f) with 0. change (Z.land (Z.shiftl 0 7) 0x80) with 0.
  rewrite !Z.lor_0_r, <- !Z.land_assoc. change (Z.land 0x80 (Z.land 0x7f 0x7f)) with 0. rewrite Z.land_0_r. change 0xff with (Z.ones 8). rewrite Z.land_ones, Z.mod_small by lia. done.
Qed.

(** Command type and flag, which both packets of the acquisition end with. *)
Lemma set_command_run c s h p :
  aecp_buf s = h ++ p -> length h = 18%nat -> (20 <= length p)%nat -> 0 <= c < 256 ->
  exists p', length p' = length p /\ command_in p' = c /\
    (old ← tx_read 22 1; _ ← tx_write 22 (AEM_MSG_SET_COMMAND_TYPE (old !!! 0%nat) c);
     old ← tx_read 22 1; tx_write 22 [AEM_MSG_SET_U_FLAG (old !!! 0%nat) 0]) s =
      Some (tt, upd_aecp_buf (fun _ => h ++ p') s).
Proof.
  intros Hb Hh Hp Hc. destruct (tx_read_run 22 1 s) as [b1 E1]; [rewrite Hb, length_app; lia|].
  erewrite M_bind_run by exact E1. set (new := AEM_MSG_SET_COMMAND_TYPE (b1 !!! 0%nat) c).
  assert (length (take 18 p) = 18%nat) as Ht by (rewrite length_take; lia).
  erewrite M_bind_run by (apply (tx_write_field 22 new s h p Hb Hh); cbn; lia).
  change (22 - 4)%nat with 18%nat. change (18 + length new)%nat with 20%nat. set (s1 := upd_aecp_buf _ s).
  assert (aecp_buf s1 = h ++ take 18 p ++ new ++ drop 20 p) as Hb1 by (by destruct s).
  assert (tx_read 22 1 s1 = Some ([new !!! 0%nat], s1)) as E3.
  { unfold tx_read, load, read_at. rewrite Hb1, !length_app, Hh, Ht, length_drop.
    destruct (Nat.leb_spec (ethernet_hdr_size + 22 + 1) (18 + (18 + (length new + (length p - 20))))); [|cbn in *; lia].
    unfold bytes_at. change (ethernet_hdr_size + 22)%nat with (18 + 18)%nat.
    rewrite <- drop_drop, drop_app_length', drop_app_length' by done. reflexivity. }
  erewrite M_bind_run by exact E3. change ([new !!! 0%nat] !!! 0%nat) with (new !!! 0%nat).
  rewrite (tx_write_field 22 _ s1 h _ Hb1 Hh) by (rewrite ?length_app, ?Ht; cbn; lia).
  change (22 - 4)%nat with 18%nat. cbn [length Nat.add]. eexists. split; [|split; [|unfold s1; by destruct s]].
  - rewrite !length_app, length_take, length_drop, !length_app, Ht, length_drop. cbn. lia.
  - unfold command_in. rewrite (take_app_length' (take 18 p)) by done.
    assert (drop (18 + 1) (take 18 p ++ new ++ drop 20 p) = drop 1 (new ++ drop 20 p)) as Hd
      by (by rewrite <- drop_drop, (drop_app_length' (take 18 p))).
    cbn [Nat.add] in Hd. rewrite Hd.
    rewrite (lookup_total_app_r (take 18 p) _ 18), (lookup_total_app_r (take 18 p) _ 19) by lia. rewrite Ht. by apply (command_written (b1 !!! 0%nat)).
Qed.
End Run.
