(* ===== verification/AecpAnswer.v ===== *)
(** AECP: every command of a controller has one answer. *)
From S2P Require Import Prelude Bytes MiscTimer MrpTypes AvbApi AvbUtil AcmpTypes AcmpSpec AecpTypes AecpControls Aecp AecpRun.
From stdpp Require Import base list list_numbers numbers option.
From Stdlib Require Import ZArith Lia.
#[local] Open Scope Z_scope.

(** ** Results of handlers *)

(** Whatever a computation returns satisfies [P]. *)
Definition yields {S A} (P : A -> Prop) (m : M S A) : Prop := forall s a s', m s = Some (a, s') -> P a.

Lemma yields_ret {S A} (P : A -> Prop) (a : A) : P a -> yields P (mret (M := M S) a).
Proof. intros H s a' s' E. cbv in E. by simplify_eq. Qed.
Lemma yields_trap {S A} (P : A -> Prop) : yields P (@trap S A).
Proof. done. Qed.
Lemma yields_bind {S A B} (P : B -> Prop) (m : M S A) (k : A -> M S B) :
  (forall a, yields P (k a)) -> yields P (m ≫= k).
Proof. intros H s b s' (a & s1 & _ & E)%M_bind_Some. by eapply H. Qed.

Ltac yields_auto := repeat match goal with
  | |- yields _ (_ ≫= _) => apply yields_bind; intros ?
  | |- yields _ (mret _) => apply yields_ret
  | |- yields _ trap => apply yields_trap
  | |- yields _ (if ?b then _ else _) => destruct b
  | |- yields _ (match ?x with _ => _ end) => destruct x
  end.

(** A response of a handler fits into the transmit buffer. *)
Definition response_fits (r : aem_result) : Prop :=
  match r with Answered => True | Respond st n _ => status_ok st /\ 0 < n <= 512 end.

Section Answer.
Context {D : Type} `{cfg : Config} `{acfg : AcmpConfig} `{ecfg : AecpConfig}
  `{laws : AvbInterfaceLaws D} `{cb : !control_callbacks D} `{fl : !flash_library D}.
Context (Hmac : length my_mac_addr = 6%nat).
Implicit Types s : aecp D.

(** ** The end of a command *)

Definition respond (src_addr : list Z) (status cd_len : Z) (reboot : bool) : M (aecp D) unit :=
  _ ← whenM (0 <? cd_len) (avb_1722_1_create_aecp_aem_response src_addr status cd_len);
  _ ← send_response cd_len;
  whenM reboot reboot_device.

Definition response_frame (src : list Z) (st n : Z) (rx buf : list Z) : list Z :=
  take (Z.to_nat (Z.max 64 (n + 38))) (response src 1 st (n + 12) (2 + Z.to_nat n) rx buf).

Lemma respond_run src st n reboot s :
  length src = 6%nat -> 0 < n <= 512 -> (536 <= length (aecp_rx s))%nat -> length (aecp_buf s) = AVB_1722_1_PACKET_SIZE ->
  exists s', respond src st n reboot s = Some (tt, s') /\ aecp_acq s' = aecp_acq s /\ aecp_dev s' = aecp_dev s /\
    aecp_buf s' = response src 1 st (n + 12) (2 + Z.to_nat n) (aecp_rx s) (aecp_buf s) /\
    aecp_out s' = aecp_out s ++ [AecpTx (response_frame src st n (aecp_rx s) (aecp_buf s))] ++
      (if reboot then [AdpDepartImmediately; DeviceReboot] else []).
Proof.
  intros Hsrc Hn Hrx Hbuf. unfold AVB_1722_1_PACKET_SIZE in Hbuf. unfold respond. destruct (Z.ltb_spec 0 n); [cbn [whenM]|lia].
  assert (Z.to_nat n <= 512)%nat as Hnn by lia.
  erewrite M_bind_run by (apply (aem_response_run Hmac); lia).
  set (s1 := upd_aecp_buf _ s).
  assert (length (aecp_buf s1) = 552%nat) as Hb1.
  { unfold s1. destruct s. norm_aecp. rewrite (response_length Hmac) by lia. done. }
  unfold send_response. destruct (Z.ltb_spec 0 n); [cbn [whenM]|lia].
  change (Z.of_nat AVB_1722_1_AECP_PAYLOAD_OFFSET) with 22. change (Z.of_nat ethernet_hdr_size) with 14.
  replace (n + 2 + 22 + 14) with (n + 38) by lia.
  erewrite M_bind_run by (apply eth_send_packet_run; lia).
  destruct s as [acq upl op st' lock desc rx buf out dev]. unfold s1 in *. norm_aecp.
  destruct reboot; cbn [whenM]; eexists; (split; [reflexivity|]); norm_aecp; split_and!; try done.
  all: by rewrite <- ?app_assoc.
Qed.

Lemma respond_answers src pkt st n rx buf :
  length src = 6%nat -> length buf = AVB_1722_1_PACKET_SIZE -> (536 <= length rx)%nat ->
  status_ok st -> 0 < n <= 512 -> take off_args rx = take off_args pkt ->
  answers src pkt st 2 (response_frame src st n rx buf) /\ frame_length (response_frame src st n rx buf) = n + 12.
Proof.
  intros Hsrc Hbl Hrx Hst Hn Hsame. unfold AVB_1722_1_PACKET_SIZE in Hbl.
  destruct (response_answers Hmac src st (n + 12) (2 + Z.to_nat n) (Z.to_nat (Z.max 64 (n + 38))) rx buf) as [[H1 H2 H3 H4 H5] H6];
    try done; try lia.
  split; [|done]. constructor; try done; unfold response_frame.
  - rewrite H4. apply (same_bytes _ _ off_args); [done|unfold off_target_guid, off_args; lia].
  - etrans; [|apply (same_bytes AVB_1722_1_AECP_PAYLOAD_OFFSET 2 off_args); [exact Hsame|unfold AVB_1722_1_AECP_PAYLOAD_OFFSET, off_args; lia]].
    assert (forall l, bytes_at AVB_1722_1_AECP_PAYLOAD_OFFSET 2 l = take 2 (bytes_at AVB_1722_1_AECP_PAYLOAD_OFFSET (2 + Z.to_nat n) l)) as Et
      by (intros; unfold bytes_at; rewrite take_take; f_equal; lia).
    rewrite !Et. rewrite H5. done.
Qed.

(** The response carries the beginning of the packet the handler has left. *)
Lemma response_frame_message src st n rx buf i k :
  length src = 6%nat -> length buf = AVB_1722_1_PACKET_SIZE -> (536 <= length rx)%nat -> status_ok st -> 0 < n <= 512 ->
  (i + k <= 2 + Z.to_nat n)%nat ->
  bytes_at (AVB_1722_1_AECP_PAYLOAD_OFFSET + i) k (frame_packet (response_frame src st n rx buf)) =
  bytes_at (AVB_1722_1_AECP_PAYLOAD_OFFSET + i) k rx.
Proof.
  intros Hsrc Hb Hr Hst Hn Hi. unfold AVB_1722_1_PACKET_SIZE in Hb. unfold response_frame.
  destruct (response_answers Hmac src st (n + 12) (2 + Z.to_nat n) (Z.to_nat (Z.max 64 (n + 38))) rx buf) as [[_ _ _ _ Hm] _];
    [done|done|lia|lia|lia|lia|].
  by apply (bytes_at_inner AVB_1722_1_AECP_PAYLOAD_OFFSET _ _ _ i k) in Hm.
Qed.

(** ** Handlers *)

Lemma status_stream_format c : yields status_ok (process_aem_cmd_getset_stream_format (D := D) c).
Proof. unfold process_aem_cmd_getset_stream_format. yields_auto; split; by vm_compute. Qed.
Lemma status_stream_info c : yields status_ok (process_aem_cmd_getset_stream_info (D := D) c).
Proof. unfold process_aem_cmd_getset_stream_info. cbv zeta. yields_auto; split; by vm_compute. Qed.
Lemma status_startstop c : yields status_ok (process_aem_cmd_startstop_streaming (D := D) c).
Proof. unfold process_aem_cmd_startstop_streaming. yields_auto; split; by vm_compute. Qed.
Lemma status_sampling_rate c : yields status_ok (process_aem_cmd_getset_sampling_rate (D := D) c).
Proof. unfold process_aem_cmd_getset_sampling_rate, set_clock. yields_auto; split; by vm_compute. Qed.
Lemma status_clock_source c : yields status_ok (process_aem_cmd_getset_clock_source (D := D) c).
Proof. unfold process_aem_cmd_getset_clock_source, set_clock. yields_auto; split; by vm_compute. Qed.
Lemma status_get_counters : yields status_ok (process_aem_cmd_get_counters (D := D)).
Proof. unfold process_aem_cmd_get_counters. yields_auto; split; by vm_compute. Qed.

Lemma sized_result (m : M (aecp D) Z) size s :
  is_Some (m s) -> keeps handles m -> yields status_ok m ->
  exists st s', sized m size s = Some (Respond st size false, s') /\ handles s s' /\ status_ok st.
Proof.
  intros [[st s'] E] Hk Hy. exists st, s'. split; [|by split; [eapply Hk | eapply Hy]].
  unfold sized. by erewrite M_bind_run by exact E.
Qed.

(** The device has the streams and clocks it is configured for. *)
Record device_ok (d : D) : Prop := {
  dev_sources : length (sources_of d) = AVB_NUM_SOURCES;
  dev_sinks : length (sinks_of d) = AVB_NUM_SINKS;
  dev_clocks : length (clocks_of d) = AVB_NUM_MEDIA_CLOCKS;
}.

Lemma elem_at_lt {A} (l : list A) i : 0 <= i < Z.of_nat (length l) -> exists x, elem_at l i = Some x.
Proof.
  intros Hi. destruct (lookup_lt_is_Some_2 l (Z.to_nat i)) as [x E]; [lia|]. exists x. apply elem_at_lookup. split; [lia|done].
Qed.

Lemma on_dev_read {A} (m : M D A) s a : m (aecp_dev s) = Some (a, aecp_dev s) -> on_dev m s = Some (a, s).
Proof. intros H. unfold on_dev. rewrite H. by destruct s. Qed.

Lemma rx_short_run off s : (536 <= length (aecp_rx s))%nat -> rx_short off s = Some (short_at off (aecp_rx s), s).
Proof. intros H. unfold rx_short. by erewrite M_bind_run by (by apply get_rx_run). Qed.

Lemma short_at_range off l : 0 <= short_at off l < 65536.
Proof. apply u16_range. Qed.

(** The record a command names. *)
Definition named_stream (d : D) (desc_type i : Z) : option stream_record :=
  if (desc_type =? AEM_STREAM_INPUT_TYPE) && (i <? Z.of_nat AVB_NUM_SINKS) then SinkRecord <$> elem_at (sinks_of d) i
  else if (desc_type =? AEM_STREAM_OUTPUT_TYPE) && (i <? Z.of_nat AVB_NUM_SOURCES)
  then SourceRecord <$> elem_at (sources_of d) i
  else None.

Lemma find_stream_run t i s :
  device_ok (aecp_dev s) -> 0 <= i -> find_stream t i s = Some (named_stream (aecp_dev s) t i, s).
Proof.
  intros [Hso Hsi _] Hi. unfold find_stream, named_stream.
  destruct (_ && (i <? Z.of_nat AVB_NUM_SINKS)) eqn:E1.
  - apply andb_true_iff in E1 as [_ E1%Z.ltb_lt]. destruct (elem_at_lt (sinks_of (aecp_dev s)) i) as [x Hx]; [lia|].
    erewrite M_bind_run by (apply on_dev_read; by apply law_get_sink). by rewrite Hx.
  - destruct (_ && (i <? Z.of_nat AVB_NUM_SOURCES)) eqn:E2; [|done].
    apply andb_true_iff in E2 as [_ E2%Z.ltb_lt]. destruct (elem_at_lt (sources_of (aecp_dev s)) i) as [x Hx]; [lia|].
    erewrite M_bind_run by (apply on_dev_read; by apply law_get_source). by rewrite Hx.
Qed.

(** A handler begins by reading the packet and looking up the stream. *)
Lemma get_stream_format_runs s :
  device_ok (aecp_dev s) -> (536 <= length (aecp_rx s))%nat ->
  is_Some (process_aem_cmd_getset_stream_format AECP_AEM_CMD_GET_STREAM_FORMAT s).
Proof.
  intros Hd Hr. unfold process_aem_cmd_getset_stream_format. do 2 erewrite M_bind_run by (by apply rx_short_run).
  erewrite M_bind_run by (apply find_stream_run; [done|apply short_at_range]).
  destruct (named_stream _ _ _) as [x|]; [|by eexists]. cbv match.
  change (AECP_AEM_CMD_GET_STREAM_FORMAT =? AECP_AEM_CMD_GET_STREAM_FORMAT) with true. cbv iota.
  erewrite M_bind_run by (apply rx_write_run; cbn [length get_stream_format_field]; unfold off_args; lia). by eexists.
Qed.

Lemma stream_info_fields_length x b : (length (stream_info_fields x b) <= 44)%nat.
Proof.
  unfold stream_info_fields. cbv zeta. rewrite !length_app, !length_take. cbn [length hton_32 hton_16 get_stream_format_field].
  lia.
Qed.

Lemma set_record_runs i x y s :
  device_ok (aecp_dev s) -> 0 <= i -> named_stream (aecp_dev s) (match x with SinkRecord _ => AEM_STREAM_INPUT_TYPE
    | SourceRecord _ => AEM_STREAM_OUTPUT_TYPE end) i = Some x ->
  match x, y with
  | SinkRecord a, SinkRecord b => st_state (si_stream a) = 0 /\ st_state (si_stream b) = 0
  | SourceRecord a, SourceRecord b => st_state (so_stream a) = st_state (so_stream b)
  | _, _ => False
  end -> is_Some (set_record i y s).
Proof.
  intros Hd Hi Hx Hxy. destruct x as [a|a], y as [b|b]; try done; unfold named_stream in Hx; cbn in Hx.
  - destruct (i <? Z.of_nat AVB_NUM_SINKS); [|done]. apply fmap_Some in Hx as (? & Hx & [= <-]).
    destruct (law_set_sink (aecp_dev s) i a b Hx) as (d' & E & _); [tauto|tauto|].
    unfold set_record, on_dev. by rewrite E; eexists.
  - destruct (i <? Z.of_nat AVB_NUM_SOURCES); [|done]. apply fmap_Some in Hx as (? & Hx & [= <-]).
    destruct (law_set_source (aecp_dev s) i a b Hx) as (d' & E & _); [done|].
    unfold set_record, on_dev. by rewrite E; eexists.
Qed.

Lemma named_stream_kind d t i x :
  named_stream d t i = Some x ->
  named_stream d (match x with SinkRecord _ => AEM_STREAM_INPUT_TYPE | SourceRecord _ => AEM_STREAM_OUTPUT_TYPE end) i = Some x.
Proof.
  unfold named_stream. destruct (Z.eqb_spec t AEM_STREAM_INPUT_TYPE) as [->|].
  - change (AEM_STREAM_INPUT_TYPE =? AEM_STREAM_OUTPUT_TYPE) with false.
    destruct (i <? Z.of_nat AVB_NUM_SINKS) eqn:E; cbn [andb]; [|done].
    destruct (elem_at _ _) eqn:E1; [|done]. by intros [= <-].
  - cbn [andb]. destruct (Z.eqb_spec t AEM_STREAM_OUTPUT_TYPE) as [->|]; cbn [andb]; [|done].
    destruct (i <? Z.of_nat AVB_NUM_SOURCES) eqn:E; [|done].
    destruct (elem_at _ _) eqn:E1; [|done]. by intros [= <-].
Qed.

Lemma stream_info_runs c s :
  device_ok (aecp_dev s) -> (536 <= length (aecp_rx s))%nat -> is_Some (process_aem_cmd_getset_stream_info c s).
Proof.
  intros Hd Hr. unfold process_aem_cmd_getset_stream_info. do 2 erewrite M_bind_run by (by apply rx_short_run).
  set (i := short_at off_desc_id (aecp_rx s)). set (t := short_at off_desc_type (aecp_rx s)).
  pose proof (short_at_range off_desc_id (aecp_rx s)) as Hi. fold i in Hi.
  erewrite M_bind_run by (apply find_stream_run; [done|apply Hi]).
  destruct (named_stream _ t i) as [x|] eqn:Ex; [|by eexists]. cbv match.
  erewrite M_bind_run by (by apply get_rx_run).
  destruct (c =? AECP_AEM_CMD_GET_STREAM_INFO).
  - pose proof (stream_info_fields_length x (aecp_rx s !!! 59%nat)).
    erewrite M_bind_run by (apply rx_write_run; unfold off_args; lia). by eexists.
  - destruct (Z.eqb_spec (st_state (record_stream x)) 0) as [H0|]; [|by eexists]. cbn [negb]. cbv zeta.
    match goal with |- is_Some ((set_record i ?y ≫= _) s) => destruct (set_record_runs i x y s Hd (proj1 Hi)) as [[u s'] E] end.
    + by apply named_stream_kind in Ex.
    + destruct (truthy _); destruct x; cbn in *; split_and?; done.
    + erewrite M_bind_run by exact E. by eexists.
Qed.

Lemma get_clock_runs {A} (f : media_clock_info_t -> A) i s :
  device_ok (aecp_dev s) -> 0 <= i -> exists o, on_dev (get_clock_with f i) s = Some (o, s).
Proof.
  intros [_ _ Hc] Hi. unfold get_clock_with. destruct (Z.leb_spec (Z.of_nat AVB_NUM_MEDIA_CLOCKS) i) as [|Hlt].
  - exists None. by apply on_dev_read.
  - destruct (elem_at_lt (clocks_of (aecp_dev s)) i) as [x Hx]; [lia|]. exists (Some (f x)). apply on_dev_read.
    by erewrite M_bind_run by (by apply law_get_clock).
Qed.

Lemma get_sampling_rate_runs s :
  device_ok (aecp_dev s) -> (536 <= length (aecp_rx s))%nat ->
  is_Some (process_aem_cmd_getset_sampling_rate AECP_AEM_CMD_GET_SAMPLING_RATE s).
Proof.
  intros Hd Hr. unfold process_aem_cmd_getset_sampling_rate. erewrite M_bind_run by (by apply rx_short_run).
  change (AECP_AEM_CMD_GET_SAMPLING_RATE =? AECP_AEM_CMD_GET_SAMPLING_RATE) with true. cbv iota.
  destruct (get_clock_runs mc_rate (short_at off_desc_id (aecp_rx s)) s Hd) as [o E]; [apply short_at_range|].
  unfold get_device_media_clock_rate. erewrite M_bind_run by exact E. destruct o; [|by eexists].
  erewrite M_bind_run by (apply rx_write_run; cbn [length hton_32]; unfold off_args; lia). by eexists.
Qed.

Lemma get_clock_source_runs s :
  device_ok (aecp_dev s) -> (536 <= length (aecp_rx s))%nat ->
  is_Some (process_aem_cmd_getset_clock_source AECP_AEM_CMD_GET_CLOCK_SOURCE s).
Proof.
  intros Hd Hr. unfold process_aem_cmd_getset_clock_source. erewrite M_bind_run by (by apply rx_short_run).
  change (AECP_AEM_CMD_GET_CLOCK_SOURCE =? AECP_AEM_CMD_GET_CLOCK_SOURCE) with true. cbv iota.
  destruct (get_clock_runs mc_clock_type (short_at off_desc_id (aecp_rx s)) s Hd) as [o E]; [apply short_at_range|].
  unfold get_device_media_clock_type. erewrite M_bind_run by exact E. destruct o; [|by eexists].
  erewrite M_bind_run by (apply rx_write_run; cbn [length hton_16]; unfold off_args; lia). by eexists.
Qed.

(** Writing into the packet keeps its length. *)
Lemma rx_write_next off bs s :
  (off + length bs <= length (aecp_rx s))%nat ->
  exists s', rx_write off bs s = Some (tt, s') /\ length (aecp_rx s') = length (aecp_rx s).
Proof.
  intros H. rewrite rx_write_run by done. eexists. split; [done|]. destruct s. norm_aecp.
  rewrite !length_app, length_take, length_drop. lia.
Qed.

Lemma get_counters_runs s :
  device_ok (aecp_dev s) -> (536 <= length (aecp_rx s))%nat -> is_Some (process_aem_cmd_get_counters s).
Proof.
  intros [_ _ Hc] Hr. unfold process_aem_cmd_get_counters. do 2 erewrite M_bind_run by (by apply rx_short_run).
  pose proof (short_at_range off_desc_id (aecp_rx s)) as Hi. revert Hi. generalize (short_at off_desc_id (aecp_rx s)). intros i Hi.
  destruct (_ =? AEM_CLOCK_DOMAIN_TYPE); [|by eexists]. destruct (Z.ltb_spec i (Z.of_nat AVB_NUM_MEDIA_CLOCKS)); [|by eexists].
  destruct (elem_at_lt (clocks_of (aecp_dev s)) i) as [x Hx]; [lia|].
  erewrite M_bind_run by (apply on_dev_read; by apply law_get_clock).
  destruct (rx_write_next off_args (hton_32 (Z.lor 1 2)) s) as (s1 & E1 & L1); [cbn [length hton_32]; unfold off_args; lia|].
  erewrite M_bind_run by exact E1.
  destruct (rx_write_next (off_args + 4) (replicate 128 0) s1) as (s2 & E2 & L2);
    [rewrite length_replicate; unfold off_args; lia|].
  erewrite M_bind_run by exact E2.
  destruct (rx_write_next (off_args + 4 + 0) (hton_32 (mc_lock_counter x)) s2) as (s3 & E3 & L3);
    [cbn [length hton_32]; unfold off_args; lia|].
  erewrite M_bind_run by exact E3.
  destruct (rx_write_next (off_args + 4 + 4) (hton_32 (mc_unlock_counter x)) s3) as (s4 & E4 & L4);
    [cbn [length hton_32]; unfold off_args; lia|].
  erewrite M_bind_run by exact E4. by eexists.
Qed.

(** ** A command arrives *)

(** A command for this device. *)
Record aem_packet (c : Z) (pkt : list Z) : Prop := {
  ap_length : (536 <= length pkt)%nat;
  ap_type : GET_1722_1_MSG_TYPE pkt = AECP_CMD_AEM_COMMAND;
  ap_command : AEM_MSG_GET_COMMAND_TYPE pkt = c;
  ap_target : compare_guid (bytes_at off_target_guid 8 pkt) my_guid = true;
}.

Definition finish (src_addr : list Z) (r : aem_result) : M (aecp D) unit :=
  match r with Answered => skip | Respond status cd_len reboot => respond src_addr status cd_len reboot end.

Lemma receive_command_run env src n c pkt s :
  AVB_1722_1_AEM_ENABLED = true -> aem_packet c pkt ->
  receive_aecp env src n pkt s = (aem_command env src n c ≫= finish src) (upd_aecp_rx (fun _ => pkt) s).
Proof.
  intros Hen [Hl Ht Hc Hg]. unfold receive_aecp. erewrite M_bind_run by reflexivity.
  assert (aecp_rx (upd_aecp_rx (fun _ => pkt) s) = pkt) as E by (by destruct s).
  generalize dependent (upd_aecp_rx (fun _ => pkt) s). intros s0 E.
  assert (get_rx s0 = Some (pkt, s0)) as Eg by (by rewrite (get_rx_run Hmac), E by (by rewrite E)).
  unfold process_avb_1722_1_aecp_packet. rewrite (M_bind_run _ _ _ _ _ Eg), Ht, Hen.
  cbn [Z.eqb orb whenM AECP_CMD_AEM_COMMAND]. unfold process_avb_1722_1_aecp_aem_msg.
  by rewrite (M_bind_run _ _ _ _ _ Eg), Hc, Hg.
Qed.

Definition reboot_events (reboot : bool) : list aecp_event := if reboot then [AdpDepartImmediately; DeviceReboot] else [].

(** The handler has done its work; its status and the packet it has left are sent. *)
Lemma command_answered env src n c pkt st len reboot s s1 :
  AVB_1722_1_AEM_ENABLED = true -> aem_packet c pkt -> length src = 6%nat -> status_ok st -> 0 < len <= 512 ->
  aem_command env src n c (upd_aecp_rx (fun _ => pkt) s) = Some (Respond st len reboot, s1) ->
  aecp_ok s1 -> length (aecp_rx s1) = length pkt -> take off_args (aecp_rx s1) = take off_args pkt ->
  exists s', receive_aecp env src n pkt s = Some (tt, s') /\ aecp_ok s' /\ aecp_acq s' = aecp_acq s1 /\ aecp_dev s' = aecp_dev s1 /\
    let f := response_frame src st len (aecp_rx s1) (aecp_buf s1) in
    aecp_out s' = aecp_out s1 ++ [AecpTx f] ++ reboot_events reboot /\
    answers src pkt st 2 f /\ frame_length f = len + 12.
Proof.
  intros Hen Hp Hsrc Hst Hn E [Hb Hm1 Hm2] Hl Hrx. pose proof (ap_length _ _ Hp) as Hpl.
  destruct (respond_run src st len reboot s1) as (s' & E' & Ha & Hdev & Hbuf & Hout); [done|done|lia|done|].
  destruct (respond_answers src pkt st len (aecp_rx s1) (aecp_buf s1)) as [Han Hlen]; [done|done|lia|done|done|done|].
  exists s'. split_and!; [|constructor; rewrite ?Hbuf, ?Ha|..]; try done.
  - rewrite (receive_command_run env src n c) by done. by erewrite M_bind_run by exact E.
  - unfold AVB_1722_1_PACKET_SIZE in *. by rewrite (response_length Hmac) by lia.
Qed.

(** Commands that read, or change nothing but a record: they never fail. *)
Definition queries : list Z :=
  [AECP_AEM_CMD_ENTITY_AVAILABLE; AECP_AEM_CMD_REBOOT; AECP_AEM_CMD_GET_STREAM_FORMAT; AECP_AEM_CMD_GET_STREAM_INFO;
   AECP_AEM_CMD_SET_STREAM_INFO; AECP_AEM_CMD_GET_SAMPLING_RATE; AECP_AEM_CMD_GET_CLOCK_SOURCE; AECP_AEM_CMD_GET_COUNTERS].
(** Commands that make the AVB manager act. *)
Definition settings : list Z :=
  [AECP_AEM_CMD_SET_STREAM_FORMAT; AECP_AEM_CMD_SET_SAMPLING_RATE; AECP_AEM_CMD_SET_CLOCK_SOURCE;
   AECP_AEM_CMD_START_STREAMING; AECP_AEM_CMD_STOP_STREAMING].

(** The size of the command and of its response. *)
Definition command_size (c : Z) : Z :=
  if (c =? AECP_AEM_CMD_ENTITY_AVAILABLE) || (c =? AECP_AEM_CMD_REBOOT) then Z.of_nat AVB_1722_1_AECP_PAYLOAD_OFFSET
  else if (c =? AECP_AEM_CMD_GET_STREAM_FORMAT) || (c =? AECP_AEM_CMD_SET_STREAM_FORMAT) then sizeof_getset_stream_format
  else if (c =? AECP_AEM_CMD_GET_STREAM_INFO) || (c =? AECP_AEM_CMD_SET_STREAM_INFO) then sizeof_getset_stream_info
  else if (c =? AECP_AEM_CMD_GET_SAMPLING_RATE) || (c =? AECP_AEM_CMD_SET_SAMPLING_RATE) then sizeof_getset_sampling_rate
  else if (c =? AECP_AEM_CMD_GET_CLOCK_SOURCE) || (c =? AECP_AEM_CMD_SET_CLOCK_SOURCE) then sizeof_getset_clock_source
  else if (c =? AECP_AEM_CMD_START_STREAMING) || (c =? AECP_AEM_CMD_STOP_STREAMING) then sizeof_startstop_streaming
  else sizeof_get_counters.

(** The handler of a command that is answered in the common way. *)
Definition handler (c : Z) : option (M (aecp D) Z) :=
  if bool_decide (c ∈ [AECP_AEM_CMD_GET_STREAM_FORMAT; AECP_AEM_CMD_SET_STREAM_FORMAT]) then Some (process_aem_cmd_getset_stream_format c)
  else if bool_decide (c ∈ [AECP_AEM_CMD_GET_STREAM_INFO; AECP_AEM_CMD_SET_STREAM_INFO]) then Some (process_aem_cmd_getset_stream_info c)
  else if bool_decide (c ∈ [AECP_AEM_CMD_GET_SAMPLING_RATE; AECP_AEM_CMD_SET_SAMPLING_RATE]) then Some (process_aem_cmd_getset_sampling_rate c)
  else if bool_decide (c ∈ [AECP_AEM_CMD_GET_CLOCK_SOURCE; AECP_AEM_CMD_SET_CLOCK_SOURCE]) then Some (process_aem_cmd_getset_clock_source c)
  else if bool_decide (c ∈ [AECP_AEM_CMD_START_STREAMING; AECP_AEM_CMD_STOP_STREAMING]) then Some (process_aem_cmd_startstop_streaming c)
  else if bool_decide (c = AECP_AEM_CMD_GET_COUNTERS) then Some process_aem_cmd_get_counters
  else None.

Lemma handler_command env src n c m :
  handler c = Some m -> aem_command env src n c = sized m (command_size c).
Proof.
  unfold handler. repeat (case_bool_decide as Hc; [intros [= <-]; clear -Hc|clear Hc]); [..|done].
  all: rewrite ?list.elem_of_cons, ?list.elem_of_nil in Hc; unfold aem_command, command_size;
    repeat match type of Hc with _ \/ _ => destruct Hc as [Hc|Hc] end; try done; subst; done.
Qed.

Lemma handler_props c m : handler c = Some m -> keeps handles m /\ yields status_ok m.
Proof.
  unfold handler. repeat (case_bool_decide as Hc; [intros [= <-]; clear Hc|clear Hc]); [..|done]; split.
  all: first [apply handles_stream_format | apply handles_stream_info | apply handles_sampling_rate | apply handles_clock_source
    | apply handles_startstop | apply handles_get_counters | apply status_stream_format | apply status_stream_info
    | apply status_sampling_rate | apply status_clock_source | apply status_startstop | apply status_get_counters].
Qed.

Lemma command_size_range c : 0 < command_size c <= 512.
Proof. unfold command_size. repeat case_match; split; by vm_compute. Qed.

(** What the command leads to: a response of the size of the command. *)
Lemma common_command env src n c s :
  (536 <= length (aecp_rx s))%nat -> device_ok (aecp_dev s) ->
  c ∈ queries \/ (c ∈ settings /\ is_Some (aem_command env src n c s)) ->
  exists st s', aem_command env src n c s = Some (Respond st (command_size c) (c =? AECP_AEM_CMD_REBOOT), s') /\
    handles s s' /\ status_ok st.
Proof.
  intros Hr Hd Hc.
  assert (c = AECP_AEM_CMD_ENTITY_AVAILABLE \/ c = AECP_AEM_CMD_REBOOT \/
    (c <> AECP_AEM_CMD_REBOOT /\ exists m, handler c = Some m /\ is_Some (m s))) as Hcase.
  { destruct Hc as [Hc | [Hc [[r s'] E]]].
    - unfold queries in Hc. rewrite !list.elem_of_cons, list.elem_of_nil in Hc.
      destruct Hc as [-> | [-> | [-> | [-> | [-> | [-> | [-> | [-> | []]]]]]]]]; [by left|by right; left|..];
        right; right; (split; [done|]); eexists; (split; [done|]).
      + by apply get_stream_format_runs.
      + by apply stream_info_runs.
      + by apply stream_info_runs.
      + by apply get_sampling_rate_runs.
      + by apply get_clock_source_runs.
      + by apply get_counters_runs.
    - right; right. unfold settings in Hc. rewrite !list.elem_of_cons, list.elem_of_nil in Hc.
      assert (exists m, handler c = Some m /\ c <> AECP_AEM_CMD_REBOOT) as (m & Hm & Hne)
        by (destruct Hc as [-> | [-> | [-> | [-> | [-> | []]]]]]; by eexists).
      split; [done|]. exists m. split; [done|]. rewrite (handler_command env src n c m Hm) in E.
      apply M_bind_Some in E as (st & s1 & E & _). by eexists. }
  destruct Hcase as [-> | [-> | (Hne & m & Hm & Hs)]].
  - exists AECP_AEM_STATUS_SUCCESS, s. split_and!; [done|done|split; by vm_compute].
  - exists AECP_AEM_STATUS_SUCCESS, s. split_and!; [done|done|split; by vm_compute].
  - rewrite (handler_command env src n c m Hm). destruct (handler_props c m Hm) as [Hk Hy].
    destruct (Z.eqb_spec c AECP_AEM_CMD_REBOOT); [done|]. by apply sized_result.
Qed.

(** C17: the commands of [queries] - ENTITY_AVAILABLE, REBOOT, GET_STREAM_FORMAT, GET and
    SET_STREAM_INFO, GET_SAMPLING_RATE, GET_CLOCK_SOURCE and GET_COUNTERS - and those of
    [settings] - SET_STREAM_FORMAT, SET_SAMPLING_RATE, SET_CLOCK_SOURCE, START and
    STOP_STREAMING - if the call of the AVB manager returns, have exactly one answer: a
    response to the sender with the identification and type of the command, a status, and
    the length of the command; after REBOOT the departure message and the restart follow
    it. No descriptor or clock number makes a handler of a query fail, and none of these
    commands touches the acquisition. *)
Theorem aem_command_answered env src n c pkt s :
  AVB_1722_1_AEM_ENABLED = true -> aem_packet c pkt -> length src = 6%nat -> aecp_ok s -> device_ok (aecp_dev s) ->
  c ∈ queries \/ (c ∈ settings /\ is_Some (aem_command env src n c (upd_aecp_rx (fun _ => pkt) s))) ->
  exists s' st f, receive_aecp env src n pkt s = Some (tt, s') /\ aecp_ok s' /\ aecp_acq s' = aecp_acq s /\
    aecp_out s' = aecp_out s ++ [AecpTx f] ++ reboot_events (c =? AECP_AEM_CMD_REBOOT) /\
    status_ok st /\ answers src pkt st 2 f /\ frame_length f = command_size c + AVB_1722_1_AECP_COMMAND_DATA_OFFSET.
Proof.
  intros Hen Hp Hsrc Hok Hd Hc. set (s0 := upd_aecp_rx (fun _ => pkt) s) in *.
  assert (device_ok (aecp_dev s0)) as Hd0 by done.
  destruct (common_command env src n c s0 (ap_length _ _ Hp) Hd0 Hc) as (st & s1 & E & Hh & Hst).
  destruct (handles_worked Hmac s0 s1 Hh) as [Hw1 Hw2 Hw3]. destruct Hh as [Ha _ _ Ho _ _].
  destruct (command_answered env src n c pkt st (command_size c) (c =? AECP_AEM_CMD_REBOOT) s s1 Hen Hp Hsrc Hst (command_size_range c) E)
    as (s' & Er & Hok' & Ha' & _ & Hout & Han & Hl); [apply Hw1; by destruct Hok|done|done|].
  eexists s', st, _. split_and!; [exact Er|done|by rewrite Ha', Ha| |done|exact Han|exact Hl].
  by rewrite Hout, Ho.
Qed.

(** ** Commands that are not implemented *)

Definition implemented : list Z :=
  queries ++ settings ++
  [AECP_AEM_CMD_ACQUIRE_ENTITY; AECP_AEM_CMD_LOCK_ENTITY; AECP_AEM_CMD_READ_DESCRIPTOR; AECP_AEM_CMD_GET_CONTROL;
   AECP_AEM_CMD_SET_CONTROL; AECP_AEM_CMD_GET_SIGNAL_SELECTOR; AECP_AEM_CMD_SET_SIGNAL_SELECTOR;
   AECP_AEM_CMD_START_OPERATION; AECP_AEM_CMD_ABORT_OPERATION].

Lemma unimplemented_command env src n c :
  c ∉ implemented -> aem_command env src n c = not_implemented (D := D) src n.
Proof.
  intros Hc. assert (Forall (fun x => (c =? x) = false) implemented) as HF.
  { apply list.Forall_forall. intros x Hx. apply Z.eqb_neq. by intros ->. }
  clear Hc. unfold implemented, queries, settings in HF. cbn [app] in HF. rewrite !list.Forall_cons in HF.
  unfold aem_command. by repeat match goal with H : _ /\ _ |- _ => destruct H as [?E ?H] end; rewrite ?E, ?E0, ?E1, ?E2, ?E3, ?E4, ?E5,
    ?E6, ?E7, ?E8, ?E9, ?E10, ?E11, ?E12, ?E13, ?E14, ?E15, ?E16, ?E17, ?E18, ?E19, ?E20.
Qed.

Lemma data_length_range pkt : Forall byte_ok pkt -> 0 <= GET_1722_1_DATALENGTH pkt < 2048.
Proof.
  intros Hb. unfold GET_1722_1_DATALENGTH. pose proof (lookup_total_ok pkt 3 Hb) as H3. unfold byte_ok in H3.
  rewrite Z.shiftl_mul_pow2 by lia. pose proof (Z.land_ones (pkt !!! 2%nat) 3) as H2.
  change (Z.ones 3) with 7 in H2. rewrite H2 by lia. pose proof (Z.mod_pos_bound (pkt !!! 2%nat) (2 ^ 3)). lia.
Qed.

(** Any other command is refused with NOT_IMPLEMENTED, and the response repeats the
    whole command - as long as the packet fits into the transmit buffer, which nothing
    checks. *)
Theorem unimplemented_refused env src n c pkt s :
  AVB_1722_1_AEM_ENABLED = true -> aem_packet c pkt -> length src = 6%nat -> aecp_ok s ->
  Forall byte_ok pkt -> c ∉ implemented -> Z.of_nat AVB_1722_1_AECP_PAYLOAD_OFFSET <= n <= 536 ->
  exists s' f, receive_aecp env src n pkt s = Some (tt, s') /\ aecp_ok s' /\ aecp_acq s' = aecp_acq s /\
    aecp_dev s' = aecp_dev s /\ aecp_out s' = aecp_out s ++ [AecpTx f] /\
    answers src pkt AECP_AEM_STATUS_NOT_IMPLEMENTED (Z.to_nat n - AVB_1722_1_AECP_PAYLOAD_OFFSET) f /\
    frame_length f = GET_1722_1_DATALENGTH pkt.
Proof.
  intros Hen Hp Hsrc [Hb Hm1 Hm2] Hpb Hc Hn. unfold AVB_1722_1_PACKET_SIZE in Hb. pose proof (ap_length _ _ Hp) as Hl.
  rewrite (receive_command_run env src n c) by done. rewrite unimplemented_command by done.
  set (s0 := upd_aecp_rx (fun _ => pkt) s). change (Z.of_nat AVB_1722_1_AECP_PAYLOAD_OFFSET) with 22 in Hn.
  assert (get_rx s0 = Some (pkt, s0)) as Eg by (by apply (get_rx_run Hmac)).
  set (len := GET_1722_1_DATALENGTH pkt). assert (0 <= len < 2048) as Hlen.
  { by apply data_length_range. }
  set (k := (Z.to_nat n - 22)%nat).
  set (resp := response src 1 AECP_AEM_STATUS_NOT_IMPLEMENTED len k pkt (aecp_buf s)).
  assert (length resp = 552%nat) as Lr by (unfold resp; rewrite (response_length Hmac); lia).
  exists (upd_aecp_out (fun l => l ++ [AecpTx (take (Z.to_nat (Z.max 64 (n + 14))) resp)]) (upd_aecp_buf (fun _ => resp) s0)).
  destruct (response_answers Hmac src AECP_AEM_STATUS_NOT_IMPLEMENTED len k (Z.to_nat (Z.max 64 (n + 14))) pkt (aecp_buf s)) as [Han Hfl];
    [done|split; by vm_compute|done|lia|lia|lia|]. fold resp in Han, Hfl.
  eexists. split_and!; [|by constructor|done|done|reflexivity|exact Han|exact Hfl].
  assert (not_implemented src n s0 = Some (Answered, upd_aecp_out (fun l => l ++ [AecpTx (take (Z.to_nat (Z.max 64 (n + 14))) resp)])
    (upd_aecp_buf (fun _ => resp) s0))) as E; [|by erewrite M_bind_run by exact E].
  unfold not_implemented. rewrite (M_bind_run _ _ _ _ _ Eg).
  erewrite M_bind_run by (apply (response_header_run Hmac); [done|cbn; lia|cbn; lia]). fold len.
  change (Z.of_nat AVB_1722_1_AECP_PAYLOAD_OFFSET) with 22.
  erewrite M_bind_run by (apply (response_more_run Hmac); change (aecp_rx s0) with pkt; change (aecp_buf s0) with (aecp_buf s);
    first [done | lia]).
  change (aecp_rx s0) with pkt. change (AECP_CMD_AEM_COMMAND + 1) with 1.
  replace (Z.to_nat (n - 22)) with k by (unfold k; lia).
  assert (upd_aecp_buf (response src 1 AECP_AEM_STATUS_NOT_IMPLEMENTED len k pkt) s0 = upd_aecp_buf (fun _ => resp) s0) as ->
    by (by destruct s).
  change (Z.of_nat ethernet_hdr_size) with 14.
  erewrite M_bind_run by (apply (eth_send_packet_run Hmac); [lia|cbn; rewrite Lr; lia]). done.
Qed.
End Answer.
