(* ===== verification/AecpAcquire.v ===== *)
(** AECP: the acquisition of the entity. Commands ACQUIRE_ENTITY act as an abstract
    machine of owners and challengers, and nobody but the owner gives the entity up - with
    one exception. *)
From S2P Require Import Prelude Bytes MiscTimer MrpTypes AvbApi AvbUtil AcmpTypes AcmpSpec AcmpSafe AecpTypes AecpControls Aecp AecpRun AecpAnswer.
From stdpp Require Import base list list_numbers numbers option.
From Stdlib Require Import ZArith Lia.
#[local] Open Scope Z_scope.

(** ** Identifiers *)

Lemma guid_of_c_inj l l' :
  length l = length l' -> Forall byte_ok l -> Forall byte_ok l' -> guid_of_c l = guid_of_c l' -> l = l'.
Proof.
  revert l'. induction l as [|x l IH]; intros [|x' l'] Hl Hb Hb' E; try done.
  apply list.Forall_cons in Hb as [Hx Hb]. apply list.Forall_cons in Hb' as [Hx' Hb'].
  cbn [guid_of_c foldr] in E. fold (guid_of_c l) in E. fold (guid_of_c l') in E.
  unfold byte_ok in *. assert (x = x' /\ guid_of_c l = guid_of_c l') as [-> E'] by lia.
  f_equal. apply IH; [by injection Hl|done|done|done].
Qed.

Lemma compare_guid_at off pkt g :
  (off + 8 <= length pkt)%nat -> Forall byte_ok pkt -> 0 <= g < 2 ^ 64 ->
  compare_guid (bytes_at off 8 pkt) g = bool_decide (guid_at off pkt = g).
Proof.
  intros Hl Hp Hg. set (b := bytes_at off 8 pkt). assert (length b = 8%nat) as Hb by (by apply bytes_at_length).
  assert (Forall byte_ok b) as Hbo by (unfold b, bytes_at; by apply Forall_take, Forall_drop).
  apply eq_true_iff_eq. rewrite (compare_guid_iff _ _ Hb), bool_decide_eq_true. unfold guid_at. fold b.
  assert (get_64 b = reverse b) as -> by (clear Hbo; clearbody b; by destruct_len b Hb). split.
  - intros ->. rewrite reverse_involutive. by apply guid_of_guid_c.
  - intros E. rewrite <- (reverse_involutive b). f_equal. apply guid_of_c_inj.
    + by rewrite length_reverse, Hb, (le_bytes_length 8).
    + by apply Forall_reverse.
    + apply le_bytes_ok.
    + by rewrite E, guid_of_guid_c.
Qed.

(** * The abstract machine *)

Inductive ownership : Type :=
| Free
| Owned (owner : Z) (persistent : bool)
| Contested (owner challenger : Z) (persistent : bool).

#[global] Instance ownership_eq_dec : EqDecision ownership.
Proof. solve_decision. Defined.

(** What a command leads to: the new state, the status, and the owner the response
    names. *)
Record verdict : Type := Verdict {
  v_own : ownership;
  v_status : Z;
  v_owner : option Z;
}.

Definition spec_release (o : ownership) (who : Z) : verdict :=
  match o with
  | Free => Verdict Free AECP_AEM_STATUS_BAD_ARGUMENTS None
  | Owned w _ | Contested w _ _ =>
      if decide (who = w) then Verdict Free AECP_AEM_STATUS_SUCCESS None
      else Verdict o AECP_AEM_STATUS_ENTITY_ACQUIRED (Some w)
  end.

(** Who asks while another challenger waits is told SUCCESS. *)
Definition spec_acquire (o : ownership) (who : Z) (persistent : bool) : verdict :=
  match o with
  | Free => Verdict (Owned who persistent) AECP_AEM_STATUS_SUCCESS (Some who)
  | Owned w p =>
      if decide (who = w) then Verdict o AECP_AEM_STATUS_SUCCESS (Some w)
      else if (p : bool) then Verdict o AECP_AEM_STATUS_ENTITY_ACQUIRED (Some w)
      else Verdict (Contested w who persistent) AECP_AEM_STATUS_IN_PROGRESS (Some w)
  | Contested _ _ _ => Verdict o AECP_AEM_STATUS_SUCCESS None
  end.

(** The state of the code, abstracted. *)
Definition own_of (a : acquisition) : ownership :=
  match entity_acquired_status a with
  | AEM_ENTITY_NOT_ACQUIRED => Free
  | AEM_ENTITY_ACQUIRED => Owned (acquired_controller_guid a) false
  | AEM_ENTITY_ACQUIRED_AND_PERSISTENT => Owned (acquired_controller_guid a) true
  | AEM_ENTITY_ACQUIRED_BUT_PENDING =>
      Contested (acquired_controller_guid a) (pending_controller_guid a) (truthy (pending_persistent a))
  end.

Section Acquire.
Context {D : Type} `{cfg : Config} `{acfg : AcmpConfig} `{ecfg : AecpConfig}
  `{avb : !avb_interface D} `{cb : !control_callbacks D} `{fl : !flash_library D}.
Context (Hmac : length my_mac_addr = 6%nat).
Implicit Types s : aecp D.

(** ** Packets of the acquisition *)

(** The tail that sets command type and flag, and goes on. *)
Lemma set_command_then {A} c s h p (k : M (aecp D) A) :
  aecp_buf s = h ++ p -> length h = 18%nat -> (20 <= length p)%nat -> 0 <= c < 256 ->
  exists p', length p' = length p /\ command_in p' = c /\
    (old ← tx_read 22 1; _ ← tx_write 22 (AEM_MSG_SET_COMMAND_TYPE (old !!! 0%nat) c);
     old ← tx_read 22 1; _ ← tx_write 22 [AEM_MSG_SET_U_FLAG (old !!! 0%nat) 0]; k) s =
      k (upd_aecp_buf (fun _ => h ++ p') s).
Proof.
  intros Hb Hh Hp Hc. destruct (set_command_run Hmac c s h p Hb Hh Hp Hc) as (p' & Hl & Hc' & E). exists p'. split; [done|]. split; [done|].
  revert E. unfold mbind, M_bind.
  repeat match goal with |- context [match ?m with Some _ => _ | None => _ end] => destruct m as [[]|]; [|done] end.
  by intros [= _ ->].
Qed.

Lemma available_packet_run s :
  aecp_ok s ->
  exists p, avb_1722_1_create_controller_available_packet s =
    Some (Z.of_nat AVB_1722_1_AECP_PAYLOAD_OFFSET, upd_aecp_buf (fun b =>
      header (acquired_controller_mac (aecp_acq s)) AECP_CMD_AEM_COMMAND AECP_AEM_STATUS_SUCCESS
        AVB_1722_1_AECP_COMMAND_DATA_OFFSET b ++ p) s) /\ length p = (AVB_1722_1_PACKET_SIZE - 18)%nat /\
      command_in p = AECP_AEM_CMD_CONTROLLER_AVAILABLE.
Proof.
  intros [Hb Hm _]. unfold AVB_1722_1_PACKET_SIZE in Hb. unfold avb_1722_1_create_controller_available_packet.
  erewrite M_bind_run by reflexivity. erewrite M_bind_run by (apply (tx_header_run Hmac); lia). set (a := aecp_acq s) in *.
  match goal with |- context [upd_aecp_buf (fun b => ?h b ++ drop 18 b) s] => set (hd := h (aecp_buf s)) end.
  assert (length hd = 18%nat) as Hh by (by apply (header_length Hmac)).
  set (s1 := upd_aecp_buf _ s). assert (aecp_buf s1 = hd ++ drop 18 (aecp_buf s)) as H1 by (by destruct s).
  assert (length (drop 18 (aecp_buf s)) = 534%nat) as Hl by (rewrite length_drop; lia).
  destruct (tx_write_next Hmac off_target_guid (set_64 (guid_c (acquired_controller_guid a)) ++ set_64 (guid_c my_guid) ++
    hton_16 (aecp_controller_available_sequence a)) s1 hd _ H1 Hh) as (p1 & E1 & L1).
  { unfold off_target_guid. lia. }
  { rewrite !length_app, !set_64_length. unfold off_target_guid. cbn [length hton_16]. lia. }
  erewrite M_bind_run by exact E1. set (s2 := upd_aecp_buf _ s1).
  destruct (set_command_then AECP_AEM_CMD_CONTROLLER_AVAILABLE s2 hd p1 (mret (Z.of_nat AVB_1722_1_AECP_PAYLOAD_OFFSET)))
    as (p2 & L2 & C2 & E2); [by destruct s|done|lia|by split|].
  exists p2. split; [|split; [unfold AVB_1722_1_PACKET_SIZE; lia|done]]. rewrite E2. unfold s2, s1. by destruct s.
Qed.

(** Writing into the transmit buffer keeps its length. *)
Lemma tx_write_length off bs s :
  (14 + off + length bs <= length (aecp_buf s))%nat ->
  exists b, tx_write off bs s = Some (tt, upd_aecp_buf (fun _ => b) s) /\ length b = length (aecp_buf s).
Proof.
  intros H. rewrite tx_write_run by done. eexists. split; [by destruct s|].
  rewrite !length_app, length_take, length_drop. lia.
Qed.

Lemma acquire_packet_run st s :
  aecp_ok s ->
  exists b p, avb_1722_1_create_acquire_response_packet st s =
    Some (16 + Z.of_nat AVB_1722_1_AECP_PAYLOAD_OFFSET, upd_aecp_buf (fun _ =>
      header (pending_controller_mac (aecp_acq s)) AECP_CMD_AEM_RESPONSE st 28 b ++ p) s) /\
    length p = (AVB_1722_1_PACKET_SIZE - 18)%nat.
Proof.
  intros [Hb _ Hm]. unfold AVB_1722_1_PACKET_SIZE in Hb. unfold avb_1722_1_create_acquire_response_packet.
  erewrite M_bind_run by reflexivity. set (a := aecp_acq s) in *.
  destruct (tx_write_length off_aem_command [pending_persistent a] s) as (b1 & E1 & L1);
    [unfold off_aem_command; cbn [length]; lia|]. erewrite M_bind_run by exact E1.
  destruct (tx_write_length (off_aem_command + 4) (set_64 (guid_c (acquired_controller_guid a)) ++ hton_16 0 ++ hton_16 0)
    (upd_aecp_buf (fun _ => b1) s)) as (b & E2 & L2).
  { rewrite !length_app, set_64_length. cbn [length hton_16]. destruct s. norm_aecp. unfold off_aem_command. lia. }
  erewrite M_bind_run by exact E2. set (s2 := upd_aecp_buf _ (upd_aecp_buf _ s)).
  assert (length b = 552%nat) as Lb by (rewrite L2; destruct s; norm_aecp; lia).
  assert (s2 = upd_aecp_buf (fun _ => b) s) as Es2 by (by destruct s). rewrite Es2. clear Es2 s2 E1 E2 L2.
  set (s2 := upd_aecp_buf (fun _ => b) s). assert (aecp_buf s2 = b) as E2 by (by destruct s).
  erewrite M_bind_run by (apply (tx_header_run Hmac); rewrite E2; lia).
  exists b. set (hd := header (pending_controller_mac a) AECP_CMD_AEM_RESPONSE st 28 b).
  assert (length hd = 18%nat) as Hh by (by apply (header_length Hmac)).
  match goal with |- context [upd_aecp_buf ?f s2] => assert (upd_aecp_buf f s2 = upd_aecp_buf (fun _ => hd ++ drop 18 b) s) as ->
    by (unfold s2; by destruct s) end.
  set (s3 := upd_aecp_buf _ s). assert (aecp_buf s3 = hd ++ drop 18 b) as H3 by (by destruct s).
  assert (length (drop 18 b) = 534%nat) as Hl by (rewrite length_drop; lia).
  destruct (tx_write_next Hmac off_target_guid (set_64 (guid_c my_guid) ++ set_64 (guid_c (pending_controller_guid a)) ++
    hton_16 (pending_controller_sequence a)) s3 hd _ H3 Hh) as (p1 & E1 & L1').
  { unfold off_target_guid. lia. }
  { rewrite !length_app, !set_64_length. unfold off_target_guid. cbn [length hton_16]. lia. }
  erewrite M_bind_run by exact E1. set (s4 := upd_aecp_buf _ s3).
  destruct (set_command_then AECP_AEM_CMD_ACQUIRE_ENTITY s4 hd p1 (mret (16 + Z.of_nat AVB_1722_1_AECP_PAYLOAD_OFFSET)))
    as (p2 & L2 & _ & E4); [by destruct s|done|lia|by split|].
  exists p2. split; [|unfold AVB_1722_1_PACKET_SIZE; lia]. rewrite E4. unfold s4, s3. by destruct s.
Qed.

(** ** One command *)

(** The state of a running device. *)
Record acquire_ok s : Prop := {
  ao_ok : aecp_ok s;
  ao_acquired : 0 <= acquired_controller_guid (aecp_acq s) < 2 ^ 64;
  ao_pending : 0 <= pending_controller_guid (aecp_acq s) < 2 ^ 64;
}.

(** Owners are asked only when somebody else wants the entity. *)
Definition asks (mac : list Z) (v : verdict) (asked : list aecp_event) : Prop :=
  if decide (v_status v = AECP_AEM_STATUS_IN_PROGRESS)
  then exists f, asked = [AecpTx f] /\ frame_type f = AECP_CMD_AEM_COMMAND /\
    AEM_MSG_GET_COMMAND_TYPE (frame_packet f) = AECP_AEM_CMD_CONTROLLER_AVAILABLE /\ take 6 f = mac
  else asked = [].

(** What a handler has done when the verdict is [v]. *)
Record decided s (v : verdict) s' : Prop := {
  de_ok : acquire_ok s';
  de_own : own_of (aecp_acq s') = v_own v;
  de_rx_length : length (aecp_rx s') = length (aecp_rx s);
  de_rx : take off_args (aecp_rx s') = take off_args (aecp_rx s);
  de_owner : forall w, v_owner v = Some w -> bytes_at off_args 8 (aecp_rx s') = set_64 (guid_c w);
  de_out : exists asked, aecp_out s' = aecp_out s ++ asked /\ asks (acquired_controller_mac (aecp_acq s)) v asked;
}.

Lemma set_owner_run s :
  (536 <= length (aecp_rx s))%nat ->
  exists rx, set_owner_in_rx s = Some (tt, upd_aecp_rx (fun _ => rx) s) /\ length rx = length (aecp_rx s) /\
    take off_args rx = take off_args (aecp_rx s) /\
    bytes_at off_args 8 rx = set_64 (guid_c (acquired_controller_guid (aecp_acq s))).
Proof.
  intros Hr. unfold set_owner_in_rx. erewrite M_bind_run by reflexivity.
  apply (rx_field_run Hmac (off_aem_command + 4)%nat (set_64 _)). rewrite set_64_length. unfold off_aem_command. lia.
Qed.

Lemma ask_owner_run env pkt s :
  acquire_ok s -> length (at_src_addr env) = 6%nat -> Forall byte_ok pkt ->
  exists s' f, acquire_ask_owner env pkt s = Some (tt, s') /\ acquire_ok s' /\ aecp_rx s' = aecp_rx s /\
    acquired_controller_guid (aecp_acq s') = acquired_controller_guid (aecp_acq s) /\
    own_of (aecp_acq s') = Contested (acquired_controller_guid (aecp_acq s)) (guid_at off_aecp_controller_guid pkt)
      (truthy (AEM_ACQUIRE_ENTITY_PERSISTENT_FLAG pkt)) /\
    aecp_out s' = aecp_out s ++ [AecpTx f] /\ frame_type f = AECP_CMD_AEM_COMMAND /\
    AEM_MSG_GET_COMMAND_TYPE (frame_packet f) = AECP_AEM_CMD_CONTROLLER_AVAILABLE /\
    take 6 f = acquired_controller_mac (aecp_acq s).
Proof.
  intros [[Hb Hm Hpm] Hg Hp] Hsrc Hpkt. unfold acquire_ask_owner. erewrite M_bind_run by reflexivity.
  set (s1 := upd_aecp_acq _ s). assert (aecp_ok s1) as H1 by (unfold s1; destruct s as [[]]; by constructor).
  destruct (available_packet_run s1 H1) as (p & E & Lp & Cp). erewrite M_bind_run by exact E. clear E.
  set (hd := header _ _ _ _). set (s2 := upd_aecp_buf _ s1).
  assert (aecp_buf s2 = hd (aecp_buf s) ++ p) as Eb by (unfold s2, s1; by destruct s).
  assert (length (acquired_controller_mac (aecp_acq s1)) = 6%nat) as Hm1 by apply H1.
  assert (length (hd (aecp_buf s)) = 18%nat) as Hh by (by apply (header_length Hmac)).
  assert (length (aecp_buf s2) = 552%nat) as Lb by (rewrite Eb, length_app; unfold AVB_1722_1_PACKET_SIZE in Lp; lia).
  erewrite M_bind_run by (apply (eth_send_packet_run Hmac); [lia|lia]).
  set (f := take (Z.to_nat 64) (aecp_buf s2)).
  assert (f = hd (aecp_buf s) ++ take 46 p) as Ef.
  { unfold f. rewrite Eb. change (Z.to_nat 64) with 64%nat. rewrite take_app_ge by lia. by rewrite Hh. }
  destruct (header_fields Hmac (acquired_controller_mac (aecp_acq s1)) AECP_CMD_AEM_COMMAND AECP_AEM_STATUS_SUCCESS
    AVB_1722_1_AECP_COMMAND_DATA_OFFSET (aecp_buf s) (take 46 p) Hm1
    ltac:(by vm_compute) ltac:(by vm_compute) ltac:(by vm_compute)) as (F1 & F2 & _).
  assert (AEM_MSG_GET_COMMAND_TYPE (frame_packet f) = AECP_AEM_CMD_CONTROLLER_AVAILABLE) as Fc.
  { rewrite <- Cp. unfold AEM_MSG_GET_COMMAND_TYPE, command_in, frame_packet. rewrite Ef, !lookup_total_drop.
    rewrite !lookup_total_app_r by (rewrite Hh; cbn; lia). rewrite Hh. by rewrite !lookup_total_take by (cbn; lia). }
  eexists _, f. split; [reflexivity|]. clearbody f. subst f. unfold s2, s1 in *.
  pose proof (guid_at_ok off_aecp_controller_guid pkt Hpkt).
  destruct s as [[] upl op st lock desc rx buf out dev]. unfold hd in *. norm_aecp. cbn in *. split_and!; try done.
Qed.

(** The verdict of the abstract machine on a packet. *)
Definition verdict_of (o : ownership) (pkt : list Z) : verdict :=
  let who := guid_at off_aecp_controller_guid pkt in
  if truthy (AEM_ACQUIRE_ENTITY_RELEASE_FLAG pkt) then spec_release o who
  else spec_acquire o who (truthy (AEM_ACQUIRE_ENTITY_PERSISTENT_FLAG pkt)).

(** A step that changes no more than the acquisition and, as [set_owner_in_rx] does, the
    owner field. *)
Lemma decided_quiet s v s' :
  acquire_ok s' -> own_of (aecp_acq s') = v_own v -> aecp_rx s' = aecp_rx s -> v_owner v = None ->
  v_status v <> AECP_AEM_STATUS_IN_PROGRESS -> aecp_out s' = aecp_out s -> decided s v s'.
Proof.
  intros H1 H2 H3 H4 H5 H6. constructor; try congruence. exists []. rewrite app_nil_r. split; [done|].
  unfold asks. by destruct (decide _).
Qed.

Lemma decided_named s v s1 s' w asked rx :
  acquire_ok s1 -> own_of (aecp_acq s') = v_own v -> aecp_rx s1 = aecp_rx s ->
  s' = upd_aecp_rx (fun _ => rx) s1 -> length rx = length (aecp_rx s1) -> take off_args rx = take off_args (aecp_rx s1) ->
  bytes_at off_args 8 rx = set_64 (guid_c w) -> v_owner v = Some w ->
  aecp_out s1 = aecp_out s ++ asked -> asks (acquired_controller_mac (aecp_acq s)) v asked -> decided s v s'.
Proof.
  intros [[] ? ?] H1 H2 -> H3 H4 H5 H6 H7 H8. destruct s1. norm_aecp. subst.
  constructor; norm_aecp; try congruence; [by constructor | by eexists].
Qed.

Lemma release_run s :
  acquire_ok s -> (536 <= length (aecp_rx s))%nat -> Forall byte_ok (aecp_rx s) ->
  let v := spec_release (own_of (aecp_acq s)) (guid_at off_aecp_controller_guid (aecp_rx s)) in
  exists s', acquire_release (aecp_rx s) s = Some (v_status v, s') /\ decided s v s'.
Proof.
  intros Hok Hr Hb v. unfold acquire_release. erewrite M_bind_run by reflexivity.
  rewrite compare_guid_at by (unfold off_aecp_controller_guid; lia || done || apply Hok).
  set (who := guid_at _ _) in *. set (a := aecp_acq s) in *.
  case_bool_decide as Hst.
  { exists s. split; [unfold v; unfold own_of; by rewrite Hst|].
    apply decided_quiet; try done; unfold v, own_of; fold a; by rewrite Hst. }
  assert (exists c p, own_of a = Owned (acquired_controller_guid a) p \/ own_of a = Contested (acquired_controller_guid a) c p) as (c & p & Eo).
  { unfold own_of. destruct (entity_acquired_status a);
      [done|exists 0, false; by left|exists 0, true; by left|eexists _, _; by right]. }
  assert (v = if decide (who = acquired_controller_guid a) then Verdict Free AECP_AEM_STATUS_SUCCESS None
    else Verdict (own_of a) AECP_AEM_STATUS_ENTITY_ACQUIRED (Some (acquired_controller_guid a))) as Ev.
  { unfold v. by destruct Eo as [-> | ->]. }
  clearbody v. subst v. case_bool_decide as Hw.
  - destruct (decide _) as [_|]; [|done]. eexists. split; [reflexivity|].
    destruct Hok as [[] ? ?]. subst a. destruct s as [[]]. norm_aecp.
    by apply decided_quiet.
  - destruct (decide _) as [|_]; [done|]. destruct (set_owner_run s Hr) as (rx & E & H1 & H2 & H3).
    erewrite M_bind_run by exact E. eexists. split; [reflexivity|].
    apply (decided_named s _ s _ (acquired_controller_guid a) [] rx); try done.
    by rewrite app_nil_r.
Qed.

Lemma acquire_run env s :
  acquire_ok s -> (536 <= length (aecp_rx s))%nat -> Forall byte_ok (aecp_rx s) -> length (at_src_addr env) = 6%nat ->
  let v := spec_acquire (own_of (aecp_acq s)) (guid_at off_aecp_controller_guid (aecp_rx s))
             (truthy (AEM_ACQUIRE_ENTITY_PERSISTENT_FLAG (aecp_rx s))) in
  exists s', acquire_acquire env (aecp_rx s) s = Some (v_status v, s') /\ decided s v s'.
Proof.
  intros Hok Hr Hb Hsrc v. unfold acquire_acquire. erewrite M_bind_run by reflexivity.
  rewrite compare_guid_at by (unfold off_aecp_controller_guid; lia || done || apply Hok).
  set (a := aecp_acq s) in *. unfold v, own_of, spec_acquire. fold a.
  destruct (set_owner_run s Hr) as (rx & E & H1 & H2 & H3). fold a in H3.
  pose proof (guid_at_ok off_aecp_controller_guid (aecp_rx s) Hb) as Hwho.
  set (who := guid_at _ _) in *. set (per := truthy _) in *.
  destruct (entity_acquired_status a) eqn:Hst; cbn match.
  - erewrite M_bind_run by reflexivity. set (s1 := upd_aecp_acq _ s).
    assert (aecp_rx s1 = aecp_rx s) as Hr1 by (by destruct s). assert (acquired_controller_guid (aecp_acq s1) = who) as Hw1 by (by destruct s as [[]]).
    destruct (set_owner_run s1) as (rx1 & E1 & L1 & T1 & B1); [by rewrite Hr1|]. rewrite Hw1 in B1. erewrite M_bind_run by exact E1.
    erewrite M_bind_run by reflexivity. eexists. split; [reflexivity|].
    set (s2 := upd_aecp_acq (upd_acquired_controller_mac (fun _ => at_src_addr env)) s1).
    apply (decided_named s _ s2 _ who [] rx1); try done; subst a who per; unfold s2, s1 in *;
      destruct Hok as [[] ? ?]; destruct s as [[] upl op st lock desc buf0 buf out dev]; norm_aecp; cbn in *.
    + constructor; [by constructor|done|done].
    + by destruct (truthy _).
    + by rewrite app_nil_r.
  - destruct (bool_decide_reflect (who = acquired_controller_guid a)) as [Hw|Hw]; destruct (decide _); try done.
    + erewrite M_bind_run by reflexivity. erewrite M_bind_run by exact E. eexists. split; [reflexivity|].
      apply (decided_named s _ s _ (acquired_controller_guid a) [] rx); try done.
      * unfold own_of. change (aecp_acq _) with a. by rewrite Hst.
      * by rewrite app_nil_r.
    + destruct (ask_owner_run env (aecp_rx s) s Hok Hsrc Hb) as (s1 & f & E1 & Hok1 & Hr1 & Hg1 & Ho1 & Hout & Ht & Hct & Hd).
      erewrite M_bind_run by (erewrite M_bind_run by exact E1; reflexivity).
      destruct (set_owner_run s1) as (rx1 & E2 & L1 & T1 & B1); [by rewrite Hr1|]. erewrite M_bind_run by exact E2.
      eexists. split; [reflexivity|]. rewrite Hg1 in B1.
      apply (decided_named s _ s1 _ (acquired_controller_guid a) [AecpTx f] rx1); try done.
      by exists f.
  - erewrite M_bind_run by exact E. eexists. split; [by destruct (bool_decide_reflect (who = acquired_controller_guid a)); destruct (decide _)|].
    apply (decided_named s _ s _ (acquired_controller_guid a) [] rx); try done.
    + unfold own_of. change (aecp_acq _) with a. rewrite Hst. by destruct (decide _).
    + by destruct (decide _).
    + by rewrite app_nil_r.
    + unfold asks. by destruct (decide (who = _)).
  - eexists. split; [reflexivity|]. apply decided_quiet; try done. unfold own_of. fold a. by rewrite Hst.
Qed.

(** * Properties *)

(** A well-formed ACQUIRE_ENTITY command for this device. *)
Record acquire_packet (pkt : list Z) : Prop := {
  aq_packet : aem_packet AECP_AEM_CMD_ACQUIRE_ENTITY pkt;
  aq_bytes : Forall byte_ok pkt;
  aq_type : short_at (off_aem_command + 12) pkt = AEM_ENTITY_TYPE;
  aq_index : short_at (off_aem_command + 14) pkt = 0;
  aq_length : 28 <= GET_1722_1_DATALENGTH pkt <= 524;
}.

Lemma acquire_handler_run env src n pkt s :
  aem_packet AECP_AEM_CMD_ACQUIRE_ENTITY pkt -> Forall byte_ok pkt ->
  short_at (off_aem_command + 12) pkt = AEM_ENTITY_TYPE -> short_at (off_aem_command + 14) pkt = 0 ->
  acquire_ok s -> length (at_src_addr env) = 6%nat -> aecp_rx s = pkt ->
  let v := verdict_of (own_of (aecp_acq s)) pkt in
  exists s', aem_command env src n AECP_AEM_CMD_ACQUIRE_ENTITY s =
    Some (Respond (v_status v) (u16 (GET_1722_1_DATALENGTH pkt - 12)) false, s') /\ decided s v s'.
Proof.
  intros [Hl _ _ _] Hb Ht Hi Hok Hsrc E v.
  assert (get_rx s = Some (pkt, s)) as Eg by (by rewrite (get_rx_run Hmac), E by (by rewrite E)).
  assert (exists s', (if truthy (AEM_ACQUIRE_ENTITY_RELEASE_FLAG pkt) then acquire_release pkt else acquire_acquire env pkt) s =
    Some (v_status v, s') /\ decided s v s') as (s' & Es & Hd).
  { subst pkt. unfold v, verdict_of. destruct (truthy (AEM_ACQUIRE_ENTITY_RELEASE_FLAG _)).
    - by apply release_run.
    - by apply acquire_run. }
  assert (process_aem_cmd_acquire env s = Some ((v_status v, u16 (GET_1722_1_DATALENGTH pkt - AVB_1722_1_AECP_COMMAND_DATA_OFFSET)), s')) as Ep.
  { unfold process_aem_cmd_acquire. rewrite (M_bind_run _ _ _ _ _ Eg), Ht, Hi. cbn [Z.eqb AEM_ENTITY_TYPE andb].
    by rewrite (M_bind_run _ _ _ _ _ Es). }
  exists s'. split; [|done]. unfold aem_command. cbn [Z.eqb AECP_AEM_CMD_ACQUIRE_ENTITY]. by rewrite (M_bind_run _ _ _ _ _ Ep).
Qed.

Lemma acquire_command_run env src n pkt s :
  acquire_packet pkt -> acquire_ok s -> length (at_src_addr env) = 6%nat -> aecp_rx s = pkt ->
  let v := verdict_of (own_of (aecp_acq s)) pkt in
  exists s', aem_command env src n AECP_AEM_CMD_ACQUIRE_ENTITY s =
    Some (Respond (v_status v) (GET_1722_1_DATALENGTH pkt - 12) false, s') /\ decided s v s'.
Proof.
  intros [Hp Hb Ht Hi Hlen] Hok Hsrc E v.
  destruct (acquire_handler_run env src n pkt s Hp Hb Ht Hi Hok Hsrc E) as (s' & Es & Hd).
  rewrite u16_small in Es by lia. by exists s'.
Qed.

Lemma verdict_status o pkt : status_ok (v_status (verdict_of o pkt)).
Proof.
  unfold verdict_of, spec_release, spec_acquire. repeat case_match; split; by vm_compute.
Qed.

(** C14: every well-formed ACQUIRE_ENTITY command - to this device, of its ENTITY
    descriptor, with a data length of 28 to 524 - is served to the end as the abstract
    machine of owners and challengers decides: the machine moves as the specification
    says, the owner is asked exactly when its ownership is newly contested, and one
    response with the specified status, the identification of the command and the
    specified owner goes to the controller. *)
Theorem acquire_refines env src n pkt s :
  AVB_1722_1_AEM_ENABLED = true -> acquire_packet pkt -> acquire_ok s ->
  length src = 6%nat -> length (at_src_addr env) = 6%nat ->
  let v := verdict_of (own_of (aecp_acq s)) pkt in
  exists s' asked f,
    receive_aecp env src n pkt s = Some (tt, s') /\ acquire_ok s' /\
    own_of (aecp_acq s') = v_own v /\
    aecp_out s' = aecp_out s ++ asked ++ [AecpTx f] /\
    asks (acquired_controller_mac (aecp_acq s)) v asked /\
    answers src pkt (v_status v) 2 f /\ frame_length f = GET_1722_1_DATALENGTH pkt /\
    (forall w, v_owner v = Some w -> bytes_at off_args 8 (frame_packet f) = set_64 (guid_c w)).
Proof.
  intros Hen Hp Hok Hsrc Hat v. set (s0 := upd_aecp_rx (fun _ => pkt) s).
  assert (acquire_ok s0) as Hok0 by (destruct Hok as [[] ? ?]; by constructor).
  destruct (acquire_command_run env src n pkt s0 Hp Hok0 Hat eq_refl) as (s1 & E1 & [Hok1 Ho1 Hl1 Ht1 Hw1 (asked & Hout1 & Hask)]).
  destruct Hp as [Hp Hpb Hpt Hpi Hlen]. pose proof (ap_length _ _ Hp) as Hpl.
  destruct (command_answered Hmac env src n AECP_AEM_CMD_ACQUIRE_ENTITY pkt (v_status v) (GET_1722_1_DATALENGTH pkt - 12) false s s1
    Hen Hp Hsrc) as (s' & E & Hok' & Ha' & _ & Hout & Han & Hfl); [apply verdict_status|lia|done|apply Hok1|done|done|].
  set (f := response_frame _ _ _ _ _) in *. exists s', asked, f. split_and!; try done.
  - destruct Hok1. constructor; [done|by rewrite Ha'|by rewrite Ha'].
  - by rewrite Ha'.
  - rewrite Hout, Hout1. by rewrite <- app_assoc.
  - lia.
  - intros w Hw. rewrite <- (Hw1 w Hw). apply (response_frame_message Hmac src _ _ _ _ 6 8);
      [done|apply Hok1|rewrite Hl1; done|apply verdict_status|lia|lia].
Qed.

(** ** Whose packets take the entity away *)

(** [w] owns the entity, asked for or not. *)
Definition owned_by (w : Z) (a : acquisition) : Prop :=
  acquired_controller_guid a = w /\ entity_acquired_status a <> AEM_ENTITY_NOT_ACQUIRED.

(** Ownership of [w] lasts, and if it is persistent nobody can even ask. *)
Definition kept (w : Z) s s' : Prop :=
  owned_by w (aecp_acq s) ->
  owned_by w (aecp_acq s') /\
  (entity_acquired_status (aecp_acq s) = AEM_ENTITY_ACQUIRED_AND_PERSISTENT ->
   entity_acquired_status (aecp_acq s') = AEM_ENTITY_ACQUIRED_AND_PERSISTENT).

#[local] Instance kept_preorder w : PreOrder (kept w).
Proof.
  split; [by split|]. intros s1 s2 s3 H12 H23 H. destruct (H12 H) as [H2 Hp2]. destruct (H23 H2) as [H3 Hp3].
  split; [done|]. intros Hp. by apply Hp3, Hp2.
Qed.

Lemma same_acq_kept w {A} (m : M (aecp D) A) : keeps same_acq m -> keeps (kept w) m.
Proof. intros H s a s' E Ho. specialize (H s a s' E). unfold same_acq in H. by rewrite H. Qed.

Lemma put_kept w s (f : acquisition -> acquisition) s' :
  put_acq f s = Some (tt, s') ->
  (owned_by w (aecp_acq s) -> owned_by w (f (aecp_acq s)) /\
    (entity_acquired_status (aecp_acq s) = AEM_ENTITY_ACQUIRED_AND_PERSISTENT ->
     entity_acquired_status (f (aecp_acq s)) = AEM_ENTITY_ACQUIRED_AND_PERSISTENT)) -> kept w s s'.
Proof. intros [= <-] H. by destruct s. Qed.

(** The timer that waits for an answer of the owner has been started. *)
Record challenged (env : aecp_env) (a a' : acquisition) : Prop := {
  ch_state : aecp_aem_controller_available_state a' = AECP_AEM_CONTROLLER_AVAILABLE_IN_A;
  ch_timer : aecp_aem_controller_available_timer a' = start_avb_timer (aecp_now env) 12 (aecp_aem_controller_available_timer a);
  ch_mac : pending_controller_mac a' = at_src_addr env;
}.

Section Others.
Context (w : Z) (Hw : 0 <= w < 2 ^ 64) (pkt : list Z) (Hl : (20 <= length pkt)%nat) (Hb : Forall byte_ok pkt)
  (Hwho : guid_at off_aecp_controller_guid pkt <> w).

Lemma not_the_owner a : owned_by w a ->
  compare_guid (bytes_at off_aecp_controller_guid 8 pkt) (acquired_controller_guid a) = false.
Proof.
  intros [-> _]. rewrite compare_guid_at by (unfold off_aecp_controller_guid; lia || done). by case_bool_decide.
Qed.

Lemma release_kept : keeps (kept w) (acquire_release (D := D) pkt).
Proof.
  intros s st s' E Ho. unfold acquire_release in E. apply M_bind_Some in E as (a & s1 & [= <- <-] & E).
  destruct (bool_decide _); [by injection E as <- <-|]. rewrite (not_the_owner _ Ho) in E.
  by apply (same_acq_kept w (_ ← set_owner_in_rx; mret AECP_AEM_STATUS_ENTITY_ACQUIRED)) in E; [apply E|keeps_auto].
Qed.

Lemma ask_owner_acq env s s' :
  acquire_ask_owner env pkt s = Some (tt, s') ->
  acquired_controller_guid (aecp_acq s') = acquired_controller_guid (aecp_acq s) /\
  entity_acquired_status (aecp_acq s') = AEM_ENTITY_ACQUIRED_BUT_PENDING /\
  challenged env (aecp_acq s) (aecp_acq s').
Proof.
  intros E. unfold acquire_ask_owner in E. apply M_bind_Some in E as ([] & s1 & [= <-] & E).
  apply M_bind_Some in E as (n & s2 & E2 & E). apply M_bind_Some in E as ([] & s3 & E3 & [= <-]).
  apply same_acq_available_packet in E2. apply same_acq_send in E3. unfold same_acq in *.
  destruct s as [[]], s3. cbn in *. by rewrite E3, E2.
Qed.

Lemma acquire_kept env : keeps (kept w) (acquire_acquire (D := D) env pkt).
Proof.
  intros s st s' E Ho. unfold acquire_acquire in E. apply M_bind_Some in E as (a & s1 & [= <- <-] & E).
  rewrite (not_the_owner _ Ho) in E. pose proof (proj2 Ho) as Hst.
  destruct (entity_acquired_status (aecp_acq s)) eqn:Es; [done|..].
  - apply M_bind_Some in E as (st1 & s1 & E1 & E). apply M_bind_Some in E1 as ([] & s2 & E1 & [= <- <-]).
    apply ask_owner_acq in E1 as (E1 & E2 & _). apply M_bind_Some in E as ([] & s3 & E3 & [= <- <-]).
    apply same_acq_set_owner in E3. unfold same_acq in E3. rewrite E3. unfold owned_by. rewrite E1, E2.
    split; [|done]. split; [apply Ho|done].
  - apply (same_acq_kept w (_ ← set_owner_in_rx; mret AECP_AEM_STATUS_ENTITY_ACQUIRED)) in E; [|keeps_auto].
    destruct (E Ho) as [Ho' Hp']. split; [done|]. intros _. by apply Hp'.
  - injection E as <- <-. split; [done|by rewrite Es].
Qed.

Lemma available_kept : keeps (kept w) (controller_available_response (D := D) pkt).
Proof.
  intros s n s' E Ho. unfold controller_available_response in E. apply M_bind_Some in E as (a & s1 & [= <- <-] & E).
  destruct (_ && _) eqn:Ep; [|by injection E as <- <-]. apply andb_true_iff in Ep as [Ep%bool_decide_eq_true _].
  destruct (compare_guid _ (pending_controller_guid _)); [|destruct (compare_guid _ _); [|by injection E as <- <-]].
  - apply M_bind_Some in E as ([] & s2 & [= <-] & E). apply same_acq_acquire_packet in E. unfold same_acq in E. rewrite E.
    destruct s as [[]]. destruct Ho as [Ho _]. cbn in *. subst. by split.
  - apply M_bind_Some in E as ([] & s2 & [= <-] & E). apply M_bind_Some in E as (n' & s3 & E3 & E).
    apply M_bind_Some in E as ([] & s4 & [= <-] & [= <- <-]). apply same_acq_acquire_packet in E3. unfold same_acq in E3.
    destruct s as [[]], s3. destruct Ho as [Ho _]. cbn in *. subst. cbn. split; [|done]. split; [done|]. by destruct (truthy _).
Qed.
End Others.

Lemma get_rx_Some s p s1 : get_rx s = Some (p, s1) -> s1 = s /\ p = aecp_rx s /\ (536 <= length p)%nat.
Proof. unfold get_rx, load. destruct (Nat.leb_spec 536 (length (aecp_rx s))); [|done]. by intros [= <- <-]. Qed.

Lemma send_kept w src r s s' : finish src r s = Some (tt, s') -> kept w s s'.
Proof.
  apply (same_acq_kept w (finish src r)). destruct r; unfold finish, respond; keeps_auto.
Qed.

Lemma message_kept w env src mt n s s' :
  0 <= w < 2 ^ 64 -> Forall byte_ok (aecp_rx s) -> guid_at off_aecp_controller_guid (aecp_rx s) <> w ->
  process_avb_1722_1_aecp_aem_msg env src mt n s = Some (tt, s') -> kept w s s'.
Proof.
  intros Hw Hb Hwho E. unfold process_avb_1722_1_aecp_aem_msg in E. apply M_bind_Some in E as (pkt & s1 & Eg & E).
  apply get_rx_Some in Eg as (-> & -> & Hl). set (pkt := aecp_rx s) in *.
  destruct (mt =? AECP_CMD_AEM_COMMAND).
  - destruct (negb _); [by injection E as <-|]. apply M_bind_Some in E as (r & s1 & Ec & E).
    etrans; [|by eapply (send_kept w src r)].
    destruct (Z.eq_dec (AEM_MSG_GET_COMMAND_TYPE pkt) AECP_AEM_CMD_ACQUIRE_ENTITY) as [Eq|Hne];
      [|by apply same_acq_command, (f_equal (fun a => a)) in Ec; [intros Ho; rewrite Ec|]].
    rewrite Eq in Ec. unfold aem_command in Ec. cbn [Z.eqb AECP_AEM_CMD_ACQUIRE_ENTITY] in Ec.
    apply M_bind_Some in Ec as ([st len] & s2 & Ec & [= _ <-]). unfold process_aem_cmd_acquire in Ec.
    apply M_bind_Some in Ec as (p & s3 & Eg & Ec). apply get_rx_Some in Eg as (-> & -> & _). fold pkt in Ec.
    apply M_bind_Some in Ec as (st' & s3 & Ec & [= _ _ <-]).
    destruct (_ && _); [|by injection Ec as _ <-].
    destruct (truthy _); [eapply release_kept|eapply acquire_kept]; try exact Ec; try done; lia.
  - apply M_bind_Some in E as (len & s1 & Ec & E). etrans; [|by eapply (same_acq_kept w), E; keeps_auto].
    destruct (_ =? _); [|by injection Ec as _ <-]. eapply available_kept; exact Ec.
Qed.

(** A challenge starts the timer. *)
Lemma challenge_starts env src n pkt s r s' :
  aem_command env src n AECP_AEM_CMD_ACQUIRE_ENTITY s = Some (r, s') -> aecp_rx s = pkt ->
  entity_acquired_status (aecp_acq s) = AEM_ENTITY_ACQUIRED ->
  entity_acquired_status (aecp_acq s') = AEM_ENTITY_ACQUIRED_BUT_PENDING ->
  challenged env (aecp_acq s) (aecp_acq s').
Proof.
  intros E Hrx Hs Hs'. unfold aem_command in E. cbn [Z.eqb AECP_AEM_CMD_ACQUIRE_ENTITY] in E.
  apply M_bind_Some in E as ([st len] & s2 & E & [= _ <-]). unfold process_aem_cmd_acquire in E.
  apply M_bind_Some in E as (p & s3 & Eg & E). apply get_rx_Some in Eg as (-> & -> & _).
  apply M_bind_Some in E as (st' & s3 & E & [= _ _ <-]). destruct (_ && _); [|injection E as _ <-; congruence].
  destruct (truthy _).
  - unfold acquire_release in E. apply M_bind_Some in E as (a & s4 & [= <- <-] & E).
    rewrite bool_decide_eq_false_2 in E by (by rewrite Hs).
    destruct (compare_guid _ _).
    + apply M_bind_Some in E as ([] & s4 & [= <-] & [= _ <-]). destruct s as [[]]. by cbn in Hs'.
    + apply M_bind_Some in E as ([] & s4 & E & [= _ <-]). apply same_acq_set_owner in E. unfold same_acq in E. congruence.
  - unfold acquire_acquire in E. apply M_bind_Some in E as (a & s4 & [= <- <-] & E). rewrite Hs in E.
    apply M_bind_Some in E as (st1 & s4 & E1 & E). apply M_bind_Some in E as ([] & s5 & E & [= _ <-]).
    apply same_acq_set_owner in E. unfold same_acq in E. rewrite E in *. destruct (compare_guid _ _).
    + injection E1 as _ <-. congruence.
    + apply M_bind_Some in E1 as ([] & s6 & E1 & [= _ <-]). by apply ask_owner_acq in E1 as (_ & _ & H).
Qed.

(** The response to the question whether a controller is still there. *)
Record available_packet (pkt : list Z) : Prop := {
  vp_length : (536 <= length pkt)%nat;
  vp_type : GET_1722_1_MSG_TYPE pkt = AECP_CMD_AEM_RESPONSE;
  vp_command : AEM_MSG_GET_COMMAND_TYPE pkt = AECP_AEM_CMD_CONTROLLER_AVAILABLE;
}.

(** The packet for the challenger, and a change of the acquisition before it. *)
Lemma acquire_packet_total st (f : acquisition -> acquisition) s :
  aecp_ok (upd_aecp_acq f s) ->
  exists s', avb_1722_1_create_acquire_response_packet st (upd_aecp_acq f s) = Some (38, s') /\
    length (aecp_buf s') = AVB_1722_1_PACKET_SIZE.
Proof.
  intros Hok. destruct (acquire_packet_run st _ Hok) as (b & p & E & Lp). eexists. split; [exact E|].
  match goal with |- length (aecp_buf (upd_aecp_buf (fun _ => ?b) ?u)) = _ => change (length b = AVB_1722_1_PACKET_SIZE) end.
  rewrite length_app, (header_length Hmac) by apply Hok. by rewrite Lp.
Qed.

Lemma available_response_total pkt s :
  aecp_ok s -> exists n s', controller_available_response pkt s = Some (n, s') /\ n <= 38 /\
    length (aecp_buf s') = AVB_1722_1_PACKET_SIZE.
Proof.
  intros Hok. unfold controller_available_response. erewrite M_bind_run by reflexivity.
  destruct (_ && _); [|by exists 0, s; split_and!; [|lia|apply Hok]].
  destruct (compare_guid _ (pending_controller_guid _)); [|destruct (compare_guid _ _); [|by exists 0, s; split_and!; [|lia|apply Hok]]];
    erewrite M_bind_run by reflexivity.
  - match goal with |- context [upd_aecp_acq ?f s] => destruct (acquire_packet_total AECP_AEM_STATUS_SUCCESS f s) as (s' & E & Hb) end.
    { destruct Hok. destruct s as [[]]. by constructor. }
    exists 38, s'. by split_and!.
  - match goal with |- context [upd_aecp_acq ?f s] => destruct (acquire_packet_total AECP_AEM_STATUS_ENTITY_ACQUIRED f s) as (s' & E & Hb) end.
    { destruct Hok. destruct s as [[]]. by constructor. }
    erewrite M_bind_run by exact E. erewrite M_bind_run by reflexivity. eexists 38, _. by split_and!.
Qed.

Lemma receive_available_run env src n pkt s :
  AVB_1722_1_AEM_ENABLED = true -> available_packet pkt ->
  receive_aecp env src n pkt s = (controller_available_response pkt ≫= send_response) (upd_aecp_rx (fun _ => pkt) s).
Proof.
  intros Hen [Hl Ht Hc]. unfold receive_aecp. erewrite M_bind_run by reflexivity.
  assert (aecp_rx (upd_aecp_rx (fun _ => pkt) s) = pkt) as E by (by destruct s).
  generalize dependent (upd_aecp_rx (fun _ => pkt) s). intros s0 E.
  assert (get_rx s0 = Some (pkt, s0)) as Eg by (by rewrite (get_rx_run Hmac), E by (by rewrite E)).
  unfold process_avb_1722_1_aecp_packet. rewrite (M_bind_run _ _ _ _ _ Eg), Ht, Hen.
  change (AECP_CMD_AEM_RESPONSE =? AECP_CMD_AEM_COMMAND) with false. cbn [orb whenM]. rewrite Z.eqb_refl. unfold process_avb_1722_1_aecp_aem_msg.
  by rewrite (M_bind_run _ _ _ _ _ Eg), Hc.
Qed.

(** It is handled to the end. *)
Lemma available_answered env src n pkt s :
  AVB_1722_1_AEM_ENABLED = true -> available_packet pkt -> aecp_ok s -> exists s', receive_aecp env src n pkt s = Some (tt, s').
Proof.
  intros Hen Hp Hok. rewrite receive_available_run by done.
  destruct (available_response_total pkt (upd_aecp_rx (fun _ => pkt) s)) as (k & s1 & E1 & Hk & Hb).
  { destruct Hok. by constructor. }
  erewrite M_bind_run by exact E1. unfold send_response. destruct (Z.ltb_spec 0 k); cbn [whenM]; [|by eexists].
  change (Z.of_nat AVB_1722_1_AECP_PAYLOAD_OFFSET) with 22. change (Z.of_nat ethernet_hdr_size) with 14.
  rewrite (eth_send_packet_run Hmac); [by eexists|lia|rewrite Hb; unfold AVB_1722_1_PACKET_SIZE; lia].
Qed.

(** A well-formed command is answered. *)
Lemma acquire_answered env src n pkt s :
  AVB_1722_1_AEM_ENABLED = true -> acquire_packet pkt -> acquire_ok s -> length src = 6%nat -> length (at_src_addr env) = 6%nat ->
  exists s', receive_aecp env src n pkt s = Some (tt, s').
Proof.
  intros Hen Hp Hok Hsrc Hat. set (s0 := upd_aecp_rx (fun _ => pkt) s).
  assert (acquire_ok s0) as Hok0 by (destruct Hok as [[] ? ?]; by constructor).
  destruct (acquire_command_run env src n pkt s0 Hp Hok0 Hat eq_refl) as (s1 & E1 & [Hok1 _ Hl1 Ht1 _ _]).
  destruct Hp as [Hp _ _ _ Hlen].
  destruct (command_answered Hmac env src n AECP_AEM_CMD_ACQUIRE_ENTITY pkt _ (GET_1722_1_DATALENGTH pkt - 12) false s s1
    Hen Hp Hsrc (verdict_status _ _) ltac:(lia) E1 (ao_ok _ Hok1) Hl1 Ht1) as (s' & E & _). by exists s'.
Qed.

(** One too short for its fixed part is not: the length of what follows that part is
    negative, and an [unsigned short]. The copy of the response overruns. *)
Lemma short_acquire_overruns env src n pkt s :
  AVB_1722_1_AEM_ENABLED = true -> aem_packet AECP_AEM_CMD_ACQUIRE_ENTITY pkt -> Forall byte_ok pkt ->
  short_at (off_aem_command + 12) pkt = AEM_ENTITY_TYPE -> short_at (off_aem_command + 14) pkt = 0 ->
  GET_1722_1_DATALENGTH pkt < 12 -> acquire_ok s -> length src = 6%nat -> length (at_src_addr env) = 6%nat ->
  receive_aecp env src n pkt s = None.
Proof.
  intros Hen Hp Hb Ht Hi Hlen Hok Hsrc Hat. set (s0 := upd_aecp_rx (fun _ => pkt) s).
  assert (acquire_ok s0) as Hok0 by (destruct Hok as [[] ? ?]; by constructor).
  destruct (acquire_handler_run env src n pkt s0 Hp Hb Ht Hi Hok0 Hat eq_refl) as (s1 & E1 & [Hok1 _ Hl1 _ _ _]).
  change (aecp_rx s0) with pkt in Hl1.
  rewrite (receive_command_run Hmac env src n AECP_AEM_CMD_ACQUIRE_ENTITY) by done. rewrite (M_bind_run _ _ _ _ _ E1).
  pose proof (data_length_range Hmac pkt Hb) as Hpos.
  assert (u16 (GET_1722_1_DATALENGTH pkt - 12) = GET_1722_1_DATALENGTH pkt - 12 + 65536) as ->
    by (unfold u16, wrap; symmetry; apply (Z.mod_unique _ _ (-1)); lia).
  cbn [finish]. unfold respond. destruct (Z.ltb_spec 0 (GET_1722_1_DATALENGTH pkt - 12 + 65536)); [cbn [whenM]|lia].
  destruct Hok1 as [[Hbuf _ _] _ _]. unfold AVB_1722_1_PACKET_SIZE in Hbuf. pose proof (ap_length _ _ Hp).
  unfold mbind at 1, M_bind at 1. unfold avb_1722_1_create_aecp_aem_response.
  erewrite M_bind_run by (apply (response_header_run Hmac); [done|lia|rewrite Hl1; lia]).
  unfold copy_rx_tx. destruct (Z.ltb_spec (GET_1722_1_DATALENGTH pkt - 12 + 65536 + 2) 0); [lia|].
  set (s2 := upd_aecp_buf _ s1). assert (length (aecp_buf s2) = 552%nat) as Hb2.
  { unfold s2. destruct s1. norm_aecp. rewrite (response_length Hmac) by lia. done. }
  clearbody s2. unfold rx_read, load, mbind, M_bind, read_at. destruct (Nat.leb_spec (AVB_1722_1_AECP_PAYLOAD_OFFSET +
    Z.to_nat (GET_1722_1_DATALENGTH pkt - 12 + 65536 + 2)) (length (aecp_rx s2))); [|done].
  unfold tx_write, store, write_at. set (bs := bytes_at _ _ _).
  assert (length bs = Z.to_nat (GET_1722_1_DATALENGTH pkt - 12 + 65536 + 2)) as Hbs by (by apply bytes_at_length).
  destruct (Nat.leb_spec (ethernet_hdr_size + AVB_1722_1_AECP_PAYLOAD_OFFSET + length bs) (length (aecp_buf s2))); [|done].
  rewrite Hbs in *. lia.
Qed.

(** C15: whoever has acquired the entity owns it until they release it or a timer runs
    out: no packet with another controller's identification takes it away, and a
    persistent owner stays persistent. The packets that act on the acquisition, which are
    the well-formed ACQUIRE_ENTITY commands and the CONTROLLER_AVAILABLE responses, are
    handled to the end; any other packet of any content leaves the owner as it is if it
    is handled without overrunning a buffer. *)
Theorem only_owner_releases env src n pkt w s :
  AVB_1722_1_AEM_ENABLED = true -> length src = 6%nat -> length (at_src_addr env) = 6%nat ->
  acquire_ok s -> owned_by w (aecp_acq s) -> Forall byte_ok pkt -> guid_at off_aecp_controller_guid pkt <> w ->
  (acquire_packet pkt \/ available_packet pkt -> exists s', receive_aecp env src n pkt s = Some (tt, s')) /\
  (forall s', receive_aecp env src n pkt s = Some (tt, s') ->
     owned_by w (aecp_acq s') /\
     (own_of (aecp_acq s) = Owned w true -> own_of (aecp_acq s') = Owned w true)).
Proof.
  intros Hen Hsrc Hat Hok Ho Hb Hwho. split.
  { intros [Hp | Hp]; [by apply acquire_answered | by apply available_answered; [..|apply Hok]]. }
  intros s' E. assert (0 <= w < 2 ^ 64) as Hw by (destruct Ho as [<- _]; apply Hok).
  unfold receive_aecp in E. apply M_bind_Some in E as ([] & s0 & [= <-] & E).
  set (s0 := upd_aecp_rx (fun _ => pkt) s) in *. assert (aecp_rx s0 = pkt) as Hrx by (by destruct s).
  assert (kept w s0 s') as K.
  { unfold process_avb_1722_1_aecp_packet in E. apply M_bind_Some in E as (p & s1 & Eg & E).
    apply get_rx_Some in Eg as (-> & -> & _). destruct (_ || _).
    - rewrite Hen in E. eapply (message_kept w env src); [done|by rewrite Hrx|by rewrite Hrx|exact E].
    - eapply (same_acq_kept w); [|exact E]. keeps_auto. }
  assert (aecp_acq s0 = aecp_acq s) as Ea by (by destruct s). unfold kept in K. rewrite Ea in K.
  destruct (K Ho) as [[Hg' Hs'] Hp]. split; [done|]. unfold own_of.
  destruct (entity_acquired_status (aecp_acq s)) eqn:Es; try done. intros _. by rewrite Hp, Hg'.
Qed.
End Acquire.
