(* ===== verification/AecpHandover.v ===== *)
(** AECP: an owner that does not answer is replaced by its challenger, in time. *)
From S2P Require Import Prelude Bytes MiscTimer MrpTypes AvbApi AvbUtil AcmpTypes AcmpSpec AecpTypes AecpControls Aecp AecpRun AecpAnswer AecpAcquire.
From stdpp Require Import base list list_numbers numbers option.
From Stdlib Require Import ZArith Lia.
#[local] Open Scope Z_scope.

(** The period of the timer in a state, in centiseconds. *)
Definition phase (st : controller_available_t) : Z :=
  match st with
  | AECP_AEM_CONTROLLER_AVAILABLE_IN_A => 12
  | AECP_AEM_CONTROLLER_AVAILABLE_IDLE => 0
  | AECP_AEM_CONTROLLER_AVAILABLE_IN_B => 12
  | AECP_AEM_CONTROLLER_AVAILABLE_IN_C => 1
  | AECP_AEM_CONTROLLER_AVAILABLE_IN_D => 11
  | AECP_AEM_CONTROLLER_AVAILABLE_IN_E => 12
  | AECP_AEM_CONTROLLER_AVAILABLE_IN_F => 2
  end.

(** The periods before a state. *)
Definition elapsed (st : controller_available_t) : Z :=
  match st with
  | AECP_AEM_CONTROLLER_AVAILABLE_IN_A => 0
  | AECP_AEM_CONTROLLER_AVAILABLE_IN_B => 12
  | AECP_AEM_CONTROLLER_AVAILABLE_IN_C => 24
  | AECP_AEM_CONTROLLER_AVAILABLE_IN_D => 25
  | AECP_AEM_CONTROLLER_AVAILABLE_IN_E => 36
  | AECP_AEM_CONTROLLER_AVAILABLE_IN_F => 48
  | AECP_AEM_CONTROLLER_AVAILABLE_IDLE => 50
  end.

(** The multiplier [avb_1722_1_aecp_aem_init] sets. *)
Definition available_multiplier : Z := 5.

Definition at_time (t : Z) (env : aecp_env) : aecp_env :=
  MkAecpEnv (u32 t) (at_src_addr env) (behind_descriptor env) (stack_value_size env) (stack_values_length env)
    (stack_values env) (stack_num_string env) (stack_signal env) (clock_reading env) (flash_polls env).

Section Handover.
Context {D : Type} `{cfg : Config} `{acfg : AcmpConfig} `{ecfg : AecpConfig}
  `{avb : !avb_interface D} `{cb : !control_callbacks D} `{fl : !flash_library D}.
Context (Hmac : length my_mac_addr = 6%nat).
Implicit Types s : aecp D.

(** The periodic function called at the times [ts]. *)
Definition periodic_at (env : aecp_env) (ts : list Z) : M (aecp D) unit :=
  forM ts (fun t => avb_1722_1_aecp_aem_periodic (at_time t env)).

(** A response to the challenger. *)
Definition told (mac : list Z) (status : Z) (ev : aecp_event) : Prop :=
  exists f, ev = AecpTx f /\ take 6 f = mac /\ frame_type f = 1 /\ frame_status f = status.

(** The response is built, the acquisition changes, the response is sent. *)
Lemma packet_then_send st f s :
  acquire_ok s -> status_ok st ->
  exists n s' ev, avb_1722_1_create_acquire_response_packet st s = Some (38, n) /\
    eth_send_packet 64 (upd_aecp_acq f n) = Some (tt, s') /\ aecp_acq s' = f (aecp_acq s) /\
    length (aecp_buf s') = AVB_1722_1_PACKET_SIZE /\ aecp_out s' = aecp_out s ++ [ev] /\
    told (pending_controller_mac (aecp_acq s)) st ev.
Proof.
  intros [Hok _ _] Hst. destruct (acquire_packet_run Hmac st s Hok) as (b & p & E & Lp).
  set (hd := header (pending_controller_mac (aecp_acq s)) AECP_CMD_AEM_RESPONSE st 28 b) in *.
  assert (length hd = 18%nat) as Hh by (apply (header_length Hmac), Hok).
  set (n := upd_aecp_buf (fun _ => hd ++ p) s) in *. unfold AVB_1722_1_PACKET_SIZE in Lp.
  assert (aecp_buf (upd_aecp_acq f n) = hd ++ p) as Eb by (unfold n; by destruct s).
  assert (length (hd ++ p) = AVB_1722_1_PACKET_SIZE) as Lb by (rewrite length_app, Hh, Lp; done).
  exists n, (upd_aecp_out (fun l => l ++ [AecpTx (take 64 (hd ++ p))]) (upd_aecp_acq f n)), (AecpTx (take 64 (hd ++ p))).
  split_and!; [exact E| | | | |].
  - rewrite (eth_send_packet_run Hmac) by (rewrite ?Eb, ?Lb; unfold AVB_1722_1_PACKET_SIZE; lia). by rewrite Eb.
  - unfold n. by destruct s.
  - unfold n in *. by destruct s.
  - unfold n. by destruct s.
  - eexists. split; [done|]. rewrite take_app_ge, Hh by lia.
    destruct (header_fields Hmac (pending_controller_mac (aecp_acq s)) AECP_CMD_AEM_RESPONSE st 28 b (take (64 - 18) p) (ok_pending_mac _ Hok)
      ltac:(by vm_compute) Hst ltac:(by vm_compute)) as (F1 & F2 & F3 & _). done.
Qed.

(** What a timeout does to the acquisition, and what the challenger is told. *)
Definition challenge_over (now : Z) (a : acquisition) : acquisition :=
  match aecp_aem_controller_available_state a with
  | AECP_AEM_CONTROLLER_AVAILABLE_IN_F =>
      upd_aecp_aem_controller_available_state (fun _ => AECP_AEM_CONTROLLER_AVAILABLE_IDLE)
      (upd_acquired_controller_mac (fun _ => pending_controller_mac a)
      (upd_acquired_controller_guid (fun _ => pending_controller_guid a)
      (upd_entity_acquired_status (fun _ =>
         if truthy (pending_persistent a) then AEM_ENTITY_ACQUIRED_AND_PERSISTENT else AEM_ENTITY_ACQUIRED) a)))
  | st => upd_aecp_aem_controller_available_state next_controller_available
           (upd_aecp_aem_controller_available_timer (start_avb_timer now (phase (next_controller_available st))) a)
  end.
Definition told_status (st : controller_available_t) : Z :=
  match st with AECP_AEM_CONTROLLER_AVAILABLE_IN_F => AECP_AEM_STATUS_SUCCESS | _ => AECP_AEM_STATUS_IN_PROGRESS end.

Lemma timeout_run now s :
  acquire_ok s -> aecp_aem_controller_available_state (aecp_acq s) <> AECP_AEM_CONTROLLER_AVAILABLE_IDLE ->
  exists s' ev,
    (cd_len ← controller_available_timeout now;
     whenM (truthy cd_len) (eth_send_packet (Z.max 64 cd_len))) s = Some (tt, s') /\
    acquire_ok s' /\ aecp_acq s' = challenge_over now (aecp_acq s) /\ aecp_out s' = aecp_out s ++ [ev] /\
    told (pending_controller_mac (aecp_acq s)) (told_status (aecp_aem_controller_available_state (aecp_acq s))) ev.
Proof.
  intros Hok Hst. set (a := aecp_acq s) in *.
  destruct (decide (aecp_aem_controller_available_state a = AECP_AEM_CONTROLLER_AVAILABLE_IN_F)) as [EF|NF].
  - set (g := fun a => upd_acquired_controller_mac (fun _ => pending_controller_mac a)
      (upd_acquired_controller_guid (fun _ => pending_controller_guid a)
      (upd_entity_acquired_status (fun _ =>
         if truthy (pending_persistent a) then AEM_ENTITY_ACQUIRED_AND_PERSISTENT else AEM_ENTITY_ACQUIRED) a))).
    set (s1 := upd_aecp_acq g s). assert (acquire_ok s1) as Hok1
      by (destruct Hok as [[] ? ?]; subst a; destruct s as [[]]; unfold s1, g; constructor; [constructor|..]; done).
    destruct (packet_then_send AECP_AEM_STATUS_SUCCESS (upd_aecp_aem_controller_available_state (fun _ => AECP_AEM_CONTROLLER_AVAILABLE_IDLE))
      s1 Hok1) as (n & s' & ev & E1 & E2 & Ha & Hb & Ho & Hev); [split; by vm_compute|].
    assert (controller_available_timeout now s = Some (38, upd_aecp_acq (upd_aecp_aem_controller_available_state
      (fun _ => AECP_AEM_CONTROLLER_AVAILABLE_IDLE)) n)) as Er.
    { unfold controller_available_timeout. erewrite M_bind_run by reflexivity. fold a. rewrite EF.
      erewrite M_bind_run by reflexivity. by rewrite (M_bind_run _ _ _ _ _ E1). }
    exists s', ev. rewrite (M_bind_run _ _ _ _ _ Er).
    split_and!; [exact E2| | | |].
    + destruct Hok as [[] ? ?]. subst a. destruct s as [[]]. unfold s1, g in *. cbn in *.
      constructor; [constructor|..]; rewrite ?Ha; done.
    + rewrite Ha. unfold challenge_over. rewrite EF. subst a. by destruct s.
    + rewrite Ho. unfold s1. by destruct s.
    + rewrite EF. unfold s1 in Hev. by destruct s as [[]].
  - set (f := fun a => upd_aecp_aem_controller_available_state next_controller_available
      (upd_aecp_aem_controller_available_timer (start_avb_timer now (phase (next_controller_available (aecp_aem_controller_available_state a)))) a)).
    destruct (packet_then_send AECP_AEM_STATUS_IN_PROGRESS f s Hok) as (n & s' & ev & E1 & E2 & Ha & Hb & Ho & Hev); [split; by vm_compute|].
    fold a in Ha, Hev. assert (aecp_acq n = a) as En by (apply same_acq_acquire_packet in E1; exact E1).
    assert (exists t, available_timeouts !! controller_available_index (aecp_aem_controller_available_state a) = Some t /\
      t = phase (next_controller_available (aecp_aem_controller_available_state a))) as (t & Et & Ep)
      by (destruct (aecp_aem_controller_available_state a); by eauto).
    assert (upd_aecp_acq f n = upd_aecp_acq (fun a => upd_aecp_aem_controller_available_state next_controller_available
      (upd_aecp_aem_controller_available_timer (start_avb_timer now t) a)) n) as Ef
      by (rewrite Ep, <- En; unfold f; by destruct n as [[]]).
    set (g := fun a => upd_aecp_aem_controller_available_state _ _) in Ef.
    assert (controller_available_timeout now s = Some (38, upd_aecp_acq g n)) as Er.
    { unfold controller_available_timeout. erewrite M_bind_run by reflexivity. fold a.
      assert (load (fun _ : aecp D => available_timeouts !! controller_available_index (aecp_aem_controller_available_state a)) n = Some (t, n)) as El
        by (unfold load; by rewrite Et).
      destruct (aecp_aem_controller_available_state a); try (by destruct Hst); try (by destruct NF);
        by rewrite (M_bind_run _ _ _ _ _ E1), (M_bind_run _ _ _ _ _ El). }
    exists s', ev. rewrite Ef in E2. split_and!.
    + rewrite (M_bind_run _ _ _ _ _ Er). exact E2.
    + destruct Hok as [[] ? ?]. subst a. constructor; [constructor|..]; rewrite ?Ha; destruct s as [[]]; done.
    + rewrite Ha. unfold challenge_over, f. by destruct (aecp_aem_controller_available_state a).
    + done.
    + by destruct (aecp_aem_controller_available_state a).
Qed.

(** ** Time *)

Definition rank (st : controller_available_t) : Z := Z.of_nat (controller_available_index st).

Context (t0 G : Z) (HG : 0 <= G < 2 ^ 30) (w c : Z) (p : bool) (mac : list Z) (out : list aecp_event).

(** The challenger waits, [t] being the time of the last call. *)
Record waiting (st : controller_available_t) (t : Z) s : Prop := {
  wt_ok : acquire_ok s;
  wt_state : aecp_aem_controller_available_state (aecp_acq s) = st;
  wt_busy : st <> AECP_AEM_CONTROLLER_AVAILABLE_IDLE;
  wt_own : own_of (aecp_acq s) = Contested w c p;
  wt_mac : pending_controller_mac (aecp_acq s) = mac;
  wt_active : 0 < active (aecp_aem_controller_available_timer (aecp_acq s)) <= available_multiplier;
  wt_multiplier : timeout_multiplier (aecp_aem_controller_available_timer (aecp_acq s)) = available_multiplier;
  wt_deadline : exists tk T,
    deadline tk (phase st * TICKS_PER_CENTISECOND) G available_multiplier T t (aecp_aem_controller_available_timer (aecp_acq s)) /\
    t0 + 5 * (elapsed st * TICKS_PER_CENTISECOND) <= tk <= t0 + 5 * (elapsed st * TICKS_PER_CENTISECOND + rank st * G);
  wt_out : exists evs, aecp_out s = out ++ evs /\
    Forall2 (told mac) (replicate (controller_available_index st) AECP_AEM_STATUS_IN_PROGRESS) evs;
}.

(** The challenger has become the owner. *)
Record replaced s : Prop := {
  rp_ok : acquire_ok s;
  rp_own : own_of (aecp_acq s) = Owned c p;
  rp_stopped : active (aecp_aem_controller_available_timer (aecp_acq s)) = 0;
  rp_out : exists evs, aecp_out s = out ++ evs /\
    Forall2 (told mac) (replicate 5 AECP_AEM_STATUS_IN_PROGRESS ++ [AECP_AEM_STATUS_SUCCESS]) evs;
}.

Lemma started_deadline t cs tmr :
  0 <= cs <= 12 -> timeout_multiplier tmr = available_multiplier ->
  let tmr' := start_avb_timer (u32 t) cs tmr in
  deadline t (cs * TICKS_PER_CENTISECOND) G available_multiplier (t + cs * TICKS_PER_CENTISECOND) t tmr' /\
  active tmr' = available_multiplier /\ timeout_multiplier tmr' = available_multiplier.
Proof.
  intros Hcs Hm tmr'. unfold tmr', deadline, start_avb_timer. cbn. rewrite Hm.
  unfold TICKS_PER_CENTISECOND, XS1_TIMER_KHZ, available_multiplier. unfold u32, wrap.
  rewrite (Z.mod_small (cs * _)) by lia. rewrite Z.add_mod_idemp_l by lia. split_and!; try done; lia.
Qed.

Lemma expired_multiplier now tmr : timeout_multiplier (avb_timer_expired now tmr).2 = timeout_multiplier tmr.
Proof. unfold avb_timer_expired. destruct (active tmr =? 0); [done|]. by destruct (timeafter _ _). Qed.

(** The timer is looked at. *)
Definition looked_at (tmr : avb_timer) s : aecp D :=
  upd_aecp_acq (upd_aecp_aem_controller_available_timer (fun _ => tmr)) s.

Lemma looked_at_ok tmr s : acquire_ok s -> acquire_ok (looked_at tmr s).
Proof. intros [[] ? ?]. unfold looked_at. destruct s as [[]]. by constructor. Qed.

Lemma periodic_run env t s :
  let '(expired, tmr) := avb_timer_expired (u32 t) (aecp_aem_controller_available_timer (aecp_acq s)) in
  avb_1722_1_aecp_aem_periodic (at_time t env) s =
    (whenM expired (cd_len ← controller_available_timeout (u32 t);
       whenM (truthy cd_len) (eth_send_packet (Z.max 64 cd_len)))) (looked_at tmr s).
Proof.
  destruct (avb_timer_expired _ _) as [expired tmr] eqn:E. unfold avb_1722_1_aecp_aem_periodic.
  erewrite M_bind_run by reflexivity. cbn [aecp_now at_time]. rewrite E. by erewrite M_bind_run by reflexivity.
Qed.

Lemma waiting_looked_at st t t1 tk T tmr s :
  waiting st t s -> 0 < active tmr <= available_multiplier -> timeout_multiplier tmr = available_multiplier ->
  deadline tk (phase st * TICKS_PER_CENTISECOND) G available_multiplier T t1 tmr ->
  t0 + 5 * (elapsed st * TICKS_PER_CENTISECOND) <= tk <= t0 + 5 * (elapsed st * TICKS_PER_CENTISECOND + rank st * G) ->
  waiting st t1 (looked_at tmr s).
Proof.
  intros [H1 H2 H3 H4 H5 H6 H7 _ H10] Ha Hm Hd Htk.
  pose proof (looked_at_ok tmr s H1). unfold looked_at in *. destruct s as [[]].
  constructor; try done. by exists tk, T.
Qed.

(** Stages follow each other. *)
Lemma next_stage st :
  st <> AECP_AEM_CONTROLLER_AVAILABLE_IDLE -> st <> AECP_AEM_CONTROLLER_AVAILABLE_IN_F ->
  let st' := next_controller_available st in
  st' <> AECP_AEM_CONTROLLER_AVAILABLE_IDLE /\ elapsed st' = elapsed st + phase st /\ rank st' = rank st + 1 /\
  0 <= phase st' <= 12 /\ told_status st = AECP_AEM_STATUS_IN_PROGRESS /\
  replicate (controller_available_index st') AECP_AEM_STATUS_IN_PROGRESS =
    replicate (controller_available_index st) AECP_AEM_STATUS_IN_PROGRESS ++ [AECP_AEM_STATUS_IN_PROGRESS].
Proof. destruct st; intros H1 H2; try done; split_and!; by vm_compute. Qed.

(** The timer has run out. *)
Lemma timeout_waiting st t t1 tk tmr s :
  waiting st t s -> tk + 5 * (phase st * TICKS_PER_CENTISECOND) < t1 <= tk + 5 * (phase st * TICKS_PER_CENTISECOND + G) ->
  t0 + 5 * (elapsed st * TICKS_PER_CENTISECOND) <= tk <= t0 + 5 * (elapsed st * TICKS_PER_CENTISECOND + rank st * G) ->
  active tmr = 0 -> timeout_multiplier tmr = available_multiplier ->
  exists s', (cd_len ← controller_available_timeout (u32 t1);
       whenM (truthy cd_len) (eth_send_packet (Z.max 64 cd_len))) (looked_at tmr s) = Some (tt, s') /\
    ((exists st', waiting st' t1 s') \/ (replaced s' /\ t0 + 250 * TICKS_PER_CENTISECOND < t1)).
Proof.
  intros [H1 H2 H3 H4 H5 H6 H7 _ (evs & H10 & H11)] Ht1 Htk Ha Hm.
  destruct (timeout_run (u32 t1) (looked_at tmr s)) as (s' & ev & E & Hok & Hacq & Hout & Htold).
  { by apply looked_at_ok. } { unfold looked_at. destruct s as [[]]. cbn in *. by rewrite H2. }
  exists s'. split; [exact E|].
  assert (exists evs', aecp_out s' = out ++ evs' /\ evs' = evs ++ [ev]) as (evs' & Ho' & ->).
  { eexists. split; [|done]. rewrite Hout. unfold looked_at. destruct s. cbn in *. by rewrite H10, <- app_assoc. }
  assert (pending_controller_mac (aecp_acq (looked_at tmr s)) = mac /\
    aecp_aem_controller_available_state (aecp_acq (looked_at tmr s)) = st) as [Em Est]
    by (unfold looked_at; destruct s as [[]]; done).
  rewrite Em, Est in Htold.
  destruct (decide (st = AECP_AEM_CONTROLLER_AVAILABLE_IN_F)) as [EF|NF].
  - right. split; [|rewrite EF in *; unfold TICKS_PER_CENTISECOND, XS1_TIMER_KHZ in *; cbn [phase elapsed] in *; lia].
    constructor; [done|rewrite Hacq; unfold challenge_over; rewrite Est, EF|rewrite Hacq; unfold challenge_over; rewrite Est, EF|].
    + unfold looked_at, own_of in *. destruct s as [[]]. cbn in *. destruct entity_acquired_status; try done.
      injection H4 as <- <- <-. by destruct (truthy _).
    + unfold looked_at. destruct s as [[]]. done.
    + eexists. split; [exact Ho'|]. rewrite EF in H11, Htold. apply Forall2_app; [done|]. by repeat constructor.
  - left. destruct (next_stage st H3 NF) as (N1 & N2 & N3 & N4 & N5 & N6). exists (next_controller_available st).
    destruct (started_deadline t1 (phase (next_controller_available st)) tmr N4 Hm) as (S1 & S2 & S3).
    assert (aecp_acq s' = upd_aecp_aem_controller_available_state next_controller_available
      (upd_aecp_aem_controller_available_timer (start_avb_timer (u32 t1) (phase (next_controller_available st))) (aecp_acq (looked_at tmr s)))) as Ea.
    { rewrite Hacq. unfold challenge_over. rewrite Est. by destruct st. }
    clear Hacq. unfold looked_at in Ea. destruct s as [[] upl op st0 lock desc rx buf out0 dev]. cbn in *.
    constructor; rewrite ?Ea; try done.
    + cbn. by rewrite H2.
    + cbn. rewrite S2. unfold available_multiplier. lia.
    + cbn. exists t1, (t1 + phase (next_controller_available st) * TICKS_PER_CENTISECOND). split; [done|].
      rewrite N2, N3. unfold TICKS_PER_CENTISECOND, XS1_TIMER_KHZ in *. lia.
    + eexists. split; [exact Ho'|]. rewrite N6. apply Forall2_app; [done|]. rewrite N5 in Htold. by repeat constructor.
Qed.

Lemma poll_waiting env st t t1 s :
  waiting st t s -> t <= t1 <= t + G ->
  exists s', avb_1722_1_aecp_aem_periodic (at_time t1 env) s = Some (tt, s') /\
    t1 <= t0 + 250 * TICKS_PER_CENTISECOND + 30 * G /\
    ((exists st', waiting st' t1 s') \/ (replaced s' /\ t0 + 250 * TICKS_PER_CENTISECOND < t1)).
Proof.
  intros Hw Ht1. destruct (wt_deadline _ _ _ Hw) as (tk & T & Hd & Htk). pose proof (wt_active _ _ _ Hw) as Ha.
  assert (0 <= rank st <= 5 /\ 0 <= elapsed st /\ 0 <= phase st <= 12 /\ elapsed st + phase st <= 50 /\ rank st + 1 <= 6) as (R1 & R2 & R3 & R4 & R5)
    by (pose proof (wt_busy _ _ _ Hw); destruct st; unfold rank; cbn [elapsed phase controller_available_index]; done || lia).
  pose proof (periodic_run env t1 s) as Hrun. pose proof (expired_multiplier (u32 t1) (aecp_aem_controller_available_timer (aecp_acq s))) as Hm.
  rewrite (wt_multiplier _ _ _ Hw) in Hm. set (P := phase st * TICKS_PER_CENTISECOND) in *.
  assert (0 <= P /\ P + G < 2 ^ 31) as [HP HPG] by (unfold P, TICKS_PER_CENTISECOND, XS1_TIMER_KHZ in *; lia).
  set (E := elapsed st * TICKS_PER_CENTISECOND) in *.
  assert (E + P <= 50 * TICKS_PER_CENTISECOND) as HEP by (unfold E, P, TICKS_PER_CENTISECOND, XS1_TIMER_KHZ; lia).
  assert (t0 + 5 * (E + P) + 5 * (rank st + 1) * G <= t0 + 250 * TICKS_PER_CENTISECOND + 30 * G) as Hend by nia.
  destruct (avb_timer_expired_step tk P G available_multiplier HP HPG T t t1 _ Hd (proj1 Ha) Ht1)
    as [(Hle & Ee & Hd1) | (tmr' & Ee & Ha' & HT & Hd1)]; rewrite Ee in Hrun, Hm; cbn [snd] in Hm;
    destruct Hd as (_ & _ & _ & HT1 & HT2); unfold available_multiplier in *.
  - eexists. split; [exact Hrun|]. split; [nia|]. left. exists st. by apply (waiting_looked_at st t t1 tk T).
  - destruct (Z.eqb_spec (active (aecp_aem_controller_available_timer (aecp_acq s))) 1) as [E1|E1].
    + destruct (timeout_waiting st t t1 tk tmr' s Hw) as (s' & Es & Hs); [fold P; nia|exact Htk|lia|done|].
      exists s'. cbn [whenM] in Hrun. split; [by rewrite Hrun|]. split; [nia|exact Hs].
    + eexists. split; [exact Hrun|]. split; [nia|]. left. exists st.
      apply (waiting_looked_at st t t1 tk (t1 + P)); try done. unfold available_multiplier. lia.
Qed.

(** Once the timer has stopped, nothing happens. *)
Lemma poll_replaced env t s : replaced s -> exists s', avb_1722_1_aecp_aem_periodic (at_time t env) s = Some (tt, s') /\ replaced s'.
Proof.
  intros [H1 H2 H3 H4]. pose proof (periodic_run env t s) as Hrun. unfold avb_timer_expired in Hrun. rewrite H3 in Hrun. cbn in Hrun.
  eexists. split; [exact Hrun|]. pose proof (looked_at_ok (aecp_aem_controller_available_timer (aecp_acq s)) s H1).
  unfold looked_at in *. destruct s as [[]]. by constructor.
Qed.

Lemma polls_replaced env ts s : replaced s -> exists s', periodic_at env ts s = Some (tt, s') /\ replaced s'.
Proof.
  revert s. induction ts as [|t ts IH]; intros s Hs; [by exists s|]. destruct (poll_replaced env t s Hs) as (s1 & E & H1).
  destruct (IH s1 H1) as (s' & E' & H'). exists s'. split; [|done]. unfold periodic_at in *. cbn [forM].
  by rewrite (M_bind_run _ _ _ _ _ E).
Qed.

Lemma polls_waiting env ts : forall st t s,
  waiting st t s -> polled_within G t ts ->
  exists s', periodic_at env ts s = Some (tt, s') /\
    ((own_of (aecp_acq s') = Contested w c p /\
      Forall (fun t => t <= t0 + 250 * TICKS_PER_CENTISECOND + 30 * G) ts) \/
     (replaced s' /\ Exists (fun t => t0 + 250 * TICKS_PER_CENTISECOND < t) ts)).
Proof.
  unfold periodic_at. induction ts as [|t1 ts IH]; intros st t s Hw Hts.
  - exists s. split; [done|]. left. split; [apply Hw|done].
  - destruct Hts as [Ht1 Hts]. destruct (poll_waiting env st t t1 s Hw Ht1) as (s1 & E & Hb & Hs1). cbn [forM].
    rewrite (M_bind_run _ _ _ _ _ E). destruct Hs1 as [[st' Hw1] | [Hr Hlt]].
    + destruct (IH st' t1 s1 Hw1 Hts) as (s' & E' & [[Ho HF] | [Hr HE]]); exists s'; (split; [exact E'|]).
      * left. split; [done|]. by constructor.
      * right. split; [done|]. by apply Exists_cons_tl.
    + destruct (polls_replaced env ts s1 Hr) as (s' & E' & H'). exists s'. split; [exact E'|]. right.
      split; [done|]. by apply Exists_cons_hd.
Qed.
End Handover.

Section Challenge.
Context {D : Type} `{cfg : Config} `{acfg : AcmpConfig} `{ecfg : AecpConfig}
  `{avb : !avb_interface D} `{cb : !control_callbacks D} `{fl : !flash_library D}.
Implicit Types s : aecp D.

(** C16: a challenge is decided. When a controller asks, with a well-formed ACQUIRE_ENTITY
    command, for an entity that another one has acquired without persistence, one
    CONTROLLER_AVAILABLE command asks the owner, at the address saved for it, whether it
    is still there, and the challenger is answered IN_PROGRESS. If nothing more arrives,
    the challenger owns the entity - with the persistence it asked for, and told so after
    five more messages that tell it to wait - once the periodic function has been called
    later than 2.5 seconds and 30 polling intervals after the challenge, where each call
    comes at most an interval after the one before; and whatever the times of the calls,
    the owner is not replaced before 2.5 seconds have passed. (The comments speak of 500
    ms; and what is saved as an address is not one.) *)
Theorem silent_owner_replaced env src n pkt t0 G ts w s :
  length my_mac_addr = 6%nat -> AVB_1722_1_AEM_ENABLED = true -> length src = 6%nat -> length (at_src_addr env) = 6%nat ->
  acquire_packet pkt -> AEM_ACQUIRE_ENTITY_RELEASE_FLAG pkt = 0 ->
  acquire_ok s -> own_of (aecp_acq s) = Owned w false -> guid_at off_aecp_controller_guid pkt <> w ->
  timeout_multiplier (aecp_aem_controller_available_timer (aecp_acq s)) = available_multiplier ->
  0 <= G < 2 ^ 30 -> polled_within G t0 ts ->
  let c := guid_at off_aecp_controller_guid pkt in
  let p := truthy (AEM_ACQUIRE_ENTITY_PERSISTENT_FLAG pkt) in
  exists s1 s' f g, receive_aecp (at_time t0 env) src n pkt s = Some (tt, s1) /\
    aecp_out s1 = aecp_out s ++ [AecpTx f; AecpTx g] /\
    frame_type f = AECP_CMD_AEM_COMMAND /\
    AEM_MSG_GET_COMMAND_TYPE (frame_packet f) = AECP_AEM_CMD_CONTROLLER_AVAILABLE /\
    take 6 f = acquired_controller_mac (aecp_acq s) /\
    answers src pkt AECP_AEM_STATUS_IN_PROGRESS 2 g /\
    periodic_at env ts s1 = Some (tt, s') /\
    ((own_of (aecp_acq s') = Contested w c p /\
      Forall (fun t => t <= t0 + 250 * TICKS_PER_CENTISECOND + 30 * G) ts) \/
     (own_of (aecp_acq s') = Owned c p /\ Exists (fun t => t0 + 250 * TICKS_PER_CENTISECOND < t) ts /\
      exists evs, aecp_out s' = aecp_out s1 ++ evs /\
        Forall2 (told (at_src_addr env)) (replicate 5 AECP_AEM_STATUS_IN_PROGRESS ++ [AECP_AEM_STATUS_SUCCESS]) evs)).
Proof.
  intros Hmac Hen Hsrc Hat Hp Hrel Hok Ho Hne Hm HG Hts c p. set (s0 := upd_aecp_rx (fun _ => pkt) s).
  assert (acquire_ok s0) as Hok0 by (destruct Hok as [[] ? ?]; by constructor).
  destruct (acquire_command_run Hmac (at_time t0 env) src n pkt s0 Hp Hok0 Hat eq_refl) as (s1 & E1 & [Hok1 Ho1 Hl1 Ht1 _ (asked & Hout1 & Hask)]).
  destruct Hp as [Hp Hpb Hpt Hpi Hlen].
  destruct (command_answered Hmac (at_time t0 env) src n AECP_AEM_CMD_ACQUIRE_ENTITY pkt _ (GET_1722_1_DATALENGTH pkt - 12) false s s1
    Hen Hp Hsrc (verdict_status _ _) ltac:(lia) E1 (ao_ok _ Hok1) Hl1 Ht1) as (s2 & E2 & Hok2 & Ha2 & _ & Hout2 & Han & _).
  assert (entity_acquired_status (aecp_acq s0) = AEM_ENTITY_ACQUIRED) as Es0
    by (clear - Ho; unfold own_of in Ho; destruct s as [[[]]]; done).
  assert (verdict_of (own_of (aecp_acq s0)) pkt = Verdict (Contested w c p) AECP_AEM_STATUS_IN_PROGRESS (Some w)) as Ev.
  { change (aecp_acq s0) with (aecp_acq s). unfold verdict_of. rewrite Ho, Hrel. cbn. by destruct (decide _). }
  rewrite Ev in *. cbn [v_own v_status] in *.
  assert (own_of (aecp_acq s1) = Contested w c p) as Ho1' by done.
  unfold asks in Hask. cbn [v_status] in Hask. destruct (decide _) as [_|]; [|done]. destruct Hask as (f & -> & Hf1 & Hfc & Hf2).
  assert (entity_acquired_status (aecp_acq s1) = AEM_ENTITY_ACQUIRED_BUT_PENDING) as Es1
    by (clear - Ho1'; unfold own_of in Ho1'; by destruct (entity_acquired_status _)).
  destruct (challenge_starts (at_time t0 env) src n pkt s0 _ s1 E1 eq_refl Es0 Es1) as [C1 C2 C3].
  destruct (started_deadline Hmac G t0 12 (aecp_aem_controller_available_timer (aecp_acq s)) ltac:(lia) Hm) as (S1 & S2 & S3).
  assert (waiting t0 G w c p (at_src_addr env) (aecp_out s2) AECP_AEM_CONTROLLER_AVAILABLE_IN_A t0 s2) as Hw.
  { constructor; rewrite ?Ha2; try done.
    - destruct Hok1. constructor; [done|by rewrite Ha2|by rewrite Ha2].
    - rewrite C2. change (aecp_now (at_time t0 env)) with (u32 t0). change (aecp_acq s0) with (aecp_acq s). rewrite S2. done.
    - rewrite C2. exact S3.
    - exists t0, (t0 + 12 * TICKS_PER_CENTISECOND). split; [rewrite C2; exact S1|]. change (elapsed _) with 0. change (rank _) with 0. lia.
    - exists []. by rewrite app_nil_r. }
  destruct (polls_waiting Hmac t0 G HG w c p (at_src_addr env) (aecp_out s2) env ts _ t0 s2 Hw Hts) as (s' & E' & Hs').
  eexists s2, s', f, _. split; [exact E2|]. split.
  { rewrite Hout2, Hout1. change (aecp_out s0) with (aecp_out s). by rewrite <- app_assoc. }
  split; [done|]. split; [done|]. split; [done|]. split; [exact Han|]. split; [exact E'|]. destruct Hs' as [Hs' | [[_ Hown _ Hout] HE]]; [by left|right].
  by split_and!.
Qed.
End Challenge.
