(* ===== verification/AecpStream.v ===== *)
(** AECP: the settings of a stream, over any AVB manager that keeps the laws of its
    interface. *)
From S2P Require Import Prelude Bytes MiscTimer MrpTypes AvbApi AvbUtil AcmpTypes AcmpSpec AecpTypes AecpControls Aecp AecpRun AecpAnswer.
From stdpp Require Import base list list_numbers numbers option.
From Stdlib Require Import ZArith Lia.
#[local] Open Scope Z_scope.

(** The sampling rates a format can name. *)
Lemma sfc_roundtrip sfc : 0 <= sfc < 7 -> sfc_from_sampling_rate (sampling_rate_from_sfc sfc) = sfc.
Proof.
  intros H. assert (sfc = 0 \/ sfc = 1 \/ sfc = 2 \/ sfc = 3 \/ sfc = 4 \/ sfc = 5 \/ sfc = 6) as Hs by lia.
  by repeat destruct Hs as [-> | Hs]; [..|subst].
Qed.

(** The format with a sampling frequency code and a number of channels. *)
Definition stream_format (sfc channels : Z) : list Z := [0; 0xa0; sfc; channels; 0x40; 0; channels; 0].

Section Streams.
Context {D : Type} `{cfg : Config} `{acfg : AcmpConfig} `{ecfg : AecpConfig}
  `{laws : AvbInterfaceLaws D} `{cb : !control_callbacks D} `{fl : !flash_library D}.
Context (Hmac : length my_mac_addr = 6%nat).
Implicit Types s : aecp D.

Lemma set_elem_length {A} n (x : A) l : length (set_elem n x l) = length l.
Proof. apply length_insert. Qed.

(** Setting a record that stays in its state. *)
Lemma set_record_run t i x y s :
  device_ok (aecp_dev s) -> named_stream (aecp_dev s) t i = Some x ->
  match x, y with
  | SinkRecord a, SinkRecord b => st_state (si_stream a) = 0 /\ st_state (si_stream b) = 0
  | SourceRecord a, SourceRecord b => st_state (so_stream a) = st_state (so_stream b)
  | _, _ => False
  end ->
  exists d, set_record i y s = Some (tt, upd_aecp_dev (fun _ => d) s) /\ device_ok d /\ named_stream d t i = Some y.
Proof.
  intros [H1 H2 H3] Hx Hxy. unfold named_stream in *.
  destruct ((t =? AEM_STREAM_INPUT_TYPE) && (i <? Z.of_nat AVB_NUM_SINKS)).
  - apply fmap_Some in Hx as (a & Hx & ->). destruct y as [b|]; [|done].
    destruct (law_set_sink (aecp_dev s) i a b Hx) as (d & E & L1 & L2 & L3); [tauto|tauto|].
    exists d. split_and!; [unfold set_record, on_dev; by rewrite E| |by rewrite L2, (elem_at_set _ _ _ _ Hx)].
    constructor; by rewrite ?L1, ?L2, ?L3, ?set_elem_length.
  - destruct ((t =? AEM_STREAM_OUTPUT_TYPE) && (i <? Z.of_nat AVB_NUM_SOURCES)); [|done].
    apply fmap_Some in Hx as (a & Hx & ->). destruct y as [|b]; [done|].
    destruct (law_set_source (aecp_dev s) i a b Hx) as (d & E & L1 & L2 & L3); [done|].
    exists d. split_and!; [unfold set_record, on_dev; by rewrite E| |by rewrite L1, (elem_at_set _ _ _ _ Hx)].
    constructor; by rewrite ?L1, ?L2, ?L3, ?set_elem_length.
Qed.

(** The setting a command asks for, in the record of a stream. *)
Definition with_format (sfc channels : Z) (x : stream_record) : stream_record :=
  upd_record_stream (fun t =>
    upd_st_format (fun _ => u8 AVB_FORMAT_MBLA_24BIT)
    (upd_st_rate (fun _ => sampling_rate_from_sfc sfc) (upd_st_num_channels (fun _ => u8 channels) t))) x.

(** The stream, code and channels a command names. *)
Definition names_stream (pkt : list Z) (t i : Z) : Prop :=
  short_at off_desc_type pkt = t /\ short_at off_desc_id pkt = i.

Lemma set_stream_format_run t i x s :
  device_ok (aecp_dev s) -> (536 <= length (aecp_rx s))%nat -> names_stream (aecp_rx s) t i ->
  named_stream (aecp_dev s) t i = Some x -> st_state (record_stream x) = 0 ->
  exists d, process_aem_cmd_getset_stream_format AECP_AEM_CMD_SET_STREAM_FORMAT s =
      Some (AECP_AEM_STATUS_SUCCESS, upd_aecp_dev (fun _ => d) s) /\ device_ok d /\
    named_stream d t i = Some (with_format (aecp_rx s !!! 30%nat) (aecp_rx s !!! 34%nat) x).
Proof.
  intros Hd Hr [Ht Hi] Hx Hst. pose proof (short_at_range off_desc_id (aecp_rx s)) as Hir. rewrite Hi in Hir.
  destruct (set_record_run t i x (with_format (aecp_rx s !!! 30%nat) (aecp_rx s !!! 34%nat) x) s Hd Hx) as (d & E & Hd' & Hn).
  { by destruct x. }
  exists d. split; [|done]. unfold process_aem_cmd_getset_stream_format.
  erewrite M_bind_run by (by apply (rx_short_run Hmac)). erewrite M_bind_run by (by apply (rx_short_run Hmac)).
  rewrite Ht, Hi. erewrite M_bind_run by (apply (find_stream_run Hmac); [done|lia]). rewrite Hx.
  change (AECP_AEM_CMD_SET_STREAM_FORMAT =? AECP_AEM_CMD_GET_STREAM_FORMAT) with false. cbv iota.
  erewrite M_bind_run by (by apply (get_rx_run Hmac)). rewrite Hst. cbn [Z.eqb].
  by erewrite M_bind_run by exact E.
Qed.

Lemma running_stream_refused_run t i x s :
  device_ok (aecp_dev s) -> (536 <= length (aecp_rx s))%nat -> names_stream (aecp_rx s) t i ->
  named_stream (aecp_dev s) t i = Some x -> st_state (record_stream x) = 2 ->
  process_aem_cmd_getset_stream_format AECP_AEM_CMD_SET_STREAM_FORMAT s = Some (AECP_AEM_STATUS_STREAM_IS_RUNNING, s).
Proof.
  intros Hd Hr [Ht Hi] Hx Hst. pose proof (short_at_range off_desc_id (aecp_rx s)) as Hir. rewrite Hi in Hir.
  unfold process_aem_cmd_getset_stream_format.
  erewrite M_bind_run by (by apply (rx_short_run Hmac)). erewrite M_bind_run by (by apply (rx_short_run Hmac)).
  rewrite Ht, Hi. erewrite M_bind_run by (apply (find_stream_run Hmac); [done|lia]). rewrite Hx.
  change (AECP_AEM_CMD_SET_STREAM_FORMAT =? AECP_AEM_CMD_GET_STREAM_FORMAT) with false. cbv iota.
  erewrite M_bind_run by (by apply (get_rx_run Hmac)). by rewrite Hst.
Qed.

Lemma get_stream_format_run t i x s :
  device_ok (aecp_dev s) -> (536 <= length (aecp_rx s))%nat -> names_stream (aecp_rx s) t i ->
  named_stream (aecp_dev s) t i = Some x ->
  exists rx, process_aem_cmd_getset_stream_format AECP_AEM_CMD_GET_STREAM_FORMAT s =
      Some (AECP_AEM_STATUS_SUCCESS, upd_aecp_rx (fun _ => rx) s) /\ length rx = length (aecp_rx s) /\
    take off_args rx = take off_args (aecp_rx s) /\ bytes_at off_args 8 rx = get_stream_format_field (record_stream x).
Proof.
  intros Hd Hr [Ht Hi] Hx. pose proof (short_at_range off_desc_id (aecp_rx s)) as Hir. rewrite Hi in Hir.
  unfold process_aem_cmd_getset_stream_format.
  erewrite M_bind_run by (by apply (rx_short_run Hmac)). erewrite M_bind_run by (by apply (rx_short_run Hmac)).
  rewrite Ht, Hi. erewrite M_bind_run by (apply (find_stream_run Hmac); [done|lia]). rewrite Hx.
  change (AECP_AEM_CMD_GET_STREAM_FORMAT =? AECP_AEM_CMD_GET_STREAM_FORMAT) with true. cbv iota.
  destruct (rx_field_run Hmac off_args (get_stream_format_field (record_stream x)) s) as (rx & E & H1 & H2 & H3);
    [cbn [length get_stream_format_field]; unfold off_args; lia|].
  exists rx. split; [by erewrite M_bind_run by exact E|done].
Qed.

(** A command that its handler has served. *)
Lemma handler_answered env src n c pkt m st s s1 :
  AVB_1722_1_AEM_ENABLED = true -> aem_packet c pkt -> length src = 6%nat -> aecp_ok s -> handler c = Some m ->
  m (upd_aecp_rx (fun _ => pkt) s) = Some (st, s1) ->
  exists s' f, receive_aecp env src n pkt s = Some (tt, s') /\ aecp_ok s' /\ aecp_dev s' = aecp_dev s1 /\
    aecp_out s' = aecp_out s ++ [AecpTx f] /\ answers src pkt st 2 f /\
    (forall i k, (i + k <= 2 + Z.to_nat (command_size c))%nat ->
      bytes_at (AVB_1722_1_AECP_PAYLOAD_OFFSET + i) k (frame_packet f) =
      bytes_at (AVB_1722_1_AECP_PAYLOAD_OFFSET + i) k (aecp_rx s1)).
Proof.
  intros Hen Hp Hsrc Hok Hm E. set (s0 := upd_aecp_rx (fun _ => pkt) s) in *. destruct (handler_props c m Hm) as [Hk Hy].
  pose proof (Hk _ _ _ E) as Hh. pose proof (Hy _ _ _ E) as Hst.
  destruct (handles_worked Hmac s0 s1 Hh) as [Hw1 Hw2 Hw3]. destruct Hh as [Ha _ _ Ho _ _].
  assert (aecp_ok s1) as Hok1 by (apply Hw1; by destruct Hok).
  assert (aem_command env src n c s0 = Some (Respond st (command_size c) false, s1)) as Ec
    by (rewrite (handler_command env src n c m Hm); unfold sized; by rewrite (M_bind_run _ _ _ _ _ E)).
  destruct (command_answered Hmac env src n c pkt st (command_size c) false s s1 Hen Hp Hsrc Hst (command_size_range c) Ec Hok1 Hw2 Hw3)
    as (s' & Er & Hok' & _ & Hd & Hout & Han & _).
  eexists s', _. split_and!; [exact Er|done|done|by rewrite Hout, Ho|exact Han|]. intros i k Hik.
  apply (response_frame_message Hmac); [done|apply Hok1|rewrite Hw2; apply Hp|done|apply command_size_range|done].
Qed.

(** A stream format that is set is read back: after SET_STREAM_FORMAT with one of the
    seven sampling frequency codes and a number of channels, for an existing stream that
    is disabled, GET_STREAM_FORMAT for it answers with that code and number, whatever the
    other fields of the format were. For an enabled stream the command is refused and the
    AVB manager not called. *)
Theorem stream_format_roundtrip env src n t i x pkt pkt' s :
  AVB_1722_1_AEM_ENABLED = true -> length src = 6%nat -> aecp_ok s -> device_ok (aecp_dev s) ->
  aem_packet AECP_AEM_CMD_SET_STREAM_FORMAT pkt -> aem_packet AECP_AEM_CMD_GET_STREAM_FORMAT pkt' ->
  names_stream pkt t i -> names_stream pkt' t i -> named_stream (aecp_dev s) t i = Some x ->
  let sfc := pkt !!! 30%nat in let channels := pkt !!! 34%nat in
  0 <= sfc < 7 -> byte_ok channels ->
  (st_state (record_stream x) = 0 ->
   exists s1 s2 f f', receive_aecp env src n pkt s = Some (tt, s1) /\ receive_aecp env src n pkt' s1 = Some (tt, s2) /\
     aecp_out s2 = aecp_out s ++ [AecpTx f; AecpTx f'] /\
     answers src pkt AECP_AEM_STATUS_SUCCESS 2 f /\ answers src pkt' AECP_AEM_STATUS_SUCCESS 2 f' /\
     bytes_at off_args 8 (frame_packet f') = stream_format sfc channels) /\
  (st_state (record_stream x) = 2 ->
   exists s1 f, receive_aecp env src n pkt s = Some (tt, s1) /\ aecp_dev s1 = aecp_dev s /\
     aecp_out s1 = aecp_out s ++ [AecpTx f] /\ answers src pkt AECP_AEM_STATUS_STREAM_IS_RUNNING 2 f).
Proof.
  intros Hen Hsrc Hok Hd Hp Hp' Hn Hn' Hx sfc channels Hsfc Hch. set (s0 := upd_aecp_rx (fun _ => pkt) s).
  pose proof (ap_length _ _ Hp) as Hl. pose proof (ap_length _ _ Hp') as Hl'. split; intros Hst.
  - destruct (set_stream_format_run t i x s0 Hd Hl Hn Hx Hst) as (d & E & Hd' & Hx').
    change (aecp_rx s0) with pkt in Hx'. fold sfc channels in Hx'.
    destruct (handler_answered env src n _ pkt _ _ s _ Hen Hp Hsrc Hok eq_refl E) as (s1 & f & Er & Hok1 & Hd1 & Ho1 & Han & _).
    assert (aecp_dev s1 = d) as Ed by done.
    set (s1' := upd_aecp_rx (fun _ => pkt') s1).
    assert (device_ok (aecp_dev s1')) as Hd1' by (change (device_ok (aecp_dev s1)); by rewrite Ed).
    assert (named_stream (aecp_dev s1') t i = Some (with_format sfc channels x)) as Hx1
      by (change (named_stream (aecp_dev s1) t i = Some (with_format sfc channels x)); by rewrite Ed).
    destruct (get_stream_format_run t i _ s1' Hd1' Hl' Hn' Hx1) as (rx & E' & L & T & B).
    destruct (handler_answered env src n _ pkt' _ _ s1 _ Hen Hp' Hsrc Hok1 eq_refl E') as (s2 & f' & Er' & _ & _ & Ho2 & Han' & Hm).
    exists s1, s2, f, f'. split_and!; try done.
    + by rewrite Ho2, Ho1, <- app_assoc.
    + etrans; [exact (Hm 6%nat 8%nat ltac:(by vm_compute; lia))|]. etrans; [exact B|].
      unfold get_stream_format_field, stream_format. destruct x; cbn; rewrite sfc_roundtrip by done;
        rewrite !u8_small by (unfold byte_ok in Hch; lia); done.
  - pose proof (running_stream_refused_run t i x s0 Hd Hl Hn Hx Hst) as E.
    destruct (handler_answered env src n _ pkt _ _ s _ Hen Hp Hsrc Hok eq_refl E) as (s1 & f & Er & _ & Hd1 & Ho1 & Han & _).
    by exists s1, f.
Qed.
End Streams.
