(* ===== verification/AecpUpload.v ===== *)
(** AECP: firmware uploads. The chunks of an image that arrive in order are stored in the
    flash memory, page by page, through the page buffer. *)
From S2P Require Import Prelude Bytes MiscTimer MrpTypes AvbApi AvbUtil AcmpTypes AcmpSpec AecpTypes AecpControls Aecp AecpRun AecpAnswer.
From stdpp Require Import base list list_numbers numbers option.
From Stdlib Require Import ZArith Lia.
#[local] Open Scope Z_scope.

(** What the code relies on: a page that is written is stored behind the others. *)
Class FlashLaws (D : Type) `{fl : flash_library D} : Type := {
  flash_of : D -> list Z;
  law_write_page : forall d page, (FLASH_PAGE_SIZE <= length page)%nat ->
    exists d', fl_writeImagePage page d = Some (0, d') /\ flash_of d' = flash_of d ++ take FLASH_PAGE_SIZE page;
}.

(** The fields of the state of an upload written out. *)
Ltac norm_upload :=
  norm_aecp; unfold upd_write_offset, upd_aecp_aa_flash_write_addr, upd_aecp_aa_bytes_copied, upd_aecp_flash_page_buf,
    upd_aecp_aa_next_write_address, mret, M_ret in *;
  cbn [aecp_flash_page_buf aecp_aa_bytes_copied aecp_aa_flash_write_addr aecp_aa_next_write_address write_offset
    aecp_upl aecp_dev] in *.

Section Upload.
Context {D : Type} `{cfg : Config} `{acfg : AcmpConfig} `{ecfg : AecpConfig}
  `{avb : !avb_interface D} `{cb : !control_callbacks D} `{fl : !flash_library D} `{flaws : !FlashLaws D}.
Context (Hmac : length my_mac_addr = 6%nat) (Hfirm : AVB_1722_1_FIRMWARE_UPGRADE_ENABLED = true).
Implicit Types s : aecp D.

(** The pages written, and the beginning of the page buffer, are the data received. *)
Record stored (data : list Z) s : Prop := {
  up_buffer : length (aecp_flash_page_buf (aecp_upl s)) = FLASH_PAGE_SIZE;
  up_copied : 0 <= aecp_aa_bytes_copied (aecp_upl s) <= Z.of_nat FLASH_PAGE_SIZE;
  up_data : flash_of (aecp_dev s) ++ take (Z.to_nat (aecp_aa_bytes_copied (aecp_upl s))) (aecp_flash_page_buf (aecp_upl s)) = data;
  up_address : aecp_aa_flash_write_addr (aecp_upl s) = Z.of_nat (length (flash_of (aecp_dev s)));
  up_offset : write_offset (aecp_upl s) = Z.of_nat (length (flash_of (aecp_dev s)));
}.

(** Between two packets. *)
Record uploading (data : list Z) s : Prop := {
  ul_stored : stored data s;
  ul_copied : aecp_aa_bytes_copied (aecp_upl s) < Z.of_nat FLASH_PAGE_SIZE;
  ul_next : aecp_aa_next_write_address (aecp_upl s) = Z.of_nat (length data);
}.

Lemma write_page_run page status s :
  let a := Z.of_nat (length (flash_of (aecp_dev s))) in
  a + 256 < 2 ^ 32 -> aecp_aa_flash_write_addr (aecp_upl s) = a -> write_offset (aecp_upl s) = a ->
  length page = FLASH_PAGE_SIZE ->
  exists d, aa_write_page page status s = Some (status, upd_aecp_dev (fun _ => d)
      (upd_aecp_upl (fun u => upd_aecp_aa_flash_write_addr (fun _ => a + 256) (upd_write_offset (fun _ => a + 256) u)) s)) /\
    flash_of d = flash_of (aecp_dev s) ++ page.
Proof.
  intros a Ha Hw Ho Hp. destruct (law_write_page (aecp_dev s) page) as (d & E & Hd); [by rewrite Hp|].
  exists d. split; [|by rewrite Hd, take_ge by (by rewrite Hp)].
  assert (avb_write_upgrade_image_page a page status s = Some (status, upd_aecp_dev (fun _ => d)
    (upd_aecp_upl (upd_write_offset (fun _ => a + 256)) s))) as Ew.
  { unfold avb_write_upgrade_image_page. erewrite M_bind_run by reflexivity. rewrite Ho, Hfirm, (u32_small a), Z.eqb_refl by lia.
    cbn [andb]. erewrite M_bind_run by (unfold on_dev; by rewrite E). cbn [Z.eqb negb]. erewrite M_bind_run by reflexivity.
    clear - Ho Ha. destruct s as [acq [] op st lock desc rx tx out dev]. norm_upload. rewrite Ho.
    change (Z.of_nat FLASH_PAGE_SIZE) with 256. by rewrite (u32_small (a + 256)) by lia. }
  unfold aa_write_page. erewrite M_bind_run by reflexivity. rewrite Hw. erewrite M_bind_run by exact Ew.
  erewrite M_bind_run by reflexivity. clear - Hw Ha. destruct s as [acq [] op st lock desc rx tx out dev]. norm_upload. rewrite Hw.
  change (Z.of_nat FLASH_PAGE_SIZE) with 256. by rewrite (u32_small (a + 256)) by lia.
Qed.

(** ** The loop *)

(** The rest of the state, which the loop leaves as it is. *)
Record only_upload s s' : Prop := {
  ou_acq : aecp_acq s' = aecp_acq s;
  ou_rx : aecp_rx s' = aecp_rx s;
  ou_buf : aecp_buf s' = aecp_buf s;
  ou_out : aecp_out s' = aecp_out s;
  ou_next : aecp_aa_next_write_address (aecp_upl s') = aecp_aa_next_write_address (aecp_upl s);
}.
#[local] Instance only_upload_preorder : PreOrder only_upload.
Proof. split; [by constructor | intros ??? [] []; constructor; congruence]. Qed.

Lemma stored_length data s :
  stored data s -> Z.of_nat (length (flash_of (aecp_dev s))) + aecp_aa_bytes_copied (aecp_upl s) = Z.of_nat (length data).
Proof.
  intros [H1 H2 <- _ _]. rewrite length_app, length_take, H1. unfold FLASH_PAGE_SIZE in *. lia.
Qed.

(** A page is written: of the packet, or from the buffer. *)
Lemma stored_page data data' page status s :
  stored data s -> length page = FLASH_PAGE_SIZE -> Z.of_nat (length (flash_of (aecp_dev s))) + 256 < 2 ^ 32 ->
  flash_of (aecp_dev s) ++ page = data' ->
  exists s', aa_write_page page status s = Some (status, s') /\ only_upload s s' /\
    aecp_aa_bytes_copied (aecp_upl s') = aecp_aa_bytes_copied (aecp_upl s) /\
    aecp_flash_page_buf (aecp_upl s') = aecp_flash_page_buf (aecp_upl s) /\
    flash_of (aecp_dev s') = data' /\ aecp_aa_flash_write_addr (aecp_upl s') = Z.of_nat (length data') /\
    write_offset (aecp_upl s') = Z.of_nat (length data').
Proof.
  intros [H1 H2 H3 H4 H5] Hp Hlt <-. destruct (write_page_run page status s Hlt H4 H5 Hp) as (d & E & Hd).
  eexists. split; [exact E|]. rewrite length_app, Hp, Nat2Z.inj_add. change (Z.of_nat FLASH_PAGE_SIZE) with 256.
  destruct s as [acq [] op st lock desc rx tx out dev]. norm_upload. by split_and!.
Qed.

Lemma aa_copy_run to from len s :
  0 <= to -> 0 <= from -> 0 <= len -> (34 + Z.to_nat from + Z.to_nat len <= length (aecp_rx s))%nat ->
  (Z.to_nat to + Z.to_nat len <= length (aecp_flash_page_buf (aecp_upl s)))%nat ->
  let bs := bytes_at (off_aa_data + Z.to_nat from) (Z.to_nat len) (aecp_rx s) in
  exists buf, aa_copy to from len s = Some (tt, upd_aecp_upl (upd_aecp_flash_page_buf (fun _ => buf)) s) /\
    length buf = length (aecp_flash_page_buf (aecp_upl s)) /\
    take (Z.to_nat to + Z.to_nat len) buf = take (Z.to_nat to) (aecp_flash_page_buf (aecp_upl s)) ++ bs.
Proof.
  intros Ht Hf Hn Hr Hb bs. set (l := aecp_flash_page_buf (aecp_upl s)) in *.
  assert (length bs = Z.to_nat len) as Hbs by (apply bytes_at_length; unfold off_aa_data; lia).
  exists (take (Z.to_nat to) l ++ bs ++ drop (Z.to_nat to + length bs) l). split_and!.
  - unfold aa_copy. destruct (Z.ltb_spec len 0); [lia|]. destruct (Z.ltb_spec from 0); [lia|].
    erewrite M_bind_run by (unfold rx_read, load; by rewrite read_at_run by (unfold off_aa_data; lia)). fold bs.
    unfold store. destruct (Z.ltb_spec to 0); [lia|]. fold l. by rewrite write_at_run by (rewrite Hbs; lia).
  - rewrite !length_app, length_take, length_drop. lia.
  - rewrite app_assoc. apply take_app_length'. rewrite length_app, length_take. lia.
Qed.

Section Chunk.
Context (data : list Z) (pkt : list Z) (L : Z).
Context (HL : 0 < L <= 502) (Hpkt : (536 <= length pkt)%nat) (Hsize : Z.of_nat (length data) + L < 2 ^ 32).
Abbreviation chunk := (bytes_at off_aa_data (Z.to_nat L) pkt).
Abbreviation copied s := (aecp_aa_bytes_copied (aecp_upl s)).

Lemma chunk_length : length chunk = Z.to_nat L.
Proof. apply bytes_at_length. unfold off_aa_data. lia. Qed.

Lemma chunk_at i n : (i + n <= Z.to_nat L)%nat -> bytes_at i n chunk = bytes_at (off_aa_data + i) n pkt.
Proof.
  intros H. unfold bytes_at. rewrite skipn_firstn_comm, take_take, drop_drop. f_equal. lia.
Qed.

Lemma chunk_next i n : (i + n <= Z.to_nat L)%nat -> take i chunk ++ bytes_at (off_aa_data + i) n pkt = take (i + n) chunk.
Proof.
  intros H. rewrite <- chunk_at by done. unfold bytes_at at 2.
  rewrite <- (take_drop i (take (i + n) chunk)), take_take, skipn_firstn_comm. f_equal; f_equal; lia.
Qed.

(** Before a round: [idx] bytes of the chunk are stored, [avail] are to be, those in the
    buffer included. *)
Record mid (s0 : aecp D) (st : Z * Z * Z) s : Prop := {
  mid_same : only_upload s0 s;
  mid_status : st.2 = AECP_AA_STATUS_SUCCESS;
  mid_index : 0 <= st.1.2 <= L;
  mid_avail : st.1.1 = L - st.1.2 + copied s;
  mid_more : 0 < st.1.1;
  mid_stored : stored (data ++ take (Z.to_nat st.1.2) chunk) s;
  mid_first : st.1.2 = 0 -> copied s < 256 /\ (copied s = 0 -> 256 <= L) /\ 256 - copied s <= L;
  mid_later : 0 < st.1.2 -> copied s = 0 \/ copied s = 256;
}.

(** The rounds to come. *)
Definition rounds (avail : Z) s : nat :=
  Z.to_nat ((avail + 255) / 256 * 2 + (if copied s =? 256 then 0 else 1)).

Definition aa_done (s0 : aecp D) (status : Z) s : Prop :=
  status = AECP_AA_STATUS_SUCCESS /\ only_upload s0 s /\ stored (data ++ chunk) s /\ copied s < 256.

(** What a round leads to. *)
Definition round_post (s0 : aecp D) (n : nat) (r : Z * Z * Z + Z) s : Prop :=
  match r with inl st => exists m, (m < n)%nat /\ mid s0 st s /\ m = rounds st.1.1 s | inr status => aa_done s0 status s end.

(** The end of a round. *)
Lemma round_end s0 n avail idx s :
  only_upload s0 s -> 0 < idx <= L -> avail = L - idx + copied s -> copied s = 0 \/ copied s = 256 ->
  stored (data ++ take (Z.to_nat idx) chunk) s -> (0 < avail -> (rounds avail s < n)%nat) ->
  round_post s0 n (if 0 <? avail then inl (avail, idx, AECP_AA_STATUS_SUCCESS) else inr AECP_AA_STATUS_SUCCESS) s.
Proof.
  intros Hs Hi Ha Hc Hst Hn. destruct (Z.ltb_spec 0 avail) as [Hlt|Hle]; cbn [round_post].
  - exists (rounds avail s). split; [by apply Hn|]. split; [|done]. constructor; cbn; try done; lia.
  - assert (idx = L /\ copied s = 0) as [-> Hc0] by lia. split_and!; [done|done| |lia].
    by rewrite take_ge in Hst by (by rewrite chunk_length).
Qed.

Lemma rounds_less avail avail' s s' :
  0 < avail -> (avail' + 256 <= avail /\ copied s <> 256 \/ avail' + 256 <= avail /\ copied s' <> 256 \/
    avail' <= avail /\ copied s <> 256 /\ copied s' = 256) -> 0 < avail' ->
  (rounds avail' s' < rounds avail s)%nat.
Proof.
  intros Ha H Ha'. unfold rounds. apply Z2Nat.inj_lt; Z.to_euclidean_division_equations;
    destruct (Z.eqb_spec (copied s) 256), (Z.eqb_spec (copied s') 256); lia.
Qed.

(** A page straight from the packet. *)
Lemma round_page s0 avail idx s :
  aecp_rx s0 = pkt -> mid s0 (avail, idx, AECP_AA_STATUS_SUCCESS) s -> copied s = 0 -> idx + 256 <= L ->
  exists r s', aa_round L (avail, idx, AECP_AA_STATUS_SUCCESS) s = Some (r, s') /\ round_post s0 (rounds avail s) r s'.
Proof.
  intros Hrx [Hs _ Hi Ha Hm Hst Hf Hl] Hc Hle. cbn [fst snd] in *.
  assert (aecp_rx s = pkt) as Hr by (rewrite <- Hrx; apply Hs).
  set (page := bytes_at (off_aa_data + Z.to_nat idx) FLASH_PAGE_SIZE pkt).
  assert (length page = FLASH_PAGE_SIZE) as Hp by (apply bytes_at_length; unfold off_aa_data, FLASH_PAGE_SIZE; lia).
  pose proof (stored_length _ _ Hst) as Hlen. rewrite length_app, length_take, chunk_length, Hc in Hlen.
  assert (flash_of (aecp_dev s) ++ page = data ++ take (Z.to_nat (idx + 256)) chunk) as Hd.
  { pose proof (up_data _ _ Hst) as Hud. rewrite Hc, take_0, app_nil_r in Hud. rewrite Hud, <- app_assoc. f_equal.
    unfold page. rewrite chunk_next by (unfold FLASH_PAGE_SIZE; lia). f_equal. unfold FLASH_PAGE_SIZE. lia. }
  assert (Z.of_nat (length (flash_of (aecp_dev s))) + 256 < 2 ^ 32) as Hroom by lia.
  destruct (stored_page _ _ page AECP_AA_STATUS_SUCCESS s Hst Hp Hroom Hd) as (s' & E & Hs' & Hc' & Hb' & Hf' & Ha' & Ho').
  assert (stored (data ++ take (Z.to_nat (idx + 256)) chunk) s') as Hst'.
  { destruct Hst as [B1 B2 _ _ _]. constructor; rewrite ?Hc', ?Hb', ?Hf'; try done.
    by rewrite Hc, take_0, app_nil_r. }
  eexists _, s'. split.
  - unfold aa_round. erewrite M_bind_run by reflexivity. rewrite Hc. cbn [Z.eqb]. change (Z.of_nat FLASH_PAGE_SIZE) with 256.
    rewrite (u32_small (idx + 256)), (u32_small L) by lia. destruct (Z.leb_spec (idx + 256) L); [|lia]. rewrite orb_true_r.
    unfold mbind at 1, M_bind at 1. erewrite M_bind_run by (unfold rx_read, load; rewrite Hr; by rewrite read_at_run by (unfold off_aa_data, FLASH_PAGE_SIZE; lia)).
    fold page. erewrite M_bind_run by exact E. reflexivity.
  - apply round_end; [by etrans|lia|lia|left; lia|done|]. intros Hpos. apply rounds_less; [lia| |lia]. left. lia.
Qed.

(** The rest of the packet goes into the buffer. *)
Lemma round_rest s0 avail idx s :
  aecp_rx s0 = pkt -> mid s0 (avail, idx, AECP_AA_STATUS_SUCCESS) s -> copied s = 0 -> L < idx + 256 ->
  exists r s', aa_round L (avail, idx, AECP_AA_STATUS_SUCCESS) s = Some (r, s') /\ round_post s0 (rounds avail s) r s'.
Proof.
  intros Hrx [Hs _ Hi Ha Hm Hst Hf Hl] Hc Hle. cbn [fst snd] in *.
  assert (aecp_rx s = pkt) as Hr by (rewrite <- Hrx; apply Hs). assert (0 < idx) as Hpos by lia.
  destruct (aa_copy_run 0 idx avail s) as (buf & E & Hlb & Htb); [lia|lia|lia|rewrite Hr; lia|
    rewrite (up_buffer _ _ Hst); unfold FLASH_PAGE_SIZE; lia|].
  rewrite Hr in Htb. change (Z.to_nat 0) with 0%nat in Htb. rewrite take_0 in Htb. cbn [Nat.add app] in Htb.
  set (s1 := upd_aecp_upl (upd_aecp_flash_page_buf (fun _ => buf)) s) in *.
  set (s2 := upd_aecp_upl (upd_aecp_aa_bytes_copied (fun n => u32 (n + avail))) s1).
  assert (copied s2 = avail) as Hc2.
  { unfold s2, s1. destruct s as [acq [] op st lock desc rx tx out dev]. norm_upload. subst. rewrite u32_small by lia. lia. }
  exists (inr AECP_AA_STATUS_SUCCESS), s2. split.
  - unfold aa_round. erewrite M_bind_run by reflexivity. rewrite Hc. cbn [Z.eqb]. change (Z.of_nat FLASH_PAGE_SIZE) with 256.
    rewrite (u32_small (idx + 256)), (u32_small L) by lia. destruct (Z.leb_spec (idx + 256) L); [lia|].
    destruct (Z.eqb_spec idx 0); [lia|]. cbn [orb]. unfold mbind at 1, M_bind at 1. by erewrite M_bind_run by exact E.
  - split_and!; [done| | |lia].
    + etrans; [exact Hs|]. unfold s2, s1. destruct s. by constructor.
    + destruct Hst as [B1 B2 B3 B4 B5]. rewrite Hc, take_0, app_nil_r in B3. constructor; [|rewrite Hc2; unfold FLASH_PAGE_SIZE; lia|rewrite Hc2| |].
      * unfold s2, s1. destruct s as [acq [] op st lock desc rx tx out dev]. norm_upload. lia.
      * assert (aecp_flash_page_buf (aecp_upl s2) = buf /\ aecp_dev s2 = aecp_dev s) as [-> ->] by (unfold s2, s1; by destruct s).
        rewrite Htb, B3, <- app_assoc. f_equal. rewrite chunk_next by lia. apply take_ge. rewrite chunk_length. lia.
      * unfold s2, s1. by destruct s.
      * unfold s2, s1. by destruct s.
Qed.

(** The buffer is filled up. *)
Lemma round_fill s0 avail idx s :
  aecp_rx s0 = pkt -> mid s0 (avail, idx, AECP_AA_STATUS_SUCCESS) s -> copied s <> 0 -> copied s <> 256 ->
  exists r s', aa_round L (avail, idx, AECP_AA_STATUS_SUCCESS) s = Some (r, s') /\ round_post s0 (rounds avail s) r s'.
Proof.
  intros Hrx [Hs _ Hi Ha Hm Hst Hf Hl] Hc0 Hc1. cbn [fst snd] in *.
  assert (aecp_rx s = pkt) as Hr by (rewrite <- Hrx; apply Hs). assert (idx = 0) as -> by lia.
  destruct (Hf eq_refl) as (Hlt & _ & Hle). pose proof (up_copied _ _ Hst) as Hk.
  destruct (aa_copy_run (copied s) 0 (256 - copied s) s) as (buf & E & Hlb & Htb); [lia|lia|lia|rewrite Hr; lia|
    rewrite (up_buffer _ _ Hst); unfold FLASH_PAGE_SIZE; lia|].
  rewrite Hr, take_ge in Htb by (rewrite Hlb, (up_buffer _ _ Hst); unfold FLASH_PAGE_SIZE; lia).
  set (s1 := upd_aecp_upl (upd_aecp_flash_page_buf (fun _ => buf)) s) in *.
  set (s2 := upd_aecp_upl (upd_aecp_aa_bytes_copied (fun n => u32 (n + (256 - copied s)))) s1).
  assert (copied s2 = 256 /\ aecp_flash_page_buf (aecp_upl s2) = buf /\ aecp_dev s2 = aecp_dev s /\
    only_upload s s2 /\ aecp_aa_flash_write_addr (aecp_upl s2) = aecp_aa_flash_write_addr (aecp_upl s) /\
    write_offset (aecp_upl s2) = write_offset (aecp_upl s)) as (F1 & F2 & F3 & F4 & F5 & F6).
  { unfold s2, s1. destruct s as [acq [] op st lock desc rx tx out dev]. norm_upload. split_and!; try done.
    rewrite u32_small by lia. lia. }
  eexists _, s2. split.
  - unfold aa_round. erewrite M_bind_run by reflexivity. destruct (Z.eqb_spec (copied s) 0); [done|].
    change (Z.of_nat FLASH_PAGE_SIZE) with 256. destruct (Z.eqb_spec (copied s) 256); [done|].
    rewrite (s32_small (256 - copied s)) by lia. unfold mbind at 1, M_bind at 1. erewrite M_bind_run by exact E.
    erewrite M_bind_run by reflexivity. cbn [mret M_ret]. rewrite (u32_small (0 + (256 - copied s))) by lia. reflexivity.
  - apply round_end; [by etrans|lia|lia|by right| |].
    + destruct Hst as [B1 B2 B3 B4 B5]. constructor; rewrite ?F1, ?F2, ?F3, ?F5, ?F6; try done; [lia|].
      rewrite take_0, app_nil_r in B3. rewrite take_ge by (rewrite Hlb, B1; done). rewrite Htb, app_assoc, B3.
      f_equal. rewrite Z.add_0_l. change (Z.to_nat 0) with 0%nat.
      etrans; [|apply (chunk_next 0 (Z.to_nat (256 - copied s))); lia]. by rewrite take_0.
    + intros Hpos. apply rounds_less; [lia| |lia]. right. right. lia.
Qed.

(** The full buffer is written. *)
Lemma round_flush s0 avail idx s :
  mid s0 (avail, idx, AECP_AA_STATUS_SUCCESS) s -> copied s = 256 ->
  exists r s', aa_round L (avail, idx, AECP_AA_STATUS_SUCCESS) s = Some (r, s') /\ round_post s0 (rounds avail s) r s'.
Proof.
  intros [Hs _ Hi Ha Hm Hst Hf Hl] Hc. cbn [fst snd] in *. assert (0 < idx) as Hpos by lia.
  pose proof (stored_length _ _ Hst) as Hlen. rewrite length_app, length_take, chunk_length, Hc in Hlen.
  assert (Z.of_nat (length (flash_of (aecp_dev s))) + 256 < 2 ^ 32) as Hroom by lia.
  assert (flash_of (aecp_dev s) ++ aecp_flash_page_buf (aecp_upl s) = data ++ take (Z.to_nat idx) chunk) as Hd.
  { rewrite <- (up_data _ _ Hst), Hc. by rewrite (take_ge (aecp_flash_page_buf _)) by (rewrite (up_buffer _ _ Hst); done). }
  destruct (stored_page _ _ _ AECP_AA_STATUS_SUCCESS s Hst (up_buffer _ _ Hst) Hroom Hd) as (s1 & E & Hs1 & Hc1 & Hb1 & Hf1 & Ha1 & Ho1).
  set (s' := upd_aecp_upl (upd_aecp_aa_bytes_copied (fun _ => 0)) s1).
  assert (copied s' = 0 /\ aecp_flash_page_buf (aecp_upl s') = aecp_flash_page_buf (aecp_upl s) /\ aecp_dev s' = aecp_dev s1 /\
    only_upload s1 s' /\ aecp_aa_flash_write_addr (aecp_upl s') = aecp_aa_flash_write_addr (aecp_upl s1) /\
    write_offset (aecp_upl s') = write_offset (aecp_upl s1)) as (F1 & F2 & F3 & F4 & F5 & F6).
  { unfold s' in *. destruct s1 as [acq [] op st lock desc rx tx out dev]. norm_upload. by split_and!. }
  eexists _, s'. split.
  - unfold aa_round. erewrite M_bind_run by reflexivity. rewrite Hc. cbn [Z.eqb].
    change (Z.of_nat FLASH_PAGE_SIZE) with 256. cbn [Z.eqb Pos.eqb].
    unfold mbind at 1, M_bind at 1. erewrite M_bind_run by exact E. reflexivity.
  - apply round_end; [by repeat (etrans; [eassumption|])|lia|lia|left; lia| |].
    + constructor; rewrite ?F1, ?F2, ?F3, ?F5, ?F6, ?Hf1; try done; [by rewrite (up_buffer _ _ Hst)|].
      change (Z.to_nat 0) with 0%nat. by rewrite take_0, app_nil_r.
    + intros Hp. apply rounds_less; [lia| |lia]. right. left. lia.
Qed.

Lemma round_run s0 st s :
  aecp_rx s0 = pkt -> mid s0 st s -> exists r s', aa_round L st s = Some (r, s') /\ round_post s0 (rounds st.1.1 s) r s'.
Proof.
  intros Hrx Hm. destruct st as [[avail idx] status]. assert (status = AECP_AA_STATUS_SUCCESS) as -> by apply (mid_status _ _ _ Hm).
  destruct (Z.eq_dec (copied s) 0) as [Hc|Hc].
  - destruct (Z.le_gt_cases (idx + 256) L); [by apply round_page|]. by apply round_rest.
  - destruct (Z.eq_dec (copied s) 256); [by apply round_flush|by apply round_fill].
Qed.

(** The chunk follows the data. *)
Lemma aa_write_run s :
  aecp_rx s = pkt -> uploading data s -> (copied s = 0 -> 256 <= L) -> 256 - copied s <= L ->
  exists s', aa_write L s = Some (AECP_AA_STATUS_SUCCESS, s') /\ uploading (data ++ chunk) s' /\
    aecp_acq s' = aecp_acq s /\ aecp_rx s' = aecp_rx s /\ aecp_buf s' = aecp_buf s /\ aecp_out s' = aecp_out s.
Proof.
  intros Hrx [Hst Hlt Hn] H1 H2. pose proof (up_copied _ _ Hst) as Hk. change (Z.of_nat FLASH_PAGE_SIZE) with 256 in *.
  assert (mid s (s32 (L + copied s), 0, AECP_AA_STATUS_SUCCESS) s) as Hm.
  { rewrite s32_small by lia. constructor; cbn [fst snd]; try done; try lia. by rewrite take_0, app_nil_r. }
  assert (wp true (loopM aa_fuel (aa_round L) (s32 (L + copied s), 0, AECP_AA_STATUS_SUCCESS)) (aa_done s) s) as Hwp.
  { eapply (wp_loopM true (aa_round L) (fun n st s' => mid s st s' /\ n = rounds st.1.1 s')) with (n := rounds (s32 (L + copied s)) s).
    - intros n st s1 [Hm1 ->]. destruct (round_run s st s1 Hrx Hm1) as (r & s2 & E & Hr). eapply wp_intro; [exact E|].
      destruct r as [st'|status]; [|exact Hr]. destruct Hr as (m & Hlt' & Hm2 & ->). by eexists.
    - done.
    - unfold rounds, aa_fuel. rewrite s32_small by lia. destruct (_ =? 256); Z.to_euclidean_division_equations; lia. }
  apply wp_elim in Hwp as (status & s1 & E & -> & [O1 O2 O3 O4 O5] & Hst1 & Hlt1); [|done].
  set (s' := upd_aecp_upl (upd_aecp_aa_next_write_address (fun n => u32 (n + L))) s1). exists s'. split_and!.
  - unfold aa_write. erewrite M_bind_run by reflexivity. erewrite M_bind_run by exact E. by erewrite M_bind_run by reflexivity.
  - unfold s'. constructor.
    + destruct Hst1. destruct s1. by constructor.
    + destruct s1. done.
    + rewrite length_app, chunk_length. destruct s1 as [acq [] op st lock desc rx tx out dev]. norm_upload. rewrite O5, Hn.
      rewrite u32_small by lia. lia.
  - by destruct s1.
  - by destruct s1.
  - by destruct s1.
  - by destruct s1.
Qed.
End Chunk.

(** ** The command *)

(** A write command of one block for this device. *)
Record aa_packet (address : Z) (pkt : list Z) : Prop := {
  aa_length : (536 <= length pkt)%nat;
  aa_bytes : Forall byte_ok pkt;
  aa_type : GET_1722_1_MSG_TYPE pkt = AECP_CMD_ADDRESS_ACCESS_COMMAND;
  aa_target : compare_guid (bytes_at off_target_guid 8 pkt) my_guid = true;
  aa_tlv : ntoh_16 (pkt !!! 22%nat) (pkt !!! 23%nat) = 1;
  aa_mode : ADDRESS_MSG_GET_MODE pkt = AECP_AA_MODE_WRITE;
  aa_address : u32 (word_at 30 pkt) = address;
}.
Definition aa_data (pkt : list Z) : list Z := bytes_at off_aa_data (Z.to_nat (ADDRESS_MSG_GET_LENGTH pkt)) pkt.

(** The response with a status. *)
Definition aa_response (src : list Z) (status : Z) (ev : aecp_event) : Prop :=
  exists f, ev = AecpTx f /\ take 6 f = src /\ frame_type f = 3 /\ frame_status f = status.

Definition aa_finish (src : list Z) (n : Z) (pkt : list Z) (status : Z) : M (aecp D) unit :=
  _ ← avb_1722_1_create_aecp_response_header src status AECP_CMD_ADDRESS_ACCESS_COMMAND (GET_1722_1_DATALENGTH pkt);
  _ ← copy_rx_tx AVB_1722_1_AECP_PAYLOAD_OFFSET AVB_1722_1_AECP_PAYLOAD_OFFSET 514;
  eth_send_packet (Z.max 64 (n + Z.of_nat ethernet_hdr_size)).

Lemma aa_finish_run src n pkt status s :
  length src = 6%nat -> status_ok status -> 0 <= n <= 538 -> aecp_rx s = pkt -> (536 <= length pkt)%nat -> Forall byte_ok pkt ->
  aecp_ok s ->
  exists s' ev, aa_finish src n pkt status s = Some (tt, s') /\ aecp_ok s' /\ aecp_upl s' = aecp_upl s /\
    aecp_dev s' = aecp_dev s /\ aecp_out s' = aecp_out s ++ [ev] /\ aa_response src status ev.
Proof.
  intros Hsrc Hst Hn Hrx Hl Hpb [Hb Hm1 Hm2]. unfold AVB_1722_1_PACKET_SIZE in Hb. pose proof (data_length_range Hmac pkt Hpb) as Hlen.
  set (len := GET_1722_1_DATALENGTH pkt) in *. set (resp := response src 3 status len 514 pkt (aecp_buf s)).
  assert (length resp = 552%nat) as Lr by (unfold resp; rewrite (response_length Hmac); lia).
  set (f := take (Z.to_nat (Z.max 64 (n + 14))) resp).
  exists (upd_aecp_out (fun l => l ++ [AecpTx f]) (upd_aecp_buf (fun _ => resp) s)), (AecpTx f). split_and!.
  - unfold aa_finish. erewrite M_bind_run by (apply (response_header_run Hmac); rewrite ?Hrx; lia). fold len.
    erewrite M_bind_run by (apply (response_more_run Hmac); rewrite ?Hrx; lia). rewrite Hrx.
    change (AECP_CMD_ADDRESS_ACCESS_COMMAND + 1) with 3. change (Z.to_nat 514) with 514%nat. change (Z.of_nat ethernet_hdr_size) with 14.
    assert (upd_aecp_buf (response src 3 status len 514 pkt) s = upd_aecp_buf (fun _ => resp) s) as -> by (by destruct s).
    apply (eth_send_packet_run Hmac); [lia|]. change (aecp_buf (upd_aecp_buf _ s)) with resp. lia.
  - constructor; [done|by destruct s|by destruct s].
  - by destruct s.
  - by destruct s.
  - by destruct s.
  - exists f. split; [done|]. pose proof (header_length Hmac src 3 status len (aecp_buf s) Hsrc) as Hh.
    assert (f = header src 3 status len (aecp_buf s) ++ take (Z.to_nat (Z.max 64 (n + 14)) - 18) (drop 18 resp)) as ->.
    { unfold f, resp, response. rewrite take_app_ge by lia. by rewrite Hh, drop_app_ge, Hh by lia. }
    edestruct (header_fields Hmac src 3 status len (aecp_buf s)) as (F1 & F2 & F3 & _); [done|lia|exact Hst|lia|].
    split_and!; [exact F1|exact F2|exact F3].
Qed.

Lemma receive_aa_run env src n address pkt s :
  aa_packet address pkt ->
  receive_aecp env src n pkt s =
    (status ← (if negb (aecp_aa_next_write_address (aecp_upl s) =? address) then mret AECP_AA_STATUS_ADDRESS_INVALID
               else aa_write (ADDRESS_MSG_GET_LENGTH pkt)); aa_finish src n pkt status) (upd_aecp_rx (fun _ => pkt) s).
Proof.
  intros [Hl _ Ht Hg Htlv Hmo Ha]. unfold receive_aecp. erewrite M_bind_run by reflexivity.
  set (s0 := upd_aecp_rx (fun _ => pkt) s).
  assert (get_rx s0 = Some (pkt, s0)) as Eg by (by apply (get_rx_run Hmac)).
  unfold process_avb_1722_1_aecp_packet. rewrite (M_bind_run _ _ _ _ _ Eg), Ht, Hfirm.
  cbn [Z.eqb orb whenM AECP_CMD_ADDRESS_ACCESS_COMMAND AECP_CMD_AEM_COMMAND AECP_CMD_AEM_RESPONSE Pos.eqb].
  unfold process_avb_1722_1_aecp_address_access_cmd. rewrite (M_bind_run _ _ _ _ _ Eg), Hg, Htlv, Hmo, Ha. cbn [negb].
  by erewrite M_bind_run by reflexivity.
Qed.

(** One chunk. *)
Lemma receive_chunk_run env src n data pkt s :
  aa_packet (Z.of_nat (length data)) pkt -> length src = 6%nat -> 0 <= n <= 538 -> aecp_ok s -> uploading data s ->
  256 <= ADDRESS_MSG_GET_LENGTH pkt <= 502 -> Z.of_nat (length data) + ADDRESS_MSG_GET_LENGTH pkt < 2 ^ 32 ->
  exists s' ev, receive_aecp env src n pkt s = Some (tt, s') /\ aecp_ok s' /\ uploading (data ++ aa_data pkt) s' /\
    aecp_out s' = aecp_out s ++ [ev] /\ aa_response src AECP_AA_STATUS_SUCCESS ev.
Proof.
  intros Hp Hsrc Hn Hok Hup HL Hsize. rewrite (receive_aa_run env src n _ pkt s Hp).
  rewrite (ul_next _ _ Hup), Z.eqb_refl. cbn [negb]. set (s0 := upd_aecp_rx (fun _ => pkt) s).
  assert (uploading data s0) as Hup0 by (destruct Hup as [[] ? ?]; constructor; [constructor|..]; by destruct s).
  pose proof (up_copied _ _ (ul_stored _ _ Hup0)) as Hk.
  destruct (aa_write_run data pkt (ADDRESS_MSG_GET_LENGTH pkt) ltac:(lia) (aa_length _ _ Hp) Hsize s0) as
    (s1 & E & Hup1 & Ha1 & Hr1 & Hb1 & Ho1); [done|done|lia|lia|].
  erewrite M_bind_run by exact E.
  destruct (aa_finish_run src n pkt AECP_AA_STATUS_SUCCESS s1) as (s' & ev & E' & Hok' & Hu' & Hd' & Ho' & Hev);
    [done|split; by vm_compute|done|done|apply Hp|apply Hp|destruct Hok; constructor; by rewrite ?Hb1, ?Ha1|].
  exists s', ev. split_and!; [exact E'|done| |by rewrite Ho', Ho1|done].
  destruct Hup1 as [[] ? ?]. constructor; [constructor|..]; by rewrite ?Hu', ?Hd'.
Qed.

(** The chunks of an image, each behind the one before. *)
Fixpoint in_order (pos : Z) (pkts : list (list Z)) : Prop :=
  match pkts with
  | [] => pos < 2 ^ 32
  | pkt :: pkts => aa_packet pos pkt /\ 256 <= ADDRESS_MSG_GET_LENGTH pkt <= 502 /\ in_order (pos + ADDRESS_MSG_GET_LENGTH pkt) pkts
  end.

Lemma in_order_bound pos pkts : in_order pos pkts -> pos < 2 ^ 32.
Proof. revert pos. induction pkts as [|p l IH]; intros pos; cbn [in_order]; [done|]. intros (_ & H & Hl%IH). lia. Qed.

Lemma aa_data_length pkt : (536 <= length pkt)%nat -> 0 <= ADDRESS_MSG_GET_LENGTH pkt <= 502 -> Z.of_nat (length (aa_data pkt)) = ADDRESS_MSG_GET_LENGTH pkt.
Proof. intros H1 H2. unfold aa_data. rewrite bytes_at_length; [lia|]. unfold off_aa_data. lia. Qed.

(** C18: an image that arrives in order, in chunks of a page (256 bytes) to 502 bytes, is
    stored if the flash memory takes the pages without an error: from an upload in
    progress (the first one begins with no data), after each chunk the flash memory, and
    behind it the page buffer, hold the data received, byte for byte, however the chunks
    cut the pages; every chunk is acknowledged. *)
Theorem upload_stores_image env src n pkts data s :
  length src = 6%nat -> 0 <= n <= 538 -> aecp_ok s -> uploading data s -> in_order (Z.of_nat (length data)) pkts ->
  exists s' evs, forM pkts (receive_aecp env src n) s = Some (tt, s') /\ aecp_ok s' /\
    uploading (data ++ concat (aa_data <$> pkts)) s' /\
    aecp_out s' = aecp_out s ++ evs /\ length evs = length pkts /\ Forall (aa_response src AECP_AA_STATUS_SUCCESS) evs.
Proof.
  intros Hsrc Hn. revert data s. induction pkts as [|pkt pkts IH]; intros data s Hok Hup Hin.
  - exists s, []. cbn. by rewrite !app_nil_r.
  - destruct Hin as (Hp & HL & Hin). pose proof (in_order_bound _ _ Hin) as Hlt.
    destruct (receive_chunk_run env src n data pkt s) as (s1 & ev & E & Hok1 & Hup1 & Ho1 & Hev); try done.
    pose proof (aa_data_length pkt (aa_length _ _ Hp) ltac:(lia)) as Hal.
    destruct (IH (data ++ aa_data pkt) s1 Hok1 Hup1) as (s' & evs & E' & Hok' & Hup' & Ho' & Hl' & HF).
    { rewrite length_app, Nat2Z.inj_add, Hal. done. }
    exists s', (ev :: evs). cbn [forM]. rewrite (M_bind_run _ _ _ _ _ E). split_and!; try done.
    + cbn [concat fmap list_fmap]. by rewrite app_assoc.
    + by rewrite Ho', Ho1, <- app_assoc.
    + cbn. by rewrite Hl'.
    + by constructor.
Qed.

(** A chunk at any other address - a repeated one, or one behind a chunk that was lost -
    is refused with ADDRESS_INVALID, and neither the flash memory nor the page buffer nor
    the address awaited change. *)
Theorem upload_out_of_order_refused env src n address pkt s :
  length src = 6%nat -> 0 <= n <= 538 -> aecp_ok s -> aa_packet address pkt ->
  address <> aecp_aa_next_write_address (aecp_upl s) ->
  exists s' ev, receive_aecp env src n pkt s = Some (tt, s') /\ aecp_upl s' = aecp_upl s /\ aecp_dev s' = aecp_dev s /\
    aecp_out s' = aecp_out s ++ [ev] /\ aa_response src AECP_AA_STATUS_ADDRESS_INVALID ev.
Proof.
  intros Hsrc Hn Hok Hp Hne. rewrite (receive_aa_run env src n _ pkt s Hp).
  destruct (Z.eqb_spec (aecp_aa_next_write_address (aecp_upl s)) address); [congruence|]. cbn [negb].
  set (s0 := upd_aecp_rx (fun _ => pkt) s).
  destruct (aa_finish_run src n pkt AECP_AA_STATUS_ADDRESS_INVALID s0) as (s' & ev & E' & _ & Hu' & Hd' & Ho' & Hev);
    [done|split; by vm_compute|done|done|apply Hp|apply Hp|by destruct Hok|].
  by exists s', ev.
Qed.
End Upload.
