(* ===== verification/AecpSample.v ===== *)
(** AECP: a sample device - the AVB manager's sample device with an application that has
    one control, and a flash memory - and packets for it. *)
From S2P Require Import Prelude Bytes MiscTimer MrpTypes AvbApi AvbManager AvbManagerSpec AcmpTypes AcmpSpec AecpTypes AecpControls Aecp AecpRun AecpAnswer AecpAcquire AecpHandover AecpStream AecpUpload.
From stdpp Require Import base list list_numbers numbers option.
From Stdlib Require Import ZArith Lia.
#[local] Open Scope Z_scope.

(** ** The outside *)

(** The manager, and the pages written to the flash memory. *)
Definition device : Type := (manager * list (list Z))%type.

Definition on_manager {A} (m : M manager A) : M device A := fun d =>
  match m d.1 with Some (a, mgr) => Some (a, (mgr, d.2)) | None => None end.

Definition device_avb : avb_interface device :=
  let mgr := @avb_manager default_config sample_answers in {|
  _get_source_info n := on_manager (@_get_source_info _ mgr n);
  _set_source_info n x := on_manager (@_set_source_info _ mgr n x);
  _get_sink_info n := on_manager (@_get_sink_info _ mgr n);
  _set_sink_info n x := on_manager (@_set_sink_info _ mgr n x);
  _get_media_clock_info n := on_manager (@_get_media_clock_info _ mgr n);
  _set_media_clock_info n x := on_manager (@_set_media_clock_info _ mgr n x);
|}.

(** A control of one byte; no signal selectors. *)
Definition device_controls : control_callbacks device := {|
  get_control_value _ _ _ values := mret (AECP_AEM_STATUS_SUCCESS, 1, 1, <[0%nat := 42]> values);
  set_control_value _ _ values := mret (AECP_AEM_STATUS_SUCCESS, values);
  get_signal_selector _ t i o := mret (AECP_AEM_STATUS_NOT_SUPPORTED, t, i, o);
  set_signal_selector _ _ _ _ := mret AECP_AEM_STATUS_NOT_SUPPORTED;
|}.

(** Pages are written one behind the other. *)
Definition device_flash : flash_library device := {|
  fl_getFactoryImage := mret (0, 4096);
  fl_getNextBootImage := mret (1, 0);
  fl_startImageAdd := mret 0;
  fl_startImageReplace := mret 0;
  fl_writeImagePage page := modify (fun d => (d.1, d.2 ++ [take FLASH_PAGE_SIZE page])) ≫= fun _ => mret 0;
|}.

#[local] Existing Instances default_config sample_answers sample_acmp_config device_avb device_controls device_flash.

Lemma on_manager_law {A} (m : M manager A) (d : device) a mgr : m d.1 = Some (a, mgr) -> on_manager m d = Some (a, (mgr, d.2)).
Proof. intros E. unfold on_manager. by rewrite E. Qed.

Definition device_laws : AvbInterfaceLaws device.
Proof.
  refine {|
    sources_of d := sources_of d.1; sinks_of d := sinks_of d.1; clocks_of d := clocks_of d.1;
  |}.
  all: intros [mgr pages] n; cbn.
  - intros x Hx. by apply (on_manager_law _ (mgr, pages)), (@law_get_source manager _ avb_manager_laws mgr n x Hx).
  - intros x Hx. by apply (on_manager_law _ (mgr, pages)), (@law_get_sink manager _ avb_manager_laws mgr n x Hx).
  - intros x Hx. by apply (on_manager_law _ (mgr, pages)), (@law_get_clock manager _ avb_manager_laws mgr n x Hx).
  - intros old new Ho Hs. destruct (@law_set_source manager _ avb_manager_laws mgr n old new Ho Hs) as (mgr' & E & H). exists (mgr', pages).
    split; [by apply on_manager_law|done].
  - intros old new Ho Hs Hs'. destruct (@law_set_sink manager _ avb_manager_laws mgr n old new Ho Hs Hs') as (mgr' & E & H). exists (mgr', pages).
    split; [by apply on_manager_law|done].
  - intros old new Ho Hs. destruct (@law_set_clock manager _ avb_manager_laws mgr n old new Ho Hs) as (mgr' & E & H). exists (mgr', pages).
    split; [by apply on_manager_law|done].
Defined.

(** ** The device *)

(** A descriptor of a type and number, otherwise zero. *)
Definition sample_descriptor (type n : Z) (size : nat) : list Z := hton_16 type ++ hton_16 n ++ replicate (size - 4) 0.

Definition sample_aecp_config : AecpConfig := {|
  AVB_NUM_MEDIA_INPUTS := 2;
  AVB_NUM_MEDIA_OUTPUTS := 2;
  AVB_1722_1_AEM_ENABLED := true;
  AEM_GENERATE_DESCRIPTORS_ON_FLY := false;
  AVB_1722_1_FIRMWARE_UPGRADE_ENABLED := true;
  aem_descriptor_list := [AEM_ENTITY_TYPE; 1; 312; 0; AEM_STREAM_INPUT_TYPE; 1; 148; 1; AEM_CLOCK_DOMAIN_TYPE; 2; 76; 2; 80; 3];
  desc_entity := 0;
  desc_avb_interface_0 := 0;
  desc_clock_source_0 := 0;
  desc_upgrade_image_memory_object_0 := 0;
  desc_audio_cluster_template := 0;
  desc_stream_input_0 := 1;
  desc_stream_port_input_0 := 1;
  desc_stream_output_0 := 1;
  desc_stream_port_output_0 := 1;
|}.
#[local] Existing Instance sample_aecp_config.

Definition sample_descriptors : list (list Z) :=
  [sample_descriptor AEM_ENTITY_TYPE 0 312; sample_descriptor AEM_STREAM_INPUT_TYPE 0 148;
   sample_descriptor AEM_CLOCK_DOMAIN_TYPE 0 76; sample_descriptor AEM_CLOCK_DOMAIN_TYPE 1 80].

(** After [avb_1722_1_aecp_aem_init], with streams that are disabled. *)
Definition sample_acquisition : acquisition :=
  MkAcquisition AEM_ENTITY_NOT_ACQUIRED AECP_AEM_CONTROLLER_AVAILABLE_IDLE (init_avb_timer 5 zero_timer) 0 0
    (replicate 6 0) (replicate 6 0) 0 0 65535.
Definition sample_aecp : aecp device :=
  MkAecp sample_acquisition (MkUpload (replicate 256 0) 0 0 0 (u32 (-1))) 1234 AECP_AEM_WAITING (init_avb_timer 100 zero_timer)
    sample_descriptors [] (replicate 552 0) [] (sample_registered, []).

Definition sample_env : aecp_env :=
  MkAecpEnv 0 [0x10; 0x20; 0x30; 0x40; 0x50; 0x60] [] 0 0 (replicate 12 0) (replicate 5 0) (0, 0, 0) (fun _ => 0) 1.

Lemma sample_acquire_ok : acquire_ok sample_aecp.
Proof. constructor; [constructor|..]; by vm_compute. Qed.

Lemma sample_mac_length : length my_mac_addr = 6%nat.
Proof. done. Qed.

(** ** Packets *)

(** A controller's AEM command with a payload, in a buffer of 600 bytes. *)
Definition sample_command (controller c data_length : Z) (payload : list Z) : list Z :=
  let p := [0xfb; 0; Z.shiftr data_length 8; Z.land data_length 0xff] ++ set_64 (guid_c my_guid) ++
           set_64 (guid_c controller) ++ hton_16 7 ++ hton_16 c ++ payload in
  p ++ replicate (600 - length p) 0.

Definition sample_acquire (controller flags0 flags3 : Z) : list Z :=
  sample_command controller AECP_AEM_CMD_ACQUIRE_ENTITY 28 ([flags0; 0; 0; flags3] ++ replicate 12 0).

Definition sample_src : list Z := [0x00; 0x01; 0x02; 0x03; 0x04; 0x05].

(** Two controllers. *)
Definition alice : Z := 0xa11ce.
Definition bob : Z := 0xb0b.

(** Closed facts about packets. *)
Ltac sample_packet := constructor; [constructor|..]; first [by vm_compute | by split; vm_compute | by apply bytes_okb; vm_compute | by apply Nat.leb_le; vm_compute].

Lemma alice_acquires : acquire_packet (sample_acquire alice 0 0).
Proof. sample_packet. Qed.
Lemma bob_acquires : acquire_packet (sample_acquire bob 0 0).
Proof. sample_packet. Qed.
Lemma bob_releases : acquire_packet (sample_acquire bob 0x80 0).
Proof. sample_packet. Qed.

(** ** Ownership *)

Example acquire_refines_witness :
  exists s' asked f,
    receive_aecp sample_env sample_src 100 (sample_acquire alice 0 0) sample_aecp = Some (tt, s') /\
    own_of (aecp_acq s') = Owned alice false /\ aecp_out s' = asked ++ [AecpTx f] /\ frame_status f = AECP_AEM_STATUS_SUCCESS.
Proof.
  destruct (acquire_refines (ecfg := sample_aecp_config) sample_mac_length sample_env sample_src 100 (sample_acquire alice 0 0) sample_aecp eq_refl
    alice_acquires sample_acquire_ok eq_refl eq_refl) as (s' & asked & f & E & _ & Ho & Hout & _ & [_ _ Hst _ _] & _).
  exists s', asked, f. split; [exact E|]. split; [rewrite Ho; by vm_compute|]. split; [exact Hout|]. rewrite Hst. by vm_compute.
Defined.

(** Packets one after the other, each at a time. *)
Definition sample_receive (pkts : list (Z * list Z)) : M (aecp device) unit :=
  forM pkts (fun tp => receive_aecp (at_time tp.1 sample_env) sample_src 100 tp.2).

(** Alice acquires, and Bob's packets do not take the entity away. *)
Definition acquired_by_alice : aecp device :=
  match sample_receive [(0, sample_acquire alice 0 0)] sample_aecp with Some (_, s) => s | None => sample_aecp end.

Example only_owner_releases_witness :
  exists s', receive_aecp sample_env sample_src 100 (sample_acquire bob 0x80 0) acquired_by_alice = Some (tt, s') /\
    owned_by alice (aecp_acq s').
Proof.
  assert (acquire_ok acquired_by_alice) as Hok by (constructor; [constructor|..]; by vm_compute).
  destruct (only_owner_releases (ecfg := sample_aecp_config) sample_mac_length sample_env sample_src 100 (sample_acquire bob 0x80 0) alice
    acquired_by_alice eq_refl eq_refl eq_refl Hok) as [Hrun Hkept].
  - by vm_compute.
  - apply bytes_okb. by vm_compute.
  - by vm_compute.
  - destruct (Hrun (or_introl bob_releases)) as (s' & E). exists s'. split; [exact E|]. by apply Hkept.
Defined.

(** Alice has acquired the entity at time 0, Bob asks for it at time 1000, and the periodic
    function is called each 50 ms for four and a half seconds. *)
Definition sample_polls : list Z := (fun i => 1000 + 5000000 * Z.of_nat i) <$> seq 1 90.

Example silent_owner_replaced_witness :
  exists s1 s', receive_aecp (at_time 1000 sample_env) sample_src 100 (sample_acquire bob 0 0) acquired_by_alice = Some (tt, s1) /\
    periodic_at sample_env sample_polls s1 = Some (tt, s') /\ own_of (aecp_acq s') = Owned bob false.
Proof.
  assert (acquire_ok acquired_by_alice) as Hok by (constructor; [constructor|..]; by vm_compute).
  destruct (silent_owner_replaced (ecfg := sample_aecp_config) sample_env sample_src 100 (sample_acquire bob 0 0) 1000 5000000 sample_polls alice
    acquired_by_alice sample_mac_length eq_refl eq_refl eq_refl bob_acquires eq_refl Hok)
    as (s1 & s' & f & g & E1 & _ & _ & _ & _ & _ & E2 & [[_ HF] | [Ho _]]).
  - by vm_compute.
  - by vm_compute.
  - by vm_compute.
  - lia.
  - exact (polled_steps 5000000 1000 90 0 ltac:(lia)).
  - exfalso. revert HF. rewrite list.Forall_forall. intros HF. specialize (HF 450001000).
    assert (450001000 ∈ sample_polls) as Hin by (apply (bool_decide_unpack _); by vm_compute).
    specialize (HF Hin). clear - HF. unfold TICKS_PER_CENTISECOND, XS1_TIMER_KHZ in HF. lia.
  - exists s1, s'. split_and!; [exact E1|exact E2|]. rewrite Ho. by vm_compute.
Defined.

Definition carol : Z := 0xca201.
Definition stale_packets : list (Z * list Z) :=
  [(0, sample_acquire alice 0 0); (1000, sample_acquire bob 0 0); (2000, sample_acquire alice 0x80 0); (3000, sample_acquire carol 0 1)].
(** What [f] says after [m1], and after [m2]. *)
Definition observed {S A} (f : S -> A) (m1 m2 : M S unit) (s : S) : option (A * A) :=
  match m1 s with
  | Some (_, s1) => match m2 s1 with Some (_, s2) => Some (f s1, f s2) | None => None end
  | None => None
  end.
Lemma observed_Some {S A} (f : S -> A) (m1 m2 : M S unit) s a b :
  observed f m1 m2 s = Some (a, b) ->
  exists s1 s2, m1 s = Some (tt, s1) /\ f s1 = a /\ m2 s1 = Some (tt, s2) /\ f s2 = b.
Proof.
  unfold observed. destruct (m1 s) as [[[] s1]|]; [|done]. destruct (m2 s1) as [[[] s2]|] eqn:E; [|done].
  intros [= <- <-]. by exists s1, s2.
Qed.

Definition owner_now (s : aecp device) : ownership := own_of (aecp_acq s).

Lemma stale_run_result :
  observed owner_now (sample_receive stale_packets) (periodic_at sample_env sample_polls) sample_aecp =
  Some (Owned carol true, Owned bob false).
Proof. by vm_compute. Qed.

(** A persistent owner can lose the entity without a packet of its own, and without
    being asked. A challenge outlives the ownership it was directed at: Alice acquires the
    entity, Bob asks for it, Alice releases it, Carol acquires it persistently - and when
    Bob's timer runs out, Bob owns it. *)
Theorem stale_challenge_wins :
  exists s1 s2,
    sample_receive stale_packets sample_aecp = Some (tt, s1) /\ own_of (aecp_acq s1) = Owned carol true /\
    periodic_at sample_env sample_polls s1 = Some (tt, s2) /\ own_of (aecp_acq s2) = Owned bob false.
Proof.
  exact (observed_Some owner_now _ _ _ _ _ stale_run_result).
Qed.

(** ** Answers *)

Lemma sample_device_ok : device_ok (laws := device_laws) (aecp_dev sample_aecp).
Proof. by constructor. Qed.

Lemma sample_aecp_ok : aecp_ok sample_aecp.
Proof. by constructor. Qed.

(** GET_STREAM_INFO for the first sink. *)
Definition sample_stream_info : list Z :=
  sample_command alice AECP_AEM_CMD_GET_STREAM_INFO 16 (hton_16 AEM_STREAM_INPUT_TYPE ++ hton_16 0).

Example aem_command_answered_witness :
  exists s' st f, receive_aecp sample_env sample_src 100 sample_stream_info sample_aecp = Some (tt, s') /\
    aecp_out s' = [AecpTx f] /\ answers sample_src sample_stream_info st 2 f.
Proof.
  destruct (aem_command_answered (ecfg := sample_aecp_config) (laws := device_laws) sample_mac_length sample_env sample_src 100
    AECP_AEM_CMD_GET_STREAM_INFO sample_stream_info sample_aecp) as (s' & st & f & E & _ & _ & Ho & _ & Ha & _);
    [done|sample_packet|done|exact sample_aecp_ok|exact sample_device_ok| |].
  - left. apply (bool_decide_unpack _). by vm_compute.
  - by exists s', st, f.
Defined.

(** GET_NAME (17), which is not among the commands implemented. *)
Definition sample_get_name : list Z := sample_command alice 17 20 (replicate 8 0).

Example unimplemented_refused_witness :
  exists s' f, receive_aecp sample_env sample_src 32 sample_get_name sample_aecp = Some (tt, s') /\
    aecp_out s' = [AecpTx f] /\ frame_status f = AECP_AEM_STATUS_NOT_IMPLEMENTED /\ frame_length f = 20.
Proof.
  destruct (unimplemented_refused (ecfg := sample_aecp_config) sample_mac_length sample_env sample_src 32
    17 sample_get_name sample_aecp) as (s' & f & E & _ & _ & _ & Ho & [_ _ Hst _ _] & Hl);
    [done|sample_packet|done|exact sample_aecp_ok|apply bytes_okb; by vm_compute| |by split; vm_compute|].
  - apply (bool_decide_unpack _). by vm_compute.
  - exists s', f. split_and!; [done|done|exact Hst|rewrite Hl; by vm_compute].
Defined.

(** ** Settings *)

(** SET_STREAM_FORMAT of the first sink: 96 kHz, eight channels; and the query. *)
Definition sample_set_format : list Z :=
  sample_command alice AECP_AEM_CMD_SET_STREAM_FORMAT 24 (hton_16 AEM_STREAM_INPUT_TYPE ++ hton_16 0 ++ stream_format 4 8).
Definition sample_get_format : list Z :=
  sample_command alice AECP_AEM_CMD_GET_STREAM_FORMAT 24 (hton_16 AEM_STREAM_INPUT_TYPE ++ hton_16 0).

Example stream_format_roundtrip_witness :
  exists s1 s2 f f', receive_aecp sample_env sample_src 100 sample_set_format sample_aecp = Some (tt, s1) /\
    receive_aecp sample_env sample_src 100 sample_get_format s1 = Some (tt, s2) /\ aecp_out s2 = [AecpTx f; AecpTx f'] /\
    bytes_at off_args 8 (frame_packet f') = [0; 0xa0; 4; 8; 0x40; 0; 8; 0].
Proof.
  destruct (named_stream (laws := device_laws) (aecp_dev sample_aecp) AEM_STREAM_INPUT_TYPE 0) as [x|] eqn:Hx; [|by vm_compute in Hx].
  destruct (stream_format_roundtrip (ecfg := sample_aecp_config) (laws := device_laws) sample_mac_length sample_env sample_src 100
    AEM_STREAM_INPUT_TYPE 0 x sample_set_format sample_get_format sample_aecp) as [Hdisabled _];
    [done|done|exact sample_aecp_ok|exact sample_device_ok|sample_packet|sample_packet|by split; vm_compute|by split; vm_compute|exact Hx
    |by split; vm_compute|by split; vm_compute|].
  destruct Hdisabled as (s1 & s2 & f & f' & E1 & E2 & Ho & _ & _ & Hb); [by vm_compute in Hx; simplify_eq|].
  exists s1, s2, f, f'. split_and!; [exact E1|exact E2|exact Ho|exact Hb].
Defined.

(** ** Uploads *)

Lemma concat_snoc {A} (l : list (list A)) x : concat (l ++ [x]) = concat l ++ x.
Proof. by rewrite concat_app, concat_cons, app_nil_r. Qed.

Definition device_flash_laws : FlashLaws device.
Proof.
  refine {| flash_of d := concat d.2 |}.
  intros [mgr pages] page Hp. eexists. split; [done|]. apply concat_snoc.
Defined.

(** The device once START_OPERATION has begun an upload, and its answer has been sent. *)
Definition sample_start_upload : list Z :=
  sample_command alice AECP_AEM_CMD_START_OPERATION 20
    (hton_16 AEM_MEMORY_OBJECT_TYPE ++ hton_16 0 ++ hton_16 0 ++ hton_16 AEM_MEMORY_OBJECT_OPERATION_UPLOAD).
Definition sample_upload : aecp device :=
  match receive_aecp sample_env sample_src 100 sample_start_upload sample_aecp with
  | Some (_, s) => upd_aecp_out (fun _ => []) s
  | None => sample_aecp
  end.

(** A write of 400 bytes at an address. *)
Definition sample_chunk (address byte : Z) : list Z :=
  let p := [0xfb; 2; Z.shiftr 422 8; Z.land 422 0xff] ++ set_64 (guid_c my_guid) ++ set_64 (guid_c alice) ++ hton_16 7 ++ hton_16 1 ++
           hton_16 (Z.lor (Z.shiftl AECP_AA_MODE_WRITE 12) 400) ++ set_64 (guid_c address) ++ replicate 400 byte in
  p ++ replicate (600 - length p) 0.

Example upload_stores_image_witness :
  exists s', forM [sample_chunk 0 7; sample_chunk 400 8] (receive_aecp sample_env sample_src 450) sample_upload = Some (tt, s') /\
    uploading (flaws := device_flash_laws) (replicate 400 7 ++ replicate 400 8) s'.
Proof.
  destruct (upload_stores_image (ecfg := sample_aecp_config) (flaws := device_flash_laws) sample_mac_length eq_refl sample_env sample_src 450
    [sample_chunk 0 7; sample_chunk 400 8] [] sample_upload) as (s' & evs & E & _ & Hup & _); [done|by split; vm_compute|by constructor; vm_compute| | |].
  - constructor; [constructor|..]; first [by vm_compute | by split; vm_compute].
  - split_and!; first [sample_packet | by vm_compute].
  - exists s'. split; [exact E|exact Hup].
Defined.

Example upload_out_of_order_refused_witness :
  exists s' ev, receive_aecp sample_env sample_src 450 (sample_chunk 400 8) sample_upload = Some (tt, s') /\
    aecp_upl s' = aecp_upl sample_upload /\ aecp_out s' = [ev].
Proof.
  destruct (upload_out_of_order_refused (ecfg := sample_aecp_config) sample_mac_length eq_refl sample_env sample_src 450 400
    (sample_chunk 400 8) sample_upload) as (s' & ev & E & Hu & _ & Ho & _); [done|by split; vm_compute|by constructor; vm_compute|sample_packet|by vm_compute|].
  exists s', ev. split_and!; [exact E|exact Hu|exact Ho].
Defined.
