(* ===== verification/Maap.v ===== *)
(** MAAP, the allocation of multicast addresses
    ([lib_tsn/src/1722/maap/avb_1722_maap.xc], [avb_1722_maap_protocol.h]): a device
    probes for a range of addresses, announces the range it has reserved, and defends it.

    Its state is static: the range, the state of the protocol, a timer, and the buffer
    of the packets it sends. *)
From S2P Require Import Prelude Bytes MiscTimer AcmpTypes.
From stdpp Require Import base list list_numbers numbers option.
From Stdlib Require Import ZArith Lia.
#[local] Open Scope Z_scope.

(** * [avb_1722_maap_protocol.h] *)

Definition MAX_AVB_1722_MAAP_PDU_SIZE : nat := 64.
Definition MAAP_ALLOCATION_POOL_BASE_ADDR : list Z := [0x91; 0xE0; 0xF0; 0x00; 0x00; 0x00].
Definition MAAP_ALLOCATION_POOL_SIZE : Z := 0xFE00.
Definition MAAP_PROTOCOL_DEST_ADDR : list Z := [0x91; 0xE0; 0xF0; 0x00; 0xFF; 0x00].
Definition MAAP_PROBE_RETRANSMITS : Z := 3.
Definition MAAP_PROBE_INTERVAL_BASE_CS : Z := 500 / 10.
Definition MAAP_ANNOUNCE_INTERVAL_BASE_CS : Z := 3000 / 10.
Definition MAAP_ANNOUNCE_INTERVAL_MULTIPLIER : Z := 10.
Definition MAAP_ANNOUNCE_INTERVAL_VARIATION_MS : Z := 200.
Definition MAAP_DATA_LENGTH : Z := 16.

Definition MAAP_PROBE : Z := 1.
Definition MAAP_DEFEND : Z := 2.
Definition MAAP_ANNOUNCE : Z := 3.

Definition DEFAULT_MAAP_SUBTYPE : Z := 0x7e.

(** Offsets in a packet behind its Ethernet header. *)
Definition off_request_start : nat := 12.
Definition off_requested_count : nat := 18.
Definition off_conflict_start : nat := 20.
Definition off_conflict_count : nat := 26.
Definition sizeof_maap_packet : nat := 28.

Definition GET_MAAP_SUBTYPE (pkt : list Z) : Z := Z.land (pkt !!! 0%nat) 0x7f.
Definition GET_MAAP_MSG_TYPE (pkt : list Z) : Z := Z.land (pkt !!! 1%nat) 0x0f.
Definition maap_count (off : nat) (pkt : list Z) : Z := pkt !!! S off + Z.shiftl (pkt !!! off) 8.
Definition GET_MAAP_REQUESTED_COUNT : list Z -> Z := maap_count off_requested_count.
Definition GET_MAAP_CONFLICT_COUNT : list Z -> Z := maap_count off_conflict_count.
Definition set_maap_count (val : Z) : list Z := [u8 (Z.shiftr val 8); u8 (Z.land val 0xff)].

(** * State *)

Inductive maap_state_t : Type := MAAP_DISABLED | MAAP_PROBING | MAAP_RESERVED.
#[global] Instance maap_state_eq_dec : EqDecision maap_state_t.
Proof. solve_decision. Defined.

(** The field [timeout], which no code uses, is left out. *)
Record maap_address_range : Type := MkRange {
  maap_base : list Z;  (* unsigned char[6] *)
  maap_range : Z;  (* int *)
  maap_probe_count : Z;  (* int *)
  maap_immediately : Z;  (* int *)
  maap_state : maap_state_t;
}.

(** Frames sent, and the application's hook. *)
Inductive maap_event : Type :=
| MaapTx (frame : list Z)
| SourceAddressReserved (source_num : Z) (mac_addr : list Z).

(** [maap_mac] is the file's own copy of the device's address. *)
Record maap : Type := MkMaap {
  maap_mac : list Z;
  maap_addr : maap_address_range;
  maap_timer : avb_timer;
  maap_timeout_val : Z;  (* int *)
  maap_buf : list Z;  (* 64 bytes *)
  maap_out : list maap_event;
}.

Definition upd_maap_addr (g : maap_address_range -> maap_address_range) (s : maap) : maap :=
  MkMaap (maap_mac s) (g (maap_addr s)) (maap_timer s) (maap_timeout_val s) (maap_buf s) (maap_out s).
Definition upd_maap_timer (g : avb_timer -> avb_timer) (s : maap) : maap :=
  MkMaap (maap_mac s) (maap_addr s) (g (maap_timer s)) (maap_timeout_val s) (maap_buf s) (maap_out s).
Definition upd_maap_timeout_val (g : Z -> Z) (s : maap) : maap :=
  MkMaap (maap_mac s) (maap_addr s) (maap_timer s) (g (maap_timeout_val s)) (maap_buf s) (maap_out s).
Definition upd_maap_buf (g : list Z -> list Z) (s : maap) : maap :=
  MkMaap (maap_mac s) (maap_addr s) (maap_timer s) (maap_timeout_val s) (g (maap_buf s)) (maap_out s).
Definition upd_maap_out (g : list maap_event -> list maap_event) (s : maap) : maap :=
  MkMaap (maap_mac s) (maap_addr s) (maap_timer s) (maap_timeout_val s) (maap_buf s) (g (maap_out s)).

Definition upd_maap_base (g : list Z -> list Z) (a : maap_address_range) : maap_address_range :=
  MkRange (g (maap_base a)) (maap_range a) (maap_probe_count a) (maap_immediately a) (maap_state a).
Definition upd_maap_range (g : Z -> Z) (a : maap_address_range) : maap_address_range :=
  MkRange (maap_base a) (g (maap_range a)) (maap_probe_count a) (maap_immediately a) (maap_state a).
Definition upd_maap_probe_count (g : Z -> Z) (a : maap_address_range) : maap_address_range :=
  MkRange (maap_base a) (maap_range a) (g (maap_probe_count a)) (maap_immediately a) (maap_state a).
Definition upd_maap_immediately (g : Z -> Z) (a : maap_address_range) : maap_address_range :=
  MkRange (maap_base a) (maap_range a) (maap_probe_count a) (g (maap_immediately a)) (maap_state a).
Definition upd_maap_state (g : maap_state_t -> maap_state_t) (a : maap_address_range) : maap_address_range :=
  MkRange (maap_base a) (maap_range a) (maap_probe_count a) (maap_immediately a) (g (maap_state a)).

Abbreviation MM := (M maap).
Definition maap_send (frame : list Z) : MM unit := modify (upd_maap_out (fun l => l ++ [MaapTx frame])).

(** * Packets *)

(** The packet under construction; the optional arguments are those of a defence. *)
Definition maap_frame (mac : list Z) (message_type : Z) (src_addr : list Z) (addr : maap_address_range)
    (request_addr : list Z) (request_count : Z) (conflict_addr : list Z) (conflict_count : Z) (buf : list Z) : list Z :=
  let b := buf in
  let flags := SET_BITS (SET_BITS (b !!! 14%nat) 7 7 1) 0 6 DEFAULT_MAAP_SUBTYPE in
  let version_type := SET_BITS (SET_BITS (b !!! 15%nat) 4 6 0) 0 3 message_type in
  let version_length := SET_BITS (SET_BITS (b !!! 16%nat) 3 7 1) 0 2 (Z.shiftr MAAP_DATA_LENGTH 8) in
  let length_lo := SET_BITS (b !!! 17%nat) 0 7 (Z.land MAAP_DATA_LENGTH 0xff) in
  let defend := message_type =? MAAP_DEFEND in
  take 6 (if defend then src_addr else MAAP_PROTOCOL_DEST_ADDR) ++ take 6 mac ++
  [Z.shiftr AVB_1722_ETHERTYPE 8; Z.land AVB_1722_ETHERTYPE 0xff] ++
  [flags; version_type; version_length; length_lo] ++ bytes_at 18 8 b ++
  take 6 (if defend then request_addr else maap_base addr) ++
  set_maap_count (if defend then request_count else maap_range addr) ++
  (if defend then take 6 conflict_addr else replicate 6 0) ++
  set_maap_count (if defend then conflict_count else 0) ++
  drop 42 b.

Definition create_maap_packet (message_type : Z) (src_addr request_addr : list Z) (request_count : Z)
    (conflict_addr : list Z) (conflict_count : Z) : MM Z :=
  _ ← modify (fun s => upd_maap_buf (maap_frame (maap_mac s) message_type src_addr (maap_addr s)
        request_addr request_count conflict_addr conflict_count) s);
  mret 64.

(** [send_packet] of [nbytes] of the buffer. *)
Definition maap_send_buf (nbytes : Z) : MM unit :=
  buf ← gets maap_buf; maap_send (take (Z.to_nat nbytes) buf).

(** * Requests *)

(** [random_gen] is part of the environment: each operation reads it once at most, the
    argument [random]. *)
Definition maap_probe_timeout (base : list Z) : Z := MAAP_PROBE_INTERVAL_BASE_CS + Z.land (base !!! 5%nat) 7.

Definition avb_1722_maap_init (macaddr : list Z) : MM unit :=
  modify (fun s =>
    upd_maap_timer (init_avb_timer 1)
    (upd_maap_addr (fun a => upd_maap_base (fun _ => MAAP_ALLOCATION_POOL_BASE_ADDR)
                               (upd_maap_state (fun _ => MAAP_DISABLED) a))
      (MkMaap (take 6 macaddr) (maap_addr s) (maap_timer s) (maap_timeout_val s) (maap_buf s) (maap_out s)))).

(** The remainder is that of unsigned integers. *)
Definition random_base (random : Z) (addr : maap_address_range) : option (list Z) :=
  let room := u32 (MAAP_ALLOCATION_POOL_SIZE - maap_range addr) in
  if room =? 0 then None
  else
    let range_offset := s32 (u32 random mod room) in
    Some (take 4 (maap_base addr) ++
          [Z.land (Z.shiftr range_offset 8) 0xFF; Z.land range_offset 0xFF]).

Definition avb_1722_maap_request_addresses (now random num_addr : Z) (start_address : option (list Z)) : MM unit :=
  _ ← match start_address with
      | Some start => modify (upd_maap_addr (upd_maap_base (fun _ => take 6 start)))
      | None =>
          base ← load (fun s => random_base random (maap_addr s));
          modify (upd_maap_addr (upd_maap_base (fun _ => base)))
      end;
  _ ← whenM (negb (num_addr =? -1)) (modify (upd_maap_addr (upd_maap_range (fun _ => num_addr))));
  modify (fun s =>
    let timeout_val := maap_probe_timeout (maap_base (maap_addr s)) in
    upd_maap_timer (start_avb_timer now timeout_val)
    (upd_maap_timeout_val (fun _ => timeout_val)
    (upd_maap_addr (fun a =>
       upd_maap_immediately (fun _ => 1)
       (upd_maap_probe_count (fun _ => MAAP_PROBE_RETRANSMITS)
       (upd_maap_state (fun _ => MAAP_PROBING) a))) s))).

Definition avb_1722_maap_rerequest_addresses (now random : Z) : MM unit :=
  st ← gets (fun s => maap_state (maap_addr s));
  whenM (negb (bool_decide (st = MAAP_DISABLED))) (avb_1722_maap_request_addresses now random (-1) None).

Definition avb_1722_maap_relinquish_addresses : MM unit :=
  modify (upd_maap_addr (upd_maap_state (fun _ => MAAP_DISABLED))).

(** The result, and what it has written to [addr]. *)
Definition avb_1722_maap_get_base_address (addr : list Z) : MM (Z * list Z) :=
  a ← gets maap_addr;
  mret (if bool_decide (maap_state a = MAAP_DISABLED) then (-1, addr) else (0, take 6 (maap_base a))).

(** * The periodic function *)

(** The address of the [i]-th stream of the range. *)
Definition nth_address (base : list Z) (i : Z) : list Z :=
  let lower_two_bytes := s32 (s32 (Z.shiftl (base !!! 4%nat) 8 + base !!! 5%nat) + i) in
  take 4 base ++ [Z.land (Z.shiftr lower_two_bytes 8) 0xFF; Z.land lower_two_bytes 0xFF].

(** [MAAP_ANNOUNCE_INTERVAL_VARIATION_CS] is [200/10] without parentheses, behind a [%]. *)
Definition maap_announce_timeout (random : Z) : Z :=
  MAAP_ANNOUNCE_INTERVAL_BASE_CS + (u32 random mod MAAP_ANNOUNCE_INTERVAL_VARIATION_MS) / 10.

(** [maap_addr.immediately || avb_timer_expired(maap_timer)] *)
Definition maap_due (now : Z) : MM bool :=
  imm ← gets (fun s => maap_immediately (maap_addr s));
  if truthy imm then mret true
  else
    tmr ← gets maap_timer;
    let '(fired, tmr) := avb_timer_expired now tmr in
    _ ← modify (upd_maap_timer (fun _ => tmr));
    mret fired.

(** The hook is called if the application has MAAP. *)
Class MaapConfig : Type := { AVB_ENABLE_1722_MAAP : bool }.

Section Periodic.
Context `{mcfg : MaapConfig}.

Definition report_addresses : MM unit :=
  a ← gets maap_addr;
  forM (seqZ 0 (maap_range a)) (fun i => whenM AVB_ENABLE_1722_MAAP
    (modify (upd_maap_out (fun l => l ++ [SourceAddressReserved i (nth_address (maap_base a) i)])))).

Definition maap_probe (now random : Z) : MM unit :=
  _ ← modify (upd_maap_addr (upd_maap_immediately (fun _ => 0)));
  nbytes ← create_maap_packet MAAP_PROBE [] [] 0 [] 0;
  _ ← maap_send_buf nbytes;
  a ← gets maap_addr;
  _ ← (if maap_probe_count a =? 0 then
         _ ← modify (upd_maap_addr (fun a => upd_maap_immediately (fun _ => 1) (upd_maap_state (fun _ => MAAP_RESERVED) a)));
         let timeout_val := maap_announce_timeout random in
         _ ← modify (fun s => upd_maap_timeout_val (fun _ => timeout_val)
               (upd_maap_timer (fun t => start_avb_timer now timeout_val (init_avb_timer MAAP_ANNOUNCE_INTERVAL_MULTIPLIER t)) s));
         report_addresses
       else
         modify (fun s => upd_maap_timer (fun t => start_avb_timer now (maap_timeout_val s) (init_avb_timer 1 t)) s));
  modify (upd_maap_addr (upd_maap_probe_count (fun n => s32 (n - 1)))).

Definition maap_announce (now random : Z) : MM unit :=
  nbytes ← create_maap_packet MAAP_ANNOUNCE [] [] 0 [] 0;
  _ ← maap_send_buf nbytes;
  a ← gets maap_addr;
  if negb (truthy (maap_immediately a)) then
    let timeout_val := maap_announce_timeout random in
    modify (fun s => upd_maap_timeout_val (fun _ => timeout_val) (upd_maap_timer (start_avb_timer now timeout_val) s))
  else modify (upd_maap_addr (upd_maap_immediately (fun _ => 0))).

Definition avb_1722_maap_periodic (now random : Z) : MM unit :=
  st ← gets (fun s => maap_state (maap_addr s));
  match st with
  | MAAP_DISABLED => skip
  | MAAP_PROBING => due ← maap_due now; whenM due (maap_probe now random)
  | MAAP_RESERVED => due ← maap_due now; whenM due (maap_announce now random)
  end.
End Periodic.

(** * Conflicts *)

Definition mac_addr_to_num_reverse (addr : list Z) : Z :=
  foldl (fun x i => u64 (x + u64 (Z.shiftl (addr !!! i) (Z.of_nat i * 8)))) 0 (seq 0 6).

Definition maap_compare_mac (mac src_addr : list Z) : bool :=
  mac_addr_to_num_reverse mac <? mac_addr_to_num_reverse src_addr.

Definition address_lo (addr : list Z) : Z := addr !!! 5%nat + Z.shiftl (addr !!! 4%nat) 8.

(** [out] is what [conflicted_addr] and [conflicted_count] refer to, if they are not null;
    [junk] what an uninitialised [first_conflict_addr] holds. *)
Definition maap_conflict (junk : Z) (addr : maap_address_range) (remote_addr : list Z) (remote_count : Z)
    (out : option (list Z * Z)) : bool * option (list Z * Z) :=
  if negb (forallb (fun i => remote_addr !!! i =? maap_base addr !!! i) (seq 0 4)) then (false, out)
  else
    let my_addr_lo := address_lo (maap_base addr) in
    let my_addr_hi := s32 (my_addr_lo + maap_range addr) in
    let conflict_lo := address_lo remote_addr in
    let conflict_hi := s32 (conflict_lo + remote_count) in
    let found :=
      if (conflict_lo <=? my_addr_lo) && (my_addr_lo <? conflict_hi) then
        Some (my_addr_lo, if my_addr_hi <? conflict_hi then s32 (my_addr_hi - my_addr_lo) else s32 (conflict_hi - my_addr_lo))
      else if (my_addr_lo <? conflict_lo) && (conflict_lo <? my_addr_hi) then
        let first := my_addr_lo + (conflict_lo - my_addr_lo) in
        Some (first, if conflict_hi <=? my_addr_hi then remote_count else s32 (my_addr_hi - first))
      else if (my_addr_lo =? conflict_lo) && (my_addr_hi =? conflict_hi) then Some (junk, remote_count)
      else None in
    match found, out with
    | None, _ => (false, out)
    | Some _, None => (true, None)
    | Some (first, count), Some (conflicted_addr, _) =>
        (true, Some (if bool_decide (maap_state addr = MAAP_RESERVED)
                     then take 4 (maap_base addr) ++ [u8 (Z.shiftr first 8); u8 first]
                     else conflicted_addr, count))
    end.

(** [buf] is the packet without its Ethernet header, in the task's buffer, which is
    larger than a packet; [stack] is what the locals hold on entry. *)
Record maap_env : Type := MkMaapEnv {
  me_now : Z;
  me_random : Z;
  me_conflict_addr : list Z;
  me_conflict_count : Z;
  me_first_conflict : Z;
}.

(** The packet may name a range of this device's addresses: a defence or an announcement. *)
Definition maap_give_way (env : maap_env) (src_addr test_addr : list Z) (test_count : Z) : MM unit :=
  s ← gets (fun s => s);
  let '(conflict, _) := maap_conflict (me_first_conflict env) (maap_addr s) test_addr test_count None in
  if conflict then
    if bool_decide (maap_state (maap_addr s) = MAAP_RESERVED) && maap_compare_mac (maap_mac s) src_addr then skip
    else avb_1722_maap_request_addresses (me_now env) (me_random env) (-1) None
  else skip.

Definition maap_probed (env : maap_env) (src_addr test_addr : list Z) (test_count : Z) : MM unit :=
  s ← gets (fun s => s);
  let '(conflict, out) := maap_conflict (me_first_conflict env) (maap_addr s) test_addr test_count
                            (Some (me_conflict_addr env, me_conflict_count env)) in
  if conflict then
    if bool_decide (maap_state (maap_addr s) = MAAP_PROBING) then
      if maap_compare_mac (maap_mac s) src_addr then skip
      else avb_1722_maap_request_addresses (me_now env) (me_random env) (-1) None
    else
      let '(conflict_addr, conflict_count) := default ([], 0) out in
      len ← create_maap_packet MAAP_DEFEND src_addr test_addr test_count conflict_addr conflict_count;
      maap_send_buf len
  else skip.

Definition avb_1722_maap_process_packet (env : maap_env) (buf src_addr : list Z) : MM unit :=
  if (length buf <? sizeof_maap_packet)%nat then trap
  else if negb (GET_MAAP_SUBTYPE buf =? 0x7e) then skip
  else
    st ← gets (fun s => maap_state (maap_addr s));
    if bool_decide (st = MAAP_DISABLED) then skip
    else
      let msg_type := GET_MAAP_MSG_TYPE buf in
      let request := bytes_at off_request_start 6 buf in
      if msg_type =? MAAP_PROBE then maap_probed env src_addr request (GET_MAAP_REQUESTED_COUNT buf)
      else if msg_type =? MAAP_DEFEND then
        maap_give_way env src_addr (bytes_at off_conflict_start 6 buf) (GET_MAAP_CONFLICT_COUNT buf)
      else if msg_type =? MAAP_ANNOUNCE then maap_give_way env src_addr request (GET_MAAP_REQUESTED_COUNT buf)
      else skip.
