(* ===== verification/MaapSpec.v ===== *)
(** MAAP: what a conflict is, how a range is defended, how two devices that claim the same
    addresses settle it, and when a range is reserved. *)
From S2P Require Import Prelude Bytes MiscTimer AcmpTypes AcmpSpec Maap.
From stdpp Require Import base list list_numbers numbers option.
From Stdlib Require Import ZArith Lia.
#[local] Open Scope Z_scope.

(** * Ranges of addresses *)

(** From [low] to the number before [high]. *)
Record interval : Type := MkInterval { low : Z; high : Z }.
#[export] Instance in_interval : ElemOf Z interval := fun x i => low i <= x < high i.
Definition intersect (i j : interval) : interval := MkInterval (Z.max (low i) (low j)) (Z.min (high i) (high j)).
Definition overlap (i j : interval) : Prop := exists x, x ∈ i /\ x ∈ j.

Lemma elem_of_intersect x i j : x ∈ intersect i j <-> x ∈ i /\ x ∈ j.
Proof. unfold elem_of, in_interval. cbn. lia. Qed.

#[export] Instance overlap_dec i j : Decision (overlap i j).
Proof.
  refine (cast_if (decide (low (intersect i j) < high (intersect i j)))); cbn in *.
  - exists (Z.max (low i) (low j)). unfold elem_of, in_interval. lia.
  - intros [x Hx]. unfold elem_of, in_interval in Hx. lia.
Defined.

Lemma overlap_iff i j : overlap i j <-> Z.max (low i) (low j) < Z.min (high i) (high j).
Proof.
  split; [intros [x Hx] | intros H; exists (Z.max (low i) (low j))]; unfold elem_of, in_interval in *; lia.
Qed.

#[export] Instance overlap_sym : Symmetric overlap.
Proof. intros i j [x [H1 H2]]. by exists x. Qed.

(** [count] addresses from [addr] on, as numbers of their two last bytes. *)
Definition addresses (addr : list Z) (count : Z) : interval := MkInterval (address_lo addr) (address_lo addr + count).

(** The addresses of the same block of 65536. *)
Definition same_block (a b : list Z) : Prop := take 4 a = take 4 b.

(** Six bytes. *)
Record mac_ok (a : list Z) : Prop := {
  mac_length : length a = 6%nat;
  mac_bytes : Forall byte_ok a;
}.

Lemma mac_ok_explicit a : mac_ok a -> exists b0 b1 b2 b3 b4 b5, a = [b0; b1; b2; b3; b4; b5] /\
  byte_ok b0 /\ byte_ok b1 /\ byte_ok b2 /\ byte_ok b3 /\ byte_ok b4 /\ byte_ok b5.
Proof.
  intros [H1 H2]. destruct_len a H1. rewrite !list.Forall_cons in H2. eexists _, _, _, _, _, _. split; [done|tauto].
Qed.

Lemma address_lo_value b0 b1 b2 b3 b4 b5 : address_lo [b0; b1; b2; b3; b4; b5] = 256 * b4 + b5.
Proof. unfold address_lo, lookup_total. cbn. rewrite Z.shiftl_mul_pow2 by lia. lia. Qed.

Lemma address_lo_range a : mac_ok a -> 0 <= address_lo a < 65536.
Proof.
  intros (b0 & b1 & b2 & b3 & b4 & b5 & -> & H)%mac_ok_explicit. rewrite address_lo_value. unfold byte_ok in H. lia.
Qed.

Lemma same_block_iff a b : mac_ok a -> mac_ok b -> forallb (fun i => a !!! i =? b !!! i) (seq 0 4) = true <-> same_block a b.
Proof.
  intros (a0 & a1 & a2 & a3 & a4 & a5 & -> & _)%mac_ok_explicit (b0 & b1 & b2 & b3 & b4 & b5 & -> & _)%mac_ok_explicit.
  unfold same_block, lookup_total. cbn. rewrite !andb_true_iff, !Z.eqb_eq. split; [|by intros [= -> -> -> ->]].
  by intros (-> & -> & -> & -> & _).
Qed.

#[export] Instance same_block_dec a b : Decision (same_block a b) := decide (take 4 a = take 4 b).

Lemma mac_explicit b0 b1 b2 b3 b4 b5 :
  byte_ok b0 -> byte_ok b1 -> byte_ok b2 -> byte_ok b3 -> byte_ok b4 -> byte_ok b5 -> mac_ok [b0; b1; b2; b3; b4; b5].
Proof. intros. split; [done|]. repeat (apply list.Forall_cons; split; [done|]). apply list.Forall_nil. done. Qed.

(** The address of the block with a number of the two last bytes. *)
Lemma block_address base n :
  mac_ok base -> let a := take 4 base ++ [u8 (Z.shiftr n 8); u8 n] in mac_ok a /\ same_block a base /\ address_lo a = u16 n.
Proof.
  intros (b0 & b1 & b2 & b3 & b4 & b5 & -> & H)%mac_ok_explicit. cbn [take app]. destruct_and? H. split_and!.
  - by apply mac_explicit; try apply u8_range.
  - done.
  - rewrite address_lo_value. unfold u8, u16, wrap. rewrite Z.shiftr_div_pow2 by lia.
    change (2 ^ 8) with 256. change (2 ^ 16) with 65536. Z.to_euclidean_division_equations. lia.
Qed.

(** * Conflicts *)

(** What a device claims. *)
Record claim_ok (a : maap_address_range) : Prop := {
  claim_base : mac_ok (maap_base a);
  claim_range : 0 < maap_range a < 65536;
}.
Abbreviation claimed a := (addresses (maap_base a) (maap_range a)).

(** What is reported of a conflict. *)
Definition conflict_of (a : maap_address_range) (remote : interval) (old : list Z) : list Z * Z :=
  let i := intersect (claimed a) remote in
  (if bool_decide (maap_state a = MAAP_RESERVED) then take 4 (maap_base a) ++ [u8 (Z.shiftr (low i) 8); u8 (low i)] else old,
   high i - low i).

(** With ranges that are not empty, [maap_conflict] is the test whether they overlap, and
    reports what they have in common. *)
Lemma maap_conflict_eq junk a addr count out :
  claim_ok a -> mac_ok addr -> 0 < count < 65536 ->
  maap_conflict junk a addr count out =
    if decide (same_block addr (maap_base a) /\ overlap (claimed a) (addresses addr count))
    then (true, (fun p => conflict_of a (addresses addr count) p.1) <$> out) else (false, out).
Proof.
  intros [Hb Hr] Ha Hc. unfold maap_conflict. pose proof (address_lo_range _ Hb) as H1. pose proof (address_lo_range _ Ha) as H2.
  destruct (forallb _ _) eqn:E.
  - apply (same_block_iff _ _ Ha Hb) in E. cbn [negb]. rewrite !(s32_small (_ + _)) by lia.
    unfold conflict_of, intersect, addresses in *. cbn [low high] in *.
    set (lo := address_lo (maap_base a)) in *. set (r := address_lo addr) in *. set (n := maap_range a) in *.
    destruct (decide _) as [[_ Ho]|Hn].
    + apply overlap_iff in Ho. cbn in Ho.
      destruct (Z.leb_spec r lo), (Z.ltb_spec lo (r + count)); cbn [andb]; try lia.
      * destruct out as [[old k]|]; [|done]. cbn. rewrite Z.max_l by lia. rewrite Z.min_comm.
        destruct (Z.ltb_spec (lo + n) (r + count)); rewrite s32_small by lia; [rewrite Z.min_r by lia|rewrite Z.min_l by lia]; done.
      * destruct (Z.ltb_spec lo r), (Z.ltb_spec r (lo + n)); cbn [andb]; try lia.
        destruct out as [[old k]|]; [|done]. cbn. rewrite Z.max_r by lia. replace (lo + (r - lo)) with r by lia.
        destruct (Z.leb_spec (r + count) (lo + n)); [rewrite Z.min_r by lia|rewrite s32_small, Z.min_l by lia]; [|done].
        by replace (r + count - r) with count by lia.
    + assert (Z.min (lo + n) (r + count) <= Z.max lo r) as Hno.
      { apply Z.nlt_ge. intros Hlt. apply Hn. split; [done|]. by apply overlap_iff. }
      destruct (Z.leb_spec r lo), (Z.ltb_spec lo (r + count)), (Z.ltb_spec lo r), (Z.ltb_spec r (lo + n)),
        (Z.eqb_spec lo r), (Z.eqb_spec (lo + n) (r + count)); cbn [andb]; done || lia.
  - cbn [negb]. destruct (decide _) as [[Hs _]|]; [|done]. apply (same_block_iff _ _ Ha Hb) in Hs. congruence.
Qed.

(** * Packets *)

Lemma maap_count_value v pre post :
  maap_count (length pre) (pre ++ set_maap_count v ++ post) = u16 v.
Proof.
  unfold maap_count, set_maap_count. rewrite (lookup_total_app_r _ _ (S _)), (lookup_total_app_r _ _ (length _)), Nat.sub_diag by lia. replace (S (length pre) - length pre)%nat with 1%nat by lia.
  cbn. rewrite land_255, Z.shiftl_mul_pow2, Z.shiftr_div_pow2 by lia. unfold u8, u16, wrap.
  cbn [app lookup_total list_lookup_total].
  change (2 ^ 8) with 256. change (2 ^ 16) with 65536. Z.to_euclidean_division_equations. lia.
Qed.

Lemma maap_subtype p : Z.land (SET_BITS p 0 6 DEFAULT_MAAP_SUBTYPE) 0x7f = 0x7e.
Proof.
  rewrite SET_BITS_wrap. pose proof (u8_range p : byte_ok (u8 p)) as Hp. apply Z.eqb_eq. revert Hp. generalize (u8 p). intros x Hx.
  refine (byte_cases 1 (fun x _ => Z.land (SET_BITS x 0 6 DEFAULT_MAAP_SUBTYPE) 0x7f =? 0x7e) x 0 _ Hx _); by vm_compute.
Qed.

Lemma maap_msg_type p mt : 0 <= mt < 16 -> Z.land (SET_BITS p 0 3 mt) 0x0f = mt.
Proof. rewrite SET_BITS_wrap. apply set_message_type, u8_range. Qed.

(** What the receiver of a frame reads from it. *)
Record maap_message (pkt : list Z) (mt : Z) (request : list Z) (requested : Z) (conflict : list Z) (conflicted : Z) : Prop := {
  msg_length : (sizeof_maap_packet <= length pkt)%nat;
  msg_subtype : GET_MAAP_SUBTYPE pkt = 0x7e;
  msg_type : GET_MAAP_MSG_TYPE pkt = mt;
  msg_request : bytes_at off_request_start 6 pkt = request;
  msg_requested : GET_MAAP_REQUESTED_COUNT pkt = u16 requested;
  msg_conflict : bytes_at off_conflict_start 6 pkt = conflict;
  msg_conflicted : GET_MAAP_CONFLICT_COUNT pkt = u16 conflicted;
}.

Lemma maap_message_explicit b0 b1 b2 b3 stream request requested conflict conflicted post mt :
  Z.land b0 0x7f = 0x7e -> Z.land b1 0x0f = mt -> length stream = 8%nat -> length request = 6%nat -> length conflict = 6%nat ->
  maap_message ([b0; b1; b2; b3] ++ stream ++ request ++ set_maap_count requested ++ conflict ++ set_maap_count conflicted ++ post)
    mt request requested conflict conflicted.
Proof.
  intros H0 H1 Hs Hr Hc. split; [|done|done|..].
  - rewrite !length_app, Hs, Hr, Hc. cbn. unfold sizeof_maap_packet. lia.
  - destruct_len stream Hs. unfold bytes_at, off_request_start. cbn [app drop]. apply take_app_length'. done.
  - replace ([b0; b1; b2; b3] ++ stream ++ request ++ set_maap_count requested ++ conflict ++ set_maap_count conflicted ++ post)
      with (([b0; b1; b2; b3] ++ stream ++ request) ++ set_maap_count requested ++ (conflict ++ set_maap_count conflicted ++ post))
      by (by rewrite <- !app_assoc).
    assert (length ([b0; b1; b2; b3] ++ stream ++ request) = off_requested_count) as Hl by (rewrite !length_app, Hs, Hr; done).
    unfold GET_MAAP_REQUESTED_COUNT. rewrite <- Hl. apply maap_count_value.
  - destruct_len stream Hs. destruct_len request Hr. unfold bytes_at, off_conflict_start. cbn [app drop set_maap_count].
    apply take_app_length'. done.
  - replace ([b0; b1; b2; b3] ++ stream ++ request ++ set_maap_count requested ++ conflict ++ set_maap_count conflicted ++ post)
      with (([b0; b1; b2; b3] ++ stream ++ request ++ set_maap_count requested ++ conflict) ++ set_maap_count conflicted ++ post)
      by (by rewrite <- !app_assoc).
    assert (length ([b0; b1; b2; b3] ++ stream ++ request ++ set_maap_count requested ++ conflict) = off_conflict_count) as Hl
      by (rewrite !length_app, Hs, Hr, Hc; done).
    unfold GET_MAAP_CONFLICT_COUNT. rewrite <- Hl. apply maap_count_value.
Qed.

(** The type of the state, between two operations. *)
Record maap_ok (s : maap) : Prop := {
  ok_mac : mac_ok (maap_mac s);
  ok_base : mac_ok (maap_base (maap_addr s));
  ok_buf : length (maap_buf s) = MAX_AVB_1722_MAAP_PDU_SIZE;
}.

(** A frame, without its Ethernet header: what is left of it at the receiver. *)
Definition maap_payload (frame : list Z) : list Z := drop 14 frame.

Lemma maap_frame_message mac mt src a req rc conf cc buf :
  mac_ok mac -> mac_ok (maap_base a) -> length buf = MAX_AVB_1722_MAAP_PDU_SIZE -> mt = MAAP_PROBE \/ mt = MAAP_ANNOUNCE ->
  let f := maap_frame mac mt src a req rc conf cc buf in
  length f = MAX_AVB_1722_MAAP_PDU_SIZE /\ take 6 f = MAAP_PROTOCOL_DEST_ADDR /\ bytes_at 6 6 f = mac /\
  maap_message (maap_payload f) mt (maap_base a) (maap_range a) (replicate 6 0) 0.
Proof.
  intros Hm Hb Hl Ht f. assert (f = MAAP_PROTOCOL_DEST_ADDR ++ mac ++ [0x22; 0xf0] ++ drop 14 f /\
    maap_message (drop 14 f) mt (maap_base a) (maap_range a) (replicate 6 0) 0 /\ length f = 64%nat) as (E & H1 & H2).
  { assert (length (bytes_at 18 8 buf) = 8%nat) as Hs by (unfold bytes_at; rewrite length_take, length_drop, Hl; done).
    assert (length (drop 42 buf) = 22%nat) as Hd by (rewrite length_drop, Hl; done).
    unfold f, maap_frame. replace (mt =? MAAP_DEFEND) with false by (by destruct Ht as [-> | ->]).
    rewrite (take_ge mac), (take_ge (maap_base a)) by (rewrite ?(mac_length _ Hm), ?(mac_length _ Hb); lia).
    destruct (mac_ok_explicit _ Hm) as (m0 & m1 & m2 & m3 & m4 & m5 & Em & _). rewrite Em.
    split_and!; [done| |]; cbn [take app MAAP_PROTOCOL_DEST_ADDR drop].
    - apply (maap_message_explicit _ _ _ _ _ _ _ (replicate 6 0));
        [apply maap_subtype|apply maap_msg_type; by destruct Ht as [-> | ->]|exact Hs|apply Hb|done].
    - cbn [length]. rewrite !length_app, Hs, (mac_length _ Hb), Hd. done. }
  split_and!; [done| | |done]; rewrite E.
  - done.
  - unfold bytes_at. rewrite drop_app_length' by done. by rewrite take_app_length' by (symmetry; apply Hm).
Qed.

Lemma maap_defend_message mac src a req rc conf cc buf :
  mac_ok mac -> mac_ok src -> mac_ok req -> mac_ok conf -> length buf = MAX_AVB_1722_MAAP_PDU_SIZE ->
  let f := maap_frame mac MAAP_DEFEND src a req rc conf cc buf in
  length f = MAX_AVB_1722_MAAP_PDU_SIZE /\ take 6 f = src /\ bytes_at 6 6 f = mac /\
  maap_message (maap_payload f) MAAP_DEFEND req rc conf cc.
Proof.
  intros Hm Hsrc Hr Hc Hl f. assert (f = src ++ mac ++ [0x22; 0xf0] ++ drop 14 f /\
    maap_message (drop 14 f) MAAP_DEFEND req rc conf cc /\ length f = 64%nat) as (E & H1 & H2).
  { assert (length (bytes_at 18 8 buf) = 8%nat) as Hs by (unfold bytes_at; rewrite length_take, length_drop, Hl; done).
    assert (length (drop 42 buf) = 22%nat) as Hd by (rewrite length_drop, Hl; done).
    unfold f, maap_frame. cbn [Z.eqb MAAP_DEFEND Pos.eqb].
    rewrite (take_ge mac), (take_ge src), (take_ge req), (take_ge conf)
      by (rewrite ?(mac_length _ Hm), ?(mac_length _ Hsrc), ?(mac_length _ Hr), ?(mac_length _ Hc); lia).
    destruct (mac_ok_explicit _ Hm) as (m0 & m1 & m2 & m3 & m4 & m5 & Em & _).
    destruct (mac_ok_explicit _ Hsrc) as (s0 & s1 & s2 & s3 & s4 & s5 & Es & _). rewrite Em, Es.
    split_and!; [done| |]; cbn [take app drop].
    - apply maap_message_explicit; [apply maap_subtype|by apply maap_msg_type|exact Hs|apply Hr|apply Hc].
    - cbn [length]. rewrite !length_app, Hs, (mac_length _ Hr), (mac_length _ Hc), Hd. done. }
  split_and!; [done| | |done]; rewrite E.
  - apply take_app_length'. symmetry. apply Hsrc.
  - unfold bytes_at. rewrite drop_app_length' by (symmetry; apply Hsrc). by rewrite take_app_length' by (symmetry; apply Hm).
Qed.

(** * The operations *)

(** The state written out. *)
Ltac norm_maap :=
  unfold upd_maap_addr, upd_maap_timer, upd_maap_timeout_val, upd_maap_buf, upd_maap_out, upd_maap_base, upd_maap_range,
    upd_maap_probe_count, upd_maap_immediately, upd_maap_state in *;
  cbn [maap_mac maap_addr maap_timer maap_timeout_val maap_buf maap_out maap_base maap_range maap_probe_count
    maap_immediately maap_state] in *.

(** Probing begins, for the range at [base]. *)
Definition probing (now : Z) (base : list Z) (s : maap) : maap :=
  MkMaap (maap_mac s) (MkRange base (maap_range (maap_addr s)) MAAP_PROBE_RETRANSMITS 1 MAAP_PROBING)
    (start_avb_timer now (maap_probe_timeout base) (maap_timer s)) (maap_probe_timeout base) (maap_buf s) (maap_out s).

(** A range that was requested: it is not empty, and there is room for it. *)
Record request_ok (a : maap_address_range) : Prop := {
  req_base : mac_ok (maap_base a);
  req_range : 0 < maap_range a < MAAP_ALLOCATION_POOL_SIZE;
}.

Lemma request_claim a : request_ok a -> claim_ok a.
Proof. intros [H1 H2]. split; [done|]. unfold MAAP_ALLOCATION_POOL_SIZE in H2. lia. Qed.

(** The addresses lie in the pool: behind its block, the numbers to 0xFDFF. *)
Definition in_pool (base : list Z) (range : Z) : Prop :=
  forall x, x ∈ addresses base range -> 0 <= x < MAAP_ALLOCATION_POOL_SIZE.

Lemma random_base_range random a :
  mac_ok (maap_base a) -> 0 <= maap_range a < MAAP_ALLOCATION_POOL_SIZE ->
  exists base, random_base random a = Some base /\ mac_ok base /\ same_block base (maap_base a) /\
    address_lo base = u32 random mod (MAAP_ALLOCATION_POOL_SIZE - maap_range a).
Proof.
  intros Hb Hr. unfold random_base. unfold MAAP_ALLOCATION_POOL_SIZE in *. rewrite (u32_small (65024 - _)) by lia.
  destruct (Z.eqb_spec (65024 - maap_range a) 0); [lia|]. set (r := u32 random mod (65024 - maap_range a)).
  assert (0 <= r < 65024 - maap_range a) as Hrr by (apply Z.mod_pos_bound; lia). rewrite (s32_small r) by lia.
  eexists. split; [done|]. rewrite !land_255. destruct (block_address (maap_base a) r Hb) as (H1 & H2 & H3).
  unfold u8, wrap in H1, H2, H3. change (2 ^ 8) with 256 in *. split_and!; [exact H1|exact H2|].
  rewrite H3. apply u16_small. lia.
Qed.

Lemma request_again_run now random s base :
  random_base random (maap_addr s) = Some base ->
  avb_1722_maap_request_addresses now random (-1) None s = Some (tt, probing now base s).
Proof.
  intros E. unfold avb_1722_maap_request_addresses.
  assert ((base ← load (fun s => random_base random (maap_addr s)); modify (upd_maap_addr (upd_maap_base (fun _ => base)))) s =
    Some (tt, upd_maap_addr (upd_maap_base (fun _ => base)) s)) as E1 by (unfold load, mbind, M_bind; by rewrite E).
  by rewrite (M_bind_run _ _ _ _ _ E1).
Qed.

(** ** Reception *)

(** What a device does about a message that names the [count] addresses from [addr] on. *)
Inductive reaction : Type := Ignore | Defend (conflict : list Z * Z) | GiveWay.

Definition reaction_to (old : list Z) (mt : Z) (src addr : list Z) (count : Z) (s : maap) : reaction :=
  let a := maap_addr s in
  if decide (maap_state a = MAAP_DISABLED) then Ignore
  else if decide (same_block addr (maap_base a) /\ overlap (claimed a) (addresses addr count)) then
    if decide (maap_state a = MAAP_RESERVED /\ mt = MAAP_PROBE) then Defend (conflict_of a (addresses addr count) old)
    else if decide (maap_state a = MAAP_PROBING /\ mt <> MAAP_PROBE) then GiveWay
    else if maap_compare_mac (maap_mac s) src then Ignore else GiveWay
  else Ignore.

(** The reply to a probe. *)
Definition defence (src addr : list Z) (count : Z) (conflict : list Z * Z) (s : maap) : list Z :=
  maap_frame (maap_mac s) MAAP_DEFEND src (maap_addr s) addr count conflict.1 conflict.2 (maap_buf s).
Definition sent (frame : list Z) (s : maap) : maap :=
  upd_maap_out (fun l => l ++ [MaapTx frame]) (upd_maap_buf (fun _ => frame) s).

Lemma send_frame_run mt src req rc conf cc s :
  let f := maap_frame (maap_mac s) mt src (maap_addr s) req rc conf cc (maap_buf s) in
  (length f <= 64)%nat ->
  (len ← create_maap_packet mt src req rc conf cc; maap_send_buf len) s = Some (tt, sent f s).
Proof.
  intros f Hf. erewrite M_bind_run by (unfold create_maap_packet; by erewrite M_bind_run by reflexivity).
  unfold maap_send_buf. erewrite M_bind_run by reflexivity. fold f. destruct s. norm_maap. change (Z.to_nat 64) with 64%nat.
  by rewrite take_ge by done.
Qed.

Definition reacts (env : maap_env) (src addr : list Z) (count : Z) (r : reaction) (s : maap) : option (unit * maap) :=
  match r with
  | Ignore => Some (tt, s)
  | GiveWay => base ← random_base (me_random env) (maap_addr s); Some (tt, probing (me_now env) base s)
  | Defend conflict => Some (tt, sent (defence src addr count conflict s) s)
  end.

Lemma request_reacts env src addr count s :
  request_ok (maap_addr s) ->
  avb_1722_maap_request_addresses (me_now env) (me_random env) (-1) None s = reacts env src addr count GiveWay s.
Proof.
  intros [H1 H2]. destruct (random_base_range (me_random env) (maap_addr s) H1) as (base & E & _); [lia|].
  cbn. rewrite E. cbn. by apply request_again_run.
Qed.

Lemma conflict_address_ok a i old : mac_ok (maap_base a) -> maap_state a = MAAP_RESERVED -> mac_ok (conflict_of a i old).1.
Proof. intros Hb Hs. unfold conflict_of. rewrite Hs. cbn. by apply block_address. Qed.

Section Reaction.
Context (env : maap_env) (src addr : list Z) (count : Z) (s : maap).
Context (Hok : maap_ok s) (Hreq : request_ok (maap_addr s)) (Hsrc : mac_ok src) (Haddr : mac_ok addr) (Hcount : 0 < count < 65536).
Abbreviation reaction mt := (reaction_to (me_conflict_addr env) mt src addr count s).

Lemma give_way_run mt :
  mt <> MAAP_PROBE -> maap_state (maap_addr s) <> MAAP_DISABLED ->
  maap_give_way env src addr count s = reacts env src addr count (reaction mt) s.
Proof.
  intros Hmt Hst. unfold maap_give_way. erewrite M_bind_run by reflexivity.
  rewrite maap_conflict_eq by (done || by apply request_claim). unfold reaction_to.
  destruct (decide (maap_state _ = MAAP_DISABLED)); [done|]. destruct (decide (same_block _ _ /\ _)); [|done].
  rewrite (decide_False (P := _ /\ mt = MAAP_PROBE)) by tauto.
  destruct (maap_state (maap_addr s)) eqn:Es; [done|..].
  - rewrite decide_True by done. cbn [bool_decide decide decide_rel]. by apply request_reacts.
  - rewrite decide_False by (by intros [? _]). cbn [andb].
    rewrite bool_decide_true by done. destruct (maap_compare_mac _ _); [done|]. by apply request_reacts.
Qed.

Lemma probed_run :
  maap_state (maap_addr s) <> MAAP_DISABLED ->
  maap_probed env src addr count s = reacts env src addr count (reaction MAAP_PROBE) s.
Proof.
  intros Hst. unfold maap_probed. erewrite M_bind_run by reflexivity.
  rewrite maap_conflict_eq by (done || by apply request_claim). unfold reaction_to.
  destruct (decide (maap_state _ = MAAP_DISABLED)); [done|]. destruct (decide (same_block _ _ /\ _)); [|done].
  cbn [fmap option_fmap option_map fst].
  destruct (maap_state (maap_addr s)) eqn:Es; [done|..].
  - rewrite decide_False by (by intros [? _]). rewrite decide_False by tauto. rewrite bool_decide_true by done.
    destruct (maap_compare_mac _ _); [done|]. by apply request_reacts.
  - rewrite decide_True by done. rewrite bool_decide_false by done.
    pose proof (conflict_address_ok (maap_addr s) (addresses addr count) (me_conflict_addr env) (ok_base _ Hok) Es) as Hc.
    cbn [default from_option id]. destruct (conflict_of _ _ _) as [conf cc] eqn:Ec. cbn [fst] in Hc.
    rewrite send_frame_run; [done|].
    destruct (maap_defend_message (maap_mac s) src (maap_addr s) addr count conf cc (maap_buf s)) as [Hl _];
      [apply Hok|done|done|done|apply Hok|]. rewrite Hl. done.
Qed.

(** A message that names addresses: in a defence they are those in conflict. *)
Definition names (pkt : list Z) (mt : Z) : Prop :=
  exists request requested conflict conflicted, maap_message pkt mt request requested conflict conflicted /\
    if mt =? MAAP_DEFEND then conflict = addr /\ conflicted = count else request = addr /\ requested = count.

Lemma reaction_run pkt mt :
  names pkt mt -> mt = MAAP_PROBE \/ mt = MAAP_DEFEND \/ mt = MAAP_ANNOUNCE ->
  avb_1722_maap_process_packet env pkt src s = reacts env src addr count (reaction mt) s.
Proof.
  intros (req & rc & conf & cc & [H1 H2 H3 H4 H5 H6 H7] & Hn) Hmt. unfold avb_1722_maap_process_packet.
  destruct (Nat.ltb_spec (length pkt) sizeof_maap_packet); [lia|]. rewrite H2, H3. cbn [Z.eqb negb Pos.eqb].
  erewrite M_bind_run by reflexivity. case_bool_decide as Hst.
  { unfold reaction_to. rewrite decide_True by done. done. }
  destruct Hmt as [-> | [-> | ->]]; cbn [Z.eqb Pos.eqb MAAP_PROBE MAAP_DEFEND MAAP_ANNOUNCE] in *; destruct Hn as [E1 E2].
  - rewrite H4, H5, E1, E2, u16_small by lia. by apply probed_run.
  - rewrite H6, H7, E1, E2, u16_small by lia. by apply give_way_run.
  - rewrite H4, H5, E1, E2, u16_small by lia. by apply give_way_run.
Qed.
End Reaction.

(** ** Sending *)

(** The message of a device about its own range. *)
Definition claim_frame (mt : Z) (s : maap) : list Z :=
  maap_frame (maap_mac s) mt [] (maap_addr s) [] 0 [] 0 (maap_buf s).

(** The addresses as they are handed to the application. *)
Definition reported (a : maap_address_range) : list maap_event :=
  (fun i => SourceAddressReserved i (nth_address (maap_base a) i)) <$> seqZ 0 (maap_range a).

(** After a probe, and after an announcement. *)
Definition probed (timer : avb_timer) (s : maap) : maap :=
  let f := claim_frame MAAP_PROBE s in let a := maap_addr s in
  MkMaap (maap_mac s) (MkRange (maap_base a) (maap_range a) (s32 (maap_probe_count a - 1)) 0 MAAP_PROBING)
    timer (maap_timeout_val s) f (maap_out s ++ [MaapTx f]).
Definition reserved (now random : Z) (events : list maap_event) (s : maap) : maap :=
  let f := claim_frame MAAP_PROBE s in let a := maap_addr s in let v := maap_announce_timeout random in
  MkMaap (maap_mac s) (MkRange (maap_base a) (maap_range a) (s32 (maap_probe_count a - 1)) 1 MAAP_RESERVED)
    (start_avb_timer now v (init_avb_timer MAAP_ANNOUNCE_INTERVAL_MULTIPLIER (maap_timer s))) v f
    (maap_out s ++ MaapTx f :: events).

Lemma claim_frame_length mt s :
  maap_ok s -> mt = MAAP_PROBE \/ mt = MAAP_ANNOUNCE -> length (claim_frame mt s) = 64%nat.
Proof. intros [H1 H2 H3] Hmt. by destruct (maap_frame_message (maap_mac s) mt [] (maap_addr s) [] 0 [] 0 (maap_buf s)). Qed.

Lemma forM_emit (l : list maap_event) s :
  forM l (fun ev => modify (upd_maap_out (fun out => out ++ [ev]))) s = Some (tt, upd_maap_out (fun out => out ++ l) s).
Proof.
  revert s. induction l as [|ev l IH]; intros s; cbn [forM].
  - destruct s. norm_maap. by rewrite app_nil_r.
  - erewrite M_bind_run by reflexivity. rewrite IH. destruct s. norm_maap. by rewrite <- app_assoc.
Qed.

Section Sending.
Context `{mcfg : MaapConfig}.

Lemma report_addresses_run s :
  report_addresses s =
    Some (tt, upd_maap_out (fun out => out ++ (if AVB_ENABLE_1722_MAAP then reported (maap_addr s) else [])) s).
Proof.
  unfold report_addresses. erewrite M_bind_run by reflexivity. destruct AVB_ENABLE_1722_MAAP; cbn [whenM].
  - rewrite <- forM_emit. unfold reported. by rewrite forM_fmap.
  - generalize (seqZ 0 (maap_range (maap_addr s))). intros l. induction l as [|i l IH]; cbn [forM].
    + destruct s. norm_maap. by rewrite app_nil_r.
    + by erewrite M_bind_run by reflexivity.
Qed.

Lemma probe_run now random s :
  maap_ok s -> maap_state (maap_addr s) = MAAP_PROBING ->
  maap_probe now random s = Some (tt,
    if maap_probe_count (maap_addr s) =? 0
    then reserved now random (if AVB_ENABLE_1722_MAAP then reported (maap_addr s) else []) s
    else probed (start_avb_timer now (maap_timeout_val s) (init_avb_timer 1 (maap_timer s))) s).
Proof.
  intros Hok Hst. pose proof (claim_frame_length MAAP_PROBE s Hok ltac:(by left)) as Hl. unfold maap_probe.
  erewrite M_bind_run by reflexivity. set (s0 := upd_maap_addr (upd_maap_immediately (fun _ => 0)) s).
  assert (claim_frame MAAP_PROBE s0 = claim_frame MAAP_PROBE s) as Ef by (by destruct s as [? []]).
  erewrite M_bind_run by (unfold create_maap_packet; by erewrite M_bind_run by reflexivity).
  erewrite M_bind_run by (unfold maap_send_buf; by erewrite M_bind_run by reflexivity).
  change (maap_frame (maap_mac s0) _ _ _ _ _ _ _ (maap_buf s0)) with (claim_frame MAAP_PROBE s0) in *.
  cbn [maap_buf upd_maap_buf]. fold (claim_frame MAAP_PROBE s0). rewrite Ef.
  rewrite take_ge by (rewrite Hl; done). erewrite M_bind_run by reflexivity.
  set (s1 := upd_maap_out _ _). assert (maap_addr s1 = maap_addr s0) as -> by done.
  assert (maap_probe_count (maap_addr s0) = maap_probe_count (maap_addr s)) as -> by (by destruct s as [? []]).
  destruct (maap_probe_count (maap_addr s) =? 0).
  - unfold mbind at 1, M_bind at 1. erewrite M_bind_run by reflexivity. erewrite M_bind_run by reflexivity.
    rewrite report_addresses_run. unfold s1, s0, reserved. destruct s as [mac [] tmr v buf out]. norm_maap. subst.
    rewrite <- app_assoc. done.
  - unfold s1, s0, probed. destruct s as [mac [] tmr v buf out]. norm_maap. subst. done.
Qed.
End Sending.

(** * What a conflict is *)

(** The test for a conflict, with its three cases, is the test whether two ranges share
    an address; and what a device with a reserved range reports of a conflict is exactly
    the addresses they share. *)
Theorem maap_conflict_is_overlap junk a addr count old n :
  claim_ok a -> mac_ok addr -> 0 < count < 65536 ->
  let r := maap_conflict junk a addr count (Some (old, n)) in
  (r.1 = true <-> same_block addr (maap_base a) /\ exists x, x ∈ claimed a /\ x ∈ addresses addr count) /\
  (maap_conflict junk a addr count None).1 = r.1 /\
  (r.1 = true -> maap_state a = MAAP_RESERVED ->
   exists first k, r.2 = Some (first, k) /\ mac_ok first /\ same_block first (maap_base a) /\
     forall x, x ∈ addresses first k <-> x ∈ claimed a /\ x ∈ addresses addr count).
Proof.
  intros Ha Haddr Hc r. unfold r. rewrite !maap_conflict_eq by done.
  destruct (decide (same_block _ _ /\ _)) as [[H1 H2]|Hn]; cbn [fst snd fmap option_fmap option_map]; [|split_and!; [|done|done]].
  - split_and!; [done|done|]. intros _ Hres. unfold conflict_of. rewrite bool_decide_true by done.
    set (i := intersect (claimed a) (addresses addr count)).
    destruct (block_address (maap_base a) (low i) (claim_base _ Ha)) as (B1 & B2 & B3).
    eexists _, _. split_and!; [done|exact B1|exact B2|]. intros x. rewrite <- elem_of_intersect. fold i.
    assert (0 <= low i < 65536) as Hi.
    { unfold i, intersect, addresses. cbn [low]. pose proof (address_lo_range _ (claim_base _ Ha)).
      pose proof (address_lo_range _ Haddr). lia. }
    unfold addresses. rewrite B3, u16_small by done. unfold elem_of, in_interval. cbn [low high]. lia.
  - split; [done|]. intros [H1 H2]. by destruct Hn.
Qed.

(** * Two devices *)

(** A frame arrives: the dispatch hands over its source address and what is behind the
    Ethernet header. *)
Definition deliver (env : maap_env) (frame : list Z) : M maap unit :=
  avb_1722_maap_process_packet env (maap_payload frame) (bytes_at 6 6 frame).

(** Probing begins anew, with a range chosen at random. *)
Definition starts_again (env : maap_env) (s s' : maap) : Prop :=
  exists base, random_base (me_random env) (maap_addr s) = Some base /\ s' = probing (me_now env) base s.

Lemma starts_again_reacts env src addr count s :
  request_ok (maap_addr s) -> exists s', reacts env src addr count GiveWay s = Some (tt, s') /\ starts_again env s s'.
Proof.
  intros [H1 H2]. destruct (random_base_range (me_random env) (maap_addr s) H1) as (base & E & _); [lia|].
  exists (probing (me_now env) base s). split; [cbn; by rewrite E|by exists base].
Qed.

(** Two devices' ranges share an address. *)
Definition in_conflict (s t : maap) : Prop :=
  same_block (maap_base (maap_addr s)) (maap_base (maap_addr t)) /\ overlap (claimed (maap_addr s)) (claimed (maap_addr t)).

Lemma in_conflict_sym s t : in_conflict s t -> in_conflict t s.
Proof. intros [H1 H2]. split; [by unfold same_block in *|by symmetry]. Qed.

(** A device hears of another one's range. *)
Lemma deliver_claim env mt s t :
  maap_ok s -> maap_ok t -> request_ok (maap_addr s) -> request_ok (maap_addr t) -> mt = MAAP_PROBE \/ mt = MAAP_ANNOUNCE ->
  deliver env (claim_frame mt s) t =
    reacts env (maap_mac s) (maap_base (maap_addr s)) (maap_range (maap_addr s))
      (reaction_to (me_conflict_addr env) mt (maap_mac s) (maap_base (maap_addr s)) (maap_range (maap_addr s)) t) t.
Proof.
  intros [S1 S2 S3] Ht [R1 R2] Hrt Hmt. unfold deliver.
  destruct (maap_frame_message (maap_mac s) mt [] (maap_addr s) [] 0 [] 0 (maap_buf s) S1 S2 S3 Hmt) as (_ & _ & Es & Hmsg).
  fold (claim_frame mt s) in Es, Hmsg. rewrite Es. unfold MAAP_ALLOCATION_POOL_SIZE in R2.
  apply reaction_run; [done|done|done|done|lia| |tauto].
  eexists _, _, _, _. split; [exact Hmsg|]. by destruct Hmt as [-> | ->].
Qed.

Lemma conflict_decided s t :
  in_conflict s t -> same_block (maap_base (maap_addr s)) (maap_base (maap_addr t)) /\
    overlap (claimed (maap_addr t)) (addresses (maap_base (maap_addr s)) (maap_range (maap_addr s))).
Proof. intros [H1 H2]. split; [done|by symmetry]. Qed.

(** The number a MAC address is compared by tells addresses apart. *)
Lemma mac_number a : mac_ok a -> mac_addr_to_num_reverse a = guid_of_c a.
Proof.
  intros (b0 & b1 & b2 & b3 & b4 & b5 & -> & H)%mac_ok_explicit. unfold byte_ok in H. cbn [guid_of_c foldr].
  unfold mac_addr_to_num_reverse. cbn [seq foldl]. repeat (unfold lookup_total; cbn [list_lookup_total]).
  change (Z.of_nat 0 * 8) with 0. change (Z.of_nat 1 * 8) with 8. change (Z.of_nat 2 * 8) with 16.
  change (Z.of_nat 3 * 8) with 24. change (Z.of_nat 4 * 8) with 32. change (Z.of_nat 5 * 8) with 40.
  rewrite !Z.shiftl_mul_pow2 by lia. unfold u64, wrap. change (2 ^ 0) with 1. change (2 ^ 8) with 256.
  change (2 ^ 16) with 65536. change (2 ^ 24) with 16777216. change (2 ^ 32) with 4294967296.
  change (2 ^ 40) with 1099511627776. change (2 ^ 64) with 18446744073709551616. 
  repeat match goal with |- context [?x mod 18446744073709551616] =>
    lazymatch x with context [_ mod _] => fail | _ => rewrite (Z.mod_small x) by lia end end. lia.
Qed.

Lemma mac_number_inj a b : mac_ok a -> mac_ok b -> mac_addr_to_num_reverse a = mac_addr_to_num_reverse b -> a = b.
Proof.
  intros Ha Hb E. rewrite !mac_number, <- !be_value_reverse in E by done. destruct Ha as [La Ha], Hb as [Lb Hb].
  apply (inj reverse), be_value_inj; [by apply Forall_reverse|by apply Forall_reverse|by rewrite !length_reverse, La, Lb|done].
Qed.

(** C23: two devices that claim a common address, both while they probe or both after they
    have reserved it, settle it with one message of each: whatever the order of the two,
    exactly one of them - the one whose MAC address, read backwards, is not the smaller
    one - begins anew to probe, for a range of the same length drawn at random, and the
    other one keeps its range. *)
Theorem one_device_gives_way envA envB mt st A B :
  maap_ok A -> maap_ok B -> request_ok (maap_addr A) -> request_ok (maap_addr B) -> maap_mac A <> maap_mac B ->
  (mt = MAAP_PROBE /\ st = MAAP_PROBING \/ mt = MAAP_ANNOUNCE /\ st = MAAP_RESERVED) ->
  maap_state (maap_addr A) = st -> maap_state (maap_addr B) = st -> in_conflict A B ->
  exists A' B', deliver envA (claim_frame mt B) A = Some (tt, A') /\ deliver envB (claim_frame mt A) B = Some (tt, B') /\
    if maap_compare_mac (maap_mac A) (maap_mac B) then A' = A /\ starts_again envB B B'
    else B' = B /\ starts_again envA A A'.
Proof.
  intros HA HB RA RB Hne Hst SA SB Hc.
  assert (mt = MAAP_PROBE \/ mt = MAAP_ANNOUNCE) as Hmt by tauto.
  rewrite (deliver_claim envA mt B A), (deliver_claim envB mt A B) by done.
  pose proof (conflict_decided B A (in_conflict_sym _ _ Hc)) as CA. pose proof (conflict_decided A B Hc) as CB.
  assert (forall env s t, maap_state (maap_addr t) = st ->
    same_block (maap_base (maap_addr s)) (maap_base (maap_addr t)) /\
      overlap (claimed (maap_addr t)) (addresses (maap_base (maap_addr s)) (maap_range (maap_addr s))) ->
    reaction_to (me_conflict_addr env) mt (maap_mac s) (maap_base (maap_addr s)) (maap_range (maap_addr s)) t =
      if maap_compare_mac (maap_mac t) (maap_mac s) then Ignore else GiveWay) as Hr.
  { intros env s t Ht Hst'. unfold reaction_to. rewrite Ht, (decide_True (P := _ /\ overlap _ _)) by done.
    destruct Hst as [[-> ->] | [-> ->]]; cbn; by repeat (rewrite decide_False by (by intros [? ?])). }
  rewrite (Hr envA B A SA CA), (Hr envB A B SB CB). clear Hr.
  pose proof (mac_number_inj _ _ (ok_mac _ HA) (ok_mac _ HB)) as Hinj. unfold maap_compare_mac.
  destruct (starts_again_reacts envA (maap_mac B) (maap_base (maap_addr B)) (maap_range (maap_addr B)) A RA) as (A' & EA & GA).
  destruct (starts_again_reacts envB (maap_mac A) (maap_base (maap_addr A)) (maap_range (maap_addr A)) B RB) as (B' & EB & GB).
  destruct (Z.ltb_spec (mac_addr_to_num_reverse (maap_mac A)) (mac_addr_to_num_reverse (maap_mac B))) as [H1|H1],
    (Z.ltb_spec (mac_addr_to_num_reverse (maap_mac B)) (mac_addr_to_num_reverse (maap_mac A))) as [H2|H2]; [lia|..].
  - by exists A, B'.
  - by exists A', B.
  - destruct Hne. apply Hinj. lia.
Qed.

(** What is defended against a probe conflicts with the prober's range. *)
Lemma defended_conflict A B :
  request_ok (maap_addr A) -> request_ok (maap_addr B) -> maap_state (maap_addr A) = MAAP_RESERVED -> in_conflict A B ->
  forall old,
  let rb := addresses (maap_base (maap_addr B)) (maap_range (maap_addr B)) in
  let conf := conflict_of (maap_addr A) rb old in
  0 < conf.2 < 65536 /\ same_block conf.1 (maap_base (maap_addr B)) /\ overlap (claimed (maap_addr B)) (addresses conf.1 conf.2).
Proof.
  intros [A1 A2] [B1 B2] Hst [Hs Ho] old rb conf. unfold MAAP_ALLOCATION_POOL_SIZE in *.
  pose proof (address_lo_range _ A1) as RA. pose proof (address_lo_range _ B1) as RB. apply overlap_iff in Ho.
  assert (conf = (take 4 (maap_base (maap_addr A)) ++ [u8 (Z.shiftr (low (intersect (claimed (maap_addr A)) rb)) 8);
    u8 (low (intersect (claimed (maap_addr A)) rb))], high (intersect (claimed (maap_addr A)) rb) - low (intersect (claimed (maap_addr A)) rb))) as ->
    by (unfold conf, conflict_of; by rewrite Hst).
  set (i := intersect _ rb). destruct (block_address (maap_base (maap_addr A)) (low i) A1) as (N1 & N2 & N3). cbn [fst snd].
  assert (low i = Z.max (address_lo (maap_base (maap_addr A))) (address_lo (maap_base (maap_addr B))) /\ high i = Z.min (address_lo (maap_base (maap_addr A)) + maap_range (maap_addr A))
      (address_lo (maap_base (maap_addr B)) + maap_range (maap_addr B))) as [El Eh] by done.
  unfold addresses in Ho. cbn [low high] in Ho. split_and!; [lia|lia|by etrans|].
  apply overlap_iff. unfold addresses. rewrite N3, u16_small by lia. cbn [low high]. lia.
Qed.

(** A reserved range is defended. A device that probes for a range is told if one of
    its addresses is reserved: the device that has reserved it answers with a defence,
    keeps its range, and the defence makes the prober choose another range and probe
    again. Without a common address the probe is not answered. *)
Theorem probe_is_defended `{mcfg : MaapConfig} envA envB now random A B :
  maap_ok A -> maap_ok B -> request_ok (maap_addr A) -> request_ok (maap_addr B) ->
  maap_state (maap_addr A) = MAAP_RESERVED -> maap_state (maap_addr B) = MAAP_PROBING ->
  maap_immediately (maap_addr B) = 1 -> 0 < maap_probe_count (maap_addr B) < 2 ^ 31 ->
  exists f B1, avb_1722_maap_periodic now random B = Some (tt, B1) /\ maap_out B1 = maap_out B ++ [MaapTx f] /\
    (~ in_conflict A B -> deliver envA f A = Some (tt, A)) /\
    (in_conflict A B ->
     exists g A1 B2, deliver envA f A = Some (tt, A1) /\ maap_addr A1 = maap_addr A /\ maap_out A1 = maap_out A ++ [MaapTx g] /\
       take 6 g = maap_mac B /\ deliver envB g B1 = Some (tt, B2) /\ starts_again envB B1 B2).
Proof.
  intros HA HB RA RB SA SB Himm Hn. set (f := claim_frame MAAP_PROBE B).
  set (B1 := probed (start_avb_timer now (maap_timeout_val B) (init_avb_timer 1 (maap_timer B))) B).
  exists f, B1. split_and!; [|done|..].
  - unfold avb_1722_maap_periodic. erewrite M_bind_run by reflexivity. rewrite SB. unfold maap_due.
    erewrite M_bind_run by (erewrite M_bind_run by reflexivity; by rewrite Himm). cbn [whenM].
    rewrite probe_run by done. destruct (Z.eqb_spec (maap_probe_count (maap_addr B)) 0); [lia|done].
  - intros Hc. unfold f. rewrite deliver_claim by (done || by left). unfold reaction_to.
    rewrite SA, decide_False by done. rewrite decide_False; [done|]. intros [H1 H2]. apply Hc. by split; symmetry.
  - intros Hc. destruct (conflict_decided B A (in_conflict_sym _ _ Hc)) as [C1 C2].
    set (rb := addresses (maap_base (maap_addr B)) (maap_range (maap_addr B))) in *.
    set (conf := conflict_of (maap_addr A) rb (me_conflict_addr envA)).
    set (g := defence (maap_mac B) (maap_base (maap_addr B)) (maap_range (maap_addr B)) conf A).
    pose proof (conflict_address_ok (maap_addr A) rb (me_conflict_addr envA) (ok_base _ HA) SA) as Hconf.
    destruct (maap_defend_message (maap_mac A) (maap_mac B) (maap_addr A) (maap_base (maap_addr B)) (maap_range (maap_addr B))
      conf.1 conf.2 (maap_buf A) (ok_mac _ HA) (ok_mac _ HB) (ok_base _ HB) Hconf (ok_buf _ HA)) as (_ & Hdst & Hsrc & Hmsg).
    fold (defence (maap_mac B) (maap_base (maap_addr B)) (maap_range (maap_addr B)) conf A) in Hdst, Hsrc, Hmsg. fold g in Hdst, Hsrc, Hmsg.
    destruct (defended_conflict A B RA RB SA Hc (me_conflict_addr envA)) as (K1 & K2 & K3). fold rb conf in K1, K2, K3.
    assert (request_ok (maap_addr B1)) as RB1 by (destruct RB; by constructor).
    destruct (starts_again_reacts envB (maap_mac A) conf.1 conf.2 B1 RB1) as (B2 & EB & GB).
    exists g, (sent g A), B2. split_and!; try done.
    + unfold f. rewrite deliver_claim by (done || by left). unfold reaction_to. rewrite SA, decide_False by done.
      rewrite decide_True by done. by rewrite decide_True by done.
    + unfold deliver. rewrite Hsrc. rewrite <- EB.
      replace GiveWay with (reaction_to (me_conflict_addr envB) MAAP_DEFEND (maap_mac A) conf.1 conf.2 B1).
      * apply reaction_run; [|done|apply HA|exact Hconf|exact K1| |by right; left].
        { destruct HB as [HB1 HB2 HB3]. constructor; [done|done|]. apply claim_frame_length; [done|by left]. }
        eexists _, _, _, _. split; [exact Hmsg|done].
      * unfold reaction_to. rewrite decide_False by done. rewrite decide_True by done.
        rewrite decide_False by (by intros [? _]). by rewrite decide_True by done.
Qed.
