(* ===== verification/MaapReserve.v ===== *)
(** MAAP: where the addresses come from, and that a device nobody answers reserves the
    range it probes for. With sample devices. *)
From S2P Require Import Prelude Bytes MiscTimer AcmpTypes AcmpSpec Maap MaapSpec.
From stdpp Require Import base list list_numbers numbers option.
From Stdlib Require Import ZArith Lia.
#[local] Open Scope Z_scope.

(** * The pool *)

(** When a device gives up its range and asks for another one, the new range lies in
    the pool of MAAP, whatever the random number. A first request does not have this
    property: the room for the range is computed before its length is known, from the
    length of the range before, so for some random numbers a longer range reaches beyond
    the pool. *)
Theorem maap_addresses_in_pool now s :
  maap_ok s -> maap_state (maap_addr s) <> MAAP_DISABLED -> 0 <= maap_range (maap_addr s) < MAAP_ALLOCATION_POOL_SIZE ->
  (forall random, exists s', avb_1722_maap_rerequest_addresses now random s = Some (tt, s') /\
     maap_state (maap_addr s') = MAAP_PROBING /\ maap_range (maap_addr s') = maap_range (maap_addr s) /\
     same_block (maap_base (maap_addr s')) (maap_base (maap_addr s)) /\
     in_pool (maap_base (maap_addr s')) (maap_range (maap_addr s'))) /\
  (forall num, maap_range (maap_addr s) + 1 < num -> exists random s',
     avb_1722_maap_request_addresses now random num None s = Some (tt, s') /\
     maap_range (maap_addr s') = num /\ ~ in_pool (maap_base (maap_addr s')) num).
Proof.
  intros [_ Hb _] Hst Hr. set (a := maap_addr s) in *. split.
  - intros random. destruct (random_base_range random a Hb Hr) as (base & E & H1 & H2 & H3).
    exists (probing now base s). split_and!; try done.
    + unfold avb_1722_maap_rerequest_addresses. erewrite M_bind_run by reflexivity. fold a. rewrite bool_decide_false by done.
      by apply request_again_run.
    + intros x Hx. unfold elem_of, in_interval, addresses in Hx. cbn [low high maap_base maap_range maap_addr probing] in Hx.
      fold a in Hx. rewrite H3 in Hx. pose proof (Z.mod_pos_bound (u32 random) (MAAP_ALLOCATION_POOL_SIZE - maap_range a)). lia.
  - intros num Hn. set (random := MAAP_ALLOCATION_POOL_SIZE - maap_range a - 1).
    destruct (random_base_range random a Hb Hr) as (base & E & H1 & H2 & H3). exists random.
    eexists. split_and!.
    + unfold avb_1722_maap_request_addresses.
      assert ((base ← load (fun s => random_base random (maap_addr s)); modify (upd_maap_addr (upd_maap_base (fun _ => base)))) s =
        Some (tt, upd_maap_addr (upd_maap_base (fun _ => base)) s)) as E1 by (unfold load, mbind, M_bind; fold a; by rewrite E).
      rewrite (M_bind_run _ _ _ _ _ E1). destruct (Z.eqb_spec num (-1)); [lia|]. cbn [negb whenM].
      by erewrite M_bind_run by reflexivity.
    + done.
    + intros Hp. cbn in Hp. assert (address_lo base = random) as Hlo.
      { rewrite H3. unfold random, MAAP_ALLOCATION_POOL_SIZE in *. rewrite u32_small by lia. apply Z.mod_small. lia. }
      specialize (Hp (address_lo base + num - 1)). unfold elem_of, in_interval, addresses in Hp. cbn [low high] in Hp.
      rewrite Hlo in Hp. unfold random in Hp. lia.
Qed.

(** * Reservation *)

(** The periodic function called at the times [ts], with random numbers. *)
Definition maap_periodic_at `{mcfg : MaapConfig} (random : Z -> Z) (ts : list Z) : M maap unit :=
  forM ts (fun t => avb_1722_maap_periodic (u32 t) (random t)).

(** A message about the range, in a frame to the group address. *)
Definition about_range (mt : Z) (base : list Z) (range : Z) (ev : maap_event) : Prop :=
  exists f, ev = MaapTx f /\ take 6 f = MAAP_PROTOCOL_DEST_ADDR /\ maap_message (maap_payload f) mt base range (replicate 6 0) 0.

Lemma claim_about_range mt s :
  maap_ok s -> mt = MAAP_PROBE \/ mt = MAAP_ANNOUNCE ->
  about_range mt (maap_base (maap_addr s)) (maap_range (maap_addr s)) (MaapTx (claim_frame mt s)).
Proof.
  intros [H1 H2 H3] Hmt. exists (claim_frame mt s). split; [done|].
  by destruct (maap_frame_message (maap_mac s) mt [] (maap_addr s) [] 0 [] 0 (maap_buf s) H1 H2 H3 Hmt) as (_ & Hd & _ & Hm).
Qed.

Section Reserve.
Context `{mcfg : MaapConfig} (random : Z -> Z) (t0 G : Z) (HG : 0 <= G < 2 ^ 30).
Context (base : list Z) (range : Z) (out : list maap_event).
Abbreviation v := (maap_probe_timeout base).
Abbreviation P := (v * TICKS_PER_CENTISECOND).

(** The range, its buffer and MAC address. *)
Record holds_range s : Prop := {
  hr_ok : maap_ok s;
  hr_base : maap_base (maap_addr s) = base;
  hr_range : maap_range (maap_addr s) = range;
}.

(** [n] probes are to come, the first at once if there were none; the last one was sent at
    [tk], and the last call was at [t]. *)
Record asking (n : Z) (t : Z) s : Prop := {
  as_range : holds_range s;
  as_state : maap_state (maap_addr s) = MAAP_PROBING;
  as_count : maap_probe_count (maap_addr s) = n /\ 0 <= n <= 2;
  as_immediately : maap_immediately (maap_addr s) = 0;
  as_timeout : maap_timeout_val s = v;
  as_timer : active (maap_timer s) = 1 /\ exists tk T, deadline tk P G 1 T t (maap_timer s) /\
    t0 + (2 - n) * P <= tk <= t0 + G + (2 - n) * (P + G);
  as_out : exists evs, maap_out s = out ++ evs /\ Z.of_nat (length evs) = 3 - n /\ Forall (about_range MAAP_PROBE base range) evs;
}.

(** The range is reserved. *)
Record has_reserved s : Prop := {
  re_range : holds_range s;
  re_state : maap_state (maap_addr s) = MAAP_RESERVED;
  re_out : exists probes announced, maap_out s = out ++ probes ++
      (if AVB_ENABLE_1722_MAAP then reported (maap_addr s) else []) ++ announced /\
    length probes = 4%nat /\ Forall (about_range MAAP_PROBE base range) probes /\
    Forall (about_range MAAP_ANNOUNCE base range) announced;
}.

Lemma timeout_bound : 0 <= P < 2 ^ 30.
Proof.
  unfold maap_probe_timeout, TICKS_PER_CENTISECOND, XS1_TIMER_KHZ, MAAP_PROBE_INTERVAL_BASE_CS.
  pose proof (Z.land_ones (base !!! 5%nat) 3) as E. change (Z.ones 3) with 7 in E. rewrite E by lia.
  pose proof (Z.mod_pos_bound (base !!! 5%nat) (2 ^ 3)). change (500 / 10) with 50. lia.
Qed.

Lemma start_deadline t tmr :
  let tmr' := start_avb_timer (u32 t) v (init_avb_timer 1 tmr) in
  active tmr' = 1 /\ deadline t P G 1 (t + P) t tmr'.
Proof.
  pose proof timeout_bound as HP. unfold start_avb_timer, deadline. cbn. split; [done|].
  rewrite (u32_small P) by lia. unfold u32, wrap. rewrite Z.add_mod_idemp_l by lia. split_and!; done || lia.
Qed.

(** A probe is sent at [t]: the next one will be due, or the range is reserved. *)
Lemma probe_sent n t r s :
  holds_range s -> maap_state (maap_addr s) = MAAP_PROBING -> maap_probe_count (maap_addr s) = n -> 0 <= n <= 3 ->
  maap_timeout_val s = v -> t0 + (3 - n) * P <= t <= t0 + G + (3 - n) * (P + G) ->
  (exists evs, maap_out s = out ++ evs /\ Z.of_nat (length evs) = 3 - n /\ Forall (about_range MAAP_PROBE base range) evs) ->
  exists s', maap_probe (u32 t) r s = Some (tt, s') /\ (if n =? 0 then has_reserved s' else asking (n - 1) t s').
Proof.
  intros [Hok Hb Hr] Hst Hn Hn3 Hv Ht (evs & Ho & Hl & HF). rewrite probe_run by done. rewrite Hn.
  pose proof (claim_about_range MAAP_PROBE s Hok ltac:(by left)) as Hev. rewrite Hb, Hr in Hev.
  pose proof (claim_frame_length MAAP_PROBE s Hok ltac:(by left)) as Hfl.
  eexists. split; [reflexivity|]. destruct (Z.eqb_spec n 0) as [E0|N0].
  - constructor; [constructor; [destruct Hok; by constructor|done|done]|done|].
    exists (evs ++ [MaapTx (claim_frame MAAP_PROBE s)]), []. split_and!; [|rewrite length_app; cbn; lia| |done].
    + cbn [maap_out reserved]. rewrite Ho, app_nil_r, <- !app_assoc. done.
    + apply Forall_app. split; [done|]. by apply Forall_singleton.
  - rewrite Hv. destruct (start_deadline t (maap_timer s)) as [S1 S2].
    constructor; cbn [probed maap_state maap_addr maap_probe_count maap_immediately maap_timeout_val maap_timer maap_out].
    + constructor; [destruct Hok; by constructor|done|done].
    + done.
    + rewrite Hn, s32_small by lia. lia.
    + done.
    + done.
    + split; [done|]. exists t, (t + P). split; [done|]. nia.
    + exists (evs ++ [MaapTx (claim_frame MAAP_PROBE s)]). rewrite Ho, <- app_assoc. split_and!; [done|rewrite length_app; cbn; lia|].
      apply Forall_app. split; [done|]. by apply Forall_singleton.
Qed.

Lemma periodic_due s t r :
  maap_state (maap_addr s) = MAAP_PROBING -> maap_immediately (maap_addr s) = 0 ->
  let '(fired, tmr) := avb_timer_expired (u32 t) (maap_timer s) in
  avb_1722_maap_periodic (u32 t) r s = whenM fired (maap_probe (u32 t) r) (upd_maap_timer (fun _ => tmr) s).
Proof.
  intros Hst Hi. destruct (avb_timer_expired _ _) as [fired tmr] eqn:E. unfold avb_1722_maap_periodic.
  erewrite M_bind_run by reflexivity. rewrite Hst. unfold maap_due. unfold mbind at 1, M_bind at 1.
  erewrite M_bind_run by reflexivity. rewrite Hi. cbn [truthy negb Z.eqb]. erewrite M_bind_run by reflexivity. rewrite E.
  by erewrite M_bind_run by reflexivity.
Qed.

Lemma holds_timer tmr s : holds_range s -> holds_range (upd_maap_timer (fun _ => tmr) s).
Proof. intros [[] ? ?]. constructor; [by constructor|done|done]. Qed.

Lemma poll_asking n t t1 r s :
  asking n t s -> t <= t1 <= t + G ->
  exists s', avb_1722_maap_periodic (u32 t1) r s = Some (tt, s') /\
    t1 <= t0 + G + 3 * (P + G) /\ ((exists m, asking m t1 s') \/ (has_reserved s' /\ t0 + 3 * P < t1)).
Proof.
  intros [H1 H2 [H3 Hn] H4 H5 [H6 (tk & T & Hd & Htk)] H7] Ht1. pose proof timeout_bound as HP.
  pose proof (periodic_due s t1 r H2 H4) as Hrun.
  destruct (avb_timer_expired_step tk P G 1 ltac:(lia) ltac:(lia) T t t1 _ Hd ltac:(lia) Ht1)
    as [(Hle & Ee & Hd1) | (tmr' & Ee & Ha' & HT & Hd1)]; rewrite Ee in Hrun; destruct Hd as (_ & _ & _ & HT1); rewrite H6 in *.
  - eexists. split; [exact Hrun|]. split; [nia|]. left. exists n.
    assert (upd_maap_timer (fun _ => maap_timer s) s = s) as -> by (by destruct s).
    constructor; try done. split; [done|]. by exists tk, T.
  - destruct (probe_sent n t1 r (upd_maap_timer (fun _ => tmr') s)) as (s' & E & Hs'); try done; [by apply holds_timer|lia|nia|].
    exists s'. cbn [Z.eqb Pos.eqb whenM] in Hrun. rewrite Hrun. split; [exact E|]. split; [nia|].
    destruct (Z.eqb_spec n 0); [right; split; [done|nia]|left; by exists (n - 1)].
Qed.

(** Announcements follow. *)
Lemma poll_reserved t r s : has_reserved s -> exists s', avb_1722_maap_periodic (u32 t) r s = Some (tt, s') /\ has_reserved s'.
Proof.
  intros [Hh Hst (probes & announced & Ho & Hl & HF1 & HF2)]. unfold avb_1722_maap_periodic.
  erewrite M_bind_run by reflexivity. rewrite Hst.
  assert (exists due tmr, maap_due (u32 t) s = Some (due, upd_maap_timer (fun _ => tmr) s)) as (due & tmr & Ed).
  { unfold maap_due. erewrite M_bind_run by reflexivity. destruct (truthy _).
    - exists true, (maap_timer s). by destruct s.
    - destruct (avb_timer_expired (u32 t) (maap_timer s)) as [fired tmr] eqn:E. exists fired, tmr.
      erewrite M_bind_run by reflexivity. rewrite E. by erewrite M_bind_run by reflexivity. }
  rewrite (M_bind_run _ _ _ _ _ Ed). set (s1 := upd_maap_timer (fun _ => tmr) s).
  assert (holds_range s1) as [Hok Hb Hr] by (by apply holds_timer). destruct due; cbn [whenM].
  - assert (exists g w, maap_announce (u32 t) r s1 = Some (tt, MkMaap (maap_mac s) (upd_maap_immediately g (maap_addr s)) w.1 w.2
      (claim_frame MAAP_ANNOUNCE s1) (maap_out s ++ [MaapTx (claim_frame MAAP_ANNOUNCE s1)]))) as (g & w & E).
    { pose proof (claim_frame_length MAAP_ANNOUNCE s1 Hok ltac:(by right)) as Hfl. unfold maap_announce.
      erewrite M_bind_run by (unfold create_maap_packet; by erewrite M_bind_run by reflexivity).
      erewrite M_bind_run by (unfold maap_send_buf; by erewrite M_bind_run by reflexivity).
      cbn [maap_buf upd_maap_buf]. change (maap_frame (maap_mac s1) _ _ _ _ _ _ _ (maap_buf s1)) with (claim_frame MAAP_ANNOUNCE s1) in *.
      fold (claim_frame MAAP_ANNOUNCE s1). rewrite take_ge by (rewrite Hfl; done). erewrite M_bind_run by reflexivity.
      destruct (negb _).
      - exists id, (start_avb_timer (u32 t) (maap_announce_timeout r) tmr, maap_announce_timeout r). by destruct s as [? []].
      - exists (fun _ => 0), (tmr, maap_timeout_val s). by destruct s as [? []]. }
    eexists. split; [exact E|]. pose proof (claim_about_range MAAP_ANNOUNCE s1 Hok ltac:(by right)) as Hev. rewrite Hb, Hr in Hev.
    pose proof (claim_frame_length MAAP_ANNOUNCE s1 Hok ltac:(by right)) as Hfl.
    destruct Hok as [K1 K2 K3]. constructor; [constructor; [by constructor|done|done]|done|].
    exists probes, (announced ++ [MaapTx (claim_frame MAAP_ANNOUNCE s1)]). cbn [maap_out]. split_and!; [|done|done|].
    + rewrite Ho, <- !app_assoc. done.
    + apply Forall_app. split; [done|]. by apply Forall_singleton.
  - exists s1. split; [done|]. constructor; [done|done|]. by exists probes, announced.
Qed.

Lemma polls_reserved ts s : has_reserved s -> exists s', maap_periodic_at random ts s = Some (tt, s') /\ has_reserved s'.
Proof.
  revert s. induction ts as [|t ts IH]; intros s Hs; [by exists s|]. destruct (poll_reserved t (random t) s Hs) as (s1 & E & H1).
  destruct (IH s1 H1) as (s' & E' & H'). exists s'. split; [|done]. unfold maap_periodic_at in *. cbn [forM].
  by rewrite (M_bind_run _ _ _ _ _ E).
Qed.

Lemma polls_asking ts : forall n t s,
  asking n t s -> polled_within G t ts ->
  exists s', maap_periodic_at random ts s = Some (tt, s') /\
    ((maap_state (maap_addr s') = MAAP_PROBING /\ Forall (fun t => t <= t0 + G + 3 * (P + G)) ts) \/
     (has_reserved s' /\ Exists (fun t => t0 + 3 * P < t) ts)).
Proof.
  induction ts as [|t1 ts IH]; intros n t s Hs Hts.
  - exists s. split; [done|]. left. split; [apply Hs|done].
  - destruct Hts as [Ht1 Hts]. destruct (poll_asking n t t1 (random t1) s Hs Ht1) as (s1 & E & Hb & Hs1).
    unfold maap_periodic_at in *. cbn [forM]. rewrite (M_bind_run _ _ _ _ _ E). destruct Hs1 as [[m Hm] | [Hr Hlt]].
    + destruct (IH m t1 s1 Hm Hts) as (s' & E' & [[Ho HF] | [Hr HE]]); exists s'; (split; [exact E'|]).
      * left. split; [done|]. by constructor.
      * right. split; [done|]. by apply Exists_cons_tl.
    + destruct (polls_reserved ts s1 Hr) as (s' & E' & H'). exists s'. split; [exact E'|]. right.
      split; [done|]. by apply Exists_cons_hd.
Qed.
End Reserve.

(** A device that requests addresses and is not answered reserves them. Polled at most
    [G] apart, it sends four probes for its range to the group, each later than the probe
    interval after the one before, then hands every address of the range to the
    application, in order, and from then on announces the range and keeps it. The range
    is reserved once a poll is later than three intervals and four polling intervals after
    the request, and never before three intervals have passed. *)
Theorem undisturbed_request_reserves `{mcfg : MaapConfig} random r t0 G ts start num s :
  maap_ok s -> mac_ok start -> 0 < num < MAAP_ALLOCATION_POOL_SIZE -> 0 <= G < 2 ^ 30 -> polled_within G t0 ts ->
  let P := maap_probe_timeout start * TICKS_PER_CENTISECOND in
  exists s1 s', avb_1722_maap_request_addresses (u32 t0) r num (Some start) s = Some (tt, s1) /\
    maap_periodic_at random ts s1 = Some (tt, s') /\
    ((maap_state (maap_addr s') = MAAP_PROBING /\ Forall (fun t => t <= t0 + G + 3 * (P + G)) ts) \/
     (maap_state (maap_addr s') = MAAP_RESERVED /\ avb_1722_maap_get_base_address [] s' = Some ((0, start), s') /\
      maap_range (maap_addr s') = num /\ Exists (fun t => t0 + 3 * P < t) ts /\
      exists probes announced, maap_out s' = maap_out s ++ probes ++
          (if AVB_ENABLE_1722_MAAP then (fun i => SourceAddressReserved i (nth_address start i)) <$> seqZ 0 num else []) ++ announced /\
        length probes = 4%nat /\ Forall (about_range MAAP_PROBE start num) probes /\
        Forall (about_range MAAP_ANNOUNCE start num) announced)).
Proof.
  intros Hok Hs Hn HG Hts P.
  set (s1 := MkMaap (maap_mac s) (MkRange start num MAAP_PROBE_RETRANSMITS 1 MAAP_PROBING)
    (start_avb_timer (u32 t0) (maap_probe_timeout start) (maap_timer s)) (maap_probe_timeout start) (maap_buf s) (maap_out s)).
  assert (avb_1722_maap_request_addresses (u32 t0) r num (Some start) s = Some (tt, s1)) as E1.
  { unfold avb_1722_maap_request_addresses. erewrite M_bind_run by reflexivity. destruct (Z.eqb_spec num (-1)); [lia|].
    cbn [negb whenM]. rewrite take_ge by (rewrite (mac_length _ Hs); lia). by erewrite M_bind_run by reflexivity. }
  assert (holds_range start num s1) as Hh by (destruct Hok; by constructor).
  destruct ts as [|t1 ts].
  { exists s1, s1. split; [done|]. split; [done|]. left. by split. }
  destruct Hts as [Ht1 Hts]. pose proof (timeout_bound start) as HP. fold P in HP.
  destruct (probe_sent t0 G start num (maap_out s) 3 t1 (random t1) s1) as (s2 & E2 & Hask); try done.
  { fold P. lia. } { exists []. by rewrite app_nil_r. }
  assert (avb_1722_maap_periodic (u32 t1) (random t1) s1 = Some (tt, s2)) as Ep.
  { unfold avb_1722_maap_periodic. erewrite M_bind_run by reflexivity. cbn [maap_state maap_addr s1].
    by erewrite M_bind_run by reflexivity. }
  destruct (polls_asking random t0 G HG start num (maap_out s) ts 2 t1 s2 Hask Hts) as (s' & E' & Hs'). fold P in Hs'.
  exists s1, s'. split; [done|]. split; [unfold maap_periodic_at in *; cbn [forM]; by rewrite (M_bind_run _ _ _ _ _ Ep)|].
  destruct Hs' as [[H1 H2] | [[[_ Hb Hr] Hst Ho] HE]].
  - left. split; [done|]. constructor; [lia|done].
  - right. rewrite <- Hr at 1. unfold reported in Ho. rewrite Hb, Hr in Ho. split_and!; [done| |done|by apply Exists_cons_tl|done].
    unfold avb_1722_maap_get_base_address. erewrite M_bind_run by reflexivity. rewrite bool_decide_false by (by rewrite Hst).
    by rewrite Hb, take_ge by (rewrite (mac_length _ Hs); lia).
Qed.

(** * Sample devices *)

Definition sample_maap_config : MaapConfig := {| AVB_ENABLE_1722_MAAP := true |}.
#[local] Existing Instance sample_maap_config.

Definition sample_mac (n : Z) : list Z := [0x00; 0x22; 0x97; 0x00; 0x00; n].

(** After [avb_1722_maap_init]; and with a range, in a state. *)
Definition sample_maap (n : Z) : maap :=
  MkMaap (sample_mac n) (MkRange MAAP_ALLOCATION_POOL_BASE_ADDR 0 0 0 MAAP_DISABLED) (init_avb_timer 1 zero_timer) 0
    (replicate 64 0) [].
Definition sample_claim (n lo range : Z) (st : maap_state_t) : maap :=
  upd_maap_addr (fun _ => MkRange (take 4 MAAP_ALLOCATION_POOL_BASE_ADDR ++ hton_16 lo) range 3 1 st) (sample_maap n).
Definition sample_maap_env : maap_env := MkMaapEnv 0 12345 (replicate 6 0) 0 0.

Lemma sample_mac_ok b : forallb byte_okb b = true -> length b = 6%nat -> mac_ok b.
Proof. intros H1 H2. split; [done|by apply bytes_okb]. Qed.

Lemma sample_claim_ok n lo range st :
  byte_ok n -> 0 <= lo < 65536 -> 0 < range < MAAP_ALLOCATION_POOL_SIZE ->
  maap_ok (sample_claim n lo range st) /\ request_ok (maap_addr (sample_claim n lo range st)).
Proof.
  intros Hn Hlo Hr. assert (mac_ok (take 4 MAAP_ALLOCATION_POOL_BASE_ADDR ++ hton_16 lo)) as Hb.
  { destruct (ntoh_hton_16 lo Hlo) as (x0 & x1 & -> & H0 & H1 & _). by apply mac_explicit. }
  split; [constructor; [|done|done]|by constructor]. by apply mac_explicit.
Qed.

Example maap_conflict_is_overlap_witness :
  (maap_conflict 0 (maap_addr (sample_claim 1 100 8 MAAP_RESERVED)) (take 4 MAAP_ALLOCATION_POOL_BASE_ADDR ++ hton_16 104) 8
    (Some (replicate 6 0, 0))).1 = true.
Proof.
  destruct (sample_claim_ok 1 100 8 MAAP_RESERVED) as [_ H]; [by split|by split|by split|].
  destruct (maap_conflict_is_overlap 0 (maap_addr (sample_claim 1 100 8 MAAP_RESERVED)) (take 4 MAAP_ALLOCATION_POOL_BASE_ADDR ++ hton_16 104) 8
    (replicate 6 0) 0 (request_claim _ H)) as [Hiff _]; [by apply sample_mac_ok|by split|].
  apply Hiff. split; [done|]. exists 104. by split; vm_compute.
Defined.

Example one_device_gives_way_witness :
  exists A' B', deliver sample_maap_env (claim_frame MAAP_ANNOUNCE (sample_claim 2 104 8 MAAP_RESERVED)) (sample_claim 1 100 8 MAAP_RESERVED) = Some (tt, A') /\
    deliver sample_maap_env (claim_frame MAAP_ANNOUNCE (sample_claim 1 100 8 MAAP_RESERVED)) (sample_claim 2 104 8 MAAP_RESERVED) = Some (tt, B') /\
    A' = sample_claim 1 100 8 MAAP_RESERVED.
Proof.
  destruct (sample_claim_ok 1 100 8 MAAP_RESERVED) as [A1 A2]; [by split..|].
  destruct (sample_claim_ok 2 104 8 MAAP_RESERVED) as [B1 B2]; [by split..|].
  destruct (one_device_gives_way sample_maap_env sample_maap_env MAAP_ANNOUNCE MAAP_RESERVED _ _ A1 B1 A2 B2) as (A' & B' & EA & EB & H);
    [done|by right|done|done|split; [done|by exists 104]|].
  exists A', B'. split_and!; [exact EA|exact EB|]. exact (proj1 H).
Defined.

Example probe_is_defended_witness :
  exists f B1 g A1 B2,
    avb_1722_maap_periodic 0 0 (sample_claim 2 104 8 MAAP_PROBING) = Some (tt, B1) /\
    deliver sample_maap_env f (sample_claim 1 100 8 MAAP_RESERVED) = Some (tt, A1) /\ maap_out A1 = [MaapTx g] /\
    deliver sample_maap_env g B1 = Some (tt, B2) /\ starts_again sample_maap_env B1 B2.
Proof.
  destruct (sample_claim_ok 1 100 8 MAAP_RESERVED) as [A1 A2]; [by split..|].
  destruct (sample_claim_ok 2 104 8 MAAP_PROBING) as [B1 B2]; [by split..|].
  destruct (probe_is_defended sample_maap_env sample_maap_env 0 0 _ _ A1 B1 A2 B2) as (f & B' & E & _ & _ & Hc); [done|done|done|by split|].
  destruct Hc as (g & A' & B'' & EA & _ & Ho & _ & EB & H); [split; [done|by exists 104]|].
  exists f, B', g, A', B''. split_and!; [exact E|exact EA|exact Ho|exact EB|exact H].
Defined.

Example maap_addresses_in_pool_witness :
  exists random s', avb_1722_maap_request_addresses 0 random 2 None (upd_maap_addr (upd_maap_state (fun _ => MAAP_PROBING)) (sample_maap 1)) = Some (tt, s') /\
    ~ in_pool (maap_base (maap_addr s')) 2.
Proof.
  destruct (maap_addresses_in_pool 0 (upd_maap_addr (upd_maap_state (fun _ => MAAP_PROBING)) (sample_maap 1))) as [_ H];
    [constructor; [by apply sample_mac_ok..|done]|done|by split|].
  destruct (H 2) as (random & s' & E & _ & Hp); [done|]. exists random, s'. split; [exact E|exact Hp].
Defined.

Definition sample_polls_maap : list Z := (fun i => 1000 + 5000000 * Z.of_nat i) <$> seq 1 50.

Example undisturbed_request_reserves_witness :
  exists s1 s', avb_1722_maap_request_addresses (u32 1000) 0 2 (Some MAAP_ALLOCATION_POOL_BASE_ADDR) (sample_maap 1) = Some (tt, s1) /\
    maap_periodic_at (fun _ => 0) sample_polls_maap s1 = Some (tt, s') /\ maap_state (maap_addr s') = MAAP_RESERVED.
Proof.
  destruct (undisturbed_request_reserves (fun _ => 0) 0 1000 5000000 sample_polls_maap MAAP_ALLOCATION_POOL_BASE_ADDR 2 (sample_maap 1))
    as (s1 & s' & E1 & E2 & [[_ HF] | [Hr _]]).
  - constructor; [by apply sample_mac_ok..|done].
  - by apply sample_mac_ok.
  - by split.
  - by split.
  - exact (polled_steps 5000000 1000 50 0 ltac:(lia)).
  - exfalso. revert HF. rewrite list.Forall_forall. intros HF. specialize (HF 250001000).
    assert (250001000 ∈ sample_polls_maap) as Hin by (apply (bool_decide_unpack _); by vm_compute).
    specialize (HF Hin). clear - HF. vm_compute in HF. by apply HF.
  - exists s1, s'. split_and!; [exact E1|exact E2|exact Hr].
Defined.
