(* ===== verification/Adp.v ===== *)
(** ADP, the discovery of entities ([lib_tsn/src/1722_1/avb_1722_1_adp.xc],
    [avb_1722_1_adp_pdu.h]): a device advertises itself, and keeps a database of the
    entities that advertise themselves to it. *)
From S2P Require Import Prelude Bytes MiscTimer AcmpTypes AecpTypes.
From stdpp Require Import base list list_numbers numbers option.
From Stdlib Require Import ZArith Lia.
#[local] Open Scope Z_scope.

(** * Configuration and packets *)

(** Constants of the application, with defaults in [avb_1722_1_default_conf.h]; the index
    of the identify control is generated. *)
Class AdpConfig : Type := {
  AVB_1722_1_MAX_ENTITIES : nat;
  AVB_1722_1_ADP_VALID_TIME : Z;
  AVB_1722_1_ADP_VENDOR_ID : Z;
  AVB_1722_1_ADP_MODEL_ID : Z;
  AVB_1722_1_ADP_ENTITY_CAPABILITIES : Z;
  AVB_1722_1_ADP_TALKER_STREAM_SOURCES : Z;
  AVB_1722_1_ADP_TALKER_CAPABILITIES : Z;
  AVB_1722_1_ADP_LISTENER_STREAM_SINKS : Z;
  AVB_1722_1_ADP_LISTENER_CAPABILITIES : Z;
  AVB_1722_1_ADP_CONTROLLER_CAPABILITIES : Z;
  AVB_1722_1_ADP_ASSOCIATION_ID : Z;
  adp_identify_control_index : Z;
  AVB_ENABLE_1722_1 : bool;
}.
Definition AVB_1722_1_ADP_REPEAT_TIME `{AdpConfig} : Z := Z.quot AVB_1722_1_ADP_VALID_TIME 2.

Definition AVB_1722_1_ADP_CD_LENGTH : Z := 56.
Definition DEFAULT_1722_1_ADP_SUBTYPE : Z := 0x7a.
Definition avb_1722_1_adp_dest_addr : list Z := [0x91; 0xe0; 0xf0; 0x01; 0x00; 0x00].
Definition ENTITY_AVAILABLE : Z := 0.
Definition ENTITY_DEPARTING : Z := 1.
Definition ENTITY_DISCOVER : Z := 2.

(** Offsets in [avb_1722_1_adp_packet_t], and its size. *)
Definition off_entity_guid : nat := 4.
Definition off_vendor_id : nat := 12.
Definition off_entity_model_id : nat := 16.
Definition off_entity_capabilities : nat := 20.
Definition off_talker_stream_sources : nat := 24.
Definition off_talker_capabilities : nat := 26.
Definition off_listener_stream_sinks : nat := 28.
Definition off_listener_capabilities : nat := 30.
Definition off_controller_capabilities : nat := 32.
Definition off_available_index : nat := 36.
Definition off_gptp_grandmaster_id : nat := 40.
Definition off_gptp_domain_number : nat := 48.
Definition off_identify_control_index : nat := 52.
Definition off_association_id : nat := 56.
Definition adp_packet_size : nat := 68.

(** * State *)

Inductive adp_advertise_state_t : Type :=
| ADP_ADVERTISE_IDLE
| ADP_ADVERTISE_WAITING
| ADP_ADVERTISE_ADVERTISE_0
| ADP_ADVERTISE_ADVERTISE_1
| ADP_ADVERTISE_DEPARTING
| ADP_ADVERTISE_DEPART_THEN_ADVERTISE.

Inductive adp_discovery_state_t : Type :=
| ADP_DISCOVERY_IDLE
| ADP_DISCOVERY_WAITING
| ADP_DISCOVERY_DISCOVER
| ADP_DISCOVERY_ADDED
| ADP_DISCOVERY_REMOVED.

#[global] Instance adp_advertise_state_eq_dec : EqDecision adp_advertise_state_t.
Proof. solve_decision. Defined.
#[global] Instance adp_discovery_state_eq_dec : EqDecision adp_discovery_state_t.
Proof. solve_decision. Defined.

Record avb_1722_1_entity_record : Type := MkEntity {
  er_guid : Z;  (* guid_t *)
  er_vendor_id : Z;  (* unsigned int *)
  er_entity_model_id : Z;  (* unsigned int *)
  er_capabilities : Z;  (* unsigned int *)
  er_talker_stream_sources : Z;  (* unsigned short *)
  er_talker_capabilities : Z;  (* unsigned short *)
  er_listener_stream_sinks : Z;  (* unsigned short *)
  er_listener_capabilities : Z;  (* unsigned short *)
  er_controller_capabilities : Z;  (* unsigned int *)
  er_available_index : Z;  (* unsigned int *)
  er_gptp_grandmaster_id : Z;  (* gmid_t *)
  er_gptp_domain_number : Z;  (* unsigned char *)
  er_identify_control_index : Z;  (* unsigned short *)
  er_association_id : Z;  (* unsigned int *)
  er_timeout : Z;  (* unsigned *)
}.
Definition upd_er_guid (g : Z -> Z) (e : avb_1722_1_entity_record) : avb_1722_1_entity_record :=
  MkEntity (g (er_guid e)) (er_vendor_id e) (er_entity_model_id e) (er_capabilities e) (er_talker_stream_sources e)
    (er_talker_capabilities e) (er_listener_stream_sinks e) (er_listener_capabilities e) (er_controller_capabilities e)
    (er_available_index e) (er_gptp_grandmaster_id e) (er_gptp_domain_number e) (er_identify_control_index e)
    (er_association_id e) (er_timeout e).

(** Frames, and the application's hook with the record it is given. *)
Inductive adp_event : Type :=
| AdpTx (frame : list Z)
| NewEntityAvailable (entity : avb_1722_1_entity_record).

(** The static variables. [adp_grandmaster_id] is the byte array of the union;
    [adp_advertise_timer], which nothing starts, is left out. *)
Record adp : Type := MkAdp {
  adp_advertise_state : adp_advertise_state_t;
  adp_discovery_state : adp_discovery_state_t;
  adp_discover_guid : Z;
  adp_available_index : Z;  (* unsigned long *)
  adp_grandmaster_id : list Z;
  adp_readvertise_timer : avb_timer;
  adp_discovery_timer : avb_timer;
  adp_ptp_monitor_timer : avb_timer;
  adp_two_second_counter : Z;  (* unsigned *)
  adp_entities : list avb_1722_1_entity_record;  (* [AVB_1722_1_MAX_ENTITIES] *)
  adp_latest_entity_added_index : Z;  (* int *)
  adp_buf : list Z;  (* avb_1722_1_buf *)
  adp_out : list adp_event;
}.

Definition upd_adp_advertise_state (g : adp_advertise_state_t -> adp_advertise_state_t) (s : adp) : adp :=
  MkAdp (g (adp_advertise_state s)) (adp_discovery_state s) (adp_discover_guid s) (adp_available_index s)
    (adp_grandmaster_id s) (adp_readvertise_timer s) (adp_discovery_timer s) (adp_ptp_monitor_timer s)
    (adp_two_second_counter s) (adp_entities s) (adp_latest_entity_added_index s) (adp_buf s) (adp_out s).
Definition upd_adp_discovery_state (g : adp_discovery_state_t -> adp_discovery_state_t) (s : adp) : adp :=
  MkAdp (adp_advertise_state s) (g (adp_discovery_state s)) (adp_discover_guid s) (adp_available_index s)
    (adp_grandmaster_id s) (adp_readvertise_timer s) (adp_discovery_timer s) (adp_ptp_monitor_timer s)
    (adp_two_second_counter s) (adp_entities s) (adp_latest_entity_added_index s) (adp_buf s) (adp_out s).
Definition upd_adp_discover_guid (g : Z -> Z) (s : adp) : adp :=
  MkAdp (adp_advertise_state s) (adp_discovery_state s) (g (adp_discover_guid s)) (adp_available_index s)
    (adp_grandmaster_id s) (adp_readvertise_timer s) (adp_discovery_timer s) (adp_ptp_monitor_timer s)
    (adp_two_second_counter s) (adp_entities s) (adp_latest_entity_added_index s) (adp_buf s) (adp_out s).
Definition upd_adp_available_index (g : Z -> Z) (s : adp) : adp :=
  MkAdp (adp_advertise_state s) (adp_discovery_state s) (adp_discover_guid s) (g (adp_available_index s))
    (adp_grandmaster_id s) (adp_readvertise_timer s) (adp_discovery_timer s) (adp_ptp_monitor_timer s)
    (adp_two_second_counter s) (adp_entities s) (adp_latest_entity_added_index s) (adp_buf s) (adp_out s).
Definition upd_adp_grandmaster_id (g : list Z -> list Z) (s : adp) : adp :=
  MkAdp (adp_advertise_state s) (adp_discovery_state s) (adp_discover_guid s) (adp_available_index s)
    (g (adp_grandmaster_id s)) (adp_readvertise_timer s) (adp_discovery_timer s) (adp_ptp_monitor_timer s)
    (adp_two_second_counter s) (adp_entities s) (adp_latest_entity_added_index s) (adp_buf s) (adp_out s).
Definition upd_adp_readvertise_timer (g : avb_timer -> avb_timer) (s : adp) : adp :=
  MkAdp (adp_advertise_state s) (adp_discovery_state s) (adp_discover_guid s) (adp_available_index s)
    (adp_grandmaster_id s) (g (adp_readvertise_timer s)) (adp_discovery_timer s) (adp_ptp_monitor_timer s)
    (adp_two_second_counter s) (adp_entities s) (adp_latest_entity_added_index s) (adp_buf s) (adp_out s).
Definition upd_adp_discovery_timer (g : avb_timer -> avb_timer) (s : adp) : adp :=
  MkAdp (adp_advertise_state s) (adp_discovery_state s) (adp_discover_guid s) (adp_available_index s)
    (adp_grandmaster_id s) (adp_readvertise_timer s) (g (adp_discovery_timer s)) (adp_ptp_monitor_timer s)
    (adp_two_second_counter s) (adp_entities s) (adp_latest_entity_added_index s) (adp_buf s) (adp_out s).
Definition upd_adp_ptp_monitor_timer (g : avb_timer -> avb_timer) (s : adp) : adp :=
  MkAdp (adp_advertise_state s) (adp_discovery_state s) (adp_discover_guid s) (adp_available_index s)
    (adp_grandmaster_id s) (adp_readvertise_timer s) (adp_discovery_timer s) (g (adp_ptp_monitor_timer s))
    (adp_two_second_counter s) (adp_entities s) (adp_latest_entity_added_index s) (adp_buf s) (adp_out s).
Definition upd_adp_two_second_counter (g : Z -> Z) (s : adp) : adp :=
  MkAdp (adp_advertise_state s) (adp_discovery_state s) (adp_discover_guid s) (adp_available_index s)
    (adp_grandmaster_id s) (adp_readvertise_timer s) (adp_discovery_timer s) (adp_ptp_monitor_timer s)
    (g (adp_two_second_counter s)) (adp_entities s) (adp_latest_entity_added_index s) (adp_buf s) (adp_out s).
Definition upd_adp_entities (g : list avb_1722_1_entity_record -> list avb_1722_1_entity_record) (s : adp) : adp :=
  MkAdp (adp_advertise_state s) (adp_discovery_state s) (adp_discover_guid s) (adp_available_index s)
    (adp_grandmaster_id s) (adp_readvertise_timer s) (adp_discovery_timer s) (adp_ptp_monitor_timer s)
    (adp_two_second_counter s) (g (adp_entities s)) (adp_latest_entity_added_index s) (adp_buf s) (adp_out s).
Definition upd_adp_latest_entity_added_index (g : Z -> Z) (s : adp) : adp :=
  MkAdp (adp_advertise_state s) (adp_discovery_state s) (adp_discover_guid s) (adp_available_index s)
    (adp_grandmaster_id s) (adp_readvertise_timer s) (adp_discovery_timer s) (adp_ptp_monitor_timer s)
    (adp_two_second_counter s) (adp_entities s) (g (adp_latest_entity_added_index s)) (adp_buf s) (adp_out s).
Definition upd_adp_buf (g : list Z -> list Z) (s : adp) : adp :=
  MkAdp (adp_advertise_state s) (adp_discovery_state s) (adp_discover_guid s) (adp_available_index s)
    (adp_grandmaster_id s) (adp_readvertise_timer s) (adp_discovery_timer s) (adp_ptp_monitor_timer s)
    (adp_two_second_counter s) (adp_entities s) (adp_latest_entity_added_index s) (g (adp_buf s)) (adp_out s).
Definition upd_adp_out (g : list adp_event -> list adp_event) (s : adp) : adp :=
  MkAdp (adp_advertise_state s) (adp_discovery_state s) (adp_discover_guid s) (adp_available_index s)
    (adp_grandmaster_id s) (adp_readvertise_timer s) (adp_discovery_timer s) (adp_ptp_monitor_timer s)
    (adp_two_second_counter s) (adp_entities s) (adp_latest_entity_added_index s) (adp_buf s) (g (adp_out s)).

(** What the operations read from outside: the clock, the grandmaster gPTP reports, and
    what an uninitialised identifier on the stack holds. *)
Record adp_env : Type := MkAdpEnv {
  ae_now : Z;
  ae_grandmaster : list Z;
  ae_stack_guid : list Z;
}.

Section Adp.
Context `{acfg : AcmpConfig} `{ecfg : AecpConfig} `{pcfg : AdpConfig}.
Abbreviation DM := (M adp).

(** * Control *)

Definition avb_1722_1_adp_announce : DM unit :=
  modify (upd_adp_advertise_state (fun st =>
    match st with ADP_ADVERTISE_IDLE | ADP_ADVERTISE_WAITING => ADP_ADVERTISE_ADVERTISE_0 | _ => st end)).
Definition avb_1722_1_adp_depart : DM unit :=
  modify (upd_adp_advertise_state (fun st =>
    match st with ADP_ADVERTISE_IDLE | ADP_ADVERTISE_WAITING => ADP_ADVERTISE_DEPARTING | _ => st end)).
Definition avb_1722_1_adp_depart_then_announce : DM unit :=
  modify (upd_adp_advertise_state (fun st =>
    match st with ADP_ADVERTISE_IDLE | ADP_ADVERTISE_WAITING => ADP_ADVERTISE_DEPART_THEN_ADVERTISE | _ => st end)).
Definition avb_1722_1_adp_discover (guid : Z) : DM unit :=
  st ← gets adp_discovery_state;
  whenM (bool_decide (st = ADP_DISCOVERY_WAITING))
    (modify (fun s => upd_adp_discover_guid (fun _ => guid) (upd_adp_discovery_state (fun _ => ADP_DISCOVERY_DISCOVER) s))).
Definition avb_1722_1_adp_discover_all : DM unit := avb_1722_1_adp_discover 0.
Definition avb_1722_1_adp_change_ptp_grandmaster (grandmaster : list Z) : DM unit :=
  modify (upd_adp_grandmaster_id (fun _ => take 8 grandmaster)).
Definition avb_1722_1_get_latest_new_entity_idx : DM Z := gets adp_latest_entity_added_index.

(** * The database *)

(** The index of an entity, or the number of entries. *)
Fixpoint database_index (guid : Z) (es : list avb_1722_1_entity_record) : Z :=
  match es with
  | [] => 0
  | e :: es => if er_guid e =? guid then 0 else 1 + database_index guid es
  end.
Definition avb_1722_1_entity_database_find (guid : Z) : DM Z :=
  gets (fun s => database_index guid (adp_entities s)).

(** [found_slot_index] and [entity_update]: the entity's entry, otherwise the last empty one. *)
Fixpoint database_slot (i guid : Z) (es : list avb_1722_1_entity_record) (found : Z) : Z * bool :=
  match es with
  | [] => (found, false)
  | e :: es =>
      if er_guid e =? 0 then database_slot (i + 1) guid es i
      else if er_guid e =? guid then (i, true)
      else database_slot (i + 1) guid es found
  end.

Definition entity_of (pkt : list Z) (two_second_counter : Z) : avb_1722_1_entity_record := {|
  er_guid := guid_at off_entity_guid pkt;
  er_vendor_id := u32 (word_at off_vendor_id pkt);
  er_entity_model_id := u32 (word_at off_entity_model_id pkt);
  er_capabilities := u32 (word_at off_entity_capabilities pkt);
  er_talker_stream_sources := short_at off_talker_stream_sources pkt;
  er_talker_capabilities := short_at off_talker_capabilities pkt;
  er_listener_stream_sinks := short_at off_listener_stream_sinks pkt;
  er_listener_capabilities := short_at off_listener_capabilities pkt;
  er_controller_capabilities := u32 (word_at off_controller_capabilities pkt);
  er_available_index := u32 (word_at off_available_index pkt);
  er_gptp_grandmaster_id := guid_at off_gptp_grandmaster_id pkt;
  er_gptp_domain_number := pkt !!! off_gptp_domain_number;
  er_identify_control_index := short_at off_identify_control_index pkt;
  er_association_id := u32 (word_at off_association_id pkt);
  er_timeout := u32 (GET_1722_1_VALID_TIME pkt + two_second_counter);
|}.

(** Whether a new entity was added. *)
Definition avb_1722_1_entity_database_add (pkt : list Z) : DM bool :=
  s ← gets (fun s => s);
  let '(slot, update) := database_slot 0 (guid_at off_entity_guid pkt) (adp_entities s) (-1) in
  if slot =? -1 then mret false
  else
    _ ← modify (upd_adp_entities (<[Z.to_nat slot := entity_of pkt (adp_two_second_counter s)]>));
    if (update : bool) then mret false
    else _ ← modify (upd_adp_latest_entity_added_index (fun _ => slot)); mret true.

Definition avb_1722_1_entity_database_flush : DM unit :=
  modify (upd_adp_entities (fmap (upd_er_guid (fun _ => 0)))).

Definition avb_1722_1_entity_database_remove (pkt : list Z) : DM unit :=
  i ← avb_1722_1_entity_database_find (guid_at off_entity_guid pkt);
  whenM (negb (i =? Z.of_nat AVB_1722_1_MAX_ENTITIES))
    (modify (upd_adp_entities (alter (upd_er_guid (fun _ => 0)) (Z.to_nat i)))).

(** Removes the first entity that has timed out, and whether there was one. *)
Fixpoint remove_timed_out (counter : Z) (es : list avb_1722_1_entity_record) : list avb_1722_1_entity_record * bool :=
  match es with
  | [] => ([], false)
  | e :: es =>
      if (er_guid e =? 0) || negb (er_timeout e <? counter)
      then let '(es, lost) := remove_timed_out counter es in (e :: es, lost)
      else (upd_er_guid (fun _ => 0) e :: es, true)
  end.
Definition avb_1722_1_entity_database_check_timeout : DM bool :=
  s ← gets (fun s => s);
  let '(es, lost) := remove_timed_out (adp_two_second_counter s) (adp_entities s) in
  _ ← modify (upd_adp_entities (fun _ => es)); mret lost.

Definition avb_1722_1_adp_init (now : Z) : DM unit :=
  _ ← avb_1722_1_entity_database_flush;
  modify (fun s =>
    upd_adp_discovery_timer (fun t => start_avb_timer now 1 (init_avb_timer 200 t))
    (upd_adp_readvertise_timer (init_avb_timer 100)
    (upd_adp_ptp_monitor_timer (init_avb_timer 100)
    (upd_adp_advertise_state (fun _ => ADP_ADVERTISE_IDLE)
    (upd_adp_discovery_state (fun _ => ADP_DISCOVERY_WAITING) s))))).

(** * Packets *)

(** The packet is in a buffer that is larger. *)
Definition process_avb_1722_1_adp_packet (pkt : list Z) : DM unit :=
  if (length pkt <? adp_packet_size)%nat then trap
  else
    let message_type := GET_1722_1_MSG_TYPE pkt in
    if message_type =? ENTITY_DISCOVER then
      whenM (compare_guid (bytes_at off_entity_guid 8 pkt) my_guid || compare_guid (bytes_at off_entity_guid 8 pkt) 0)
        (modify (upd_adp_advertise_state (fun st =>
           match st with ADP_ADVERTISE_WAITING => ADP_ADVERTISE_ADVERTISE_1 | _ => st end)))
    else if message_type =? ENTITY_AVAILABLE then
      added ← avb_1722_1_entity_database_add pkt;
      whenM added (modify (upd_adp_discovery_state (fun _ => ADP_DISCOVERY_ADDED)))
    else if message_type =? ENTITY_DEPARTING then
      _ ← avb_1722_1_entity_database_remove pkt;
      modify (upd_adp_discovery_state (fun _ => ADP_DISCOVERY_REMOVED))
    else skip.

(** The packet's fields behind the GUID; the association identifier fills four of its
    eight bytes. *)
Definition adp_fields (available_index : Z) (grandmaster : list Z) : list Z :=
  hton_32 AVB_1722_1_ADP_VENDOR_ID ++ hton_32 AVB_1722_1_ADP_MODEL_ID ++ hton_32 AVB_1722_1_ADP_ENTITY_CAPABILITIES ++
  hton_16 AVB_1722_1_ADP_TALKER_STREAM_SOURCES ++ hton_16 AVB_1722_1_ADP_TALKER_CAPABILITIES ++
  hton_16 AVB_1722_1_ADP_LISTENER_STREAM_SINKS ++ hton_16 AVB_1722_1_ADP_LISTENER_CAPABILITIES ++
  hton_32 AVB_1722_1_ADP_CONTROLLER_CAPABILITIES ++ hton_32 available_index ++ take 8 grandmaster ++
  [0] ++ replicate 3 0 ++ hton_16 (if AVB_1722_1_AEM_ENABLED then adp_identify_control_index else 0) ++ hton_16 0 ++
  hton_32 AVB_1722_1_ADP_ASSOCIATION_ID ++ replicate 4 0 ++ replicate 4 0.

(** The buffer with the packet; the packet is cleared first. *)
Definition adp_frame (message_type guid available_index : Z) (grandmaster buf : list Z) : list Z :=
  avb_1722_1_create_1722_1_header avb_1722_1_adp_dest_addr DEFAULT_1722_1_ADP_SUBTYPE message_type
    (if message_type =? ENTITY_AVAILABLE then AVB_1722_1_ADP_VALID_TIME else 0) AVB_1722_1_ADP_CD_LENGTH
    (take ethernet_hdr_size buf ++ replicate adp_packet_size 0) ++
  set_64 (guid_c guid) ++
  (if message_type =? ENTITY_DISCOVER then replicate 56 0 else adp_fields available_index grandmaster) ++
  drop (ethernet_hdr_size + adp_packet_size) buf.

Definition avb_1722_1_create_adp_packet (message_type guid : Z) : DM unit :=
  modify (fun s => upd_adp_buf (adp_frame message_type guid (adp_available_index s) (adp_grandmaster_id s)) s).

Definition send_adp_packet : DM unit :=
  modify (fun s => upd_adp_out (fun l => l ++ [AdpTx (take (ethernet_hdr_size + adp_packet_size) (adp_buf s))]) s).

(** * The periodic functions *)

Definition avb_1722_1_adp_discovery_periodic (now : Z) : DM unit :=
  st ← gets adp_discovery_state;
  match st with
  | ADP_DISCOVERY_IDLE => skip
  | ADP_DISCOVERY_WAITING =>
      tmr ← gets adp_discovery_timer;
      let '(expired, tmr) := avb_timer_expired now tmr in
      _ ← modify (upd_adp_discovery_timer (fun _ => tmr));
      whenM expired
        (_ ← modify (upd_adp_two_second_counter (fun n => u32 (n + 1)));
         _ ← avb_1722_1_entity_database_check_timeout;
         modify (upd_adp_discovery_timer (start_avb_timer now 1)))
  | ADP_DISCOVERY_DISCOVER =>
      guid ← gets adp_discover_guid;
      _ ← avb_1722_1_create_adp_packet ENTITY_DISCOVER guid;
      _ ← send_adp_packet;
      modify (upd_adp_discovery_state (fun _ => ADP_DISCOVERY_WAITING))
  | ADP_DISCOVERY_ADDED =>
      _ ← whenM AVB_ENABLE_1722_1
            (e ← load (fun s => if adp_latest_entity_added_index s <? 0 then None
                               else adp_entities s !! Z.to_nat (adp_latest_entity_added_index s));
             modify (upd_adp_out (fun l => l ++ [NewEntityAvailable e])));
      modify (upd_adp_discovery_state (fun _ => ADP_DISCOVERY_WAITING))
  | ADP_DISCOVERY_REMOVED => modify (upd_adp_discovery_state (fun _ => ADP_DISCOVERY_WAITING))
  end.

Definition avb_1722_1_adp_depart_immediately : DM unit :=
  _ ← avb_1722_1_create_adp_packet ENTITY_DEPARTING my_guid;
  send_adp_packet.

Definition adp_advertise_1 (now : Z) : DM unit :=
  _ ← avb_1722_1_create_adp_packet ENTITY_AVAILABLE my_guid;
  _ ← send_adp_packet;
  modify (fun s =>
    upd_adp_available_index (fun n => u32 (n + 1))
    (upd_adp_advertise_state (fun _ => ADP_ADVERTISE_WAITING)
    (upd_adp_readvertise_timer (start_avb_timer now AVB_1722_1_ADP_REPEAT_TIME) s))).

Definition adp_depart_now (next : adp_advertise_state_t) : DM unit :=
  _ ← avb_1722_1_create_adp_packet ENTITY_DEPARTING my_guid;
  _ ← send_adp_packet;
  modify (fun s => upd_adp_available_index (fun _ => 0) (upd_adp_advertise_state (fun _ => next) s)).

(** The grandmaster is looked at each second; a new one is advertised at once. *)
Definition adp_ptp_monitor (env : adp_env) : DM unit :=
  tmr ← gets adp_ptp_monitor_timer;
  let '(expired, tmr) := avb_timer_expired (ae_now env) tmr in
  _ ← modify (upd_adp_ptp_monitor_timer (fun _ => tmr));
  whenM expired
    (known ← gets adp_grandmaster_id;
     _ ← whenM (negb (bool_decide (known = take 8 (ae_grandmaster env))))
           (_ ← avb_1722_1_adp_change_ptp_grandmaster (ae_grandmaster env);
            modify (upd_adp_advertise_state (fun _ => ADP_ADVERTISE_ADVERTISE_1)));
     modify (upd_adp_ptp_monitor_timer (start_avb_timer (ae_now env) 1))).

(** The [switch] of the advertising function. *)
Definition adp_advertise_switch (env : adp_env) : DM unit :=
  st ← gets adp_advertise_state;
  match st with
  | ADP_ADVERTISE_IDLE => skip
  | ADP_ADVERTISE_WAITING =>
      tmr ← gets adp_readvertise_timer;
      let '(expired, tmr) := avb_timer_expired (ae_now env) tmr in
      _ ← modify (upd_adp_readvertise_timer (fun _ => tmr));
      whenM expired (modify (upd_adp_advertise_state (fun _ => ADP_ADVERTISE_ADVERTISE_1)))
  | ADP_ADVERTISE_ADVERTISE_0 =>
      _ ← avb_1722_1_adp_change_ptp_grandmaster (ae_stack_guid env);
      _ ← modify (upd_adp_ptp_monitor_timer (start_avb_timer (ae_now env) 1));
      adp_advertise_1 (ae_now env)
  | ADP_ADVERTISE_ADVERTISE_1 => adp_advertise_1 (ae_now env)
  | ADP_ADVERTISE_DEPARTING => adp_depart_now ADP_ADVERTISE_IDLE
  | ADP_ADVERTISE_DEPART_THEN_ADVERTISE => adp_depart_now ADP_ADVERTISE_ADVERTISE_0
  end.

Definition avb_1722_1_adp_advertising_periodic (env : adp_env) : DM unit :=
  _ ← adp_advertise_switch env;
  st ← gets adp_advertise_state;
  whenM (negb (bool_decide (st = ADP_ADVERTISE_IDLE))) (adp_ptp_monitor env).
End Adp.
