(* ===== verification/AdpSpec.v ===== *)
(** ADP: the database of entities is a finite map of bounded size, and what one device
    advertises another one knows. *)
From S2P Require Import Prelude Bytes MiscTimer AcmpTypes AcmpSpec AecpTypes Adp AecpSample.
From stdpp Require Import base gmap list list_numbers numbers option.
From Stdlib Require Import ZArith Lia.
#[local] Open Scope Z_scope.

(** * The database as a map *)

(** Entries with the identifier zero are empty. *)
Fixpoint db_map (es : list avb_1722_1_entity_record) : gmap Z avb_1722_1_entity_record :=
  match es with
  | [] => ∅
  | e :: es => if er_guid e =? 0 then db_map es else <[er_guid e := e]> (db_map es)
  end.

(** No entity has two entries. *)
Definition unique_entities (es : list avb_1722_1_entity_record) : Prop :=
  forall i j e e', es !! i = Some e -> es !! j = Some e' -> er_guid e = er_guid e' -> er_guid e <> 0 -> i = j.

Lemma unique_tail e es : unique_entities (e :: es) -> unique_entities es.
Proof. intros H i j e1 e2 H1 H2 E N. specialize (H (S i) (S j) e1 e2 H1 H2 E N). by injection H. Qed.

Lemma db_map_zero es : db_map es !! 0 = None.
Proof.
  induction es as [|e es IH]; [done|]. cbn. destruct (Z.eqb_spec (er_guid e) 0); [done|]. by rewrite lookup_insert_ne.
Qed.

Lemma db_map_in es x e : db_map es !! x = Some e -> x <> 0 /\ er_guid e = x /\ exists k, es !! k = Some e.
Proof.
  intros H. assert (x <> 0) as Hx by (intros ->; by rewrite db_map_zero in H). split; [done|].
  induction es as [|y es IH]; [done|]. cbn in H. destruct (Z.eqb_spec (er_guid y) 0).
  - destruct (IH H) as [H1 [k Hk]]. split; [done|]. by exists (S k).
  - apply lookup_insert_Some in H as [[H1 ->] | [_ H]]; [split; [done|]; by exists 0%nat|].
    destruct (IH H) as [H1 [k Hk]]. split; [done|]. by exists (S k).
Qed.

Lemma db_map_Some es x e :
  unique_entities es -> x <> 0 -> db_map es !! x = Some e <-> er_guid e = x /\ exists k, es !! k = Some e.
Proof.
  intros Hu Hx. split; [by intros (_ & H)%db_map_in|]. intros [Hg [k Hk]].
  revert k Hk. induction es as [|y es IH]; intros k Hk; [done|]. cbn. destruct k as [|k].
  - injection Hk as ->. rewrite Hg. destruct (Z.eqb_spec x 0); [done|]. apply lookup_insert_eq.
  - specialize (IH (unique_tail _ _ Hu) k Hk). destruct (Z.eqb_spec (er_guid y) 0); [done|].
    rewrite lookup_insert_ne; [done|]. intros E. by assert (0 = S k)%nat by (eapply Hu; [done|exact Hk|congruence|done]).
Qed.

Lemma db_map_None es x :
  x <> 0 -> db_map es !! x = None <-> forall k e, es !! k = Some e -> er_guid e <> x.
Proof.
  intros Hx. split.
  - induction es as [|y es IH]; intros H k e Hk; [done|]. cbn in H. destruct k as [|k].
    + injection Hk as ->. intros E. rewrite E in H. destruct (Z.eqb_spec x 0); [done|]. by rewrite lookup_insert_eq in H.
    + destruct (er_guid y =? 0); [by apply (IH H k)|]. apply lookup_insert_None in H as [H _]. by apply (IH H k).
  - intros H. destruct (db_map es !! x) as [e|] eqn:E; [|done]. apply db_map_in in E as (_ & Hg & k & Hk). by destruct (H k e Hk).
Qed.

(** The map is full when no entry is empty. *)
Lemma db_map_size es :
  unique_entities es -> (size (db_map es) + length (filter (fun e => er_guid e = 0%Z) es) = length es)%nat.
Proof.
  induction es as [|e es IH]; intros Hu; [done|]. specialize (IH (unique_tail _ _ Hu)). cbn [db_map length].
  destruct (Z.eqb_spec (er_guid e) 0) as [E|N].
  - rewrite filter_cons_True by done. cbn [length]. lia.
  - rewrite filter_cons_False by done. rewrite map_size_insert_None; [lia|].
    apply db_map_None; [done|]. intros k e' Hk E. by assert (0 = S k)%nat by (eapply Hu; [done|exact Hk|done|done]).
Qed.

Lemma db_map_full es :
  unique_entities es -> (size (db_map es) < length es)%nat <-> exists k e, es !! k = Some e /\ er_guid e = 0.
Proof.
  intros Hu. pose proof (db_map_size es Hu) as Hs. split.
  - intros Hlt. destruct (filter (fun e => er_guid e = 0) es) as [|e l] eqn:E; [cbn in Hs; lia|].
    assert (e ∈ filter (fun e => er_guid e = 0) es) as [H1 [k Hk]%list_elem_of_lookup]%list_elem_of_filter
      by (rewrite E; by left). by exists k, e.
  - intros (k & e & Hk & He). assert (e ∈ filter (fun e => er_guid e = 0) es) as Hin.
    { apply list_elem_of_filter. split; [done|]. by eapply list_elem_of_lookup_2. }
    destruct (filter (fun e => er_guid e = 0) es); [by apply not_elem_of_nil in Hin|]. cbn in Hs. lia.
Qed.

(** An entry is written. *)
Lemma unique_entities_insert es k e0 e :
  unique_entities es -> es !! k = Some e0 ->
  (forall j e', es !! j = Some e' -> er_guid e' = er_guid e -> er_guid e <> 0 -> j = k) -> unique_entities (<[k := e]> es).
Proof.
  intros Hu Hk Hf i j e1 e2 H1 H2 E N.
  apply list_lookup_insert_Some in H1 as [(<- & <- & _) | [Ni H1]], H2 as [(<- & <- & _) | [Nj H2]].
  - done.
  - symmetry. by apply (Hf j e2).
  - apply (Hf i e1); [done|done|congruence].
  - by apply (Hu i j e1 e2).
Qed.

Lemma db_map_insert es k e0 e :
  unique_entities es -> es !! k = Some e0 -> er_guid e <> 0 -> er_guid e0 = er_guid e \/ er_guid e0 = 0 ->
  (forall j e', es !! j = Some e' -> er_guid e' = er_guid e -> j = k) ->
  unique_entities (<[k := e]> es) /\ db_map (<[k := e]> es) = <[er_guid e := e]> (db_map es).
Proof.
  intros Hu Hk Hg H0 Hf. assert (unique_entities (<[k := e]> es)) as Hu' by (eapply unique_entities_insert; [done|done|intros; by eapply Hf]).
  split; [done|]. apply map_eq. intros x. destruct (decide (x = 0)) as [->|Hx].
  { rewrite lookup_insert_ne by done. by rewrite !db_map_zero. }
  apply option_eq. intros y. rewrite db_map_Some by done. destruct (decide (er_guid e = x)) as [<-|Hne].
  - rewrite lookup_insert_eq. split.
    + intros (Hy & j & [(<- & <- & _) | [Nj Hj]]%list_lookup_insert_Some); [done|]. destruct Nj. symmetry. by apply (Hf j y).
    + intros [= <-]. split; [done|]. exists k. apply list_lookup_insert_eq. by apply lookup_lt_Some in Hk.
  - rewrite lookup_insert_ne, db_map_Some by done. split.
    + intros (Hy & j & [(_ & <- & _) | [Nj Hj]]%list_lookup_insert_Some); [done|]. split; [done|]. by exists j.
    + intros (Hy & j & Hj). split; [done|]. exists j. rewrite list_lookup_insert_ne; [done|]. intros <-.
      rewrite Hk in Hj. injection Hj as <-. destruct H0; congruence.
Qed.

(** An entry is emptied. *)
Lemma db_map_clear es k e0 :
  unique_entities es -> es !! k = Some e0 ->
  let es' := alter (upd_er_guid (fun _ => 0)) k es in
  unique_entities es' /\ db_map es' = delete (er_guid e0) (db_map es).
Proof.
  intros Hu Hk es'. unfold es'. rewrite (list_alter_insert_eq _ _ _ _ Hk). set (e := upd_er_guid _ e0).
  assert (unique_entities (<[k := e]> es)) as Hu' by (eapply unique_entities_insert; [done|done|done]).
  split; [done|]. apply map_eq. intros x. destruct (decide (x = 0)) as [->|Hx].
  { rewrite db_map_zero. destruct (decide (er_guid e0 = 0)) as [->|]; [by rewrite lookup_delete_eq|].
    by rewrite lookup_delete_ne, db_map_zero. }
  apply option_eq. intros y. rewrite lookup_delete_Some, !db_map_Some by done. split.
  - intros (Hy & j & [(_ & <- & _) | [Nj Hj]]%list_lookup_insert_Some); [done|]. split; [|split; [done|by exists j]].
    intros E. destruct Nj. apply (Hu k j e0 y); [done|done|congruence|congruence].
  - intros (Hne & Hy & j & Hj). split; [done|]. exists j. rewrite list_lookup_insert_ne; [done|]. intros <-. congruence.
Qed.

(** * The searches *)

Lemma database_index_spec guid es :
  let i := database_index guid es in
  (exists k e, i = Z.of_nat k /\ es !! k = Some e /\ er_guid e = guid) \/
  (i = Z.of_nat (length es) /\ forall k e, es !! k = Some e -> er_guid e <> guid).
Proof.
  induction es as [|e es IH]; cbn [database_index length]; [by right|].
  destruct (Z.eqb_spec (er_guid e) guid) as [E|N]; [left; by exists 0%nat, e|].
  destruct IH as [(k & y & -> & Hk & Hy) | [-> Hf]].
  - left. exists (S k), y. split_and!; [lia|done|done].
  - right. split; [lia|]. intros [|k] y Hk; [by injection Hk as <-|by apply (Hf k)].
Qed.

(** The entity's entry; or, if it has none, an empty one, or [found] if there is none. *)
Lemma database_slot_spec i guid es found :
  guid <> 0 ->
  let r := database_slot i guid es found in
  (r.2 = true /\ exists k e, r.1 = i + Z.of_nat k /\ es !! k = Some e /\ er_guid e = guid) \/
  (r.2 = false /\ (forall k e, es !! k = Some e -> er_guid e <> guid) /\
   ((r.1 = found /\ forall k e, es !! k = Some e -> er_guid e <> 0) \/
    exists k e, r.1 = i + Z.of_nat k /\ es !! k = Some e /\ er_guid e = 0)).
Proof.
  intros Hg. revert i found. induction es as [|e es IH]; intros i found; cbn [database_slot].
  - right. split_and!; [done|by intros|left; by split].
  - destruct (Z.eqb_spec (er_guid e) 0) as [E0|N0].
    + destruct (IH (i + 1) i) as [(H1 & k & y & H2 & H3 & H4) | (H1 & H2 & H3)].
      * left. split; [done|]. exists (S k), y. split_and!; [lia|done|done].
      * right. split_and!; [done| |right].
        -- intros [|k] y Hk; [injection Hk as <-; congruence|by apply (H2 k)].
        -- destruct H3 as [[-> _] | (k & y & H3 & H4 & H5)]; [exists 0%nat, e; split_and!; [lia|done|done]|].
           exists (S k), y. split_and!; [lia|done|done].
    + destruct (Z.eqb_spec (er_guid e) guid) as [E|N].
      * left. split; [done|]. exists 0%nat, e. split_and!; [cbn; lia|done|done].
      * destruct (IH (i + 1) found) as [(H1 & k & y & H2 & H3 & H4) | (H1 & H2 & H3)].
        -- left. split; [done|]. exists (S k), y. split_and!; [lia|done|done].
        -- right. split_and!; [done| |destruct H3 as [[-> H3] | (k & y & H3 & H4 & H5)]; [left|right]].
           ++ intros [|k] y Hk; [by injection Hk as <-|by apply (H2 k)].
           ++ split; [done|]. intros [|k] y Hk; [by injection Hk as <-|by apply (H3 k)].
           ++ exists (S k), y. split_and!; [lia|done|done].
Qed.

Lemma remove_timed_out_spec counter es :
  let r := remove_timed_out counter es in
  (r = (es, false) /\ forall k e, es !! k = Some e -> er_guid e <> 0 -> counter <= er_timeout e) \/
  (r.2 = true /\ exists k e, es !! k = Some e /\ er_guid e <> 0 /\ er_timeout e < counter /\
     r.1 = alter (upd_er_guid (fun _ => 0)) k es).
Proof.
  induction es as [|e es IH]; cbn [remove_timed_out]; [left; by split|].
  destruct (Z.eqb_spec (er_guid e) 0) as [E0|N0], (Z.ltb_spec (er_timeout e) counter) as [Hlt|Hge]; cbn [orb negb];
    [..|right; split; [done|]; exists 0%nat, e; by split_and!|];
    destruct (remove_timed_out counter es) as [es' lost]; cbn in IH;
    (destruct IH as [[[= -> ->] H] | (-> & k & y & H1 & H2 & H3 & ->)];
     [left; split; [done|]; intros [|k] y Hk Hy; [injection Hk as <-; done || lia|by apply (H k)]
     |right; split; [done|]; exists (S k), y; by split_and!]).
Qed.

(** * The operations refine the map *)

Section Database.
Context `{acfg : AcmpConfig} `{ecfg : AecpConfig} `{pcfg : AdpConfig}.

(** The type of the state. *)
Record adp_ok (s : adp) : Prop := {
  ok_entities : length (adp_entities s) = AVB_1722_1_MAX_ENTITIES;
  ok_unique : unique_entities (adp_entities s);
}.

Abbreviation db s := (db_map (adp_entities s)).

(** An entity advertises itself. *)
Definition map_add (e : avb_1722_1_entity_record) (m : gmap Z avb_1722_1_entity_record) : gmap Z avb_1722_1_entity_record :=
  if decide (is_Some (m !! er_guid e) \/ (size m < AVB_1722_1_MAX_ENTITIES)%nat) then <[er_guid e := e]> m else m.

(** An available packet, and a departing one. *)
Record adp_message (mt : Z) (pkt : list Z) : Prop := {
  am_length : (adp_packet_size <= length pkt)%nat;
  am_type : GET_1722_1_MSG_TYPE pkt = mt;
}.

Lemma database_add_run pkt s :
  adp_ok s -> guid_at off_entity_guid pkt <> 0 ->
  let e := entity_of pkt (adp_two_second_counter s) in
  exists added s', avb_1722_1_entity_database_add pkt s = Some (added, s') /\ adp_ok s' /\ db s' = map_add e (db s) /\
    added = bool_decide (db s !! er_guid e = None /\ (size (db s) < AVB_1722_1_MAX_ENTITIES)%nat) /\
    adp_advertise_state s' = adp_advertise_state s /\ adp_out s' = adp_out s /\
    (added = true -> 0 <= adp_latest_entity_added_index s' /\
      adp_entities s' !! Z.to_nat (adp_latest_entity_added_index s') = Some e).
Proof.
  intros [Hl Hu] Hg e. set (g := guid_at off_entity_guid pkt) in *. assert (er_guid e = g) as Eg by done.
  unfold avb_1722_1_entity_database_add. erewrite M_bind_run by reflexivity. fold g.
  pose proof (database_slot_spec 0 g (adp_entities s) (-1) Hg) as Hslot. destruct (database_slot _ _ _ _) as [slot update].
  cbn [fst snd] in Hslot. unfold map_add. rewrite Eg, <- Hl.
  destruct Hslot as [(-> & k & e0 & -> & Hk & He0) | (-> & Hno & [[-> Hfull] | (k & e0 & -> & Hk & He0)])].
  - rewrite Z.add_0_l. destruct (Z.eqb_spec (Z.of_nat k) (-1)); [lia|]. rewrite Nat2Z.id. fold e.
    destruct (db_map_insert (adp_entities s) k e0 e Hu Hk) as [Hu' Hm]; [done|left; congruence| |].
    { intros j e' Hj E. symmetry. apply (Hu k j e0 e'); [done|done|congruence|congruence]. }
    assert (is_Some (db s !! g)) as Hin by (exists e0; apply db_map_Some; [done..|split; [done|by exists k]]).
    eexists _, _. split_and!; [by erewrite M_bind_run by reflexivity| | | |done|done|done].
    + constructor; [cbn; by rewrite length_insert|exact Hu'].
    + cbn [adp_entities upd_adp_entities]. rewrite Hm, Eg, decide_True by (by left). done.
    + symmetry. apply bool_decide_false. intros [E _]. rewrite E in Hin. by destruct Hin.
  - exists false, s. split_and!; [done|by constructor| | |done|done|done].
    + rewrite decide_False; [done|]. intros [[e1 H1] | Hlt].
      * apply db_map_in in H1 as (_ & H1 & k & Hk). by destruct (Hno k e1 Hk).
      * apply db_map_full in Hlt as (k & e1 & Hk & H1); [|done]. by destruct (Hfull k e1 Hk).
    + symmetry. apply bool_decide_false. intros [_ Hlt]. apply db_map_full in Hlt as (k & e1 & Hk & H1); [|done].
      by destruct (Hfull k e1 Hk).
  - rewrite Z.add_0_l. destruct (Z.eqb_spec (Z.of_nat k) (-1)); [lia|]. rewrite Nat2Z.id. fold e.
    destruct (db_map_insert (adp_entities s) k e0 e Hu Hk) as [Hu' Hm]; [done|by right| |].
    { intros j e' Hj E. by destruct (Hno j e' Hj). }
    assert (size (db s) < length (adp_entities s))%nat as Hlt by (apply db_map_full; [done|by exists k, e0]).
    assert (db s !! g = None) as Hnone by (by apply db_map_None).
    eexists _, _. split_and!; [by erewrite M_bind_run by reflexivity; cbn; erewrite M_bind_run by reflexivity| | | |done|done|].
    + constructor; [cbn; by rewrite length_insert|exact Hu'].
    + cbn [adp_entities upd_adp_entities upd_adp_latest_entity_added_index]. rewrite Hm, Eg, decide_True by (by right). done.
    + symmetry. by apply bool_decide_true.
    + intros _. cbn [adp_latest_entity_added_index adp_entities upd_adp_entities upd_adp_latest_entity_added_index].
      split; [lia|]. rewrite Nat2Z.id. apply list_lookup_insert_eq. by apply lookup_lt_Some in Hk.
Qed.

Lemma database_remove_run pkt s :
  adp_ok s ->
  exists s', avb_1722_1_entity_database_remove pkt s = Some (tt, s') /\ adp_ok s' /\
    db s' = delete (guid_at off_entity_guid pkt) (db s) /\ adp_advertise_state s' = adp_advertise_state s /\ adp_out s' = adp_out s.
Proof.
  intros [Hl Hu]. set (g := guid_at off_entity_guid pkt). unfold avb_1722_1_entity_database_remove.
  erewrite M_bind_run by reflexivity. fold g. rewrite <- Hl.
  destruct (database_index_spec g (adp_entities s)) as [(k & e & -> & Hk & He) | [-> Hno]].
  - apply lookup_lt_Some in Hk as Hlt. destruct (Z.eqb_spec (Z.of_nat k) (Z.of_nat (length (adp_entities s)))); [lia|].
    rewrite Nat2Z.id. destruct (db_map_clear _ k e Hu Hk) as [Hu' Hm]. rewrite He in Hm.
    eexists. split_and!; [done|constructor; [cbn; by rewrite length_alter|exact Hu']|exact Hm|done|done].
  - rewrite Z.eqb_refl. exists s. split_and!; [done|by constructor| |done|done]. symmetry. apply delete_id.
    destruct (decide (g = 0)) as [->|]; [apply db_map_zero|]. by apply db_map_None.
Qed.
End Database.

(** * Packets *)

Lemma word_at_front v post : word_at 0 (hton_32 v ++ post) = ntoh_32 (hton_32 v !!! 0%nat) (hton_32 v !!! 1%nat) (hton_32 v !!! 2%nat) (hton_32 v !!! 3%nat).
Proof. done. Qed.

Lemma word_front v post : u32 (word_at 0 (hton_32 v ++ post)) = u32 v.
Proof. rewrite word_at_front. destruct (ntoh_hton_32 v) as (x0 & x1 & x2 & x3 & -> & H). exact H. Qed.

Lemma word_at_skip n off x l : length x = n -> word_at (n + off) (x ++ l) = word_at off l.
Proof.
  intros Hx. unfold word_at. rewrite !lookup_total_app_r by lia. repeat f_equal; lia.
Qed.

Lemma short_front v post : short_at 0 (hton_16 v ++ post) = u16 v.
Proof.
  assert (hton_16 v = hton_16 (u16 v)) as -> by (unfold hton_16; by rewrite (u16_small (u16 v)) by apply u16_range).
  apply short_at_front, u16_range.
Qed.

(** Steps over the fields in front of the one wanted. *)
Ltac adp_length x :=
  lazymatch x with set_64 _ => constr:(8%nat) | take 8 _ => constr:(8%nat) | hton_16 _ => constr:(2%nat) | hton_32 _ => constr:(4%nat)
  | replicate ?n _ => constr:(n) | [_; _; _; _; _; _; _; _] => constr:(8%nat) | [_] => constr:(1%nat) | [_; _; _; _] => constr:(4%nat) end.
Ltac adp_skip f off x l :=
  let n := adp_length x in
  let o := eval vm_compute in (off - n)%nat in
  change (f off (x ++ l)) with (f (n + o)%nat (x ++ l)).
Ltac adp_field :=
  lazymatch goal with
  | |- guid_at 0 _ = _ => first [by apply guid_at_front | done]
  | |- short_at 0 _ = _ => by apply short_front
  | |- u32 (word_at 0 _) = _ => by apply word_front
  | |- guid_at ?off (?x ++ ?l) = _ => adp_skip guid_at off x l; rewrite guid_at_skip by done; adp_field
  | |- short_at ?off (?x ++ ?l) = _ => adp_skip short_at off x l; rewrite short_at_skip by done; adp_field
  | |- u32 (word_at ?off (?x ++ ?l)) = _ => adp_skip word_at off x l; rewrite word_at_skip by done; adp_field
  end.

(** What a device says of itself, as another one records it. *)
Section Advertise.
Context (acfg : AcmpConfig) (ecfg : AecpConfig) (pcfg : AdpConfig).

Record adp_config_ok : Prop := {
  ac_guid : 0 < my_guid < 2 ^ 64;
  ac_mac : length my_mac_addr = 6%nat;
  ac_valid_time : 0 <= AVB_1722_1_ADP_VALID_TIME < 32;
}.

Definition own_entity (available_index : Z) (grandmaster : list Z) (two_second_counter : Z) : avb_1722_1_entity_record := {|
  er_guid := my_guid;
  er_vendor_id := u32 AVB_1722_1_ADP_VENDOR_ID;
  er_entity_model_id := u32 AVB_1722_1_ADP_MODEL_ID;
  er_capabilities := u32 AVB_1722_1_ADP_ENTITY_CAPABILITIES;
  er_talker_stream_sources := u16 AVB_1722_1_ADP_TALKER_STREAM_SOURCES;
  er_talker_capabilities := u16 AVB_1722_1_ADP_TALKER_CAPABILITIES;
  er_listener_stream_sinks := u16 AVB_1722_1_ADP_LISTENER_STREAM_SINKS;
  er_listener_capabilities := u16 AVB_1722_1_ADP_LISTENER_CAPABILITIES;
  er_controller_capabilities := u32 AVB_1722_1_ADP_CONTROLLER_CAPABILITIES;
  er_available_index := u32 available_index;
  er_gptp_grandmaster_id := guid_of_c (get_64 grandmaster);
  er_gptp_domain_number := 0;
  er_identify_control_index := u16 (if AVB_1722_1_AEM_ENABLED then adp_identify_control_index else 0);
  er_association_id := u32 AVB_1722_1_ADP_ASSOCIATION_ID;
  er_timeout := u32 (AVB_1722_1_ADP_VALID_TIME + two_second_counter);
|}.

Lemma adp_valid_time v : 0 <= v < 32 -> Z.shiftr (Z.land (SET_BITS (SET_BITS 0 3 7 (u8 v)) 0 2 (Z.shiftr AVB_1722_1_ADP_CD_LENGTH 8)) 0xf8) 3 = v.
Proof.
  intros Hv. apply Z.eqb_eq.
  refine (byte_cases 32 (fun _ v => Z.shiftr (Z.land (SET_BITS (SET_BITS 0 3 7 (u8 v)) 0 2 (Z.shiftr AVB_1722_1_ADP_CD_LENGTH 8)) 0xf8) 3 =? v) 0 v _ _ Hv); by vm_compute.
Qed.

Lemma adp_body_length mt index gm :
  length gm = 8%nat -> length (if mt =? ENTITY_DISCOVER then replicate 56 0 else adp_fields index gm) = 56%nat.
Proof. intros Hg. destruct (_ =? _); [done|]. unfold adp_fields. by rewrite !length_app, length_take, Hg. Qed.

(** The frame's parts. *)
Lemma adp_frame_eq mt index gm buf :
  adp_config_ok -> (ethernet_hdr_size + adp_packet_size <= length buf)%nat -> length gm = 8%nat ->
  let f := adp_frame mt my_guid index gm buf in
  exists b2, take (ethernet_hdr_size + adp_packet_size) f =
    avb_1722_1_adp_dest_addr ++ my_mac_addr ++ [0x22; 0xf0] ++
    [0xfa; SET_BITS 0 0 3 mt; b2; 56] ++ set_64 (guid_c my_guid) ++
    (if mt =? ENTITY_DISCOVER then replicate 56 0 else adp_fields index gm) /\
    b2 = SET_BITS (SET_BITS 0 3 7 (u8 (if mt =? ENTITY_AVAILABLE then AVB_1722_1_ADP_VALID_TIME else 0))) 0 2 (Z.shiftr AVB_1722_1_ADP_CD_LENGTH 8) /\
    length f = length buf.
Proof.
  intros [_ Hm _] Hb Hg f. eexists. split; [|split; [reflexivity|]].
  - unfold f, adp_frame, avb_1722_1_create_1722_1_header. cbv zeta.
    set (body := if mt =? ENTITY_DISCOVER then _ else _).
    pose proof (adp_body_length mt index gm Hg : length body = 56%nat) as Hbody.
    rewrite !lookup_total_app_r, length_take by (rewrite length_take; unfold ethernet_hdr_size; lia).
    rewrite (Nat.min_l ethernet_hdr_size) by (unfold ethernet_hdr_size, adp_packet_size in *; lia).
    rewrite (take_ge my_mac_addr) by lia.
    rewrite !app_assoc. rewrite take_app_length' by (rewrite !length_app, Hm, Hbody; done). by rewrite <- !app_assoc.
  - unfold f, adp_frame, avb_1722_1_create_1722_1_header, ethernet_hdr_size, adp_packet_size in *.
    rewrite !length_app, !length_take, Hm, length_drop.
    rewrite adp_body_length by done. cbn. lia.
Qed.

(** The frame without its Ethernet header, as the dispatch hands it over. *)
Definition adp_payload (frame : list Z) : list Z := drop ethernet_hdr_size frame.

Lemma adp_payload_message mt index gm buf :
  adp_config_ok -> (ethernet_hdr_size + adp_packet_size <= length buf)%nat -> length gm = 8%nat -> 0 <= mt < 16 ->
  let p := adp_payload (take (ethernet_hdr_size + adp_packet_size) (adp_frame mt my_guid index gm buf)) in
  adp_message mt p /\ guid_at off_entity_guid p = my_guid /\
  (mt = ENTITY_AVAILABLE -> forall c, entity_of p c = own_entity index gm c).
Proof.
  intros Hok Hb Hg Hmt p. destruct (adp_frame_eq mt index gm buf Hok Hb Hg) as (b2 & E & E2 & _).
  pose proof (adp_body_length mt index gm Hg) as Hbody. destruct Hok as [Hguid Hm Hv].
  assert (p = [0xfa; SET_BITS 0 0 3 mt; b2; 56] ++ set_64 (guid_c my_guid) ++
    (if mt =? ENTITY_DISCOVER then replicate 56 0 else adp_fields index gm)) as ->.
  { unfold p, adp_payload. rewrite E. rewrite (app_assoc avb_1722_1_adp_dest_addr), (app_assoc (_ ++ _)).
    apply drop_app_length'. by rewrite !length_app, Hm. }
  split_and!.
  - constructor; [|by apply set_message_type]. rewrite !length_app, Hbody. unfold adp_packet_size. cbn. lia.
  - unfold off_entity_guid. assert (0 <= my_guid < 2 ^ 64) by lia. adp_field.
  - intros -> c. change (ENTITY_AVAILABLE =? ENTITY_DISCOVER) with false. cbv iota. assert (0 <= my_guid < 2 ^ 64) by lia.
    unfold entity_of, own_entity, adp_fields. f_equal.
    all: unfold off_entity_guid, off_vendor_id, off_entity_model_id, off_entity_capabilities, off_talker_stream_sources,
      off_talker_capabilities, off_listener_stream_sinks, off_listener_capabilities, off_controller_capabilities,
      off_available_index, off_gptp_grandmaster_id, off_gptp_domain_number, off_identify_control_index, off_association_id.
    all: rewrite ?(take_ge gm) by lia; clear E Hbody; destruct_len gm Hg; try adp_field; try done.
    unfold GET_1722_1_VALID_TIME. cbn [app lookup_total list_lookup_total]. rewrite E2. by rewrite adp_valid_time.
Qed.
End Advertise.

Section Process.
Context (acfg : AcmpConfig) (ecfg : AecpConfig) (pcfg : AdpConfig).
Abbreviation db s := (db_map (adp_entities s)).

(** What a packet does to the map. *)
Definition map_step (counter : Z) (pkt : list Z) (m : gmap Z avb_1722_1_entity_record) : gmap Z avb_1722_1_entity_record :=
  if GET_1722_1_MSG_TYPE pkt =? ENTITY_AVAILABLE then map_add (entity_of pkt counter) m
  else if GET_1722_1_MSG_TYPE pkt =? ENTITY_DEPARTING then delete (guid_at off_entity_guid pkt) m
  else m.

Lemma process_available_run pkt s :
  adp_ok s -> adp_message ENTITY_AVAILABLE pkt -> guid_at off_entity_guid pkt <> 0 ->
  let e := entity_of pkt (adp_two_second_counter s) in
  exists s', process_avb_1722_1_adp_packet pkt s = Some (tt, s') /\ adp_ok s' /\ db s' = map_add e (db s) /\
    adp_two_second_counter s' = adp_two_second_counter s /\ adp_out s' = adp_out s /\
    (db s !! er_guid e = None -> (size (db s) < AVB_1722_1_MAX_ENTITIES)%nat ->
     adp_discovery_state s' = ADP_DISCOVERY_ADDED /\ 0 <= adp_latest_entity_added_index s' /\
     adp_entities s' !! Z.to_nat (adp_latest_entity_added_index s') = Some e).
Proof.
  intros Hok [Hl Ht] Hg e. destruct (database_add_run pkt s Hok Hg) as (added & s1 & E & Hok1 & Hm & Hadd & _ & Ho & Hnew).
  fold e in Hm, Hadd, Hnew.
  assert (adp_two_second_counter s1 = adp_two_second_counter s) as Hc.
  { revert E. unfold avb_1722_1_entity_database_add. erewrite M_bind_run by reflexivity. destruct (database_slot _ _ _ _) as [slot []];
      destruct (slot =? -1); by intros [= _ <-]. }
  exists (if added then upd_adp_discovery_state (fun _ => ADP_DISCOVERY_ADDED) s1 else s1). split_and!.
  - unfold process_avb_1722_1_adp_packet. destruct (Nat.ltb_spec (length pkt) adp_packet_size); [lia|]. rewrite Ht.
    cbn [Z.eqb ENTITY_DISCOVER ENTITY_AVAILABLE]. rewrite (M_bind_run _ _ _ _ _ E). by destruct added.
  - destruct added; [|done]. destruct Hok1. by constructor.
  - by destruct added.
  - by destruct added.
  - by destruct added.
  - intros Hn Hlt. assert (added = true) as -> by (rewrite Hadd; by apply bool_decide_true). by destruct (Hnew eq_refl).
Qed.

Lemma process_departing_run pkt s :
  adp_ok s -> adp_message ENTITY_DEPARTING pkt ->
  exists s', process_avb_1722_1_adp_packet pkt s = Some (tt, s') /\ adp_ok s' /\
    db s' = delete (guid_at off_entity_guid pkt) (db s) /\ adp_two_second_counter s' = adp_two_second_counter s.
Proof.
  intros Hok [Hl Ht]. destruct (database_remove_run pkt s Hok) as (s1 & E & Hok1 & Hm & _).
  assert (adp_two_second_counter s1 = adp_two_second_counter s) as Hc.
  { revert E. unfold avb_1722_1_entity_database_remove. erewrite M_bind_run by reflexivity. destruct (negb _); by intros [= <-]. }
  exists (upd_adp_discovery_state (fun _ => ADP_DISCOVERY_REMOVED) s1). split_and!; try done.
  - unfold process_avb_1722_1_adp_packet. destruct (Nat.ltb_spec (length pkt) adp_packet_size); [lia|]. rewrite Ht.
    cbn [Z.eqb ENTITY_DISCOVER ENTITY_AVAILABLE ENTITY_DEPARTING Pos.eqb]. by rewrite (M_bind_run _ _ _ _ _ E).
  - destruct Hok1. by constructor.
Qed.

Lemma process_run pkt s :
  adp_ok s -> (adp_packet_size <= length pkt)%nat -> guid_at off_entity_guid pkt <> 0 ->
  exists s', process_avb_1722_1_adp_packet pkt s = Some (tt, s') /\ adp_ok s' /\
    db s' = map_step (adp_two_second_counter s) pkt (db s) /\ adp_two_second_counter s' = adp_two_second_counter s.
Proof.
  intros Hok Hl Hg. unfold map_step. destruct (Z.eqb_spec (GET_1722_1_MSG_TYPE pkt) ENTITY_AVAILABLE) as [E0|N0].
  { destruct (process_available_run pkt s Hok (Build_adp_message _ _ Hl E0) Hg) as (s' & E & H1 & H2 & H3 & _). by exists s'. }
  destruct (Z.eqb_spec (GET_1722_1_MSG_TYPE pkt) ENTITY_DEPARTING) as [E1|N1].
  { destruct (process_departing_run pkt s Hok (Build_adp_message _ _ Hl E1)) as (s' & E & H1 & H2 & H3). by exists s'. }
  unfold process_avb_1722_1_adp_packet. destruct (Nat.ltb_spec (length pkt) adp_packet_size); [lia|].
  rewrite (proj2 (Z.eqb_neq _ _) N0), (proj2 (Z.eqb_neq _ _) N1). destruct (_ =? ENTITY_DISCOVER).
  - destruct (_ || _); [|by exists s]. eexists. split; [done|]. split; [destruct Hok; by constructor|done].
  - by exists s.
Qed.

(** C21: the database of entities implements a finite map of bounded size: under any
    sequence of packets with non-zero identifiers an available packet sets its entity's
    record, unless the entity is new and the map full, a departing packet deletes its
    entity, and no other packet changes the map; no packet makes the handler fail, and no
    entity ever has two entries. *)
Theorem database_refines_map pkts s :
  adp_ok s -> Forall (fun pkt => (adp_packet_size <= length pkt)%nat /\ guid_at off_entity_guid pkt <> 0) pkts ->
  exists s', forM pkts process_avb_1722_1_adp_packet s = Some (tt, s') /\ adp_ok s' /\
    db_map (adp_entities s') = foldl (fun m pkt => map_step (adp_two_second_counter s) pkt m) (db_map (adp_entities s)) pkts.
Proof.
  intros Hok HF. revert s Hok. induction HF as [|pkt pkts [Hl Hg] _ IH]; intros s Hok; [by exists s|].
  destruct (process_run pkt s Hok Hl Hg) as (s1 & E & Hok1 & Hm & Hc). destruct (IH s1 Hok1) as (s' & E' & Hok' & Hm').
  exists s'. cbn [forM foldl]. rewrite (M_bind_run _ _ _ _ _ E). split_and!; [done|done|]. by rewrite Hm', Hm, Hc.
Qed.
End Process.

(** * Two devices *)

Section Devices.
Context (acfg : AcmpConfig) (ecfg : AecpConfig) (pcfg : AdpConfig).

Lemma ptp_monitor_runs env s : exists s', adp_ptp_monitor env s = Some (tt, s') /\ adp_out s' = adp_out s.
Proof.
  unfold adp_ptp_monitor. erewrite M_bind_run by reflexivity. destruct (avb_timer_expired _ _) as [expired tmr].
  erewrite M_bind_run by reflexivity. destruct expired; cbn [whenM]; [|by eexists].
  erewrite M_bind_run by reflexivity. destruct (negb _); cbn [whenM].
  - unfold mbind at 1, M_bind at 1. erewrite M_bind_run by reflexivity. by eexists.
  - erewrite M_bind_run by reflexivity. by eexists.
Qed.

(** The frame a device sends about itself. *)
Definition own_frame (mt : Z) (s : adp) : list Z :=
  take (ethernet_hdr_size + adp_packet_size) (adp_frame mt my_guid (adp_available_index s) (adp_grandmaster_id s) (adp_buf s)).

Lemma advertise_run env s :
  adp_advertise_state s = ADP_ADVERTISE_ADVERTISE_1 \/ adp_advertise_state s = ADP_ADVERTISE_DEPARTING ->
  let mt := if bool_decide (adp_advertise_state s = ADP_ADVERTISE_ADVERTISE_1) then ENTITY_AVAILABLE else ENTITY_DEPARTING in
  exists s', avb_1722_1_adp_advertising_periodic env s = Some (tt, s') /\ adp_out s' = adp_out s ++ [AdpTx (own_frame mt s)].
Proof.
  intros Hst mt. unfold avb_1722_1_adp_advertising_periodic.
  destruct Hst as [Hst|Hst]; unfold mt; rewrite Hst.
  - erewrite M_bind_run by (unfold adp_advertise_switch; erewrite M_bind_run by reflexivity; rewrite Hst;
      unfold adp_advertise_1; erewrite M_bind_run by reflexivity; by erewrite M_bind_run by reflexivity).
    erewrite M_bind_run by reflexivity. cbn [adp_advertise_state upd_adp_available_index upd_adp_advertise_state].
    rewrite bool_decide_false by done. cbn [negb whenM]. edestruct ptp_monitor_runs as (s' & E & Ho). exists s'. split; [exact E|]. by rewrite Ho.
  - erewrite M_bind_run by (unfold adp_advertise_switch; erewrite M_bind_run by reflexivity; rewrite Hst;
      unfold adp_depart_now; erewrite M_bind_run by reflexivity; by erewrite M_bind_run by reflexivity).
    erewrite M_bind_run by reflexivity. cbn [adp_advertise_state upd_adp_available_index upd_adp_advertise_state].
    rewrite bool_decide_true by done. by eexists.
Qed.
End Devices.

(** The state of a device that advertises itself. *)
Record adp_ready (s : adp) : Prop := {
  rd_buf : (ethernet_hdr_size + adp_packet_size <= length (adp_buf s))%nat;
  rd_grandmaster : length (adp_grandmaster_id s) = 8%nat;
}.

Lemma added_reported (aB : AcmpConfig) (eB : AecpConfig) (pB : AdpConfig) now e t :
  AVB_ENABLE_1722_1 = true -> adp_discovery_state t = ADP_DISCOVERY_ADDED -> 0 <= adp_latest_entity_added_index t ->
  adp_entities t !! Z.to_nat (adp_latest_entity_added_index t) = Some e ->
  exists t', avb_1722_1_adp_discovery_periodic now t = Some (tt, t') /\ adp_out t' = adp_out t ++ [NewEntityAvailable e] /\
    adp_entities t' = adp_entities t /\ adp_discovery_state t' = ADP_DISCOVERY_WAITING.
Proof.
  intros Hen Hst Hi He. unfold avb_1722_1_adp_discovery_periodic. erewrite M_bind_run by reflexivity. rewrite Hst, Hen. cbn [whenM].
  assert (load (fun s => if adp_latest_entity_added_index s <? 0 then None
    else adp_entities s !! Z.to_nat (adp_latest_entity_added_index s)) t = Some (e, t)) as El.
  { unfold load. destruct (Z.ltb_spec (adp_latest_entity_added_index t) 0); [lia|]. by rewrite He. }
  erewrite M_bind_run by (by erewrite M_bind_run by exact El). by eexists.
Qed.

(** A device that waits tells its application nothing, however long. *)
Lemma waiting_polls_quiet (aB : AcmpConfig) (eB : AecpConfig) (pB : AdpConfig) ts t :
  adp_discovery_state t = ADP_DISCOVERY_WAITING ->
  exists t', forM ts avb_1722_1_adp_discovery_periodic t = Some (tt, t') /\ adp_out t' = adp_out t.
Proof.
  revert t. induction ts as [|now ts IH]; intros t Hst; [by exists t|].
  assert (exists t1, avb_1722_1_adp_discovery_periodic now t = Some (tt, t1) /\ adp_out t1 = adp_out t /\
    adp_discovery_state t1 = ADP_DISCOVERY_WAITING) as (t1 & E1 & Ho1 & Hst1).
  { unfold avb_1722_1_adp_discovery_periodic. erewrite M_bind_run by reflexivity. rewrite Hst.
    erewrite M_bind_run by reflexivity. destruct (avb_timer_expired _ _) as [[] tmr].
    - unfold avb_1722_1_entity_database_check_timeout. cbn [whenM].
      do 2 (erewrite M_bind_run by reflexivity). set (t2 := upd_adp_two_second_counter _ _).
      destruct (remove_timed_out (adp_two_second_counter t2) (adp_entities t2)) as [es lost] eqn:Er.
      erewrite M_bind_run by (erewrite M_bind_run by reflexivity; rewrite Er; by erewrite M_bind_run by reflexivity).
      eexists. split; [reflexivity|]. unfold t2. by destruct t.
    - eexists. split; [reflexivity|]. by destruct t. }
  destruct (IH t1 Hst1) as (t' & E & Ho). exists t'. cbn [forM]. erewrite M_bind_run by exact E1. by rewrite Ho.
Qed.

(** C22: a device that advertises itself is known to the others. The frame device A sends
    when it advertises itself makes device B record, under A's identifier, what A said of
    itself and how long it is valid, if B knew A or has room for it, and changes nothing
    else in B's database; if A is new to B, and B has room for it, B's next look at its discovery
    state, if no other packet comes before it, tells its application, and no later look does
    again. The frame A sends when it departs makes B forget A, and only A. *)
Theorem advertised_entity_is_known (aA aB : AcmpConfig) (eA eB : AecpConfig) (pA pB : AdpConfig) env now s t :
  adp_config_ok aA pA -> adp_ready s -> adp_ok (pcfg := pB) t -> @AVB_ENABLE_1722_1 pB = true ->
  let A := @my_guid aA in
  let own := own_entity aA eA pA (adp_available_index s) (adp_grandmaster_id s) (adp_two_second_counter t) in
  (adp_advertise_state s = ADP_ADVERTISE_ADVERTISE_1 ->
   exists f s' t', @avb_1722_1_adp_advertising_periodic aA eA pA env s = Some (tt, s') /\ adp_out s' = adp_out s ++ [AdpTx f] /\
     @process_avb_1722_1_adp_packet aB pB (adp_payload f) t = Some (tt, t') /\ adp_ok (pcfg := pB) t' /\
     let known := db_map (adp_entities t) !! A in
     let room := (size (db_map (adp_entities t)) < @AVB_1722_1_MAX_ENTITIES pB)%nat in
     (is_Some known \/ room -> db_map (adp_entities t') = <[A := own]> (db_map (adp_entities t))) /\
     (known = None -> ~ room -> db_map (adp_entities t') = db_map (adp_entities t)) /\
     (known = None -> room -> exists t'', @avb_1722_1_adp_discovery_periodic aB eB pB now t' = Some (tt, t'') /\
        adp_out t'' = adp_out t ++ [NewEntityAvailable own] /\ adp_entities t'' = adp_entities t' /\
        forall later, exists t3, forM later (@avb_1722_1_adp_discovery_periodic aB eB pB) t'' = Some (tt, t3) /\
          adp_out t3 = adp_out t'')) /\
  (adp_advertise_state s = ADP_ADVERTISE_DEPARTING ->
   exists g s' t', @avb_1722_1_adp_advertising_periodic aA eA pA env s = Some (tt, s') /\ adp_out s' = adp_out s ++ [AdpTx g] /\
     @process_avb_1722_1_adp_packet aB pB (adp_payload g) t = Some (tt, t') /\
     db_map (adp_entities t') = delete A (db_map (adp_entities t))).
Proof.
  intros HA [Hb Hg] Ht Hen A own. pose proof (ac_guid _ _ HA) as Hguid. split; intros Hst.
  - destruct (advertise_run aA eA pA env s (or_introl Hst)) as (s' & E & Ho). rewrite Hst, bool_decide_true in Ho by done.
    destruct (adp_payload_message aA eA pA ENTITY_AVAILABLE (adp_available_index s) (adp_grandmaster_id s) (adp_buf s) HA Hb Hg) as (Hm & Hid & He);
      [by split|]. fold (own_frame aA eA pA ENTITY_AVAILABLE s) in Hm, Hid, He. specialize (He eq_refl (adp_two_second_counter t)).
    destruct (process_available_run aB pB _ t Ht Hm) as (t' & E' & Hok' & Hdb & _ & Hot & Hnew); [rewrite Hid; lia|].
    rewrite He in Hdb, Hnew. fold own in Hdb, Hnew. unfold map_add in Hdb. change (er_guid own) with A in *.
    exists (own_frame aA eA pA ENTITY_AVAILABLE s), s', t'. do 4 (split; [done|]). intros known room. split_and!; unfold known.
    + intros Hk. by rewrite decide_True in Hdb by done.
    + intros Hk Hr. rewrite decide_False in Hdb; [done|]. intros [[x Hx]|]; [by rewrite Hk in Hx|done].
    + intros Hk Hr. destruct (Hnew Hk Hr) as (N1 & N2 & N3).
      destruct (added_reported aB eB pB now own t' Hen N1 N2 N3) as (t'' & E'' & Ho'' & Hes & Hw).
      exists t''. split_and!; [done|by rewrite Ho'', Hot|done|]. intros later. by apply waiting_polls_quiet.
  - destruct (advertise_run aA eA pA env s (or_intror Hst)) as (s' & E & Ho). rewrite Hst, bool_decide_false in Ho by done.
    destruct (adp_payload_message aA eA pA ENTITY_DEPARTING (adp_available_index s) (adp_grandmaster_id s) (adp_buf s) HA Hb Hg) as (Hm & Hid & _);
      [by split|]. fold (own_frame aA eA pA ENTITY_DEPARTING s) in Hm, Hid.
    destruct (process_departing_run aB pB _ t Ht Hm) as (t' & E' & _ & Hdb & _). rewrite Hid in Hdb.
    by exists (own_frame aA eA pA ENTITY_DEPARTING s), s', t'.
Qed.

(** * Samples *)

Definition sample_adp_config : AdpConfig := {|
  AVB_1722_1_MAX_ENTITIES := 4; AVB_1722_1_ADP_VALID_TIME := 10; AVB_1722_1_ADP_VENDOR_ID := 0x00229700;
  AVB_1722_1_ADP_MODEL_ID := 0x1234; AVB_1722_1_ADP_ENTITY_CAPABILITIES := 0x50b;
  AVB_1722_1_ADP_TALKER_STREAM_SOURCES := 1; AVB_1722_1_ADP_TALKER_CAPABILITIES := 0x4801;
  AVB_1722_1_ADP_LISTENER_STREAM_SINKS := 1; AVB_1722_1_ADP_LISTENER_CAPABILITIES := 0x4001;
  AVB_1722_1_ADP_CONTROLLER_CAPABILITIES := 1; AVB_1722_1_ADP_ASSOCIATION_ID := 0;
  adp_identify_control_index := 0; AVB_ENABLE_1722_1 := true;
|}.

Definition no_entity : avb_1722_1_entity_record := MkEntity 0 0 0 0 0 0 0 0 0 0 0 0 0 0 0.
Definition sample_adp (st : adp_advertise_state_t) : adp :=
  MkAdp st ADP_DISCOVERY_WAITING 0 0 (replicate 8 0) zero_timer zero_timer zero_timer 0 (replicate 4 no_entity) (-1) (replicate 552 0) [].

Lemma sample_adp_ok st : adp_ok (pcfg := sample_adp_config) (sample_adp st).
Proof.
  constructor; [done|]. intros i j e e' Hi Hj _ Hn. cbn [adp_entities sample_adp] in Hi. apply lookup_replicate in Hi as [-> _]. done.
Qed.

(** An available packet of the device with an identifier. *)
Definition sample_advertisement (guid : Z) : list Z :=
  [0xfa; 0; 80; 56] ++ set_64 (guid_c guid) ++ replicate 56 0.

Lemma database_refines_map_witness :
  exists s', forM [sample_advertisement 7; sample_advertisement 8] (@process_avb_1722_1_adp_packet sample_acmp_config sample_adp_config) (sample_adp ADP_ADVERTISE_IDLE)
      = Some (tt, s') /\ (is_Some (db_map (adp_entities s') !! 7) /\ is_Some (db_map (adp_entities s') !! 8)).
Proof.
  destruct (database_refines_map sample_acmp_config sample_adp_config [sample_advertisement 7; sample_advertisement 8] (sample_adp ADP_ADVERTISE_IDLE))
    as (s' & E & _ & Hm); [apply sample_adp_ok| |].
  - repeat (apply list.Forall_cons; split; [split; [by apply Nat.leb_le; vm_compute|by vm_compute]|]). by apply list.Forall_nil.
  - exists s'. split; [exact E|]. rewrite Hm. split; by eexists; vm_compute.
Defined.

Lemma advertised_entity_is_known_witness :
  exists f s' t', @avb_1722_1_adp_advertising_periodic sample_acmp_config sample_aecp_config sample_adp_config (MkAdpEnv 0 (replicate 8 0) (replicate 8 0)) (sample_adp ADP_ADVERTISE_ADVERTISE_1) = Some (tt, s') /\
    @process_avb_1722_1_adp_packet sample_acmp_config sample_adp_config (adp_payload f) (sample_adp ADP_ADVERTISE_IDLE) = Some (tt, t') /\
    is_Some (db_map (adp_entities t') !! @my_guid sample_acmp_config).
Proof.
  destruct (advertised_entity_is_known sample_acmp_config sample_acmp_config sample_aecp_config sample_aecp_config sample_adp_config sample_adp_config
    (MkAdpEnv 0 (replicate 8 0) (replicate 8 0)) 0 (sample_adp ADP_ADVERTISE_ADVERTISE_1) (sample_adp ADP_ADVERTISE_IDLE)) as [Hadv _].
  - constructor; [by split|done|by split].
  - constructor; [by apply Nat.leb_le; vm_compute|done].
  - apply sample_adp_ok.
  - done.
  - destruct (Hadv eq_refl) as (f & s' & t' & E & _ & E' & _ & Hk & _). exists f, s', t'. split; [exact E|]. split; [exact E'|].
    rewrite Hk by (right; by apply Nat.ltb_lt; vm_compute). rewrite lookup_insert_eq. by eexists.
Defined.
