(* ===== verification/Control.v ===== *)
(** The control task of a device ([lib_tsn/src/1722_1/avb_1722_1.xc],
    [lib_tsn/src/avb/avb.xc], [lib_tsn/src/1722/maap/avb_1722_maap_app_hooks.xc],
    [lib_tsn/src/1722_1/avb_1722_1_app_hooks.xc]): discovery, enumeration, connection
    management and address allocation put together. They share a transmit buffer and
    the interface of the AVB manager, and act on each other through the default hooks. *)
From S2P Require Import Prelude Bytes MiscTimer MrpTypes AvbApi AppHooks AcmpTypes Acmp AecpTypes AecpControls Aecp Maap Adp.
From stdpp Require Import base list list_numbers numbers option.
From Stdlib Require Import ZArith Lia.
#[local] Open Scope Z_scope.

(** * State *)

Class ControlConfig : Type := {
  NUM_ETHERNET_PORTS : nat;
  AVB_1722_1_CONTROLLER_ENABLED : bool;
  AVB_1722_1_TALKER_ENABLED : bool;
  AVB_1722_1_LISTENER_ENABLED : bool;
}.

Inductive control_event : Type :=
| Tx (frame : list Z)
| Rebooting.

(** The components' variables. The shared buffer [avb_1722_1_buf] is [ct_buf]: it takes the
    place of the components' own ones when they run. [St] holds the AVB manager, the
    application and the flash memory; it is the device of AECP. *)
Record control (St : Type) : Type := MkControl {
  ct_acmp : acmp;
  ct_adp : adp;
  ct_aecp : aecp St;
  ct_maap : maap;
  ct_buf : list Z;
  ct_out : list control_event;  (* oldest first *)
}.
Arguments MkControl {St}.
Arguments ct_acmp {St}.
Arguments ct_adp {St}.
Arguments ct_aecp {St}.
Arguments ct_maap {St}.
Arguments ct_buf {St}.
Arguments ct_out {St}.

Definition upd_ct_acmp {St} (g : acmp -> acmp) (c : control St) : control St :=
  MkControl (g (ct_acmp c)) (ct_adp c) (ct_aecp c) (ct_maap c) (ct_buf c) (ct_out c).
Definition upd_ct_adp {St} (g : adp -> adp) (c : control St) : control St :=
  MkControl (ct_acmp c) (g (ct_adp c)) (ct_aecp c) (ct_maap c) (ct_buf c) (ct_out c).
Definition upd_ct_aecp {St} (g : aecp St -> aecp St) (c : control St) : control St :=
  MkControl (ct_acmp c) (ct_adp c) (g (ct_aecp c)) (ct_maap c) (ct_buf c) (ct_out c).
Definition upd_ct_maap {St} (g : maap -> maap) (c : control St) : control St :=
  MkControl (ct_acmp c) (ct_adp c) (ct_aecp c) (g (ct_maap c)) (ct_buf c) (ct_out c).
Definition upd_ct_buf {St} (g : list Z -> list Z) (c : control St) : control St :=
  MkControl (ct_acmp c) (ct_adp c) (ct_aecp c) (ct_maap c) (g (ct_buf c)) (ct_out c).
Definition upd_ct_out {St} (g : list control_event -> list control_event) (c : control St) : control St :=
  MkControl (ct_acmp c) (ct_adp c) (ct_aecp c) (ct_maap c) (ct_buf c) (g (ct_out c)).

(** The AVB manager behind its interface. *)
Definition ct_avb {St} (c : control St) : St := aecp_dev (ct_aecp c).

(** What a component has added to its outputs. *)
Definition new_events {Ev} (before after : list Ev) : list Ev := drop (length before) after.

(** What the polls read from outside, each from the clock in its turn, and what
    uninitialised variables hold. *)
Record control_env : Type := MkControlEnv {
  ce_adp : adp_env;
  ce_discovery_now : Z;
  ce_controller_now : Z;
  ce_talker_now : Z;
  ce_listener_now : Z;
  ce_aecp : aecp_env;
  ce_maap_now : Z;
  ce_maap_random : Z;
  ce_stack : Z;
}.

(** The same for a received packet. *)
Record packet_env : Type := MkPacketEnv {
  pe_aecp : aecp_env;
  pe_maap : maap_env;
  pe_base_addr : list Z;
}.

Section Control.
Context {St : Type} `{cfg : Config} `{acfg : AcmpConfig} `{ecfg : AecpConfig} `{pcfg : AdpConfig} `{mcfg : MaapConfig}
  `{kcfg : ControlConfig} `{avb : !avb_interface St} `{ctl : !control_callbacks St} `{fl : !flash_library St}.
Abbreviation CM := (M (control St)).

Definition emit_control (ev : control_event) : CM unit := modify (upd_ct_out (fun l => l ++ [ev])).

(** * The components within the task *)

(** The AVB manager's interface. *)
Definition on_avb {A} (m : M St A) : CM A := fun c =>
  match m (ct_avb c) with
  | Some (a, d) => Some (a, upd_ct_aecp (upd_aecp_dev (fun _ => d)) c)
  | None => None
  end.

(** A component runs with the shared buffer; its new outputs are taken up behind it.
    The hook for a new entity does nothing. *)
Definition on_adp {A} (m : M adp A) : CM A := fun c =>
  match m (upd_adp_buf (fun _ => ct_buf c) (ct_adp c)) with
  | None => None
  | Some (a, s) =>
      (_ ← modify (fun c => upd_ct_buf (fun _ => adp_buf s) (upd_ct_adp (fun _ => s) c));
       _ ← forM (new_events (adp_out (ct_adp c)) (adp_out s)) (fun ev =>
             match ev with AdpTx f => emit_control (Tx f) | NewEntityAvailable _ => skip end);
       mret a) c
  end.

(** The hooks of connection management. The identifier is handed over as two words. *)
Definition stream_words (stream_id : Z) : Z * Z := (u32 (Z.shiftr stream_id 32), u32 stream_id).

(** [avb_talker_on_listener_connect_default], as far as it acts on the AVB manager; the
    rest is done in [Acmp]. *)
Definition avb_talker_on_listener_connect_default (stack source_num : Z) : M St unit :=
  state ← get_source_state source_num;
  _ ← get_source_id source_num;
  whenM (default stack state =? 0) (_ ← set_source_state source_num AVB_SOURCE_STATE_POTENTIAL; skip).

Definition acmp_hook (stack : Z) (ev : acmp_event) : CM unit :=
  match ev with
  | AcmpTx f => emit_control (Tx f)
  | OnListenerConnect source _ => on_avb (avb_talker_on_listener_connect_default stack source)
  | OnListenerDisconnect source _ count => on_avb (avb_talker_on_listener_disconnect_default source count)
  | OnListenerConnectFailed _ _ _ => skip
  | OnTalkerConnect sink _ mac sid vlan =>
      _ ← on_avb (avb_listener_on_talker_connect_default sink mac (stream_words sid) vlan); skip
  | OnTalkerDisconnect sink _ _ _ => on_avb (avb_listener_on_talker_disconnect_default sink)
  end.

(** What the AVB manager answers while a function of connection management runs. The
    functions ask before they change anything. *)
Definition answer {A} (junk : A) (m : M St (option A)) (d : St) : A :=
  match m d with Some (Some a, _) => a | _ => junk end.
Definition acmp_env_of (now stack : Z) (d : St) : acmp_env := {|
  env_now := now;
  sink_state n := answer stack (get_sink_state n) d;
  source_state n := answer stack (get_source_state n) d;
  source_id n := answer (stack, stack) (get_source_id n) d;
  connect_status := ACMP_STATUS_SUCCESS;
|}.

Definition on_acmp {A} (stack : Z) (m : M acmp A) : CM A := fun c =>
  match m (upd_avb_1722_1_buf (fun _ => ct_buf c) (ct_acmp c)) with
  | None => None
  | Some (a, s) =>
      (_ ← modify (fun c => upd_ct_buf (fun _ => avb_1722_1_buf s) (upd_ct_acmp (fun _ => s) c));
       _ ← forM (new_events (acmp_out (ct_acmp c)) (acmp_out s)) (acmp_hook stack);
       mret a) c
  end.
Definition acmp_periodic (now stack : Z) (f : acmp_env -> M acmp unit) : CM unit :=
  d ← gets ct_avb; on_acmp stack (f (acmp_env_of now stack d)).

Definition on_aecp {A} (m : M (aecp St) A) : CM A := fun c =>
  match m (upd_aecp_buf (fun _ => ct_buf c) (ct_aecp c)) with
  | None => None
  | Some (a, s) =>
      (_ ← modify (fun c => upd_ct_buf (fun _ => aecp_buf s) (upd_ct_aecp (fun _ => s) c));
       _ ← forM (new_events (aecp_out (ct_aecp c)) (aecp_out s)) (fun ev =>
             match ev with
             | AecpTx f => emit_control (Tx f)
             | AdpDepartImmediately => on_adp avb_1722_1_adp_depart_immediately
             | DeviceReboot => emit_control Rebooting
             end);
       mret a) c
  end.

(** [acmp_talker_init] comes before [talker_set_mac_address]. *)
Definition avb_talker_on_source_address_reserved_default (source_num : Z) (mac_addr : list Z) : CM unit :=
  _ ← on_avb (set_source_dest source_num mac_addr);
  _ ← on_acmp 0 avb_1722_1_acmp_talker_init;
  _ ← on_acmp 0 (avb_1722_1_talker_set_mac_address source_num mac_addr);
  on_adp avb_1722_1_adp_announce.

Definition maap_hook (ev : maap_event) : CM unit :=
  match ev with
  | MaapTx f => emit_control (Tx f)
  | SourceAddressReserved i mac => avb_talker_on_source_address_reserved_default i mac
  end.
Definition on_maap {A} (m : M maap A) : CM A := fun c =>
  match m (ct_maap c) with
  | None => None
  | Some (a, s) =>
      (_ ← modify (upd_ct_maap (fun _ => s));
       _ ← forM (new_events (maap_out (ct_maap c)) (maap_out s)) maap_hook;
       mret a) c
  end.

(** * The task *)

(** [my_guid], as the initialisation makes it of the MAC address. *)
Definition entity_guid (macaddr : list Z) : Z :=
  guid_of_c [macaddr !!! 5%nat; macaddr !!! 4%nat; macaddr !!! 3%nat; 0xfe; 0xff;
             macaddr !!! 2%nat; macaddr !!! 1%nat; macaddr !!! 0%nat].

(** [my_mac_addr] and [my_guid] are constants of the model. *)
Definition avb_1722_1_init (now serial_num : Z) : CM unit :=
  _ ← on_adp (avb_1722_1_adp_init now);
  _ ← whenM AVB_1722_1_AEM_ENABLED (on_aecp (avb_1722_1_aecp_aem_init serial_num));
  _ ← whenM AVB_1722_1_CONTROLLER_ENABLED (on_acmp 0 (avb_1722_1_acmp_controller_init now));
  whenM AVB_1722_1_LISTENER_ENABLED (on_acmp 0 (avb_1722_1_acmp_listener_init now)).

(** The handlers' view of a packet is the rest of the buffer it is in. The result is the
    buffer afterwards: AECP answers some commands in place. *)
Definition avb_1722_1_process_packet (env : packet_env) (buf : list Z) (len : Z) (src_addr : list Z) : CM (list Z) :=
  let subtype := Z.land (buf !!! 0%nat) 0x7f in
  let datalen := GET_1722_1_DATALENGTH buf in
  if subtype =? DEFAULT_1722_1_ADP_SUBTYPE then
    _ ← whenM (datalen =? AVB_1722_1_ADP_CD_LENGTH) (on_adp (process_avb_1722_1_adp_packet buf)); mret buf
  else if subtype =? DEFAULT_1722_1_AECP_SUBTYPE then
    _ ← on_aecp (receive_aecp (pe_aecp env) src_addr len buf);
    gets (fun c => aecp_rx (ct_aecp c))
  else if subtype =? DEFAULT_1722_1_ACMP_SUBTYPE then
    _ ← whenM (datalen =? AVB_1722_1_ACMP_CD_LENGTH) (on_acmp 0 (process_avb_1722_1_acmp_packet buf)); mret buf
  else mret buf.

(** [ETH_IF_STATUS], when the link comes up. *)
Definition link_up (env : packet_env) : CM unit :=
  whenM (NUM_ETHERNET_PORTS =? 1)%nat
    ('(res, base_addr) ← on_maap (avb_1722_maap_get_base_address (pe_base_addr env));
     on_maap (avb_1722_maap_request_addresses (me_now (pe_maap env)) (me_random (pe_maap env)) (Z.of_nat AVB_NUM_SOURCES)
       (if res =? 0 then Some base_addr else None))).

(** The Ethernet header. *)
Definition has_qtag (buf0 : list Z) : bool := (buf0 !!! 13%nat) =? 0x18.
Definition eth_hdr_size (buf0 : list Z) : nat := if has_qtag buf0 then 18 else 14.
Definition etype (buf0 : list Z) : Z :=
  if has_qtag buf0 then Z.shiftl (buf0 !!! 16%nat) 8 + buf0 !!! 17%nat
  else Z.shiftl (buf0 !!! 12%nat) 8 + buf0 !!! 13%nat.

(** [ETH_DATA]: a frame of [nbytes] bytes at the front of the task's buffer. *)
Definition avb_process_1722_control_packet (env : packet_env) (buf0 : list Z) (nbytes : Z) : CM unit :=
  let len := nbytes - Z.of_nat (eth_hdr_size buf0) in
  let buf := drop (eth_hdr_size buf0) buf0 in
  let src_addr := bytes_at 6 6 buf0 in
  whenM (etype buf0 =? AVB_1722_ETHERTYPE)
    (buf ← (if AVB_ENABLE_1722_1 then avb_1722_1_process_packet env buf len src_addr else mret buf);
     whenM AVB_ENABLE_1722_MAAP (on_maap (avb_1722_maap_process_packet (pe_maap env) buf src_addr))).

Definition avb_1722_1_periodic (env : control_env) : CM unit :=
  _ ← on_adp (avb_1722_1_adp_advertising_periodic (ce_adp env));
  _ ← whenM AVB_1722_1_CONTROLLER_ENABLED
        (_ ← on_adp (avb_1722_1_adp_discovery_periodic (ce_discovery_now env));
         acmp_periodic (ce_controller_now env) (ce_stack env) avb_1722_1_acmp_controller_periodic);
  _ ← whenM AVB_1722_1_TALKER_ENABLED
        (acmp_periodic (ce_talker_now env) (ce_stack env) avb_1722_1_acmp_talker_periodic);
  _ ← whenM AVB_1722_1_LISTENER_ENABLED
        (acmp_periodic (ce_listener_now env) (ce_stack env) avb_1722_1_acmp_listener_periodic);
  on_aecp (avb_1722_1_aecp_aem_periodic (ce_aecp env)).

(** What the [select] of [avb_1722_1_maap_task] serves, and its initialisation. *)
Inductive control_input : Type :=
| LinkStatus (up : bool) (env : packet_env)
| ControlPacket (env : packet_env) (buf : list Z) (nbytes : Z)
| Tick (env : control_env).

Definition control_serve (i : control_input) : CM unit :=
  match i with
  | LinkStatus up env => whenM up (link_up env)
  | ControlPacket env buf nbytes => avb_process_1722_control_packet env buf nbytes
  | Tick env =>
      _ ← avb_1722_1_periodic env;
      on_maap (avb_1722_maap_periodic (ce_maap_now env) (ce_maap_random env))
  end.

Definition control_init (now serial random : Z) : CM unit :=
  _ ← avb_1722_1_init now serial;
  _ ← on_maap (avb_1722_maap_init my_mac_addr);
  whenM (1 <? NUM_ETHERNET_PORTS)%nat
    (on_maap (avb_1722_maap_request_addresses now random (Z.of_nat AVB_NUM_SOURCES) None)).
End Control.
