(* ===== verification/ControlSpec.v ===== *)
(** The control task: a frame reaches the one component it is for. *)
From S2P Require Import Prelude Bytes MiscTimer MrpTypes AvbApi AppHooks AcmpTypes Acmp AcmpSpec AcmpInv AcmpSafe AcmpReach AecpTypes AecpControls Aecp AecpRun Maap MaapSpec Adp AdpSpec Control.
From stdpp Require Import base list list_numbers numbers option.
From Stdlib Require Import ZArith Lia.
#[local] Open Scope Z_scope.

(** * Handlers on any packet *)

(** ** Address allocation *)

Definition range_ok (s : maap) : Prop := 0 <= maap_range (maap_addr s) < MAAP_ALLOCATION_POOL_SIZE.

(** What a handler does to the state: it stays in order, and frames are sent. *)
Record maap_step (s s' : maap) : Prop := {
  ms_ok : maap_ok s';
  ms_range : range_ok s';
  ms_out : exists frames, maap_out s' = maap_out s ++ (MaapTx <$> frames);
}.

Lemma maap_step_refl s : maap_ok s -> range_ok s -> maap_step s s.
Proof. intros H1 H2. constructor; [done|done|]. exists []. by rewrite app_nil_r. Qed.

Lemma maap_step_again now random s :
  maap_ok s -> range_ok s -> exists s', avb_1722_maap_request_addresses now random (-1) None s = Some (tt, s') /\ maap_step s s'.
Proof.
  intros [H1 H2 H3] Hr. destruct (random_base_range random (maap_addr s) H2 Hr) as (base & E & Hb & _).
  exists (probing now base s). split; [by apply request_again_run|]. constructor; [by constructor|done|].
  exists []. by rewrite app_nil_r.
Qed.

Lemma maap_frame_length mac mt src a req rc conf cc buf :
  length mac = 6%nat -> length src = 6%nat -> length req = 6%nat -> length conf = 6%nat -> length (maap_base a) = 6%nat ->
  length buf = MAX_AVB_1722_MAAP_PDU_SIZE ->
  length (maap_frame mac mt src a req rc conf cc buf) = MAX_AVB_1722_MAAP_PDU_SIZE.
Proof.
  intros H1 H2 H3 H4 H5 H6. unfold maap_frame, bytes_at, set_maap_count.
  destruct (mt =? MAAP_DEFEND); rewrite !length_app, !length_take, ?length_drop, ?length_replicate, H1, H6, ?H2, ?H3, ?H4, ?H5; done.
Qed.

Lemma maap_give_way_step env src addr count s :
  maap_ok s -> range_ok s -> exists s', maap_give_way env src addr count s = Some (tt, s') /\ maap_step s s'.
Proof.
  intros Hok Hr. unfold maap_give_way. erewrite M_bind_run by reflexivity.
  destruct (maap_conflict _ _ _ _ _) as [[] out].
  - destruct (_ && _); [|by apply maap_step_again]. exists s. split; [done|by apply maap_step_refl].
  - exists s. split; [done|by apply maap_step_refl].
Qed.

(** The address reported of a conflict. *)
Lemma conflict_length junk a addr count old n out :
  length (maap_base a) = 6%nat -> length old = 6%nat -> maap_conflict junk a addr count (Some (old, n)) = (true, out) ->
  length (default ([], 0) out).1 = 6%nat.
Proof.
  intros Hb Ho. unfold maap_conflict. destruct (negb _); [done|].
  destruct (if (_ : bool) then _ else _) as [[first k]|]; [|done]. intros [= <-]. cbn. case_bool_decide; [|done].
  by rewrite length_app, length_take, Hb.
Qed.

Lemma maap_probed_step env src addr count s :
  maap_ok s -> range_ok s -> length src = 6%nat -> length addr = 6%nat -> length (me_conflict_addr env) = 6%nat ->
  exists s', maap_probed env src addr count s = Some (tt, s') /\ maap_step s s'.
Proof.
  intros Hok Hr Hs Ha Hc. unfold maap_probed. erewrite M_bind_run by reflexivity.
  destruct (maap_conflict _ _ _ _ _) as [[] out] eqn:E; [|exists s; split; [done|by apply maap_step_refl]].
  case_bool_decide.
  { destruct (maap_compare_mac _ _); [|by apply maap_step_again]. exists s. split; [done|by apply maap_step_refl]. }
  destruct Hok as [H1 H2 H3]. apply conflict_length in E; [|apply H2|done]. destruct (default ([], 0) out) as [conf cc].
  erewrite M_bind_run by (unfold create_maap_packet; by erewrite M_bind_run by reflexivity).
  eexists. split; [unfold maap_send_buf; by erewrite M_bind_run by reflexivity|].
  constructor; [constructor; [done|done|]|done|].
  - apply maap_frame_length; [apply H1|done|done|done|apply H2|done].
  - by eexists [_].
Qed.

Lemma maap_process_step env pkt src s :
  maap_ok s -> range_ok s -> (sizeof_maap_packet <= length pkt)%nat -> length src = 6%nat -> length (me_conflict_addr env) = 6%nat ->
  exists s', avb_1722_maap_process_packet env pkt src s = Some (tt, s') /\ maap_step s s'.
Proof.
  intros Hok Hr Hl Hs Hc. pose proof (maap_step_refl s Hok Hr) as Hrefl. unfold avb_1722_maap_process_packet.
  destruct (Nat.ltb_spec (length pkt) sizeof_maap_packet); [lia|]. destruct (negb _); [by exists s|].
  erewrite M_bind_run by reflexivity. case_bool_decide; [by exists s|].
  destruct (_ =? MAAP_PROBE).
  { apply maap_probed_step; try done. apply bytes_at_length. unfold off_request_start, sizeof_maap_packet in *. lia. }
  destruct (_ =? MAAP_DEFEND); [by apply maap_give_way_step|]. destruct (_ =? MAAP_ANNOUNCE); [by apply maap_give_way_step|by exists s].
Qed.

(** ** Discovery *)

Lemma adp_process_step {acfg : AcmpConfig} {pcfg : AdpConfig} pkt s :
  (adp_packet_size <= length pkt)%nat ->
  exists s', process_avb_1722_1_adp_packet pkt s = Some (tt, s') /\ adp_buf s' = adp_buf s /\ adp_out s' = adp_out s.
Proof.
  intros Hl.
  assert (keeps (fun s s' => adp_buf s' = adp_buf s /\ adp_out s' = adp_out s) (process_avb_1722_1_adp_packet pkt)) as Hk.
  { assert (PreOrder (fun s s' => adp_buf s' = adp_buf s /\ adp_out s' = adp_out s)) as Hpre.
    { split; [done|]. intros x y z [-> ->] [-> ->]. done. }
    unfold process_avb_1722_1_adp_packet, avb_1722_1_entity_database_add, avb_1722_1_entity_database_remove,
      avb_1722_1_entity_database_find. keeps_auto; by apply keeps_modify. }
  assert (exists s', process_avb_1722_1_adp_packet pkt s = Some (tt, s')) as (s' & E).
  { unfold process_avb_1722_1_adp_packet. destruct (Nat.ltb_spec (length pkt) adp_packet_size); [lia|].
    destruct (_ =? ENTITY_DISCOVER); [destruct (_ || _); by eexists|]. destruct (_ =? ENTITY_AVAILABLE).
    - unfold avb_1722_1_entity_database_add. unfold mbind at 1, M_bind at 1. erewrite M_bind_run by reflexivity.
      destruct (database_slot _ _ _ _) as [slot []]; destruct (slot =? -1); by eexists.
    - destruct (_ =? ENTITY_DEPARTING); [|by eexists]. unfold avb_1722_1_entity_database_remove. unfold mbind at 1, M_bind at 1.
      erewrite M_bind_run by reflexivity. destruct (negb _); by eexists. }
  exists s'. split; [done|]. by apply (Hk s tt s').
Qed.

(** ** Connection management *)

Definition same_outputs (s s' : acmp) : Prop := avb_1722_1_buf s' = avb_1722_1_buf s /\ acmp_out s' = acmp_out s.
#[export] Instance same_outputs_preorder : PreOrder same_outputs.
Proof. split; [done|]. intros x y z [H1 H2] [H3 H4]. split; congruence. Qed.

Lemma acmp_process_keeps {acfg : AcmpConfig} pkt : keeps same_outputs (process_avb_1722_1_acmp_packet pkt).
Proof.
  unfold process_avb_1722_1_acmp_packet, process_avb_1722_1_acmp_controller_packet, process_avb_1722_1_acmp_talker_packet,
    process_avb_1722_1_acmp_listener_packet, acmp_get_inflight_from_sequence_id, get_inflight, upd_cmd,
    set_controller_state, set_talker_state, set_listener_state.
  keeps_auto; by apply keeps_modify.
Qed.

(** * The dispatch *)

Section Dispatch.
Context {St : Type} `{cfg : Config} `{acfg : AcmpConfig} `{ecfg : AecpConfig} `{pcfg : AdpConfig} `{mcfg : MaapConfig}
  `{kcfg : ControlConfig} `{avb : !avb_interface St} `{ctl : !control_callbacks St} `{fl : !flash_library St}.
Implicit Types c : control St.

(** A component's state with the shared buffer. *)
Definition adp_view c : adp := upd_adp_buf (fun _ => ct_buf c) (ct_adp c).
Definition acmp_view c : acmp := upd_avb_1722_1_buf (fun _ => ct_buf c) (ct_acmp c).

Lemma new_events_app {Ev} (l l' : list Ev) : new_events l (l ++ l') = l'.
Proof. unfold new_events. by rewrite drop_app_length. Qed.
Lemma new_events_nil {Ev} (l : list Ev) : new_events l l = [].
Proof. unfold new_events. apply drop_all. Qed.

(** Handlers without outputs. *)
Lemma on_adp_quiet {A} (m : M adp A) a s c :
  m (adp_view c) = Some (a, s) -> adp_buf s = ct_buf c -> adp_out s = adp_out (ct_adp c) ->
  on_adp m c = Some (a, upd_ct_adp (fun _ => s) c).
Proof.
  intros E Hb Ho. unfold on_adp. fold (adp_view c). rewrite E, Ho, new_events_nil, Hb. by destruct c.
Qed.

Lemma on_acmp_quiet {A} stack (m : M acmp A) a s c :
  m (acmp_view c) = Some (a, s) -> same_outputs (acmp_view c) s -> on_acmp stack m c = Some (a, upd_ct_acmp (fun _ => s) c).
Proof.
  intros E [Hb Ho]. unfold on_acmp. fold (acmp_view c). rewrite E, Ho. cbn [acmp_out acmp_view upd_avb_1722_1_buf].
  rewrite new_events_nil, Hb. by destruct c.
Qed.

Lemma emit_frames frames c :
  forM (MaapTx <$> frames) maap_hook c = Some (tt, upd_ct_out (fun l => l ++ (Tx <$> frames)) c).
Proof.
  revert c. induction frames as [|f frames IH]; intros c.
  - destruct c. cbn. unfold upd_ct_out. cbn. by rewrite app_nil_r.
  - cbn [fmap list_fmap forM]. erewrite M_bind_run by reflexivity. rewrite IH. destruct c. unfold upd_ct_out. cbn.
    by rewrite <- app_assoc.
Qed.

Lemma on_maap_frames {A} (m : M maap A) a s frames c :
  m (ct_maap c) = Some (a, s) -> maap_out s = maap_out (ct_maap c) ++ (MaapTx <$> frames) ->
  on_maap m c = Some (a, upd_ct_out (fun l => l ++ (Tx <$> frames)) (upd_ct_maap (fun _ => s) c)).
Proof.
  intros E Ho. unfold on_maap. rewrite E, Ho, new_events_app. erewrite M_bind_run by reflexivity.
  by erewrite M_bind_run by apply emit_frames.
Qed.

(** The invariants the handlers need. *)
Record control_ok c : Prop := {
  co_acmp : acmp_ok (acmp_view c);
  co_maap : maap_ok (ct_maap c);
  co_range : range_ok (ct_maap c);
}.

(** The component a packet is for handles it; nothing else changes. *)
Definition routed (env : packet_env) (p src_addr : list Z) c c' : Prop :=
  let subtype := Z.land (p !!! 0%nat) 0x7f in
  if (subtype =? DEFAULT_1722_1_ADP_SUBTYPE) && (GET_1722_1_DATALENGTH p =? AVB_1722_1_ADP_CD_LENGTH) then
    exists s', process_avb_1722_1_adp_packet p (adp_view c) = Some (tt, s') /\ c' = upd_ct_adp (fun _ => s') c
  else if (subtype =? DEFAULT_1722_1_ACMP_SUBTYPE) && (GET_1722_1_DATALENGTH p =? AVB_1722_1_ACMP_CD_LENGTH) then
    exists s', process_avb_1722_1_acmp_packet p (acmp_view c) = Some (tt, s') /\ c' = upd_ct_acmp (fun _ => s') c
  else if subtype =? DEFAULT_MAAP_SUBTYPE then
    exists s' frames, avb_1722_maap_process_packet (pe_maap env) p src_addr (ct_maap c) = Some (tt, s') /\
      maap_out s' = maap_out (ct_maap c) ++ (MaapTx <$> frames) /\
      c' = upd_ct_out (fun l => l ++ (Tx <$> frames)) (upd_ct_maap (fun _ => s') c)
  else c' = c.

Lemma control_ok_acmp s c : control_ok c -> acmp_ok s -> same_outputs (acmp_view c) s -> control_ok (upd_ct_acmp (fun _ => s) c).
Proof.
  intros [_ H2 H3] Hs [Hb _]. constructor; [|done|done]. unfold acmp_view. cbn [ct_buf ct_acmp upd_ct_acmp].
  change (ct_buf c) with (avb_1722_1_buf (acmp_view c)). rewrite <- Hb. by destruct s.
Qed.

Lemma acmp_packet_run p c :
  config_ok -> control_ok c -> Forall byte_ok p -> (acmp_packet_size <= length p)%nat ->
  exists s', process_avb_1722_1_acmp_packet p (acmp_view c) = Some (tt, s') /\ acmp_ok s' /\ same_outputs (acmp_view c) s'.
Proof.
  intros Hcfg [H1 _ _] Hp Hl. destruct (wp_elim true (acmp_do (RxPacket p)) (fun _ => acmp_ok) (acmp_view c) eq_refl) as ([] & s' & E & Hs');
    [by apply (acmp_do_ok Hcfg)|]. exists s'. split_and!; [done|done|]. by apply (acmp_process_keeps p (acmp_view c) tt s').
Qed.

Lemma not_maap_subtype env p src_addr s :
  (sizeof_maap_packet <= length p)%nat -> Z.land (p !!! 0%nat) 0x7f <> DEFAULT_MAAP_SUBTYPE ->
  avb_1722_maap_process_packet env p src_addr s = Some (tt, s).
Proof.
  intros Hl Hs. unfold avb_1722_maap_process_packet. destruct (Nat.ltb_spec (length p) sizeof_maap_packet); [lia|].
  unfold GET_MAAP_SUBTYPE. change 0x7e with DEFAULT_MAAP_SUBTYPE. by rewrite (proj2 (Z.eqb_neq _ _) Hs).
Qed.

Lemma on_maap_idle (m : M maap unit) c : m (ct_maap c) = Some (tt, ct_maap c) -> on_maap m c = Some (tt, c).
Proof.
  intros E. rewrite (on_maap_frames m tt (ct_maap c) []); [|done|by rewrite app_nil_r].
  destruct c. unfold upd_ct_out, upd_ct_maap. cbn. by rewrite app_nil_r.
Qed.

(** C19: a frame of another type than IEEE 1722, and a packet of a subtype the task does
    not know or with a length that is not its protocol's, changes nothing at all. An ADP,
    ACMP or MAAP packet, whatever its bytes, is handled to the end by its component and by
    no other, and keeps the components' invariants. (The frame lies in a buffer that holds
    a packet of ADP behind its header; the packets of AECP, enumeration and control, which
    act on the application, are left out.) *)
Theorem frame_reaches_one_component env buf0 nbytes c :
  let p := drop (eth_hdr_size buf0) buf0 in let src_addr := bytes_at 6 6 buf0 in
  config_ok -> control_ok c -> AVB_ENABLE_1722_1 = true -> AVB_ENABLE_1722_MAAP = true ->
  Forall byte_ok buf0 -> (eth_hdr_size buf0 + adp_packet_size <= length buf0)%nat ->
  length (me_conflict_addr (pe_maap env)) = 6%nat -> Z.land (p !!! 0%nat) 0x7f <> DEFAULT_1722_1_AECP_SUBTYPE ->
  exists c', avb_process_1722_control_packet env buf0 nbytes c = Some (tt, c') /\ control_ok c' /\
    (if etype buf0 =? AVB_1722_ETHERTYPE then routed env p src_addr c c' else c' = c).
Proof.
  intros p src_addr Hcfg Hok He Hm Hb Hl Hj Hsub. pose proof Hok as [Ha Hmok Hmr]. unfold avb_process_1722_control_packet. fold p src_addr.
  destruct (etype buf0 =? AVB_1722_ETHERTYPE); cbn [whenM]; [|by exists c].
  assert (length p = length buf0 - eth_hdr_size buf0)%nat as Hlp by apply length_drop.
  assert (Forall byte_ok p) as Hbp by (by apply Forall_drop).
  assert (length src_addr = 6%nat) as Hls by (apply bytes_at_length; unfold eth_hdr_size, adp_packet_size in *; destruct (has_qtag _); lia).
  assert (sizeof_maap_packet <= length p)%nat as Hl1 by (unfold sizeof_maap_packet, adp_packet_size in *; lia).
  assert (acmp_packet_size <= length p)%nat as Hl2 by (unfold acmp_packet_size, adp_packet_size in *; lia).
  rewrite He, Hm. cbn [whenM]. unfold avb_1722_1_process_packet, routed. set (subtype := Z.land (p !!! 0%nat) 0x7f) in *.
  rewrite (proj2 (Z.eqb_neq _ _) Hsub). destruct (Z.eqb_spec subtype DEFAULT_1722_1_ADP_SUBTYPE) as [E0|_]; cbn [andb].
  { assert (subtype <> DEFAULT_MAAP_SUBTYPE) as Hnm by (by rewrite E0). rewrite E0. cbn [Z.eqb Pos.eqb DEFAULT_1722_1_ADP_SUBTYPE DEFAULT_1722_1_ACMP_SUBTYPE DEFAULT_MAAP_SUBTYPE andb].
    destruct (_ =? AVB_1722_1_ADP_CD_LENGTH); cbn [whenM].
    - destruct (adp_process_step p (adp_view c)) as (s' & E & E1 & E2); [unfold adp_packet_size in *; lia|].
      pose proof (on_adp_quiet _ tt s' c E E1 E2) as Ead. exists (upd_ct_adp (fun _ => s') c). split_and!.
      + erewrite M_bind_run by (by erewrite M_bind_run by exact Ead). apply on_maap_idle. by apply not_maap_subtype.
      + by constructor.
      + by exists s'.
    - exists c. split_and!; [|done|done]. erewrite M_bind_run by reflexivity. apply on_maap_idle. by apply not_maap_subtype. }
  destruct (Z.eqb_spec subtype DEFAULT_1722_1_ACMP_SUBTYPE) as [E0|_]; cbn [andb].
  { assert (subtype <> DEFAULT_MAAP_SUBTYPE) as Hnm by (by rewrite E0). rewrite E0. cbn [Z.eqb Pos.eqb DEFAULT_1722_1_ACMP_SUBTYPE DEFAULT_MAAP_SUBTYPE].
    destruct (_ =? AVB_1722_1_ACMP_CD_LENGTH); cbn [whenM].
    - destruct (acmp_packet_run p c Hcfg Hok Hbp Hl2) as (s' & E & E1 & E2).
      pose proof (on_acmp_quiet 0 _ tt s' c E E2) as Eac. exists (upd_ct_acmp (fun _ => s') c). split_and!.
      + erewrite M_bind_run by (by erewrite M_bind_run by exact Eac). apply on_maap_idle. by apply not_maap_subtype.
      + by apply control_ok_acmp.
      + by exists s'.
    - exists c. split_and!; [|done|done]. erewrite M_bind_run by reflexivity. apply on_maap_idle. by apply not_maap_subtype. }
  erewrite M_bind_run by reflexivity. destruct (Z.eqb_spec subtype DEFAULT_MAAP_SUBTYPE) as [E0|E0].
  - destruct (maap_process_step (pe_maap env) p src_addr (ct_maap c) Hmok Hmr Hl1 Hls Hj) as (s' & E & [M1 M2 (frames & M3)]).
    eexists. split_and!; [by apply on_maap_frames| |by exists s', frames]. by constructor.
  - exists c. split_and!; [|done|done]. apply on_maap_idle. by apply not_maap_subtype.
Qed.
End Dispatch.
