(* ===== verification/ControlStart.v ===== *)
(** The control task: a device that is left alone after its link has come up reserves an
    address for each of its sources, hands them to the AVB manager and to connection
    management, and advertises itself.  The control task of a sample device with one
    source, which puts the states and packets of the components' samples together. *)
From S2P Require Import Prelude Bytes MiscTimer MrpTypes AvbApi AvbManager AvbManagerSpec AppHooks AcmpTypes Acmp AcmpSpec AcmpInv AcmpReach AecpTypes AecpControls Aecp AecpHandover AecpSample Maap MaapSpec MaapReserve Adp AdpSpec Control ControlSpec.
From stdpp Require Import base gmap list list_numbers numbers option.
From Stdlib Require Import ZArith Lia.
#[local] Open Scope Z_scope.

Section Start.
Context {St : Type} `{cfg : Config} `{acfg : AcmpConfig} `{ecfg : AecpConfig} `{pcfg : AdpConfig} `{mcfg : MaapConfig}
  `{kcfg : ControlConfig} `{laws : AvbInterfaceLaws St} `{ctl : !control_callbacks St} `{fl : !flash_library St}.
Context (Hown : adp_config_ok acfg pcfg).
Implicit Types c : control St.

(** * A device at rest *)

(** Nothing is under way: no command waits for its answer, no acquisition is challenged,
    no entity was found. *)
Record quiet c : Prop := {
  q_controller : acmp_controller_state (ct_acmp c) = ACMP_CONTROLLER_WAITING;
  q_listener : acmp_listener_state (ct_acmp c) = ACMP_LISTENER_WAITING;
  q_talker : acmp_talker_state (ct_acmp c) = ACMP_TALKER_IDLE \/ acmp_talker_state (ct_acmp c) = ACMP_TALKER_WAITING;
  q_inflight : forall e, Forall (fun x => in_use x = false) (inflight_commands (vars e (ct_acmp c)));
  q_talkers : length (acmp_talker_streams (ct_acmp c)) = AVB_1722_1_MAX_TALKERS;
  q_challenge : aecp_aem_controller_available_state (aecp_acq (ct_aecp c)) = AECP_AEM_CONTROLLER_AVAILABLE_IDLE;
  q_discovery : adp_discovery_state (ct_adp c) = ADP_DISCOVERY_WAITING;
  q_buf : (ethernet_hdr_size + adp_packet_size <= length (ct_buf c))%nat;
  q_grandmaster : length (adp_grandmaster_id (ct_adp c)) = 8%nat;
}.

(** The device has told the network that it is there, or is about to. *)
Definition announces (frame : list Z) : Prop :=
  adp_message ENTITY_AVAILABLE (adp_payload frame) /\ guid_at off_entity_guid (adp_payload frame) = my_guid.
Definition announced c : Prop :=
  adp_advertise_state (ct_adp c) = ADP_ADVERTISE_ADVERTISE_0 \/ exists f, Tx f ∈ ct_out c /\ announces f.

(** What does not change while nothing happens. *)
Record calm c c' : Prop := {
  calm_maap : ct_maap c' = ct_maap c;
  calm_avb : ct_avb c' = ct_avb c;
  calm_streams : acmp_talker_streams (ct_acmp c') = acmp_talker_streams (ct_acmp c);
  calm_talker : acmp_talker_state (ct_acmp c') = acmp_talker_state (ct_acmp c);
  calm_idle : adp_advertise_state (ct_adp c) = ADP_ADVERTISE_IDLE -> adp_advertise_state (ct_adp c') = ADP_ADVERTISE_IDLE;
  calm_announced : announced c -> announced c';
}.
Lemma calm_refl c : calm c c.
Proof. by constructor. Qed.
Lemma calm_trans c1 c2 c3 : calm c1 c2 -> calm c2 c3 -> calm c1 c3.
Proof. intros [] []. constructor; [congruence..|auto|auto]. Qed.

Definition calmly (m : M (control St) unit) : Prop :=
  forall c, quiet c -> exists c', m c = Some (tt, c') /\ quiet c' /\ calm c c'.

Lemma calmly_bind m k : calmly m -> calmly k -> calmly (_ ← m; k).
Proof.
  intros Hm Hk c Hq. destruct (Hm c Hq) as (c1 & E1 & Hq1 & H1). destruct (Hk c1 Hq1) as (c' & E & Hq' & H).
  exists c'. rewrite (M_bind_run _ _ _ _ _ E1). split_and!; [done|done|by eapply calm_trans].
Qed.
Lemma calmly_when b m : calmly m -> calmly (whenM b m).
Proof. intros Hm. destruct b; [done|]. intros c Hq. exists c. split_and!; [done|done|apply calm_refl]. Qed.

(** ** Connection management *)

Lemma waiting_quiet now e (st : M acmp unit) s :
  Forall (fun x => in_use x = false) (inflight_commands (vars e s)) ->
  exists v, (_ ← acmp_progress_inflight_timer now e;
             idx ← acmp_check_inflight_command_timeouts e;
             _ ← modify (upd_vars e (upd_acmp_inflight_timeout_idx (fun _ => idx)));
             whenM (bool_decide (is_Some idx)) st) s = Some (tt, upd_vars e (fun _ => v) s) /\
    inflight_commands v = inflight_commands (vars e s).
Proof.
  intros Hf. assert (exists v, acmp_progress_inflight_timer now e s = Some (tt, upd_vars e (fun _ => v) s) /\
    inflight_commands v = inflight_commands (vars e s)) as (v & E & Hv).
  { unfold acmp_progress_inflight_timer. erewrite M_bind_run by reflexivity.
    destruct (avb_timer_expired _ _) as [expired tmr]. erewrite M_bind_run by reflexivity.
    destruct expired; cbn [whenM]; destruct e; (eexists; split; [reflexivity|done]). }
  rewrite (M_bind_run _ _ _ _ _ E). set (s1 := upd_vars e (fun _ => v) s).
  assert (vars e s1 = v) as Hs1 by (by destruct e).
  assert (acmp_check_inflight_command_timeouts e s1 = Some (None, s1)) as Ec.
  { unfold acmp_check_inflight_command_timeouts. erewrite M_bind_run by reflexivity. rewrite Hs1, Hv.
    replace (list_find _ _) with (@None (nat * avb_1722_1_acmp_inflight_command)); [done|]. symmetry. apply list_find_None.
    eapply list.Forall_impl; [exact Hf|]. intros x Hx. unfold timed_out. by rewrite Hx. }
  rewrite (M_bind_run _ _ _ _ _ Ec). erewrite M_bind_run by reflexivity.
  exists (upd_acmp_inflight_timeout_idx (fun _ => None) v). split; [|done]. cbn. f_equal. f_equal. by destruct e.
Qed.

(** A step that changes the variables of the controller or the listener only. *)
Lemma calmly_acmp now stack f :
  (forall env s, acmp_controller_state s = ACMP_CONTROLLER_WAITING -> acmp_listener_state s = ACMP_LISTENER_WAITING ->
     acmp_talker_state s = ACMP_TALKER_IDLE \/ acmp_talker_state s = ACMP_TALKER_WAITING ->
     (forall e, Forall (fun x => in_use x = false) (inflight_commands (vars e s))) ->
     exists e v, f env s = Some (tt, upd_vars e (fun _ => v) s) /\ inflight_commands v = inflight_commands (vars e s)) ->
  calmly (acmp_periodic now stack f).
Proof.
  intros Hf c [H1 H2 H3 H4 H5 H6 H7 H8 H9].
  destruct (Hf (acmp_env_of now stack (ct_avb c)) (acmp_view c) H1 H2 H3) as (e & v & E & Hv).
  { intros e. pose proof (H4 e). by destruct e. }
  exists (upd_ct_acmp (fun _ => upd_vars e (fun _ => v) (acmp_view c)) c). split_and!.
  - unfold acmp_periodic. erewrite M_bind_run by reflexivity. apply on_acmp_quiet; [done|]. by destruct e.
  - constructor; cbn [ct_acmp upd_ct_acmp ct_aecp ct_adp ct_buf]; try done; try (by destruct e).
    intros e'. pose proof (H4 e') as Hfe. assert (inflight_commands v = inflight_commands (vars e (ct_acmp c))) as Hv' by (by destruct e).
    destruct e, e'; cbn in *; try done; by rewrite Hv'.
  - constructor; try done; by destruct e.
Qed.

Lemma calmly_controller now stack : calmly (acmp_periodic now stack avb_1722_1_acmp_controller_periodic).
Proof.
  apply calmly_acmp. intros env s H1 _ _ Hf. destruct (waiting_quiet (env_now env) CONTROLLER (set_controller_state ACMP_CONTROLLER_TIMEOUT) s (Hf _)) as (v & E & Hv).
  exists CONTROLLER, v. split; [|done]. unfold avb_1722_1_acmp_controller_periodic. erewrite M_bind_run by reflexivity. by rewrite H1.
Qed.
Lemma calmly_listener now stack : calmly (acmp_periodic now stack avb_1722_1_acmp_listener_periodic).
Proof.
  apply calmly_acmp. intros env s _ H2 _ Hf. destruct (waiting_quiet (env_now env) LISTENER (set_listener_state ACMP_LISTENER_RX_TIMEOUT) s (Hf _)) as (v & E & Hv).
  exists LISTENER, v. split; [|done]. unfold avb_1722_1_acmp_listener_periodic. erewrite M_bind_run by reflexivity. by rewrite H2.
Qed.
Lemma calmly_talker now stack : calmly (acmp_periodic now stack avb_1722_1_acmp_talker_periodic).
Proof.
  apply calmly_acmp. intros env s _ _ H3 _. exists CONTROLLER, (controller_vars s). split; [|done].
  unfold avb_1722_1_acmp_talker_periodic. erewrite M_bind_run by reflexivity. destruct H3 as [-> | ->]; by destruct s.
Qed.

(** ** Enumeration and control *)

Lemma calmly_aecp env : calmly (on_aecp (avb_1722_1_aecp_aem_periodic env)).
Proof.
  intros c [H1 H2 H3 H4 H5 H6 H7 H8 H9]. set (s := upd_aecp_buf (fun _ => ct_buf c) (ct_aecp c)).
  assert (exists tmr, avb_1722_1_aecp_aem_periodic env s =
    Some (tt, upd_aecp_acq (upd_aecp_aem_controller_available_timer (fun _ => tmr)) s)) as (tmr & E).
  { unfold avb_1722_1_aecp_aem_periodic. erewrite M_bind_run by reflexivity.
    destruct (avb_timer_expired _ _) as [expired tmr]. erewrite M_bind_run by reflexivity. exists tmr.
    destruct expired; cbn [whenM]; [|done].
    assert (forall now, controller_available_timeout now (upd_aecp_acq (upd_aecp_aem_controller_available_timer (fun _ => tmr)) s) =
      Some (0, upd_aecp_acq (upd_aecp_aem_controller_available_timer (fun _ => tmr)) s)) as Et.
    { intros now. unfold controller_available_timeout. erewrite M_bind_run by reflexivity.
      change (aecp_aem_controller_available_state (aecp_acq (upd_aecp_acq _ s))) with (aecp_aem_controller_available_state (aecp_acq (ct_aecp c))).
      by rewrite H6. }
    by rewrite (M_bind_run _ _ _ _ _ (Et _)). }
  exists (upd_ct_aecp (fun _ => upd_aecp_acq (upd_aecp_aem_controller_available_timer (fun _ => tmr)) s) c). split_and!.
  - unfold on_aecp. fold s. rewrite E. change (aecp_out (upd_aecp_acq _ s)) with (aecp_out (ct_aecp c)).
    rewrite new_events_nil. by destruct c.
  - by constructor.
  - by constructor.
Qed.

(** ** Discovery *)

(** What the advertising function leaves alone, and what it sends. *)
Record adp_step (s s' : adp) (frames : list (list Z)) : Prop := {
  ap_out : adp_out s' = adp_out s ++ (AdpTx <$> frames);
  ap_buf : length (adp_buf s') = length (adp_buf s);
  ap_grandmaster : length (adp_grandmaster_id s') = 8%nat;
  ap_discovery : adp_discovery_state s' = adp_discovery_state s;
}.

Lemma adp_step_trans s1 s2 s3 l1 l2 : adp_step s1 s2 l1 -> adp_step s2 s3 l2 -> adp_step s1 s3 (l1 ++ l2).
Proof. intros [O1 B1 G1 D1] [O2 B2 G2 D2]. constructor; [by rewrite O2, O1, fmap_app, app_assoc|congruence|done|congruence]. Qed.

Definition stack_ok (env : adp_env) : Prop := (8 <= length (ae_grandmaster env))%nat /\ (8 <= length (ae_stack_guid env))%nat.

Lemma monitor_step env s :
  stack_ok env -> length (adp_grandmaster_id s) = 8%nat ->
  exists s', adp_ptp_monitor env s = Some (tt, s') /\ adp_step s s' [].
Proof.
  intros [Hg _] Hl. unfold adp_ptp_monitor. erewrite M_bind_run by reflexivity.
  destruct (avb_timer_expired _ _) as [expired tmr]. erewrite M_bind_run by reflexivity.
  destruct expired; cbn [whenM]; [|eexists; split; [done|]; constructor; try done; by rewrite app_nil_r].
  erewrite M_bind_run by reflexivity. destruct (negb _); cbn [whenM].
  - unfold mbind at 1, M_bind at 1. erewrite M_bind_run by reflexivity. eexists. split; [done|].
    constructor; try done; [by rewrite app_nil_r|]. apply length_take_le. done.
  - erewrite M_bind_run by reflexivity. eexists. split; [done|]. constructor; try done. by rewrite app_nil_r.
Qed.

Lemma own_frame_step mt s :
  (ethernet_hdr_size + adp_packet_size <= length (adp_buf s))%nat -> length (adp_grandmaster_id s) = 8%nat -> 0 <= mt < 16 ->
  length (adp_frame mt my_guid (adp_available_index s) (adp_grandmaster_id s) (adp_buf s)) = length (adp_buf s) /\
  (mt = ENTITY_AVAILABLE -> announces (own_frame acfg ecfg pcfg mt s)).
Proof.
  intros Hb Hg Hmt. split.
  - by destruct (adp_frame_eq acfg ecfg pcfg mt (adp_available_index s) (adp_grandmaster_id s) (adp_buf s) Hown Hb Hg) as (_ & _ & _ & H).
  - intros ->. by destruct (adp_payload_message acfg ecfg pcfg ENTITY_AVAILABLE (adp_available_index s) (adp_grandmaster_id s) (adp_buf s) Hown Hb Hg Hmt) as (H1 & H2 & _).
Qed.

Lemma advertise_1_step now s :
  (ethernet_hdr_size + adp_packet_size <= length (adp_buf s))%nat -> length (adp_grandmaster_id s) = 8%nat ->
  exists s' f, adp_advertise_1 now s = Some (tt, s') /\ adp_step s s' [f] /\ announces f.
Proof.
  intros Hb Hg. destruct (own_frame_step ENTITY_AVAILABLE s Hb Hg) as [H1 H2]; [done|].
  eexists _, (own_frame acfg ecfg pcfg ENTITY_AVAILABLE s). split.
  { unfold adp_advertise_1. erewrite M_bind_run by reflexivity. by erewrite M_bind_run by reflexivity. }
  split; [by constructor|by apply H2].
Qed.

Lemma depart_now_step next s :
  (ethernet_hdr_size + adp_packet_size <= length (adp_buf s))%nat -> length (adp_grandmaster_id s) = 8%nat ->
  exists s' f, adp_depart_now next s = Some (tt, s') /\ adp_step s s' [f].
Proof.
  intros Hb Hg. destruct (own_frame_step ENTITY_DEPARTING s Hb Hg) as [H1 _]; [done|].
  eexists _, (own_frame acfg ecfg pcfg ENTITY_DEPARTING s). split; [|shelve].
  { unfold adp_depart_now. erewrite M_bind_run by reflexivity. by erewrite M_bind_run by reflexivity. }
  Unshelve. by constructor.
Qed.

Lemma switch_step env s :
  stack_ok env -> (ethernet_hdr_size + adp_packet_size <= length (adp_buf s))%nat -> length (adp_grandmaster_id s) = 8%nat ->
  exists s' frames, adp_advertise_switch env s = Some (tt, s') /\ adp_step s s' frames /\
    (adp_advertise_state s = ADP_ADVERTISE_IDLE -> adp_advertise_state s' = ADP_ADVERTISE_IDLE) /\
    (adp_advertise_state s = ADP_ADVERTISE_ADVERTISE_0 -> exists f, f ∈ frames /\ announces f).
Proof.
  intros [_ Hst] Hb Hg. unfold adp_advertise_switch. erewrite M_bind_run by reflexivity. destruct (adp_advertise_state s) eqn:Es.
  - exists s, []. split_and!; [done| |done|done]. constructor; try done. by rewrite app_nil_r.
  - erewrite M_bind_run by reflexivity. destruct (avb_timer_expired _ _) as [expired tmr]. erewrite M_bind_run by reflexivity.
    destruct expired; cbn [whenM]; (eexists _, []; split_and!; [done| |done|done]; constructor; try done; by rewrite app_nil_r).
  - erewrite M_bind_run by reflexivity. erewrite M_bind_run by reflexivity.
    edestruct (advertise_1_step (ae_now env)) as (s' & f & E & [O B G D] & Hf); cycle 2.
    { exists s', [f]. split_and!; [exact E|by constructor|done|]. intros _. exists f. split; [by apply list.elem_of_cons; left|done]. }
    { done. } { by apply length_take_le. }
  - destruct (advertise_1_step (ae_now env) s Hb Hg) as (s' & f & E & Hs & _). by exists s', [f].
  - destruct (depart_now_step ADP_ADVERTISE_IDLE s Hb Hg) as (s' & f & E & Hs). by exists s', [f].
  - destruct (depart_now_step ADP_ADVERTISE_ADVERTISE_0 s Hb Hg) as (s' & f & E & Hs). by exists s', [f].
Qed.

Lemma advertising_step env s :
  stack_ok env -> (ethernet_hdr_size + adp_packet_size <= length (adp_buf s))%nat -> length (adp_grandmaster_id s) = 8%nat ->
  exists s' frames, avb_1722_1_adp_advertising_periodic env s = Some (tt, s') /\ adp_step s s' frames /\
    (adp_advertise_state s = ADP_ADVERTISE_IDLE -> adp_advertise_state s' = ADP_ADVERTISE_IDLE) /\
    (adp_advertise_state s = ADP_ADVERTISE_ADVERTISE_0 -> exists f, f ∈ frames /\ announces f).
Proof.
  intros Hst Hb Hg. destruct (switch_step env s Hst Hb Hg) as (s1 & frames & E1 & Hs1 & Hi & Ha).
  unfold avb_1722_1_adp_advertising_periodic. rewrite (M_bind_run _ _ _ _ _ E1). erewrite M_bind_run by reflexivity.
  case_bool_decide as H1; cbn [negb whenM]; [by exists s1, frames|].
  destruct (monitor_step env s1 Hst (ap_grandmaster _ _ _ Hs1)) as (s' & E & Hs').
  exists s', frames. split_and!; [done| |by intros H0%Hi|done]. rewrite <- (app_nil_r frames). by eapply adp_step_trans.
Qed.

Lemma emit_adp_frames frames c :
  forM (AdpTx <$> frames) (fun ev => match ev with AdpTx f => emit_control (Tx f) | NewEntityAvailable _ => skip end) c =
    Some (tt, upd_ct_out (fun l => l ++ (Tx <$> frames)) c).
Proof.
  revert c. induction frames as [|f frames IH]; intros c.
  - destruct c. cbn. unfold upd_ct_out. cbn. by rewrite app_nil_r.
  - cbn [fmap list_fmap forM]. erewrite M_bind_run by reflexivity. rewrite IH. destruct c. unfold upd_ct_out. cbn.
    by rewrite <- app_assoc.
Qed.

Lemma on_adp_frames {A} (m : M adp A) a s frames c :
  m (adp_view c) = Some (a, s) -> adp_out s = adp_out (ct_adp c) ++ (AdpTx <$> frames) ->
  on_adp m c = Some (a, upd_ct_out (fun l => l ++ (Tx <$> frames)) (upd_ct_buf (fun _ => adp_buf s) (upd_ct_adp (fun _ => s) c))).
Proof.
  intros E Ho. unfold on_adp. fold (adp_view c). rewrite E, Ho, new_events_app. erewrite M_bind_run by reflexivity.
  by erewrite M_bind_run by apply emit_adp_frames.
Qed.

Lemma calmly_advertising env : stack_ok env -> calmly (on_adp (avb_1722_1_adp_advertising_periodic env)).
Proof.
  intros Hst c [H1 H2 H3 H4 H5 H6 H7 H8 H9].
  destruct (advertising_step env (adp_view c) Hst H8 H9) as (s' & frames & E & [O B G D] & Hi & Ha).
  eexists. split; [by apply (on_adp_frames _ tt s' frames)|]. split.
  - constructor; cbn [ct_adp ct_buf upd_ct_out upd_ct_buf upd_ct_adp ct_acmp ct_aecp]; try done; [by rewrite D|by rewrite B].
  - constructor; try done. intros [H0|(f & Hf & Hfa)].
    + destruct (Ha H0) as (f & Hf & Hfa). right. exists f. split; [|done]. apply elem_of_app. right. apply list_elem_of_fmap. by exists f.
    + right. exists f. split; [|done]. apply elem_of_app. by left.
Qed.

Lemma calmly_discovery now : calmly (on_adp (avb_1722_1_adp_discovery_periodic now)).
Proof.
  intros c [H1 H2 H3 H4 H5 H6 H7 H8 H9].
  assert (exists g, avb_1722_1_adp_discovery_periodic now (adp_view c) = Some (tt, g (adp_view c)) /\
    forall s, adp_advertise_state (g s) = adp_advertise_state s /\ adp_discovery_state (g s) = adp_discovery_state s /\
      adp_grandmaster_id (g s) = adp_grandmaster_id s /\ adp_buf (g s) = adp_buf s /\ adp_out (g s) = adp_out s) as (g & E & Hg).
  { unfold avb_1722_1_adp_discovery_periodic. erewrite M_bind_run by reflexivity.
    change (adp_discovery_state (adp_view c)) with (adp_discovery_state (ct_adp c)). rewrite H7.
    erewrite M_bind_run by reflexivity. destruct (avb_timer_expired _ _) as [expired tmr]. erewrite M_bind_run by reflexivity.
    destruct expired; cbn [whenM]; [|by exists (upd_adp_discovery_timer (fun _ => tmr))].
    erewrite M_bind_run by reflexivity. unfold avb_1722_1_entity_database_check_timeout.
    unfold mbind at 1, M_bind at 1. erewrite M_bind_run by reflexivity. destruct (remove_timed_out _ _) as [es lost].
    erewrite M_bind_run by reflexivity.
    by exists (fun s => upd_adp_discovery_timer (fun t => start_avb_timer now 1 t) (upd_adp_entities (fun _ => es)
      (upd_adp_two_second_counter (fun n => u32 (n + 1)) (upd_adp_discovery_timer (fun _ => tmr) s)))). }
  destruct (Hg (adp_view c)) as (G1 & G2 & G3 & G4 & G5).
  exists (upd_ct_adp (fun _ => g (adp_view c)) c). split; [by apply on_adp_quiet|]. split.
  - constructor; cbn [ct_adp ct_buf upd_ct_adp ct_acmp ct_aecp]; try done; [by rewrite G2|by rewrite G3].
  - constructor; cbn [ct_adp upd_ct_adp]; try done; [by rewrite G1|]. intros [H0|H0]; [left|by right]. cbn. by rewrite G1.
Qed.

Definition env_ok (env : control_env) : Prop := stack_ok (ce_adp env).

Lemma calmly_periodic env : env_ok env -> calmly (avb_1722_1_periodic env).
Proof.
  intros He. unfold avb_1722_1_periodic. apply calmly_bind; [by apply calmly_advertising|].
  apply calmly_bind; [apply calmly_when, calmly_bind; [apply calmly_discovery|apply calmly_controller]|].
  apply calmly_bind; [apply calmly_when, calmly_talker|].
  apply calmly_bind; [apply calmly_when, calmly_listener|]. apply calmly_aecp.
Qed.

(** * The reserved addresses *)

(** The sources exist and are disabled. *)
Definition sources_ready c : Prop :=
  forall i, 0 <= i < Z.of_nat AVB_NUM_SOURCES ->
    exists source, elem_at (sources_of (ct_avb c)) i = Some source /\ st_state (so_stream source) = 0.

(** Source [i] and its talker stream have an address. *)
Definition has_address (i : Z) (mac : list Z) c : Prop :=
  (exists source, elem_at (sources_of (ct_avb c)) i = Some source /\ dest_mac_addr (so_reservation source) = mac) /\
  (i < Z.of_nat AVB_1722_1_MAX_TALKERS ->
     exists t, acmp_talker_streams (ct_acmp c) !! Z.to_nat i = Some t /\ ts_destination_mac t = mac).

Lemma set_mac_run i mac (s : acmp) :
  0 <= i -> length (acmp_talker_streams s) = AVB_1722_1_MAX_TALKERS -> length mac = 6%nat ->
  exists streams, avb_1722_1_talker_set_mac_address i mac s = Some (tt, upd_acmp_talker_streams (fun _ => streams) s) /\
    length streams = AVB_1722_1_MAX_TALKERS /\
    (forall j, j <> Z.to_nat i -> streams !! j = acmp_talker_streams s !! j) /\
    (i < Z.of_nat AVB_1722_1_MAX_TALKERS -> exists t, streams !! Z.to_nat i = Some t /\ ts_destination_mac t = mac).
Proof.
  intros Hi Hl Hm. unfold avb_1722_1_talker_set_mac_address. destruct (Z.ltb_spec i (Z.of_nat AVB_1722_1_MAX_TALKERS)) as [Hlt|Hge]; cbn [whenM].
  - destruct (lookup_lt_is_Some_2 (acmp_talker_streams s) (Z.to_nat i)) as [x Hx]; [lia|].
    exists (<[Z.to_nat i := upd_ts_destination_mac (fun _ => take 6 mac) x]> (acmp_talker_streams s)). split_and!.
    + unfold upd_talker_stream, store. destruct (Z.ltb_spec i 0); [lia|]. by rewrite Hx.
    + by rewrite length_insert.
    + intros j Hj. by rewrite list_lookup_insert_ne.
    + intros _. rewrite list_lookup_insert_eq by (by eapply lookup_lt_Some). eexists. split; [done|]. cbn. by rewrite take_ge by lia.
  - exists (acmp_talker_streams s). split_and!; [by destruct s|done|done|lia].
Qed.

Lemma hook_run i mac c :
  quiet c -> sources_ready c -> 0 <= i < Z.of_nat AVB_NUM_SOURCES -> length mac = 6%nat ->
  exists c', maap_hook (SourceAddressReserved i mac) c = Some (tt, c') /\ quiet c' /\ sources_ready c' /\
    ct_maap c' = ct_maap c /\ has_address i mac c' /\
    (forall j other, 0 <= j -> j <> i -> has_address j other c -> has_address j other c') /\
    acmp_talker_state (ct_acmp c') = ACMP_TALKER_WAITING /\
    (adp_advertise_state (ct_adp c) = ADP_ADVERTISE_IDLE \/ adp_advertise_state (ct_adp c) = ADP_ADVERTISE_ADVERTISE_0 ->
     adp_advertise_state (ct_adp c') = ADP_ADVERTISE_ADVERTISE_0).
Proof.
  intros Hq Hs Hi Hm. destruct (Hs i Hi) as (source & Hsrc & H0).
  set (source' := upd_so_reservation (upd_dest_mac_addr (fun _ => mac)) source).
  assert (exists d, set_source_dest i mac (ct_avb c) = Some (true, d) /\ sources_of d = set_elem i source' (sources_of (ct_avb c))) as (d & Ed & Hd).
  { destruct (set_source_run (source_if_disabled (fun s => if negb (length mac =? 6)%nat then None
      else Some (upd_so_reservation (upd_dest_mac_addr (fun _ => mac)) s))) i (ct_avb c) source source') as (d & Ed & Hd & _).
    { lia. } { done. } { unfold source_if_disabled. by rewrite H0, Hm. } { done. } by exists d. }
  set (c1 := upd_ct_aecp (upd_aecp_dev (fun _ => d)) c).
  set (c2 := upd_ct_acmp (fun _ => upd_acmp_talker_state (fun _ => ACMP_TALKER_WAITING) (acmp_view c1)) c1).
  destruct Hq as [H1 H2 H3 H4 H5 H6 H7 H8 H9].
  destruct (set_mac_run i mac (acmp_view c2)) as (streams & Em & Hl & Hne & Hmac); [lia|exact H5|done|].
  set (c3 := upd_ct_acmp (fun _ => upd_acmp_talker_streams (fun _ => streams) (acmp_view c2)) c2).
  eexists. split.
  { unfold maap_hook, avb_talker_on_source_address_reserved_default.
    assert (on_avb (set_source_dest i mac) c = Some (true, c1)) as E1 by (unfold on_avb; by rewrite Ed).
    rewrite (M_bind_run _ _ _ _ _ E1).
    assert (on_acmp 0 avb_1722_1_acmp_talker_init c1 = Some (tt, c2)) as E2 by (by apply on_acmp_quiet).
    rewrite (M_bind_run _ _ _ _ _ E2).
    assert (on_acmp 0 (avb_1722_1_talker_set_mac_address i mac) c2 = Some (tt, c3)) as E3 by (by apply on_acmp_quiet).
    rewrite (M_bind_run _ _ _ _ _ E3). by eapply on_adp_quiet. }
  assert (forall j, 0 <= j -> j <> i -> elem_at (sources_of d) j = elem_at (sources_of (ct_avb c)) j) as Hsne
    by (intros j Hj Hji; rewrite Hd; apply elem_at_set_ne; lia).
  assert (elem_at (sources_of d) i = Some source') as Hsi by (rewrite Hd; by eapply elem_at_set).
  split_and!; try done.
  - constructor; try done. by right.
  - intros j Hj. change (ct_avb _) with d. destruct (Z.eq_dec j i) as [->|Hji]; [by exists source'|]. rewrite Hsne by lia. by apply Hs.
  - split; [by exists source'|done].
  - intros j other Hj Hji [(s & Hjs & Hds) Ht]. split; [exists s; split; [|done]; change (ct_avb _) with d; by rewrite Hsne|].
    intros Hjt. destruct (Ht Hjt) as (t & Ht1 & Ht2). exists t. split; [|done]. cbn. rewrite Hne by lia. done.
  - cbn. by intros [-> | ->].
Qed.

(** Every source up to [n] has its address. *)
Definition configured (base : list Z) (n : Z) c : Prop := forall i, 0 <= i < n -> has_address i (nth_address base i) c.

Lemma hooks_run base (n : nat) c :
  quiet c -> sources_ready c -> (n <= AVB_NUM_SOURCES)%nat -> length base = 6%nat -> adp_advertise_state (ct_adp c) = ADP_ADVERTISE_IDLE ->
  exists c', forM ((fun i => SourceAddressReserved i (nth_address base i)) <$> seqZ 0 (Z.of_nat n)) maap_hook c = Some (tt, c') /\
    quiet c' /\ sources_ready c' /\ ct_maap c' = ct_maap c /\ configured base (Z.of_nat n) c' /\
    (if (n =? 0)%nat then adp_advertise_state (ct_adp c') = ADP_ADVERTISE_IDLE
     else adp_advertise_state (ct_adp c') = ADP_ADVERTISE_ADVERTISE_0 /\ acmp_talker_state (ct_acmp c') = ACMP_TALKER_WAITING).
Proof.
  intros Hq Hs Hn Hb Hi. induction n as [|n IH]; [by exists c; split_and!; try done; intros i ?; lia|].
  destruct IH as (c1 & E1 & Hq1 & Hs1 & Hm1 & Hc1 & Ha1); [lia|].
  destruct (hook_run (Z.of_nat n) (nth_address base (Z.of_nat n)) c1 Hq1 Hs1) as (c' & E & Hq' & Hs' & Hm' & Hown' & Hoth & Ht' & Ha');
    [lia|unfold nth_address; by rewrite length_app, length_take, Hb|].
  exists c'. split_and!; try done.
  - replace (Z.of_nat (S n)) with (Z.of_nat n + 1) by lia. rewrite seqZ_app, fmap_app, forM_app by lia.
    rewrite (M_bind_run _ _ _ _ _ E1). change (seqZ (0 + Z.of_nat n) 1) with [0 + (0 + Z.of_nat n)]. cbn [fmap list_fmap forM].
    rewrite !Z.add_0_l. by rewrite (M_bind_run _ _ _ _ _ E).
  - congruence.
  - intros i Hi'. destruct (Z.eq_dec i (Z.of_nat n)) as [->|Hne]; [done|]. apply Hoth; [lia|done|]. apply Hc1. lia.
  - cbn. split; [|done]. apply Ha'. destruct (n =? 0)%nat; [by left|right; apply Ha1].
Qed.

(** * The ticks *)

Lemma calm_sources c c' : calm c c' -> sources_ready c -> sources_ready c'.
Proof. intros [_ Ha _ _ _ _] Hs i Hi. rewrite Ha. by apply Hs. Qed.
Lemma calm_address i mac c c' : calm c c' -> has_address i mac c -> has_address i mac c'.
Proof. intros [_ Ha Hst _ _ _]. unfold has_address. by rewrite Ha, Hst. Qed.

(** What the periodic function of address allocation sends and reports. *)
Lemma periodic_events now r s :
  maap_ok s -> exists s' delta, avb_1722_maap_periodic now r s = Some (tt, s') /\ maap_out s' = maap_out s ++ delta /\
    ((maap_state (maap_addr s') = maap_state (maap_addr s) /\ exists frames, delta = MaapTx <$> frames) \/
     (maap_state (maap_addr s) = MAAP_PROBING /\ maap_state (maap_addr s') = MAAP_RESERVED /\
      exists f, delta = MaapTx f :: if AVB_ENABLE_1722_MAAP then reported (maap_addr s) else [])).
Proof.
  intros Hok. unfold avb_1722_maap_periodic. erewrite M_bind_run by reflexivity.
  assert (exists due tmr, maap_due now s = Some (due, upd_maap_timer (fun _ => tmr) s)) as (due & tmr & Ed).
  { unfold maap_due. erewrite M_bind_run by reflexivity. destruct (truthy _).
    - exists true, (maap_timer s). by destruct s.
    - destruct (avb_timer_expired now (maap_timer s)) as [fired tmr] eqn:E. exists fired, tmr.
      erewrite M_bind_run by reflexivity. rewrite E. by erewrite M_bind_run by reflexivity. }
  set (s1 := upd_maap_timer (fun _ => tmr) s) in *. destruct (maap_state (maap_addr s)) eqn:Hst.
  - exists s, []. split_and!; [done|by rewrite app_nil_r|]. left. split; [done|by exists []].
  - rewrite (M_bind_run _ _ _ _ _ Ed). destruct due; cbn [whenM].
    2:{ exists s1, []. split_and!; [done|by rewrite app_nil_r|]. left. split; [done|by exists []]. }
    rewrite probe_run by (done || by destruct Hok; constructor). change (maap_probe_count (maap_addr s1)) with (maap_probe_count (maap_addr s)).
    destruct (_ =? 0); eexists _, _; (split; [done|]; split; [done|]); [right|left; split; [done|by exists [claim_frame MAAP_PROBE s1]]].
    split_and!; [done|done|]. by exists (claim_frame MAAP_PROBE s1).
  - rewrite (M_bind_run _ _ _ _ _ Ed). destruct due; cbn [whenM].
    2:{ exists s1, []. split_and!; [done|by rewrite app_nil_r|]. left. split; [done|by exists []]. }
    unfold maap_announce. erewrite M_bind_run by (unfold create_maap_packet; by erewrite M_bind_run by reflexivity).
    erewrite M_bind_run by (unfold maap_send_buf; by erewrite M_bind_run by reflexivity).
    erewrite M_bind_run by reflexivity.
    destruct (negb _); eexists _, _; (split; [reflexivity|]; split; [done|]; left; split; [done|by eexists [_]]).
Qed.

(** The state after a tick. *)
Record ticked (s' : maap) c' : Prop := {
  tk_maap : ct_maap c' = s';
  tk_quiet : quiet c';
  tk_sources : sources_ready c';
}.

Lemma tick_halves env c s' delta :
  env_ok env -> quiet c ->
  avb_1722_maap_periodic (ce_maap_now env) (ce_maap_random env) (ct_maap c) = Some (tt, s') -> maap_out s' = maap_out (ct_maap c) ++ delta ->
  exists c1, quiet c1 /\ calm c c1 /\ control_serve (Tick env) c = forM delta maap_hook (upd_ct_maap (fun _ => s') c1).
Proof.
  intros He Hq Es Ho. destruct (calmly_periodic env He c Hq) as (c1 & E1 & Hq1 & Hc1). exists c1. split_and!; [done|done|].
  unfold control_serve. rewrite (M_bind_run _ _ _ _ _ E1). pose proof (calm_maap _ _ Hc1) as Hm.
  unfold on_maap. rewrite Hm, Es, Ho, new_events_app. erewrite M_bind_run by reflexivity.
  unfold mbind, M_bind. by destruct (forM _ _ _) as [[[] ?]|].
Qed.

Lemma quiet_maap g c : quiet c -> quiet (upd_ct_maap g c).
Proof. by intros []. Qed.

(** A tick without news from address allocation. *)
Lemma tick_frames env c s' frames :
  env_ok env -> quiet c -> sources_ready c ->
  avb_1722_maap_periodic (ce_maap_now env) (ce_maap_random env) (ct_maap c) = Some (tt, s') ->
  maap_out s' = maap_out (ct_maap c) ++ (MaapTx <$> frames) ->
  exists c', control_serve (Tick env) c = Some (tt, c') /\ ticked s' c' /\
    (adp_advertise_state (ct_adp c) = ADP_ADVERTISE_IDLE -> adp_advertise_state (ct_adp c') = ADP_ADVERTISE_IDLE) /\
    (announced c -> announced c') /\ (forall i mac, has_address i mac c -> has_address i mac c') /\
    acmp_talker_state (ct_acmp c') = acmp_talker_state (ct_acmp c).
Proof.
  intros He Hq Hs Es Ho. destruct (tick_halves env c s' _ He Hq Es Ho) as (c1 & Hq1 & Hc1 & ->).
  rewrite emit_frames. eexists. split; [done|]. split_and!.
  - constructor; [done|by destruct Hq1|exact (calm_sources _ _ Hc1 Hs)].
  - exact (calm_idle _ _ Hc1).
  - intros Ha. destruct (calm_announced _ _ Hc1 Ha) as [H|(f & Hf & Hfa)]; [by left|]. right. exists f. split; [|done]. apply elem_of_app. by left.
  - intros i mac Ha. by apply (calm_address _ _ _ _ Hc1).
  - apply (calm_talker _ _ Hc1).
Qed.

(** The tick that reserves the range. *)
Lemma tick_reserves env c s' f :
  env_ok env -> quiet c -> sources_ready c -> length (maap_base (maap_addr (ct_maap c))) = 6%nat ->
  maap_range (maap_addr (ct_maap c)) = Z.of_nat AVB_NUM_SOURCES -> (0 < AVB_NUM_SOURCES)%nat ->
  adp_advertise_state (ct_adp c) = ADP_ADVERTISE_IDLE ->
  avb_1722_maap_periodic (ce_maap_now env) (ce_maap_random env) (ct_maap c) = Some (tt, s') ->
  maap_out s' = maap_out (ct_maap c) ++ MaapTx f :: reported (maap_addr (ct_maap c)) ->
  exists c', control_serve (Tick env) c = Some (tt, c') /\ ticked s' c' /\ announced c' /\
    acmp_talker_state (ct_acmp c') = ACMP_TALKER_WAITING /\
    configured (maap_base (maap_addr (ct_maap c))) (Z.of_nat AVB_NUM_SOURCES) c'.
Proof.
  intros He Hq Hs Hb Hr Hn Hi Es Ho. destruct (tick_halves env c s' _ He Hq Es Ho) as (c1 & Hq1 & Hc1 & ->).
  cbn [forM]. erewrite M_bind_run by reflexivity. unfold reported. rewrite Hr. set (c2 := upd_ct_out _ _).
  destruct (hooks_run (maap_base (maap_addr (ct_maap c))) AVB_NUM_SOURCES c2) as (c' & E & Hq' & Hs' & Hm' & Hc' & Ha');
    [by destruct Hq1|exact (calm_sources _ _ Hc1 Hs)|done|done|exact (calm_idle _ _ Hc1 Hi)|].
  destruct (Nat.eqb_spec AVB_NUM_SOURCES 0); [lia|]. exists c'. split_and!; [done|by constructor|left; apply Ha'|apply Ha'|done].
Qed.

(** * Start-up *)

Section Startup.
Context (Hmaap : AVB_ENABLE_1722_MAAP = true) (Hsources : 0 < Z.of_nat AVB_NUM_SOURCES < MAAP_ALLOCATION_POOL_SIZE).
Context (t0 G : Z) (HG : 0 <= G < 2 ^ 30) (base : list Z) (out : list maap_event).
Abbreviation range := (Z.of_nat AVB_NUM_SOURCES).
Abbreviation P := (maap_probe_timeout base * TICKS_PER_CENTISECOND).

(** The range is claimed: requested at [t0], or probed for. *)
Definition requested_range (s : maap) : Prop :=
  holds_range base range s /\ maap_state (maap_addr s) = MAAP_PROBING /\ maap_probe_count (maap_addr s) = 3 /\
  maap_immediately (maap_addr s) = 1 /\ maap_timeout_val s = maap_probe_timeout base /\ maap_out s = out.
Definition claiming (t : Z) (s : maap) : Prop :=
  (t = t0 /\ requested_range s) \/ exists n, asking t0 G base range out n t s.

Lemma claiming_probing t s : claiming t s -> holds_range base range s /\ maap_state (maap_addr s) = MAAP_PROBING.
Proof. intros [[_ (H1 & H2 & _)] | [n []]]; by split. Qed.

Lemma claim_step t t1 r s :
  claiming t s -> t <= t1 <= t + G ->
  exists s', avb_1722_maap_periodic (u32 t1) r s = Some (tt, s') /\ t1 <= t0 + G + 3 * (P + G) /\
    (claiming t1 s' \/ (has_reserved base range out s' /\ t0 + 3 * P < t1)).
Proof.
  intros [[-> (H1 & H2 & H3 & H4 & H5 & H6)] | [n Ha]] Ht1.
  - pose proof (timeout_bound base) as HP.
    destruct (probe_sent t0 G base range out 3 t1 r s) as (s' & E & Hs'); try done; [lia|by exists []; rewrite app_nil_r|].
    exists s'. split_and!; [|lia|left; right; by exists 2]. unfold avb_1722_maap_periodic. erewrite M_bind_run by reflexivity. rewrite H2.
    assert (maap_due (u32 t1) s = Some (true, s)) as Ed by (unfold maap_due; erewrite M_bind_run by reflexivity; by rewrite H4).
    by rewrite (M_bind_run _ _ _ _ _ Ed).
  - destruct (poll_asking t0 G HG base range out n t t1 r s Ha Ht1) as (s' & E & Hb & [Hm|Hr]); exists s'.
    + split_and!; [done|done|]. left. by right.
    + split_and!; [done|done|]. by right.
Qed.

(** A device that claims addresses, and one that has them. *)
Record starting (t : Z) c : Prop := {
  sg_quiet : quiet c;
  sg_sources : sources_ready c;
  sg_adp : adp_advertise_state (ct_adp c) = ADP_ADVERTISE_IDLE;
  sg_claim : claiming t (ct_maap c);
}.
Record started c : Prop := {
  sd_quiet : quiet c;
  sd_sources : sources_ready c;
  sd_announced : announced c;
  sd_talker : acmp_talker_state (ct_acmp c) = ACMP_TALKER_WAITING;
  sd_configured : configured base range c;
  sd_reserved : has_reserved base range out (ct_maap c);
}.

Lemma tick_starting t t1 env c :
  starting t c -> t <= t1 <= t + G -> env_ok env -> ce_maap_now env = u32 t1 ->
  exists c', control_serve (Tick env) c = Some (tt, c') /\ t1 <= t0 + G + 3 * (P + G) /\
    (starting t1 c' \/ (started c' /\ t0 + 3 * P < t1)).
Proof.
  intros [H1 H2 H3 H4] Ht1 He Hnow. destruct (claiming_probing _ _ H4) as [[Hok Hbase Hrange] Hst].
  destruct (claim_step t t1 (ce_maap_random env) (ct_maap c) H4 Ht1) as (s' & E & Hb & Hs'). rewrite <- Hnow in E.
  destruct (periodic_events (ce_maap_now env) (ce_maap_random env) (ct_maap c) Hok) as (s2 & delta & E2 & Hd & Hcase).
  rewrite E in E2. injection E2 as <-. destruct Hcase as [[Hst' (frames & ->)] | (_ & Hst' & f & ->)].
  - destruct (tick_frames env c s' frames He H1 H2 E Hd) as (c' & Es & [T1 T2 T3] & Hi & _). exists c'. split_and!; [done|done|].
    destruct Hs' as [Hc|[[_ Hr _] _]]; [|congruence]. left. constructor; [done|done|by apply Hi|by rewrite T1].
  - rewrite Hmaap in Hd. destruct (tick_reserves env c s' f) as (c' & Es & [T1 T2 T3] & Ha & Ht & Hc); try done;
      [by rewrite Hbase; destruct Hok as [_ [Hl _] _]; rewrite <- Hbase|lia|].
    exists c'. split_and!; [done|done|]. rewrite Hbase in Hc. destruct Hs' as [Hc'|[Hr Hlt]].
    + apply claiming_probing in Hc' as [_ Hp]. congruence.
    + right. split; [|done]. constructor; try done. by rewrite T1.
Qed.

Lemma tick_started t1 env c :
  started c -> env_ok env -> ce_maap_now env = u32 t1 -> exists c', control_serve (Tick env) c = Some (tt, c') /\ started c'.
Proof.
  intros [H1 H2 H3 H4 H5 H6] He Hnow. destruct (poll_reserved base range out t1 (ce_maap_random env) (ct_maap c) H6) as (s' & E & Hs').
  rewrite <- Hnow in E. destruct H6 as [[Hok _ _] Hst _].
  destruct (periodic_events (ce_maap_now env) (ce_maap_random env) (ct_maap c) Hok) as (s2 & delta & E2 & Hd & Hcase).
  rewrite E in E2. injection E2 as <-.
  destruct Hcase as [[_ (frames & ->)] | (Hp & _)]; [|congruence].
  destruct (tick_frames env c s' frames He H1 H2 E Hd) as (c' & Es & [T1 T2 T3] & _ & Ha & Hc & Ht). exists c'. split; [done|].
  constructor; [done|done|by apply Ha|by rewrite Ht| |by rewrite T1]. intros i Hi. by apply Hc, H5.
Qed.

(** Ticks at times. *)
Definition ticks_at (ticks : list (Z * control_env)) : Prop :=
  polled_within G t0 (fst <$> ticks) /\ Forall (fun te => env_ok te.2 /\ ce_maap_now te.2 = u32 te.1) ticks.
Abbreviation run_ticks ticks := (forM (snd <$> ticks) (fun env => control_serve (Tick env))).

Lemma ticks_started (ticks : list (Z * control_env)) c :
  started c -> Forall (fun te => env_ok te.2 /\ ce_maap_now te.2 = u32 te.1) ticks ->
  exists c', run_ticks ticks c = Some (tt, c') /\ started c'.
Proof.
  intros Hs HF. revert c Hs. induction HF as [|[t env] ticks [He Hnow] _ IH]; intros c Hs; [by exists c|].
  destruct (tick_started t env c Hs He Hnow) as (c1 & E1 & H1). destruct (IH c1 H1) as (c' & E & H').
  exists c'. cbn [fmap list_fmap forM snd]. by rewrite (M_bind_run _ _ _ _ _ E1).
Qed.

Lemma ticks_starting ticks : forall t c,
  starting t c -> polled_within G t (fst <$> ticks) -> Forall (fun te => env_ok te.2 /\ ce_maap_now te.2 = u32 te.1) ticks ->
  exists c', run_ticks ticks c = Some (tt, c') /\
    ((maap_state (maap_addr (ct_maap c')) = MAAP_PROBING /\ Forall (fun te => te.1 <= t0 + G + 3 * (P + G)) ticks) \/
     (started c' /\ Exists (fun te => t0 + 3 * P < te.1) ticks)).
Proof.
  induction ticks as [|[t1 env] ticks IH]; intros t c Hs Hp HF.
  - exists c. split; [done|]. left. split; [|done]. by apply (claiming_probing t), Hs.
  - apply list.Forall_cons in HF as [[He Hnow] HF]. destruct Hp as [Ht1 Hp]. cbn [fst snd] in *.
    destruct (tick_starting t t1 env c Hs Ht1 He Hnow) as (c1 & E1 & Hb & Hc1). cbn [fmap list_fmap forM snd].
    destruct Hc1 as [Hc1 | [Hc1 Hlt]].
    + destruct (IH t1 c1 Hc1 Hp HF) as (c' & E & Hc'). exists c'. rewrite (M_bind_run _ _ _ _ _ E1). split; [done|].
      destruct Hc' as [[Hst HF'] | [Hst HE]]; [left; split; [done|by constructor]|right; split; [done|by apply Exists_cons_tl]].
    + destruct (ticks_started ticks c1 Hc1 HF) as (c' & E & Hc'). exists c'. rewrite (M_bind_run _ _ _ _ _ E1).
      split; [done|]. right. split; [done|by apply Exists_cons_hd].
Qed.
End Startup.

(** The request of the addresses when the link comes up. *)
Lemma link_up_run env c :
  AVB_ENABLE_1722_MAAP = true -> NUM_ETHERNET_PORTS = 1%nat -> 0 < Z.of_nat AVB_NUM_SOURCES ->
  maap_ok (ct_maap c) -> range_ok (ct_maap c) -> maap_state (maap_addr (ct_maap c)) = MAAP_DISABLED ->
  exists base s', random_base (me_random (pe_maap env)) (maap_addr (ct_maap c)) = Some base /\ mac_ok base /\
    control_serve (LinkStatus true env) c = Some (tt, upd_ct_maap (fun _ => s') c) /\
    requested_range base (maap_out (ct_maap c)) s'.
Proof.
  intros Hm Hports Hn [H1 H2 H3] Hr Hst. destruct (random_base_range (me_random (pe_maap env)) (maap_addr (ct_maap c)) H2 Hr) as (base & E & Hb & _).
  set (s := ct_maap c) in *. set (s' := MkMaap (maap_mac s) (MkRange base (Z.of_nat AVB_NUM_SOURCES) MAAP_PROBE_RETRANSMITS 1 MAAP_PROBING)
    (start_avb_timer (me_now (pe_maap env)) (maap_probe_timeout base) (maap_timer s)) (maap_probe_timeout base) (maap_buf s) (maap_out s)).
  exists base, s'. split_and!; [done|done| |by split_and!].
  unfold control_serve, link_up. rewrite Hports. cbn [whenM Nat.eqb].
  assert (on_maap (avb_1722_maap_get_base_address (pe_base_addr env)) c = Some ((-1, pe_base_addr env), c)) as E0.
  { assert (avb_1722_maap_get_base_address (pe_base_addr env) s = Some ((-1, pe_base_addr env), s)) as E1.
    { unfold avb_1722_maap_get_base_address. erewrite M_bind_run by reflexivity. by rewrite Hst. }
    unfold on_maap. fold s. rewrite E1, new_events_nil. unfold s. by destruct c. }
  rewrite (M_bind_run _ _ _ _ _ E0). cbn [Z.eqb].
  assert (avb_1722_maap_request_addresses (me_now (pe_maap env)) (me_random (pe_maap env)) (Z.of_nat AVB_NUM_SOURCES) None s = Some (tt, s')) as E1.
  { unfold avb_1722_maap_request_addresses.
    assert ((base ← load (fun s => random_base (me_random (pe_maap env)) (maap_addr s)); modify (upd_maap_addr (upd_maap_base (fun _ => base)))) s =
      Some (tt, upd_maap_addr (upd_maap_base (fun _ => base)) s)) as E2 by (unfold load, mbind, M_bind; by rewrite E).
    rewrite (M_bind_run _ _ _ _ _ E2). destruct (Z.eqb_spec (Z.of_nat AVB_NUM_SOURCES) (-1)); [lia|]. cbn [negb whenM].
    by erewrite M_bind_run by reflexivity. }
  rewrite (on_maap_frames _ tt s' []); [|exact E1|by rewrite app_nil_r].
  f_equal. f_equal. destruct c. unfold upd_ct_out, upd_ct_maap. cbn. by rewrite app_nil_r.
Qed.

(** C20: a device that is left alone after its link has come up starts by itself. It requests
    one address for each source, and probes; polled at most [G] apart, once a poll is later
    than three probe intervals and four poll intervals after the link, and not before three
    probe intervals have passed, the range is reserved; then every source has its own address
    of the range, in the AVB manager and in the talker's stream table, the talker serves
    connections, and the device has advertised itself or does so at the next poll. *)
Theorem device_starts_up env t0 G ticks c :
  AVB_ENABLE_1722_MAAP = true -> NUM_ETHERNET_PORTS = 1%nat -> 0 < Z.of_nat AVB_NUM_SOURCES < MAAP_ALLOCATION_POOL_SIZE ->
  quiet c -> sources_ready c -> adp_advertise_state (ct_adp c) = ADP_ADVERTISE_IDLE ->
  maap_ok (ct_maap c) -> range_ok (ct_maap c) -> maap_state (maap_addr (ct_maap c)) = MAAP_DISABLED ->
  0 <= G < 2 ^ 30 -> ticks_at t0 G ticks ->
  exists base c1 c', random_base (me_random (pe_maap env)) (maap_addr (ct_maap c)) = Some base /\
    control_serve (LinkStatus true env) c = Some (tt, c1) /\
    forM (snd <$> ticks) (fun e => control_serve (Tick e)) c1 = Some (tt, c') /\
    let P := maap_probe_timeout base * TICKS_PER_CENTISECOND in
    ((maap_state (maap_addr (ct_maap c')) = MAAP_PROBING /\ Forall (fun te => te.1 <= t0 + G + 3 * (P + G)) ticks) \/
     (maap_state (maap_addr (ct_maap c')) = MAAP_RESERVED /\ Exists (fun te => t0 + 3 * P < te.1) ticks /\
      configured base (Z.of_nat AVB_NUM_SOURCES) c' /\ acmp_talker_state (ct_acmp c') = ACMP_TALKER_WAITING /\ announced c')).
Proof.
  intros Hmaap Hports Hn Hq Hs Ha Hok Hr Hst HG [Hp HF].
  destruct (link_up_run env c Hmaap Hports ltac:(lia) Hok Hr Hst) as (base & s' & E & _ & E1 & Hs').
  exists base, (upd_ct_maap (fun _ => s') c).
  destruct (ticks_starting Hmaap Hn t0 G HG base (maap_out (ct_maap c)) ticks t0 (upd_ct_maap (fun _ => s') c)) as (c' & E2 & Hc'); try done.
  { constructor; [by apply quiet_maap|done|done|]. by left. }
  exists c'. split_and!; [done|done|done|]. destruct Hc' as [H|[[_ _ H3 H4 H5 [_ H6 _]] HE]]; [by left|]. right. by split_and!.
Qed.
End Start.

(** * A sample device *)

Definition sample_control_config : ControlConfig := {|
  NUM_ETHERNET_PORTS := 1;
  AVB_1722_1_CONTROLLER_ENABLED := true;
  AVB_1722_1_TALKER_ENABLED := true;
  AVB_1722_1_LISTENER_ENABLED := true;
|}.

#[local] Existing Instances default_config sample_answers sample_acmp_config sample_aecp_config sample_adp_config
  sample_maap_config sample_control_config device_avb device_controls device_flash.

(** After the initialisation, with the link down. *)
Definition sample_control : control device :=
  MkControl sample_started (sample_adp ADP_ADVERTISE_IDLE) sample_aecp (sample_maap 1) (replicate 552 0) [].

Definition sample_packet_env : packet_env := MkPacketEnv sample_env sample_maap_env (replicate 6 0).
Definition sample_control_env (t : Z) : control_env :=
  MkControlEnv (MkAdpEnv (u32 t) (replicate 8 0) (replicate 8 0)) (u32 t) (u32 t) (u32 t) (u32 t) (at_time (u32 t) sample_env) (u32 t) 0 0.

Lemma sample_control_ok : control_ok sample_control.
Proof.
  pose proof (reachable_acmp_ok sample_config_ok _ sample_started_reachable) as [].
  constructor; [|constructor; [by apply sample_mac_ok..|done]|by split].
  constructor; try done; [by apply Nat.leb_le; vm_compute|]. by apply Forall_replicate.
Qed.

(** The frame of a device that advertises itself, in the task's buffer. *)
Definition sample_adp_frame : list Z :=
  avb_1722_1_adp_dest_addr ++ sample_mac 2 ++ [0x22; 0xf0] ++ sample_advertisement 7 ++ replicate 100 0.

Example frame_reaches_one_component_witness :
  exists c', avb_process_1722_control_packet sample_packet_env sample_adp_frame 82 sample_control = Some (tt, c') /\
    is_Some (db_map (adp_entities (ct_adp c')) !! 7) /\ ct_acmp c' = ct_acmp sample_control /\ ct_maap c' = ct_maap sample_control.
Proof.
  destruct (frame_reaches_one_component sample_packet_env sample_adp_frame 82 sample_control) as (c' & E & _ & Hr).
  - apply sample_config_ok.
  - apply sample_control_ok.
  - done.
  - done.
  - by apply bytes_okb.
  - by apply Nat.leb_le; vm_compute.
  - done.
  - by vm_compute.
  - exists c'. split; [exact E|].
    change (etype sample_adp_frame =? AVB_1722_ETHERTYPE) with true in Hr. unfold routed in Hr.
    destruct (_ && _) eqn:Hb in Hr; [|by vm_compute in Hb]. destruct Hr as (s' & Es & ->).
    split_and!; [|done|done]. cbn [ct_adp upd_ct_adp].
    assert (Some (tt, s') = process_avb_1722_1_adp_packet (drop (eth_hdr_size sample_adp_frame) sample_adp_frame) (adp_view sample_control)) as Es' by done.
    vm_compute in Es'. injection Es' as ->. by eexists; vm_compute.
Defined.

Lemma sample_quiet : quiet sample_control.
Proof.
  constructor; try (by vm_compute); [by left| |by apply Nat.leb_le; vm_compute].
  intros e. apply (bool_decide_unpack _). by destruct e; vm_compute.
Qed.

Definition sample_ticks : list (Z * control_env) := (fun t => (t, sample_control_env t)) <$> sample_polls_maap.

Lemma sample_ticks_at : ticks_at 1000 5000000 sample_ticks.
Proof.
  split.
  - unfold sample_ticks. rewrite <- list_fmap_compose. change (fst ∘ _) with (fun t : Z => t). rewrite list_fmap_id.
    exact (polled_steps 5000000 1000 50 0 ltac:(lia)).
  - unfold sample_ticks. apply Forall_fmap, list.Forall_forall. intros t _. cbn. split; [split; cbn; lia|done].
Qed.

Example device_starts_up_witness :
  exists base c1 c', control_serve (LinkStatus true sample_packet_env) sample_control = Some (tt, c1) /\
    forM (snd <$> sample_ticks) (fun e => control_serve (Tick e)) c1 = Some (tt, c') /\
    configured (laws := device_laws) base 1 c' /\ announced c'.
Proof.
  destruct (device_starts_up (laws := device_laws) (ltac:(constructor; [by split|done|by split]) : adp_config_ok sample_acmp_config sample_adp_config)
    sample_packet_env 1000 5000000 sample_ticks sample_control) as (base & c1 & c' & _ & E1 & E & Hc).
  - done.
  - done.
  - by split.
  - apply sample_quiet.
  - intros i Hi. assert (i = 0) as -> by (cbn in Hi; lia). eexists. split; by vm_compute.
  - done.
  - constructor; [by apply sample_mac_ok..|done].
  - by split.
  - done.
  - by split.
  - apply sample_ticks_at.
  - exists base, c1, c'. split; [exact E1|]. split; [exact E|]. destruct Hc as [[_ HF] | (_ & _ & Hc & _ & Ha)]; [|by split].
    exfalso. revert HF. rewrite list.Forall_forall. intros HF. specialize (HF (250001000, sample_control_env 250001000)).
    assert ((250001000, sample_control_env 250001000) ∈ sample_ticks) as Hin.
    { unfold sample_ticks. apply list_elem_of_fmap. exists 250001000. split; [done|]. apply (bool_decide_unpack _). by vm_compute. }
    specialize (HF Hin). cbn [fst] in HF. pose proof (timeout_bound base) as HP.
    assert (maap_probe_timeout base <= 57) as Hp57.
    { unfold maap_probe_timeout, MAAP_PROBE_INTERVAL_BASE_CS. pose proof (Z.land_ones (base !!! 5%nat) 3) as Hl. change (Z.ones 3) with 7 in Hl.
      rewrite Hl by lia. pose proof (Z.mod_pos_bound (base !!! 5%nat) (2 ^ 3)). change (500 / 10) with 50. lia. }
    unfold TICKS_PER_CENTISECOND, XS1_TIMER_KHZ in *. lia.
Defined.
