(* ===== verification/GptpTypes.v ===== *)
(** Data of the gPTP protocol ([lib_tsn/src/ptp/gptp.xc], [gptp_pdu.h], [gptp_config.h],
    [gptp_internal.h], [lib_tsn/api/gptp.h]): timestamps and their arithmetic, the layout
    of messages, the state of the server. *)
From S2P Require Import Prelude Bytes PtpTime.
From stdpp Require Import base list list_numbers numbers option.
From Stdlib Require Import ZArith Lia.
#[local] Open Scope Z_scope.

(** * Timestamps *)

Definition NANOSECONDS_PER_SECOND : Z := 1000000000.

Record ptp_timestamp : Type := MkTimestamp {
  seconds_lo : Z;  (* unsigned int seconds[0] *)
  seconds_hi : Z;  (* unsigned int seconds[1] *)
  nanoseconds : Z;  (* unsigned int *)
}.
#[export] Instance ptp_timestamp_eq_dec : EqDecision ptp_timestamp.
Proof. solve_decision. Defined.

(** [seconds[0] | ((unsigned long long) seconds[1] << 32)] *)
Definition ts_sec (ts : ptp_timestamp) : Z := Z.lor (seconds_lo ts) (Z.shiftl (seconds_hi ts) 32).

Definition ptp_timestamp_offset64 (ts : ptp_timestamp) (offset : Z) : ptp_timestamp :=
  let nanosec := u64 (nanoseconds ts + offset) in
  let sec := u64 (ts_sec ts + nanosec / NANOSECONDS_PER_SECOND) in
  let nanosec := nanosec mod NANOSECONDS_PER_SECOND in
  MkTimestamp (u32 sec) (u32 (Z.shiftr sec 32)) (u32 nanosec).
Definition ptp_timestamp_offset (ts : ptp_timestamp) (offset : Z) : ptp_timestamp := ptp_timestamp_offset64 ts offset.

Definition ptp_timestamp_diff (a b : ptp_timestamp) : Z :=
  let sec_diff := s64 (ts_sec a - ts_sec b) in
  let nanosec_diff := s64 (nanoseconds a - nanoseconds b) in
  s64 (nanosec_diff + s64 (sec_diff * NANOSECONDS_PER_SECOND)).

(** * Local time and PTP time *)

Record ptp_time_info : Type := MkPtpInfo {
  ti_local_ts : Z;  (* unsigned int *)
  ti_ptp_ts : ptp_timestamp;
  ti_ptp_adjust : Z;  (* int *)
  ti_inv_ptp_adjust : Z;  (* int *)
}.

(** [t] is unsigned. *)
Definition local_time_to_ptp_time (t l_ptp_adjust : Z) : Z := adjusted (s64 (u32 t * 10)) l_ptp_adjust.

Definition _local_timestamp_to_ptp (local_ts reference_local_ts : Z) (reference_ptp_ts : ptp_timestamp)
    (ptp_adjust : Z) : ptp_timestamp :=
  let local_diff := u32 (s32 local_ts - s32 reference_local_ts) in
  ptp_timestamp_offset64 reference_ptp_ts (local_time_to_ptp_time local_diff ptp_adjust).
Definition local_timestamp_to_ptp (local_ts : Z) (info : ptp_time_info) : ptp_timestamp :=
  _local_timestamp_to_ptp local_ts (ti_local_ts info) (ti_ptp_ts info) (ti_ptp_adjust info).

(** [/] rounds towards zero. *)
Definition ptp_timestamp_to_local (ts : ptp_timestamp) (info : ptp_time_info) : Z :=
  let ptp_diff := ptp_timestamp_diff ts (ti_ptp_ts info) in
  let local_diff := Z.quot (adjusted ptp_diff (ti_inv_ptp_adjust info)) 10 in
  u32 (ti_local_ts info + local_diff).

(** * Timestamps in messages *)

(** Ten bytes. The words are little-endian in memory: [p[3]] is a word's highest byte. *)
Definition timestamp_to_network (ts : ptp_timestamp) : list Z :=
  let sec0_p := le_bytes 4 (seconds_lo ts) in
  let sec1_p := le_bytes 4 (seconds_hi ts) in
  let nsec_p := le_bytes 4 (nanoseconds ts) in
  [sec1_p !!! 3%nat; sec1_p !!! 2%nat] ++
  ((fun i => sec0_p !!! (5 - i)%nat) <$> seq 2 4) ++ ((fun i => nsec_p !!! (9 - i)%nat) <$> seq 6 4).

Definition network_to_ptp_timestamp (msg : list Z) : ptp_timestamp :=
  MkTimestamp (be_value [msg !!! 2%nat; msg !!! 3%nat; msg !!! 4%nat; msg !!! 5%nat])
              (be_value [msg !!! 0%nat; msg !!! 1%nat; 0; 0])
              (be_value [msg !!! 6%nat; msg !!! 7%nat; msg !!! 8%nat; msg !!! 9%nat]).

(** * Messages *)

Definition PTP_VERSION_NUMBER : Z := 2.
Definition PTP_SYNC_MESG : Z := 0x0.
Definition PTP_PDELAY_REQ_MESG : Z := 0x2.
Definition PTP_PDELAY_RESP_MESG : Z := 0x3.
Definition PTP_FOLLOW_UP_MESG : Z := 0x8.
Definition PTP_PDELAY_RESP_FOLLOW_UP_MESG : Z := 0xA.
Definition PTP_ANNOUNCE_MESG : Z := 0xB.
Definition PTP_CTL_FIELD_SYNC : Z := 0x0.
Definition PTP_CTL_FIELD_FOLLOW_UP : Z := 0x2.
Definition PTP_CTL_FIELD_OTHERS : Z := 0x5.
Definition PTP_TRANSPORT_SPECIFIC_HDR : Z := Z.shiftl 0x1 4.
Definition PTP_TRANSPORT_SPECIFIC_MASK : Z := 0xF0.
Definition GET_PTP_TRANSPORT_SPECIFIC (pkt : list Z) : Z :=
  Z.shiftr (Z.land (pkt !!! 0%nat) PTP_TRANSPORT_SPECIFIC_MASK) 4.
Definition PTP_ANNOUNCE_TLV_TYPE : Z := 0x8.
Definition PTP_DEFAULT_DEST_ADDR : list Z := [0x01; 0x80; 0xc2; 0x0; 0x0; 0xe].
Definition PTP_ETHERTYPE : Z := 0x88f7.

(** [ComMessageHdr] *)
Definition off_messageLength : nat := 2.
Definition off_domainNumber : nat := 4.
Definition off_flagField : nat := 6.
Definition off_correctionField : nat := 8.
Definition off_sourcePortIdentity : nat := 20.
Definition off_sequenceId : nat := 30.
Definition off_controlField : nat := 32.
Definition off_logMessageInterval : nat := 33.
Definition sizeof_ComMessageHdr : nat := 34.

(** [AnnounceMessage] *)
Definition off_grandmasterPriority1 : nat := 13.
Definition off_clockClass : nat := 14.
Definition off_clockAccuracy : nat := 15.
Definition off_clockOffsetScaledLogVariance : nat := 16.
Definition off_grandmasterPriority2 : nat := 18.
Definition off_grandmasterIdentity : nat := 19.
Definition off_stepsRemoved : nat := 27.
Definition off_tlvLength : nat := 32.
Definition off_pathSequence : nat := 34.
Definition sizeof_AnnounceMessage : nat := 98.

Definition sizeof_SyncMessage : nat := 10.
Definition sizeof_FollowUpMessage : nat := 42.
Definition sizeof_PdelayReqMessage : nat := 20.
(** [PdelayRespMessage] and [PdelayRespFollowUpMessage] *)
Definition off_requestingPortIdentity : nat := 10.
Definition off_requestingPortId : nat := 18.
Definition sizeof_PdelayRespMessage : nat := 20.

(** [data] of the fields of a message. *)
Definition field (off n : nat) (msg : list Z) : list Z := take n (drop off msg).
Definition ntoh16_at (off : nat) (msg : list Z) : Z := ntoh16 (msg !!! off) (msg !!! S off).

(** * Configuration *)

(** The number of ports, a number an application may define, and a debugging switch. *)
Class GptpConfig : Type := {
  PTP_NUM_PORTS : nat;
  PTP_DEFAULT_GM_CAPABLE_PRIORITY1 : Z;
  PTP_THROW_AWAY_SYNC_OUTLIERS : bool;
}.

Definition PTP_LOG_MIN_PDELAY_REQ_INTERVAL : Z := 0.
Definition PTP_LOG_SYNC_INTERVAL : Z := -3.
Definition PTP_LOG_ANNOUNCE_INTERVAL : Z := 0.
Definition PTP_LEAP61 : Z := 0.
Definition PTP_LEAP59 : Z := 1.
Definition PTP_CURRENT_UTC_OFFSET_VALID : Z := 1.
Definition PTP_TIMESCALE : Z := 1.
Definition PTP_TIME_TRACEABLE : Z := 0.
Definition PTP_FREQUENCY_TRACEABLE : Z := 0.
Definition PTP_CURRENT_UTC_OFFSET : Z := 35.
Definition PTP_DEFAULT_NON_GM_CAPABLE_PRIORITY1 : Z := 255.
Definition PTP_DEFAULT_PRIORITY2 : Z := 248.
Definition PTP_CLOCK_CLASS : Z := 248.
Definition PTP_CLOCK_ACCURACY : Z := 0x20.
Definition PTP_OFFSET_SCALED_LOG_VARIANCE : Z := 0x436A.
Definition PTP_TIMESOURCE : Z := 0xA0.
Definition PTP_MAXIMUM_PATH_TRACE_TLV : nat := 8.
Definition TIMER_TICKS_PER_SEC : Z := 100000000.
(** A shift by the width of a word or more gives zero, as on the xcore. *)
Definition LOG_SEC_TO_TIMER_TICKS (x : Z) : Z :=
  if x <? 0 then Z.shiftr TIMER_TICKS_PER_SEC (- x) else s32 (Z.shiftl TIMER_TICKS_PER_SEC x).
Definition PDELAY_REQ_PERIOD : Z := LOG_SEC_TO_TIMER_TICKS PTP_LOG_MIN_PDELAY_REQ_INTERVAL.
Definition SYNC_PERIOD : Z := LOG_SEC_TO_TIMER_TICKS PTP_LOG_SYNC_INTERVAL.
Definition PTP_SYNC_RECEIPT_TIMEOUT_MULTIPLE : Z := 3.
Definition ANNOUNCE_PERIOD : Z := LOG_SEC_TO_TIMER_TICKS PTP_LOG_ANNOUNCE_INTERVAL.
Definition PTP_ANNOUNCE_RECEIPT_TIMEOUT_MULTIPLE : Z := 3.
Definition RECV_ANNOUNCE_TIMEOUT : Z := PTP_ANNOUNCE_RECEIPT_TIMEOUT_MULTIPLE * ANNOUNCE_PERIOD.
Definition PTP_SYNC_LOCK_ACCEPTABLE_VARIATION : Z := 0x100000.
Definition PTP_SYNC_LOCK_STABILITY_COUNT : Z := 5.
Definition PTP_ALLOWED_LOST_RESPONSES : Z := 3.
Definition PTP_NEIGHBOR_PROP_DELAY_THRESH_NS : Z := 800.
Definition PTP_ADJUST_WEIGHT : Z := 32.
Definition PTP_PATH_DELAY_WEIGHT : Z := 32.
Definition ADJUST_CALC_PREC : Z := 35.
Definition UPDATE_REFERENCE_TIMESTAMP_PERIOD : Z := 500000000.
Definition PTP_PERIODIC_TIME : Z := 10000.
Definition MAX_PTP_MESG_LENGTH : nat := 164.

(** * State *)

Inductive ptp_port_role_t : Type := PTP_MASTER | PTP_UNCERTAIN | PTP_SLAVE | PTP_DISABLED.
#[export] Instance ptp_port_role_eq_dec : EqDecision ptp_port_role_t.
Proof. solve_decision. Defined.

(** What is handed to the Ethernet task. *)
Inductive gptp_event : Type := PtpTx (port_num : nat) (frame : list Z).

Record ptp_path_delay_t : Type := MkPathDelay {
  pd_valid : bool;  (* int valid *)
  pdelay : Z;  (* unsigned int *)
  lost_responses : Z;  (* unsigned int *)
  exchanges : Z;  (* unsigned int *)
  multiple_resp_count : Z;  (* unsigned int *)
  last_multiple_resp_seq_id : Z;  (* unsigned int *)
  rcvd_source_identity : list Z;  (* n80_t *)
}.

Definition upd_pd_valid (g : bool -> bool) (s : ptp_path_delay_t) : ptp_path_delay_t :=
  MkPathDelay (g (pd_valid s)) (pdelay s) (lost_responses s) (exchanges s) (multiple_resp_count s)
    (last_multiple_resp_seq_id s) (rcvd_source_identity s).
Definition upd_pdelay (g : Z -> Z) (s : ptp_path_delay_t) : ptp_path_delay_t :=
  MkPathDelay (pd_valid s) (g (pdelay s)) (lost_responses s) (exchanges s) (multiple_resp_count s)
    (last_multiple_resp_seq_id s) (rcvd_source_identity s).
Definition upd_lost_responses (g : Z -> Z) (s : ptp_path_delay_t) : ptp_path_delay_t :=
  MkPathDelay (pd_valid s) (pdelay s) (g (lost_responses s)) (exchanges s) (multiple_resp_count s)
    (last_multiple_resp_seq_id s) (rcvd_source_identity s).
Definition upd_exchanges (g : Z -> Z) (s : ptp_path_delay_t) : ptp_path_delay_t :=
  MkPathDelay (pd_valid s) (pdelay s) (lost_responses s) (g (exchanges s)) (multiple_resp_count s)
    (last_multiple_resp_seq_id s) (rcvd_source_identity s).
Definition upd_multiple_resp_count (g : Z -> Z) (s : ptp_path_delay_t) : ptp_path_delay_t :=
  MkPathDelay (pd_valid s) (pdelay s) (lost_responses s) (exchanges s) (g (multiple_resp_count s))
    (last_multiple_resp_seq_id s) (rcvd_source_identity s).
Definition upd_last_multiple_resp_seq_id (g : Z -> Z) (s : ptp_path_delay_t) : ptp_path_delay_t :=
  MkPathDelay (pd_valid s) (pdelay s) (lost_responses s) (exchanges s) (multiple_resp_count s)
    (g (last_multiple_resp_seq_id s)) (rcvd_source_identity s).
Definition upd_rcvd_source_identity (g : list Z -> list Z) (s : ptp_path_delay_t) : ptp_path_delay_t :=
  MkPathDelay (pd_valid s) (pdelay s) (lost_responses s) (exchanges s) (multiple_resp_count s)
    (last_multiple_resp_seq_id s) (g (rcvd_source_identity s)).

Record ptp_port_info_t : Type := MkPortInfo {
  asCapable : bool;  (* int *)
  role_state : ptp_port_role_t;
  delay_info : ptp_path_delay_t;
}.

Definition upd_asCapable (g : bool -> bool) (s : ptp_port_info_t) : ptp_port_info_t :=
  MkPortInfo (g (asCapable s)) (role_state s) (delay_info s).
Definition upd_role_state (g : ptp_port_role_t -> ptp_port_role_t) (s : ptp_port_info_t) : ptp_port_info_t :=
  MkPortInfo (asCapable s) (g (role_state s)) (delay_info s).
Definition upd_delay_info (g : ptp_path_delay_t -> ptp_path_delay_t) (s : ptp_port_info_t) : ptp_port_info_t :=
  MkPortInfo (asCapable s) (role_state s) (g (delay_info s)).

(** The arrays of [PTP_NUM_PORTS] elements, as one array of records. Times are unsigned. *)
Record port_vars : Type := MkPort {
  port_info : ptp_port_info_t;  (* ptp_port_info[i] *)
  last_received_announce_time_valid : bool;
  last_received_announce_time : Z;
  last_received_sync_time : Z;
  last_receive_sync_upstream_interval : Z;
  last_announce_time : Z;
  last_sync_time : Z;
  last_pdelay_req_time : Z;
  periodic_counter : Z;  (* int *)
  announce_seq_id : Z;  (* u16_t *)
  pdelay_req_seq_id : Z;  (* u16_t *)
  pdelay_request_sent : bool;
  pdelay_request_sent_ts : Z;
  received_pdelay : bool;
  received_pdelay_id : Z;  (* u16_t *)
  pdelay_resp_ingress_ts : Z;
  pdelay_request_receipt_ts : ptp_timestamp;
}.

Definition upd_port_info (g : ptp_port_info_t -> ptp_port_info_t) (s : port_vars) : port_vars :=
  MkPort (g (port_info s)) (last_received_announce_time_valid s) (last_received_announce_time s)
    (last_received_sync_time s) (last_receive_sync_upstream_interval s) (last_announce_time s) (last_sync_time s)
    (last_pdelay_req_time s) (periodic_counter s) (announce_seq_id s) (pdelay_req_seq_id s) (pdelay_request_sent s)
    (pdelay_request_sent_ts s) (received_pdelay s) (received_pdelay_id s) (pdelay_resp_ingress_ts s)
    (pdelay_request_receipt_ts s).
Definition upd_last_received_announce_time_valid (g : bool -> bool) (s : port_vars) : port_vars :=
  MkPort (port_info s) (g (last_received_announce_time_valid s)) (last_received_announce_time s)
    (last_received_sync_time s) (last_receive_sync_upstream_interval s) (last_announce_time s) (last_sync_time s)
    (last_pdelay_req_time s) (periodic_counter s) (announce_seq_id s) (pdelay_req_seq_id s) (pdelay_request_sent s)
    (pdelay_request_sent_ts s) (received_pdelay s) (received_pdelay_id s) (pdelay_resp_ingress_ts s)
    (pdelay_request_receipt_ts s).
Definition upd_last_received_announce_time (g : Z -> Z) (s : port_vars) : port_vars :=
  MkPort (port_info s) (last_received_announce_time_valid s) (g (last_received_announce_time s))
    (last_received_sync_time s) (last_receive_sync_upstream_interval s) (last_announce_time s) (last_sync_time s)
    (last_pdelay_req_time s) (periodic_counter s) (announce_seq_id s) (pdelay_req_seq_id s) (pdelay_request_sent s)
    (pdelay_request_sent_ts s) (received_pdelay s) (received_pdelay_id s) (pdelay_resp_ingress_ts s)
    (pdelay_request_receipt_ts s).
Definition upd_last_received_sync_time (g : Z -> Z) (s : port_vars) : port_vars :=
  MkPort (port_info s) (last_received_announce_time_valid s) (last_received_announce_time s)
    (g (last_received_sync_time s)) (last_receive_sync_upstream_interval s) (last_announce_time s) (last_sync_time s)
    (last_pdelay_req_time s) (periodic_counter s) (announce_seq_id s) (pdelay_req_seq_id s) (pdelay_request_sent s)
    (pdelay_request_sent_ts s) (received_pdelay s) (received_pdelay_id s) (pdelay_resp_ingress_ts s)
    (pdelay_request_receipt_ts s).
Definition upd_last_receive_sync_upstream_interval (g : Z -> Z) (s : port_vars) : port_vars :=
  MkPort (port_info s) (last_received_announce_time_valid s) (last_received_announce_time s)
    (last_received_sync_time s) (g (last_receive_sync_upstream_interval s)) (last_announce_time s) (last_sync_time s)
    (last_pdelay_req_time s) (periodic_counter s) (announce_seq_id s) (pdelay_req_seq_id s) (pdelay_request_sent s)
    (pdelay_request_sent_ts s) (received_pdelay s) (received_pdelay_id s) (pdelay_resp_ingress_ts s)
    (pdelay_request_receipt_ts s).
Definition upd_last_announce_time (g : Z -> Z) (s : port_vars) : port_vars :=
  MkPort (port_info s) (last_received_announce_time_valid s) (last_received_announce_time s)
    (last_received_sync_time s) (last_receive_sync_upstream_interval s) (g (last_announce_time s)) (last_sync_time s)
    (last_pdelay_req_time s) (periodic_counter s) (announce_seq_id s) (pdelay_req_seq_id s) (pdelay_request_sent s)
    (pdelay_request_sent_ts s) (received_pdelay s) (received_pdelay_id s) (pdelay_resp_ingress_ts s)
    (pdelay_request_receipt_ts s).
Definition upd_last_sync_time (g : Z -> Z) (s : port_vars) : port_vars :=
  MkPort (port_info s) (last_received_announce_time_valid s) (last_received_announce_time s)
    (last_received_sync_time s) (last_receive_sync_upstream_interval s) (last_announce_time s) (g (last_sync_time s))
    (last_pdelay_req_time s) (periodic_counter s) (announce_seq_id s) (pdelay_req_seq_id s) (pdelay_request_sent s)
    (pdelay_request_sent_ts s) (received_pdelay s) (received_pdelay_id s) (pdelay_resp_ingress_ts s)
    (pdelay_request_receipt_ts s).
Definition upd_last_pdelay_req_time (g : Z -> Z) (s : port_vars) : port_vars :=
  MkPort (port_info s) (last_received_announce_time_valid s) (last_received_announce_time s)
    (last_received_sync_time s) (last_receive_sync_upstream_interval s) (last_announce_time s) (last_sync_time s)
    (g (last_pdelay_req_time s)) (periodic_counter s) (announce_seq_id s) (pdelay_req_seq_id s) (pdelay_request_sent s)
    (pdelay_request_sent_ts s) (received_pdelay s) (received_pdelay_id s) (pdelay_resp_ingress_ts s)
    (pdelay_request_receipt_ts s).
Definition upd_periodic_counter (g : Z -> Z) (s : port_vars) : port_vars :=
  MkPort (port_info s) (last_received_announce_time_valid s) (last_received_announce_time s)
    (last_received_sync_time s) (last_receive_sync_upstream_interval s) (last_announce_time s) (last_sync_time s)
    (last_pdelay_req_time s) (g (periodic_counter s)) (announce_seq_id s) (pdelay_req_seq_id s) (pdelay_request_sent s)
    (pdelay_request_sent_ts s) (received_pdelay s) (received_pdelay_id s) (pdelay_resp_ingress_ts s)
    (pdelay_request_receipt_ts s).
Definition upd_announce_seq_id (g : Z -> Z) (s : port_vars) : port_vars :=
  MkPort (port_info s) (last_received_announce_time_valid s) (last_received_announce_time s)
    (last_received_sync_time s) (last_receive_sync_upstream_interval s) (last_announce_time s) (last_sync_time s)
    (last_pdelay_req_time s) (periodic_counter s) (g (announce_seq_id s)) (pdelay_req_seq_id s) (pdelay_request_sent s)
    (pdelay_request_sent_ts s) (received_pdelay s) (received_pdelay_id s) (pdelay_resp_ingress_ts s)
    (pdelay_request_receipt_ts s).
Definition upd_pdelay_req_seq_id (g : Z -> Z) (s : port_vars) : port_vars :=
  MkPort (port_info s) (last_received_announce_time_valid s) (last_received_announce_time s)
    (last_received_sync_time s) (last_receive_sync_upstream_interval s) (last_announce_time s) (last_sync_time s)
    (last_pdelay_req_time s) (periodic_counter s) (announce_seq_id s) (g (pdelay_req_seq_id s)) (pdelay_request_sent s)
    (pdelay_request_sent_ts s) (received_pdelay s) (received_pdelay_id s) (pdelay_resp_ingress_ts s)
    (pdelay_request_receipt_ts s).
Definition upd_pdelay_request_sent (g : bool -> bool) (s : port_vars) : port_vars :=
  MkPort (port_info s) (last_received_announce_time_valid s) (last_received_announce_time s)
    (last_received_sync_time s) (last_receive_sync_upstream_interval s) (last_announce_time s) (last_sync_time s)
    (last_pdelay_req_time s) (periodic_counter s) (announce_seq_id s) (pdelay_req_seq_id s) (g (pdelay_request_sent s))
    (pdelay_request_sent_ts s) (received_pdelay s) (received_pdelay_id s) (pdelay_resp_ingress_ts s)
    (pdelay_request_receipt_ts s).
Definition upd_pdelay_request_sent_ts (g : Z -> Z) (s : port_vars) : port_vars :=
  MkPort (port_info s) (last_received_announce_time_valid s) (last_received_announce_time s)
    (last_received_sync_time s) (last_receive_sync_upstream_interval s) (last_announce_time s) (last_sync_time s)
    (last_pdelay_req_time s) (periodic_counter s) (announce_seq_id s) (pdelay_req_seq_id s) (pdelay_request_sent s)
    (g (pdelay_request_sent_ts s)) (received_pdelay s) (received_pdelay_id s) (pdelay_resp_ingress_ts s)
    (pdelay_request_receipt_ts s).
Definition upd_received_pdelay (g : bool -> bool) (s : port_vars) : port_vars :=
  MkPort (port_info s) (last_received_announce_time_valid s) (last_received_announce_time s)
    (last_received_sync_time s) (last_receive_sync_upstream_interval s) (last_announce_time s) (last_sync_time s)
    (last_pdelay_req_time s) (periodic_counter s) (announce_seq_id s) (pdelay_req_seq_id s) (pdelay_request_sent s)
    (pdelay_request_sent_ts s) (g (received_pdelay s)) (received_pdelay_id s) (pdelay_resp_ingress_ts s)
    (pdelay_request_receipt_ts s).
Definition upd_received_pdelay_id (g : Z -> Z) (s : port_vars) : port_vars :=
  MkPort (port_info s) (last_received_announce_time_valid s) (last_received_announce_time s)
    (last_received_sync_time s) (last_receive_sync_upstream_interval s) (last_announce_time s) (last_sync_time s)
    (last_pdelay_req_time s) (periodic_counter s) (announce_seq_id s) (pdelay_req_seq_id s) (pdelay_request_sent s)
    (pdelay_request_sent_ts s) (received_pdelay s) (g (received_pdelay_id s)) (pdelay_resp_ingress_ts s)
    (pdelay_request_receipt_ts s).
Definition upd_pdelay_resp_ingress_ts (g : Z -> Z) (s : port_vars) : port_vars :=
  MkPort (port_info s) (last_received_announce_time_valid s) (last_received_announce_time s)
    (last_received_sync_time s) (last_receive_sync_upstream_interval s) (last_announce_time s) (last_sync_time s)
    (last_pdelay_req_time s) (periodic_counter s) (announce_seq_id s) (pdelay_req_seq_id s) (pdelay_request_sent s)
    (pdelay_request_sent_ts s) (received_pdelay s) (received_pdelay_id s) (g (pdelay_resp_ingress_ts s))
    (pdelay_request_receipt_ts s).
Definition upd_pdelay_request_receipt_ts (g : ptp_timestamp -> ptp_timestamp) (s : port_vars) : port_vars :=
  MkPort (port_info s) (last_received_announce_time_valid s) (last_received_announce_time s)
    (last_received_sync_time s) (last_receive_sync_upstream_interval s) (last_announce_time s) (last_sync_time s)
    (last_pdelay_req_time s) (periodic_counter s) (announce_seq_id s) (pdelay_req_seq_id s) (pdelay_request_sent s)
    (pdelay_request_sent_ts s) (received_pdelay s) (received_pdelay_id s) (pdelay_resp_ingress_ts s)
    (g (pdelay_request_receipt_ts s)).

(** The variables that relate local time to the grandmaster's. *)
Record ptp_clock : Type := MkClock {
  g_ptp_adjust_valid : bool;
  g_ptp_adjust : Z;  (* int *)
  g_inv_ptp_adjust : Z;  (* int *)
  ptp_reference_local_ts : Z;  (* unsigned *)
  ptp_reference_ptp_ts : ptp_timestamp;
  prev_adjust_master_ts : ptp_timestamp;
  prev_adjust_local_ts : Z;  (* unsigned *)
  prev_adjust_valid : bool;
  sync_lock : bool;
  sync_count : Z;  (* int *)
}.

Definition upd_g_ptp_adjust_valid (g : bool -> bool) (s : ptp_clock) : ptp_clock :=
  MkClock (g (g_ptp_adjust_valid s)) (g_ptp_adjust s) (g_inv_ptp_adjust s) (ptp_reference_local_ts s)
    (ptp_reference_ptp_ts s) (prev_adjust_master_ts s) (prev_adjust_local_ts s) (prev_adjust_valid s) (sync_lock s)
    (sync_count s).
Definition upd_g_ptp_adjust (g : Z -> Z) (s : ptp_clock) : ptp_clock :=
  MkClock (g_ptp_adjust_valid s) (g (g_ptp_adjust s)) (g_inv_ptp_adjust s) (ptp_reference_local_ts s)
    (ptp_reference_ptp_ts s) (prev_adjust_master_ts s) (prev_adjust_local_ts s) (prev_adjust_valid s) (sync_lock s)
    (sync_count s).
Definition upd_g_inv_ptp_adjust (g : Z -> Z) (s : ptp_clock) : ptp_clock :=
  MkClock (g_ptp_adjust_valid s) (g_ptp_adjust s) (g (g_inv_ptp_adjust s)) (ptp_reference_local_ts s)
    (ptp_reference_ptp_ts s) (prev_adjust_master_ts s) (prev_adjust_local_ts s) (prev_adjust_valid s) (sync_lock s)
    (sync_count s).
Definition upd_ptp_reference_local_ts (g : Z -> Z) (s : ptp_clock) : ptp_clock :=
  MkClock (g_ptp_adjust_valid s) (g_ptp_adjust s) (g_inv_ptp_adjust s) (g (ptp_reference_local_ts s))
    (ptp_reference_ptp_ts s) (prev_adjust_master_ts s) (prev_adjust_local_ts s) (prev_adjust_valid s) (sync_lock s)
    (sync_count s).
Definition upd_ptp_reference_ptp_ts (g : ptp_timestamp -> ptp_timestamp) (s : ptp_clock) : ptp_clock :=
  MkClock (g_ptp_adjust_valid s) (g_ptp_adjust s) (g_inv_ptp_adjust s) (ptp_reference_local_ts s)
    (g (ptp_reference_ptp_ts s)) (prev_adjust_master_ts s) (prev_adjust_local_ts s) (prev_adjust_valid s) (sync_lock s)
    (sync_count s).
Definition upd_prev_adjust_master_ts (g : ptp_timestamp -> ptp_timestamp) (s : ptp_clock) : ptp_clock :=
  MkClock (g_ptp_adjust_valid s) (g_ptp_adjust s) (g_inv_ptp_adjust s) (ptp_reference_local_ts s)
    (ptp_reference_ptp_ts s) (g (prev_adjust_master_ts s)) (prev_adjust_local_ts s) (prev_adjust_valid s) (sync_lock s)
    (sync_count s).
Definition upd_prev_adjust_local_ts (g : Z -> Z) (s : ptp_clock) : ptp_clock :=
  MkClock (g_ptp_adjust_valid s) (g_ptp_adjust s) (g_inv_ptp_adjust s) (ptp_reference_local_ts s)
    (ptp_reference_ptp_ts s) (prev_adjust_master_ts s) (g (prev_adjust_local_ts s)) (prev_adjust_valid s) (sync_lock s)
    (sync_count s).
Definition upd_prev_adjust_valid (g : bool -> bool) (s : ptp_clock) : ptp_clock :=
  MkClock (g_ptp_adjust_valid s) (g_ptp_adjust s) (g_inv_ptp_adjust s) (ptp_reference_local_ts s)
    (ptp_reference_ptp_ts s) (prev_adjust_master_ts s) (prev_adjust_local_ts s) (g (prev_adjust_valid s)) (sync_lock s)
    (sync_count s).
Definition upd_sync_lock (g : bool -> bool) (s : ptp_clock) : ptp_clock :=
  MkClock (g_ptp_adjust_valid s) (g_ptp_adjust s) (g_inv_ptp_adjust s) (ptp_reference_local_ts s)
    (ptp_reference_ptp_ts s) (prev_adjust_master_ts s) (prev_adjust_local_ts s) (prev_adjust_valid s) (g (sync_lock s))
    (sync_count s).
Definition upd_sync_count (g : Z -> Z) (s : ptp_clock) : ptp_clock :=
  MkClock (g_ptp_adjust_valid s) (g_ptp_adjust s) (g_inv_ptp_adjust s) (ptp_reference_local_ts s)
    (ptp_reference_ptp_ts s) (prev_adjust_master_ts s) (prev_adjust_local_ts s) (prev_adjust_valid s) (sync_lock s)
    (g (sync_count s)).

(** All static variables. The message [best_announce_msg] is kept as its bytes. *)
Record gptp : Type := MkGptp {
  ports : list port_vars;  (* [PTP_NUM_PORTS] *)
  clock : ptp_clock;
  steps_removed_from_gm : Z;  (* unsigned short *)
  ptp_last_gm_freq_change : Z;  (* int *)
  ptp_gm_timebase_ind : Z;  (* int *)
  my_port_id : list Z;  (* n64_t *)
  master_port_id : list Z;  (* n80_t *)
  ptp_priority1 : Z;  (* u8_t *)
  received_sync : bool;  (* unsigned *)
  received_sync_id : Z;  (* u16_t *)
  received_sync_ts : Z;  (* unsigned *)
  best_announce_msg : list Z;  (* AnnounceMessage *)
  pdelay_epoch_timer : Z;  (* unsigned long long *)
  prev_pdelay_local_ts : Z;  (* unsigned *)
  tile_timer_offset : Z;  (* int *)
  src_mac_addr : list Z;  (* unsigned char[6] *)
  sync_seq_id : Z;  (* u16_t *)
  gptp_out : list gptp_event;  (* oldest first *)
}.

Definition upd_ports (g : list port_vars -> list port_vars) (s : gptp) : gptp :=
  MkGptp (g (ports s)) (clock s) (steps_removed_from_gm s) (ptp_last_gm_freq_change s) (ptp_gm_timebase_ind s)
    (my_port_id s) (master_port_id s) (ptp_priority1 s) (received_sync s) (received_sync_id s) (received_sync_ts s)
    (best_announce_msg s) (pdelay_epoch_timer s) (prev_pdelay_local_ts s) (tile_timer_offset s) (src_mac_addr s)
    (sync_seq_id s) (gptp_out s).
Definition upd_clock (g : ptp_clock -> ptp_clock) (s : gptp) : gptp :=
  MkGptp (ports s) (g (clock s)) (steps_removed_from_gm s) (ptp_last_gm_freq_change s) (ptp_gm_timebase_ind s)
    (my_port_id s) (master_port_id s) (ptp_priority1 s) (received_sync s) (received_sync_id s) (received_sync_ts s)
    (best_announce_msg s) (pdelay_epoch_timer s) (prev_pdelay_local_ts s) (tile_timer_offset s) (src_mac_addr s)
    (sync_seq_id s) (gptp_out s).
Definition upd_steps_removed_from_gm (g : Z -> Z) (s : gptp) : gptp :=
  MkGptp (ports s) (clock s) (g (steps_removed_from_gm s)) (ptp_last_gm_freq_change s) (ptp_gm_timebase_ind s)
    (my_port_id s) (master_port_id s) (ptp_priority1 s) (received_sync s) (received_sync_id s) (received_sync_ts s)
    (best_announce_msg s) (pdelay_epoch_timer s) (prev_pdelay_local_ts s) (tile_timer_offset s) (src_mac_addr s)
    (sync_seq_id s) (gptp_out s).
Definition upd_ptp_last_gm_freq_change (g : Z -> Z) (s : gptp) : gptp :=
  MkGptp (ports s) (clock s) (steps_removed_from_gm s) (g (ptp_last_gm_freq_change s)) (ptp_gm_timebase_ind s)
    (my_port_id s) (master_port_id s) (ptp_priority1 s) (received_sync s) (received_sync_id s) (received_sync_ts s)
    (best_announce_msg s) (pdelay_epoch_timer s) (prev_pdelay_local_ts s) (tile_timer_offset s) (src_mac_addr s)
    (sync_seq_id s) (gptp_out s).
Definition upd_ptp_gm_timebase_ind (g : Z -> Z) (s : gptp) : gptp :=
  MkGptp (ports s) (clock s) (steps_removed_from_gm s) (ptp_last_gm_freq_change s) (g (ptp_gm_timebase_ind s))
    (my_port_id s) (master_port_id s) (ptp_priority1 s) (received_sync s) (received_sync_id s) (received_sync_ts s)
    (best_announce_msg s) (pdelay_epoch_timer s) (prev_pdelay_local_ts s) (tile_timer_offset s) (src_mac_addr s)
    (sync_seq_id s) (gptp_out s).
Definition upd_my_port_id (g : list Z -> list Z) (s : gptp) : gptp :=
  MkGptp (ports s) (clock s) (steps_removed_from_gm s) (ptp_last_gm_freq_change s) (ptp_gm_timebase_ind s)
    (g (my_port_id s)) (master_port_id s) (ptp_priority1 s) (received_sync s) (received_sync_id s) (received_sync_ts s)
    (best_announce_msg s) (pdelay_epoch_timer s) (prev_pdelay_local_ts s) (tile_timer_offset s) (src_mac_addr s)
    (sync_seq_id s) (gptp_out s).
Definition upd_master_port_id (g : list Z -> list Z) (s : gptp) : gptp :=
  MkGptp (ports s) (clock s) (steps_removed_from_gm s) (ptp_last_gm_freq_change s) (ptp_gm_timebase_ind s)
    (my_port_id s) (g (master_port_id s)) (ptp_priority1 s) (received_sync s) (received_sync_id s) (received_sync_ts s)
    (best_announce_msg s) (pdelay_epoch_timer s) (prev_pdelay_local_ts s) (tile_timer_offset s) (src_mac_addr s)
    (sync_seq_id s) (gptp_out s).
Definition upd_ptp_priority1 (g : Z -> Z) (s : gptp) : gptp :=
  MkGptp (ports s) (clock s) (steps_removed_from_gm s) (ptp_last_gm_freq_change s) (ptp_gm_timebase_ind s)
    (my_port_id s) (master_port_id s) (g (ptp_priority1 s)) (received_sync s) (received_sync_id s) (received_sync_ts s)
    (best_announce_msg s) (pdelay_epoch_timer s) (prev_pdelay_local_ts s) (tile_timer_offset s) (src_mac_addr s)
    (sync_seq_id s) (gptp_out s).
Definition upd_received_sync (g : bool -> bool) (s : gptp) : gptp :=
  MkGptp (ports s) (clock s) (steps_removed_from_gm s) (ptp_last_gm_freq_change s) (ptp_gm_timebase_ind s)
    (my_port_id s) (master_port_id s) (ptp_priority1 s) (g (received_sync s)) (received_sync_id s) (received_sync_ts s)
    (best_announce_msg s) (pdelay_epoch_timer s) (prev_pdelay_local_ts s) (tile_timer_offset s) (src_mac_addr s)
    (sync_seq_id s) (gptp_out s).
Definition upd_received_sync_id (g : Z -> Z) (s : gptp) : gptp :=
  MkGptp (ports s) (clock s) (steps_removed_from_gm s) (ptp_last_gm_freq_change s) (ptp_gm_timebase_ind s)
    (my_port_id s) (master_port_id s) (ptp_priority1 s) (received_sync s) (g (received_sync_id s)) (received_sync_ts s)
    (best_announce_msg s) (pdelay_epoch_timer s) (prev_pdelay_local_ts s) (tile_timer_offset s) (src_mac_addr s)
    (sync_seq_id s) (gptp_out s).
Definition upd_received_sync_ts (g : Z -> Z) (s : gptp) : gptp :=
  MkGptp (ports s) (clock s) (steps_removed_from_gm s) (ptp_last_gm_freq_change s) (ptp_gm_timebase_ind s)
    (my_port_id s) (master_port_id s) (ptp_priority1 s) (received_sync s) (received_sync_id s) (g (received_sync_ts s))
    (best_announce_msg s) (pdelay_epoch_timer s) (prev_pdelay_local_ts s) (tile_timer_offset s) (src_mac_addr s)
    (sync_seq_id s) (gptp_out s).
Definition upd_best_announce_msg (g : list Z -> list Z) (s : gptp) : gptp :=
  MkGptp (ports s) (clock s) (steps_removed_from_gm s) (ptp_last_gm_freq_change s) (ptp_gm_timebase_ind s)
    (my_port_id s) (master_port_id s) (ptp_priority1 s) (received_sync s) (received_sync_id s) (received_sync_ts s)
    (g (best_announce_msg s)) (pdelay_epoch_timer s) (prev_pdelay_local_ts s) (tile_timer_offset s) (src_mac_addr s)
    (sync_seq_id s) (gptp_out s).
Definition upd_pdelay_epoch_timer (g : Z -> Z) (s : gptp) : gptp :=
  MkGptp (ports s) (clock s) (steps_removed_from_gm s) (ptp_last_gm_freq_change s) (ptp_gm_timebase_ind s)
    (my_port_id s) (master_port_id s) (ptp_priority1 s) (received_sync s) (received_sync_id s) (received_sync_ts s)
    (best_announce_msg s) (g (pdelay_epoch_timer s)) (prev_pdelay_local_ts s) (tile_timer_offset s) (src_mac_addr s)
    (sync_seq_id s) (gptp_out s).
Definition upd_prev_pdelay_local_ts (g : Z -> Z) (s : gptp) : gptp :=
  MkGptp (ports s) (clock s) (steps_removed_from_gm s) (ptp_last_gm_freq_change s) (ptp_gm_timebase_ind s)
    (my_port_id s) (master_port_id s) (ptp_priority1 s) (received_sync s) (received_sync_id s) (received_sync_ts s)
    (best_announce_msg s) (pdelay_epoch_timer s) (g (prev_pdelay_local_ts s)) (tile_timer_offset s) (src_mac_addr s)
    (sync_seq_id s) (gptp_out s).
Definition upd_tile_timer_offset (g : Z -> Z) (s : gptp) : gptp :=
  MkGptp (ports s) (clock s) (steps_removed_from_gm s) (ptp_last_gm_freq_change s) (ptp_gm_timebase_ind s)
    (my_port_id s) (master_port_id s) (ptp_priority1 s) (received_sync s) (received_sync_id s) (received_sync_ts s)
    (best_announce_msg s) (pdelay_epoch_timer s) (prev_pdelay_local_ts s) (g (tile_timer_offset s)) (src_mac_addr s)
    (sync_seq_id s) (gptp_out s).
Definition upd_src_mac_addr (g : list Z -> list Z) (s : gptp) : gptp :=
  MkGptp (ports s) (clock s) (steps_removed_from_gm s) (ptp_last_gm_freq_change s) (ptp_gm_timebase_ind s)
    (my_port_id s) (master_port_id s) (ptp_priority1 s) (received_sync s) (received_sync_id s) (received_sync_ts s)
    (best_announce_msg s) (pdelay_epoch_timer s) (prev_pdelay_local_ts s) (tile_timer_offset s) (g (src_mac_addr s))
    (sync_seq_id s) (gptp_out s).
Definition upd_sync_seq_id (g : Z -> Z) (s : gptp) : gptp :=
  MkGptp (ports s) (clock s) (steps_removed_from_gm s) (ptp_last_gm_freq_change s) (ptp_gm_timebase_ind s)
    (my_port_id s) (master_port_id s) (ptp_priority1 s) (received_sync s) (received_sync_id s) (received_sync_ts s)
    (best_announce_msg s) (pdelay_epoch_timer s) (prev_pdelay_local_ts s) (tile_timer_offset s) (src_mac_addr s)
    (g (sync_seq_id s)) (gptp_out s).
Definition upd_gptp_out (g : list gptp_event -> list gptp_event) (s : gptp) : gptp :=
  MkGptp (ports s) (clock s) (steps_removed_from_gm s) (ptp_last_gm_freq_change s) (ptp_gm_timebase_ind s)
    (my_port_id s) (master_port_id s) (ptp_priority1 s) (received_sync s) (received_sync_id s) (received_sync_ts s)
    (best_announce_msg s) (pdelay_epoch_timer s) (prev_pdelay_local_ts s) (tile_timer_offset s) (src_mac_addr s)
    (sync_seq_id s) (g (gptp_out s)).

(** Static storage before the initialisation. *)
Definition zero_timestamp : ptp_timestamp := MkTimestamp 0 0 0.
Definition zero_port : port_vars :=
  MkPort (MkPortInfo false PTP_MASTER (MkPathDelay false 0 0 0 0 0 (replicate 10 0)))
    false 0 0 0 0 0 0 0 0 0 false 0 false 0 0 zero_timestamp.
Definition zero_clock : ptp_clock := MkClock false 0 0 0 zero_timestamp zero_timestamp 0 false false 0.
Definition zero_gptp `{GptpConfig} : gptp :=
  MkGptp (replicate PTP_NUM_PORTS zero_port) zero_clock 0 0 0 (replicate 8 0) (replicate 10 0) 0 false 0 0
    (replicate sizeof_AnnounceMessage 0) 0 0 0 (replicate 6 0) 0 [].

(** * Fields of messages *)

Lemma ntoh16_at_app pre x y post off : length pre = off -> ntoh16_at off (pre ++ x :: y :: post) = ntoh16 x y.
Proof.
  intros <-. unfold ntoh16_at. rewrite (lookup_total_app_r pre _ (length pre)), (lookup_total_app_r pre _ (S _)), Nat.sub_diag by lia.
  by replace (S (length pre) - length pre)%nat with 1%nat by lia.
Qed.

Lemma field_app (off n : nat) (pre l : list Z) : length pre = off -> field off n (pre ++ l) = take n l.
Proof. intros <-. unfold field. by rewrite drop_app_length. Qed.

Lemma field_lookup off n (l : list Z) i : (i < n)%nat -> field off n l !!! i = l !!! (off + i)%nat.
Proof. intros H. unfold field. rewrite lookup_total_take, decide_True by done. apply lookup_total_drop. Qed.

Lemma field_length off n (l : list Z) : (off + n <= length l)%nat -> length (field off n l) = n.
Proof. intros H. unfold field. rewrite length_take, length_drop. lia. Qed.

Lemma timestamp_length ts : length (timestamp_to_network ts) = 10%nat.
Proof. done. Qed.
