(* ===== verification/Gptp.v ===== *)
(** The gPTP protocol ([lib_tsn/src/ptp/gptp.xc], [gptp_server.xc]): the rate and the
    reference of the clock, the choice of the best master, path delays, the messages both
    ways, the periodic function, the server. *)
From S2P Require Import Prelude Bytes MiscTimer PtpTime GptpTypes.
From stdpp Require Import base list list_numbers numbers option.
From Stdlib Require Import ZArith Lia.
#[local] Open Scope Z_scope.

(** What a call reads from outside: the clock, and the time a frame leaves, each numbered
    by the place in the code that takes it. *)
Record gptp_env : Type := MkGptpEnv {
  ge_time : nat -> Z;
  ge_egress : nat -> Z;
}.

Section Gptp.
Context `{cfg : GptpConfig}.
Abbreviation PM := (M gptp).

Definition get_port (port_num : nat) : PM port_vars := load (fun s => ports s !! port_num).
Definition upd_port (port_num : nat) (g : port_vars -> port_vars) : PM unit :=
  store (fun s => p ← ports s !! port_num; Some (upd_ports (<[port_num := g p]>) s)).
Definition upd_info (port_num : nat) (g : ptp_port_info_t -> ptp_port_info_t) : PM unit :=
  upd_port port_num (upd_port_info g).
Definition upd_delay (port_num : nat) (g : ptp_path_delay_t -> ptp_path_delay_t) : PM unit :=
  upd_info port_num (upd_delay_info g).

(** * The clock *)

(** [ptp_get_reference_ptp_ts_mod_64], and [ptp_get_local_time_info_mod64] of the server. *)
Definition ptp_get_reference_ptp_ts_mod_64 (c : ptp_clock) : Z * Z :=
  let ts := ptp_reference_ptp_ts c in
  let t := u64 (u64 (seconds_lo ts + Z.shiftl (seconds_hi ts) 32) * NANOSECONDS_PER_SECOND) in
  let t := u64 (t + nanoseconds ts) in
  (Z.shiftr t 32, u32 t).
Definition ptp_get_local_time_info_mod64 (c : ptp_clock) : ptp_time_info_mod64 :=
  let '(hi, lo) := ptp_get_reference_ptp_ts_mod_64 c in
  MkTimeInfo (ptp_reference_local_ts c) hi lo (g_ptp_adjust c) (g_inv_ptp_adjust c).
(** [ptp_give_requested_time_info] *)
Definition ptp_give_requested_time_info (c : ptp_clock) : ptp_time_info :=
  MkPtpInfo (ptp_reference_local_ts c) (ptp_reference_ptp_ts c) (g_ptp_adjust c) (g_inv_ptp_adjust c).

Definition local_to_ptp_ts (c : ptp_clock) (local_ts : Z) : ptp_timestamp :=
  _local_timestamp_to_ptp local_ts (ptp_reference_local_ts c) (ptp_reference_ptp_ts c) (g_ptp_adjust c).

(** Whether the lock is lost. *)
Definition update_sync_lock (diff : Z) (c : ptp_clock) : bool * ptp_clock :=
  if negb (sync_lock c) then
    if diff <? PTP_SYNC_LOCK_ACCEPTABLE_VARIATION then
      let c := upd_sync_count (fun n => s32 (n + 1)) c in
      (false, if PTP_SYNC_LOCK_STABILITY_COUNT <? sync_count c
              then upd_sync_lock (fun _ => true) (upd_sync_count (fun _ => 0) c) else c)
    else (false, upd_sync_count (fun _ => 0) c)
  else if PTP_SYNC_LOCK_ACCEPTABLE_VARIATION <? diff then
    let c := upd_sync_count (fun n => s32 (n + 1)) c in
    if PTP_SYNC_LOCK_STABILITY_COUNT <? sync_count c
    then (true, upd_sync_lock (fun _ => false) (upd_sync_count (fun _ => 0) c)) else (false, c)
  else (false, upd_sync_count (fun _ => 0) c).

(** [x / d] with [ADJUST_CALC_PREC] bits behind the point, cut to [PTP_ADJUST_PREC]. *)
Definition adjust_ratio (x d : Z) : Z :=
  Z.shiftr (s64 (Z.quot (s64 (Z.shiftl x ADJUST_CALC_PREC)) d)) (ADJUST_CALC_PREC - PTP_ADJUST_PREC).
Definition weighted (old new : Z) : Z :=
  s32 (Z.quot (s64 (s64 (old * (PTP_ADJUST_WEIGHT - 1)) + new)) PTP_ADJUST_WEIGHT).

(** The result is 1 if the measurement is thrown away. *)
Definition update_adjust (master_ts : ptp_timestamp) (local_ts : Z) (c : ptp_clock) : bool * ptp_clock :=
  let remember (c : ptp_clock) :=
    upd_prev_adjust_local_ts (fun _ => local_ts)
      (upd_prev_adjust_master_ts (fun _ => master_ts) (upd_prev_adjust_valid (fun _ => true) c)) in
  let forget (c : ptp_clock) := upd_prev_adjust_valid (fun _ => false) c in
  if prev_adjust_valid c then
    let master_diff := ptp_timestamp_diff master_ts (prev_adjust_master_ts c) in
    let local_diff := s64 (s32 (s32 local_ts - s32 (prev_adjust_local_ts c)) * 10) in
    if PTP_THROW_AWAY_SYNC_OUTLIERS && ((150000000 <? master_diff) || (master_diff <? 100000000))
    then (true, forget c)
    else if (master_diff =? 0) || (local_diff =? 0) then (true, forget c)
    else
      let adjust := adjust_ratio (s64 (master_diff - local_diff)) master_diff in
      let inv_adjust := adjust_ratio (s64 (local_diff - master_diff)) local_diff in
      if g_ptp_adjust_valid c then
        let diff := s64 (adjust - g_ptp_adjust c) in
        let '(lost, c) := update_sync_lock (if diff <? 0 then s64 (- diff) else diff) c in
        if (lost : bool) then (true, forget c)
        else (false, remember (upd_g_ptp_adjust (fun a => weighted a adjust)
                                 (upd_g_inv_ptp_adjust (fun a => weighted a inv_adjust) c)))
      else (false, remember (upd_g_ptp_adjust (fun _ => s32 adjust) (upd_g_inv_ptp_adjust (fun _ => s32 inv_adjust)
                               (upd_g_ptp_adjust_valid (fun _ => true) c))))
  else (false, remember c).

Definition update_reference_timestamps (master_egress_ts : ptp_timestamp) (local_ingress_ts pdelay : Z)
    (c : ptp_clock) : ptp_clock :=
  upd_ptp_reference_local_ts (fun _ => local_ingress_ts)
    (upd_ptp_reference_ptp_ts (fun _ => ptp_timestamp_offset64 master_egress_ts pdelay) c).

Definition periodic_update_reference_timestamps (local_ts : Z) (c : ptp_clock) : ptp_clock :=
  let local_diff := s32 (local_ts - ptp_reference_local_ts c) in
  if UPDATE_REFERENCE_TIMESTAMP_PERIOD <? local_diff then
    let ptp_diff := local_time_to_ptp_time local_diff (g_ptp_adjust c) in
    upd_ptp_reference_local_ts (fun _ => local_ts)
      (upd_ptp_reference_ptp_ts (fun ts => ptp_timestamp_offset64 ts ptp_diff) c)
  else c.

(** * Path delays *)

Definition path_delay (master_ingress_ts master_egress_ts : ptp_timestamp) (local_egress_ts local_ingress_ts g_ptp_adjust : Z) : Z :=
  let master_diff := ptp_timestamp_diff master_egress_ts master_ingress_ts in
  let local_diff := s32 (s32 local_ingress_ts - s32 local_egress_ts) in
  let local_diff := local_time_to_ptp_time local_diff g_ptp_adjust in
  let delay := Z.quot (s64 (local_diff - master_diff)) 2 in
  if delay <? 0 then 0 else delay.

Definition update_path_delay (master_ingress_ts master_egress_ts : ptp_timestamp)
    (local_egress_ts local_ingress_ts g_ptp_adjust : Z) (d : ptp_path_delay_t) : ptp_path_delay_t :=
  let delay := path_delay master_ingress_ts master_egress_ts local_egress_ts local_ingress_ts g_ptp_adjust in
  if pd_valid d then
    upd_pdelay (fun p => u32 (u32 (p * (PTP_PATH_DELAY_WEIGHT - 1)) + s32 delay) / PTP_PATH_DELAY_WEIGHT) d
  else upd_pdelay (fun _ => u32 delay) (upd_pd_valid (fun _ => true) d).

(** * Roles *)

(** [create_my_announce_msg(&best_announce_msg)]: what it does not write stays. *)
Definition create_my_announce_msg (s : gptp) : list Z :=
  let old := best_announce_msg s in
  take 10 old ++ hton16 PTP_CURRENT_UTC_OFFSET ++ [old !!! 12%nat; ptp_priority1 s] ++
  [PTP_CLOCK_CLASS; PTP_CLOCK_ACCURACY] ++ hton16 PTP_OFFSET_SCALED_LOG_VARIANCE ++ [PTP_DEFAULT_PRIORITY2] ++
  my_port_id s ++ hton16 0 ++ [PTP_TIMESOURCE] ++ hton16 PTP_ANNOUNCE_TLV_TYPE ++ hton16 8 ++
  my_port_id s ++ drop (off_pathSequence + 8) old.

(** [port_num] of two ports, the other one. *)
Definition other_port (port_num : nat) : nat := if (port_num =? 0)%nat then 1 else 0.
Definition has_role (role : ptp_port_role_t) (port_num : nat) : PM bool :=
  p ← get_port port_num; mret (bool_decide (role_state (port_info p) = role)).

(** [t] is the local time. *)
Definition set_new_role (t : Z) (new_role : ptp_port_role_t) (port_num : nat) : PM unit :=
  _ ← whenM (bool_decide (new_role = PTP_SLAVE))
        (_ ← upd_delay port_num (upd_pd_valid (fun _ => false));
         _ ← modify (upd_clock (fun c =>
               upd_g_ptp_adjust (fun _ => 0) (upd_g_inv_ptp_adjust (fun _ => 0)
               (upd_prev_adjust_valid (fun _ => false) (upd_g_ptp_adjust_valid (fun _ => false)
               (upd_sync_lock (fun _ => false) (upd_sync_count (fun _ => 0) c)))))));
         upd_port port_num (upd_last_pdelay_req_time (fun _ => t)));
  _ ← whenM (bool_decide (new_role = PTP_MASTER))
        (_ ← modify (fun s => upd_ptp_last_gm_freq_change (fun _ => s32 (Z.shiftl (g_inv_ptp_adjust (clock s)) 11)) s);
         _ ← modify (upd_ptp_gm_timebase_ind (fun n => s32 (n + 1)));
         _ ← modify (upd_clock (fun c => upd_g_ptp_adjust (fun _ => 0) (upd_g_inv_ptp_adjust (fun _ => 0) c)));
         upd_port port_num (fun p => upd_last_sync_time (fun _ => t) (upd_last_announce_time (fun _ => t) p)));
  _ ← upd_info port_num (upd_role_state (fun _ => new_role));
  other ← (if (PTP_NUM_PORTS =? 2)%nat then has_role PTP_MASTER (other_port port_num) else mret true);
  whenM (bool_decide (new_role = PTP_MASTER \/ new_role = PTP_UNCERTAIN) && other)
    (modify (fun s => upd_best_announce_msg (fun _ => create_my_announce_msg s) s)).

(** The first byte in which the two differ: 1 if [c1] is the smaller, that is the better one. *)
Fixpoint compare_bytes (c1 c2 : list Z) : Z :=
  match c1, c2 with
  | x :: c1, y :: c2 => if y <? x then -1 else if x <? y then 1 else compare_bytes c1 c2
  | _, _ => 0
  end.
Definition compare_clock_identity (c1 c2 : list Z) : Z := compare_bytes c1 c2.
Definition compare_clock_identity_to_me (clockIdentity my_port_id : list Z) : Z := compare_bytes clockIdentity my_port_id.

Definition clockIdentity_of (announce : list Z) : list Z := field off_grandmasterIdentity 8 announce.

(** The value of [new_best]. *)
Definition bmca_new_best (announce best my_port_id : list Z) : Z :=
  if compare_clock_identity_to_me (clockIdentity_of announce) my_port_id =? 0 then 0
  else if best !!! off_grandmasterPriority1 <? announce !!! off_grandmasterPriority1 then -1
  else if announce !!! off_grandmasterPriority1 <? best !!! off_grandmasterPriority1 then 1
  else if best !!! off_clockClass <? announce !!! off_clockClass then -1
  else if announce !!! off_clockClass <? best !!! off_clockClass then 1
  else if best !!! off_clockAccuracy <? announce !!! off_clockAccuracy then -1
  else if announce !!! off_clockAccuracy <? best !!! off_clockAccuracy then 1
  else if ntoh16_at off_clockOffsetScaledLogVariance best <? ntoh16_at off_clockOffsetScaledLogVariance announce then -1
  else if ntoh16_at off_clockOffsetScaledLogVariance announce <? ntoh16_at off_clockOffsetScaledLogVariance best then 1
  else if best !!! off_grandmasterPriority2 <? announce !!! off_grandmasterPriority2 then -1
  else if announce !!! off_grandmasterPriority2 <? best !!! off_grandmasterPriority2 then 1
  else if compare_clock_identity (clockIdentity_of announce) (clockIdentity_of best) <=? 0 then 0
  else 1.

(** [msg] begins with the common header. *)
Definition bmca_update_roles (env : gptp_env) (msg : list Z) (port_num : nat) : PM unit :=
  let announce := field sizeof_ComMessageHdr sizeof_AnnounceMessage msg in
  let source := field off_sourcePortIdentity 10 msg in
  s ← gets (fun s => s);
  let new_best := bmca_new_best announce (best_announce_msg s) (my_port_id s) in
  if 0 <? new_best then
    _ ← modify (upd_best_announce_msg (fun _ => announce));
    _ ← modify (upd_master_port_id (fun _ => source));
    _ ← set_new_role (ge_time env 0) PTP_SLAVE port_num;
    _ ← whenM (PTP_NUM_PORTS =? 2)%nat (set_new_role (ge_time env 1) PTP_MASTER (other_port port_num));
    _ ← upd_port port_num (upd_last_received_announce_time_valid (fun _ => false));
    modify (upd_master_port_id (fun _ => source))
  else
    slave ← has_role PTP_SLAVE port_num;
    whenM ((new_best <? 0) && slave)
      (_ ← set_new_role (ge_time env 0) PTP_MASTER port_num;
       upd_port port_num (upd_last_received_announce_time_valid (fun _ => false))).

Definition set_ascapable (t : Z) (eth_port : nat) : PM unit :=
  p ← get_port eth_port;
  whenM (negb (asCapable (port_info p)))
    (_ ← upd_info eth_port (upd_asCapable (fun _ => true)); set_new_role t PTP_MASTER eth_port).

Definition reset_ascapable (t : Z) (eth_port : nat) : PM unit :=
  p ← get_port eth_port;
  whenM (asCapable (port_info p))
    (_ ← upd_info eth_port (upd_asCapable (fun _ => false));
     _ ← upd_delay eth_port (fun d => upd_exchanges (fun _ => 0) (upd_pdelay (fun _ => 0) (upd_pd_valid (fun _ => false) d)));
     set_new_role t PTP_MASTER eth_port).

Definition pdelay_req_reset (t : Z) (src_port : nat) : PM unit :=
  p ← get_port src_port;
  if lost_responses (delay_info (port_info p)) <? PTP_ALLOWED_LOST_RESPONSES
  then upd_delay src_port (upd_lost_responses (fun n => u32 (n + 1)))
  else reset_ascapable t src_port.

(** * Messages out *)

(** The bytes up to the minimal length are those the buffers hold behind a short message: zeros. *)
Definition ptp_tx (port_num : nat) (frame : list Z) : PM unit :=
  modify (upd_gptp_out (fun l => l ++ [PtpTx port_num (frame ++ replicate (64 - length frame) 0)])).
(** [egress] is the time the Ethernet task reports. *)
Definition ptp_tx_timed (egress : Z) (port_num : nat) (frame : list Z) : PM Z :=
  _ ← ptp_tx port_num frame; gets (fun s => u32 (egress - tile_timer_offset s)).

Definition set_ptp_ethernet_hdr (src_mac_addr : list Z) : list Z :=
  PTP_DEFAULT_DEST_ADDR ++ src_mac_addr ++ [Z.shiftr PTP_ETHERTYPE 8; Z.land PTP_ETHERTYPE 0xff].

(** The [sourcePortIdentity] of a port. *)
Definition port_identity (my_port_id : list Z) (port_num : nat) : list Z := my_port_id ++ [0; u8 (Z.of_nat port_num + 1)].

(** The common header, its fields in their order. *)
Definition com_header (message_type messageLength domainNumber flag0 flag1 : Z) (correctionField source sequenceId : list Z)
    (controlField logMessageInterval : Z) : list Z :=
  [Z.lor PTP_TRANSPORT_SPECIFIC_HDR message_type; PTP_VERSION_NUMBER] ++ hton16 messageLength ++
  [domainNumber; 0; flag0; flag1] ++ correctionField ++ [0; 0; 0; 0] ++ source ++ sequenceId ++
  [controlField; u8 logMessageInterval].

Definition no_correction : list Z := replicate 8 0.
Definition timescale_flag : Z := Z.shiftl (Z.land PTP_TIMESCALE 0x1) 3.
Definition announce_flags : Z :=
  Z.lor (Z.land PTP_LEAP61 0x1) (Z.lor (Z.shiftl (Z.land PTP_LEAP59 0x1) 1)
    (Z.lor (Z.shiftl (Z.land PTP_CURRENT_UTC_OFFSET_VALID 0x1) 2) (Z.lor (Z.shiftl (Z.land PTP_TIMESCALE 0x1) 3)
    (Z.lor (Z.shiftl (Z.land PTP_TIME_TRACEABLE 0x1) 4) (Z.shiftl (Z.land PTP_FREQUENCY_TRACEABLE 0x1) 5))))).

(** The message of [steps] steps: the announcement of the best master, with this device at
    the end of the path. *)
Definition announce_body (best my_port_id : list Z) (steps : Z) : list Z :=
  replicate 10 0 ++ hton16 PTP_CURRENT_UTC_OFFSET ++ [0; best !!! off_grandmasterPriority1;
  best !!! off_clockClass; best !!! off_clockAccuracy] ++ field off_clockOffsetScaledLogVariance 2 best ++
  [best !!! off_grandmasterPriority2] ++ clockIdentity_of best ++ hton16 steps ++ [PTP_TIMESOURCE] ++
  hton16 PTP_ANNOUNCE_TLV_TYPE ++ hton16 ((steps + 1) * 8) ++
  field off_pathSequence (8 * Z.to_nat steps) best ++ my_port_id.

(** The path is copied into an array of [PTP_MAXIMUM_PATH_TRACE_TLV] identities. *)
Definition send_ptp_announce_msg (port_num : nat) : PM unit :=
  _ ← upd_port port_num (upd_announce_seq_id (fun n => u16 (n + 1)));
  p ← get_port port_num;
  _ ← modify (fun s => upd_steps_removed_from_gm (fun _ => ntoh16_at off_stepsRemoved (best_announce_msg s)) s);
  not_gm ← (if (PTP_NUM_PORTS =? 2)%nat then
              a ← has_role PTP_MASTER 0; b ← has_role PTP_MASTER 1; mret (xorb a b)
            else mret false);
  _ ← whenM not_gm (modify (upd_steps_removed_from_gm (fun n => u16 (n + 1))));
  s ← gets (fun s => s);
  let steps := steps_removed_from_gm s in
  if Z.of_nat PTP_MAXIMUM_PATH_TRACE_TLV <=? steps then trap
  else
    let message_length := Z.of_nat (sizeof_ComMessageHdr + sizeof_AnnounceMessage) -
                          (Z.of_nat PTP_MAXIMUM_PATH_TRACE_TLV - (steps + 1)) * 8 in
    ptp_tx port_num
      (set_ptp_ethernet_hdr (src_mac_addr s) ++
       com_header PTP_ANNOUNCE_MESG message_length 0 0 announce_flags no_correction (port_identity (my_port_id s) port_num)
         (hton16 (announce_seq_id p)) PTP_CTL_FIELD_OTHERS PTP_LOG_ANNOUNCE_INTERVAL ++
       announce_body (best_announce_msg s) (my_port_id s) steps).

Definition follow_up_body (origin : ptp_timestamp) (gm_timebase_ind last_gm_freq_change : Z) : list Z :=
  timestamp_to_network origin ++ hton16 0x3 ++ hton16 28 ++ [0x00; 0x80; 0xc2] ++ [0; 0; 1] ++ replicate 4 0 ++
  hton16 gm_timebase_ind ++ replicate 12 0 ++ hton32 last_gm_freq_change.

Definition send_ptp_sync_msg (egress : Z) (port_num : nat) : PM unit :=
  _ ← modify (upd_sync_seq_id (fun n => u16 (n + 1)));
  s ← gets (fun s => s);
  let header mesg size flag0 control :=
    set_ptp_ethernet_hdr (src_mac_addr s) ++
    com_header mesg (Z.of_nat (sizeof_ComMessageHdr + size)) 0 flag0 timescale_flag no_correction
      (port_identity (my_port_id s) port_num) (hton16 (sync_seq_id s)) control PTP_LOG_SYNC_INTERVAL in
  local_egress_ts ← ptp_tx_timed egress port_num
    (header PTP_SYNC_MESG sizeof_SyncMessage 0x2 PTP_CTL_FIELD_SYNC ++ replicate sizeof_SyncMessage 0);
  ptp_tx port_num
    (header PTP_FOLLOW_UP_MESG sizeof_FollowUpMessage 0 PTP_CTL_FIELD_FOLLOW_UP ++
     follow_up_body (local_to_ptp_ts (clock s) local_egress_ts) (ptp_gm_timebase_ind s) (ptp_last_gm_freq_change s)).

Definition send_ptp_pdelay_req_msg (egress : Z) (port_num : nat) : PM unit :=
  _ ← upd_port port_num (upd_pdelay_req_seq_id (fun n => u16 (n + 1)));
  p ← get_port port_num;
  s ← gets (fun s => s);
  sent_ts ← ptp_tx_timed egress port_num
    (set_ptp_ethernet_hdr (src_mac_addr s) ++
     com_header PTP_PDELAY_REQ_MESG (Z.of_nat (sizeof_ComMessageHdr + sizeof_PdelayReqMessage)) 0 0 timescale_flag
       no_correction (port_identity (my_port_id s) port_num) (hton16 (pdelay_req_seq_id p))
       PTP_CTL_FIELD_OTHERS PTP_LOG_MIN_PDELAY_REQ_INTERVAL ++ replicate sizeof_PdelayReqMessage 0);
  _ ← upd_port port_num (upd_pdelay_request_sent_ts (fun _ => sent_ts));
  upd_port port_num (upd_pdelay_request_sent (fun _ => true)).

(** [UINT_MAX - prev + local] is one less than the ticks that have passed. *)
Definition local_to_epoch_ts (local_ts : Z) : PM ptp_timestamp :=
  s ← gets (fun s => s);
  let prev := prev_pdelay_local_ts s in
  let ticks := if local_ts <=? prev then u32 (u32 (2 ^ 32 - 1 - prev) + local_ts) else u32 (local_ts - prev) in
  let epoch := u64 (pdelay_epoch_timer s + ticks) in
  _ ← modify (upd_pdelay_epoch_timer (fun _ => epoch));
  _ ← modify (upd_prev_pdelay_local_ts (fun _ => local_ts));
  let nanosec := u64 (epoch * 10) in
  let sec := nanosec / NANOSECONDS_PER_SECOND in
  mret (MkTimestamp (u32 sec) (u32 (Z.shiftr sec 32)) (u32 (nanosec mod NANOSECONDS_PER_SECOND))).

(** [req] is the request, from its common header on. *)
Definition send_ptp_pdelay_resp_msg (egress : Z) (req : list Z) (req_ingress_ts : Z) (port_num : nat) : PM unit :=
  s ← gets (fun s => s);
  let requesting := field off_sourcePortIdentity 10 req in
  let message mesg flag0 ts :=
    set_ptp_ethernet_hdr (src_mac_addr s) ++
    com_header mesg (Z.of_nat (sizeof_ComMessageHdr + sizeof_PdelayRespMessage)) (req !!! off_domainNumber) flag0 timescale_flag
      (field off_correctionField 8 req) (port_identity (my_port_id s) port_num) (field off_sequenceId 2 req)
      PTP_CTL_FIELD_OTHERS 0x7F ++
    timestamp_to_network ts ++ requesting in
  epoch_req_ingress_ts ← local_to_epoch_ts req_ingress_ts;
  local_resp_ts ← ptp_tx_timed egress port_num (message PTP_PDELAY_RESP_MESG 0x2 epoch_req_ingress_ts);
  epoch_resp_ts ← local_to_epoch_ts local_resp_ts;
  ptp_tx port_num (message PTP_PDELAY_RESP_FOLLOW_UP_MESG 0 epoch_resp_ts).

(** * Messages in *)

Definition bytes_equal (a b : list Z) : bool := bool_decide (a = b).

(** The body of a message is what follows the common header. *)
Definition body_of (msg : list Z) : list Z := drop sizeof_ComMessageHdr msg.

Definition qualify_announce (my_port_id header announce_msg : list Z) : bool :=
  if bytes_equal (field off_sourcePortIdentity 8 header) my_port_id then false
  else if 255 <=? ntoh16_at off_stepsRemoved announce_msg then false
  else
    let tlv := ntoh16_at off_tlvLength announce_msg / 8 in
    let tlv := Z.min tlv (Z.of_nat PTP_MAXIMUM_PATH_TRACE_TLV) in
    forallb (fun i => negb (compare_clock_identity_to_me (field (off_pathSequence + 8 * i) 8 announce_msg) my_port_id =? 0))
      (seq 0 (Z.to_nat tlv)).

Definition recv_announce (env : gptp_env) (msg : list Z) (local_ingress_ts : Z) (src_port : nat) : PM unit :=
  let announce := body_of msg in
  s ← gets (fun s => s);
  whenM (qualify_announce (my_port_id s) msg announce)
    (_ ← bmca_update_roles env msg src_port;
     slave ← has_role PTP_SLAVE src_port;
     s ← gets (fun s => s);
     whenM (slave && bytes_equal (field off_sourcePortIdentity 10 msg) (master_port_id s) &&
            bytes_equal (clockIdentity_of (best_announce_msg s)) (clockIdentity_of announce))
       (_ ← upd_port src_port (upd_last_received_announce_time_valid (fun _ => true));
        upd_port src_port (upd_last_received_announce_time (fun _ => local_ingress_ts)))).

Definition signed_char (x : Z) : Z := signed 8 x.

Definition recv_sync (msg : list Z) (local_ingress_ts : Z) (src_port : nat) : PM unit :=
  slave ← has_role PTP_SLAVE src_port;
  s ← gets (fun s => s);
  whenM (negb (received_sync s) && slave)
    (_ ← modify (upd_received_sync (fun _ => true));
     _ ← modify (upd_received_sync_id (fun _ => ntoh16_at off_sequenceId msg));
     _ ← modify (upd_received_sync_ts (fun _ => local_ingress_ts));
     _ ← upd_port src_port (upd_last_received_sync_time (fun _ => local_ingress_ts));
     upd_port src_port (upd_last_receive_sync_upstream_interval (fun _ =>
       u32 (LOG_SEC_TO_TIMER_TICKS (signed_char (msg !!! off_logMessageInterval)))))).

Definition recv_follow_up (msg : list Z) (src_port : nat) : PM unit :=
  s ← gets (fun s => s);
  if received_sync s && bytes_equal (field off_sourcePortIdentity 10 msg) (master_port_id s) then
    whenM (received_sync_id s =? ntoh16_at off_sequenceId msg)
      (p ← get_port src_port;
       let correction := ntoh64 (field off_correctionField 8 msg) in
       let master_egress_ts := ptp_timestamp_offset64 (network_to_ptp_timestamp (body_of msg)) (Z.shiftr correction 16) in
       let '(thrown_away, c) := update_adjust master_egress_ts (received_sync_ts s) (clock s) in
       let c := if (thrown_away : bool) then c
                else update_reference_timestamps master_egress_ts (received_sync_ts s) (pdelay (delay_info (port_info p))) c in
       _ ← modify (upd_clock (fun _ => c));
       modify (upd_received_sync (fun _ => false)))
  else modify (upd_received_sync (fun _ => false)).

(** A second response to a request that has been answered, by another clock. *)
Definition recv_multiple_resp (t : Z) (src_port : nat) : PM unit :=
  p ← get_port src_port;
  let d := delay_info (port_info p) in
  _ ← upd_delay src_port (upd_multiple_resp_count (fun n =>
        if (n =? 0) || (pdelay_req_seq_id p =? u32 (last_multiple_resp_seq_id d + 1)) then u32 (n + 1) else 0));
  _ ← upd_delay src_port (upd_last_multiple_resp_seq_id (fun _ => pdelay_req_seq_id p));
  pdelay_req_reset t src_port.

Definition recv_pdelay_resp (env : gptp_env) (msg : list Z) (local_ingress_ts : Z) (src_port : nat) : PM unit :=
  let resp_msg := body_of msg in
  let source := field off_sourcePortIdentity 10 msg in
  let seq_id := ntoh16_at off_sequenceId msg in
  p ← get_port src_port;
  s ← gets (fun s => s);
  if negb (pdelay_request_sent p) && received_pdelay p &&
     negb (bytes_equal source (rcvd_source_identity (delay_info (port_info p)))) && (pdelay_req_seq_id p =? seq_id)
  then recv_multiple_resp (ge_time env 0) src_port
  else
    _ ← whenM (received_pdelay p && (pdelay_req_seq_id p =? seq_id))
          (_ ← upd_port src_port (upd_received_pdelay (fun _ => false)); pdelay_req_reset (ge_time env 0) src_port);
    _ ← (if pdelay_request_sent p && (pdelay_req_seq_id p =? seq_id) &&
            bytes_equal (field off_requestingPortIdentity 8 resp_msg) (my_port_id s) &&
            (Z.of_nat src_port + 1 =? ntoh16_at off_requestingPortId resp_msg)
         then
           _ ← upd_port src_port (upd_received_pdelay (fun _ => true));
           _ ← upd_port src_port (upd_received_pdelay_id (fun _ => seq_id));
           _ ← upd_port src_port (upd_pdelay_resp_ingress_ts (fun _ => local_ingress_ts));
           _ ← upd_port src_port (upd_pdelay_request_receipt_ts (fun _ => network_to_ptp_timestamp resp_msg));
           upd_delay src_port (upd_rcvd_source_identity (fun _ => source))
         else pdelay_req_reset (ge_time env 1) src_port);
    upd_port src_port (upd_pdelay_request_sent (fun _ => false)).

Definition recv_pdelay_resp_follow_up (env : gptp_env) (msg : list Z) (src_port : nat) : PM unit :=
  p ← get_port src_port;
  s ← gets (fun s => s);
  _ ← whenM (received_pdelay p)
        (if (received_pdelay_id p =? ntoh16_at off_sequenceId msg) &&
            bytes_equal (field off_sourcePortIdentity 10 msg) (rcvd_source_identity (delay_info (port_info p))) then
           _ ← upd_delay src_port (update_path_delay (pdelay_request_receipt_ts p) (network_to_ptp_timestamp (body_of msg))
                 (pdelay_request_sent_ts p) (pdelay_resp_ingress_ts p) (g_ptp_adjust (clock s)));
           _ ← upd_delay src_port (upd_exchanges (fun n => u32 (n + 1)));
           p ← get_port src_port;
           let d := delay_info (port_info p) in
           _ ← (if pd_valid d && (pdelay d <=? PTP_NEIGHBOR_PROP_DELAY_THRESH_NS) && (2 <=? exchanges d)
                then set_ascapable (ge_time env 0) src_port else reset_ascapable (ge_time env 0) src_port);
           upd_delay src_port (upd_lost_responses (fun _ => 0))
         else pdelay_req_reset (ge_time env 0) src_port);
  upd_port src_port (upd_received_pdelay (fun _ => false)).

(** The [switch] over the type of a message. *)
Definition ptp_dispatch (env : gptp_env) (msg : list Z) (local_ingress_ts : Z) (asCapable : bool) (src_port : nat) : PM unit :=
  let mesg := Z.land (msg !!! 0%nat) 0xf in
  if mesg =? PTP_ANNOUNCE_MESG then whenM asCapable (recv_announce env msg local_ingress_ts src_port)
  else if mesg =? PTP_SYNC_MESG then whenM asCapable (recv_sync msg local_ingress_ts src_port)
  else if mesg =? PTP_FOLLOW_UP_MESG then recv_follow_up msg src_port
  else if mesg =? PTP_PDELAY_REQ_MESG then send_ptp_pdelay_resp_msg (ge_egress env 0) msg local_ingress_ts src_port
  else if mesg =? PTP_PDELAY_RESP_MESG then recv_pdelay_resp env msg local_ingress_ts src_port
  else if mesg =? PTP_PDELAY_RESP_FOLLOW_UP_MESG then recv_pdelay_resp_follow_up env msg src_port
  else skip.

(** [buf] is the array of [MAX_PTP_MESG_LENGTH] bytes the server receives into. *)
Definition ptp_recv (env : gptp_env) (buf : list Z) (ingress_ts : Z) (src_port : nat) : PM unit :=
  if (length buf <? MAX_PTP_MESG_LENGTH)%nat then trap
  else
    let has_qtag := buf !!! 13%nat =? 0x18 in
    let msg := drop (if has_qtag then 18 else 14) buf in
    s ← gets (fun s => s);
    let local_ingress_ts := u32 (ingress_ts - tile_timer_offset s) in
    p ← get_port src_port;
    whenM (GET_PTP_TRANSPORT_SPECIFIC msg =? 1) (ptp_dispatch env msg local_ingress_ts (asCapable (port_info p)) src_port).

(** * Initialisation and the periodic function *)

Definition ptp_reset (env : gptp_env) (port_num : nat) : PM unit :=
  _ ← set_new_role (ge_time env 0) PTP_MASTER port_num;
  _ ← upd_port port_num (upd_last_received_announce_time_valid (fun _ => false));
  _ ← upd_delay port_num (upd_multiple_resp_count (fun _ => 0));
  _ ← upd_delay port_num (upd_pdelay (fun _ => 0));
  _ ← upd_delay port_num (upd_lost_responses (fun _ => 0));
  _ ← upd_port port_num (upd_periodic_counter (fun _ => 0));
  reset_ascapable (ge_time env 1) port_num.

(** The 48-bit address, made an identity of 64 bits. *)
Definition clock_identity_of_mac (mac : list Z) : list Z := take 3 mac ++ [0xff; 0xfe] ++ take 3 (drop 3 mac).

(** The clocks of the two tiles are read at the beginning, [other_tile_now] being [None] if the
    Ethernet task runs on this tile. *)
Definition ptp_init (env : nat -> gptp_env) (this_tile_now : Z) (other_tile_now : option Z) (gm_capable : bool)
    (mac : list Z) : PM unit :=
  _ ← modify (upd_tile_timer_offset (fun _ =>
        match other_tile_now with Some t => s32 (t - this_tile_now - 3) | None => 0 end));
  _ ← modify (upd_ptp_priority1 (fun _ =>
        if gm_capable then PTP_DEFAULT_GM_CAPABLE_PRIORITY1 else PTP_DEFAULT_NON_GM_CAPABLE_PRIORITY1));
  _ ← modify (upd_src_mac_addr (fun _ => take 6 mac));
  _ ← modify (upd_my_port_id (fun _ => clock_identity_of_mac mac));
  _ ← forM (seq 0 PTP_NUM_PORTS) (fun i => ptp_reset (env i) i);
  modify (upd_pdelay_epoch_timer (fun _ => this_tile_now)).

(** Whether path delay requests are sent: not for five minutes after three requests in a row
    have been answered by several clocks. *)
Definition sending_pdelay (port_num : nat) : PM bool :=
  p ← get_port port_num;
  if multiple_resp_count (delay_info (port_info p)) <? 3 then mret true
  else
    _ ← upd_port port_num (upd_periodic_counter (fun n => s32 (n + 1)));
    p ← get_port port_num;
    let five_minutes_in_periodic := 5 * 60 * (TIMER_TICKS_PER_SEC / PTP_PERIODIC_TIME) in
    if five_minutes_in_periodic <=? periodic_counter p then
      _ ← upd_delay port_num (upd_multiple_resp_count (fun _ => 0));
      _ ← upd_port port_num (upd_periodic_counter (fun _ => 0));
      mret true
    else mret false.

(** The timeouts of follow-ups, announcements and syncs. [role] is the port's role when the
    periodic function begins. *)
Definition receipt_timeouts (now t : Z) (role : ptp_port_role_t) (port_num : nat) : PM unit :=
  p ← get_port port_num;
  s ← gets (fun s => s);
  let recv_sync_timeout_interval := s32 (last_receive_sync_upstream_interval p * PTP_SYNC_RECEIPT_TIMEOUT_MULTIPLE) in
  let slave := bool_decide (role_state (port_info p) = PTP_SLAVE) in
  _ ← whenM (received_sync s && slave && timeafter t (last_received_sync_time p + last_receive_sync_upstream_interval p))
        (modify (upd_received_sync (fun _ => false)));
  s ← gets (fun s => s);
  whenM ((last_received_announce_time_valid p && timeafter t (last_received_announce_time p + RECV_ANNOUNCE_TIMEOUT)) ||
         (received_sync s && slave && timeafter t (last_received_sync_time p + recv_sync_timeout_interval)))
    (_ ← modify (upd_received_sync (fun _ => false));
     _ ← upd_port port_num (upd_last_received_announce_time (fun _ => t));
     _ ← upd_port port_num (upd_last_announce_time (fun _ => u32 (t - ANNOUNCE_PERIOD - 1)));
     _ ← upd_port port_num (upd_last_received_announce_time_valid (fun _ => false));
     whenM (bool_decide (role = PTP_SLAVE)) (set_new_role now PTP_UNCERTAIN port_num)).

Definition ptp_periodic_port (env : gptp_env) (t : Z) (port_num : nat) : PM unit :=
  p ← get_port port_num;
  let role := role_state (port_info p) in
  let asCapable := asCapable (port_info p) in
  sending ← sending_pdelay port_num;
  _ ← receipt_timeouts (ge_time env (2 * port_num)) t role port_num;
  p ← get_port port_num;
  _ ← whenM (asCapable && bool_decide (role = PTP_MASTER \/ role = PTP_UNCERTAIN) &&
             timeafter t (last_announce_time p + ANNOUNCE_PERIOD))
        (_ ← send_ptp_announce_msg port_num; upd_port port_num (upd_last_announce_time (fun _ => t)));
  p ← get_port port_num;
  _ ← whenM (asCapable && bool_decide (role = PTP_MASTER) && timeafter t (last_sync_time p + SYNC_PERIOD))
        (_ ← send_ptp_sync_msg (ge_egress env (2 * port_num)) port_num; upd_port port_num (upd_last_sync_time (fun _ => t)));
  p ← get_port port_num;
  whenM (timeafter t (last_pdelay_req_time p + PDELAY_REQ_PERIOD))
    (_ ← whenM (pdelay_request_sent p && negb (received_pdelay p)) (pdelay_req_reset (ge_time env (2 * port_num + 1)) port_num);
     _ ← whenM sending (send_ptp_pdelay_req_msg (ge_egress env (2 * port_num + 1)) port_num);
     upd_port port_num (upd_last_pdelay_req_time (fun _ => t))).

Definition ptp_periodic (env : gptp_env) (t : Z) : PM unit :=
  _ ← forM (seq 0 PTP_NUM_PORTS) (ptp_periodic_port env t);
  modify (upd_clock (periodic_update_reference_timestamps t)).

(** * The server *)

Definition ptp_current_grandmaster : PM (list Z) := gets (fun s => clockIdentity_of (best_announce_msg s)).
(** The function returns 0. *)
Definition ptp_current_state : PM ptp_port_role_t := mret PTP_MASTER.

Inductive ptp_cmd_t : Type :=
| PTP_GET_TIME_INFO
| PTP_GET_TIME_INFO_MOD64
| PTP_GET_GRANDMASTER
| PTP_GET_STATE
| PTP_GET_PDELAY.
(** What goes over the channel: the clock of the server's core, the values, and its tile. *)
Inductive ptp_reply : Type :=
| TimeInfo (thiscore_now : Z) (info : ptp_time_info) (tile_id : Z)
| TimeInfoMod64 (thiscore_now : Z) (info : ptp_time_info_mod64) (tile_id : Z)
| Grandmaster (grandmaster : list Z)
| State (state : ptp_port_role_t)
| Pdelay (pdelay : Z).

Definition ptp_process_client_request (thiscore_now tile_id : Z) (cmd : ptp_cmd_t) : PM ptp_reply :=
  match cmd with
  | PTP_GET_TIME_INFO => gets (fun s => TimeInfo thiscore_now (ptp_give_requested_time_info (clock s)) tile_id)
  | PTP_GET_TIME_INFO_MOD64 => gets (fun s => TimeInfoMod64 thiscore_now (ptp_get_local_time_info_mod64 (clock s)) tile_id)
  | PTP_GET_GRANDMASTER => g ← ptp_current_grandmaster; mret (Grandmaster g)
  | PTP_GET_STATE => st ← ptp_current_state; mret (State st)
  | PTP_GET_PDELAY => mret (Pdelay 0)
  end.

(** What the server's [select] serves: the link of a port, a packet, the timer. *)
Inductive gptp_input : Type :=
| PtpLink (up : bool) (src_ifnum : nat) (env : gptp_env)
| PtpPacket (buf : list Z) (timestamp : Z) (src_ifnum : nat) (env : gptp_env)
| PtpTimer (t : Z) (env : gptp_env).

Definition gptp_serve (i : gptp_input) : PM unit :=
  match i with
  | PtpLink up port env => whenM up (ptp_reset env port)
  | PtpPacket buf timestamp port env => ptp_recv env buf timestamp port
  | PtpTimer t env => ptp_periodic env t
  end.
End Gptp.
