(* ===== verification/GptpSafe.v ===== *)
(** The gPTP server of a device with one port: its operations run, its invariant, its
    reachable states, and what holds in all of them. *)
From S2P Require Import Prelude Bytes MiscTimer PtpTime GptpTypes Gptp.
From stdpp Require Import base list list_numbers numbers option.
From Stdlib Require Import ZArith Lia.
#[local] Open Scope Z_scope.

(** * Sizes *)

Lemma identity_length mac : length mac = 6%nat -> length (clock_identity_of_mac mac) = 8%nat.
Proof. intros H. destruct_len mac H. done. Qed.

Lemma hdr_length mac : length mac = 6%nat -> length (set_ptp_ethernet_hdr mac) = 14%nat.
Proof. intros H. unfold set_ptp_ethernet_hdr. by rewrite !length_app, H. Qed.

Lemma com_header_length m l d f0 f1 c src seq ctl log :
  (length c <= 8)%nat -> (length src <= 10)%nat -> (length seq <= 2)%nat -> (length (com_header m l d f0 f1 c src seq ctl log) <= 34)%nat.
Proof. intros. unfold com_header. rewrite !length_app. cbn. lia. Qed.

Lemma announce_body_length best id steps :
  (length (announce_body best id steps) <= 34 + 8 * Z.to_nat steps + length id)%nat.
Proof.
  unfold announce_body, clockIdentity_of, field. rewrite !length_app. cbn [length].
  rewrite !length_take. cbn [length replicate hton16]. lia.
Qed.

Lemma port_identity_length id i : length id = 8%nat -> length (port_identity id i) = 10%nat.
Proof. intros H. unfold port_identity. by rewrite length_app, H. Qed.

Section OnePort.
Context `{cfg : GptpConfig} (Hone : PTP_NUM_PORTS = 1%nat).

(** * Runs *)

Lemma get_port_run p s : ports s = [p] -> get_port 0 s = Some (p, s).
Proof. intros E. unfold get_port, load. by rewrite E. Qed.
Lemma upd_port_run g p s : ports s = [p] -> upd_port 0 g s = Some (tt, upd_ports (fun _ => [g p]) s).
Proof. intros E. unfold upd_port, store. rewrite E. cbn. unfold upd_ports. by rewrite E. Qed.
Lemma has_role_run r p s : ports s = [p] -> has_role r 0 s = Some (bool_decide (role_state (port_info p) = r), s).
Proof. intros E. unfold has_role. by rewrite (M_bind_run _ _ _ _ _ (get_port_run _ _ E)). Qed.

(** What [set_new_role] makes of a port and of the state. *)
Definition slave_clock (c : ptp_clock) : ptp_clock :=
  upd_g_ptp_adjust (fun _ => 0) (upd_g_inv_ptp_adjust (fun _ => 0) (upd_prev_adjust_valid (fun _ => false)
    (upd_g_ptp_adjust_valid (fun _ => false) (upd_sync_lock (fun _ => false) (upd_sync_count (fun _ => 0) c))))).
Definition with_role (r : ptp_port_role_t) (p : port_vars) : port_vars := upd_port_info (upd_role_state (fun _ => r)) p.
Definition slave_port (t : Z) (p : port_vars) : port_vars :=
  with_role PTP_SLAVE (upd_last_pdelay_req_time (fun _ => t)
    (upd_port_info (upd_delay_info (upd_pd_valid (fun _ => false))) p)).
Definition slave_state (t : Z) (p : port_vars) (s : gptp) : gptp :=
  upd_ports (fun _ => [slave_port t p]) (upd_clock slave_clock s).

Definition own_announce (s : gptp) : gptp := upd_best_announce_msg (fun _ => create_my_announce_msg s) s.
Definition master_port (t : Z) (p : port_vars) : port_vars :=
  with_role PTP_MASTER (upd_last_sync_time (fun _ => t) (upd_last_announce_time (fun _ => t) p)).
Definition master_state (t : Z) (p : port_vars) (s : gptp) : gptp :=
  own_announce (upd_ports (fun _ => [master_port t p])
    (upd_clock (fun c => upd_g_ptp_adjust (fun _ => 0) (upd_g_inv_ptp_adjust (fun _ => 0) c))
      (upd_ptp_gm_timebase_ind (fun n => s32 (n + 1))
        (upd_ptp_last_gm_freq_change (fun _ => s32 (Z.shiftl (g_inv_ptp_adjust (clock s)) 11)) s)))).
Definition uncertain_state (p : port_vars) (s : gptp) : gptp :=
  own_announce (upd_ports (fun _ => [with_role PTP_UNCERTAIN p]) s).

Lemma slave_run t p s : ports s = [p] -> set_new_role t PTP_SLAVE 0 s = Some (tt, slave_state t p s).
Proof using Hone.
  destruct s. cbn. intros ->. unfold set_new_role. rewrite Hone. reflexivity.
Qed.
Lemma master_run t p s : ports s = [p] -> set_new_role t PTP_MASTER 0 s = Some (tt, master_state t p s).
Proof using Hone.
  destruct s. cbn. intros ->. unfold set_new_role. rewrite Hone. reflexivity.
Qed.
Lemma uncertain_run t p s : ports s = [p] -> set_new_role t PTP_UNCERTAIN 0 s = Some (tt, uncertain_state p s).
Proof using Hone.
  destruct s. cbn. intros ->. unfold set_new_role. rewrite Hone. reflexivity.
Qed.

(** A port that is not, or no longer, capable. *)
Definition capable_port (p : port_vars) : port_vars := upd_port_info (upd_asCapable (fun _ => true)) p.
Definition incapable_port (p : port_vars) : port_vars :=
  upd_port_info (upd_delay_info (fun d => upd_exchanges (fun _ => 0) (upd_pdelay (fun _ => 0) (upd_pd_valid (fun _ => false) d))))
    (upd_port_info (upd_asCapable (fun _ => false)) p).

Lemma set_ascapable_run t p s :
  ports s = [p] ->
  set_ascapable t 0 s = Some (tt, if asCapable (port_info p) then s
                                  else master_state t (capable_port p) (upd_ports (fun _ => [capable_port p]) s)).
Proof using Hone.
  intros E. unfold set_ascapable. rewrite (M_bind_run _ _ _ _ _ (get_port_run _ _ E)).
  destruct (asCapable _); cbn [negb whenM]; [done|]. unfold upd_info. rewrite (M_bind_run _ _ _ _ _ (upd_port_run _ _ _ E)).
  by apply master_run.
Qed.

Lemma reset_ascapable_run t p s :
  ports s = [p] ->
  reset_ascapable t 0 s = Some (tt, if asCapable (port_info p)
                                    then master_state t (incapable_port p) (upd_ports (fun _ => [incapable_port p]) s) else s).
Proof using Hone.
  intros E. unfold reset_ascapable. rewrite (M_bind_run _ _ _ _ _ (get_port_run _ _ E)).
  destruct (asCapable _); cbn [negb whenM]; [|done]. unfold upd_delay, upd_info.
  rewrite (M_bind_run _ _ _ _ _ (upd_port_run _ _ _ E)). erewrite M_bind_run by (apply upd_port_run; reflexivity).
  erewrite master_run by reflexivity. done.
Qed.

(** * The invariant *)

(** A frame handed to the Ethernet task: of a size that is allowed, from this device, of the type of PTP. *)
Definition frame_ok (mac : list Z) (ev : gptp_event) : Prop :=
  match ev with PtpTx port f => port = 0%nat /\ (64 <= length f <= MAX_PTP_MESG_LENGTH)%nat /\ take 14 f = set_ptp_ethernet_hdr mac end.

(** A capable port has measured a short delay twice; only a slave keeps the announcement of
    another clock. What the device announces of itself, and that it keeps this message: *)
Definition own_vector (priority1 : Z) (id : list Z) : list Z :=
  [priority1; PTP_CLOCK_CLASS; PTP_CLOCK_ACCURACY] ++ hton16 PTP_OFFSET_SCALED_LOG_VARIANCE ++ [PTP_DEFAULT_PRIORITY2] ++ id.
Definition own_message (s : gptp) : Prop :=
  field off_grandmasterPriority1 16 (best_announce_msg s) = own_vector (ptp_priority1 s) (my_port_id s) ++ [0; 0].

Record port_ok (own : Prop) (p : port_vars) : Prop := {
  ok_capable : asCapable (port_info p) = true ->
    pdelay (delay_info (port_info p)) <= PTP_NEIGHBOR_PROP_DELAY_THRESH_NS /\ 2 <= exchanges (delay_info (port_info p));
  ok_own : role_state (port_info p) <> PTP_SLAVE -> own;
}.

Record gptp_ok (s : gptp) : Prop := {
  ok_port : exists p, ports s = [p] /\ port_ok (own_message s) p;
  ok_mac : length (src_mac_addr s) = 6%nat;
  ok_identity : my_port_id s = clock_identity_of_mac (src_mac_addr s);
  ok_best : length (best_announce_msg s) = sizeof_AnnounceMessage;
  ok_sent : Forall (frame_ok (src_mac_addr s)) (gptp_out s);
}.

Lemma ok_identity_length s : gptp_ok s -> length (my_port_id s) = 8%nat.
Proof. intros H. rewrite (ok_identity s H). apply identity_length, H. Qed.

(** A computation that runs to the end and keeps the invariant. *)
Definition served {A} (m : M gptp A) : Prop := forall s, gptp_ok s -> exists a s', m s = Some (a, s') /\ gptp_ok s'.

Lemma served_ret {A} (a : A) : served (mret a).
Proof. intros s Hs. by exists a, s. Qed.
Lemma served_bind {A B} (m : M gptp A) (k : A -> M gptp B) : served m -> (forall a, served (k a)) -> served (m ≫= k).
Proof. intros Hm Hk s (a & s1 & E & H1)%Hm. destruct (Hk a s1 H1) as (b & s2 & E2 & H2). exists b, s2. by rewrite (M_bind_run _ _ _ _ _ E). Qed.
Lemma served_gets {A} (f : gptp -> A) : served (gets f).
Proof. intros s Hs. by exists (f s), s. Qed.
Lemma served_when b m : served m -> served (whenM b m).
Proof. destruct b; [done|]. intros _. apply served_ret. Qed.
Lemma served_if {A} (b : bool) (m1 m2 : M gptp A) : served m1 -> served m2 -> served (if b then m1 else m2).
Proof. by destruct b. Qed.
Lemma served_modify f :
  (forall s, ports (f s) = ports s /\ src_mac_addr (f s) = src_mac_addr s /\ my_port_id (f s) = my_port_id s /\
     best_announce_msg (f s) = best_announce_msg s /\ gptp_out (f s) = gptp_out s /\ ptp_priority1 (f s) = ptp_priority1 s) ->
  served (modify f).
Proof.
  intros Hf s [Hp Hm Hi Hb Hs]. exists tt, (f s). split; [done|]. destruct (Hf s) as (E1 & E2 & E3 & E4 & E5 & E6).
  unfold own_message in *. split; unfold own_message; by rewrite ?E1, ?E2, ?E3, ?E4, ?E5, ?E6.
Qed.
Lemma served_get_port : served (get_port 0).
Proof. intros s Hs. destruct (ok_port s Hs) as (p & E & _). exists p, s. by rewrite (get_port_run _ _ E). Qed.
Lemma served_has_role r : served (has_role r 0).
Proof. apply served_bind; [apply served_get_port|]. intros p. apply served_ret. Qed.

(** Updates of a port that leave its role and its delay. *)
Lemma served_upd_port g :
  (forall p, asCapable (port_info (g p)) = asCapable (port_info p) /\ role_state (port_info (g p)) = role_state (port_info p) /\
     pdelay (delay_info (port_info (g p))) = pdelay (delay_info (port_info p)) /\
     exchanges (delay_info (port_info (g p))) = exchanges (delay_info (port_info p))) -> served (upd_port 0 g).
Proof.
  intros Hg s Hs. destruct (ok_port s Hs) as (p & E & [Hc Hr]). eexists tt, _. split; [by apply upd_port_run|].
  destruct (Hg p) as (E1 & E2 & E3 & E4). destruct Hs as [_ Hm Hi Hb Hsent]. split; [|done..].
  exists (g p). split; [done|]. split; by rewrite ?E1, ?E2, ?E3, ?E4.
Qed.

(** ** Roles *)

(** The message in two parts, before and behind the number of steps. *)
Lemma own_announce_split s :
  create_my_announce_msg s =
    (take 10 (best_announce_msg s) ++ hton16 PTP_CURRENT_UTC_OFFSET ++ [best_announce_msg s !!! 12%nat; ptp_priority1 s] ++
     [PTP_CLOCK_CLASS; PTP_CLOCK_ACCURACY] ++ hton16 PTP_OFFSET_SCALED_LOG_VARIANCE ++ [PTP_DEFAULT_PRIORITY2] ++ my_port_id s) ++
    0 :: 0 :: [PTP_TIMESOURCE] ++ hton16 PTP_ANNOUNCE_TLV_TYPE ++ hton16 8 ++ my_port_id s ++ drop (off_pathSequence + 8) (best_announce_msg s).
Proof. unfold create_my_announce_msg. by rewrite <- !app_assoc. Qed.

Lemma own_announce_message s : length (best_announce_msg s) = sizeof_AnnounceMessage -> length (my_port_id s) = 8%nat ->
  length (create_my_announce_msg s) = sizeof_AnnounceMessage /\ own_message (own_announce s).
Proof.
  intros Hb Hi. split.
  - rewrite own_announce_split, !length_app. cbn [length]. rewrite !length_app, length_take, length_drop, Hi, Hb. done.
  - unfold own_message, own_announce. cbn [best_announce_msg upd_best_announce_msg ptp_priority1 my_port_id]. unfold create_my_announce_msg.
    rewrite (app_assoc (take 10 _)). change ([best_announce_msg s !!! 12%nat; ptp_priority1 s] ++ ?l) with ([best_announce_msg s !!! 12%nat] ++ ptp_priority1 s :: l).
    rewrite app_assoc, field_app by (rewrite !length_app, length_take, Hb; done).
    assert (exists b0 b1 b2 b3 b4 b5 b6 b7, my_port_id s = [b0; b1; b2; b3; b4; b5; b6; b7]) as (b0 & b1 & b2 & b3 & b4 & b5 & b6 & b7 & ->); [|done].
    destruct (my_port_id s) as [|b0 [|b1 [|b2 [|b3 [|b4 [|b5 [|b6 [|b7 [|]]]]]]]]]; try done. by exists b0, b1, b2, b3, b4, b5, b6, b7.
Qed.

Lemma own_message_steps s : length (my_port_id s) = 8%nat -> own_message s -> ntoh16_at off_stepsRemoved (best_announce_msg s) = 0.
Proof.
  intros Hi H. unfold ntoh16_at. change off_stepsRemoved with (off_grandmasterPriority1 + 14)%nat.
  change (S (off_grandmasterPriority1 + 14)) with (off_grandmasterPriority1 + 15)%nat.
  rewrite <- (field_lookup _ 16 _ 14), <- (field_lookup _ 16 _ 15), H by lia.
  rewrite !lookup_total_app_r by (unfold own_vector; rewrite !length_app, Hi; cbn; lia).
  unfold own_vector. rewrite !length_app, Hi. done.
Qed.

Lemma own_message_identity s : length (my_port_id s) = 8%nat -> own_message s -> clockIdentity_of (best_announce_msg s) = my_port_id s.
Proof.
  intros Hi H. apply (f_equal (fun l => take 8 (drop 6 l))) in H. unfold field in H.
  rewrite skipn_firstn_comm, take_take, drop_drop in H. unfold own_vector, hton16 in H. cbn [app drop] in H.
  rewrite drop_0, take_app_length' in H by done. exact H.
Qed.

(** Taking up a role that is not a slave's: the announcement is the device's own. *)
Lemma own_announce_ok p s :
  ports s = [p] -> length (src_mac_addr s) = 6%nat -> my_port_id s = clock_identity_of_mac (src_mac_addr s) ->
  length (best_announce_msg s) = sizeof_AnnounceMessage -> Forall (frame_ok (src_mac_addr s)) (gptp_out s) ->
  (asCapable (port_info p) = true ->
     pdelay (delay_info (port_info p)) <= PTP_NEIGHBOR_PROP_DELAY_THRESH_NS /\ 2 <= exchanges (delay_info (port_info p))) ->
  gptp_ok (own_announce s).
Proof.
  intros Hp Hm Hi Hb Hs Hc. assert (length (my_port_id s) = 8%nat) as Hl by (rewrite Hi; by apply identity_length).
  destruct (own_announce_message s Hb Hl) as [H1 H2].
  split; [|done|done|done|done]. exists p. by split.
Qed.

Lemma master_ok t p s : gptp_ok s -> 
  (asCapable (port_info p) = true ->
     pdelay (delay_info (port_info p)) <= PTP_NEIGHBOR_PROP_DELAY_THRESH_NS /\ 2 <= exchanges (delay_info (port_info p))) ->
  gptp_ok (master_state t p s).
Proof. intros [_ Hm Hi Hb Hs] Hc. by eapply own_announce_ok. Qed.

Lemma served_set_role t r : r <> PTP_DISABLED -> served (set_new_role t r 0).
Proof using Hone.
  intros Hr s Hs. destruct (ok_port s Hs) as (p & E & [Hc Hsteps]). exists tt. destruct r; [| | |done].
  - eexists. split; [by apply master_run|]. by apply master_ok.
  - eexists. split; [by apply uncertain_run|]. destruct Hs as [_ Hm Hi Hb Hsent]. by eapply own_announce_ok.
  - eexists. split; [by apply slave_run|]. destruct Hs as [_ Hm Hi Hb Hsent]. split; [|done..].
    eexists. split; [done|]. by split.
Qed.

Lemma served_reset_ascapable t : served (reset_ascapable t 0).
Proof using Hone.
  intros s Hs. destruct (ok_port s Hs) as (p & E & Hp). eexists tt, _. split; [by apply reset_ascapable_run|].
  destruct (asCapable _); [|done]. apply master_ok; [|done]. destruct Hs as [_ Hm Hi Hb Hsent].
  split; [|done..]. eexists. split; [done|]. split; [done|]. apply Hp.
Qed.

Lemma served_pdelay_req_reset t : served (pdelay_req_reset t 0).
Proof using Hone.
  apply served_bind; [apply served_get_port|]. intros p. apply served_if; [|apply served_reset_ascapable].
  by apply served_upd_port.
Qed.

(** ** Messages out *)

(** A frame of this device. *)
Record frame_of (mac f : list Z) : Prop := {
  frame_header : take 14 f = set_ptp_ethernet_hdr mac;
  frame_size : (length f <= MAX_PTP_MESG_LENGTH)%nat;
}.

Lemma frame_of_app mac rest : length mac = 6%nat -> (length rest <= 150)%nat -> frame_of mac (set_ptp_ethernet_hdr mac ++ rest).
Proof.
  intros Hm Hl. pose proof (hdr_length _ Hm) as Hh. split; [by apply take_app_length'|]. rewrite length_app. unfold MAX_PTP_MESG_LENGTH. lia.
Qed.

Definition sent (f : list Z) (s : gptp) : gptp :=
  upd_gptp_out (fun l => l ++ [PtpTx 0 (f ++ replicate (64 - length f) 0)]) s.

Lemma ptp_tx_ok f s : gptp_ok s -> frame_of (src_mac_addr s) f -> gptp_ok (sent f s).
Proof.
  intros [Hp Hm Hi Hb Hs] [Hf Hl]. split; try done. cbn [gptp_out sent upd_gptp_out src_mac_addr]. apply Forall_app.
  split; [done|]. constructor; [|constructor]. pose proof (hdr_length _ Hm) as Hh. rewrite <- Hf in Hh. rewrite length_take in Hh.
  unfold frame_ok, MAX_PTP_MESG_LENGTH in *. rewrite length_app, length_replicate. split_and!; [done|lia|lia|].
  rewrite take_app_le by lia. done.
Qed.

Lemma served_tx_at f s : gptp_ok s -> frame_of (src_mac_addr s) f -> ptp_tx 0 f s = Some (tt, sent f s) /\ gptp_ok (sent f s).
Proof. intros Hs Hl. split; [done|]. by apply ptp_tx_ok. Qed.

(** The announcement of a device that is not a slave, and the state it leaves. *)
Definition announced (p : port_vars) (s : gptp) : gptp :=
  upd_steps_removed_from_gm (fun _ => 0) (upd_ports (fun _ => [upd_announce_seq_id (fun n => u16 (n + 1)) p]) s).
Definition announce_frame (p : port_vars) (s : gptp) : list Z :=
  set_ptp_ethernet_hdr (src_mac_addr s) ++
  com_header PTP_ANNOUNCE_MESG 76 0 0 announce_flags no_correction (port_identity (my_port_id s) 0)
    (hton16 (u16 (announce_seq_id p + 1))) PTP_CTL_FIELD_OTHERS PTP_LOG_ANNOUNCE_INTERVAL ++
  announce_body (best_announce_msg s) (my_port_id s) 0.

Lemma send_announce_run p s :
  ports s = [p] -> ntoh16_at off_stepsRemoved (best_announce_msg s) = 0 ->
  send_ptp_announce_msg 0 s = Some (tt, sent (announce_frame p s) (announced p s)).
Proof using Hone.
  intros E Hsteps. unfold send_ptp_announce_msg. rewrite (M_bind_run _ _ _ _ _ (upd_port_run _ _ _ E)).
  erewrite M_bind_run by (apply get_port_run; reflexivity). erewrite M_bind_run by reflexivity. rewrite Hone. cbn [Nat.eqb].
  erewrite M_bind_run by reflexivity. cbn [whenM]. erewrite M_bind_run by reflexivity. erewrite M_bind_run by reflexivity.
  cbn [steps_removed_from_gm upd_steps_removed_from_gm best_announce_msg upd_ports]. rewrite Hsteps. reflexivity.
Qed.

Lemma served_send_announce s :
  gptp_ok s -> (forall p, ports s = [p] -> role_state (port_info p) <> PTP_SLAVE) ->
  exists s', send_ptp_announce_msg 0 s = Some (tt, s') /\ gptp_ok s'.
Proof using Hone.
  intros Hs Hr. destruct (ok_port s Hs) as (p & E & [Hc Hown]). specialize (Hr p E).
  assert (length (my_port_id s) = 8%nat) as Hid by by apply ok_identity_length.
  eexists. split; [by apply send_announce_run, own_message_steps, Hown|].
  assert (gptp_ok (announced p s)) as H2.
  { destruct Hs as [_ Hm Hi Hb Hsent]. split; try done. eexists. split; [done|]. by split. }
  apply ptp_tx_ok; [done|]. apply frame_of_app; [apply H2|]. rewrite length_app.
  pose proof (announce_body_length (best_announce_msg s) (my_port_id s) 0) as Hb.
  pose proof (port_identity_length (my_port_id s) 0 Hid) as Hpi.
  pose proof (com_header_length PTP_ANNOUNCE_MESG 76 0 0 announce_flags no_correction (port_identity (my_port_id s) 0)
    (hton16 (u16 (announce_seq_id p + 1))) PTP_CTL_FIELD_OTHERS PTP_LOG_ANNOUNCE_INTERVAL) as Hh.
  rewrite Hpi in Hh. change (length no_correction) with 8%nat in Hh. change (length (hton16 _)) with 2%nat in Hh. rewrite Hid in Hb. lia.
Qed.

(** A header and a body of this device. *)
Lemma message_frame s m l d f0 f1 c seq ctl log body :
  gptp_ok s -> (length c <= 8)%nat -> (length seq <= 2)%nat -> (length body <= 116)%nat ->
  frame_of (src_mac_addr s)
    (set_ptp_ethernet_hdr (src_mac_addr s) ++ com_header m l d f0 f1 c (port_identity (my_port_id s) 0) seq ctl log ++ body).
Proof.
  intros Hs H1 H2 H3. apply frame_of_app; [apply Hs|]. rewrite length_app.
  pose proof (port_identity_length (my_port_id s) 0 (ok_identity_length s Hs)) as H4.
  pose proof (com_header_length m l d f0 f1 c (port_identity (my_port_id s) 0) seq ctl log) as H5. lia.
Qed.

Lemma ptp_tx_timed_run egress f s : ptp_tx_timed egress 0 f s = Some (u32 (egress - tile_timer_offset s), sent f s).
Proof. done. Qed.

Lemma served_send_sync egress : served (send_ptp_sync_msg egress 0).
Proof.
  intros s0 H0. unfold send_ptp_sync_msg. erewrite M_bind_run by reflexivity. erewrite M_bind_run by reflexivity.
  set (s := upd_sync_seq_id _ s0). assert (gptp_ok s) as Hs by (destruct H0; by split). clearbody s. cbv zeta.
  erewrite M_bind_run by apply ptp_tx_timed_run. rewrite <- !app_assoc.
  eexists tt, _. split; [done|]. apply (ptp_tx_ok _ (sent _ s)).
  - apply ptp_tx_ok; [done|]. apply message_frame; [done|done|done|]. rewrite length_replicate. unfold sizeof_SyncMessage. lia.
  - cbn [src_mac_addr sent upd_gptp_out]. apply message_frame; [done|done|done|].
    unfold follow_up_body. rewrite !length_app, timestamp_length. cbn. lia.
Qed.

Lemma served_send_pdelay_req egress : served (send_ptp_pdelay_req_msg egress 0).
Proof.
  unfold send_ptp_pdelay_req_msg. apply served_bind; [by apply served_upd_port|]. intros _.
  apply served_bind; [apply served_get_port|]. intros p s Hs. erewrite M_bind_run by reflexivity.
  erewrite M_bind_run by apply ptp_tx_timed_run.
  apply (served_bind (upd_port 0 _) (fun _ => upd_port 0 _)); [by apply served_upd_port|intros _; by apply served_upd_port|].
  apply ptp_tx_ok; [done|]. apply message_frame; [done|done|done|]. rewrite length_replicate. unfold sizeof_PdelayReqMessage. lia.
Qed.

Lemma local_to_epoch_run t s : exists ts e,
  local_to_epoch_ts t s = Some (ts, upd_prev_pdelay_local_ts (fun _ => t) (upd_pdelay_epoch_timer (fun _ => e) s)).
Proof. eexists _, _. unfold local_to_epoch_ts. do 3 erewrite M_bind_run by reflexivity. reflexivity. Qed.

Lemma epoch_ok t e s : gptp_ok s -> gptp_ok (upd_prev_pdelay_local_ts (fun _ => t) (upd_pdelay_epoch_timer (fun _ => e) s)).
Proof. intros []. by split. Qed.

Lemma served_send_pdelay_resp egress req ts : served (send_ptp_pdelay_resp_msg egress req ts 0).
Proof.
  intros s Hs. unfold send_ptp_pdelay_resp_msg. erewrite M_bind_run by reflexivity. cbv zeta.
  destruct (local_to_epoch_run ts s) as (ts1 & e1 & E1). rewrite (M_bind_run _ _ _ _ _ E1).
  set (s1 := upd_prev_pdelay_local_ts _ _). assert (gptp_ok s1) as H1 by (by apply epoch_ok).
  erewrite M_bind_run by apply ptp_tx_timed_run.
  match goal with |- context [sent ?f s1] => set (f1 := f) end.
  assert (forall m f0 ts, frame_of (src_mac_addr s)
    (set_ptp_ethernet_hdr (src_mac_addr s) ++ com_header m (Z.of_nat (sizeof_ComMessageHdr + sizeof_PdelayRespMessage))
       (req !!! off_domainNumber) f0 timescale_flag (field off_correctionField 8 req) (port_identity (my_port_id s) 0)
       (field off_sequenceId 2 req) PTP_CTL_FIELD_OTHERS 0x7F ++ timestamp_to_network ts ++ field off_sourcePortIdentity 10 req)) as Hf.
  { intros m f0 ts'. apply message_frame; [done|unfold field; rewrite length_take; lia..|].
    rewrite length_app, timestamp_length. unfold field. rewrite length_take. lia. }
  assert (gptp_ok (sent f1 s1)) as H2 by (apply ptp_tx_ok; [done|apply Hf]).
  destruct (local_to_epoch_run (u32 (egress - tile_timer_offset s1)) (sent f1 s1)) as (ts2 & e2 & E2).
  rewrite (M_bind_run _ _ _ _ _ E2). eexists tt, _. split; [done|]. apply (ptp_tx_ok _ (upd_prev_pdelay_local_ts _ _)).
  - by apply epoch_ok.
  - apply Hf.
Qed.

(** ** Messages in *)

(** Steps of a computation that keeps the invariant. *)
Ltac served_step :=
  match goal with
  | |- served (_ ≫= _) => apply served_bind; [|intros ?]
  | |- served (whenM _ _) => apply served_when
  | |- served (if _ then _ else _) => apply served_if
  | |- served (let '(_, _) := ?x in _) => destruct x
  | |- served (get_port 0) => apply served_get_port
  | |- served (has_role _ 0) => apply served_has_role
  | |- served (gets _) => apply served_gets
  | |- served (modify _) => by apply served_modify
  | |- served (upd_port 0 _) => by apply served_upd_port
  | |- served (upd_delay 0 _) => by apply served_upd_port
  | |- served (pdelay_req_reset _ 0) => apply served_pdelay_req_reset
  | |- served (reset_ascapable _ 0) => apply served_reset_ascapable
  | |- served (set_new_role _ _ 0) => by apply served_set_role
  | |- served skip => apply served_ret
  | |- served (mret _) => apply served_ret
  end.
Ltac served_auto := repeat served_step.

Lemma new_best_run env msg s p :
  ports s = [p] -> let announce := field sizeof_ComMessageHdr sizeof_AnnounceMessage msg in
  0 < bmca_new_best announce (best_announce_msg s) (my_port_id s) ->
  bmca_update_roles env msg 0 s = Some (tt,
    upd_master_port_id (fun _ => field off_sourcePortIdentity 10 msg)
      (upd_ports (fun _ => [upd_last_received_announce_time_valid (fun _ => false) (slave_port (ge_time env 0) p)])
        (slave_state (ge_time env 0) p (upd_master_port_id (fun _ => field off_sourcePortIdentity 10 msg)
          (upd_best_announce_msg (fun _ => announce) s))))).
Proof using Hone.
  intros E announce Hb. unfold bmca_update_roles. erewrite M_bind_run by reflexivity. cbv zeta. fold announce.
  rewrite (proj2 (Z.ltb_lt _ _) Hb). do 2 erewrite M_bind_run by reflexivity.
  erewrite M_bind_run by (apply slave_run; exact E). rewrite Hone. cbn [Nat.eqb whenM].
  erewrite M_bind_run by reflexivity. erewrite M_bind_run by (apply upd_port_run; reflexivity). reflexivity.
Qed.

Lemma served_bmca env msg : (sizeof_ComMessageHdr + sizeof_AnnounceMessage <= length msg)%nat -> served (bmca_update_roles env msg 0).
Proof using Hone.
  intros Hl s Hs. destruct (ok_port s Hs) as (p & E & [Hc Hr]).
  destruct (Z.ltb_spec 0 (bmca_new_best (field sizeof_ComMessageHdr sizeof_AnnounceMessage msg) (best_announce_msg s) (my_port_id s))) as [Hb|Hb].
  - eexists tt, _. split; [by apply new_best_run|]. destruct Hs as [_ Hm Hi Hbest Hsent]. split; [|done|done| |done].
    + eexists. split; [done|]. by split.
    + by apply field_length.
  - unfold bmca_update_roles. erewrite M_bind_run by reflexivity. cbv zeta. rewrite (proj2 (Z.ltb_ge _ _) Hb).
    assert (forall b, served (slave ← has_role PTP_SLAVE 0;
      whenM (b && slave) (_ ← set_new_role (ge_time env 0) PTP_MASTER 0;
                          upd_port 0 (upd_last_received_announce_time_valid (fun _ => false))))) as H by (intros b; served_auto).
    by apply H.
Qed.

Lemma served_recv_announce env msg ts :
  (sizeof_ComMessageHdr + sizeof_AnnounceMessage <= length msg)%nat -> served (recv_announce env msg ts 0).
Proof using Hone. intros Hl. unfold recv_announce. served_auto. by apply served_bmca. Qed.

Lemma served_recv_sync msg ts : served (recv_sync msg ts 0).
Proof. unfold recv_sync. served_auto. Qed.

Lemma served_recv_follow_up msg : served (recv_follow_up msg 0).
Proof. unfold recv_follow_up. served_auto. Qed.

Lemma served_recv_multiple_resp t : served (recv_multiple_resp t 0).
Proof using Hone. unfold recv_multiple_resp. served_auto. Qed.

Lemma served_recv_pdelay_resp env msg ts : served (recv_pdelay_resp env msg ts 0).
Proof using Hone. unfold recv_pdelay_resp. served_auto. apply served_recv_multiple_resp. Qed.

(** The port after the measurement of the delay, before its consequences. *)
Definition measured_port (msg : list Z) (adj : Z) (p : port_vars) : port_vars :=
  upd_port_info (upd_delay_info (upd_exchanges (fun n => u32 (n + 1))))
    (upd_port_info (upd_delay_info (update_path_delay (pdelay_request_receipt_ts p) (network_to_ptp_timestamp (body_of msg))
       (pdelay_request_sent_ts p) (pdelay_resp_ingress_ts p) adj)) p).
Definition delay_short (d : ptp_path_delay_t) : bool :=
  pd_valid d && (pdelay d <=? PTP_NEIGHBOR_PROP_DELAY_THRESH_NS) && (2 <=? exchanges d).
Definition judged_state (t : Z) (p : port_vars) (s : gptp) : gptp :=
  if delay_short (delay_info (port_info p)) then
    if asCapable (port_info p) then s else master_state t (capable_port p) (upd_ports (fun _ => [capable_port p]) s)
  else if asCapable (port_info p) then master_state t (incapable_port p) (upd_ports (fun _ => [incapable_port p]) s) else s.

(** The follow-up to the response to the request under way. *)
Definition awaited (msg : list Z) (p : port_vars) : bool :=
  received_pdelay p && (received_pdelay_id p =? ntoh16_at off_sequenceId msg) &&
  bytes_equal (field off_sourcePortIdentity 10 msg) (rcvd_source_identity (delay_info (port_info p))).

Lemma awaited_run env msg s p :
  ports s = [p] -> awaited msg p = true ->
  let q := measured_port msg (g_ptp_adjust (clock s)) p in
  recv_pdelay_resp_follow_up env msg 0 s =
    (_ ← upd_delay 0 (upd_lost_responses (fun _ => 0)); upd_port 0 (upd_received_pdelay (fun _ => false)))
      (judged_state (ge_time env 0) q (upd_ports (fun _ => [q]) s)).
Proof using Hone.
  intros E Ha q. unfold awaited in Ha. apply andb_true_iff in Ha as [Ha Hsrc]. apply andb_true_iff in Ha as [Hr Hid].
  unfold recv_pdelay_resp_follow_up. rewrite (M_bind_run _ _ _ _ _ (get_port_run _ _ E)). erewrite M_bind_run by reflexivity.
  rewrite Hr, Hid, Hsrc. cbn [andb whenM]. unfold mbind at 1, M_bind at 1.
  unfold upd_delay, upd_info. rewrite (M_bind_run _ _ _ _ _ (upd_port_run _ _ _ E)).
  erewrite M_bind_run by (apply upd_port_run; reflexivity). erewrite M_bind_run by (apply get_port_run; reflexivity).
  change (upd_port_info _ (upd_port_info _ p)) with q. change (upd_ports _ (upd_ports _ s)) with (upd_ports (fun _ => [q]) s).
  cbv zeta. fold (delay_short (delay_info (port_info q))). unfold judged_state. destruct (delay_short _).
  - erewrite M_bind_run by (apply set_ascapable_run; reflexivity). by destruct (asCapable _).
  - erewrite M_bind_run by (apply reset_ascapable_run; reflexivity). by destruct (asCapable _).
Qed.

Lemma with_port_ok q s : gptp_ok s -> port_ok (own_message s) q -> gptp_ok (upd_ports (fun _ => [q]) s).
Proof. intros [_ Hm Hi Hb Hs] Hq. split; try done. by exists q. Qed.

Lemma judged_ok t p q s :
  gptp_ok s -> ports s = [p] -> role_state (port_info q) = role_state (port_info p) ->
  gptp_ok (judged_state t q (upd_ports (fun _ => [q]) s)).
Proof.
  intros Hs E Hrole. destruct (ok_port s Hs) as (p' & E' & [_ Hsteps]). rewrite E in E'. injection E' as <-. rewrite <- Hrole in Hsteps.
  unfold judged_state. destruct (delay_short _) eqn:Hd.
  - unfold delay_short in Hd. apply andb_true_iff in Hd as [Hd He%Z.leb_le]. apply andb_true_iff in Hd as [_ Hp%Z.leb_le].
    destruct (asCapable _) eqn:Hc; [by apply with_port_ok|]. apply master_ok; [|done]. by apply (with_port_ok (capable_port q) s).
  - destruct (asCapable _) eqn:Hc.
    + apply master_ok; [|done]. by apply (with_port_ok (incapable_port q) s).
    + apply with_port_ok; [done|]. split; [congruence|done].
Qed.

Lemma served_recv_pdelay_resp_follow_up env msg : served (recv_pdelay_resp_follow_up env msg 0).
Proof using Hone.
  intros s Hs. destruct (ok_port s Hs) as (p & E & Hp).
  assert (served (_ ← upd_delay 0 (upd_lost_responses (fun _ => 0)); upd_port 0 (upd_received_pdelay (fun _ => false)))) as Hlast by served_auto.
  destruct (awaited msg p) eqn:Ha.
  - rewrite (awaited_run env msg s p E Ha). apply Hlast. by apply (judged_ok _ p).
  - unfold awaited in Ha. unfold recv_pdelay_resp_follow_up. rewrite (M_bind_run _ _ _ _ _ (get_port_run _ _ E)).
    erewrite M_bind_run by reflexivity. rewrite <- andb_assoc in Ha. clear Hp.
    destruct (received_pdelay p); cbn [whenM]; [cbn [andb] in Ha; rewrite Ha|].
    + revert s Hs E. enough (served (_ ← pdelay_req_reset (ge_time env 0) 0; upd_port 0 (upd_received_pdelay (fun _ => false)))) as H
        by (intros s Hs _; by apply H). served_auto.
    + revert s Hs E. enough (served (_ ← skip; upd_port 0 (upd_received_pdelay (fun _ => false)))) as H by (intros s Hs _; by apply H).
      served_auto.
Qed.

Lemma served_ptp_recv env buf ts : (MAX_PTP_MESG_LENGTH <= length buf)%nat -> served (ptp_recv env buf ts 0).
Proof using Hone.
  intros Hl. unfold ptp_recv. rewrite (proj2 (Nat.ltb_ge _ _) Hl). set (msg := drop _ buf).
  assert (sizeof_ComMessageHdr + sizeof_AnnounceMessage <= length msg)%nat as Hmsg.
  { unfold msg. rewrite length_drop. unfold MAX_PTP_MESG_LENGTH, sizeof_ComMessageHdr, sizeof_AnnounceMessage in *. destruct (_ =? _); lia. }
  unfold ptp_dispatch. served_auto.
  - by apply served_recv_announce.
  - apply served_recv_sync.
  - apply served_recv_follow_up.
  - apply served_send_pdelay_resp.
  - apply served_recv_pdelay_resp.
  - apply served_recv_pdelay_resp_follow_up.
Qed.

(** What [ptp_reset] does after the change of role. It puts the measured delay to zero before
    the port ceases to be capable. *)
Definition reset_rest (env : gptp_env) : M gptp unit :=
  _ ← upd_port 0 (upd_last_received_announce_time_valid (fun _ => false));
  _ ← upd_delay 0 (upd_multiple_resp_count (fun _ => 0)); _ ← upd_delay 0 (upd_pdelay (fun _ => 0));
  _ ← upd_delay 0 (upd_lost_responses (fun _ => 0)); _ ← upd_port 0 (upd_periodic_counter (fun _ => 0));
  reset_ascapable (ge_time env 1) 0.

Lemma served_reset_rest env : served (reset_rest env).
Proof using Hone.
  unfold reset_rest. served_auto. intros s Hs. destruct (ok_port s Hs) as (p & E & [Hc Hr]).
  eexists tt, _. split; [by apply upd_port_run|]. apply with_port_ok; [done|]. split; [|done].
  cbn. intros Ha. destruct (Hc Ha). by split.
Qed.

Lemma ptp_reset_split env : ptp_reset env 0 = (_ ← set_new_role (ge_time env 0) PTP_MASTER 0; reset_rest env).
Proof. reflexivity. Qed.

Lemma served_ptp_reset env : served (ptp_reset env 0).
Proof using Hone. apply served_bind; [by apply served_set_role|]. intros _. apply served_reset_rest. Qed.

(** ** The periodic function *)

Definition same_role (s s' : gptp) : Prop :=
  (fun p => role_state (port_info p)) <$> ports s' = (fun p => role_state (port_info p)) <$> ports s.
#[export] Instance same_role_preorder : PreOrder same_role.
Proof. split; [by intros s|]. intros s1 s2 s3 H1 H2. unfold same_role in *. congruence. Qed.

Lemma keeps_upd_port i g :
  (forall p, role_state (port_info (g p)) = role_state (port_info p)) -> keeps same_role (upd_port i g).
Proof.
  intros Hg. apply keeps_store. intros s s' H. destruct (ports s !! i) as [p|] eqn:E; [|done]. injection H as <-.
  unfold same_role. cbn. unfold upd_ports. cbn. rewrite list_fmap_insert, Hg. apply list_insert_id.
  by rewrite list_lookup_fmap, E.
Qed.

Lemma keeps_role_modify f : (forall s, ports (f s) = ports s) -> keeps same_role (modify f).
Proof. intros Hf. apply keeps_modify. intros s. unfold same_role. by rewrite Hf. Qed.

Lemma sending_same_role : keeps same_role (sending_pdelay 0).
Proof.
  unfold sending_pdelay, upd_delay, upd_info, get_port.
  repeat first [by apply keeps_upd_port | keeps_step].
Qed.

Lemma timeouts_same_role now t role : role <> PTP_SLAVE -> keeps same_role (receipt_timeouts now t role 0).
Proof.
  intros Hr. unfold receipt_timeouts, get_port. rewrite (bool_decide_eq_false_2 (role = PTP_SLAVE)) by done. cbn [whenM].
  repeat first [by apply keeps_upd_port | by apply keeps_role_modify | keeps_step].
Qed.

Lemma served_receipt_timeouts now t role : served (receipt_timeouts now t role 0).
Proof using Hone. unfold receipt_timeouts. served_auto. Qed.

Lemma served_sending : served (sending_pdelay 0).
Proof. unfold sending_pdelay. served_auto. Qed.

Lemma served_periodic_port env t : served (ptp_periodic_port env t 0).
Proof using Hone.
  intros s Hs. destruct (ok_port s Hs) as (p & E & _). unfold ptp_periodic_port.
  rewrite (M_bind_run _ _ _ _ _ (get_port_run _ _ E)). cbv zeta.
  destruct (served_sending s Hs) as (b & s1 & E1 & H1). rewrite (M_bind_run _ _ _ _ _ E1).
  destruct (served_receipt_timeouts (ge_time env (2 * 0)) t (role_state (port_info p)) s1 H1) as (u & s2 & E2 & H2).
  rewrite (M_bind_run _ _ _ _ _ E2). destruct (ok_port s2 H2) as (p2 & E2' & _).
  rewrite (M_bind_run _ _ _ _ _ (get_port_run _ _ E2')).
  match goal with |- context [whenM ?x (_ ← send_ptp_announce_msg 0; _)] => set (announce := x) end.
  assert (exists s3, whenM announce (_ ← send_ptp_announce_msg 0; upd_port 0 (upd_last_announce_time (fun _ => t))) s2 = Some (tt, s3) /\ gptp_ok s3)
    as (s3 & E3 & H3).
  { destruct announce eqn:Ha; cbn [whenM]; [|by exists s2]. destruct (served_send_announce s2 H2) as (s3 & E3 & H3).
    - intros q Eq. rewrite E2' in Eq. injection Eq as <-. unfold announce in Ha. apply andb_true_iff in Ha as [Ha _].
      apply andb_true_iff in Ha as [_ Ha%bool_decide_eq_true]. assert (role_state (port_info p) <> PTP_SLAVE) as Hn by (intros Hx; rewrite Hx in Ha; by destruct Ha).
      pose proof (timeouts_same_role _ _ _ Hn _ _ _ E2) as R2. pose proof (sending_same_role _ _ _ E1) as R1.
      unfold same_role in *. rewrite R1, E, E2' in R2. cbn in R2. injection R2 as ->. done.
    - rewrite (M_bind_run _ _ _ _ _ E3). edestruct (served_upd_port (upd_last_announce_time (fun _ => t))) as ([] & s4 & E4 & H4); [done|exact H3|].
      by exists s4. }
  rewrite (M_bind_run _ _ _ _ _ E3). clear E3. revert s3 H3. apply served_bind; [apply served_get_port|]. intros p3.
  apply served_bind; [served_auto; apply served_send_sync|]. intros _. served_auto. apply served_send_pdelay_req.
Qed.

Lemma served_periodic env t : served (ptp_periodic env t).
Proof using Hone.
  unfold ptp_periodic. rewrite Hone. cbn [seq forM]. served_auto. apply served_periodic_port.
Qed.
End OnePort.

(** What comes from outside: the only port, a buffer of the server's size. *)
Definition gptp_input_ok (i : gptp_input) : Prop :=
  match i with
  | PtpLink _ port _ => port = 0%nat
  | PtpPacket buf _ port _ => port = 0%nat /\ (MAX_PTP_MESG_LENGTH <= length buf)%nat
  | PtpTimer _ _ => True
  end.
#[export] Instance gptp_input_ok_dec i : Decision (gptp_input_ok i).
Proof. destruct i; apply _. Defined.

Inductive gptp_reachable `{cfg : GptpConfig} : gptp -> Prop :=
| gptp_boots env now other gm mac s :
    length mac = 6%nat -> ptp_init env now other gm mac zero_gptp = Some (tt, s) -> gptp_reachable s
| gptp_steps i s s' : gptp_reachable s -> gptp_input_ok i -> gptp_serve i s = Some (tt, s') -> gptp_reachable s'.

Section OnePort.
Context `{cfg : GptpConfig} (Hone : PTP_NUM_PORTS = 1%nat).

(** The state as the initialisation finds it, with the device's identity. *)
Definition booting (now : Z) (other : option Z) (gm : bool) (mac : list Z) : gptp :=
  upd_my_port_id (fun _ => clock_identity_of_mac mac)
    (upd_src_mac_addr (fun _ => take 6 mac)
      (upd_ptp_priority1 (fun _ => if gm then PTP_DEFAULT_GM_CAPABLE_PRIORITY1 else PTP_DEFAULT_NON_GM_CAPABLE_PRIORITY1)
        (upd_tile_timer_offset (fun _ => match other with Some t => s32 (t - now - 3) | None => 0 end) zero_gptp))).

Lemma master_ok_boot t now other gm mac : length mac = 6%nat -> gptp_ok (master_state t zero_port (booting now other gm mac)).
Proof.
  intros Hm. assert (take 6 mac = mac) as Ht by by rewrite take_ge by lia.
  unfold master_state. eapply own_announce_ok; [reflexivity|..].
  - change (length (take 6 mac) = 6%nat). by rewrite Ht.
  - change (clock_identity_of_mac mac = clock_identity_of_mac (take 6 mac)). by rewrite Ht.
  - reflexivity.
  - constructor.
  - discriminate.
Qed.

(** Before the first reset the device has no announcement of its own, but it becomes a master. *)
Lemma boot_reset env now other gm mac :
  length mac = 6%nat -> exists s, ptp_reset env 0 (booting now other gm mac) = Some (tt, s) /\ gptp_ok s.
Proof using Hone.
  intros Hm. assert (ports (booting now other gm mac) = [zero_port]) as E by (cbn; by rewrite Hone).
  pose proof (master_run Hone (ge_time env 0) _ _ E) as Er.
  pose proof (master_ok_boot (ge_time env 0) now other gm mac Hm) as Hs.
  destruct (served_reset_rest Hone env _ Hs) as ([] & s' & E' & H'). exists s'. split; [|exact H'].
  rewrite ptp_reset_split. by rewrite (M_bind_run _ _ _ _ _ Er).
Qed.

Lemma init_split env now other gm mac :
  ptp_init env now other gm mac zero_gptp =
    (_ ← forM (seq 0 PTP_NUM_PORTS) (fun i => ptp_reset (env i) i); modify (upd_pdelay_epoch_timer (fun _ => now)))
      (booting now other gm mac).
Proof. reflexivity. Qed.

Lemma init_run env now other gm mac :
  length mac = 6%nat -> exists s, ptp_init env now other gm mac zero_gptp = Some (tt, s) /\ gptp_ok s.
Proof using Hone.
  intros Hm. destruct (boot_reset (env 0%nat) now other gm mac Hm) as (s & E & Hs).
  exists (upd_pdelay_epoch_timer (fun _ => now) s). rewrite init_split, Hone. cbn [seq forM]. split; [|destruct Hs; by split].
  rewrite (M_bind_run _ _ _ tt s); [done|]. by rewrite (M_bind_run _ _ _ _ _ E).
Qed.

Lemma served_serve i : gptp_input_ok i -> served (gptp_serve i).
Proof using Hone.
  destruct i as [up port env|buf ts port env|t env]; cbn [gptp_input_ok gptp_serve].
  - intros ->. apply served_when, served_ptp_reset, Hone.
  - intros [-> Hl]. by apply served_ptp_recv.
  - intros _. by apply served_periodic.
Qed.

Lemma gptp_reachable_ok s : gptp_reachable s -> gptp_ok s.
Proof using Hone.
  induction 1 as [env now other gm mac s Hm H|i s s' _ IH Hi H].
  { destruct (init_run env now other gm mac Hm) as (s' & E & Hs). rewrite E in H. by injection H as <-. }
  destruct (served_serve i Hi s IH) as ([] & s1 & E & H1). rewrite E in H. by injection H as <-.
Qed.

(** C24: From every reachable state of a gPTP server with one port, every input - a packet of
    any content, the timer, a change of the link - is served to the end, without an access
    outside an array. In every reachable state a port that counts as capable has measured a
    delay of at most 800 ns, and at least twice; a device that is not a slave announces its
    own clock, at no distance; and all frames sent are of a legal size, from this device, to
    the group address and of the type of PTP. *)
Theorem gptp_input_served i s :
  gptp_reachable s -> gptp_input_ok i ->
  (exists s', gptp_serve i s = Some (tt, s') /\ gptp_reachable s') /\
  (exists p, ports s = [p] /\
     (asCapable (port_info p) = true ->
        pdelay (delay_info (port_info p)) <= PTP_NEIGHBOR_PROP_DELAY_THRESH_NS /\ 2 <= exchanges (delay_info (port_info p))) /\
     (role_state (port_info p) <> PTP_SLAVE ->
        clockIdentity_of (best_announce_msg s) = my_port_id s /\ ntoh16_at off_stepsRemoved (best_announce_msg s) = 0)) /\
  Forall (frame_ok (src_mac_addr s)) (gptp_out s).
Proof using Hone.
  intros Hr Hi. pose proof (gptp_reachable_ok s Hr) as Hs. split_and!.
  - destruct (served_serve i Hi s Hs) as ([] & s' & E & H'). exists s'. split; [done|]. by eapply gptp_steps.
  - destruct (ok_port s Hs) as (p & E & [Hc Hown]). exists p. split_and!; [done|done|]. intros Hn.
    assert (length (my_port_id s) = 8%nat) as Hl by by apply ok_identity_length.
    split; [apply own_message_identity|apply own_message_steps]; try done; by apply Hown.
  - apply Hs.
Qed.
End OnePort.
