(* ===== verification/GptpRoles.v ===== *)
(** Messages are read as they were written: the common header, timestamps, announcements.
    Which clock is the best, and who becomes the master. *)
From S2P Require Import Prelude Bytes MiscTimer PtpTime GptpTypes Gptp GptpSafe.
From stdpp Require Import base list list_numbers numbers option.
From Stdlib Require Import ZArith Lia.
#[local] Open Scope Z_scope.

Lemma ntoh16_hton16 x post : ntoh16_at 0 (hton16 x ++ post) = u16 x.
Proof.
  unfold ntoh16_at, hton16. cbn [app lookup_total list_lookup_total]. unfold ntoh16. rewrite land_255, Z.shiftr_div_pow2 by lia.
  pose proof (u16_range x) as Hx. set (y := u16 x) in *. unfold u8, wrap. change (2 ^ 8) with 256.
  rewrite be16_value by (unfold byte_ok; Z.to_euclidean_division_equations; lia).
  rewrite u16_small; Z.to_euclidean_division_equations; lia.
Qed.

(** The fields of a header, and what is behind it. *)
Lemma com_header_fields t l d f0 f1 c src seq ctl log body :
  length c = 8%nat -> length src = 10%nat -> length seq = 2%nat ->
  let msg := com_header t l d f0 f1 c src seq ctl log ++ body in
  msg !!! 0%nat = Z.lor PTP_TRANSPORT_SPECIFIC_HDR t /\ msg !!! off_domainNumber = d /\
  field off_correctionField 8 msg = c /\ field off_sourcePortIdentity 10 msg = src /\
  field off_sourcePortIdentity 8 msg = take 8 src /\ field off_sequenceId 2 msg = seq /\
  ntoh16_at off_sequenceId msg = ntoh16_at 0 seq /\ msg !!! off_logMessageInterval = u8 log /\ body_of msg = body.
Proof.
  intros Hc Hs Hq msg. unfold msg. destruct_len c Hc. destruct_len src Hs. destruct_len seq Hq. by split_and!.
Qed.

(** A message of this device's form, whatever its type. *)
Lemma ptp_recv_run `{cfg : GptpConfig} env mac t l d f0 f1 c src seq ctl log body ts s p :
  let msg := com_header t l d f0 f1 c src seq ctl log ++ body in
  length mac = 6%nat -> length c = 8%nat -> length src = 10%nat -> length seq = 2%nat -> ports s = [p] ->
  (MAX_PTP_MESG_LENGTH <= 14 + length msg)%nat -> 0 <= t < 16 ->
  ptp_recv env (set_ptp_ethernet_hdr mac ++ msg) ts 0 s =
    ptp_dispatch env msg (u32 (ts - tile_timer_offset s)) (asCapable (port_info p)) 0 s /\ Z.land (msg !!! 0%nat) 15 = t.
Proof.
  intros msg Hm Hc Hs Hq E Hl Ht. pose proof (hdr_length mac Hm) as Hh.
  destruct (com_header_fields t l d f0 f1 c src seq ctl log body Hc Hs Hq) as (E0 & _). fold msg in E0.
  assert (Z.lor PTP_TRANSPORT_SPECIFIC_HDR t = 16 + t) as Et.
  { unfold PTP_TRANSPORT_SPECIFIC_HDR. rewrite lor_shiftl_add by lia. lia. }
  assert (Z.land (16 + t) 15 = t) as El.
  { change 15 with (Z.ones 4). rewrite Z.land_ones by lia. Z.to_euclidean_division_equations; lia. }
  split; [|by rewrite E0, Et].
  unfold ptp_recv. rewrite length_app, Hh, (proj2 (Nat.ltb_ge _ _) Hl).
  rewrite (lookup_total_app_l _ _ 13) by lia.
  assert ((set_ptp_ethernet_hdr mac !!! 13%nat =? 0x18) = false) as -> by (clear -Hm; by destruct_len mac Hm).
  rewrite drop_app_length' by done. erewrite M_bind_run by reflexivity. rewrite (M_bind_run _ _ _ _ _ (get_port_run _ _ E)).
  unfold GET_PTP_TRANSPORT_SPECIFIC. rewrite E0, Et.
  assert (Z.shiftr (Z.land (16 + t) PTP_TRANSPORT_SPECIFIC_MASK) 4 = 1) as ->; [|done].
  assert (t = 0 \/ t = 1 \/ t = 2 \/ t = 3 \/ t = 4 \/ t = 5 \/ t = 6 \/ t = 7 \/ t = 8 \/ t = 9 \/ t = 10 \/ t = 11 \/ t = 12 \/
    t = 13 \/ t = 14 \/ t = 15) as H by lia. by destruct_or! H; subst t.
Qed.

(** * Timestamps *)

Record timestamp_ok (ts : ptp_timestamp) : Prop := {
  sec_lo_ok : 0 <= seconds_lo ts < 2 ^ 32;
  sec_hi_ok : 0 <= seconds_hi ts < 2 ^ 32;
  nano_ok : 0 <= nanoseconds ts < NANOSECONDS_PER_SECOND;
}.

Lemma le_bytes_4 x : 0 <= x < 2 ^ 32 ->
  exists b0 b1 b2 b3, le_bytes 4 x = [b0; b1; b2; b3] /\ be_value [b3; b2; b1; b0] = x /\ be_value [b3; b2; 0; 0] = x / 65536 * 65536.
Proof.
  intros Hx. rewrite !le_bytes_succ. eexists _, _, _, _. split; [done|]. unfold be_value. cbn [foldl].
  split; Z.to_euclidean_division_equations; lia.
Qed.

(** What arrives of a timestamp: the bits of the seconds from 32 to 47 are lost. (The standard
    has 48 bits, and the code sends the bits from 48 to 63 in the place of these.) *)
Lemma timestamp_wire ts post :
  timestamp_ok ts -> network_to_ptp_timestamp (timestamp_to_network ts ++ post) =
    MkTimestamp (seconds_lo ts) (seconds_hi ts / 65536 * 65536) (nanoseconds ts).
Proof.
  intros [Hl Hh Hn]. unfold NANOSECONDS_PER_SECOND in Hn.
  destruct (le_bytes_4 (seconds_lo ts) Hl) as (l0 & l1 & l2 & l3 & El & Vl & _).
  destruct (le_bytes_4 (seconds_hi ts) Hh) as (h0 & h1 & h2 & h3 & Eh & _ & Vh).
  destruct (le_bytes_4 (nanoseconds ts)) as (n0 & n1 & n2 & n3 & En & Vn & _); [lia|].
  unfold timestamp_to_network. rewrite El, Eh, En.
  transitivity (MkTimestamp (be_value [l3; l2; l1; l0]) (be_value [h3; h2; 0; 0]) (be_value [n3; n2; n1; n0])); [reflexivity|].
  by rewrite Vl, Vh, Vn.
Qed.

(** A time in nanoseconds. *)
Definition ts_ns (ts : ptp_timestamp) : Z := (seconds_lo ts + seconds_hi ts * 2 ^ 32) * NANOSECONDS_PER_SECOND + nanoseconds ts.

Lemma ts_sec_value ts : timestamp_ok ts -> ts_sec ts = seconds_lo ts + seconds_hi ts * 2 ^ 32.
Proof. intros [Hl _ _]. unfold ts_sec. rewrite Z.lor_comm, lor_shiftl_add; lia. Qed.

(** An offset forwards, or backwards within the second. *)
Lemma offset_ns ts d :
  timestamp_ok ts -> 0 <= nanoseconds ts + d < 2 ^ 63 -> ts_ns ts + d < 2 ^ 64 * NANOSECONDS_PER_SECOND ->
  timestamp_ok (ptp_timestamp_offset64 ts d) /\ ts_ns (ptp_timestamp_offset64 ts d) = ts_ns ts + d.
Proof.
  intros Hok Hd Hb. unfold ptp_timestamp_offset64. rewrite (ts_sec_value _ Hok). destruct Hok as [Hl Hh Hn].
  unfold ts_ns in *. unfold NANOSECONDS_PER_SECOND in *. rewrite (u64_small (nanoseconds ts + d)) by lia.
  set (sec := seconds_lo ts + seconds_hi ts * 2 ^ 32) in *. set (n := nanoseconds ts + d) in *.
  assert (0 <= sec + n / 1000000000 < 2 ^ 64) as Hs by (Z.to_euclidean_division_equations; lia).
  rewrite (u64_small (sec + _)) by lia. set (S := sec + n / 1000000000) in *.
  assert (0 <= n mod 1000000000 < 1000000000) as Hm by (Z.to_euclidean_division_equations; lia).
  rewrite (u32_small (n mod _)), Z.shiftr_div_pow2 by lia.
  assert (0 <= S / 2 ^ 32 < 2 ^ 32) as HS by (Z.to_euclidean_division_equations; lia).
  rewrite (u32_small (S / _)) by lia. cbn [seconds_lo seconds_hi nanoseconds].
  assert (u32 S + S / 2 ^ 32 * 2 ^ 32 = S) as E by (unfold u32, wrap; Z.to_euclidean_division_equations; lia).
  pose proof (u32_range S) as HR. split.
  - by split.
  - rewrite E. unfold S, n. Z.to_euclidean_division_equations; lia.
Qed.

(** The difference is exact if it fits, whatever overflows on the way. *)
Lemma s64_cong x : exists k, s64 x = x + k * 2 ^ 64.
Proof.
  unfold s64, signed, wrap. destruct (_ <? _); [exists (- (x / 2 ^ 64))|exists (- (x / 2 ^ 64) - 1)];
    Z.to_euclidean_division_equations; lia.
Qed.
Lemma s64_shift x k : s64 (x + k * 2 ^ 64) = s64 x.
Proof. unfold s64, signed, wrap. by rewrite Z_mod_plus_full. Qed.

Lemma diff_ns a b :
  timestamp_ok a -> timestamp_ok b -> - 2 ^ 63 <= ts_ns a - ts_ns b < 2 ^ 63 -> ptp_timestamp_diff a b = ts_ns a - ts_ns b.
Proof.
  intros Ha Hb H. unfold ptp_timestamp_diff. rewrite (ts_sec_value _ Ha), (ts_sec_value _ Hb).
  destruct (s64_cong (seconds_lo a + seconds_hi a * 2 ^ 32 - (seconds_lo b + seconds_hi b * 2 ^ 32))) as [k1 ->].
  match goal with |- context [s64 (?x * NANOSECONDS_PER_SECOND)] => destruct (s64_cong (x * NANOSECONDS_PER_SECOND)) as [k2 ->] end.
  destruct (s64_cong (nanoseconds a - nanoseconds b)) as [k3 ->].
  match goal with |- s64 ?x = _ => replace x with (ts_ns a - ts_ns b + (k3 + k2 + k1 * NANOSECONDS_PER_SECOND) * 2 ^ 64)
    by (unfold ts_ns; ring) end.
  rewrite s64_shift. by apply s64_small.
Qed.

(** An offset and the difference are inverse. *)
Lemma diff_offset ts d :
  timestamp_ok ts -> 0 <= nanoseconds ts + d < 2 ^ 63 -> ts_ns ts + d < 2 ^ 64 * NANOSECONDS_PER_SECOND -> - 2 ^ 63 <= d < 2 ^ 63 ->
  ptp_timestamp_diff (ptp_timestamp_offset64 ts d) ts = d.
Proof. intros Hts H1 H2 H3. destruct (offset_ns ts d Hts H1 H2) as [H4 H5]. rewrite diff_ns; rewrite ?H5; try done; lia. Qed.

(** * The order of clocks *)

(** What decides between two clocks, as one number - the fields of an announcement from
    [grandmasterPriority1] to [grandmasterIdentity], the smaller the better - and its part
    without the identity. *)
Definition clock_vector (announce : list Z) : Z := be_value (field off_grandmasterPriority1 14 announce).
Definition clock_quality (announce : list Z) : Z := be_value (field off_grandmasterPriority1 6 announce).

Record announce_ok (a : list Z) : Prop := {
  announce_length : length a = sizeof_AnnounceMessage;
  announce_bytes : Forall byte_ok (field off_grandmasterPriority1 14 a);
}.

Lemma be_value_cons x l : be_value (x :: l) = x * 256 ^ Z.of_nat (length l) + be_value l.
Proof.
  unfold be_value. cbn [foldl]. change (0 * 256 + x) with x. assert (forall y z, foldl (fun x b => x * 256 + b) (y + z) l =
    y * 256 ^ Z.of_nat (length l) + foldl (fun x b => x * 256 + b) z l) as H.
  { induction l as [|b l IH]; intros y z; cbn [foldl length]; [lia|].
    replace ((y + z) * 256 + b) with (y * 256 + (z * 256 + b)) by lia. rewrite IH, Nat2Z.inj_succ, Z.pow_succ_r; lia. }
  rewrite <- H. by rewrite Z.add_0_r.
Qed.

(** Comparing byte by byte compares the numbers. *)
Lemma compare_bytes_value a b :
  Forall byte_ok a -> Forall byte_ok b -> length a = length b ->
  compare_bytes a b = if be_value a <? be_value b then 1 else if be_value b <? be_value a then -1 else 0.
Proof.
  intros Ha. revert b. induction Ha as [|x a Hx Ha IH]; intros [|y b] Hb Hl; try done. cbn [compare_bytes].
  apply list.Forall_cons in Hb as [Hy Hb]. injection Hl as Hl. rewrite !be_value_cons, IH, Hl by done.
  pose proof (be_value_range a Ha) as Ra. pose proof (be_value_range b Hb) as Rb. rewrite Hl in Ra.
  set (W := 256 ^ Z.of_nat (length b)) in *. unfold byte_ok in *. clearbody W.
  destruct (Z.ltb_spec y x); [|destruct (Z.ltb_spec x y)].
  - assert (y * W + W <= x * W) by nia. rewrite (proj2 (Z.ltb_ge _ _)), (proj2 (Z.ltb_lt _ _)); lia.
  - assert (x * W + W <= y * W) by nia. rewrite (proj2 (Z.ltb_lt _ _)); lia.
  - assert (x = y) as -> by lia.
    destruct (Z.ltb_spec (be_value a) (be_value b)), (Z.ltb_spec (be_value b) (be_value a)),
      (Z.ltb_spec (y * W + be_value a) (y * W + be_value b)), (Z.ltb_spec (y * W + be_value b) (y * W + be_value a)); lia || done.
Qed.

Lemma compare_identity_zero a b :
  Forall byte_ok a -> Forall byte_ok b -> length a = length b -> compare_bytes a b = 0 <-> a = b.
Proof.
  intros Ha Hb Hl. rewrite compare_bytes_value by done. split.
  - intros H. apply be_value_inj; try done. destruct (Z.ltb_spec (be_value a) (be_value b)), (Z.ltb_spec (be_value b) (be_value a)); lia.
  - intros ->. by rewrite Z.ltb_irrefl.
Qed.

Lemma field_cons off n (l : list Z) : (off < length l)%nat -> field off (S n) l = l !!! off :: field (S off) n l.
Proof.
  intros H. unfold field. destruct (lookup_lt_is_Some_2 _ _ H) as [x Hx]. rewrite (drop_S _ _ _ Hx). cbn [take].
  by rewrite (list_lookup_total_correct _ _ _ Hx).
Qed.

Lemma field_bytes off n (l : list Z) : Forall byte_ok l -> Forall byte_ok (field off n l).
Proof. intros H. unfold field. by apply Forall_take, Forall_drop. Qed.

Lemma byte_at (l : list Z) i : Forall byte_ok l -> byte_ok (l !!! i).
Proof.
  intros H. rewrite list_lookup_total_alt. destruct (l !! i) as [x|] eqn:E; cbn; [by eapply Forall_lookup_1|by cbv].
Qed.

Lemma identity_bytes a : Forall byte_ok (field off_grandmasterPriority1 14 a) -> Forall byte_ok (clockIdentity_of a).
Proof.
  intros H. apply (Forall_drop _ 6) in H. unfold field in H. by rewrite skipn_firstn_comm, drop_drop in H.
Qed.

(** The fields of an announcement, as the code compares them. *)
Lemma vector_fields a : announce_ok a ->
  let id := be_value (clockIdentity_of a) in
  clock_quality a = a !!! off_grandmasterPriority1 * 2 ^ 40 + a !!! off_clockClass * 2 ^ 32 + a !!! off_clockAccuracy * 2 ^ 24 +
    ntoh16_at off_clockOffsetScaledLogVariance a * 2 ^ 8 + a !!! off_grandmasterPriority2 /\
  clock_vector a = clock_quality a * 2 ^ 64 + id /\ 0 <= id < 2 ^ 64 /\
  byte_ok (a !!! off_grandmasterPriority1) /\ byte_ok (a !!! off_clockClass) /\ byte_ok (a !!! off_clockAccuracy) /\
  0 <= ntoh16_at off_clockOffsetScaledLogVariance a < 65536 /\ byte_ok (a !!! off_grandmasterPriority2).
Proof.
  intros [Hl Hb] id. unfold sizeof_AnnounceMessage in Hl.
  assert (length (clockIdentity_of a) = 8%nat) as Hid by (apply field_length; unfold off_grandmasterIdentity; lia).
  pose proof (be_value_range (clockIdentity_of a) (identity_bytes a Hb)) as Hr. rewrite Hid in Hr. fold id in Hr.
  assert (forall i, (i < 14)%nat -> byte_ok (a !!! (13 + i)%nat)) as Hi.
  { intros i Hlt. rewrite <- (field_lookup 13 14) by done. by apply byte_at. }
  set (q := [a !!! 13%nat; a !!! 14%nat; a !!! 15%nat; a !!! 16%nat; a !!! 17%nat; a !!! 18%nat]).
  assert (field 13 6 a = q) as E6 by (rewrite !(field_cons _ _ a) by lia; done).
  assert (field 13 14 a = q ++ clockIdentity_of a) as E14 by (rewrite 6(field_cons _ _ a) by lia; done).
  unfold clock_vector, clock_quality, off_grandmasterPriority1. rewrite E6, E14. unfold q. cbn [app].
  rewrite !be_value_cons. cbn [length]. rewrite !Hid. unfold ntoh16_at, ntoh16. rewrite be16_value by apply (Hi 4%nat ltac:(lia)).
  change (be_value []) with 0. fold id. unfold off_clockOffsetScaledLogVariance, off_clockClass, off_clockAccuracy, off_grandmasterPriority2.
  pose proof (Hi 0%nat ltac:(lia)); pose proof (Hi 1%nat ltac:(lia)); pose proof (Hi 2%nat ltac:(lia));
  pose proof (Hi 3%nat ltac:(lia)); pose proof (Hi 4%nat ltac:(lia)); pose proof (Hi 5%nat ltac:(lia)). cbn [Nat.add] in *.
  unfold byte_ok in *. rewrite u16_small by lia.
  change (256 ^ Z.of_nat 8) with (2 ^ 64) in Hr. split_and!; try lia.
Qed.

Lemma new_best_value announce best my_port_id :
  announce_ok announce -> announce_ok best -> Forall byte_ok my_port_id -> length my_port_id = 8%nat ->
  bmca_new_best announce best my_port_id =
    if decide (clockIdentity_of announce = my_port_id) then 0
    else if clock_vector announce <? clock_vector best then 1
    else if clock_quality best <? clock_quality announce then -1 else 0.
Proof.
  intros Ha Hb Hm Hl. pose proof (vector_fields _ Ha) as (Qa & Va & Ia & A1 & A2 & A3 & A4 & A5).
  pose proof (vector_fields _ Hb) as (Qb & Vb & Ib & B1 & B2 & B3 & B4 & B5).
  assert (forall x, announce_ok x -> length (clockIdentity_of x) = 8%nat /\ Forall byte_ok (clockIdentity_of x)) as Hid.
  { intros x [H1 H2]. split; [|by apply identity_bytes]. apply field_length. rewrite H1. unfold off_grandmasterIdentity, sizeof_AnnounceMessage. lia. }
  destruct (Hid _ Ha) as [La Ba], (Hid _ Hb) as [Lb Bb]. unfold bmca_new_best, compare_clock_identity_to_me, compare_clock_identity.
  destruct (decide (clockIdentity_of announce = my_port_id)) as [->|Hne].
  { rewrite (proj2 (compare_identity_zero my_port_id my_port_id Hm Hm eq_refl) eq_refl). done. }
  destruct (Z.eqb_spec (compare_bytes (clockIdentity_of announce) my_port_id) 0) as [E|_].
  { apply compare_identity_zero in E; [done|done..|congruence]. }
  rewrite (compare_bytes_value (clockIdentity_of announce)) by (done || congruence).
  rewrite Va, Vb, Qa, Qb. clear Va Vb Qa Qb. unfold byte_ok in *.
  repeat match goal with |- context [announce !!! ?i] => generalize dependent (announce !!! i); intros
  | |- context [best !!! ?i] => generalize dependent (best !!! i); intros
  | |- context [ntoh16_at ?i ?l] => generalize dependent (ntoh16_at i l); intros
  | |- context [be_value ?l] => generalize dependent (be_value l); intros end.
  repeat match goal with |- context [?x <? ?y] => destruct (Z.ltb_spec x y); try lia end; cbn [Z.leb Z.compare]; try done; lia.
Qed.

(** C28: the cascade of comparisons compares two clocks as the numbers that the fields of
    their announcements make, from the priority to the identity: an announcement is taken
    over exactly if its number is the smaller one. It counts as worse if it is larger in one
    of the fields before the identity; with the same fields and a larger identity, or if it
    is about the device itself, it changes nothing. *)
Theorem best_master_is_least announce best my_port_id :
  announce_ok announce -> announce_ok best -> Forall byte_ok my_port_id -> length my_port_id = 8%nat ->
  bmca_new_best announce best my_port_id =
    if decide (clockIdentity_of announce = my_port_id) then 0
    else if clock_vector announce <? clock_vector best then 1
    else if clock_quality best <? clock_quality announce then -1 else 0.
Proof. apply new_best_value. Qed.

(** * Announcements *)

Lemma own_message_fields `{cfg : GptpConfig} s :
  length (my_port_id s) = 8%nat -> own_message s ->
  announce_body (best_announce_msg s) (my_port_id s) 0 =
    replicate 10 0 ++ hton16 PTP_CURRENT_UTC_OFFSET ++ [0] ++ own_vector (ptp_priority1 s) (my_port_id s) ++
    hton16 0 ++ [PTP_TIMESOURCE] ++ hton16 PTP_ANNOUNCE_TLV_TYPE ++ hton16 8 ++ my_port_id s.
Proof.
  intros Hi H. unfold own_message in H. set (best := best_announce_msg s) in *. set (id := my_port_id s) in *.
  assert (forall i, (i < 16)%nat -> best !!! (13 + i)%nat = (own_vector (ptp_priority1 s) id ++ [0; 0]) !!! i) as Hat.
  { intros i Hlt. by rewrite <- H, field_lookup. }
  assert (forall off n, (off + n <= 16)%nat -> field (13 + off) n best = field off n (own_vector (ptp_priority1 s) id ++ [0; 0])) as Hf.
  { intros off n Hle. rewrite <- H. unfold field. rewrite skipn_firstn_comm, take_take, drop_drop. do 2 f_equal. unfold off_grandmasterPriority1. lia. }
  unfold announce_body, clockIdentity_of.
  change off_grandmasterPriority1 with (13 + 0)%nat. change off_clockClass with (13 + 1)%nat. change off_clockAccuracy with (13 + 2)%nat.
  change off_clockOffsetScaledLogVariance with (13 + 3)%nat. change off_grandmasterPriority2 with (13 + 5)%nat. change off_grandmasterIdentity with (13 + 6)%nat.
  rewrite !Hat, !Hf by lia. clearbody best id. clear -Hi. by destruct_len id Hi.
Qed.

Lemma field_field off n m (l : list Z) : (off + n <= m)%nat -> field off n (field 0 m l) = field off n l.
Proof. intros H. unfold field. rewrite drop_0, skipn_firstn_comm, take_take. f_equal. lia. Qed.
Lemma ntoh16_field off m (l : list Z) : (S off < m)%nat -> ntoh16_at off (field 0 m l) = ntoh16_at off l.
Proof. intros H. unfold ntoh16_at. by rewrite !field_lookup by lia. Qed.

Section OnePort.
Context `{cfg : GptpConfig} (Hone : PTP_NUM_PORTS = 1%nat).

(** A device that is not a slave takes part in the election with its own clock. *)
Record contender (s : gptp) (p : port_vars) : Prop := {
  cd_ok : gptp_ok s;
  cd_port : ports s = [p];
  cd_bytes : Forall byte_ok (own_vector (ptp_priority1 s) (my_port_id s));
  cd_capable : asCapable (port_info p) = true;
  cd_role : role_state (port_info p) <> PTP_SLAVE;
}.
Definition own_clock (s : gptp) : Z := be_value (own_vector (ptp_priority1 s) (my_port_id s)).

Lemma contender_own s p : contender s p -> own_message s /\ length (my_port_id s) = 8%nat /\ Forall byte_ok (my_port_id s).
Proof.
  intros [Hok E Hb _ Hr]. destruct (ok_port s Hok) as (p' & E' & [_ Hown]). rewrite E in E'. injection E' as <-.
  split_and!; [by apply Hown|by apply ok_identity_length|]. by apply (Forall_drop _ 6) in Hb.
Qed.

(** What the device keeps as the best announcement is its own clock. *)
Lemma own_best_vector s p : contender s p ->
  announce_ok (best_announce_msg s) /\ clock_vector (best_announce_msg s) = own_clock s.
Proof.
  intros H. destruct (contender_own s p H) as (Hown & Hl & Hid). destruct H as [Hok _ Hb _ _]. unfold own_message in Hown.
  assert (field off_grandmasterPriority1 14 (best_announce_msg s) = own_vector (ptp_priority1 s) (my_port_id s)) as Hf.
  { apply (f_equal (take 14)) in Hown. unfold field in Hown. rewrite take_take in Hown.
    rewrite take_app_length' in Hown; [exact Hown|]. unfold own_vector. rewrite !length_app, Hl. done. }
  split; [split; [apply Hok|by rewrite Hf]|]. unfold clock_vector. by rewrite Hf.
Qed.

(** The announcement in the frame of a contender. *)
Lemma announced_vector s p junk : contender s p -> (56 <= length junk)%nat ->
  let a := field 0 sizeof_AnnounceMessage (announce_body (best_announce_msg s) (my_port_id s) 0 ++ junk) in
  announce_ok a /\ clock_vector a = own_clock s /\ clockIdentity_of a = my_port_id s /\
  ntoh16_at off_stepsRemoved a = 0 /\ ntoh16_at off_tlvLength a = 8 /\ field off_pathSequence 8 a = my_port_id s.
Proof.
  intros H Hj. destruct (contender_own s p H) as (Hown & Hl & Hid). rewrite (own_message_fields s Hl Hown).
  destruct H as [_ _ Hb _ _]. unfold own_clock. set (id := my_port_id s) in *. set (prio := ptp_priority1 s) in *. clearbody id prio.
  clear -Hb Hl Hj. destruct_len id Hl. cbn zeta. unfold sizeof_AnnounceMessage, field at 1. rewrite drop_0. split.
  - split; [|exact Hb]. rewrite length_take, length_app. change (98 `min` (42 + length junk) = 98)%nat. lia.
  - split_and!; reflexivity.
Qed.

Lemma announce_frame_length s p : contender s p -> length (announce_frame p s) = 90%nat.
Proof.
  intros H. destruct (contender_own s p H) as (Hown & Hl & _). unfold announce_frame. rewrite (own_message_fields s Hl Hown).
  rewrite !length_app, hdr_length by apply H. unfold com_header, own_vector. rewrite !length_app, port_identity_length by done. by rewrite !Hl.
Qed.

(** The announcement is acceptable to another device. *)
Lemma announce_qualifies id id' msg a :
  field off_sourcePortIdentity 8 msg = id' -> Forall byte_ok id -> Forall byte_ok id' -> length id = 8%nat -> length id' = 8%nat ->
  id <> id' -> ntoh16_at off_stepsRemoved a = 0 -> ntoh16_at off_tlvLength a = 8 -> field off_pathSequence 8 a = id' ->
  qualify_announce id msg a = true.
Proof.
  intros E Hb Hb' Hl Hl' Hne E1 E2 E3. unfold qualify_announce, bytes_equal. rewrite E, E1, E2.
  rewrite bool_decide_eq_false_2 by congruence. cbn [Z.leb Z.compare]. change (8 / 8) with 1.
  change (Z.to_nat (Z.min 1 (Z.of_nat PTP_MAXIMUM_PATH_TRACE_TLV))) with 1%nat. cbn [seq forallb Nat.mul]. rewrite Nat.add_0_r, E3, andb_true_r.
  unfold compare_clock_identity_to_me. destruct (Z.eqb_spec (compare_bytes id' id) 0) as [H|]; [|done].
  apply compare_identity_zero in H; [congruence|done..|congruence].
Qed.

(** What the announcement of [A] makes of [B]: nothing if [B] has the better clock, and
    otherwise a slave of [A]. *)
Record follows (B' A : gptp) : Prop := {
  fo_role : exists p, ports B' = [p] /\ role_state (port_info p) = PTP_SLAVE /\ asCapable (port_info p) = true /\
    last_received_announce_time_valid p = true;
  fo_master : master_port_id B' = port_identity (my_port_id A) 0;
  fo_best : clock_vector (best_announce_msg B') = own_clock A;
  fo_grandmaster : clockIdentity_of (best_announce_msg B') = my_port_id A;
}.

Lemma own_clocks_differ A pA B pB : contender A pA -> contender B pB -> my_port_id A <> my_port_id B -> own_clock A <> own_clock B.
Proof.
  intros HA HB Hne E. destruct (contender_own A pA HA) as (_ & HlA & _), (contender_own B pB HB) as (_ & HlB & _).
  apply be_value_inj in E; [|apply HA|apply HB|unfold own_vector; rewrite !length_app, HlA, HlB; done].
  apply (f_equal (drop 6)) in E. done.
Qed.

(** A master that hears of a clock that is not better stays as it is. *)
Lemma worse_announce_run env msg B pB :
  ports B = [pB] -> role_state (port_info pB) <> PTP_SLAVE ->
  bmca_new_best (field sizeof_ComMessageHdr sizeof_AnnounceMessage msg) (best_announce_msg B) (my_port_id B) <= 0 ->
  bmca_update_roles env msg 0 B = Some (tt, B).
Proof.
  intros E Hr Hb. unfold bmca_update_roles. erewrite M_bind_run by reflexivity. cbv zeta. rewrite (proj2 (Z.ltb_ge _ _) Hb).
  rewrite (M_bind_run _ _ _ _ _ (has_role_run _ _ _ E)), (bool_decide_eq_false_2 _ Hr), andb_false_r. done.
Qed.

Lemma recv_contender env msg t A pA B pB :
  contender A pA -> contender B pB -> my_port_id A <> my_port_id B ->
  field off_sourcePortIdentity 8 msg = my_port_id A -> field off_sourcePortIdentity 10 msg = port_identity (my_port_id A) 0 ->
  let a := field sizeof_ComMessageHdr sizeof_AnnounceMessage msg in
  announce_ok a -> clock_vector a = own_clock A -> clockIdentity_of a = my_port_id A ->
  ntoh16_at off_stepsRemoved a = 0 -> ntoh16_at off_tlvLength a = 8 -> field off_pathSequence 8 a = my_port_id A ->
  exists B', recv_announce env msg t 0 B = Some (tt, B') /\ if own_clock A <? own_clock B then follows B' A else B' = B.
Proof using Hone.
  intros HA HB Hne Eid Esrc a Hok Hv Hci E1 E2 E3. destruct (contender_own A pA HA) as (_ & HlA & HbA).
  destruct (contender_own B pB HB) as (_ & HlB & HbB). destruct (own_best_vector B pB HB) as [HokB HvB]. destruct HB as [_ EB _ HcB HrB].
  change a with (field 0 98 (body_of msg)) in E1, E2, E3, Hci.
  rewrite ntoh16_field in E1, E2 by (unfold off_stepsRemoved, off_tlvLength; lia).
  rewrite field_field in E3 by (unfold off_pathSequence; lia).
  unfold recv_announce. erewrite M_bind_run by reflexivity. cbv zeta. rewrite (announce_qualifies _ (my_port_id A)) by done. cbn [whenM].
  pose proof (new_best_value a (best_announce_msg B) (my_port_id B) Hok HokB HbB HlB) as Hbest.
  change (clockIdentity_of a) with (clockIdentity_of (field 0 98 (body_of msg))) in Hbest. rewrite Hci, Hv, HvB, decide_False in Hbest by done.
  destruct (own_clock A <? own_clock B) eqn:Hlt.
  - erewrite M_bind_run by (apply (new_best_run Hone env msg B pB EB); fold a; rewrite Hbest; lia).
    erewrite M_bind_run by (apply has_role_run; reflexivity). erewrite M_bind_run by reflexivity.
    match goal with |- context [whenM (?x && ?y && ?z)] => assert (x && y && z = true) as -> end.
    { unfold bytes_equal. rewrite !andb_true_iff. split_and!; apply bool_decide_eq_true; [done|done|].
      change (clockIdentity_of (field 0 98 (body_of msg)) = clockIdentity_of (body_of msg)). unfold clockIdentity_of.
      apply field_field. unfold off_grandmasterIdentity. lia. }
    cbn [whenM]. erewrite M_bind_run by (apply upd_port_run; reflexivity). erewrite upd_port_run by reflexivity.
    eexists. split; [reflexivity|]. split; [|exact Esrc|exact Hv|exact Hci]. eexists. split; [reflexivity|]. by split_and!.
  - erewrite M_bind_run.
    2:{ apply (worse_announce_run _ _ _ pB); [done|done|]. fold a. rewrite Hbest.
      destruct (clock_quality (best_announce_msg B) <? clock_quality a); lia. }
    rewrite (M_bind_run _ _ _ _ _ (has_role_run _ _ _ EB)), (bool_decide_eq_false_2 _ HrB). erewrite M_bind_run by reflexivity.
    by exists B.
Qed.

Lemma announce_received env A pA B pB junk ts :
  contender A pA -> contender B pB -> my_port_id A <> my_port_id B -> (MAX_PTP_MESG_LENGTH <= 90 + length junk)%nat ->
  exists B', ptp_recv env (announce_frame pA A ++ junk) ts 0 B = Some (tt, B') /\
    if own_clock A <? own_clock B then follows B' A else B' = B.
Proof using Hone.
  intros HA HB Hne Hj. pose proof (announce_frame_length A pA HA) as Hlf.
  destruct (contender_own A pA HA) as (_ & HlA & HbA). destruct (contender_own B pB HB) as (_ & HlB & HbB).
  unfold announce_frame in *. set (body := announce_body _ _ 0) in *. rewrite <- !app_assoc.
  set (seq := hton16 _) in *. set (msg := com_header _ _ _ _ _ _ _ seq _ _ ++ body ++ junk).
  assert (length (port_identity (my_port_id A) 0) = 10%nat) as Hpi by by apply port_identity_length.
  destruct (ptp_recv_run env (src_mac_addr A) PTP_ANNOUNCE_MESG 76 0 0 announce_flags no_correction (port_identity (my_port_id A) 0)
    seq PTP_CTL_FIELD_OTHERS PTP_LOG_ANNOUNCE_INTERVAL (body ++ junk) ts B pB) as [Er Et]; try done; [apply HA|apply HB| |].
  { rewrite !length_app, hdr_length in Hlf by apply HA. rewrite !length_app. lia. }
  fold msg in Er, Et. rewrite Er. unfold ptp_dispatch. rewrite Et, (cd_capable B pB HB). cbn [Z.eqb PTP_ANNOUNCE_MESG Pos.eqb whenM].
  destruct (com_header_fields PTP_ANNOUNCE_MESG 76 0 0 announce_flags no_correction (port_identity (my_port_id A) 0) seq
    PTP_CTL_FIELD_OTHERS PTP_LOG_ANNOUNCE_INTERVAL (body ++ junk) eq_refl Hpi eq_refl) as (_ & _ & _ & Esrc & Eid & _ & _ & _ & Ebody).
  fold msg in Esrc, Eid, Ebody. unfold port_identity in Eid. rewrite take_app_length' in Eid by done.
  apply (recv_contender env msg _ A pA B pB); try done; change (field sizeof_ComMessageHdr sizeof_AnnounceMessage msg) with (field 0 98 (body_of msg));
    rewrite Ebody; apply (announced_vector A pA junk HA); unfold MAX_PTP_MESG_LENGTH in Hj; lia.
Qed.

(** C29: of two devices on a link that are both masters, each claiming the clock it has, one
    announcement of each makes exactly one a slave: the one with the larger clock number
    takes the other one's clock as grandmaster and its port as master; the other one stays
    as it is. Neither the order of the announcements nor what is behind them in the buffers
    matters. *)
Theorem one_master_elected A pA B pB :
  contender A pA -> contender B pB -> my_port_id A <> my_port_id B ->
  exists fA A1 fB B1,
    send_ptp_announce_msg 0 A = Some (tt, A1) /\ gptp_out A1 = gptp_out A ++ [PtpTx 0 fA] /\
    send_ptp_announce_msg 0 B = Some (tt, B1) /\ gptp_out B1 = gptp_out B ++ [PtpTx 0 fB] /\
    forall envA envB junkA junkB tA tB,
      (MAX_PTP_MESG_LENGTH <= length (fA ++ junkA))%nat -> (MAX_PTP_MESG_LENGTH <= length (fB ++ junkB))%nat ->
      exists A2 B2, ptp_recv envA (fB ++ junkB) tA 0 A1 = Some (tt, A2) /\ ptp_recv envB (fA ++ junkA) tB 0 B1 = Some (tt, B2) /\
        if own_clock A <? own_clock B then follows B2 A /\ A2 = A1 else follows A2 B /\ B2 = B1.
Proof using Hone.
  intros HA HB Hne.
  assert (forall s p, contender s p -> send_ptp_announce_msg 0 s = Some (tt, sent (announce_frame p s) (announced p s)) /\
    gptp_out (sent (announce_frame p s) (announced p s)) = gptp_out s ++ [PtpTx 0 (announce_frame p s)] /\
    contender (sent (announce_frame p s) (announced p s)) (upd_announce_seq_id (fun n => u16 (n + 1)) p)) as Hsend.
  { intros s p H. destruct (contender_own s p H) as (Hown & Hl & _). pose proof (announce_frame_length s p H) as Hf.
    destruct H as [Hok E Hb Hc Hr]. assert (send_ptp_announce_msg 0 s = Some (tt, sent (announce_frame p s) (announced p s))) as Es
      by (by apply send_announce_run, own_message_steps).
    split_and!; [done|by cbn [gptp_out sent upd_gptp_out announced upd_steps_removed_from_gm upd_ports]; rewrite Hf, app_nil_r|].
    split; [|done|done|done|done]. destruct (served_send_announce Hone s Hok) as (s' & E' & H').
    - intros q Eq. rewrite E in Eq. by injection Eq as <-.
    - rewrite Es in E'. by injection E' as <-. }
  destruct (Hsend A pA HA) as (EA & OA & CA), (Hsend B pB HB) as (EB & OB & CB).
  set (A1 := sent _ (announced pA A)) in *. set (B1 := sent _ (announced pB B)) in *.
  exists (announce_frame pA A), A1, (announce_frame pB B), B1. split_and!; [done..|]. intros envA envB junkA junkB tA tB HlA HlB.
  rewrite length_app in HlA, HlB. erewrite announce_frame_length in HlA, HlB by done.
  destruct (announce_received envB A pA B1 _ junkA tB HA CB Hne HlA) as (B2 & E2 & H2).
  destruct (announce_received envA B pB A1 _ junkB tA HB CA (not_eq_sym Hne) HlB) as (A2 & E1 & H1).
  exists A2, B2. split_and!; [done|done|].
  change (own_clock B1) with (own_clock B) in H2. change (own_clock A1) with (own_clock A) in H1.
  assert (own_clock A <> own_clock B) as Hdiff by (by eapply own_clocks_differ).
  destruct (Z.ltb_spec (own_clock A) (own_clock B)), (Z.ltb_spec (own_clock B) (own_clock A)); lia || done.
Qed.
End OnePort.
