(* ===== verification/GptpDelay.v ===== *)
(** The measurement of the path delay between two devices. *)
From S2P Require Import Prelude Bytes MiscTimer PtpTime GptpTypes Gptp GptpSafe GptpRoles.
From stdpp Require Import base list list_numbers numbers option.
From Stdlib Require Import ZArith Lia.
#[local] Open Scope Z_scope.

(** * The responder's timestamps *)

(** The ticks between two readings of a clock of 32 bits, as [local_to_epoch_ts] counts them. *)
Definition epoch_ticks (prev local_ts : Z) : Z :=
  if local_ts <=? prev then u32 (u32 (2 ^ 32 - 1 - prev) + local_ts) else u32 (local_ts - prev).
Definition epoch_timestamp (epoch : Z) : ptp_timestamp :=
  let nanosec := u64 (epoch * 10) in
  let sec := nanosec / NANOSECONDS_PER_SECOND in
  MkTimestamp (u32 sec) (u32 (Z.shiftr sec 32)) (u32 (nanosec mod NANOSECONDS_PER_SECOND)).
Definition epoch_state (ts : Z) (s : gptp) : gptp :=
  upd_prev_pdelay_local_ts (fun _ => ts)
    (upd_pdelay_epoch_timer (fun _ => u64 (pdelay_epoch_timer s + epoch_ticks (prev_pdelay_local_ts s) ts)) s).

Lemma epoch_ts_run ts s :
  local_to_epoch_ts ts s = Some (epoch_timestamp (pdelay_epoch_timer (epoch_state ts s)), epoch_state ts s).
Proof. unfold local_to_epoch_ts. do 3 erewrite M_bind_run by reflexivity. reflexivity. Qed.

(** A tick is lost if the clock wraps around. *)
Lemma epoch_ticks_value a r : 0 < r < 2 ^ 32 ->
  epoch_ticks (u32 a) (u32 (a + r)) = if u32 (a + r) <? u32 a then r - 1 else r.
Proof.
  intros Hr. unfold epoch_ticks. pose proof (u32_range a) as Ha. pose proof (u32_range (a + r)) as Hb.
  assert (u32 (a + r) = u32 a + r \/ u32 (a + r) = u32 a + r - 2 ^ 32) as Hc.
  { unfold u32, wrap. change (2 ^ 32) with 4294967296 in *. Z.to_euclidean_division_equations; lia. }
  set (x := u32 a) in *. set (y := u32 (a + r)) in *. clearbody x y. change (2 ^ 32) with 4294967296 in *.
  destruct (Z.leb_spec y x), (Z.ltb_spec y x); try lia.
  - rewrite (u32_small (4294967296 - 1 - x)), u32_small; lia.
  - rewrite u32_small; lia.
Qed.

Lemma epoch_timestamp_value e : 0 <= e < 2 ^ 58 ->
  timestamp_ok (epoch_timestamp e) /\ seconds_hi (epoch_timestamp e) = 0 /\ ts_ns (epoch_timestamp e) = 10 * e.
Proof.
  intros He. unfold epoch_timestamp, NANOSECONDS_PER_SECOND. change (2 ^ 58) with 288230376151711744 in He.
  rewrite u64_small by lia. set (n := e * 10).
  assert (0 <= n / 1000000000 < 4294967296) as Hs by (unfold n; Z.to_euclidean_division_equations; lia).
  assert (0 <= n mod 1000000000 < 1000000000) as Hm by (Z.to_euclidean_division_equations; lia).
  rewrite Z.shiftr_div_pow2, (Z.div_small (n / _) (2 ^ 32)) by lia. change (u32 0) with 0.
  rewrite (u32_small (n / _)), (u32_small (n mod _)) by lia. split_and!; [by split|done|].
  unfold ts_ns. cbn [seconds_lo seconds_hi nanoseconds]. unfold NANOSECONDS_PER_SECOND, n. Z.to_euclidean_division_equations; lia.
Qed.

(** It survives the way over the wire. *)
Lemma epoch_wire e post : 0 <= e < 2 ^ 58 ->
  network_to_ptp_timestamp (timestamp_to_network (epoch_timestamp e) ++ post) = epoch_timestamp e.
Proof.
  intros He. destruct (epoch_timestamp_value e He) as (Hok & Hhi & _). rewrite timestamp_wire by done.
  destruct (epoch_timestamp e) as [lo hi ns]. cbn [seconds_lo seconds_hi nanoseconds] in *. by subst hi.
Qed.

(** * The delay *)

Lemma adjusted_zero n : 0 <= n < 2 ^ 62 -> adjusted n 0 = n.
Proof.
  intros Hn. unfold adjusted. rewrite Z.mul_0_r. change (s64 0) with 0. rewrite Z.shiftr_0_l, Z.add_0_r. apply s64_small. lia.
Qed.

Lemma signed_diff_u32 a n : 0 <= n < 2 ^ 31 -> s32 (s32 (u32 (a + n)) - s32 (u32 a)) = n.
Proof.
  intros Hn. rewrite s32_diff. transitivity (s32 n); [|apply s32_small; lia]. unfold s32, signed, u32. change (2 ^ 31) with 2147483648 in Hn.
  assert (wrap 32 (wrap 32 (a + n) - wrap 32 a) = wrap 32 n) as ->; [|done]. unfold wrap. rewrite <- Zminus_mod.
  f_equal. lia.
Qed.

(** The response leaves [r] ticks after the request has arrived, and arrives [2 * d + r] ticks
    after the request has left. *)
Lemma path_delay_value a b e d r :
  0 <= d -> 0 < r -> 2 * d + r < 2 ^ 28 -> 0 <= e < 2 ^ 57 ->
  path_delay (epoch_timestamp e) (epoch_timestamp (u64 (e + epoch_ticks (u32 b) (u32 (b + r))))) (u32 a) (u32 (a + (2 * d + r))) 0 =
    10 * d + (if u32 (b + r) <? u32 b then 5 else 0).
Proof.
  intros Hd Hr Hb He. change (2 ^ 28) with 268435456 in Hb. change (2 ^ 57) with 144115188075855872 in He.
  rewrite epoch_ticks_value by lia. set (k := if u32 (b + r) <? u32 b then r - 1 else r).
  assert (0 <= k <= r /\ 10 * (2 * d + r) - 10 * k = 2 * (10 * d + (if u32 (b + r) <? u32 b then 5 else 0))) as [Hk Ek]
    by (unfold k; destruct (_ <? _); lia).
  rewrite (u64_small (e + k)) by lia. unfold path_delay. rewrite signed_diff_u32 by lia.
  destruct (epoch_timestamp_value e) as (Hok1 & _ & V1); [lia|]. destruct (epoch_timestamp_value (e + k)) as (Hok2 & _ & V2); [lia|].
  rewrite diff_ns by (rewrite ?V1, ?V2; done || lia). rewrite V1, V2. unfold local_time_to_ptp_time.
  rewrite (u32_small (2 * d + r)), (s64_small ((2 * d + r) * 10)), adjusted_zero, s64_small by lia.
  replace ((2 * d + r) * 10 - (10 * (e + k) - 10 * e)) with ((10 * d + (if u32 (b + r) <? u32 b then 5 else 0)) * 2) by lia.
  rewrite Z.quot_mul by lia. destruct (Z.ltb_spec (10 * d + (if u32 (b + r) <? u32 b then 5 else 0)) 0); [|done].
  destruct (u32 (b + r) <? u32 b); lia.
Qed.

(** What the port keeps of a measurement. *)
Definition smoothed (d : ptp_path_delay_t) (delay : Z) : Z :=
  if pd_valid d then u32 (u32 (pdelay d * (PTP_PATH_DELAY_WEIGHT - 1)) + delay) / PTP_PATH_DELAY_WEIGHT else delay.

(** A frame as it is sent, with whatever the receiver's buffer holds behind it. *)
Definition padded (f : list Z) : list Z := f ++ replicate (64 - length f) 0.

Lemma padded_recv `{cfg : GptpConfig} env mac t l d f0 f1 c src seq ctl log body junk ts s p :
  length mac = 6%nat -> length c = 8%nat -> length src = 10%nat -> length seq = 2%nat -> ports s = [p] -> 0 <= t < 16 ->
  let f := set_ptp_ethernet_hdr mac ++ com_header t l d f0 f1 c src seq ctl log ++ body in
  (MAX_PTP_MESG_LENGTH <= length (padded f ++ junk))%nat ->
  exists post, let msg := com_header t l d f0 f1 c src seq ctl log ++ body ++ post in
    ptp_recv env (padded f ++ junk) ts 0 s = ptp_dispatch env msg (u32 (ts - tile_timer_offset s)) (asCapable (port_info p)) 0 s /\
    Z.land (msg !!! 0%nat) 15 = t /\ (body ++ post = body_of msg).
Proof.
  intros Hm Hc Hs Hq E Ht f Hl. exists (replicate (64 - length f) 0 ++ junk). intros msg. split_and!.
  - assert (padded f ++ junk = set_ptp_ethernet_hdr mac ++ msg) as Ef by (unfold padded, f, msg; by rewrite <- !app_assoc).
    rewrite Ef in Hl |- *. apply ptp_recv_run; try done. rewrite length_app, (hdr_length _ Hm) in Hl. exact Hl.
  - eapply (ptp_recv_run env mac t l d f0 f1 c src seq ctl log (body ++ replicate (64 - length f) 0 ++ junk) ts s p); try done.
    assert (padded f ++ junk = set_ptp_ethernet_hdr mac ++ msg) as Ef by (unfold padded, f, msg; by rewrite <- !app_assoc).
    rewrite Ef, length_app, (hdr_length _ Hm) in Hl. exact Hl.
  - unfold msg. by destruct (com_header_fields t l d f0 f1 c src seq ctl log (body ++ replicate (64 - length f) 0 ++ junk) Hc Hs Hq) as (_ & _ & _ & _ & _ & _ & _ & _ & ->).
Qed.

Section OnePort.
Context `{cfg : GptpConfig} (Hone : PTP_NUM_PORTS = 1%nat).

(** * The messages *)

Definition requested (egress : Z) (p : port_vars) (s : gptp) : port_vars :=
  upd_pdelay_request_sent (fun _ => true) (upd_pdelay_request_sent_ts (fun _ => u32 (egress - tile_timer_offset s))
    (upd_pdelay_req_seq_id (fun n => u16 (n + 1)) p)).
Definition request_seq (p : port_vars) : list Z := hton16 (u16 (pdelay_req_seq_id p + 1)).
Definition request_msg (p : port_vars) (s : gptp) : list Z :=
  com_header PTP_PDELAY_REQ_MESG (Z.of_nat (sizeof_ComMessageHdr + sizeof_PdelayReqMessage)) 0 0 timescale_flag
    no_correction (port_identity (my_port_id s) 0) (request_seq p) PTP_CTL_FIELD_OTHERS PTP_LOG_MIN_PDELAY_REQ_INTERVAL ++
  replicate sizeof_PdelayReqMessage 0.

Lemma request_run egress p s :
  ports s = [p] ->
  send_ptp_pdelay_req_msg egress 0 s =
    Some (tt, upd_ports (fun _ => [requested egress p s]) (sent (set_ptp_ethernet_hdr (src_mac_addr s) ++ request_msg p s) s)).
Proof.
  intros E. unfold send_ptp_pdelay_req_msg. rewrite (M_bind_run _ _ _ _ _ (upd_port_run _ _ _ E)).
  erewrite M_bind_run by (apply get_port_run; reflexivity). erewrite M_bind_run by reflexivity.
  erewrite M_bind_run by apply ptp_tx_timed_run. erewrite M_bind_run by (apply upd_port_run; reflexivity).
  erewrite upd_port_run by reflexivity. by destruct s.
Qed.

(** The response and its follow-up, to the request of [source] with the number [seq]. *)
Definition response_msg (mesg flag0 domain : Z) (correction seq source : list Z) (ts : ptp_timestamp) (s : gptp) : list Z :=
  com_header mesg (Z.of_nat (sizeof_ComMessageHdr + sizeof_PdelayRespMessage)) domain flag0 timescale_flag
    correction (port_identity (my_port_id s) 0) seq PTP_CTL_FIELD_OTHERS 0x7F ++ timestamp_to_network ts ++ source.
Definition response_of (mesg flag0 : Z) (req : list Z) (ts : ptp_timestamp) (s : gptp) : list Z :=
  response_msg mesg flag0 (req !!! off_domainNumber) (field off_correctionField 8 req) (field off_sequenceId 2 req)
    (field off_sourcePortIdentity 10 req) ts s.

Definition responded (ts egress : Z) (req : list Z) (s : gptp) : gptp :=
  let s1 := epoch_state ts s in
  let s2 := sent (set_ptp_ethernet_hdr (src_mac_addr s) ++
    response_of PTP_PDELAY_RESP_MESG 0x2 req (epoch_timestamp (pdelay_epoch_timer s1)) s) s1 in
  let s3 := epoch_state (u32 (egress - tile_timer_offset s)) s2 in
  sent (set_ptp_ethernet_hdr (src_mac_addr s) ++
    response_of PTP_PDELAY_RESP_FOLLOW_UP_MESG 0 req (epoch_timestamp (pdelay_epoch_timer s3)) s) s3.

Lemma response_run egress req ts s : send_ptp_pdelay_resp_msg egress req ts 0 s = Some (tt, responded ts egress req s).
Proof.
  unfold send_ptp_pdelay_resp_msg. erewrite M_bind_run by reflexivity. cbv zeta. rewrite (M_bind_run _ _ _ _ _ (epoch_ts_run ts s)).
  erewrite M_bind_run by apply ptp_tx_timed_run. erewrite M_bind_run by apply epoch_ts_run. reflexivity.
Qed.

(** * The requester *)

Definition answered (msg : list Z) (ts : Z) (p : port_vars) : port_vars :=
  upd_pdelay_request_sent (fun _ => false)
    (upd_port_info (upd_delay_info (upd_rcvd_source_identity (fun _ => field off_sourcePortIdentity 10 msg)))
      (upd_pdelay_request_receipt_ts (fun _ => network_to_ptp_timestamp (body_of msg))
        (upd_pdelay_resp_ingress_ts (fun _ => ts)
          (upd_received_pdelay_id (fun _ => ntoh16_at off_sequenceId msg) (upd_received_pdelay (fun _ => true) p))))).

Lemma answered_run env msg ts s p :
  ports s = [p] -> pdelay_request_sent p = true -> received_pdelay p = false ->
  ntoh16_at off_sequenceId msg = pdelay_req_seq_id p ->
  field off_requestingPortIdentity 8 (body_of msg) = my_port_id s -> ntoh16_at off_requestingPortId (body_of msg) = 1 ->
  recv_pdelay_resp env msg ts 0 s = Some (tt, upd_ports (fun _ => [answered msg ts p]) s).
Proof.
  intros E Hs Hr Eq Ei Ep. unfold recv_pdelay_resp. rewrite (M_bind_run _ _ _ _ _ (get_port_run _ _ E)).
  erewrite M_bind_run by reflexivity. rewrite Hs, Hr, Eq, Ei, Ep. unfold bytes_equal at 2. rewrite Z.eqb_refl, bool_decide_eq_true_2 by done.
  cbn [negb andb whenM Z.of_nat Z.add Z.eqb Pos.eqb]. erewrite M_bind_run by reflexivity. rewrite <- Eq.
  rewrite (M_bind_run _ _ _ tt (upd_ports (fun _ => [upd_port_info (upd_delay_info (upd_rcvd_source_identity (fun _ => field off_sourcePortIdentity 10 msg)))
      (upd_pdelay_request_receipt_ts (fun _ => network_to_ptp_timestamp (body_of msg))
        (upd_pdelay_resp_ingress_ts (fun _ => ts)
          (upd_received_pdelay_id (fun _ => ntoh16_at off_sequenceId msg) (upd_received_pdelay (fun _ => true) p))))]) s)).
  - by erewrite upd_port_run by reflexivity.
  - change (Z.of_nat 0 + 1 =? 1) with true. cbv iota. rewrite (M_bind_run _ _ _ _ _ (upd_port_run _ _ _ E)). do 3 erewrite M_bind_run by (apply upd_port_run; reflexivity).
    unfold upd_delay, upd_info. by erewrite upd_port_run by reflexivity.
Qed.

(** The port when the measurement is over. *)
Definition concluded (t : Z) (q : port_vars) : port_vars :=
  let q := if delay_short (delay_info (port_info q)) then
             if asCapable (port_info q) then q else master_port t (capable_port q)
           else if asCapable (port_info q) then master_port t (incapable_port q) else q in
  upd_received_pdelay (fun _ => false) (upd_port_info (upd_delay_info (upd_lost_responses (fun _ => 0))) q).

Lemma concluded_run env msg s p :
  ports s = [p] -> awaited msg p = true ->
  exists s', recv_pdelay_resp_follow_up env msg 0 s = Some (tt, s') /\
    ports s' = [concluded (ge_time env 0) (measured_port msg (g_ptp_adjust (clock s)) p)].
Proof using Hone.
  intros E Ha. rewrite (awaited_run Hone env msg s p E Ha). set (q := measured_port _ _ p). unfold upd_delay, upd_info.
  unfold judged_state, concluded.
  destruct (delay_short _), (asCapable _); (eexists; split; [erewrite M_bind_run by (apply upd_port_run; reflexivity);
    erewrite upd_port_run by reflexivity; reflexivity|reflexivity]).
Qed.

(** * The exchange *)

Lemma no_mixup seq source mesg flag0 domain c ts s post :
  length c = 8%nat -> length source = 10%nat -> length seq = 2%nat -> length (my_port_id s) = 8%nat ->
  let msg := com_header mesg (Z.of_nat (sizeof_ComMessageHdr + sizeof_PdelayRespMessage)) domain flag0 timescale_flag c
    (port_identity (my_port_id s) 0) seq PTP_CTL_FIELD_OTHERS 0x7F ++ (timestamp_to_network ts ++ source) ++ post in
  ntoh16_at off_sequenceId msg = ntoh16_at 0 seq /\ field off_sourcePortIdentity 10 msg = port_identity (my_port_id s) 0 /\
  field off_requestingPortIdentity 8 (body_of msg) = take 8 source /\
  ntoh16_at off_requestingPortId (body_of msg) = ntoh16_at 8 source /\
  body_of msg = timestamp_to_network ts ++ source ++ post.
Proof.
  intros Hc Hs Hq Hi msg. pose proof (port_identity_length (my_port_id s) 0 Hi) as Hp.
  destruct (com_header_fields mesg (Z.of_nat (sizeof_ComMessageHdr + sizeof_PdelayRespMessage)) domain flag0 timescale_flag c
    (port_identity (my_port_id s) 0) seq PTP_CTL_FIELD_OTHERS 0x7F ((timestamp_to_network ts ++ source) ++ post) Hc Hp Hq)
    as (_ & _ & _ & E1 & _ & _ & E2 & _ & E3). fold msg in E1, E2, E3. rewrite <- app_assoc in E3. rewrite E3.
  split_and!; [done|done| | |done].
  - rewrite field_app by apply timestamp_length. rewrite take_app_le by lia. done.
  - clear -Hs. by destruct_len source Hs.
Qed.

(** What the responder makes of a request. *)
Definition response_frame (mesg flag0 : Z) (pA : port_vars) (A : gptp) (e : Z) (B : gptp) : list Z :=
  padded (set_ptp_ethernet_hdr (src_mac_addr B) ++
    response_msg mesg flag0 0 no_correction (request_seq pA) (port_identity (my_port_id A) 0) (epoch_timestamp e) B).

Lemma request_received env A pA B pB tB junk :
  length (src_mac_addr A) = 6%nat -> length (my_port_id A) = 8%nat -> ports B = [pB] ->
  let f := padded (set_ptp_ethernet_hdr (src_mac_addr A) ++ request_msg pA A) in
  (MAX_PTP_MESG_LENGTH <= length (f ++ junk))%nat ->
  let t1 := u32 (tB - tile_timer_offset B) in
  let t2 := u32 (ge_egress env 0 - tile_timer_offset B) in
  let e := pdelay_epoch_timer (epoch_state t1 B) in
  exists B1, ptp_recv env (f ++ junk) tB 0 B = Some (tt, B1) /\
    gptp_out B1 = gptp_out B ++ [PtpTx 0 (response_frame PTP_PDELAY_RESP_MESG 0x2 pA A e B);
                                 PtpTx 0 (response_frame PTP_PDELAY_RESP_FOLLOW_UP_MESG 0 pA A (u64 (e + epoch_ticks t1 t2)) B)].
Proof.
  intros Hm Hi E f Hl t1 t2 e. pose proof (port_identity_length (my_port_id A) 0 Hi) as Hp.
  destruct (padded_recv env (src_mac_addr A) PTP_PDELAY_REQ_MESG (Z.of_nat (sizeof_ComMessageHdr + sizeof_PdelayReqMessage)) 0 0 timescale_flag
    no_correction (port_identity (my_port_id A) 0) (request_seq pA) PTP_CTL_FIELD_OTHERS PTP_LOG_MIN_PDELAY_REQ_INTERVAL
    (replicate sizeof_PdelayReqMessage 0) junk tB B pB Hm eq_refl Hp eq_refl E) as (post & Er & Et & _); [by vm_compute|exact Hl|].
  fold (request_msg pA A) in Er. unfold f. eexists. split.
  - etransitivity; [exact Er|]. unfold ptp_dispatch. rewrite Et. cbn [Z.eqb Pos.eqb PTP_PDELAY_REQ_MESG PTP_ANNOUNCE_MESG PTP_SYNC_MESG PTP_FOLLOW_UP_MESG].
    apply response_run.
  - match goal with |- gptp_out (responded _ _ ?m _) = _ => set (msg := m) in * end.
    destruct (com_header_fields PTP_PDELAY_REQ_MESG (Z.of_nat (sizeof_ComMessageHdr + sizeof_PdelayReqMessage)) 0 0 timescale_flag
      no_correction (port_identity (my_port_id A) 0) (request_seq pA) PTP_CTL_FIELD_OTHERS PTP_LOG_MIN_PDELAY_REQ_INTERVAL
      (replicate sizeof_PdelayReqMessage 0 ++ post) eq_refl Hp eq_refl) as (_ & E1 & E2 & E3 & _ & E4 & _). fold msg in E1, E2, E3, E4.
    unfold responded, response_of. rewrite E1, E2, E3, E4. cbn [gptp_out sent upd_gptp_out epoch_state upd_prev_pdelay_local_ts upd_pdelay_epoch_timer].
    rewrite <- app_assoc. reflexivity.
Qed.

Lemma ntoh16_own_port id : length id = 8%nat -> ntoh16_at 8 (port_identity id 0) = 1.
Proof. intros H. by destruct_len id H. Qed.
Lemma seq_value n : ntoh16_at 0 (hton16 (u16 n)) = u16 n.
Proof.
  pose proof (ntoh16_hton16 (u16 n) []) as H. rewrite app_nil_r in H. rewrite H. apply u16_small, u16_range.
Qed.

(** The requester, between the request and the end of the measurement. *)
Record asks (A : gptp) (pA : port_vars) (s : gptp) (q : port_vars) : Prop := {
  as_port : ports s = [q];
  as_identity : my_port_id s = my_port_id A;
  as_seq : pdelay_req_seq_id q = u16 (pdelay_req_seq_id pA + 1);
}.

Lemma response_received env A pA B e s q ts junk :
  length (src_mac_addr B) = 6%nat -> length (my_port_id B) = 8%nat -> length (my_port_id A) = 8%nat -> 0 <= e < 2 ^ 58 ->
  asks A pA s q -> pdelay_request_sent q = true -> received_pdelay q = false ->
  let f := response_frame PTP_PDELAY_RESP_MESG 0x2 pA A e B in
  (MAX_PTP_MESG_LENGTH <= length (f ++ junk))%nat ->
  exists msg, ptp_recv env (f ++ junk) ts 0 s = Some (tt, upd_ports (fun _ => [answered msg (u32 (ts - tile_timer_offset s)) q]) s) /\
    network_to_ptp_timestamp (body_of msg) = epoch_timestamp e /\
    ntoh16_at off_sequenceId msg = u16 (pdelay_req_seq_id pA + 1) /\
    field off_sourcePortIdentity 10 msg = port_identity (my_port_id B) 0.
Proof.
  intros HmB HiB HiA He [E Ei Eq] Hs Hr f Hl. pose proof (port_identity_length (my_port_id B) 0 HiB) as HpB.
  pose proof (port_identity_length (my_port_id A) 0 HiA) as HpA.
  destruct (padded_recv env (src_mac_addr B) PTP_PDELAY_RESP_MESG (Z.of_nat (sizeof_ComMessageHdr + sizeof_PdelayRespMessage)) 0 0x2 timescale_flag
    no_correction (port_identity (my_port_id B) 0) (request_seq pA) PTP_CTL_FIELD_OTHERS 0x7F
    (timestamp_to_network (epoch_timestamp e) ++ port_identity (my_port_id A) 0) junk ts s q HmB eq_refl HpB eq_refl E)
    as (post & Er & Et & _); [by vm_compute|exact Hl|].
  destruct (no_mixup (request_seq pA) (port_identity (my_port_id A) 0) PTP_PDELAY_RESP_MESG 0x2 0 no_correction (epoch_timestamp e) B post
    eq_refl HpA eq_refl HiB) as (E1 & E2 & E3 & E4 & E5). unfold f.
  match type of E5 with body_of ?m = _ => exists m; set (msg := m) in * end.
  unfold request_seq in E1. rewrite seq_value in E1. rewrite (ntoh16_own_port _ HiA) in E4.
  split_and!; [|by rewrite E5, epoch_wire|done|done].
  etransitivity; [exact Er|]. fold msg. unfold ptp_dispatch. change (Z.land (msg !!! 0%nat) 15 = PTP_PDELAY_RESP_MESG) in Et. rewrite Et.
  cbn [Z.eqb Pos.eqb PTP_PDELAY_RESP_MESG PTP_PDELAY_REQ_MESG PTP_ANNOUNCE_MESG PTP_SYNC_MESG PTP_FOLLOW_UP_MESG].
  apply answered_run; try done; [by rewrite E1, Eq|]. rewrite E3, Ei. unfold port_identity. by rewrite take_app_length'.
Qed.

Lemma follow_up_received env A pA B e s q ts junk :
  length (src_mac_addr B) = 6%nat -> length (my_port_id B) = 8%nat -> length (my_port_id A) = 8%nat -> 0 <= e < 2 ^ 58 ->
  ports s = [q] -> received_pdelay q = true -> received_pdelay_id q = u16 (pdelay_req_seq_id pA + 1) ->
  rcvd_source_identity (delay_info (port_info q)) = port_identity (my_port_id B) 0 ->
  let f := response_frame PTP_PDELAY_RESP_FOLLOW_UP_MESG 0 pA A e B in
  (MAX_PTP_MESG_LENGTH <= length (f ++ junk))%nat ->
  exists msg s', ptp_recv env (f ++ junk) ts 0 s = Some (tt, s') /\ network_to_ptp_timestamp (body_of msg) = epoch_timestamp e /\
    ports s' = [concluded (ge_time env 0) (measured_port msg (g_ptp_adjust (clock s)) q)].
Proof using Hone.
  intros HmB HiB HiA He E Hr Hid Hsrc f Hl. pose proof (port_identity_length (my_port_id B) 0 HiB) as HpB.
  pose proof (port_identity_length (my_port_id A) 0 HiA) as HpA.
  destruct (padded_recv env (src_mac_addr B) PTP_PDELAY_RESP_FOLLOW_UP_MESG (Z.of_nat (sizeof_ComMessageHdr + sizeof_PdelayRespMessage)) 0 0 timescale_flag
    no_correction (port_identity (my_port_id B) 0) (request_seq pA) PTP_CTL_FIELD_OTHERS 0x7F
    (timestamp_to_network (epoch_timestamp e) ++ port_identity (my_port_id A) 0) junk ts s q HmB eq_refl HpB eq_refl E)
    as (post & Er & Et & _); [by vm_compute|exact Hl|].
  destruct (no_mixup (request_seq pA) (port_identity (my_port_id A) 0) PTP_PDELAY_RESP_FOLLOW_UP_MESG 0 0 no_correction (epoch_timestamp e) B post
    eq_refl HpA eq_refl HiB) as (E1 & E2 & _ & _ & E5). unfold f.
  match type of E5 with body_of ?m = _ => exists m; set (msg := m) in * end.
  unfold request_seq in E1. rewrite seq_value in E1.
  destruct (concluded_run env msg s q E) as (s' & Es & Ep).
  { unfold awaited, bytes_equal. by rewrite Hr, Hid, E1, Hsrc, E2, Z.eqb_refl, bool_decide_eq_true_2. }
  exists s'. split_and!; [|by rewrite E5, epoch_wire|done]. etransitivity; [exact Er|]. fold msg. unfold ptp_dispatch.
  change (Z.land (msg !!! 0%nat) 15 = PTP_PDELAY_RESP_FOLLOW_UP_MESG) in Et. rewrite Et. exact Es.
Qed.

(** * The measurement *)

(** The requester has no response outstanding and runs at its own rate; the responder's
    epoch, in ticks of 10 ns, has some forty years to go. *)
Record measurable (A : gptp) (pA : port_vars) (B : gptp) (pB : port_vars) : Prop := {
  me_A : gptp_ok A;
  me_B : gptp_ok B;
  me_pA : ports A = [pA];
  me_pB : ports B = [pB];
  me_idle : received_pdelay pA = false;
  me_rate : g_ptp_adjust (clock A) = 0;
  me_epoch : 0 <= pdelay_epoch_timer B < 2 ^ 57 - 2 ^ 32;
}.

Lemma epoch_ticks_range a b : 0 <= epoch_ticks a b < 2 ^ 32.
Proof. unfold epoch_ticks. destruct (_ <=? _); apply u32_range. Qed.

(** The path delay of a port, and whether it is capable, after the measured delay [delay]. *)
Definition kept_delay (p : port_vars) (delay : Z) : Z := smoothed (delay_info (port_info p)) delay.
Definition near (p : port_vars) (delay : Z) : bool :=
  (kept_delay p delay <=? PTP_NEIGHBOR_PROP_DELAY_THRESH_NS) && (2 <=? u32 (exchanges (delay_info (port_info p)) + 1)).
Record delay_known (p : port_vars) (delay : Z) (p' : port_vars) : Prop := {
  dk_capable : asCapable (port_info p') = near p delay;
  dk_delay : pdelay (delay_info (port_info p')) = if asCapable (port_info p) && negb (near p delay) then 0 else kept_delay p delay;
  dk_lost : lost_responses (delay_info (port_info p')) = 0;
  dk_idle : received_pdelay p' = false /\ pdelay_request_sent p' = false;
}.

Lemma update_path_delay_value m1 m2 t1 t2 adj d delay :
  0 <= delay < 2 ^ 31 -> path_delay m1 m2 t1 t2 adj = delay ->
  let d' := update_path_delay m1 m2 t1 t2 adj d in
  pd_valid d' = true /\ pdelay d' = smoothed d delay /\ exchanges d' = exchanges d.
Proof.
  intros Hd E. change (2 ^ 31) with 2147483648 in Hd. unfold update_path_delay, smoothed. rewrite E. destruct (pd_valid d) eqn:Hv.
  - rewrite s32_small by lia. by split_and!.
  - cbn [pdelay pd_valid exchanges upd_pdelay upd_pd_valid]. rewrite u32_small by lia. by split_and!.
Qed.

Lemma concluded_known t p delay m :
  pd_valid (delay_info (port_info m)) = true -> pdelay (delay_info (port_info m)) = kept_delay p delay ->
  exchanges (delay_info (port_info m)) = u32 (exchanges (delay_info (port_info p)) + 1) ->
  asCapable (port_info m) = asCapable (port_info p) -> pdelay_request_sent m = false -> delay_known p delay (concluded t m).
Proof.
  intros Hv Hp He Hc Hsent.
  assert (delay_short (delay_info (port_info m)) = near p delay) as Hshort by (unfold delay_short, near; by rewrite Hv, Hp, He).
  unfold concluded. rewrite Hshort, Hc. clear Hshort.
  destruct (near p delay) eqn:Hn, (asCapable (port_info p)) eqn:Hcp; (split; cbn; rewrite ?Hcp, ?Hn; done).
Qed.

(** The fields of the requester's port in which the measurement is computed. *)
Lemma measured_fields msg1 msg2 ts1 eA A p :
  let q := answered msg1 ts1 (requested eA p A) in
  let m := measured_port msg2 0 q in
  let d' := update_path_delay (network_to_ptp_timestamp (body_of msg1)) (network_to_ptp_timestamp (body_of msg2))
              (u32 (eA - tile_timer_offset A)) ts1 0 (delay_info (port_info q)) in
  delay_info (port_info m) = upd_exchanges (fun n => u32 (n + 1)) d' /\
  asCapable (port_info m) = asCapable (port_info p) /\ pdelay_request_sent m = false.
Proof. split_and!; reflexivity. Qed.

Lemma measured_known t msg1 msg2 ts1 eA A p delay :
  0 <= delay < 2 ^ 31 ->
  path_delay (network_to_ptp_timestamp (body_of msg1)) (network_to_ptp_timestamp (body_of msg2))
    (u32 (eA - tile_timer_offset A)) ts1 0 = delay ->
  delay_known p delay (concluded t (measured_port msg2 0 (answered msg1 ts1 (requested eA p A)))).
Proof.
  intros Hd E. destruct (measured_fields msg1 msg2 ts1 eA A p) as (Em & Ec & Es).
  destruct (update_path_delay_value _ _ _ _ 0 (delay_info (port_info (answered msg1 ts1 (requested eA p A)))) delay Hd E) as (Hv & Hp & He).
  apply concluded_known; rewrite ?Em; [exact Hv|exact Hp| |exact Ec|exact Es].
  cbn [exchanges upd_exchanges]. by rewrite He.
Qed.

(** The requester when the request has left, and the responses to it. *)
Record after_request (eA : Z) (A : gptp) (pA : port_vars) (A1 : gptp) : Prop := {
  ar_port : ports A1 = [requested eA pA A];
  ar_identity : my_port_id A1 = my_port_id A;
  ar_offset : tile_timer_offset A1 = tile_timer_offset A;
  ar_rate : g_ptp_adjust (clock A1) = g_ptp_adjust (clock A);
}.

Lemma request_sent eA A pA : ports A = [pA] ->
  exists A1, send_ptp_pdelay_req_msg eA 0 A = Some (tt, A1) /\ after_request eA A pA A1 /\
    gptp_out A1 = gptp_out A ++ [PtpTx 0 (padded (set_ptp_ethernet_hdr (src_mac_addr A) ++ request_msg pA A))].
Proof. intros E. eexists. split; [by apply request_run|]. split; [by split|reflexivity]. Qed.

Lemma responses_received env1 env2 A pA B pB eA A1 e b d r junk1 junk2 t2 :
  measurable A pA B pB -> 0 <= d -> 0 < r -> 2 * d + r < 2 ^ 28 -> 0 <= e < 2 ^ 57 -> after_request eA A pA A1 ->
  let f1 := response_frame PTP_PDELAY_RESP_MESG 0x2 pA A e B in
  let f2 := response_frame PTP_PDELAY_RESP_FOLLOW_UP_MESG 0 pA A (u64 (e + epoch_ticks (u32 b) (u32 (b + r)))) B in
  (MAX_PTP_MESG_LENGTH <= length (f1 ++ junk1))%nat -> (MAX_PTP_MESG_LENGTH <= length (f2 ++ junk2))%nat ->
  exists A2 A3 p', ptp_recv env1 (f1 ++ junk1) (eA + (2 * d + r)) 0 A1 = Some (tt, A2) /\
    ptp_recv env2 (f2 ++ junk2) t2 0 A2 = Some (tt, A3) /\ ports A3 = [p'] /\
    delay_known pA (10 * d + (if u32 (b + r) <? u32 b then 5 else 0)) p'.
Proof using Hone.
  intros [HA HB EA EB Hidle Hrate Hep] Hd Hr Hb He [E1 Ei Eo Er] f1 f2 Hl1 Hl2. pose proof (ok_mac B HB) as HmB.
  pose proof (ok_identity_length A HA) as HiA. pose proof (ok_identity_length B HB) as HiB. change (2 ^ 28) with 268435456 in Hb.
  assert (0 <= u64 (e + epoch_ticks (u32 b) (u32 (b + r))) < 2 ^ 58) as He2.
  { pose proof (epoch_ticks_range (u32 b) (u32 (b + r))). rewrite u64_small; lia. }
  destruct (response_received env1 A pA B e A1 (requested eA pA A) (eA + (2 * d + r)) junk1 HmB HiB HiA) as (msg1 & Er1 & Ets1 & Eseq & Esrc);
    [lia|by split|done|done|exact Hl1|].
  rewrite Eo in Er1. set (ts1 := u32 _) in Er1.
  destruct (follow_up_received env2 A pA B _ (upd_ports (fun _ => [answered msg1 ts1 (requested eA pA A)]) A1)
    (answered msg1 ts1 (requested eA pA A)) t2 junk2 HmB HiB HiA He2) as (msg2 & A3 & Er2 & Ets2 & Ep);
    [done|done|exact Eseq|exact Esrc|exact Hl2|].
  eexists _, A3, _. split; [exact Er1|]. split; [exact Er2|]. split; [exact Ep|].
  cbn [clock upd_ports]. rewrite Er, Hrate. apply measured_known.
  - destruct (_ <? _); lia.
  - rewrite Ets1, Ets2. unfold ts1.
    replace (eA + (2 * d + r) - tile_timer_offset A) with (eA - tile_timer_offset A + (2 * d + r)) by lia.
    apply path_delay_value; lia.
Qed.

(** C25: two devices with one port each, a request at the requester's time [eA], its way
    of [d] ticks, a response after [r] ticks, and the same way back, all within 2^28
    ticks; the clocks run at the same rate, the requester's rate correction is 0 (it is no
    synchronised slave), and it has no response outstanding. Whatever the clocks' offsets
    to each other, and the junk in the buffers, the messages the two devices send make the
    requester measure 10 * [d] nanoseconds - five more if the responder's clock wraps
    around in between. This measurement enters the average the port keeps (the first one
    is kept as it is); the port counts as capable exactly if that average is at most 800
    ns and at least two measurements have been made. *)
Theorem path_delay_measured A pA B pB eA tB d r :
  measurable A pA B pB -> 0 <= d -> 0 < r -> 2 * d + r < 2 ^ 28 ->
  let b := tB - tile_timer_offset B in
  let delay := 10 * d + (if u32 (b + r) <? u32 b then 5 else 0) in
  exists f A1, send_ptp_pdelay_req_msg eA 0 A = Some (tt, A1) /\ gptp_out A1 = gptp_out A ++ [PtpTx 0 f] /\
    forall envB junk, ge_egress envB 0 = tB + r -> (MAX_PTP_MESG_LENGTH <= length (f ++ junk))%nat ->
    exists f1 f2 B1, ptp_recv envB (f ++ junk) tB 0 B = Some (tt, B1) /\ gptp_out B1 = gptp_out B ++ [PtpTx 0 f1; PtpTx 0 f2] /\
      forall env1 env2 junk1 junk2 t2,
        (MAX_PTP_MESG_LENGTH <= length (f1 ++ junk1))%nat -> (MAX_PTP_MESG_LENGTH <= length (f2 ++ junk2))%nat ->
        exists A2 A3 p', ptp_recv env1 (f1 ++ junk1) (eA + (2 * d + r)) 0 A1 = Some (tt, A2) /\
          ptp_recv env2 (f2 ++ junk2) t2 0 A2 = Some (tt, A3) /\ ports A3 = [p'] /\ delay_known pA delay p'.
Proof using Hone.
  intros Hm Hd Hr Hb b delay. pose proof Hm as [HA HB EA EB Hidle Hrate Hep].
  destruct (request_sent eA A pA EA) as (A1 & Es & Ha1 & Hout). eexists _, A1. split; [exact Es|]. split; [exact Hout|].
  intros envB junk Heg Hl.
  destruct (request_received envB A pA B pB tB junk (ok_mac A HA) (ok_identity_length A HA) EB Hl) as (B1 & ErB & HoutB).
  rewrite Heg in HoutB. replace (tB + r - tile_timer_offset B) with (b + r) in HoutB by (unfold b; lia). fold b in HoutB.
  assert (0 <= pdelay_epoch_timer (epoch_state (u32 b) B) < 2 ^ 57) as He.
  { cbn [pdelay_epoch_timer epoch_state upd_prev_pdelay_local_ts upd_pdelay_epoch_timer].
    pose proof (epoch_ticks_range (prev_pdelay_local_ts B) (u32 b)). rewrite u64_small; lia. }
  eexists _, _, B1. split; [exact ErB|]. split; [exact HoutB|]. intros env1 env2 junk1 junk2 t2.
  by apply (responses_received env1 env2 A pA B pB eA A1 _ b d r).
Qed.
End OnePort.
