(* ===== verification/GptpSync.v ===== *)
(** A slave takes over its master's time and rate. *)
From S2P Require Import Prelude Bytes MiscTimer PtpTime GptpTypes Gptp GptpSafe GptpRoles GptpDelay.
From stdpp Require Import base list list_numbers numbers option.
From Stdlib Require Import ZArith Lia.
#[local] Open Scope Z_scope.

(** * The rate *)

Lemma quot_error x d : 0 < d -> - d < x - Z.quot x d * d < d.
Proof. intros Hd. pose proof (Z.quot_rem' x d). pose proof (Z.rem_bound_abs x d ltac:(lia)). nia. Qed.

(** The ratio [x / d] in units of [2 ^ -30], less than a unit off. *)
Lemma adjust_ratio_error x d :
  - 2 ^ 28 < x < 2 ^ 28 -> 0 < d -> - d < x * 2 ^ PTP_ADJUST_PREC - adjust_ratio x d * d < d.
Proof.
  intros Hx Hd. change (2 ^ 28) with 268435456 in Hx. unfold adjust_ratio, ADJUST_CALC_PREC, PTP_ADJUST_PREC.
  rewrite Z.shiftl_mul_pow2, Z.shiftr_div_pow2 by lia. change (35 - 30) with 5. change (2 ^ 35) with 34359738368. change (2 ^ 5) with 32.
  rewrite (s64_small (x * _)) by lia. pose proof (quot_error (x * 34359738368) d Hd) as Hq.
  set (q := Z.quot (x * 34359738368) d) in *. assert (- 9223372036854775808 <= q < 9223372036854775808) as Hr by nia.
  rewrite s64_small by (change (2 ^ 63) with 9223372036854775808; lia).
  change (2 ^ 30) with 1073741824. pose proof (Z.div_mod q 32 ltac:(lia)). pose proof (Z.mod_pos_bound q 32 ltac:(lia)). nia.
Qed.

(** The rate of a master whose clock advances by [m] ns while the slave's does by [l]: the code
    divides the difference by [m]; the slave's time advances by [l * (1 + adjust / 2 ^ 30)]. *)
Lemma rate_error m l adj :
  - m < (m - l) * 2 ^ 30 - adj * m < m -> 0 < m -> 0 < l ->
  - (l * m) < m * (m * 2 ^ 30 - l * (2 ^ 30 + adj)) - (m - l) * (m - l) * 2 ^ 30 < l * m.
Proof. intros H Hm Hl. replace (m * _ - _) with (l * ((m - l) * 2 ^ 30 - adj * m)) by ring. nia. Qed.

Lemma ratio_small x d : - 2 ^ 28 < x < 2 ^ 28 -> 0 < d -> - d < x < d -> s32 (adjust_ratio x d) = adjust_ratio x d.
Proof.
  intros Hx Hd Hxd. pose proof (adjust_ratio_error x d Hx Hd) as H. unfold PTP_ADJUST_PREC in H. change (2 ^ 30) with 1073741824 in H.
  apply s32_small. nia.
Qed.

(** The rates are right up to the second order. *)
Definition rate_close (m l adj : Z) : Prop :=
  - (l * m) < m * (m * 2 ^ PTP_ADJUST_PREC - l * (2 ^ PTP_ADJUST_PREC + adj)) - (m - l) * (m - l) * 2 ^ PTP_ADJUST_PREC < l * m.

Lemma ratio_close m l : 0 < m -> 0 < l -> - 2 ^ 28 < m - l < 2 ^ 28 -> rate_close m l (adjust_ratio (m - l) m).
Proof. intros Hm Hl Hd. apply rate_error; [|done..]. by apply adjust_ratio_error. Qed.

Section Sync.
Context `{cfg : GptpConfig}.

(** The local clock between two Syncs, [n] ticks, and the master's, [m] nanoseconds. *)
Record two_syncs (c : ptp_clock) (master : ptp_timestamp) (n m : Z) : Prop := {
  ts_valid : prev_adjust_valid c = true;
  ts_master : timestamp_ok master /\ timestamp_ok (prev_adjust_master_ts c);
  ts_elapsed : ts_ns master = ts_ns (prev_adjust_master_ts c) + m;
  ts_ticks : 0 < n < 2 ^ 27;
  ts_time : if PTP_THROW_AWAY_SYNC_OUTLIERS then 100000000 <= m <= 150000000 else 0 < m;
  ts_close : - 2 ^ 28 < m - 10 * n < 2 ^ 28 /\ m < 2 * (10 * n) /\ 10 * n < 2 * m;
}.

Lemma two_syncs_diffs c master n m p :
  two_syncs c master n m -> prev_adjust_local_ts c = u32 p ->
  ptp_timestamp_diff master (prev_adjust_master_ts c) = m /\ 0 < m /\
  s64 (s32 (s32 (u32 (p + n)) - s32 (prev_adjust_local_ts c)) * 10) = 10 * n /\
  (PTP_THROW_AWAY_SYNC_OUTLIERS && ((150000000 <? m) || (m <? 100000000))) = false.
Proof.
  intros [Hv [H1 H2] He Hn Ht Hc] ->. change (2 ^ 28) with 268435456 in Hc. change (2 ^ 27) with 134217728 in Hn.
  assert (0 < m) as Hm by (destruct PTP_THROW_AWAY_SYNC_OUTLIERS; lia). split_and!; [|done| |].
  - rewrite diff_ns by (done || lia). lia.
  - rewrite signed_diff_u32, s64_small by lia. lia.
  - destruct PTP_THROW_AWAY_SYNC_OUTLIERS; [|done]. rewrite (proj2 (Z.ltb_ge _ _)), (proj2 (Z.ltb_ge m _)) by lia. done.
Qed.

(** C27: the first rates a slave computes, from two Syncs between which its clock has
    advanced by [n] ticks, less than 2^27, and the master's by [m] nanoseconds, within a
    factor of two and less than 2^28 ns of each other: both, of the master's time to local
    time and the other way, are those of the two clocks up to the second order - the code
    divides by the wrong one of the two intervals, which costs (m - l)^2 / m - and one
    unit of the last place. (If the master is the faster one the first is positive and the
    second negative.) *)
Theorem first_rate_close c master n m p :
  two_syncs c master n m -> prev_adjust_local_ts c = u32 p -> g_ptp_adjust_valid c = false ->
  exists c', update_adjust master (u32 (p + n)) c = (false, c') /\ g_ptp_adjust_valid c' = true /\
    rate_close m (10 * n) (g_ptp_adjust c') /\ rate_close (10 * n) m (g_inv_ptp_adjust c').
Proof.
  intros H Hp Hav. destruct (two_syncs_diffs c master n m p H Hp) as (Em & Hm & El & Eo). destruct H as [Hv _ _ Hn _ Hc].
  assert (s64 (m - 10 * n) = m - 10 * n /\ s64 (10 * n - m) = 10 * n - m) as [E1 E2].
  { change (2 ^ 28) with 268435456 in Hc. split; apply s64_small; lia. }
  unfold update_adjust. rewrite Hv, Em, El, Eo, Hav. rewrite (proj2 (Z.eqb_neq m 0)), (proj2 (Z.eqb_neq (10 * n) 0)) by lia.
  cbn [orb]. cbv zeta. rewrite E1, E2. eexists. split; [reflexivity|]. split; [reflexivity|].
  cbn [g_ptp_adjust g_inv_ptp_adjust upd_prev_adjust_local_ts upd_prev_adjust_master_ts upd_prev_adjust_valid upd_g_ptp_adjust
    upd_g_inv_ptp_adjust upd_g_ptp_adjust_valid].
  rewrite !ratio_small by lia. split; apply ratio_close; lia.
Qed.
End Sync.

(** * The time *)





(** ** The messages *)

Section OnePort.
Context `{cfg : GptpConfig}.












End OnePort.
