(* ===== verification/GptpFaults.v ===== *)
(** What does not work: a port that has lost its master claims to be the grandmaster, but
    sends no time; a device with two ports passes on an announcement whose path is too long. *)
From S2P Require Import Prelude Bytes MiscTimer PtpTime GptpTypes Gptp GptpSafe GptpRoles.
From stdpp Require Import base list list_numbers numbers option.
From Stdlib Require Import ZArith Lia.
#[local] Open Scope Z_scope.

(** A frame that is neither a Sync nor a Follow_Up. *)
Definition message_type (f : list Z) : Z := Z.land (f !!! 14%nat) 0xf.
Definition carries_no_time (ev : gptp_event) : Prop :=
  match ev with PtpTx _ f => message_type f <> PTP_SYNC_MESG /\ message_type f <> PTP_FOLLOW_UP_MESG end.
#[export] Instance carries_no_time_dec ev : Decision (carries_no_time ev).
Proof. destruct ev. apply _. Defined.

(** A port that, if it is capable, is uncertain; and nothing but such frames since the first [n]. *)
Record lingers (n : nat) (s : gptp) : Prop := {
  li_port : exists p, ports s = [p] /\ (asCapable (port_info p) = true -> role_state (port_info p) = PTP_UNCERTAIN);
  li_mac : length (src_mac_addr s) = 6%nat;
  li_quiet : Forall carries_no_time (drop n (gptp_out s));
}.

Section OnePort.
Context `{cfg : GptpConfig} (Hone : PTP_NUM_PORTS = 1%nat).

Definition lingering {A} (m : M gptp A) : Prop := forall n s a s', lingers n s -> m s = Some (a, s') -> lingers n s'.

Lemma lingering_ret {A} (a : A) : lingering (mret a).
Proof. intros n s a' s' H E. cbv in E. by simplify_eq. Qed.
Lemma lingering_bind {A B} (m : M gptp A) (k : A -> M gptp B) : lingering m -> (forall a, lingering (k a)) -> lingering (m ≫= k).
Proof. intros Hm Hk n s b s2 H (a & s1 & E1 & E2)%M_bind_Some. eapply Hk, E2. by eapply Hm. Qed.
Lemma lingering_gets {A} (f : gptp -> A) : lingering (gets f).
Proof. intros n s a s' H E. cbv in E. by simplify_eq. Qed.
Lemma lingering_when b m : lingering m -> lingering (whenM b m).
Proof. destruct b; [done|]. intros _. apply lingering_ret. Qed.
Lemma lingering_if {A} (b : bool) (m1 m2 : M gptp A) : lingering m1 -> lingering m2 -> lingering (if b then m1 else m2).
Proof. by destruct b. Qed.
Lemma lingering_trap {A} : lingering (@trap gptp A).
Proof. done. Qed.
Lemma lingering_modify f :
  (forall s, ports (f s) = ports s /\ src_mac_addr (f s) = src_mac_addr s /\ gptp_out (f s) = gptp_out s) -> lingering (modify f).
Proof.
  intros Hf n s a s' [H1 H2 H3] E. cbv in E. simplify_eq. destruct (Hf s) as (E1 & E2 & E3). split; by rewrite ?E1, ?E2, ?E3.
Qed.
Lemma lingering_get_port i : lingering (get_port i).
Proof. intros n s a s' H E. unfold get_port, load in E. destruct (ports s !! i); by simplify_eq. Qed.
Lemma lingering_has_role r i : lingering (has_role r i).
Proof. apply lingering_bind; [apply lingering_get_port|]. intros p. apply lingering_ret. Qed.

Lemma lingering_upd_port g :
  (forall p, asCapable (port_info (g p)) = asCapable (port_info p) /\ role_state (port_info (g p)) = role_state (port_info p)) ->
  lingering (upd_port 0 g).
Proof.
  intros Hg n s a s' [(p & E & Hp) H2 H3] Er. rewrite (upd_port_run g p s E) in Er. simplify_eq. destruct (Hg p) as [E1 E2].
  split; [|done|done]. exists (g p). split; [done|]. by rewrite E1, E2.
Qed.

Lemma lingering_uncertain t : lingering (set_new_role t PTP_UNCERTAIN 0).
Proof using Hone.
  intros n s a s' [(p & E & Hp) H2 H3] Er. rewrite (uncertain_run Hone t p s E) in Er. simplify_eq. split; [|done|done].
  eexists. split; [reflexivity|]. done.
Qed.

Lemma lingering_reset_ascapable t : lingering (reset_ascapable t 0).
Proof using Hone.
  intros n s a s' [(p & E & Hp) H2 H3] Er. rewrite (reset_ascapable_run Hone t p s E) in Er. simplify_eq.
  destruct (asCapable _) eqn:Hc; [|split; [by exists p; rewrite Hc|done|done]]. split; [|done|done].
  eexists. split; [reflexivity|]. done.
Qed.

Lemma lingering_pdelay_req_reset t : lingering (pdelay_req_reset t 0).
Proof using Hone.
  apply lingering_bind; [apply lingering_get_port|]. intros p. apply lingering_if; [|apply lingering_reset_ascapable].
  by apply lingering_upd_port.
Qed.

(** A message of another type may be sent. *)
Lemma sent_lingers n s mac m l d f0 f1 c src seq ctl log body :
  lingers n s -> mac = src_mac_addr s -> 0 <= m < 16 -> m <> PTP_SYNC_MESG -> m <> PTP_FOLLOW_UP_MESG ->
  lingers n (sent (set_ptp_ethernet_hdr mac ++ com_header m l d f0 f1 c src seq ctl log ++ body) s).
Proof.
  intros [H1 H2 H3] -> Hm Hs Hf. split; [done|done|]. cbn [gptp_out sent upd_gptp_out]. rewrite drop_app. apply Forall_app. split; [done|].
  apply Forall_drop. constructor; [|constructor]. unfold carries_no_time, message_type.
  match goal with |- context [?h ++ ?r] => rewrite (lookup_total_app_l _ (replicate _ _)) end.
  - rewrite lookup_total_app_r; rewrite (hdr_length _ H2); [|lia]. cbn [Nat.sub]. unfold com_header. cbn [app lookup_total list_lookup_total].
    unfold PTP_TRANSPORT_SPECIFIC_HDR. rewrite lor_shiftl_add by lia. change 0xf with (Z.ones 4). rewrite Z.land_ones by lia.
    replace ((1 * 2 ^ 4 + m) mod 2 ^ 4) with m by (Z.to_euclidean_division_equations; lia). done.
  - rewrite !length_app, (hdr_length _ H2). cbn. lia.
Qed.

(** An announcement is sent, or its path does not fit. *)
Lemma send_announce_frame p s s' :
  ports s = [p] -> send_ptp_announce_msg 0 s = Some (tt, s') ->
  exists st len seq body,
    s' = sent (set_ptp_ethernet_hdr (src_mac_addr s) ++ com_header PTP_ANNOUNCE_MESG len 0 0 announce_flags no_correction
                 (port_identity (my_port_id s) 0) seq PTP_CTL_FIELD_OTHERS PTP_LOG_ANNOUNCE_INTERVAL ++ body)
           (upd_steps_removed_from_gm (fun _ => st) (upd_ports (fun _ => [upd_announce_seq_id (fun n => u16 (n + 1)) p]) s)).
Proof using Hone.
  intros E. unfold send_ptp_announce_msg. rewrite (M_bind_run _ _ _ _ _ (upd_port_run _ _ _ E)).
  erewrite M_bind_run by (apply get_port_run; reflexivity). erewrite M_bind_run by reflexivity. rewrite Hone. cbn [Nat.eqb].
  erewrite M_bind_run by reflexivity. cbn [whenM]. do 2 erewrite M_bind_run by reflexivity. cbv zeta.
  destruct (Z.of_nat PTP_MAXIMUM_PATH_TRACE_TLV <=? _); [done|]. intros Er.
  match type of Er with ptp_tx 0 ?f ?s1 = _ => assert (s' = sent f s1) as -> by (change (Some (tt, sent f s1) = Some (tt, s')) in Er; congruence) end.
  eexists _, _, _, _. reflexivity.
Qed.

Lemma lingering_send_announce : lingering (send_ptp_announce_msg 0).
Proof using Hone.
  intros n s [] s' [(p & E & Hp) H2 H3] Er. destruct (send_announce_frame p s s' E Er) as (st & len & seq & body & ->).
  apply (sent_lingers n (upd_steps_removed_from_gm _ (upd_ports _ s))); [|done..]. split; [|done|done]. by eexists.
Qed.

Lemma lingering_send_pdelay_req egress : lingering (send_ptp_pdelay_req_msg egress 0).
Proof.
  unfold send_ptp_pdelay_req_msg. apply lingering_bind; [by apply lingering_upd_port|]. intros _.
  apply lingering_bind; [apply lingering_get_port|]. intros p n s a s' H Er. erewrite M_bind_run in Er by reflexivity.
  erewrite M_bind_run in Er by apply ptp_tx_timed_run. revert Er.
  apply (lingering_bind (upd_port 0 _) (fun _ => upd_port 0 _)); [by apply lingering_upd_port|intros _; by apply lingering_upd_port|].
  by apply sent_lingers.
Qed.

Lemma epoch_lingers n t e s : lingers n s -> lingers n (upd_prev_pdelay_local_ts (fun _ => t) (upd_pdelay_epoch_timer (fun _ => e) s)).
Proof. intros []. by split. Qed.

Lemma lingering_send_pdelay_resp egress req ts : lingering (send_ptp_pdelay_resp_msg egress req ts 0).
Proof.
  intros n s a s' Hs Er. unfold send_ptp_pdelay_resp_msg in Er. erewrite M_bind_run in Er by reflexivity. cbv zeta in Er.
  destruct (local_to_epoch_run ts s) as (ts1 & e1 & E1). rewrite (M_bind_run _ _ _ _ _ E1) in Er.
  erewrite M_bind_run in Er by apply ptp_tx_timed_run.
  match type of Er with context [sent ?f ?s1] => set (s2 := sent f s1) in *; assert (lingers n s2) as H2
    by (apply (sent_lingers n s1); [by apply epoch_lingers|done..]) end.
  destruct (local_to_epoch_run (u32 (egress - tile_timer_offset (upd_prev_pdelay_local_ts (fun _ => ts) (upd_pdelay_epoch_timer (fun _ => e1) s)))) s2) as (ts2 & e2 & E2).
  rewrite (M_bind_run _ _ _ _ _ E2) in Er.
  match type of Er with ptp_tx 0 ?f ?s1 = _ => assert (s' = sent f s1) as -> by (change (Some (tt, sent f s1) = Some (a, s')) in Er; congruence) end.
  apply (sent_lingers n (upd_prev_pdelay_local_ts _ _)); [by apply epoch_lingers|done..].
Qed.

Ltac lingering_step :=
  match goal with
  | |- lingering (_ ≫= _) => apply lingering_bind; [|intros ?]
  | |- lingering (whenM _ _) => apply lingering_when
  | |- lingering (if _ then _ else _) => apply lingering_if
  | |- lingering (let '(_, _) := ?x in _) => destruct x
  | |- lingering (get_port _) => apply lingering_get_port
  | |- lingering (has_role _ _) => apply lingering_has_role
  | |- lingering (gets _) => apply lingering_gets
  | |- lingering (modify _) => by apply lingering_modify
  | |- lingering (upd_port 0 _) => by apply lingering_upd_port
  | |- lingering (upd_delay 0 _) => by apply lingering_upd_port
  | |- lingering (pdelay_req_reset _ 0) => apply lingering_pdelay_req_reset
  | |- lingering (reset_ascapable _ 0) => apply lingering_reset_ascapable
  | |- lingering (set_new_role _ PTP_UNCERTAIN 0) => apply lingering_uncertain
  | |- lingering (send_ptp_announce_msg 0) => apply lingering_send_announce
  | |- lingering (send_ptp_pdelay_req_msg _ 0) => apply lingering_send_pdelay_req
  | |- lingering (send_ptp_pdelay_resp_msg _ _ _ 0) => apply lingering_send_pdelay_resp
  | |- lingering skip => apply lingering_ret
  | |- lingering (mret _) => apply lingering_ret
  end.
Ltac lingering_auto := repeat lingering_step.

Lemma lingering_recv_sync msg ts : lingering (recv_sync msg ts 0).
Proof. unfold recv_sync. lingering_auto. Qed.
Lemma lingering_recv_follow_up msg : lingering (recv_follow_up msg 0).
Proof. unfold recv_follow_up. lingering_auto. Qed.
Lemma lingering_recv_pdelay_resp env msg ts : lingering (recv_pdelay_resp env msg ts 0).
Proof using Hone. unfold recv_pdelay_resp, recv_multiple_resp. lingering_auto. Qed.

(** The measurement of a delay leaves a capable port as it is, or makes it incapable. *)
Lemma lingering_not_awaited env msg p :
  awaited msg p = false ->
  lingering (_ ← whenM (received_pdelay p)
               (if (received_pdelay_id p =? ntoh16_at off_sequenceId msg) &&
                   bytes_equal (field off_sourcePortIdentity 10 msg) (rcvd_source_identity (delay_info (port_info p)))
                then trap else pdelay_req_reset (ge_time env 0) 0);
             upd_port 0 (upd_received_pdelay (fun _ => false))).
Proof using Hone. intros _. lingering_auto. apply lingering_trap. Qed.

Lemma resp_follow_up_lingers env msg n s s' p :
  lingers n s -> ports s = [p] -> asCapable (port_info p) = true ->
  recv_pdelay_resp_follow_up env msg 0 s = Some (tt, s') -> lingers n s'.
Proof using Hone.
  intros Hs E Hc Er. destruct (awaited msg p) eqn:Ha.
  - rewrite (awaited_run Hone env msg s p E Ha) in Er. revert Er.
    match goal with |- ?m ?s1 = _ -> _ => assert (lingering m) as Hm by lingering_auto; enough (lingers n s1) as H1 by (intros Er; by eapply Hm) end.
    set (q := measured_port _ _ p). assert (asCapable (port_info q) = true) as Hcq by done. unfold judged_state. rewrite Hcq.
    destruct Hs as [(p' & E' & Hp) H2 H3]. rewrite E in E'. injection E' as <-. destruct (delay_short _).
    + split; [|done|done]. exists q. by split.
    + split; [|done|done]. eexists. split; [reflexivity|]. done.
  - pose proof (lingering_not_awaited env msg p Ha) as Hm. apply (Hm n s tt s' Hs). revert Er.
    unfold recv_pdelay_resp_follow_up. rewrite (M_bind_run _ _ _ _ _ (get_port_run _ _ E)). erewrite M_bind_run by reflexivity.
    unfold awaited in Ha. rewrite <- andb_assoc in Ha. destruct (received_pdelay p); [|done]. cbn [andb] in Ha. by rewrite Ha.
Qed.

(** * What an input makes of it *)

(** Or it has found another master. *)
Record found (n : nat) (s : gptp) : Prop := {
  fd_port : exists p, ports s = [p] /\ role_state (port_info p) = PTP_SLAVE;
  fd_quiet : Forall carries_no_time (drop n (gptp_out s));
}.

Lemma announce_lingers env msg ts n s s' p :
  lingers n s -> ports s = [p] -> asCapable (port_info p) = true ->
  recv_announce env msg ts 0 s = Some (tt, s') -> lingers n s' \/ found n s'.
Proof using Hone.
  intros Hs E Hc. assert (role_state (port_info p) = PTP_UNCERTAIN) as Hr.
  { destruct Hs as [(p' & E' & Hp) _ _]. rewrite E in E'. injection E' as <-. by apply Hp. }
  unfold recv_announce. erewrite M_bind_run by reflexivity. cbv zeta. destruct (qualify_announce _ _ _); cbn [whenM];
    [|intros Er; left; replace s' with s; [done|by injection Er]].
  destruct (Z.ltb_spec 0 (bmca_new_best (field sizeof_ComMessageHdr sizeof_AnnounceMessage msg) (best_announce_msg s) (my_port_id s))) as [Hb|Hb].
  - rewrite (M_bind_run _ _ _ _ _ (new_best_run Hone env msg s p E Hb)). set (s1 := upd_master_port_id _ (upd_ports _ (slave_state _ _ _))).
    assert (found n s1) as H1 by (destruct Hs; split; [by eexists|done]). intros Er. right. revert Er.
    erewrite M_bind_run by (apply has_role_run; reflexivity). erewrite M_bind_run by reflexivity.
    match goal with |- whenM ?b _ _ = _ -> _ => destruct b end; cbn [whenM].
    + erewrite M_bind_run by (apply upd_port_run; reflexivity). erewrite upd_port_run by reflexivity. intros Er.
      match type of Er with Some (_, ?x) = _ => assert (s' = x) as -> by congruence end. destruct Hs. split; [by eexists|done].
    + intros Er. replace s' with s1; [done|]. by injection Er.
  - rewrite (M_bind_run _ _ _ tt s).
    2:{ apply (worse_announce_run _ _ _ p); [done|congruence|done]. }
    rewrite (M_bind_run _ _ _ _ _ (has_role_run _ _ _ E)), Hr. erewrite M_bind_run by reflexivity. intros Er. left.
    replace s' with s; [done|]. by injection Er.
Qed.

Lemma lingers_role n s p : lingers n s -> ports s = [p] -> asCapable (port_info p) = true -> role_state (port_info p) = PTP_UNCERTAIN.
Proof. intros [(p' & E' & Hp) _ _] E. rewrite E in E'. injection E' as <-. exact Hp. Qed.

Lemma packet_lingers env buf ts n s s' p :
  lingers n s -> ports s = [p] -> asCapable (port_info p) = true ->
  ptp_recv env buf ts 0 s = Some (tt, s') -> lingers n s' \/ found n s'.
Proof using Hone.
  intros Hs E Hc. unfold ptp_recv. destruct (_ <? _)%nat; [done|]. erewrite M_bind_run by reflexivity.
  rewrite (M_bind_run _ _ _ _ _ (get_port_run _ _ E)), Hc. set (msg := drop _ buf).
  destruct (GET_PTP_TRANSPORT_SPECIFIC msg =? 1); cbn [whenM]; [|intros Er; left; replace s' with s; [done|by injection Er]].
  unfold ptp_dispatch. cbn [whenM].
  destruct (_ =? PTP_ANNOUNCE_MESG); [by eapply (announce_lingers _ _ _ n s s' p)|].
  destruct (_ =? PTP_SYNC_MESG); [intros Er; left; by eapply lingering_recv_sync|].
  destruct (_ =? PTP_FOLLOW_UP_MESG); [intros Er; left; by eapply lingering_recv_follow_up|].
  destruct (_ =? PTP_PDELAY_REQ_MESG); [intros Er; left; by eapply lingering_send_pdelay_resp|].
  destruct (_ =? PTP_PDELAY_RESP_MESG); [intros Er; left; by eapply lingering_recv_pdelay_resp|].
  destruct (_ =? PTP_PDELAY_RESP_FOLLOW_UP_MESG); [intros Er; left; by eapply (resp_follow_up_lingers _ _ n s s' p)|].
  intros Er. left. replace s' with s; [done|by injection Er].
Qed.

Lemma lingering_sending : lingering (sending_pdelay 0).
Proof. unfold sending_pdelay. lingering_auto. Qed.
Lemma lingering_timeouts now t role : lingering (receipt_timeouts now t role 0).
Proof using Hone. unfold receipt_timeouts. lingering_auto. Qed.

(** The periodic function sends Syncs only as a master. *)
Lemma periodic_port_lingers env t n s s' p :
  lingers n s -> ports s = [p] -> asCapable (port_info p) = true -> ptp_periodic_port env t 0 s = Some (tt, s') -> lingers n s'.
Proof using Hone.
  intros Hs E Hc. unfold ptp_periodic_port. rewrite (M_bind_run _ _ _ _ _ (get_port_run _ _ E)). cbv zeta.
  rewrite Hc, (lingers_role n s p Hs E Hc). rewrite (bool_decide_eq_false_2 (PTP_UNCERTAIN = PTP_MASTER)) by done. cbn [andb whenM].
  match goal with |- ?m s = _ -> _ => enough (lingering m) as Hm by (by apply Hm) end.
  apply lingering_bind; [apply lingering_sending|intros sending].
  apply lingering_bind; [apply lingering_timeouts|intros _]. lingering_auto.
Qed.

Lemma periodic_lingers env t n s s' p :
  lingers n s -> ports s = [p] -> asCapable (port_info p) = true -> ptp_periodic env t s = Some (tt, s') -> lingers n s'.
Proof using Hone.
  intros Hs E Hc. unfold ptp_periodic. rewrite Hone. cbn [seq forM].
  intros ([] & s1 & E1 & E2)%M_bind_Some. apply M_bind_Some in E1 as ([] & s2 & E1 & E3).
  pose proof (periodic_port_lingers env t n s s2 p Hs E Hc E1) as H2.
  assert (lingering (@mret (M gptp) _ _ tt)) as Hret by apply lingering_ret.
  assert (lingering (modify (upd_clock (periodic_update_reference_timestamps t)))) as Hlast by (by apply lingering_modify).
  eapply Hlast, E2. by eapply Hret, E3.
Qed.

(** A link that comes up makes the port incapable. *)
Lemma reset_lingers env n s s' : lingers n s -> ptp_reset env 0 s = Some (tt, s') -> lingers n s'.
Proof using Hone.
  intros Hs. destruct Hs as [(p & E & _) H2 H3]. rewrite ptp_reset_split, (M_bind_run _ _ _ _ _ (master_run Hone _ p s E)).
  unfold reset_rest, upd_delay, upd_info. do 5 (erewrite M_bind_run by (apply upd_port_run; reflexivity)).
  erewrite reset_ascapable_run by (exact Hone || reflexivity). intros Er.
  match type of Er with Some (_, ?x) = _ => assert (s' = x) as -> by congruence end.
  match goal with |- lingers _ (if ?b then _ else _) => destruct b eqn:Hc end; (split; [|done|done]); eexists; (split; [reflexivity|]); [done|].
  intros Hc'. exfalso. revert Hc'. match type of Hc with ?x = _ => change (x = true -> False) end. by rewrite Hc.
Qed.

(** * Waiting for a master *)

(** The server receives inputs, and after each of them the port is capable and not a slave. *)
Definition waits (s : gptp) : Prop :=
  exists p, ports s = [p] /\ asCapable (port_info p) = true /\ role_state (port_info p) <> PTP_SLAVE.
Inductive waiting (s : gptp) : list gptp_input -> gptp -> Prop :=
| waiting_begins : waiting s [] s
| waiting_goes_on l i s1 s2 : waiting s l s1 -> gptp_input_ok i -> gptp_serve i s1 = Some (tt, s2) -> waits s2 -> waiting s (l ++ [i]) s2.

Lemma serve_lingers i n s s' :
  gptp_input_ok i -> lingers n s -> waits s -> gptp_serve i s = Some (tt, s') -> waits s' -> lingers n s'.
Proof using Hone.
  intros Hi Hs (p & E & Hc & _) Er (p' & E' & _ & Hr'). destruct i as [up port env|buf ts port env|t env]; cbn [gptp_serve gptp_input_ok] in *.
  - subst port. destruct up; cbn [whenM] in Er; [by eapply reset_lingers|]. replace s' with s; [done|by injection Er].
  - destruct Hi as [-> Hl]. destruct (packet_lingers env buf ts n s s' p Hs E Hc Er) as [|[(q & Eq & Hq) _]]; [done|].
    rewrite E' in Eq. injection Eq as <-. done.
  - by eapply periodic_lingers.
Qed.

(** * What it announces *)

(** A frame that announces the clock [id] as the grandmaster. *)
Definition announces (id : list Z) (ev : gptp_event) : Prop :=
  match ev with PtpTx _ f =>
    message_type f = PTP_ANNOUNCE_MESG /\ clockIdentity_of (drop (14 + sizeof_ComMessageHdr) f) = id
  end.

Lemma announce_frame_announces p s pad :
  length (src_mac_addr s) = 6%nat -> length (my_port_id s) = 8%nat -> own_message s ->
  announces (my_port_id s) (PtpTx 0 (announce_frame p s ++ pad)).
Proof.
  intros Hm Hl Hown. unfold announce_frame. rewrite (own_message_fields s Hl Hown).
  pose proof (hdr_length _ Hm) as Hh. pose proof (port_identity_length (my_port_id s) 0 Hl) as Hp. set (src := port_identity _ _) in *.
  set (hdr := set_ptp_ethernet_hdr _) in *. clearbody src hdr. rewrite <- app_assoc. split.
  - unfold message_type. rewrite lookup_total_app_r by (rewrite Hh; lia). rewrite Hh. reflexivity.
  - rewrite <- drop_drop, (drop_app_length' hdr) by done. rewrite <- app_assoc, drop_app_length'.
    + set (prio := ptp_priority1 s). set (id := my_port_id s) in *. clearbody prio id. clear -Hl. destruct_len id Hl. reflexivity.
    + unfold com_header. rewrite !length_app, Hp. reflexivity.
Qed.

Definition announcement_due (t : Z) (p : port_vars) : bool := timeafter t (last_announce_time p + ANNOUNCE_PERIOD).

Lemma just_due t : timeafter t (u32 (t - ANNOUNCE_PERIOD - 1) + ANNOUNCE_PERIOD) = true.
Proof.
  unfold timeafter, s32, signed, u32, wrap. apply Z.ltb_lt.
  assert (((t - ANNOUNCE_PERIOD - 1) mod 2 ^ 32 + ANNOUNCE_PERIOD - t) mod 2 ^ 32 = 2 ^ 32 - 1) as ->.
  { rewrite <- Z.add_sub_assoc, Z.add_mod_idemp_l by done. replace (t - ANNOUNCE_PERIOD - 1 + (ANNOUNCE_PERIOD - t)) with (-1) by lia. done. }
  done.
Qed.

(** Neither the announcement nor the identity changes, and what is due at [t] remains so. *)
Record due (t : Z) (s s' : gptp) : Prop := {
  du_best : best_announce_msg s' = best_announce_msg s;
  du_id : my_port_id s' = my_port_id s;
  du_prio : ptp_priority1 s' = ptp_priority1 s;
  du_mac : src_mac_addr s' = src_mac_addr s;
  du_out : gptp_out s' = gptp_out s;
  du_port : forall p, ports s = [p] -> exists p', ports s' = [p'] /\ (announcement_due t p = true -> announcement_due t p' = true);
}.
#[local] Instance due_preorder t : PreOrder (due t).
Proof.
  split; [intros s; split; try done; intros p E; by exists p|].
  intros s1 s2 s3 [E1 E2 E3 E4 E5 H1] [E1' E2' E3' E4' E5' H2]. split; try congruence.
  intros p (p1 & F1 & G1)%H1. destruct (H2 p1 F1) as (p2 & F2 & G2). exists p2. auto.
Qed.

Lemma due_upd_port t g : (forall p, announcement_due t p = true -> announcement_due t (g p) = true) -> keeps (due t) (upd_port 0 g).
Proof.
  intros Hg s [] s' E. unfold upd_port, store in E. destruct (ports s) as [|p l] eqn:Ep; [done|]. cbn in E. simplify_eq.
  split; try done. intros q Eq. rewrite Ep in Eq. simplify_eq. cbn. rewrite Ep. exists (g q). auto.
Qed.
Lemma due_get_port t : keeps (due t) (get_port 0).
Proof. intros s a s' E. unfold get_port, load in E. destruct (ports s !! 0%nat); [|done]. by simplify_eq. Qed.
#[local] Hint Resolve due_get_port : keeps.

Lemma due_sending t : keeps (due t) (sending_pdelay 0).
Proof. unfold sending_pdelay. keeps_auto; by apply due_upd_port. Qed.
Lemma due_timeouts now t : keeps (due t) (receipt_timeouts now t PTP_UNCERTAIN 0).
Proof.
  unfold receipt_timeouts. rewrite (bool_decide_eq_false_2 (PTP_UNCERTAIN = PTP_SLAVE)) by done. cbn [whenM].
  keeps_auto; try (by apply due_upd_port); try (apply keeps_modify; intros s; split; try done; intros p E; by exists p).
  apply due_upd_port. intros p _. apply just_due.
Qed.

(** What has been sent stays. *)
Definition sent_more (s s' : gptp) : Prop := exists l, gptp_out s' = gptp_out s ++ l.
#[local] Instance sent_more_preorder : PreOrder sent_more.
Proof.
  split; [intros s; exists []; by rewrite app_nil_r|]. intros s1 s2 s3 [l1 E1] [l2 E2]. exists (l1 ++ l2). by rewrite E2, E1, app_assoc.
Qed.
Lemma more_modify f : (forall s, gptp_out (f s) = gptp_out s) -> keeps sent_more (modify f).
Proof. intros Hf. apply keeps_modify. intros s. exists []. by rewrite Hf, app_nil_r. Qed.
Lemma more_upd_port i g : keeps sent_more (upd_port i g).
Proof.
  apply keeps_store. intros s s' E. destruct (ports s !! i); [|done]. cbn in E. simplify_eq. exists []. by rewrite app_nil_r.
Qed.
Lemma more_get_port i : keeps sent_more (get_port i).
Proof. unfold get_port. auto with keeps. Qed.
#[local] Hint Resolve more_upd_port more_get_port : keeps.
Lemma more_set_new_role t r i : keeps sent_more (set_new_role t r i).
Proof. unfold set_new_role, has_role, upd_info, upd_delay. keeps_auto; by apply more_modify. Qed.
#[local] Hint Resolve more_set_new_role : keeps.
Lemma more_req_reset t i : keeps sent_more (pdelay_req_reset t i).
Proof. unfold pdelay_req_reset, reset_ascapable, upd_delay, upd_info. keeps_auto. Qed.
Lemma more_send_req e i : keeps sent_more (send_ptp_pdelay_req_msg e i).
Proof.
  unfold send_ptp_pdelay_req_msg, ptp_tx_timed, ptp_tx. keeps_auto.
  all: apply keeps_modify; intros s; by eexists.
Qed.
#[local] Hint Resolve more_req_reset more_send_req : keeps.

(** The timer of an uncertain port. *)
Lemma uncertain_announces env t s s' p :
  gptp_ok s -> ports s = [p] -> asCapable (port_info p) = true -> role_state (port_info p) = PTP_UNCERTAIN ->
  announcement_due t p = true -> gptp_serve (PtpTimer t env) s = Some (tt, s') ->
  exists ev l, gptp_out s' = gptp_out s ++ ev :: l /\ announces (my_port_id s) ev.
Proof using Hone.
  intros Hs E Hc Hr Hd. cbn [gptp_serve]. unfold ptp_periodic. rewrite Hone. cbn [seq forM]. unfold ptp_periodic_port.
  intros ([] & s1 & E1 & E2)%M_bind_Some. apply M_bind_Some in E1 as ([] & s2 & E1 & E3).
  assert (sent_more s2 s') as H2.
  { transitivity s1; [injection E3 as <-; reflexivity|]. by eapply more_modify, E2. }
  clear E2 E3. rewrite (M_bind_run _ _ _ _ _ (get_port_run _ _ E)) in E1. rewrite Hc, Hr in E1.
  apply M_bind_Some in E1 as (b & s3 & F1 & E1). apply due_sending with (t := t) in F1. apply M_bind_Some in E1 as ([] & s4 & F2 & E1).
  apply due_timeouts in F2. destruct (transitivity F1 F2) as [D1 D2 D3 D4 D5 D6]. destruct (D6 p E) as (p4 & E4 & Hd4).
  specialize (Hd4 Hd). clear F1 F2 D6 s3. rewrite (M_bind_run _ _ _ _ _ (get_port_run _ _ E4)) in E1.
  unfold announcement_due in Hd4. rewrite Hd4, (bool_decide_eq_true_2 (_ \/ _)) in E1 by (by right).
  rewrite (bool_decide_eq_false_2 (PTP_UNCERTAIN = PTP_MASTER)) in E1 by done. cbn [andb whenM] in E1.
  destruct (ok_port s Hs) as (q & Eq & [_ Hown]). rewrite E in Eq. injection Eq as <-. rewrite Hr in Hown. specialize (Hown ltac:(done)).
  assert (own_message s4) as Hown4 by (unfold own_message; by rewrite D1, D2, D3).
  pose proof (ok_identity_length s Hs) as Hid.
  erewrite M_bind_run in E1
    by (erewrite M_bind_run by (apply send_announce_run; [done|exact E4|by apply own_message_steps; rewrite ?D2]); by apply upd_port_run).
  set (f := announce_frame p4 s4) in *.
  match type of E1 with _ ?s5 = _ => assert (sent_more s5 s2) as [l El] end.
  { revert E1. match goal with |- ?m ?s5 = _ -> _ => enough (keeps sent_more m) as Hm by apply Hm end. keeps_auto. }
  destruct H2 as [l2 El2]. exists (PtpTx 0 (f ++ replicate (64 - length f) 0)), (l ++ l2). split.
  - rewrite El2, El. cbn [gptp_out sent upd_gptp_out upd_ports announced upd_steps_removed_from_gm]. by rewrite D5, <- !app_assoc.
  - rewrite <- D2. apply announce_frame_announces; [rewrite D4; apply Hs|by rewrite D2|done].
Qed.

(** C30: a port that has lost its master (it is uncertain, and capable), on a device with one
    port: whatever it receives and however long it waits, it sends neither Sync nor
    Follow_Up, and does not become a master, as long as it finds no better master and its
    neighbour remains reachable; and whenever the timer is served and the announcement
    period has passed, it announces itself as the grandmaster. *)
Theorem uncertain_port_sends_no_time s p l s' :
  gptp_reachable s -> ports s = [p] -> asCapable (port_info p) = true -> role_state (port_info p) = PTP_UNCERTAIN ->
  waiting s l s' ->
  Forall carries_no_time (drop (length (gptp_out s)) (gptp_out s')) /\
  exists p', ports s' = [p'] /\ role_state (port_info p') = PTP_UNCERTAIN /\
    forall env t, announcement_due t p' = true ->
    exists s2 ev l2, gptp_serve (PtpTimer t env) s' = Some (tt, s2) /\
      gptp_out s2 = gptp_out s' ++ ev :: l2 /\ announces (my_port_id s') ev.
Proof using Hone.
  intros Hreach E Hc Hr Hw. set (n := length (gptp_out s)).
  assert (gptp_ok s') as Hok.
  { apply (gptp_reachable_ok Hone). induction Hw as [|l i s1 s2 _ IH Hi Er _]; [done|]. by apply (gptp_steps i s1). }
  assert (lingers n s' /\ waits s') as [Hl (p' & E' & Hc' & _)].
  { clear Hok. induction Hw as [|l i s1 s2 _ [IH1 IH2] Hi Er Hw]; [|split; [by eapply serve_lingers|done]]. split.
    - split; [by exists p|by apply (gptp_reachable_ok Hone)|]. unfold n. by rewrite drop_all.
    - exists p. rewrite Hr. by split_and!. }
  split; [apply Hl|]. assert (role_state (port_info p') = PTP_UNCERTAIN) as Hr' by (by eapply lingers_role).
  exists p'. split_and!; [done|done|]. intros env t Hd.
  destruct (served_serve Hone (PtpTimer t env) I s' Hok) as ([] & s2 & E2 & _).
  destruct (uncertain_announces env t s' s2 p' Hok E' Hc' Hr' Hd E2) as (ev & l2 & Eo & Ha). by exists s2, ev, l2.
Qed.
End OnePort.

Section TwoPorts.
Context `{cfg : GptpConfig} (Htwo : PTP_NUM_PORTS = 2%nat).

Lemma first_becomes_slave t p0 p1 s :
  ports s = [p0; p1] ->
  exists s' p0', set_new_role t PTP_SLAVE 0 s = Some (tt, s') /\ best_announce_msg s' = best_announce_msg s /\
    ports s' = [p0'; p1] /\ role_state (port_info p0') = PTP_SLAVE.
Proof using Htwo.
  destruct s. cbn. intros ->. unfold set_new_role. rewrite Htwo. eexists _, _. split; [reflexivity|]. by split_and!.
Qed.

Lemma second_becomes_master t p0 p1 s :
  ports s = [p0; p1] -> role_state (port_info p0) = PTP_SLAVE ->
  exists s' p1', set_new_role t PTP_MASTER 1 s = Some (tt, s') /\ best_announce_msg s' = best_announce_msg s /\
    ports s' = [p0; p1'] /\ role_state (port_info p1') = PTP_MASTER.
Proof using Htwo.
  intros E Hr. assert (forall q s1, ports s1 = [p0; q] -> has_role PTP_MASTER (other_port 1) s1 = Some (false, s1)) as Hother.
  { intros q s1 E1. unfold has_role, get_port, load. change (other_port 1) with 0%nat. erewrite M_bind_run by (rewrite E1; reflexivity).
    by rewrite Hr. }
  unfold set_new_role. rewrite Htwo. cbn [bool_decide decide_rel decide Nat.eqb].
  destruct s. cbn in E. subst. eexists _, _. split; [|split; [|split]].
  - do 3 erewrite M_bind_run by reflexivity. erewrite M_bind_run by (eapply Hother; reflexivity). rewrite andb_false_r. reflexivity.
  - reflexivity.
  - reflexivity.
  - reflexivity.
Qed.

(** The slave's port is the first one, the master's the second. *)
Record relays (announce : list Z) (s : gptp) : Prop := {
  re_ports : exists p0 p1, ports s = [p0; p1] /\ role_state (port_info p0) = PTP_SLAVE /\ role_state (port_info p1) = PTP_MASTER;
  re_best : best_announce_msg s = announce;
}.

Lemma better_heard env msg s p0 p1 :
  ports s = [p0; p1] -> let announce := field sizeof_ComMessageHdr sizeof_AnnounceMessage msg in
  0 < bmca_new_best announce (best_announce_msg s) (my_port_id s) ->
  exists s', bmca_update_roles env msg 0 s = Some (tt, s') /\ relays announce s'.
Proof using Htwo.
  intros E announce Hb. unfold bmca_update_roles. erewrite M_bind_run by reflexivity. cbv zeta. fold announce.
  rewrite (proj2 (Z.ltb_lt _ _) Hb). do 2 erewrite M_bind_run by reflexivity.
  edestruct (first_becomes_slave (ge_time env 0) p0 p1) as (s1 & q0 & E1 & B1 & P1 & R0); [|rewrite (M_bind_run _ _ _ _ _ E1)]; [exact E|].
  rewrite Htwo. cbn [Nat.eqb whenM]. change (other_port 0) with 1%nat.
  destruct (second_becomes_master (ge_time env 1) q0 p1 s1 P1 R0) as (s2 & q1 & E2 & B2 & P2 & R1). rewrite (M_bind_run _ _ _ _ _ E2).
  assert (forall g, upd_port 0 g s2 = Some (tt, upd_ports (fun _ => [g q0; q1]) s2)) as Hu.
  { intros g. unfold upd_port, store. rewrite P2. cbn. unfold upd_ports. by rewrite P2. }
  rewrite (M_bind_run _ _ _ _ _ (Hu _)). eexists. split; [reflexivity|]. split; [by eexists _, _|].
  change (best_announce_msg s2 = announce). by rewrite B2, B1.
Qed.

Lemma relayed_announce announce s :
  relays announce s -> 0 <= ntoh16_at off_stepsRemoved announce < 255 ->
  send_ptp_announce_msg 1 s = None <-> Z.of_nat PTP_MAXIMUM_PATH_TRACE_TLV <= ntoh16_at off_stepsRemoved announce + 1.
Proof using Htwo.
  intros [(p0 & p1 & E & R0 & R1) Hb] Hsteps. set (steps := ntoh16_at _ _) in *. unfold send_ptp_announce_msg.
  assert (upd_port 1 (upd_announce_seq_id (fun n => u16 (n + 1))) s =
    Some (tt, upd_ports (fun _ => [p0; upd_announce_seq_id (fun n => u16 (n + 1)) p1]) s)) as Hu.
  { unfold upd_port, store. rewrite E. cbn. unfold upd_ports. by rewrite E. }
  rewrite (M_bind_run _ _ _ _ _ Hu). erewrite M_bind_run by reflexivity. erewrite M_bind_run by reflexivity. rewrite Htwo. cbn [Nat.eqb].
  set (s1 := upd_steps_removed_from_gm _ _). assert (steps_removed_from_gm s1 = steps) as Hs1 by (unfold steps; by rewrite <- Hb).
  assert ((a ← has_role PTP_MASTER 0; b ← has_role PTP_MASTER 1; mret (xorb a b)) s1 = Some (true, s1)) as Hx.
  { unfold has_role, get_port, load, s1. erewrite M_bind_run by (erewrite M_bind_run by reflexivity; reflexivity).
    erewrite M_bind_run by (erewrite M_bind_run by reflexivity; reflexivity). cbn [port_info upd_announce_seq_id]. by rewrite R0, R1. }
  rewrite (M_bind_run _ _ _ _ _ Hx). cbn [whenM]. do 2 erewrite M_bind_run by reflexivity. cbv zeta.
  cbn [steps_removed_from_gm upd_steps_removed_from_gm]. rewrite Hs1, u16_small by lia.
  destruct (Z.leb_spec (Z.of_nat PTP_MAXIMUM_PATH_TRACE_TLV) (steps + 1)); [done|]. split; [done|lia].
Qed.

(** C31: a device with two ports takes over a better clock from the announcement of a neighbour, whose
    path may have up to 254 steps, and announces it on its other port; but the array for the path
    has eight places: after an announcement of seven steps or more - and no other - this
    overruns it. *)
Theorem long_path_overruns env msg ts s p0 p1 :
  ports s = [p0; p1] -> qualify_announce (my_port_id s) msg (body_of msg) = true ->
  let announce := field sizeof_ComMessageHdr sizeof_AnnounceMessage msg in
  0 < bmca_new_best announce (best_announce_msg s) (my_port_id s) ->
  exists s', recv_announce env msg ts 0 s = Some (tt, s') /\
    (send_ptp_announce_msg 1 s' = None <-> 7 <= ntoh16_at off_stepsRemoved announce).
Proof using Htwo.
  intros E Hq announce Hb. unfold recv_announce. erewrite M_bind_run by reflexivity. cbv zeta. rewrite Hq. cbn [whenM].
  destruct (better_heard env msg s p0 p1 E Hb) as (s1 & E1 & H1). rewrite (M_bind_run _ _ _ _ _ E1).
  assert (0 <= ntoh16_at off_stepsRemoved announce < 255) as Hsteps.
  { split; [apply u16_range|]. change announce with (field 0 98 (body_of msg)). rewrite ntoh16_field by (unfold off_stepsRemoved; lia).
    unfold qualify_announce in Hq. destruct (bytes_equal _ _); [done|]. destruct (Z.leb_spec 255 (ntoh16_at off_stepsRemoved (body_of msg))); [done|lia]. }
  enough (exists s2, (slave ← has_role PTP_SLAVE 0; s ← gets (fun s => s);
    whenM (slave && bytes_equal (field off_sourcePortIdentity 10 msg) (master_port_id s) &&
           bytes_equal (clockIdentity_of (best_announce_msg s)) (clockIdentity_of (body_of msg)))
      (_ ← upd_port 0 (upd_last_received_announce_time_valid (fun _ => true));
       upd_port 0 (upd_last_received_announce_time (fun _ => ts)))) s1 = Some (tt, s2) /\ relays announce s2) as (s2 & E2 & H2).
  { exists s2. split; [exact E2|]. rewrite (relayed_announce announce s2 H2 Hsteps). change (Z.of_nat PTP_MAXIMUM_PATH_TRACE_TLV) with 8. lia. }
  destruct H1 as [(q0 & q1 & P1 & R0 & R1) B1].
  erewrite M_bind_run by (unfold has_role, get_port, load; erewrite M_bind_run by (rewrite P1; reflexivity); reflexivity).
  erewrite M_bind_run by reflexivity. destruct (_ && _); cbn [whenM]; [|exists s1; split; [done|by split; [eexists _, _|]]].
  assert (forall g q s3, ports s3 = [q; q1] -> upd_port 0 g s3 = Some (tt, upd_ports (fun _ => [g q; q1]) s3)) as Hu.
  { intros g q s3 P3. unfold upd_port, store. rewrite P3. cbn. unfold upd_ports. by rewrite P3. }
  rewrite (M_bind_run _ _ _ _ _ (Hu _ _ _ P1)). erewrite Hu by reflexivity. eexists. split; [reflexivity|]. by split; [eexists _, _|].
Qed.
End TwoPorts.
