(* ===== verification/GptpSample.v ===== *)
(** Two devices on a link: they measure the delay to each other, one of them announces itself,
    and falls silent. *)
From S2P Require Import Prelude Bytes MiscTimer PtpTime GptpTypes Gptp GptpSafe GptpRoles GptpFaults GptpDelay GptpSync.
From stdpp Require Import base list list_numbers numbers option.
From Stdlib Require Import ZArith Lia.
#[local] Open Scope Z_scope.

(** The defaults of [gptp_config.h], for one port. *)
Definition one_port : GptpConfig :=
  {| PTP_NUM_PORTS := 1; PTP_DEFAULT_GM_CAPABLE_PRIORITY1 := 250; PTP_THROW_AWAY_SYNC_OUTLIERS := false |}.
#[local] Existing Instance one_port.
Lemma has_one_port : PTP_NUM_PORTS = 1%nat.
Proof. reflexivity. Qed.

Definition at_time (t : Z) : gptp_env := MkGptpEnv (fun _ => t) (fun _ => t).

(** The state after an input. *)
Definition after (i : gptp_input) (s : gptp) : gptp :=
  match gptp_serve i s with Some (_, s') => s' | None => s end.
Definition arriving (f : list Z) (t reply : Z) : gptp_input := PtpPacket (f ++ replicate MAX_PTP_MESG_LENGTH 0) t 0 (at_time reply).
Definition tick (t : Z) : gptp_input := PtpTimer t (at_time t).
Definition new_frames (s s' : gptp) : list (list Z) :=
  (fun e => match e with PtpTx _ f => f end) <$> drop (length (gptp_out s)) (gptp_out s').

Lemma after_input_reachable i s : gptp_input_ok i -> gptp_reachable s -> gptp_reachable (after i s).
Proof.
  intros Hi Hs. unfold after. destruct (gptp_serve i s) as [[[] s']|] eqn:E; [|done]. by eapply gptp_steps.
Qed.
Lemma after_run i s : (if gptp_serve i s is Some _ then true else false) = true -> gptp_serve i s = Some (tt, after i s).
Proof. unfold after. by destruct (gptp_serve i s) as [[[] s']|]. Qed.
Lemma arriving_ok f t reply : gptp_input_ok (arriving f t reply).
Proof. split; [done|]. rewrite length_app, length_replicate. lia. Qed.

Definition booted (gm : bool) (mac : list Z) : gptp :=
  match ptp_init (fun _ => at_time 5) 5 None gm mac zero_gptp with Some (_, s) => s | None => zero_gptp end.
Lemma booted_reachable gm mac : length mac = 6%nat -> gptp_reachable (booted gm mac).
Proof.
  intros Hm. unfold booted. destruct (init_run has_one_port (fun _ => at_time 5) 5 None gm mac Hm) as (s & E & _). rewrite E.
  by eapply gptp_boots.
Qed.

(** One measurement: the last frame the requester sends is the request; it takes 200 ns each way. *)
Definition measure (t : Z) (requester responder : gptp) : gptp * gptp :=
  let r1 := after (tick t) requester in
  let req := default [] (head (rev (new_frames requester r1))) in
  let p1 := after (arriving req (t + 20) (t + 520)) responder in
  (foldl (fun s f => after (arriving f (t + 540) (t + 540)) s) r1 (new_frames responder p1), p1).

Lemma measure_reachable t a b : gptp_reachable a -> gptp_reachable b ->
  gptp_reachable (measure t a b).1 /\ gptp_reachable (measure t a b).2.
Proof.
  intros Ha Hb. unfold measure. cbn [fst snd]. split; [|by apply after_input_reachable; [apply arriving_ok|]].
  generalize (new_frames b (after (arriving (default [] (head (rev (new_frames a (after (tick t) a))))) (t + 20) (t + 520)) b)). intros fs.
  assert (gptp_reachable (after (tick t) a)) as H by (by apply after_input_reachable). revert H. generalize (after (tick t) a).
  induction fs as [|f fs IH]; intros s H; cbn [foldl]; [done|]. apply IH, after_input_reachable; [apply arriving_ok|done].
Qed.

Definition second : Z := 100000000.
Definition two_ways (t : Z) (ab : gptp * gptp) : gptp * gptp :=
  let '(a, b) := measure t ab.1 ab.2 in let '(b, a) := measure (t + 10000) b a in (a, b).
Definition both_reachable (ab : gptp * gptp) : Prop := gptp_reachable ab.1 /\ gptp_reachable ab.2.
Lemma two_ways_reachable t ab : both_reachable ab -> both_reachable (two_ways t ab).
Proof.
  intros [Ha Hb]. unfold two_ways. destruct (measure_reachable t ab.1 ab.2 Ha Hb) as [H1 H2]. destruct (measure t ab.1 ab.2) as [a b].
  cbn [fst snd] in H1, H2. destruct (measure_reachable (t + 10000) b a H2 H1) as [H3 H4]. by destruct (measure (t + 10000) b a) as [b' a'].
Qed.

(** The devices when both ports have become capable. *)
Definition devices : gptp * gptp :=
  two_ways (2 * second + 20) (two_ways (second + 10) (booted true [2; 0; 0; 0; 0; 1], booted false [2; 0; 0; 0; 0; 2])).
Lemma devices_reachable : both_reachable devices.
Proof.
  unfold devices. apply two_ways_reachable, two_ways_reachable.
  split; [by apply (booted_reachable true)|by apply (booted_reachable false)].
Qed.

Definition port_of (s : gptp) : port_vars := default zero_port (head (ports s)).
Example devices_measured :
  (fun s => (pdelay (delay_info (port_info (port_of s))), asCapable (port_info (port_of s)), role_state (port_info (port_of s))))
    <$> [devices.1; devices.2] = [(200, true, PTP_MASTER); (200, true, PTP_MASTER)].
Proof. vm_compute. reflexivity. Qed.

Lemma port_of_run s : length (ports s) = 1%nat -> ports s = [port_of s].
Proof. unfold port_of. by destruct (ports s) as [|p [|]]. Qed.

Lemma device_contender s : gptp_reachable s -> length (ports s) = 1%nat ->
  bool_decide (Forall byte_ok (own_vector (ptp_priority1 s) (my_port_id s))) && asCapable (port_info (port_of s)) &&
    bool_decide (role_state (port_info (port_of s)) <> PTP_SLAVE) = true -> contender s (port_of s).
Proof.
  rewrite !andb_true_iff, !bool_decide_eq_true. intros Hs Hl [[H1 H2] H3].
  split; [by apply (gptp_reachable_ok has_one_port)|by apply port_of_run|done..].
Qed.

(** ** Witnesses *)

Lemma gptp_input_served_witness :
  gptp_reachable devices.1 /\ exists s', gptp_serve (arriving (replicate 60 0xff) 7 8) devices.1 = Some (tt, s') /\ gptp_reachable s'.
Proof.
  split; [apply devices_reachable|].
  exact (proj1 (gptp_input_served has_one_port _ _ (proj1 devices_reachable) (arriving_ok (replicate 60 0xff) 7 8))).
Defined.

Lemma best_master_is_least_witness :
  clock_vector (best_announce_msg devices.1) < clock_vector (best_announce_msg devices.2) /\
  bmca_new_best (best_announce_msg devices.1) (best_announce_msg devices.2) (my_port_id devices.2) = 1.
Proof.
  split; [vm_compute; reflexivity|].
  rewrite (best_master_is_least (best_announce_msg devices.1) (best_announce_msg devices.2) (my_port_id devices.2)).
  - vm_compute. reflexivity.
  - split; [vm_compute; reflexivity|]. apply (bool_decide_eq_true_1 _). vm_compute. reflexivity.
  - split; [vm_compute; reflexivity|]. apply (bool_decide_eq_true_1 _). vm_compute. reflexivity.
  - apply (bool_decide_eq_true_1 _). vm_compute. reflexivity.
  - vm_compute. reflexivity.
Defined.

Lemma one_master_elected_witness :
  (own_clock devices.1 <? own_clock devices.2) = true /\
  exists fA A1, send_ptp_announce_msg 0 devices.1 = Some (tt, A1) /\ gptp_out A1 = gptp_out devices.1 ++ [PtpTx 0 fA].
Proof.
  split; [vm_compute; reflexivity|].
  destruct (one_master_elected has_one_port devices.1 (port_of devices.1) devices.2 (port_of devices.2)) as (fA & A1 & _ & _ & H1 & H2 & _).
  - apply device_contender; [apply devices_reachable|vm_compute; reflexivity..].
  - apply device_contender; [apply devices_reachable|vm_compute; reflexivity..].
  - refine (bool_decide_eq_true_1 (my_port_id devices.1 <> my_port_id devices.2) _). vm_compute. reflexivity.
  - exists fA, A1. split; [exact H1|exact H2].
Defined.

(** The second device follows the first one's announcement, and then hears nothing any more. *)
Definition following : gptp :=
  let '(a, b) := devices in
  let a1 := after (tick (5 * second)) a in
  after (arriving (default [] (head (new_frames a a1))) (5 * second + 20) 0) b.
Definition lost : gptp := after (tick (9 * second)) following.
Example following_then_lost :
  (fun s => (asCapable (port_info (port_of s)), role_state (port_info (port_of s)))) <$> [following; lost] =
    [(true, PTP_SLAVE); (true, PTP_UNCERTAIN)].
Proof. vm_compute. reflexivity. Qed.

Lemma lost_reachable : gptp_reachable lost.
Proof.
  unfold lost, following. apply after_input_reachable; [done|]. destruct devices_reachable as [Ha Hb]. destruct devices as [a b].
  apply after_input_reachable; [apply arriving_ok|exact Hb].
Qed.

(** It announces itself, and no more. *)
Example lost_announces :
  (fun f => message_type f) <$> new_frames lost (after (tick (11 * second)) lost) = [PTP_ANNOUNCE_MESG; PTP_PDELAY_REQ_MESG].
Proof. vm_compute. reflexivity. Qed.

Lemma uncertain_port_sends_no_time_witness :
  Forall carries_no_time (drop (length (gptp_out lost)) (gptp_out (after (tick (11 * second)) lost))).
Proof.
  refine (proj1 (uncertain_port_sends_no_time has_one_port lost (port_of lost) [tick (11 * second)] _ lost_reachable _ _ _ _)).
  - apply port_of_run. vm_compute. reflexivity.
  - vm_compute. reflexivity.
  - vm_compute. reflexivity.
  - apply (waiting_goes_on lost []) with lost.
    + constructor.
    + done.
    + apply after_run. vm_compute. reflexivity.
    + exists (port_of (after (tick (11 * second)) lost)). split_and!.
      * apply port_of_run. vm_compute. reflexivity.
      * vm_compute. reflexivity.
      * refine (bool_decide_eq_true_1 (role_state (port_info (port_of (after (tick (11 * second)) lost))) <> PTP_SLAVE) _).
        vm_compute. reflexivity.
Defined.

(** The first measurement between two devices that have just been booted: 200 ns. *)
Definition first_device : gptp := booted true [2; 0; 0; 0; 0; 1].
Definition second_device : gptp := booted false [2; 0; 0; 0; 0; 2].

Lemma path_delay_measured_witness :
  measurable first_device (port_of first_device) second_device (port_of second_device) /\
  exists f A1, send_ptp_pdelay_req_msg second 0 first_device = Some (tt, A1) /\ gptp_out A1 = gptp_out first_device ++ [PtpTx 0 f].
Proof.
  assert (measurable first_device (port_of first_device) second_device (port_of second_device)) as H.
  { split; [apply (gptp_reachable_ok has_one_port), booted_reachable; reflexivity|apply (gptp_reachable_ok has_one_port), booted_reachable; reflexivity|
      apply port_of_run; vm_compute; reflexivity|apply port_of_run; vm_compute; reflexivity|vm_compute; reflexivity|vm_compute; reflexivity|].
    assert (pdelay_epoch_timer second_device = 5) as -> by (vm_compute; reflexivity). lia. }
  split; [exact H|].
  destruct (path_delay_measured has_one_port _ _ _ _ second (second + 20) 20 500 H) as (f & A1 & E1 & E2 & _); [lia..|].
  exists f, A1. split; [exact E1|exact E2].
Defined.

(** A master whose clock is 40 ppm fast, an eighth of a second after the slave's first Sync. *)
Definition first_clock : ptp_clock :=
  upd_prev_adjust_valid (fun _ => true) (upd_prev_adjust_master_ts (fun _ => MkTimestamp 10 0 500) (upd_prev_adjust_local_ts (fun _ => 4294967000)
    (clock first_device))).
Lemma first_rate_close_witness :
  two_syncs first_clock (MkTimestamp 10 0 125005500) 12500000 125005000 /\
  exists c', update_adjust (MkTimestamp 10 0 125005500) (u32 (4294967000 + 12500000)) first_clock = (false, c') /\
    g_ptp_adjust_valid c' = true.
Proof.
  assert (two_syncs first_clock (MkTimestamp 10 0 125005500) 12500000 125005000) as H.
  { split; [reflexivity|split; (split; vm_compute; split; congruence)|vm_compute; reflexivity|lia|cbn; lia|lia]. }
  split; [exact H|].
  destruct (first_rate_close first_clock (MkTimestamp 10 0 125005500) 12500000 125005000 4294967000 H) as (c' & E1 & E2 & _);
    [vm_compute; reflexivity|vm_compute; reflexivity|]. exists c'. split; [exact E1|exact E2].
Defined.


(** A device with two ports hears of a better clock, seven steps away. *)
Definition two_ports : GptpConfig :=
  {| PTP_NUM_PORTS := 2; PTP_DEFAULT_GM_CAPABLE_PRIORITY1 := 250; PTP_THROW_AWAY_SYNC_OUTLIERS := false |}.
Definition bridge : gptp :=
  match @ptp_init two_ports (fun _ => at_time 5) 5 None true [2; 0; 0; 0; 0; 1] (@zero_gptp two_ports) with Some (_, s) => s | None => @zero_gptp two_ports end.
Definition distant_announce : list Z :=
  com_header PTP_ANNOUNCE_MESG 76 0 0 announce_flags no_correction (port_identity [2; 0; 0; 0xff; 0xfe; 0; 0; 2] 0) [0; 1] PTP_CTL_FIELD_OTHERS 0 ++
  replicate 13 0 ++ [1] ++ replicate 13 0 ++ [0; 7] ++ replicate 69 0.

Lemma long_path_overruns_witness :
  exists s', @recv_announce two_ports (at_time 0) distant_announce 7 0 bridge = Some (tt, s') /\ @send_ptp_announce_msg two_ports 1 s' = None.
Proof.
  destruct (@long_path_overruns two_ports eq_refl (at_time 0) distant_announce 7 bridge (nth 0 (ports bridge) zero_port) (nth 1 (ports bridge) zero_port))
    as (s' & E1 & E2).
  - vm_compute. reflexivity.
  - vm_compute. reflexivity.
  - vm_compute. reflexivity.
  - exists s'. split; [exact E1|]. apply E2. vm_compute. congruence.
Defined.
